(* ===== verification/_CoqProject ===== *)
-Q . S2P
Prelude.v
Dlist.v
Pmm.v
Kmalloc.v
KmallocSpec.v
Heap.v
Paging.v
MmuSpec.v
SpaceSpec.v
DupSpec.v
Vmm.v
VmmSpec.v
ForkSpec.v
DirSpec.v
ForkAspace.v
DestroySpec.v
VmmProps.v
Vmalloc.v
VmallocSpec.v
AreaSpec.v
Klib.v
Terminal.v
TerminalSpec.v
Kprintf.v
Namei.v
NameiSpec.v
Sched.v
SchedSpec.v
Kernel.v
Vfs.v
Files.v
FilesSpec.v
FdSpec.v
Task.v
TaskSpec.v
FamilySpec.v
SchedTrace.v
ForkTask.v
RoundRobin.v
ReapSpec.v
CopySpec.v
ReaddirSpec.v
StringSpec.v
PathSpec.v
MkdirSpec.v
EnterSpec.v
Cpu.v
CpuSpec.v
Exec.v
ExecSpec.v
ReadSpec.v
RamfsSpec.v
Isr.v
CallSpec.v
IsrSpec.v
WaitSpec.v
ExitSpec.v
Boot.v
Umalloc.v
UmallocSpec.v
Uprintf.v
Format.v
Programs.v
ShellSpec.v
World.v
CatSpec.v
SessionSpec.v
