(* ===== verification/Prelude.v ===== *)
(** * POLX / TrytonOS: a verification library for the kernel and its programs

    The repository is an i386 kernel (paths below are under [src/src/]), a
    small C library and twelve user programs.  This library models the C
    code as executable definitions, one file per component, and proves what
    makes each component correct.  [x.c -> X.v, XSpec.v] reads: the
    operations of [x.c] are the definitions of the same names in [X.v]; the
    invariant, the lemmas and the properties are in [XSpec.v].

    ** The parts and how they interact

    - Generic.  [Prelude.v]: words, outcomes, the state monad [M] with its
      rules [wp], loops.  [Dlist.v]: what it means for a store to hold an
      intrusive doubly linked list, once for every list of the kernel (class
      [Linked]).  [Klib.v]: [strlen], [strcmp], [strncpy] and arrays.
    - Memory.  [kernel/memory/pmm.c -> Pmm.v] hands out frames.
      [kernel/klib/kmalloc.c], [kfree.c -> Kmalloc.v, KmallocSpec.v, Heap.v]
      is the kernel heap; all later components use it through the class
      [Allocator] of [Heap.v].  [kernel/arch/i386/paging.c,
      kernel/memory/vmm_misc.c -> Paging.v, MmuSpec.v, SpaceSpec.v, DupSpec.v,
      DirSpec.v] edits page tables through the recursive slots, on a machine
      that translates every access by the two-level walk.  [SpaceSpec.v] is
      the situation every system call runs in: the kernel's directory is
      loaded, and the program's lies beside it, reached through the external
      slot.
      [kernel/memory/vmm.c -> Vmm.v, VmmSpec.v, VmmProps.v] keeps the
      regions of an address space; [ForkSpec.v, ForkAspace.v] are its copy,
      [DestroySpec.v] its end, [CopySpec.v], [StringSpec.v] what goes from
      the kernel to a program and back.
      [kernel/klib/vmalloc.c], [vfree.c -> Vmalloc.v, VmallocSpec.v,
      AreaSpec.v] map whole pages for the kernel.
    - Console.  [dev/terminal/*.c, dev/keyboard/keyboard.c -> Terminal.v,
      TerminalSpec.v]; [kernel/klib/kprintf.c, panic.c -> Kprintf.v].
    - Files.  [kernel/vfs/namei.c -> Namei.v, NameiSpec.v] is the tree of
      nodes.  [ramfs.c, tarfs.c, devfs.c, dev_*.c, initrd.c, vfs.c -> Vfs.v,
      ReadSpec.v, RamfsSpec.v] are the drivers.  [fd.c, open.c, close.c,
      write.c, lseek.c, mkdir.c, rmdir.c, remove.c, readdir.c -> Files.v,
      FilesSpec.v, FdSpec.v, ReaddirSpec.v, PathSpec.v, MkdirSpec.v] are the
      calls.
    - Tasks.  [kernel/cpu/scheduler.c -> Sched.v, SchedSpec.v, SchedTrace.v];
      [task.c, exit.c, fork.c, waitpid.c, getpid.c, kernel/ipc/signal.c,
      dev_stdin.c, read.c, kernel/memory/brk.c, sbrk.c -> Task.v, TaskSpec.v,
      RoundRobin.v, FamilySpec.v, ForkTask.v, ReapSpec.v, EnterSpec.v];
      [execve.c, elf_loader.c, kernel/memory/mmap.c, munmap.c
      -> Exec.v, ExecSpec.v].
    - Entry.  [kernel/arch/i386/gdt.c, idt.c, irq.c, tss.c,
      dev/timer/timer.c -> Cpu.v, CpuSpec.v]; [isr.c -> Isr.v, CallSpec.v,
      IsrSpec.v], the handler every interrupt and system call goes through
      ([CallSpec.v] is what a call leaves of the registers); [WaitSpec.v,
      ExitSpec.v], the end of a task from the entry of its call on;
      [arch_init.c, main.c -> Boot.v].
    - User side.  [libc/stdlib/malloc.c, free.c -> Umalloc.v, UmallocSpec.v];
      [libc/stdio/printf.c, perror.c -> Uprintf.v, Format.v];
      [libc/stdio/readline.c, initrd/bin/*.c -> Programs.v, ShellSpec.v,
      CatSpec.v, SessionSpec.v], over the small kernel of [World.v].

    State.  Up to the scheduler each component has a state of its own
    ([pmm], [malloc_state], [machine], [vmm], [fsys], [sched], ...).
    [Kernel.v] puts them into one record and lifts the operations of each
    ([on_vm], [on_fs], ...); [Isr.v] adds the processor.  C objects live in
    stores (finite maps) indexed by their address: a pointer that is NULL,
    dangling or out of bounds is a [Fault], never a default value, and
    objects that share an address are shared in the model.  A routine that
    can end in [context_switch], which loads another task's registers and
    does not return, answers [Left ...] and what follows it is not run.

    Outcomes.  [Ok], [Panic] (the machine is halted by [panic]), [Fault]
    (undefined behaviour), [Hang] (the fuel of a loop ran out).  A theorem
    that says [= Ok ...] or uses [wp] says that the code returns.

    Directories.  [general_handler] of [isr.c] loads the kernel's page
    directory on every entry from user mode and the task's own just before it
    returns.  So the properties of what happens in between have the kernel's
    directory in CR3 and the program's as another one ([beside] of
    [SpaceSpec.v]): its pages are found through [pd] of its address space,
    what a program reads is read through that directory ([walk_dir],
    [user_bytes]), and [same_space] says that the kernel's work on it keeps
    its tables and translations.

    Fuel.  A loop over a list has one round more than the store has objects;
    a loop over a range or an array one more than its length; the search of
    [_find_free_area] one for every step of its size in the address space;
    [_itoa] the size of its buffer.  The fuel of these is inside the
    definition, and the properties show that it is enough.  Three bounds
    belong to the caller and are arguments: [n], the depth of nested task
    switches and exits; [rounds], the iterations of the loop of [write],
    which has no bound in the code; [blocks], the blocks of the archive.
    The properties hold for all of them, or ask for at least one level.

    Parameters.  What the C code reads without having written it is an
    argument and not a default: [raw...] (a block from the heap, a local
    variable), [al_bytes] of [Allocator] (the bytes of a fresh block used as
    a buffer), [stack_bytes], [itoa_buffer], [local_array] and [fresh_block]
    (arrays).  What the hardware answers: [port_in], [scancode], [cr2].  What
    the linker and the boot loader decide: [kernel_end], [kern_pd_vaddr],
    [kern_pd_paddr], [isr_vectors], the addresses of the tables.

    ** Interfaces

    [Linked] ([Dlist.v]) is met by regions, vmalloc descriptors, chunks,
    tree nodes and tasks.  [Allocator] ([Heap.v]) states what a
    caller relies on of [kmalloc] and [kfree], as insertion into and deletion
    from the map of blocks in use; it is met by the kernel's heap and, for
    programs, by the C library's ([UmallocSpec.v]).  [Sbrk] ([Umalloc.v]) is
    what the C library relies on of the system call.  [sysE] ([Programs.v])
    is the system call interface as a program sees it.

    ** What the properties show

    - The heap and the file tree refine a map of blocks and a tree of names
      ([kmalloc_refines_insert], [kfree_refines_delete],
      [path_resolution_refines]); a program that calls [mkdir] gets the
      directory its path names, or the stated error, and the copy of the path
      is released ([mkdir_call_creates]).
    - The scheduler implements three FIFO queues for every trace of events
      ([scheduler_refines_queues]) and time slices reach every task
      ([round_robin]).  [fork] makes a twin of the running task: the copied
      address space of [ForkAspace.v], a kernel stack from [AreaSpec.v], a
      place among the children ([FamilySpec.v]) and in a run queue
      ([fork_makes_twin]).  [waitpid] lets the child run, and when it exits
      its code is the answer and what it owned is released
      ([waitpid_returns_exit_code]; [ReapSpec.v] is the release).  A task
      that nobody waits for is released by its own exit, which then reads the
      released block ([exit_unwaited_departs]).  Enter puts the line into the
      buffer of the reader and wakes it ([enter_delivers_line]); a failed
      execve changes no task.
    - A system call served without a switch returns to its caller, for every
      call but fork and execve with the registers it was made with; every
      interrupt is acknowledged on the paths stated; exceptions halt the
      machine, and a stray access of a program ends it if it accepts the
      signal ([IsrSpec.v]); the descriptor tables decode
      to what was asked for ([CpuSpec.v]).
    - Frames and pages: allocation is total and complete ([Pmm.v]), mapping
      changes one translation ([Paging.v]), duplication copies a page, and
      forking an address space gives the child the parent's layout with
      private copies ([DupSpec.v], [ForkAspace.v]), destroying one releases
      everything but its frames ([DestroySpec.v]).  Data copied to a program
      is what the program reads, also across pages
      ([vmm_copy_data_to_copies]), and a path is what it wrote
      ([with_path_copies_string]).  Regions stay sorted and disjoint, the
      break grows as stated ([VmmProps.v]); [vmalloc] finds a hole exactly
      when there is one ([VmallocSpec.v]), and a page of the area can be taken
      and given back ([AreaSpec.v]).
    - Files: reads copy the file's bytes and nothing else, what ramfs stores
      it gives back ([ReadSpec.v], [RamfsSpec.v]); the tables of open files
      stay well typed under open, and under close of a file that no other
      task shares, with what happens otherwise ([FdSpec.v]); [lseek] stays in the
      file; a program that calls [readdir] to the end reads the directory
      ([readdir_lists_directory]).
    - Text: both printf routines print the rendering of their format
      ([Format.v]); numerals denote their number; printing stays on the
      screen.
    - Programs: the C library's heap agrees with the kernel's; the shell
      splits lines as a reference function says and serves a session as its
      transcript says; cat prints the file it is given; what rm reports of a
      failed call ([UmallocSpec.v] to [SessionSpec.v]).

    Where the code does not do what it means to do, the model does what the
    code does, and a lemma or a property exhibits it: among others a page
    table that is not cleared, frames leaked by unmapping, a temporary window
    that is not given back, two files closed newest first
    ([close_newest_first_faults]), the children that survive their parent,
    the terminator cat writes in front of its array.

    ** What is not modelled

    - Assembly ([bootstrap.s], [int_handler.s], the stubs of [libc/arch]):
      [context_switch] and [syscall_return] are modelled by their effect on
      the state, the stubs by the events of [sysE].
    - The TLB, caches and the timing of interrupts: [_INVLPG] and [cli]/[sti]
      have no effect, interrupts occur between the routines of [Isr.v].
    - The bytes of kernel objects other than page tables, buffers and program
      images: a block of the heap is its C structure in a store; the page of
      a block is mapped by the page fault handler where the loader uses it
      as a buffer ([touch] in [Exec.v]).

    ** Modelled without a property of their own

    The exit of a child whose parent is not the next to run (the wakeup is
    covered, the release is not); [mmap] and [munmap] of a file; that the kernel's calls answer as
    the world of [World.v] does is stated there and not derived from the
    kernel; the boot sequence is a definition whose parts have properties. *)

From Stdlib Require Export ZArith Lia.
From stdpp Require Export strings numbers base gmap list.

#[local] Open Scope Z_scope.

(** ** Machine words

    The kernel is compiled for i386: [uint32_t], [size_t] and [uintptr_t]
    are 32-bit unsigned, so a word is a [Z] in [0 .. 2^32) and every
    arithmetic operation is followed by [w32]. *)

Declare Scope word_scope.
Delimit Scope word_scope with word.

Abbreviation W32 := 4294967296.
Abbreviation UINT32_MAX := 4294967295.

Definition w32 (z : Z) : Z := z mod W32.

Notation "a +w b" := (w32 (a + b)) (at level 50, left associativity) : word_scope.
Notation "a -w b" := (w32 (a - b)) (at level 50, left associativity) : word_scope.
Notation "a *w b" := (w32 (a * b)) (at level 40, left associativity) : word_scope.
#[global] Open Scope word_scope.

(** A value a 32-bit unsigned variable can hold. *)
Definition word (z : Z) : Prop := 0 <= z < W32.

#[global] Instance word_dec z : Decision (word z).
Proof. unfold word. apply _. Defined.

Lemma w32_word z : word (w32 z).
Proof. unfold word, w32. apply Z.mod_pos_bound. lia. Qed.

Lemma w32_id z : word z -> w32 z = z.
Proof. intros H. apply Z.mod_small. exact H. Qed.

Lemma w32_small z : 0 <= z < W32 -> w32 z = z.
Proof. apply w32_id. Qed.

(** Subtraction that borrows: the C result is the mathematical one plus 2^32. *)
Lemma w32_borrow z : - W32 <= z < 0 -> w32 z = z + W32.
Proof.
  intros H. unfold w32. symmetry. apply Z.mod_unique_pos with (q := -1); lia.
Qed.

Create HintDb words.
#[export] Hint Resolve w32_word : words.
#[export] Hint Rewrite w32_small using lia : words.

(** [word_lia]: linear arithmetic over words; opens [w32] and turns quotients
    and remainders into their defining equations. *)
Ltac word_lia := unfold word, w32 in *; Z.div_mod_to_equations; lia.

(** [w32_simpl] removes the wrap-arounds that cannot happen. *)
Ltac w32_simpl :=
  repeat match goal with
  | |- context [w32 ?z] => rewrite (w32_small z) by lia
  | H : context [w32 ?z] |- _ => rewrite (w32_small z) in H by lia
  end.

(** ** Outcomes and the state monad

    A kernel routine either returns, halts the machine through [panic],
    runs into undefined behaviour (a NULL or dangling dereference, an
    out-of-bounds access), or does not return: [Hang] is the answer of a
    loop whose fuel ran out. *)

Inductive res (A : Type) : Type :=
| Ok (a : A)
| Panic (msg : string)
| Fault
| Hang.
Arguments Ok {_} _.
Arguments Panic {_} _.
Arguments Fault {_}.
Arguments Hang {_}.

Definition M (S A : Type) : Type := S -> res (A * S).

Definition ret_ {S A} (a : A) : M S A := fun s => Ok (a, s).

Definition bind_ {S A B} (m : M S A) (k : A -> M S B) : M S B := fun s =>
  match m s with
  | Ok (a, s') => k a s'
  | Panic e => Panic e
  | Fault => Fault
  | Hang => Hang
  end.

Definition panic {S A} (msg : string) : M S A := fun _ => Panic msg.
Arguments panic {_ _} msg%_string.
Definition fault {S A} : M S A := fun _ => Fault.
Definition hang {S A} : M S A := fun _ => Hang.
Definition get_ {S A} (f : S -> A) : M S A := fun s => Ok (f s, s).
Definition mod_ {S} (f : S -> S) : M S unit := fun s => Ok (tt, f s).
Definition lift_ {S A} (r : S -> res A) : M S A := fun s =>
  match r s with
  | Ok a => Ok (a, s)
  | Panic e => Panic e
  | Fault => Fault
  | Hang => Hang
  end.

(** A component's operation run on a part of a larger state. *)
Definition zoom {S T A} (get : S -> T) (put : T -> S -> S) (m : M T A) : M S A :=
  fun s => match m (get s) with
  | Ok (a, t) => Ok (a, put t s)
  | Panic e => Panic e
  | Fault => Fault
  | Hang => Hang
  end.

Declare Scope kernel_scope.
Delimit Scope kernel_scope with kernel.
Notation "'do' x <- m ; k" := (bind_ m (fun x => k))
  (at level 10, x name, m at level 100, k at level 200,
   format "'[v' 'do'  x  <-  m ; '/' k ']'") : kernel_scope.
Notation "'do' ' p <- m ; k" := (bind_ m (fun x => let p := x in k))
  (at level 10, p pattern, m at level 100, k at level 200) : kernel_scope.
Notation "m ;;; k" := (bind_ m (fun _ => k))
  (at level 199, right associativity) : kernel_scope.
Notation "'when' b 'then_' m" := (if b then m else ret_ tt)
  (at level 198, b at level 100, m at level 197) : kernel_scope.
#[global] Open Scope kernel_scope.

(** [while (true) body], at most [fuel] rounds: the body answers [inl] to go
    round again with a new loop state, [inr] to leave the loop. *)
Fixpoint loop {S A B} (fuel : nat) (body : A -> M S (A + B)) (a : A) : M S B :=
  match fuel with
  | O => hang
  | S n => do r <- body a;
           match r with
           | inl a' => loop n body a'
           | inr b => ret_ b
           end
  end.

(** [for (i = first; n rounds; i++) body]. *)
Fixpoint for_ {S} (n : nat) (i : Z) (body : Z -> M S unit) : M S unit :=
  match n with
  | O => ret_ tt
  | S n' => body i ;;; for_ n' (i + 1) body
  end.

(** ** Total correctness: [wp m Q s] says that [m] started in [s] returns,
    and that its result and final state satisfy [Q]. *)

Definition wp {S A} (m : M S A) (Q : A -> S -> Prop) (s : S) : Prop :=
  match m s with
  | Ok (a, s') => Q a s'
  | _ => False
  end.

Section wp_rules.
Context {S A B : Type}.

Lemma wp_ok (m : M S A) Q s :
  wp m Q s <-> exists a s', m s = Ok (a, s') /\ Q a s'.
Proof.
  unfold wp. split.
  - destruct (m s) as [[a s']| | |]; try done. eauto.
  - intros (a & s' & -> & H). exact H.
Qed.

Lemma wp_run (m : M S A) Q s : wp m Q s -> exists a s', m s = Ok (a, s') /\ Q a s'.
Proof. apply wp_ok. Qed.

Lemma wp_intro (m : M S A) Q s a s' : m s = Ok (a, s') -> Q a s' -> wp m Q s.
Proof. intros E HQ. unfold wp. rewrite E. exact HQ. Qed.

Lemma wp_mono (m : M S A) (P Q : A -> S -> Prop) s :
  wp m P s -> (forall a s', P a s' -> Q a s') -> wp m Q s.
Proof. unfold wp. destruct (m s) as [[a s']| | |]; auto. Qed.

Lemma wp_bind (m : M S A) (k : A -> M S B) Q s :
  wp m (fun a => wp (k a) Q) s -> wp (bind_ m k) Q s.
Proof. unfold wp, bind_. destruct (m s) as [[a s']| | |]; auto. Qed.

Lemma wp_bind_inv (m : M S A) (k : A -> M S B) Q s :
  wp (bind_ m k) Q s -> wp m (fun a => wp (k a) Q) s.
Proof. unfold wp, bind_. destruct (m s) as [[a s']| | |]; auto. Qed.

Lemma wp_ret (a : A) (Q : A -> S -> Prop) s : Q a s -> wp (ret_ a) Q s.
Proof. auto. Qed.

Lemma wp_get (f : S -> A) (Q : A -> S -> Prop) s : Q (f s) s -> wp (get_ f) Q s.
Proof. auto. Qed.

Lemma wp_mod (f : S -> S) (Q : unit -> S -> Prop) s : Q tt (f s) -> wp (mod_ f) Q s.
Proof. auto. Qed.

Lemma wp_lift (r : S -> res A) (Q : A -> S -> Prop) s a :
  r s = Ok a -> Q a s -> wp (lift_ r) Q s.
Proof. unfold wp, lift_. intros ->. auto. Qed.

Lemma wp_zoom {T} (get : S -> T) (put : T -> S -> S) (m : M T A) (Q : A -> S -> Prop) s :
  wp m (fun a t => Q a (put t s)) (get s) -> wp (zoom get put m) Q s.
Proof. unfold wp, zoom. destruct (m (get s)) as [[a t]| | |]; auto. Qed.
End wp_rules.

(** Equations that run a program one step at a time. *)
Section run_rules.
Context {S A B : Type}.

Lemma bind_ok (m : M S A) (k : A -> M S B) s a s' :
  m s = Ok (a, s') -> bind_ m k s = k a s'.
Proof. unfold bind_. intros ->. reflexivity. Qed.

Lemma bind_panic (m : M S A) (k : A -> M S B) s e :
  m s = Panic e -> bind_ m k s = Panic e.
Proof. unfold bind_. intros ->. reflexivity. Qed.

Lemma bind_inv (m : M S A) (k : A -> M S B) s r :
  bind_ m k s = Ok r -> exists a s', m s = Ok (a, s') /\ k a s' = Ok r.
Proof.
  unfold bind_. destruct (m s) as [[a s']| | |]; try done. eauto.
Qed.
End run_rules.

(** What a program that returns answers, and the state it leaves. *)
Definition after {S A} (d : A * S) (r : res (A * S)) : A * S := match r with Ok x => x | _ => d end.

(** [wpsteps] walks through straight-line code. *)
Ltac wpstep :=
  match goal with
  | |- wp (bind_ _ _) _ _ => apply wp_bind
  | |- wp (ret_ _) _ _ => apply wp_ret
  | |- wp (get_ _) _ _ => apply wp_get
  | |- wp (mod_ _) _ _ => apply wp_mod
  end.
Ltac wpsteps := repeat (wpstep; cbv beta; try (cbn [fst snd])).

(** A loop invariant with a variant that decreases on every round. *)
Lemma wp_loop {S A B} (body : A -> M S (A + B)) (I : A -> S -> Prop)
    (measure : A -> S -> nat) (Q : B -> S -> Prop) :
  (forall a s, I a s ->
     wp (body a) (fun r s' => match r with
                  | inl a' => I a' s' /\ (measure a' s' < measure a s)%nat
                  | inr b => Q b s'
                  end) s) ->
  forall fuel a s, I a s -> (measure a s < fuel)%nat -> wp (loop fuel body a) Q s.
Proof.
  intros Hbody fuel. induction fuel as [|n IH]; intros a s HI Hm; [lia|].
  cbn [loop]. apply wp_bind. eapply wp_mono; [apply (Hbody a s HI)|].
  intros [a'|b] s'; cbn.
  - intros [HI' Hlt]. apply IH; [done|lia].
  - intros HQ. exact HQ.
Qed.

(** What a loop answers, if it answers. *)
Lemma loop_answers {S A B} (body : A -> M S (A + B)) (I : A -> S -> Prop) (Q : B -> S -> Prop) :
  (forall a s x s', I a s -> body a s = Ok (x, s') -> match x with inl a' => I a' s' | inr b => Q b s' end) ->
  forall fuel a s r s', I a s -> loop fuel body a s = Ok (r, s') -> Q r s'.
Proof.
  intros Hbody fuel. induction fuel as [|n IH]; intros a s r s' HI E; cbn [loop] in E; [done|].
  apply bind_inv in E as ([a'|b] & s1 & E1 & E2); specialize (Hbody _ _ _ _ HI E1); cbn in Hbody.
  - eapply IH; [exact Hbody|exact E2].
  - by injection E2 as <- <-.
Qed.

(** A counted loop: the invariant is indexed by the loop variable. *)
Lemma wp_for {S} (body : Z -> M S unit) (I : Z -> S -> Prop) :
  forall n i s,
  (forall j s', i <= j < i + Z.of_nat n -> I j s' ->
     wp (body j) (fun _ s'' => I (j + 1) s'') s') ->
  I i s -> wp (for_ n i body) (fun _ s' => I (i + Z.of_nat n) s') s.
Proof.
  induction n as [|n IH]; intros i s Hbody HI; cbn [for_].
  - apply wp_ret. replace (i + Z.of_nat 0) with i by lia. exact HI.
  - apply wp_bind. eapply wp_mono; [apply Hbody; [lia|exact HI]|].
    intros [] s' HI'. replace (i + Z.of_nat (Datatypes.S n)) with (i + 1 + Z.of_nat n) by lia.
    apply IH; [|exact HI']. intros j s'' Hj. apply Hbody. lia.
Qed.

(** Membership goals over concatenations and conses. *)
Ltac in_tac :=
  rewrite ?elem_of_app, ?elem_of_cons, ?elem_of_nil in *;
  first [ tauto | naive_solver ].

Lemma NoDup_skip {A} (l1 l2 : list A) x : NoDup (l1 ++ x :: l2) -> x ∉ l1 ++ l2 /\ NoDup (l1 ++ l2).
Proof. rewrite <- Permutation_middle, NoDup_cons. done. Qed.

Lemma elem_of_skip {A} (l1 l2 : list A) x : NoDup (l1 ++ x :: l2) ->
  forall y, y ∈ l1 ++ l2 <-> y ∈ l1 ++ x :: l2 /\ y <> x.
Proof. intros [Hx _]%NoDup_skip y. rewrite <- Permutation_middle. set_solver. Qed.

(** ** Lists of pointers: the head and the last cell, 0 (NULL) when empty. *)

Definition hd0 (d : Z) (l : list Z) : Z := match l with [] => d | p :: _ => p end.

Fixpoint last0 (d : Z) (l : list Z) : Z :=
  match l with [] => d | p :: l' => last0 p l' end.

Lemma hd0_app d l1 l2 : hd0 d (l1 ++ l2) = hd0 (hd0 d l2) l1.
Proof. destruct l1; reflexivity. Qed.

Lemma last0_app d l1 l2 : last0 d (l1 ++ l2) = last0 (last0 d l1) l2.
Proof. revert d. induction l1; intros d; cbn; auto. Qed.

Lemma last0_snoc d l p : last0 d (l ++ [p]) = p.
Proof. rewrite last0_app. reflexivity. Qed.

Lemma last0_in d l : l <> [] -> last0 d l ∈ l.
Proof.
  revert d. induction l as [|p l IH]; intros d Hl; [done|]. cbn.
  destruct l as [|q l]; [in_tac|].
  apply elem_of_cons. right. apply IH. done.
Qed.

Lemma hd0_in d l : l <> [] -> hd0 d l ∈ l.
Proof. destruct l; [done|]. intros _. in_tac. Qed.

Create HintDb ptrs.
#[export] Hint Rewrite hd0_app last0_app last0_snoc : ptrs.
