(* ===== verification/Dlist.v ===== *)
(** * Linked lists in the kernel's memory

    The kernel threads its objects (VM regions, tasks, tree siblings, free
    chunks, file descriptors) on intrusive lists: a [prev] and a [next]
    field inside each object, NULL at both ends.  This file states, once
    for all of them, what it means for a store to hold such a list and what
    linking and unlinking one object does to it.  A component makes its
    record an instance of [Linked]; its C routines then only have to be
    shown to write the right two neighbours. *)

From S2P Require Import Prelude.

#[local] Open Scope Z_scope.

(** The two link fields of an object. *)
Class Linked (N : Type) := { l_prev : N -> Z; l_next : N -> Z }.

Section dlist.
Context {N : Type} `{!Linked N}.
Implicit Types (m : gmap Z N) (l : list Z) (p q : Z).

(** The links of the object at [p], when there is one. *)
Definition links m p : option (Z * Z) := (fun n => (l_prev n, l_next n)) <$> m !! p.

(** [dseg m pv l nx]: the objects [l], in this order, are chained both
    ways; the first one's [prev] is [pv], the last one's [next] is [nx]. *)
Fixpoint dseg m (pv : Z) l (nx : Z) : Prop :=
  match l with
  | [] => True
  | p :: l' => p <> 0 /\ links m p = Some (pv, hd0 nx l') /\ dseg m p l' nx
  end.

(** A whole list: NULL at both ends, no object twice. *)
Definition dlist m l : Prop := dseg m 0 l 0 /\ NoDup l.

(** Only the forward chain (what a traversal follows). *)
Fixpoint sseg m l (nx : Z) : Prop :=
  match l with
  | [] => True
  | p :: l' => p <> 0 /\ (exists n, m !! p = Some n /\ l_next n = hd0 nx l') /\ sseg m l' nx
  end.

Lemma links_insert m p n q :
  links (<[p := n]> m) q = if decide (p = q) then Some (l_prev n, l_next n) else links m q.
Proof. unfold links. rewrite lookup_insert. by case_decide. Qed.

Lemma links_some m p : is_Some (links m p) <-> is_Some (m !! p).
Proof. unfold links. rewrite fmap_is_Some. done. Qed.

Lemma links_lookup m p n : m !! p = Some n -> links m p = Some (l_prev n, l_next n).
Proof. unfold links. intros ->. reflexivity. Qed.

Lemma dseg_app m pv l1 l2 nx :
  dseg m pv (l1 ++ l2) nx <-> dseg m pv l1 (hd0 nx l2) /\ dseg m (last0 pv l1) l2 nx.
Proof.
  revert pv. induction l1 as [|p l1 IH]; intros pv; cbn [app dseg last0]; [tauto|].
  rewrite IH, hd0_app. tauto.
Qed.

Lemma dseg_nonzero m pv l nx p : dseg m pv l nx -> p ∈ l -> p <> 0.
Proof.
  revert pv. induction l as [|q l IH]; intros pv H Hin; [in_tac|].
  destruct H as (Hq & _ & H). apply elem_of_cons in Hin as [->|Hin]; eauto.
Qed.

Lemma dseg_lookup m pv l nx p : dseg m pv l nx -> p ∈ l -> is_Some (m !! p).
Proof.
  revert pv. induction l as [|q l IH]; intros pv H Hin; [in_tac|].
  destruct H as (_ & Hq & H). apply elem_of_cons in Hin as [->|Hin]; [|eauto].
  apply links_some. rewrite Hq. eauto.
Qed.

(** Only the links of the members matter. *)
Lemma dseg_frame m m' pv l nx :
  (forall p, p ∈ l -> links m' p = links m p) -> dseg m pv l nx -> dseg m' pv l nx.
Proof.
  revert pv. induction l as [|p l IH]; intros pv Hf H; [done|].
  destruct H as (Hp & Hl & H). cbn [dseg]. split_and!; [done| |].
  - rewrite Hf; [done|in_tac].
  - apply IH; [|done]. intros q Hq. apply Hf. in_tac.
Qed.

Lemma dseg_sseg m pv l nx : dseg m pv l nx -> sseg m l nx.
Proof.
  revert pv. induction l as [|p l IH]; intros pv H; [done|].
  destruct H as (Hp & Hl & H). cbn [sseg]. split_and!; [done| |eauto].
  unfold links in Hl. destruct (m !! p) as [n|] eqn:E; [|done].
  exists n. cbn in Hl. split; [done|congruence].
Qed.

Lemma sseg_app m l1 l2 nx : sseg m (l1 ++ l2) nx <-> sseg m l1 (hd0 nx l2) /\ sseg m l2 nx.
Proof.
  induction l1 as [|p l1 IH]; cbn [app sseg]; [tauto|]. rewrite IH, hd0_app. tauto.
Qed.

Lemma sseg_lookup m l nx p : sseg m l nx -> p ∈ l -> is_Some (m !! p).
Proof.
  induction l as [|q l IH]; intros H Hin; [in_tac|].
  destruct H as (_ & (n & Hq & _) & H). apply elem_of_cons in Hin as [->|Hin]; eauto.
Qed.

Lemma sseg_nonzero m l nx p : sseg m l nx -> p ∈ l -> p <> 0.
Proof.
  induction l as [|q l IH]; intros H Hin; [in_tac|].
  destruct H as (Hq & _ & H). apply elem_of_cons in Hin as [->|Hin]; eauto.
Qed.

Lemma sseg_frame m m' l nx :
  (forall p n, p ∈ l -> m !! p = Some n -> exists n', m' !! p = Some n' /\ l_next n' = l_next n) ->
  sseg m l nx -> sseg m' l nx.
Proof.
  induction l as [|p l IH]; intros Hf H; [done|].
  destruct H as (Hp & (n & Hn & Hx) & H). cbn [sseg]. split_and!; [done| |].
  - destruct (Hf p n) as (n' & Hn' & Hx'); [in_tac|done|]. exists n'. split; [done|congruence].
  - apply IH; [|done]. intros q k Hq. apply Hf. in_tac.
Qed.

(** A list never has more cells than the store has objects: this is the
    fuel of every traversal. *)
Lemma sseg_length m l nx : sseg m l nx -> NoDup l -> (length l <= size m)%nat.
Proof.
  intros H Hnd. rewrite <- (size_list_to_set (C := gset Z) l Hnd), <- (size_dom m).
  apply subseteq_size. intros p Hp. apply elem_of_list_to_set in Hp.
  apply elem_of_dom. by eapply sseg_lookup.
Qed.

Lemma dlist_length m l : dlist m l -> (length l <= size m)%nat.
Proof. intros [H Hnd]. eapply sseg_length; [by eapply dseg_sseg|done]. Qed.

Lemma dlist_split m l p : dlist m l -> p ∈ l ->
  exists l1 l2, l = l1 ++ p :: l2 /\ links m p = Some (last0 0 l1, hd0 0 l2).
Proof.
  intros [H _] Hp. apply list_elem_of_split in Hp as (l1 & l2 & ->).
  exists l1, l2. split; [done|]. apply dseg_app in H as [_ H]. apply H.
Qed.

(** Rewriting one end of a segment. *)
Lemma dseg_set_next m m' pv l nx nx' : NoDup l ->
  (forall p, p ∈ l -> links m' p =
     if decide (p = last0 0 l) then (fun x => (x.1, nx')) <$> links m p else links m p) ->
  dseg m pv l nx -> dseg m' pv l nx'.
Proof.
  revert pv. induction l as [|p l IH]; intros pv Hnd Hf H; [done|].
  destruct H as (Hp & Hl & H). apply NoDup_cons in Hnd as [Hpl Hnd].
  cbn [dseg]. destruct l as [|q l].
  - split_and!; [done| |done]. rewrite Hf by in_tac. cbn [last0].
    rewrite decide_True by done. rewrite Hl. reflexivity.
  - split_and!; [done| |].
    + rewrite Hf by in_tac. cbn [last0]. rewrite decide_False; [done|].
      intros E. apply Hpl. rewrite E. apply (last0_in 0 (q :: l)). done.
    + apply IH; [done| |done]. intros r Hr. rewrite Hf by in_tac. done.
Qed.

Lemma dseg_set_prev m m' pv pv' l nx : NoDup l ->
  (forall p, p ∈ l -> links m' p =
     if decide (p = hd0 0 l) then (fun x => (pv', x.2)) <$> links m p else links m p) ->
  dseg m pv l nx -> dseg m' pv' l nx.
Proof.
  intros Hnd Hf H. destruct l as [|p l]; [done|].
  destruct H as (Hp & Hl & H). apply NoDup_cons in Hnd as [Hpl Hnd].
  cbn [dseg]. split_and!; [done| |].
  - rewrite Hf by in_tac. cbn [hd0]. rewrite decide_True by done. rewrite Hl. done.
  - eapply dseg_frame; [|exact H]. intros q Hq. rewrite Hf by in_tac. cbn [hd0].
    rewrite decide_False; [done|]. intros ->. done.
Qed.

(** What a store looks like after [q] was linked between [a] and [b]
    (either may be NULL): only [a]'s next and [b]'s prev changed. *)
Definition linked_between m m' (a q b : Z) l : Prop :=
  links m' q = Some (a, b) /\
  forall p, p ∈ l -> links m' p =
    (fun x => (if decide (p = b) then q else x.1, if decide (p = a) then q else x.2))
      <$> links m p.

Lemma hd0_last0_in_app l1 l2 p :
  p ∈ l1 -> NoDup (l1 ++ l2) -> p = hd0 0 l2 -> p = 0.
Proof.
  intros Hp Hnd ->. destruct l2 as [|q l2]; [done|]. apply NoDup_app in Hnd as (_ & Hd & _).
  destruct (Hd _ Hp). in_tac.
Qed.

Lemma last0_not_in_app l1 l2 p :
  p ∈ l2 -> NoDup (l1 ++ l2) -> p = last0 0 l1 -> p = 0.
Proof.
  intros Hp Hnd ->. destruct l1 as [|q l1]; [done|]. apply NoDup_app in Hnd as (_ & Hd & _).
  destruct (Hd (last0 0 (q :: l1))); [|done]. apply (last0_in 0 (q :: l1)). done.
Qed.

Lemma dlist_insert m m' l1 l2 q :
  dlist m (l1 ++ l2) -> q <> 0 -> q ∉ l1 ++ l2 ->
  linked_between m m' (last0 0 l1) q (hd0 0 l2) (l1 ++ l2) ->
  dlist m' (l1 ++ q :: l2).
Proof.
  intros [H Hnd] Hq Hni [Hlq Hf]. split.
  - apply dseg_app in H as [H1 H2]. pose proof Hnd as Hnd'.
    apply NoDup_app in Hnd' as (Hn1 & _ & Hn2).
    apply dseg_app. cbn [hd0 dseg]. split_and!; [|done|done|].
    + eapply dseg_set_next; [done| |exact H1]. intros p Hp. rewrite Hf by in_tac.
      assert (p <> hd0 0 l2).
      { intros E. by apply (dseg_nonzero _ _ _ _ p H1 Hp), (hd0_last0_in_app l1 l2). }
      destruct (links m p) as [[]|]; cbn; by repeat case_decide.
    + eapply dseg_set_prev; [done| |exact H2]. intros p Hp. rewrite Hf by in_tac.
      assert (p <> last0 0 l1).
      { intros E. by apply (dseg_nonzero _ _ _ _ p H2 Hp), (last0_not_in_app l1 l2). }
      destruct (links m p) as [[]|]; cbn; by repeat case_decide.
  - apply NoDup_app in Hnd as (H1 & H2 & H3). apply NoDup_app. split_and!; [done| |].
    + set_solver.
    + apply NoDup_cons. in_tac.
Qed.

(** What a store looks like after the object between [a] and [b] was
    unlinked. *)
Definition unlinked_between m m' (a b : Z) l : Prop :=
  forall p, p ∈ l -> links m' p =
    (fun x => (if decide (p = b) then a else x.1, if decide (p = a) then b else x.2))
      <$> links m p.

Lemma dlist_remove m m' l1 q l2 :
  dlist m (l1 ++ q :: l2) ->
  unlinked_between m m' (last0 0 l1) (hd0 0 l2) (l1 ++ l2) ->
  dlist m' (l1 ++ l2).
Proof.
  intros [H Hnd] Hf.
  assert (Hnd2 : NoDup (l1 ++ l2)).
  { apply NoDup_app in Hnd as (Hn1 & Hd & Hn2). apply NoDup_cons in Hn2 as [Hq Hn2].
    apply NoDup_app. set_solver. }
  split; [|done].
  apply dseg_app in H as [H1 (_ & _ & H2)]. pose proof Hnd2 as Hnd'.
  apply NoDup_app in Hnd' as (Hn1 & _ & Hn2). apply dseg_app. split.
  - eapply dseg_set_next; [done| |exact H1]. intros p Hp. rewrite Hf by in_tac.
    assert (p <> hd0 0 l2).
    { intros E. by apply (dseg_nonzero _ _ _ _ p H1 Hp), (hd0_last0_in_app l1 l2). }
    destruct (links m p) as [[]|]; cbn; by repeat case_decide.
  - eapply dseg_set_prev; [done| |exact H2]. intros p Hp. rewrite Hf by in_tac.
    assert (p <> last0 0 l1).
    { intros E. by apply (dseg_nonzero _ _ _ _ p H2 Hp), (last0_not_in_app l1 l2). }
    destruct (links m p) as [[]|]; cbn; by repeat case_decide.
Qed.

(** A list is untouched by writes that keep the links of its members. *)
Lemma dlist_frame m m' l :
  (forall p, p ∈ l -> links m' p = links m p) -> dlist m l -> dlist m' l.
Proof. intros Hf [H Hnd]. split; [by eapply dseg_frame|done]. Qed.

(** ** The traversal every C search is:
    [while (tmp != NULL) { if (test tmp) return tmp; tmp = tmp->next; }
     return NULL;] *)
Fixpoint walk_ (fuel : nat) m (test : Z -> N -> bool) (tmp : Z) : res Z :=
  match fuel with
  | O => Hang
  | S k => if tmp =? 0 then Ok 0
           else match m !! tmp with
                | None => Fault
                | Some n => if test tmp n then Ok tmp else walk_ k m test (l_next n)
                end
  end.

(** More rounds than there are objects: a longer walk is going in circles. *)
Definition walk m (test : Z -> N -> bool) (tmp : Z) : res Z := walk_ (S (size m)) m test tmp.

(** The first member that passes the test, 0 when none does. *)
Fixpoint first_such m (test : Z -> N -> bool) l : Z :=
  match l with
  | [] => 0
  | p :: l' => match m !! p with
               | Some n => if test p n then p else first_such m test l'
               | None => 0
               end
  end.

Lemma walk__spec m test l fuel :
  sseg m l 0 -> (length l < fuel)%nat -> walk_ fuel m test (hd0 0 l) = Ok (first_such m test l).
Proof.
  revert fuel. induction l as [|p l IH]; intros fuel H Hf; (destruct fuel; [cbn in Hf; lia|]).
  - reflexivity.
  - destruct H as (Hp & (n & Hn & Hx) & H). cbn [walk_ hd0 first_such].
    rewrite (proj2 (Z.eqb_neq p 0)) by done. rewrite Hn.
    destruct (test p n); [done|]. rewrite Hx. apply IH; [done|cbn in Hf; lia].
Qed.

Lemma walk_spec m test l :
  sseg m l 0 -> NoDup l -> walk m test (hd0 0 l) = Ok (first_such m test l).
Proof.
  intros H Hnd. apply walk__spec; [done|]. pose proof (sseg_length m l 0 H Hnd). lia.
Qed.

Lemma walk_dlist m test l : dlist m l -> walk m test (hd0 0 l) = Ok (first_such m test l).
Proof. intros [H Hnd]. apply walk_spec; [by eapply dseg_sseg|done]. Qed.

Lemma first_such_split m test l nx : sseg m l nx ->
  (first_such m test l = 0 /\ forall p n, p ∈ l -> m !! p = Some n -> test p n = false) \/
  (exists l1 p l2 n, l = l1 ++ p :: l2 /\ first_such m test l = p /\ p <> 0 /\
     m !! p = Some n /\ test p n = true /\
     forall q k, q ∈ l1 -> m !! q = Some k -> test q k = false).
Proof.
  induction l as [|p l IH]; intros H; [left; set_solver|].
  destruct H as (Hp & (n & Hn & Hx) & H). cbn [first_such]. rewrite Hn.
  destruct (test p n) eqn:Ht.
  - right. exists [], p, l, n. split_and!; try done. intros q k Hq. by apply elem_of_nil in Hq.
  - destruct (IH H) as [[E Hall]|(l1 & q & l2 & k & -> & E & Hq & Hk & Htk & Hall)].
    + left. split; [done|]. intros q k [->|Hq]%elem_of_cons Hk; [congruence|eauto].
    + right. exists (p :: l1), q, l2, k. split_and!; try done.
      intros r j [->|Hr]%elem_of_cons Hj; [congruence|eauto].
Qed.
End dlist.

Arguments links {_ _} _ _.
Arguments walk {_ _} _ _ _.
#[global] Typeclasses Opaque dlist.
#[export] Hint Resolve dseg_sseg dlist_frame : ptrs.
