(* ===== verification/Pmm.v ===== *)
(** * Physical memory manager ([src/src/kernel/memory/pmm.c])

    One bit per 4 KiB frame.  The model keeps the bitmap as the array of
    bytes the code keeps (a byte never written reads as the 0 of a static
    array), the two scan hints and the two counters of [PMM_INFO].  The
    abstract view of a state is the function [frame_used]; [inv] ties the
    [free_frames] counter to it. *)

From S2P Require Import Prelude.

#[local] Open Scope Z_scope.

Definition PAGE_SIZE : Z := 4096.
Definition FRAME_SIZE : Z := PAGE_SIZE.
Definition BITMAP_SIZE : Z := UINT32_MAX / FRAME_SIZE / 8 + 1.

Record pmm := mkPmm {
  pmm_bitmap : gmap Z Z;
  kernel_end_idx : Z;
  last_free_idx : Z;
  total_frames : Z;
  free_frames : Z;
}.

Definition set_bitmap b s := mkPmm b (kernel_end_idx s) (last_free_idx s) (total_frames s) (free_frames s).
Definition set_kernel_end v s := mkPmm (pmm_bitmap s) v (last_free_idx s) (total_frames s) (free_frames s).
Definition set_last_free v s := mkPmm (pmm_bitmap s) (kernel_end_idx s) v (total_frames s) (free_frames s).
Definition set_total v s := mkPmm (pmm_bitmap s) (kernel_end_idx s) (last_free_idx s) v (free_frames s).
Definition set_free v s := mkPmm (pmm_bitmap s) (kernel_end_idx s) (last_free_idx s) (total_frames s) v.

(** The statics before [pmm_init]. *)
Definition pmm_boot : pmm := mkPmm ∅ 0 0 0 0.

Definition pmm_byte (s : pmm) (i : Z) : Z := default 0 (pmm_bitmap s !! i).

Definition __bit_set (idx value : Z) : M pmm unit :=
  do bm <- get_ pmm_bitmap;
  if idx / 8 <? BITMAP_SIZE then
    let byte := default 0 (bm !! (idx / 8)) in
    let bit := idx mod 8 in
    let mask := Z.shiftr 0x80 bit in
    let byte := Z.land (Z.land byte (Z.lnot mask)) 0xff in
    let on := if negb (mask =? 0) && negb (value =? 0) then 1 else 0 in
    let byte := Z.land (Z.lor byte (Z.shiftr (Z.shiftl on 7) bit)) 0xff in
    mod_ (set_bitmap (<[idx / 8 := byte]> bm))
  else fault.

Definition __bit_get (idx : Z) : M pmm Z :=
  do bm <- get_ pmm_bitmap;
  if idx / 8 <? BITMAP_SIZE then
    let byte := default 0 (bm !! (idx / 8)) in
    let bit := idx mod 8 in
    ret_ (Z.land byte (Z.shiftr 0x80 bit))
  else fault.

Definition _IDX_SET (idx : Z) : M pmm unit :=
  __bit_set idx 1 ;;; mod_ (fun s => set_free (free_frames s -w 1) s).

Definition _IDX_UNSET (idx : Z) : M pmm unit :=
  __bit_set idx 0 ;;; mod_ (fun s => set_free (free_frames s +w 1) s).

(** The reserved range is walked address by address; the fuel is one round
    per frame plus the exit round, so [Hang] means the address wrapped. *)
Definition pmm_init (total_memory reserved_start reserved_end : Z) : M pmm unit :=
  mod_ (set_total (total_memory / FRAME_SIZE)) ;;;
  mod_ (fun s => set_free (total_frames s) s) ;;;
  mod_ (set_last_free 0) ;;;
  loop (S (Z.to_nat ((reserved_end - reserved_start + (FRAME_SIZE - 1)) / FRAME_SIZE)))
    (fun i =>
       if i <? reserved_end then
         _IDX_SET (i / FRAME_SIZE) ;;;
         mod_ (fun s => set_last_free (last_free_idx s +w 1) s) ;;;
         ret_ (inl (i +w FRAME_SIZE))
       else ret_ (inr tt)) reserved_start ;;;
  mod_ (fun s => set_kernel_end (last_free_idx s -w 1) s).

(** The scan of [pmm_get_frame]: the address of the frame it took, or 0. *)
Definition get_frame_scan : M pmm Z :=
  do first <- get_ last_free_idx;
  do total <- get_ total_frames;
  loop (S (Z.to_nat (total - first)))
    (fun i =>
       if i <? total then
         do b <- __bit_get i;
         if b =? 0 then
           _IDX_SET i ;;;
           mod_ (fun s => set_last_free (last_free_idx s +w 1) s) ;;;
           ret_ (inr (i *w FRAME_SIZE))
         else ret_ (inl (i +w 1))
       else ret_ (inr 0)) first.

(** The C function calls itself after a failed scan; [Hang] stands for the
    recursion that never ends. *)
Fixpoint get_frame_rec (fuel : nat) : M pmm Z :=
  match fuel with
  | O => hang
  | S n =>
      do free <- get_ free_frames;
      if free =? 0 then panic "[PMM] System run out of memory!"
      else
        do new_frame_addr <- get_frame_scan;
        if new_frame_addr =? 0 then
          mod_ (fun s => set_last_free (kernel_end_idx s) s) ;;;
          get_frame_rec n
        else ret_ new_frame_addr
  end.

(** Three scans at most make progress: from the hint, from the end of the
    kernel, and once more when frame 0 itself was taken. *)
Definition pmm_get_frame : M pmm Z := get_frame_rec 4.

Definition pmm_free_frame (addr : Z) : M pmm unit :=
  let frame_idx := addr / FRAME_SIZE in
  do total <- get_ total_frames;
  when frame_idx <? total then_
    (_IDX_UNSET frame_idx ;;; mod_ (set_last_free frame_idx)).

(** Locals of [pmm_get_pool]; [p_end] is not initialised by the code. *)
Record pool_scan := mkScan { p_i : Z; p_start : Z; p_end : option Z; p_counter : Z; p_first : bool }.

Definition pool_body (total frames : Z) (l : pool_scan) : M pmm (pool_scan + pool_scan) :=
  let i := p_i l in
  if i <? total then
    do b <- __bit_get i;
    if b =? 0 then
      let start := if p_first l then i else p_start l in
      let counter := p_counter l +w 1 in
      if counter =? frames then ret_ (inr (mkScan i start (Some i) counter false))
      else ret_ (inl (mkScan (i +w 1) start (p_end l) counter false))
    else ret_ (inl (mkScan (i +w 1) 0 (Some 0) 0 true))
  else ret_ (inr l).

Definition pmm_get_pool (frames : Z) : M pmm Z :=
  do first <- get_ kernel_end_idx;
  do total <- get_ total_frames;
  do l <- loop (S (Z.to_nat (total - first))) (pool_body total frames)
            (mkScan first 0 None 0 true);
  if p_counter l =? frames then
    match p_end l with
    | None => fault
    | Some pool_end_idx =>
        for_ (Z.to_nat (pool_end_idx - p_start l + 1)) (p_start l) _IDX_SET ;;;
        ret_ (p_start l *w FRAME_SIZE)
    end
  else ret_ 0.

Definition pmm_free_pool (start_of_pool frames : Z) : M pmm unit :=
  for_ (Z.to_nat frames) (start_of_pool / FRAME_SIZE)
    (fun j => do total <- get_ total_frames;
              when j <? total then_ (_IDX_UNSET j ;;; mod_ (set_last_free j))).

(** ** Abstract view *)

Definition frame_used (s : pmm) (i : Z) : bool := Z.testbit (pmm_byte s (i / 8)) (7 - i mod 8).

(** Number of free frames below [n]. *)
Fixpoint free_below (u : Z -> bool) (n : nat) : Z :=
  match n with
  | O => 0
  | S k => (if u (Z.of_nat k) then 0 else 1) + free_below u k
  end.

Record inv (s : pmm) : Prop := {
  inv_total : 0 <= total_frames s <= 0xfffff;
  inv_kernel : 0 <= kernel_end_idx s < total_frames s;
  inv_reserved : forall i, 0 <= i <= kernel_end_idx s -> frame_used s i = true;
  inv_last : 0 <= last_free_idx s <= total_frames s;
  inv_free : free_frames s = free_below (frame_used s) (Z.to_nat (total_frames s));
}.

(** [s'] is [s] with frame [i]'s bit set to [v]; nothing else is said. *)
Definition bit_is (s s' : pmm) (i : Z) (v : bool) : Prop :=
  (forall j, 0 <= j -> frame_used s' j = if decide (j = i) then v else frame_used s j) /\
  total_frames s' = total_frames s /\ kernel_end_idx s' = kernel_end_idx s.

(** ** The bit operations *)

Lemma mask_bit b : 0 <= b < 8 -> Z.shiftr 0x80 b = 2 ^ (7 - b).
Proof.
  intros H. assert (E : b ∈ [0;1;2;3;4;5;6;7]).
  { rewrite !elem_of_cons. lia. }
  repeat (apply elem_of_cons in E as [->|E]; [reflexivity|]). by apply elem_of_nil in E.
Qed.

Lemma land_pow2 x n : 0 <= n -> Z.land x (2 ^ n) = if Z.testbit x n then 2 ^ n else 0.
Proof.
  intros Hn. apply Z.bits_inj'. intros k Hk. rewrite Z.land_spec, Z.pow2_bits_eqb by done.
  destruct (Z.testbit x n) eqn:E; (destruct (Z.eqb_spec n k) as [->|Hne]).
  - rewrite E, Z.pow2_bits_eqb, Z.eqb_refl by done. done.
  - rewrite Z.pow2_bits_eqb by done. rewrite (proj2 (Z.eqb_neq n k)) by done. apply andb_false_r.
  - rewrite E. by rewrite Z.bits_0.
  - rewrite Z.bits_0. apply andb_false_r.
Qed.

Lemma testbit_byte_mask x n : 0 <= n < 8 -> Z.testbit (Z.land x 0xff) n = Z.testbit x n.
Proof.
  intros H. change 0xff with (Z.ones 8).
  rewrite Z.land_spec, Z.ones_spec_low by lia. apply andb_true_r.
Qed.

(** The updated byte, bit by bit. *)
Lemma set_byte_bits byte b (v : bool) k : 0 <= b < 8 -> 0 <= k < 8 ->
  Z.testbit (Z.land (Z.lor (Z.land (Z.land byte (Z.lnot (Z.shiftr 0x80 b))) 0xff)
     (Z.shiftr (Z.shiftl (if v then 1 else 0) 7) b)) 0xff) k
  = if decide (k = 7 - b) then v else Z.testbit byte k.
Proof.
  intros Hb Hk. rewrite testbit_byte_mask, Z.lor_spec, testbit_byte_mask by done.
  rewrite Z.land_spec, Z.lnot_spec, mask_bit, Z.pow2_bits_eqb by lia.
  assert (E : Z.shiftr (Z.shiftl (if v then 1 else 0) 7) b = if v then 2 ^ (7 - b) else 0).
  { destruct v; [apply (mask_bit b Hb)|]. rewrite Z.shiftl_0_l. apply Z.shiftr_0_l. }
  rewrite E. case_decide as D.
  - subst k. rewrite Z.eqb_refl, andb_false_r. destruct v; [|apply Z.bits_0].
    rewrite Z.pow2_bits_eqb, Z.eqb_refl by lia. done.
  - rewrite (proj2 (Z.eqb_neq (7 - b) k)) by lia. rewrite andb_true_r.
    destruct v; [rewrite Z.pow2_bits_eqb, (proj2 (Z.eqb_neq (7 - b) k)) by lia|rewrite Z.bits_0];
    apply orb_false_r.
Qed.

Lemma frame_used_bitmap s s' i :
  pmm_bitmap s = pmm_bitmap s' -> frame_used s i = frame_used s' i.
Proof. unfold frame_used, pmm_byte. intros ->. reflexivity. Qed.

Lemma bit_get_spec s i : 0 <= i <= 0xfffff ->
  __bit_get i s = Ok (if frame_used s i then 2 ^ (7 - i mod 8) else 0, s).
Proof.
  intros H. unfold __bit_get, bind_, get_.
  rewrite (proj2 (Z.ltb_lt (i / 8) BITMAP_SIZE))
    by (change BITMAP_SIZE with 131072; Z.div_mod_to_equations; lia).
  unfold ret_. rewrite mask_bit by (apply Z.mod_pos_bound; lia).
  rewrite land_pow2 by (pose proof (Z.mod_pos_bound i 8); lia). reflexivity.
Qed.

Lemma bit_get_zero s i : ((if frame_used s i then 2 ^ (7 - i mod 8) else 0) =? 0) = negb (frame_used s i).
Proof.
  destruct (frame_used s i); [|reflexivity]. apply Z.eqb_neq.
  pose proof (Z.pow_pos_nonneg 2 (7 - i mod 8)). pose proof (Z.mod_pos_bound i 8). lia.
Qed.

Lemma bit_set_spec s i (v : bool) : 0 <= i <= 0xfffff ->
  exists s', __bit_set i (if v then 1 else 0) s = Ok (tt, s') /\ bit_is s s' i v /\
    last_free_idx s' = last_free_idx s /\ free_frames s' = free_frames s.
Proof.
  intros H. unfold __bit_set, bind_, get_.
  rewrite (proj2 (Z.ltb_lt (i / 8) BITMAP_SIZE))
    by (change BITMAP_SIZE with 131072; Z.div_mod_to_equations; lia).
  eexists. split; [reflexivity|]. split; [|done]. split; [|done].
  intros j Hj. unfold frame_used, pmm_byte. cbn [pmm_bitmap set_bitmap].
  pose proof (Z.mod_pos_bound i 8 eq_refl) as Hi8. pose proof (Z.mod_pos_bound j 8 eq_refl) as Hj8.
  assert (Hm : (Z.shiftr 0x80 (i mod 8) =? 0) = false).
  { apply Z.eqb_neq. rewrite mask_bit by lia. pose proof (Z.pow_pos_nonneg 2 (7 - i mod 8)). lia. }
  rewrite Hm. rewrite lookup_insert. case_decide as D.
  - unfold default. replace (if negb false && negb ((if v then 1 else 0) =? 0) then 1 else 0)
      with (if v then 1 else 0) by (by destruct v).
    unfold id. rewrite D, set_byte_bits by lia.
    destruct (decide (j = i)) as [->|Hne].
    + by rewrite decide_True.
    + rewrite decide_False; [done|]. intros E. apply Hne. Z.div_mod_to_equations. lia.
  - rewrite decide_False; [done|]. intros ->. done.
Qed.

(** ** Counting free frames *)

Lemma free_below_ext u v n : (forall i, 0 <= i < Z.of_nat n -> u i = v i) ->
  free_below u n = free_below v n.
Proof.
  induction n as [|n IH]; intros H; [done|]. cbn [free_below].
  rewrite (H (Z.of_nat n)) by lia. rewrite IH; [done|]. intros i Hi. apply H. lia.
Qed.

Lemma free_below_bounds u n : 0 <= free_below u n <= Z.of_nat n.
Proof. induction n as [|n IH]; cbn [free_below]; [lia|]. destruct (u _); lia. Qed.

(** Marking one free frame takes one off the count. *)
Lemma free_below_mark u v n i : 0 <= i < Z.of_nat n -> u i = false -> v i = true ->
  (forall j, 0 <= j -> j <> i -> v j = u j) -> free_below v n = free_below u n - 1.
Proof.
  induction n as [|n IH]; intros Hi Hu Hv Hj; [lia|]. cbn [free_below].
  destruct (decide (i = Z.of_nat n)) as [->|Hne].
  - rewrite Hu, Hv. rewrite (free_below_ext v u); [lia|]. intros j Hj'. apply Hj; lia.
  - rewrite IH by (done || lia). rewrite (Hj (Z.of_nat n)) by lia. lia.
Qed.

Lemma free_below_all u n : free_below u n = 0 <-> forall i, 0 <= i < Z.of_nat n -> u i = true.
Proof.
  induction n as [|n IH]; cbn [free_below]; [split; [lia|done]|].
  pose proof (free_below_bounds u n). split.
  - intros E i Hi. destruct (u (Z.of_nat n)) eqn:En; [|lia].
    destruct (decide (i = Z.of_nat n)) as [->|]; [done|]. apply IH; lia.
  - intros Hall. rewrite (Hall (Z.of_nat n)) by lia. apply IH. intros i Hi. apply Hall. lia.
Qed.

(** ** One frame marked, one frame unmarked *)

Lemma bit_is_used s s' i v j : bit_is s s' i v -> 0 <= j ->
  frame_used s' j = if decide (j = i) then v else frame_used s j.
Proof. intros (H & _). apply H. Qed.

(** The counters and the hint are not part of what [bit_is] says. *)
Lemma bit_is_ext s s1 s' i v : bit_is s s1 i v -> pmm_bitmap s' = pmm_bitmap s1 ->
  total_frames s' = total_frames s1 -> kernel_end_idx s' = kernel_end_idx s1 ->
  bit_is s s' i v.
Proof.
  intros (H1 & H2 & H3) E Et Ek. split_and!; [|congruence..].
  intros j Hj. rewrite (frame_used_bitmap s' s1 j E). by apply H1.
Qed.

Lemma idx_set_spec s i : 0 <= i <= 0xfffff ->
  wp (_IDX_SET i) (fun _ s' => bit_is s s' i true /\
    last_free_idx s' = last_free_idx s /\ free_frames s' = w32 (free_frames s - 1)) s.
Proof.
  intros H. destruct (bit_set_spec s i true H) as (s1 & E & Hb & Hl & Hf).
  unfold _IDX_SET. apply wp_bind. eapply wp_intro; [exact E|].
  apply wp_mod. split_and!; [|done|cbn; by rewrite Hf].
  by apply (bit_is_ext s s1).
Qed.

Lemma idx_unset_spec s i : 0 <= i <= 0xfffff ->
  wp (_IDX_UNSET i) (fun _ s' => bit_is s s' i false /\
    last_free_idx s' = last_free_idx s /\ free_frames s' = w32 (free_frames s + 1)) s.
Proof.
  intros H. destruct (bit_set_spec s i false H) as (s1 & E & Hb & Hl & Hf).
  unfold _IDX_UNSET. apply wp_bind. eapply wp_intro; [exact E|].
  apply wp_mod. split_and!; [|done|cbn; by rewrite Hf].
  by apply (bit_is_ext s s1).
Qed.

Lemma inv_free_bounds s : inv s -> 0 <= free_frames s <= total_frames s.
Proof.
  intros I. rewrite (inv_free _ I). pose proof (free_below_bounds (frame_used s) (Z.to_nat (total_frames s))).
  pose proof (inv_total _ I). lia.
Qed.

(** Marking a free frame keeps the invariant, the hint being reset at will. *)
Lemma inv_mark s s' i : inv s -> 0 <= i < total_frames s -> frame_used s i = false ->
  bit_is s s' i true -> free_frames s' = w32 (free_frames s - 1) ->
  0 <= last_free_idx s' <= total_frames s -> inv s' /\ 0 < free_frames s.
Proof.
  intros I Hi Hu Hb Hf Hl. pose proof (inv_total _ I) as Ht. pose proof (inv_free_bounds _ I) as Hfb.
  assert (E : free_below (frame_used s') (Z.to_nat (total_frames s))
              = free_below (frame_used s) (Z.to_nat (total_frames s)) - 1).
  { apply (free_below_mark _ _ _ i); [lia|done| |].
    - rewrite (bit_is_used _ _ _ _ _ Hb) by lia. by rewrite decide_True.
    - intros j Hj Hne. rewrite (bit_is_used _ _ _ _ _ Hb) by lia. by rewrite decide_False. }
  pose proof (free_below_bounds (frame_used s') (Z.to_nat (total_frames s))) as Hb'.
  pose proof (inv_free _ I) as HF. destruct Hb as (Hb1 & Hbt & Hbk).
  split; [|lia]. split; rewrite ?Hbt, ?Hbk; try done.
  - apply (inv_kernel _ I).
  - intros j Hj. rewrite Hb1 by lia. case_decide; [done|]. by apply (inv_reserved _ I).
  - rewrite Hf, w32_small by lia. lia.
Qed.

Lemma inv_unmark s s' i : inv s -> kernel_end_idx s < i < total_frames s ->
  frame_used s i = true ->
  bit_is s s' i false -> free_frames s' = w32 (free_frames s + 1) ->
  0 <= last_free_idx s' <= total_frames s -> inv s'.
Proof.
  intros I Hi Hu Hb Hf Hl. pose proof (inv_total _ I) as Ht. pose proof (inv_free_bounds _ I) as Hfb.
  pose proof (inv_kernel _ I) as Hk.
  assert (E : free_below (frame_used s) (Z.to_nat (total_frames s))
              = free_below (frame_used s') (Z.to_nat (total_frames s)) - 1).
  { apply (free_below_mark _ _ _ i); [lia| |done|].
    - rewrite (bit_is_used _ _ _ _ _ Hb) by lia. by rewrite decide_True.
    - intros j Hj Hne. rewrite (bit_is_used _ _ _ _ _ Hb) by lia. by rewrite decide_False. }
  pose proof (free_below_bounds (frame_used s') (Z.to_nat (total_frames s))) as Hb'.
  pose proof (inv_free _ I) as HF. destruct Hb as (Hb1 & Hbt & Hbk).
  split; rewrite ?Hbt, ?Hbk; try done.
  - intros j Hj. rewrite Hb1 by lia. case_decide; [lia|]. by apply (inv_reserved _ I).
  - rewrite Hf, w32_small by lia. lia.
Qed.

(** ** The scan of [pmm_get_frame] *)

(** Outcome of the scan: the least free frame at or after the hint, marked;
    or nothing, and then there was none. *)
Definition scan_post (s : pmm) (r : Z) (s' : pmm) : Prop :=
  (exists i, last_free_idx s <= i < total_frames s /\ frame_used s i = false /\
     (forall j, last_free_idx s <= j < i -> frame_used s j = true) /\
     r = i * FRAME_SIZE /\ bit_is s s' i true /\
     free_frames s' = w32 (free_frames s - 1) /\
     last_free_idx s' = last_free_idx s + 1) \/
  (r = 0 /\ s' = s /\
   forall j, last_free_idx s <= j < total_frames s -> frame_used s j = true).

Lemma get_frame_scan_spec s :
  0 <= total_frames s <= 0xfffff -> 0 <= last_free_idx s <= total_frames s ->
  wp get_frame_scan (scan_post s) s.
Proof.
  intros Ht Hl. unfold get_frame_scan. wpsteps.
  apply (wp_loop _ (fun i s' => s' = s /\ last_free_idx s <= i <= total_frames s /\
            forall j, last_free_idx s <= j < i -> frame_used s j = true)
          (fun i _ => Z.to_nat (total_frames s - i))); [|split_and!; [done|lia|lia|lia]|lia].
  intros i s' (-> & Hi & Hall). destruct (Z.ltb_spec i (total_frames s)) as [Hlt|Hge].
  - apply wp_bind. eapply wp_intro; [apply bit_get_spec; lia|]. rewrite bit_get_zero.
    destruct (frame_used s i) eqn:Hu; cbn [negb].
    + apply wp_ret. rewrite w32_small by lia. split_and!; try done; try lia.
      intros j Hj. destruct (decide (j = i)) as [->|]; [done|]. apply Hall. lia.
    + apply wp_bind. eapply wp_mono; [apply idx_set_spec; lia|].
      intros [] s1 (Hb & Hl1 & Hf1). wpsteps. left. exists i.
      unfold FRAME_SIZE, PAGE_SIZE. rewrite w32_small by lia.
      split_and!; try done; try lia.
      cbn. rewrite Hl1. apply w32_small. lia.
  - apply wp_ret. right. split_and!; [done..|]. intros j Hj. apply Hall. lia.
Qed.

(** ** Frame allocation never gets stuck and never hands out a used frame *)

(** What a successful allocation of frame [i] means to a client. *)
Definition got_frame (s : pmm) (i : Z) (s' : pmm) : Prop :=
  kernel_end_idx s < i < total_frames s /\ frame_used s i = false /\
  bit_is s s' i true /\ inv s' /\ free_frames s' = free_frames s - 1.

Lemma scan_found s i s' : inv s ->
  frame_used s i = false -> 0 <= i < total_frames s -> bit_is s s' i true ->
  free_frames s' = w32 (free_frames s - 1) -> 0 <= last_free_idx s' <= total_frames s ->
  got_frame s i s'.
Proof.
  intros I Hu Hi Hb Hf Hl. destruct (inv_mark s s' i I Hi Hu Hb Hf Hl) as [I' Hpos].
  pose proof (inv_free_bounds _ I). pose proof (inv_total _ I).
  split_and!; try done; try lia.
  - destruct (decide (i <= kernel_end_idx s)); [|lia].
    pose proof (inv_reserved _ I i ltac:(lia)). congruence.
  - rewrite Hf. apply w32_small. lia.
Qed.

Lemma set_last_inv s v : inv s -> 0 <= v <= total_frames s -> inv (set_last_free v s).
Proof. intros [? ? ? ? ?] H. split; done. Qed.

(** The recursion, from a state whose hint was just reset. *)
Lemma get_frame_reset s n : inv s -> 0 < free_frames s -> last_free_idx s = kernel_end_idx s ->
  wp (get_frame_rec (S n)) (fun r s' => exists i, r = i * FRAME_SIZE /\ got_frame s i s' /\
    forall j, kernel_end_idx s < j < i -> frame_used s j = true) s.
Proof.
  intros I Hpos Hlast. pose proof (inv_total _ I) as Ht. pose proof (inv_kernel _ I) as Hk.
  cbn [get_frame_rec]. wpsteps. rewrite (proj2 (Z.eqb_neq _ 0)) by lia.
  wpsteps. eapply wp_mono; [apply get_frame_scan_spec; [lia|apply (inv_last _ I)]|].
  intros r s' [(i & Hi & Hu & Hmin & -> & Hb & Hf & Hl)|(-> & -> & Hall)].
  - pose proof (scan_found s i s' I Hu ltac:(lia) Hb Hf ltac:(lia)) as Hgot.
    assert (0 < i) by (destruct Hgot; lia).
    rewrite (proj2 (Z.eqb_neq _ 0)) by (unfold FRAME_SIZE, PAGE_SIZE; lia).
    apply wp_ret. exists i. split_and!; [done|done|]. intros j Hj. apply Hmin. lia.
  - exfalso. assert (E : free_frames s = 0); [|lia].
    rewrite (inv_free _ I). apply free_below_all. intros j Hj.
    destruct (decide (j <= kernel_end_idx s)); [apply (inv_reserved _ I); lia|apply Hall; lia].
Qed.

(** [pmm_get_frame] in every well-formed state. *)
Lemma get_frame_wp s : inv s -> 0 < free_frames s ->
  wp pmm_get_frame (fun r s' => exists i, r = i * FRAME_SIZE /\ got_frame s i s') s.
Proof.
  intros I Hpos. unfold pmm_get_frame.
  pose proof (inv_total _ I) as Ht. pose proof (inv_kernel _ I) as Hk.
  change (get_frame_rec 4) with
    (do free <- get_ free_frames;
      if free =? 0 then panic "[PMM] System run out of memory!"
      else do new_frame_addr <- get_frame_scan;
        if new_frame_addr =? 0 then
          mod_ (fun s => set_last_free (kernel_end_idx s) s) ;;; get_frame_rec 3
        else ret_ new_frame_addr).
  wpsteps. rewrite (proj2 (Z.eqb_neq _ 0)) by lia.
  wpsteps. eapply wp_mono; [apply get_frame_scan_spec; [lia|apply (inv_last _ I)]|].
  pose proof (inv_last _ I) as Hl0.
  intros r s' [(i & Hi & Hu & Hmin & -> & Hb & Hf & Hl)|(-> & -> & Hall)].
  - pose proof (scan_found s i s' I Hu ltac:(lia) Hb Hf ltac:(lia)) as Hgot.
    assert (0 < i) by (destruct Hgot; lia).
    rewrite (proj2 (Z.eqb_neq _ 0)) by (unfold FRAME_SIZE, PAGE_SIZE; lia).
    apply wp_ret. exists i. done.
  - change (0 =? 0) with true. cbv iota. wpsteps.
    eapply wp_mono; [apply get_frame_reset; [by apply set_last_inv; [|lia]|done..]|].
    intros r s' (i & -> & Hgot & _). exists i. split; [done|exact Hgot].
Qed.

(** ** Releasing *)

Lemma free_frame_wp s i : inv s -> kernel_end_idx s < i < total_frames s ->
  frame_used s i = true ->
  wp (pmm_free_frame (i * FRAME_SIZE)) (fun _ s' => inv s' /\ bit_is s s' i false /\
    free_frames s' = free_frames s + 1 /\ last_free_idx s' = i) s.
Proof.
  intros I Hi Hu. pose proof (inv_total _ I) as Ht. pose proof (inv_kernel _ I) as Hk.
  pose proof (inv_free_bounds _ I) as Hf0.
  unfold pmm_free_frame. rewrite Z.div_mul by done. wpsteps.
  rewrite (proj2 (Z.ltb_lt _ _)) by lia.
  apply wp_bind. eapply wp_mono; [apply idx_unset_spec; lia|].
  intros [] s1 (Hb & Hl & Hf). apply wp_mod.
  assert (Hb' : bit_is s (set_last_free i s1) i false) by exact Hb.
  split_and!; [|done| |done].
  - eapply inv_unmark; [done|exact Hi|done|exact Hb'|exact Hf|cbn; lia].
  - cbn. rewrite Hf. apply w32_small. lia.
Qed.

(** A release of a frame that is not in use only corrupts the counter. *)
Lemma free_frame_unused s i : 0 <= i < total_frames s -> total_frames s <= 0xfffff ->
  frame_used s i = false -> free_frames s < UINT32_MAX -> 0 <= free_frames s ->
  wp (pmm_free_frame (i * FRAME_SIZE)) (fun _ s' =>
    (forall j, 0 <= j -> frame_used s' j = frame_used s j) /\
    total_frames s' = total_frames s /\ free_frames s' = free_frames s + 1) s.
Proof.
  intros Hi Ht Hu Hf0 Hf1. unfold pmm_free_frame. rewrite Z.div_mul by done. wpsteps.
  rewrite (proj2 (Z.ltb_lt _ _)) by lia.
  apply wp_bind. eapply wp_mono; [apply idx_unset_spec; lia|].
  intros [] s1 (Hb & Hl & Hf). apply wp_mod. split_and!.
  - intros j Hj. change (frame_used s1 j = frame_used s j).
    rewrite (bit_is_used _ _ _ _ _ Hb) by lia. case_decide; [by subst|done].
  - apply Hb.
  - cbn. rewrite Hf. apply w32_small. lia.
Qed.

(** ** Start-up *)

Lemma frame_used_boot i : frame_used pmm_boot i = false.
Proof. unfold frame_used, pmm_byte. cbn. apply Z.bits_0. Qed.

(** After [k] rounds of the reservation loop, exactly the frames below [k]
    are marked. *)
Definition init_mid (total k : Z) (s : pmm) : Prop :=
  (forall j, 0 <= j -> frame_used s j = bool_decide (j < k)) /\
  total_frames s = total /\ free_frames s = total - k /\ last_free_idx s = k.

Lemma free_below_prefix u n k : 0 <= k <= Z.of_nat n ->
  (forall j, 0 <= j -> u j = bool_decide (j < k)) -> free_below u n = Z.of_nat n - k.
Proof.
  revert k. induction n as [|n IH]; intros k Hk Hu; cbn [free_below]; [lia|].
  rewrite Hu by lia. case_bool_decide as D.
  - assert (k = Z.of_nat (S n)) as -> by lia.
    rewrite (proj2 (free_below_all u n)); [lia|]. intros i Hi. rewrite Hu by lia.
    apply bool_decide_eq_true. lia.
  - rewrite (IH k); [lia|lia|done].
Qed.

Lemma init_mid_inv total n s : 0 < n < total -> total <= 0xfffff -> init_mid total n s ->
  inv (set_kernel_end (n - 1) s).
Proof.
  intros Hn Ht (Hu & Htot & Hf & Hl). split; cbn; rewrite ?Htot, ?Hl; try lia.
  - intros i Hi. change (frame_used s i = true). rewrite Hu by lia. apply bool_decide_eq_true. lia.
  - rewrite Hf. symmetry. transitivity (free_below (frame_used s) (Z.to_nat total)); [by apply free_below_ext|].
    rewrite (free_below_prefix _ _ n); [lia|lia|done].
Qed.

Lemma pmm_init_wp total_memory reserved_end :
  let total := total_memory / FRAME_SIZE in
  let n := (reserved_end + (FRAME_SIZE - 1)) / FRAME_SIZE in
  word total_memory -> 0 < n < total ->
  wp (pmm_init total_memory 0 reserved_end) (fun _ s =>
    inv s /\ total_frames s = total /\ kernel_end_idx s = n - 1 /\ free_frames s = total - n /\
    forall j, 0 <= j -> frame_used s j = bool_decide (j < n)) pmm_boot.
Proof.
  intros total n Hw Hn. assert (Ht : total <= 0xfffff) by (subst total; unfold FRAME_SIZE, PAGE_SIZE in *; word_lia).
  assert (Hend : n * FRAME_SIZE - FRAME_SIZE < reserved_end <= n * FRAME_SIZE)
    by (subst n; unfold FRAME_SIZE, PAGE_SIZE in *; Z.div_mod_to_equations; lia).
  unfold pmm_init. wpsteps. cbn [set_total set_free set_last_free total_frames pmm_boot].
  rewrite Z.sub_0_r. fold n. unfold FRAME_SIZE, PAGE_SIZE in Hend.
  apply wp_loop with
    (I := fun i s => exists k, 0 <= k <= n /\ i = k * FRAME_SIZE /\ init_mid total k s)
    (measure := fun i _ => Z.to_nat (n - i / FRAME_SIZE)).
  - intros i s (k & Hk & -> & Hu & Htot & Hf & Hl). cbv beta. unfold FRAME_SIZE, PAGE_SIZE.
    destruct (Z.ltb_spec (k * 4096) reserved_end) as [Hlt|Hge].
    + rewrite Z.div_mul by done. wpsteps. eapply wp_mono; [apply idx_set_spec; lia|].
      intros [] s1 (Hb & Hl1 & Hf1). wpsteps. rewrite w32_small by lia.
      split; [|unfold FRAME_SIZE, PAGE_SIZE; Z.div_mod_to_equations; lia].
      exists (k + 1). split_and!; [lia|lia|lia|]. split_and!; cbn.
      * intros j Hj. change (frame_used s1 j = bool_decide (j < k + 1)).
        rewrite (bit_is_used _ _ _ _ _ Hb), Hu by lia.
        case_decide; repeat case_bool_decide; lia || done.
      * destruct Hb as (_ & -> & _). done.
      * rewrite Hf1, Hf, w32_small by lia. lia.
      * rewrite Hl1, Hl. apply w32_small. lia.
    + wpsteps. assert (k = n) as -> by lia.
      pose proof (init_mid_inv total n s Hn Ht ltac:(by split_and!)) as I.
      rewrite Hl, w32_small by lia. split_and!; try done.
  - exists 0. split_and!; try done; [lia|]. split_and!; try done; [|cbn; lia].
    intros j Hj. rewrite bool_decide_eq_false_2 by lia. by apply (frame_used_boot j).
  - cbn. rewrite Z.sub_0_r. lia.
Qed.

(** ** Contiguous pools *)

(** No [frames] consecutive free frames inside [\[lo, hi)]. *)
Definition no_run (s : pmm) (lo hi frames : Z) : Prop :=
  forall a, lo <= a -> a + frames <= hi -> exists j, a <= j < a + frames /\ frame_used s j = true.

Definition all_free (s : pmm) (lo hi : Z) : Prop := forall j, lo <= j < hi -> frame_used s j = false.

(** The search loop: a free run ends just before [p_i] and cannot be
    extended to the left. *)
Record scanning (s : pmm) (frames : Z) (l : pool_scan) : Prop := {
  sc_i : kernel_end_idx s <= p_i l <= total_frames s;
  sc_counter : 0 <= p_counter l < frames;
  sc_lo : kernel_end_idx s <= p_i l - p_counter l;
  sc_free : all_free s (p_i l - p_counter l) (p_i l);
  sc_left : p_i l - p_counter l = kernel_end_idx s \/ frame_used s (p_i l - p_counter l - 1) = true;
  sc_start : if p_first l then p_counter l = 0 else p_start l = p_i l - p_counter l;
  sc_none : no_run s (kernel_end_idx s) (p_i l) frames;
}.

Definition scanned (s : pmm) (frames : Z) (l : pool_scan) : Prop :=
  (p_counter l = frames /\ p_end l = Some (p_start l + frames - 1) /\
   kernel_end_idx s <= p_start l /\ p_start l + frames <= total_frames s /\
   all_free s (p_start l) (p_start l + frames)) \/
  (p_counter l <> frames /\ no_run s (kernel_end_idx s) (total_frames s) frames).

Lemma scanning_step_free s frames l : scanning s frames l -> p_i l < total_frames s ->
  frame_used s (p_i l) = false -> p_counter l + 1 <> frames ->
  scanning s frames (mkScan (p_i l + 1) (if p_first l then p_i l else p_start l)
                       (p_end l) (p_counter l + 1) false).
Proof.
  intros [Hi Hc Hlo Hfree Hleft Hst Hnone] Hlt Hu Hne. split; cbn; try lia.
  - intros j Hj. destruct (decide (j = p_i l)) as [->|]; [done|]. apply Hfree. lia.
  - replace (p_i l + 1 - (p_counter l + 1)) with (p_i l - p_counter l) by lia. exact Hleft.
  - destruct (p_first l); lia.
  - intros a Ha Hr. destruct (decide (a + frames <= p_i l)) as [|Hn]; [by apply Hnone|].
    exists (p_i l - p_counter l - 1). split; [lia|]. destruct Hleft as [E|E]; [lia|exact E].
Qed.

Lemma scanning_step_used s frames l : scanning s frames l -> p_i l < total_frames s ->
  frame_used s (p_i l) = true ->
  scanning s frames (mkScan (p_i l + 1) 0 (Some 0) 0 true).
Proof.
  intros [Hi Hc Hlo Hfree Hleft Hst Hnone] Hlt Hu. split; cbn; try lia.
  - intros j Hj. lia.
  - right. replace (p_i l + 1 - 0 - 1) with (p_i l) by lia. exact Hu.
  - intros a Ha Hr. destruct (decide (a + frames <= p_i l)) as [|Hn]; [by apply Hnone|].
    exists (p_i l). split; [lia|exact Hu].
Qed.

Lemma pool_scan_wp s frames : inv s -> 0 < frames -> word frames ->
  wp (loop (S (Z.to_nat (total_frames s - kernel_end_idx s)))
        (pool_body (total_frames s) frames) (mkScan (kernel_end_idx s) 0 None 0 true))
     (fun l s' => s' = s /\ scanned s frames l) s.
Proof.
  intros I Hf Hw. unfold word in Hw. pose proof (inv_total _ I) as Ht. pose proof (inv_kernel _ I) as Hk.
  apply wp_loop with (I := fun l s' => s' = s /\ scanning s frames l)
    (measure := fun l _ => Z.to_nat (total_frames s - p_i l)); [|split; [done|]|cbn; lia].
  - intros l s' (-> & Hsc). pose proof Hsc as [Hi Hc Hlo Hfree Hleft Hst Hnone].
    unfold pool_body. destruct (Z.ltb_spec (p_i l) (total_frames s)) as [Hlt|Hge].
    + apply wp_bind. eapply wp_intro; [apply bit_get_spec; lia|]. rewrite bit_get_zero.
      rewrite !w32_small by lia. destruct (frame_used s (p_i l)) eqn:Hu; cbn [negb].
      * apply wp_ret. split; [split; [done|by apply scanning_step_used]|cbn; lia].
      * destruct (Z.eqb_spec (p_counter l + 1) frames) as [E|Hne]; apply wp_ret.
        -- split; [done|]. left. cbn. assert (Es : (if p_first l then p_i l else p_start l) = p_i l - p_counter l)
             by (destruct (p_first l); lia).
           rewrite Es. split_and!; try lia; [f_equal; lia|].
           intros j Hj. destruct (decide (j = p_i l)) as [->|]; [done|]. apply Hfree. lia.
        -- split; [split; [done|by apply scanning_step_free]|cbn; lia].
    + apply wp_ret. split; [done|]. right. split; [lia|].
      replace (total_frames s) with (p_i l) by lia. exact Hnone.
  - split; cbn; try lia; try done.
    + intros j Hj. lia.
    + intros a Ha Hr. lia.
Qed.

(** The frames [\[lo, hi)] all went from free to used; nothing else changed. *)
Definition pool_marked (s s' : pmm) (lo hi : Z) : Prop :=
  (forall j, 0 <= j -> frame_used s' j = bool_decide (lo <= j < hi) || frame_used s j) /\
  total_frames s' = total_frames s /\ kernel_end_idx s' = kernel_end_idx s /\
  free_frames s' = free_frames s - (hi - lo) /\ inv s'.

Lemma pool_mark_wp s lo n : inv s -> 0 <= lo -> 0 <= n -> lo + n <= total_frames s ->
  all_free s lo (lo + n) ->
  wp (for_ (Z.to_nat n) lo _IDX_SET) (fun _ s' => pool_marked s s' lo (lo + n)) s.
Proof.
  intros I Hlo Hn Hhi Hfree. pose proof (inv_total _ I) as Ht.
  eapply wp_mono; [apply wp_for with (I := fun i s' => pool_marked s s' lo i)|].
  - intros i s1 Hi (Hu & Htot & Hke & Hf & I1). pose proof (inv_free_bounds _ I1) as Hfb.
    eapply wp_mono; [apply idx_set_spec; lia|]. intros [] s2 (Hb & Hl & Hf2).
    assert (Hui : frame_used s1 i = false).
    { rewrite Hu by lia. rewrite bool_decide_eq_false_2 by lia. apply Hfree. lia. }
    destruct (inv_mark s1 s2 i I1 ltac:(lia) Hui Hb Hf2 ltac:(rewrite Hl; apply (inv_last _ I1))) as [I2 Hpos].
    split_and!; [|destruct Hb as (_ & -> & _); done|destruct Hb as (_ & _ & ->); done| |done].
    + intros j Hj. rewrite (bit_is_used _ _ _ _ _ Hb), Hu by lia.
      case_decide; repeat case_bool_decide; done || lia.
    + rewrite Hf2, w32_small by lia. lia.
  - split_and!; try done; [|lia]. intros j Hj. rewrite bool_decide_eq_false_2 by lia. done.
  - intros [] s'. replace (lo + Z.of_nat (Z.to_nat n)) with (lo + n) by lia. done.
Qed.

Lemma get_pool_wp s frames : inv s -> 0 < frames -> word frames ->
  wp (pmm_get_pool frames) (fun r s' =>
    (exists i, r = i * FRAME_SIZE /\ kernel_end_idx s < i /\ i + frames <= total_frames s /\
       all_free s i (i + frames) /\ pool_marked s s' i (i + frames)) \/
    (r = 0 /\ s' = s /\ no_run s (kernel_end_idx s) (total_frames s) frames)) s.
Proof.
  intros I Hf Hw. pose proof (inv_total _ I) as Ht. pose proof (inv_kernel _ I) as Hk.
  unfold pmm_get_pool. wpsteps. eapply wp_mono; [by apply pool_scan_wp|].
  intros l s' (-> & [(Ec & Ee & Hlo & Hhi & Hfree)|(Hne & Hnone)]).
  - rewrite Ec, Z.eqb_refl, Ee.
    replace (p_start l + frames - 1 - p_start l + 1) with frames by lia.
    apply wp_bind. eapply wp_mono; [apply pool_mark_wp; done || lia|].
    intros [] s1 Hm. apply wp_ret. left. exists (p_start l).
    assert (kernel_end_idx s < p_start l).
    { destruct (decide (p_start l = kernel_end_idx s)) as [E|]; [|lia].
      pose proof (inv_reserved _ I (p_start l) ltac:(lia)) as E'. rewrite (Hfree (p_start l)) in E' by lia. done. }
    unfold FRAME_SIZE, PAGE_SIZE. split_and!; try done. apply w32_small. lia.
  - rewrite (proj2 (Z.eqb_neq _ _)) by done. apply wp_ret. right. done.
Qed.

(** Releasing a pool: every frame of it was in use. *)
Definition pool_unmarked (s s' : pmm) (lo hi : Z) : Prop :=
  (forall j, 0 <= j -> frame_used s' j = negb (bool_decide (lo <= j < hi)) && frame_used s j) /\
  total_frames s' = total_frames s /\ kernel_end_idx s' = kernel_end_idx s /\
  free_frames s' = free_frames s + (hi - lo) /\ inv s'.

Lemma free_pool_wp s lo n : inv s -> kernel_end_idx s < lo -> 0 <= n -> lo + n <= total_frames s ->
  (forall j, lo <= j < lo + n -> frame_used s j = true) ->
  wp (pmm_free_pool (lo * FRAME_SIZE) n) (fun _ s' => pool_unmarked s s' lo (lo + n)) s.
Proof.
  intros I Hlo Hn Hhi Hused. pose proof (inv_total _ I) as Ht. pose proof (inv_kernel _ I) as Hk.
  unfold pmm_free_pool. rewrite Z.div_mul by done.
  eapply wp_mono; [apply wp_for with (I := fun i s' => pool_unmarked s s' lo i)|].
  - intros i s1 Hi (Hu & Htot & Hke & Hf & I1). pose proof (inv_free_bounds _ I1) as Hfb.
    wpsteps. rewrite (proj2 (Z.ltb_lt _ _)) by lia. apply wp_bind.
    eapply wp_mono; [apply idx_unset_spec; lia|]. intros [] s2 (Hb & Hl & Hf2). apply wp_mod.
    assert (Hui : frame_used s1 i = true).
    { rewrite Hu by lia. rewrite bool_decide_eq_false_2 by lia. apply Hused. lia. }
    assert (Hb' : bit_is s1 (set_last_free i s2) i false) by exact Hb.
    pose proof (inv_unmark s1 _ i I1 ltac:(lia) Hui Hb' Hf2 ltac:(cbn; lia)) as I2.
    pose proof (inv_free_bounds _ I2) as Hfb2. destruct Hb' as (Hbu & Hbt & Hbk).
    split_and!; [|rewrite Hbt; done|rewrite Hbk; done| |done].
    + intros j Hj. rewrite Hbu, Hu by lia. case_decide; repeat case_bool_decide; done || lia.
    + change (free_frames (set_last_free i s2)) with (free_frames s2) in *.
      rewrite Hbt in Hfb2. rewrite Hf2 in *. unfold w32 in *. Z.div_mod_to_equations. lia.
  - split_and!; try done; [|lia]. intros j Hj. rewrite bool_decide_eq_false_2 by lia. done.
  - intros [] s'. replace (lo + Z.of_nat (Z.to_nat n)) with (lo + n) by lia. done.
Qed.

(** ** The properties of the physical memory manager *)

Section examples.
(** A machine with 64 frames whose first 9 are reserved. *)
Definition pmm_64 : pmm :=
  match pmm_init (64 * 4096) 0 (9 * 4096 - 100) pmm_boot with
  | Ok (_, s) => s
  | _ => pmm_boot
  end.

Lemma pmm_64_inv : inv pmm_64.
Proof.
  destruct (wp_run _ _ _ (pmm_init_wp (64 * 4096) (9 * 4096 - 100) ltac:(vm_compute; split; congruence)
     ltac:(vm_compute; split; congruence))) as (a & s & E & I & _).
  unfold pmm_64. rewrite E. exact I.
Defined.
End examples.

(** C25: in every well-formed state the frame allocator returns: it panics
    exactly when the counter says that memory ran out, and otherwise hands out
    the address of a frame above the kernel that was free, marks that frame and
    no other, and keeps the invariant (so the recursive retry of the code never
    runs forever). *)
Theorem pmm_get_frame_total (s : pmm) : inv s ->
  (free_frames s = 0 /\ pmm_get_frame s = Panic "[PMM] System run out of memory!") \/
  (exists i s', pmm_get_frame s = Ok (i * FRAME_SIZE, s') /\
     kernel_end_idx s < i < total_frames s /\ frame_used s i = false /\
     (forall j, 0 <= j -> frame_used s' j = (bool_decide (j = i) || frame_used s j)) /\
     free_frames s' = free_frames s - 1 /\ inv s').
Proof.
  intros I. pose proof (inv_free_bounds _ I). destruct (decide (free_frames s = 0)) as [E|Hne].
  - left. split; [done|]. unfold pmm_get_frame. cbn [get_frame_rec]. unfold bind_, get_.
    rewrite E. reflexivity.
  - right. destruct (wp_run _ _ _ (get_frame_wp s I ltac:(lia))) as (r & s' & E & i & -> & Hgot).
    destruct Hgot as (Hi & Hu & Hb & I' & Hf). exists i, s'. split_and!; try done; try lia.
    intros j Hj. rewrite (bit_is_used _ _ _ _ _ Hb) by lia. by case_decide; case_bool_decide.
Qed.

Lemma pmm_get_frame_total_witness : inv pmm_64 /\ exists i s', pmm_get_frame pmm_64 = Ok (i * FRAME_SIZE, s') /\ inv s'.
Proof.
  split; [exact pmm_64_inv|].
  destruct (pmm_get_frame_total pmm_64 pmm_64_inv) as [[E _]|(i & s' & E & _ & _ & _ & _ & I')].
  - exfalso. vm_compute in E. discriminate.
  - exists i, s'. split; [exact E|exact I'].
Defined.

(** Start-up marks exactly the frames of the reserved range (rounded up to
    a whole frame) and sets the counters and scan bounds that every later
    operation relies on. *)
Lemma pmm_init_establishes_inv (total_memory reserved_end : Z) :
  word total_memory ->
  0 < (reserved_end + (FRAME_SIZE - 1)) / FRAME_SIZE < total_memory / FRAME_SIZE ->
  exists s, pmm_init total_memory 0 reserved_end pmm_boot = Ok (tt, s) /\ inv s /\
    total_frames s = total_memory / FRAME_SIZE /\
    (forall j, 0 <= j -> frame_used s j = true <-> j * FRAME_SIZE < reserved_end).
Proof.
  intros Hw Hn. destruct (wp_run _ _ _ (pmm_init_wp total_memory reserved_end Hw Hn))
    as ([] & s & E & I & Ht & Hk & Hf & Hu).
  exists s. split_and!; try done. intros j Hj. rewrite Hu by done. rewrite bool_decide_eq_true.
  unfold FRAME_SIZE, PAGE_SIZE. clear. Z.div_mod_to_equations. lia.
Qed.

Lemma pmm_init_establishes_inv_witness :
  exists s, pmm_init (64 * 4096) 0 (9 * 4096 - 100) pmm_boot = Ok (tt, s) /\ inv s /\ frame_used s 8 = true.
Proof.
  destruct (pmm_init_establishes_inv (64 * 4096) (9 * 4096 - 100)) as (s & E & I & _ & Hu).
  - vm_compute. split; congruence.
  - vm_compute. split; congruence.
  - exists s. split; [exact E|]. split; [exact I|]. apply Hu; vm_compute; congruence.
Defined.

(** Allocating a frame and releasing it gives back the state's used
    frames and counter. *)
Lemma pmm_frame_roundtrip (s : pmm) : inv s -> 0 < free_frames s ->
  exists addr s1 s2, pmm_get_frame s = Ok (addr, s1) /\ pmm_free_frame addr s1 = Ok (tt, s2) /\
    (forall j, 0 <= j -> frame_used s2 j = frame_used s j) /\
    free_frames s2 = free_frames s /\ inv s2.
Proof.
  intros I Hpos. pose proof (inv_kernel _ I) as Hk.
  destruct (wp_run _ _ _ (get_frame_wp s I Hpos)) as (r & s1 & E & i & -> & Hi & Hu & Hb & I1 & Hf1).
  destruct Hb as (Hbu & Hbt & Hbk).
  assert (Hu1 : frame_used s1 i = true) by (rewrite Hbu, decide_True by lia; done).
  destruct (wp_run _ _ _ (free_frame_wp s1 i I1 ltac:(lia) Hu1)) as ([] & s2 & E2 & I2 & Hb2 & Hf2 & _).
  exists (i * FRAME_SIZE), s1, s2. split_and!; try done; try lia.
  intros j Hj. rewrite (bit_is_used _ _ _ _ _ Hb2), Hbu by lia. case_decide; [by subst|done].
Qed.

Lemma pmm_frame_roundtrip_witness : inv pmm_64 /\ exists addr s1 s2,
  pmm_get_frame pmm_64 = Ok (addr, s1) /\ pmm_free_frame addr s1 = Ok (tt, s2) /\ inv s2.
Proof.
  split; [exact pmm_64_inv|].
  destruct (pmm_frame_roundtrip pmm_64 pmm_64_inv ltac:(vm_compute; congruence))
    as (addr & s1 & s2 & E1 & E2 & _ & _ & I2).
  exists addr, s1, s2. split; [exact E1|]. split; [exact E2|exact I2].
Defined.

(** C26: a pool request either returns the base of that many consecutive
    frames, all free before and all (and only they) used after, or returns 0 and
    changes nothing, and then no such run exists above the kernel. *)
Theorem pmm_get_pool_sound_and_complete (s : pmm) (frames : Z) :
  inv s -> 0 < frames -> word frames ->
  (exists i s', pmm_get_pool frames s = Ok (i * FRAME_SIZE, s') /\
     kernel_end_idx s < i /\ i + frames <= total_frames s /\
     (forall j, i <= j < i + frames -> frame_used s j = false) /\
     (forall j, 0 <= j -> frame_used s' j = (bool_decide (i <= j < i + frames) || frame_used s j)) /\
     free_frames s' = free_frames s - frames /\ inv s') \/
  (pmm_get_pool frames s = Ok (0, s) /\
     forall a, kernel_end_idx s <= a -> a + frames <= total_frames s ->
       exists j, a <= j < a + frames /\ frame_used s j = true).
Proof.
  intros I Hf Hw.
  destruct (wp_run _ _ _ (get_pool_wp s frames I Hf Hw))
    as (r & s' & E & [(i & -> & Hk & Ht & Hfree & Hm)|(-> & -> & Hnone)]).
  - left. exists i, s'. destruct Hm as (Hu & _ & _ & Hff & I'). split_and!; try done. lia.
  - right. done.
Qed.

Lemma pmm_get_pool_sound_and_complete_witness : inv pmm_64 /\
  exists i s', pmm_get_pool 5 pmm_64 = Ok (i * FRAME_SIZE, s') /\ inv s'.
Proof.
  split; [exact pmm_64_inv|].
  destruct (pmm_get_pool_sound_and_complete pmm_64 5 pmm_64_inv) as [(i & s' & E & _ & _ & _ & _ & _ & I')|[E _]].
  - lia.
  - vm_compute. split; congruence.
  - exists i, s'. split; [exact E|exact I'].
  - exfalso. vm_compute in E. discriminate.
Defined.

(** Releasing a pool that was handed out restores the used frames and
    the counter. *)
Lemma pmm_pool_roundtrip (s s1 : pmm) (frames addr : Z) :
  inv s -> 0 < frames -> word frames -> pmm_get_pool frames s = Ok (addr, s1) -> addr <> 0 ->
  exists s2, pmm_free_pool addr frames s1 = Ok (tt, s2) /\
    (forall j, 0 <= j -> frame_used s2 j = frame_used s j) /\
    free_frames s2 = free_frames s /\ inv s2.
Proof.
  intros I Hf Hw E Hne. pose proof (inv_kernel _ I) as Hk0.
  destruct (wp_run _ _ _ (get_pool_wp s frames I Hf Hw))
    as (r & s' & E' & [(i & -> & Hk & Ht & Hfree & Hm)|(-> & -> & Hnone)]);
    rewrite E in E'; injection E' as -> ->; [|done].
  destruct Hm as (Hu & Htot & Hke & Hff & I').
  assert (H1 : kernel_end_idx s' < i) by lia.
  assert (H2 : i + frames <= total_frames s') by lia.
  destruct (wp_run _ _ _ (free_pool_wp s' i frames I' H1 ltac:(lia) H2
    ltac:(intros j Hj; rewrite Hu, bool_decide_eq_true_2 by lia; done)))
    as ([] & s2 & E2 & Hu2 & Htot2 & Hke2 & Hff2 & I2).
  exists s2. split_and!; try done; [|lia].
  intros j Hj. rewrite Hu2, Hu by lia. case_bool_decide as D; [|done]. by rewrite Hfree.
Qed.

Lemma pmm_pool_roundtrip_witness : exists s1 s2,
  pmm_get_pool 5 pmm_64 = Ok (9 * FRAME_SIZE, s1) /\ pmm_free_pool (9 * FRAME_SIZE) 5 s1 = Ok (tt, s2).
Proof.
  destruct (pmm_get_pool 5 pmm_64) as [[a s1]| | |] eqn:E; [|vm_compute in E; discriminate..].
  assert (Ea : a = 9 * FRAME_SIZE) by (vm_compute in E; injection E as <- _; reflexivity).
  subst a. destruct (pmm_pool_roundtrip pmm_64 s1 5 (9 * FRAME_SIZE) pmm_64_inv ltac:(lia)
    ltac:(vm_compute; split; congruence) E ltac:(vm_compute; congruence)) as (s2 & E2 & _).
  exists s1, s2. split; [reflexivity|exact E2].
Defined.

(** The release routine has no double-free check: releasing a frame
    that is already free frees nothing, still counts one more free frame and so
    leaves a counter that no longer describes the bitmap. *)
Lemma pmm_double_free_breaks_count (s : pmm) (i : Z) :
  inv s -> kernel_end_idx s < i < total_frames s -> frame_used s i = false ->
  exists s', pmm_free_frame (i * FRAME_SIZE) s = Ok (tt, s') /\
    (forall j, 0 <= j -> frame_used s' j = frame_used s j) /\
    free_frames s' = free_frames s + 1 /\ ~ inv s'.
Proof.
  intros I Hi Hu. pose proof (inv_total _ I). pose proof (inv_kernel _ I). pose proof (inv_free_bounds _ I).
  destruct (wp_run _ _ _ (free_frame_unused s i ltac:(lia) ltac:(lia) Hu ltac:(lia) ltac:(lia)))
    as ([] & s' & E & Hsame & Ht & Hf).
  exists s'. split_and!; try done. intros I'. pose proof (inv_free _ I') as E'.
  rewrite Ht, (free_below_ext _ (frame_used s)), <- (inv_free _ I) in E' by (intros; apply Hsame; lia). lia.
Qed.

Lemma pmm_double_free_breaks_count_witness : exists s',
  pmm_free_frame (20 * FRAME_SIZE) pmm_64 = Ok (tt, s') /\ ~ inv s'.
Proof.
  destruct (pmm_double_free_breaks_count pmm_64 20 pmm_64_inv) as (s' & E & _ & _ & Hn).
  - vm_compute. split; congruence.
  - vm_compute. reflexivity.
  - exists s'. split; [exact E|exact Hn].
Defined.
