(* ===== verification/Kmalloc.v ===== *)
(** * Kernel heap ([src/src/kernel/klib/kmalloc.c], [kfree.c])

    The heap is a run of chunks, each with a 16-byte header, followed by the
    void chunk from which new chunks are cut.  Freed chunks go to one of five
    LIFO bins of one exact size (32, 48, 64, 80, 96) or to a doubly linked
    bin kept in increasing size order.

    The model keeps the headers in a store indexed by address.  A header is
    only ever brought into existence by [_create_chunk], which overwrites
    three fields and leaves the others as the memory happens to be: that
    content is the parameter [raw].  A header access at any other address is
    a [Fault]. *)

From S2P Require Import Prelude Dlist.

#[local] Open Scope Z_scope.

Record chunk_header := mkChunk {
  c_size : Z;       (* 30 bits *)
  c_free : Z;       (* 1 bit *)
  c_prev_free : Z;  (* 1 bit *)
  c_prev_size : Z;
  c_prev : Z;
  c_next : Z;
}.

Definition chunk_set_size v c := mkChunk v (c_free c) (c_prev_free c) (c_prev_size c) (c_prev c) (c_next c).
Definition chunk_set_free v c := mkChunk (c_size c) v (c_prev_free c) (c_prev_size c) (c_prev c) (c_next c).
Definition chunk_set_adj pf ps c := mkChunk (c_size c) (c_free c) pf ps (c_prev c) (c_next c).
Definition chunk_set_prev v c := mkChunk (c_size c) (c_free c) (c_prev_free c) (c_prev_size c) v (c_next c).
Definition chunk_set_next v c := mkChunk (c_size c) (c_free c) (c_prev_free c) (c_prev_size c) (c_prev c) v.

#[global] Instance chunk_linked : Linked chunk_header := { l_prev := c_prev; l_next := c_next }.

Record bin_info := mkBin { stored_size : Z; counter : Z; b_first : Z; b_last : Z }.

Definition bin_set_counter v b := mkBin (stored_size b) v (b_first b) (b_last b).
Definition bin_set_first v b := mkBin (stored_size b) (counter b) v (b_last b).
Definition bin_set_last v b := mkBin (stored_size b) (counter b) (b_first b) v.

Definition SIZEBINS : nat := 5.
Definition BINS_QUANTITY : nat := 6.
Definition SORTEDBIN_IDX : nat := 5.
Definition CHUNK_ALIGNMENT : Z := 0x10.
Definition MINIMAL_CHUNK_SIZE : Z := 16.
Definition CHUNK_DATA_OFFSET : Z := 8.
Definition chunk2mem (p : Z) : Z := p +w CHUNK_DATA_OFFSET.
Definition mem2chunk (mem : Z) : Z := mem -w CHUNK_DATA_OFFSET.

(** [struct malloc_state] and the memory it describes. *)
Record malloc_state := mkMs {
  is_initialized : bool;
  bins : list bin_info;
  void_chunk : Z;
  heap : gmap Z chunk_header;
}.

Definition ms_set_init v s := mkMs v (bins s) (void_chunk s) (heap s).
Definition ms_set_bins v s := mkMs (is_initialized s) v (void_chunk s) (heap s).
Definition ms_set_void v s := mkMs (is_initialized s) (bins s) v (heap s).
Definition ms_set_heap v s := mkMs (is_initialized s) (bins s) (void_chunk s) v.

Definition zero_bin : bin_info := mkBin 0 0 0 0.

(** The zero-initialised global of the C file. *)
Definition ms_boot : malloc_state := mkMs false (replicate BINS_QUANTITY zero_bin) 0 ∅.

Definition kmem := M malloc_state.

Definition ld (p : Z) : kmem chunk_header := fun s =>
  match heap s !! p with
  | Some c => if p =? 0 then Fault else Ok (c, s)
  | None => Fault
  end.

Definition st (p : Z) (c : chunk_header) : kmem unit :=
  mod_ (fun s => ms_set_heap (<[p := c]> (heap s)) s).

Definition upd (p : Z) (f : chunk_header -> chunk_header) : kmem unit :=
  do c <- ld p; st p (f c).

Definition get_bin (i : nat) : kmem bin_info := fun s =>
  match bins s !! i with
  | Some b => Ok (b, s)
  | None => Fault
  end.

Definition upd_bin (i : nat) (f : bin_info -> bin_info) : kmem unit :=
  do b <- get_bin i; mod_ (fun s => ms_set_bins (<[i := f b]> (bins s)) s).

(** ** kfree.c *)

Fixpoint find_bin_from (n i : nat) (size : Z) (bs : list bin_info) : option nat :=
  match n with
  | O => None
  | S n' => match bs !! i with
            | Some b => if stored_size b =? size then Some i else find_bin_from n' (S i) size bs
            | None => None
            end
  end.

(** The index of the bin, [None] for the C function's NULL. *)
Definition _find_suitable_bin (size : Z) : kmem (option nat) :=
  do bs <- get_ bins; ret_ (find_bin_from SIZEBINS 0 size bs).

Definition _push_to_sizebin (sizebin : nat) (chunk : Z) : kmem unit :=
  do b <- get_bin sizebin;
  upd chunk (chunk_set_next (b_first b)) ;;;
  upd_bin sizebin (bin_set_first chunk) ;;;
  upd_bin sizebin (fun b => bin_set_counter (counter b +w 1) b).

(** Link [chunk] in front of the bin whose first chunk is [tmp]. *)
Definition sorted_front (chunk tmp : Z) : kmem unit :=
  upd_bin SORTEDBIN_IDX (bin_set_first chunk) ;;;
  upd chunk (chunk_set_next tmp) ;;;
  upd chunk (chunk_set_prev 0) ;;;
  upd tmp (chunk_set_prev chunk).

(** Link [chunk] after the bin's last chunk [tmp]. *)
Definition sorted_back (chunk tmp : Z) : kmem unit :=
  upd_bin SORTEDBIN_IDX (bin_set_last chunk) ;;;
  upd chunk (chunk_set_next 0) ;;;
  upd chunk (chunk_set_prev tmp) ;;;
  upd tmp (chunk_set_next chunk).

(** The search for the place inside the list. *)
Definition sorted_middle (chunk tmp : Z) : kmem unit :=
  do h <- get_ heap;
  loop (S (size h)) (fun tmp =>
    if tmp =? 0 then ret_ (inr tt)
    else
      do t <- ld tmp;
      if c_next t =? 0 then ret_ (inr tt)
      else
        do c <- ld chunk;
        do nx <- ld (c_next t);
        if (c_size t <=? c_size c) && (c_size c <=? c_size nx) then
          upd chunk (chunk_set_prev tmp) ;;;
          upd chunk (chunk_set_next (c_next t)) ;;;
          upd (c_next t) (chunk_set_prev chunk) ;;;
          upd tmp (chunk_set_next chunk) ;;;
          ret_ (inr tt)
        else ret_ (inl (c_next t))) tmp.

Definition _insert_in_sortedbin (chunk : Z) : kmem unit :=
  do sortedbin <- get_bin SORTEDBIN_IDX;
  let tmp := b_first sortedbin in
  (if counter sortedbin =? 0 then
     upd_bin SORTEDBIN_IDX (bin_set_first chunk) ;;;
     upd_bin SORTEDBIN_IDX (bin_set_last chunk) ;;;
     upd chunk (chunk_set_next 0) ;;;
     upd chunk (chunk_set_prev 0)
   else
     do t <- ld tmp;
     do c <- ld chunk;
     if counter sortedbin =? 1 then
       if c_size c <? c_size t then sorted_front chunk tmp else sorted_back chunk tmp
     else if c_size c <? c_size t then sorted_front chunk tmp
     else
       do l <- ld (b_last sortedbin);
       if c_size l <=? c_size c then sorted_back chunk (b_last sortedbin)
       else sorted_middle chunk tmp) ;;;
  upd_bin SORTEDBIN_IDX (fun b => bin_set_counter (counter b +w 1) b).

Definition kfree (ptr : Z) : kmem unit :=
  if ptr =? 0 then ret_ tt
  else
    let chunk := mem2chunk ptr in
    do init <- get_ is_initialized;
    if negb init then panic "[ERROR] kfree called without malloc initialization!"
    else
      do c <- ld chunk;
      if negb (c_free c =? 0) then panic "[BUG] kfree double free prevention"
      else
        do dest_bin <- _find_suitable_bin (c_size c);
        match dest_bin with
        | None => _insert_in_sortedbin chunk
        | Some i => _push_to_sizebin i chunk
        end ;;;
        do c <- ld chunk;
        let next_chunk := chunk +w c_size c in
        do void <- get_ void_chunk;
        (when next_chunk <? void then_ upd next_chunk (chunk_set_adj 1 (c_size c))) ;;;
        upd chunk (chunk_set_free 1).

(** ** kmalloc.c *)

Section kmalloc.
(** [kernel_end] is set at boot; [raw] is the content of memory that held no
    header before. *)
Context (kernel_end : Z) (raw : Z -> chunk_header).

Definition VM_KMALLOC_START : Z := kernel_end +w 0x1000.
Definition VM_KMALLOC_END : Z := 0xd0000000.

(** [VM_KMALLOC_END - VM_KMALLOC_START] as the preprocessor writes it: the
    macro body [kernel_end + 0x1000] has no parentheses. *)
Definition kmalloc_area_size : Z := VM_KMALLOC_END -w kernel_end +w 0x1000.

Definition _create_chunk (mem_addr aligned_size : Z) : kmem Z :=
  do h <- get_ heap;
  let old := default (raw mem_addr) (h !! mem_addr) in
  let size := if aligned_size <? MINIMAL_CHUNK_SIZE then MINIMAL_CHUNK_SIZE
              else aligned_size mod 2 ^ 30 in
  st mem_addr (mkChunk size 0 0 (c_prev_size old) (c_prev old) (c_next old)) ;;;
  ret_ mem_addr.

Definition __malloc_init_bin (bin : nat) (stored : Z) : kmem unit :=
  upd_bin bin (fun _ => mkBin stored 0 0 0).

Definition _malloc_init : kmem unit :=
  for_ SIZEBINS 0 (fun i => __malloc_init_bin (Z.to_nat i) (32 + i * CHUNK_ALIGNMENT)) ;;;
  __malloc_init_bin SORTEDBIN_IDX 0 ;;;
  do v <- _create_chunk VM_KMALLOC_START kmalloc_area_size;
  mod_ (ms_set_void v) ;;;
  upd v (chunk_set_free 1) ;;;
  mod_ (ms_set_init true).

Definition _pop_from_sizebin (i : nat) : kmem Z :=
  do bin <- get_bin i;
  let chunk := b_first bin in
  (if 1 <? counter bin then
     do c <- ld chunk; upd_bin i (bin_set_first (c_next c))
   else upd_bin i (bin_set_first 0)) ;;;
  upd_bin i (fun b => bin_set_counter (counter b -w 1) b) ;;;
  ret_ chunk.

Definition _earse_from_sortedbin (chunk : Z) : kmem unit :=
  do sortedbin <- get_bin SORTEDBIN_IDX;
  do ' (prev_chunk, next_chunk) <-
     (if counter sortedbin =? 1 then ret_ (0, 0)
      else do c <- ld chunk; ret_ (c_prev c, c_next c));
  (if prev_chunk =? 0 then upd_bin SORTEDBIN_IDX (bin_set_first next_chunk)
   else upd prev_chunk (chunk_set_next next_chunk)) ;;;
  (if next_chunk =? 0 then upd_bin SORTEDBIN_IDX (bin_set_last prev_chunk)
   else upd next_chunk (chunk_set_prev prev_chunk)) ;;;
  upd_bin SORTEDBIN_IDX (fun b => bin_set_counter (counter b -w 1) b).

Definition _split_chunk (chunk_to_split new_size : Z) : kmem Z :=
  do c <- ld chunk_to_split;
  (when MINIMAL_CHUNK_SIZE <=? c_size c -w new_size then_
     (let old_size := c_size c in
      do p <- _create_chunk chunk_to_split new_size;
      do chunk_to_free <- _create_chunk (chunk_to_split +w new_size) (old_size -w new_size);
      kfree (chunk2mem chunk_to_free))) ;;;
  ret_ chunk_to_split.

(** The two searches of [_find_free_chunk]: NULL (0) when both fail. *)
Definition search_sizebins (sought_size : Z) : kmem Z :=
  do bs <- get_ bins;
  match find_bin_from SIZEBINS 0 sought_size bs with
  | None => ret_ 0
  | Some i => do b <- get_bin i;
              if 0 <? counter b then _pop_from_sizebin i else ret_ 0
  end.

Definition search_sortedbin (sought_size : Z) : kmem Z :=
  do sortedbin <- get_bin SORTEDBIN_IDX;
  if 0 <? counter sortedbin then
    do found <- lift_ (fun s => walk (heap s) (fun _ c => sought_size <=? c_size c) (b_first sortedbin));
    (when negb (found =? 0) then_ _earse_from_sortedbin found) ;;;
    ret_ found
  else ret_ 0.

Definition _find_free_chunk (sought_size : Z) : kmem Z :=
  do found <- search_sizebins sought_size;
  do found <- (if found =? 0 then search_sortedbin sought_size else ret_ found);
  if found =? 0 then ret_ 0
  else
    do found <- _split_chunk found sought_size;
    do c <- ld found;
    upd (found +w c_size c) (chunk_set_adj 0 0) ;;;
    upd found (chunk_set_free 0) ;;;
    ret_ found.

Definition _void_chunk_update (new_addr new_size : Z) : kmem unit :=
  do v <- _create_chunk new_addr new_size;
  mod_ (ms_set_void v) ;;;
  upd v (chunk_set_free 1).

(** Rounding of a request to whole chunks, with room for the header. *)
Definition align_request (size : Z) : Z :=
  let aligned_size :=
    if 0 <? size mod CHUNK_ALIGNMENT
    then size -w (size mod CHUNK_ALIGNMENT) +w CHUNK_ALIGNMENT
    else size in
  if aligned_size <? size +w CHUNK_DATA_OFFSET
  then aligned_size +w CHUNK_ALIGNMENT else aligned_size.

Definition kmalloc (size : Z) : kmem Z :=
  do init <- get_ is_initialized;
  (when negb init then_ _malloc_init) ;;;
  do void <- get_ void_chunk;
  let aligned_size := align_request size in
  do new_chunk <- _find_free_chunk aligned_size;
  do new_chunk <-
    (if new_chunk =? 0 then
       do v <- ld void;
       if aligned_size <=? c_size v then
         let tmp_size := c_size v in
         do nc <- _create_chunk void aligned_size;
         _void_chunk_update (void +w aligned_size) (tmp_size -w aligned_size) ;;;
         ret_ nc
       else ret_ 0
     else ret_ new_chunk);
  if new_chunk =? 0 then panic "[PANIC] kmalloc run out of memory!"
  else ret_ (chunk2mem new_chunk).
End kmalloc.
