(* ===== verification/KmallocSpec.v ===== *)
(** * Correctness of the kernel heap

    Abstract state: the list [T] of chunk addresses that tile the heap from
    [VM_KMALLOC_START] to the void chunk, and for each bin [i] the list
    [L i] of chunks it holds.  [inv] relates them to the headers; [kfree]
    and [kmalloc] are shown to keep it and to change the set of live chunks
    by exactly one chunk. *)

From stdpp Require Import sorting.
From S2P Require Import Prelude Dlist Kmalloc.

#[local] Open Scope Z_scope.

(** Size and free bit: what the tiling and the bins' contents depend on. *)
Definition geo (h : gmap Z chunk_header) (p : Z) : option (Z * Z) :=
  (fun c => (c_size c, c_free c)) <$> h !! p.

Definition sz (h : gmap Z chunk_header) (p : Z) : Z := from_option fst 0 (geo h p).

Definition by_size (h : gmap Z chunk_header) (p q : Z) : Prop := sz h p <= sz h q.

Lemma geo_insert h p c q :
  geo (<[p := c]> h) q = if decide (p = q) then Some (c_size c, c_free c) else geo h q.
Proof. unfold geo. rewrite lookup_insert. by case_decide. Qed.

Lemma geo_insert_same h p c c' q : h !! p = Some c -> c_size c' = c_size c ->
  c_free c' = c_free c -> geo (<[p := c']> h) q = geo h q.
Proof.
  intros E E1 E2. rewrite geo_insert. case_decide as D; [|done].
  subst. unfold geo. rewrite E. cbn. by rewrite E1, E2.
Qed.

Lemma sz_ext h h' p : geo h' p = geo h p -> sz h' p = sz h p.
Proof. unfold sz. by intros ->. Qed.

Lemma sz_lookup h p c : h !! p = Some c -> sz h p = c_size c.
Proof. unfold sz, geo. by intros ->. Qed.

Lemma sorted_ext h h' l : (forall p, p ∈ l -> sz h' p = sz h p) ->
  StronglySorted (by_size h) l -> StronglySorted (by_size h') l.
Proof.
  intros Hg Hs. induction Hs as [|p l Hs IH Hall]; constructor.
  - apply IH. intros q Hq. apply Hg. by right.
  - rewrite Forall_forall in Hall |- *. intros q Hq. unfold by_size.
    rewrite !Hg by (by left || by right). by apply Hall.
Qed.

Lemma sorted_insert h l1 p l2 : StronglySorted (by_size h) (l1 ++ l2) ->
  (forall q, q ∈ l1 -> sz h q <= sz h p) -> (forall q, q ∈ l2 -> sz h p <= sz h q) ->
  StronglySorted (by_size h) (l1 ++ p :: l2).
Proof.
  rewrite !StronglySorted_app. intros (H12 & H1 & H2) Hl Hr. split_and!; [|done|].
  - intros x y Hx [->|Hy]%elem_of_cons; [by apply Hl|by apply H12].
  - constructor; [done|]. by apply Forall_forall.
Qed.

Lemma sorted_remove h l1 p l2 : StronglySorted (by_size h) (l1 ++ p :: l2) ->
  StronglySorted (by_size h) (l1 ++ l2).
Proof.
  rewrite !StronglySorted_app. intros (H12 & H1 & H2). apply StronglySorted_inv in H2 as [H2 _].
  split_and!; [|done..]. intros x y Hx Hy. apply H12; [done|by right].
Qed.

(** ** Rules for the header and bin accesses *)

Section rules.
Context {A : Type}.
Implicit Types (s : malloc_state) (Q : unit -> malloc_state -> Prop).

Lemma wp_ld s p c (Q : chunk_header -> malloc_state -> Prop) :
  heap s !! p = Some c -> p <> 0 -> Q c s -> wp (ld p) Q s.
Proof. intros E Hp HQ. unfold wp, ld. rewrite E, (proj2 (Z.eqb_neq p 0)) by done. exact HQ. Qed.

Lemma wp_upd s p f c Q : heap s !! p = Some c -> p <> 0 ->
  Q tt (ms_set_heap (<[p := f c]> (heap s)) s) -> wp (upd p f) Q s.
Proof. intros E Hp HQ. unfold upd. apply wp_bind. eapply wp_ld; [done..|]. apply HQ. Qed.

Lemma wp_get_bin s i b (Q : bin_info -> malloc_state -> Prop) :
  bins s !! i = Some b -> Q b s -> wp (get_bin i) Q s.
Proof. intros E HQ. unfold wp, get_bin. rewrite E. exact HQ. Qed.

Lemma wp_upd_bin s i f b Q : bins s !! i = Some b ->
  Q tt (ms_set_bins (<[i := f b]> (bins s)) s) -> wp (upd_bin i f) Q s.
Proof. intros E HQ. unfold upd_bin. apply wp_bind. eapply wp_get_bin; [done|]. apply HQ. Qed.
End rules.

(** Lookups in a store that was written a few times. *)
Ltac lk := cbn [heap bins ms_set_heap ms_set_bins ms_set_void ms_set_init void_chunk is_initialized];
  rewrite ?lookup_insert_eq, ?lookup_insert_ne by congruence; try eassumption; try reflexivity.

Ltac bin_lk := cbn [heap bins ms_set_heap ms_set_bins ms_set_void ms_set_init];
  first [ eassumption
        | apply list_lookup_insert_eq; rewrite ?length_insert; eapply lookup_lt_Some; eassumption ].

(** [krun] executes loads and stores whose address is known to hold a header. *)
Ltac kstep :=
  match goal with
  | |- wp (bind_ _ _) _ _ => apply wp_bind
  | |- wp (ret_ _) _ _ => apply wp_ret
  | |- wp (get_ _) _ _ => apply wp_get
  | |- wp (mod_ _) _ _ => apply wp_mod
  | |- wp (st _ _) _ _ => apply wp_mod
  | |- wp (ld _) _ _ => eapply wp_ld; [lk|done|]
  | |- wp (upd _ _) _ _ => eapply wp_upd; [lk|done|]
  | |- wp (get_bin _) _ _ => eapply wp_get_bin; [bin_lk|]
  | |- wp (upd_bin _ _) _ _ => eapply wp_upd_bin; [bin_lk|]
  end.
Ltac krun := repeat (kstep; cbv beta).

(** ** The size-ordered bin *)

(** [sbin s l]: the doubly linked bin holds exactly [l], in size order. *)
Record sbin (s : malloc_state) (l : list Z) : Prop := {
  sb_bin : exists b, bins s !! SORTEDBIN_IDX = Some b /\ counter b = Z.of_nat (length l) /\
     b_first b = hd0 0 l /\ (l <> [] -> b_last b = last0 0 l) /\ stored_size b = 0;
  sb_list : dlist (heap s) l;
  sb_sorted : StronglySorted (by_size (heap s)) l;
}.

(** Only links and bin 5 changed between [s] and [s']. *)
Record only_links (s s' : malloc_state) (touched : list Z) : Prop := {
  ol_geo : forall q, geo (heap s') q = geo (heap s) q;
  ol_links : forall q, q ∉ touched -> heap s' !! q = heap s !! q;
  ol_bins : forall i, i <> SORTEDBIN_IDX -> bins s' !! i = bins s !! i;
  ol_len : length (bins s') = length (bins s);
  ol_void : void_chunk s' = void_chunk s;
  ol_init : is_initialized s' = is_initialized s;
}.

Lemma geo_dom h h' q : geo h' q = geo h q -> is_Some (h !! q) -> is_Some (h' !! q).
Proof. unfold geo. intros E [c Hc]. rewrite Hc in E. destruct (h' !! q); [eauto|done]. Qed.

Lemma dlist_header m l p : dlist m l -> p ∈ l -> exists c : chunk_header, m !! p = Some c.
Proof. intros [H _] Hp. exact (dseg_lookup _ _ _ _ p H Hp). Qed.

Lemma dlist_nonzero m (l : list Z) p : dlist (N := chunk_header) m l -> p ∈ l -> p <> 0.
Proof. intros [H _] Hp. by eapply dseg_nonzero. Qed.

(** Inserting [p] between [l1] and [l2] of the bin, whatever code did it. *)
Lemma sbin_inserted s s' l1 l2 p b : sbin s (l1 ++ l2) -> p ∉ l1 ++ l2 -> p <> 0 ->
  linked_between (heap s) (heap s') (last0 0 l1) p (hd0 0 l2) (l1 ++ l2) ->
  (forall q, geo (heap s') q = geo (heap s) q) ->
  (forall q, q ∈ l1 -> sz (heap s) q <= sz (heap s) p) ->
  (forall q, q ∈ l2 -> sz (heap s) p <= sz (heap s) q) ->
  bins s !! SORTEDBIN_IDX = Some b -> Z.of_nat (length (l1 ++ l2)) + 1 < W32 ->
  bins s' !! SORTEDBIN_IDX =
    Some (mkBin (stored_size b) (w32 (counter b + 1)) (hd0 p l1) (last0 p l2)) ->
  sbin s' (l1 ++ p :: l2).
Proof.
  intros [(b0 & Hb0 & Hc & Hf & Hl & Hst) Hdl Hso] Hp Hp0 Hlk Hg Hle Hge Hb Hlen Hb'.
  rewrite Hb0 in Hb. injection Hb as ->. split.
  - eexists. split; [exact Hb'|]. cbn [counter b_first b_last stored_size].
    rewrite Hc, hd0_app, last0_app, w32_small by lia. rewrite !length_app in *. cbn [length].
    split_and!; [lia|done|done|congruence].
  - by eapply dlist_insert.
  - apply (sorted_ext (heap s)); [intros q _; by apply sz_ext|]. by apply sorted_insert.
Qed.

(** Side conditions on nested writes. *)
Ltac geo_tac :=
  intros; cbn [heap ms_set_heap ms_set_bins];
  repeat first [ reflexivity
               | erewrite geo_insert_same; [|lk|reflexivity|reflexivity] ].

(** The bin after a sequence of updates of its record. *)
Ltac bin_tac :=
  cbn [bins ms_set_heap ms_set_bins]; rewrite ?list_insert_insert_eq, list_lookup_insert_eq
    by (eapply lookup_lt_Some; eassumption);
  unfold bin_set_counter, bin_set_first, bin_set_last; cbn [stored_size counter b_first b_last];
  try reflexivity.

Ltac links_tac :=
  unfold links; cbn [heap ms_set_heap ms_set_bins];
  rewrite ?lookup_insert; repeat case_decide; subst; try congruence;
  repeat match goal with H : ?m !! ?p = Some _ |- _ => rewrite H end; cbn; try congruence;
  try (match goal with |- context [_ <$> ?m !! ?q] => destruct (m !! q); reflexivity end).

Lemma first_in_list s l b : sbin s l -> bins s !! SORTEDBIN_IDX = Some b -> l <> [] ->
  b_first b ∈ l /\ b_last b ∈ l /\ b_first b = hd0 0 l /\ b_last b = last0 0 l.
Proof.
  intros [(b' & Hb & _ & Hf & Hl & _) _ _] Hb' Hne. rewrite Hb in Hb'. injection Hb' as ->.
  rewrite Hf, Hl by done. split_and!; [by apply hd0_in|by apply last0_in|done|done].
Qed.

Lemma sorted_head_min h x l q : StronglySorted (by_size h) (x :: l) -> q ∈ x :: l -> sz h x <= sz h q.
Proof.
  intros Hs Hq. apply StronglySorted_inv in Hs as [_ Hall]. rewrite Forall_forall in Hall.
  apply elem_of_cons in Hq as [->|Hq]; [lia|by apply Hall].
Qed.

Lemma sorted_last_max h l q : StronglySorted (by_size h) l -> q ∈ l -> sz h q <= sz h (last0 0 l).
Proof.
  destruct l as [|x l] using rev_ind; intros Hs Hq; [by apply elem_of_nil in Hq|].
  rewrite last0_snoc. apply elem_of_app in Hq as [Hq|Hq%list_elem_of_singleton]; [|subst; lia].
  apply (StronglySorted_app_1_elem_of _ _ _ _ _ Hs); [done|by left].
Qed.

Section insert.
Context (s : malloc_state) (l : list Z) (p : Z) (c : chunk_header) (b : bin_info).
Hypotheses (Hs : sbin s l) (Hp : p ∉ l) (Hp0 : p <> 0) (Hc : heap s !! p = Some c)
  (Hb : bins s !! SORTEDBIN_IDX = Some b) (Hlen : Z.of_nat (length l) + 1 < W32).

Definition inserted (s' : malloc_state) : Prop :=
  exists l1 l2, l = l1 ++ l2 /\ sbin s' (l1 ++ p :: l2) /\ only_links s s' (p :: l).

Let bump : kmem unit := upd_bin SORTEDBIN_IDX (fun b => bin_set_counter (counter b +w 1) b).

Lemma only_links_intro s' : (forall q, geo (heap s') q = geo (heap s) q) ->
  (forall q, q ∉ p :: l -> heap s' !! q = heap s !! q) ->
  (exists b', bins s' = <[SORTEDBIN_IDX := b']> (bins s)) ->
  void_chunk s' = void_chunk s -> is_initialized s' = is_initialized s ->
  only_links s s' (p :: l).
Proof.
  intros Hg Hl [b' E] Hv Hi. split; try done; rewrite E.
  - intros i Hne. by apply list_lookup_insert_ne.
  - apply length_insert.
Qed.

Lemma sorted_front_wp x l' t : l = x :: l' -> heap s !! x = Some t -> c_size c <= c_size t ->
  wp (sorted_front p x ;;; bump) (fun _ => inserted) s.
Proof.
  intros El Ht Hle. unfold sorted_front, bump.
  assert (Hxp : x <> p) by (intros ->; apply Hp; rewrite El; by left).
  assert (Hx0 : x <> 0) by (eapply dlist_nonzero; [apply Hs|rewrite El; by left]).
  krun. exists [], l. split; [done|]. split.
  - eapply (sbin_inserted s _ [] l p b); try done.
    + split.
      * rewrite El. cbn [hd0 last0]. links_tac.
      * intros q Hq. assert (q <> p) by (intros ->; done). rewrite El. cbn [hd0 last0 app].
        assert (q <> 0) by (eapply dlist_nonzero; [apply Hs|exact Hq]). links_tac.
    + geo_tac.
    + intros q Hq. by apply elem_of_nil in Hq.
    + intros q Hq. rewrite (sz_lookup _ _ _ Hc). pose proof (sb_sorted _ _ Hs) as Hso.
      rewrite El in Hso, Hq. pose proof (sorted_head_min _ _ _ q Hso Hq) as Hm.
      rewrite (sz_lookup _ _ _ Ht) in Hm. lia.
    + bin_tac. pose proof (first_in_list s l b Hs Hb) as (_ & _ & _ & E); [by rewrite El|].
      by rewrite E, El.
  - apply only_links_intro; try done.
    + geo_tac.
    + intros q Hq. apply not_elem_of_cons in Hq as [Hqp Hql].
      assert (q <> x) by (intros ->; apply Hql; rewrite El; by left). lk.
    + eexists. cbn. rewrite list_insert_insert_eq. done.
Qed.

Lemma sorted_back_wp x t : l <> [] -> x = last0 0 l -> heap s !! x = Some t -> c_size t <= c_size c ->
  wp (sorted_back p x ;;; bump) (fun _ => inserted) s.
Proof.
  intros Hne Ex Ht Hle. unfold sorted_back, bump.
  assert (Hxl : x ∈ l) by (rewrite Ex; by apply last0_in).
  assert (Hxp : x <> p) by (intros ->; done).
  assert (Hx0 : x <> 0) by (eapply dlist_nonzero; [apply Hs|done]).
  krun. exists l, []. rewrite app_nil_r. split; [done|]. split.
  - eapply (sbin_inserted s _ l [] p b); rewrite ?app_nil_r; try done.
    + split.
      * rewrite <- Ex. cbn [hd0]. links_tac.
      * intros q Hq. assert (q <> p) by (intros ->; done). rewrite <- Ex. cbn [hd0].
        assert (q <> 0) by (eapply dlist_nonzero; [apply Hs|exact Hq]). links_tac.
    + geo_tac.
    + intros q Hq. rewrite (sz_lookup _ _ _ Hc).
      pose proof (sorted_last_max _ _ q (sb_sorted _ _ Hs) Hq) as Hm.
      rewrite <- Ex, (sz_lookup _ _ _ Ht) in Hm. lia.
    + intros q Hq. by apply elem_of_nil in Hq.
    + bin_tac. pose proof (first_in_list s l b Hs Hb Hne) as (_ & _ & E & _).
      rewrite E. by destruct l.
  - apply only_links_intro; try done.
    + geo_tac.
    + intros q Hq. apply not_elem_of_cons in Hq as [Hqp Hql].
      assert (q <> x) by (intros ->; done). lk.
    + eexists. cbn. rewrite list_insert_insert_eq. done.
Qed.

Lemma sorted_empty_wp : l = [] ->
  wp ((upd_bin SORTEDBIN_IDX (bin_set_first p) ;;;
       upd_bin SORTEDBIN_IDX (bin_set_last p) ;;;
       upd p (chunk_set_next 0) ;;; upd p (chunk_set_prev 0)) ;;; bump) (fun _ => inserted) s.
Proof.
  intros El. unfold bump. krun. exists [], []. split; [done|].
  pose proof Hs as Hs'. rewrite El in Hs'. split.
  - eapply (sbin_inserted s _ [] [] p b); try done.
    + intros Hn. by apply elem_of_nil in Hn.
    + split.
      * cbn [hd0 last0]. links_tac.
      * intros q Hq. by apply elem_of_nil in Hq.
    + geo_tac.
    + intros q Hq. by apply elem_of_nil in Hq.
    + intros q Hq. by apply elem_of_nil in Hq.
    + bin_tac.
  - apply only_links_intro; try done.
    + geo_tac.
    + intros q Hq. apply not_elem_of_cons in Hq as [Hqp Hql]. lk.
    + eexists. cbn. rewrite !list_insert_insert_eq. done.
Qed.

(** The place between [tmp] and its successor [nx]. *)
Lemma sorted_between_wp l1 tmp nx l2 t n : l = l1 ++ tmp :: nx :: l2 ->
  heap s !! tmp = Some t -> heap s !! nx = Some n ->
  c_size t <= c_size c -> c_size c <= c_size n ->
  wp (upd p (chunk_set_prev tmp) ;;; upd p (chunk_set_next nx) ;;;
      upd nx (chunk_set_prev p) ;;; upd tmp (chunk_set_next p) ;;; ret_ (inr tt : Z + unit))
    (fun r s1 => if r is inr _ then wp bump (fun _ => inserted) s1 else False) s.
Proof.
  intros El Ht Hn Hle1 Hle2. unfold bump.
  assert (Htl : tmp ∈ l) by (rewrite El; in_tac). assert (Hnl : nx ∈ l) by (rewrite El; in_tac).
  assert (Htp : tmp <> p) by (intros ->; done). assert (Hnp : nx <> p) by (intros ->; done).
  assert (Ht0 : tmp <> 0) by (eapply dlist_nonzero; [apply Hs|done]).
  assert (Hn0 : nx <> 0) by (eapply dlist_nonzero; [apply Hs|done]).
  assert (Htn : tmp <> nx).
  { intros ->. destruct (sb_list _ _ Hs) as [_ Hnd]. rewrite El in Hnd.
    apply NoDup_app in Hnd as (_ & _ & Hnd). apply NoDup_cons in Hnd as [Hnd _]. apply Hnd. by left. }
  assert (El' : l = (l1 ++ [tmp]) ++ nx :: l2) by (rewrite <- app_assoc; done).
  krun. cbv iota. krun. exists (l1 ++ [tmp]), (nx :: l2). split; [done|]. split.
  - eapply (sbin_inserted s _ (l1 ++ [tmp]) (nx :: l2) p b); rewrite <- ?El'; try done.
    + rewrite last0_snoc. cbn [hd0]. split.
      * clear El'. links_tac.
      * intros q Hq. assert (q <> p) by (intros ->; done). clear El'.
        assert (q <> 0) by (eapply dlist_nonzero; [apply Hs|exact Hq]). links_tac.
    + geo_tac.
    + intros q Hq. rewrite (sz_lookup _ _ _ Hc). pose proof (sb_sorted _ _ Hs) as Hso.
      rewrite El' in Hso. apply StronglySorted_app_1_l in Hso.
      pose proof (sorted_last_max _ _ q Hso Hq) as Hm. rewrite last0_snoc, (sz_lookup _ _ _ Ht) in Hm. lia.
    + intros q Hq. rewrite (sz_lookup _ _ _ Hc). pose proof (sb_sorted _ _ Hs) as Hso.
      rewrite El' in Hso. apply StronglySorted_app_1_r in Hso.
      pose proof (sorted_head_min _ _ _ q Hso Hq) as Hm. rewrite (sz_lookup _ _ _ Hn) in Hm. lia.
    + bin_tac. pose proof (first_in_list s l b Hs Hb) as (_ & _ & E1 & E2); [by rewrite El; destruct l1|].
      rewrite E1, E2, El', hd0_app, !last0_app. cbn [last0]. by destruct l1.
  - apply only_links_intro; try done.
    + geo_tac.
    + intros q Hq. apply not_elem_of_cons in Hq as [Hqp Hql].
      assert (q <> tmp) by (intros ->; done). assert (q <> nx) by (intros ->; done). lk.
    + eexists. cbn. done.
Qed.

(** The search from a chunk not larger than [p]: some later one is larger,
    so the loop finds the place before the end of the list. *)
Lemma sorted_search_wp l1 tmp l2 t fuel : l = l1 ++ tmp :: l2 ->
  heap s !! tmp = Some t -> c_size t <= c_size c -> c_size c < sz (heap s) (last0 0 l) ->
  (length l2 < fuel)%nat ->
  wp (loop fuel (fun tmp =>
        if tmp =? 0 then ret_ (inr tt)
        else
          do t <- ld tmp;
          if c_next t =? 0 then ret_ (inr tt)
          else
            do c <- ld p;
            do nx <- ld (c_next t);
            if (c_size t <=? c_size c) && (c_size c <=? c_size nx) then
              upd p (chunk_set_prev tmp) ;;;
              upd p (chunk_set_next (c_next t)) ;;;
              upd (c_next t) (chunk_set_prev p) ;;;
              upd tmp (chunk_set_next p) ;;;
              ret_ (inr tt)
            else ret_ (inl (c_next t))) tmp)
    (fun _ s1 => wp bump (fun _ => inserted) s1) s.
Proof.
  revert l1 tmp t fuel. induction l2 as [|nx l2 IH]; intros l1 tmp t fuel El Ht Hle Hbig Hfuel;
    (destruct fuel as [|fuel]; [cbn in Hfuel; lia|]).
  - exfalso. rewrite El, last0_snoc, (sz_lookup _ _ _ Ht) in Hbig. lia.
  - pose proof (sb_list _ _ Hs) as Hdl. pose proof Hdl as [Hseg _].
    assert (Ht0 : tmp <> 0) by (eapply dlist_nonzero; [apply Hdl|rewrite El; in_tac]).
    assert (Hn0 : nx <> 0) by (eapply dlist_nonzero; [apply Hdl|rewrite El; in_tac]).
    destruct (dlist_header (heap s) l nx Hdl ltac:(rewrite El; in_tac)) as [n Hn].
    rewrite El in Hseg. apply dseg_app in Hseg as [_ (_ & Hlk & _)].
    rewrite (links_lookup _ _ _ Ht) in Hlk. cbn [hd0] in Hlk. injection Hlk as _ Hnx. cbn in Hnx.
    cbn [loop]. apply wp_bind. rewrite (proj2 (Z.eqb_neq tmp 0)) by done.
    krun. rewrite Hnx, (proj2 (Z.eqb_neq nx 0)) by done. krun.
    destruct (Z.leb_spec (c_size t) (c_size c)) as [_|]; [|lia]. cbn [andb].
    destruct (Z.leb_spec (c_size c) (c_size n)) as [Hle2|Hgt].
    + eapply wp_mono; [eapply (sorted_between_wp l1 tmp nx l2 t n); done|].
      intros [?|[]] s1 H1; [done|]. apply wp_ret. exact H1.
    + apply wp_ret. apply (IH (l1 ++ [tmp]) nx n); try done.
      * rewrite <- app_assoc. done.
      * lia.
      * cbn in Hfuel. lia.
Qed.

Lemma insert_in_sortedbin_wp : wp (_insert_in_sortedbin p) (fun _ => inserted) s.
Proof.
  unfold _insert_in_sortedbin. krun. fold bump.
  destruct (sb_bin _ _ Hs) as (b' & Hb' & Hcnt & Hf & Hl & _). rewrite Hb in Hb'. injection Hb' as <-.
  destruct (Z.eqb_spec (counter b) 0) as [E0|Hne0].
  { assert (El : l = []) by (clear -Hcnt E0; destruct l; [done|cbn in Hcnt; lia]).
    apply wp_bind_inv, (sorted_empty_wp El). }
  assert (Hne : l <> []) by (intros El; rewrite El in Hcnt; done).
  destruct (first_in_list s l b Hs Hb Hne) as (Hfl & Hll & Hfe & Hle).
  pose proof (sb_list _ _ Hs) as Hdl.
  destruct (dlist_header _ _ _ Hdl Hfl) as [t Ht]. destruct (dlist_header _ _ _ Hdl Hll) as [u Hu].
  assert (Hf0 : b_first b <> 0) by (eapply dlist_nonzero; [apply Hdl|done]).
  assert (Hl0 : b_last b <> 0) by (eapply dlist_nonzero; [apply Hdl|done]).
  assert (exists x l', l = x :: l') as (x & l' & El) by (clear -Hne; destruct l; [done|eauto]).
  assert (Ex : b_first b = x) by (rewrite Hfe, El; done).
  apply wp_bind. eapply wp_ld; [exact Ht|done|]. apply wp_bind. eapply wp_ld; [exact Hc|done|].
  destruct (Z.eqb_spec (counter b) 1) as [E1|Hne1].
  - assert (El' : l' = []) by (clear -Hcnt E1 El; rewrite El in Hcnt; destruct l'; [done|cbn in Hcnt; lia]).
    destruct (Z.ltb_spec (c_size c) (c_size t)).
    + apply wp_bind_inv, (sorted_front_wp (b_first b) l' t); [by rewrite Ex|done|lia].
    + apply wp_bind_inv, (sorted_back_wp (b_first b) t); [done| |done|lia]. rewrite Ex, El, El'. done.
  - destruct (Z.ltb_spec (c_size c) (c_size t)).
    + apply wp_bind_inv, (sorted_front_wp (b_first b) l' t); [by rewrite Ex|done|lia].
    + apply wp_bind. eapply wp_ld; [exact Hu|done|].
      destruct (Z.leb_spec (c_size u) (c_size c)).
      * apply wp_bind_inv, (sorted_back_wp (b_last b) u); done || lia.
      * unfold sorted_middle. krun. apply (sorted_search_wp [] (b_first b) l' t); try done.
        -- by rewrite Ex.
        -- rewrite <- Hle, (sz_lookup _ _ _ Hu). lia.
        -- pose proof (dlist_length _ _ Hdl) as Hd. clear -Hd El. rewrite El in Hd. cbn in Hd. lia.
Qed.
End insert.

(** ** All six bins *)

(** The bin a chunk of a given size belongs to. *)
Definition bin_of (size : Z) : nat :=
  if size =? 32 then 0 else if size =? 48 then 1 else if size =? 64 then 2
  else if size =? 80 then 3 else if size =? 96 then 4 else SORTEDBIN_IDX.

(** Contents of the bins; what they say is independent of the free bits. *)
Record bins_ok (s : malloc_state) (L : nat -> list Z) : Prop := {
  bo_small : forall i, (i < SIZEBINS)%nat -> exists b, bins s !! i = Some b /\
    stored_size b = 32 + 16 * Z.of_nat i /\ counter b = Z.of_nat (length (L i)) /\
    b_first b = hd0 0 (L i);
  bo_chain : forall i, (i < SIZEBINS)%nat -> sseg (heap s) (L i) 0 /\ NoDup (L i);
  bo_sorted : sbin s (L SORTEDBIN_IDX);
  bo_sizes : forall i p, p ∈ L i -> exists z f, geo (heap s) p = Some (z, f) /\ bin_of z = i;
  bo_init : is_initialized s = true;
}.

Lemma bin_of_stored i : (i < SIZEBINS)%nat -> bin_of (32 + 16 * Z.of_nat i) = i.
Proof. unfold SIZEBINS. intros H. do 5 (destruct i as [|i]; [reflexivity|]). lia. Qed.

Lemma bin_of_le z : (bin_of z <= SORTEDBIN_IDX)%nat.
Proof. unfold bin_of, SORTEDBIN_IDX. repeat case_match; lia. Qed.

Lemma bin_of_eq z i : (i < SIZEBINS)%nat -> bin_of z = i -> z = 32 + 16 * Z.of_nat i.
Proof.
  unfold bin_of, SIZEBINS, SORTEDBIN_IDX. intros Hi.
  repeat match goal with |- context [?a =? ?b] => destruct (Z.eqb_spec a b) end; lia.
Qed.

Lemma find_bin_from_spec s L n i z : bins_ok s L -> (i + n = SIZEBINS)%nat ->
  (forall j, (j < i)%nat -> bin_of z <> j) ->
  find_bin_from n i z (bins s) = if decide (bin_of z < SIZEBINS)%nat then Some (bin_of z) else None.
Proof.
  intros Hok. revert i. induction n as [|n IH]; intros i Hin Hj; cbn [find_bin_from].
  - rewrite decide_False; [done|]. intros Hlt. apply (Hj (bin_of z)); lia.
  - destruct (bo_small _ _ Hok i ltac:(lia)) as (b & -> & -> & _).
    destruct (Z.eqb_spec (32 + 16 * Z.of_nat i) z) as [E|Hne].
    + rewrite <- E, bin_of_stored by lia. rewrite decide_True; [done|lia].
    + apply IH; [lia|]. intros j Hlt E. destruct (decide (j = i)) as [->|]; [|apply (Hj j); [lia|done]].
      apply Hne. symmetry. apply bin_of_eq; [lia|done].
Qed.

Lemma find_suitable_bin_wp s L z : bins_ok s L ->
  _find_suitable_bin z s = Ok (if decide (bin_of z < SIZEBINS)%nat then Some (bin_of z) else None, s).
Proof.
  intros Hok. unfold _find_suitable_bin, bind_, get_, ret_.
  rewrite (find_bin_from_spec s L) by (done || lia). done.
Qed.

(** A chunk of the heap is in no bin but the one of its size. *)
Lemma bins_ok_not_in s L p z f i : bins_ok s L -> geo (heap s) p = Some (z, f) ->
  p ∈ L i -> i = bin_of z.
Proof. intros Hok E Hp. destruct (bo_sizes _ _ Hok i p Hp) as (z' & f' & E' & <-). congruence. Qed.

(** Writes that keep the sizes and links of the bins' members keep the bins. *)
Lemma bins_ok_frame s s' L : bins_ok s L -> bins s' = bins s -> is_initialized s' = is_initialized s ->
  (forall i p, p ∈ L i -> links (heap s') p = links (heap s) p /\ sz (heap s') p = sz (heap s) p) ->
  bins_ok s' L.
Proof.
  intros [Hsm Hch [Hb Hdl Hso] Hsz Hin] Eb Ei Hf.
  split; [by rewrite Eb| | | |by rewrite Ei].
  - intros i Hi. destruct (Hch i Hi) as [Hc Hnd]. split; [|done].
    eapply sseg_frame; [|exact Hc]. intros p n Hp Hn. destruct (Hf i p Hp) as [Hl _].
    rewrite (links_lookup _ _ _ Hn) in Hl. unfold links in Hl.
    destruct (heap s' !! p) as [n'|]; [|done]. exists n'. split; [done|]. cbn in *. congruence.
  - split; [by rewrite Eb| |].
    + eapply dlist_frame; [|exact Hdl]. intros p Hp. by apply (Hf SORTEDBIN_IDX).
    + apply (sorted_ext (heap s)); [|done]. intros p Hp. by apply (Hf SORTEDBIN_IDX).
  - intros i p Hp. destruct (Hf i p Hp) as [Hl Hs]. destruct (Hsz i p Hp) as (z & f & E & Hz).
    unfold geo in E. destruct (heap s !! p) as [c|] eqn:Ec; [|done].
    rewrite (links_lookup _ _ _ Ec) in Hl. unfold links in Hl.
    destruct (heap s' !! p) as [c'|] eqn:Ec'; [|done].
    exists (c_size c'), (c_free c'). unfold geo. rewrite Ec'. split; [done|].
    rewrite (sz_lookup _ _ _ Ec'), (sz_lookup _ _ _ Ec) in Hs. cbn in E. congruence.
Qed.

Lemma bins_ok_disjoint s L p i j : bins_ok s L -> p ∈ L i -> p ∈ L j -> i = j.
Proof.
  intros Hok Hi Hj. destruct (bo_sizes _ _ Hok i p Hi) as (z & f & E & <-).
  symmetry. by eapply bins_ok_not_in.
Qed.

Lemma adj_frame (h : gmap Z chunk_header) q c c' p : h !! q = Some c -> c_size c' = c_size c ->
  c_prev c' = c_prev c -> c_next c' = c_next c ->
  links (<[q := c']> h) p = links h p /\ sz (<[q := c']> h) p = sz h p.
Proof.
  intros E E1 E2 E3. split.
  - rewrite links_insert. case_decide as D; [|done]. subst. rewrite (links_lookup _ _ _ E). cbn. congruence.
  - unfold sz. rewrite geo_insert. case_decide as D; [|done]. subst. unfold geo. rewrite E. done.
Qed.

(** The contents after [p] joined bin [i]. *)
Definition joined (L L' : nat -> list Z) (p : Z) (i : nat) : Prop :=
  forall j q, q ∈ L' j <-> (q = p /\ j = i) \/ q ∈ L j.

Definition put (L : nat -> list Z) (i : nat) (l : list Z) (j : nat) : list Z :=
  if decide (j = i) then l else L j.

Lemma put_eq L i l : put L i l i = l.
Proof. unfold put. by rewrite decide_True. Qed.

Lemma put_ne L i l j : j <> i -> put L i l j = L j.
Proof. unfold put. intros. by rewrite decide_False. Qed.

Lemma put_elem L i l j q : q ∈ put L i l j <-> (j = i /\ q ∈ l) \/ (j <> i /\ q ∈ L j).
Proof. unfold put. case_decide; naive_solver. Qed.

(** Replacing the content of the sorted bin. *)
Lemma bins_ok_sorted s s' L l' : bins_ok s L ->
  (forall i, i <> SORTEDBIN_IDX -> bins s' !! i = bins s !! i) -> is_initialized s' = is_initialized s ->
  (forall q, geo (heap s') q = geo (heap s) q) ->
  (forall i q, i <> SORTEDBIN_IDX -> q ∈ L i -> heap s' !! q = heap s !! q) -> sbin s' l' ->
  (forall q, q ∈ l' -> exists z f, geo (heap s) q = Some (z, f) /\ bin_of z = SORTEDBIN_IDX) ->
  bins_ok s' (put L SORTEDBIN_IDX l').
Proof.
  intros Hok Hbins Hinit Hgeo Hsame Hs' Hsz.
  assert (Hlt : forall j, (j < SIZEBINS)%nat -> j <> SORTEDBIN_IDX)
    by (unfold SORTEDBIN_IDX, SIZEBINS; lia).
  split.
  - intros j Hj. rewrite put_ne, Hbins by auto. by apply (bo_small _ _ Hok).
  - intros j Hj. rewrite put_ne by auto. destruct (bo_chain _ _ Hok j Hj) as [Hch Hnd].
    split; [|done]. eapply sseg_frame; [|exact Hch]. intros q n Hq Hn. exists n. split; [|done].
    rewrite (Hsame j); auto.
  - by rewrite put_eq.
  - intros j q Hq. rewrite Hgeo. apply put_elem in Hq as [[-> Hq]|[Hj Hq]]; [by apply Hsz|].
    by apply (bo_sizes _ _ Hok).
  - rewrite Hinit. apply (bo_init _ _ Hok).
Qed.

Lemma joined_cons L p i : joined L (put L i (p :: L i)) p i.
Proof.
  intros j q. rewrite put_elem, elem_of_cons.
  destruct (decide (j = i)) as [->|]; naive_solver.
Qed.

Section join.
Context (s : malloc_state) (L : nat -> list Z) (p : Z) (c : chunk_header).
Hypotheses (Hok : bins_ok s L) (Hp : forall i, p ∉ L i) (Hp0 : p <> 0) (Hc : heap s !! p = Some c)
  (Hlen : forall i, Z.of_nat (length (L i)) + 1 < W32).

(** [p] went into its bin and nothing else moved. *)
Definition joins (s' : malloc_state) : Prop := exists L',
  bins_ok s' L' /\ joined L L' p (bin_of (c_size c)) /\
  (forall q, geo (heap s') q = geo (heap s) q) /\ void_chunk s' = void_chunk s.

Lemma geo_p : geo (heap s) p = Some (c_size c, c_free c).
Proof. unfold geo. by rewrite Hc. Qed.

Lemma push_wp i : bin_of (c_size c) = i -> (i < SIZEBINS)%nat ->
  wp (_push_to_sizebin i p) (fun _ => joins) s.
Proof.
  intros Hi Hlt. unfold _push_to_sizebin.
  destruct (bo_small _ _ Hok i Hlt) as (b & Hb & Hst & Hcnt & Hf). krun.
  exists (put L i (p :: L i)). split_and!; [|rewrite Hi; apply joined_cons|geo_tac|done].
  assert (Hlink : forall q, q <> p -> heap s !! q = <[p := chunk_set_next (b_first b) c]> (heap s) !! q)
    by (intros q Hq; by rewrite lookup_insert_ne).
  assert (Hne5 : i <> SORTEDBIN_IDX) by (unfold SORTEDBIN_IDX, SIZEBINS in *; lia).
  split; cbn [heap bins ms_set_heap ms_set_bins is_initialized].
  - intros j Hj. destruct (decide (j = i)) as [->|Hne].
    + rewrite put_eq, list_insert_insert_eq, list_lookup_insert_eq by (eapply lookup_lt_Some; exact Hb).
      eexists. split; [done|]. cbn. specialize (Hlen i). rewrite Hst, Hcnt, w32_small by lia.
      split_and!; [done|lia|done].
    + rewrite put_ne, !list_lookup_insert_ne by done. by apply (bo_small _ _ Hok).
  - intros j Hj. destruct (bo_chain _ _ Hok j Hj) as [Hch Hnd].
    assert (Hch' : sseg (<[p := chunk_set_next (b_first b) c]> (heap s)) (L j) 0).
    { eapply sseg_frame; [|exact Hch]. intros q n Hq Hn. exists n. split; [|done].
      rewrite <- Hlink; [done|]. intros ->. by apply (Hp j). }
    destruct (decide (j = i)) as [->|Hne].
    + rewrite put_eq. split; [|by apply NoDup_cons]. cbn [sseg]. split_and!; [done| |done].
      rewrite lookup_insert_eq. eexists. split; [done|]. done.
    + by rewrite put_ne.
  - rewrite put_ne by done. destruct (bo_sorted _ _ Hok) as [Hb5 Hdl Hso]. split.
    + cbn. rewrite !list_lookup_insert_ne by done. done.
    + eapply dlist_frame; [|exact Hdl]. intros q Hq. unfold links. cbn. rewrite <- Hlink; [done|].
      intros ->. by apply (Hp SORTEDBIN_IDX).
    + eapply sorted_ext; [|exact Hso]. intros q _. apply sz_ext. geo_tac.
  - intros j q Hq. assert (Hgeo : forall z f, geo (heap s) q = Some (z, f) ->
        geo (<[p := chunk_set_next (b_first b) c]> (heap s)) q = Some (z, f)).
    { intros z f E. rewrite <- E. geo_tac. }
    apply put_elem in Hq as [[-> [->|Hq]%elem_of_cons]|[_ Hq]].
    + exists (c_size c), (c_free c). split; [apply Hgeo, geo_p|done].
    + destruct (bo_sizes _ _ Hok i q Hq) as (z & f & E & Hz). eauto.
    + destruct (bo_sizes _ _ Hok j q Hq) as (z & f & E & Hz). eauto.
  - apply (bo_init _ _ Hok).
Qed.

Lemma insert_wp : bin_of (c_size c) = SORTEDBIN_IDX ->
  wp (_insert_in_sortedbin p) (fun _ => joins) s.
Proof.
  intros Hi. destruct (bo_sorted _ _ Hok) as [(b & Hb & Hrest) Hdl Hso].
  eapply wp_mono; [eapply (insert_in_sortedbin_wp s (L SORTEDBIN_IDX) p c b); try done; apply Hok|].
  intros [] s' (l1 & l2 & El & Hs' & [Hgeo Hlk Hbins _ Hv Hinit]).
  exists (put L SORTEDBIN_IDX (l1 ++ p :: l2)). split_and!; [| |done|done].
  - apply (bins_ok_sorted s); try done.
    + intros j q Hj Hq. apply Hlk. rewrite not_elem_of_cons. split; [intros ->; by apply (Hp j)|].
      intros Hq5. apply Hj. by apply (bins_ok_disjoint s L q).
    + intros q Hq. destruct (decide (q = p)) as [->|Hne].
      * exists (c_size c), (c_free c). split; [apply geo_p|done].
      * apply (bo_sizes _ _ Hok). rewrite El. in_tac.
  - intros j q. rewrite put_elem, Hi. destruct (decide (j = SORTEDBIN_IDX)) as [->|]; [|naive_solver].
    rewrite El. in_tac.
Qed.

Lemma dispatch_wp :
  wp (match (if decide (bin_of (c_size c) < SIZEBINS)%nat then Some (bin_of (c_size c)) else None) with
      | None => _insert_in_sortedbin p
      | Some i => _push_to_sizebin i p
      end) (fun _ => joins) s.
Proof.
  case_decide as Hd; [by apply push_wp|]. apply insert_wp.
  pose proof (bin_of_le (c_size c)). unfold SORTEDBIN_IDX, SIZEBINS in *. lia.
Qed.
End join.

(** ** The heap as a tiling *)

(** [tiles h T a e]: the chunks [T] lie end to end from [a] up to [e]. *)
Fixpoint tiles (h : gmap Z chunk_header) (T : list Z) (a e : Z) : Prop :=
  match T with
  | [] => a = e
  | p :: T' => p = a /\ exists z f, geo h p = Some (z, f) /\ 16 <= z /\ (f = 0 \/ f = 1) /\
                                    tiles h T' (a + z) e
  end.

Lemma tiles_ext h h' T a e : (forall p, p ∈ T -> geo h' p = geo h p) -> tiles h T a e -> tiles h' T a e.
Proof.
  revert a. induction T as [|p T IH]; intros a Hf H; [done|].
  destruct H as (-> & z & f & E & Hz & Hfr & H). split; [done|]. exists z, f.
  rewrite Hf by (by left). split_and!; try done. apply IH; [|done]. intros q Hq. apply Hf. by right.
Qed.

Lemma tiles_app h T1 T2 a e : tiles h (T1 ++ T2) a e <-> exists m, tiles h T1 a m /\ tiles h T2 m e.
Proof.
  revert a. induction T1 as [|p T1 IH]; intros a; cbn [app tiles].
  - split; [eauto|]. intros (m & -> & H). done.
  - split.
    + intros (-> & z & f & E & Hz & Hf & H). apply IH in H as (m & H1 & H2).
      exists m. split; [|done]. split; [done|]. exists z, f. done.
    + intros (m & (-> & z & f & E & Hz & Hf & H1) & H2). split; [done|]. exists z, f.
      split_and!; try done. apply IH. eauto.
Qed.

Lemma tiles_le h T a e : tiles h T a e -> a + 16 * Z.of_nat (length T) <= e.
Proof.
  revert a. induction T as [|p T IH]; intros a; cbn [tiles length]; [intros ->; lia|].
  intros (-> & z & f & _ & Hz & _ & H). specialize (IH _ H). lia.
Qed.

(** Every chunk of the tiling is inside the heap, and what follows it is a
    chunk of the tiling or its end. *)
Lemma tiles_in h T a e p : tiles h T a e -> p ∈ T ->
  exists z f, geo h p = Some (z, f) /\ 16 <= z /\ (f = 0 \/ f = 1) /\ a <= p /\ p + z <= e /\
              (p + z = e \/ p + z ∈ T).
Proof.
  revert a. induction T as [|q T IH]; intros a H Hp; [in_tac|].
  destruct H as (-> & z & f & E & Hz & Hf & H). apply elem_of_cons in Hp as [->|Hp].
  - exists z, f. split_and!; try done.
    + pose proof (tiles_le _ _ _ _ H). lia.
    + destruct T as [|r T]; [by left|]. destruct H as [-> _]. right. in_tac.
  - destruct (IH _ H Hp) as (z' & f' & ? & ? & ? & ? & ? & Hn). exists z', f'.
    split_and!; [done..|lia|done|]. destruct Hn; [by left|right; in_tac].
Qed.

Lemma tiles_nodup h T a e : tiles h T a e -> NoDup T.
Proof.
  revert a. induction T as [|p T IH]; intros a H; [constructor|].
  destruct H as (-> & z & f & E & Hz & _ & H). constructor; [|by eapply IH].
  intros Hin. destruct (tiles_in _ _ _ _ _ H Hin) as (? & ? & _ & _ & _ & ? & _). lia.
Qed.

(** Two chunks of the tiling do not overlap. *)
Lemma tiles_disjoint h T a e p q zp zq fp fq : tiles h T a e -> p ∈ T -> q ∈ T -> p <> q ->
  geo h p = Some (zp, fp) -> geo h q = Some (zq, fq) -> p + zp <= q \/ q + zq <= p.
Proof.
  revert a. induction T as [|r T IH]; intros a H Hp Hq Hne Ep Eq; [in_tac|].
  destruct H as (-> & z & f & E & Hz & Hf & H).
  apply elem_of_cons in Hp as [->|Hp]; apply elem_of_cons in Hq as [->|Hq]; [done| | |by eapply IH].
  - destruct (tiles_in _ _ _ _ _ H Hq) as (? & ? & _ & _ & _ & ? & _). simplify_eq. lia.
  - destruct (tiles_in _ _ _ _ _ H Hp) as (? & ? & _ & _ & _ & ? & _). simplify_eq. lia.
Qed.

(** A write that only changes the free bit of one chunk. *)
Lemma tiles_set_free h h' T a e p z f : tiles h T a e -> (f = 0 \/ f = 1) ->
  (forall q, geo h' q = if decide (q = p) then Some (z, f) else geo h q) -> fst <$> geo h p = Some z ->
  tiles h' T a e.
Proof.
  intros H Hf Hg Hz. revert a H. induction T as [|q T IH]; intros a H; [done|].
  destruct H as (-> & z' & f' & E & Hz' & Hf' & H). split; [done|]. rewrite Hg. case_decide as D.
  - subst. rewrite E in Hz. injection Hz as <-. exists z', f. eauto.
  - exists z', f'. eauto 10.
Qed.

Section invariant.
(** The heap occupies [start, limit). *)
Context (start limit : Z).

(** [inv s T L lost]: the header store, the tiling [T] and the bins [L]
    agree; every free chunk but [lost] (0 for none) is in its bin. *)
Record inv (s : malloc_state) (T : list Z) (L : nat -> list Z) (lost : Z) : Prop := {
  i_bins : bins_ok s L;
  i_tiles : tiles (heap s) T start (void_chunk s);
  i_member : forall i p, p ∈ L i -> p ∈ T /\ p <> lost /\ snd <$> geo (heap s) p = Some 1;
  i_free : forall p z, p ∈ T -> p <> lost -> geo (heap s) p = Some (z, 1) -> p ∈ L (bin_of z);
  i_void : exists z, geo (heap s) (void_chunk s) = Some (z, 1) /\ 16 <= z /\
                     void_chunk s + z = limit;
  i_range : 0 < start /\ limit <= W32 /\ limit - start < 2 ^ 30;
}.

Lemma inv_bounds s T L lost p : inv s T L lost -> p ∈ T -> exists z f, geo (heap s) p = Some (z, f) /\
  16 <= z /\ (f = 0 \/ f = 1) /\ start <= p /\ p + z <= void_chunk s /\
  void_chunk s + 16 <= limit /\ (p + z = void_chunk s \/ p + z ∈ T).
Proof.
  intros H Hp. destruct (tiles_in _ _ _ _ _ (i_tiles _ _ _ _ H) Hp) as (z & f & ?).
  destruct (i_void _ _ _ _ H) as (v & _ & ? & ?). exists z, f. intuition lia.
Qed.

Lemma inv_lengths s T L lost i : inv s T L lost -> Z.of_nat (length (L i)) + 1 < W32.
Proof.
  intros H. assert (Hnd : NoDup (L i)).
  { destruct (decide (i < SIZEBINS)%nat) as [Hi|Hi].
    - apply (bo_chain _ _ (i_bins _ _ _ _ H) i Hi).
    - destruct (decide (i = SORTEDBIN_IDX)) as [->|Hne].
      + apply (sb_list _ _ (bo_sorted _ _ (i_bins _ _ _ _ H))).
      + destruct (L i) as [|p l] eqn:E; [constructor|].
        destruct (bo_sizes _ _ (i_bins _ _ _ _ H) i p) as (z & f & _ & Hb); [rewrite E; in_tac|].
        pose proof (bin_of_le z). unfold SORTEDBIN_IDX, SIZEBINS in *. lia. }
  assert (Hsub : L i ⊆+ T).
  { apply NoDup_submseteq; [done|]. intros p Hp. by apply (i_member _ _ _ _ H i). }
  apply submseteq_length in Hsub. pose proof (tiles_le _ _ _ _ (i_tiles _ _ _ _ H)).
  destruct (i_void _ _ _ _ H) as (v & _ & ? & ?). destruct (i_range _ _ _ _ H). lia.
Qed.

Lemma geo_lookup h p z f : geo h p = Some (z, f) ->
  exists c, h !! p = Some c /\ c_size c = z /\ c_free c = f.
Proof. unfold geo. destruct (h !! p) as [c|]; [|done]. cbn. intros [= <- <-]. eauto. Qed.

(** A live chunk that is put in its bin and marked free: the invariant holds
    again, whatever was written to the links. *)
Lemma inv_freed s s' T L L' p z : inv s T L 0 -> p ∈ T -> p <> 0 -> p <> void_chunk s -> geo (heap s) p = Some (z, 0) ->
  bins_ok s' L' -> joined L L' p (bin_of z) -> void_chunk s' = void_chunk s ->
  (forall q, geo (heap s') q = if decide (q = p) then Some (z, 1) else geo (heap s) q) -> inv s' T L' 0.
Proof.
  intros H Hp Hp0 Hpv E Hok Hj Ev Hgeo. split.
  - exact Hok.
  - rewrite Ev. eapply (tiles_set_free (heap s)); [apply H| |exact Hgeo|by rewrite E]. by right.
  - intros i q Hq. apply Hj in Hq as [[-> _]|Hq].
    + split_and!; [done|done|]. rewrite Hgeo. by rewrite decide_True.
    + destruct (i_member _ _ _ _ H i q Hq) as (Hin & Hne & Hfr). split_and!; [done|done|].
      rewrite Hgeo. by case_decide.
  - intros q zq Hq Hne Eq. rewrite Hgeo in Eq. apply Hj. case_decide; simplify_eq; [by left|].
    right. by apply (i_free _ _ _ _ H).
  - destruct (i_void _ _ _ _ H) as (v & Hvg & ? & ?). exists v. rewrite Ev. split_and!; [|done..].
    rewrite Hgeo. by rewrite decide_False by done.
  - apply H.
Qed.

(** Freeing a live chunk puts it in its bin; nothing else changes. *)
Lemma kfree_wp s T L p z : inv s T L 0 -> p ∈ T -> geo (heap s) p = Some (z, 0) ->
  wp (kfree (chunk2mem p)) (fun _ s' => exists L', inv s' T L' 0 /\ void_chunk s' = void_chunk s /\
    forall q, geo (heap s') q = if decide (q = p) then Some (z, 1) else geo (heap s) q) s.
Proof.
  intros H Hp E.
  destruct (inv_bounds _ _ _ _ _ H Hp) as (z' & f & E' & Hz & _ & Hlo & Hhi & Hv & Hnext).
  destruct (i_range _ _ _ _ H) as (H0 & Hlim & _). simplify_eq.
  destruct (geo_lookup _ _ _ _ E) as (c & Hc & Hcz & Hcf).
  unfold kfree, chunk2mem, mem2chunk, CHUNK_DATA_OFFSET.
  rewrite (w32_small (p + 8)) by lia. replace (p + 8 - 8) with p by lia. rewrite (w32_small p) by lia.
  rewrite (proj2 (Z.eqb_neq (p + 8) 0)) by lia.
  krun. rewrite (bo_init _ _ (i_bins _ _ _ _ H)). cbn [negb].
  apply wp_bind. eapply wp_ld; [done|lia|]. rewrite Hcf. cbn [Z.eqb negb].
  apply wp_bind. eapply wp_intro; [exact (find_suitable_bin_wp s L _ (i_bins _ _ _ _ H))|]. cbv beta.
  apply wp_bind. eapply wp_mono.
  { apply (dispatch_wp s L p c); [apply H| |lia|done|intros i; by eapply inv_lengths].
    intros i Hi. destruct (i_member _ _ _ _ H i p Hi) as (_ & _ & Hfr). by rewrite E in Hfr. }
  intros [] s1 (L' & Hok & Hj & Hg & Hvoid).
  assert (Hg1 : geo (heap s1) p = Some (z, 0)) by by rewrite Hg.
  destruct (geo_lookup _ _ _ _ Hg1) as (c1 & Hc1 & Hc1z & Hc1f).
  apply wp_bind. eapply wp_ld; [done|lia|]. krun. rewrite Hc1z, Hvoid, w32_small by lia.
  (* the neighbour's copy of the size *)
  eapply (wp_mono _ (fun _ s2 => bins s2 = bins s1 /\ is_initialized s2 = is_initialized s1 /\
    void_chunk s2 = void_chunk s1 /\ (forall q, geo (heap s2) q = geo (heap s1) q) /\
    (forall q, links (heap s2) q = links (heap s1) q))).
  { destruct (Z.ltb_spec (p + z) (void_chunk s)) as [Hlt|Hge]; [|by apply wp_ret].
    destruct Hnext as [?|Hin]; [lia|].
    destruct (inv_bounds _ _ _ _ _ H Hin) as (zn & fn & En & _). rewrite <- Hg in En.
    destruct (geo_lookup _ _ _ _ En) as (n & Hn & _).
    eapply wp_upd; [done|lia|]. split_and!; try done.
    - geo_tac.
    - intros q. cbn [heap ms_set_heap]. by apply (adj_frame _ _ n _ q Hn). }
  intros [] s2 (Eb & Ei & Ev & Hg2 & Hl2).
  assert (Hp2 : geo (heap s2) p = Some (z, 0)) by by rewrite Hg2.
  destruct (geo_lookup _ _ _ _ Hp2) as (c2 & Hc2 & Hc2z & Hc2f).
  eapply wp_upd; [done|lia|]. exists L'.
  assert (Hgeo : forall q, geo (<[p:=chunk_set_free 1 c2]> (heap s2)) q =
      if decide (q = p) then Some (z, 1) else geo (heap s) q).
  { intros q. rewrite geo_insert. cbn. rewrite Hc2z, Hg2, Hg. by repeat case_decide; subst. }
  split_and!; [|cbn; congruence|exact Hgeo].
  apply (inv_freed s _ T L L' p z); try done; [lia|lia| |by rewrite <- Hcz|by rewrite <- Hvoid, <- Ev].
  eapply bins_ok_frame; [exact Hok|done|done|]. intros i q _. cbn [heap ms_set_heap].
  destruct (adj_frame (heap s2) p c2 (chunk_set_free 1 c2) q Hc2) as [-> ->]; try done.
  split; [apply Hl2|by apply sz_ext].
Qed.

(** Taking [p] out of its bin makes it the lost chunk. *)
Lemma inv_taken s s' T L p i l : inv s T L 0 -> p ∈ L i -> bins_ok s' (put L i l) ->
  (forall q, q ∈ l <-> q ∈ L i /\ q <> p) ->
  (forall q, geo (heap s') q = geo (heap s) q) -> void_chunk s' = void_chunk s ->
  inv s' T (put L i l) p.
Proof.
  intros H Hp Hok Hl Hg Hv. split; [done|..].
  - rewrite Hv. eapply tiles_ext; [|apply H]. auto.
  - intros j q Hq. rewrite Hg.
    assert (q ∈ L j /\ q <> p) as [Hj Hne].
    { apply put_elem in Hq as [[-> Hq]|[Hj Hq]]; [by apply Hl|]. split; [done|]. intros ->.
      apply Hj. by apply (bins_ok_disjoint s L p); [apply H|..]. }
    destruct (i_member _ _ _ _ H j q Hj) as (? & _ & ?). done.
  - intros q z Hq Hne E. rewrite Hg in E. apply put_elem.
    destruct (i_member _ _ _ _ H i p Hp) as (_ & _ & _).
    assert (q <> 0) as Hq0.
    { destruct (inv_bounds _ _ _ _ _ H Hq) as (? & ? & ? & ? & ? & ? & _). destruct (i_range _ _ _ _ H). lia. }
    pose proof (i_free _ _ _ _ H q z Hq Hq0 E) as Hin.
    destruct (decide (bin_of z = i)) as [<-|]; [left|right; done]. split; [done|]. by apply Hl.
  - destruct (i_void _ _ _ _ H) as (z & ? & ? & ?). exists z. rewrite Hv, Hg. done.
  - apply H.
Qed.

Lemma pop_wp s T L i p l : inv s T L 0 -> (i < SIZEBINS)%nat -> L i = p :: l ->
  wp (_pop_from_sizebin i) (fun r s' => r = p /\ inv s' T (put L i l) p /\
    (forall q, geo (heap s') q = geo (heap s) q) /\ void_chunk s' = void_chunk s) s.
Proof.
  intros H Hi El. pose proof (i_bins _ _ _ _ H) as Hok.
  destruct (bo_small _ _ Hok i Hi) as (b & Hb & Hst & Hcnt & Hf).
  destruct (bo_chain _ _ Hok i Hi) as [Hch Hnd]. rewrite El in Hch, Hnd, Hcnt, Hf.
  destruct Hch as (Hp0 & (c & Hc & Hn) & Hch). apply NoDup_cons in Hnd as [Hpl Hnd].
  cbn [hd0] in Hf.
  pose proof (inv_lengths _ _ _ _ i H) as Hlen. rewrite El in Hlen. cbn [length] in *.
  unfold _pop_from_sizebin. krun.
  eapply (wp_mono _ (fun _ s1 => s1 = ms_set_bins (<[i := bin_set_first (hd0 0 l) b]> (bins s)) s)).
  { destruct (Z.ltb_spec 1 (counter b)) as [Hlt|Hge].
    - rewrite Hf. krun. cbn in Hn. by rewrite Hn.
    - assert (l = []) as -> by (destruct l; [done|cbn in *; lia]). krun. done. }
  intros [] s1 ->. krun.
  split_and!; [done| |done|done].
  assert (i <> SORTEDBIN_IDX) as Hne by (unfold SORTEDBIN_IDX, SIZEBINS in *; lia).
  assert (Hmem : forall q, q ∈ l <-> q ∈ L i /\ q <> p).
  { intros q. rewrite El. set_solver. }
  eapply (inv_taken s _ T L p i l H); [rewrite El; in_tac| |done|done|done].
  split; cbn [bins heap ms_set_bins is_initialized].
  - intros j Hj. rewrite list_insert_insert_eq. destruct (decide (j = i)) as [->|Hji].
    + rewrite list_lookup_insert_eq, put_eq by (eapply lookup_lt_Some; exact Hb).
      eexists. split; [done|]. cbn. rewrite Hcnt, w32_small by lia. split_and!; [done|lia|done].
    + rewrite list_lookup_insert_ne, put_ne by done. by apply (bo_small _ _ Hok).
  - intros j Hj. destruct (decide (j = i)) as [->|Hji]; [by rewrite put_eq|].
    rewrite put_ne by done. by apply (bo_chain _ _ Hok).
  - rewrite put_ne by done. destruct (bo_sorted _ _ Hok) as [Hb5 Hdl Hso]. split; [|done|done].
    cbn. rewrite list_insert_insert_eq, list_lookup_insert_ne by done. done.
  - intros j q Hq. apply (bo_sizes _ _ Hok). apply put_elem in Hq as [[-> Hq]|[_ Hq]]; [|done].
    by apply Hmem.
  - apply (bo_init _ _ Hok).
Qed.

(** Unlinking [p] from the sorted bin [l1 ++ p :: l2]: the neighbours are
    joined, the ends and the counter of the bin move. *)
Section erase.
Context (s : malloc_state) (T : list Z) (L : nat -> list Z) (p : Z) (l1 l2 : list Z) (b : bin_info) (c : chunk_header).
Hypotheses (H : inv s T L 0) (El : L SORTEDBIN_IDX = l1 ++ p :: l2) (Hb : bins s !! SORTEDBIN_IDX = Some b)
  (Hc : heap s !! p = Some c) (Hpv : c_prev c = last0 0 l1) (Hnx : c_next c = hd0 0 l2).

Let a := last0 0 l1.
Let z := hd0 0 l2.

Definition erased (s1 : malloc_state) : Prop :=
  bins s1 = <[SORTEDBIN_IDX := mkBin (stored_size b) (counter b -w 1)
      (if decide (a = 0) then z else b_first b) (if decide (z = 0) then a else b_last b)]> (bins s) /\
  unlinked_between (heap s) (heap s1) a z (l1 ++ l2) /\
  (forall q, q <> a -> q <> z -> heap s1 !! q = heap s !! q) /\
  (forall q, geo (heap s1) q = geo (heap s) q) /\
  void_chunk s1 = void_chunk s /\ is_initialized s1 = is_initialized s.

Lemma erase_member q : q ∈ l1 ++ l2 -> q ∈ L SORTEDBIN_IDX /\ q <> 0.
Proof.
  intros Hq. assert (q ∈ L SORTEDBIN_IDX) by (rewrite El; in_tac). split; [done|].
  destruct (bo_sorted _ _ (i_bins _ _ _ _ H)) as [_ Hdl _]. by eapply dlist_nonzero.
Qed.

(** The neighbours, where there are any. *)
Lemma erase_ends : (a = 0 /\ l1 = [] \/ a <> 0 /\ a ∈ l1 /\ l1 <> []) /\ (z = 0 /\ l2 = [] \/ z <> 0 /\ z ∈ l2 /\ l2 <> []) /\
  (a <> 0 -> a <> z).
Proof.
  assert (Ha : a = 0 /\ l1 = [] \/ a <> 0 /\ a ∈ l1 /\ l1 <> []).
  { unfold a. destruct (decide (l1 = [])) as [->|Hne]; [by left|right].
    assert (Hin : last0 0 l1 ∈ l1) by by apply last0_in. split_and!; [|done|done]. apply erase_member. in_tac. }
  assert (Hz : z = 0 /\ l2 = [] \/ z <> 0 /\ z ∈ l2 /\ l2 <> []).
  { unfold z. destruct (decide (l2 = [])) as [->|Hne]; [by left|right].
    assert (Hin : hd0 0 l2 ∈ l2) by by apply hd0_in. split_and!; [|done|done]. apply erase_member. in_tac. }
  split_and!; [done|done|]. intros Ha0 E.
  destruct Ha as [[? _]|(_ & Ha & _)]; [done|]. destruct Hz as [[? _]|(_ & Hz & _)]; [congruence|].
  destruct (bo_sorted _ _ (i_bins _ _ _ _ H)) as [_ [_ Hnd] _]. rewrite El in Hnd.
  apply NoDup_skip in Hnd as [_ Hnd]. apply NoDup_app in Hnd as (_ & Hd & _). apply (Hd a); [done|congruence].
Qed.

Lemma erase_links_wp : wp (_earse_from_sortedbin p) (fun _ => erased) s.
Proof.
  destruct (bo_sorted _ _ (i_bins _ _ _ _ H)) as [(b' & Hb' & Hcnt & _) Hdl _]. simplify_eq.
  destruct erase_ends as (Ha & Hz & Haz).
  assert (Hp0 : p <> 0) by (eapply dlist_nonzero; [exact Hdl|rewrite El; in_tac]).
  assert (Ha' : a <> 0 -> exists n, heap s !! a = Some n).
  { intros Ha0. eapply dlist_header; [exact Hdl|]. apply erase_member. destruct Ha as [[? _]|(_ & ? & _)]; [done|in_tac]. }
  assert (Hz' : z <> 0 -> exists n, heap s !! z = Some n).
  { intros Hz0. eapply dlist_header; [exact Hdl|]. apply erase_member. destruct Hz as [[? _]|(_ & ? & _)]; [done|in_tac]. }
  unfold _earse_from_sortedbin. krun.
  eapply (wp_mono _ (fun r s1 => r = (a, z) /\ s1 = s)).
  { destruct (Z.eqb_spec (counter b) 1) as [E1|Hne].
    - assert (l1 = [] /\ l2 = []) as [E2 E3].
      { rewrite El, length_app in Hcnt. cbn [length] in Hcnt. clear -Hcnt E1. destruct l1, l2; cbn in Hcnt; [done|lia..]. }
      apply wp_ret. unfold a, z. by rewrite E2, E3.
    - krun. cbn. split; [|done]. unfold a, z. congruence. }
  intros [pv nx] s1 [[= -> ->] ->]. cbv iota. unfold erased. clear Ha Hz.
  destruct (Z.eqb_spec a 0) as [Ea|Ea]; destruct (Z.eqb_spec z 0) as [Ez|Ez];
    try (destruct (Ha' Ea) as [na Hna]); try (destruct (Hz' Ez) as [nz Hnz]);
    try specialize (Haz Ea); krun; cbn [bins heap ms_set_heap ms_set_bins void_chunk is_initialized];
    rewrite ?list_insert_insert_eq; split_and!; try done;
    try (geo_tac; fail); try (intros; lk; fail);
    try (repeat case_decide; done).
  all: try (intros q Hq; destruct (erase_member q Hq) as [_ Hq0]; links_tac).
Qed.

Lemma erased_sbin s1 : erased s1 -> sbin s1 (l1 ++ l2).
Proof.
  intros (Eb & Hub & Hsame & Hg & Hv & Hi). pose proof (inv_lengths _ _ _ _ SORTEDBIN_IDX H) as Hlen.
  destruct (bo_sorted _ _ (i_bins _ _ _ _ H)) as [(b' & Hb' & Hcnt & Hf & Hl & Hst) Hdl Hso]. simplify_eq.
  destruct erase_ends as (Ha & Hz & _). split.
  - rewrite Eb, list_lookup_insert_eq by (eapply lookup_lt_Some; exact Hb).
    eexists. split; [done|]. cbn. clear -Hlen Hcnt Hf Hl El Ha Hz Hst.
    rewrite Hcnt. rewrite El, length_app in Hlen |- *. rewrite length_app. cbn [length] in *.
    rewrite Hf, El, w32_small by lia. split_and!; [lia| | |done].
    + rewrite hd0_app. case_decide as D; destruct Ha as [[? ->]|(? & ? & ?)]; try done.
      destruct l1; [done|]. done.
    + intros Hne. rewrite last0_app. fold a. case_decide as D; destruct Hz as [[? ->]|(? & ? & ?)]; try done.
      rewrite Hl by (by rewrite El; destruct l1). rewrite El, last0_app. cbn [last0].
      destruct l2; done.
  - eapply dlist_remove; [by rewrite <- El|done].
  - apply (sorted_ext (heap s)); [intros q _; by apply sz_ext|]. rewrite El in Hso. by eapply sorted_remove.
Qed.

(** The other bins do not see the change. *)
Lemma erased_bins s1 : erased s1 -> bins_ok s1 (put L SORTEDBIN_IDX (l1 ++ l2)).
Proof.
  intros He. pose proof He as (Eb & Hub & Hsame & Hg & Hv & Hi). pose proof (i_bins _ _ _ _ H) as Hok.
  destruct erase_ends as (Ha & Hz & _).
  apply (bins_ok_sorted s); [done| |done|done| |by apply erased_sbin|].
  - intros i Hne. rewrite Eb. by apply list_lookup_insert_ne.
  - intros i q Hne Hq.
    assert (q <> 0) as Hq0.
    { destruct (i_member _ _ _ _ H i q Hq) as (Hq' & _). destruct (inv_bounds _ _ _ _ _ H Hq') as (? & ? & ? & ? & ? & ? & _).
      destruct (i_range _ _ _ _ H). lia. }
    assert (forall r, q = r -> r ∈ l1 ++ l2 -> False) as Hout.
    { intros r -> Hr. apply Hne. by apply (bins_ok_disjoint s L r); [| |apply erase_member]. }
    apply Hsame; intros E; [destruct Ha as [[? _]|(_ & ? & _)]|destruct Hz as [[? _]|(_ & ? & _)]];
      (congruence || (eapply Hout; [exact E|in_tac])).
  - intros q Hq. apply (bo_sizes _ _ Hok). by apply erase_member.
Qed.
End erase.

Lemma erase_wp s T L p : inv s T L 0 -> p ∈ L SORTEDBIN_IDX ->
  wp (_earse_from_sortedbin p) (fun _ s' => exists l, inv s' T (put L SORTEDBIN_IDX l) p /\
    (forall q, geo (heap s') q = geo (heap s) q) /\ void_chunk s' = void_chunk s) s.
Proof.
  intros H Hp. destruct (bo_sorted _ _ (i_bins _ _ _ _ H)) as [(b & Hb & _) Hdl _].
  destruct (dlist_split _ _ p Hdl Hp) as (l1 & l2 & El & Hlk).
  unfold links in Hlk. destruct (heap s !! p) as [c|] eqn:Hc; [|done]. cbn in Hlk. injection Hlk as Hpv Hnx.
  eapply wp_mono; [apply (erase_links_wp s T L p l1 l2 b c); done|].
  intros [] s1 He. pose proof He as (_ & _ & _ & Hg & Hv & _). exists (l1 ++ l2). split_and!; [|done|done].
  destruct Hdl as [_ Hnd]. rewrite El in Hnd.
  eapply inv_taken; [done|exact Hp|by eapply erased_bins|rewrite El; by apply elem_of_skip|done|done].
Qed.

Lemma inv_nonzero s T L lost p : inv s T L lost -> p ∈ T -> p <> 0.
Proof.
  intros H Hp. destruct (inv_bounds _ _ _ _ _ H Hp) as (? & ? & ? & ? & ? & ? & _).
  destruct (i_range _ _ _ _ H). lia.
Qed.

(** Chunks with a free bit of 0, and their sizes. *)
Definition live (s : malloc_state) (T : list Z) (q z : Z) : Prop :=
  q ∈ T /\ geo (heap s) q = Some (z, 0).

(** The lost chunk, once marked as in use, is an ordinary live chunk. *)
Lemma inv_found s T L p z : inv s T L p -> geo (heap s) p = Some (z, 0) -> inv s T L 0.
Proof.
  intros H E. split; try apply H.
  - intros i q Hq. destruct (i_member _ _ _ _ H i q Hq) as (? & _ & ?). split_and!; [done| |done].
    by eapply inv_nonzero.
  - intros q zq Hq _ Eq. apply (i_free _ _ _ _ H); [done| |done]. intros ->. simplify_eq.
Qed.

Lemma inv_lost s T L p z : inv s T L 0 -> geo (heap s) p = Some (z, 0) -> inv s T L p.
Proof.
  intros H E. split; try apply H.
  - intros i q Hq. destruct (i_member _ _ _ _ H i q Hq) as (? & _ & Hf). split_and!; [done| |done].
    intros ->. by rewrite E in Hf.
  - intros q zq Hq _ Eq. apply (i_free _ _ _ _ H); [done| |done]. by eapply inv_nonzero.
Qed.

(** Cutting the lost chunk in two live ones. *)
Lemma inv_cut s s' T1 T2 L p z f n : inv s (T1 ++ p :: T2) L p -> geo (heap s) p = Some (z, f) ->
  16 <= n -> n + 16 <= z ->
  bins s' = bins s -> is_initialized s' = is_initialized s -> void_chunk s' = void_chunk s ->
  (forall q, geo (heap s') q = if decide (q = p) then Some (n, 0)
             else if decide (q = p + n) then Some (z - n, 0) else geo (heap s) q) ->
  (forall q, q <> p -> q <> p + n -> links (heap s') q = links (heap s) q) ->
  inv s' (T1 ++ p :: (p + n) :: T2) L 0.
Proof.
  intros H E Hn Hnz Eb Ei Ev Hg Hl.
  pose proof (i_tiles _ _ _ _ H) as HT. pose proof (tiles_nodup _ _ _ _ HT) as Hnd.
  assert (Hp : p ∈ T1 ++ p :: T2) by in_tac.
  destruct (inv_bounds _ _ _ _ _ H Hp) as (z' & f' & E' & _ & _ & ? & ? & ? & _). simplify_eq.
  assert (Hpn : forall q, q ∈ T1 ++ p :: T2 -> q <> p -> q <> p + n).
  { intros q Hq Hne ->. destruct (inv_bounds _ _ _ _ _ H Hq) as (zq & fq & Eq & ? & _).
    destruct (tiles_disjoint _ _ _ _ _ _ _ _ _ _ HT Hq Hp Hne Eq E); lia. }
  assert (Hother : forall q, q ∈ T1 ++ p :: T2 -> q <> p -> geo (heap s') q = geo (heap s) q).
  { intros q Hq Hne. rewrite Hg, !decide_False; [done|by apply Hpn|done]. }
  assert (Hmem : forall i q, q ∈ L i -> q ∈ T1 ++ p :: T2 /\ q <> p)
    by (intros i q Hq; by destruct (i_member _ _ _ _ H i q Hq) as (? & ? & _)).
  split.
  - eapply bins_ok_frame; [apply H|done|done|]. intros i q Hq. destruct (Hmem i q Hq) as [Hq' Hne].
    split; [apply Hl; auto|]. by apply sz_ext, Hother.
  - rewrite Ev. apply NoDup_app in Hnd as (_ & Hd & Hnd). apply NoDup_cons in Hnd as [Hp2 _].
    apply tiles_app in HT as (m & HT1 & -> & z' & f' & E'' & _ & _ & HT2). simplify_eq.
    apply tiles_app. exists m. split.
    { eapply tiles_ext; [|exact HT1]. intros q Hq. apply Hother; [in_tac|]. intros ->. apply (Hd m Hq). in_tac. }
    cbn [tiles]. split; [done|]. exists n, 0. rewrite Hg, decide_True by done. split_and!; try auto.
    exists (z - n), 0. rewrite Hg, decide_False, decide_True by lia. split_and!; try (auto; lia).
    replace (m + n + (z - n)) with (m + z) by lia. eapply tiles_ext; [|exact HT2].
    intros q Hq. apply Hother; [in_tac|]. by intros ->.
  - intros i q Hq. destruct (Hmem i q Hq) as [Hq' Hne]. split_and!; [in_tac|by eapply inv_nonzero|].
    rewrite Hother by done. by apply (i_member _ _ _ _ H i).
  - intros q zq Hq _ Eq. rewrite Hg in Eq. repeat case_decide; simplify_eq.
    apply (i_free _ _ _ _ H); [in_tac|done|done].
  - destruct (i_void _ _ _ _ H) as (v & ? & ? & ?). exists v. rewrite Ev, Hg, !decide_False by lia. done.
  - apply H.
Qed.

Lemma create_chunk_wp raw s p n (Q : Z -> malloc_state -> Prop) : 16 <= n < 2 ^ 30 ->
  (forall a b c, Q p (ms_set_heap (<[p := mkChunk n 0 0 a b c]> (heap s)) s)) ->
  wp (_create_chunk raw p n) Q s.
Proof.
  intros Hn HQ. unfold _create_chunk. krun. unfold MINIMAL_CHUNK_SIZE.
  destruct (Z.ltb_spec n 16); [lia|]. rewrite Z.mod_small by lia. apply HQ.
Qed.

Lemma split_wp raw s T L p z f n : inv s T L p -> p ∈ T -> geo (heap s) p = Some (z, f) ->
  16 <= n <= z ->
  wp (_split_chunk raw p n) (fun r s' => r = p /\ exists T' L' z' f',
    inv s' T' L' p /\ p ∈ T' /\ geo (heap s') p = Some (z', f') /\ n <= z' /\
    void_chunk s' = void_chunk s /\ forall q zq, q <> p -> live s' T' q zq <-> live s T q zq) s.
Proof.
  intros H Hp E Hn.
  destruct (inv_bounds _ _ _ _ _ H Hp) as (z' & f' & E' & _ & _ & Hlo & Hhi & Hv & _).
  destruct (i_range _ _ _ _ H) as (H0 & Hlim & Hsz). simplify_eq.
  destruct (geo_lookup _ _ _ _ E) as (c & Hc & Hcz & Hcf).
  unfold _split_chunk. apply wp_bind. eapply wp_ld; [done|lia|]. rewrite Hcz, w32_small by lia.
  unfold MINIMAL_CHUNK_SIZE. destruct (Z.leb_spec 16 (z - n)) as [Hfit|Hno]; krun.
  2:{ split; [done|]. exists T, L, z, f. split_and!; try done. lia. }
  eapply create_chunk_wp; [lia|]. intros a1 b1 c1. apply wp_bind.
  rewrite (w32_small (p + n)) by lia. eapply create_chunk_wp; [lia|]. intros a2 b2 c2.
  match goal with |- wp _ _ ?s2 => set (s' := s2) end.
  apply list_elem_of_split in Hp as (T1 & T2 & ->).
  assert (Hg : forall q, geo (heap s') q = if decide (q = p) then Some (n, 0)
             else if decide (q = p + n) then Some (z - n, 0) else geo (heap s) q).
  { intros q. cbn. rewrite !geo_insert. repeat case_decide; simplify_eq; done || lia. }
  assert (Hinv : inv s' (T1 ++ p :: (p + n) :: T2) L 0).
  { eapply (inv_cut s s'); try done; [lia..|]. intros q H1 H2. unfold links. cbn.
    by rewrite !lookup_insert_ne by congruence. }
  eapply wp_mono; [eapply (kfree_wp s' _ _ (p + n) (z - n)); [done|in_tac|]|].
  { rewrite Hg, decide_False, decide_True by lia. done. }
  intros [] s3 (L' & Hinv' & Hv3 & Hg3). apply wp_ret. split; [done|].
  assert (Hp3 : geo (heap s3) p = Some (n, 0)) by (rewrite Hg3, decide_False, Hg, decide_True by lia; done).
  exists (T1 ++ p :: (p + n) :: T2), L', n, 0. split_and!; try done; [by eapply inv_lost|in_tac|].
  intros q zq Hne. unfold live. rewrite Hg3, Hg, (decide_False (P := q = p)) by done.
  destruct (decide (q = p + n)) as [->|Hne2]; [|in_tac]. split; [intros [_ ?]; done|].
  intros [Hq Eq]. exfalso.
  assert (Hpt : p ∈ T1 ++ p :: T2) by in_tac.
  destruct (inv_bounds _ _ _ _ _ H Hq) as (zq' & fq' & Eq' & ? & _).
  destruct (tiles_disjoint _ _ _ _ _ _ _ _ _ _ (i_tiles _ _ _ _ H) Hq Hpt Hne Eq' E); lia.
Qed.

(** What [_find_free_chunk] does to the chunk it found. *)
Lemma claim_wp s T L p z f : inv s T L p -> p ∈ T -> geo (heap s) p = Some (z, f) ->
  wp (do c <- ld p; upd (p +w c_size c) (chunk_set_adj 0 0) ;;; upd p (chunk_set_free 0) ;;; ret_ p)
    (fun r s' => r = p /\ inv s' T L 0 /\ void_chunk s' = void_chunk s /\
       forall q, geo (heap s') q = if decide (q = p) then Some (z, 0) else geo (heap s) q) s.
Proof.
  intros H Hp E.
  destruct (inv_bounds _ _ _ _ _ H Hp) as (z' & f' & E' & Hz & _ & Hlo & Hhi & Hv & Hnext).
  destruct (i_range _ _ _ _ H) as (H0 & Hlim & _). simplify_eq.
  destruct (geo_lookup _ _ _ _ E) as (c & Hc & Hcz & Hcf).
  assert (exists zn fn, geo (heap s) (p + z) = Some (zn, fn)) as (zn & fn & En).
  { destruct Hnext as [->|Hn].
    - destruct (i_void _ _ _ _ H) as (v & ? & _). eauto.
    - destruct (inv_bounds _ _ _ _ _ H Hn) as (? & ? & ? & _). eauto. }
  destruct (geo_lookup _ _ _ _ En) as (n & Hcn & _).
  apply wp_bind. eapply wp_ld; [done|lia|]. rewrite Hcz, w32_small by lia.
  apply wp_bind. eapply wp_upd; [done|lia|]. apply wp_bind.
  eapply wp_upd; [cbn; rewrite lookup_insert_ne by lia; exact Hc|lia|]. apply wp_ret.
  match goal with |- context [void_chunk ?x] => set (s' := x) end.
  assert (Hg : forall q, geo (heap s') q = if decide (q = p) then Some (z, 0) else geo (heap s) q).
  { intros q. cbn. rewrite geo_insert. cbn. rewrite Hcz. repeat case_decide; simplify_eq; [done|].
    by eapply geo_insert_same. }
  assert (Hl : forall q, links (heap s') q = links (heap s) q).
  { intros q. cbn. rewrite links_insert. case_decide as D.
    - subst. by rewrite (links_lookup _ _ _ Hc).
    - by apply (adj_frame _ _ n). }
  split_and!; [done| |done|exact Hg].
  apply (inv_found _ _ _ p z); [|by rewrite Hg, decide_True].
  split.
  - eapply bins_ok_frame; [apply H|done|done|]. intros i q Hq. split; [apply Hl|].
    destruct (i_member _ _ _ _ H i q Hq) as (_ & ? & _). apply sz_ext. by rewrite Hg, decide_False.
  - eapply (tiles_set_free (heap s)); [apply H| |exact Hg|by rewrite E]. by left.
  - intros i q Hq. destruct (i_member _ _ _ _ H i q Hq) as (? & ? & ?). rewrite Hg, decide_False by done. done.
  - intros q zq Hq Hne Eq. rewrite Hg, decide_False in Eq by done. by apply (i_free _ _ _ _ H).
  - destruct (i_void _ _ _ _ H) as (v & ? & ? & ?). exists v. cbn [void_chunk].
    rewrite Hg, decide_False by (cbn; lia). done.
  - apply H.
Qed.

(** A search of the bins either fails and changes nothing, or takes out a
    free chunk that is large enough. *)
Definition searched (s : malloc_state) (T : list Z) (n r : Z) (s' : malloc_state) : Prop :=
  (r = 0 /\ s' = s) \/
  (exists L' z, inv s' T L' r /\ r ∈ T /\ geo (heap s) r = Some (z, 1) /\ n <= z /\
     (forall q, geo (heap s') q = geo (heap s) q) /\ void_chunk s' = void_chunk s).

Lemma member_free s T L i p : inv s T L 0 -> p ∈ L i ->
  p ∈ T /\ exists z, geo (heap s) p = Some (z, 1) /\ bin_of z = i.
Proof.
  intros H Hp. destruct (i_member _ _ _ _ H i p Hp) as (? & _ & Hf). split; [done|].
  destruct (bo_sizes _ _ (i_bins _ _ _ _ H) i p Hp) as (z & f & E & Hz). rewrite E in Hf.
  injection Hf as ->. eauto.
Qed.

Lemma search_sizebins_wp s T L n : inv s T L 0 -> wp (search_sizebins n) (searched s T n) s.
Proof.
  intros H. pose proof (i_bins _ _ _ _ H) as Hok. unfold search_sizebins. krun.
  rewrite (find_bin_from_spec s L) by (done || lia).
  case_decide as Hd; [|by apply wp_ret; left].
  destruct (bo_small _ _ Hok _ Hd) as (b & Hb & Hst & Hcnt & Hf). krun.
  destruct (Z.ltb_spec 0 (counter b)) as [Hpos|]; [|by apply wp_ret; left].
  destruct (L (bin_of n)) as [|p l] eqn:El; [cbn in Hcnt; lia|].
  eapply wp_mono; [by eapply pop_wp|]. intros r s' (-> & Hinv & Hg & Hv). right.
  destruct (member_free _ _ _ (bin_of n) p H) as (Hp & z & E & Hz); [rewrite El; in_tac|].
  pose proof (bin_of_eq _ _ Hd Hz). pose proof (bin_of_eq n _ Hd eq_refl).
  eexists _, z. split_and!; try done. lia.
Qed.

Lemma search_sortedbin_wp s T L n : inv s T L 0 -> wp (search_sortedbin n) (searched s T n) s.
Proof.
  intros H. pose proof (i_bins _ _ _ _ H) as Hok. unfold search_sortedbin.
  destruct (bo_sorted _ _ Hok) as [(b & Hb & Hcnt & Hf & _) Hdl _]. krun.
  destruct (Z.ltb_spec 0 (counter b)) as [Hpos|]; [|by apply wp_ret; left].
  apply wp_bind. eapply wp_lift; [rewrite Hf; by apply walk_dlist|]. cbv beta.
  destruct Hdl as [Hseg Hnd].
  destruct (first_such_split (heap s) (fun _ c => n <=? c_size c) _ 0 (dseg_sseg _ _ _ _ Hseg))
    as [[-> _]|(l1 & p & l2 & c & El & -> & Hp0 & Hc & Ht & _)].
  - cbn [Z.eqb negb]. krun. by left.
  - rewrite (proj2 (Z.eqb_neq p 0)) by done. cbn [negb].
    assert (Hp : p ∈ L SORTEDBIN_IDX) by (rewrite El; in_tac).
    destruct (member_free _ _ _ _ p H Hp) as (HpT & z & E & Hz).
    apply wp_bind. eapply wp_mono; [by eapply erase_wp|].
    intros [] s' (l & Hinv & Hg & Hv). apply wp_ret. right. eexists _, z.
    split_and!; try done. apply Z.leb_le in Ht. apply geo_lookup in E as (c' & ? & <- & _). by simplify_eq.
Qed.

(** An allocation of at least [n] bytes (header included) at [r]. *)
Definition granted (s : malloc_state) (T : list Z) (n r : Z) (s' : malloc_state) : Prop :=
  exists T' L' z, inv s' T' L' 0 /\ r ∈ T' /\ geo (heap s') r = Some (z, 0) /\ n <= z /\
    (forall z, ~ live s T r z) /\ (forall q zq, q <> r -> live s' T' q zq <-> live s T q zq).

Lemma find_free_chunk_wp raw s T L n : inv s T L 0 -> 16 <= n ->
  wp (_find_free_chunk raw n) (fun r s' => (r = 0 /\ s' = s) \/
    (r <> 0 /\ granted s T n r s' /\ void_chunk s' = void_chunk s /\
     exists z, r ∈ T /\ geo (heap s) r = Some (z, 1) /\ n <= z)) s.
Proof.
  intros H Hn. unfold _find_free_chunk. apply wp_bind.
  eapply wp_mono; [by eapply search_sizebins_wp|]. intros r1 s1 Hs1. apply wp_bind.
  eapply (wp_mono _ (searched s T n)).
  { destruct Hs1 as [[-> ->]|Hs1]; [by eapply search_sortedbin_wp|].
    pose proof Hs1 as (L' & z & Hinv & Hr & _).
    rewrite (proj2 (Z.eqb_neq r1 0)) by (by eapply inv_nonzero).
    apply wp_ret. by right. }
  clear Hs1. intros r s2 [[-> ->]|(L' & z & Hinv & Hr & E & Hz & Hg & Hv)]; [by apply wp_ret; left|].
  assert (Hr0 : r <> 0) by by eapply inv_nonzero.
  rewrite (proj2 (Z.eqb_neq r 0)) by done. apply wp_bind.
  eapply wp_mono; [eapply (split_wp raw s2 T L' r z 1 n); [done|done|by rewrite Hg|lia]|].
  intros r' s3 (-> & T3 & L3 & z3 & f3 & Hinv3 & Hr3 & E3 & Hz3 & Hv3 & Hlive3).
  eapply wp_mono; [by eapply claim_wp|]. intros r' s4 (-> & Hinv4 & Hv4 & Hg4).
  right. split; [done|]. split; [|split; [congruence|exists z; done]].
  exists T3, L3, z3. split_and!; try done.
  - by rewrite Hg4, decide_True.
  - intros z' [_ E']. congruence.
  - intros q zq Hq. unfold live at 1. rewrite Hg4, decide_False by done.
    fold (live s3 T3 q zq). rewrite (Hlive3 q zq Hq). unfold live. by rewrite Hg.
Qed.

(** The void chunk is cut when it keeps at least a header. *)
Lemma void_cut_wp raw s T L v n : inv s T L 0 -> geo (heap s) (void_chunk s) = Some (v, 1) ->
  16 <= n -> n + 16 <= v ->
  wp (do nc <- _create_chunk raw (void_chunk s) n;
      _void_chunk_update raw (void_chunk s +w n) (v -w n) ;;; ret_ nc)
    (fun r s' => r = void_chunk s /\ granted s T n r s' /\ void_chunk s' = r + n) s.
Proof.
  intros H E Hn Hnv. destruct (i_void _ _ _ _ H) as (v' & E' & Hv & Hlim). simplify_eq.
  destruct (i_range _ _ _ _ H) as (H0 & HW & Hsz).
  pose proof (i_tiles _ _ _ _ H) as HT. pose proof (tiles_le _ _ _ _ HT) as Hle.
  set (p := void_chunk s) in *.
  assert (Hout : forall q, q ∈ T -> q <> p /\ q <> p + n).
  { intros q Hq. destruct (inv_bounds _ _ _ _ _ H Hq) as (? & ? & ? & ? & ? & ? & ? & _). unfold p. lia. }
  apply wp_bind. eapply create_chunk_wp; [lia|]. intros a1 b1 c1. apply wp_bind.
  unfold _void_chunk_update. rewrite !w32_small by lia. apply wp_bind.
  eapply create_chunk_wp; [lia|]. intros a2 b2 c2. apply wp_bind, wp_mod.
  eapply wp_upd; [cbn; by rewrite lookup_insert_eq|lia|]. apply wp_ret.
  match goal with |- context [void_chunk ?x] => set (s' := x) end.
  assert (Hg : forall q, geo (heap s') q = if decide (q = p) then Some (n, 0)
             else if decide (q = p + n) then Some (v - n, 1) else geo (heap s) q).
  { intros q. cbn. rewrite !geo_insert. cbn. repeat case_decide; simplify_eq; done || lia. }
  assert (Hin : forall q, q ∈ T -> geo (heap s') q = geo (heap s) q).
  { intros q Hq. destruct (Hout q Hq). by rewrite Hg, !decide_False. }
  split_and!; [done| |done]. exists (T ++ [p]), L, n. split_and!; [|in_tac|by rewrite Hg, decide_True|lia| |].
  - split.
    + eapply bins_ok_frame; [apply H|done|done|]. intros i q Hq.
      destruct (i_member _ _ _ _ H i q Hq) as (Hq' & _). destruct (Hout q Hq').
      split; [|by apply sz_ext, Hin]. unfold links. cbn. by rewrite !lookup_insert_ne by congruence.
    + apply tiles_app. exists p. split; [eapply tiles_ext; [|done]; auto|].
      split; [done|]. exists n, 0. rewrite Hg, decide_True by done. split_and!; auto. done.
    + intros i q Hq. destruct (i_member _ _ _ _ H i q Hq) as (Hq' & ? & ?). rewrite Hin by done.
      split_and!; [in_tac|done|done].
    + intros q zq [Hq|Hq%list_elem_of_singleton]%elem_of_app Hne Eq.
      * rewrite Hin in Eq by done. by apply (i_free _ _ _ _ H).
      * subst q. rewrite Hg, decide_True in Eq by done. done.
    + exists (v - n). cbn [void_chunk]. rewrite Hg, decide_False, decide_True by (cbn; lia). cbn. split; [done|lia].
    + apply H.
  - intros z [Hp _]. by destruct (Hout _ Hp).
  - intros q zq Hne. unfold live. rewrite elem_of_app, list_elem_of_singleton, Hg.
    rewrite decide_False by done. destruct (decide (q = p + n)) as [->|].
    + split; [intros [_ ?]; done|]. intros [Hq _]. by destruct (Hout _ Hq).
    + naive_solver.
Qed.
End invariant.
