(* ===== verification/Heap.v ===== *)
(** * The kernel heap's contract

    [rep s A]: the allocator state [s] has handed out exactly the blocks of
    [A], a map from the pointer a caller holds to the size of its chunk.
    [kmalloc] and [kfree] refine insertion and deletion of that map.  The
    class [Allocator] is what the rest of the kernel relies on. *)

From S2P Require Import Prelude Dlist Kmalloc KmallocSpec.

#[local] Open Scope Z_scope.

(** What a component that allocates needs to know: a state, an abstraction
    to the blocks handed out, and the room a request needs.  [al_bytes] is
    what the memory of the heap holds, of which nothing is known: a block is
    handed out as it is. *)
Class Allocator (H : Type) := {
  al_malloc : Z -> M H Z;
  al_free : Z -> M H unit;
  al_bytes : H -> Z -> Z;
  al_rep : H -> gmap Z Z -> Prop;
  al_room : H -> Z -> Prop;
  al_room_down : forall s m n, m <= n -> 0 <= m -> n < 2 ^ 29 -> al_room s n -> al_room s m;
  al_malloc_wp : forall s A n, al_rep s A -> 0 <= n < 2 ^ 29 -> al_room s n ->
    wp (al_malloc n) (fun p s' => exists z, p <> 0 /\ A !! p = None /\ n + 8 <= z /\ al_rep s' (<[p := z]> A)) s;
  al_free_wp : forall s A p z, al_rep s A -> A !! p = Some z ->
    wp (al_free p) (fun _ s' => al_rep s' (delete p A)) s;
  al_free_null : forall s, al_free 0 s = Ok (tt, s);
  al_malloc_room : forall s A n m, al_rep s A -> 0 <= n -> 0 <= m -> n + m + 38 < 2 ^ 29 -> al_room s (n + m + 38) ->
    wp (al_malloc n) (fun _ s' => al_room s' m) s;
  al_free_room : forall s A p z m, al_rep s A -> A !! p = Some z -> al_room s m ->
    wp (al_free p) (fun _ s' => al_room s' m) s;
  al_disjoint : forall s A p q zp zq, al_rep s A -> A !! p = Some zp -> A !! q = Some zq -> p <> q ->
    p + zp <= q \/ q + zq <= p;
  al_nonzero : forall s A p z, al_rep s A -> A !! p = Some z -> 0 < p /\ p + z - 8 <= W32;
}.

Lemma align_request_spec n : 0 <= n < 2 ^ 29 ->
  n + 8 <= align_request n <= n + 23 /\ (16 | align_request n) /\ 16 <= align_request n.
Proof.
  intros Hn. unfold align_request, CHUNK_ALIGNMENT, CHUNK_DATA_OFFSET.
  pose proof (Z.mod_pos_bound n 16 ltac:(lia)) as Hm. pose proof (Z.div_mod n 16 ltac:(lia)) as Hd.
  set (r := n mod 16) in *. set (q := n / 16) in *.
  destruct (Z.ltb_spec 0 r).
  - rewrite (w32_small (n - r)), (w32_small (n - r + 16)), (w32_small (n + 8)) by lia.
    destruct (Z.ltb_spec (n - r + 16) (n + 8)).
    + rewrite w32_small by lia. split; [lia|]. split; [exists (q + 2)|]; lia.
    + split; [lia|]. split; [exists (q + 1)|]; lia.
  - rewrite (w32_small (n + 8)) by lia. destruct (Z.ltb_spec n (n + 8)); [|lia].
    rewrite w32_small by lia. split; [lia|]. split; [exists (q + 1)|]; lia.
Qed.

Lemma align_request_mono m n : 0 <= m -> m <= n -> n < 2 ^ 29 -> align_request m <= align_request n.
Proof.
  intros. destruct (align_request_spec m) as (? & [a Ha] & _); [lia|].
  destruct (align_request_spec n) as (? & [b Hb] & _); [lia|]. lia.
Qed.

(** ** A heap between two addresses

    The kernel's heap and the heap of a program differ in where they lie and
    in what sets them up; both hand out the chunks between [start] and
    [limit]. *)
Section arena.
Context (start limit : Z) (kernel_end : Z) (raw : Z -> chunk_header).

(** The blocks a client may use, by the pointer it holds. *)
Definition rep_in (s : malloc_state) (A : gmap Z Z) : Prop := exists T L,
  inv start limit s T L 0 /\ forall p z, A !! p = Some z <-> live s T (p - 8) z.

(** The void chunk can be cut for a request and keep a header. *)
Definition room_in (s : malloc_state) (n : Z) : Prop :=
  void_chunk s + align_request n + 16 <= limit.

Lemma rep_granted s T L s' A n r : inv start limit s T L 0 ->
  (forall p z, A !! p = Some z <-> live s T (p - 8) z) ->
  granted start limit s T n r s' ->
  exists z, chunk2mem r <> 0 /\ A !! chunk2mem r = None /\ n <= z /\ rep_in s' (<[chunk2mem r := z]> A).
Proof.
  intros H HA (T' & L' & z & Hinv & Hr & E & Hz & Hnew & Hlive).
  destruct (inv_bounds _ _ _ _ _ _ _ Hinv Hr) as (z' & f & E' & ? & ? & ? & ? & ? & _). simplify_eq.
  destruct (i_range _ _ _ _ _ _ Hinv) as (? & ? & ?).
  unfold chunk2mem, CHUNK_DATA_OFFSET. rewrite w32_small by lia. exists z. split_and!; [lia| |done|].
  - destruct (A !! (r + 8)) eqn:EA; [|done]. apply HA in EA. exfalso.
    replace (r + 8 - 8) with r in EA by lia. by eapply Hnew.
  - exists T', L'. split; [done|]. intros q zq. destruct (decide (q = r + 8)) as [->|Hne].
    + rewrite lookup_insert_eq. replace (r + 8 - 8) with r by lia. unfold live. rewrite E. naive_solver.
    + rewrite lookup_insert_ne by done. rewrite HA, Hlive by lia. done.
Qed.

Lemma kmalloc_in_wp s A n : rep_in s A -> 0 <= n < 2 ^ 29 -> room_in s n ->
  wp (kmalloc kernel_end raw n) (fun p s' => exists z, p <> 0 /\ A !! p = None /\ n + 8 <= z /\
    rep_in s' (<[p := z]> A) /\ void_chunk s' <= void_chunk s + align_request n) s.
Proof.
  intros (T & L & H & HA) Hn Hroom. destruct (align_request_spec n Hn) as (Ha1 & _ & Ha2).
  unfold kmalloc. krun. rewrite (bo_init _ _ (i_bins _ _ _ _ _ _ H)). cbn [negb]. krun.
  eapply wp_mono; [by eapply find_free_chunk_wp|].
  intros r s1 [[-> ->]|(Hr0 & Hgr & Hv & _)].
  - cbn [Z.eqb]. destruct (i_void _ _ _ _ _ _ H) as (v & Ev & Hv16 & Hlim). unfold room_in in Hroom.
    destruct (geo_lookup _ _ _ _ Ev) as (c & Hc & Hcz & _).
    destruct (i_range _ _ _ _ _ _ H) as (? & ? & ?).
    pose proof (tiles_le _ _ _ _ (i_tiles _ _ _ _ _ _ H)).
    apply wp_bind, wp_bind. eapply wp_ld; [done|lia|]. rewrite Hcz.
    destruct (Z.leb_spec (align_request n) v); [|lia].
    eapply wp_mono; [eapply void_cut_wp; [done|done|lia|lia]|].
    intros r s' (-> & Hgr & Hv).
    destruct (rep_granted s T L s' A _ _ H HA Hgr) as (z & ? & ? & ? & ?).
    rewrite (proj2 (Z.eqb_neq (void_chunk s) 0)) by lia. apply wp_ret. exists z.
    split_and!; [done|done|lia|done|lia].
  - rewrite (proj2 (Z.eqb_neq r 0)) by done. krun.
    rewrite (proj2 (Z.eqb_neq r 0)) by done. krun.
    destruct (rep_granted s T L s1 A _ r H HA Hgr) as (z & ? & ? & ? & ?).
    exists z. split_and!; [done|done|lia|done|lia].
Qed.

(** When neither a free chunk nor the void chunk is large enough, the
    machine halts. *)
Lemma kmalloc_in_exhausted s T L n : inv start limit s T L 0 -> 16 <= align_request n ->
  (forall p z, p ∈ T -> geo (heap s) p = Some (z, 1) -> z < align_request n) ->
  limit < void_chunk s + align_request n ->
  kmalloc kernel_end raw n s = Panic "[PANIC] kmalloc run out of memory!".
Proof.
  intros H Hn Hfree Hvoid. unfold kmalloc, bind_ at 1, get_.
  rewrite (bo_init _ _ (i_bins _ _ _ _ _ _ H)). unfold bind_ at 1. cbn [negb ret_]. unfold bind_ at 1, ret_ at 1.
  destruct (wp_run _ _ _ (find_free_chunk_wp _ _ raw s T L _ H Hn)) as (r & s1 & Er & Hpost).
  destruct Hpost as [[-> ->]|(_ & _ & _ & z & Hr & Ez & Hz)]; [|specialize (Hfree r z Hr Ez); lia].
  rewrite (bind_ok _ _ _ _ _ Er). cbn [Z.eqb].
  destruct (i_void _ _ _ _ _ _ H) as (v & Ev & Hv16 & Hlim).
  destruct (geo_lookup _ _ _ _ Ev) as (c & Hc & Hcz & _).
  destruct (i_range _ _ _ _ _ _ H) as (? & ? & ?).
  pose proof (tiles_le _ _ _ _ (i_tiles _ _ _ _ _ _ H)).
  unfold bind_ at 1. unfold bind_ at 1, ld. rewrite Hc, (proj2 (Z.eqb_neq (void_chunk s) 0)) by lia.
  destruct (Z.leb_spec (align_request n) (c_size c)); [lia|]. done.
Qed.

Lemma kfree_in_rep s A p z : rep_in s A -> A !! p = Some z ->
  wp (kfree p) (fun _ s' => rep_in s' (delete p A) /\ void_chunk s' = void_chunk s) s.
Proof.
  intros (T & L & H & HA) Hp. pose proof Hp as Hp'. apply HA in Hp' as [HT E].
  destruct (inv_bounds _ _ _ _ _ _ _ H HT) as (z' & f & E' & ? & ? & ? & ? & ? & _). simplify_eq.
  destruct (i_range _ _ _ _ _ _ H) as (? & ? & ?).
  replace p with (chunk2mem (p - 8)) at 1 by (unfold chunk2mem, CHUNK_DATA_OFFSET; rewrite w32_small by lia; lia).
  eapply wp_mono; [by eapply kfree_wp|]. intros [] s' (L' & Hinv & Hv & Hg).
  split; [|done]. exists T, L'. split; [done|]. intros q zq. unfold live. rewrite Hg.
  destruct (decide (q = p)) as [->|Hne].
  - rewrite lookup_delete_eq, decide_True by done. split; [done|]. intros [_ ?]. done.
  - rewrite lookup_delete_ne, decide_False by lia. apply HA.
Qed.

Lemma rep_in_disjoint s A p q zp zq : rep_in s A -> A !! p = Some zp -> A !! q = Some zq -> p <> q ->
  p + zp <= q \/ q + zq <= p.
Proof.
  intros (T & L & H & HA) [Hp Ep]%HA [Hq Eq]%HA Hne.
  destruct (tiles_disjoint _ _ _ _ _ _ _ _ _ _ (i_tiles _ _ _ _ _ _ H) Hp Hq ltac:(lia) Ep Eq); lia.
Qed.

Lemma rep_in_bounds s A p z : rep_in s A -> A !! p = Some z ->
  start + 8 <= p /\ p + z - 8 <= limit /\ 0 < p /\ p + z - 8 <= W32.
Proof.
  intros (T & L & H & HA) [Hp E]%HA.
  destruct (inv_bounds _ _ _ _ _ _ _ H Hp) as (z' & f & E' & ? & ? & ? & ? & ? & _). simplify_eq.
  destruct (i_range _ _ _ _ _ _ H) as (? & ? & ?). lia.
Qed.

(** What both allocators do before the first request: empty bins, and a void
    chunk that takes the whole range. *)
Definition empty_bins : list bin_info := ((fun i => mkBin (32 + 16 * i) 0 0 0) <$> [0; 1; 2; 3; 4]) ++ [mkBin 0 0 0 0].

Lemma clear_bins_run s : length (bins s) = BINS_QUANTITY -> exists b,
  for_ SIZEBINS 0 (fun i => __malloc_init_bin (Z.to_nat i) (32 + i * CHUNK_ALIGNMENT)) s
    = Ok (tt, ms_set_bins (take 5 empty_bins ++ [b]) s) /\
  __malloc_init_bin SORTEDBIN_IDX 0 (ms_set_bins (take 5 empty_bins ++ [b]) s) = Ok (tt, ms_set_bins empty_bins s).
Proof.
  destruct s as [ini bs v0 h0]. cbn [bins]. intros Hlen.
  destruct bs as [|b0 [|b1 [|b2 [|b3 [|b4 [|b5 [|]]]]]]]; try discriminate Hlen. exists b5. by split.
Qed.

Lemma rep_in_fresh s : is_initialized s = true -> bins s = empty_bins -> void_chunk s = start ->
  geo (heap s) start = Some (limit - start, 1) -> 16 <= limit - start < 2 ^ 30 -> 0 < start -> limit <= W32 -> rep_in s ∅.
Proof.
  intros Hi Hb Hv Hg Hz Hs Hl. exists [], (fun _ => []). split; [split|].
  - split; [| | | |exact Hi].
    + intros i Hlt. rewrite Hb. unfold SIZEBINS in Hlt. do 5 (destruct i as [|i]; [eexists; done|]). lia.
    + intros i _. split; [done|constructor].
    + split; [|split; [done|constructor]|constructor]. rewrite Hb. eexists. split; done.
    + intros i p Hp. by apply elem_of_nil in Hp.
  - by rewrite Hv.
  - intros i p Hp. by apply elem_of_nil in Hp.
  - intros p z Hp. by apply elem_of_nil in Hp.
  - exists (limit - start). rewrite Hv. split; [exact Hg|lia].
  - lia.
  - intros p z. rewrite lookup_empty. split; [done|]. intros [Hp _]. by apply elem_of_nil in Hp.
Qed.
End arena.

(** ** The kernel's heap *)

Section heap.
Context (kernel_end : Z) (raw : Z -> chunk_header).

Let start := VM_KMALLOC_START kernel_end.

(** The first address after the void chunk of a fresh heap. *)
Definition heap_limit : Z := start + kmalloc_area_size kernel_end.

Definition rep : malloc_state -> gmap Z Z -> Prop := rep_in start heap_limit.
Definition room : malloc_state -> Z -> Prop := room_in heap_limit.

(** Where the kernel image may end: the heap is smaller than 2^30 bytes,
    so its size fits the 30-bit field of a header. *)
Definition kernel_end_ok : Prop := 0x90002000 <= kernel_end <= 0xcfff0000.

Lemma arena : kernel_end_ok -> start = kernel_end + 0x1000 /\ heap_limit = 0xd0002000.
Proof.
  unfold kernel_end_ok, heap_limit, start, VM_KMALLOC_START, kmalloc_area_size, VM_KMALLOC_END. intros H.
  rewrite !w32_small by (rewrite ?w32_small; lia). lia.
Qed.

Lemma malloc_init_wp s : kernel_end_ok -> length (bins s) = BINS_QUANTITY ->
  wp (_malloc_init kernel_end raw) (fun _ s' => rep s' ∅ /\ void_chunk s' = start) s.
Proof.
  intros Hk Hlen. destruct (arena Hk) as [Hst Hlim]. unfold kernel_end_ok in Hk.
  assert (Ha : kmalloc_area_size kernel_end = 0xd0002000 - start) by (unfold heap_limit in Hlim; lia).
  destruct (clear_bins_run s Hlen) as (b & E1 & E2). unfold _malloc_init.
  apply wp_bind. eapply wp_intro; [exact E1|]. apply wp_bind. eapply wp_intro; [exact E2|].
  fold start. rewrite Ha. apply wp_bind. eapply create_chunk_wp; [lia|]. intros x y z. krun.
  eapply wp_upd; [cbn; by rewrite lookup_insert_eq|lia|]. apply wp_mod. split; [|done].
  apply rep_in_fresh; try done; [|lia..]. rewrite Hlim. unfold geo. cbn. by rewrite lookup_insert_eq.
Qed.

(** The first allocation sets the heap up. *)
Lemma kmalloc_boot_wp n : kernel_end_ok -> 0 <= n < 2 ^ 29 ->
  start + align_request n + 16 <= heap_limit ->
  wp (kmalloc kernel_end raw n) (fun p s' => exists z, p <> 0 /\ n + 8 <= z /\ rep s' {[p := z]}) ms_boot.
Proof.
  intros Hk Hn Hroom.
  destruct (wp_run _ _ _ (malloc_init_wp ms_boot Hk eq_refl)) as ([] & s0 & E0 & Hrep & Hv).
  assert (E : kmalloc kernel_end raw n ms_boot = kmalloc kernel_end raw n s0).
  { destruct Hrep as (T & L & H & _). unfold kmalloc.
    match goal with |- bind_ _ (fun init => bind_ _ ?K) _ = _ => set (k := K) end.
    transitivity (k tt s0); [exact (bind_ok _ k _ _ _ E0)|].
    unfold bind_, get_. rewrite (bo_init _ _ (i_bins _ _ _ _ _ _ H)). done. }
  unfold wp. rewrite E. fold (wp (kmalloc kernel_end raw n)
    (fun p s' => exists z, p <> 0 /\ n + 8 <= z /\ rep s' {[p := z]}) s0).
  eapply wp_mono; [eapply kmalloc_in_wp; [done|done|]|].
  { unfold room_in. rewrite Hv. exact Hroom. }
  intros p s' (z & ? & _ & ? & ? & _). exists z. by rewrite <- insert_empty.
Qed.
End heap.

(** [raw] and [bytes]: what the memory held before. *)
#[export] Instance kmalloc_allocator (kernel_end : Z) (raw : Z -> chunk_header) (bytes : malloc_state -> Z -> Z) : Allocator malloc_state.
Proof.
  refine {| al_malloc := kmalloc kernel_end raw; al_free := kfree; al_bytes := bytes;
            al_rep := rep kernel_end; al_room := room kernel_end |}.
  - intros s m n ? ? ?. unfold room, room_in. pose proof (align_request_mono m n). lia.
  - intros s A n Hr Hn Hroom. eapply wp_mono; [by apply kmalloc_in_wp|].
    intros p s' (z & ? & ? & ? & ? & _). eauto.
  - intros s A p z Hr Hp. eapply wp_mono; [by eapply kfree_in_rep|]. by intros [] s' [? _].
  - done.
  - intros s A n m Hr Hn Hm Hlt Hroom. unfold room, room_in in *.
    destruct (align_request_spec n) as (? & _ & _); [lia|]. destruct (align_request_spec m) as (? & _ & _); [lia|].
    destruct (align_request_spec (n + m + 38)) as (? & _ & _); [lia|].
    eapply wp_mono; [apply (kmalloc_in_wp _ _ kernel_end raw s A n Hr); unfold room_in; lia|].
    intros p s' (z & _ & _ & _ & _ & Hv). lia.
  - intros s A p z m Hr Hp Hroom. unfold room, room_in in *. eapply wp_mono; [by eapply kfree_in_rep|]. intros [] s' [_ Hv]. lia.
  - apply rep_in_disjoint.
  - intros s A p z Hr Hp. destruct (rep_in_bounds _ _ _ _ _ _ Hr Hp) as (_ & _ & ?). done.
Defined.

(** ** Properties *)

(** C1: [kmalloc] refines insertion into the map of blocks in use: a request
    for [n] bytes returns a fresh, non-NULL block whose chunk has room for
    the payload and the 8-byte header in front of it, and every other block
    in use is kept with its size. *)
Theorem kmalloc_refines_insert kernel_end raw s A n :
  rep kernel_end s A -> 0 <= n < 2 ^ 29 -> room kernel_end s n ->
  exists p z s', kmalloc kernel_end raw n s = Ok (p, s') /\ p <> 0 /\ A !! p = None /\
    n + 8 <= z /\ rep kernel_end s' (<[p := z]> A).
Proof.
  intros Hr Hn Hroom.
  destruct (wp_run _ _ _ (kmalloc_in_wp _ _ kernel_end raw s A n Hr Hn Hroom)) as (p & s' & E & z & ? & ? & ? & ? & _).
  exists p, z, s'. done.
Qed.

(** A fresh heap of a kernel image that ends at 0xc0400000. *)
Definition demo_raw (_ : Z) : chunk_header := mkChunk 0 0 0 0 0 0.

Definition demo_bytes (_ : malloc_state) (p : Z) : Z := p mod 251.

Lemma demo_heap : exists s, rep 0xc0400000 s ∅ /\ void_chunk s = 0xc0401000 /\ is_initialized s = true.
Proof.
  destruct (wp_run _ _ _ (malloc_init_wp 0xc0400000 demo_raw ms_boot ltac:(unfold kernel_end_ok; lia) eq_refl))
    as ([] & s & _ & Hr & Hv).
  exists s. split; [done|]. split; [by rewrite Hv|]. destruct Hr as (T & L & H & _).
  apply (bo_init _ _ (i_bins _ _ _ _ _ _ H)).
Qed.

Lemma demo_room s n : void_chunk s = 0xc0401000 -> 0 <= n < 2 ^ 20 -> room 0xc0400000 s n.
Proof.
  intros Hv Hn. unfold room, room_in. rewrite (proj2 (arena 0xc0400000 ltac:(unfold kernel_end_ok; lia))), Hv.
  destruct (align_request_spec n); lia.
Qed.

Lemma kmalloc_refines_insert_witness : exists s p z s',
  kmalloc 0xc0400000 demo_raw 100 s = Ok (p, s') /\ 108 <= z /\ rep 0xc0400000 s' {[p := z]}.
Proof.
  destruct demo_heap as (s & Hr & Hv & _).
  destruct (kmalloc_refines_insert 0xc0400000 demo_raw s ∅ 100 Hr ltac:(lia) (demo_room s 100 Hv ltac:(lia)))
    as (p & z & s' & E & _ & _ & Hz & Hr').
  exists s, p, z, s'. split; [exact E|]. split; [lia|]. rewrite <- insert_empty. exact Hr'.
Defined.

(** C2: [kfree] refines deletion: freeing a block in use always returns, and
    leaves exactly the other blocks in use. *)
Theorem kfree_refines_delete kernel_end s A p z :
  rep kernel_end s A -> A !! p = Some z ->
  exists s', kfree p s = Ok (tt, s') /\ rep kernel_end s' (delete p A).
Proof.
  intros Hr Hp. destruct (wp_run _ _ _ (kfree_in_rep _ _ s A p z Hr Hp)) as ([] & s' & E & ? & _). eauto.
Qed.

(** One block in use. *)
Lemma demo_block : exists s p z, rep 0xc0400000 s {[p := z]}.
Proof.
  destruct (wp_run _ _ _ (kmalloc_boot_wp 0xc0400000 demo_raw 100 ltac:(unfold kernel_end_ok; lia) ltac:(lia)
    ltac:(vm_compute; discriminate))) as (p & s & _ & z & _ & _ & Hr). eauto.
Qed.

Lemma kfree_refines_delete_witness : exists s p s', kfree p s = Ok (tt, s') /\ rep 0xc0400000 s' ∅.
Proof.
  destruct demo_block as (s & p & z & Hr).
  destruct (kfree_refines_delete 0xc0400000 s {[p := z]} p z Hr) as (s' & E & Hr'); [by simplify_map_eq|].
  rewrite delete_singleton_eq in Hr'. exists s, p, s'. done.
Defined.

(** Two blocks in use never overlap, headers included, and each lies
    inside the heap: no sequence of [kmalloc] and [kfree] hands out the same
    byte twice. *)
Lemma heap_blocks_disjoint kernel_end s A p q zp zq :
  rep kernel_end s A -> A !! p = Some zp -> A !! q = Some zq ->
  (p <> q -> p - 8 + zp <= q - 8 \/ q - 8 + zq <= p - 8) /\
  VM_KMALLOC_START kernel_end <= p - 8 /\ p - 8 + zp <= heap_limit kernel_end.
Proof.
  intros Hr Hp Hq. split.
  - intros Hne. destruct (rep_in_disjoint _ _ s A p q zp zq Hr Hp Hq Hne); lia.
  - destruct (rep_in_bounds _ _ s A p zp Hr Hp) as (? & ? & _). lia.
Qed.

Lemma heap_blocks_disjoint_witness : exists s p z, rep 0xc0400000 s {[p := z]} /\
  VM_KMALLOC_START 0xc0400000 <= p - 8 /\ p - 8 + z <= heap_limit 0xc0400000.
Proof.
  destruct demo_block as (s & p & z & Hr). exists s, p, z. split; [exact Hr|].
  apply (heap_blocks_disjoint 0xc0400000 s {[p := z]} p p z z Hr); by simplify_map_eq.
Defined.

(** Freeing a block twice halts the machine on the second call. *)
Lemma kfree_twice_panics kernel_end s A p z :
  rep kernel_end s A -> A !! p = Some z ->
  exists s', kfree p s = Ok (tt, s') /\ kfree p s' = Panic "[BUG] kfree double free prevention".
Proof.
  intros (T & L & H & HA) Hp. apply HA in Hp as [HT E].
  destruct (inv_bounds _ _ _ _ _ _ _ H HT) as (z' & f & E' & ? & ? & ? & ? & ? & _). simplify_eq.
  destruct (i_range _ _ _ _ _ _ H) as (? & ? & ?).
  assert (Ep : p = chunk2mem (p - 8)) by (unfold chunk2mem, CHUNK_DATA_OFFSET; rewrite w32_small; lia).
  destruct (wp_run _ _ _ (kfree_wp _ _ _ _ _ _ _ H HT E)) as ([] & s' & E1 & L' & Hinv & _ & Hg).
  rewrite <- Ep in E1. exists s'. split; [done|].
  specialize (Hg (p - 8)). rewrite decide_True in Hg by done.
  destruct (geo_lookup _ _ _ _ Hg) as (c & Hc & _ & Hcf).
  unfold kfree, mem2chunk, CHUNK_DATA_OFFSET. rewrite (proj2 (Z.eqb_neq p 0)) by lia.
  rewrite (w32_small (p - 8)) by lia. unfold bind_ at 1, get_.
  rewrite (bo_init _ _ (i_bins _ _ _ _ _ _ Hinv)). cbn [negb].
  unfold bind_ at 1, ld. rewrite Hc, (proj2 (Z.eqb_neq (p - 8) 0)), Hcf by lia. done.
Qed.

Lemma kfree_twice_panics_witness : exists s p s', kfree p s = Ok (tt, s') /\
  kfree p s' = Panic "[BUG] kfree double free prevention".
Proof.
  destruct demo_block as (s & p & z & Hr).
  destruct (kfree_twice_panics 0xc0400000 s {[p := z]} p z Hr) as (s' & E & E'); [by simplify_map_eq|].
  exists s, p, s'. done.
Defined.

(** When no free chunk and not even the void chunk is large enough for
    the rounded request, [kmalloc] halts the machine; it never returns NULL. *)
Lemma kmalloc_out_of_memory_panics kernel_end raw s T L n :
  inv (VM_KMALLOC_START kernel_end) (heap_limit kernel_end) s T L 0 -> 0 <= n < 2 ^ 29 ->
  (forall p z, p ∈ T -> geo (heap s) p = Some (z, 1) -> z < align_request n) ->
  heap_limit kernel_end < void_chunk s + align_request n ->
  kmalloc kernel_end raw n s = Panic "[PANIC] kmalloc run out of memory!".
Proof.
  intros H Hn Hfree Hvoid. destruct (align_request_spec n Hn) as (_ & _ & Ha).
  by apply (kmalloc_in_exhausted (VM_KMALLOC_START kernel_end) (heap_limit kernel_end) kernel_end raw s T L).
Qed.

(** A heap with no chunk but the void chunk. *)
Lemma rep_empty_inv kernel_end s : kernel_end_ok kernel_end -> rep kernel_end s ∅ ->
  void_chunk s = VM_KMALLOC_START kernel_end ->
  exists L, inv (VM_KMALLOC_START kernel_end) (heap_limit kernel_end) s [] L 0.
Proof.
  intros Hk (T & L & H & _) Hv. exists L. destruct T as [|p T]; [done|].
  destruct (i_tiles _ _ _ _ _ _ H) as (-> & z & f & _ & Hz & _ & HT). rewrite Hv in HT.
  pose proof (tiles_le _ _ _ _ HT). lia.
Qed.

Lemma kmalloc_out_of_memory_panics_witness : exists s,
  kmalloc 0xc0400000 demo_raw 0x10000000 s = Panic "[PANIC] kmalloc run out of memory!".
Proof.
  destruct demo_heap as (s & Hr & Hv & _).
  destruct (rep_empty_inv 0xc0400000 s ltac:(unfold kernel_end_ok; lia) Hr Hv) as [L H].
  exists s. apply (kmalloc_out_of_memory_panics 0xc0400000 demo_raw s [] L); [exact H|lia| |].
  - intros p z Hp. by apply elem_of_nil in Hp.
  - rewrite Hv. vm_compute. reflexivity.
Defined.

(** The size computation wraps: a request of almost 4 GiB is rounded to
    the chunk of a one-byte request, so [kmalloc] grants it a 16-byte chunk
    instead of running out of memory. *)
Lemma kmalloc_huge_request_wraps kernel_end raw n s :
  W32 - 7 <= n < W32 -> kmalloc kernel_end raw n s = kmalloc kernel_end raw 1 s.
Proof.
  intros Hn. assert (E : align_request n = align_request 1); [|unfold kmalloc; by rewrite E].
  unfold align_request, CHUNK_ALIGNMENT, CHUNK_DATA_OFFSET.
  assert (Em : n mod 16 = n - (W32 - 16)) by word_lia. rewrite Em.
  destruct (Z.ltb_spec 0 (n - (W32 - 16))); [|lia].
  replace (n - (n - (W32 - 16))) with (W32 - 16) by lia.
  rewrite (w32_small (W32 - 16)) by lia. replace (W32 - 16 + 16) with W32 by lia.
  replace (w32 W32) with 0 by reflexivity.
  replace (w32 (n + 8)) with (n + 8 - W32) by word_lia.
  destruct (Z.ltb_spec 0 (n + 8 - W32)); [reflexivity|lia].
Qed.

Lemma kmalloc_huge_request_wraps_witness :
  kmalloc 0xc0400000 demo_raw 0xffffffff ms_boot = kmalloc 0xc0400000 demo_raw 1 ms_boot.
Proof. apply kmalloc_huge_request_wraps. lia. Defined.

(** The payload of a block overlays the [prev] and [next] fields of its
    chunk header, and whatever the owner of a block in use writes there, the
    allocator's state stays consistent. *)
Lemma heap_survives_payload_writes kernel_end s A p z c pv nx :
  rep kernel_end s A -> A !! p = Some z -> heap s !! (p - 8) = Some c ->
  rep kernel_end (ms_set_heap (<[p - 8 := chunk_set_prev pv (chunk_set_next nx c)]> (heap s)) s) A.
Proof.
  intros (T & L & H & HA) Hp Hc. pose proof Hp as Hp'. apply HA in Hp' as [HT E].
  set (s' := ms_set_heap _ s).
  assert (Hg : forall q, geo (heap s') q = geo (heap s) q) by (intros q; by eapply geo_insert_same).
  exists T, L. split; [split|].
  - eapply bins_ok_frame; [apply H|done|done|]. intros i q Hq.
    destruct (i_member _ _ _ _ _ _ H i q Hq) as (_ & _ & Hf).
    split; [|by apply sz_ext]. cbn. rewrite links_insert. rewrite decide_False; [done|].
    intros <-. rewrite E in Hf. done.
  - eapply tiles_ext; [|apply H]. auto.
  - intros i q Hq. rewrite Hg. by apply (i_member _ _ _ _ _ _ H i).
  - intros q zq Hq Hne Eq. rewrite Hg in Eq. by apply (i_free _ _ _ _ _ _ H).
  - destruct (i_void _ _ _ _ _ _ H) as (v & Hv & ? & ?). exists v. rewrite Hg. done.
  - apply H.
  - intros q zq. rewrite HA. unfold live. by rewrite Hg.
Qed.

Lemma heap_survives_payload_writes_witness : exists s p z c, rep 0xc0400000 s {[p := z]} /\
  rep 0xc0400000 (ms_set_heap (<[p - 8 := chunk_set_prev 0x41414141 (chunk_set_next 0x41414141 c)]> (heap s)) s) {[p := z]}.
Proof.
  destruct demo_block as (s & p & z & Hr). pose proof Hr as (T & L & H & HA).
  destruct (HA p z) as [Hlive _]. destruct Hlive as [_ E]; [by simplify_map_eq|].
  destruct (geo_lookup _ _ _ _ E) as (c & Hc & _). exists s, p, z, c. split; [exact Hr|].
  apply (heap_survives_payload_writes 0xc0400000 s {[p := z]} p z c); [exact Hr|by simplify_map_eq|exact Hc].
Defined.
