(* ===== verification/Paging.v ===== *)
(** * Paging ([src/src/kernel/arch/i386/paging.c]) on the i386 MMU

    The machine is the physical memory, as 32-bit words, the CR3 register
    and the frame allocator.  A virtual access goes through the two-level
    walk of the processor: the kernel edits its page directory and page
    tables through the directory's recursive slot 1023, and a foreign
    directory through slot 1022.  A kernel access to an unmapped address is
    a [Fault].  There is no TLB in the model, so [_INVLPG] has no effect. *)

From S2P Require Import Prelude Pmm.

#[local] Open Scope Z_scope.

Definition PG_PRESENT : Z := 0x1.
Definition PG_RW : Z := 0x2.
Definition PG_USER : Z := 0x4.
Definition PG_ALIGN : Z := 0xfffff000.
Definition PG_KERN_PAGE_FLAG : Z := Z.lor PG_PRESENT PG_RW.

Definition VM_USER_END : Z := 0xc0000000.
Definition VM_KERN_START : Z := 0xc0000000.
Definition VM_VMALLOC_START : Z := 0xd0000000.
Definition VM_VMALLOC_END : Z := 0xdffff000.
Definition VM_KERN_END : Z := 0xe0000000.
Definition VM_TMP_MAP : Z := 0xff7fe000.
Definition VM_TMP2_MAP : Z := 0xff7ff000.
Definition VM_EXPAGE_TABLES : Z := 0xff800000.
Definition VM_EXPAGE_DIR : Z := 0xffbff000.
Definition VM_PAGE_TABLES : Z := 0xffc00000.
Definition VM_PAGE_DIR : Z := 0xfffff000.

(** ** The processor *)

Record machine := mkMachine {
  m_pmm : pmm;
  cr3 : Z;
  ram : gmap Z Z;   (* word number -> word *)
}.

Definition set_m_pmm v s := mkMachine v (cr3 s) (ram s).
Definition set_cr3 v s := mkMachine (m_pmm s) v (ram s).
Definition set_ram v s := mkMachine (m_pmm s) (cr3 s) v.

Definition word_at (m : gmap Z Z) (paddr : Z) : Z := default 0 (m !! (paddr / 4)).

Definition frame_of (entry : Z) : Z := Z.land entry PG_ALIGN.
Definition present (entry : Z) : bool := negb (Z.land entry PG_PRESENT =? 0).

Definition pd_idx (vaddr : Z) : Z := Z.shiftr vaddr 22.
Definition pt_idx (vaddr : Z) : Z := Z.shiftr vaddr 12.

(** The physical address [vaddr] stands for under directory [dir]. *)
Definition walk_dir (m : gmap Z Z) (dir vaddr : Z) : option Z :=
  let pde := word_at m (frame_of dir + 4 * pd_idx vaddr) in
  if present pde then
    let pte := word_at m (frame_of pde + 4 * (pt_idx vaddr mod 1024)) in
    if present pte then Some (frame_of pte + vaddr mod 4096) else None
  else None.

Definition ld32 (vaddr : Z) : M machine Z := fun s =>
  match walk_dir (ram s) (cr3 s) vaddr with
  | Some p => Ok (word_at (ram s) p, s)
  | None => Fault
  end.

Definition st32 (vaddr v : Z) : M machine unit := fun s =>
  match walk_dir (ram s) (cr3 s) vaddr with
  | Some p => Ok (tt, set_ram (<[p / 4 := v]> (ram s)) s)
  | None => Fault
  end.

(** Byte [p mod 4] of the word at [p], least significant first. *)
Definition byte_of (w i : Z) : Z := Z.land (Z.shiftr w (8 * i)) 0xff.
Definition set_byte (w i b : Z) : Z :=
  Z.lor (Z.land w (Z.lnot (Z.shiftl 0xff (8 * i)))) (Z.shiftl (Z.land b 0xff) (8 * i)).

Definition ld8 (vaddr : Z) : M machine Z := fun s =>
  match walk_dir (ram s) (cr3 s) vaddr with
  | Some p => Ok (byte_of (word_at (ram s) p) (p mod 4), s)
  | None => Fault
  end.

Definition st8 (vaddr b : Z) : M machine unit := fun s =>
  match walk_dir (ram s) (cr3 s) vaddr with
  | Some p => Ok (tt, set_ram (<[p / 4 := set_byte (word_at (ram s) p) (p mod 4) b]> (ram s)) s)
  | None => Fault
  end.

Definition with_pmm {A} (m : M pmm A) : M machine A := zoom m_pmm set_m_pmm m.

(** ** paging.c *)

Definition current_pd (i : Z) : Z := VM_PAGE_DIR + 4 * i.
Definition current_pts (i : Z) : Z := VM_PAGE_TABLES + 4 * i.
Definition external_pd (i : Z) : Z := VM_EXPAGE_DIR + 4 * i.
Definition external_pts (i : Z) : Z := VM_EXPAGE_TABLES + 4 * i.

Definition _CREATE_PD_ENTRY (paddr : Z) : Z := Z.lor (Z.lor (Z.land paddr PG_ALIGN) PG_PRESENT) PG_RW.

(** [! _IS_ENTRY_PRESENT(e)] as the preprocessor writes it, [(!(e)) & PG_PRESENT]:
      true when the whole entry is zero. *)
Definition entry_is_zero (e : Z) : bool := e =? 0.

Definition _get_pd_addr : M machine Z := do p <- get_ cr3; ret_ (Z.land p PG_ALIGN).

Definition _set_expd (pd : Z) : M machine Z :=
  do old <- ld32 (current_pd (pd_idx VM_EXPAGE_DIR));
  st32 (current_pd (pd_idx VM_EXPAGE_DIR)) (Z.lor (Z.lor pd PG_PRESENT) PG_RW) ;;;
  ret_ old.

Definition _get_page (vaddr : Z) : M machine Z :=
  let vaddr := Z.land vaddr PG_ALIGN in
  do pde <- ld32 (current_pd (pd_idx vaddr));
  if present pde then
    do pte <- ld32 (current_pts (pt_idx vaddr));
    if present pte then ld32 (current_pts (pt_idx vaddr)) else ret_ 0
  else ret_ 0.

Definition _get_expage (vaddr : Z) : M machine Z :=
  let vaddr := Z.land vaddr PG_ALIGN in
  do pde <- ld32 (external_pd (pd_idx vaddr));
  if present pde then
    do pte <- ld32 (external_pts (pt_idx vaddr));
    if present pte then ld32 (external_pts (pt_idx vaddr)) else ret_ 0
  else ret_ 0.

(** [dst_pd_vaddr] is a virtual address, [kern_pd] the boot directory at
    virtual address [kern_pd_vaddr]. *)
Definition _clone_kernel_tables (kern_pd_vaddr dst_pd_vaddr : Z) : M machine unit :=
  for_ (Z.to_nat (pd_idx VM_KERN_END - pd_idx VM_KERN_START)) (pd_idx VM_KERN_START) (fun i =>
    do e <- ld32 (kern_pd_vaddr + 4 * i);
    st32 (dst_pd_vaddr + 4 * i) e).

Definition pg_switch_pd (new : Z) : M machine unit := mod_ (set_cr3 new).

Definition pg_map (paddr vaddr flags : Z) : M machine unit :=
  do pde <- ld32 (current_pd (pd_idx vaddr));
  (when entry_is_zero pde then_
     (do f <- with_pmm pmm_get_frame;
      st32 (current_pd (pd_idx vaddr)) (_CREATE_PD_ENTRY f))) ;;;
  st32 (current_pts (pt_idx vaddr)) (Z.lor (Z.land paddr PG_ALIGN) flags).

Definition pg_map_to (pd paddr vaddr flags : Z) : M machine unit :=
  do old_pd <- _set_expd pd;
  do pde <- ld32 (external_pd (pd_idx vaddr));
  (when entry_is_zero pde then_
     (do f <- with_pmm pmm_get_frame;
      if negb (Z.land flags PG_USER =? 0)
      then st32 (external_pd (pd_idx vaddr)) (Z.lor (_CREATE_PD_ENTRY f) PG_USER)
      else st32 (external_pd (pd_idx vaddr)) (_CREATE_PD_ENTRY f))) ;;;
  st32 (external_pts (pt_idx vaddr)) (Z.lor (Z.land paddr PG_ALIGN) flags) ;;;
  do _ <- _set_expd old_pd;
  ret_ tt.

Definition pg_unmap (vaddr : Z) : M machine Z :=
  do paddr <- _get_page vaddr;
  if negb (paddr =? 0) then
    st32 (current_pts (pt_idx vaddr)) 0 ;;;
    ret_ (Z.lor paddr PG_ALIGN)
  else ret_ 0.

(** The directory slot is not restored when the page is absent. *)
Definition pg_unmap_from (pd vaddr : Z) : M machine Z :=
  do old_pd <- _set_expd pd;
  do paddr <- _get_expage vaddr;
  if negb (paddr =? 0) then
    st32 (external_pts (pt_idx vaddr)) 0 ;;;
    do _ <- _set_expd old_pd;
    ret_ (Z.lor paddr PG_ALIGN)
  else ret_ 0.

Definition pg_get_frame_from (pd vaddr : Z) : M machine Z :=
  do old_pd <- _set_expd pd;
  do paddr <- _get_expage vaddr;
  do _ <- _set_expd old_pd;
  ret_ paddr.

Definition pg_duplicate_page (pd vaddr : Z) : M machine Z :=
  do old_pd <- _set_expd pd;
  do old_frame <- _get_expage vaddr;
  if old_frame =? 0 then do _ <- _set_expd old_pd; ret_ 0
  else
    do new_frame <- with_pmm pmm_get_frame;
    do old_tmp <- pg_unmap VM_TMP_MAP;
    do old_tmp2 <- pg_unmap VM_TMP2_MAP;
    pg_map old_frame VM_TMP_MAP PG_KERN_PAGE_FLAG ;;;
    pg_map new_frame VM_TMP2_MAP PG_KERN_PAGE_FLAG ;;;
    for_ (Z.to_nat PAGE_SIZE) 0 (fun i =>
      do b <- ld8 (VM_TMP_MAP + i); st8 (VM_TMP2_MAP + i) b) ;;;
    (do _ <- pg_unmap VM_TMP_MAP; ret_ tt) ;;;
    (do _ <- pg_unmap VM_TMP2_MAP; ret_ tt) ;;;
    pg_map old_tmp VM_TMP_MAP PG_KERN_PAGE_FLAG ;;;
    pg_map old_tmp2 VM_TMP2_MAP PG_KERN_PAGE_FLAG ;;;
    do _ <- _set_expd old_pd;
    ret_ new_frame.

(** [memset] of [n] bytes to 0. *)
Definition memset0 (vaddr n : Z) : M machine unit :=
  for_ (Z.to_nat n) 0 (fun i => st8 (vaddr +w i) 0).

Definition pg_create_directory (kern_pd_vaddr parent_pd : Z) : M machine Z :=
  do old_tmp <- pg_unmap VM_TMP_MAP;
  do new_pd <- with_pmm pmm_get_frame;
  pg_map new_pd VM_TMP_MAP PG_KERN_PAGE_FLAG ;;;
  memset0 VM_TMP_MAP FRAME_SIZE ;;;
  st32 (VM_TMP_MAP + 4 * 1023) (Z.lor (Z.lor (Z.land new_pd PG_ALIGN) PG_PRESENT) PG_RW) ;;;
  _clone_kernel_tables kern_pd_vaddr VM_TMP_MAP ;;;
  pg_map old_tmp VM_TMP_MAP PG_KERN_PAGE_FLAG ;;;
  ret_ new_pd.

Definition pg_destroy_directory (pd : Z) : M machine unit := with_pmm (pmm_free_frame pd).

(** ** vmm_misc.c *)

Definition _SIZE_TO_FRAMES (s : Z) : Z :=
  if s mod FRAME_SIZE =? 0 then s / FRAME_SIZE else s / FRAME_SIZE +w 1.

Definition vmm_cont_map (vaddr bytes flags : Z) (phy_cont : bool) : M machine unit :=
  let frames := _SIZE_TO_FRAMES bytes in
  if phy_cont then
    do paddr <- with_pmm (pmm_get_pool frames);
    for_ (Z.to_nat frames) 0 (fun i =>
      pg_map (paddr +w i *w FRAME_SIZE) (vaddr +w i *w FRAME_SIZE) (Z.lor flags PG_PRESENT))
  else
    for_ (Z.to_nat frames) 0 (fun i =>
      do f <- with_pmm pmm_get_frame;
      pg_map f (vaddr +w i *w FRAME_SIZE) (Z.lor flags PG_PRESENT)).

Definition vmm_void_map (vaddr bytes flags : Z) : M machine unit :=
  for_ (Z.to_nat (_SIZE_TO_FRAMES bytes)) 0 (fun i =>
    pg_map 0 (vaddr +w i *w FRAME_SIZE) flags).

Definition vmm_cont_unmap (vaddr bytes : Z) (phy_cont : bool) : M machine unit :=
  let frames := _SIZE_TO_FRAMES bytes in
  if phy_cont then
    do paddr <- pg_unmap vaddr;
    for_ (Z.to_nat (frames - 1)) 1 (fun i =>
      do _ <- pg_unmap (vaddr +w i *w FRAME_SIZE); ret_ tt) ;;;
    with_pmm (pmm_free_pool paddr frames)
  else
    for_ (Z.to_nat frames) 0 (fun i =>
      do paddr <- pg_unmap (vaddr +w i *w FRAME_SIZE);
      when 0 <? paddr then_ with_pmm (pmm_free_frame paddr)).

(** [vaddr] is not advanced by the C loop. *)
Definition vmm_void_unmap (vaddr bytes : Z) : M machine unit :=
  for_ (Z.to_nat (_SIZE_TO_FRAMES bytes)) 0 (fun _ =>
    do paddr <- pg_unmap vaddr;
    when negb (paddr =? 0) then_ with_pmm (pmm_free_frame paddr)).

(** ** Words, frames and table slots *)

Lemma frame_of_spec e : word e -> frame_of e = 4096 * (e / 4096).
Proof.
  intros He. unfold frame_of, PG_ALIGN.
  replace 0xfffff000 with (Z.shiftl (Z.ones 20) 12) by reflexivity.
  replace (4096 * (e / 4096)) with (Z.shiftl (Z.shiftr e 12) 12)
    by (rewrite Z.shiftl_mul_pow2, Z.shiftr_div_pow2 by lia; change (2 ^ 12) with 4096; lia).
  apply Z.bits_inj'. intros n Hn. rewrite Z.land_spec.
  destruct (Z.ltb_spec n 12).
  - rewrite !(Z.shiftl_spec_low _ 12 n), andb_false_r by lia. done.
  - rewrite !Z.shiftl_spec by lia. rewrite Z.shiftr_spec by lia.
    replace (n - 12 + 12) with n by lia. destruct (Z.ltb_spec n 32).
    + rewrite Z.ones_spec_low by lia. apply andb_true_r.
    + rewrite Z.ones_spec_high by lia. rewrite andb_false_r. unfold word in He.
      symmetry. rewrite Z.testbit_eqb by lia. rewrite Z.div_small; [done|].
      assert (2 ^ 32 <= 2 ^ n) by (apply Z.pow_le_mono_r; lia). lia.
Qed.

Lemma frame_of_range e : word e -> exists a, frame_of e = 4096 * a /\ 0 <= a < 1048576.
Proof.
  intros He. rewrite frame_of_spec by done. exists (e / 4096). split; [done|].
  unfold word in He. split; [apply Z.div_pos; lia|apply Z.div_lt_upper_bound; lia].
Qed.

Lemma lor_align_high e : 0 <= e -> 0xfffff000 <= Z.lor e PG_ALIGN.
Proof.
  intros He. change 0xfffff000 with PG_ALIGN. assert (E : Z.ldiff PG_ALIGN (Z.lor e PG_ALIGN) = 0).
  { apply Z.bits_inj'. intros n Hn. rewrite Z.ldiff_spec, Z.lor_spec, Z.bits_0.
    destruct (Z.testbit e n), (Z.testbit PG_ALIGN n); done. }
  apply Z.ldiff_le; [|done]. apply Z.lor_nonneg. split; [done|]. unfold PG_ALIGN. lia.
Qed.

Definition words_ok (m : gmap Z Z) : Prop := forall i w, m !! i = Some w -> word w.

Lemma word_at_word m p : words_ok m -> word (word_at m p).
Proof. intros H. unfold word_at. destruct (m !! (p / 4)) eqn:E; [by eapply H|]. unfold word. cbn. lia. Qed.

Lemma words_ok_insert m i w : words_ok m -> word w -> words_ok (<[i := w]> m).
Proof. intros H Hw j v [[-> <-]|[_ Hj]]%lookup_insert_Some; [done|by eapply H]. Qed.

(** Entry [k] of the table in frame [4096 * a]. *)
Lemma slot_index a k : (4096 * a + 4 * k) / 4 = 1024 * a + k.
Proof. Z.div_mod_to_equations. lia. Qed.

Lemma word_at_insert m a k b j v : 0 <= k < 1024 -> 0 <= j < 1024 ->
  word_at (<[(4096 * a + 4 * k) / 4 := v]> m) (4096 * b + 4 * j) =
  if decide (a = b /\ k = j) then v else word_at m (4096 * b + 4 * j).
Proof.
  intros Hk Hj. unfold word_at. rewrite !slot_index, lookup_insert.
  repeat case_decide; try done; lia.
Qed.

(** The window through slot [b] of a directory: entry [k] of the 2^20 page
    table entries it shows. *)
Lemma walk_window m dir b k : 0 <= b < 1024 -> 0 <= k < 1048576 ->
  walk_dir m dir (b * 4194304 + 4 * k) =
    let pde := word_at m (frame_of dir + 4 * b) in
    if present pde then
      let pte := word_at m (frame_of pde + 4 * (k / 1024)) in
      if present pte then Some (frame_of pte + 4 * (k mod 1024)) else None
    else None.
Proof.
  intros Hb Hk. unfold walk_dir, pd_idx, pt_idx. rewrite !Z.shiftr_div_pow2 by lia.
  change (2 ^ 22) with 4194304. change (2 ^ 12) with 4096.
  replace ((b * 4194304 + 4 * k) / 4194304) with b by (Z.div_mod_to_equations; lia).
  replace ((b * 4194304 + 4 * k) / 4096 mod 1024) with (k / 1024) by (Z.div_mod_to_equations; lia).
  replace ((b * 4194304 + 4 * k) mod 4096) with (4 * (k mod 1024)) by (Z.div_mod_to_equations; lia).
  done.
Qed.

Definition pde (m : gmap Z Z) (dir i : Z) : Z := word_at m (dir + 4 * i).

(** A directory whose slot 1023 shows the directory itself. *)
Record dir_base (m : gmap Z Z) (dir : Z) : Prop := {
  dir_words : words_ok m;
  dir_frame : exists a, dir = 4096 * a /\ 0 <= a < 1048576;
  dir_rec : present (pde m dir 1023) = true /\ frame_of (pde m dir 1023) = dir;
}.

(** In addition no two slots share a table.  Slot 1022 may show any
    directory, even the running one: [fork] makes it show that. *)
Record dir_ok (m : gmap Z Z) (dir : Z) : Prop := {
  dir_b :> dir_base m dir;
  dir_inj : forall i j, 0 <= i < 1024 -> 0 <= j < 1024 -> i <> 1022 -> j <> 1022 ->
    present (pde m dir i) = true -> present (pde m dir j) = true ->
    frame_of (pde m dir i) = frame_of (pde m dir j) -> i = j;
}.

Lemma frame_of_aligned a : 0 <= a < 1048576 -> frame_of (4096 * a) = 4096 * a.
Proof.
  intros H. rewrite frame_of_spec by (unfold word; lia).
  rewrite (Z.mul_comm 4096 a), Z.div_mul by lia. lia.
Qed.

Lemma dir_frame_of m dir : dir_base m dir -> frame_of dir = dir.
Proof. intros [_ (a & -> & Ha) _]. by apply frame_of_aligned. Qed.

(** The kernel's view of its own directory. *)
Section current.
Context (s : machine).
Let dir := frame_of (cr3 s).
Hypothesis (Hok : dir_base (ram s) dir).

Lemma cr3_frame : frame_of (cr3 s) = frame_of dir.
Proof. symmetry. by eapply dir_frame_of. Qed.

Lemma walk_cr3 v : walk_dir (ram s) (cr3 s) v = walk_dir (ram s) dir v.
Proof. unfold walk_dir. by rewrite cr3_frame. Qed.

Lemma walk_pts k : 0 <= k < 1048576 ->
  walk_dir (ram s) (cr3 s) (current_pts k) =
    if present (pde (ram s) dir (k / 1024))
    then Some (frame_of (pde (ram s) dir (k / 1024)) + 4 * (k mod 1024)) else None.
Proof.
  intros Hk. rewrite walk_cr3. change (current_pts k) with (1023 * 4194304 + 4 * k).
  rewrite walk_window by lia. cbv zeta. rewrite (dir_frame_of _ _ Hok).
  destruct (dir_rec _ _ Hok) as [Hp Hf]. unfold pde in *. by rewrite Hp, Hf.
Qed.

Lemma walk_pd i : 0 <= i < 1024 -> walk_dir (ram s) (cr3 s) (current_pd i) = Some (dir + 4 * i).
Proof.
  intros Hi. replace (current_pd i) with (current_pts (1023 * 1024 + i)) by (unfold current_pd, current_pts, VM_PAGE_DIR, VM_PAGE_TABLES; lia).
  rewrite walk_pts by lia.
  replace ((1023 * 1024 + i) / 1024) with 1023 by (Z.div_mod_to_equations; lia).
  replace ((1023 * 1024 + i) mod 1024) with i by (Z.div_mod_to_equations; lia).
  destruct (dir_rec _ _ Hok) as [-> ->]. done.
Qed.

Lemma ld_pd i : 0 <= i < 1024 -> ld32 (current_pd i) s = Ok (pde (ram s) dir i, s).
Proof. intros Hi. unfold ld32. by rewrite walk_pd. Qed.
End current.

Lemma slot_range v : word v -> 0 <= pd_idx v < 1024 /\ 0 <= pt_idx v < 1048576 /\
  pd_idx v = pt_idx v / 1024 /\ pt_idx v = v / 4096.
Proof.
  intros Hv. unfold pd_idx, pt_idx. rewrite !Z.shiftr_div_pow2 by lia.
  change (2 ^ 22) with 4194304. change (2 ^ 12) with 4096. unfold word in Hv.
  Z.div_mod_to_equations. lia.
Qed.

Lemma present_zero : present 0 = false.
Proof. reflexivity. Qed.

(** Writing entry [k] of the page table behind slot [i]. *)
Section write_entry.
Context (m : gmap Z Z) (dir i k w : Z).
Hypotheses (Hok : dir_ok m dir) (Hi : 0 <= i < 1022) (Hk : 0 <= k < 1024)
  (Hpres : present (pde m dir i) = true) (Hw : word w).

Definition entry_written : gmap Z Z := <[(frame_of (pde m dir i) + 4 * k) / 4 := w]> m.

Lemma written_pde j : 0 <= j < 1024 -> pde entry_written dir j = pde m dir j.
Proof.
  intros Hj. pose proof (dir_rec _ _ Hok) as [Hrp Hrf].
  destruct (frame_of_range (pde m dir i)) as (b & Hb & _); [apply word_at_word, Hok|].
  destruct (dir_frame _ _ Hok) as (a & Ea & Ha).
  unfold pde at 1, entry_written. rewrite Hb, Ea. rewrite word_at_insert by done.
  rewrite decide_False; [by rewrite <- Ea|]. intros [-> _].
  assert (i = 1023); [|lia]. apply (dir_inj _ _ Hok); [lia|lia|lia|lia|done|done|].
  rewrite Hrf, Hb. lia.
Qed.

Lemma written_ok : dir_ok entry_written dir.
Proof.
  split; [split|].
  - apply words_ok_insert; [apply Hok|done].
  - apply Hok.
  - rewrite written_pde by lia. apply Hok.
  - intros x y Hx Hy Hx2 Hy2. rewrite !written_pde by done. by apply (dir_inj _ _ Hok).
Qed.

Lemma written_walk v : word v -> pd_idx v < 1022 ->
  walk_dir entry_written dir v =
    if decide (pd_idx v = i /\ pt_idx v mod 1024 = k)
    then if present w then Some (frame_of w + v mod 4096) else None
    else walk_dir m dir v.
Proof.
  intros Hv Hlt. destruct (slot_range v Hv) as (Hpd & Hpt & _).
  unfold walk_dir. rewrite (dir_frame_of m dir Hok).
  fold (pde entry_written dir (pd_idx v)). fold (pde m dir (pd_idx v)). rewrite written_pde by done.
  destruct (present (pde m dir (pd_idx v))) eqn:Hpv.
  2:{ rewrite decide_False; [done|]. intros [E _]. congruence. }
  assert (Hm : 0 <= pt_idx v mod 1024 < 1024) by (apply Z.mod_pos_bound; lia).
  unfold entry_written.
  destruct (frame_of_range (pde m dir i)) as (b & Hb & _); [apply word_at_word, Hok|].
  destruct (frame_of_range (pde m dir (pd_idx v))) as (c & Hc & _); [apply word_at_word, Hok|].
  rewrite Hb, Hc, word_at_insert by done.
  destruct (decide (pd_idx v = i /\ pt_idx v mod 1024 = k)) as [[E1 E2]|Hne].
  - rewrite decide_True; [done|]. split; [|done]. rewrite E1 in Hc. lia.
  - rewrite decide_False; [done|]. intros [Ebc Ek]. apply Hne. split; [|done].
    apply (dir_inj _ _ Hok); [lia|lia|lia|lia|done|done|]. rewrite Hc, Hb. lia.
Qed.
End write_entry.

Lemma lor_flags p f : word p -> 0 <= f < 4096 ->
  word (Z.lor (Z.land p PG_ALIGN) f) /\ frame_of (Z.lor (Z.land p PG_ALIGN) f) = frame_of p /\
  present (Z.lor (Z.land p PG_ALIGN) f) = present f.
Proof.
  intros Hp Hf. fold (frame_of p). destruct (frame_of_range p Hp) as (a & -> & Ha).
  assert (E : Z.lor (4096 * a) f = 4096 * a + f).
  { assert (El : Z.land (4096 * a) f = 0).
    { apply Z.bits_inj'. intros n Hn. rewrite Z.land_spec, Z.bits_0.
      replace (4096 * a) with (Z.shiftl a 12) by (rewrite Z.shiftl_mul_pow2 by lia; lia).
      destruct (Z.ltb_spec n 12); [by rewrite Z.shiftl_spec_low|].
      rewrite (Z.testbit_eqb f) by lia. rewrite Z.div_small; [by rewrite andb_false_r|].
      assert (2 ^ 12 <= 2 ^ n) by (apply Z.pow_le_mono_r; lia). lia. }
    rewrite Z.add_nocarry_lxor by done. by rewrite Z.lxor_lor. }
  rewrite E. split; [unfold word; lia|]. split.
  - rewrite frame_of_spec by (unfold word; lia).
    replace ((4096 * a + f) / 4096) with a by (Z.div_mod_to_equations; lia). done.
  - unfold present, PG_PRESENT. f_equal. f_equal.
    rewrite !(Z.land_ones _ 1) by lia. change (2 ^ 1) with 2. Z.div_mod_to_equations. lia.
Qed.

(** The page number is all the routines look at. *)
Lemma align_idx v : word v -> word (Z.land v PG_ALIGN) /\
  pd_idx (Z.land v PG_ALIGN) = pd_idx v /\ pt_idx (Z.land v PG_ALIGN) = pt_idx v.
Proof.
  intros Hv. fold (frame_of v). rewrite frame_of_spec by done.
  assert (Hw : word (4096 * (v / 4096))) by (unfold word in *; Z.div_mod_to_equations; lia).
  destruct (slot_range v Hv) as (_ & _ & -> & ->). destruct (slot_range _ Hw) as (_ & _ & -> & ->).
  split; [done|]. rewrite Z.mul_comm, Z.div_mul by lia. done.
Qed.

Section map.
Context (s : machine).
Let dir := frame_of (cr3 s).
Hypothesis (Hok : dir_base (ram s) dir).

(** A store through [current_pts] when the table is there. *)
Lemma st_pts v w : word v -> present (pde (ram s) dir (pd_idx v)) = true ->
  st32 (current_pts (pt_idx v)) w s =
    Ok (tt, set_ram (entry_written (ram s) dir (pd_idx v) (pt_idx v mod 1024) w) s).
Proof.
  intros Hv Hp. destruct (slot_range v Hv) as (Hpd & Hpt & Epd & _).
  unfold st32. rewrite walk_pts by done. fold dir. rewrite <- Epd, Hp. done.
Qed.

Lemma ld_pts v : word v -> present (pde (ram s) dir (pd_idx v)) = true ->
  ld32 (current_pts (pt_idx v)) s =
    Ok (word_at (ram s) (frame_of (pde (ram s) dir (pd_idx v)) + 4 * (pt_idx v mod 1024)), s).
Proof.
  intros Hv Hp. destruct (slot_range v Hv) as (Hpd & Hpt & Epd & _).
  unfold ld32. rewrite walk_pts by done. fold dir. rewrite <- Epd, Hp. done.
Qed.

Lemma pg_map_run p v f : word v -> present (pde (ram s) dir (pd_idx v)) = true ->
  pg_map p v f s = Ok (tt, set_ram (entry_written (ram s) dir (pd_idx v) (pt_idx v mod 1024)
                                      (Z.lor (Z.land p PG_ALIGN) f)) s).
Proof.
  intros Hv Hp. destruct (slot_range v Hv) as (Hpd & _).
  unfold pg_map. rewrite (bind_ok _ _ _ _ _ (ld_pd s Hok _ Hpd)). fold dir.
  assert (entry_is_zero (pde (ram s) dir (pd_idx v)) = false) as ->.
  { unfold entry_is_zero. apply Z.eqb_neq. intros E. rewrite E in Hp. done. }
  rewrite (bind_ok _ _ _ tt s) by done. by apply st_pts.
Qed.

Lemma get_page_run v : word v -> _get_page v s = Ok (
   (if present (pde (ram s) dir (pd_idx v)) then
      let e := word_at (ram s) (frame_of (pde (ram s) dir (pd_idx v)) + 4 * (pt_idx v mod 1024)) in
      if present e then e else 0
    else 0), s).
Proof.
  intros Hv. destruct (align_idx v Hv) as (Hw & E1 & E2). destruct (slot_range v Hv) as (Hpd & _).
  unfold _get_page. cbv zeta. rewrite E1, E2.
  rewrite (bind_ok _ _ _ _ _ (ld_pd s Hok _ Hpd)). fold dir.
  destruct (present (pde (ram s) dir (pd_idx v))) eqn:Hp; [|done].
  rewrite (bind_ok _ _ _ _ _ (ld_pts v Hv Hp)).
  destruct (present (word_at _ _)) eqn:He; [|done]. by apply ld_pts.
Qed.
End map.

(** ** The window on a foreign directory *)

(** Slot 1022 of the running directory after [_set_expd x]. *)
Definition expd (m : gmap Z Z) (dir x : Z) : gmap Z Z :=
  <[(dir + 4 * 1022) / 4 := Z.lor (Z.lor x PG_PRESENT) PG_RW]> m.

Lemma expd_entry x : word x -> word (Z.lor (Z.lor x PG_PRESENT) PG_RW) /\
  present (Z.lor (Z.lor x PG_PRESENT) PG_RW) = true /\
  frame_of (Z.lor (Z.lor x PG_PRESENT) PG_RW) = frame_of x.
Proof.
  intros Hx. rewrite <- Z.lor_assoc. change (Z.lor PG_PRESENT PG_RW) with 3. split_and!.
  - unfold word in *. split; [apply Z.lor_nonneg; lia|].
    destruct (Z.eq_dec (Z.lor x 3) 0) as [->|Hne]; [lia|].
    change W32 with (2 ^ 32). apply Z.log2_lt_pow2; [assert (0 <= Z.lor x 3) by (apply Z.lor_nonneg; lia); lia|].
    rewrite Z.log2_lor by lia. apply Z.max_lub_lt; [|reflexivity].
    destruct (Z.eq_dec x 0) as [->|]; [reflexivity|]. apply Z.log2_lt_pow2; lia.
  - unfold present, PG_PRESENT. rewrite Z.land_lor_distr_l.
    change (Z.land 3 1) with 1. destruct (Z.eqb_spec (Z.lor (Z.land x 1) 1) 0) as [E|]; [|done].
    apply Z.lor_eq_0_iff in E as [_ E]. done.
  - unfold frame_of. rewrite Z.land_lor_distr_l. change (Z.land 3 PG_ALIGN) with 0. apply Z.lor_0_r.
Qed.

Lemma expd_other m dir x F k : (exists a, dir = 4096 * a /\ 0 <= a < 1048576) ->
  (exists b, F = 4096 * b) -> F <> dir -> 0 <= k < 1024 ->
  word_at (expd m dir x) (F + 4 * k) = word_at m (F + 4 * k).
Proof.
  intros (a & -> & Ha) [b ->] Hne Hk. unfold expd. rewrite word_at_insert by lia.
  rewrite decide_False; [done|]. intros [-> _]. done.
Qed.

Lemma expd_base m dir x : dir_base m dir -> word x -> dir_base (expd m dir x) dir /\
  (forall i, 0 <= i < 1024 -> i <> 1022 -> pde (expd m dir x) dir i = pde m dir i) /\
  pde (expd m dir x) dir 1022 = Z.lor (Z.lor x PG_PRESENT) PG_RW.
Proof.
  intros [Hw (a & -> & Ha) Hr] Hx.
  assert (E : forall i, 0 <= i < 1024 -> pde (expd m (4096 * a) x) (4096 * a) i =
     if decide (1022 = i) then Z.lor (Z.lor x PG_PRESENT) PG_RW else pde m (4096 * a) i).
  { intros i Hi. unfold pde, expd. rewrite word_at_insert by lia. repeat case_decide; try done; lia. }
  split_and!.
  - split; [apply words_ok_insert; [done|by apply expd_entry]|eauto|]. rewrite E by lia. done.
  - intros i Hi Hne. rewrite E by done. by rewrite decide_False by lia.
  - rewrite E by lia. by rewrite decide_True.
Qed.

Section external.
Context (m : gmap Z Z) (dir pd : Z).

(** [pd] is a directory none of whose tables is the running directory. *)
Record foreign : Prop := {
  fo_dir : dir_base m dir;
  fo_pd : dir_ok m pd;
  fo_sep : forall i, 0 <= i < 1024 -> present (pde m pd i) = true -> frame_of (pde m pd i) <> dir;
}.

Hypothesis (Hf : foreign).

Lemma foreign_ne : pd <> dir.
Proof.
  destruct (dir_rec _ _ (fo_pd Hf)) as [Hp Hr]. rewrite <- Hr. apply (fo_sep Hf); [lia|done].
Qed.

Lemma expd_pde x i : 0 <= i < 1024 -> pde (expd m dir x) pd i = pde m pd i.
Proof.
  intros Hi. apply expd_other; [apply (fo_dir Hf)| |apply foreign_ne|done].
  destruct (dir_frame _ _ (fo_pd Hf)) as (a & ? & _). eauto.
Qed.

Lemma expd_table x i k : 0 <= i < 1024 -> present (pde m pd i) = true -> 0 <= k < 1024 ->
  word_at (expd m dir x) (frame_of (pde m pd i) + 4 * k) = word_at m (frame_of (pde m pd i) + 4 * k).
Proof.
  intros Hi Hp Hk. apply expd_other; [apply (fo_dir Hf)| |by apply (fo_sep Hf)|done].
  destruct (frame_of_range (pde m pd i)) as (a & ? & _); [apply word_at_word, (fo_dir Hf)|eauto].
Qed.

Lemma expd_walk x v : word v -> walk_dir (expd m dir x) pd v = walk_dir m pd v.
Proof.
  intros Hv. destruct (slot_range v Hv) as (Hpd & Hpt & _). unfold walk_dir.
  rewrite (dir_frame_of m pd (fo_pd Hf)). fold (pde (expd m dir x) pd (pd_idx v)).
  fold (pde m pd (pd_idx v)). rewrite expd_pde by done.
  destruct (present (pde m pd (pd_idx v))) eqn:Hp; [|done].
  rewrite expd_table by (done || apply Z.mod_pos_bound; lia). done.
Qed.

Lemma expd_pd_ok x : word x -> dir_ok (expd m dir x) pd.
Proof.
  intros Hx. destruct (expd_base m dir x (fo_dir Hf) Hx) as ([Hw _ _] & _ & _).
  split; [split|].
  - done.
  - apply (fo_pd Hf).
  - rewrite expd_pde by lia. apply (dir_rec _ _ (fo_pd Hf)).
  - intros i j Hi Hj Hi2 Hj2. rewrite !expd_pde by done. by apply (dir_inj _ _ (fo_pd Hf)).
Qed.
End external.

Lemma foreign_expd m dir pd x : foreign m dir pd -> word x -> foreign (expd m dir x) dir pd.
Proof.
  intros Hf Hx. split; [by apply expd_base, Hx; apply (fo_dir _ _ _ Hf)|by apply expd_pd_ok|].
  intros i Hi. rewrite (expd_pde _ _ _ Hf) by done. by apply (fo_sep _ _ _ Hf).
Qed.

Lemma set_expd_run s x : dir_base (ram s) (frame_of (cr3 s)) ->
  _set_expd x s = Ok (pde (ram s) (frame_of (cr3 s)) 1022, set_ram (expd (ram s) (frame_of (cr3 s)) x) s).
Proof.
  intros Hd. unfold _set_expd. change (pd_idx VM_EXPAGE_DIR) with 1022.
  rewrite (bind_ok _ _ _ _ _ (ld_pd s Hd 1022 ltac:(lia))).
  unfold bind_, st32. rewrite walk_pd by (done || lia). done.
Qed.

(** Accesses while slot 1022 shows [pd]. *)
Section window.
Context (s : machine) (pd : Z).
Let dir := frame_of (cr3 s).
Hypotheses (Hd : dir_base (ram s) dir) (Hpd : dir_ok (ram s) pd)
  (Hslot : present (pde (ram s) dir 1022) = true /\ frame_of (pde (ram s) dir 1022) = pd).

Lemma walk_expts k : 0 <= k < 1048576 ->
  walk_dir (ram s) (cr3 s) (external_pts k) =
    if present (pde (ram s) pd (k / 1024))
    then Some (frame_of (pde (ram s) pd (k / 1024)) + 4 * (k mod 1024)) else None.
Proof.
  intros Hk. rewrite (walk_cr3 s Hd). fold dir. change (external_pts k) with (1022 * 4194304 + 4 * k).
  rewrite walk_window by lia. cbv zeta. rewrite (dir_frame_of _ _ Hd).
  destruct Hslot as [Hp Hf]. unfold pde in *. by rewrite Hp, Hf.
Qed.

Lemma ld_expd i : 0 <= i < 1024 -> ld32 (external_pd i) s = Ok (pde (ram s) pd i, s).
Proof.
  intros Hi. unfold ld32.
  replace (external_pd i) with (external_pts (1023 * 1024 + i))
    by (unfold external_pd, external_pts, VM_EXPAGE_DIR, VM_EXPAGE_TABLES; lia).
  rewrite walk_expts by lia.
  replace ((1023 * 1024 + i) / 1024) with 1023 by (Z.div_mod_to_equations; lia).
  replace ((1023 * 1024 + i) mod 1024) with i by (Z.div_mod_to_equations; lia).
  destruct (dir_rec _ _ Hpd) as [-> ->]. done.
Qed.

Lemma ld_expts v : word v -> present (pde (ram s) pd (pd_idx v)) = true ->
  ld32 (external_pts (pt_idx v)) s =
    Ok (word_at (ram s) (frame_of (pde (ram s) pd (pd_idx v)) + 4 * (pt_idx v mod 1024)), s).
Proof.
  intros Hv Hp. destruct (slot_range v Hv) as (_ & Hpt & Epd & _).
  unfold ld32. rewrite walk_expts by done. rewrite <- Epd, Hp. done.
Qed.

Lemma st_expts v w : word v -> present (pde (ram s) pd (pd_idx v)) = true ->
  st32 (external_pts (pt_idx v)) w s =
    Ok (tt, set_ram (entry_written (ram s) pd (pd_idx v) (pt_idx v mod 1024) w) s).
Proof.
  intros Hv Hp. destruct (slot_range v Hv) as (_ & Hpt & Epd & _).
  unfold st32. rewrite walk_expts by done. rewrite <- Epd, Hp. done.
Qed.

Lemma get_expage_run v : word v -> _get_expage v s = Ok (
   (if present (pde (ram s) pd (pd_idx v)) then
      let e := word_at (ram s) (frame_of (pde (ram s) pd (pd_idx v)) + 4 * (pt_idx v mod 1024)) in
      if present e then e else 0
    else 0), s).
Proof.
  intros Hv. destruct (align_idx v Hv) as (Hw & E1 & E2). destruct (slot_range v Hv) as (Hi & _).
  unfold _get_expage. cbv zeta. rewrite E1, E2.
  rewrite (bind_ok _ _ _ _ _ (ld_expd _ Hi)).
  destruct (present (pde (ram s) pd (pd_idx v))) eqn:Hp; [|done].
  rewrite (bind_ok _ _ _ _ _ (ld_expts v Hv Hp)).
  destruct (present (word_at _ _)) eqn:He; [|done]. by apply ld_expts.
Qed.
End window.

(** ** A decision procedure for concrete directories *)

Definition present_slots (m : gmap Z Z) (dir : Z) : list Z :=
  filter (fun i => present (pde m dir i) = true) (seqZ 0 1024).

Definition dir_base_b (m : gmap Z Z) (dir : Z) : bool :=
  bool_decide (map_Forall (fun _ w => word w) m) && bool_decide (word dir) && (dir mod 4096 =? 0) &&
  present (pde m dir 1023) && (frame_of (pde m dir 1023) =? dir).

Definition dir_ok_b (m : gmap Z Z) (dir : Z) : bool :=
  dir_base_b m dir && bool_decide (NoDup ((fun i => frame_of (pde m dir i)) <$> filter (fun i => i <> 1022) (present_slots m dir))).

Definition foreign_b (m : gmap Z Z) (dir pd : Z) : bool :=
  dir_base_b m dir && dir_ok_b m pd &&
  forallb (fun i => negb (frame_of (pde m pd i) =? dir)) (present_slots m pd).

Lemma dir_base_check m dir : dir_base_b m dir = true -> dir_base m dir.
Proof.
  unfold dir_base_b. rewrite !andb_true_iff, !bool_decide_eq_true, !Z.eqb_eq. intros ((((Hw & Hd) & Ha) & Hp) & Hf).
  split; [exact Hw| |done]. exists (dir / 4096). unfold word in Hd. Z.div_mod_to_equations. lia.
Qed.

Lemma present_slots_in m dir i : 0 <= i < 1024 -> present (pde m dir i) = true -> i ∈ present_slots m dir.
Proof. intros Hi Hp. apply list_elem_of_filter. split; [done|]. by apply elem_of_seqZ. Qed.

Lemma NoDup_fmap_eq {A B} (f : A -> B) l x y : NoDup (f <$> l) -> x ∈ l -> y ∈ l -> f x = f y -> x = y.
Proof.
  intros Hnd [i Hi]%list_elem_of_lookup [j Hj]%list_elem_of_lookup E.
  assert (i = j) as ->; [|congruence].
  eapply NoDup_lookup; [exact Hnd|..]; rewrite list_lookup_fmap; [by rewrite Hi|by rewrite Hj, E].
Qed.

Lemma dir_ok_check m dir : dir_ok_b m dir = true -> dir_ok m dir.
Proof.
  unfold dir_ok_b. rewrite andb_true_iff, bool_decide_eq_true. intros [Hb Hnd].
  split; [by apply dir_base_check|]. intros i j Hi Hj Hi2 Hj2 Hpi Hpj E.
  eapply (NoDup_fmap_eq (fun i => frame_of (pde m dir i)) _ i j Hnd); try done;
    apply list_elem_of_filter; (split; [done|by apply present_slots_in]).
Qed.

Lemma foreign_check m dir pd : foreign_b m dir pd = true -> foreign m dir pd.
Proof.
  unfold foreign_b. rewrite !andb_true_iff, forallb_forall. intros ((Hd & Hp) & Hs).
  split; [by apply dir_base_check|by apply dir_ok_check|]. intros i Hi Hpr E.
  specialize (Hs i). rewrite E, Z.eqb_refl in Hs. discriminate Hs.
  apply list_elem_of_In. by apply present_slots_in.
Qed.

(** Directory in frame 1 with a table in frame 2 for the first 4 MiB, and a
    second directory in frame 3 with a table in frame 4; frame 6 holds a
    stale word that looks like a page table entry. *)
Definition demo_ram : gmap Z Z := list_to_map
  [(1024, 0x2003); (1024 + 1023, 0x1003); (3 * 1024, 0x4003); (3 * 1024 + 1023, 0x3003);
   (2 * 1024 + 5, 0x9003); (6 * 1024 + 7, 0xbad003)].

(** Frames 0 to 5 are taken out of 16. *)
Definition demo_pmm : pmm := mkPmm {[ 0 := 0xfc ]} 5 6 16 10.

Definition demo_machine : machine := mkMachine demo_pmm 0x1000 demo_ram.

(** ** Unmapping and the frame allocator *)

Definition ram_nonneg (s : machine) : Prop := forall i w, ram s !! i = Some w -> 0 <= w.

Lemma ld32_same v s r s' : ld32 v s = Ok (r, s') -> s' = s /\ (ram_nonneg s -> 0 <= r).
Proof.
  unfold ld32. destruct (walk_dir _ _ _) as [p|]; [|done]. intros [= <- <-]. split; [done|].
  intros H. unfold word_at. destruct (ram s !! (p / 4)) eqn:E; [by eapply H|]. done.
Qed.

Lemma st32_same v w s s' u : st32 v w s = Ok (u, s') -> 0 <= w ->
  m_pmm s' = m_pmm s /\ (ram_nonneg s -> ram_nonneg s').
Proof.
  unfold st32. destruct (walk_dir _ _ _) as [p|]; [|done]. intros [= <- <-] Hw. split; [done|].
  intros H i x. cbn [ram set_ram]. intros [[_ <-]|[_ Hx]]%lookup_insert_Some; [done|by eapply H].
Qed.

Lemma get_page_same v s r s' : _get_page v s = Ok (r, s') -> s' = s /\ (ram_nonneg s -> 0 <= r).
Proof.
  unfold _get_page. intros (e & s1 & [-> He]%ld32_same & H)%bind_inv.
  destruct (present e); [|by injection H as <- <-].
  apply bind_inv in H as (e2 & s2 & [-> He2]%ld32_same & H).
  destruct (present e2); [by apply ld32_same in H|by injection H as <- <-].
Qed.

(** The value [pg_unmap] answers is 0 or lies in the last page of the
    address space; the frame allocator is not touched. *)
Lemma pg_unmap_same v s r s' : pg_unmap v s = Ok (r, s') -> ram_nonneg s ->
  m_pmm s' = m_pmm s /\ ram_nonneg s' /\ (r = 0 \/ 0xfffff000 <= r).
Proof.
  unfold pg_unmap. intros (e & s1 & [-> He]%get_page_same & H)%bind_inv Hn. specialize (He Hn).
  destruct (Z.eqb_spec e 0) as [->|Hne]; cbn [negb] in H; [injection H as <- <-; auto|].
  apply bind_inv in H as (u & s2 & Hst & [= <- <-]).
  destruct (st32_same _ _ _ _ _ Hst ltac:(lia)) as [? Hn2].
  split_and!; [done|by apply Hn2|]. right. by apply lor_align_high.
Qed.

(** No memory has a frame there. *)
Lemma free_frame_nowhere a s : 0xfffff000 <= a -> total_frames s <= 0xfffff -> pmm_free_frame a s = Ok (tt, s).
Proof.
  intros Ha Ht. unfold pmm_free_frame, bind_, get_. unfold FRAME_SIZE, PAGE_SIZE.
  assert (0xfffff <= a / 4096) by (apply Z.div_le_lower_bound; lia).
  destruct (Z.ltb_spec (a / 4096) (total_frames s)); [lia|done].
Qed.

Lemma with_free_nowhere a s : 0xfffff000 <= a -> total_frames (m_pmm s) <= 0xfffff ->
  with_pmm (pmm_free_frame a) s = Ok (tt, s).
Proof.
  intros Ha Ht. unfold with_pmm, zoom. rewrite free_frame_nowhere by done. by destruct s.
Qed.

(** A counted loop whose body keeps a predicate. *)
Lemma for_inv {S} (body : Z -> M S unit) (P : S -> Prop) :
  (forall j s u s', P s -> body j s = Ok (u, s') -> P s') ->
  forall n i s u s', P s -> for_ n i body s = Ok (u, s') -> P s'.
Proof.
  intros Hb n. induction n as [|n IH]; intros i s u s' HP E; cbn [for_] in E; [by injection E as <- <-|].
  apply bind_inv in E as ([] & s1 & E1 & E2). eapply IH; [|exact E2]. by eapply Hb.
Qed.

(** ** Properties *)

(** [pg_map] maps exactly the page it is asked to: when the page table
    is there the page translates to the frame given, every other page of the
    running address space translates as before, and no frame is taken. *)
Lemma pg_map_translates s p v f :
  let dir := frame_of (cr3 s) in
  dir_ok (ram s) dir -> word v -> pd_idx v < 1022 -> present (pde (ram s) dir (pd_idx v)) = true ->
  word p -> 0 <= f < 4096 -> present f = true ->
  exists s', pg_map p v f s = Ok (tt, s') /\ m_pmm s' = m_pmm s /\ cr3 s' = cr3 s /\
    dir_ok (ram s') dir /\ walk_dir (ram s') dir v = Some (frame_of p + v mod 4096) /\
    forall v', word v' -> pd_idx v' < 1022 -> v' / 4096 <> v / 4096 ->
      walk_dir (ram s') dir v' = walk_dir (ram s) dir v'.
Proof.
  intros dir Hok Hv Hlt Hpres Hp Hf Hpf. destruct (slot_range v Hv) as (Hi & Hk & Epd & Ept).
  destruct (lor_flags p f Hp Hf) as (Hw & Hfr & Hpr).
  assert (Hm : 0 <= pt_idx v mod 1024 < 1024) by (apply Z.mod_pos_bound; lia).
  eexists. split; [apply pg_map_run; [apply Hok|done|done]|]. split; [done|]. split; [done|]. cbn [ram set_ram]. split_and!.
  - apply written_ok; done || lia.
  - rewrite written_walk by (done || lia). rewrite decide_True by done. by rewrite Hpr, Hpf, Hfr.
  - intros v' Hv' Hlt' Hne. rewrite written_walk by (done || lia).
    rewrite decide_False; [done|]. intros [E1 E2]. apply Hne.
    destruct (slot_range v' Hv') as (Hi' & Hk' & Epd' & Ept'). rewrite <- Ept, <- Ept'.
    rewrite Epd, Epd' in E1. Z.div_mod_to_equations. lia.
Qed.

(** What [pg_map_to] leaves behind when the page table exists. *)
Definition mapped_to (m : gmap Z Z) (dir pd v w : Z) : gmap Z Z :=
  expd (entry_written (expd m dir pd) pd (pd_idx v) (pt_idx v mod 1024) w) dir (pde m dir 1022).

Lemma pd_word m dir pd : foreign m dir pd -> word pd.
Proof. intros Hf. destruct (dir_frame _ _ (fo_pd _ _ _ Hf)) as (a & -> & ?). unfold word. lia. Qed.

Section map_to.
Context (m : gmap Z Z) (dir pd v w : Z).
Hypotheses (Hf : foreign m dir pd) (Hv : word v) (Hlt : pd_idx v < 1022) (Hw : word w)
  (Hpres : present (pde m pd (pd_idx v)) = true).

Let m1 := expd m dir pd.
Let m2 := entry_written m1 pd (pd_idx v) (pt_idx v mod 1024) w.

Lemma foreign_m1 : foreign m1 dir pd.
Proof. apply foreign_expd; [done|by eapply pd_word]. Qed.

Lemma idx_range : 0 <= pd_idx v < 1022 /\ 0 <= pt_idx v mod 1024 < 1024.
Proof. destruct (slot_range v Hv). pose proof (Z.mod_pos_bound (pt_idx v) 1024). lia. Qed.

Lemma m1_pde : pde m1 pd (pd_idx v) = pde m pd (pd_idx v).
Proof. apply expd_pde; [done|]. destruct idx_range. lia. Qed.

(** The page table written is not the running directory. *)
Lemma m2_dir_word k : 0 <= k < 1024 -> pde m2 dir k = pde m1 dir k.
Proof.
  intros Hk. destruct (dir_frame _ _ (fo_dir _ _ _ Hf)) as (a & Ea & Ha).
  destruct (frame_of_range (pde m1 pd (pd_idx v))) as (b & Eb & _);
    [apply word_at_word, (fo_dir _ _ _ foreign_m1)|].
  unfold m2, pde at 1, entry_written. rewrite Eb, Ea, word_at_insert by (done || apply idx_range).
  rewrite decide_False; [by rewrite <- Ea|]. intros [-> _].
  apply (fo_sep _ _ _ Hf (pd_idx v)); [destruct idx_range; lia|done|].
  rewrite <- m1_pde, Eb. lia.
Qed.

Lemma foreign_m2 : foreign m2 dir pd.
Proof.
  pose proof foreign_m1 as [Hd Hp Hs]. destruct idx_range.
  assert (Hpres1 : present (pde m1 pd (pd_idx v)) = true) by by rewrite m1_pde.
  split.
  - destruct Hd as [Hd1 Hd2 Hd3]. split; [by apply words_ok_insert|done|]. by rewrite m2_dir_word by lia.
  - by apply written_ok.
  - intros i Hi. unfold m2. rewrite written_pde by done. by apply Hs.
Qed.

Lemma old_word : word (pde m dir 1022).
Proof. apply word_at_word, (fo_dir _ _ _ Hf). Qed.

Lemma foreign_mapped : foreign (mapped_to m dir pd v w) dir pd.
Proof. apply foreign_expd; [apply foreign_m2|apply old_word]. Qed.

Lemma mapped_walk v' : word v' -> pd_idx v' < 1022 ->
  walk_dir (mapped_to m dir pd v w) pd v' =
    if decide (v' / 4096 = v / 4096)
    then if present w then Some (frame_of w + v' mod 4096) else None
    else walk_dir m pd v'.
Proof.
  intros Hv' Hlt'. destruct idx_range. unfold mapped_to. fold m1 m2.
  rewrite (expd_walk _ _ _ foreign_m2) by done. unfold m2.
  rewrite written_walk by (done || lia || (by rewrite m1_pde) || apply foreign_m1).
  unfold m1 at 1. rewrite (expd_walk _ _ _ Hf) by done.
  destruct (slot_range v Hv) as (_ & _ & Epd & Ept). destruct (slot_range v' Hv') as (_ & _ & Epd' & Ept').
  rewrite Epd, Epd', Ept, Ept'. repeat case_decide; try done; Z.div_mod_to_equations; lia.
Qed.

Lemma mapped_entry : pde (mapped_to m dir pd v w) pd (pd_idx v) = pde m pd (pd_idx v) /\
  word_at (mapped_to m dir pd v w) (frame_of (pde m pd (pd_idx v)) + 4 * (pt_idx v mod 1024)) = w.
Proof.
  destruct idx_range. pose proof foreign_m1 as [Hd Hp Hs].
  assert (Hpres1 : present (pde m1 pd (pd_idx v)) = true) by by rewrite m1_pde.
  assert (E2 : pde m2 pd (pd_idx v) = pde m1 pd (pd_idx v)) by (apply written_pde; done || lia).
  split.
  - unfold mapped_to. fold m1 m2. rewrite (expd_pde _ _ _ foreign_m2) by lia. by rewrite E2, m1_pde.
  - unfold mapped_to. fold m1 m2. rewrite <- m1_pde, <- E2.
    rewrite (expd_table _ _ _ foreign_m2) by (done || lia || congruence).
    rewrite E2. unfold m2, entry_written.
    destruct (frame_of_range (pde m1 pd (pd_idx v))) as (b & Eb & _); [apply word_at_word, Hd|].
    rewrite Eb, word_at_insert by done. by rewrite decide_True.
Qed.
End map_to.

Lemma pg_map_to_run s pd p v f : let dir := frame_of (cr3 s) in
  foreign (ram s) dir pd -> word v -> pd_idx v < 1022 -> present (pde (ram s) pd (pd_idx v)) = true ->
  word (Z.lor (Z.land p PG_ALIGN) f) ->
  pg_map_to pd p v f s =
    Ok (tt, set_ram (mapped_to (ram s) dir pd v (Z.lor (Z.land p PG_ALIGN) f)) s).
Proof.
  intros dir Hf Hv Hlt Hpres Hw. destruct (slot_range v Hv) as (Hi & _).
  unfold pg_map_to. rewrite (bind_ok _ _ _ _ _ (set_expd_run s pd (fo_dir _ _ _ Hf))). fold dir.
  set (s1 := set_ram (expd (ram s) dir pd) s).
  assert (Hf1 : foreign (ram s1) dir pd) by by apply foreign_m1.
  destruct (expd_base (ram s) dir pd (fo_dir _ _ _ Hf) (pd_word _ _ _ Hf)) as (_ & _ & E1022).
  destruct (expd_entry pd (pd_word _ _ _ Hf)) as (_ & Ep & Ef).
  assert (Hslot : present (pde (ram s1) dir 1022) = true /\ frame_of (pde (ram s1) dir 1022) = pd).
  { cbn [ram s1 set_ram]. rewrite E1022, Ep, Ef. split; [done|]. apply (dir_frame_of (ram s)), Hf. }
  rewrite (bind_ok _ _ _ _ _ (ld_expd s1 pd (fo_dir _ _ _ Hf1) (fo_pd _ _ _ Hf1) Hslot _ Hi)).
  assert (Epde : pde (ram s1) pd (pd_idx v) = pde (ram s) pd (pd_idx v)) by (by apply m1_pde).
  rewrite Epde. assert (entry_is_zero (pde (ram s) pd (pd_idx v)) = false) as ->.
  { unfold entry_is_zero. apply Z.eqb_neq. intros E. rewrite E in Hpres. done. }
  rewrite (bind_ok _ _ _ tt s1) by done.
  assert (Hpres1 : present (pde (ram s1) pd (pd_idx v)) = true) by by rewrite Epde.
  rewrite (bind_ok _ _ _ _ _ (st_expts s1 pd (fo_dir _ _ _ Hf1) Hslot v _ Hv Hpres1)).
  set (s2 := set_ram _ s1).
  assert (Hd2 : dir_base (ram s2) (frame_of (cr3 s2)))
    by (apply (fo_dir _ dir pd), (foreign_m2 (ram s) dir pd v _ Hf Hv Hlt Hw Hpres)).
  rewrite (bind_ok _ _ _ _ _ (set_expd_run s2 _ Hd2)). done.
Qed.

Lemma pg_get_frame_from_run s pd v : let dir := frame_of (cr3 s) in
  foreign (ram s) dir pd -> word v -> pd_idx v < 1022 -> present (pde (ram s) pd (pd_idx v)) = true ->
  exists s', pg_get_frame_from pd v s = Ok (
    let e := word_at (ram s) (frame_of (pde (ram s) pd (pd_idx v)) + 4 * (pt_idx v mod 1024)) in
    if present e then e else 0, s') /\ m_pmm s' = m_pmm s.
Proof.
  intros dir Hf Hv Hlt Hpres. destruct (slot_range v Hv) as (Hi & Hk & _).
  unfold pg_get_frame_from. rewrite (bind_ok _ _ _ _ _ (set_expd_run s pd (fo_dir _ _ _ Hf))). fold dir.
  set (s1 := set_ram (expd (ram s) dir pd) s).
  assert (Hf1 : foreign (ram s1) dir pd) by by apply foreign_m1.
  destruct (expd_base (ram s) dir pd (fo_dir _ _ _ Hf) (pd_word _ _ _ Hf)) as (_ & _ & E1022).
  destruct (expd_entry pd (pd_word _ _ _ Hf)) as (_ & Ep & Ef).
  assert (Hslot : present (pde (ram s1) dir 1022) = true /\ frame_of (pde (ram s1) dir 1022) = pd).
  { cbn [ram s1 set_ram]. rewrite E1022, Ep, Ef. split; [done|]. apply (dir_frame_of (ram s)), Hf. }
  rewrite (bind_ok _ _ _ _ _ (get_expage_run s1 pd (fo_dir _ _ _ Hf1) (fo_pd _ _ _ Hf1) Hslot v Hv)).
  rewrite (bind_ok _ _ _ _ _ (set_expd_run s1 _ (fo_dir _ _ _ Hf1))).
  assert (Epde : pde (ram s1) pd (pd_idx v) = pde (ram s) pd (pd_idx v)) by (by apply m1_pde).
  rewrite Epde, Hpres. eexists. split; [cbv zeta|].
  - cbn [ram s1 set_ram]. rewrite (expd_table _ _ _ Hf) by (done || lia || (apply Z.mod_pos_bound; lia)).
    reflexivity.
  - done.
Qed.

(** Mapping a page into another address space and looking it up there
    agree: [pg_map_to] followed by [pg_get_frame_from] returns the frame with
    its flags, the other pages of that address space are untouched, and the
    running directory gets its slot 1022 back (with PRESENT and RW set). *)
Lemma pg_map_to_get_frame s pd p v f :
  let dir := frame_of (cr3 s) in
  foreign (ram s) dir pd -> word v -> pd_idx v < 1022 -> present (pde (ram s) pd (pd_idx v)) = true ->
  word p -> 0 <= f < 4096 -> present f = true ->
  exists s' s'', pg_map_to pd p v f s = Ok (tt, s') /\ m_pmm s' = m_pmm s /\
    pg_get_frame_from pd v s' = Ok (Z.lor (frame_of p) f, s'') /\
    frame_of (pde (ram s') dir 1022) = frame_of (pde (ram s) dir 1022) /\
    forall v', word v' -> pd_idx v' < 1022 -> v' / 4096 <> v / 4096 ->
      walk_dir (ram s') pd v' = walk_dir (ram s) pd v'.
Proof.
  intros dir Hf Hv Hlt Hpres Hp Hfl Hpf. destruct (lor_flags p f Hp Hfl) as (Hw & Hfr & Hpr).
  set (s' := set_ram (mapped_to (ram s) dir pd v (Z.lor (Z.land p PG_ALIGN) f)) s).
  assert (Hf' : foreign (ram s') dir pd) by by apply foreign_mapped.
  destruct (mapped_entry (ram s) dir pd v _ Hf Hv Hlt Hw Hpres) as [E1 E2].
  destruct (pg_get_frame_from_run s' pd v Hf' Hv Hlt) as (s'' & E & _);
    [exact (eq_trans (f_equal present E1) Hpres)|].
  exists s', s''. split; [by apply pg_map_to_run|]. split; [done|]. split_and!.
  - rewrite E. cbv zeta. change (ram s') with (mapped_to (ram s) dir pd v (Z.lor (Z.land p PG_ALIGN) f)).
    rewrite E1, E2, Hpr, Hpf. done.
  - destruct (expd_base _ dir (pde (ram s) dir 1022)
      (fo_dir _ _ _ (foreign_m2 (ram s) dir pd v _ Hf Hv Hlt Hw Hpres)) (old_word _ _ _ Hf)) as (_ & _ & E3).
    cbn [ram s' set_ram]. unfold mapped_to. rewrite E3. by apply expd_entry, old_word with (1 := Hf).
  - intros v' Hv' Hlt' Hne. cbn [ram s' set_ram]. rewrite mapped_walk by done. by rewrite decide_False.
Qed.

Lemma pg_map_translates_witness : exists s', pg_map 0x8000 0x3123 3 demo_machine = Ok (tt, s') /\
  walk_dir (ram s') 0x1000 0x3123 = Some 0x8123 /\ walk_dir (ram s') 0x1000 0x5010 = Some 0x9010.
Proof.
  destruct (pg_map_translates demo_machine 0x8000 0x3123 3) as (s' & E & _ & _ & _ & E1 & E2);
    try (unfold word; lia); try reflexivity; [apply dir_ok_check; vm_compute; reflexivity|].
  exists s'. split; [exact E|]. split; [exact E1|].
  refine (eq_trans (E2 0x5010 _ _ _) _); [unfold word; lia|reflexivity|discriminate|reflexivity].
Defined.

Lemma pg_map_to_get_frame_witness : exists s' s'', pg_map_to 0x3000 0x8000 0x3123 7 demo_machine = Ok (tt, s') /\
  pg_get_frame_from 0x3000 0x3123 s' = Ok (0x8007, s'').
Proof.
  destruct (pg_map_to_get_frame demo_machine 0x3000 0x8000 0x3123 7) as (s' & s'' & E1 & _ & E2 & _);
    try (unfold word; lia); try reflexivity; [apply foreign_check; vm_compute; reflexivity|].
  exists s', s''. split; [exact E1|exact E2].
Defined.

(** Unmapping gives no memory back.  [pg_unmap] answers
    [paddr | PG_ALIGN], an address in the last page of the address space, so
    the frame [vmm_cont_unmap] and [vmm_void_unmap] ask the allocator to free
    does not exist: whatever they unmap, the allocator's state is unchanged. *)
Lemma unmap_frees_no_frame s v bytes u s' :
  ram_nonneg s -> total_frames (m_pmm s) <= 0xfffff ->
  vmm_cont_unmap v bytes false s = Ok (u, s') \/ vmm_void_unmap v bytes s = Ok (u, s') ->
  m_pmm s' = m_pmm s.
Proof.
  intros Hn Ht HE.
  set (P := fun x : machine => m_pmm x = m_pmm s /\ ram_nonneg x).
  assert (Hstep : forall w x y, P x -> (exists r x1, pg_unmap w x = Ok (r, x1) /\
      ((r = 0 /\ y = x1) \/ with_pmm (pmm_free_frame r) x1 = Ok (tt, y) /\ r <> 0)) -> P y).
  { intros w x y [Hx Hxn] (r & x1 & E & Hy). destruct (pg_unmap_same _ _ _ _ E Hxn) as (E1 & Hn1 & Hr).
    destruct Hy as [[_ ->]|[Hy Hr0]]; [split; congruence || done|].
    destruct Hr as [->|Hr]; [done|].
    rewrite with_free_nowhere in Hy by (congruence || lia). injection Hy as <-. split; congruence || done. }
  assert (HP : P s) by done.
  cut (P s'); [by intros [? _]|].
  destruct HE as [E|E]; revert HP E; apply for_inv; intros j x [] y Hx (r & x1 & E1 & E2)%bind_inv;
    (eapply Hstep; [exact Hx|exists r, x1; split; [exact E1|]]).
  - destruct (pg_unmap_same _ _ _ _ E1 (proj2 Hx)) as (_ & _ & Hr).
    destruct (Z.ltb_spec 0 r); [right; split; [done|lia]|left]. injection E2 as <-. split; [lia|done].
  - destruct (Z.eqb_spec r 0) as [->|]; cbn [negb] in E2; [left; by injection E2 as <-|by right].
Qed.

Lemma unmap_frees_no_frame_witness : exists s', vmm_cont_unmap 0x5000 1 false demo_machine = Ok (tt, s') /\
  walk_dir (ram s') 0x1000 0x5000 = None /\ m_pmm s' = demo_pmm.
Proof.
  eexists. split; [reflexivity|]. split; [reflexivity|].
  eapply (unmap_frees_no_frame demo_machine 0x5000 1).
  - intros i w H. apply (map_Forall_lookup_1 (fun _ w => 0 <= w) demo_ram i w); [|exact H].
    apply (bool_decide_eq_true_1 (map_Forall (fun _ w => 0 <= w) demo_ram)). vm_compute. reflexivity.
  - reflexivity || (vm_compute; discriminate).
  - left. reflexivity.
Defined.

(** Installing a fresh table in an empty slot. *)
Section install.
Context (m : gmap Z Z) (dir i fr : Z).
Hypotheses (Hok : dir_ok m dir) (Hi : 0 <= i < 1022) (Hfr : word fr) (Hal : frame_of fr = fr)
  (Hfresh : forall j, 0 <= j < 1024 -> present (pde m dir j) = true -> frame_of (pde m dir j) <> fr).

Definition installed : gmap Z Z := <[(dir + 4 * i) / 4 := _CREATE_PD_ENTRY fr]> m.

Lemma create_entry : word (_CREATE_PD_ENTRY fr) /\ present (_CREATE_PD_ENTRY fr) = true /\
  frame_of (_CREATE_PD_ENTRY fr) = fr.
Proof. unfold _CREATE_PD_ENTRY. fold (frame_of fr). rewrite Hal. rewrite <- Hal at 4. by apply expd_entry. Qed.

Lemma installed_pde j : 0 <= j < 1024 ->
  pde installed dir j = if decide (i = j) then _CREATE_PD_ENTRY fr else pde m dir j.
Proof.
  intros Hj. destruct (dir_frame _ _ Hok) as (a & Ea & Ha). unfold pde, installed.
  rewrite Ea, word_at_insert by lia. repeat case_decide; try done; lia.
Qed.

Lemma installed_ok : dir_ok installed dir.
Proof.
  destruct create_entry as (Hw & Hp & Hf). split; [split|].
  - apply words_ok_insert; [apply Hok|done].
  - apply Hok.
  - rewrite installed_pde, decide_False by lia. apply Hok.
  - intros x y Hx Hy Hx2 Hy2. rewrite !installed_pde by done. repeat case_decide; subst; try done.
    + rewrite Hf. intros _ Hpy E. by destruct (Hfresh y Hy Hpy).
    + rewrite Hf. intros Hpx _ E. by destruct (Hfresh x Hx Hpx).
    + by apply (dir_inj _ _ Hok).
Qed.

Lemma installed_table k : 0 <= k < 1024 -> word_at installed (fr + 4 * k) = word_at m (fr + 4 * k).
Proof.
  intros Hk. destruct (dir_rec _ _ Hok) as [Hrp Hrf].
  assert (Hne : dir <> fr) by (rewrite <- Hrf; apply Hfresh; [lia|done]).
  destruct (dir_frame _ _ Hok) as (a & Ea & _). destruct (frame_of_range fr Hfr) as (b & Eb & _).
  unfold installed. rewrite Hal in Eb. rewrite Ea, Eb, word_at_insert by lia.
  rewrite decide_False; [done|]. intros [Eab _]. apply Hne. by rewrite Ea, Eb, Eab.
Qed.
End install.

(** A new page table is not cleared.  When [pg_map] has to create the
    table for a page, the table is whatever the frame held before: every
    other page of the same 4 MiB translates by those stale words. *)
Lemma pg_map_exposes_stale_table s p v f fr pm' :
  let dir := frame_of (cr3 s) in
  dir_ok (ram s) dir -> word v -> pd_idx v < 1022 -> pde (ram s) dir (pd_idx v) = 0 ->
  word p -> 0 <= f < 4096 ->
  pmm_get_frame (m_pmm s) = Ok (fr, pm') -> word fr -> frame_of fr = fr ->
  (forall i, 0 <= i < 1024 -> present (pde (ram s) dir i) = true -> frame_of (pde (ram s) dir i) <> fr) ->
  exists s', pg_map p v f s = Ok (tt, s') /\
    forall v', word v' -> pd_idx v' = pd_idx v -> v' / 4096 <> v / 4096 ->
      let stale := word_at (ram s) (fr + 4 * (pt_idx v' mod 1024)) in
      walk_dir (ram s') dir v' = if present stale then Some (frame_of stale + v' mod 4096) else None.
Proof.
  intros dir Hok Hv Hlt Hpde Hp Hf Hget Hfr Hal Hfresh. destruct (slot_range v Hv) as (Hi & Hk & Epd & Ept).
  set (m1 := installed (ram s) dir (pd_idx v) fr).
  assert (Hok1 : dir_ok m1 dir) by (apply installed_ok; done || lia).
  destruct (create_entry fr Hfr Hal) as (Hcw & Hcp & Hcf).
  assert (E1 : pde m1 dir (pd_idx v) = _CREATE_PD_ENTRY fr).
  { unfold m1. rewrite installed_pde by (done || lia). by rewrite decide_True. }
  destruct (lor_flags p f Hp Hf) as (Hw & _).
  assert (Hmod : 0 <= pt_idx v mod 1024 < 1024) by (apply Z.mod_pos_bound; lia).
  eexists. split.
  { unfold pg_map. rewrite (bind_ok _ _ _ _ _ (ld_pd s Hok _ Hi)). fold dir. rewrite Hpde.
    change (entry_is_zero 0) with true. cbv iota.
    set (s1 := set_ram m1 (set_m_pmm pm' s)).
    rewrite (bind_ok _ _ _ tt s1).
    - rewrite (st_pts s1 Hok1 v _ Hv (eq_trans (f_equal present E1) Hcp)). reflexivity.
    - unfold bind_, with_pmm, zoom. rewrite Hget. unfold st32. cbn [ram cr3 set_m_pmm].
      rewrite (walk_pd s Hok) by done. done. }
  intros v' Hv' Ei Hne. destruct (slot_range v' Hv') as (Hi' & Hk' & Epd' & Ept'). cbv zeta. cbn [ram set_ram].
  fold dir. fold m1. rewrite written_walk by (done || lia || by rewrite E1).
  rewrite decide_False; [|intros [_ E]; apply Hne; rewrite <- Ept, <- Ept'; rewrite Epd, Epd' in Ei;
    Z.div_mod_to_equations; lia].
  unfold walk_dir. rewrite (dir_frame_of m1 dir Hok1). fold (pde m1 dir (pd_idx v')).
  rewrite Ei, E1, Hcp, Hcf. unfold m1. rewrite installed_table by (done || lia || (apply Z.mod_pos_bound; lia)). done.
Qed.

Lemma pg_map_exposes_stale_table_witness : exists s', pg_map 0x8000 0x400000 3 demo_machine = Ok (tt, s') /\
  walk_dir (ram s') 0x1000 0x407000 = Some 0xbad000.
Proof.
  destruct (pg_map_exposes_stale_table demo_machine 0x8000 0x400000 3 0x6000
    (mkPmm {[ 0 := 0xfe ]} 5 7 16 9)) as (s' & E & E'); try (unfold word; lia); try reflexivity.
  - apply dir_ok_check. vm_compute. reflexivity.
  - intros i Hi Hp. apply (present_slots_in demo_ram 0x1000 i Hi) in Hp.
    replace (present_slots demo_ram 0x1000) with [0; 1023] in Hp by (vm_compute; reflexivity).
    apply elem_of_cons in Hp as [->|Hp]; [discriminate|]. apply list_elem_of_singleton in Hp as ->. discriminate.
  - exists s'. split; [exact E|].
    refine (eq_trans (E' 0x407000 _ _ _) _); [unfold word; lia|reflexivity|discriminate|reflexivity].
Defined.
