(* ===== verification/MmuSpec.v ===== *)
(** * Memory as the page tables show it

    Bytes of physical memory; which words the processor reads to translate an
    address, and that other stores leave every translation alone; what one
    written entry changes; copying between mapped ranges.  The properties of
    the routines that move data are built from these. *)

From S2P Require Import Prelude Pmm Paging.

#[local] Open Scope Z_scope.

(** ** Bytes of words *)

Lemma byte_of_spec w i n : 0 <= i -> 0 <= n -> Z.testbit (byte_of w i) n = (n <? 8) && Z.testbit w (n + 8 * i).
Proof.
  intros Hi Hn. unfold byte_of. rewrite Z.land_spec, Z.shiftr_spec by lia. change 255 with (Z.ones 8).
  destruct (Z.ltb_spec n 8); [rewrite Z.ones_spec_low by lia|rewrite Z.ones_spec_high by lia].
  - by rewrite andb_true_r.
  - by rewrite andb_false_r.
Qed.

Lemma ones8_spec n : 0 <= n -> Z.testbit 255 n = (n <? 8).
Proof.
  intros Hn. change 255 with (Z.ones 8). destruct (Z.ltb_spec n 8); [by rewrite Z.ones_spec_low by lia|by rewrite Z.ones_spec_high by lia].
Qed.

Lemma set_byte_spec w i b n : 0 <= i -> 0 <= n -> Z.testbit (set_byte w i b) n =
  if decide (8 * i <= n < 8 * i + 8) then Z.testbit b (n - 8 * i) else Z.testbit w n.
Proof.
  intros Hi Hn. unfold set_byte. rewrite Z.lor_spec, Z.land_spec, Z.lnot_spec by lia.
  destruct (Z.leb_spec (8 * i) n).
  - rewrite !Z.shiftl_spec_high, Z.land_spec, ones8_spec by lia.
    destruct (Z.ltb_spec (n - 8 * i) 8); case_decide; try lia; by destruct (Z.testbit w n), (Z.testbit b _).
  - rewrite !Z.shiftl_spec_low by lia. case_decide; [lia|]. by destruct (Z.testbit w n).
Qed.

Lemma byte_of_set w i b j : 0 <= i -> 0 <= j ->
  byte_of (set_byte w i b) j = if decide (i = j) then Z.land b 255 else byte_of w j.
Proof.
  intros Hi Hj. apply Z.bits_inj'. intros n Hn. rewrite byte_of_spec, set_byte_spec by lia.
  destruct (Z.ltb_spec n 8); cbn [andb].
  - repeat case_decide; try lia.
    + rewrite Z.land_spec, ones8_spec by lia. replace (n + 8 * j - 8 * i) with n by lia.
      destruct (Z.ltb_spec n 8); [by rewrite andb_true_r|lia].
    + rewrite byte_of_spec by lia. destruct (Z.ltb_spec n 8); [done|lia].
  - case_decide; [rewrite Z.land_spec, ones8_spec by lia|rewrite byte_of_spec by lia];
      destruct (Z.ltb_spec n 8); try lia; by rewrite ?andb_false_r.
Qed.

Lemma word_bits z : word z <-> 0 <= z /\ forall n, 32 <= n -> Z.testbit z n = false.
Proof.
  unfold word. change W32 with (2 ^ 32). split.
  - intros Hz. split; [lia|]. intros n Hn. rewrite Z.testbit_false by lia.
    rewrite Z.div_small; [done|]. split; [lia|]. apply Z.lt_le_trans with (2 ^ 32); [lia|]. apply Z.pow_le_mono_r; lia.
  - intros [Hz Hb]. split; [done|]. assert (E : Z.land z (Z.ones 32) = z).
    { apply Z.bits_inj'. intros n Hn. rewrite Z.land_spec. destruct (Z.ltb_spec n 32).
      - rewrite Z.ones_spec_low by lia. apply andb_true_r.
      - rewrite Hb by lia. done. }
    rewrite Z.land_ones in E by lia. rewrite <- E. apply Z.mod_pos_bound. lia.
Qed.

Lemma set_byte_word w i b : word w -> 0 <= i < 4 -> word (set_byte w i b).
Proof.
  rewrite !word_bits. intros [Hw Hb] Hi. split.
  - unfold set_byte. apply Z.lor_nonneg. split; [apply Z.land_nonneg; by left|].
    apply Z.shiftl_nonneg, Z.land_nonneg. by right.
  - intros n Hn. rewrite set_byte_spec by lia. rewrite decide_False by lia. by apply Hb.
Qed.

Lemma byte_of_land w i : 0 <= i -> Z.land (byte_of w i) 255 = byte_of w i.
Proof. intros Hi. unfold byte_of. by rewrite <- Z.land_assoc. Qed.

(** ** Translations *)

(** The words of memory the processor reads to translate [v]. *)
Definition walk_words (m : gmap Z Z) (dir v : Z) : list Z :=
  let i := (frame_of dir + 4 * pd_idx v) / 4 in
  [i; (frame_of (word_at m (frame_of dir + 4 * pd_idx v)) + 4 * (pt_idx v mod 1024)) / 4].

Lemma walk_agree m m' dir v : (forall i, i ∈ walk_words m dir v -> m' !! i = m !! i) ->
  walk_dir m' dir v = walk_dir m dir v.
Proof.
  intros Hm. unfold walk_dir, walk_words in *.
  assert (E1 : word_at m' (frame_of dir + 4 * pd_idx v) = word_at m (frame_of dir + 4 * pd_idx v)).
  { unfold word_at. rewrite Hm; [done|]. in_tac. }
  rewrite E1. destruct (present _); [|done].
  assert (E2 : word_at m' (frame_of (word_at m (frame_of dir + 4 * pd_idx v)) + 4 * (pt_idx v mod 1024)) =
               word_at m (frame_of (word_at m (frame_of dir + 4 * pd_idx v)) + 4 * (pt_idx v mod 1024))).
  { unfold word_at at 1 3. rewrite Hm; [done|]. in_tac. }
  by rewrite E2.
Qed.

(** The byte at physical address [p]. *)
Definition phys_byte (m : gmap Z Z) (p : Z) : Z := byte_of (word_at m p) (p mod 4).

Lemma phys_byte_store m p q b :
  phys_byte (<[p / 4 := set_byte (word_at m p) (p mod 4) b]> m) q =
  if decide (p = q) then Z.land b 255 else phys_byte m q.
Proof.
  unfold phys_byte, word_at at 1. rewrite lookup_insert.
  assert (0 <= p mod 4 < 4) by (apply Z.mod_pos_bound; lia). assert (0 <= q mod 4 < 4) by (apply Z.mod_pos_bound; lia).
  destruct (decide (p / 4 = q / 4)) as [E|E].
  - change (default 0 (Some ?x)) with x. rewrite byte_of_set by lia. destruct (decide (p = q)) as [->|Hne]; [by rewrite decide_True|].
    rewrite decide_False by (Z.div_mod_to_equations; lia). unfold word_at. by rewrite E.
  - rewrite decide_False by congruence. done.
Qed.

Lemma phys_byte_ext m m' q : m' !! (q / 4) = m !! (q / 4) -> phys_byte m' q = phys_byte m q.
Proof. intros E. unfold phys_byte, word_at. by rewrite E. Qed.

(** ** Copying between mapped ranges *)

Section copying.
Context (mc : machine) (src dst count : Z) (ps pd_ : Z -> Z).

(** The source and the buffer are mapped, byte [i] at the physical
    addresses [ps i] and [pd_ i]; the buffer shares no word with the source
    nor with the tables that translate the two. *)
Record separate : Prop := {
  sp_src : forall i, 0 <= i < count -> walk_dir (ram mc) (Paging.cr3 mc) (src +w i) = Some (ps i);
  sp_dst : forall i, 0 <= i < count -> walk_dir (ram mc) (Paging.cr3 mc) (dst +w i) = Some (pd_ i);
  sp_inj : forall i j, 0 <= i < count -> 0 <= j < count -> pd_ i = pd_ j -> i = j;
  sp_data : forall i j, 0 <= i < count -> 0 <= j < count -> pd_ i / 4 <> ps j / 4;
  sp_tables : forall i j, 0 <= i < count -> 0 <= j < count ->
    pd_ i / 4 ∉ walk_words (ram mc) (Paging.cr3 mc) (src +w j) /\
    pd_ i / 4 ∉ walk_words (ram mc) (Paging.cr3 mc) (dst +w j);
}.

(** The memory after [n] bytes. *)
Record copied (n : Z) (m : machine) : Prop := {
  cp_pmm : m_pmm m = m_pmm mc;
  cp_cr3 : Paging.cr3 m = Paging.cr3 mc;
  cp_bytes : forall i, 0 <= i < n -> phys_byte (ram m) (pd_ i) = phys_byte (ram mc) (ps i);
  cp_rest : forall q, (forall i, 0 <= i < n -> pd_ i / 4 <> q) -> ram m !! q = ram mc !! q;
  cp_other : forall q, (forall i, 0 <= i < n -> pd_ i <> q) -> phys_byte (ram m) q = phys_byte (ram mc) q;
  cp_words : words_ok (ram mc) -> words_ok (ram m);
}.

Hypothesis Hsep : separate.

Lemma copied_walk n m v : copied n m -> n <= count ->
  (forall i, 0 <= i < count -> pd_ i / 4 ∉ walk_words (ram mc) (Paging.cr3 mc) v) ->
  walk_dir (ram m) (Paging.cr3 m) v = walk_dir (ram mc) (Paging.cr3 mc) v.
Proof.
  intros Hc Hn Hv. rewrite (cp_cr3 _ _ Hc). apply walk_agree. intros q Hq. apply (cp_rest _ _ Hc).
  intros i Hi E. apply (Hv i); [lia|]. by rewrite E.
Qed.

Lemma copied_src n m i : copied n m -> n <= count -> 0 <= i < count ->
  phys_byte (ram m) (ps i) = phys_byte (ram mc) (ps i).
Proof.
  intros Hc Hn Hi. unfold phys_byte, word_at. rewrite (cp_rest _ _ Hc); [done|].
  intros j Hj. apply (sp_data Hsep); lia.
Qed.

Lemma copy_byte n m : copied n m -> 0 <= n < count ->
  exists m', ld8 (src +w n) m = Ok (phys_byte (ram mc) (ps n), m) /\
    st8 (dst +w n) (phys_byte (ram mc) (ps n)) m = Ok (tt, m') /\ copied (n + 1) m'.
Proof.
  intros Hc Hn.
  assert (Ws : walk_dir (ram m) (Paging.cr3 m) (src +w n) = Some (ps n)).
  { rewrite <- (sp_src Hsep n Hn). apply (copied_walk n); [exact Hc|lia|]. intros i Hi. exact (proj1 (sp_tables Hsep i n Hi Hn)). }
  assert (Wd : walk_dir (ram m) (Paging.cr3 m) (dst +w n) = Some (pd_ n)).
  { rewrite <- (sp_dst Hsep n Hn). apply (copied_walk n); [exact Hc|lia|]. intros i Hi. exact (proj2 (sp_tables Hsep i n Hi Hn)). }
  eexists. split; [|split].
  - unfold ld8. rewrite Ws. by rewrite <- (copied_src n m n Hc ltac:(lia) Hn).
  - unfold st8. rewrite Wd. reflexivity.
  - split; cbn [set_ram m_pmm ram Paging.cr3].
    + apply Hc.
    + apply Hc.
    + intros i Hi. rewrite phys_byte_store. case_decide as E.
      * apply (sp_inj Hsep) in E; [|lia..]. subst i. apply byte_of_land. apply Z.mod_pos_bound. lia.
      * apply (cp_bytes _ _ Hc). assert (i <> n) by congruence. lia.
    + intros q Hq. rewrite lookup_insert_ne by (apply Hq; lia). apply (cp_rest _ _ Hc). intros i Hi. apply Hq. lia.
    + intros q Hq. rewrite phys_byte_store, decide_False by (apply Hq; lia). apply (cp_other _ _ Hc). intros i Hi. apply Hq. lia.
    + intros Hw. pose proof (cp_words _ _ Hc Hw) as Hw'. apply words_ok_insert; [done|].
      apply set_byte_word; [by apply word_at_word|apply Z.mod_pos_bound; lia].
Qed.
End copying.

(** ** The words of the page tables *)

(** Word [q] of memory belongs to the directory [dir] or to one of its
    tables; the external slot does not count. *)
Definition table_word (m : gmap Z Z) (dir q : Z) : Prop := exists i, 0 <= i < 1024 /\ i <> 1022 /\
  present (pde m dir i) = true /\ frame_of (pde m dir i) <= 4 * q < frame_of (pde m dir i) + 4096.

Section tables.
Context (m : gmap Z Z) (dir : Z).
Hypothesis (Hok : dir_ok m dir).

Lemma dir_table_word i : 0 <= i < 1024 -> table_word m dir ((dir + 4 * i) / 4).
Proof.
  intros Hi. exists 1023. destruct (dir_rec _ _ Hok) as [Hp Hf]. destruct (dir_frame _ _ Hok) as (a & -> & Ha).
  rewrite Hf. split; [lia|]. split; [lia|]. split; [done|]. Z.div_mod_to_equations. lia.
Qed.

Lemma entry_table_word i k : 0 <= i < 1024 -> i <> 1022 -> 0 <= k < 1024 -> present (pde m dir i) = true ->
  table_word m dir ((frame_of (pde m dir i) + 4 * k) / 4).
Proof.
  intros Hi Hi2 Hk Hp. exists i. split; [done|]. split; [done|]. split; [done|].
  destruct (frame_of_range (pde m dir i)) as (a & -> & _); [apply word_at_word, Hok|]. Z.div_mod_to_equations. lia.
Qed.

(** A memory with the same tables translates the same. *)
Section same.
Context (m' : gmap Z Z).
Hypotheses (Hw : words_ok m') (Hm : forall q, table_word m dir q -> m' !! q = m !! q).

Lemma tables_pde i : 0 <= i < 1024 -> pde m' dir i = pde m dir i.
Proof. intros Hi. unfold pde, word_at. by rewrite Hm by by apply dir_table_word. Qed.

Lemma tables_ok : dir_ok m' dir.
Proof.
  split; [split|].
  - exact Hw.
  - apply Hok.
  - rewrite tables_pde by lia. apply Hok.
  - intros i j Hi Hj Hi2 Hj2. rewrite !tables_pde by done. by apply (dir_inj _ _ Hok).
Qed.

Lemma tables_walk v : word v -> pd_idx v < 1022 -> walk_dir m' dir v = walk_dir m dir v.
Proof.
  intros Hv Hlt. destruct (slot_range v Hv) as (Hi & _). unfold walk_dir. rewrite (dir_frame_of _ _ Hok).
  fold (pde m' dir (pd_idx v)) (pde m dir (pd_idx v)). rewrite tables_pde by done.
  destruct (present (pde m dir (pd_idx v))) eqn:Hp; [|done].
  assert (Hk : 0 <= pt_idx v mod 1024 < 1024) by (apply Z.mod_pos_bound; lia).
  unfold word_at at 1 2. by rewrite Hm by (apply entry_table_word; done || lia).
Qed.

Lemma tables_words q : table_word m' dir q <-> table_word m dir q.
Proof.
  split; intros (i & Hi & Hi2 & Hp & Hq); exists i; [rewrite tables_pde in Hp, Hq by done|rewrite tables_pde by done]; done.
Qed.
End same.

(** The processor reads tables only to translate. *)
Lemma walk_words_table c v p q : frame_of c = dir -> word v -> pd_idx v < 1022 -> walk_dir m dir v = Some p ->
  q ∈ walk_words m c v -> table_word m dir q.
Proof.
  intros Hc Hv Hlt Hwalk Hq. destruct (slot_range v Hv) as (Hi & _). unfold walk_words in Hq. rewrite Hc in Hq.
  unfold walk_dir in Hwalk. rewrite (dir_frame_of _ _ Hok) in Hwalk.
  fold (pde m dir (pd_idx v)) in Hq, Hwalk. destruct (present (pde m dir (pd_idx v))) eqn:Hp; [|done].
  apply elem_of_cons in Hq as [->|Hq%list_elem_of_singleton].
  - by apply dir_table_word.
  - subst q. apply entry_table_word; [done|lia|apply Z.mod_pos_bound; lia|done].
Qed.

(** ** One entry of a table is written *)

Lemma same_slots_words m' q : (forall i, 0 <= i < 1024 -> i <> 1022 -> pde m' dir i = pde m dir i) ->
  table_word m' dir q -> table_word m dir q.
Proof. intros Hp (i & Hi & Hi2 & Hpr & Hq). rewrite Hp in Hpr, Hq by done. by exists i. Qed.

Lemma all_slots_words m' q : (forall i, 0 <= i < 1024 -> pde m' dir i = pde m dir i) ->
  table_word m' dir q -> table_word m dir q.
Proof. intros Hp. apply same_slots_words. intros i Hi _. by apply Hp. Qed.

Record remapped (v w : Z) (m' : gmap Z Z) : Prop := {
  re_ok : dir_ok m' dir;
  re_pde : forall i, 0 <= i < 1024 -> pde m' dir i = pde m dir i;
  re_walk : forall v', word v' -> pd_idx v' < 1022 -> walk_dir m' dir v' =
    if decide (v' / 4096 = v / 4096) then (if present w then Some (frame_of w + v' mod 4096) else None)
    else walk_dir m dir v';
  re_data : forall q, ~ table_word m dir q -> m' !! q = m !! q;
}.

Lemma entry_remapped v w : word v -> pd_idx v < 1022 -> present (pde m dir (pd_idx v)) = true -> word w ->
  remapped v w (entry_written m dir (pd_idx v) (pt_idx v mod 1024) w).
Proof.
  intros Hv Hlt Hp Hw. destruct (slot_range v Hv) as (Hi & Hpt & Epd & Ept).
  assert (Hk : 0 <= pt_idx v mod 1024 < 1024) by (apply Z.mod_pos_bound; lia). split.
  - apply written_ok; done || lia.
  - intros i Hi'. apply written_pde; done || lia.
  - intros v' Hv' Hlt'. rewrite written_walk by (done || lia).
    destruct (slot_range v' Hv') as (Hi' & Hpt' & Epd' & Ept'). rewrite Epd, Epd', Ept, Ept'.
    destruct (decide (v' / 4096 = v / 4096)) as [E|Hne]; [rewrite decide_True by (by rewrite E); done|].
    rewrite decide_False; [done|]. intros [E1 E2]. apply Hne. Z.div_mod_to_equations. lia.
  - intros q Hq. unfold entry_written. rewrite lookup_insert_ne; [done|]. intros <-. apply Hq, entry_table_word; done || lia.
Qed.
End tables.

Lemma pg_unmap_run (s : machine) v : let dir := frame_of (Paging.cr3 s) in
  dir_ok (ram s) dir -> word v -> walk_dir (ram s) dir v <> None ->
  exists r, pg_unmap v s = Ok (r, set_ram (entry_written (ram s) dir (pd_idx v) (pt_idx v mod 1024) 0) s).
Proof.
  intros dir Hok Hv Hwalk. unfold pg_unmap. rewrite (bind_ok _ _ _ _ _ (get_page_run s Hok v Hv)). cbv zeta. fold dir.
  unfold walk_dir in Hwalk. rewrite (dir_frame_of _ _ Hok) in Hwalk. fold (pde (ram s) dir (pd_idx v)) in Hwalk.
  destruct (present (pde (ram s) dir (pd_idx v))) eqn:Hp; [|done].
  destruct (present (word_at _ _)) eqn:He; [|done].
  destruct (Z.eqb_spec (word_at (ram s) (frame_of (pde (ram s) dir (pd_idx v)) + 4 * (pt_idx v mod 1024))) 0) as [E|E].
  { by rewrite E in He. }
  eexists. cbn [negb]. by rewrite (bind_ok _ _ _ _ _ (st_pts s Hok v 0 Hv Hp)).
Qed.

Lemma pg_unmap_absent (s : machine) v : let dir := frame_of (Paging.cr3 s) in
  dir_base (ram s) dir -> word v -> walk_dir (ram s) dir v = None -> pg_unmap v s = Ok (0, s).
Proof.
  intros dir Hok Hv Hwalk. unfold pg_unmap. rewrite (bind_ok _ _ _ _ _ (get_page_run s Hok v Hv)). cbv zeta. fold dir.
  unfold walk_dir in Hwalk. rewrite (dir_frame_of _ _ Hok) in Hwalk. fold (pde (ram s) dir (pd_idx v)) in Hwalk.
  destruct (present (pde (ram s) dir (pd_idx v))) eqn:Hp; [|done]. by destruct (present (word_at _ _)).
Qed.

(** Mapping a page whose table is there. *)
Lemma pg_map_remaps (m : machine) p v f : let dir := frame_of (Paging.cr3 m) in
  dir_ok (ram m) dir -> word v -> pd_idx v < 1022 -> present (pde (ram m) dir (pd_idx v)) = true -> word p -> 0 <= f < 4096 ->
  exists m' w, pg_map p v f m = Ok (tt, m') /\ m' = set_ram (ram m') m /\ remapped (ram m) dir v w (ram m') /\
    frame_of w = frame_of p /\ present w = present f.
Proof.
  intros dir Hok Hv Hlt Hp Hpw Hf. destruct (lor_flags p f Hpw Hf) as (Hw & Hfr & Hpr).
  exists (set_ram (entry_written (ram m) dir (pd_idx v) (pt_idx v mod 1024) (Z.lor (Z.land p PG_ALIGN) f)) m), (Z.lor (Z.land p PG_ALIGN) f).
  split; [apply pg_map_run; [apply Hok|done|done]|]. split; [done|]. split; [|done]. cbn [ram set_ram]. apply entry_remapped; done || lia.
Qed.

Lemma same_page a j : (0x1000 | a) -> 0 <= j < 4096 -> (a + j) / 4096 = a / 4096 /\ (a + j) mod 4096 = j.
Proof. intros [b ->] Hj. Z.div_mod_to_equations. lia. Qed.

(** Unmapping a page, and unmapping it again as [vfree] does: the second time nothing is there. *)
Lemma page_unmapped (m : machine) a : let dir := frame_of (Paging.cr3 m) in
  dir_ok (ram m) dir -> word a -> pd_idx a < 1022 -> present (pde (ram m) dir (pd_idx a)) = true ->
  walk_dir (ram m) dir a <> None -> exists r m', pg_unmap a m = Ok (r, m') /\
    vmm_cont_unmap a 4096 false m' = Ok (tt, m') /\ m' = set_ram (ram m') m /\ remapped (ram m) dir a 0 (ram m').
Proof.
  intros dir Hok Haw Halt Hp Hwalk. destruct (pg_unmap_run m a Hok Haw Hwalk) as [r Er]. fold dir in Er.
  set (m1 := set_ram _ _) in Er.
  assert (R1 : remapped (ram m) dir a 0 (ram m1)) by by apply entry_remapped.
  exists r, m1. split; [done|]. split; [|done].
  unfold vmm_cont_unmap. change (Z.to_nat (_SIZE_TO_FRAMES 4096)) with 1%nat. cbn [for_].
  change (0 *w FRAME_SIZE) with 0. rewrite Z.add_0_r, w32_id by done.
  rewrite (bind_ok _ _ _ tt m1); [done|]. rewrite (bind_ok _ _ _ 0 m1); [done|]. cbn. apply pg_unmap_absent.
  - apply R1.
  - done.
  - rewrite (re_walk _ _ _ _ _ R1), decide_True by done. done.
Qed.

Lemma frame_of_page f : word f -> (0x1000 | f) -> frame_of f = f.
Proof. intros Hw [c ->]. rewrite frame_of_spec by done. Z.div_mod_to_equations. lia. Qed.

(** No table in the frame [f], by looking at the slots in use. *)
Lemma no_table_check m dir f q : dir_ok m dir -> (0x1000 | f) ->
  forallb (fun i => negb (frame_of (pde m dir i) =? f)) (present_slots m dir) = true ->
  f <= 4 * q < f + 4096 -> ~ table_word m dir q.
Proof.
  intros Hok [c ->] Hall Hq (i & Hi & _ & Hp & Hr). rewrite forallb_forall in Hall.
  pose proof (Hall i (proj1 (list_elem_of_In _ _) (present_slots_in m dir i Hi Hp))) as Hne. rewrite negb_true_iff, Z.eqb_neq in Hne.
  destruct (frame_of_range (pde m dir i)) as (a & Ha & _); [apply word_at_word, Hok|]. rewrite Ha in *. apply Hne. lia.
Qed.

Lemma lor_align_word e : word e -> word (Z.lor e PG_ALIGN) /\ frame_of (Z.lor e PG_ALIGN) = PG_ALIGN.
Proof.
  intros He. pose proof (proj1 (word_bits _) He) as [He0 Heb]. split.
  - apply word_bits. split; [apply Z.lor_nonneg; split; [done|unfold PG_ALIGN; lia]|]. intros n Hn.
    assert (Hp : word PG_ALIGN) by done. rewrite Z.lor_spec, Heb, (proj2 (proj1 (word_bits _) Hp) n Hn) by done. done.
  - unfold frame_of. apply Z.bits_inj'. intros n Hn. rewrite Z.land_spec, Z.lor_spec.
    by destruct (Z.testbit e n), (Z.testbit PG_ALIGN n).
Qed.

Lemma walk_absent m dir v v' : word v -> word v' -> v' / 4096 = v / 4096 -> walk_dir m dir v = None -> walk_dir m dir v' = None.
Proof.
  intros Hv Hv' E. destruct (slot_range v Hv) as (_ & _ & Epd & Ept), (slot_range v' Hv') as (_ & _ & Epd' & Ept').
  unfold walk_dir. rewrite Epd', Epd, Ept', Ept, E. by repeat case_match.
Qed.

(** Unmapping a page, there or not. *)
Lemma pg_unmap_remaps (m : machine) a : let dir := frame_of (cr3 m) in dir_ok (ram m) dir -> word a -> pd_idx a < 1022 ->
  present (pde (ram m) dir (pd_idx a)) = true ->
  exists r m', pg_unmap a m = Ok (r, set_ram m' m) /\ remapped (ram m) dir a 0 m' /\ word r /\
    frame_of r = match walk_dir (ram m) dir a with Some _ => PG_ALIGN | None => 0 end.
Proof.
  intros dir Hok Ha Hlt Hp. unfold pg_unmap.
  rewrite (bind_ok _ _ _ _ _ (get_page_run m Hok a Ha)). cbv zeta. fold dir.
  assert (Ew : walk_dir (ram m) dir a = let e := word_at (ram m) (frame_of (pde (ram m) dir (pd_idx a)) + 4 * (pt_idx a mod 1024)) in
    if present e then Some (frame_of e + a mod 4096) else None).
  { unfold walk_dir. rewrite (dir_frame_of _ _ Hok). fold (pde (ram m) dir (pd_idx a)). by rewrite Hp. }
  rewrite Ew, Hp. cbv zeta. set (e := word_at _ _). assert (He : word e) by apply word_at_word, Hok.
  destruct (present e) eqn:Hpe.
  - destruct (Z.eqb_spec e 0) as [E|_]; [by rewrite E in Hpe|]. cbn [negb].
    rewrite (bind_ok _ _ _ _ _ (st_pts m Hok a 0 Ha Hp)). do 2 eexists. split; [done|].
    split; [by apply entry_remapped|]. by apply lor_align_word.
  - exists 0, (ram m). split; [by destruct m|]. split; [|done]. split; try done.
    intros v' Hv' Hlt'. case_decide as E; [|done]. apply (walk_absent (ram m) dir a); [done|done|done|]. rewrite Ew. cbv zeta. fold e. by rewrite Hpe.
Qed.

(** What a transfer may do to the memory [m0]: data words only. *)
Record data_only (dir : Z) (m0 m : machine) : Prop := {
  do_words : words_ok (ram m);
  do_regs : Paging.cr3 m = Paging.cr3 m0 /\ m_pmm m = m_pmm m0;
  do_tables : forall q, table_word (ram m0) dir q -> ram m !! q = ram m0 !! q;
}.

