(* ===== verification/SpaceSpec.v ===== *)
(** * The address space of a program, seen from the kernel

    The kernel runs on a page directory of its own: the entry code of every
    interrupt loads [kern_pd] before any handler starts ([save_context]).  It
    reaches the pages of a program through the external slot of that
    directory.  [kept] is what the steps of these routines leave alone of the
    directory that is loaded; [beside] relates it to the directory of a
    program, which is another one: it has pages of its own for itself and for
    its user part and may share the tables of the kernel part. *)

From S2P Require Import Prelude Pmm Paging MmuSpec.

#[local] Open Scope Z_scope.

(** ** What a step leaves of the loaded directory *)

(** The two windows. *)
Definition tmp_page (v : Z) : Prop := v / 4096 = VM_TMP_MAP / 4096 \/ v / 4096 = VM_TMP2_MAP / 4096.

(** From [m] to [m'] the directory [dir] keeps its tables, every page but
    the two windows its translation, and every data word outside [D] its value. *)
Record kept (dir : Z) (D : Z -> Prop) (m m' : gmap Z Z) : Prop := {
  kp_ok : dir_ok m' dir;
  kp_pde : forall i, 0 <= i < 1024 -> i <> 1022 -> pde m' dir i = pde m dir i;
  kp_walk : forall v, word v -> pd_idx v < 1022 -> ~ tmp_page v -> walk_dir m' dir v = walk_dir m dir v;
  kp_data : forall q, ~ table_word m dir q -> ~ D q -> m' !! q = m !! q;
}.

Section kept.
Context (dir : Z) (D : Z -> Prop).

Lemma kept_words m m' q : kept dir D m m' -> table_word m' dir q -> table_word m dir q.
Proof. intros Hk. apply same_slots_words, Hk. Qed.

Lemma kept_weaken m m' : kept dir (fun _ => False) m m' -> kept dir D m m'.
Proof. intros K. split; [apply K|apply K|apply K|]. intros q Hq _. apply (kp_data _ _ _ _ K); [done|tauto]. Qed.

Lemma kept_trans m1 m2 m3 : kept dir D m1 m2 -> kept dir D m2 m3 -> kept dir D m1 m3.
Proof.
  intros K1 K2. split.
  - apply K2.
  - intros i Hi Hi2. by rewrite (kp_pde _ _ _ _ K2), (kp_pde _ _ _ _ K1).
  - intros v Hv Hlt Ht. by rewrite (kp_walk _ _ _ _ K2), (kp_walk _ _ _ _ K1).
  - intros q Hq HD. rewrite (kp_data _ _ _ _ K2), (kp_data _ _ _ _ K1); try done. intros Ht. apply Hq. by eapply kept_words.
Qed.

Lemma expd_walks m x v : dir_ok m dir -> word x -> word v -> pd_idx v < 1022 -> walk_dir (expd m dir x) dir v = walk_dir m dir v.
Proof.
  intros Hok Hx Hv Hlt. destruct (expd_base m dir x Hok Hx) as (_ & Hpde & _). destruct (slot_range v Hv) as (Hi & _).
  unfold walk_dir. rewrite (dir_frame_of _ _ Hok).
  fold (pde (expd m dir x) dir (pd_idx v)) (pde m dir (pd_idx v)). rewrite Hpde by lia.
  destruct (present (pde m dir (pd_idx v))) eqn:Hp; [|done].
  rewrite expd_other; [done|apply Hok| | |apply Z.mod_pos_bound; lia].
  - destruct (frame_of_range (pde m dir (pd_idx v))) as (b & ? & _); [apply word_at_word, Hok|eauto].
  - destruct (dir_rec _ _ Hok) as [Hrp Hrf]. intros E. assert (pd_idx v = 1023); [|lia].
    apply (dir_inj _ _ Hok); try done; lia.
Qed.

Lemma kept_expd m x : dir_ok m dir -> word x -> kept dir D m (expd m dir x).
Proof.
  intros Hok Hx. destruct (expd_base m dir x Hok Hx) as (Hb & Hpde & _). split.
  - split; [done|]. intros i j Hi Hj Hi2 Hj2. rewrite !Hpde by done. by apply (dir_inj _ _ Hok).
  - done.
  - intros v Hv Hlt _. by apply expd_walks.
  - intros q Hq _. unfold expd. rewrite lookup_insert_ne; [done|]. intros <-. apply Hq, (dir_table_word _ _ Hok). lia.
Qed.

Lemma kept_remap m v w m' : remapped m dir v w m' -> tmp_page v -> kept dir D m m'.
Proof.
  intros R Ht. split.
  - apply R.
  - intros i Hi _. by apply (re_pde _ _ _ _ _ R).
  - intros v' Hv' Hlt Ht'. rewrite (re_walk _ _ _ _ _ R), decide_False; [done| |done|done].
    intros E. apply Ht'. destruct Ht as [Ht|Ht]; [left|right]; congruence.
  - intros q Hq _. by apply R.
Qed.

End kept.

(** ** The part of a program *)

(** The words of the frame [f]. *)
Definition frame_words (f q : Z) : Prop := f <= 4 * q < f + 4096.

(** An address of a user program. *)
Definition user (v : Z) : Prop := word v /\ v < VM_USER_END.

Lemma user_idx v : user v -> word v /\ 0 <= pd_idx v < 768.
Proof.
  intros [Hv Hlt]. split; [done|]. destruct (slot_range v Hv) as (Hi & _ & Epd & Ept). rewrite Epd, Ept in *.
  unfold VM_USER_END in Hlt. Z.div_mod_to_equations. lia.
Qed.

Lemma user_not_tmp v : user v -> ~ tmp_page v.
Proof.
  intros Hu. destruct (user_idx v Hu) as (Hw & Hi). destruct (slot_range v Hw) as (_ & _ & Epd & Ept). rewrite Epd in Hi.
  unfold tmp_page, VM_TMP_MAP, VM_TMP2_MAP. intros [E|E]; Z.div_mod_to_equations; lia.
Qed.

(** The slots of a program's directory that are not shared with the kernel. *)
Definition own_slot (i : Z) : Prop := 0 <= i < 768 \/ i = 1023.

Definition own_word (m : gmap Z Z) (pd q : Z) : Prop :=
  exists i, own_slot i /\ present (pde m pd i) = true /\ frame_words (frame_of (pde m pd i)) q.

Lemma page_word f q : (0x1000 | f) -> frame_words f q <-> q / 1024 = f / 4096.
Proof. intros [c ->]. unfold frame_words. rewrite Z.div_mul by lia. Z.div_mod_to_equations. lia. Qed.

Lemma pde_page m dir i : words_ok m -> (0x1000 | frame_of (pde m dir i)).
Proof. intros Hw. destruct (frame_of_range (pde m dir i)) as (a & -> & _); [by apply word_at_word|]. exists a. lia. Qed.

(** The words of the directory are its own. *)
Lemma own_pde m pd i : dir_ok m pd -> 0 <= i < 1024 -> own_word m pd ((pd + 4 * i) / 4).
Proof.
  intros Hok Hi. exists 1023. destruct (dir_rec _ _ Hok) as [Hp Hf]. split; [by right|]. split; [done|].
  rewrite Hf. destruct (dir_frame _ _ Hok) as (a & -> & _). unfold frame_words. Z.div_mod_to_equations. lia.
Qed.

Lemma own_entry m pd i k : dir_ok m pd -> 0 <= i < 768 -> 0 <= k < 1024 -> present (pde m pd i) = true ->
  own_word m pd ((frame_of (pde m pd i) + 4 * k) / 4).
Proof.
  intros Hok Hi Hk Hp. exists i. split; [by left|]. split; [done|].
  destruct (pde_page m pd i (dir_words _ _ Hok)) as [c ->]. unfold frame_words. Z.div_mod_to_equations. lia.
Qed.

(** The directory in a memory with the same own words. *)
Section same_own.
Context (m m' : gmap Z Z) (dir pd : Z).
Hypotheses (Hf : foreign m dir pd) (Hd : dir_base m' dir) (Hm : forall q, own_word m pd q -> m' !! q = m !! q).

Lemma own_same_pde i : 0 <= i < 1024 -> pde m' pd i = pde m pd i.
Proof. intros Hi. unfold pde, word_at. rewrite Hm; [done|]. by apply own_pde; [apply Hf|]. Qed.

Lemma own_same_foreign : foreign m' dir pd.
Proof.
  pose proof (fo_pd _ _ _ Hf) as Hok. split; [done|split; [split|]|].
  - apply Hd.
  - apply Hok.
  - rewrite own_same_pde by lia. apply Hok.
  - intros i j Hi Hj Hi2 Hj2. rewrite !own_same_pde by done. by apply (dir_inj _ _ Hok).
  - intros i Hi. rewrite own_same_pde by done. by apply (fo_sep _ _ _ Hf).
Qed.

Lemma own_same_word q : own_word m' pd q <-> own_word m pd q.
Proof.
  assert (Hs : forall i, own_slot i -> pde m' pd i = pde m pd i) by (intros i Hi; apply own_same_pde; destruct Hi; lia).
  split; intros (i & Hi & Hp & Hq); exists i; [rewrite Hs in Hp, Hq by done|rewrite Hs by done]; done.
Qed.

Lemma own_same_walk u : user u -> walk_dir m' pd u = walk_dir m pd u.
Proof.
  intros Hu. destruct (user_idx u Hu) as (Hw & Hi). pose proof (fo_pd _ _ _ Hf) as Hok. unfold walk_dir.
  rewrite (dir_frame_of _ _ Hok). fold (pde m' pd (pd_idx u)) (pde m pd (pd_idx u)). rewrite own_same_pde by lia.
  destruct (present (pde m pd (pd_idx u))) eqn:Hp; [|done].
  unfold word_at at 1 2. rewrite Hm; [done|]. apply own_entry; done || (apply Z.mod_pos_bound; lia).
Qed.
End same_own.

(** ** Two directories *)

(** The directory [dir] is loaded, [ud] is that of a program. *)
Record beside (m : gmap Z Z) (dir ud : Z) : Prop := {
  bs_for : foreign m dir ud;
  bs_apart : forall q, own_word m ud q -> ~ table_word m dir q;
}.

(** From [m] to [m'] the program keeps its tables and its translations. *)
Record same_space (dir ud : Z) (m m' : gmap Z Z) : Prop := {
  ss_beside : beside m' dir ud;
  ss_walk : forall u, user u -> walk_dir m' ud u = walk_dir m ud u;
  ss_own : forall q, own_word m' ud q <-> own_word m ud q;
  ss_pde : forall i, 0 <= i < 1024 -> pde m' ud i = pde m ud i;
}.

Lemma same_space_trans dir ud m1 m2 m3 : same_space dir ud m1 m2 -> same_space dir ud m2 m3 -> same_space dir ud m1 m3.
Proof.
  intros S1 S2. split.
  - apply S2.
  - intros u Hu. by rewrite (ss_walk _ _ _ _ S2), (ss_walk _ _ _ _ S1).
  - intros q. by rewrite (ss_own _ _ _ _ S2), (ss_own _ _ _ _ S1).
  - intros i Hi. by rewrite (ss_pde _ _ _ _ S2), (ss_pde _ _ _ _ S1).
Qed.

Lemma same_space_refl dir ud m : beside m dir ud -> same_space dir ud m m.
Proof. by split. Qed.

Lemma beside_same m m' dir ud : beside m dir ud -> dir_base m' dir -> (forall q, table_word m' dir q -> table_word m dir q) ->
  (forall q, own_word m ud q -> m' !! q = m !! q) -> same_space dir ud m m'.
Proof.
  intros [Hf Ha] Hd Ht Hm. pose proof (own_same_word m m' dir ud Hf Hm) as Ho. split.
  - split; [by apply (own_same_foreign m)|]. intros q Hq%Ho Hq'%Ht. by apply (Ha q).
  - exact (own_same_walk m m' dir ud Hf Hm).
  - exact Ho.
  - exact (own_same_pde m m' dir ud Hf Hm).
Qed.

Lemma beside_kept D m m' dir ud : beside m dir ud -> kept dir D m m' -> (forall q, D q -> ~ own_word m ud q) -> same_space dir ud m m'.
Proof.
  intros B K HD. apply beside_same; [done|apply K| |].
  - intros q. by apply (kept_words dir D).
  - intros q Hq. apply (kp_data _ _ _ _ K); [by apply (bs_apart _ _ _ B)|]. intros Hd. by apply (HD q Hd).
Qed.

Lemma own_table m ud q : own_word m ud q -> table_word m ud q.
Proof. intros (i & Hi & Hp & Hq). exists i. unfold own_slot, frame_words in *. split_and!; done || lia. Qed.

(** The frames of the program's own tables are in use. *)
Definition space_used (p : pmm) (m : gmap Z Z) (ud : Z) : Prop :=
  forall i, own_slot i -> present (pde m ud i) = true -> frame_used p (frame_of (pde m ud i) / 4096) = true.

Lemma space_used_same p m m' dir ud : same_space dir ud m m' -> space_used p m ud -> space_used p m' ud.
Proof. intros S Hu i Hi. rewrite (ss_pde _ _ _ _ S) by (destruct Hi; lia). by apply Hu. Qed.

(** A free frame holds no word of them. *)
Lemma space_fresh p m dir ud i q : beside m dir ud -> space_used p m ud -> frame_used p i = false -> frame_words (i * 4096) q -> ~ own_word m ud q.
Proof.
  intros B Hu Hi Hq (k & Hk & Hp & Hq2). pose proof (dir_words _ _ (fo_dir _ _ _ (bs_for _ _ _ B))) as Hw.
  apply (page_word _ _ (pde_page _ _ _ Hw)) in Hq2. apply page_word in Hq; [|by exists i]. rewrite Z.div_mul in Hq by lia.
  pose proof (Hu k Hk Hp). congruence.
Qed.

(** The loaded directory shows the program's in its external slot. *)
Lemma space_shown m dir ud : beside m dir ud -> let m1 := expd m dir ud in word ud /\ foreign m1 dir ud /\
  present (pde m1 dir 1022) = true /\ frame_of (pde m1 dir 1022) = ud.
Proof.
  intros [Hf _] m1. pose proof (pd_word _ _ _ Hf) as Hw. destruct (expd_base m dir ud (fo_dir _ _ _ Hf) Hw) as (_ & _ & E1022).
  destruct (expd_entry ud Hw) as (_ & Hp & Hfr). split; [done|]. split; [by apply foreign_m1|].
  unfold m1. rewrite E1022, Hp, Hfr. split; [done|]. exact (dir_frame_of _ _ (fo_pd _ _ _ Hf)).
Qed.

(** What is found there for a page of the program. *)
Lemma space_entry (s : machine) ud v : let dir := frame_of (cr3 s) in beside (ram s) dir ud -> user v ->
  let s1 := set_ram (expd (ram s) dir ud) s in exists e, _get_expage v s1 = Ok (e, s1) /\ word e /\
  match walk_dir (ram s) ud v with
  | Some p => e <> 0 /\ p = frame_of e + v mod 4096
  | None => e = 0
  end.
Proof.
  intros dir B Hu s1. destruct (user_idx v Hu) as (Hv & Hi). destruct (space_shown _ _ _ B) as (Hw & Hf1 & Hslot).
  pose proof (get_expage_run s1 ud (fo_dir _ _ _ Hf1) (fo_pd _ _ _ Hf1) Hslot v Hv) as Hget.
  eexists. split; [exact Hget|]. rewrite <- (expd_walk (ram s) dir ud (bs_for _ _ _ B) ud v) by done.
  change (expd (ram s) dir ud) with (ram s1). unfold walk_dir. rewrite (dir_frame_of _ _ (fo_pd _ _ _ Hf1)).
  fold (pde (ram s1) ud (pd_idx v)). destruct (present (pde (ram s1) ud (pd_idx v))); [|done].
  set (e := word_at (ram s1) _). assert (He : word e) by apply word_at_word, (fo_dir _ _ _ Hf1). cbv zeta.
  destruct (present e) eqn:Hpe; [|done]. split; [done|]. split; [|done]. by intros ->.
Qed.

(** A lookup in the program's directory. *)
Lemma space_frame (s : machine) ud v : let dir := frame_of (cr3 s) in dir_ok (ram s) dir -> beside (ram s) dir ud -> user v ->
  exists e m, pg_get_frame_from ud v s = Ok (e, set_ram m s) /\ kept dir (fun _ => False) (ram s) m /\ word e /\
  match walk_dir (ram s) ud v with Some p => e <> 0 /\ p = frame_of e + v mod 4096 | None => e = 0 end.
Proof.
  intros dir Hok B Hu. destruct (space_entry s ud v B Hu) as (e & E & He & Hw). fold dir in E.
  destruct (space_shown _ _ _ B) as (Hud & _). pose proof (kept_expd dir (fun _ => False) (ram s) ud Hok Hud) as K1.
  set (m1 := expd (ram s) dir ud) in *.
  assert (Hold : word (pde (ram s) dir 1022)) by apply word_at_word, Hok. pose proof (kp_ok _ _ _ _ K1) as Hok1.
  exists e, (expd m1 dir (pde (ram s) dir 1022)). split; [|split; [|done]].
  - unfold pg_get_frame_from. rewrite (bind_ok _ _ _ _ _ (set_expd_run s ud Hok)). fold dir m1.
    rewrite (bind_ok _ _ _ _ _ E). by rewrite (bind_ok _ _ _ _ _ (set_expd_run (set_ram m1 s) _ Hok1)).
  - exact (kept_trans _ _ _ _ _ K1 (kept_expd dir _ m1 _ Hok1 Hold)).
Qed.

(** ** Deciding it for concrete directories *)

Definition beside_b (m : gmap Z Z) (dir ud : Z) : bool := foreign_b m dir ud &&
  forallb (fun i => forallb (fun j => negb (frame_of (pde m ud i) =? frame_of (pde m dir j)))
    (filter (fun j => j <> 1022) (present_slots m dir))) (filter (fun i => i < 768 \/ i = 1023) (present_slots m ud)).

Lemma beside_check m dir ud : beside_b m dir ud = true -> beside m dir ud.
Proof.
  unfold beside_b. rewrite andb_true_iff. intros [Hf%foreign_check Hall]. split; [done|].
  intros q (i & Hi & Hp & Hq) (j & Hj & Hj2 & Hpj & Hqj). pose proof (dir_words _ _ (fo_dir _ _ _ Hf)) as Hw.
  rewrite forallb_forall in Hall. specialize (Hall i). rewrite <- list_elem_of_In, list_elem_of_filter in Hall.
  assert (Hi1 : 0 <= i < 1024 /\ (i < 768 \/ i = 1023)) by (unfold own_slot in Hi; lia). destruct Hi1 as [Hi1 Hi3].
  specialize (Hall (conj Hi3 (present_slots_in m ud i Hi1 Hp))).
  rewrite forallb_forall in Hall. specialize (Hall j). rewrite <- list_elem_of_In, list_elem_of_filter in Hall.
  specialize (Hall (conj Hj2 (present_slots_in m dir j Hj Hpj))). rewrite negb_true_iff, Z.eqb_neq in Hall.
  apply (page_word _ _ (pde_page _ _ _ Hw)) in Hq, Hqj. apply Hall.
  destruct (pde_page m ud i Hw) as [x Hx], (pde_page m dir j Hw) as [y Hy]. rewrite Hx, Hy, !Z.div_mul in * by lia. congruence.
Qed.
