(* ===== verification/DupSpec.v ===== *)
(** * Duplicating a page

    [fork] copies the running program page by page: [pg_duplicate_page]
    shows the page and a new frame through the two temporary windows of the
    kernel and copies one to the other.  The page is looked up in the
    directory it is given, which is not the one that is loaded. *)

From S2P Require Import Prelude Pmm Paging MmuSpec SpaceSpec.

#[local] Open Scope Z_scope.

Lemma tmp_range a j : a = VM_TMP_MAP \/ a = VM_TMP2_MAP -> 0 <= j < 4096 ->
  word (a + j) /\ pd_idx (a + j) = 1021 /\ (a + j) / 4096 = a / 4096 /\ (a + j) mod 4096 = j /\ tmp_page (a + j).
Proof.
  intros Ha Hj. assert (Hw : word (a + j)) by (unfold VM_TMP_MAP, VM_TMP2_MAP in Ha; unfold word; lia).
  destruct (slot_range _ Hw) as (_ & _ & -> & ->). unfold tmp_page. unfold VM_TMP_MAP, VM_TMP2_MAP in *.
  split_and!; [done| | | |]; Z.div_mod_to_equations; lia.
Qed.

(** The windows of the running directory. *)
Section windows.
Context (s : machine).
Let dir := frame_of (cr3 s).
Implicit Types (m : gmap Z Z).

Definition shows m (a f : Z) : Prop := forall j, 0 <= j < 4096 -> walk_dir m dir (a + j) = Some (f + j).

(** The directory is sound and has the table of the windows. *)
Definition dir_win m : Prop := dir_ok m dir /\ present (pde m dir 1021) = true.

Lemma kept_win D m m' : kept dir D m m' -> dir_win m -> dir_win m'.
Proof. intros Hk [Hok Hp]. split; [apply Hk|]. by rewrite (kp_pde _ _ _ _ Hk) by lia. Qed.

Lemma win_unmap D m a : dir_win m -> a = VM_TMP_MAP \/ a = VM_TMP2_MAP -> exists r m',
  pg_unmap a (set_ram m s) = Ok (r, set_ram m' s) /\ kept dir D m m' /\ word r /\
  frame_of r = match walk_dir m dir a with Some _ => PG_ALIGN | None => 0 end /\
  forall b f, b <> a -> b = VM_TMP_MAP \/ b = VM_TMP2_MAP -> shows m b f -> shows m' b f.
Proof.
  intros [Hok Hp] Ha. destruct (tmp_range a 0 Ha ltac:(lia)) as (Hw & Hpd & _ & _ & Ht). rewrite Z.add_0_r in *.
  destruct (pg_unmap_remaps (set_ram m s) a Hok Hw ltac:(lia)) as (r & m' & E & R & Hr & Hf); [by rewrite Hpd|].
  exists r, m'. split_and!; try done; [by eapply kept_remap|]. intros b f Hne Hb Hs j Hj.
  destruct (tmp_range b j Hb Hj) as (Hw' & Hpd' & Hpg & _). rewrite (re_walk _ _ _ _ _ R) by (done || lia).
  rewrite decide_False; [by apply Hs|]. rewrite Hpg. intros Epg. apply Hne.
  destruct Ha as [-> | ->], Hb as [-> | ->]; done.
Qed.

Lemma win_map D m a p : dir_win m -> a = VM_TMP_MAP \/ a = VM_TMP2_MAP -> word p -> exists m',
  pg_map p a PG_KERN_PAGE_FLAG (set_ram m s) = Ok (tt, set_ram m' s) /\ kept dir D m m' /\ shows m' a (frame_of p) /\
  forall b f, b <> a -> b = VM_TMP_MAP \/ b = VM_TMP2_MAP -> shows m b f -> shows m' b f.
Proof.
  intros [Hok Hp] Ha Hpw. destruct (tmp_range a 0 Ha ltac:(lia)) as (Hw & Hpd & _ & _ & Ht). rewrite Z.add_0_r in *.
  destruct (pg_map_remaps (set_ram m s) p a PG_KERN_PAGE_FLAG Hok Hw ltac:(lia)) as (m' & w & E & Em & R & Hf & Hpr); try done; [by rewrite Hpd|].
  exists (ram m'). split; [by rewrite E, Em|]. split; [by eapply kept_remap|]. split.
  - intros j Hj. destruct (tmp_range a j Ha Hj) as (Hw' & Hpd' & Hpg & Hmod & _).
    rewrite (re_walk _ _ _ _ _ R), decide_True, Hpr, Hf, Hmod by (done || lia). done.
  - intros b f Hne Hb Hs j Hj. destruct (tmp_range b j Hb Hj) as (Hw' & Hpd' & Hpg & _).
    rewrite (re_walk _ _ _ _ _ R) by (done || lia). rewrite decide_False; [by apply Hs|]. rewrite Hpg. intros Epg. apply Hne.
    destruct Ha as [-> | ->], Hb as [-> | ->]; done.
Qed.

(** The loop copies the page behind the first window to the one behind the second. *)
Section copy_page.
Context (D : Z -> Prop) (m : gmap Z Z) (f g : Z) (n : nat).
Hypotheses (Hwin : dir_win m) (Hf : shows m VM_TMP_MAP f) (Hg : shows m VM_TMP2_MAP g)
  (Hfa : (0x1000 | f)) (Hga : (0x1000 | g)) (Hne : f <> g) (Hn : Z.of_nat n = 4096)
  (HD : forall j, 0 <= j < 4096 -> ~ table_word m dir ((g + j) / 4) /\ D ((g + j) / 4)).

Lemma tmp_add x i : x = VM_TMP_MAP \/ x = VM_TMP2_MAP -> 0 <= i < 4096 -> x +w i = x + i.
Proof. intros Hx Hi. destruct (tmp_range x i Hx Hi) as [Hw' _]. by apply w32_id. Qed.

Lemma win_walk v : walk_dir m (cr3 s) v = walk_dir m dir v.
Proof. apply (walk_cr3 (set_ram m s)), Hwin. Qed.

Lemma windows_separate : separate (set_ram m s) VM_TMP_MAP VM_TMP2_MAP 4096 (fun i => f + i) (fun i => g + i).
Proof.
  split; cbn [ram set_ram Paging.cr3].
  - intros i Hi. rewrite win_walk, tmp_add by tauto. by apply Hf.
  - intros i Hi. rewrite win_walk, tmp_add by tauto. by apply Hg.
  - intros i j _ _ E. lia.
  - intros i j Hi Hj. destruct Hfa as [a ->], Hga as [b ->]. Z.div_mod_to_equations. lia.
  - intros i j Hi Hj. destruct (HD i Hi) as [Ht _]. rewrite !tmp_add by tauto.
    destruct (tmp_range VM_TMP_MAP j (or_introl eq_refl) Hj) as (Hw1 & Hp1 & _).
    destruct (tmp_range VM_TMP2_MAP j (or_intror eq_refl) Hj) as (Hw2 & Hp2 & _).
    destruct Hwin as [Hok _].
    split; intros Hq; apply Ht.
    + exact (walk_words_table m dir Hok (cr3 s) _ _ _ eq_refl Hw1 ltac:(lia) (Hf j Hj) Hq).
    + exact (walk_words_table m dir Hok (cr3 s) _ _ _ eq_refl Hw2 ltac:(lia) (Hg j Hj) Hq).
Qed.

Lemma copy_page_run : exists m',
  for_ n 0 (fun i => do b <- ld8 (VM_TMP_MAP + i); st8 (VM_TMP2_MAP + i) b) (set_ram m s) = Ok (tt, set_ram m' s) /\
  kept dir D m m' /\ (forall b x, b = VM_TMP_MAP \/ b = VM_TMP2_MAP -> shows m b x -> shows m' b x) /\
  (forall j, 0 <= j < 4096 -> phys_byte m' (g + j) = phys_byte m (f + j)) /\
  forall q, (forall j, 0 <= j < 4096 -> g + j <> q) -> phys_byte m' q = phys_byte m q.
Proof.
  destruct (wp_run (for_ n 0 (fun i => do b <- ld8 (VM_TMP_MAP + i); st8 (VM_TMP2_MAP + i) b))
    (fun _ c => copied (set_ram m s) (fun i => f + i) (fun i => g + i) 4096 c) (set_ram m s)) as ([] & c & E & Hc).
  { eapply wp_mono; [apply (wp_for _ (fun i c => copied (set_ram m s) (fun i => f + i) (fun i => g + i) i c))|].
    - intros i c Hi Hc. rewrite Hn in Hi.
      destruct (copy_byte _ _ _ _ _ _ windows_separate i c Hc ltac:(lia)) as (c' & E1 & E2 & Hc').
      rewrite !tmp_add in E1, E2 by (tauto || lia). apply wp_bind. eapply wp_intro; [exact E1|].
      eapply wp_intro; [exact E2|exact Hc'].
    - split; try done. intros i Hi. lia.
    - intros [] c. cbv beta. by rewrite Hn. }
  assert (Ec : c = set_ram (ram c) s).
  { pose proof (cp_pmm _ _ _ _ _ Hc) as E1. pose proof (cp_cr3 _ _ _ _ _ Hc) as E2. destruct c as [a b r]. cbn in E1, E2 |- *. by rewrite E1, E2. }
  destruct Hwin as [Hok Hp]. pose proof (cp_words _ _ _ _ _ Hc (dir_words _ _ Hok)) as Hw.
  assert (Htab : forall q, table_word m dir q -> ram c !! q = m !! q).
  { intros q Hq. apply (cp_rest _ _ _ _ _ Hc). intros i Hi <-. by apply (HD i Hi). }
  exists (ram c). split; [by rewrite <- Ec|]. split; [split|split; [|split]].
  - by apply (tables_ok m).
  - intros i Hi _. by apply (tables_pde m dir Hok).
  - intros v Hv Hlt _. by apply (tables_walk m dir Hok).
  - intros q Hq HDq. apply (cp_rest _ _ _ _ _ Hc). intros i Hi <-. by apply HDq, (HD i Hi).
  - intros b x Hb Hs j Hj. destruct (tmp_range b j Hb Hj) as (Hv & Hpd & _).
    rewrite (tables_walk m dir Hok (ram c) Htab (b + j) Hv ltac:(lia)). by apply Hs.
  - apply Hc.
  - intros q Hq. apply (cp_other _ _ _ _ _ Hc q Hq).
Qed.
End copy_page.

(** What [pg_unmap] answers, as a frame, for the window [a]. *)
Definition left_behind m (a : Z) : Z := match walk_dir m dir a with Some _ => PG_ALIGN | None => 0 end.

Ltac both_windows := first [by left|by right|by unfold VM_TMP_MAP, VM_TMP2_MAP].

(** Both windows are unmapped, then mapped to other frames. *)
Lemma windows_switch D m p q : dir_win m -> word p -> word q -> exists r1 r2 m1 m2 m3 m4,
  pg_unmap VM_TMP_MAP (set_ram m s) = Ok (r1, set_ram m1 s) /\ pg_unmap VM_TMP2_MAP (set_ram m1 s) = Ok (r2, set_ram m2 s) /\
  pg_map p VM_TMP_MAP PG_KERN_PAGE_FLAG (set_ram m2 s) = Ok (tt, set_ram m3 s) /\
  pg_map q VM_TMP2_MAP PG_KERN_PAGE_FLAG (set_ram m3 s) = Ok (tt, set_ram m4 s) /\
  kept dir D m m4 /\ shows m4 VM_TMP_MAP (frame_of p) /\ shows m4 VM_TMP2_MAP (frame_of q) /\
  word r1 /\ word r2 /\ frame_of r1 = left_behind m VM_TMP_MAP.
Proof.
  intros Hw Hp Hq.
  destruct (win_unmap D m VM_TMP_MAP Hw ltac:(both_windows)) as (r1 & m1 & E1 & K1 & Hr1 & Hf1 & _).
  pose proof (kept_win _ _ _ K1 Hw) as W1.
  destruct (win_unmap D m1 VM_TMP2_MAP W1 ltac:(both_windows)) as (r2 & m2 & E2 & K2 & Hr2 & _ & _).
  pose proof (kept_win _ _ _ K2 W1) as W2.
  destruct (win_map D m2 VM_TMP_MAP p W2 ltac:(both_windows) Hp) as (m3 & E3 & K3 & S3 & _).
  pose proof (kept_win _ _ _ K3 W2) as W3.
  destruct (win_map D m3 VM_TMP2_MAP q W3 ltac:(both_windows) Hq) as (m4 & E4 & K4 & S4 & O4).
  exists r1, r2, m1, m2, m3, m4. split_and!; try done.
  - exact (kept_trans _ _ _ _ _ K1 (kept_trans _ _ _ _ _ K2 (kept_trans _ _ _ _ _ K3 K4))).
  - by apply O4; [|left|].
Qed.
End windows.

Lemma walk_frame m dir v p : words_ok m -> walk_dir m dir v = Some p -> exists c, p = c * 4096 + v mod 4096.
Proof.
  intros Hw. unfold walk_dir. destruct (present _); [|done]. destruct (present _); [|done]. intros [= <-].
  destruct (frame_of_range (word_at m (frame_of (word_at m (frame_of dir + 4 * pd_idx v)) + 4 * (pt_idx v mod 1024)))) as (c & -> & _);
    [by apply word_at_word|]. exists c. lia.
Qed.

(** ** The routine *)

(** The frame at [f] and the tables of [dir] are in use. *)
Definition in_use (p : pmm) (m : gmap Z Z) (dir f : Z) : Prop := frame_used p (f / 4096) = true /\
  forall i, 0 <= i < 1024 -> i <> 1022 -> present (pde m dir i) = true -> frame_used p (frame_of (pde m dir i) / 4096) = true.

(** A frame the allocator hands out is no table and not the frame [f]. *)
Lemma fresh_frame p m dir f i p' : dir_ok m dir -> in_use p m dir f -> got_frame p i p' ->
  i * FRAME_SIZE <> f /\ forall j, 0 <= j < 4096 -> ~ table_word m dir ((i * FRAME_SIZE + j) / 4).
Proof.
  intros Hok [Hf Ht] (_ & Hi & _). unfold FRAME_SIZE, PAGE_SIZE. split.
  - intros <-. rewrite Z.div_mul in Hf by lia. congruence.
  - intros j Hj (k & Hk & Hk2 & Hp & Hq). specialize (Ht k Hk Hk2 Hp).
    destruct (frame_of_range (pde m dir k)) as (a & Ea & _); [apply word_at_word, Hok|]. rewrite Ea in *.
    assert (a = i) as -> by (Z.div_mod_to_equations; lia). rewrite Z.mul_comm, Z.div_mul in Ht by lia. congruence.
Qed.

Lemma in_use_kept p m m' dir D f : kept dir D m m' -> in_use p m dir f -> in_use p m' dir f.
Proof. intros Hk [Hf Ht]. split; [done|]. intros i Hi Hi2. rewrite (kp_pde _ _ _ _ Hk) by done. by apply Ht. Qed.

Section duplicate.
Context (s : machine) (ud v : Z).
Let dir := frame_of (cr3 s).
Hypotheses (Hwin : dir_win s (ram s)) (Hspace : beside (ram s) dir ud) (Hv : user v).

(** A page that is not there is answered with 0. *)
Lemma duplicate_absent : walk_dir (ram s) ud v = None -> exists m,
  pg_duplicate_page ud v s = Ok (0, set_ram m s) /\ kept dir (fun _ => False) (ram s) m.
Proof.
  intros Hwalk. destruct (space_entry s ud v Hspace Hv) as (e & Eget & _ & Hent). rewrite Hwalk in Hent. subst e.
  destruct (space_shown _ _ _ Hspace) as (Hudw & _).
  destruct Hwin as [Hok _]. pose proof (kept_expd dir (fun _ => False) (ram s) ud Hok Hudw) as K1.
  assert (Hold : word (pde (ram s) dir 1022)) by apply word_at_word, Hok. fold dir in Eget.
  set (m1 := expd (ram s) dir ud) in *. pose proof (kp_ok _ _ _ _ K1) as Hok1.
  exists (expd m1 dir (pde (ram s) dir 1022)).
  split; [|exact (kept_trans _ _ _ _ _ K1 (kept_expd dir _ m1 _ Hok1 Hold))].
  unfold pg_duplicate_page. rewrite (bind_ok _ _ _ _ _ (set_expd_run s ud Hok)). fold dir. fold m1.
  rewrite (bind_ok _ _ _ _ _ Eget). cbn [Z.eqb].
  by rewrite (bind_ok _ _ _ _ _ (set_expd_run (set_ram m1 s) _ Hok1)).
Qed.

Context (f : Z).
Hypotheses (Hpg : (0x1000 | f)) (Hmem : inv (m_pmm s)) (Hfree : 0 < free_frames (m_pmm s)) (Huse : in_use (m_pmm s) (ram s) dir f)
  (Hdata : forall q, frame_words f q -> ~ table_word (ram s) dir q).

(** The bytes of a data frame that no step writes. *)
Lemma kept_bytes D m m' g j : kept dir D m m' -> (0x1000 | g) -> (forall q, frame_words g q -> ~ table_word m dir q) ->
  (forall q, frame_words g q -> ~ D q) -> 0 <= j < 4096 -> phys_byte m' (g + j) = phys_byte m (g + j).
Proof.
  intros K [c ->] Ht HD Hj. assert (frame_words (c * 4096) ((c * 4096 + j) / 4)) by (unfold frame_words; Z.div_mod_to_equations; lia).
  apply phys_byte_ext, K; auto.
Qed.

(** The new frame and everything the copy needs of it. *)
Lemma new_frame : exists i p', let fr := i * FRAME_SIZE in
  pmm_get_frame (m_pmm s) = Ok (fr, p') /\ got_frame (m_pmm s) i p' /\ (0x1000 | fr) /\ word fr /\ fr <> f /\
  (forall q, frame_words fr q -> ~ table_word (ram s) dir q) /\ forall q, frame_words f q -> ~ frame_words fr q.
Proof.
  destruct (wp_run _ _ _ (get_frame_wp _ Hmem Hfree)) as (r & p' & E & i & -> & Hg). exists i, p'. cbv zeta.
  destruct (fresh_frame _ _ _ _ _ _ (proj1 Hwin) Huse Hg) as [Hne Hnt]. pose proof (inv_total _ Hmem) as Htot.
  pose proof (inv_kernel _ Hmem). destruct Hg as (Hi & Hg). unfold FRAME_SIZE, PAGE_SIZE in *. split_and!; try done.
  - by exists i.
  - unfold word. lia.
  - intros q Hq Ht. unfold frame_words in Hq. apply (Hnt (4 * q - i * 4096) ltac:(lia)).
    by replace ((i * 4096 + (4 * q - i * 4096)) / 4) with q by (Z.div_mod_to_equations; lia).
  - intros q Hq Hq'. destruct Hpg as [c ->]. unfold frame_words in *. apply Hne. Z.div_mod_to_equations. lia.
Qed.

(** The routine, one equation for each of its steps. *)
Lemma dup_exec e fr p' r1 r2 o1 o2 ma mb mc m2 m3 mf mg mh m4 :
  let m1 := expd (ram s) dir ud in let s2 := set_m_pmm p' s in
  _get_expage v (set_ram m1 s) = Ok (e, set_ram m1 s) -> e <> 0 -> pmm_get_frame (m_pmm s) = Ok (fr, p') ->
  pg_unmap VM_TMP_MAP (set_ram m1 s2) = Ok (r1, set_ram ma s2) -> pg_unmap VM_TMP2_MAP (set_ram ma s2) = Ok (r2, set_ram mb s2) ->
  pg_map e VM_TMP_MAP PG_KERN_PAGE_FLAG (set_ram mb s2) = Ok (tt, set_ram mc s2) ->
  pg_map fr VM_TMP2_MAP PG_KERN_PAGE_FLAG (set_ram mc s2) = Ok (tt, set_ram m2 s2) ->
  for_ (Z.to_nat PAGE_SIZE) 0 (fun i => do b <- ld8 (VM_TMP_MAP + i); st8 (VM_TMP2_MAP + i) b) (set_ram m2 s2) = Ok (tt, set_ram m3 s2) ->
  pg_unmap VM_TMP_MAP (set_ram m3 s2) = Ok (o1, set_ram mf s2) -> pg_unmap VM_TMP2_MAP (set_ram mf s2) = Ok (o2, set_ram mg s2) ->
  pg_map r1 VM_TMP_MAP PG_KERN_PAGE_FLAG (set_ram mg s2) = Ok (tt, set_ram mh s2) ->
  pg_map r2 VM_TMP2_MAP PG_KERN_PAGE_FLAG (set_ram mh s2) = Ok (tt, set_ram m4 s2) -> dir_ok m4 dir ->
  pg_duplicate_page ud v s = Ok (fr, set_ram (expd m4 dir (pde (ram s) dir 1022)) s2).
Proof.
  intros m1 s2 Eget He0 Epmm E1 E2 E3 E4 E5 E6 E7 E8 E9 Hok4.
  unfold pg_duplicate_page. rewrite (bind_ok _ _ _ _ _ (set_expd_run s ud (proj1 Hwin))). fold dir. fold m1.
  rewrite (bind_ok _ _ _ _ _ Eget), (proj2 (Z.eqb_neq e 0) He0).
  rewrite (bind_ok _ _ _ fr (set_ram m1 s2)) by (unfold with_pmm, zoom; cbn [m_pmm set_ram]; by rewrite Epmm).
  rewrite (bind_ok _ _ _ _ _ E1), (bind_ok _ _ _ _ _ E2), (bind_ok _ _ _ _ _ E3), (bind_ok _ _ _ _ _ E4), (bind_ok _ _ _ _ _ E5).
  rewrite (bind_ok _ _ _ tt (set_ram mf s2)) by by rewrite (bind_ok _ _ _ _ _ E6).
  rewrite (bind_ok _ _ _ tt (set_ram mg s2)) by by rewrite (bind_ok _ _ _ _ _ E7).
  rewrite (bind_ok _ _ _ _ _ E8), (bind_ok _ _ _ _ _ E9).
  by rewrite (bind_ok _ _ _ _ _ (set_expd_run (set_ram m4 s2) _ Hok4)).
Qed.

Lemma duplicate_run : walk_dir (ram s) ud v = Some (f + v mod 4096) -> exists fr s',
  pg_duplicate_page ud v s = Ok (fr, s') /\ (0x1000 | fr) /\ got_frame (m_pmm s) (fr / 4096) (m_pmm s') /\ cr3 s' = cr3 s /\
  kept dir (frame_words fr) (ram s) (ram s') /\
  (forall j, 0 <= j < 4096 -> phys_byte (ram s') (fr + j) = phys_byte (ram s) (f + j)) /\
  shows s (ram s') VM_TMP_MAP (left_behind s (ram s) VM_TMP_MAP).
Proof.
  intros Hwalk. destruct Hwin as [Hok Hp1021]. destruct (space_shown _ _ _ Hspace) as (Hudw & _).
  destruct (space_entry s ud v Hspace Hv) as (e & Eget & He & Hent). rewrite Hwalk in Hent. fold dir in Eget. destruct Hent as [He0 Hfe].
  assert (Ef : frame_of e = f) by lia. clear Hfe.
  destruct new_frame as (i & p' & Epmm & Hgot & Hfrp & Hfrw & Hne & Hfrt & Hdisj). set (fr := i * FRAME_SIZE) in *.
  set (D := frame_words fr). set (m1 := expd (ram s) dir ud) in *. set (s2 := set_m_pmm p' s).
  pose proof (kept_expd dir D (ram s) ud Hok Hudw) as K1. fold m1 in K1.
  assert (W1 : dir_win s2 m1) by (apply (kept_win s2 D (ram s)); done).
  destruct (windows_switch s2 D m1 e fr W1 He Hfrw)
    as (r1 & r2 & ma & mb & mc & m2 & E1 & E2 & E3 & E4 & K2 & S1 & S2 & Hr1 & Hr2 & Hl). rewrite Ef in S1.
  rewrite (frame_of_page fr Hfrw Hfrp) in S2. pose proof (kept_win s2 D _ _ K2 W1) as W2.
  pose proof (kept_trans _ _ _ _ _ K1 K2) as K12.
  destruct (copy_page_run s2 D m2 f fr (Z.to_nat PAGE_SIZE) W2 S1 S2 Hpg Hfrp (not_eq_sym Hne) (Z2Nat.id PAGE_SIZE ltac:(done)))
    as (m3 & E5 & K3 & O3 & B3 & _).
  { intros j Hj. assert (Hq : frame_words fr ((fr + j) / 4))
      by (destruct Hfrp as [c E]; rewrite E; unfold frame_words; Z.div_mod_to_equations; lia).
    split; [|exact Hq]. intros Ht. apply (Hfrt _ Hq). eapply kept_words; [exact K12|exact Ht]. }
  destruct (windows_switch s2 (fun _ => False) m3 r1 r2 (kept_win s2 D _ _ K3 W2) Hr1 Hr2)
    as (o1 & o2 & mf & mg & mh & m4 & E6 & E7 & E8 & E9 & K4 & S4 & _).
  pose proof (kept_trans _ _ _ _ _ K12 K3) as K13. pose proof (kp_ok _ _ _ _ K4) as Hok4.
  assert (Hold : word (pde (ram s) dir 1022)) by apply word_at_word, Hok.
  set (m5 := expd m4 dir (pde (ram s) dir 1022)).
  pose proof (kept_trans _ _ _ _ _ K4 (kept_expd dir (fun _ => False) m4 _ Hok4 Hold)) as K35. fold m5 in K35.
  exists fr, (set_ram m5 s2). split_and!.
  - exact (dup_exec e fr p' r1 r2 o1 o2 ma mb mc m2 m3 mf mg mh m4 Eget He0 Epmm E1 E2 E3 E4 E5 E6 E7 E8 E9 Hok4).
  - exact Hfrp.
  - unfold fr, FRAME_SIZE, PAGE_SIZE. rewrite Z.div_mul by lia. exact Hgot.
  - reflexivity.
  - exact (kept_trans _ _ _ _ _ K13 (kept_weaken _ _ _ _ K35)).
  - intros j Hj. cbn [ram set_ram]. rewrite (kept_bytes (fun _ => False) m3 m5 fr j K35 Hfrp) by (done || (intros q Hq Ht; by apply (Hfrt q Hq), (kept_words _ _ _ _ _ K13))).
    rewrite B3 by done. exact (kept_bytes D (ram s) m2 f j K12 Hpg Hdata Hdisj Hj).
  - intros j Hj. rewrite Hl in S4. destruct (tmp_range VM_TMP_MAP j (or_introl eq_refl) Hj) as (Hw & Hpd & _).
    pose proof (S4 j Hj) as E. change (frame_of (cr3 s2)) with dir in E. unfold m5. cbn [ram set_ram].
    change (frame_of (cr3 s)) with dir. rewrite (expd_walks dir) by (done || lia). rewrite E. unfold left_behind.
    change (frame_of (cr3 s2)) with dir. unfold m1. by rewrite (expd_walks dir).
Qed.
End duplicate.

(** ** Properties *)

(** C24: [pg_duplicate_page] of a page of a program, while the kernel's own
    directory is loaded, answers a frame that was free, with the same 4096
    bytes; the program keeps its tables, its translations and its bytes, and
    so does the kernel but for the two temporary windows.  A page that is not
    there in the program's directory is answered with 0, and then nothing but
    the kernel's external slot and temporary windows may have changed.
    The window is not given back: it is left on frame 0, or on the last frame
    of the address space if it was in use, since what [pg_unmap] answers is
    no frame. *)
Theorem pg_duplicate_page_copies s ud v :
  let dir := frame_of (cr3 s) in
  dir_win s (ram s) -> beside (ram s) dir ud -> user v ->
  match walk_dir (ram s) ud v with
  | None => exists m, pg_duplicate_page ud v s = Ok (0, set_ram m s) /\ kept dir (fun _ => False) (ram s) m /\ same_space dir ud (ram s) m
  | Some p =>
      let f := p - v mod 4096 in
      inv (m_pmm s) -> 0 < free_frames (m_pmm s) -> in_use (m_pmm s) (ram s) dir f -> space_used (m_pmm s) (ram s) ud ->
      (forall q, frame_words f q -> ~ table_word (ram s) dir q) ->
      exists fr s', pg_duplicate_page ud v s = Ok (fr, s') /\ (0x1000 | fr) /\ got_frame (m_pmm s) (fr / 4096) (m_pmm s') /\ cr3 s' = cr3 s /\
        kept dir (frame_words fr) (ram s) (ram s') /\ same_space dir ud (ram s) (ram s') /\
        (forall j, 0 <= j < 4096 -> phys_byte (ram s') (fr + j) = phys_byte (ram s) (f + j)) /\
        shows s (ram s') VM_TMP_MAP (left_behind s (ram s) VM_TMP_MAP)
  end.
Proof.
  intros dir Hwin Hb Hv. destruct (walk_dir (ram s) ud v) as [p|] eqn:Hwalk.
  - intros f Hmem Hfree Huse Hsp Hdata. destruct (walk_frame (ram s) ud v p (dir_words _ _ (proj1 Hwin)) Hwalk) as (c & ->).
    assert (Ef : f = c * 4096) by (unfold f; lia).
    destruct (duplicate_run s ud v Hwin Hb Hv f) as (fr & s' & E & Ha & Hg & Hc & K & Hby & Hsh); try done; [by exists c|by rewrite Ef|].
    exists fr, s'. split_and!; try done. apply (beside_kept _ _ _ _ _ Hb K). intros q Hq.
    destruct Ha as [i ->]. rewrite Z.div_mul in Hg by lia. eapply space_fresh; [exact Hb|exact Hsp|apply Hg|exact Hq].
  - destruct (duplicate_absent s ud v Hwin Hb Hv Hwalk) as (m & E & K). exists m. split; [done|]. split; [done|].
    by apply (beside_kept _ _ _ _ _ Hb K).
Qed.

(** The kernel's directory in frame 6, with its table in frame 7 and the
    table of the windows in frame 4; a program whose directory is in frame 1,
    with one page at 0x7000, in frame 5; the frames below 10 are in use. *)
Definition dup_machine : machine := mkMachine pmm_64 0x6000 (list_to_map
  [(1024, 0x2007); (1024 + 768, 0x7003); (1024 + 1023, 0x1003); (2 * 1024 + 7, 0x5007); (5 * 1024 + 2, 0x44434241);
   (6 * 1024 + 768, 0x7003); (6 * 1024 + 1021, 0x4003); (6 * 1024 + 1023, 0x6003)]).

Lemma dup_win : dir_win dup_machine (ram dup_machine).
Proof. split; [apply dir_ok_check; vm_compute; reflexivity|reflexivity]. Qed.

Lemma dup_beside : beside (ram dup_machine) 0x6000 0x1000.
Proof. apply beside_check. vm_compute. reflexivity. Qed.

Lemma slots_used p m dir : Forall (fun i => frame_used p (frame_of (pde m dir i) / 4096) = true) (present_slots m dir) ->
  forall i, 0 <= i < 1024 -> present (pde m dir i) = true -> frame_used p (frame_of (pde m dir i) / 4096) = true.
Proof. intros Hall i Hi Hp. rewrite Forall_forall in Hall. by apply Hall, present_slots_in. Qed.

Lemma dup_in_use : in_use (m_pmm dup_machine) (ram dup_machine) 0x6000 0x5000 /\ space_used (m_pmm dup_machine) (ram dup_machine) 0x1000.
Proof.
  split; [split|].
  - vm_compute. reflexivity.
  - intros i Hi _ Hp. apply slots_used; [|done|done]. apply (bool_decide_unpack _). vm_compute. exact I.
  - intros i Hi Hp. apply slots_used; [|destruct Hi; lia|done]. apply (bool_decide_unpack _). vm_compute. exact I.
Qed.

Lemma dup_walk : walk_dir (ram dup_machine) 0x1000 0x7123 = Some 0x5123.
Proof. vm_compute. reflexivity. Qed.

Lemma dup_walk_absent : walk_dir (ram dup_machine) 0x1000 0x8000 = None.
Proof. vm_compute. reflexivity. Qed.

Lemma pg_duplicate_page_copies_witness : exists fr s', pg_duplicate_page 0x1000 0x7123 dup_machine = Ok (fr, s') /\
  phys_byte (ram s') (fr + 8) = 65 /\ exists m, pg_duplicate_page 0x1000 0x8000 dup_machine = Ok (0, set_ram m dup_machine).
Proof.
  pose proof (pg_duplicate_page_copies dup_machine 0x1000 0x7123 dup_win dup_beside ltac:(done)) as H.
  pose proof (pg_duplicate_page_copies dup_machine 0x1000 0x8000 dup_win dup_beside ltac:(done)) as H0.
  cbv beta zeta in H, H0. rewrite dup_walk in H. rewrite dup_walk_absent in H0. destruct H0 as (m & E0 & _).
  destruct (H pmm_64_inv eq_refl (proj1 dup_in_use) (proj2 dup_in_use)) as (fr & s' & E & _ & _ & _ & _ & _ & Hb & _).
  - intros q Hq. apply (no_table_check _ _ 0x5000); [apply dup_win|by exists 5|vm_compute; reflexivity|exact Hq].
  - exists fr, s'. split; [exact E|]. split; [rewrite (Hb 8) by lia; vm_compute; reflexivity|]. by exists m.
Defined.
