(* ===== verification/Vmm.v ===== *)
(** * Virtual memory manager ([src/src/kernel/memory/vmm.c])

    An address space is a page directory and a list of regions in increasing
    address order.  Regions and address spaces are objects of the kernel
    heap: they live in stores indexed by address, are brought into existence
    by the allocator and removed from the store when freed, so a stale
    pointer is a [Fault].  The allocator is any instance of [Allocator];
    [vfs_read] is the operation of the file system this file calls.  The
    page fault handler ends where it sends a signal to the running task: it
    answers the signal, and [Isr.v] makes the call. *)

From S2P Require Import Prelude Dlist Pmm Heap Paging.

#[local] Open Scope Z_scope.

Record region := mkRegion { r_addr : Z; r_size : Z; r_flags : Z; r_prev : Z; r_next : Z }.

Definition set_r_size v r := mkRegion (r_addr r) v (r_flags r) (r_prev r) (r_next r).
Definition set_r_prev v r := mkRegion (r_addr r) (r_size r) (r_flags r) v (r_next r).
Definition set_r_next v r := mkRegion (r_addr r) (r_size r) (r_flags r) (r_prev r) v.

#[global] Instance region_linked : Linked region := { l_prev := r_prev; l_next := r_next }.

Definition r_end (r : region) : Z := r_addr r +w r_size r.

Record aspace := mkAspace {
  pd : Z; code_entry : Z; elf_end : Z; data_end : Z; stack_end : Z;
  stack_size : Z; page_counter : Z; as_first : Z; as_last : Z;
}.

Definition zero_aspace : aspace := mkAspace 0 0 0 0 0 0 0 0 0.
Definition set_pd v a := mkAspace v (code_entry a) (elf_end a) (data_end a) (stack_end a) (stack_size a) (page_counter a) (as_first a) (as_last a).
Definition set_data_end v a := mkAspace (pd a) (code_entry a) (elf_end a) v (stack_end a) (stack_size a) (page_counter a) (as_first a) (as_last a).
Definition set_stack v z a := mkAspace (pd a) (code_entry a) (elf_end a) (data_end a) v z (page_counter a) (as_first a) (as_last a).
Definition set_counter v a := mkAspace (pd a) (code_entry a) (elf_end a) (data_end a) (stack_end a) (stack_size a) v (as_first a) (as_last a).
Definition set_first v a := mkAspace (pd a) (code_entry a) (elf_end a) (data_end a) (stack_end a) (stack_size a) (page_counter a) v (as_last a).
Definition set_last v a := mkAspace (pd a) (code_entry a) (elf_end a) (data_end a) (stack_end a) (stack_size a) (page_counter a) (as_first a) v.
(** The scalar fields [_fork_aspace] copies. *)
Definition copy_layout (src dst : aspace) : aspace :=
  mkAspace (pd dst) (code_entry src) (elf_end src) (data_end src) (stack_end src)
           (stack_size src) (page_counter src) (as_first dst) (as_last dst).

Definition SIZEOF_REGION : Z := 20.
Definition SIZEOF_ASPACE : Z := 36.

Definition VMM_RW : Z := 0x2.
Definition VMM_USER : Z := 0x4.
Definition VMM_ERR_PR : Z := 0x2.
Definition VMM_ERR_WR : Z := 0x8.

Definition ENOMEM : Z := 12.
Definition EFAULT : Z := 14.
Definition EINVAL : Z := 22.
Definition E2BIG : Z := 7.

Record vmm (H : Type) := mkVmm {
  v_heap : H;
  v_regions : gmap Z region;
  v_aspaces : gmap Z aspace;
  v_bufs : gmap Z (list Z);   (* kmalloc'ed byte buffers *)
  v_mach : machine;
  v_errno : Z;
}.
Arguments mkVmm {_} _ _ _ _ _ _.
Arguments v_heap {_} _. Arguments v_regions {_} _. Arguments v_aspaces {_} _.
Arguments v_bufs {_} _. Arguments v_mach {_} _. Arguments v_errno {_} _.

Section vmm.
Context {H : Type} `{!Allocator H}.
(** [vfs_read obj offset size buffer]. *)
Context (vfs_read : Z -> Z -> Z -> Z -> M (vmm H) Z) (kern_pd_vaddr : Z).

Definition set_heap (v : H) (s : vmm H) := mkVmm v (v_regions s) (v_aspaces s) (v_bufs s) (v_mach s) (v_errno s).
Definition set_regions v (s : vmm H) := mkVmm (v_heap s) v (v_aspaces s) (v_bufs s) (v_mach s) (v_errno s).
Definition set_aspaces v (s : vmm H) := mkVmm (v_heap s) (v_regions s) v (v_bufs s) (v_mach s) (v_errno s).
Definition set_bufs v (s : vmm H) := mkVmm (v_heap s) (v_regions s) (v_aspaces s) v (v_mach s) (v_errno s).
Definition set_mach v (s : vmm H) := mkVmm (v_heap s) (v_regions s) (v_aspaces s) (v_bufs s) v (v_errno s).
Definition set_errno v (s : vmm H) := mkVmm (v_heap s) (v_regions s) (v_aspaces s) (v_bufs s) (v_mach s) v.

Definition vm (A : Type) : Type := M (vmm H) A.

Definition on_mach {A} (m : M machine A) : vm A := zoom v_mach set_mach m.
Definition on_heap {A} (m : M H A) : vm A := zoom v_heap set_heap m.
Definition errno (e : Z) : vm unit := mod_ (set_errno e).

Definition ld_reg (p : Z) : vm region := fun s =>
  match v_regions s !! p with
  | Some r => if p =? 0 then Fault else Ok (r, s)
  | None => Fault
  end.

Definition upd_reg (p : Z) (f : region -> region) : vm unit :=
  do r <- ld_reg p; mod_ (fun s => set_regions (<[p := f r]> (v_regions s)) s).

Definition ld_as (p : Z) : vm aspace := fun s =>
  match v_aspaces s !! p with
  | Some a => if p =? 0 then Fault else Ok (a, s)
  | None => Fault
  end.

Definition upd_as (p : Z) (f : aspace -> aspace) : vm unit :=
  do a <- ld_as p; mod_ (fun s => set_aspaces (<[p := f a]> (v_aspaces s)) s).

(** ** The region list *)

Definition _is_area_free (as_ addr size : Z) : vm bool :=
  do a <- ld_as as_;
  if as_first a =? 0 then ret_ true
  else
    do last <- ld_reg (as_last a);
    if r_end last <=? addr then ret_ (addr +w size <=? VM_USER_END)
    else
      do tmp <- lift_ (fun s => walk (v_regions s) (fun _ r => addr <=? r_addr r) (as_first a));
      if tmp =? 0 then ret_ false
      else do r <- ld_reg tmp; ret_ (addr +w size <=? r_addr r).

Definition insert_first (as_ reg : Z) : vm unit :=
  do a <- ld_as as_;
  upd_reg reg (set_r_next (as_first a)) ;;;
  upd_as as_ (set_first reg) ;;;
  (when negb (as_first a =? 0) then_ upd_reg (as_first a) (set_r_prev reg)) ;;;
  upd_reg reg (set_r_prev 0) ;;;
  (when as_last a =? 0 then_ upd_as as_ (set_last reg)).

Definition insert_last (as_ reg : Z) : vm unit :=
  do a <- ld_as as_;
  upd_reg reg (set_r_next 0) ;;;
  upd_reg reg (set_r_prev (as_last a)) ;;;
  upd_as as_ (set_last reg) ;;;
  upd_reg (as_last a) (set_r_next reg).

Definition insert_between (as_ reg : Z) : vm unit :=
  do a <- ld_as as_;
  do n <- get_ (fun s => size (v_regions s));
  loop (S n) (fun tmp =>
    do t <- ld_reg tmp;
    if r_next t =? 0 then ret_ (inr tt)
    else
      do r <- ld_reg reg;
      do nx <- ld_reg (r_next t);
      if (r_end t <=? r_addr r) && (r_end r <=? r_addr nx) then
        upd_reg reg (set_r_next (r_next t)) ;;;
        upd_reg (r_next t) (set_r_prev reg) ;;;
        upd_reg reg (set_r_prev tmp) ;;;
        upd_reg tmp (set_r_next reg) ;;;
        ret_ (inr tt)
      else ret_ (inl (r_next t))) (as_first a).

Definition _insert_region (as_ reg : Z) : vm unit :=
  do a <- ld_as as_;
  do r <- ld_reg reg;
  do front <- (if as_first a =? 0 then ret_ true
               else do f <- ld_reg (as_first a); ret_ (r_end r <=? r_addr f));
  if front then insert_first as_ reg
  else
    do l <- ld_reg (as_last a);
    if r_end l <=? r_addr r then insert_last as_ reg
    else insert_between as_ reg.

Definition _remove_region (as_ reg : Z) : vm unit :=
  do a <- ld_as as_;
  do r <- ld_reg reg;
  do f <- ld_reg (as_first a);
  let done := r_addr f =? r_addr r in
  (when done then_
     (upd_as as_ (set_first (r_next r)) ;;;
      when negb (r_next r =? 0) then_ upd_reg (r_next r) (set_r_prev 0))) ;;;
  do l <- ld_reg (as_last a);
  if r_addr l =? r_addr r then
    upd_as as_ (set_last (r_prev r)) ;;;
    when negb (r_prev r =? 0) then_ upd_reg (r_prev r) (set_r_next 0)
  else if done then ret_ tt
  else
    upd_reg (r_prev r) (set_r_next (r_next r)) ;;;
    upd_reg (r_next r) (set_r_prev (r_prev r)).

(** The region whose closed range [addr, addr+size] holds [vaddr], or 0. *)
Definition _find_region (as_ vaddr : Z) : vm Z :=
  do a <- ld_as as_;
  lift_ (fun s => walk (v_regions s) (fun _ r => (r_addr r <=? vaddr) && (vaddr <=? r_end r)) (as_first a)).

Definition _create_region (addr size flags : Z) : vm Z :=
  do reg <- on_heap (al_malloc SIZEOF_REGION);
  mod_ (fun s => set_regions (<[reg := mkRegion addr size flags 0 0]> (v_regions s)) s) ;;;
  ret_ reg.

(** Unmapping of a region's pages; the page number is not aligned. *)
Definition unmap_region_pages (pd_ addr size : Z) : vm unit :=
  loop (S (Z.to_nat ((size + 4095) / 4096))) (fun tmp =>
    if tmp <? addr +w size then
      do paddr <- on_mach (pg_unmap_from pd_ tmp);
      (when negb (paddr =? 0) then_ on_mach (with_pmm (pmm_free_frame paddr))) ;;;
      ret_ (inl (tmp +w PAGE_SIZE))
    else ret_ (inr tt)) addr.

Definition _destroy_region (as_ reg : Z) : vm unit :=
  _remove_region as_ reg ;;;
  do r <- ld_reg reg;
  do a <- ld_as as_;
  unmap_region_pages (pd a) (r_addr r) (r_size r) ;;;
  on_heap (al_free reg) ;;;
  mod_ (fun s => set_regions (delete reg (v_regions s)) s).

(** Each round moves down by at least [size]; the fuel covers a complete
    tour of the address space. *)
Definition _find_free_area (as_ size : Z) : vm Z :=
  do a <- ld_as as_;
  loop (S (S (Z.to_nat (W32 / Z.max 1 size)))) (fun vaddr =>
    if data_end a +w 0x1000 <=? vaddr then
      do free <- _is_area_free as_ vaddr size;
      if (free : bool) then ret_ (inr vaddr)
      else
        do reg <- _find_region as_ vaddr;
        if reg =? 0 then ret_ (inl (vaddr -w size))
        else do r <- ld_reg reg; ret_ (inl (r_addr r -w size))
    else ret_ (inr 0)) (stack_end a -w 0x1000 -w size).

Definition _vaddr_to_paddr (pd_ vaddr : Z) : vm Z := on_mach (pg_get_frame_from pd_ vaddr).

(** ** Address spaces *)

Definition fork_region (src_pd dst_pd : Z) (r : region) : vm unit :=
  loop (S (Z.to_nat ((r_size r + 4095) / 4096))) (fun vaddr =>
    if vaddr <? r_end r then
      do paddr <- on_mach (pg_duplicate_page src_pd vaddr);
      on_mach (pg_map_to dst_pd paddr vaddr (Z.lor (r_flags r) PG_PRESENT)) ;;;
      ret_ (inl (vaddr +w PAGE_SIZE))
    else ret_ (inr tt)) (r_addr r).

Definition _fork_aspace (src dst : Z) : vm unit :=
  do a <- ld_as src;
  do n <- get_ (fun s => size (v_regions s));
  loop (S n) (fun tmp =>
    if tmp =? 0 then ret_ (inr tt)
    else
      do r <- ld_reg tmp;
      do d <- ld_as dst;
      fork_region (pd a) (pd d) r ;;;
      do new <- _create_region (r_addr r) (r_size r) (r_flags r);
      _insert_region dst new ;;;
      do r <- ld_reg tmp;
      ret_ (inl (r_next r))) (as_first a) ;;;
  do a <- ld_as src;
  upd_as dst (copy_layout a).

Definition vmm_aspace_create (parent_as : Z) : vm Z :=
  do new <- on_heap (al_malloc SIZEOF_ASPACE);
  mod_ (fun s => set_aspaces (<[new := zero_aspace]> (v_aspaces s)) s) ;;;
  if parent_as =? 0 then
    do d <- on_mach (pg_create_directory kern_pd_vaddr 0);
    upd_as new (set_pd d) ;;; ret_ new
  else
    do p <- ld_as parent_as;
    do d <- on_mach (pg_create_directory kern_pd_vaddr (pd p));
    upd_as new (set_pd d) ;;;
    _fork_aspace parent_as new ;;; ret_ new.

Definition vmm_aspace_destroy (as_ : Z) : vm unit :=
  do a <- ld_as as_;
  do n <- get_ (fun s => size (v_regions s));
  loop (S n) (fun region =>
    if region =? 0 then ret_ (inr tt)
    else
      do r <- ld_reg region;
      let tmp := r_next r in
      _destroy_region as_ region ;;;
      ret_ (inl tmp)) (as_first a) ;;;
  on_heap (al_free as_) ;;;
  mod_ (fun s => set_aspaces (delete as_ (v_aspaces s)) s).

(** ** mmap and munmap *)

(** Locals of the copying loop. *)
Record mmap_loop := mkMl { ml_rem : Z; ml_vaddr : Z; ml_offset : Z; ml_ctr : Z }.

Definition mmap_align (vaddr size align : Z) : Z :=
  let align := if align =? 0 then 0x1000 else align in
  if negb (size mod align =? 0)
  then size -w size mod align +w align -w vaddr mod align else size.

(** One page of the file: [inr None] when the read failed. *)
Definition mmap_page (as_ obj tmp flags : Z) (l : mmap_loop) : vm (mmap_loop + option Z) :=
  if 0 <? ml_rem l then
    do a <- ld_as as_;
    do found <- _vaddr_to_paddr (pd a) (ml_vaddr l);
    do paddr <- (if found =? 0 then on_mach (with_pmm pmm_get_frame) else ret_ found);
    let page_ctr := if found =? 0 then ml_ctr l +w 1 else ml_ctr l in
    on_mach (pg_map paddr VM_TMP2_MAP PG_KERN_PAGE_FLAG) ;;;
    let in_page := ml_vaddr l mod PAGE_SIZE in
    let cpy_int := if PAGE_SIZE <? in_page +w ml_rem l then PAGE_SIZE - in_page else ml_rem l in
    do rd <- vfs_read obj (ml_offset l) cpy_int (VM_TMP2_MAP + in_page);
    if rd <? 0 then
      (do _ <- on_mach (pg_unmap VM_TMP2_MAP); ret_ tt) ;;;
      on_mach (pg_map tmp VM_TMP2_MAP PG_KERN_PAGE_FLAG) ;;;
      ret_ (inr None)
    else
      on_mach (pg_map_to (pd a) paddr (ml_vaddr l) (Z.lor flags PG_PRESENT)) ;;;
      (do _ <- on_mach (pg_unmap VM_TMP2_MAP); ret_ tt) ;;;
      ret_ (inl (mkMl (ml_rem l -w cpy_int) (ml_vaddr l +w cpy_int) (ml_offset l +w cpy_int) page_ctr))
  else ret_ (inr (Some (ml_ctr l))).

Definition vmm_mmap_at (as_ vaddr obj offset size align flags : Z) : vm Z :=
  let aligned_size := mmap_align vaddr size align in
  do vaddr <- (if vaddr =? 0 then _find_free_area as_ aligned_size else ret_ vaddr);
  if vaddr =? 0 then errno ENOMEM ;;; ret_ 0
  else
    do free <- _is_area_free as_ vaddr aligned_size;
    if negb (free : bool) then errno ENOMEM ;;; ret_ 0
    else if size =? 0 then errno 0 ;;; ret_ 0
    else
      do tmp <- on_mach (pg_unmap VM_TMP2_MAP);
      do r <- loop (S (S (Z.to_nat (size / PAGE_SIZE)))) (mmap_page as_ obj tmp flags)
                (mkMl size vaddr offset 0);
      match r with
      | None => ret_ 0
      | Some page_ctr =>
          do region <- _create_region vaddr aligned_size flags;
          _insert_region as_ region ;;;
          upd_as as_ (fun a => set_counter (page_counter a +w page_ctr) a) ;;;
          on_mach (pg_map tmp VM_TMP2_MAP PG_KERN_PAGE_FLAG) ;;;
          do rg <- ld_reg region;
          ret_ (r_addr rg)
      end.

Record munmap_loop := mkUl { ul_rem : Z; ul_vaddr : Z; ul_ctr : Z }.

(** A neighbour whose range ends or begins less than a page away. *)
Definition shares_page (r : region) : vm bool :=
  do before <- (if r_prev r =? 0 then ret_ false
                else do p <- ld_reg (r_prev r); ret_ (r_addr r -w r_end p <? PAGE_SIZE));
  if (before : bool) then ret_ true
  else if r_next r =? 0 then ret_ false
  else do n <- ld_reg (r_next r); ret_ (r_addr n -w r_end r <? PAGE_SIZE).

(** One page.  The frame looked up is that of [vaddr] on every round, and
    the memset of a shared page covers the [rem_size] bytes that are left. *)
Definition munmap_page (as_ reg vaddr : Z) (l : munmap_loop) : vm (munmap_loop + Z) :=
  if 0 <? ul_rem l then
    do a <- ld_as as_;
    do paddr <- _vaddr_to_paddr (pd a) vaddr;
    if paddr =? 0 then panic "[ERROR] VMM bad physical address of region!"
    else
      on_mach (pg_map paddr VM_TMP2_MAP PG_KERN_PAGE_FLAG) ;;;
      let in_page := ul_vaddr l mod PAGE_SIZE in
      let destroy_int := if ul_rem l <? PAGE_SIZE - in_page then ul_rem l else PAGE_SIZE - in_page in
      do r <- ld_reg reg;
      do shared <- (if negb (destroy_int mod PAGE_SIZE =? 0) then shares_page r else ret_ false);
      if (shared : bool) then
        on_mach (memset0 (VM_TMP2_MAP + in_page) (ul_rem l)) ;;;
        ret_ (inl (mkUl (ul_rem l -w destroy_int) (ul_vaddr l +w destroy_int) (ul_ctr l)))
      else
        (do _ <- on_mach (pg_unmap_from (pd a) (ul_vaddr l)); ret_ tt) ;;;
        on_mach (with_pmm (pmm_free_frame paddr)) ;;;
        (do _ <- on_mach (pg_unmap VM_TMP2_MAP); ret_ tt) ;;;
        ret_ (inl (mkUl (ul_rem l -w destroy_int) (ul_vaddr l +w destroy_int) (ul_ctr l +w 1)))
  else ret_ (inr (ul_ctr l)).

Definition vmm_munmap (as_ vaddr : Z) : vm Z :=
  do reg <- _find_region as_ vaddr;
  if reg =? 0 then errno EINVAL ;;; ret_ (-1)
  else
    do tmp <- on_mach (pg_unmap VM_TMP2_MAP);
    do r <- ld_reg reg;
    do page_ctr <- loop (S (S (Z.to_nat (r_size r / PAGE_SIZE)))) (munmap_page as_ reg vaddr)
                     (mkUl (r_size r) (r_addr r) 0);
    _destroy_region as_ reg ;;;
    upd_as as_ (fun a => set_counter (page_counter a -w page_ctr) a) ;;;
    on_mach (pg_map tmp VM_TMP2_MAP PG_KERN_PAGE_FLAG) ;;;
    ret_ 0.

(** ** Access to user memory *)

(** Locals of the string copy: [i], [i_after_next_page], the address
    [src_buff] points to and [vaddr]. *)
Record str_loop := mkSl { sl_i : Z; sl_base : Z; sl_src : Z; sl_vaddr : Z }.

Definition set_buf_byte (buff i b : Z) : vm unit := fun s =>
  match v_bufs s !! buff with
  | Some l => if (0 <=? i) && (i <? Z.of_nat (length l))
              then Ok (tt, set_bufs (<[buff := <[Z.to_nat i := b]> l]> (v_bufs s)) s) else Fault
  | None => Fault
  end.

Definition free_buf (buff : Z) : vm unit :=
  on_heap (al_free buff) ;;; mod_ (fun s => set_bufs (delete buff (v_bufs s)) s).

(** [inr None]: the next page is not mapped; [inr (Some i)]: end of loop. *)
Definition copy_string_step (as_ buff max_len : Z) (l : str_loop) : vm (str_loop + option Z) :=
  if sl_i l <? max_len then
    do next <-
      (if (sl_src l +w (sl_i l -w sl_base l)) mod PAGE_SIZE =? 0 then
         let vaddr := sl_vaddr l +w sl_i l in
         (do _ <- on_mach (pg_unmap VM_TMP_MAP); ret_ tt) ;;;
         do a <- ld_as as_;
         do paddr <- on_mach (pg_get_frame_from (pd a) vaddr);
         if paddr =? 0 then ret_ None
         else
           on_mach (pg_map paddr VM_TMP_MAP PG_KERN_PAGE_FLAG) ;;;
           ret_ (Some (mkSl (sl_i l) (sl_i l) VM_TMP_MAP vaddr))
       else ret_ (Some l));
    match next with
    | None => ret_ (inr None)
    | Some l =>
        do c <- on_mach (ld8 (sl_src l +w (sl_i l -w sl_base l)));
        set_buf_byte buff (sl_i l) c ;;;
        if c =? 0 then ret_ (inr (Some (sl_i l)))
        else ret_ (inl (mkSl (sl_i l + 1) (sl_base l) (sl_src l) (sl_vaddr l)))
    end
  else ret_ (inr (Some (sl_i l))).

(** A block of [n] bytes at [p] as the heap hands it out. *)
Definition fresh_bytes (h : H) (p n : Z) : list Z := al_bytes h <$> seqZ p n.

Definition vmm_copy_string_from (as_ vaddr max_len : Z) : vm Z :=
  do a <- ld_as as_;
  do paddr <- on_mach (pg_get_frame_from (pd a) vaddr);
  if paddr =? 0 then errno EFAULT ;;; ret_ 0
  else
    do old_tmp <- on_mach (pg_unmap VM_TMP_MAP);
    on_mach (pg_map paddr VM_TMP_MAP PG_KERN_PAGE_FLAG) ;;;
    do buff <- on_heap (al_malloc max_len);
    mod_ (fun s => set_bufs (<[buff := fresh_bytes (v_heap s) buff max_len]> (v_bufs s)) s) ;;;
    do r <- loop (S (Z.to_nat max_len)) (copy_string_step as_ buff max_len)
              (mkSl 0 0 (VM_TMP_MAP + vaddr mod PAGE_SIZE) vaddr);
    match r with
    | None =>
        free_buf buff ;;;
        on_mach (pg_map old_tmp VM_TMP_MAP PG_KERN_PAGE_FLAG) ;;;
        errno EFAULT ;;; ret_ 0
    | Some i =>
        (do _ <- on_mach (pg_unmap VM_TMP_MAP); ret_ tt) ;;;
        on_mach (pg_map old_tmp VM_TMP_MAP PG_KERN_PAGE_FLAG) ;;;
        if i =? max_len then free_buf buff ;;; errno E2BIG ;;; ret_ 0
        else ret_ buff
    end.

Record data_loop := mkDl { dl_i : Z; dl_base : Z; dl_dst : Z }.

Definition copy_data_step (as_ vaddr : Z) (buff : list Z) (size : Z) (l : data_loop) : vm (data_loop + option Z) :=
  if dl_i l <? size then
    do next <-
      (if (dl_dst l +w (dl_i l -w dl_base l)) mod PAGE_SIZE =? 0 then
         (do _ <- on_mach (pg_unmap VM_TMP_MAP); ret_ tt) ;;;
         do a <- ld_as as_;
         do paddr <- _vaddr_to_paddr (pd a) (vaddr +w dl_i l);
         if paddr =? 0 then ret_ None
         else
           on_mach (pg_map paddr VM_TMP_MAP PG_KERN_PAGE_FLAG) ;;;
           ret_ (Some (mkDl (dl_i l) (dl_i l) VM_TMP_MAP))
       else ret_ (Some l));
    match next with
    | None => ret_ (inr None)
    | Some l =>
        match buff !! Z.to_nat (dl_i l) with
        | None => fault
        | Some b =>
            on_mach (st8 (dl_dst l +w (dl_i l -w dl_base l)) b) ;;;
            ret_ (inl (mkDl (dl_i l + 1) (dl_base l) (dl_dst l)))
        end
    end
  else ret_ (inr (Some (dl_i l))).

Definition vmm_copy_data_to (as_ vaddr : Z) (buff : list Z) (size : Z) : vm Z :=
  do a <- ld_as as_;
  do paddr <- _vaddr_to_paddr (pd a) vaddr;
  if paddr =? 0 then errno EFAULT ;;; ret_ (-1)
  else
    do old_tmp <- on_mach (pg_unmap VM_TMP_MAP);
    on_mach (pg_map paddr VM_TMP_MAP PG_KERN_PAGE_FLAG) ;;;
    do r <- loop (S (Z.to_nat size)) (copy_data_step as_ vaddr buff size)
              (mkDl 0 0 (VM_TMP_MAP + vaddr mod PAGE_SIZE));
    match r with
    | None =>
        errno EFAULT ;;;
        on_mach (pg_map old_tmp VM_TMP_MAP PG_KERN_PAGE_FLAG) ;;; ret_ (-1)
    | Some i =>
        (do _ <- on_mach (pg_unmap VM_TMP_MAP); ret_ tt) ;;;
        on_mach (pg_map old_tmp VM_TMP_MAP PG_KERN_PAGE_FLAG) ;;; ret_ i
    end.

(** ** The program break *)

Definition round_up (n : Z) : Z := if negb (n mod 0x1000 =? 0) then n -w n mod 0x1000 +w 0x1000 else n.

(** [end:] of the C function. *)
Definition brk_end (as_ old_brk prog_size : Z) : vm Z :=
  upd_as as_ (fun a => set_data_end (data_end a +w prog_size) a) ;;; ret_ old_brk.

Definition brk_shrink (as_ reg vaddr old_brk : Z) : vm Z :=
  do a <- ld_as as_;
  let new_size := data_end a -w vaddr in
  if elf_end a <? data_end a -w new_size then
    if new_size <? PAGE_SIZE then
      upd_as as_ (fun a => set_data_end (data_end a -w new_size) a) ;;; ret_ old_brk
    else
      let ctr := new_size / PAGE_SIZE in
      do r <- ld_reg reg;
      for_ (Z.to_nat ctr) 0 (fun i =>
        do paddr <- on_mach (pg_unmap_from (pd a) (r_end r -w i *w PAGE_SIZE));
        when negb (paddr =? 0) then_ on_mach (with_pmm (pmm_free_frame paddr))) ;;;
      upd_reg reg (fun r => set_r_size (r_size r -w ctr *w PAGE_SIZE) r) ;;;
      upd_as as_ (fun a => set_data_end (data_end a -w new_size) a) ;;; ret_ old_brk
  else errno ENOMEM ;;; ret_ 0.

(** An expansion that does not fit and has no region behind it falls
    through to the shrinking code. *)
Definition vmm_set_brk (as_ vaddr : Z) : vm Z :=
  do a <- ld_as as_;
  if vaddr <? elf_end a then errno ENOMEM ;;; ret_ 0
  else
    let old_brk := data_end a in
    if (data_end a =? elf_end a) && (data_end a <=? vaddr) then
      let prog_size := vaddr -w data_end a in
      let new_size := round_up prog_size in
      do free <- _is_area_free as_ (data_end a) new_size;
      if negb (free : bool) then errno ENOMEM ;;; ret_ 0
      else
        do reg <- _create_region (data_end a) new_size (Z.lor VMM_RW VMM_USER);
        _insert_region as_ reg ;;;
        brk_end as_ old_brk prog_size
    else
      do reg <- _find_region as_ (elf_end a +w 1);
      if reg =? 0 then panic "[BUG] There is no data segment!"
      else
        do r <- ld_reg reg;
        if data_end a <? vaddr then
          let prog_size := vaddr -w data_end a in
          if vaddr <=? r_end r then brk_end as_ old_brk prog_size
          else if negb (r_next r =? 0) then
            let new_size := round_up prog_size in
            do nx <- ld_reg (r_next r);
            if r_end r +w new_size <=? r_addr nx then
              upd_reg reg (set_r_size (r_size r +w new_size)) ;;;
              brk_end as_ old_brk prog_size
            else errno ENOMEM ;;; ret_ 0
          else brk_shrink as_ reg vaddr old_brk
        else brk_shrink as_ reg vaddr old_brk.

Definition vmm_set_stack (as_ stack_end_ size : Z) : vm unit := upd_as as_ (set_stack stack_end_ size).

(** ** Page faults *)

Definition SIGSEGV : Z := 2.

Definition vmm_page_fault_handler (as_ vaddr err : Z) : vm (option Z) :=
  do reg <- _find_region as_ vaddr;
  if reg =? 0 then ret_ (Some SIGSEGV)
  else
    do r <- ld_reg reg;
    if negb (Z.land err VMM_ERR_WR =? 0) && (Z.land (r_flags r) VMM_RW =? 0) then ret_ (Some SIGSEGV)
    else
      (when negb (Z.land err VMM_ERR_PR =? 0) then_
        (do a <- ld_as as_;
         do f <- on_mach (with_pmm pmm_get_frame);
         on_mach (pg_map_to (pd a) f vaddr (Z.lor (r_flags r) PG_PRESENT)) ;;;
         upd_as as_ (fun a => set_counter (page_counter a +w 1) a))) ;;;
      ret_ None.

(** [pg_page_fault_handler] of paging.c: [vaddr] is CR2, [as_] the address
    space of the running task. *)
Definition pg_page_fault_handler (as_ vaddr err_code : Z) : vm (option Z) :=
  if negb (Z.land err_code PG_USER =? 0) then
    let e := if Z.land err_code PG_PRESENT =? 0 then VMM_ERR_PR else 0 in
    let e := if negb (Z.land err_code PG_RW =? 0) then Z.lor e VMM_ERR_WR else Z.lor e 0x4 in
    vmm_page_fault_handler as_ vaddr e
  else if vaddr <? 0x1000 then panic "[BUG] NULL address ussage!"
  else if Z.land err_code PG_PRESENT =? 0 then
    do f <- on_mach (with_pmm pmm_get_frame);
    on_mach (pg_map f vaddr PG_KERN_PAGE_FLAG) ;;; ret_ None
  else panic "".
End vmm.
