(* ===== verification/VmmSpec.v ===== *)
(** * The region list of an address space

    [as_list s a l]: address space [a] holds exactly the regions [l], in
    increasing address order and without overlap.  The list operations are
    specified against the list of their ranges. *)

From stdpp Require Import sorting.
From S2P Require Import Prelude Dlist Heap Paging Vmm.

#[local] Open Scope Z_scope.

(** What a region says, apart from its links. *)
Definition rg (m : gmap Z region) (p : Z) : option (Z * Z * Z) :=
  (fun r => (r_addr r, r_size r, r_flags r)) <$> m !! p.

Definition lo (m : gmap Z region) (p : Z) : Z := from_option (fun x => x.1.1) 0 (rg m p).
Definition hi (m : gmap Z region) (p : Z) : Z := from_option (fun x => x.1.1 + x.1.2) 0 (rg m p).

Definition before (m : gmap Z region) (p q : Z) : Prop := hi m p <= lo m q.

Lemma rg_lookup m p r : m !! p = Some r -> rg m p = Some (r_addr r, r_size r, r_flags r).
Proof. unfold rg. by intros ->. Qed.

Lemma lo_lookup m p r : m !! p = Some r -> lo m p = r_addr r.
Proof. unfold lo, rg. by intros ->. Qed.

Lemma hi_lookup m p r : m !! p = Some r -> hi m p = r_addr r + r_size r.
Proof. unfold hi, rg. by intros ->. Qed.

Lemma rg_insert m p r r' q : m !! p = Some r -> r_addr r' = r_addr r -> r_size r' = r_size r ->
  r_flags r' = r_flags r -> rg (<[p := r']> m) q = rg m q.
Proof.
  intros E E1 E2 E3. unfold rg. rewrite lookup_insert. case_decide; [|done]. subst. rewrite E. cbn. congruence.
Qed.

Section spec.
Context {H : Type} `{!Allocator H}.
Implicit Types (s : vmm H) (l : list Z) (Q : unit -> vmm H -> Prop).

(** Rules for the accesses. *)
Lemma wp_ld_reg s p r (Q : region -> vmm H -> Prop) :
  v_regions s !! p = Some r -> p <> 0 -> Q r s -> wp (ld_reg p) Q s.
Proof. intros E Hp HQ. unfold wp, ld_reg. rewrite E, (proj2 (Z.eqb_neq p 0)) by done. exact HQ. Qed.

Lemma wp_upd_reg s p f r Q : v_regions s !! p = Some r -> p <> 0 ->
  Q tt (set_regions (<[p := f r]> (v_regions s)) s) -> wp (upd_reg p f) Q s.
Proof. intros E Hp HQ. unfold upd_reg. apply wp_bind. by eapply wp_ld_reg. Qed.

Lemma wp_ld_as s p a (Q : aspace -> vmm H -> Prop) :
  v_aspaces s !! p = Some a -> p <> 0 -> Q a s -> wp (ld_as p) Q s.
Proof. intros E Hp HQ. unfold wp, ld_as. rewrite E, (proj2 (Z.eqb_neq p 0)) by done. exact HQ. Qed.

Lemma wp_upd_as s p f a Q : v_aspaces s !! p = Some a -> p <> 0 ->
  Q tt (set_aspaces (<[p := f a]> (v_aspaces s)) s) -> wp (upd_as p f) Q s.
Proof. intros E Hp HQ. unfold upd_as. apply wp_bind. by eapply wp_ld_as. Qed.

(** [a] holds the regions [l]. *)
Record as_list (s : vmm H) (a : Z) (l : list Z) : Prop := {
  al_as : exists A, v_aspaces s !! a = Some A /\ as_first A = hd0 0 l /\ as_last A = last0 0 l;
  al_nz : a <> 0;
  al_dl : dlist (v_regions s) l;
  al_rg : forall p r, p ∈ l -> v_regions s !! p = Some r ->
    0 <= r_addr r /\ 0 < r_size r /\ r_addr r + r_size r <= VM_USER_END;
  al_sorted : StronglySorted (before (v_regions s)) l;
}.

Lemma al_region s a l p : as_list s a l -> p ∈ l ->
  exists r, v_regions s !! p = Some r /\ p <> 0 /\ lo (v_regions s) p = r_addr r /\
    hi (v_regions s) p = r_end r /\ r_end r = r_addr r + r_size r /\
    0 <= r_addr r /\ 0 < r_size r /\ r_end r <= VM_USER_END.
Proof.
  intros Ha Hp. destruct (al_dl _ _ _ Ha) as [Hd _].
  destruct (dseg_lookup _ _ _ _ _ Hd Hp) as [r Hr]. exists r.
  destruct (al_rg _ _ _ Ha p r Hp Hr) as (? & ? & ?).
  assert (E : r_end r = r_addr r + r_size r).
  { unfold r_end. apply w32_small. unfold VM_USER_END in *. lia. }
  rewrite (lo_lookup _ _ _ Hr), (hi_lookup _ _ _ Hr), E. split_and!; try done.
  by eapply dseg_nonzero.
Qed.

Lemma sorted_ranges m m' l : (forall p, p ∈ l -> rg m' p = rg m p) ->
  StronglySorted (before m) l -> StronglySorted (before m') l.
Proof.
  intros Hg Hs. induction Hs as [|p l Hs IH Hall]; constructor.
  - apply IH. intros q Hq. apply Hg. by right.
  - rewrite Forall_forall in Hall |- *. intros q Hq. unfold before, lo, hi.
    rewrite !Hg by (by left || by right). by apply Hall.
Qed.

(** The order of the list is the order of the ranges. *)
Lemma sorted_at s a l1 p l2 : as_list s a (l1 ++ p :: l2) ->
  (forall q, q ∈ l1 -> hi (v_regions s) q <= lo (v_regions s) p) /\
  (forall q, q ∈ l2 -> hi (v_regions s) p <= lo (v_regions s) q).
Proof.
  intros Ha. pose proof (al_sorted _ _ _ Ha) as Hs. apply StronglySorted_app in Hs as (H12 & _ & H2).
  split.
  - intros q Hq. apply H12; [done|by left].
  - intros q Hq. apply StronglySorted_inv in H2 as [_ Hall]. rewrite Forall_forall in Hall. by apply Hall.
Qed.

Lemma lo_lt_hi s a l p : as_list s a l -> p ∈ l -> lo (v_regions s) p < hi (v_regions s) p.
Proof. intros Ha Hp. destruct (al_region _ _ _ _ Ha Hp) as (r & _ & _ & -> & -> & -> & ? & ? & _). lia. Qed.

(** ** Searches *)

Lemma find_region_run s a l v : as_list s a l ->
  _find_region a v s = Ok (first_such (v_regions s) (fun _ r => (r_addr r <=? v) && (v <=? r_end r)) l, s).
Proof.
  intros Ha. destruct (al_as _ _ _ Ha) as (A & HA & Hf & _). pose proof (al_nz _ _ _ Ha).
  unfold _find_region, bind_ at 1, ld_as. rewrite HA, (proj2 (Z.eqb_neq a 0)) by done.
  unfold lift_. by rewrite Hf, (walk_dlist _ _ _ (al_dl _ _ _ Ha)).
Qed.

(** The region found has [v] in its closed range; 0 means there is none. *)
Lemma find_region_spec s a l v : as_list s a l ->
  exists p, _find_region a v s = Ok (p, s) /\
    ((p = 0 /\ forall q, q ∈ l -> ~ (lo (v_regions s) q <= v <= hi (v_regions s) q)) \/
     (p ∈ l /\ lo (v_regions s) p <= v <= hi (v_regions s) p /\
      forall q, q ∈ l -> lo (v_regions s) q <= v <= hi (v_regions s) q ->
                lo (v_regions s) p <= lo (v_regions s) q)).
Proof.
  intros Ha. eexists. split; [by apply find_region_run|].
  destruct (al_dl _ _ _ Ha) as [Hseg _].
  destruct (first_such_split (v_regions s) (fun _ r => (r_addr r <=? v) && (v <=? r_end r)) l 0
    (dseg_sseg _ _ _ _ Hseg)) as [[-> Hall]|(l1 & p & l2 & r & El & -> & Hp0 & Hr & Ht & Hall)].
  - left. split; [done|]. intros q Hq. destruct (al_region _ _ _ _ Ha Hq) as (r & Hr & _ & -> & -> & _).
    specialize (Hall q r Hq Hr). lia.
  - right. assert (Hp : p ∈ l) by (rewrite El; in_tac). split; [done|].
    destruct (al_region _ _ _ _ Ha Hp) as (r' & Hr' & _ & El' & Eh' & _). simplify_eq.
    split; [rewrite El', Eh'; lia|]. intros q Hq Hin.
    pose proof (lo_lt_hi _ _ _ _ Ha Hp).
    apply elem_of_app in Hq as [Hq|[->|Hq]%elem_of_cons]; [|done|].
    + exfalso. assert (Hq' : q ∈ l1 ++ p :: l2) by in_tac.
      destruct (al_region _ _ _ _ Ha Hq') as (rq & Hrq & _ & Elq & Ehq & _).
      specialize (Hall q rq Hq Hrq). lia.
    + destruct (sorted_at _ _ _ _ _ Ha) as [_ H2]. specialize (H2 q Hq). lia.
Qed.

(** The answer of [_is_area_free]. *)
Definition area_free (m : gmap Z region) l (addr sz : Z) : Prop :=
  l = [] \/
  (hi m (last0 0 l) <= addr /\ addr + sz <= VM_USER_END) \/
  (addr < hi m (last0 0 l) /\ addr <= lo m (last0 0 l) /\
   forall p, p ∈ l -> addr <= lo m p -> addr + sz <= lo m p).

Lemma is_area_free_spec s a l addr sz : as_list s a l -> 0 <= addr -> 0 <= sz -> addr + sz < W32 ->
  exists b : bool, _is_area_free a addr sz s = Ok (b, s) /\ (b = true <-> area_free (v_regions s) l addr sz).
Proof.
  intros Ha H1 H2 H3. destruct (al_as _ _ _ Ha) as (A & HA & Hf & Hl). pose proof (al_nz _ _ _ Ha).
  unfold _is_area_free, bind_ at 1, ld_as. rewrite HA, (proj2 (Z.eqb_neq a 0)), Hf, Hl by done.
  destruct (decide (l = [])) as [->|Hne].
  { exists true. split; [done|]. split; [by left|done]. }
  assert (Hhd : hd0 0 l ∈ l) by by apply hd0_in. assert (Hla : last0 0 l ∈ l) by by apply last0_in.
  destruct (al_region _ _ _ _ Ha Hhd) as (rf & Hrf & Hf0 & _).
  destruct (al_region _ _ _ _ Ha Hla) as (rl & Hrl & Hl0 & Elo & Ehi & _ & _ & Hsz & _).
  rewrite (proj2 (Z.eqb_neq _ 0) Hf0). unfold bind_ at 1, ld_reg.
  rewrite Hrl, (proj2 (Z.eqb_neq _ 0) Hl0). unfold area_free.
  rewrite w32_small by lia. destruct (Z.leb_spec (r_end rl) addr) as [Hle|Hgt].
  { eexists. split; [reflexivity|]. rewrite Z.leb_le, Ehi. split; [by right; left|].
    intros [?|[?|?]]; [done|lia|lia]. }
  destruct (al_dl _ _ _ Ha) as [Hseg _].
  unfold bind_ at 1, lift_. rewrite (walk_dlist _ _ _ (al_dl _ _ _ Ha)).
  destruct (first_such_split (v_regions s) (fun _ r => addr <=? r_addr r) l 0
    (dseg_sseg _ _ _ _ Hseg)) as [[-> Hall]|(l1 & p & l2 & r & El & -> & Hp0 & Hr & Ht & Hall)].
  - cbn [Z.eqb]. exists false. split; [done|]. split; [done|]. intros [?|[[? _]|(_ & ? & _)]]; [done|lia|].
    specialize (Hall _ _ Hla Hrl). lia.
  - rewrite (proj2 (Z.eqb_neq p 0)) by done. unfold bind_. rewrite Hr. eexists. split; [reflexivity|].
    rewrite Z.leb_le. assert (Hp : p ∈ l) by (rewrite El; in_tac).
    destruct (al_region _ _ _ _ Ha Hp) as (r' & Hr' & _ & Elop & _ & _).
    rewrite Hr in Hr'. injection Hr' as <-.
    apply Z.leb_le in Ht. rewrite El in Ha. destruct (sorted_at _ _ _ _ _ Ha) as [Hs1 Hs2].
    pose proof (lo_lt_hi _ _ _ p Ha ltac:(in_tac)).
    split.
    + intros Hle. right. right. split; [lia|]. split.
      * rewrite El. destruct l2 as [|q l2]; [rewrite last0_snoc; lia|].
        assert (Hq : last0 0 (l1 ++ p :: q :: l2) ∈ q :: l2).
        { rewrite last0_app. cbn [last0]. apply (last0_in p (q :: l2)). done. }
        specialize (Hs2 _ Hq). lia.
      * intros q Hq Hle'. rewrite El in Hq. apply elem_of_app in Hq as [Hq|[->|Hq]%elem_of_cons].
        -- assert (Hq' : q ∈ l1 ++ p :: l2) by in_tac.
           destruct (al_region _ _ _ _ Ha Hq') as (rq & Hrq & _ & Elq & _). specialize (Hall q rq Hq Hrq). lia.
        -- lia.
        -- specialize (Hs2 q Hq). lia.
    + intros [?|[[? _]|(_ & _ & Hall')]]; [done|lia|]. specialize (Hall' p Hp). lia.
Qed.

(** ** Insertion *)

(** Only the links of regions and the ends of [a]'s list changed. *)
Record only_list (s s' : vmm H) (a : Z) : Prop := {
  on_rg : forall q, rg (v_regions s') q = rg (v_regions s) q;
  on_as : forall A, v_aspaces s !! a = Some A ->
    exists f z, v_aspaces s' = <[a := set_last z (set_first f A)]> (v_aspaces s);
  on_rest : v_heap s' = v_heap s /\ v_mach s' = v_mach s /\ v_bufs s' = v_bufs s /\ v_errno s' = v_errno s;
}.

Definition fits (s : vmm H) (l1 : list Z) (p : Z) (l2 : list Z) : Prop :=
  (forall q, q ∈ l1 -> hi (v_regions s) q <= lo (v_regions s) p) /\
  (forall q, q ∈ l2 -> hi (v_regions s) p <= lo (v_regions s) q).

Lemma as_list_rg s s' a l p r : as_list s a l -> rg (v_regions s') p = rg (v_regions s) p ->
  p ∈ l -> v_regions s' !! p = Some r -> 0 <= r_addr r /\ 0 < r_size r /\ r_addr r + r_size r <= VM_USER_END.
Proof.
  intros Ha E Hp Hr. rewrite (rg_lookup _ _ _ Hr) in E.
  unfold rg in E. destruct (v_regions s !! p) as [r0|] eqn:Hr0; [|done]. cbn in E. injection E as -> -> _.
  by apply (al_rg _ _ _ Ha p r0).
Qed.

Lemma as_inserted s s' a l1 p l2 r A : as_list s a (l1 ++ l2) -> p ∉ l1 ++ l2 -> p <> 0 ->
  v_regions s !! p = Some r -> 0 <= r_addr r -> 0 < r_size r -> r_addr r + r_size r <= VM_USER_END ->
  fits s l1 p l2 ->
  linked_between (v_regions s) (v_regions s') (last0 0 l1) p (hd0 0 l2) (l1 ++ l2) ->
  (forall q, rg (v_regions s') q = rg (v_regions s) q) ->
  v_aspaces s' !! a = Some A -> as_first A = hd0 p l1 -> as_last A = last0 p l2 ->
  as_list s' a (l1 ++ p :: l2).
Proof.
  intros Ha Hp Hp0 Hr H1 H2 H3 [Hf1 Hf2] Hlk Hg HA HAf HAl. split.
  - exists A. rewrite hd0_app, last0_app. done.
  - apply Ha.
  - eapply dlist_insert; [apply Ha|done|done|done].
  - intros q rq Hq Hrq. destruct (decide (q = p)) as [->|Hne].
    + pose proof (Hg p) as E. rewrite (rg_lookup _ _ _ Hr), (rg_lookup _ _ _ Hrq) in E.
      injection E as -> -> _. done.
    + eapply as_list_rg; [exact Ha|apply Hg|in_tac|exact Hrq].
  - eapply sorted_ranges; [intros q _; by apply Hg|].
    pose proof (al_sorted _ _ _ Ha) as Hs. rewrite !StronglySorted_app in Hs |- *.
    destruct Hs as (H12 & Hs1 & Hs2). split_and!; [|done|].
    + intros x y Hx [->|Hy]%elem_of_cons; [by apply Hf1|by apply H12].
    + constructor; [done|]. by apply Forall_forall.
Qed.
End spec.

(** Symbolic execution over regions and address spaces. *)
Ltac vlk := cbn [v_regions v_aspaces set_regions set_aspaces v_heap v_mach v_bufs v_errno];
  repeat first [rewrite lookup_insert_eq | rewrite lookup_insert_ne by congruence];
  first [eassumption | reflexivity].
Ltac vstep :=
  match goal with
  | |- wp (bind_ _ _) _ _ => apply wp_bind
  | |- wp (ret_ _) _ _ => apply wp_ret
  | |- wp (get_ _) _ _ => apply wp_get
  | |- wp (mod_ _) _ _ => apply wp_mod
  | |- wp (errno _) _ _ => apply wp_mod
  | |- wp (ld_reg _) _ _ => eapply wp_ld_reg; [vlk|done|]
  | |- wp (upd_reg _ _) _ _ => eapply wp_upd_reg; [vlk|done|]
  | |- wp (ld_as _) _ _ => eapply wp_ld_as; [vlk|done|]
  | |- wp (upd_as _ _) _ _ => eapply wp_upd_as; [vlk|done|]
  end.
Ltac vrun := repeat (vstep; cbv beta).

Ltac rg_tac :=
  intros; cbn [v_regions set_regions set_aspaces];
  repeat first [ reflexivity | erewrite rg_insert; [|vlk|reflexivity|reflexivity|reflexivity] ].

Ltac vlinks_tac :=
  unfold links; cbn [v_regions set_regions set_aspaces];
  rewrite ?lookup_insert; repeat case_decide; subst; try congruence;
  repeat match goal with H : ?m !! ?p = Some _ |- _ => rewrite H end; cbn; try congruence;
  try (match goal with |- context [_ <$> ?m !! ?q] => destruct (m !! q); reflexivity end).

Section insert.
Context {H : Type} `{!Allocator H}.
Context (s : vmm H) (a : Z) (l1 l2 : list Z) (p : Z) (r : region) (A : aspace).
Hypotheses (Ha : as_list s a (l1 ++ l2)) (Hp : p ∉ l1 ++ l2) (Hp0 : p <> 0)
  (Hr : v_regions s !! p = Some r) (H1 : 0 <= r_addr r) (H2 : 0 < r_size r)
  (H3 : r_addr r + r_size r <= VM_USER_END) (Hfit : fits s l1 p l2) (HA : v_aspaces s !! a = Some A).

(** The object linked in, and nothing but the list touched. *)
Definition region_inserted (s' : vmm H) : Prop := as_list s' a (l1 ++ p :: l2) /\ only_list s s' a /\
  forall q, q ∉ l1 ++ p :: l2 -> v_regions s' !! q = v_regions s !! q.

Lemma not_in_inserted q : q ∉ l1 ++ p :: l2 -> q <> p /\ forall x, x ∈ l1 ++ l2 -> q <> x.
Proof. intros Hq. split; [|intros x Hx]; intros ->; apply Hq; in_tac. Qed.

Ltac others_tac := let q := fresh "q" in let Hq := fresh "Hq" in let Hqp := fresh "Hqp" in let Hqx := fresh "Hqx" in
  intros q Hq; destruct (not_in_inserted q Hq) as [Hqp Hqx]; cbn [v_regions set_regions set_aspaces];
  rewrite ?lookup_insert_ne by (first [congruence | apply not_eq_sym, Hqx; done]); reflexivity.

Lemma only_list_intro s' f z : (forall q, rg (v_regions s') q = rg (v_regions s) q) ->
  v_aspaces s' = <[a := set_last z (set_first f A)]> (v_aspaces s) ->
  v_heap s' = v_heap s -> v_mach s' = v_mach s -> v_bufs s' = v_bufs s -> v_errno s' = v_errno s ->
  only_list s s' a.
Proof.
  intros Hg E ? ? ? ?. split; [done| |done]. intros A' HA'. rewrite HA in HA'. injection HA' as <-. eauto.
Qed.

Lemma HA_ends : as_first A = hd0 0 (l1 ++ l2) /\ as_last A = last0 0 (l1 ++ l2).
Proof. destruct (al_as _ _ _ Ha) as (A' & HA' & ? & ?). rewrite HA in HA'. by injection HA' as <-. Qed.

Lemma p_ne q : q ∈ l1 ++ l2 -> q <> p /\ q <> 0.
Proof.
  intros Hq. split; [by intros ->|]. by destruct (al_region _ _ _ _ Ha Hq) as (? & _ & ? & _).
Qed.

Let done_ (_ : unit) (s' : vmm H) : Prop := region_inserted s'.

Lemma insert_first_wp : l1 = [] -> wp (insert_first a p) done_ s.
Proof.
  intros E1. pose proof (al_nz _ _ _ Ha) as Ha0. destruct HA_ends as [Ef El]. rewrite E1 in Ef, El. cbn [app] in Ef, El.
  unfold insert_first. vrun.
  destruct (decide (l2 = [])) as [E2|Hne].
  - rewrite E2 in Ef, El. rewrite Ef, El. cbn [hd0 last0 Z.eqb negb]. vrun.
    split; [|split; [|others_tac]].
    + eapply (as_inserted s _ a l1 p l2 r); try done; rewrite ?E1, ?E2.
      * split; [cbn [hd0 last0]; vlinks_tac|]. intros q Hq. by apply elem_of_nil in Hq.
      * rg_tac.
      * cbn. by rewrite lookup_insert_eq.
      * done.
      * done.
    + eapply (only_list_intro _ p p); try done; [rg_tac|]. cbn. by rewrite insert_insert_eq.
  - assert (Hx : hd0 0 l2 ∈ l1 ++ l2) by (rewrite E1; by apply hd0_in).
    assert (Hy : last0 0 l2 ∈ l1 ++ l2) by (rewrite E1; by apply last0_in).
    rewrite Ef, El. destruct (p_ne _ Hx) as [Hxp Hx0]. destruct (p_ne _ Hy) as [_ Hy0].
    destruct (al_region _ _ _ _ Ha Hx) as (rx & Hrx & _).
    rewrite (proj2 (Z.eqb_neq _ 0) Hx0), (proj2 (Z.eqb_neq _ 0) Hy0). cbn [negb]. vrun.
    split; [|split; [|others_tac]].
    + eapply (as_inserted s _ a l1 p l2 r); try done; rewrite ?E1.
      * split; [cbn [last0]; vlinks_tac|]. intros q Hq. cbn [last0 app] in *.
        assert (Hq' : q ∈ l1 ++ l2) by by rewrite E1.
        destruct (p_ne _ Hq') as [? ?]. vlinks_tac.
      * rg_tac.
      * cbn. by rewrite lookup_insert_eq.
      * done.
      * cbn. rewrite El. destruct l2; done.
    + eapply (only_list_intro _ p (as_last A)); try done; try rg_tac; cbn; by destruct A.
Qed.

Lemma insert_last_wp : l1 <> [] -> l2 = [] -> wp (insert_last a p) done_ s.
Proof.
  intros Hne E2. pose proof (al_nz _ _ _ Ha) as Ha0. destruct HA_ends as [Ef El].
  rewrite E2, app_nil_r in Ef, El.
  assert (Hy : last0 0 l1 ∈ l1 ++ l2) by (rewrite E2, app_nil_r; by apply last0_in).
  destruct (p_ne _ Hy) as [Hyp Hy0]. destruct (al_region _ _ _ _ Ha Hy) as (ry & Hry & _).
  unfold insert_last. vrun. rewrite El. vrun. split; [|split; [|others_tac]].
  - eapply (as_inserted s _ a l1 p l2 r); try done; rewrite ?E2.
    + split; [cbn [hd0]; vlinks_tac|]. intros q Hq. cbn [hd0] in *.
      assert (Hq' : q ∈ l1 ++ l2) by by rewrite E2.
      destruct (p_ne _ Hq') as [? ?]. vlinks_tac.
    + rg_tac.
    + cbn. by rewrite lookup_insert_eq.
    + cbn. rewrite Ef. destruct l1; done.
    + done.
  - eapply (only_list_intro _ (as_first A) p); try done; try rg_tac; cbn; by destruct A.
Qed.

Lemma between_step_wp k tmp t nx n k2 : l1 = k ++ [tmp] -> l2 = nx :: k2 ->
  v_regions s !! tmp = Some t -> v_regions s !! nx = Some n ->
  wp (upd_reg p (set_r_next nx) ;;; upd_reg nx (set_r_prev p) ;;; upd_reg p (set_r_prev tmp) ;;;
      upd_reg tmp (set_r_next p) ;;; ret_ (inr tt : Z + unit))
    (fun x s' => if x is inr _ then region_inserted s' else False) s.
Proof.
  intros E1 E2 Ht Hn. destruct HA_ends as [Ef El].
  assert (Htl : tmp ∈ l1 ++ l2) by (rewrite E1; in_tac). assert (Hnl : nx ∈ l1 ++ l2) by (rewrite E2; in_tac).
  destruct (p_ne _ Htl) as [Htp Ht0]. destruct (p_ne _ Hnl) as [Hnp Hn0].
  assert (Htn : tmp <> nx).
  { intros ->. destruct (al_dl _ _ _ Ha) as [_ Hnd]. apply NoDup_app in Hnd as (_ & Hd & _).
    apply (Hd nx); [rewrite E1|rewrite E2]; in_tac. }
  vrun. split; [|split; [|others_tac]].
  - eapply (as_inserted s _ a l1 p l2 r A); try done.
    + assert (last0 0 l1 = tmp) as -> by (rewrite E1; apply last0_snoc).
      assert (hd0 0 l2 = nx) as -> by by rewrite E2. split; [vlinks_tac|].
      intros q Hq. destruct (p_ne _ Hq) as [? ?]. vlinks_tac.
    + rg_tac.
    + rewrite Ef, hd0_app, E1. by destruct k.
    + rewrite El, last0_app, E2. done.
  - eapply (only_list_intro _ (as_first A) (as_last A)); try done; try rg_tac. cbn.
    rewrite insert_id; [done|]. rewrite HA. by destruct A.
Qed.

Lemma between_loop_wp k tmp t k1 nx k2 fuel : l1 = k ++ tmp :: k1 -> l2 = nx :: k2 ->
  v_regions s !! tmp = Some t -> (length k1 < fuel)%nat ->
  wp (loop fuel (fun tmp =>
    do t <- ld_reg tmp;
    if r_next t =? 0 then ret_ (inr tt)
    else
      do r <- ld_reg p;
      do nx <- ld_reg (r_next t);
      if (r_end t <=? r_addr r) && (r_end r <=? r_addr nx) then
        upd_reg p (set_r_next (r_next t)) ;;;
        upd_reg (r_next t) (set_r_prev p) ;;;
        upd_reg p (set_r_prev tmp) ;;;
        upd_reg tmp (set_r_next p) ;;;
        ret_ (inr tt)
      else ret_ (inl (r_next t))) tmp) done_ s.
Proof.
  intros E1 E2. revert k tmp t fuel E1. induction k1 as [|y k1 IH]; intros k tmp t fuel E1 Ht Hfuel;
    (destruct fuel as [|fuel]; [cbn in Hfuel; lia|]); cbn [loop].
  all: assert (Htl : tmp ∈ l1 ++ l2) by (rewrite E1; in_tac).
  all: destruct (p_ne _ Htl) as [Htp Ht0].
  all: destruct (al_region _ _ _ _ Ha Htl) as (t' & Ht' & _ & Elot & Ehit & Eet & _);
    rewrite Ht in Ht'; injection Ht' as <-.
  all: destruct (al_dl _ _ _ Ha) as [Hseg _]; rewrite E1, <- app_assoc in Hseg; cbn [app] in Hseg;
    apply dseg_app in Hseg as [_ (_ & Hlk & _)]; rewrite (links_lookup _ _ _ Ht) in Hlk; injection Hlk as _ Hnx;
    cbn in Hnx.
  all: apply wp_bind; vrun; rewrite Hnx.
  all: pose proof Hfit as [Hf1 Hf2].
  - rewrite E2 in Hnx |- *. cbn [hd0] in *.
    assert (Hnl : nx ∈ l1 ++ l2) by (rewrite E2; in_tac).
    destruct (al_region _ _ _ _ Ha Hnl) as (n & Hn & Hn0 & Elon & _).
    rewrite (proj2 (Z.eqb_neq nx 0)) by done. vrun.
    assert (Hle1 : r_end t <= r_addr r).
    { rewrite <- Ehit, <- (lo_lookup _ _ _ Hr). apply Hf1. rewrite E1. in_tac. }
    assert (Hle2 : r_end r <= r_addr n).
    { rewrite <- Elon. unfold r_end. rewrite w32_small by (unfold VM_USER_END in *; lia).
      rewrite <- (hi_lookup _ _ _ Hr). apply Hf2. rewrite E2. in_tac. }
    rewrite (proj2 (Z.leb_le _ _) Hle1), (proj2 (Z.leb_le _ _) Hle2). cbn [andb].
    eapply wp_mono; [eapply (between_step_wp k tmp t nx n k2); done|].
    intros [?|[]] s' Hs'; [done|]. by apply wp_ret.
  - cbn [hd0 app]. assert (Hyl : y ∈ l1 ++ l2) by (rewrite E1; in_tac).
    destruct (al_region _ _ _ _ Ha Hyl) as (n & Hn & Hn0 & Elon & Ehin & _ & _ & Hsz & _).
    rewrite (proj2 (Z.eqb_neq y 0)) by done. vrun.
    assert (Hgt : r_addr n < r_end r).
    { rewrite <- Elon. unfold r_end. rewrite w32_small by (unfold VM_USER_END in *; lia).
      pose proof (lo_lt_hi _ _ _ _ Ha Hyl). rewrite <- (lo_lookup _ _ _ Hr).
      assert (hi (v_regions s) y <= lo (v_regions s) p) by (apply Hf1; rewrite E1; in_tac). lia. }
    rewrite (proj2 (Z.leb_gt _ _) Hgt), andb_false_r. apply wp_ret.
    apply (IH (k ++ [tmp]) y n); [by rewrite <- app_assoc|done|cbn in Hfuel; lia].
Qed.

Lemma insert_region_wp : wp (_insert_region a p) done_ s.
Proof.
  pose proof (al_nz _ _ _ Ha) as Ha0. destruct HA_ends as [Ef El]. pose proof Hfit as [Hf1 Hf2].
  assert (Er : r_end r = hi (v_regions s) p /\ r_addr r = lo (v_regions s) p).
  { rewrite (hi_lookup _ _ _ Hr), (lo_lookup _ _ _ Hr). unfold r_end. split; [|done].
    apply w32_small. unfold VM_USER_END in *. lia. }
  destruct Er as [Ee Ea].
  unfold _insert_region. vrun. rewrite Ef, El.
  destruct (decide (l1 = [])) as [E1|Hne1].
  - eapply (wp_mono _ (fun (b : bool) s1 => b = true /\ s1 = s)).
    { destruct (decide (l2 = [])) as [E2|Hne2]; [rewrite E1, E2; by apply wp_ret|].
      assert (Hx : hd0 0 l2 ∈ l1 ++ l2) by (rewrite E1; by apply hd0_in).
      destruct (p_ne _ Hx) as [_ Hx0]. destruct (al_region _ _ _ _ Ha Hx) as (x & Hrx & _ & Elo & _).
      rewrite E1. cbn [app]. rewrite (proj2 (Z.eqb_neq _ 0) Hx0). vrun. split; [|done].
      apply Z.leb_le. rewrite Ee, <- Elo. apply Hf2. by apply hd0_in. }
    intros b s1 [-> ->]. by apply insert_first_wp.
  - assert (Hx : hd0 0 l1 ∈ l1) by by apply hd0_in.
    assert (Hx' : hd0 0 (l1 ++ l2) = hd0 0 l1) by (rewrite hd0_app; by destruct l1).
    assert (Hxl : hd0 0 l1 ∈ l1 ++ l2) by in_tac.
    destruct (p_ne _ Hxl) as [_ Hx0]. destruct (al_region _ _ _ _ Ha Hxl) as (x & Hrx & _ & Elo & _).
    rewrite Hx'. eapply (wp_mono _ (fun (b : bool) s1 => b = false /\ s1 = s)).
    { rewrite (proj2 (Z.eqb_neq _ 0) Hx0). vrun. split; [|done]. apply Z.leb_gt.
      rewrite Ee, <- Elo. pose proof (lo_lt_hi _ _ _ _ Ha Hxl). specialize (Hf1 _ Hx).
      rewrite (hi_lookup _ _ _ Hr). rewrite (lo_lookup _ _ _ Hr) in Hf1. lia. }
    intros b s1 [-> ->].
    assert (Hy : last0 0 (l1 ++ l2) ∈ l1 ++ l2) by (apply last0_in; by destruct l1).
    destruct (p_ne _ Hy) as [_ Hy0]. destruct (al_region _ _ _ _ Ha Hy) as (y & Hry & _ & Eloy & Ehiy & _).
    vrun. rewrite Ea, <- Ehiy.
    destruct (decide (l2 = [])) as [E2|Hne2].
    + rewrite (proj2 (Z.leb_le _ _)); [by apply insert_last_wp|]. apply Hf1.
      rewrite E2, app_nil_r in *. by apply last0_in.
    + assert (Hyl2 : last0 0 (l1 ++ l2) ∈ l2) by (rewrite last0_app; by apply last0_in).
      rewrite (proj2 (Z.leb_gt _ _)).
      2:{ pose proof (lo_lt_hi _ _ _ _ Ha Hy). specialize (Hf2 _ Hyl2).
          rewrite (hi_lookup _ _ _ Hr) in Hf2. rewrite (lo_lookup _ _ _ Hr). lia. }
      unfold insert_between. vrun. rewrite Ef, Hx'.
      pose proof (dlist_length _ _ (al_dl _ _ _ Ha)) as Hlen. rewrite length_app in Hlen.
      assert (exists z k1, l1 = z :: k1) as (z & k1 & E1) by (clear -Hne1; destruct l1; [done|eauto]).
      assert (exists nx k2, l2 = nx :: k2) as (nx & k2 & E2) by (clear -Hne2; destruct l2; [done|eauto]).
      rewrite E1 in Hrx |- *. cbn [hd0] in *.
      eapply (between_loop_wp [] z x k1 nx k2); try done. rewrite E1 in Hlen. cbn in Hlen. lia.
Qed.
End insert.

Section remove.
Context {H : Type} `{!Allocator H}.
Context (s : vmm H) (a : Z) (l1 l2 : list Z) (p : Z) (A : aspace).
Hypotheses (Ha : as_list s a (l1 ++ p :: l2)) (HA : v_aspaces s !! a = Some A).

Definition region_removed (s' : vmm H) : Prop := as_list s' a (l1 ++ l2) /\ only_list s s' a.

Lemma as_removed (s' : vmm H) A' : unlinked_between (v_regions s) (v_regions s') (last0 0 l1) (hd0 0 l2) (l1 ++ l2) ->
  (forall q, rg (v_regions s') q = rg (v_regions s) q) ->
  v_aspaces s' !! a = Some A' -> as_first A' = hd0 0 (l1 ++ l2) -> as_last A' = last0 0 (l1 ++ l2) ->
  as_list s' a (l1 ++ l2).
Proof.
  intros Hu Hg HA' Hf Hl. split.
  - eauto.
  - apply Ha.
  - eapply dlist_remove; [apply Ha|done].
  - intros q r Hq Hr. eapply (as_list_rg s s' a _ q r Ha); [apply Hg|in_tac|done].
  - eapply sorted_ranges; [intros q _; apply Hg|]. pose proof (al_sorted _ _ _ Ha) as Hs.
    rewrite !StronglySorted_app in Hs |- *. destruct Hs as (H12 & H1 & H2).
    apply StronglySorted_inv in H2 as [H2 _]. split_and!; [|done|done].
    intros x y Hx Hy. apply H12; [done|by right].
Qed.

Lemma rest_region q : q ∈ l1 ++ l2 -> q <> p /\ q <> 0 /\ exists rq, v_regions s !! q = Some rq /\
  forall r, v_regions s !! p = Some r -> r_addr rq <> r_addr r.
Proof.
  intros Hq. destruct (sorted_at _ _ _ _ _ Ha) as [Hs1 Hs2]. destruct (al_dl _ _ _ Ha) as [_ Hnd].
  assert (Hq' : q ∈ l1 ++ p :: l2) by in_tac. assert (Hpl : p ∈ l1 ++ p :: l2) by in_tac.
  destruct (al_region _ _ _ _ Ha Hq') as (rq & Hrq & ? & Elq & _). split_and!; [|done|].
  - intros ->. by apply NoDup_skip in Hnd as [? _].
  - exists rq. split; [done|]. intros r Hr.
    rewrite <- Elq, <- (lo_lookup _ _ _ Hr). pose proof (lo_lt_hi _ _ _ _ Ha Hq'). pose proof (lo_lt_hi _ _ _ _ Ha Hpl).
    apply elem_of_app in Hq as [Hq|Hq]; [specialize (Hs1 _ Hq)|specialize (Hs2 _ Hq)]; lia.
Qed.

(** The links of [p] and the ends of the list around it. *)
Lemma region_around : exists r, v_regions s !! p = Some r /\ p <> 0 /\ r_prev r = last0 0 l1 /\ r_next r = hd0 0 l2 /\
  as_first A = hd0 p l1 /\ as_last A = last0 p l2 /\ NoDup (l1 ++ l2).
Proof.
  destruct (al_as _ _ _ Ha) as (A' & HA' & Ef & El). rewrite HA in HA'. injection HA' as <-.
  rewrite hd0_app in Ef. rewrite last0_app in El.
  assert (Hpl : p ∈ l1 ++ p :: l2) by in_tac. destruct (al_region _ _ _ _ Ha Hpl) as (r & Hr & Hp0 & _).
  pose proof (al_dl _ _ _ Ha) as [Hseg Hnd]. apply dseg_app in Hseg as [_ (_ & Hlk & _)].
  rewrite (links_lookup _ _ _ Hr) in Hlk. injection Hlk as Hpv Hnx.
  exists r. split_and!; try done. by apply NoDup_skip in Hnd as [_ ?].
Qed.

(** What the code writes: the links of the neighbours and the ends. *)
Let x := last0 0 l1.
Let y := hd0 0 l2.

Definition links_removed (s1 : vmm H) : Prop :=
  unlinked_between (v_regions s) (v_regions s1) x y (l1 ++ l2) /\
  (forall q, rg (v_regions s1) q = rg (v_regions s) q) /\
  v_aspaces s1 = <[a := set_last (if decide (l2 = []) then x else as_last A)
                       (set_first (if decide (l1 = []) then y else as_first A) A)]> (v_aspaces s) /\
  (v_heap s1 = v_heap s /\ v_mach s1 = v_mach s /\ v_bufs s1 = v_bufs s /\ v_errno s1 = v_errno s) /\
  forall q, q ∉ l1 ++ l2 -> v_regions s1 !! q = v_regions s !! q.

Ltac links_case Ef El :=
  split_and!; try done;
  first [ intros q Hq; destruct (rest_region q Hq) as (? & ? & _); vlinks_tac
        | solve [rg_tac]
        | intros q Hq; cbn; rewrite ?lookup_insert_ne by (by intros ->); done
        | rewrite ?decide_True, ?decide_False by done; cbn; rewrite ?insert_insert_eq, <- ?Ef, <- ?El;
          first [ done | by destruct A | rewrite insert_id; [done|rewrite HA; by destruct A] ] ].

Lemma remove_links_wp : wp (_remove_region a p) (fun _ => links_removed) s.
Proof.
  pose proof (al_nz _ _ _ Ha) as Ha0. destruct region_around as (r & Hr & Hp0 & Hpv & Hnx & Ef & El & Hnd2).
  assert (Hx : l1 <> [] -> x ∈ l1 ++ l2 /\ hd0 p l1 ∈ l1 ++ l2).
  { intros Hne. split; apply elem_of_app; left; [by apply last0_in|by apply hd0_in]. }
  assert (Hy : l2 <> [] -> y ∈ l1 ++ l2 /\ last0 p l2 ∈ l1 ++ l2).
  { intros Hne. split; apply elem_of_app; right; [by apply hd0_in|by apply last0_in]. }
  assert (Exl : l1 = [] -> x = 0 /\ hd0 p l1 = p) by (unfold x; by intros ->).
  assert (Eyl : l2 = [] -> y = 0 /\ last0 p l2 = p) by (unfold y; by intros ->).
  fold x in Hpv. fold y in Hnx. unfold _remove_region, links_removed. vrun. rewrite Ef, El, Hpv, Hnx.
  destruct (decide (l1 = [])) as [E1|Hne1]; destruct (decide (l2 = [])) as [E2|Hne2];
    try destruct (Exl E1) as [Ex Eh]; try destruct (Eyl E2) as [Ey Ez];
    try (destruct (Hx Hne1) as [Hxm Hhm]; destruct (rest_region _ Hxm) as (Hxp & Hx0 & rx & Hrx & _);
         destruct (rest_region _ Hhm) as (Hhp & Hh0 & rh & Hrh & Hhne); specialize (Hhne r Hr));
    try (destruct (Hy Hne2) as [Hym Hzm]; destruct (rest_region _ Hym) as (Hyp & Hy0 & ry & Hry & _);
         destruct (rest_region _ Hzm) as (Hzp & Hz0 & rz & Hrz & Hzne); specialize (Hzne r Hr)).
  - rewrite Ex, Ey, Eh, Ez. vrun. rewrite !Z.eqb_refl. cbn [negb Z.eqb]. vrun. rewrite Z.eqb_refl. vrun. links_case Ef El.
  - rewrite Ex, Eh. vrun. rewrite !Z.eqb_refl, (proj2 (Z.eqb_neq y 0)) by done. cbn [negb]. vrun.
    eapply (wp_mono _ (fun c s2 => r_addr c = r_addr rz /\ s2 =
      set_regions (<[y := set_r_prev 0 ry]> (v_regions s)) (set_aspaces (<[a := set_first y A]> (v_aspaces s)) s))).
    { destruct (decide (last0 p l2 = y)) as [E|E].
      - eapply wp_ld_reg; [cbn; rewrite E; apply lookup_insert_eq|done|]. split; [|done].
        rewrite E in Hrz. cbn. congruence.
      - eapply wp_ld_reg; [cbn; rewrite lookup_insert_ne by done; exact Hrz|done|]. done. }
    intros c s2 [-> ->]. rewrite (proj2 (Z.eqb_neq _ _) Hzne). vrun. links_case Ef El.
  - rewrite Ey, Ez. vrun. rewrite (proj2 (Z.eqb_neq _ _) Hhne). vrun. rewrite Z.eqb_refl, (proj2 (Z.eqb_neq x 0)) by done.
    cbn [negb]. vrun. links_case Ef El.
  - assert (Hxy : x <> y).
    { intros E. apply NoDup_app in Hnd2 as (_ & Hd & _). apply (Hd x); [by apply last0_in|rewrite E; by apply hd0_in]. }
    vrun. rewrite (proj2 (Z.eqb_neq _ _) Hhne). vrun. rewrite (proj2 (Z.eqb_neq _ _) Hzne). vrun. links_case Ef El.
Qed.

Lemma remove_region_wp : wp (_remove_region a p) (fun _ s' => region_removed s' /\
  forall q, q ∉ l1 ++ l2 -> v_regions s' !! q = v_regions s !! q) s.
Proof.
  destruct region_around as (r & Hr & _ & _ & _ & Ef & El & _).
  eapply wp_mono; [exact remove_links_wp|]. intros [] s1 (Hu & Hg & Eas & Hrest & Hsame). split; [|exact Hsame]. split.
  - eapply as_removed; [done|done|by rewrite Eas, lookup_insert_eq| |].
    + cbn. rewrite hd0_app. unfold y. destruct (decide (l1 = [])) as [->|D]; [done|]. rewrite Ef. by destruct l1.
    + cbn. rewrite last0_app. unfold x. destruct (decide (l2 = [])) as [->|D]; [done|]. rewrite El. by destruct l2.
  - split; [done| |done]. intros A' HA'. rewrite HA in HA'. injection HA' as <-. eauto.
Qed.
End remove.

(** ** A region that fits nowhere *)

Section dropped.
Context {H : Type} `{!Allocator H}.
Context (s : vmm H) (a : Z) (l : list Z) (p : Z) (r : region).
Hypotheses (Ha : as_list s a l) (Hp0 : p <> 0) (Hr : v_regions s !! p = Some r) (Hne : l <> [])
  (H1 : 0 <= r_addr r) (H2 : 0 < r_size r) (H3 : r_addr r + r_size r <= VM_USER_END)
  (Hno : forall l1 l2, l = l1 ++ l2 -> ~ fits s l1 p l2).

Lemma r_ends : r_end r = hi (v_regions s) p /\ r_addr r = lo (v_regions s) p.
Proof.
  rewrite (hi_lookup _ _ _ Hr), (lo_lookup _ _ _ Hr). unfold r_end. split; [|done].
  apply w32_small. unfold VM_USER_END in *. lia.
Qed.

(** Room between two neighbours is room in the list. *)
Lemma fits_between l1 x y l2 : l = l1 ++ x :: y :: l2 -> hi (v_regions s) x <= lo (v_regions s) p ->
  hi (v_regions s) p <= lo (v_regions s) y -> False.
Proof.
  intros El Hx Hy. apply (Hno (l1 ++ [x]) (y :: l2)); [by rewrite <- app_assoc|].
  assert (Ha1 : as_list s a (l1 ++ x :: y :: l2)) by by rewrite <- El.
  assert (Ha2 : as_list s a ((l1 ++ [x]) ++ y :: l2)) by by rewrite <- app_assoc.
  destruct (sorted_at _ _ _ _ _ Ha1) as [Hs1 _]. destruct (sorted_at _ _ _ _ _ Ha2) as [_ Hs2].
  pose proof (lo_lt_hi _ _ _ x Ha1 ltac:(in_tac)). pose proof (lo_lt_hi _ _ _ y Ha1 ltac:(in_tac)).
  split; intros q.
  - intros [Hq|Hq%list_elem_of_singleton]%elem_of_app; [specialize (Hs1 q Hq); lia|by subst q].
  - intros [->|Hq]%elem_of_cons; [done|]. specialize (Hs2 q Hq). lia.
Qed.

Lemma dropped_loop k tmp k1 fuel : l = k ++ tmp :: k1 -> (length k1 < fuel)%nat ->
  wp (loop fuel (fun tmp =>
    do t <- ld_reg tmp;
    if r_next t =? 0 then ret_ (inr tt)
    else
      do r <- ld_reg p;
      do nx <- ld_reg (r_next t);
      if (r_end t <=? r_addr r) && (r_end r <=? r_addr nx) then
        upd_reg p (set_r_next (r_next t)) ;;;
        upd_reg (r_next t) (set_r_prev p) ;;;
        upd_reg p (set_r_prev tmp) ;;;
        upd_reg tmp (set_r_next p) ;;;
        ret_ (inr tt)
      else ret_ (inl (r_next t))) tmp) (fun _ s' => s' = s) s.
Proof.
  revert k tmp fuel. induction k1 as [|y k1 IH]; intros k tmp fuel El Hfuel;
    (destruct fuel as [|fuel]; [cbn in Hfuel; lia|]); cbn [loop].
  all: assert (Ht : tmp ∈ l) by (rewrite El; in_tac).
  all: destruct (al_region _ _ _ _ Ha Ht) as (t & Hrt & Ht0 & _ & Ehit & _).
  all: destruct (al_dl _ _ _ Ha) as [Hseg _]; rewrite El in Hseg; apply dseg_app in Hseg as [_ (_ & Hlk & _)];
    rewrite (links_lookup _ _ _ Hrt) in Hlk; injection Hlk as _ Hnx; cbn in Hnx.
  all: apply wp_bind; vrun; rewrite Hnx; cbn [hd0].
  - cbn [Z.eqb]. by vrun.
  - assert (Hy : y ∈ l) by (rewrite El; in_tac).
    destruct (al_region _ _ _ _ Ha Hy) as (n & Hn & Hn0 & Elon & _).
    rewrite (proj2 (Z.eqb_neq y 0)) by done. vrun. destruct r_ends as [-> ->].
    destruct (Z.leb_spec (r_end t) (lo (v_regions s) p)) as [Hle1|]; cbn [andb].
    + destruct (Z.leb_spec (hi (v_regions s) p) (r_addr n)) as [Hle2|].
      * exfalso. eapply fits_between; [exact El|lia|lia].
      * apply wp_ret. apply (IH (k ++ [tmp]) y); [by rewrite <- app_assoc|cbn in Hfuel; lia].
    + apply wp_ret. apply (IH (k ++ [tmp]) y); [by rewrite <- app_assoc|cbn in Hfuel; lia].
Qed.

Lemma insert_dropped_wp : wp (_insert_region a p) (fun _ s' => s' = s) s.
Proof.
  destruct (al_as _ _ _ Ha) as (A & HA & Ef & El). pose proof (al_nz _ _ _ Ha).
  assert (Hx : hd0 0 l ∈ l) by by apply hd0_in. assert (Hy : last0 0 l ∈ l) by by apply last0_in.
  destruct (al_region _ _ _ _ Ha Hx) as (x & Hrx & Hx0 & Elox & _).
  destruct (al_region _ _ _ _ Ha Hy) as (y & Hry & Hy0 & _ & Ehiy & _).
  unfold _insert_region. vrun. rewrite Ef, El, (proj2 (Z.eqb_neq _ 0) Hx0). vrun.
  destruct r_ends as [-> ->]. rewrite (proj2 (Z.leb_gt _ _)).
  2:{ rewrite <- Elox. apply Z.nle_gt. intros Hle. apply (Hno [] l eq_refl). split; [intros q Hq; by apply elem_of_nil in Hq|].
      intros q Hq. pose proof (al_sorted _ _ _ Ha) as Hs. destruct l as [|z k]; [done|]. cbn [hd0] in *.
      apply elem_of_cons in Hq as [->|Hq]; [done|]. apply StronglySorted_inv in Hs as [_ Hall].
      rewrite Forall_forall in Hall. specialize (Hall q Hq). unfold before in Hall.
      pose proof (lo_lt_hi _ _ _ z Ha ltac:(in_tac)). lia. }
  vrun. rewrite (proj2 (Z.leb_gt _ _)).
  2:{ rewrite <- Ehiy. apply Z.nle_gt. intros Hle. apply (Hno l []); [by rewrite app_nil_r|].
      split; [|intros q Hq; by apply elem_of_nil in Hq].
      intros q Hq. destruct l as [|z k] using rev_ind; [done|]. rewrite last0_snoc in *.
      apply elem_of_app in Hq as [Hq|Hq%list_elem_of_singleton]; [|by subst q].
      destruct (sorted_at _ _ _ _ _ Ha) as [Hs _]. specialize (Hs q Hq).
      pose proof (lo_lt_hi _ _ _ z Ha ltac:(in_tac)). lia. }
  unfold insert_between. vrun. rewrite Ef.
  pose proof (dlist_length _ _ (al_dl _ _ _ Ha)) as Hlen.
  assert (exists z k, l = z :: k) as (z & k & E) by (clear -Hne; destruct l; [done|eauto]).
  rewrite E at 1. cbn [hd0]. apply (dropped_loop [] z k); [done|]. rewrite E in Hlen. cbn in Hlen. lia.
Qed.
End dropped.
