(* ===== verification/ForkSpec.v ===== *)
(** * Forking the pages of an address space

    [_fork_aspace] duplicates every page of the parent's regions and maps
    the copy into the child's directory, while the kernel's directory is
    loaded.  The child's own tables, the kernel's tables and the frames that
    hold data are kept apart by [guarded], which every step preserves; the
    parent's own tables are among the data. *)

From S2P Require Import Prelude Pmm Paging MmuSpec SpaceSpec DupSpec Vmm.

#[local] Open Scope Z_scope.

(** The loaded directory [dir], a child's directory [pd] and the frames [F]
    of data are apart, and the allocator knows that they are in use. *)
Record guarded (p : pmm) (m : gmap Z Z) (dir pd : Z) (F : Z -> Prop) : Prop := {
  gd_mem : inv p;
  gd_dir : dir_ok m dir;
  gd_win : present (pde m dir 1021) = true;
  gd_for : foreign m dir pd;
  gd_dir_used : forall i, 0 <= i < 1024 -> i <> 1022 -> present (pde m dir i) = true -> frame_used p (frame_of (pde m dir i) / 4096) = true;
  gd_pd_used : forall i, 0 <= i < 1024 -> present (pde m pd i) = true -> frame_used p (frame_of (pde m pd i) / 4096) = true;
  gd_clean : forall i, 0 <= i < 768 -> pde m pd i = 0 \/ present (pde m pd i) = true;
  gd_apart : forall q, own_word m pd q -> ~ table_word m dir q;
  gd_data : forall f, F f -> (0x1000 | f) /\ word f /\ frame_used p (f / 4096) = true /\
    forall q, frame_words f q -> ~ table_word m dir q /\ ~ own_word m pd q;
}.

(** What a step that touches only the page [v] of the child leaves alone. *)
Record evolves (dir pd : Z) (F : Z -> Prop) (v : Z) (m m' : gmap Z Z) : Prop := {
  ev_child : forall u, user u -> u / 4096 <> v / 4096 -> walk_dir m pd u <> None -> walk_dir m' pd u = walk_dir m pd u;
  ev_data : forall f q, F f -> frame_words f q -> m' !! q = m !! q;
  ev_pde : forall i, 0 <= i < 1024 -> i <> 1022 -> pde m' dir i = pde m dir i;
}.

Lemma evolves_trans dir pd (F : Z -> Prop) v m1 m2 m3 : evolves dir pd F v m1 m2 -> evolves dir pd F v m2 m3 -> evolves dir pd F v m1 m3.
Proof.
  intros E1 E2. split.
  - intros u Hu Hne Hw. pose proof (ev_child _ _ _ _ _ _ E1 u Hu Hne Hw) as E. rewrite <- E.
    apply (ev_child _ _ _ _ _ _ E2); [done|done|]. by rewrite E.
  - intros f q Hf Hq. by rewrite (ev_data _ _ _ _ _ _ E2 f q), (ev_data _ _ _ _ _ _ E1 f q).
  - intros i Hi Hi2. by rewrite (ev_pde _ _ _ _ _ _ E2), (ev_pde _ _ _ _ _ _ E1).
Qed.

Lemma evolves_weaken dir pd (F G : Z -> Prop) v m m' : (forall f, G f -> F f) -> evolves dir pd F v m m' -> evolves dir pd G v m m'.
Proof. intros HG [E1 E2 E3]. split; [done| |done]. intros f q Hf. by apply E2, HG. Qed.

(** The parent's tables are data: the parent keeps its translations. *)
Definition tables_in (F : Z -> Prop) (m : gmap Z Z) (sp : Z) : Prop :=
  forall i, own_slot i -> present (pde m sp i) = true -> F (frame_of (pde m sp i)).

Lemma evolves_space dir sp pd F v m m' : beside m dir sp -> tables_in F m sp -> dir_base m' dir -> evolves dir pd F v m m' ->
  same_space dir sp m m'.
Proof.
  intros B HF Hd Ev. apply beside_same; [done|done| |].
  - intros q. apply same_slots_words. apply Ev.
  - intros q (i & Hi & Hp & Hq). by apply (ev_data _ _ _ _ _ _ Ev (frame_of (pde m sp i)) q (HF i Hi Hp)).
Qed.

Lemma tables_same dir sp F m m' : same_space dir sp m m' -> tables_in F m sp -> tables_in F m' sp.
Proof. intros S HF i Hi. rewrite (ss_pde _ _ _ _ S) by (destruct Hi; lia). by apply HF. Qed.

(** A step that keeps the slots of the loaded directory and every data word
    outside [D]. *)
Lemma step_guarded p m m' dir pd F (D : Z -> Prop) v : guarded p m dir pd F -> dir_ok m' dir ->
  (forall i, 0 <= i < 1024 -> i <> 1022 -> pde m' dir i = pde m dir i) ->
  (forall q, ~ table_word m dir q -> ~ D q -> m' !! q = m !! q) ->
  (forall q, D q -> ~ own_word m pd q /\ forall f, F f -> ~ frame_words f q) ->
  guarded p m' dir pd F /\ evolves dir pd F v m m'.
Proof.
  intros G Hok Hslot Hdata HD.
  assert (Hown : forall q, own_word m pd q -> m' !! q = m !! q).
  { intros q Hq. apply Hdata; [by apply (gd_apart _ _ _ _ _ G)|]. intros Hd. by apply (HD q Hd). }
  assert (Htab : forall q, table_word m' dir q -> table_word m dir q) by (intros q; by apply same_slots_words).
  pose proof (own_same_pde m m' dir pd (gd_for _ _ _ _ _ G) Hown) as Hpde.
  pose proof (own_same_word m m' dir pd (gd_for _ _ _ _ _ G) Hown) as Hw.
  split; split; try done.
  - apply G.
  - rewrite Hslot by lia. apply G.
  - apply (own_same_foreign m); [apply G|apply Hok|done].
  - intros i Hi Hi2. rewrite Hslot by done. by apply (gd_dir_used _ _ _ _ _ G).
  - intros i Hi. rewrite Hpde by done. by apply (gd_pd_used _ _ _ _ _ G).
  - intros i Hi. rewrite Hpde by lia. by apply (gd_clean _ _ _ _ _ G).
  - intros q Hq Ht. apply (gd_apart _ _ _ _ _ G q); [by apply Hw|by apply Htab].
  - intros f Hf. destruct (gd_data _ _ _ _ _ G f Hf) as (Ha & Hwf & Hu & Hq). split_and!; try done.
    intros q Hfq. destruct (Hq q Hfq) as [H1 H2]. split; [intros Ht; by apply H1, Htab|by rewrite Hw].
  - intros u Hu _ _. by apply (own_same_walk m m' dir pd (gd_for _ _ _ _ _ G) Hown).
  - intros f q Hf Hq. destruct (gd_data _ _ _ _ _ G f Hf) as (_ & _ & _ & Hn). apply Hdata; [by apply (Hn q Hq)|].
    intros Hd. by apply (proj2 (HD q Hd) f Hf).
Qed.

(** A step as [DupSpec] has it. *)
Lemma kept_guarded p m m' dir pd F D v : guarded p m dir pd F -> kept dir D m m' ->
  (forall q, D q -> ~ own_word m pd q /\ forall f, F f -> ~ frame_words f q) ->
  guarded p m' dir pd F /\ evolves dir pd F v m m'.
Proof.
  intros G K HD. by apply (step_guarded p m m' dir pd F D v G); [apply K..|].
Qed.

(** A page of the kernel is mapped anew. *)
Lemma remap_guarded p m m' dir pd F a w v : guarded p m dir pd F -> remapped m dir a w m' ->
  guarded p m' dir pd F /\ evolves dir pd F v m m'.
Proof.
  intros G R. apply (step_guarded p m m' dir pd F (fun _ => False) v G); [apply R| | |tauto].
  - intros i Hi _. by apply (re_pde _ _ _ _ _ R).
  - intros q Hq _. by apply R.
Qed.

(** ** The child's tables are written *)

Lemma got_used p i p' j : got_frame p i p' -> 0 <= j -> frame_used p j = true -> frame_used p' j = true.
Proof. intros (_ & _ & (Hb & _) & _) Hj Hu. rewrite Hb by done. by case_decide. Qed.

Lemma pde_index m dir i : words_ok m -> 0 <= frame_of (pde m dir i) / 4096.
Proof. intros Hw. destruct (frame_of_range (pde m dir i)) as (a & -> & Ha); [by apply word_at_word|]. Z.div_mod_to_equations. lia. Qed.

(** A frame is allocated. *)
Lemma guarded_got p i p' m dir pd F : guarded p m dir pd F -> got_frame p i p' -> guarded p' m dir pd F.
Proof.
  intros G Hg. pose proof (dir_words _ _ (gd_dir _ _ _ _ _ G)) as Hw. split; try apply G.
  - apply Hg.
  - intros j Hj Hj2 Hp. eapply got_used; [done|by apply pde_index|by apply (gd_dir_used _ _ _ _ _ G)].
  - intros j Hj Hp. eapply got_used; [done|by apply pde_index|by apply (gd_pd_used _ _ _ _ _ G)].
  - intros f Hf. destruct (gd_data _ _ _ _ _ G f Hf) as (Ha & Hwf & Hu & Hq). split_and!; try done.
    eapply got_used; [done| |done]. apply Z.div_pos; [apply Hwf|lia].
Qed.

(** A frame that was free belongs to no table and to no data. *)
Lemma fresh_apart p i m dir pd F q : guarded p m dir pd F -> frame_used p i = false -> frame_words (i * 4096) q ->
  ~ table_word m dir q /\ ~ own_word m pd q /\ forall f, F f -> ~ frame_words f q.
Proof.
  intros G Hi Hq. pose proof (dir_words _ _ (gd_dir _ _ _ _ _ G)) as Hw.
  apply page_word in Hq; [|by exists i]. rewrite Z.div_mul in Hq by lia. split_and!.
  - intros (k & Hk & Hk2 & Hp & Hq2). apply (page_word _ _ (pde_page _ _ _ Hw)) in Hq2.
    pose proof (gd_dir_used _ _ _ _ _ G k Hk Hk2 Hp). congruence.
  - intros (k & Hk & Hp & Hq2). apply (page_word _ _ (pde_page _ _ _ Hw)) in Hq2.
    pose proof (gd_pd_used _ _ _ _ _ G k ltac:(destruct Hk; lia) Hp). congruence.
  - intros f Hf Hq2. destruct (gd_data _ _ _ _ _ G f Hf) as (Ha & _ & Hu & _). apply page_word in Hq2; [|done]. congruence.
Qed.

(** A word of the child's tables is written. *)
Section own_write.
Context (p : pmm) (m : gmap Z Z) (dir pd : Z) (F : Z -> Prop) (q0 w : Z).
Hypotheses (G : guarded p m dir pd F) (Hq0 : own_word m pd q0) (Hw : word w).
Let m' := <[q0 := w]> m.

Lemma own_write_other q : ~ own_word m pd q -> m' !! q = m !! q.
Proof. intros Hq. unfold m'. rewrite lookup_insert_ne; [done|]. by intros <-. Qed.

Lemma own_write_words : words_ok m'.
Proof. apply words_ok_insert; [apply (gd_dir _ _ _ _ _ G)|done]. Qed.

Lemma own_write_table q : table_word m dir q -> m' !! q = m !! q.
Proof. intros Ht. apply own_write_other. intros Ho. by apply (gd_apart _ _ _ _ _ G q). Qed.

Lemma own_write_dir : dir_ok m' dir.
Proof. apply (tables_ok m); [apply G|apply own_write_words|apply own_write_table]. Qed.

Lemma own_write_pde i : 0 <= i < 1024 -> pde m' dir i = pde m dir i.
Proof. apply (tables_pde m); [apply G|apply own_write_table]. Qed.

Lemma own_write_tables q : table_word m' dir q <-> table_word m dir q.
Proof. apply (tables_words m); [apply G|apply own_write_table]. Qed.

Lemma own_write_data f q : F f -> frame_words f q -> m' !! q = m !! q.
Proof. intros Hf Hq. apply own_write_other. by apply (gd_data _ _ _ _ _ G f Hf). Qed.
End own_write.

(** An entry of one of the child's tables. *)
Lemma entry_guarded p m dir pd F v w : guarded p m dir pd F -> user v -> present (pde m pd (pd_idx v)) = true -> word w ->
  let m' := entry_written m pd (pd_idx v) (pt_idx v mod 1024) w in
  guarded p m' dir pd F /\ evolves dir pd F v m m' /\ forall u, user u -> walk_dir m' pd u =
    if decide (u / 4096 = v / 4096) then (if present w then Some (frame_of w + u mod 4096) else None) else walk_dir m pd u.
Proof.
  intros G Hv Hp Hw m'. destruct (user_idx v Hv) as (Hvw & Hi). pose proof (gd_for _ _ _ _ _ G) as Hf. pose proof (fo_pd _ _ _ Hf) as Hok.
  assert (Hk : 0 <= pt_idx v mod 1024 < 1024) by (apply Z.mod_pos_bound; lia).
  pose proof (own_entry m pd (pd_idx v) (pt_idx v mod 1024) Hok Hi Hk Hp) as Hq0.
  pose proof (entry_remapped m pd Hok v w Hvw ltac:(lia) Hp Hw) as R. fold m' in R.
  pose proof (re_pde _ _ _ _ _ R) as Hpde.
  pose proof (own_write_pde p m dir pd F _ w G Hq0 : forall i, _ -> pde m' dir i = _) as Hdpde.
  pose proof (own_write_tables p m dir pd F _ w G Hq0 : forall q, table_word m' dir q <-> _) as Htab.
  assert (Hown : forall q, own_word m' pd q -> own_word m pd q).
  { intros q (i & Hs & Hpi & Hq). rewrite Hpde in Hpi, Hq by (destruct Hs; lia). by exists i. }
  assert (Hwalk : forall u, user u -> walk_dir m' pd u = if decide (u / 4096 = v / 4096) then
      (if present w then Some (frame_of w + u mod 4096) else None) else walk_dir m pd u).
  { intros u Hu. destruct (user_idx u Hu) as (Huw & Hui). apply (re_walk _ _ _ _ _ R); [done|lia]. }
  split; [|split; [|exact Hwalk]]; split.
  - apply G.
  - exact (own_write_dir p m dir pd F _ w G Hq0 Hw).
  - rewrite Hdpde by lia. apply G.
  - split; [apply (own_write_dir p m dir pd F _ w G Hq0 Hw)|apply R|]. intros i Hii. rewrite Hpde by done. by apply (fo_sep _ _ _ Hf).
  - intros i Hii Hi2. rewrite Hdpde by done. by apply (gd_dir_used _ _ _ _ _ G).
  - intros i Hii. rewrite Hpde by done. by apply (gd_pd_used _ _ _ _ _ G).
  - intros i Hii. rewrite Hpde by lia. by apply (gd_clean _ _ _ _ _ G).
  - intros q Hq Ht. apply (gd_apart _ _ _ _ _ G q); [by apply Hown|by apply Htab].
  - intros f Hff. destruct (gd_data _ _ _ _ _ G f Hff) as (Ha & Hwf & Hu & Hq). split_and!; try done.
    intros q Hfq. destruct (Hq q Hfq) as [H1 H2]. split; [by rewrite Htab|by intros Ho; apply H2, Hown].
  - intros u Hu Hne _. by rewrite Hwalk, decide_False.
  - exact (own_write_data p m dir pd F _ w G Hq0).
  - intros i Hii _. by apply Hdpde.
Qed.

(** A table is installed in an empty slot of the child's directory. *)
Section table.
Context (p : pmm) (i : Z) (p' : pmm) (m : gmap Z Z) (dir pd : Z) (F : Z -> Prop) (j e : Z).
Hypotheses (G : guarded p m dir pd F) (Hg : got_frame p i p') (Hj : 0 <= j < 768) (Hempty : pde m pd j = 0)
  (He : word e) (Hp : present e = true) (Hfr : frame_of e = i * 4096).
Let m' := <[(pd + 4 * j) / 4 := e]> m.
Let Hok := fo_pd _ _ _ (gd_for _ _ _ _ _ G).

Lemma table_slot : own_word m pd ((pd + 4 * j) / 4).
Proof. apply own_pde; [exact Hok|lia]. Qed.

Lemma table_pde x : 0 <= x < 1024 -> pde m' pd x = if decide (j = x) then e else pde m pd x.
Proof.
  intros Hx. destruct (dir_frame _ _ Hok) as (a & Ea & Ha). unfold pde, m'.
  rewrite Ea, word_at_insert by lia. repeat case_decide; try done; lia.
Qed.

Lemma table_fresh x : 0 <= x < 1024 -> present (pde m pd x) = true -> frame_of (pde m pd x) <> i * 4096.
Proof.
  intros Hx Hpx E. pose proof (gd_pd_used _ _ _ _ _ G x Hx Hpx) as Hu. rewrite E, Z.div_mul in Hu by lia.
  destruct Hg as (_ & Hi & _). congruence.
Qed.

Lemma table_dir_ok : dir_ok m' pd.
Proof.
  split; [split|].
  - exact (own_write_words p m dir pd F _ e G He).
  - apply Hok.
  - rewrite table_pde, decide_False by lia. apply Hok.
  - intros x y Hx Hy Hx2 Hy2. rewrite !table_pde by done. repeat case_decide; subst; try done.
    + rewrite Hfr. intros _ Hpy E. by destruct (table_fresh y Hy Hpy).
    + rewrite Hfr. intros Hpx _ E. by destruct (table_fresh x Hx Hpx).
    + by apply (dir_inj _ _ Hok).
Qed.

Lemma table_words q : own_word m' pd q -> own_word m pd q \/ frame_words (i * 4096) q.
Proof.
  intros (x & Hs & Hpx & Hq). rewrite table_pde in Hpx, Hq by (destruct Hs; lia).
  case_decide; [right; by rewrite <- Hfr|left; by exists x].
Qed.

Lemma table_other x k : 0 <= x < 768 -> 0 <= k < 1024 -> present (pde m pd x) = true ->
  word_at m' (frame_of (pde m pd x) + 4 * k) = word_at m (frame_of (pde m pd x) + 4 * k).
Proof.
  intros Hx Hk Hpx. destruct (dir_rec _ _ Hok) as [Hrp Hrf].
  assert (Hne : frame_of (pde m pd x) <> pd).
  { rewrite <- Hrf at 2. intros E. assert (x = 1023); [|lia]. apply (dir_inj _ _ Hok); done || lia. }
  destruct (dir_frame _ _ Hok) as (a & Ea & _). destruct (frame_of_range (pde m pd x)) as (b & Eb & _); [apply word_at_word, Hok|].
  rewrite Eb in *. unfold m'. rewrite Ea, word_at_insert by lia. rewrite decide_False; [done|]. intros [-> _]. by apply Hne.
Qed.

Lemma table_walk u : user u -> walk_dir m pd u <> None -> walk_dir m' pd u = walk_dir m pd u.
Proof.
  intros Hu Hne. destruct (user_idx u Hu) as (Huw & Hui). unfold walk_dir in *. rewrite (dir_frame_of _ _ Hok) in *.
  fold (pde m' pd (pd_idx u)) (pde m pd (pd_idx u)) in *. rewrite table_pde by lia.
  case_decide as E; [rewrite <- E, Hempty, present_zero in Hne; done|].
  destruct (present (pde m pd (pd_idx u))) eqn:Hpu; [|done].
  rewrite table_other by (done || (apply Z.mod_pos_bound; lia)). done.
Qed.

Lemma table_guarded : guarded p' m' dir pd F /\ (forall v, evolves dir pd F v m m') /\ pde m' pd j = e.
Proof.
  pose proof table_slot as Hq0. pose proof (own_write_pde p m dir pd F _ e G Hq0 : forall x, _ -> pde m' dir x = _) as Hdpde.
  pose proof (own_write_tables p m dir pd F _ e G Hq0 : forall q, table_word m' dir q <-> _) as Htab.
  pose proof (proj1 (proj2 Hg)) as Hi.
  assert (G' := guarded_got _ _ _ _ _ _ _ G Hg).
  split; [split|split; [|rewrite table_pde by lia; by rewrite decide_True]].
  - apply G'.
  - exact (own_write_dir p m dir pd F _ e G Hq0 He).
  - rewrite Hdpde by lia. apply G.
  - split; [apply (own_write_dir p m dir pd F _ e G Hq0 He)|exact table_dir_ok|]. intros x Hx. rewrite table_pde by done.
    case_decide; [|by apply (fo_sep _ _ _ (gd_for _ _ _ _ _ G))]. intros _. rewrite Hfr. intros E.
    destruct (dir_rec _ _ (gd_dir _ _ _ _ _ G)) as [Hrp Hrf]. pose proof (gd_dir_used _ _ _ _ _ G 1023 ltac:(lia) ltac:(lia) Hrp) as Hu.
    rewrite Hrf, <- E, Z.div_mul in Hu by lia. congruence.
  - intros x Hx Hx2. rewrite Hdpde by done. by apply (gd_dir_used _ _ _ _ _ G').
  - intros x Hx. rewrite table_pde by done. case_decide; [|by apply (gd_pd_used _ _ _ _ _ G')].
    intros _. rewrite Hfr, Z.div_mul by lia. destruct Hg as (Hr & _ & (Hb & _) & _). pose proof (inv_kernel _ (gd_mem _ _ _ _ _ G)).
    rewrite Hb by lia. by rewrite decide_True.
  - intros x Hx. rewrite table_pde by lia. case_decide; [by right|by apply (gd_clean _ _ _ _ _ G)].
  - intros q [Hq|Hq]%table_words; rewrite Htab; [by apply (gd_apart _ _ _ _ _ G)|].
    by apply (fresh_apart _ _ _ _ _ _ _ G Hi Hq).
  - intros f Hf. destruct (gd_data _ _ _ _ _ G' f Hf) as (Ha & Hwf & Hu & Hq). split_and!; try done.
    intros q Hfq. destruct (Hq q Hfq) as [H1 H2]. rewrite Htab. split; [done|]. intros [Ho|Ho]%table_words; [done|].
    by apply (proj2 (proj2 (fresh_apart _ _ _ _ _ _ _ G Hi Ho)) f Hf).
  - intros v. split.
    + intros u Hu _ Hw. by apply table_walk.
    + exact (own_write_data p m dir pd F _ e G Hq0).
    + intros x Hx _. by apply Hdpde.
Qed.
End table.

(** ** [pg_map_to] *)

(** The directory entry [pg_map_to] makes for a new table. *)
Definition table_entry (flags f : Z) : Z :=
  if negb (Z.land flags PG_USER =? 0) then Z.lor (_CREATE_PD_ENTRY f) PG_USER else _CREATE_PD_ENTRY f.

Lemma table_entry_spec flags f : word f -> word (table_entry flags f) /\ present (table_entry flags f) = true /\
  frame_of (table_entry flags f) = frame_of f.
Proof.
  intros Hf. unfold table_entry, _CREATE_PD_ENTRY. destruct (negb _); rewrite <- !Z.lor_assoc.
  - destruct (lor_flags f (Z.lor PG_PRESENT (Z.lor PG_RW PG_USER)) Hf ltac:(done)) as (Hw & Hfr & Hp). by rewrite Hp.
  - destruct (lor_flags f (Z.lor PG_PRESENT PG_RW) Hf ltac:(done)) as (Hw & Hfr & Hp). by rewrite Hp.
Qed.

Section map_to.
Context (s : machine) (pd : Z) (F : Z -> Prop) (p v fl : Z).
Let dir := frame_of (cr3 s).
Hypotheses (G : guarded (m_pmm s) (ram s) dir pd F) (Hv : user v) (Hpw : word p) (Hfl : 0 <= fl < 4096) (Hpr : present fl = true).
Let w := Z.lor (Z.land p PG_ALIGN) fl.
Let m1 := expd (ram s) dir pd.

Lemma expd_guarded q m x : guarded q m dir pd F -> word x -> guarded q (expd m dir x) dir pd F /\ evolves dir pd F v m (expd m dir x).
Proof. intros Gm Hx. apply (kept_guarded q m _ dir pd F (fun _ => False)); [done| |tauto]. apply kept_expd; [apply Gm|done]. Qed.

Lemma map_to_absent f p' : pde (ram s) pd (pd_idx v) = 0 -> pmm_get_frame (m_pmm s) = Ok (f, p') -> word f -> frame_of f = f ->
  let m2 := <[(pd + 4 * pd_idx v) / 4 := table_entry fl f]> m1 in guarded p' m2 dir pd F ->
  pde m2 pd (pd_idx v) = table_entry fl f ->
  pg_map_to pd p v fl s =
    Ok (tt, set_ram (expd (entry_written m2 pd (pd_idx v) (pt_idx v mod 1024) w) dir (pde (ram s) dir 1022)) (set_m_pmm p' s)).
Proof.
  intros Hz Hget Hfw Hff m2 G2 E2. destruct (user_idx v Hv) as (Hvw & Hi). pose proof (gd_for _ _ _ _ _ G) as Hf.
  pose proof (pd_word _ _ _ Hf) as Hpdw. destruct (expd_guarded _ _ pd G Hpdw) as [G1 _]. fold m1 in G1.
  destruct (table_entry_spec fl f Hfw) as (Hew & Hep & _).
  destruct (expd_base (ram s) dir pd (fo_dir _ _ _ Hf) Hpdw) as (_ & _ & E1022). destruct (expd_entry pd Hpdw) as (_ & Hxp & Hxf).
  rewrite (dir_frame_of (ram s) pd (fo_pd _ _ _ Hf)) in Hxf.
  set (s1 := set_ram m1 s). assert (Hslot : present (pde m1 dir 1022) = true /\ frame_of (pde m1 dir 1022) = pd) by (unfold m1; by rewrite E1022).
  unfold pg_map_to. rewrite (bind_ok _ _ _ _ _ (set_expd_run s pd (fo_dir _ _ _ Hf))). fold dir m1 s1.
  rewrite (bind_ok _ _ _ _ _ (ld_expd s1 pd (gd_dir _ _ _ _ _ G1) (fo_pd _ _ _ (gd_for _ _ _ _ _ G1)) Hslot (pd_idx v) ltac:(lia))).
  change (pde (ram s1) pd (pd_idx v)) with (pde m1 pd (pd_idx v)). 
  assert (pde m1 pd (pd_idx v) = 0) as -> by (unfold m1; by rewrite (expd_pde _ _ _ Hf) by lia).
  change (entry_is_zero 0) with true. cbv iota.
  set (s2 := set_ram m2 (set_m_pmm p' s)).
  assert (Hq0 : own_word m1 pd ((pd + 4 * pd_idx v) / 4)) by (apply own_pde; [apply (gd_for _ _ _ _ _ G1)|lia]).
  rewrite (bind_ok _ _ _ tt s2).
  - assert (Hslot2 : present (pde m2 dir 1022) = true /\ frame_of (pde m2 dir 1022) = pd)
      by (unfold m2; by rewrite (own_write_pde _ _ _ _ _ _ (table_entry fl f) G1 Hq0) by lia).
    rewrite (bind_ok _ _ _ _ _ (st_expts s2 pd (gd_dir _ _ _ _ _ G2) Hslot2 v _ Hvw (eq_trans (f_equal present E2) Hep))).
    assert (G3 := proj1 (entry_guarded _ _ _ _ _ v w G2 Hv (eq_trans (f_equal present E2) Hep) (proj1 (lor_flags p fl Hpw Hfl)))).
    by rewrite (bind_ok _ _ _ _ _ (set_expd_run (set_ram (entry_written m2 pd (pd_idx v) (pt_idx v mod 1024) w) (set_m_pmm p' s)) _ (gd_dir _ _ _ _ _ G3))).
  - unfold with_pmm, zoom. unfold bind_ at 1. cbn [m_pmm set_ram s1]. rewrite Hget.
    assert (Hst : st32 (external_pd (pd_idx v)) (table_entry fl f) (set_m_pmm p' s1) = Ok (tt, s2)).
    { unfold st32. replace (external_pd (pd_idx v)) with (external_pts (1023 * 1024 + pd_idx v))
        by (unfold external_pd, external_pts, VM_EXPAGE_DIR, VM_EXPAGE_TABLES; lia).
      rewrite (walk_expts (set_m_pmm p' s1) pd (gd_dir _ _ _ _ _ G1) Hslot) by lia.
      replace ((1023 * 1024 + pd_idx v) / 1024) with 1023 by (Z.div_mod_to_equations; lia).
      replace ((1023 * 1024 + pd_idx v) mod 1024) with (pd_idx v) by (Z.div_mod_to_equations; lia).
      cbn [ram set_m_pmm s1 set_ram]. destruct (dir_rec _ _ (fo_pd _ _ _ (gd_for _ _ _ _ _ G1))) as [-> ->]. done. }
    rewrite <- Hst. unfold table_entry. by destruct (negb _).
Qed.

(** Mapping a page into the child, whether its table is there or not. *)
Definition map_step (s' : machine) : Prop :=
  cr3 s' = cr3 s /\ guarded (m_pmm s') (ram s') dir pd F /\ evolves dir pd F v (ram s) (ram s') /\
  free_frames (m_pmm s) - 1 <= free_frames (m_pmm s') /\
  (forall j, 0 <= j -> frame_used (m_pmm s) j = true -> frame_used (m_pmm s') j = true) /\
  forall u, user u -> u / 4096 = v / 4096 -> walk_dir (ram s') pd u = Some (frame_of p + u mod 4096).

(** The entry is written while the table is there, then the external slot is given back. *)
Lemma entry_then_slot q m2 : guarded q m2 dir pd F -> evolves dir pd F v (ram s) m2 -> present (pde m2 pd (pd_idx v)) = true ->
  let m' := expd (entry_written m2 pd (pd_idx v) (pt_idx v mod 1024) w) dir (pde (ram s) dir 1022) in
  guarded q m' dir pd F /\ evolves dir pd F v (ram s) m' /\
  forall u, user u -> u / 4096 = v / 4096 -> walk_dir m' pd u = Some (frame_of p + u mod 4096).
Proof.
  intros G2 Ev2 Hp2. destruct (lor_flags p fl Hpw Hfl) as (Hw & Hfr & Hwp).
  destruct (entry_guarded _ _ _ _ _ v w G2 Hv Hp2 Hw) as (G3 & Ev3 & Hwalk). cbv zeta.
  assert (Hold : word (pde (ram s) dir 1022)) by apply word_at_word, (gd_dir _ _ _ _ _ G).
  destruct (expd_guarded _ _ _ G3 Hold) as [G4 Ev4]. split; [exact G4|]. split.
  - exact (evolves_trans _ _ _ _ _ _ _ Ev2 (evolves_trans _ _ _ _ _ _ _ Ev3 Ev4)).
  - intros u Hu E. destruct (user_idx u Hu) as (Huw & _). rewrite (expd_walk _ _ _ (gd_for _ _ _ _ _ G3)) by done.
    rewrite Hwalk, decide_True by done. fold w in Hwp, Hfr. by rewrite Hwp, Hpr, Hfr.
Qed.

Lemma map_to_step : 0 < free_frames (m_pmm s) -> exists s', pg_map_to pd p v fl s = Ok (tt, s') /\ map_step s'.
Proof.
  intros Hfree. destruct (user_idx v Hv) as (Hvw & Hi). pose proof (gd_for _ _ _ _ _ G) as Hf.
  destruct (lor_flags p fl Hpw Hfl) as (Hw & _ & _). pose proof (pd_word _ _ _ Hf) as Hpdw.
  destruct (expd_guarded _ _ pd G Hpdw) as [G1 Ev1]. fold m1 in G1, Ev1.
  assert (E1 : pde m1 pd (pd_idx v) = pde (ram s) pd (pd_idx v)) by (apply expd_pde; [done|lia]).
  destruct (gd_clean _ _ _ _ _ G (pd_idx v) Hi) as [Hz|Hp].
  - destruct (wp_run _ _ _ (get_frame_wp _ (gd_mem _ _ _ _ _ G) Hfree)) as (r & p' & Eg & i & -> & Hg).
    unfold FRAME_SIZE, PAGE_SIZE in *.
    assert (Hiw : word (i * 4096) /\ frame_of (i * 4096) = i * 4096).
    { pose proof (inv_total _ (gd_mem _ _ _ _ _ G)). pose proof (inv_kernel _ (gd_mem _ _ _ _ _ G)). destruct Hg as [Hr _].
      assert (word (i * 4096)) by (unfold word; lia). split; [done|]. apply frame_of_page; [done|by exists i]. }
    destruct Hiw as [Hiw Hif]. destruct (table_entry_spec fl (i * 4096) Hiw) as (Hew & Hep & Hef). rewrite Hif in Hef.
    destruct (table_guarded _ i p' m1 dir pd F (pd_idx v) _ G1 Hg Hi (eq_trans E1 Hz) Hew Hep Hef) as (G2 & Ev2 & E2).
    set (m2 := <[(pd + 4 * pd_idx v) / 4 := _]> m1) in *.
    destruct (entry_then_slot p' m2 G2 (evolves_trans _ _ _ _ _ _ _ Ev1 (Ev2 v)) (eq_trans (f_equal present E2) Hep)) as (G4 & Ev4 & Hwalk).
    eexists. split; [exact (map_to_absent _ p' Hz Eg Hiw Hif G2 E2)|].
    split_and!; cbn [cr3 m_pmm ram set_ram set_m_pmm]; try done.
    + destruct Hg as (_ & _ & _ & _ & ->). lia.
    + intros j Hj. by apply (got_used _ i).
  - exists (set_ram (mapped_to (ram s) dir pd v w) s). split; [apply pg_map_to_run; done || lia|].
    destruct (entry_then_slot _ m1 G1 Ev1 (eq_trans (f_equal present E1) Hp)) as (G4 & Ev4 & Hwalk).
    split_and!; try done. cbn [m_pmm set_ram]. lia.
Qed.
End map_to.

(** ** [pg_duplicate_page] *)

Lemma guarded_add p m dir pd F f : guarded p m dir pd F -> (0x1000 | f) -> word f -> frame_used p (f / 4096) = true ->
  (forall q, frame_words f q -> ~ table_word m dir q /\ ~ own_word m pd q) -> guarded p m dir pd (fun g => F g \/ g = f).
Proof. intros G Ha Hw Hu Hq. split; try apply G. intros g [Hg| ->]; [by apply (gd_data _ _ _ _ _ G)|done]. Qed.

Lemma guarded_fewer p m dir pd (F F' : Z -> Prop) : (forall f, F' f -> F f) -> guarded p m dir pd F -> guarded p m dir pd F'.
Proof. intros HF G. split; try apply G. intros f Hf. by apply (gd_data _ _ _ _ _ G), HF. Qed.

Section dup.
Context (s : machine) (sp pd : Z) (F : Z -> Prop) (v : Z).
Let dir := frame_of (cr3 s).
Hypotheses (G : guarded (m_pmm s) (ram s) dir pd F) (Hspace : beside (ram s) dir sp) (Hv : user v)
  (HF : forall a, walk_dir (ram s) sp v = Some a -> F (a - v mod 4096)).

(** The frame answered is 0 for a page that is not there, and else new, with the bytes of the page. *)
Definition dup_step (fr : Z) (s' : machine) : Prop :=
  cr3 s' = cr3 s /\ guarded (m_pmm s') (ram s') dir pd (fun f => F f \/ (f = fr /\ fr <> 0)) /\ evolves dir pd F v (ram s) (ram s') /\
  free_frames (m_pmm s) - 1 <= free_frames (m_pmm s') /\
  (forall j, 0 <= j -> frame_used (m_pmm s) j = true -> frame_used (m_pmm s') j = true) /\
  word fr /\ frame_of fr = fr /\
  match walk_dir (ram s) sp v with
  | None => fr = 0
  | Some a => fr <> 0 /\ frame_used (m_pmm s) (fr / 4096) = false /\
      forall j, 0 <= j < 4096 -> phys_byte (ram s') (fr + j) = phys_byte (ram s) (a - v mod 4096 + j)
  end.

Lemma dup_to_step : 0 < free_frames (m_pmm s) -> exists fr s', pg_duplicate_page sp v s = Ok (fr, s') /\ dup_step fr s'.
Proof.
  intros Hfree. destruct (user_idx v Hv) as (Hvw & Hi). pose proof (gd_dir _ _ _ _ _ G) as Hok.
  assert (Hwin : dir_win s (ram s)) by (split; [done|apply (gd_win _ _ _ _ _ G)]).
  unfold dup_step. destruct (walk_dir (ram s) sp v) as [a|] eqn:Hwalk.
  - destruct (walk_frame _ _ _ _ (dir_words _ _ Hok) Hwalk) as (c & ->). specialize (HF _ eq_refl).
    replace (c * 4096 + v mod 4096 - v mod 4096) with (c * 4096) in * by lia.
    destruct (gd_data _ _ _ _ _ G _ HF) as (Ha & _ & Hu & Hn).
    destruct (duplicate_run s sp v Hwin Hspace Hv (c * 4096) Ha (gd_mem _ _ _ _ _ G) Hfree
      (conj Hu (gd_dir_used _ _ _ _ _ G)) (fun q Hq => proj1 (Hn q Hq)) Hwalk) as (fr & s' & E & Hal & Hg & Hcr & K & Hb & _).
    pose proof (proj1 (proj2 Hg)) as Hfree'. destruct Hal as [i ->]. rewrite Z.div_mul in * by lia. pose proof Hg as (Hr & _ & (Hbit & _) & _ & Hcount).
    pose proof (inv_kernel _ (gd_mem _ _ _ _ _ G)) as Hker. pose proof (inv_total _ (gd_mem _ _ _ _ _ G)) as Htot.
    assert (Hw : word (i * 4096)) by (unfold word; lia).
    destruct (kept_guarded _ _ _ _ _ _ _ v G K) as [G1 Ev].
    { intros q Hq. by apply (fresh_apart _ _ _ _ _ _ _ G Hfree' Hq). }
    exists (i * 4096), s'. split_and!; try done.
    + eapply guarded_fewer; [|apply (guarded_add _ _ _ _ _ (i * 4096) (guarded_got _ _ _ _ _ _ _ G1 Hg)); [by exists i|done| |]].
      * intros f [Hf|[-> _]]; [by left|by right].
      * rewrite Z.div_mul, Hbit by lia. by rewrite decide_True.
      * intros q Hq. by destruct (fresh_apart _ _ _ _ _ _ q G1 Hfree' Hq) as (? & ? & _).
    + lia.
    + intros j Hj. by apply (got_used _ i).
    + apply frame_of_page; [done|by exists i].
    + lia.
    + by rewrite Z.div_mul by lia.
  - destruct (duplicate_absent s sp v Hwin Hspace Hv Hwalk) as (m & E & K).
    destruct (kept_guarded _ _ _ _ _ _ _ v G K ltac:(tauto)) as [G1 Ev].
    exists 0, (set_ram m s). split_and!; try done; cbn [m_pmm set_ram]; [|lia].
    eapply guarded_fewer; [|exact G1]. intros f [Hf|[_ Hne]]; [done|by destruct Hne].
Qed.
End dup.

(** ** The pages of the regions *)

(** The child's page of [v] is in the frame [fr]: a frame that was free,
    with the bytes the parent's page had in [m0], or frame 0 when the
    parent has no such page. *)
Definition page_copied (p0 : pmm) (m0 : gmap Z Z) (sp pd : Z) (m : gmap Z Z) (v fr : Z) : Prop :=
  walk_dir m pd v = Some (fr + v mod 4096) /\
  match walk_dir m0 sp v with
  | None => fr = 0
  | Some a => fr <> 0 /\ frame_used p0 (fr / 4096) = false /\
      forall j, 0 <= j < 4096 -> phys_byte m (fr + j) = phys_byte m0 (a - v mod 4096 + j)
  end.

(** Where the copying stands when the pages of [vs] are done. *)
Record forked (p0 : pmm) (m0 : gmap Z Z) (dir sp pd : Z) (F : Z -> Prop) (vs fs : list Z) (s : machine) : Prop := {
  fk_cr3 : frame_of (cr3 s) = dir;
  fk_guard : guarded (m_pmm s) (ram s) dir pd (fun f => F f \/ (f ∈ fs /\ f <> 0));
  fk_src : same_space dir sp m0 (ram s);
  fk_data : forall f q, F f -> frame_words f q -> ram s !! q = m0 !! q;
  fk_pages : Forall2 (page_copied p0 m0 sp pd (ram s)) vs fs;
  fk_users : Forall user vs;
  fk_used : forall j, 0 <= j -> frame_used p0 j = true -> frame_used (m_pmm s) j = true;
  fk_private : NoDup (filter (fun f => f <> 0) fs);
  fk_pde : forall i, 0 <= i < 1024 -> i <> 1022 -> pde (ram s) dir i = pde m0 dir i;
}.

Lemma frame_bytes m m' f : (0x1000 | f) -> (forall q, frame_words f q -> m' !! q = m !! q) ->
  forall j, 0 <= j < 4096 -> phys_byte m' (f + j) = phys_byte m (f + j).
Proof.
  intros [c ->] Hq j Hj. apply phys_byte_ext, Hq. unfold frame_words. Z.div_mod_to_equations. lia.
Qed.

(** A step that leaves the copied pages alone. *)
Lemma pages_evolve p0 m0 dir sp pd F vs fs v p m m' : guarded p m dir pd F -> evolves dir pd F v m m' ->
  (forall f, f ∈ fs -> f <> 0 -> F f) -> Forall user vs -> v / 4096 ∉ (fun u => u / 4096) <$> vs ->
  Forall2 (page_copied p0 m0 sp pd m) vs fs -> Forall2 (page_copied p0 m0 sp pd m') vs fs.
Proof.
  intros G Ev HF Hu Hne H2. revert HF Hu Hne. induction H2 as [|u fr vs fs [Hw Hm] H2 IH]; intros HF Hu Hne; constructor.
  - apply Forall_cons in Hu as [Hu _]. apply not_elem_of_cons in Hne as [Hne _]. split.
    + rewrite (ev_child _ _ _ _ _ _ Ev); [done|done|congruence|congruence].
    + destruct (walk_dir m0 sp u) as [a|]; [|done]. destruct Hm as (Hz & Hp & Hb). split_and!; try done.
      intros j Hj. rewrite <- Hb by done. assert (Hf : F fr) by (apply HF; [left|done]).
      apply frame_bytes; [by apply (gd_data _ _ _ _ _ G)| |done].
      intros q Hq. by apply (ev_data _ _ _ _ _ _ Ev fr).
  - apply Forall_cons in Hu as [_ Hu]. apply not_elem_of_cons in Hne as [_ Hne]. apply IH; [|done|done].
    intros f Hf. apply HF. by right.
Qed.

(** The kernel maps a page of its own to a frame just allocated. *)
Lemma forked_remap p0 m0 dir sp pd F vs fs s s' i a w : tables_in F m0 sp -> forked p0 m0 dir sp pd F vs fs s -> got_frame (m_pmm s) i (m_pmm s') ->
  cr3 s' = cr3 s -> remapped (ram s) dir a w (ram s') -> VM_USER_END <= a -> forked p0 m0 dir sp pd F vs fs s'.
Proof.
  intros HT [Hcr G Hsrc Hdata Hpages Husers Hused Hpriv Hpde] Hg Ec R Ha.
  destruct (remap_guarded _ _ _ _ _ _ _ _ a G R) as [G' Ev]. split; try done.
  - by rewrite Ec.
  - by eapply guarded_got.
  - eapply same_space_trans; [exact Hsrc|]. eapply (evolves_space dir sp pd); [apply Hsrc| |apply G'|exact Ev].
    intros i' Hi Hp. left. by apply (tables_same _ _ _ _ _ Hsrc HT).
  - intros f q Hf Hq. rewrite (ev_data _ _ _ _ _ _ Ev f q) by (by left || done). by apply (Hdata f).
  - eapply (pages_evolve _ _ _ _ _ _ _ _ a); [exact G|exact Ev|by right|done| |done].
    intros (u & E & Hu)%list_elem_of_fmap. rewrite Forall_forall in Husers. destruct (Husers u Hu) as [_ Hlt].
    unfold VM_USER_END in *. Z.div_mod_to_equations. lia.
  - intros j Hj Hu. eapply got_used; [done|done|by apply Hused].
  - intros j Hj Hj2. by rewrite (ev_pde _ _ _ _ _ _ Ev), Hpde.
Qed.

(** The addresses at which [_fork_aspace] looks for the pages of a region. *)
Definition range_pages (addr size : Z) : list Z := (fun k => addr + 4096 * k) <$> seqZ 0 ((size + 4095) / 4096).
Definition region_pages (r : region) : list Z := range_pages (r_addr r) (r_size r).

(** A region of a user program. *)
Definition user_region (r : region) : Prop :=
  0 <= r_addr r /\ 0 <= r_size r /\ r_addr r + r_size r <= VM_USER_END /\ 0 <= r_flags r < 4096.

Lemma region_pages_user r v : user_region r -> v ∈ region_pages r -> user v.
Proof.
  intros (Ha & Hs & He & _) (k & -> & Hk%elem_of_seqZ)%list_elem_of_fmap. unfold user, word, VM_USER_END in *.
  Z.div_mod_to_equations. lia.
Qed.

(** One round of the copying loop. *)
Definition fork_page (src_pd dst_pd flags v : Z) : M machine unit :=
  do paddr <- pg_duplicate_page src_pd v;
  pg_map_to dst_pd paddr v (Z.lor flags PG_PRESENT).

Lemma flags_present fl : 0 <= fl < 4096 -> 0 <= Z.lor fl PG_PRESENT < 4096 /\ present (Z.lor fl PG_PRESENT) = true.
Proof.
  intros Hf. split.
  - split; [apply Z.lor_nonneg; unfold PG_PRESENT; lia|]. change 4096 with (2 ^ 12).
    destruct (Z.eq_dec (Z.lor fl PG_PRESENT) 0) as [->|Hne]; [lia|].
    assert (0 <= Z.lor fl PG_PRESENT) by (apply Z.lor_nonneg; unfold PG_PRESENT; lia).
    apply Z.log2_lt_pow2; [lia|]. rewrite Z.log2_lor by (unfold PG_PRESENT; lia). apply Z.max_lub_lt; [|done].
    destruct (Z.eq_dec fl 0) as [->|]; [done|]. apply Z.log2_lt_pow2; lia.
  - unfold present. rewrite Z.land_lor_distr_l. change (Z.land PG_PRESENT PG_PRESENT) with 1.
    destruct (Z.eqb_spec (Z.lor (Z.land fl PG_PRESENT) 1) 0) as [E|]; [|done]. by apply Z.lor_eq_0_iff in E as [_ ?].
Qed.

Section pages.
Context (p0 : pmm) (m0 : gmap Z Z) (dir sp pd : Z) (F : Z -> Prop) (fl : Z).
Hypotheses (Hfl : 0 <= fl < 4096) (HT : tables_in F m0 sp).

Lemma fork_page_run vs fs v s : forked p0 m0 dir sp pd F vs fs s -> user v -> v / 4096 ∉ (fun u => u / 4096) <$> vs ->
  (forall a, walk_dir m0 sp v = Some a -> F (a - v mod 4096)) -> 2 <= free_frames (m_pmm s) ->
  exists fr s', fork_page sp pd fl v s = Ok (tt, s') /\ forked p0 m0 dir sp pd F (vs ++ [v]) (fs ++ [fr]) s' /\
    free_frames (m_pmm s) - 2 <= free_frames (m_pmm s').
Proof.
  intros [Hcr G Hsrc Hdata Hpages Husers Hused Hpriv Hpde] Hv Hne HF Hfree. subst dir.
  pose proof (ss_walk _ _ _ _ Hsrc) as Hwalk0.
  destruct (dup_to_step s sp pd _ v G (ss_beside _ _ _ _ Hsrc) Hv) as (fr & s1 & E1 & Hcr1 & G1 & Ev1 & Hfree1 & Hused1 & Hw & Hff & Hm).
  { intros a Ha. left. apply HF. by rewrite <- Hwalk0. } { lia. }
  destruct (flags_present fl Hfl) as [Hf1 Hf2]. rewrite <- Hcr1 in G1.
  destruct (map_to_step s1 pd _ fr v (Z.lor fl PG_PRESENT) G1 Hv Hw Hf1 Hf2) as (s2 & E2 & Hcr2 & G2 & Ev2 & Hfree2 & Hused2 & Hwalk); [lia|].
  rewrite Hcr1 in G1, G2, Ev2.
  assert (Ev2' := evolves_weaken _ _ _ (fun f => F f \/ (f ∈ fs /\ f <> 0)) _ _ _ (fun f Hf => or_introl Hf) Ev2).
  assert (Ev : evolves (frame_of (cr3 s)) pd _ v (ram s) (ram s2)) by exact (evolves_trans _ _ _ _ _ _ _ Ev1 Ev2').
  exists fr, s2. split; [by unfold fork_page; rewrite (bind_ok _ _ _ _ _ E1)|]. split; [|lia]. split.
  - by rewrite Hcr2, Hcr1.
  - eapply guarded_fewer; [|exact G2]. intros f [Hf|[Hf Hz]]; [by left; left|].
    apply elem_of_app in Hf as [Hf|Hf%list_elem_of_singleton]; [by left; right|by right; subst].
  - eapply same_space_trans; [exact Hsrc|]. eapply (evolves_space _ sp pd); [apply Hsrc| |apply G2|exact Ev].
    intros i Hi Hp. left. by apply (tables_same _ _ _ _ _ Hsrc HT).
  - intros f q Hf Hq. rewrite (ev_data _ _ _ _ _ _ Ev f q) by (by left || done). by apply (Hdata f).
  - apply Forall2_app; [eapply (pages_evolve _ _ _ _ _ _ _ _ v); [exact G|exact Ev|by right|done|done|done]|].
    constructor; [|constructor]. split; [by rewrite Hwalk, Hff|]. rewrite <- Hwalk0 by done.
    destruct (walk_dir (ram s) sp v) as [a|] eqn:Ea; [|done]. destruct Hm as (Hz & Hu & Hb).
    split; [done|]. split; [destruct (frame_used p0 (fr / 4096)) eqn:Hu0; [|done]|].
    + rewrite Hused in Hu; [done|apply Z.div_pos; [apply Hw|lia]|done].
    + intros j Hj. assert (Hfr : F fr \/ (fr ∈ fs /\ fr <> 0) \/ (fr = fr /\ fr <> 0)) by tauto.
      assert (Ha : (0x1000 | fr)) by (rewrite <- Hff; destruct (frame_of_range fr Hw) as (c & -> & _); exists c; lia).
      rewrite (frame_bytes (ram s1) (ram s2) fr Ha) by (done || (intros q Hq; apply (ev_data _ _ _ _ _ _ Ev2 fr); tauto)).
      rewrite Hb by done. rewrite (Hwalk0 v Hv) in Ea. destruct (walk_frame _ _ _ _ (dir_words _ _ (gd_dir _ _ _ _ _ G)) (eq_trans (Hwalk0 v Hv) Ea)) as (c & Hc).
      apply frame_bytes; [exists c; lia| |done]. intros q Hq. apply (Hdata (a - v mod 4096)); [by apply HF|done].
  - apply Forall_app. split; [done|]. by constructor.
  - intros j Hj Hu. auto.
  - rewrite filter_app. apply NoDup_app. split; [done|]. split; [|rewrite filter_cons, filter_nil; case_decide; repeat constructor; set_solver].
    intros f [Hz Hf]%list_elem_of_filter [_ Hf3%list_elem_of_singleton]%list_elem_of_filter. subst f.
    destruct (walk_dir (ram s) sp v); [|done]. destruct Hm as (_ & Hu & _).
    destruct (gd_data _ _ _ _ _ G fr (or_intror (conj Hf Hz))) as (_ & _ & Hu' & _). congruence.
  - intros i Hi Hi2. by rewrite (ev_pde _ _ _ _ _ _ Ev), Hpde.
Qed.

Context {H : Type} `{!Allocator H}.
Implicit Types (st : vmm H).

Lemma fork_page_on_mach {A} v st s' (K : vm A) : fork_page sp pd fl v (v_mach st) = Ok (tt, s') ->
  (do paddr <- on_mach (pg_duplicate_page sp v); on_mach (pg_map_to pd paddr v (Z.lor fl PG_PRESENT)) ;;; K) st = K (set_mach s' st).
Proof.
  unfold fork_page. intros (fr & s1 & E1 & E2)%bind_inv. rewrite (bind_ok _ _ _ fr (set_mach s1 st)) by (unfold on_mach, zoom; by rewrite E1).
  rewrite (bind_ok _ _ _ tt (set_mach s' st)); [done|]. unfold on_mach, zoom. cbn [v_mach set_mach]. by rewrite E2.
Qed.

Lemma fork_region_run r vs fs st : forked p0 m0 dir sp pd F vs fs (v_mach st) -> user_region r -> r_flags r = fl ->
  NoDup ((fun u => u / 4096) <$> vs ++ region_pages r) ->
  (forall v a, v ∈ region_pages r -> walk_dir m0 sp v = Some a -> F (a - v mod 4096)) ->
  2 * Z.of_nat (length (region_pages r)) <= free_frames (m_pmm (v_mach st)) ->
  exists fs' s', fork_region sp pd r st = Ok (tt, set_mach s' st) /\ forked p0 m0 dir sp pd F (vs ++ region_pages r) (fs ++ fs') s' /\
    free_frames (m_pmm (v_mach st)) - 2 * Z.of_nat (length (region_pages r)) <= free_frames (m_pmm s').
Proof.
  intros HK Hr Hflr Hnd HF Hfree. set (n := (r_size r + 4095) / 4096).
  assert (Hn : 0 <= n) by (destruct Hr as (_ & ? & _); unfold n; Z.div_mod_to_equations; lia).
  assert (Hlen : Z.of_nat (length (region_pages r)) = n) by (unfold region_pages, range_pages; rewrite length_fmap, length_seqZ; lia).
  set (I := fun v (st' : vmm H) => exists k fs' s', 0 <= k <= n /\ v = r_addr r + 4096 * k /\ st' = set_mach s' st /\
    forked p0 m0 dir sp pd F (vs ++ take (Z.to_nat k) (region_pages r)) (fs ++ fs') s' /\
    free_frames (m_pmm (v_mach st)) - 2 * k <= free_frames (m_pmm s')).
  cut (wp (fork_region sp pd r) (fun _ st' => exists fs' s', st' = set_mach s' st /\
    forked p0 m0 dir sp pd F (vs ++ region_pages r) (fs ++ fs') s' /\ free_frames (m_pmm (v_mach st)) - 2 * n <= free_frames (m_pmm s')) st).
  { intros ([] & st' & E & fs' & s' & -> & HK' & Hf)%wp_run. exists fs', s'. rewrite Hlen. done. }
  unfold fork_region. fold n. apply (wp_loop _ I (fun v _ => Z.to_nat (n - (v - r_addr r) / 4096))).
  - intros v st' (k & fs' & s' & Hk & -> & -> & HK' & Hf). pose proof Hr as (Ha & Hs & He & Hfl').
    assert (Hend : r_end r = r_addr r + r_size r) by (apply w32_small; unfold VM_USER_END in He; lia). rewrite Hend.
    destruct (Z.ltb_spec (r_addr r + 4096 * k) (r_addr r + r_size r)) as [Hlt|Hge].
    + assert (Hkn : k < n) by (unfold n; Z.div_mod_to_equations; lia).
      assert (Hlook : region_pages r !! Z.to_nat k = Some (r_addr r + 4096 * k)).
      { unfold region_pages, range_pages. rewrite list_lookup_fmap, lookup_seqZ_lt by (fold n; lia). cbn. do 2 f_equal. lia. }
      pose proof (list_elem_of_lookup_2 _ _ _ Hlook) as Hin. set (v := r_addr r + 4096 * k) in *.
      destruct (fork_page_run _ _ v s' HK' (region_pages_user r v Hr Hin)) as (fr & s2 & E & HK2 & Hf2).
      { rewrite <- (take_drop_middle _ _ _ Hlook), app_assoc, fmap_app, fmap_cons in Hnd. apply NoDup_app in Hnd as (_ & Hnd & _).
        intros Hv. by apply (Hnd _ Hv); left. }
      { intros a. by apply HF. } { lia. }
      rewrite Hflr. eapply wp_intro; [exact (fork_page_on_mach v (set_mach s' st) s2 _ E)|].
      assert (Enext : v +w PAGE_SIZE = r_addr r + 4096 * (k + 1))
        by (rewrite w32_small; unfold v, PAGE_SIZE, VM_USER_END in *; lia).
      rewrite Enext. unfold v. split; [|Z.div_mod_to_equations; lia].
      exists (k + 1), (fs' ++ [fr]), s2. split_and!; try done; try lia.
      replace (Z.to_nat (k + 1)) with (S (Z.to_nat k)) by lia. rewrite (take_S_r _ _ _ Hlook), !app_assoc. exact HK2.
    + apply wp_ret. exists fs', s'. assert (k = n) as -> by (unfold n in *; Z.div_mod_to_equations; lia).
      rewrite take_ge in HK' by lia. done.
  - exists 0, [], (v_mach st). rewrite !app_nil_r. split_and!; try done; try lia. by destruct st.
  - rewrite Z.sub_diag. change (0 / 4096) with 0. lia.
Qed.
End pages.
