(* ===== verification/DirSpec.v ===== *)
(** * A new page directory

    [pg_create_directory] shows a new frame through the temporary window,
    clears it, makes its slot 1023 show the directory itself and copies the
    kernel's slots from the boot directory, which is the one that is loaded. *)

From S2P Require Import Prelude Pmm Paging MmuSpec SpaceSpec DupSpec Vmm ForkSpec.

#[local] Open Scope Z_scope.

(** A data word is written. *)
Section data_write.
Context (m : gmap Z Z) (dir : Z) (D : Z -> Prop) (q0 w : Z).
Hypotheses (Hok : dir_ok m dir) (Hq0 : ~ table_word m dir q0) (HD : D q0) (Hw : word w).
Let m' := <[q0 := w]> m.

Lemma data_write_tables q : table_word m dir q -> m' !! q = m !! q.
Proof. intros Hq. apply lookup_insert_ne. by intros ->. Qed.

Lemma data_write_walk v : word v -> pd_idx v < 1022 -> walk_dir m' dir v = walk_dir m dir v.
Proof. apply (tables_walk m); [done|apply data_write_tables]. Qed.

Lemma data_write_kept : kept dir D m m'.
Proof.
  split.
  - apply (tables_ok m); [done|by apply words_ok_insert; [apply Hok|]|apply data_write_tables].
  - intros i Hi _. by apply (tables_pde m); [|apply data_write_tables|].
  - intros v Hv Hlt _. by apply data_write_walk.
  - intros q _ Hq. apply lookup_insert_ne. by intros ->.
Qed.
End data_write.

(** A word whose four bytes are zero is zero. *)
Lemma bytes_zero w : word w -> (forall i, 0 <= i < 4 -> byte_of w i = 0) -> w = 0.
Proof.
  intros Hw Hb. apply Z.bits_inj'. intros n Hn. rewrite Z.bits_0. destruct (Z.ltb_spec n 32).
  - pose proof (f_equal (fun x => Z.testbit x (n mod 8)) (Hb (n / 8) ltac:(Z.div_mod_to_equations; lia))) as E. cbv beta in E.
    rewrite byte_of_spec, Z.bits_0 in E by (Z.div_mod_to_equations; lia).
    replace (n mod 8 + 8 * (n / 8)) with n in E by (Z.div_mod_to_equations; lia).
    rewrite (proj2 (Z.ltb_lt _ _)) in E by (Z.div_mod_to_equations; lia). exact E.
  - by apply word_bits.
Qed.

(** The new frame [fr] behind the window. *)
Section window_page.
Context (s : machine) (fr : Z) (m : gmap Z Z).
Let dir := frame_of (cr3 s).
Hypotheses (Hwin : dir_win s m) (Hfa : (0x1000 | fr)) (Hs : shows s m VM_TMP_MAP fr)
  (Hnt : forall q, frame_words fr q -> ~ table_word m dir q).

Lemma page_index j : 0 <= j < 4096 -> frame_words fr ((fr + j) / 4).
Proof. destruct Hfa as [c ->]. unfold frame_words. intros Hj. Z.div_mod_to_equations. lia. Qed.

(** What stores to the window make of the memory. *)
Definition page_written (m' : gmap Z Z) : Prop := kept dir (frame_words fr) m m' /\ shows s m' VM_TMP_MAP fr /\
  (forall q, frame_words fr q -> ~ table_word m' dir q) /\
  (forall q, ~ frame_words fr q -> m' !! q = m !! q).

Lemma page_refl : page_written m.
Proof. split_and!; try done. split; try done; apply Hwin. Qed.

Lemma page_store m1 j w : page_written m1 -> 0 <= j < 4096 -> word w -> page_written (<[(fr + j) / 4 := w]> m1).
Proof.
  intros (K & S & T & O) Hj Hw. pose proof (page_index j Hj) as Hq. pose proof (kp_ok _ _ _ _ K) as Hok.
  pose proof (data_write_kept m1 dir (frame_words fr) _ w Hok (T _ Hq) Hq Hw) as K'. split_and!.
  - exact (kept_trans _ _ _ _ _ K K').
  - intros i Hi. destruct (tmp_range VM_TMP_MAP i (or_introl eq_refl) Hi) as (Hv & Hp & _).
    rewrite (data_write_walk m1 dir (frame_words fr) _ w Hok (T _ Hq) Hq) by (done || lia). by apply S.
  - intros q Hf Ht. by apply (T q Hf), (kept_words _ _ _ _ _ K').
  - intros q Hn. rewrite lookup_insert_ne by (by intros <-). by apply O.
Qed.

Lemma page_walk m1 j : page_written m1 -> 0 <= j < 4096 -> walk_dir m1 (cr3 s) (VM_TMP_MAP + j) = Some (fr + j).
Proof.
  intros (K & S & _) Hj. rewrite (win_walk s m1); [by apply S|]. split; [apply K|]. rewrite (kp_pde _ _ _ _ K) by lia. apply Hwin.
Qed.

Lemma page_st32 m1 i w : page_written m1 -> 0 <= i < 1024 -> word w ->
  st32 (VM_TMP_MAP + 4 * i) w (set_ram m1 s) = Ok (tt, set_ram (<[(fr + 4 * i) / 4 := w]> m1) s).
Proof. intros HP Hi Hw. unfold st32. cbn [ram cr3 set_ram]. by rewrite page_walk by (done || lia). Qed.

Lemma zero_page_run n : Z.of_nat n = 4096 -> exists m',
  for_ n 0 (fun i => st8 (VM_TMP_MAP +w i) 0) (set_ram m s) = Ok (tt, set_ram m' s) /\ page_written m' /\
  forall i, 0 <= i < 1024 -> word_at m' (fr + 4 * i) = 0.
Proof.
  intros Hn. set (I := fun i (c : machine) => exists m', c = set_ram m' s /\ page_written m' /\ forall j, 0 <= j < i -> phys_byte m' (fr + j) = 0).
  assert (W : wp (for_ n 0 (fun i => st8 (VM_TMP_MAP +w i) 0)) (fun _ c => I (0 + Z.of_nat n) c) (set_ram m s)).
  { apply wp_for; [|exists m; split; [done|]; split; [apply page_refl|intros j Hj; lia]].
    intros j c Hj (m1 & -> & HP & Hz). rewrite Hn in Hj. rewrite tmp_add by (try tauto; lia).
    eapply wp_intro; [unfold st8; cbn [ram cr3 set_ram]; by rewrite page_walk by (done || lia)|].
    exists (<[(fr + j) / 4 := set_byte (word_at m1 (fr + j)) ((fr + j) mod 4) 0]> m1). split; [done|]. split.
    - apply page_store; [done|lia|]. apply set_byte_word; [apply word_at_word, HP|apply Z.mod_pos_bound; lia].
    - intros i Hi. rewrite phys_byte_store. case_decide; [done|]. apply Hz. assert (i <> j) by congruence. lia. }
  destruct (wp_run _ _ _ W) as ([] & c & E & m' & -> & HP & Hz).
  exists m'. split; [done|]. split; [done|]. intros i Hi. rewrite Hn in Hz. apply bytes_zero; [apply word_at_word, HP|].
    intros k Hk. pose proof (Hz (4 * i + k) ltac:(lia)) as E'. unfold phys_byte, word_at in E'. unfold word_at.
    destruct Hfa as [f ->].
    replace ((f * 4096 + (4 * i + k)) / 4) with ((f * 4096 + 4 * i) / 4) in E' by (Z.div_mod_to_equations; lia).
    replace ((f * 4096 + (4 * i + k)) mod 4) with k in E' by (Z.div_mod_to_equations; lia). exact E'.
Qed.

Lemma page_word_at m1 i k w : 0 <= i < 1024 -> 0 <= k < 1024 ->
  word_at (<[(fr + 4 * i) / 4 := w]> m1) (fr + 4 * k) = if decide (i = k) then w else word_at m1 (fr + 4 * k).
Proof.
  intros Hi Hk. destruct Hfa as [c ->]. rewrite (Z.mul_comm c 0x1000). rewrite word_at_insert by done.
  repeat case_decide; try done; lia.
Qed.

(** The boot directory: virtual address [kern], physical address [kp]. *)
Context (kern kp : Z).
Definition kernel_slot (i : Z) : Prop := 768 <= i < 896.
Hypothesis (Hkern : forall i, kernel_slot i -> word (kern + 4 * i) /\ pd_idx (kern + 4 * i) < 1022 /\ ~ tmp_page (kern + 4 * i) /\
  walk_dir m dir (kern + 4 * i) = Some (kp + 4 * i) /\ ~ frame_words fr ((kp + 4 * i) / 4)).

(** The slots of the new directory when the kernel's slots below [n] are copied. *)
Definition slots_upto (m1 : gmap Z Z) (self n : Z) : Prop := forall i, 0 <= i < 1024 ->
  word_at m1 (fr + 4 * i) = if decide (i = 1023) then self else if decide (768 <= i < n) then word_at m (kp + 4 * i) else 0.

Lemma clone_run m1 self n : page_written m1 -> slots_upto m1 self 768 -> Z.of_nat n = 128 -> exists m2,
  for_ n 768 (fun i => do e <- ld32 (kern + 4 * i); st32 (VM_TMP_MAP + 4 * i) e) (set_ram m1 s) = Ok (tt, set_ram m2 s) /\
  page_written m2 /\ slots_upto m2 self 896.
Proof.
  intros HP1 Hs1 Hn. set (I := fun j (c : machine) => exists m2, c = set_ram m2 s /\ page_written m2 /\ slots_upto m2 self j).
  assert (W : wp (for_ n 768 (fun i => do e <- ld32 (kern + 4 * i); st32 (VM_TMP_MAP + 4 * i) e))
    (fun _ c => I (768 + Z.of_nat n) c) (set_ram m1 s)).
  { apply wp_for; [|by exists m1].
    intros j c Hj (m2 & -> & HP & Hsl). assert (Hks : kernel_slot j) by (unfold kernel_slot; lia).
    destruct (Hkern j Hks) as (Hw & Hlt & Htmp & Hwalk & Hnf). pose proof HP as (K & _ & _ & O).
    assert (Eld : ld32 (kern + 4 * j) (set_ram m2 s) = Ok (word_at m (kp + 4 * j), set_ram m2 s)).
    { unfold ld32. cbn [ram cr3 set_ram]. rewrite (win_walk s m2), (kp_walk _ _ _ _ K), Hwalk; try done.
      - unfold word_at. by rewrite O.
      - split; [apply K|]. rewrite (kp_pde _ _ _ _ K) by lia. apply Hwin. }
    apply wp_bind. eapply wp_intro; [exact Eld|].
    assert (He : word (word_at m (kp + 4 * j))) by apply word_at_word, Hwin.
    eapply wp_intro; [apply page_st32; done || lia|]. exists (<[(fr + 4 * j) / 4 := word_at m (kp + 4 * j)]> m2). split; [done|].
    split; [apply page_store; done || lia|]. intros i Hi. rewrite page_word_at by lia.
    destruct (decide (j = i)) as [<-|Hne].
    - rewrite decide_False, decide_True by lia. done.
    - rewrite (Hsl i Hi). repeat case_decide; try done; lia. }
  destruct (wp_run _ _ _ W) as ([] & c & E & m2 & -> & HP & Hsl). rewrite Hn in Hsl. eauto.
Qed.

(** Clearing, self reference, kernel slots. *)
Lemma fill_run : word fr -> exists m2, let self := Z.lor (Z.lor (Z.land fr PG_ALIGN) PG_PRESENT) PG_RW in
  (memset0 VM_TMP_MAP FRAME_SIZE ;;; st32 (VM_TMP_MAP + 4 * 1023) self ;;; _clone_kernel_tables kern VM_TMP_MAP) (set_ram m s) =
    Ok (tt, set_ram m2 s) /\ page_written m2 /\ slots_upto m2 self 896.
Proof.
  intros Hfw. destruct (zero_page_run (Z.to_nat FRAME_SIZE) (Z2Nat.id FRAME_SIZE ltac:(done))) as (m1 & E1 & P1 & Z1).
  set (self := Z.lor (Z.lor (Z.land fr PG_ALIGN) PG_PRESENT) PG_RW).
  assert (Hself : word self) by (unfold self; rewrite <- Z.lor_assoc; by apply (lor_flags fr (Z.lor PG_PRESENT PG_RW))).
  pose proof (page_store m1 (4 * 1023) self P1 ltac:(lia) Hself) as P2.
  destruct (clone_run _ self (Z.to_nat (pd_idx VM_KERN_END - pd_idx VM_KERN_START)) P2) as (m2 & E2 & P3 & S3).
  - intros i Hi. rewrite page_word_at by lia. repeat case_decide; try lia; try done; by apply Z1.
  - done.
  - exists m2. split; [|done]. unfold memset0. rewrite (bind_ok _ _ _ _ _ E1).
    rewrite (bind_ok _ _ _ _ _ (page_st32 m1 1023 self P1 ltac:(lia) Hself)). exact E2.
Qed.
End window_page.

(** ** The routine *)

(** The directory [dir] that is loaded is the kernel's own, at the virtual
    address [kern]; [F] are frames of data. *)
Record running (p : pmm) (m : gmap Z Z) (dir : Z) (F : Z -> Prop) (kern : Z) : Prop := {
  rn_mem : inv p;
  rn_dir : dir_ok m dir;
  rn_win : present (pde m dir 1021) = true;
  rn_used : forall i, 0 <= i < 1024 -> i <> 1022 -> present (pde m dir i) = true -> frame_used p (frame_of (pde m dir i) / 4096) = true;
  rn_data : forall f, F f -> (0x1000 | f) /\ word f /\ frame_used p (f / 4096) = true /\
    forall q, frame_words f q -> ~ table_word m dir q;
  rn_kern : forall i, kernel_slot i -> word (kern + 4 * i) /\ pd_idx (kern + 4 * i) < 1022 /\ ~ tmp_page (kern + 4 * i) /\
    walk_dir m dir (kern + 4 * i) = Some (dir + 4 * i);
}.

(** What the new directory [fr] holds. *)
Definition new_slots (m m' : gmap Z Z) (fr dir : Z) : Prop := forall i, 0 <= i < 1024 ->
  pde m' fr i = if decide (i = 1023) then Z.lor (Z.lor (Z.land fr PG_ALIGN) PG_PRESENT) PG_RW
                else if decide (768 <= i < 896) then pde m dir i else 0.

Section create.
Context (s : machine) (F : Z -> Prop) (kern : Z).
Let dir := frame_of (cr3 s).
Hypothesis (R : running (m_pmm s) (ram s) dir F kern).

(** A free frame is no table and no data. *)
Lemma free_apart i q : frame_used (m_pmm s) i = false -> frame_words (i * 4096) q ->
  ~ table_word (ram s) dir q /\ forall f, F f -> ~ frame_words f q.
Proof.
  intros Hi Hq. pose proof (dir_words _ _ (rn_dir _ _ _ _ _ R)) as Hw.
  apply page_word in Hq; [|by exists i]. rewrite Z.div_mul in Hq by lia. split.
  - intros (k & Hk & Hk2 & Hp & Hq2). apply (page_word _ _ (pde_page _ _ _ Hw)) in Hq2.
    pose proof (rn_used _ _ _ _ _ R k Hk Hk2 Hp). congruence.
  - intros f Hf Hq2. destruct (rn_data _ _ _ _ _ R f Hf) as (Ha & _ & Hu & _). apply page_word in Hq2; [|done]. congruence.
Qed.

Lemma create_dir_run parent : 0 < free_frames (m_pmm s) -> exists i s', let fr := i * 4096 in
  pg_create_directory kern parent s = Ok (fr, s') /\ got_frame (m_pmm s) i (m_pmm s') /\ word fr /\ cr3 s' = cr3 s /\
  kept dir (frame_words fr) (ram s) (ram s') /\ new_slots (ram s) (ram s') fr dir.
Proof.
  intros Hfree. assert (Hwin : dir_win s (ram s)) by (split; apply R).
  destruct (wp_run _ _ _ (get_frame_wp _ (rn_mem _ _ _ _ _ R) Hfree)) as (r & p' & Eg & i & -> & Hg).
  unfold FRAME_SIZE, PAGE_SIZE in *. pose proof (proj1 (proj2 Hg)) as Hi. set (fr := i * 4096) in *. set (s2 := set_m_pmm p' s).
  pose proof (inv_total _ (rn_mem _ _ _ _ _ R)) as Htot. pose proof (inv_kernel _ (rn_mem _ _ _ _ _ R)) as Hker.
  assert (Hfw : word fr) by (unfold fr, word; destruct Hg; lia). assert (Hfa : (0x1000 | fr)) by by exists i.
  destruct (win_unmap s (frame_words fr) (ram s) VM_TMP_MAP Hwin (or_introl eq_refl)) as (r1 & m1 & E1 & K1 & Hr1 & _).
  pose proof (kept_win s _ _ _ K1 Hwin) as W1.
  destruct (win_map s2 (frame_words fr) m1 VM_TMP_MAP fr W1 (or_introl eq_refl) Hfw) as (m2 & E2 & K2 & S2 & _).
  rewrite (frame_of_page fr Hfw Hfa) in S2. pose proof (kept_trans _ _ _ _ _ K1 K2) as K12.
  pose proof (kept_win s2 _ _ _ K2 W1) as W2.
  assert (Hnt : forall q, frame_words fr q -> ~ table_word m2 dir q).
  { intros q Hq Ht. apply (proj1 (free_apart i q Hi Hq)). by apply (kept_words _ _ _ _ _ K12). }
  destruct (fill_run s2 fr m2 W2 Hfa S2 Hnt kern dir) as (m3 & E3 & (K3 & _ & T3 & _) & S3); [|done|].
  { intros j Hj. destruct (rn_kern _ _ _ _ _ R j Hj) as (H1 & H2 & H3 & H4). split_and!; try done.
    - by rewrite (kp_walk _ _ _ _ K12).
    - intros Hq. unfold kernel_slot in Hj. apply (proj1 (free_apart i _ Hi Hq)), (dir_table_word _ _ (rn_dir _ _ _ _ _ R)). lia. }
  pose proof (kept_win s2 _ _ _ K3 W2) as W3.
  destruct (win_map s2 (fun _ => False) m3 VM_TMP_MAP r1 W3 (or_introl eq_refl) Hr1) as (m4 & E4 & K4 & _ & _).
  exists i, (set_ram m4 s2). split_and!; try done.
  - unfold pg_create_directory. rewrite (bind_ok _ _ _ r1 (set_ram m1 s)) by (rewrite <- E1; by destruct s).
    rewrite (bind_ok _ _ _ fr (set_ram m1 s2)) by (unfold with_pmm, zoom; cbn [m_pmm set_ram]; by rewrite Eg).
    rewrite (bind_ok _ _ _ _ _ E2). apply bind_inv in E3 as ([] & c1 & F1 & ([] & c2 & F2 & F3)%bind_inv).
    rewrite (bind_ok _ _ _ _ _ F1), (bind_ok _ _ _ _ _ F2), (bind_ok _ _ _ _ _ F3).
    by rewrite (bind_ok _ _ _ _ _ E4).
  - exact (kept_trans _ _ _ _ _ (kept_trans _ _ _ _ _ K12 K3) (kept_weaken _ _ _ _ K4)).
  - intros j Hj. assert (Hq : frame_words fr ((fr + 4 * j) / 4)) by (unfold fr, frame_words; Z.div_mod_to_equations; lia).
    assert (pde m4 fr j = word_at m3 (fr + 4 * j)) as E
      by (unfold pde, word_at; by rewrite (kp_data _ _ _ _ K4) by (first [exact (T3 _ Hq)|tauto])).
    cbn [ram set_ram]. fold fr. rewrite E, (S3 j Hj). repeat case_decide; try done. exact (kp_pde _ _ _ _ K12 j ltac:(lia) ltac:(lia)).
Qed.

(** The new directory is a child without pages, ready for [_fork_aspace]. *)
Section created.
Context (i : Z) (s' : machine).
Let fr := i * 4096.
Hypotheses (Hg : got_frame (m_pmm s) i (m_pmm s')) (Hfw : word fr) (K : kept dir (frame_words fr) (ram s) (ram s'))
  (Hsl : new_slots (ram s) (ram s') fr dir).

Lemma created_self : frame_of fr = fr /\ present (pde (ram s') fr 1023) = true /\ frame_of (pde (ram s') fr 1023) = fr.
Proof.
  assert (Hff : frame_of fr = fr) by (apply frame_of_page; [done|by exists i]). split; [done|].
  rewrite (Hsl 1023) by lia. rewrite decide_True by done. rewrite <- Z.lor_assoc.
  destruct (lor_flags fr (Z.lor PG_PRESENT PG_RW) Hfw ltac:(done)) as (_ & Hf & Hp). by rewrite Hp, Hf, Hff.
Qed.

(** Its present slots: itself, and the kernel's. *)
Lemma created_slot j : 0 <= j < 1024 -> present (pde (ram s') fr j) = true ->
  (j = 1023 /\ frame_of (pde (ram s') fr j) = fr) \/
  (kernel_slot j /\ pde (ram s') fr j = pde (ram s) dir j /\ frame_of (pde (ram s') fr j) <> dir /\
   frame_used (m_pmm s) (frame_of (pde (ram s') fr j) / 4096) = true).
Proof.
  intros Hj Hp. destruct (decide (j = 1023)) as [->|Hne]; [left; split; [done|apply created_self]|right].
  rewrite (Hsl j Hj), decide_False in Hp |- * by done. destruct (decide (768 <= j < 896)) as [Hk|]; [|by rewrite present_zero in Hp].
  split; [done|]. split; [done|]. split; [|apply (rn_used _ _ _ _ _ R); done || lia].
  destruct (dir_rec _ _ (rn_dir _ _ _ _ _ R)) as [Hrp Hrf]. rewrite <- Hrf at 2. intros E.
  assert (j = 1023); [|done]. apply (dir_inj _ _ (rn_dir _ _ _ _ _ R)); done || lia.
Qed.

Lemma created_free : frame_used (m_pmm s) (fr / 4096) = false.
Proof. unfold fr. rewrite Z.div_mul by lia. apply Hg. Qed.

Lemma created_foreign : foreign (ram s') dir fr.
Proof.
  destruct created_self as (Hff & Hp & Hf). pose proof created_free as Hfree. pose proof (kp_ok _ _ _ _ K) as Hok. split; [apply Hok|split; [split|]|].
  - apply Hok.
  - exists i. unfold word in Hfw. unfold fr in *. lia.
  - done.
  - intros x y Hx Hy _ _ Hpx Hpy E.
    destruct (created_slot x Hx Hpx) as [[-> Ex]|(Hkx & Ex & _ & Hux)], (created_slot y Hy Hpy) as [[-> Ey]|(Hky & Ey & _ & Huy)];
      try done; try congruence.
    rewrite Ex, Ey in E. rewrite Ex in Hpx. rewrite Ey in Hpy.
    unfold kernel_slot in *. apply (dir_inj _ _ (rn_dir _ _ _ _ _ R)); done || lia.
  - intros x Hx Hpx. destruct (created_slot x Hx Hpx) as [[-> Ex]|(_ & _ & ? & _)]; [|done]. rewrite Ex. intros E.
    destruct (dir_rec _ _ (rn_dir _ _ _ _ _ R)) as [Hrp Hrf].
    pose proof (rn_used _ _ _ _ _ R 1023 ltac:(lia) ltac:(lia) Hrp) as Hu. rewrite Hrf, <- E in Hu. congruence.
Qed.

Lemma created_own q : own_word (ram s') fr q -> frame_words fr q.
Proof.
  intros (j & Hj & Hp & Hq). destruct (created_slot j ltac:(destruct Hj; lia) Hp) as [[-> Ex]|(Hk & _)].
  - by rewrite Ex in Hq.
  - unfold kernel_slot in Hk. destruct Hj; lia.
Qed.

Lemma created_guarded : guarded (m_pmm s') (ram s') dir fr F.
Proof.
  pose proof (proj1 (proj2 Hg)) as Hi. pose proof (kp_ok _ _ _ _ K) as Hok. pose proof (dir_words _ _ Hok) as Hws. split.
  - apply Hg.
  - exact Hok.
  - rewrite (kp_pde _ _ _ _ K) by lia. apply R.
  - exact created_foreign.
  - intros j Hj Hj2. rewrite (kp_pde _ _ _ _ K) by done. intros Hp. eapply got_used; [exact Hg|apply pde_index, R|by apply (rn_used _ _ _ _ _ R)].
  - intros j Hj Hp. destruct (created_slot j Hj Hp) as [[-> Ex]|(_ & _ & _ & Hu)].
    + rewrite Ex. unfold fr. rewrite Z.div_mul by lia. destruct Hg as (Hr & _ & (Hb & _) & _).
      pose proof (inv_kernel _ (rn_mem _ _ _ _ _ R)). rewrite Hb by lia. by rewrite decide_True.
    + eapply got_used; [exact Hg|by apply pde_index|exact Hu].
  - intros j Hj. left. rewrite (Hsl j) by lia. by rewrite !decide_False by lia.
  - intros q Hq%created_own Ht. apply (proj1 (free_apart i q Hi Hq)). by apply (kept_words _ _ _ _ _ K).
  - intros f Hf. destruct (rn_data _ _ _ _ _ R f Hf) as (Ha & Hw & Hu & Hn). split_and!; try done.
    + eapply got_used; [exact Hg| |done]. apply Z.div_pos; [apply Hw|lia].
    + intros q Hq. split; [intros Ht; apply (Hn q Hq); by apply (kept_words _ _ _ _ _ K)|].
      intros Ho%created_own. by apply (proj2 (free_apart i q Hi Ho) f Hf).
Qed.

Lemma created_empty u : user u -> walk_dir (ram s') fr u = None.
Proof.
  intros Hu. destruct (user_idx u Hu) as (_ & Hi). unfold walk_dir. destruct created_self as (-> & _).
  fold (pde (ram s') fr (pd_idx u)). rewrite (Hsl (pd_idx u)) by lia. by rewrite !decide_False by lia.
Qed.

(** The data frames are as they were. *)
Lemma created_data f q : F f -> frame_words f q -> ram s' !! q = ram s !! q.
Proof.
  intros Hf Hq. destruct (rn_data _ _ _ _ _ R f Hf) as (_ & _ & _ & Hn). apply (kp_data _ _ _ _ K); [by apply Hn|].
  intros Hq'. by apply (proj2 (free_apart i q (proj1 (proj2 Hg)) Hq') f Hf).
Qed.
End created.
End create.
