(* ===== verification/ForkAspace.v ===== *)
(** * Forking an address space

    [_fork_aspace] walks the parent's region list, copies the pages of each
    region and appends a region of the same range and flags to the child's
    list. *)

From stdpp Require Import sorting.
From S2P Require Import Prelude Dlist Pmm Kmalloc KmallocSpec Heap Paging MmuSpec SpaceSpec DupSpec Vmm VmmSpec ForkSpec DirSpec.

#[local] Open Scope Z_scope.

(** The pages of the regions [l], in the order of the list. *)
Definition pages_of (m : gmap Z region) (l : list Z) : list Z :=
  l ≫= (fun p => match rg m p with Some (a, z, _) => range_pages a z | None => [] end).

Section lists.
Context {H : Type} `{!Allocator H}.
Implicit Types (s : vmm H) (l : list Z).

(** A list depends on its members and the ends only. *)
Lemma as_list_frame s s' a l : (forall q, q ∈ l -> v_regions s' !! q = v_regions s !! q) ->
  v_aspaces s' !! a = v_aspaces s !! a -> as_list s a l -> as_list s' a l.
Proof.
  intros Hq Has Ha. split.
  - rewrite Has. apply Ha.
  - apply Ha.
  - destruct (al_dl _ _ _ Ha) as [Hd Hnd]. split; [|done]. eapply dseg_frame; [|exact Hd].
    intros p Hp. unfold links. by rewrite Hq.
  - intros p r Hp Hr. rewrite Hq in Hr by done. by apply (al_rg _ _ _ Ha p).
  - eapply sorted_ranges; [|apply Ha]. intros p Hp. unfold rg. by rewrite Hq.
Qed.

(** Every region is a block of the heap. *)
Definition regions_live s (B : gmap Z Z) : Prop := al_rep (v_heap s) B /\ forall q, is_Some (v_regions s !! q) -> is_Some (B !! q).

Lemma create_region_wp s B addr sz fl n : regions_live s B -> 0 <= n -> n + 58 < 2 ^ 29 -> al_room (v_heap s) (n + 58) ->
  wp (_create_region addr sz fl) (fun p s' => exists h z, p <> 0 /\ v_regions s !! p = None /\ B !! p = None /\
    s' = set_regions (<[p := mkRegion addr sz fl 0 0]> (v_regions s)) (set_heap h s) /\
    regions_live s' (<[p := z]> B) /\ al_room h n) s.
Proof.
  intros [Hrep Hlive] Hn Hlt Hroom. unfold _create_region. apply wp_bind.
  assert (Hm : wp (al_malloc SIZEOF_REGION) (fun p h => exists z, p <> 0 /\ B !! p = None /\ al_rep h (<[p := z]> B) /\ al_room h n) (v_heap s)).
  { pose proof (al_malloc_wp _ B SIZEOF_REGION Hrep ltac:(done)) as H1. unfold SIZEOF_REGION in *.
    destruct (wp_run _ _ _ (H1 (al_room_down (v_heap s) 20 (n + 58) ltac:(lia) ltac:(lia) ltac:(lia) Hroom))) as (p & h & E & z & Hp & HB & _ & Hrep').
    pose proof (al_malloc_room _ B 20 n Hrep ltac:(lia) Hn ltac:(lia)) as H2.
    replace (20 + n + 38) with (n + 58) in H2 by lia. specialize (H2 Hroom). unfold wp in H2. rewrite E in H2.
    eapply wp_intro; [exact E|]. eauto. }
  apply wp_zoom. eapply wp_mono; [exact Hm|]. intros p h (z & Hp & HB & Hrep' & Hroom'). vrun.
  exists h, z. split_and!; try done.
  - destruct (v_regions s !! p) eqn:E; [|done]. destruct (Hlive p) as [? E']; [eauto|]. congruence.
  - split; [done|]. intros q. cbn [v_regions set_regions set_heap]. rewrite !lookup_insert. case_decide; [eauto|]. apply Hlive.
Qed.
End lists.

Lemma set_ends_same D : set_last (as_last D) (set_first (as_first D) D) = D.
Proof. by destruct D. Qed.

Section fork.
Context {H : Type} `{!Allocator H}.
(** Beyond what the copy takes there are [eh] bytes of heap and [ef] frames. *)
Context (st0 : vmm H) (src dst : Z) (A D : aspace) (l : list Z) (F : Z -> Prop) (eh ef : Z) (B0 : gmap Z Z).
Hypotheses (Heh : 0 <= eh) (Hef : 0 <= ef).
Let p0 := m_pmm (v_mach st0).
Let m0 := ram (v_mach st0).
Let dir := frame_of (cr3 (v_mach st0)).
Let child := pd D.

(** The parent's directory is beside the kernel's, its tables and pages are in
    the frames [F]; the child has no region yet. *)
Record fork_pre : Prop := {
  fp_src : as_list st0 src l;
  fp_dst : as_list st0 dst [];
  fp_as : v_aspaces st0 !! src = Some A /\ v_aspaces st0 !! dst = Some D /\ src <> dst;
  fp_space : beside m0 dir (pd A) /\ tables_in F m0 (pd A);
  fp_guard : guarded p0 m0 dir child F;
  fp_flags : forall p r, p ∈ l -> v_regions st0 !! p = Some r -> 0 <= r_flags r < 4096;
  fp_data : forall v a, v ∈ pages_of (v_regions st0) l -> walk_dir m0 (pd A) v = Some a -> F (a - v mod 4096);
  fp_pages : NoDup ((fun v => v / 4096) <$> pages_of (v_regions st0) l);
  fp_frames : 2 * Z.of_nat (length (pages_of (v_regions st0) l)) + ef <= free_frames p0;
}.
Hypothesis Hpre : fork_pre.

(** After the regions [k1]; [k2] are still to come. *)
Record fork_inv (k1 k2 l' fs : list Z) (B : gmap Z Z) (st : vmm H) : Prop := {
  fi_src : as_list st src l;
  fi_dst : as_list st dst l';
  fi_apart : forall q, q ∈ l -> q ∉ l';
  fi_rg : forall q, q ∈ l -> rg (v_regions st) q = rg (v_regions st0) q;
  fi_copy : Forall2 (fun p q => rg (v_regions st) q = rg (v_regions st0) p) k1 l';
  fi_as : exists f z, v_aspaces st = <[dst := set_last z (set_first f D)]> (v_aspaces st0);
  fi_live : regions_live st B;
  fi_sub : B0 ⊆ B;
  fi_room : al_room (v_heap st) (58 * Z.of_nat (length k2) + eh);
  fi_pages : forked p0 m0 dir (pd A) child F (pages_of (v_regions st0) k1) fs (v_mach st);
  fi_frames : 2 * Z.of_nat (length (pages_of (v_regions st0) k2)) + ef <= free_frames (m_pmm (v_mach st));
  fi_rest : v_errno st = v_errno st0 /\ v_bufs st = v_bufs st0;
}.

Lemma pages_of_app m k1 k2 : pages_of m (k1 ++ k2) = pages_of m k1 ++ pages_of m k2.
Proof. apply bind_app. Qed.

Lemma pages_of_cons m p r k : v_regions m !! p = Some r -> pages_of (v_regions (H:=H) m) (p :: k) = region_pages r ++ pages_of (v_regions m) k.
Proof. intros Hr. unfold pages_of. cbn [mbind list_bind]. by rewrite (rg_lookup _ _ _ Hr). Qed.

(** The region [p] of the parent, as the current state has it. *)
Lemma fork_region_of k1 p k2 l' fs B st : l = k1 ++ p :: k2 -> fork_inv k1 (p :: k2) l' fs B st ->
  exists r0 r, v_regions st0 !! p = Some r0 /\ v_regions st !! p = Some r /\ p <> 0 /\ user_region r /\ 0 < r_size r /\
    region_pages r = region_pages r0 /\ rg (v_regions st) p = rg (v_regions st0) p /\ r_next r = hd0 0 k2.
Proof.
  intros El HI. assert (Hp : p ∈ l) by (rewrite El; in_tac).
  destruct (al_region _ _ _ _ (fp_src Hpre) Hp) as (r0 & Hr0 & _).
  destruct (al_region _ _ _ _ (fi_src _ _ _ _ _ _ HI) Hp) as (r & Hr & Hp0 & _).
  pose proof (fi_rg _ _ _ _ _ _ HI p Hp) as Erg. pose proof Erg as E. rewrite (rg_lookup _ _ _ Hr), (rg_lookup _ _ _ Hr0) in E.
  injection E as E1 E2 E3. destruct (al_rg _ _ _ (fi_src _ _ _ _ _ _ HI) p r Hp Hr) as (? & ? & ?).
  exists r0, r. split_and!; try done.
  - split_and!; try done; [lia|rewrite E3..]; by apply (fp_flags Hpre p r0).
  - unfold region_pages. by rewrite E1, E2.
  - destruct (al_dl _ _ _ (fi_src _ _ _ _ _ _ HI)) as [Hd _]. rewrite El in Hd. apply dseg_app in Hd as [_ (_ & Hlk & _)].
    rewrite (links_lookup _ _ _ Hr) in Hlk. by injection Hlk.
Qed.

(** Only the machine moved. *)
Lemma inv_set_mach k1 k2 l' fs B st m : fork_inv k1 k2 l' fs B st -> as_list (set_mach m st) src l /\ as_list (set_mach m st) dst l' /\
  regions_live (set_mach m st) B.
Proof. intros HI. split_and!; [eapply as_list_frame; [..|apply HI]; done|eapply as_list_frame; [..|apply HI]; done|apply HI]. Qed.

(** The new region comes after the child's other regions. *)
Lemma child_fits k1 p k2 l' fs B st q (s2 : vmm H) : l = k1 ++ p :: k2 -> fork_inv k1 (p :: k2) l' fs B st ->
  (forall x, x ∈ l' -> rg (v_regions s2) x = rg (v_regions st) x) -> rg (v_regions s2) q = rg (v_regions st0) p -> fits s2 l' q [].
Proof.
  intros El HI Hrg Hq. split; [|by intros x Hx%elem_of_nil]. intros x Hx.
  pose proof (fi_copy _ _ _ _ _ _ HI) as Hc. apply list_elem_of_lookup in Hx as [i Hi].
  destruct (Forall2_lookup_r _ _ _ _ _ Hc Hi) as (y & Hy & E). pose proof (fp_src Hpre) as Ha. rewrite El in Ha.
  apply list_elem_of_lookup_2 in Hy, Hi. pose proof (proj1 (sorted_at _ _ _ _ _ Ha) y Hy) as Hle.
  unfold hi, lo in *. rewrite Hrg, E, Hq by done. exact Hle.
Qed.

Lemma fork_pages_disjoint k1 p k2 r0 : l = k1 ++ p :: k2 -> v_regions st0 !! p = Some r0 ->
  NoDup ((fun v => v / 4096) <$> pages_of (v_regions st0) k1 ++ region_pages r0) /\
  (forall v, v ∈ region_pages r0 -> v ∈ pages_of (v_regions st0) l).
Proof.
  intros El Hr. pose proof (fp_pages Hpre) as Hnd. rewrite El, pages_of_app, (pages_of_cons _ _ _ _ Hr) in Hnd |- *.
  split; [|intros v; rewrite !elem_of_app; tauto].
  rewrite app_assoc, fmap_app in Hnd. by apply NoDup_app in Hnd as [? _].
Qed.

(** The copy of region [p], allocated at [q], is linked in. *)
Lemma fork_link_wp k1 p k2 l' fs B st r m h q fs' B' : l = k1 ++ p :: k2 -> fork_inv k1 (p :: k2) l' fs B st ->
  v_regions st !! p = Some r -> q <> 0 -> v_regions st !! q = None ->
  let s2 := set_regions (<[q := mkRegion (r_addr r) (r_size r) (r_flags r) 0 0]> (v_regions st)) (set_heap h (set_mach m st)) in
  regions_live s2 B' -> B0 ⊆ B' -> al_room h (58 * Z.of_nat (length k2) + eh) ->
  forked p0 m0 dir (pd A) child F (pages_of (v_regions st0) (k1 ++ [p])) fs' m ->
  2 * Z.of_nat (length (pages_of (v_regions st0) k2)) + ef <= free_frames (m_pmm m) ->
  wp (_insert_region dst q) (fun _ s' => fork_inv (k1 ++ [p]) k2 (l' ++ [q]) fs' B' s') s2.
Proof.
  intros El HI Hr Hq0 Hqn s2 Hlive2 Hsub2 Hroom2 HF' Hfree. assert (Hp : p ∈ l) by (rewrite El; in_tac).
  destruct (al_rg _ _ _ (fi_src _ _ _ _ _ _ HI) p r Hp Hr) as (Ha0 & Hsz & Hend).
  destruct (fi_as _ _ _ _ _ _ HI) as (f & z & Eas). pose proof (fp_as Hpre) as (HA & HD & Hne).
  assert (Has : v_aspaces st !! dst = Some (set_last z (set_first f D))) by (by rewrite Eas, lookup_insert_eq).
  assert (Hreg : forall x, x <> q -> v_regions s2 !! x = v_regions st !! x) by (intros x Hx; by apply lookup_insert_ne).
  assert (Hql : forall x y, as_list st x y -> q ∉ y).
  { intros x y Hxy Hin'. destruct (al_region _ _ _ _ Hxy Hin') as (? & E & _). congruence. }
  pose proof (Hql _ _ (fi_src _ _ _ _ _ _ HI)) as Hqsrc. pose proof (Hql _ _ (fi_dst _ _ _ _ _ _ HI)) as Hqdst.
  assert (Hsrc2 : as_list s2 src l) by (apply (as_list_frame st s2); [intros x Hx; apply Hreg; by intros ->|done|apply HI]).
  assert (Hdst2 : as_list s2 dst (l' ++ []))
    by (rewrite app_nil_r; apply (as_list_frame st s2); [intros x Hx; apply Hreg; by intros ->|done|apply HI]).
  assert (Hrgs : forall x, x <> q -> rg (v_regions s2) x = rg (v_regions st) x) by (intros x Hx; unfold rg; by rewrite Hreg).
  assert (Hrgq : rg (v_regions s2) q = rg (v_regions st0) p).
  { rewrite <- (fi_rg _ _ _ _ _ _ HI p Hp), (rg_lookup _ _ _ Hr).
    exact (rg_lookup (v_regions s2) q (mkRegion (r_addr r) (r_size r) (r_flags r) 0 0) (lookup_insert_eq _ _ _)). }
  eapply wp_mono; [apply (insert_region_wp s2 dst l' [] q (mkRegion (r_addr r) (r_size r) (r_flags r) 0 0) (set_last z (set_first f D)) Hdst2)|];
    try done; [by rewrite app_nil_r|by apply lookup_insert_eq| |].
  { eapply child_fits; [exact El|exact HI| |exact Hrgq]. intros x Hx. apply Hrgs. by intros ->. }
  intros [] s3 (Hdst3 & [Hon1 Hon2 (Hh & Hm & Hb & He)] & Hoth).
  destruct (Hon2 _ Has) as (f' & z' & Eas3). split.
  - apply (as_list_frame s2 s3); [|by rewrite Eas3, lookup_insert_ne|done]. intros x Hx. apply Hoth.
    rewrite not_elem_of_app, not_elem_of_cons. split; [by apply (fi_apart _ _ _ _ _ _ HI)|].
    split; [by intros ->|by apply not_elem_of_nil].
  - exact Hdst3.
  - intros x Hx. rewrite not_elem_of_app, not_elem_of_cons. split; [by apply (fi_apart _ _ _ _ _ _ HI)|].
    split; [by intros ->|by apply not_elem_of_nil].
  - intros x Hx. rewrite Hon1, Hrgs by (by intros ->). by apply (fi_rg _ _ _ _ _ _ HI).
  - apply Forall2_app; [|constructor; [by rewrite Hon1|constructor]].
    pose proof (fi_copy _ _ _ _ _ _ HI) as Hc. rewrite !Forall2_same_length_lookup in Hc |- *. destruct Hc as [Hlen Hc].
    split; [done|]. intros i x y Hx Hy. rewrite Hon1, Hrgs; [by apply (Hc i)|]. intros ->. by apply list_elem_of_lookup_2 in Hy.
  - exists f', z'. rewrite Eas3. cbn [v_aspaces set_regions set_heap set_mach s2]. rewrite Eas, insert_insert_eq. reflexivity.
  - destruct Hlive2 as [H1 H2]. split; [by rewrite Hh|]. intros x Hx. apply H2. pose proof (Hon1 x) as E. unfold rg in E.
    destruct Hx as [rx Ex]. rewrite Ex in E. destruct (v_regions s2 !! x); [eauto|done].
  - exact Hsub2.
  - rewrite Hh. exact Hroom2.
  - rewrite Hm. exact HF'.
  - rewrite Hm. exact Hfree.
  - rewrite Hb, He. apply HI.
Qed.

(** One region of the parent. *)
Definition fork_round (tmp : Z) : vm (H:=H) unit :=
  do r <- ld_reg tmp;
  do d <- ld_as dst;
  fork_region (pd A) (pd d) r ;;;
  do new <- _create_region (r_addr r) (r_size r) (r_flags r);
  _insert_region dst new.

Lemma fork_copy_wp k1 p k2 l' fs B st : l = k1 ++ p :: k2 -> fork_inv k1 (p :: k2) l' fs B st ->
  58 * Z.of_nat (length l) + eh < 2 ^ 29 ->
  wp (fork_round p) (fun _ s' => exists q fs' B', fork_inv (k1 ++ [p]) k2 (l' ++ [q]) fs' B' s') st.
Proof.
  intros El HI Hlen. destruct (fork_region_of _ _ _ _ _ _ _ El HI) as (r0 & r & Hr0 & Hr & Hp0 & Hu & Hsz & Hpg & Erg & Hnx).
  destruct (fi_as _ _ _ _ _ _ HI) as (f & z & Eas). pose proof (al_nz _ _ _ (fp_dst Hpre)) as Hdst0.
  assert (Has : v_aspaces st !! dst = Some (set_last z (set_first f D))) by (by rewrite Eas, lookup_insert_eq).
  destruct (fork_pages_disjoint _ _ _ _ El Hr0) as [Hnd Hin].
  pose proof (fi_frames _ _ _ _ _ _ HI) as Hfr. rewrite (pages_of_cons _ _ _ _ Hr0), length_app in Hfr.
  destruct (fork_region_run p0 m0 dir (pd A) child F (r_flags r) ltac:(apply Hu) (proj2 (fp_space Hpre)) r _ fs st (fi_pages _ _ _ _ _ _ HI) Hu eq_refl)
    as (fs' & m & Efork & HF' & Hfree).
  { by rewrite Hpg. } { intros v a Hv. apply (fp_data Hpre), Hin. by rewrite <- Hpg. } { rewrite Hpg. lia. }
  unfold fork_round. vrun. eapply wp_intro; [exact Efork|].
  apply wp_bind. eapply wp_mono.
  { apply (create_region_wp (set_mach m st) B _ _ _ (58 * Z.of_nat (length k2) + eh) (fi_live _ _ _ _ _ _ HI)); [lia| |].
    - rewrite El, length_app in Hlen. cbn [length] in Hlen. lia.
    - replace (58 * Z.of_nat (length k2) + eh + 58) with (58 * Z.of_nat (length (p :: k2)) + eh) by (cbn [length]; lia). apply HI. }
  intros q s2 (h & z' & Hq0 & Hqn & HBq & -> & Hlive2 & Hroom2).
  assert (Hsub2 : B0 ⊆ <[q := z']> B) by (etransitivity; [apply HI|by apply insert_subseteq]).
  eapply wp_mono; [eapply (fork_link_wp k1 p k2 l' fs B st r m h q (fs ++ fs') _ El HI Hr Hq0 Hqn Hlive2 Hsub2 Hroom2)|].
  - rewrite pages_of_app, (pages_of_cons _ _ _ _ Hr0), <- Hpg. cbn [pages_of mbind list_bind]. by rewrite app_nil_r.
  - rewrite Hpg in Hfree. lia.
  - intros [] s' HI'. eauto.
Qed.

Lemma fork_round_then {B} p st s' (K : vm (H:=H) B) : fork_round p st = Ok (tt, s') ->
  (do r <- ld_reg p;
   do d <- ld_as dst;
   fork_region (pd A) (pd d) r ;;;
   do new <- _create_region (r_addr r) (r_size r) (r_flags r);
   _insert_region dst new ;;; K) st = K s'.
Proof.
  unfold fork_round. intros (r & s1 & E1 & (d & s2 & E2 & ([] & s3 & E3 & (q & s4 & E4 & E5)%bind_inv)%bind_inv)%bind_inv)%bind_inv.
  by rewrite (bind_ok _ _ _ _ _ E1), (bind_ok _ _ _ _ _ E2), (bind_ok _ _ _ _ _ E3), (bind_ok _ _ _ _ _ E4), (bind_ok _ _ _ _ _ E5).
Qed.

Lemma fork_loop_wp k2 : forall k1 l' fs B st fuel, l = k1 ++ k2 -> fork_inv k1 k2 l' fs B st ->
  58 * Z.of_nat (length l) + eh < 2 ^ 29 -> (length k2 < fuel)%nat ->
  wp (loop fuel (fun tmp =>
    if tmp =? 0 then ret_ (inr tt)
    else
      do r <- ld_reg tmp;
      do d <- ld_as dst;
      fork_region (pd A) (pd d) r ;;;
      do new <- _create_region (r_addr r) (r_size r) (r_flags r);
      _insert_region dst new ;;;
      do r <- ld_reg tmp;
      ret_ (inl (r_next r))) (hd0 0 k2)) (fun _ s' => exists l' fs B, fork_inv l [] l' fs B s') st.
Proof.
  induction k2 as [|p k2 IH]; intros k1 l' fs B st fuel El HI Hlen Hfuel;
    (destruct fuel as [|fuel]; [cbn in Hfuel; lia|]); cbn [loop hd0]; apply wp_bind.
  - apply wp_ret, wp_ret. exists l', fs, B. by rewrite app_nil_r in El; subst k1.
  - assert (Hp0 : p <> 0) by (destruct (fork_region_of _ _ _ _ _ _ _ El HI) as (? & ? & _ & _ & Hp & _); done).
    rewrite (proj2 (Z.eqb_neq p 0)) by done.
    destruct (wp_run _ _ _ (fork_copy_wp _ _ _ _ _ _ _ El HI Hlen)) as ([] & s' & E & q & fs' & B' & HI').
    unfold wp at 1. rewrite (fork_round_then p st s' _ E).
    assert (El' : l = (k1 ++ [p]) ++ k2) by by rewrite <- app_assoc.
    assert (Hp : p ∈ l) by (rewrite El; in_tac). destruct (al_region _ _ _ _ (fi_src _ _ _ _ _ _ HI') Hp) as (r & Hr & _).
    assert (Hnx : r_next r = hd0 0 k2).
    { destruct (al_dl _ _ _ (fi_src _ _ _ _ _ _ HI')) as [Hd _]. rewrite El in Hd. apply dseg_app in Hd as [_ (_ & Hlk & _)].
      rewrite (links_lookup _ _ _ Hr) in Hlk. by injection Hlk. }
    unfold ld_reg, bind_. rewrite Hr, (proj2 (Z.eqb_neq p 0)), Hnx by done. cbn.
    apply (IH (k1 ++ [p]) (l' ++ [q]) fs' B'); [done|done|done|cbn in Hfuel; lia].
Qed.

(** The child's address space when all regions are done. *)
Record fork_done (l' fs : list Z) (st : vmm H) : Prop := {
  fd_src : as_list st src l;
  fd_dst : as_list st dst l';
  fd_apart : forall q, q ∈ l -> q ∉ l';
  fd_rg : forall q, q ∈ l -> rg (v_regions st) q = rg (v_regions st0) q;
  fd_copy : Forall2 (fun p q => rg (v_regions st) q = rg (v_regions st0) p) l l';
  fd_as : exists f z, v_aspaces st = <[dst := copy_layout A (set_last z (set_first f D))]> (v_aspaces st0);
  fd_pages : forked p0 m0 dir (pd A) child F (pages_of (v_regions st0) l) fs (v_mach st);
  fd_rest : v_errno st = v_errno st0 /\ v_bufs st = v_bufs st0;
  fd_live : exists B, regions_live st B /\ B0 ⊆ B /\ al_room (v_heap st) eh;
  fd_frames : ef <= free_frames (m_pmm (v_mach st));
}.

Lemma fork_aspace_wp : regions_live st0 B0 -> al_room (v_heap st0) (58 * Z.of_nat (length l) + eh) -> 58 * Z.of_nat (length l) + eh < 2 ^ 29 ->
  wp (_fork_aspace src dst) (fun _ s' => exists l' fs, fork_done l' fs s') st0.
Proof.
  intros Hlive Hroom Hlen. pose proof (fp_as Hpre) as (HA & HD & Hne). pose proof (al_nz _ _ _ (fp_src Hpre)) as Hs0.
  pose proof (al_nz _ _ _ (fp_dst Hpre)) as Hd0. pose proof (fp_guard Hpre) as G.
  destruct (al_as _ _ _ (fp_src Hpre)) as (A' & HA' & Hf & _). rewrite HA in HA'. injection HA' as <-.
  unfold _fork_aspace. vrun. rewrite Hf. eapply wp_mono; [eapply (fork_loop_wp l [] [] [] B0)|]; try done.
  - split; try done; try apply Hpre.
    + intros q _. by apply not_elem_of_nil.
    + exists (as_first D), (as_last D). rewrite insert_id; [done|]. rewrite HD. f_equal. symmetry. apply set_ends_same.
    + split; try done; [|apply same_space_refl, (fp_space Hpre)|constructor].
      eapply guarded_fewer; [|exact G]. intros f [Hf'|[Hf' _]]; [done|by apply elem_of_nil in Hf'].
  - pose proof (dlist_length _ _ (al_dl _ _ _ (fp_src Hpre))). lia.
  - intros [] s1 (l' & fs & B' & HI). destruct (fi_as _ _ _ _ _ _ HI) as (f & z & Eas).
    assert (HA1 : v_aspaces s1 !! src = Some A) by (by rewrite Eas, lookup_insert_ne).
    assert (HD1 : v_aspaces s1 !! dst = Some (set_last z (set_first f D))) by (by rewrite Eas, lookup_insert_eq).
    vrun. exists l', fs. split; try apply HI.
    + apply (as_list_frame s1); [done| |apply HI]. cbn. by rewrite lookup_insert_ne.
    + destruct (al_as _ _ _ (fi_dst _ _ _ _ _ _ HI)) as (D' & HD' & H1 & H2). rewrite HD1 in HD'. injection HD' as <-.
      destruct (fi_dst _ _ _ _ _ _ HI) as [_ Hnz Hdl Hrg Hs]. split; try done.
      eexists. cbn [v_aspaces set_aspaces]. rewrite lookup_insert_eq. by split_and!.
    + exists f, z. cbn [v_aspaces set_aspaces]. by rewrite Eas, insert_insert_eq.
    + exists B'. pose proof (fi_room _ _ _ _ _ _ HI) as Hr. split; [exact (fi_live _ _ _ _ _ _ HI)|]. split; [apply HI|exact Hr].
Qed.
End fork.

(** The child's frame of a page. *)
Lemma page_frame_nonneg p0 m0 sp pd m v fr : words_ok m -> page_copied p0 m0 sp pd m v fr -> 0 <= fr.
Proof.
  intros Hw [E _]. unfold walk_dir in E. destruct (present _); [|done]. destruct (present _); [|done]. injection E as E.
  destruct (frame_of_range (word_at m (frame_of (word_at m (frame_of pd + 4 * pd_idx v)) + 4 * (pt_idx v mod 1024)))) as (a & Ha & ?);
    [by apply word_at_word|]. lia.
Qed.

(** ** A new address space *)

Section create.
Context {H : Type} `{!Allocator H}.
Context (kern : Z) (st : vmm H) (as_ : Z) (A : aspace) (l : list Z) (F : Z -> Prop) (B : gmap Z Z) (eh ef : Z).
Let m := v_mach st.
Let dir := frame_of (cr3 m).
Let pages := pages_of (v_regions st) l.

(** What [fork] starts from: the kernel's directory is loaded, the program
    [as_] has another one; its tables and its pages are in the frames [F] and
    no two regions share a page; there is memory for two
    frames a page (the copy, and perhaps a table), for the directory, and
    for the objects of the kernel, with [eh] bytes of the heap and [ef]
    frames to spare. *)
Record create_pre : Prop := {
  cp_list : as_list st as_ l;
  cp_as : v_aspaces st !! as_ = Some A;
  cp_space : beside (ram m) dir (pd A) /\ tables_in F (ram m) (pd A);
  cp_mach : running (m_pmm m) (ram m) dir F kern;
  cp_flags : forall p r, p ∈ l -> v_regions st !! p = Some r -> 0 <= r_flags r < 4096;
  cp_data : forall v a, v ∈ pages -> walk_dir (ram m) (pd A) v = Some a -> F (a - v mod 4096);
  cp_pages : NoDup ((fun v => v / 4096) <$> pages);
  cp_frames : 2 * Z.of_nat (length pages) + 1 + ef <= free_frames (m_pmm m);
  cp_spare : 0 <= eh /\ 0 <= ef;
  cp_heap : regions_live st B;
  cp_aspaces : forall x, is_Some (v_aspaces st !! x) -> is_Some (B !! x);
  cp_room : al_room (v_heap st) (58 * Z.of_nat (length l) + 74 + eh);
  cp_bound : 58 * Z.of_nat (length l) + 74 + eh < 2 ^ 29;
}.
Hypothesis Hpre : create_pre.

Lemma alloc_aspace : exists new h z, al_malloc SIZEOF_ASPACE (v_heap st) = Ok (new, h) /\ new <> 0 /\ new <> as_ /\
  v_aspaces st !! new = None /\ B !! new = None /\ al_rep h (<[new := z]> B) /\ al_room h (58 * Z.of_nat (length l) + eh).
Proof.
  pose proof (cp_bound Hpre) as Hb. pose proof (cp_room Hpre) as Hr. pose proof (proj1 (cp_heap Hpre)) as Hrep.
  pose proof (cp_spare Hpre) as [He _]. unfold SIZEOF_ASPACE.
  destruct (wp_run _ _ _ (al_malloc_wp _ B 36 Hrep ltac:(done)
    (al_room_down _ 36 (58 * Z.of_nat (length l) + 74 + eh) ltac:(lia) ltac:(lia) Hb Hr))) as (new & h & E & z & Hn & HB & _ & Hrep').
  pose proof (al_malloc_room _ B 36 (58 * Z.of_nat (length l) + eh) Hrep ltac:(lia) ltac:(lia) ltac:(lia)) as Hm.
  replace (36 + (58 * Z.of_nat (length l) + eh) + 38) with (58 * Z.of_nat (length l) + 74 + eh) in Hm by lia. specialize (Hm Hr).
  unfold wp in Hm. rewrite E in Hm.
  assert (Hnone : v_aspaces st !! new = None).
  { destruct (v_aspaces st !! new) eqn:Ex; [|done]. destruct (cp_aspaces Hpre new) as [? Ex']; [eauto|]. congruence. }
  exists new, h, z. split_and!; try done. intros ->. pose proof (cp_as Hpre). congruence.
Qed.

Lemma pages_user v : v ∈ pages -> user v.
Proof.
  intros (p & Hv & Hp)%list_elem_of_bind. destruct (al_region _ _ _ _ (cp_list Hpre) Hp) as (r & Hr & _).
  rewrite (rg_lookup _ _ _ Hr) in Hv. destruct (al_rg _ _ _ (cp_list Hpre) p r Hp Hr) as (? & ? & ?).
  apply (region_pages_user r); [|done]. split_and!; try done; [lia|..]; by apply (cp_flags Hpre p r).
Qed.

(** The state when [_fork_aspace] is called. *)
Definition created_state (new : Z) (h : H) (s' : machine) (fr : Z) : vmm H :=
  set_aspaces (<[new := set_pd fr zero_aspace]> (v_aspaces st)) (set_mach s' (set_heap h st)).

(** The new frame is none of the parent's: the parent is as it was. *)
Lemma created_space i s' : got_frame (m_pmm m) i (m_pmm s') -> kept dir (frame_words (i * 4096)) (ram m) (ram s') ->
  same_space dir (pd A) (ram m) (ram s').
Proof.
  intros Hg K. destruct (cp_space Hpre) as [Hb Ht]. apply (beside_kept _ _ _ _ _ Hb K). intros q Hq (j & Hj & Hp & Hq2).
  by apply (proj2 (free_apart m F kern (cp_mach Hpre) i q (proj1 (proj2 Hg)) Hq) _ (Ht j Hj Hp)).
Qed.

Lemma created_fork_pre new h s' i : new <> 0 -> new <> as_ -> got_frame (m_pmm m) i (m_pmm s') -> word (i * 4096) -> cr3 s' = cr3 m ->
  kept dir (frame_words (i * 4096)) (ram m) (ram s') -> new_slots (ram m) (ram s') (i * 4096) dir ->
  fork_pre (created_state new h s' (i * 4096)) as_ new A (set_pd (i * 4096) zero_aspace) l F ef.
Proof.
  intros Hn Hna Hg Hw Hcr K Hsl. split; cbn [created_state v_mach v_regions v_aspaces set_mach set_aspaces set_heap].
  - apply (as_list_frame st); [done| |apply Hpre]. cbn. by rewrite lookup_insert_ne.
  - split; try done.
    + eexists. cbn. by rewrite lookup_insert_eq.
    + split; [done|constructor].
    + intros p r Hp. by apply elem_of_nil in Hp.
    + constructor.
  - rewrite lookup_insert_ne, lookup_insert_eq by done. split_and!; [apply Hpre|done|done].
  - rewrite Hcr. pose proof (created_space i s' Hg K) as S. split; [apply S|]. apply (tables_same _ _ _ _ _ S), (cp_space Hpre).
  - rewrite Hcr. by apply (created_guarded m F kern (cp_mach Hpre) i s').
  - apply Hpre.
  - intros v a Hv Ha. apply (cp_data Hpre v a Hv). rewrite <- Ha. symmetry.
    apply (ss_walk _ _ _ _ (created_space i s' Hg K)). by apply pages_user.
  - apply Hpre.
  - destruct Hg as (_ & _ & _ & _ & Hc). fold pages. rewrite Hc. pose proof (cp_frames Hpre). lia.
Qed.

(** The frames of data are what they were, and so are their bytes. *)
Lemma data_bytes (m1 m2 : gmap Z Z) f : F f -> (forall q, frame_words f q -> m2 !! q = m1 !! q) ->
  forall j, 0 <= j < 4096 -> phys_byte m2 (f + j) = phys_byte m1 (f + j).
Proof.
  intros Hf Hq. apply frame_bytes; [|done]. by destruct (rn_data _ _ _ _ _ (cp_mach Hpre) f Hf).
Qed.

(** A copied page, told against the state before the directory was made. *)
Lemma page_before i m1 m2 pd_ v fr : got_frame (m_pmm m) i (m_pmm m1) -> kept dir (frame_words (i * 4096)) (ram m) (ram m1) ->
  v ∈ pages -> 0 <= fr -> page_copied (m_pmm m1) (ram m1) (pd A) pd_ m2 v fr -> page_copied (m_pmm m) (ram m) (pd A) pd_ m2 v fr.
Proof.
  intros Hg K Hv Hfr [Hw Hm]. pose proof (pages_user v Hv) as Hu.
  rewrite (ss_walk _ _ _ _ (created_space i m1 Hg K) v Hu) in Hm. split; [done|]. destruct (walk_dir (ram m) (pd A) v) as [a|] eqn:Ea; [|done]. destruct Hm as (Hz & Hfree & Hb).
  split; [done|]. split.
  - destruct (frame_used (m_pmm m) (fr / 4096)) eqn:Hx; [|done].
    rewrite (got_used _ _ _ _ Hg) in Hfree; [done|apply Z.div_pos; lia|done].
  - intros j Hj. rewrite Hb by done. pose proof (cp_data Hpre v a Hv Ea) as Hf. apply data_bytes; [done| |done].
    intros q. by apply (created_data m F kern (cp_mach Hpre) i m1 Hg K).
Qed.

Lemma pages_before i m1 m2 pd_ fs : got_frame (m_pmm m) i (m_pmm m1) -> kept dir (frame_words (i * 4096)) (ram m) (ram m1) ->
  words_ok m2 -> Forall2 (page_copied (m_pmm m1) (ram m1) (pd A) pd_ m2) pages fs ->
  Forall2 (page_copied (m_pmm m) (ram m) (pd A) pd_ m2) pages fs.
Proof.
  intros Hg K Hw Hpg. rewrite Forall2_same_length_lookup in Hpg |- *. destruct Hpg as [Hlen Hpg]. split; [done|].
  intros j v fr Hv Hf. specialize (Hpg j v fr Hv Hf). apply (page_before i m1); [done|done|by eapply list_elem_of_lookup_2| |done].
  by eapply page_frame_nonneg.
Qed.

Lemma created_live new h z s' fr : al_rep h (<[new := z]> B) -> regions_live (created_state new h s' fr) (<[new := z]> B).
Proof.
  intros Hrep. split; [done|]. intros q Hq. rewrite lookup_insert. case_decide; [eauto|]. by apply (cp_heap Hpre).
Qed.

Lemma vmm_aspace_create_run : exists new i h z s' st' l' fs, vmm_aspace_create kern as_ st = Ok (new, st') /\
  v_aspaces st !! new = None /\ new <> as_ /\ got_frame (m_pmm m) i (m_pmm s') /\ cr3 s' = cr3 m /\
  kept dir (frame_words (i * 4096)) (ram m) (ram s') /\
  fork_done (created_state new h s' (i * 4096)) as_ new A (set_pd (i * 4096) zero_aspace) l F eh ef (<[new := z]> B) l' fs st' /\ B !! new = None.
Proof.
  destruct alloc_aspace as (new & h & z & Eal & Hn & Hna & Hnone & HB & Hrep & Hroom). pose proof (cp_frames Hpre) as Hfr.
  destruct (cp_spare Hpre) as [Heh Hef].
  destruct (create_dir_run m F kern (cp_mach Hpre) (pd A) ltac:(lia)) as (i & s' & Ecr & Hg & Hw & Hcr & K & Hsl).
  pose proof (created_fork_pre new h s' i Hn Hna Hg Hw Hcr K Hsl) as Hfp. pose proof (cp_bound Hpre) as Hb.
  destruct (wp_run _ _ _ (fork_aspace_wp _ _ _ _ _ _ _ eh ef _ Heh Hef Hfp (created_live new h z s' (i * 4096) Hrep) Hroom ltac:(lia)))
    as ([] & st' & Ef & l' & fs & FD).
  exists new, i, h, z, s', st', l', fs. split; [|done]. pose proof (al_nz _ _ _ (cp_list Hpre)) as Ha0.
  assert (W : wp (vmm_aspace_create kern as_) (fun p x => p = new /\ x = st') st).
  { unfold vmm_aspace_create. apply wp_bind. eapply wp_intro; [unfold on_heap, zoom; by rewrite Eal|]. vrun.
    rewrite (proj2 (Z.eqb_neq as_ 0)) by done. apply wp_bind. eapply wp_ld_as; [cbn; rewrite lookup_insert_ne by done; apply Hpre|done|].
    apply wp_bind. eapply wp_intro; [unfold on_mach, zoom; cbn [v_mach set_aspaces set_heap]; fold m; by rewrite Ecr|].
    apply wp_bind. eapply wp_upd_as; [cbn; by rewrite lookup_insert_eq|done|]. apply wp_bind.
    eapply wp_intro; [|by apply wp_ret]. rewrite <- Ef. unfold created_state. cbn [v_aspaces set_mach set_aspaces set_heap].
    by rewrite insert_insert_eq. }
  destruct (wp_run _ _ _ W) as (p & x & E & -> & ->). exact E.
Qed.
End create.

(** A program with two pages, of which the first is there: its directory in
    frame 1, the table of its first 4 MiB in frame 2, the page in frame 5; the
    kernel's directory in frame 6, the table of the windows in frame 4 and in
    frame 7 the table both share, which shows the kernel's directory at
    0xc0006000. *)
Definition fork_machine : machine := mkMachine pmm_64 0x6000 (list_to_map
  [(1024, 0x2007); (1024 + 768, 0x7003); (1024 + 1023, 0x1003); (2 * 1024 + 7, 0x5007);
   (5 * 1024 + 2, 0x44434241); (6 * 1024 + 768, 0x7003); (6 * 1024 + 1021, 0x4003); (6 * 1024 + 1023, 0x6003); (7 * 1024 + 6, 0x6003)]).

(** Its directory, its table and its page. *)
Definition fork_frame (f : Z) : Prop := f = 0x5000 \/ f = 0x1000 \/ f = 0x2000.

Lemma fork_beside : beside (ram fork_machine) 0x6000 0x1000.
Proof. apply beside_check. vm_compute. reflexivity. Qed.

Lemma fork_tables : tables_in fork_frame (ram fork_machine) 0x1000.
Proof.
  assert (Hall : Forall (fun i => i < 768 \/ i = 1023 -> frame_of (pde (ram fork_machine) 0x1000 i) = 0x1000 \/
    frame_of (pde (ram fork_machine) 0x1000 i) = 0x2000) (present_slots (ram fork_machine) 0x1000)) by (apply (bool_decide_unpack _); vm_compute; exact I).
  rewrite Forall_forall in Hall. intros i Hi Hp. unfold own_slot in Hi. right.
  apply Hall; [apply present_slots_in; [lia|done]|lia].
Qed.

Lemma fork_running : running pmm_64 (ram fork_machine) 0x6000 fork_frame 0xc0006000.
Proof.
  assert (Hok : dir_ok (ram fork_machine) 0x6000) by (apply dir_ok_check; vm_compute; reflexivity).
  assert (Hk : Forall (fun i => walk_dir (ram fork_machine) 0x6000 (0xc0006000 + 4 * i) = Some (0x6000 + 4 * i)) (seqZ 768 128)).
  { apply (bool_decide_unpack _). vm_compute. exact I. }
  rewrite Forall_forall in Hk. setoid_rewrite elem_of_seqZ in Hk.
  split.
  - apply pmm_64_inv.
  - exact Hok.
  - reflexivity.
  - intros i Hi _ Hp. apply slots_used; [|done|done]. apply (bool_decide_unpack _). vm_compute. exact I.
  - intros f [->|[->| ->]]; (split; [first [by exists 5|by exists 1|by exists 2]|]; split; [done|]; split; [vm_compute; reflexivity|]); intros q Hq;
      [apply (no_table_check _ _ 0x5000)|apply (no_table_check _ _ 0x1000)|apply (no_table_check _ _ 0x2000)];
      try done; try (vm_compute; reflexivity); first [by exists 5|by exists 1|by exists 2].
  - intros i Hi. unfold kernel_slot in Hi. pose proof (Hk i ltac:(lia)) as Hw.
    assert (Hw' : word (0xc0006000 + 4 * i)) by (unfold word; lia). destruct (slot_range _ Hw') as (_ & _ & Epd & Ept).
    rewrite Epd, Ept. unfold tmp_page, VM_TMP_MAP, VM_TMP2_MAP. split_and!; try done; [Z.div_mod_to_equations; lia|].
    intros [E|E]; Z.div_mod_to_equations; lia.
Qed.

#[local] Instance fork_allocator : Allocator malloc_state := kmalloc_allocator 0xc0400000 demo_raw demo_bytes.

Lemma at_singleton {A} (m : gmap Z A) i j (x y : A) : m = {[ i := x ]} -> m !! j = Some y -> i = j /\ x = y.
Proof. intros ->. by intros ?%lookup_singleton_Some. Qed.

(** The heap with the region and the address space. *)
Definition fork_blocks : (Z * Z) * malloc_state := Eval vm_compute in
  after (0, 0, ms_boot) ((do p <- kmalloc 0xc0400000 demo_raw 20; do q <- kmalloc 0xc0400000 demo_raw 36; ret_ (p, q)) ms_boot).

Lemma fork_blocks_rep : exists z1 z2, rep 0xc0400000 fork_blocks.2 (<[ fork_blocks.1.2 := z2 ]> {[ fork_blocks.1.1 := z1 ]}).
Proof.
  assert (Hk : kernel_end_ok 0xc0400000) by (unfold kernel_end_ok; lia).
  destruct (wp_run _ _ _ (kmalloc_boot_wp 0xc0400000 demo_raw 20 Hk ltac:(lia) ltac:(vm_compute; discriminate)))
    as (p & s & E & z1 & _ & _ & Hr).
  assert (E1 : Ok (p, s) = Ok (after (0, ms_boot) (kmalloc 0xc0400000 demo_raw 20 ms_boot))) by (rewrite E; reflexivity).
  injection E1 as Ep Es.
  destruct (wp_run _ _ _ (kmalloc_in_wp _ _ 0xc0400000 demo_raw s _ 36 Hr ltac:(lia) ltac:(rewrite Es; vm_compute; discriminate)))
    as (q & s2 & E2 & z2 & _ & _ & _ & Hr2 & _).
  exists z1, z2. assert (E3 : (p, q, s2) = fork_blocks); [|by rewrite <- E3].
  assert (W : (do p <- kmalloc 0xc0400000 demo_raw 20; do q <- kmalloc 0xc0400000 demo_raw 36; ret_ (p, q)) ms_boot = Ok (p, q, s2))
    by (rewrite (bind_ok _ _ _ _ _ E); by rewrite (bind_ok _ _ _ _ _ E2)).
  transitivity (after (0, 0, ms_boot) (Ok (p, q, s2))); [done|]. rewrite <- W. vm_compute. reflexivity.
Qed.

Definition fork_parent : aspace := mkAspace 0x1000 0x7000 0x7800 0x7900 0xbfff0000 0x1000 1 fork_blocks.1.1 fork_blocks.1.1.

Definition fork_vmm : vmm malloc_state := mkVmm fork_blocks.2 {[ fork_blocks.1.1 := mkRegion 0x7000 0x2000 6 0 0 ]}
  {[ fork_blocks.1.2 := fork_parent ]} ∅ fork_machine 0.

Lemma fork_create_pre z1 z2 : rep 0xc0400000 fork_blocks.2 (<[ fork_blocks.1.2 := z2 ]> {[ fork_blocks.1.1 := z1 ]}) ->
  create_pre 0xc0006000 fork_vmm fork_blocks.1.2 fork_parent [fork_blocks.1.1] fork_frame
    (<[ fork_blocks.1.2 := z2 ]> {[ fork_blocks.1.1 := z1 ]}) 0 0.
Proof.
  intros Hr. split.
  - split; try done.
    + eexists. split; [apply lookup_singleton_eq|done].
    + split; [|by apply NoDup_singleton]. cbn [dseg]. split_and!; [done| |done]. reflexivity.
    + intros p r _ [_ <-]%(at_singleton _ _ _ _ _ eq_refl). cbn. unfold VM_USER_END. lia.
    + repeat constructor.
  - apply lookup_singleton_eq.
  - split; [exact fork_beside|exact fork_tables].
  - apply fork_running.
  - by intros p r _ [_ <-]%(at_singleton _ _ _ _ _ eq_refl).
  - assert (Hp : Forall (fun v => walk_dir (ram fork_machine) 0x1000 v = if decide (v = 0x7000) then Some 0x5000 else None)
      (pages_of (v_regions fork_vmm) [fork_blocks.1.1])) by (apply (bool_decide_unpack _); vm_compute; exact I).
    rewrite Forall_forall in Hp. intros v a Hv Ha. change (walk_dir (ram fork_machine) 0x1000 v = Some a) in Ha.
    rewrite (Hp v Hv) in Ha. case_decide; [|done]. injection Ha as <-. left. by subst.
  - apply (bool_decide_unpack _). vm_compute. exact I.
  - vm_compute. discriminate.
  - done.
  - split; [exact Hr|]. intros q [r [<- _]%(at_singleton _ _ _ _ _ eq_refl)].
    rewrite lookup_insert. case_decide; [eauto|]. rewrite lookup_singleton_eq. eauto.
  - intros x [a [<- _]%(at_singleton _ _ _ _ _ eq_refl)]. rewrite lookup_insert_eq. eauto.
  - vm_compute. discriminate.
  - vm_compute. reflexivity.
Qed.

Lemma page_absent p0 m0 sp pd_ m v fr : walk_dir m0 sp v = None -> page_copied p0 m0 sp pd_ m v fr ->
  walk_dir m pd_ v = Some (v mod 4096).
Proof. intros E [Hw Hm]. rewrite E in Hm. by subst fr. Qed.

Lemma fork_absent : walk_dir (ram fork_machine) 0x1000 0x8000 = None.
Proof. vm_compute. reflexivity. Qed.

Lemma fork_mach : v_mach fork_vmm = fork_machine. Proof. reflexivity. Qed.
Lemma fork_pmm : m_pmm fork_machine = pmm_64. Proof. reflexivity. Qed.
Lemma fork_dir : frame_of (cr3 fork_machine) = 0x6000. Proof. reflexivity. Qed.
Lemma fork_pages : pages_of (v_regions fork_vmm) [fork_blocks.1.1] = [0x7000; 0x8000].
Proof. vm_compute. reflexivity. Qed.

(** C20: [vmm_aspace_create] with a parent copies the parent's address space
    while the kernel's directory is loaded.  The new address space has a
    region of the same range and flags for each of the parent's, in the same
    order, and the parent's layout.  Every page of these regions is mapped in
    the new directory: to a frame that was free, with the 4096 bytes the
    parent's page has - a different frame for each page - or, where the parent
    has no page, to frame 0.  The parent keeps its regions, its translations
    and its bytes. *)
Theorem vmm_aspace_create_copies {H} `{!Allocator H} (kern : Z) (st : vmm H) as_ A l F B :
  let m := v_mach st in let dir := frame_of (cr3 m) in let pages := pages_of (v_regions st) l in
  create_pre kern st as_ A l F B 0 0 ->
  exists new N st' l' fs, vmm_aspace_create kern as_ st = Ok (new, st') /\ v_aspaces st !! new = None /\
    (as_list st' new l' /\ Forall2 (fun p q => rg (v_regions st') q = rg (v_regions st) p) l l') /\
    (v_aspaces st' !! new = Some N /\ code_entry N = code_entry A /\ elf_end N = elf_end A /\ data_end N = data_end A /\
     stack_end N = stack_end A /\ stack_size N = stack_size A /\ page_counter N = page_counter A) /\
    (Forall2 (page_copied (m_pmm m) (ram m) (pd A) (pd N) (ram (v_mach st'))) pages fs /\ NoDup (filter (fun f => f <> 0) fs)) /\
    (as_list st' as_ l /\ v_aspaces st' !! as_ = Some A /\ (forall q, q ∈ l -> rg (v_regions st') q = rg (v_regions st) q)) /\
    same_space dir (pd A) (ram m) (ram (v_mach st')) /\
    (forall f j, F f -> 0 <= j < 4096 -> phys_byte (ram (v_mach st')) (f + j) = phys_byte (ram m) (f + j)).
Proof.
  intros m dir pages Hpre. destruct (vmm_aspace_create_run kern st as_ A l F B 0 0 Hpre)
    as (new & i & h & z & s' & st' & l' & fs & E & Hnone & Hna & Hg & Hcr & K & FD & _).
  destruct (fd_as _ _ _ _ _ _ _ _ _ _ _ _ _ FD) as (f & y & Eas). pose proof (fd_pages _ _ _ _ _ _ _ _ _ _ _ _ _ FD) as FK.
  cbn [created_state v_mach v_regions v_aspaces set_mach set_aspaces set_heap] in Eas, FK. rewrite Hcr in FK.
  exists new, (copy_layout A (set_last y (set_first f (set_pd (i * 4096) zero_aspace)))), st', l', fs.
  split; [done|]. split; [done|]. split; [split; apply FD|]. split; [by rewrite Eas, lookup_insert_eq|]. split; [split; [|apply FK]|split; [|split]].
  - apply (pages_before kern st as_ A l F B 0 0 Hpre i s'); [done|done| |apply FK].
    apply (gd_dir _ _ _ _ _ (fk_guard _ _ _ _ _ _ _ _ _ FK)).
  - split; [apply FD|]. split; [|apply FD]. rewrite Eas, !lookup_insert_ne by done. apply Hpre.
  - eapply same_space_trans; [exact (created_space kern st as_ A l F B 0 0 Hpre i s' Hg K)|]. exact (fk_src _ _ _ _ _ _ _ _ _ FK).
  - intros g j Hf Hj. rewrite (data_bytes kern st as_ A l F B 0 0 Hpre (ram s')); [|done|intros q; by apply (fk_data _ _ _ _ _ _ _ _ _ FK g)|done].
    apply (data_bytes kern st as_ A l F B 0 0 Hpre); [done| |done].
    intros q. by apply (created_data m F kern (cp_mach _ _ _ _ _ _ _ _ _ Hpre) i s' Hg K).
Qed.

Lemma vmm_aspace_create_copies_witness : exists new st' N fr1, vmm_aspace_create 0xc0006000 fork_blocks.1.2 fork_vmm = Ok (new, st') /\
  v_aspaces st' !! new = Some N /\ page_copied pmm_64 (ram fork_machine) 0x1000 (pd N) (ram (v_mach st')) 0x7000 fr1 /\
  walk_dir (ram (v_mach st')) (pd N) 0x8000 = Some 0.
Proof.
  destruct fork_blocks_rep as (z1 & z2 & Hr).
  pose proof (vmm_aspace_create_copies 0xc0006000 fork_vmm _ _ _ _ _ (fork_create_pre z1 z2 Hr)) as T.
  cbv beta zeta in T. rewrite fork_mach, fork_pmm, fork_pages in T. change (pd fork_parent) with 0x1000 in T.
  destruct T as (new & N & st' & l' & fs & E & _ & _ & (HN & _) & (Hpg & _) & _).
  apply Forall2_cons_inv_l in Hpg as (fr1 & fs1 & H1 & Hpg & _). apply Forall2_cons_inv_l in Hpg as (fr2 & fs2 & H2 & _).
  exists new, st', N, fr1. exact (conj E (conj HN (conj H1 (page_absent _ _ _ _ _ _ _ fork_absent H2)))).
Defined.
