(* ===== verification/DestroySpec.v ===== *)
(** * Destroying an address space

    [vmm_aspace_destroy], while the kernel's directory is loaded: every page of
    every region is unmapped in the directory of the address space, every
    region and the address space itself go back to the heap.  No frame does: what [pg_unmap_from] answers is not the frame
    ([Paging.unmap_frees_no_frame]), so the frames of the pages stay in use. *)

From S2P Require Import Prelude Dlist Kmalloc KmallocSpec Pmm Heap Paging MmuSpec SpaceSpec DupSpec Vmm VmmSpec ForkSpec DirSpec ForkAspace.

#[local] Open Scope Z_scope.

(** ** Blocks given back to the heap *)

Definition minus_blocks (ks : list Z) (B : gmap Z Z) : gmap Z Z := filter (fun kv => kv.1 ∉ ks) B.

Lemma minus_lookup ks B x : minus_blocks ks B !! x = if decide (x ∈ ks) then None else B !! x.
Proof.
  unfold minus_blocks. case_decide as Hx.
  - apply map_lookup_filter_None. right. intros z _. cbn. tauto.
  - destruct (B !! x) as [z|] eqn:E; [by apply map_lookup_filter_Some|]. apply map_lookup_filter_None. by left.
Qed.

Lemma delete_minus p ks B : delete p (minus_blocks ks B) = minus_blocks (p :: ks) B.
Proof.
  apply map_eq. intros x. rewrite lookup_delete, !minus_lookup. repeat case_decide; try done; set_solver.
Qed.

Lemma minus_nil B : minus_blocks [] B = B.
Proof. apply map_eq. intros x. rewrite minus_lookup. by rewrite decide_False by apply not_elem_of_nil. Qed.

Lemma minus_ext ks ks' B : (forall x, x ∈ ks <-> x ∈ ks') -> minus_blocks ks B = minus_blocks ks' B.
Proof. intros E. apply map_eq. intros x. rewrite !minus_lookup. specialize (E x). repeat case_decide; tauto. Qed.

Lemma minus_app ks ks' B : minus_blocks ks (minus_blocks ks' B) = minus_blocks (ks ++ ks') B.
Proof. apply map_eq. intros x. rewrite !minus_lookup. repeat case_decide; try done; set_solver. Qed.

Lemma minus_owned ks B p z : p ∉ ks -> B !! p = Some z -> minus_blocks ks B !! p = Some z.
Proof. intros Hp E. by rewrite minus_lookup, decide_False. Qed.

(** ** Pages of a program are unmapped *)

(** The word of the external slot. *)
Definition slot_word (dir q : Z) : Prop := q = (dir + 4 * 1022) / 4.

(** The directory [dir] is loaded.  From [m] to [m'] the user pages of [ud]
    whose numbers are in [U] lost their frames; every other page is translated
    as before, and nothing was written but tables of [ud] and the external
    slot. *)
Record cleared (dir ud : Z) (U : Z -> Prop) (m m' : gmap Z Z) : Prop := {
  cl_ok : dir_ok m' dir;
  cl_beside : beside m' dir ud;
  cl_pde : forall i, 0 <= i < 1024 -> i <> 1022 -> pde m' dir i = pde m dir i;
  cl_own : forall i, 0 <= i < 1024 -> pde m' ud i = pde m ud i;
  cl_in : forall v, user v -> U (v / 4096) -> walk_dir m' ud v = None;
  cl_out : forall v, user v -> ~ U (v / 4096) -> walk_dir m' ud v = walk_dir m ud v;
  cl_kernel : forall v, word v -> pd_idx v < 1022 -> walk_dir m' dir v = walk_dir m dir v;
  cl_data : forall q, ~ own_word m ud q -> ~ slot_word dir q -> m' !! q = m !! q;
}.

Section cleared.
Context (dir ud : Z).
Implicit Types (U V : Z -> Prop).

Lemma cleared_refl m : dir_ok m dir -> beside m dir ud -> cleared dir ud (fun _ => False) m m.
Proof. intros Hok. by split. Qed.

Lemma cleared_words U m m' q : cleared dir ud U m m' -> own_word m' ud q -> own_word m ud q.
Proof. intros C (i & Hi & Hp & Hq). exists i. rewrite <- !(cl_own _ _ _ _ _ C) by (destruct Hi; lia). done. Qed.

Lemma cleared_trans U V W m1 m2 m3 : cleared dir ud U m1 m2 -> cleared dir ud V m2 m3 ->
  (forall p, W p <-> U p \/ V p) -> (forall p, Decision (V p)) -> cleared dir ud W m1 m3.
Proof.
  intros C1 C2 HW HV. split.
  - apply C2.
  - apply C2.
  - intros i Hi Hi2. by rewrite (cl_pde _ _ _ _ _ C2), (cl_pde _ _ _ _ _ C1).
  - intros i Hi. by rewrite (cl_own _ _ _ _ _ C2), (cl_own _ _ _ _ _ C1).
  - intros v Hv HU. destruct (decide (V (v / 4096))) as [Hin|Hin]; [by apply (cl_in _ _ _ _ _ C2)|].
    rewrite (cl_out _ _ _ _ _ C2) by done. apply (cl_in _ _ _ _ _ C1); [done|]. apply HW in HU. tauto.
  - intros v Hv HU. rewrite (cl_out _ _ _ _ _ C2), (cl_out _ _ _ _ _ C1); try done; intros ?; apply HU, HW; tauto.
  - intros v Hv Hlt. by rewrite (cl_kernel _ _ _ _ _ C2), (cl_kernel _ _ _ _ _ C1).
  - intros q Hq Hs. rewrite (cl_data _ _ _ _ _ C2); [by apply (cl_data _ _ _ _ _ C1)| |done].
    intros Ho. apply Hq. by eapply cleared_words.
Qed.

Lemma cleared_expd m x : dir_ok m dir -> beside m dir ud -> word x -> cleared dir ud (fun _ => False) m (expd m dir x).
Proof.
  intros Hok Hb Hx. pose proof (kept_expd dir (fun _ => False) m x Hok Hx) as K.
  pose proof (beside_kept _ _ _ _ _ Hb K ltac:(tauto)) as S. split; try apply K; try apply S; try done.
  - intros v Hv _. by apply S.
  - intros v Hv Hlt. by apply expd_walks.
  - intros q _ Hs. unfold expd. rewrite lookup_insert_ne; [done|]. unfold slot_word in Hs. congruence.
Qed.

(** An entry of the program's tables is cleared. *)
Lemma cleared_entry m a : dir_ok m dir -> beside m dir ud -> user a -> present (pde m ud (pd_idx a)) = true ->
  cleared dir ud (fun p => p = a / 4096) m (entry_written m ud (pd_idx a) (pt_idx a mod 1024) 0).
Proof.
  intros Hok Hb Ha Hp. destruct (user_idx a Ha) as (Hw & Hi). destruct Hb as [Hf Hap]. pose proof (fo_pd _ _ _ Hf) as Hud.
  assert (Hk : 0 <= pt_idx a mod 1024 < 1024) by (apply Z.mod_pos_bound; lia).
  pose proof (entry_remapped m ud Hud a 0 Hw ltac:(lia) Hp ltac:(done)) as R.
  pose proof (own_entry m ud (pd_idx a) (pt_idx a mod 1024) Hud Hi Hk Hp) as Hq0. set (m' := entry_written _ _ _ _ _) in *.
  assert (Htab : forall q, table_word m dir q -> m' !! q = m !! q).
  { intros q Hq. unfold m', entry_written. rewrite lookup_insert_ne; [done|]. intros <-. by apply (Hap _ Hq0). }
  assert (Hws : words_ok m') by apply R. pose proof (re_pde _ _ _ _ _ R) as Hpde.
  assert (Hok' : dir_ok m' dir) by by apply (tables_ok m).
  split; try done.
  - split; [split; [apply Hok'|apply R|intros i Hii; rewrite Hpde by done; by apply (fo_sep _ _ _ Hf)]|].
    intros q (i & Hs & Hpi & Hq) Ht. rewrite Hpde in Hpi, Hq by (destruct Hs; lia).
    apply (Hap q); [by exists i|]. by apply (tables_words m dir Hok m' Htab).
  - intros i Hii _. by apply (tables_pde m dir Hok).
  - intros v Hv E. destruct (user_idx v Hv) as (Hvw & Hvi). by rewrite (re_walk _ _ _ _ _ R), decide_True by (done || lia).
  - intros v Hv E. destruct (user_idx v Hv) as (Hvw & Hvi). by rewrite (re_walk _ _ _ _ _ R), decide_False by (done || lia).
  - intros v Hv Hlt. by apply (tables_walk m dir Hok).
  - intros q Hq _. unfold m', entry_written. rewrite lookup_insert_ne; [done|]. by intros <-.
Qed.

Lemma cleared_absent m a : user a -> walk_dir m ud a = None ->
  forall m', cleared dir ud (fun _ => False) m m' -> cleared dir ud (fun p => p = a / 4096) m m'.
Proof.
  intros Ha Hn m' C. split; try apply C.
  - intros v Hv E. rewrite (cl_out _ _ _ _ _ C) by tauto. by apply (walk_absent m ud a v); [apply Ha|apply Hv| |].
  - intros v Hv _. apply C; tauto.
Qed.
End cleared.

(** [pg_unmap_from] of a page of a program.  When the page is not there the
    external slot is left on the program's directory. *)
Section unmap.
Context (s : machine) (ud a : Z).
Let dir := frame_of (Paging.cr3 s).
Hypotheses (Hok : dir_ok (ram s) dir) (Hspace : beside (ram s) dir ud) (Ha : user a).

Lemma unmap_from_run : exists r m', pg_unmap_from ud a s = Ok (r, set_ram m' s) /\ (r = 0 \/ 0xfffff000 <= r) /\
  cleared dir ud (fun p => p = a / 4096) (ram s) m'.
Proof.
  destruct (space_shown _ _ _ Hspace) as (Hudw & Hf1 & Hslot). pose proof (cleared_expd dir ud _ _ Hok Hspace Hudw) as C1.
  destruct (user_idx a Ha) as (Haw & _).
  set (m1 := expd (ram s) dir ud) in *. assert (Hold : word (pde (ram s) dir 1022)) by apply word_at_word, Hok.
  pose proof (cl_ok _ _ _ _ _ C1) as Hok1. pose proof (fo_pd _ _ _ Hf1) as Hud1.
  unfold pg_unmap_from. rewrite (bind_ok _ _ _ _ _ (set_expd_run s ud Hok)). fold dir. fold m1.
  rewrite (bind_ok _ _ _ _ _ (get_expage_run (set_ram m1 s) ud Hok1 Hud1 Hslot a Haw)). cbn [ram set_ram].
  assert (Habs : walk_dir m1 ud a = None -> exists r m', (if negb (0 =? 0) then st32 (external_pts (pt_idx a)) 0 ;;;
      (do _ <- _set_expd (pde (ram s) dir 1022); ret_ (Z.lor 0 PG_ALIGN)) else ret_ 0) (set_ram m1 s) = Ok (r, set_ram m' s) /\
      (r = 0 \/ 0xfffff000 <= r) /\ cleared dir ud (fun p => p = a / 4096) (ram s) m').
  { intros Hn. exists 0, m1. split; [done|]. split; [by left|]. apply cleared_absent; [done| |done].
    rewrite <- Hn. symmetry. apply (cl_out _ _ _ _ _ C1); tauto. }
  unfold walk_dir in Habs. rewrite (dir_frame_of _ _ Hud1) in Habs. fold (pde m1 ud (pd_idx a)) in Habs.
  destruct (present (pde m1 ud (pd_idx a))) eqn:Hp; [|by apply Habs].
  set (e := word_at m1 _) in *. cbv zeta in *. destruct (present e) eqn:Hpe; [|by apply Habs]. clear Habs.
  destruct (Z.eqb_spec e 0) as [E|_]; [by rewrite E in Hpe|]. cbn [negb].
  rewrite (bind_ok _ _ _ _ _ (st_expts (set_ram m1 s) ud Hok1 Hslot a 0 Haw Hp)). cbn [ram set_ram].
  pose proof (cleared_entry dir ud m1 a Hok1 (cl_beside _ _ _ _ _ C1) Ha Hp) as C2. set (m2 := entry_written _ _ _ _ _) in *.
  pose proof (cl_ok _ _ _ _ _ C2) as Hok2.
  rewrite (bind_ok _ _ _ _ _ (set_expd_run (set_ram m2 s) _ Hok2)). cbn [ram set_ram].
  exists (Z.lor e PG_ALIGN), (expd m2 dir (pde (ram s) dir 1022)). split; [done|].
  split; [right; apply lor_align_high; pose proof (word_at_word m1 (frame_of (pde m1 ud (pd_idx a)) + 4 * (pt_idx a mod 1024))
    ltac:(apply Hok1)) as [? _]; done|].
  apply (cleared_trans dir ud (fun _ => False) (fun p => p = a / 4096) _ _ m1); [done| |tauto|tc_solve].
  apply (cleared_trans dir ud (fun p => p = a / 4096) (fun _ => False) _ _ m2); [done| |tauto|tc_solve].
  apply cleared_expd; [done|apply C2|done].
Qed.
End unmap.

(** ** Regions are destroyed *)

Section destroy.
Context {H : Type} `{!Allocator H}.
Implicit Types (s : vmm H).

Lemma ram_same (m : machine) : set_ram (ram m) m = m.
Proof. by destruct m. Qed.

(** The pages of a range of [size] bytes from [addr], as the loop counts them. *)
Definition pages_at (addr size p : Z) : Prop := addr / 4096 <= p < addr / 4096 + (size + 4095) / 4096.

#[export] Instance pages_at_dec addr size p : Decision (pages_at addr size p).
Proof. unfold pages_at. tc_solve. Defined.

Definition region_pages (m : gmap Z region) (k : list Z) (p : Z) : Prop :=
  exists q r, q ∈ k /\ m !! q = Some r /\ pages_at (r_addr r) (r_size r) p.

#[export] Instance region_pages_dec m k p : Decision (region_pages m k p).
Proof.
  assert (E : region_pages m k p <-> Exists (fun q => exists r, m !! q = Some r /\ pages_at (r_addr r) (r_size r) p) k)
    by (unfold region_pages; rewrite Exists_exists; naive_solver).
  assert (D : forall q, Decision (exists r, m !! q = Some r /\ pages_at (r_addr r) (r_size r) p)).
  { intros q. destruct (m !! q) as [r|] eqn:Eq; [|right; naive_solver].
    destruct (decide (pages_at (r_addr r) (r_size r) p)); [left|right]; naive_solver. }
  destruct (decide (Exists (fun q => exists r, m !! q = Some r /\ pages_at (r_addr r) (r_size r) p) k)); [left|right]; tauto.
Defined.

Definition set_memory (m : gmap Z Z) s : vmm H := set_mach (set_ram m (v_mach s)) s.

Lemma unmap_page_step s ud a : let dir := frame_of (Paging.cr3 (v_mach s)) in
  dir_ok (ram (v_mach s)) dir -> beside (ram (v_mach s)) dir ud -> total_frames (m_pmm (v_mach s)) <= 0xfffff -> user a ->
  exists m', (do paddr <- on_mach (pg_unmap_from ud a);
      when negb (paddr =? 0) then_ on_mach (with_pmm (pmm_free_frame paddr))) s = Ok (tt, set_memory m' s) /\
    cleared dir ud (fun p => p = a / 4096) (ram (v_mach s)) m'.
Proof.
  intros dir Hok Hb Htot Ha. destruct (unmap_from_run (v_mach s) ud a Hok Hb Ha) as (r & m' & E & Hr & C). fold dir in C.
  exists m'. split; [|done]. rewrite (bind_ok _ _ _ r (set_memory m' s)) by (unfold on_mach, zoom; by rewrite E).
  destruct Hr as [->|Hr]; [done|]. rewrite (proj2 (Z.eqb_neq r 0)) by lia. cbn [negb].
  unfold on_mach, zoom. cbn [v_mach set_memory set_mach]. by rewrite with_free_nowhere.
Qed.

Lemma unmap_pages_wp s ud addr size : let dir := frame_of (Paging.cr3 (v_mach s)) in
  dir_ok (ram (v_mach s)) dir -> beside (ram (v_mach s)) dir ud -> total_frames (m_pmm (v_mach s)) <= 0xfffff ->
  0 <= addr -> 0 < size -> addr + size <= VM_USER_END ->
  wp (unmap_region_pages ud addr size) (fun _ s' => exists m', s' = set_memory m' s /\
    cleared dir ud (pages_at addr size) (ram (v_mach s)) m') s.
Proof.
  intros dir Hok Hb Htot H0 Hsz Hend. unfold VM_USER_END in Hend. set (n := (size + 4095) / 4096).
  assert (Hn : 4096 * n - 4096 < size <= 4096 * n) by (unfold n; Z.div_mod_to_equations; lia).
  unfold unmap_region_pages. eapply (wp_loop _ (fun tmp s' => exists j m', tmp = addr + 4096 * j /\ 0 <= j <= n /\
      s' = set_memory m' s /\ cleared dir ud (fun p => addr / 4096 <= p < addr / 4096 + j) (ram (v_mach s)) m')
    (fun tmp _ => Z.to_nat (n - (tmp - addr) / 4096))).
  - intros tmp s' (j & m' & -> & Hj & -> & C). rewrite (w32_small (addr + size)) by lia.
    replace ((addr + 4096 * j - addr) / 4096) with j by (Z.div_mod_to_equations; lia).
    destruct (Z.ltb_spec (addr + 4096 * j) (addr + size)) as [Hlt|Hge].
    + assert (Ha : user (addr + 4096 * j)) by (unfold user, word, VM_USER_END; lia).
      destruct (unmap_page_step (set_memory m' s) ud (addr + 4096 * j)) as (m2 & E & C2); [apply C|apply C|done|done|].
      apply wp_bind. unfold bind_ at 1 in E. cbn [v_mach set_memory set_mach Paging.cr3 set_ram ram] in E, C2. fold dir in C2.
      destruct (on_mach (pg_unmap_from ud (addr + 4096 * j)) (set_memory m' s)) as [[r s2]| | |] eqn:E1; try done.
      eapply wp_intro; [exact E1|]. apply wp_bind. eapply wp_intro; [exact E|]. apply wp_ret.
      rewrite (w32_small (addr + 4096 * j + PAGE_SIZE)) by (unfold PAGE_SIZE; lia). unfold PAGE_SIZE. split.
      * exists (j + 1), m2. split; [lia|]. split; [lia|]. split; [done|].
        eapply (cleared_trans dir ud _ (fun p => p = (addr + 4096 * j) / 4096)); [exact C|exact C2| |tc_solve].
        intros p. replace ((addr + 4096 * j) / 4096) with (addr / 4096 + j) by (Z.div_mod_to_equations; lia). lia.
      * replace ((addr + 4096 * j + 4096 - addr) / 4096) with (j + 1) by (Z.div_mod_to_equations; lia). lia.
    + apply wp_ret. exists m'. split; [done|]. assert (j = n) as -> by lia. exact C.
  - exists 0, (ram (v_mach s)). split; [lia|]. split; [lia|]. split; [by destruct s as [? ? ? ? [] ?]|].
    pose proof (cleared_refl dir ud _ Hok Hb) as C. split; try apply C; intros; [lia|done].
  - fold n. rewrite Z.sub_diag. change (0 / 4096) with 0. lia.
Qed.

Section space.
Context (s0 : vmm H) (a : Z) (A : aspace) (l : list Z) (B : gmap Z Z).
Let dir := frame_of (Paging.cr3 (v_mach s0)).

(** The kernel's directory is loaded and the address space [a] has another
    one; its regions [l] and itself are blocks of the heap. *)
Record destroy_ready : Prop := {
  dr_list : as_list s0 a l;
  dr_space : v_aspaces s0 !! a = Some A;
  dr_pd : beside (ram (v_mach s0)) dir (pd A);
  dr_dir : dir_ok (ram (v_mach s0)) dir;
  dr_frames : total_frames (m_pmm (v_mach s0)) <= 0xfffff;
  dr_heap : al_rep (v_heap s0) B;
  dr_blocks : forall x, x ∈ a :: l -> is_Some (B !! x);
  dr_apart : a ∉ l;
}.
Hypothesis Hready : destroy_ready.

(** The regions [k1] are gone, [k2] are left. *)
Record destroying (k1 k2 : list Z) (s : vmm H) : Prop := {
  dy_split : l = k1 ++ k2;
  dy_list : as_list s a k2;
  dy_space : exists A', v_aspaces s = <[a := A']> (v_aspaces s0) /\ pd A' = pd A;
  dy_gone : forall q, q ∉ k2 -> v_regions s !! q = if decide (q ∈ k1) then None else v_regions s0 !! q;
  dy_left : forall q, q ∈ k2 -> rg (v_regions s) q = rg (v_regions s0) q;
  dy_mem : exists m, v_mach s = set_ram m (v_mach s0) /\ cleared dir (pd A) (region_pages (v_regions s0) k1) (ram (v_mach s0)) m;
  dy_heap : al_rep (v_heap s) (minus_blocks k1 B);
  dy_rest : v_bufs s = v_bufs s0 /\ v_errno s = v_errno s0;
}.

Lemma destroy_region_wp k1 p k2 s : destroying k1 (p :: k2) s ->
  wp (_destroy_region a p) (fun _ => destroying (k1 ++ [p]) k2) s.
Proof.
  intros D. destruct (dy_space _ _ _ D) as (A1 & EA1 & Epd). destruct (dy_mem _ _ _ D) as (m & Em & C).
  pose proof (dy_list _ _ _ D) as Ha. assert (Hp : p ∈ p :: k2) by by left.
  destruct (al_region _ _ _ _ Ha Hp) as (r & Er & Hp0 & _ & _ & Hre & Hr0 & Hr1 & Hr2).
  assert (Hd : p ∉ k2 /\ NoDup (k1 ++ [p])).
  { destruct (al_dl _ _ _ (dr_list Hready)) as [_ Hnd]. rewrite (dy_split _ _ _ D), cons_middle, app_assoc in Hnd.
    split; [|by apply NoDup_app in Hnd as [? _]]. destruct (al_dl _ _ _ Ha) as [_ Hnd2]. by apply NoDup_cons in Hnd2 as [? _]. }
  destruct Hd as [Hpk2 Hnd].
  assert (HA1 : v_aspaces s !! a = Some A1) by (rewrite EA1; apply lookup_insert_eq).
  unfold _destroy_region. apply wp_bind. eapply wp_mono; [exact (remove_region_wp s a [] k2 p A1 Ha HA1)|].
  cbn [app]. intros [] s1 [[Ha1 Hon] Hsame]. destruct (on_rest _ _ _ Hon) as (Eh1 & Em1 & Eb1 & Ee1).
  destruct (on_as _ _ _ Hon A1 HA1) as (f & z & Eas1).
  apply wp_bind. eapply wp_ld_reg; [by rewrite Hsame|done|].
  apply wp_bind. eapply wp_ld_as; [rewrite Eas1; apply lookup_insert_eq|apply Ha|].
  cbn [pd set_first set_last]. rewrite Epd.
  assert (Edir : dir = frame_of (Paging.cr3 (v_mach s1))) by (by rewrite Em1, Em).
  apply wp_bind. eapply wp_mono; [apply unmap_pages_wp|].
  { rewrite <- Edir, Em1, Em. apply C. } { rewrite <- Edir, Em1, Em. apply C. } { rewrite Em1, Em. apply (dr_frames Hready). } { done. } { done. } { lia. }
  intros [] s2 (m2 & -> & C2). rewrite <- Edir in C2. rewrite Em1, Em in C2. cbn [ram set_ram] in C2.
  destruct (dr_blocks Hready p) as [zp Ezp]; [rewrite (dy_split _ _ _ D); set_solver|].
  assert (Hpk1 : p ∉ k1) by (apply NoDup_app in Hnd as (_ & Hx & _); intros Hin; apply (Hx p Hin); by left).
  apply wp_bind. unfold on_heap at 1. apply wp_zoom. cbn [v_heap set_memory set_mach]. rewrite Eh1.
  eapply wp_mono; [eapply al_free_wp; [apply D|by apply minus_owned]|].
  intros [] h' Hrep. rewrite delete_minus in Hrep. apply wp_mod.
  assert (Hne : forall q, q <> p -> delete p (v_regions s1) !! q = v_regions s1 !! q) by (intros q Hq; by apply lookup_delete_ne).
  split; cbn [v_aspaces v_regions v_mach v_heap v_bufs v_errno set_regions set_heap set_memory set_mach].
  - rewrite (dy_split _ _ _ D). by rewrite <- app_assoc.
  - eapply as_list_frame; [| |exact Ha1]; [|done]. intros q Hq. cbn. apply Hne. by intros ->.
  - exists (set_last z (set_first f A1)). rewrite Eas1, EA1, insert_insert_eq. done.
  - intros q Hq. destruct (decide (q = p)) as [->|Hqp].
    + rewrite lookup_delete_eq, decide_True by in_tac. done.
    + rewrite Hne, Hsame, (dy_gone _ _ _ D) by set_solver. repeat case_decide; set_solver.
  - intros q Hq. assert (q <> p) by by intros ->. rewrite <- (dy_left _ _ _ D q) by by right.
    rewrite <- (on_rg _ _ _ Hon). unfold rg. by rewrite Hne.
  - exists m2. rewrite Em1, Em. split; [done|].
    pose proof (dy_left _ _ _ D p Hp) as Erg. rewrite (rg_lookup _ _ _ Er) in Erg. unfold rg in Erg.
    destruct (v_regions s0 !! p) as [r0|] eqn:Er0; [|done]. cbn in Erg. injection Erg as E1 E2 _.
    eapply cleared_trans; [exact C|exact C2| |tc_solve]. intros x. unfold region_pages. setoid_rewrite elem_of_app.
    rewrite E1, E2. split.
    + intros (q & rq & [Hq| ->%list_elem_of_singleton] & Eq & Hx); [left; eauto|right]. rewrite Er0 in Eq. by injection Eq as <-.
    + intros [(q & rq & Hq & Eq & Hx)|Hx]; [exists q, rq; auto|]. exists p, r0. split; [right; by left|done].
  - erewrite minus_ext; [exact Hrep|]. set_solver.
  - split; [rewrite Eb1|rewrite Ee1]; apply D.
Qed.

Lemma destroy_loop fuel k2 : forall k1 s, destroying k1 k2 s -> (length k2 < fuel)%nat ->
  wp (loop fuel (fun region =>
    if region =? 0 then ret_ (inr tt)
    else
      do r <- ld_reg region;
      let tmp := r_next r in
      _destroy_region a region ;;;
      ret_ (inl tmp)) (hd0 0 k2)) (fun _ => destroying l []) s.
Proof.
  revert fuel. induction k2 as [|p k2 IH]; intros [|fuel] k1 s D Hf; cbn [length] in Hf; try lia; cbn [loop hd0].
  - apply wp_bind, wp_ret, wp_ret. pose proof (dy_split _ _ _ D) as El. rewrite app_nil_r in El. by subst k1.
  - destruct (dy_space _ _ _ D) as (A1 & EA1 & _).
    destruct (region_around s a [] k2 p A1 (dy_list _ _ _ D)) as (r & Er & Hp0 & _ & En & _); [rewrite EA1; apply lookup_insert_eq|].
    rewrite (proj2 (Z.eqb_neq p 0) Hp0). apply wp_bind, wp_bind. eapply wp_ld_reg; [exact Er|done|]. cbv zeta. rewrite En.
    apply wp_bind. eapply wp_mono; [exact (destroy_region_wp k1 p k2 s D)|]. intros [] s1 D1. apply wp_ret.
    apply (IH fuel (k1 ++ [p])); [done|lia].
Qed.

(** The address space is gone, and nothing else of the table of address
    spaces and regions. *)
Record destroyed (s : vmm H) : Prop := {
  ds_spaces : v_aspaces s = delete a (v_aspaces s0);
  ds_regions : forall q, v_regions s !! q = if decide (q ∈ l) then None else v_regions s0 !! q;
  ds_memory : exists m, v_mach s = set_ram m (v_mach s0) /\ cleared dir (pd A) (region_pages (v_regions s0) l) (ram (v_mach s0)) m;
  ds_heap : al_rep (v_heap s) (minus_blocks (a :: l) B);
  ds_rest : v_bufs s = v_bufs s0 /\ v_errno s = v_errno s0;
}.

Lemma destroying_start : destroying [] l s0.
Proof.
  split; try done; try apply Hready.
  - exists A. rewrite insert_id; [done|apply Hready].
  - exists (ram (v_mach s0)). split; [by rewrite ram_same|].
    pose proof (cleared_refl dir _ _ (dr_dir Hready) (dr_pd Hready)) as C. split; try apply C.
    + intros v _ (q & _ & Hq & _). by apply elem_of_nil in Hq.
    + done.
  - rewrite minus_nil. apply Hready.
Qed.

Lemma aspace_destroy_wp : wp (vmm_aspace_destroy a) (fun _ => destroyed) s0.
Proof.
  destruct (al_as _ _ _ (dr_list Hready)) as (A' & EA & Ef & _). rewrite (dr_space Hready) in EA. injection EA as <-.
  pose proof (al_nz _ _ _ (dr_list Hready)) as Ha0.
  unfold vmm_aspace_destroy. apply wp_bind. eapply wp_ld_as; [apply Hready|done|]. apply wp_bind, wp_get. rewrite Ef.
  apply wp_bind. eapply wp_mono; [eapply destroy_loop; [exact destroying_start|]|].
  { pose proof (dlist_length _ _ (al_dl _ _ _ (dr_list Hready))). lia. }
  intros [] s1 D. destruct (dy_space _ _ _ D) as (A1 & EA1 & _). destruct (dr_blocks Hready a) as [z Ez]; [by left|].
  apply wp_bind. unfold on_heap. apply wp_zoom.
  eapply wp_mono; [eapply al_free_wp; [apply D|apply minus_owned; [apply Hready|exact Ez]]|].
  intros [] h' Hrep. rewrite delete_minus in Hrep. apply wp_mod. split; cbn [v_aspaces v_regions v_mach v_heap v_bufs v_errno set_aspaces set_heap].
  - by rewrite EA1, delete_insert_eq.
  - intros q. apply (dy_gone _ _ _ D), not_elem_of_nil.
  - apply D.
  - exact Hrep.
  - apply D.
Qed.
End space.
End destroy.

(** ** Property *)

(** C23: destroying an address space, while the kernel's directory is loaded,
    returns and leaves nothing of it: its entry and those of its regions are
    gone, and with them their blocks of the heap; each page of a region is
    unmapped in its directory, and every other page of it and every page of
    the kernel is translated as before.  The address spaces with other regions
    are what they were.  But no frame is given back: the allocator's state is
    unchanged, so the frames of the pages are lost. *)
Theorem vmm_aspace_destroy_releases {H} `{!Allocator H} (s : vmm H) a A l B : destroy_ready s a A l B ->
  exists s', vmm_aspace_destroy a s = Ok (tt, s') /\ destroyed s a A l B s' /\ m_pmm (v_mach s') = m_pmm (v_mach s) /\
    forall a2 l2, a2 <> a -> as_list s a2 l2 -> (forall x, x ∈ l2 -> x ∉ l) -> as_list s' a2 l2.
Proof.
  intros Hr. destruct (wp_run _ _ _ (aspace_destroy_wp s a A l B Hr)) as ([] & s' & E & D). exists s'. split; [exact E|]. split; [exact D|].
  split; [by destruct (ds_memory _ _ _ _ _ _ D) as (m & -> & _)|]. intros a2 l2 Ha2 Hl2 Hd. apply (as_list_frame s); [| |exact Hl2].
  - intros x Hx. rewrite (ds_regions _ _ _ _ _ _ D), decide_False; [done|by apply Hd].
  - by rewrite (ds_spaces _ _ _ _ _ _ D), lookup_delete_ne.
Qed.

#[local] Instance destroy_allocator : Allocator malloc_state := kmalloc_allocator 0xc0400000 demo_raw demo_bytes.

(** The address space of one region and one page there. *)
Lemma vmm_aspace_destroy_releases_witness : exists s', vmm_aspace_destroy fork_blocks.1.2 fork_vmm = Ok (tt, s') /\
  v_regions s' !! fork_blocks.1.1 = None /\ walk_dir (ram fork_machine) 0x1000 0x7000 = Some 0x5000 /\
  walk_dir (ram (v_mach s')) 0x1000 0x7000 = None /\ frame_used (m_pmm (v_mach s')) 5 = true.
Proof.
  destruct fork_blocks_rep as (z1 & z2 & Hr).
  assert (Hpre := fork_create_pre z1 z2 Hr).
  destruct (vmm_aspace_destroy_releases fork_vmm fork_blocks.1.2 fork_parent [fork_blocks.1.1] (<[fork_blocks.1.2 := z2]> {[fork_blocks.1.1 := z1]}))
    as (s' & E & D & Ep & _).
  - split; [apply Hpre|reflexivity|exact fork_beside|apply dir_ok_check; vm_compute; reflexivity|vm_compute; discriminate|exact Hr| |].
    + intros x [->|[->|[]%elem_of_nil]%elem_of_cons]%elem_of_cons; [rewrite lookup_insert_eq; eauto|].
      rewrite lookup_insert_ne by (vm_compute; discriminate). rewrite lookup_singleton_eq. eauto.
    + intros Hin%list_elem_of_singleton. vm_compute in Hin. discriminate.
  - exists s'. split; [exact E|]. split; [by rewrite (ds_regions _ _ _ _ _ _ D), decide_True by (by left)|]. split; [vm_compute; reflexivity|].
    split; [|rewrite Ep; vm_compute; reflexivity]. destruct (ds_memory _ _ _ _ _ _ D) as (m & Em & C). rewrite Em.
    assert (HU : region_pages (v_regions fork_vmm) [fork_blocks.1.1] (0x7000 / 4096)).
    { exists fork_blocks.1.1, (mkRegion 0x7000 0x2000 6 0 0). split; [by left|]. split; [reflexivity|]. vm_compute. split; congruence. }
    assert (H1 : user 0x7000) by (split; [vm_compute; split; congruence|vm_compute; reflexivity]).
    destruct C as [_ _ _ _ Hin _ _ _]. exact (Hin 0x7000 H1 HU).
Defined.
