(* ===== verification/VmmProps.v ===== *)
(** * Properties of the virtual memory manager

    Statements about address spaces whose region list is well formed
    ([as_list]), with concrete address spaces as witnesses. *)

From stdpp Require Import sorting.
From S2P Require Import Prelude Dlist Pmm Kmalloc Heap Paging Vmm VmmSpec.

#[local] Open Scope Z_scope.

(** Growing a region up to its successor keeps the list well formed. *)
Lemma as_list_grow {H} `{!Allocator H} (s : vmm H) a l1 p l2 r z : as_list s a (l1 ++ p :: l2) ->
  v_regions s !! p = Some r -> r_size r <= z -> r_addr r + z <= VM_USER_END ->
  (forall q, q ∈ l2 -> r_addr r + z <= lo (v_regions s) q) ->
  as_list (set_regions (<[p := set_r_size z r]> (v_regions s)) s) a (l1 ++ p :: l2).
Proof.
  intros Ha Hr Hz Hend Hnext. set (m' := <[p := set_r_size z r]> (v_regions s)).
  assert (Hother : forall q, q <> p -> lo m' q = lo (v_regions s) q /\ hi m' q = hi (v_regions s) q).
  { intros q Hne. unfold lo, hi, rg, m'. by rewrite lookup_insert_ne by done. }
  assert (Hlo : lo m' p = lo (v_regions s) p).
  { unfold lo, rg, m'. rewrite lookup_insert_eq, Hr. done. }
  assert (Hhi : hi m' p = r_addr r + z).
  { unfold hi, rg, m'. rewrite lookup_insert_eq. done. }
  destruct (al_dl _ _ _ Ha) as [_ Hnd]. apply NoDup_skip in Hnd as [Hpn _].
  split.
  - apply Ha.
  - apply Ha.
  - cbn. fold m'. eapply dlist_frame; [|apply Ha]. intros q _. unfold m'. rewrite links_insert.
    case_decide as D; [|done]. subst. by rewrite (links_lookup _ _ _ Hr).
  - intros q rq Hq Hrq. cbn in Hrq. fold m' in Hrq. unfold m' in Hrq.
    apply lookup_insert_Some in Hrq as [[<- <-]|[Hne Hrq]].
    + destruct (al_rg _ _ _ Ha p r) as (? & ? & ?); [in_tac|done|]. cbn. lia.
    + by apply (al_rg _ _ _ Ha q).
  - cbn. fold m'. pose proof (al_sorted _ _ _ Ha) as Hs. rewrite !StronglySorted_app in Hs |- *.
    destruct Hs as (H12 & Hs1 & Hs2). apply StronglySorted_inv in Hs2 as [Hs2 Hall].
    rewrite Forall_forall in Hall.
    assert (Hsame : forall k, (forall q, q ∈ k -> q ∈ l1 ++ l2) -> StronglySorted (before (v_regions s)) k ->
        StronglySorted (before m') k).
    { intros k Hk Hsk. eapply sorted_ranges; [|exact Hsk]. intros q Hq. unfold m', rg.
      rewrite lookup_insert_ne; [done|]. intros ->. apply Hpn. by apply Hk. }
    split_and!.
    + intros x y Hx Hy. unfold before.
      destruct (Hother x) as [_ ->]; [intros ->; apply Hpn; in_tac|].
      apply elem_of_cons in Hy as [->|Hy]; [rewrite Hlo; apply H12; [done|by left]|].
      destruct (Hother y) as [-> _]; [intros ->; apply Hpn; in_tac|]. apply H12; [done|by right].
    + apply Hsame; [|done]. intros; in_tac.
    + constructor; [apply Hsame; [intros; in_tac|done]|]. rewrite Forall_forall. intros y Hy. unfold before.
      rewrite Hhi. destruct (Hother y) as [-> _]; [intros ->; apply Hpn; in_tac|]. by apply Hnext.
Qed.

Lemma round_up_spec n : 0 <= n -> n + 4096 < W32 -> n <= round_up n < n + 4096.
Proof.
  intros H1 H2. unfold round_up. pose proof (Z.mod_pos_bound n 4096 ltac:(lia)). pose proof (Z.mod_le n 4096 H1 ltac:(lia)).
  destruct (Z.eqb_spec (n mod 4096) 0); cbn [negb]; [lia|].
  rewrite (w32_small (n - n mod 4096)), w32_small by lia. lia.
Qed.

(** ** A concrete address space: data at 0x8000, a mapping, the stack. *)

Definition demo_regions : gmap Z region := list_to_map
  [(0x100, mkRegion 0x8000 0x1000 6 0 0x200); (0x200, mkRegion 0x20000 0x2000 6 0x100 0x300);
   (0x300, mkRegion 0xbfff0000 0x1000 6 0x200 0)].

Definition demo_aspace : aspace := mkAspace 0x3000 0x1000 0x8000 0x8400 0xbfff0000 0x1000 4 0x100 0x300.

Definition demo_vmm : vmm malloc_state :=
  mkVmm ms_boot demo_regions {[ 0x10 := demo_aspace ]} ∅ demo_machine 0.

#[local] Instance demo_allocator : Allocator malloc_state := kmalloc_allocator 0xc0400000 demo_raw demo_bytes.

(** A decision procedure for concrete lists. *)
Fixpoint regions_b (m : gmap Z region) (pv : Z) (l : list Z) : bool :=
  match l with
  | [] => true
  | p :: l' => negb (p =? 0) &&
      match m !! p with
      | Some r => (r_prev r =? pv) && (r_next r =? hd0 0 l') && (0 <=? r_addr r) && (0 <? r_size r) &&
                  (r_addr r + r_size r <=? VM_USER_END) && forallb (fun q => hi m p <=? lo m q) l'
      | None => false
      end && regions_b m p l'
  end.

Lemma regions_check m pv l : regions_b m pv l = true ->
  dseg m pv l 0 /\
  (forall p r, p ∈ l -> m !! p = Some r -> 0 <= r_addr r /\ 0 < r_size r /\ r_addr r + r_size r <= VM_USER_END) /\
  StronglySorted (before m) l.
Proof.
  revert pv. induction l as [|p l IH]; intros pv Hgo; cbn [regions_b] in Hgo.
  - split_and!; [done| |constructor]. intros p r Hp. by apply elem_of_nil in Hp.
  - rewrite !andb_true_iff in Hgo. destruct Hgo as [[Hp Hr] Hgo].
    destruct (m !! p) as [r|] eqn:E; [|done].
    rewrite !andb_true_iff, !Z.eqb_eq, !Z.leb_le, Z.ltb_lt, forallb_forall in Hr.
    rewrite negb_true_iff, Z.eqb_neq in Hp.
    destruct Hr as [[[[[Hpv Hnx] H1] H2] H3] Hb]. destruct (IH _ Hgo) as (Hseg & Hrg & Hs).
    split_and!.
    + cbn [dseg]. split_and!; [done| |done]. rewrite (links_lookup _ _ _ E). cbn. congruence.
    + intros q rq [->|Hq]%elem_of_cons Hrq; [simplify_eq; done|by eapply Hrg].
    + constructor; [done|]. apply Forall_forall. intros q Hq. apply Z.leb_le. apply Hb.
      by apply list_elem_of_In.
Qed.

Definition as_list_b {H} (s : vmm H) (a : Z) (l : list Z) : bool :=
  match v_aspaces s !! a with
  | Some A => (as_first A =? hd0 0 l) && (as_last A =? last0 0 l) && negb (a =? 0)
  | None => false
  end && regions_b (v_regions s) 0 l && bool_decide (NoDup l).

Lemma as_list_check {H} `{!Allocator H} (s : vmm H) a l : as_list_b s a l = true -> as_list s a l.
Proof.
  unfold as_list_b. destruct (v_aspaces s !! a) as [A|] eqn:HA; [|done].
  rewrite !andb_true_iff, bool_decide_eq_true, negb_true_iff, !Z.eqb_eq, Z.eqb_neq.
  intros [[[[Hf Hl] Ha] Hgo] Hnd]. destruct (regions_check _ _ _ Hgo) as (Hseg & Hrg & Hs). split; eauto. done.
Qed.

Lemma demo_as_list : as_list demo_vmm 0x10 [0x100; 0x200; 0x300].
Proof. apply as_list_check. vm_compute. reflexivity. Qed.

(** ** Properties *)

(** C27: inserting a region that overlaps no region of the list puts it at
    its place in the address order: the list stays sorted, disjoint and
    correctly linked in both directions, and nothing but links changes. *)
Theorem insert_region_keeps_order {H} `{!Allocator H} (s : vmm H) a l1 l2 p r A :
  as_list s a (l1 ++ l2) -> v_aspaces s !! a = Some A -> p ∉ l1 ++ l2 -> p <> 0 ->
  v_regions s !! p = Some r -> 0 <= r_addr r -> 0 < r_size r -> r_addr r + r_size r <= VM_USER_END ->
  fits s l1 p l2 ->
  exists s', _insert_region a p s = Ok (tt, s') /\ as_list s' a (l1 ++ p :: l2) /\ only_list s s' a.
Proof.
  intros Ha HA Hp Hp0 Hr H1 H2 H3 Hfit.
  destruct (wp_run _ _ _ (insert_region_wp s a l1 l2 p r A Ha Hp Hp0 Hr H1 H2 H3 Hfit HA)) as ([] & s' & E & ? & ? & _).
  eauto.
Qed.

(** The demo address space with a region not in the list yet. *)
Definition demo_new (addr size : Z) : vmm malloc_state :=
  set_regions (<[0x400 := mkRegion addr size 6 0 0]> demo_regions) demo_vmm.

Lemma insert_region_keeps_order_witness : exists s', _insert_region 0x10 0x400 (demo_new 0x30000 0x1000) = Ok (tt, s') /\
  as_list s' 0x10 [0x100; 0x200; 0x400; 0x300].
Proof.
  destruct (insert_region_keeps_order (demo_new 0x30000 0x1000) 0x10 [0x100; 0x200] [0x300] 0x400
    (mkRegion 0x30000 0x1000 6 0 0) demo_aspace) as (s' & E & Ha & _); try reflexivity; try discriminate.
  - apply as_list_check. vm_compute. reflexivity.
  - intros Hin. cbn in Hin. rewrite !elem_of_cons, elem_of_nil in Hin. lia.
  - split; intros q Hq; rewrite ?elem_of_cons, ?elem_of_nil in Hq.
    + destruct Hq as [->|[->|[]]]; vm_compute; discriminate.
    + destruct Hq as [->|[]]; vm_compute; discriminate.
  - exists s'. split; [exact E|exact Ha].
Defined.

(** Removing a region of the list takes out that region and no other;
    the rest keeps its order, links and contents. *)
Lemma remove_region_exact {H} `{!Allocator H} (s : vmm H) a l1 p l2 A :
  as_list s a (l1 ++ p :: l2) -> v_aspaces s !! a = Some A ->
  exists s', _remove_region a p s = Ok (tt, s') /\ as_list s' a (l1 ++ l2) /\ only_list s s' a.
Proof.
  intros Ha HA. destruct (wp_run _ _ _ (remove_region_wp s a l1 l2 p A Ha HA)) as ([] & s' & E & ? & _). eauto.
Qed.

Lemma remove_region_exact_witness : exists s', _remove_region 0x10 0x200 demo_vmm = Ok (tt, s') /\
  as_list s' 0x10 [0x100; 0x300].
Proof.
  destruct (remove_region_exact demo_vmm 0x10 [0x100] 0x200 [0x300] demo_aspace demo_as_list eq_refl)
    as (s' & E & Ha & _).
  exists s'. split; [exact E|exact Ha].
Defined.

(** For an area that does not start strictly inside a region,
    [_is_area_free] is exact: it answers true precisely when the area ends
    below [VM_USER_END] and overlaps no region. *)
Lemma is_area_free_exact {H} `{!Allocator H} (s : vmm H) a l addr sz :
  as_list s a l -> l <> [] -> 0 <= addr -> 0 < sz -> addr + sz < W32 ->
  (forall p, p ∈ l -> ~ (lo (v_regions s) p < addr < hi (v_regions s) p)) ->
  exists b : bool, _is_area_free a addr sz s = Ok (b, s) /\
    (b = true <-> addr + sz <= VM_USER_END /\
       forall p, p ∈ l -> addr + sz <= lo (v_regions s) p \/ hi (v_regions s) p <= addr).
Proof.
  intros Ha Hne H1 H2 H3 Hout.
  destruct (is_area_free_spec s a l addr sz Ha H1 ltac:(lia) H3) as (b & E & Hb).
  exists b. split; [done|]. rewrite Hb. unfold area_free.
  assert (Hla : last0 0 l ∈ l) by by apply last0_in.
  assert (Hmax : forall p, p ∈ l -> hi (v_regions s) p <= hi (v_regions s) (last0 0 l)).
  { intros p Hp. destruct (decide (p = last0 0 l)) as [->|Hn]; [lia|].
    pose proof (lo_lt_hi _ _ _ _ Ha Hla).
    destruct l as [|x k] using rev_ind; [done|]. rewrite last0_snoc in *.
    apply elem_of_app in Hp as [Hp|Hp%list_elem_of_singleton]; [|done].
    destruct (sorted_at _ _ _ _ _ Ha) as [Hs _]. specialize (Hs p Hp). lia. }
  destruct (al_region _ _ _ _ Ha Hla) as (r & _ & _ & _ & Ehi & _ & _ & _ & Hend).
  pose proof (lo_lt_hi _ _ _ _ Ha Hla).
  split.
  - intros [?|[[Hhi Hle]|(Hlt & Hlo & Hall)]]; [done| |].
    + split; [done|]. intros p Hp. right. specialize (Hmax p Hp). lia.
    + split; [specialize (Hall _ Hla Hlo); lia|]. intros p Hp.
      destruct (Z.le_gt_cases addr (lo (v_regions s) p)) as [Hle|Hgt]; [left; by apply Hall|right].
      specialize (Hout p Hp). lia.
  - intros [Hle Hall]. right. destruct (Z.le_gt_cases (hi (v_regions s) (last0 0 l)) addr) as [?|Hlt]; [by left|right].
    split; [done|]. split.
    + destruct (Hall _ Hla); lia.
    + intros p Hp Hlop. pose proof (lo_lt_hi _ _ _ _ Ha Hp). destruct (Hall p Hp); lia.
Qed.

Lemma is_area_free_exact_witness : exists b : bool, _is_area_free 0x10 0x9000 0x1000 demo_vmm = Ok (b, demo_vmm) /\
  (b = true <-> 0x9000 + 0x1000 <= VM_USER_END /\ forall p, p ∈ [0x100; 0x200; 0x300] ->
     0x9000 + 0x1000 <= lo (v_regions demo_vmm) p \/ hi (v_regions demo_vmm) p <= 0x9000).
Proof.
  apply (is_area_free_exact demo_vmm 0x10 [0x100; 0x200; 0x300] 0x9000 0x1000 demo_as_list); try done.
  intros p Hp. rewrite !elem_of_cons, elem_of_nil in Hp.
  destruct Hp as [->|[->|[->|[]]]]; intros [? ?]; done.
Defined.

(** The search for a free area can answer an area in use.  When the
    last mapping [p] below the stack has twice the requested size,
    [_find_free_area] returns the upper half of that mapping. *)
Lemma find_free_area_overlaps {H} `{!Allocator H} (s : vmm H) a A l p q n :
  as_list s a (l ++ [p; q]) -> v_aspaces s !! a = Some A -> 0 < n ->
  lo (v_regions s) p = stack_end A - 0x1000 - 2 * n -> hi (v_regions s) p = stack_end A - 0x1000 ->
  stack_end A - 0x1000 <= lo (v_regions s) q -> 0 <= data_end A -> data_end A + 0x1000 <= lo (v_regions s) p ->
  _find_free_area a n s = Ok (lo (v_regions s) p + n, s) /\
  lo (v_regions s) p < lo (v_regions s) p + n < hi (v_regions s) p.
Proof.
  intros Ha HA Hn Hlo Hhi Hq Hd0 Hd. split; [|lia].
  assert (Hql : q ∈ l ++ [p; q]) by in_tac. assert (Hpl : p ∈ l ++ [p; q]) by in_tac.
  destruct (al_region _ _ _ _ Ha Hql) as (rq & Hrq & _ & Eloq & Ehiq & ? & ? & ? & ?).
  destruct (al_region _ _ _ _ Ha Hpl) as (rp & Hrp & _ & Elop & Ehip & ? & ? & ? & ?).
  set (v := lo (v_regions s) p + n).
  assert (Hv : 0 <= v /\ v + n < W32) by (unfold v, VM_USER_END in *; lia).
  unfold _find_free_area, bind_ at 1, ld_as. rewrite HA, (proj2 (Z.eqb_neq a 0)) by apply Ha.
  cbn [loop]. unfold bind_ at 1.
  rewrite (w32_small (stack_end A - 0x1000)) by (unfold VM_USER_END in *; lia).
  rewrite (w32_small (stack_end A - 0x1000 - n)) by (unfold v in *; lia).
  replace (stack_end A - 0x1000 - n) with v by (unfold v; lia).
  rewrite (w32_small (data_end A + 0x1000)) by (unfold v in *; lia).
  destruct (Z.leb_spec (data_end A + 0x1000) v); [|unfold v in *; lia].
  destruct (is_area_free_spec s a _ v n Ha ltac:(lia) ltac:(lia) ltac:(lia)) as (b & E & Hb).
  rewrite (bind_ok _ _ _ _ _ E).
  assert (b = true) as ->; [|done]. apply Hb. right. right.
  assert (last0 0 (l ++ [p; q]) = q) as -> by (rewrite last0_app; done).
  split; [unfold v in *; lia|]. split; [unfold v; lia|].
  intros x Hx Hlx. apply elem_of_app in Hx as [Hx|Hx].
  - exfalso. destruct (sorted_at _ _ l p [q] Ha) as [Hs _]. specialize (Hs x Hx).
    assert (Hxl : x ∈ l ++ [p; q]) by in_tac. pose proof (lo_lt_hi _ _ _ _ Ha Hxl). unfold v in *. lia.
  - apply elem_of_cons in Hx as [->|Hx%list_elem_of_singleton]; [unfold v in *; lia|]. subst x. unfold v in *. lia.
Qed.

(** 0x2000 bytes mapped right below the stack guard. *)
Definition demo_two : vmm malloc_state :=
  mkVmm ms_boot (list_to_map [(0x200, mkRegion 0xbffed000 0x2000 6 0 0x300); (0x300, mkRegion 0xbfff0000 0x1000 6 0x200 0)])
    {[ 0x10 := mkAspace 0x3000 0x1000 0x8000 0x8400 0xbfff0000 0x1000 4 0x200 0x300 ]} ∅ demo_machine 0.

Lemma find_free_area_overlaps_witness : _find_free_area 0x10 0x1000 demo_two = Ok (0xbffee000, demo_two) /\
  0xbffed000 < 0xbffee000 < 0xbffed000 + 0x2000.
Proof.
  apply (find_free_area_overlaps demo_two 0x10 (mkAspace 0x3000 0x1000 0x8000 0x8400 0xbfff0000 0x1000 4 0x200 0x300)
    [] 0x200 0x300 0x1000); try (vm_compute; reflexivity); try (vm_compute; discriminate).
  apply as_list_check. vm_compute. reflexivity.
Defined.

(** A region that fits nowhere in a non-empty list is silently dropped:
    [_insert_region] returns as usual and the state is exactly what it was,
    so the pages mapped for the region belong to no region. *)
Lemma insert_overlapping_region_dropped {H} `{!Allocator H} (s : vmm H) a l p r :
  as_list s a l -> l <> [] -> p <> 0 -> v_regions s !! p = Some r ->
  0 <= r_addr r -> 0 < r_size r -> r_addr r + r_size r <= VM_USER_END ->
  (forall l1 l2, l = l1 ++ l2 -> ~ fits s l1 p l2) ->
  _insert_region a p s = Ok (tt, s).
Proof.
  intros Ha Hne Hp0 Hr H1 H2 H3 Hno.
  destruct (wp_run _ _ _ (insert_dropped_wp s a l p r Ha Hp0 Hr Hne H1 H2 H3 Hno)) as ([] & s' & E & ->). done.
Qed.

Lemma insert_overlapping_region_dropped_witness :
  _insert_region 0x10 0x400 (demo_new 0x21000 0x1000) = Ok (tt, demo_new 0x21000 0x1000).
Proof.
  apply (insert_overlapping_region_dropped (demo_new 0x21000 0x1000) 0x10 [0x100; 0x200; 0x300] 0x400
    (mkRegion 0x21000 0x1000 6 0 0)); try reflexivity; try discriminate.
  - apply as_list_check. vm_compute. reflexivity.
  - intros l1 l2 E [H1 H2].
    assert (Hin : 0x200 ∈ l1 ++ l2) by (rewrite <- E; in_tac).
    apply elem_of_app in Hin as [Hin|Hin].
    + specialize (H1 0x200 Hin). vm_compute in H1. by apply H1.
    + specialize (H2 0x200 Hin). vm_compute in H2. by apply H2.
Defined.

(** The region the break finds: the data region is the first that holds the
    address behind [elf_end], and its successor is the next of the list. *)
Lemma brk_finds_region {H} `{!Allocator H} (s : vmm H) a l1 p q l2 r :
  as_list s a (l1 ++ p :: q :: l2) -> v_regions s !! p = Some r -> r_addr r + 1 <= r_end r ->
  r_end r < W32 -> _find_region a (r_addr r +w 1) s = Ok (p, s) /\ r_next r = q.
Proof.
  intros Ha Hr Hlt Hw. assert (Hp : p ∈ l1 ++ p :: q :: l2) by in_tac.
  destruct (al_region _ _ _ _ Ha Hp) as (r' & Hr' & Hp0 & Elo & Ehi & Eend & ? & ? & Hend).
  rewrite Hr in Hr'. injection Hr' as <-.
  destruct (sorted_at _ _ _ _ _ Ha) as [Hs1 Hs2]. split.
  - rewrite w32_small by lia.
    destruct (find_region_spec s a _ (r_addr r + 1) Ha) as (x & E & Hx). rewrite E.
    destruct Hx as [[_ Hno]|(Hx & Hin & Hmin)]; [exfalso; apply (Hno p Hp); lia|].
    specialize (Hmin p Hp ltac:(lia)).
    apply elem_of_app in Hx as [Hx|[->|Hx]%elem_of_cons]; [|done|]; exfalso.
    + specialize (Hs1 x Hx). lia.
    + specialize (Hs2 x Hx). lia.
  - destruct (al_dl _ _ _ Ha) as [Hseg _]. apply dseg_app in Hseg as [_ (_ & Hlk & _)].
    rewrite (links_lookup _ _ _ Hr) in Hlk. injection Hlk as _ E. exact E.
Qed.

(** Growing the data region up to the next one keeps the list. *)
Lemma as_list_brk_grow {H} `{!Allocator H} (s : vmm H) a A l1 p q l2 r n v :
  as_list s a (l1 ++ p :: q :: l2) -> v_aspaces s !! a = Some A -> v_regions s !! p = Some r ->
  0 <= n -> r_end r + n <= lo (v_regions s) q ->
  as_list (set_aspaces (<[a := set_data_end v A]> (v_aspaces s))
    (set_regions (<[p := set_r_size (r_size r + n) r]> (v_regions s)) s)) a (l1 ++ p :: q :: l2).
Proof.
  intros Ha HA Hr Hn Hfit.
  assert (Hp : p ∈ l1 ++ p :: q :: l2) by in_tac. assert (Hq : q ∈ l1 ++ p :: q :: l2) by in_tac.
  destruct (al_region _ _ _ _ Ha Hp) as (r' & Hr' & Hp0 & Elo & Ehi & Eend & ? & ? & Hend).
  rewrite Hr in Hr'. injection Hr' as <-.
  destruct (al_region _ _ _ _ Ha Hq) as (rq & _ & _ & _ & Ehiq & _ & _ & _ & Hqend).
  pose proof (lo_lt_hi _ _ _ _ Ha Hq) as Hqlt.
  destruct (as_list_grow s a l1 p (q :: l2) r (r_size r + n) Ha Hr ltac:(lia) ltac:(lia)) as [_ ? ? ? ?].
  { intros x [->|Hx]%elem_of_cons; [lia|]. destruct (sorted_at s a (l1 ++ [p]) q l2) as [_ Hs3];
      [by rewrite <- app_assoc|]. specialize (Hs3 x Hx). lia. }
  split; try done. destruct (al_as _ _ _ Ha) as (A' & HA' & ? & ?). rewrite HA in HA'. injection HA' as <-.
  eexists. cbn. rewrite lookup_insert_eq. done.
Qed.

(** C28: moving the program break up, with the data region [p] in front of
    region [q].  A break inside the region only moves [data_end]; beyond it
    the region grows by whole pages if [q] leaves room, so that the new
    break is inside the region and the list stays sorted; otherwise the
    answer is NULL with ENOMEM and only [errno] changes. *)
Theorem vmm_set_brk_expands {H} `{!Allocator H} (s : vmm H) a A l1 p q l2 r v :
  as_list s a (l1 ++ p :: q :: l2) -> v_aspaces s !! a = Some A -> v_regions s !! p = Some r ->
  r_addr r = elf_end A -> elf_end A < data_end A -> data_end A <= r_end r ->
  data_end A < v -> r_end r + (v - data_end A) + 0x2000 < W32 ->
  let n := round_up (v - data_end A) in
  exists res s', vmm_set_brk a v s = Ok (res, s') /\
  (if decide (v <= r_end r) then res = data_end A /\ v_regions s' = v_regions s /\
     v_aspaces s' = <[a := set_data_end v A]> (v_aspaces s)
   else if decide (r_end r + n <= lo (v_regions s) q) then
     res = data_end A /\ as_list s' a (l1 ++ p :: q :: l2) /\ v <= hi (v_regions s') p /\
     v_regions s' = <[p := set_r_size (r_size r + n) r]> (v_regions s) /\
     v_aspaces s' = <[a := set_data_end v A]> (v_aspaces s)
   else res = 0 /\ s' = set_errno ENOMEM s).
Proof.
  intros Ha HA Hr Haddr Hde Hdr Hv Hw n.
  assert (Hp : p ∈ l1 ++ p :: q :: l2) by in_tac. assert (Hq : q ∈ l1 ++ p :: q :: l2) by in_tac.
  destruct (al_region _ _ _ _ Ha Hp) as (r' & Hr' & Hp0 & Elo & Ehi & Eend & ? & ? & Hend).
  rewrite Hr in Hr'. injection Hr' as <-.
  destruct (al_region _ _ _ _ Ha Hq) as (rq & Hrq & Hq0 & Eloq & Ehiq & _ & _ & _ & Hqend).
  pose proof (lo_lt_hi _ _ _ _ Ha Hq) as Hqlt. pose proof (al_nz _ _ _ Ha) as Ha0. unfold VM_USER_END in *.
  destruct (brk_finds_region s a l1 p q l2 r Ha Hr ltac:(lia) ltac:(lia)) as [Hfind Hnx]. rewrite Haddr in Hfind.
  destruct (round_up_spec (v - data_end A)) as [Hn1 Hn2]; [lia|lia|]. fold n in Hn1, Hn2.
  cut (wp (vmm_set_brk a v) (fun res s' =>
    if decide (v <= r_end r) then res = data_end A /\ v_regions s' = v_regions s /\
      v_aspaces s' = <[a := set_data_end v A]> (v_aspaces s)
    else if decide (r_end r + n <= lo (v_regions s) q) then
      res = data_end A /\ as_list s' a (l1 ++ p :: q :: l2) /\ v <= hi (v_regions s') p /\
      v_regions s' = <[p := set_r_size (r_size r + n) r]> (v_regions s) /\
      v_aspaces s' = <[a := set_data_end v A]> (v_aspaces s)
    else res = 0 /\ s' = set_errno ENOMEM s) s); [by intros (res & s' & ? & ?)%wp_run; eauto|].
  unfold vmm_set_brk. vrun. rewrite (proj2 (Z.ltb_ge v (elf_end A))) by lia.
  rewrite (proj2 (Z.eqb_neq (data_end A) (elf_end A))) by lia. cbn [andb].
  apply wp_bind. eapply wp_intro; [exact Hfind|]. cbv beta. rewrite (proj2 (Z.eqb_neq p 0)) by done. vrun.
  rewrite (proj2 (Z.ltb_lt (data_end A) v)) by lia. rewrite (w32_small (v - data_end A)) by lia.
  assert (Eupd : forall B, data_end B = data_end A -> set_data_end (data_end B +w (v - data_end A)) B = set_data_end v B).
  { intros B ->. f_equal. rewrite w32_small by lia. lia. }
  destruct (Z.leb_spec v (r_end r)) as [Hle|Hgt].
  { unfold brk_end. vrun. rewrite decide_True by done. cbn. by rewrite Eupd. }
  rewrite Hnx, (proj2 (Z.eqb_neq q 0)) by done. cbn [negb]. vrun. fold n.
  rewrite (w32_small (r_end r + n)) by lia. rewrite <- Eloq.
  destruct (Z.leb_spec (r_end r + n) (lo (v_regions s) q)) as [Hfit|Hno].
  - unfold brk_end. vrun. rewrite (decide_False (P := v <= r_end r)), decide_True by lia. rewrite (w32_small (r_size r + n)) by lia.
    cbn [v_regions v_aspaces set_regions set_aspaces]. rewrite Eupd by done. split_and!; try done.
    + apply (as_list_brk_grow s a A l1 p q l2 r n v); (done || lia).
    + rewrite (hi_lookup _ _ (set_r_size (r_size r + n) r)) by apply lookup_insert_eq. cbn. lia.
  - vrun. rewrite !decide_False by lia. done.
Qed.

Lemma vmm_set_brk_expands_witness : exists s', vmm_set_brk 0x10 0x9800 demo_vmm = Ok (0x8400, s') /\
  as_list s' 0x10 [0x100; 0x200; 0x300] /\ 0x9800 <= hi (v_regions s') 0x100.
Proof.
  destruct (vmm_set_brk_expands demo_vmm 0x10 demo_aspace [] 0x100 0x200 [0x300]
    (mkRegion 0x8000 0x1000 6 0 0x200) 0x9800 demo_as_list) as (res & s' & E & Hres);
    try reflexivity; try (vm_compute; discriminate).
  rewrite decide_False in Hres by (vm_compute; intros Hc; by apply Hc).
  rewrite decide_True in Hres by (vm_compute; discriminate).
  destruct Hres as (-> & Hl & Hh & _). exists s'. split; [exact E|split; [exact Hl|exact Hh]].
Defined.

(** Setting the break where it is spoils the heap of a program.  When no
    data region exists yet, [vmm_set_brk] of the current break creates one of
    size 0, and since that region is in the way every later request to move
    the break up fails with ENOMEM, as long as another region (such as the
    stack) lies above. *)
Lemma vmm_set_brk_zero_blocks_heap {H} `{!Allocator H} (s : vmm H) a A p q l rp v :
  v_aspaces s !! a = Some A -> a <> 0 -> as_first A = p -> as_last A = q -> data_end A = elf_end A ->
  v_regions s !! p = Some rp -> p <> 0 -> r_addr rp = elf_end A -> r_size rp = 0 ->
  dlist (v_regions s) (p :: l) -> q = last0 0 l -> l <> [] ->
  (forall x rx, x ∈ l -> v_regions s !! x = Some rx -> data_end A < r_end rx) ->
  0 <= data_end A < v -> v + 0x2000 < W32 ->
  vmm_set_brk a v s = Ok (0, set_errno ENOMEM s).
Proof.
  intros HA Ha0 Hf Hl Hde Hrp Hp0 Hadr Hsz Hdl Hq Hne Habove Hv Hw.
  destruct (round_up_spec (v - data_end A)) as [Hn1 Hn2]; [lia..|].
  assert (Hql : q ∈ l) by (rewrite Hq; by apply last0_in).
  destruct Hdl as [Hseg Hnd]. assert (Hqp : q ∈ p :: l) by in_tac.
  destruct (dseg_lookup _ _ _ _ _ Hseg Hqp) as [rq Hrq]. pose proof (dseg_nonzero _ _ _ _ _ Hseg Hqp) as Hq0.
  specialize (Habove q rq Hql Hrq).
  unfold vmm_set_brk, bind_ at 1, ld_as. rewrite HA, (proj2 (Z.eqb_neq a 0)) by done.
  rewrite (proj2 (Z.ltb_ge v (elf_end A))) by lia.
  rewrite Hde, Z.eqb_refl, (proj2 (Z.leb_le (elf_end A) v)) by lia. cbn [andb].
  rewrite (w32_small (v - elf_end A)) by lia. rewrite Hde in *.
  rewrite (bind_ok _ _ _ false s); [done|].
  unfold _is_area_free, bind_ at 1, ld_as. rewrite HA, (proj2 (Z.eqb_neq a 0)), Hf, Hl by done.
  rewrite (proj2 (Z.eqb_neq p 0)) by done.
  unfold bind_ at 1, ld_reg. rewrite Hrq, (proj2 (Z.eqb_neq q 0)) by done.
  rewrite (proj2 (Z.leb_gt _ _)) by lia.
  unfold bind_ at 1, lift_. change p with (hd0 0 (p :: l)) at 1. rewrite (walk_dlist _ _ (p :: l)) by done.
  cbn [first_such]. rewrite Hrp, (proj2 (Z.leb_le _ _)), (proj2 (Z.eqb_neq p 0)) by (done || lia).
  unfold bind_. rewrite Hrp. unfold ret_. rewrite w32_small by lia.
  rewrite (proj2 (Z.leb_gt _ _)) by lia. done.
Qed.

Definition demo_brk0 : vmm malloc_state :=
  mkVmm ms_boot (list_to_map [(0x100, mkRegion 0x8000 0 6 0 0x300); (0x300, mkRegion 0xbfff0000 0x1000 6 0x100 0)])
    {[ 0x10 := mkAspace 0x3000 0x1000 0x8000 0x8000 0xbfff0000 0x1000 4 0x100 0x300 ]} ∅ demo_machine 0.

(** The state of the theorem is what [vmm_set_brk] at the current break leaves. *)
Lemma vmm_set_brk_zero_blocks_heap_witness :
  vmm_set_brk 0x10 0x9000 demo_brk0 = Ok (0, set_errno ENOMEM demo_brk0) /\
  match vmm_set_brk 0x10 0x8000 (mkVmm ms_boot {[ 0x300 := mkRegion 0xbfff0000 0x1000 6 0 0 ]}
    {[ 0x10 := mkAspace 0x3000 0x1000 0x8000 0x8000 0xbfff0000 0x1000 4 0x300 0x300 ]} ∅ demo_machine 0) with
  | Ok (0x8000, s) => r_size <$> (v_regions s !! (as_first (default zero_aspace (v_aspaces s !! 0x10)))) = Some 0
  | _ => False
  end.
Proof.
  split; [|vm_compute; reflexivity].
  apply (vmm_set_brk_zero_blocks_heap demo_brk0 0x10
    (mkAspace 0x3000 0x1000 0x8000 0x8000 0xbfff0000 0x1000 4 0x100 0x300) 0x100 0x300 [0x300]
    (mkRegion 0x8000 0 6 0 0x300)); try reflexivity; try discriminate.
  - split; [cbn; split_and!; try done; exact I|]. apply (bool_decide_eq_true_1 (NoDup [0x100; 0x300])). reflexivity.
  - intros x rx Hx. rewrite elem_of_cons, elem_of_nil in Hx. destruct Hx as [->|[]].
    intros [= <-]. vm_compute. reflexivity.
  - split; vm_compute; (discriminate || reflexivity).
Defined.

(** What a user page fault leads to.  An address in no region, and a
    write to a region without [VMM_RW], send SIGSEGV to the running task and
    change nothing; so does a permitted access to a page that is present,
    which sends nothing. *)
Lemma page_fault_decides {H} `{!Allocator H} (s : vmm H) a l v err :
  as_list s a l ->
  ((forall q, q ∈ l -> ~ (lo (v_regions s) q <= v <= hi (v_regions s) q)) ->
     vmm_page_fault_handler a v err s = Ok (Some SIGSEGV, s)) /\
  (forall p r, p ∈ l -> v_regions s !! p = Some r -> lo (v_regions s) p < v < hi (v_regions s) p ->
     vmm_page_fault_handler a v err s =
       if negb (Z.land err VMM_ERR_WR =? 0) && (Z.land (r_flags r) VMM_RW =? 0) then Ok (Some SIGSEGV, s)
       else if Z.land err VMM_ERR_PR =? 0 then Ok (None, s)
       else vmm_page_fault_handler a v VMM_ERR_PR s).
Proof.
  intros Ha. destruct (find_region_spec s a l v Ha) as (x & E & Hx). split.
  - intros Hno. destruct Hx as [[-> _]|(Hx & Hin & _)]; [|by destruct (Hno x Hx)].
    unfold vmm_page_fault_handler. rewrite (bind_ok _ _ _ _ _ E). done.
  - intros p r Hp Hr Hin. destruct Hx as [[-> Hno]|(Hx & Hinx & Hmin)]; [exfalso; apply (Hno p Hp); lia|].
    specialize (Hmin p Hp ltac:(lia)).
    assert (x = p) as ->.
    { destruct (decide (x = p)) as [|Hne]; [done|exfalso].
      apply list_elem_of_split in Hp as (l1 & l2 & ->). destruct (sorted_at _ _ _ _ _ Ha) as [Hs1 Hs2].
      apply elem_of_app in Hx as [Hx|[->|Hx]%elem_of_cons]; [specialize (Hs1 x Hx)|done|specialize (Hs2 x Hx)]; lia. }
    destruct (al_region _ _ _ _ Ha Hp) as (r' & Hr' & Hp0 & _). rewrite Hr in Hr'. injection Hr' as <-.
    unfold vmm_page_fault_handler. rewrite !(bind_ok _ _ _ _ _ E).
    rewrite (proj2 (Z.eqb_neq p 0)) by done.
    assert (Eld : ld_reg p s = Ok (r, s)) by (unfold ld_reg; by rewrite Hr, (proj2 (Z.eqb_neq p 0))).
    rewrite !(bind_ok _ _ _ _ _ Eld).
    change (negb (Z.land VMM_ERR_PR VMM_ERR_WR =? 0)) with false. cbn [andb].
    change (negb (Z.land VMM_ERR_PR VMM_ERR_PR =? 0)) with true. cbv iota.
    destruct (negb (Z.land err VMM_ERR_WR =? 0) && (Z.land (r_flags r) VMM_RW =? 0)); [done|].
    destruct (Z.land err VMM_ERR_PR =? 0); done.
Qed.

Lemma page_fault_decides_witness :
  vmm_page_fault_handler 0x10 0x10000 VMM_ERR_PR demo_vmm = Ok (Some SIGSEGV, demo_vmm).
Proof.
  apply (proj1 (page_fault_decides demo_vmm 0x10 [0x100; 0x200; 0x300] 0x10000 VMM_ERR_PR demo_as_list)).
  intros q Hq. rewrite !elem_of_cons, elem_of_nil in Hq.
  destruct Hq as [->|[->|[->|[]]]]; vm_compute; intros [? ?]; done.
Defined.
