(* ===== verification/Vmalloc.v ===== *)
(** * Kernel page allocator ([src/src/kernel/klib/vmalloc.c], [vfree.c])

    A list of the used ranges of the vmalloc area, in address order.  A
    request takes the first hole that is large enough, maps it and records
    it; [vfree] looks the range up by its start.  The descriptors come from
    the kernel heap, any [Allocator]. *)

From S2P Require Import Prelude Dlist Pmm Heap Paging.

#[local] Open Scope Z_scope.

Inductive vmalloc_req := MAPPED | PHY_CONT | ON_DEMAND.

#[global] Instance vmalloc_req_eq : EqDecision vmalloc_req.
Proof. solve_decision. Defined.

Record region_hdr := mkHdr { h_vaddr : Z; h_size : Z; h_type : vmalloc_req; h_prev : Z; h_next : Z }.

Definition set_h_prev v h := mkHdr (h_vaddr h) (h_size h) (h_type h) v (h_next h).
Definition set_h_next v h := mkHdr (h_vaddr h) (h_size h) (h_type h) (h_prev h) v.

#[global] Instance hdr_linked : Linked region_hdr := { l_prev := h_prev; l_next := h_next }.

Definition h_end (h : region_hdr) : Z := h_vaddr h +w h_size h.

Record used_regions := mkUreg { u_first : Z; u_last : Z; used_pages : Z }.

Record vma (H : Type) := mkVma {
  va_heap : H;
  va_regs : gmap Z region_hdr;
  ureg : used_regions;
  va_mach : machine;
}.
Arguments mkVma {_} _ _ _ _.
Arguments va_heap {_} _. Arguments va_regs {_} _. Arguments ureg {_} _. Arguments va_mach {_} _.

Definition SIZEOF_REGION_HDR : Z := 20.

(** Flags of [vmm.h] used for the area. *)
Definition VMALLOC_RW : Z := 0x2.

Section vmalloc.
Context {H : Type} `{!Allocator H}.

Definition set_va_heap (v : H) (s : vma H) := mkVma v (va_regs s) (ureg s) (va_mach s).
Definition set_va_regs v (s : vma H) := mkVma (va_heap s) v (ureg s) (va_mach s).
Definition set_ureg v (s : vma H) := mkVma (va_heap s) (va_regs s) v (va_mach s).
Definition set_va_mach v (s : vma H) := mkVma (va_heap s) (va_regs s) (ureg s) v.

Definition va (A : Type) : Type := M (vma H) A.

Definition va_on_mach {A} (m : M machine A) : va A := zoom va_mach set_va_mach m.
Definition va_on_heap {A} (m : M H A) : va A := zoom va_heap set_va_heap m.

Definition ld_hdr (p : Z) : va region_hdr := fun s =>
  match va_regs s !! p with
  | Some h => if p =? 0 then Fault else Ok (h, s)
  | None => Fault
  end.

Definition upd_hdr (p : Z) (f : region_hdr -> region_hdr) : va unit :=
  do h <- ld_hdr p; mod_ (fun s => set_va_regs (<[p := f h]> (va_regs s)) s).

Definition upd_ureg (f : used_regions -> used_regions) : va unit :=
  mod_ (fun s => set_ureg (f (ureg s)) s).

Definition set_u_first v u := mkUreg v (u_last u) (used_pages u).
Definition set_u_last v u := mkUreg (u_first u) v (used_pages u).
Definition set_u_pages v u := mkUreg (u_first u) (u_last u) v.

(** The address of a hole and the descriptor in front of it (0: none);
    the address is 0 when there is no hole. *)
Definition _find_hole_in_as (size : Z) : va (Z * Z) :=
  do u <- get_ ureg;
  do f <- ld_hdr (u_first u);
  if (VM_VMALLOC_START <? h_vaddr f) && (size <=? h_vaddr f -w VM_VMALLOC_START)
  then ret_ (VM_VMALLOC_START, 0)
  else
    do n <- get_ (fun s => base.size (va_regs s));
    do r <- loop (S n) (fun tmp =>
      do t <- ld_hdr tmp;
      let next := h_next t in
      if next =? 0 then ret_ (inr None)
      else
        do nx <- ld_hdr next;
        if size <=? h_vaddr nx -w h_vaddr t -w h_size t
        then ret_ (inr (Some (h_end t, tmp)))
        else ret_ (inl next)) (u_first u);
    match r with
    | Some found => ret_ found
    | None =>
        do l <- ld_hdr (u_last u);
        if (h_end l <? VM_VMALLOC_END) && (size <=? VM_VMALLOC_END -w h_vaddr l -w h_size l)
        then ret_ (h_end l, u_last u)
        else ret_ (0, 0)
    end.

Definition va_insert_region (prev new : Z) : va unit :=
  do u <- get_ ureg;
  if u_first u =? 0 then
    do n <- ld_hdr new;
    upd_ureg (fun _ => mkUreg new new (h_size n / PAGE_SIZE)) ;;;
    upd_hdr new (set_h_prev 0) ;;;
    upd_hdr new (set_h_next 0)
  else
    (if prev =? 0 then
       upd_hdr new (set_h_prev 0) ;;;
       upd_hdr new (set_h_next (u_first u)) ;;;
       upd_hdr (u_first u) (set_h_prev new) ;;;
       upd_ureg (set_u_first new)
     else if u_last u =? prev then
       upd_hdr new (set_h_next 0) ;;;
       upd_hdr new (set_h_prev prev) ;;;
       upd_hdr prev (set_h_next new) ;;;
       upd_ureg (set_u_last new)
     else
       do p <- ld_hdr prev;
       upd_hdr new (set_h_prev prev) ;;;
       upd_hdr new (set_h_next (h_next p)) ;;;
       upd_hdr (h_next p) (set_h_prev new) ;;;
       upd_hdr prev (set_h_next new)) ;;;
    do n <- ld_hdr new;
    upd_ureg (fun u => set_u_pages (used_pages u +w h_size n / PAGE_SIZE) u).

Definition page_align (size : Z) : Z :=
  if 0 <? size mod PAGE_SIZE then size -w size mod PAGE_SIZE +w PAGE_SIZE else size.

Definition vmalloc (size : Z) (phy_type : vmalloc_req) : va Z :=
  let size := page_align size in
  do u <- get_ ureg;
  do ' (vaddr, prev_region) <-
    (if u_first u =? 0 then ret_ (VM_VMALLOC_START, 0)
     else
       do r <- _find_hole_in_as size;
       if fst r =? 0 then panic "[PANIC] vmalloc cannot satisfy the request" else ret_ r);
  va_on_mach (match phy_type with
    | MAPPED => vmm_cont_map vaddr size VMALLOC_RW false
    | PHY_CONT => vmm_cont_map vaddr size VMALLOC_RW true
    | ON_DEMAND => vmm_void_map vaddr size VMALLOC_RW
    end) ;;;
  do new_region <- va_on_heap (al_malloc SIZEOF_REGION_HDR);
  mod_ (fun s => set_va_regs (<[new_region := mkHdr vaddr size phy_type 0 0]> (va_regs s)) s) ;;;
  va_insert_region prev_region new_region ;;;
  ret_ vaddr.

(** [vfree.c] has its own [_remove_region]: the descriptor whose range
    starts at [vaddr], unlinked, or 0. *)
Definition va_remove_region (vaddr : Z) : va Z :=
  do u <- get_ ureg;
  do region <- lift_ (fun s => walk (va_regs s) (fun _ h => h_vaddr h =? vaddr) (u_first u));
  (when negb (region =? 0) then_
     (do r <- ld_hdr region;
      (if region =? u_first u then
         upd_ureg (set_u_first (h_next r)) ;;;
         (if negb (h_next r =? 0) then upd_hdr (h_next r) (set_h_prev 0)
          else upd_ureg (set_u_last 0))
       else if region =? u_last u then
         upd_ureg (set_u_last (h_prev r)) ;;;
         upd_hdr (h_prev r) (set_h_next 0)
       else
         upd_hdr (h_prev r) (set_h_next (h_next r)) ;;;
         upd_hdr (h_next r) (set_h_prev (h_prev r))) ;;;
      upd_ureg (fun u => set_u_pages (used_pages u -w h_size r / PAGE_SIZE) u))) ;;;
  ret_ region.

Definition vfree (ptr : Z) : va unit :=
  do region <- va_remove_region ptr;
  if region =? 0 then panic "[ERROR] vfree tried to release unused memory"
  else
    do r <- ld_hdr region;
    va_on_mach (vmm_cont_unmap (h_vaddr r) (h_size r) (bool_decide (h_type r = PHY_CONT))) ;;;
    va_on_heap (al_free region) ;;;
    mod_ (fun s => set_va_regs (delete region (va_regs s)) s).
End vmalloc.
