(* ===== verification/VmallocSpec.v ===== *)
(** * Correctness of the kernel page allocator

    [va_list s l]: the descriptors [l] are linked in address order and their
    ranges lie, disjoint, inside the vmalloc area. *)

From stdpp Require Import sorting.
From S2P Require Import Prelude Dlist Pmm Kmalloc Heap Paging Vmalloc.

#[local] Open Scope Z_scope.

Definition hlo (m : gmap Z region_hdr) (p : Z) : Z := from_option h_vaddr 0 (m !! p).
Definition hhi (m : gmap Z region_hdr) (p : Z) : Z := from_option (fun h => h_vaddr h + h_size h) 0 (m !! p).

Record va_list {H} (s : vma H) (l : list Z) : Prop := {
  vl_ends : u_first (ureg s) = hd0 0 l /\ u_last (ureg s) = last0 0 l;
  vl_dl : dlist (va_regs s) l;
  vl_rg : forall p h, p ∈ l -> va_regs s !! p = Some h ->
    VM_VMALLOC_START <= h_vaddr h /\ 0 < h_size h /\ h_vaddr h + h_size h <= VM_VMALLOC_END;
  vl_sorted : StronglySorted (fun p q => hhi (va_regs s) p <= hlo (va_regs s) q) l;
}.

Section spec.
Context {H : Type} `{!Allocator H}.
Implicit Types (s : vma H).

Lemma vl_hdr s l p : va_list s l -> p ∈ l ->
  exists h, va_regs s !! p = Some h /\ p <> 0 /\ hlo (va_regs s) p = h_vaddr h /\ hhi (va_regs s) p = h_end h /\
    h_end h = h_vaddr h + h_size h /\ VM_VMALLOC_START <= h_vaddr h /\ 0 < h_size h /\ h_end h <= VM_VMALLOC_END.
Proof.
  intros Hl Hp. destruct (vl_dl _ _ Hl) as [Hd _].
  destruct (dseg_lookup _ _ _ _ _ Hd Hp) as [h Hh]. exists h.
  destruct (vl_rg _ _ Hl p h Hp Hh) as (? & ? & ?).
  assert (E : h_end h = h_vaddr h + h_size h).
  { unfold h_end. apply w32_small. unfold VM_VMALLOC_START, VM_VMALLOC_END in *. lia. }
  unfold hlo, hhi. rewrite Hh. cbn. rewrite E. split_and!; try done. by eapply dseg_nonzero.
Qed.

Lemma vl_at s l1 p l2 : va_list s (l1 ++ p :: l2) ->
  (forall q, q ∈ l1 -> hhi (va_regs s) q <= hlo (va_regs s) p) /\
  (forall q, q ∈ l2 -> hhi (va_regs s) p <= hlo (va_regs s) q).
Proof.
  intros Hl. pose proof (vl_sorted _ _ Hl) as Hs. apply StronglySorted_app in Hs as (H12 & _ & H2). split.
  - intros q Hq. apply H12; [done|by left].
  - intros q Hq. apply StronglySorted_inv in H2 as [_ Hall]. rewrite Forall_forall in Hall. by apply Hall.
Qed.

Lemma vl_lt s l p : va_list s l -> p ∈ l -> hlo (va_regs s) p < hhi (va_regs s) p.
Proof. intros Hl Hp. destruct (vl_hdr _ _ _ Hl Hp) as (h & _ & _ & -> & -> & -> & _ & ? & _). lia. Qed.

(** [v .. v+sz) is a hole between [l1] and [l2]. *)
Definition hole s (l1 l2 : list Z) (v sz : Z) : Prop :=
  VM_VMALLOC_START <= v /\ v + sz <= VM_VMALLOC_END /\
  (forall q, q ∈ l1 -> hhi (va_regs s) q <= v) /\ (forall q, q ∈ l2 -> v + sz <= hlo (va_regs s) q).

(** No place of the area below [p]'s successor list is free for [sz]. *)
Definition no_hole s (l : list Z) (sz : Z) : Prop :=
  forall l1 l2 v, l = l1 ++ l2 -> ~ hole s l1 l2 v sz.

Lemma wp_ld_hdr s p h (Q : region_hdr -> vma H -> Prop) :
  va_regs s !! p = Some h -> p <> 0 -> Q h s -> wp (ld_hdr p) Q s.
Proof. intros E Hp HQ. unfold wp, ld_hdr. rewrite E, (proj2 (Z.eqb_neq p 0)) by done. exact HQ. Qed.

Section search.
Context (s : vma H) (l : list Z) (sz : Z).
Hypotheses (Hl : va_list s l) (Hsz : 0 < sz < W32).

Lemma next_of l1 p l2 h : l = l1 ++ p :: l2 -> va_regs s !! p = Some h -> h_next h = hd0 0 l2.
Proof.
  intros El Hh. destruct (vl_dl _ _ Hl) as [Hseg _]. rewrite El in Hseg.
  apply dseg_app in Hseg as [_ (_ & Hlk & _)]. rewrite (links_lookup _ _ _ Hh) in Hlk. by injection Hlk as _ E.
Qed.

Lemma find_hole_loop k p k2 fuel : l = k ++ p :: k2 -> (length k2 < fuel)%nat ->
  wp (loop fuel (fun tmp =>
    do t <- ld_hdr tmp;
    let next := h_next t in
    if next =? 0 then ret_ (inr None)
    else
      do nx <- ld_hdr next;
      if sz <=? h_vaddr nx -w h_vaddr t -w h_size t
      then ret_ (inr (Some (h_end t, tmp)))
      else ret_ (inl next)) p)
    (fun r s' => s' = s /\ match r with
      | Some (v, prev) => exists l1 l2, l = l1 ++ l2 /\ l1 <> [] /\ last0 0 l1 = prev /\ hole s l1 l2 v sz
      | None => forall l1 x y l2, l = l1 ++ x :: y :: l2 -> (length k <= length l1)%nat ->
                 hlo (va_regs s) y - hhi (va_regs s) x < sz
      end) s.
Proof.
  revert k p fuel. induction k2 as [|y k2 IH]; intros k p fuel El Hfuel;
    (destruct fuel as [|fuel]; [cbn in Hfuel; lia|]); cbn [loop].
  all: assert (Hp : p ∈ l) by (rewrite El; in_tac).
  all: destruct (vl_hdr _ _ _ Hl Hp) as (t & Ht & Hp0 & Elo & Ehi & Ee & Hb1 & Hb2 & Hb3).
  all: pose proof (next_of _ _ _ _ El Ht) as Hnx; cbn [hd0] in Hnx.
  all: apply wp_bind, wp_bind; eapply wp_ld_hdr; [done|done|]; cbv zeta; rewrite Hnx.
  - cbn [Z.eqb]. apply wp_ret, wp_ret. split; [done|]. intros l1 x y l2 El' Hlen. exfalso.
    assert (length l = length (l1 ++ x :: y :: l2)) by by rewrite El'.
    rewrite El, !length_app in *. cbn in *. lia.
  - assert (Hy : y ∈ l) by (rewrite El; in_tac).
    destruct (vl_hdr _ _ _ Hl Hy) as (n & Hn & Hy0 & Elo' & Ehi' & Ee' & Hb1' & Hb2' & Hb3').
    rewrite (proj2 (Z.eqb_neq y 0)) by done. apply wp_bind. eapply wp_ld_hdr; [done|done|].
    assert (El2 : l = (k ++ [p]) ++ y :: k2) by by rewrite <- app_assoc.
    pose proof Hl as Hl'. rewrite El in Hl'. destruct (vl_at _ _ _ _ Hl') as [Hs1 Hs2].
    pose proof Hl as Hl2. rewrite El2 in Hl2. destruct (vl_at _ _ _ _ Hl2) as [Hs3 Hs4].
    assert (Hpy : hhi (va_regs s) p <= hlo (va_regs s) y) by (apply Hs2; by left).
    unfold VM_VMALLOC_START, VM_VMALLOC_END in *.
    rewrite (w32_small (h_vaddr n - h_vaddr t)), (w32_small (h_vaddr n - h_vaddr t - h_size t)) by lia.
    destruct (Z.leb_spec sz (h_vaddr n - h_vaddr t - h_size t)) as [Hle|Hgt].
    + apply wp_ret, wp_ret. split; [done|]. exists (k ++ [p]), (y :: k2).
      split_and!; [done|by destruct k|apply last0_snoc|]. unfold hole, VM_VMALLOC_START, VM_VMALLOC_END. split_and!; [lia|lia| |].
      * intros q Hq. specialize (Hs3 q Hq).
        apply elem_of_app in Hq as [Hq|Hq%list_elem_of_singleton]; [specialize (Hs1 q Hq)|subst q; lia].
        pose proof (vl_lt _ _ _ Hl Hp). lia.
      * intros q [->|Hq]%elem_of_cons; [lia|]. specialize (Hs4 q Hq). pose proof (vl_lt _ _ _ Hl Hy). lia.
    + apply wp_ret. eapply wp_mono; [apply (IH (k ++ [p]) y fuel El2); cbn in Hfuel; lia|].
      intros [[v prev]|] s' [-> Hr]; (split; [done|]); [done|].
      intros l1 x z l2 El' Hlen. destruct (decide (length l1 = length k)) as [Heq|Hne].
      * rewrite El in El'. apply app_inj_1 in El' as [_ [= <- <- _]]; [|done]. lia.
      * eapply Hr; [exact El'|]. rewrite length_app. cbn. lia.
Qed.

(** The first range starts first and the last one ends last. *)
Lemma first_lowest : forall q, q ∈ l -> hlo (va_regs s) (hd0 0 l) <= hlo (va_regs s) q.
Proof.
  intros q Hq. pose proof Hl as Hl'. destruct l as [|x k]; [by apply elem_of_nil in Hq|]. cbn [hd0].
  destruct (vl_at _ [] _ _ Hl') as [_ Hs].
  apply elem_of_cons in Hq as [->|Hq]; [lia|]. specialize (Hs q Hq).
  pose proof (vl_lt _ _ x Hl' ltac:(in_tac)). lia.
Qed.

Lemma last_highest : forall q, q ∈ l -> hhi (va_regs s) q <= hhi (va_regs s) (last0 0 l).
Proof.
  intros q Hq. pose proof Hl as Hl'. destruct l as [|z j] using rev_ind; [by apply elem_of_nil in Hq|]. rewrite last0_snoc in *.
  destruct (vl_at _ _ _ _ Hl') as [Hs _].
  apply elem_of_app in Hq as [Hq|Hq%list_elem_of_singleton]; [|subst q; lia].
  specialize (Hs q Hq). pose proof (vl_lt _ _ z Hl' ltac:(in_tac)). lia.
Qed.

(** The answer of [_find_hole_in_as] on a non-empty list. *)
Lemma find_hole_wp : l <> [] -> wp (_find_hole_in_as sz) (fun r s' => s' = s /\
  ((exists l1 l2, l = l1 ++ l2 /\ last0 0 l1 = r.2 /\ r.1 <> 0 /\ hole s l1 l2 r.1 sz) \/
   (r.1 = 0 /\ no_hole s l sz))) s.
Proof.
  intros Hne. destruct (vl_ends _ _ Hl) as [Ef Ela].
  assert (Hx : hd0 0 l ∈ l) by by apply hd0_in. assert (Hy : last0 0 l ∈ l) by by apply last0_in.
  destruct (vl_hdr _ _ _ Hl Hx) as (f & Hf & Hf0 & Elof & Ehif & _ & Hbf1 & Hbf2 & Hbf3).
  destruct (vl_hdr _ _ _ Hl Hy) as (la & Hla & Hla0 & Elol & Ehil & Eel & Hbl1 & Hbl2 & Hbl3).
  pose proof (vl_lt _ _ _ Hl Hy). pose proof (vl_lt _ _ _ Hl Hx).
  assert (exists x k, l = x :: k) as (x & k & El) by (clear -Hne; destruct l; [done|eauto]).
  unfold _find_hole_in_as. apply wp_bind, wp_get, wp_bind. rewrite Ef, Ela. eapply wp_ld_hdr; [done|done|].
  unfold VM_VMALLOC_START, VM_VMALLOC_END in *. rewrite (w32_small (h_vaddr f - _)) by lia.
  pose proof first_lowest as Hfirst. pose proof last_highest as Hlast.
  destruct ((0xd0000000 <? h_vaddr f) && (sz <=? h_vaddr f - 0xd0000000)) eqn:Efirst.
  { apply andb_true_iff in Efirst as [_ Hle%Z.leb_le].
    apply wp_ret. split; [done|]. left. exists [], l. split_and!; [done|done|done|].
    unfold hole, VM_VMALLOC_START, VM_VMALLOC_END. cbn [fst].
    split_and!; [lia|lia|intros q Hq; by apply elem_of_nil in Hq|].
    intros q Hq. specialize (Hfirst q Hq). lia. }
  assert (Hno1 : h_vaddr f - 0xd0000000 < sz).
  { apply andb_false_iff in Efirst as [?%Z.ltb_ge|?%Z.leb_gt]; lia. }
  apply wp_bind, wp_get, wp_bind.
  pose proof (dlist_length _ _ (vl_dl _ _ Hl)) as Hlen.
  assert (Ex : hd0 0 l = x) by by rewrite El. rewrite Ex at 1.
  eapply wp_mono; [apply (find_hole_loop [] x k); [done|]; rewrite El in Hlen; cbn in Hlen; lia|].
  intros [[v prev]|] s' [-> Hr].
  { apply wp_ret. split; [done|]. left. destruct Hr as (l1 & l2 & ? & ? & ? & Hh). exists l1, l2.
    split_and!; [done|done| |done]. cbn. destruct Hh. unfold VM_VMALLOC_START in *. lia. }
  apply wp_bind. eapply wp_ld_hdr; [done|done|].
  rewrite (w32_small (_ - h_vaddr la)), (w32_small (_ - h_vaddr la - _)) by lia.
  destruct ((h_end la <? 0xdffff000) && (sz <=? 0xdffff000 - h_vaddr la - h_size la)) eqn:Elast.
  { apply andb_true_iff in Elast as [_ Hle%Z.leb_le].
    apply wp_ret. split; [done|]. left. exists l, []. rewrite app_nil_r. cbn [fst snd].
    split_and!; [done|done|lia|]. unfold hole, VM_VMALLOC_START, VM_VMALLOC_END.
    split_and!; [lia|lia| |intros q Hq; by apply elem_of_nil in Hq].
    intros q Hq. specialize (Hlast q Hq). lia. }
  assert (Hno2 : 0xdffff000 - h_end la < sz).
  { apply andb_false_iff in Elast as [?%Z.ltb_ge|?%Z.leb_gt]; lia. }
  apply wp_ret. split; [done|]. right. split; [done|].
  intros l1 l2 v El' (Hv1 & Hv2 & Hh1 & Hh2). unfold VM_VMALLOC_START, VM_VMALLOC_END in *.
  destruct l2 as [|y l2].
  - rewrite app_nil_r in El'. subst l1. specialize (Hh1 _ Hy). lia.
  - destruct l1 as [|z l1 _] using rev_ind.
    + assert (Ey : hd0 0 l = y) by by rewrite El'. specialize (Hh2 y ltac:(in_tac)).
      rewrite <- Ey in Hh2. lia.
    + rewrite <- app_assoc in El'. cbn [app] in El'. specialize (Hr l1 z y l2 El' ltac:(cbn; lia)).
      specialize (Hh1 z ltac:(in_tac)). specialize (Hh2 y ltac:(in_tac)). lia.
Qed.
End search.

Lemma ld_hdr_inv p s h s' : ld_hdr p s = Ok (h, s') -> s' = s /\ va_regs s !! p = Some h.
Proof. unfold ld_hdr. destruct (va_regs s !! p); [|done]. destruct (p =? 0); [done|]. by intros [= <- <-]. Qed.

(** A hole is answered where the area or a used range ends. *)
Lemma find_hole_answer s sz r s' : _find_hole_in_as sz s = Ok (r, s') ->
  r.1 = 0 \/ r.1 = VM_VMALLOC_START \/ exists p h, va_regs s !! p = Some h /\ r.1 = h_end h.
Proof.
  unfold _find_hole_in_as. intros (u & s0 & [= <- <-] & (f & s1 & [-> _]%ld_hdr_inv & E)%bind_inv)%bind_inv.
  destruct (_ && _); [injection E as <- <-; cbn; tauto|].
  apply bind_inv in E as (n & s1 & [= <- <-] & E). apply bind_inv in E as (x & s1 & El & E).
  apply (loop_answers _ (fun _ s' => s' = s) (fun x s' => s' = s /\ match x with
    | Some v => exists p h, va_regs s !! p = Some h /\ v.1 = h_end h | None => True end)) in El as [-> Hx]; [|clear|done].
  - destruct x as [v|]; [injection E as <- <-; tauto|].
    apply bind_inv in E as (h & s1 & [-> Hh]%ld_hdr_inv & E). destruct (_ && _); injection E as <- <-; cbn; eauto 6.
  - intros a s0 x s' -> E. apply bind_inv in E as (t & s1 & [-> Ht]%ld_hdr_inv & E).
    destruct (h_next t =? 0); [by injection E as <- <-|].
    apply bind_inv in E as (nx & s1 & [-> _]%ld_hdr_inv & E).
    destruct (_ <=? _); injection E as <- <-; [|done]. split; [done|]. by exists a, t.
Qed.
End spec.

(** ** Linking and unlinking *)

(** Ranges and types; links are not looked at. *)
Definition hg (m : gmap Z region_hdr) (p : Z) : option (Z * Z * vmalloc_req) :=
  (fun h => (h_vaddr h, h_size h, h_type h)) <$> m !! p.

Lemma hg_insert m p h h' q : m !! p = Some h -> h_vaddr h' = h_vaddr h -> h_size h' = h_size h ->
  h_type h' = h_type h -> hg (<[p := h']> m) q = hg m q.
Proof.
  intros E E1 E2 E3. unfold hg. rewrite lookup_insert. case_decide; [|done]. subst. rewrite E. cbn. congruence.
Qed.

Lemma hg_ranges m m' p : hg m' p = hg m p -> hlo m' p = hlo m p /\ hhi m' p = hhi m p.
Proof. unfold hg, hlo, hhi. destruct (m !! p), (m' !! p); cbn; try done. intros [= -> -> _]. done. Qed.

Lemma va_sorted_ext m m' l : (forall p, p ∈ l -> hg m' p = hg m p) ->
  StronglySorted (fun p q => hhi m p <= hlo m q) l -> StronglySorted (fun p q => hhi m' p <= hlo m' q) l.
Proof.
  intros Hg Hs. induction Hs as [|p l Hs IH Hall]; constructor.
  - apply IH. intros q Hq. apply Hg. by right.
  - rewrite Forall_forall in Hall |- *. intros q Hq.
    destruct (hg_ranges m m' p) as [_ ->]; [apply Hg; by left|].
    destruct (hg_ranges m m' q) as [-> _]; [apply Hg; by right|]. by apply Hall.
Qed.

Section rules.
Context {H : Type} `{!Allocator H}.
Implicit Types (s : vma H) (Q : unit -> vma H -> Prop).

Lemma wp_upd_hdr s p f h Q : va_regs s !! p = Some h -> p <> 0 ->
  Q tt (set_va_regs (<[p := f h]> (va_regs s)) s) -> wp (upd_hdr p f) Q s.
Proof. intros E Hp HQ. unfold upd_hdr. apply wp_bind. by eapply wp_ld_hdr. Qed.

Lemma wp_upd_ureg s f Q : Q tt (set_ureg (f (ureg s)) s) -> wp (upd_ureg f) Q s.
Proof. intros HQ. exact HQ. Qed.
End rules.

Ltac hlk := cbn [va_regs set_va_regs set_ureg va_heap va_mach];
  repeat first [rewrite lookup_insert_eq | rewrite lookup_insert_ne by congruence];
  first [eassumption | reflexivity].
Ltac hstep :=
  match goal with
  | |- wp (bind_ _ _) _ _ => apply wp_bind
  | |- wp (ret_ _) _ _ => apply wp_ret
  | |- wp (get_ _) _ _ => apply wp_get
  | |- wp (ld_hdr _) _ _ => eapply wp_ld_hdr; [hlk|done|]
  | |- wp (upd_hdr _ _) _ _ => eapply wp_upd_hdr; [hlk|done|]
  | |- wp (upd_ureg _) _ _ => apply wp_upd_ureg
  end.
Ltac hrun := repeat (hstep; cbv beta).
Ltac hg_tac :=
  intros; cbn [va_regs set_va_regs set_ureg];
  repeat first [ reflexivity | erewrite hg_insert; [|hlk|reflexivity|reflexivity|reflexivity] ].
Ltac hlinks_tac :=
  unfold links; cbn [va_regs set_va_regs set_ureg];
  rewrite ?lookup_insert; repeat case_decide; subst; try congruence;
  repeat match goal with H : ?m !! ?p = Some _ |- _ => rewrite H end; cbn; try congruence;
  try (match goal with |- context [_ <$> ?m !! ?q] => destruct (m !! q); reflexivity end).

(** What list operations keep. *)
Record va_same {H} (s s' : vma H) : Prop := {
  vs_hg : forall q, hg (va_regs s') q = hg (va_regs s) q;
  vs_heap : va_heap s' = va_heap s;
  vs_mach : va_mach s' = va_mach s;
}.

Section insert.
Context {H : Type} `{!Allocator H}.
Context (s : vma H) (l1 l2 : list Z) (p : Z) (h : region_hdr).
Hypotheses (Hl : va_list s (l1 ++ l2)) (Hp : p ∉ l1 ++ l2) (Hp0 : p <> 0)
  (Hh : va_regs s !! p = Some h) (Hsz : 0 < h_size h) (Hhole : hole s l1 l2 (h_vaddr h) (h_size h)).

Lemma va_inserted (s' : vma H) :
  linked_between (va_regs s) (va_regs s') (last0 0 l1) p (hd0 0 l2) (l1 ++ l2) ->
  (forall q, hg (va_regs s') q = hg (va_regs s) q) ->
  u_first (ureg s') = hd0 p l1 -> u_last (ureg s') = last0 p l2 -> va_list s' (l1 ++ p :: l2).
Proof.
  intros Hlk Hg Hf Hla. destruct Hhole as (H1 & H2 & H3 & H4). split.
  - rewrite hd0_app, last0_app. done.
  - eapply dlist_insert; [apply Hl|done|done|done].
  - intros q hq Hq Hhq. pose proof (Hg q) as E. unfold hg in E. rewrite Hhq in E.
    destruct (va_regs s !! q) as [h0|] eqn:Eq; [|done]. cbn in E. injection E as -> -> _.
    destruct (decide (q = p)) as [->|Hne]; [simplify_eq; done|].
    apply (vl_rg _ _ Hl q h0); [in_tac|done].
  - apply (va_sorted_ext (va_regs s)); [intros q _; apply Hg|].
    assert (Elo : hlo (va_regs s) p = h_vaddr h /\ hhi (va_regs s) p = h_vaddr h + h_size h).
    { unfold hlo, hhi. by rewrite Hh. }
    destruct Elo as [Elo Ehi].
    pose proof (vl_sorted _ _ Hl) as Hs. rewrite !StronglySorted_app in Hs |- *.
    destruct Hs as (H12 & Hs1 & Hs2). split_and!; [|done|].
    + intros x y Hx [->|Hy]%elem_of_cons; [rewrite Elo; by apply H3|by apply H12].
    + constructor; [done|]. apply Forall_forall. intros y Hy. rewrite Ehi. by apply H4.
Qed.

Lemma member_ne q : q ∈ l1 ++ l2 -> q <> p /\ q <> 0 /\ exists hq, va_regs s !! q = Some hq.
Proof.
  intros Hq. destruct (vl_hdr _ _ _ Hl Hq) as (hq & ? & ? & _). split; [by intros ->|eauto].
Qed.

(** What the branches of the code test, on the split of the list. *)
Lemma insert_split :
  (l1 = [] -> last0 0 l1 = 0 /\ hd0 0 (l1 ++ l2) = hd0 0 l2) /\ (l2 = [] -> hd0 0 l2 = 0 /\ last0 0 (l1 ++ l2) = last0 0 l1) /\
  (l1 <> [] -> last0 0 l1 ∈ l1 ++ l2 /\ hd0 0 (l1 ++ l2) <> 0) /\ (l2 <> [] -> hd0 0 l2 ∈ l1 ++ l2).
Proof.
  split_and!.
  - by intros ->.
  - intros ->. by rewrite app_nil_r.
  - intros Hne. split; [apply elem_of_app; left; by apply last0_in|].
    assert (Hin : hd0 0 (l1 ++ l2) ∈ l1 ++ l2) by (apply hd0_in; by destruct l1). by destruct (member_ne _ Hin) as (_ & ? & _).
  - intros Hne. apply elem_of_app. right. by apply hd0_in.
Qed.

Lemma insert_between_ne : l1 <> [] -> l2 <> [] ->
  last0 0 l1 <> hd0 0 l2 /\ last0 0 (l1 ++ l2) <> last0 0 l1 /\
  forall hx, va_regs s !! last0 0 l1 = Some hx -> h_next hx = hd0 0 l2.
Proof.
  intros Hne1 Hne2. destruct (vl_dl _ _ Hl) as [Hseg Hnd]. apply NoDup_app in Hnd as (_ & Hd & _). split_and!.
  - intros E. apply (Hd (last0 0 l1)); [by apply last0_in|]. rewrite E. by apply hd0_in.
  - intros E. apply (Hd (last0 0 l1)); [by apply last0_in|]. rewrite <- E, last0_app. by apply last0_in.
  - intros hx Hhx. clear Hd. destruct l1 as [|z k _] using rev_ind; [done|]. rewrite last0_snoc in *. rewrite <- app_assoc in Hseg.
    apply dseg_app in Hseg as [_ (_ & Hlk & _)]. rewrite (links_lookup _ _ _ Hhx) in Hlk. by injection Hlk as _ E.
Qed.

Ltac inserted_case Ef El :=
  split; [|split; [hg_tac|done|done]]; apply va_inserted; try hg_tac;
  match goal with
  | |- linked_between _ _ _ _ _ _ => split; [hlinks_tac|]; intros q Hq; destruct (member_ne q Hq) as (? & ? & _); hlinks_tac
  | |- _ => cbn; rewrite ?Ef, ?El, ?hd0_app, ?last0_app; by destruct l1, l2
  end.

Lemma va_insert_wp : wp (va_insert_region (last0 0 l1) p) (fun _ s' =>
  va_list s' (l1 ++ p :: l2) /\ va_same s s') s.
Proof.
  destruct (vl_ends _ _ Hl) as [Ef El]. unfold va_insert_region. hrun. rewrite Ef, El.
  destruct insert_split as (Exl & Eyl & Hx & Hy).
  destruct (decide (l1 = [])) as [E1|Hne1]; destruct (decide (l2 = [])) as [E2|Hne2];
    try destruct (Exl E1) as [Ex Ey]; try destruct (Eyl E2) as [Ez Ew];
    try (destruct (Hx Hne1) as [Hxm Hf0]; destruct (member_ne _ Hxm) as (Hxp & Hx0 & hx & Hhx));
    try destruct (member_ne _ (Hy Hne2)) as (Hyp & Hy0 & hy & Hhy).
  - rewrite Ey, Ez. cbn [Z.eqb]. hrun. inserted_case Ef El.
  - rewrite Ex, Ey, (proj2 (Z.eqb_neq _ 0) Hy0). cbn [Z.eqb]. hrun. inserted_case Ef El.
  - rewrite Ew, (proj2 (Z.eqb_neq _ 0) Hf0), (proj2 (Z.eqb_neq _ 0) Hx0), Z.eqb_refl. hrun. inserted_case Ef El.
  - destruct (insert_between_ne Hne1 Hne2) as (Hxy & Hne & Hxn). specialize (Hxn hx Hhx).
    rewrite (proj2 (Z.eqb_neq _ 0) Hf0), (proj2 (Z.eqb_neq _ 0) Hx0), (proj2 (Z.eqb_neq _ _) Hne). hrun.
    rewrite Hxn. hrun. inserted_case Ef El.
Qed.
End insert.

Section remove.
Context {H : Type} `{!Allocator H}.
Context (s : vma H) (l1 l2 : list Z) (p : Z) (h : region_hdr).
Hypotheses (Hl : va_list s (l1 ++ p :: l2)) (Hh : va_regs s !! p = Some h).

(** Start addresses identify descriptors. *)
Lemma starts_differ q hq : q ∈ l1 ++ l2 -> va_regs s !! q = Some hq -> h_vaddr hq <> h_vaddr h.
Proof.
  intros Hq Eq. assert (Hpl : p ∈ l1 ++ p :: l2) by in_tac. assert (Hql : q ∈ l1 ++ p :: l2) by in_tac.
  destruct (vl_at _ _ _ _ Hl) as [Hs1 Hs2].
  destruct (vl_hdr _ _ _ Hl Hpl) as (h' & Eh & _ & Elo & Ehi & Ee & _ & Hpos & _). simplify_eq.
  destruct (vl_hdr _ _ _ Hl Hql) as (hq' & Ehq & _ & Eloq & Ehiq & Eeq & _ & Hposq & _). simplify_eq.
  apply elem_of_app in Hq as [Hq|Hq]; [specialize (Hs1 _ Hq)|specialize (Hs2 _ Hq)]; lia.
Qed.

Lemma first_with_start : first_such (va_regs s) (fun _ h' => h_vaddr h' =? h_vaddr h) (l1 ++ p :: l2) = p.
Proof.
  destruct (vl_dl _ _ Hl) as [Hd Hnd]. pose proof (dseg_sseg _ _ _ _ Hd) as Hss.
  destruct (first_such_split _ (fun _ h' => h_vaddr h' =? h_vaddr h) _ _ Hss)
    as [[_ Hall]|(k1 & q & k2 & n & Ek & Eq & _ & Hn & Ht & _)].
  - specialize (Hall p h ltac:(in_tac) Hh). cbn in Hall. lia.
  - rewrite Eq. destruct (decide (q = p)) as [|Hne]; [done|]. exfalso.
    assert (Hq : q ∈ l1 ++ l2) by (apply (elem_of_skip _ _ p Hnd); rewrite Ek; in_tac).
    apply (starts_differ q n Hq Hn). apply Z.eqb_eq, Ht.
Qed.

Lemma va_removed (s' : vma H) :
  unlinked_between (va_regs s) (va_regs s') (last0 0 l1) (hd0 0 l2) (l1 ++ l2) ->
  (forall q, hg (va_regs s') q = hg (va_regs s) q) ->
  u_first (ureg s') = hd0 0 (l1 ++ l2) -> u_last (ureg s') = last0 0 (l1 ++ l2) -> va_list s' (l1 ++ l2).
Proof.
  intros Hu Hg Hf Hla. split; [done| | |].
  - eapply dlist_remove; [apply Hl|done].
  - intros q hq Hq Hhq. pose proof (Hg q) as E. unfold hg in E. rewrite Hhq in E.
    destruct (va_regs s !! q) as [h0|] eqn:Eq; [|done]. cbn in E. injection E as -> -> _.
    apply (vl_rg _ _ Hl q h0); [in_tac|done].
  - apply (va_sorted_ext (va_regs s)); [intros q _; apply Hg|].
    pose proof (vl_sorted _ _ Hl) as Hs. rewrite !StronglySorted_app in Hs |- *.
    destruct Hs as (H12 & H1 & H2). apply StronglySorted_inv in H2 as [H2 _]. split_and!; [|done|done].
    intros x y Hx Hy. apply H12; [done|by right].
Qed.

Lemma rest_hdr q : q ∈ l1 ++ l2 -> q <> p /\ q <> 0 /\ exists hq, va_regs s !! q = Some hq.
Proof.
  intros Hq. assert (Hq' : q ∈ l1 ++ p :: l2) by in_tac. destruct (vl_dl _ _ Hl) as [_ Hnd].
  destruct (vl_hdr _ _ _ Hl Hq') as (hq & ? & ? & _). split_and!; [|done|eauto].
  intros ->. by apply NoDup_skip in Hnd as [? _].
Qed.

(** The links of [p] and the ends of the list around it. *)
Lemma hdr_around : p <> 0 /\ h_prev h = last0 0 l1 /\ h_next h = hd0 0 l2 /\
  u_first (ureg s) = hd0 p l1 /\ u_last (ureg s) = last0 p l2 /\ NoDup (l1 ++ l2) /\
  (l1 <> [] -> p <> hd0 p l1) /\ (l2 <> [] -> p <> last0 p l2).
Proof.
  destruct (vl_ends _ _ Hl) as [Ef El]. pose proof (vl_dl _ _ Hl) as [Hseg Hnd].
  apply dseg_app in Hseg as [_ (_ & Hlk & _)]. rewrite (links_lookup _ _ _ Hh) in Hlk.
  injection Hlk as Hpv Hnx. rewrite hd0_app in Ef. rewrite last0_app in El. split_and!; try done.
  - eapply dseg_nonzero; [apply Hl|in_tac].
  - by apply NoDup_skip in Hnd as [_ ?].
  - intros Hne E. destruct (rest_hdr (hd0 p l1)) as (N & _); [apply elem_of_app; left; by apply hd0_in|congruence].
  - intros Hne E. destruct (rest_hdr (last0 p l2)) as (N & _); [apply elem_of_app; right; by apply last0_in|congruence].
Qed.

Ltac removed_case Ef El :=
  split_and!; [done| |split; [hg_tac|done|done]|cbn; rewrite ?lookup_insert_ne by congruence; eauto];
  apply va_removed; try hg_tac;
  match goal with
  | |- unlinked_between _ _ _ _ _ => intros q Hq; destruct (rest_hdr q Hq) as (? & ? & ?); hlinks_tac
  | |- _ => cbn; rewrite ?Ef, ?El, ?hd0_app, ?last0_app; by destruct l1, l2
  end.

Lemma va_remove_wp : wp (va_remove_region (h_vaddr h)) (fun r s' =>
  r = p /\ va_list s' (l1 ++ l2) /\ va_same s s' /\ exists h', va_regs s' !! p = Some h') s.
Proof.
  destruct hdr_around as (Hp0 & Hpv & Hnx & Ef & El & Hnd2 & Hpf & Hpl).
  unfold va_remove_region. hrun.
  eapply wp_lift; [rewrite (proj1 (vl_ends _ _ Hl)); apply walk_dlist, Hl|].
  rewrite first_with_start, (proj2 (Z.eqb_neq p 0) Hp0). cbn [negb]. hrun. rewrite Hpv, Hnx, Ef, El.
  assert (Hx : l1 <> [] -> last0 0 l1 ∈ l1 ++ l2) by (intros; apply elem_of_app; left; by apply last0_in).
  assert (Hy : l2 <> [] -> hd0 0 l2 ∈ l1 ++ l2) by (intros; apply elem_of_app; right; by apply hd0_in).
  assert (Exl : l1 = [] -> last0 0 l1 = 0 /\ hd0 p l1 = p) by by intros ->.
  assert (Eyl : l2 = [] -> hd0 0 l2 = 0 /\ last0 p l2 = p) by by intros ->.
  destruct (decide (l1 = [])) as [E1|Hne1]; destruct (decide (l2 = [])) as [E2|Hne2];
    try destruct (Exl E1) as [Ex Ez]; try destruct (Eyl E2) as [Ey Ew];
    try destruct (rest_hdr _ (Hx Hne1)) as (Hxp & Hx0 & hx & Hhx);
    try destruct (rest_hdr _ (Hy Hne2)) as (Hyp & Hy0 & hy & Hhy).
  - rewrite Ez, Z.eqb_refl, Ey. cbn [negb Z.eqb]. hrun. removed_case Ef El.
  - rewrite Ez, Z.eqb_refl, (proj2 (Z.eqb_neq _ 0) Hy0). cbn [negb]. hrun. removed_case Ef El.
  - rewrite (proj2 (Z.eqb_neq _ _) (Hpf Hne1)), Ew, Z.eqb_refl. hrun. removed_case Ef El.
  - assert (Hxy : last0 0 l1 <> hd0 0 l2).
    { intros E. apply NoDup_app in Hnd2 as (_ & Hd & _). apply (Hd (last0 0 l1)); [by apply last0_in|].
      rewrite E. by apply hd0_in. }
    rewrite (proj2 (Z.eqb_neq _ _) (Hpf Hne1)), (proj2 (Z.eqb_neq _ _) (Hpl Hne2)). hrun. removed_case Ef El.
Qed.
End remove.

(** ** Properties *)

(** The search of [vmalloc] over a non-empty list is exact: it always
    returns; an address it answers starts a range of the vmalloc area that
    meets no used range, between the descriptor it names and the next one;
    and it answers 0 only when no range of that size is free. *)
Lemma find_hole_exact {H} `{!Allocator H} (s : vma H) l sz :
  va_list s l -> l <> [] -> 0 < sz < W32 ->
  exists v prev, _find_hole_in_as sz s = Ok (v, prev, s) /\
    ((v <> 0 /\ exists l1 l2, l = l1 ++ l2 /\ prev = last0 0 l1 /\ hole s l1 l2 v sz) \/
     (v = 0 /\ no_hole s l sz)).
Proof.
  intros Hl Hne Hsz. destruct (wp_run _ _ _ (find_hole_wp s l sz Hl Hsz Hne)) as ([v prev] & s' & E & -> & Hr).
  cbn in Hr. exists v, prev. split; [done|].
  destruct Hr as [(l1 & l2 & ? & ? & ? & ?)|?]; [left|by right]. split; [done|]. exists l1, l2. done.
Qed.

(** A concrete area: two ranges with a hole of three pages between them; the
    descriptor of a third range is allocated but not linked. *)
Definition demo_hdrs : gmap Z region_hdr := list_to_map
  [(0x100, mkHdr 0xd0000000 0x2000 MAPPED 0 0x200); (0x200, mkHdr 0xd0005000 0x1000 PHY_CONT 0x100 0)].

Definition demo_vma : vma malloc_state := mkVma ms_boot demo_hdrs (mkUreg 0x100 0x200 3) demo_machine.

#[local] Instance demo_alloc : Allocator malloc_state := kmalloc_allocator 0xc0400000 demo_raw demo_bytes.

Lemma demo_va_list hp mch : va_list (mkVma hp demo_hdrs (mkUreg 0x100 0x200 3) mch : vma malloc_state) [0x100; 0x200].
Proof.
  split.
  - done.
  - split; [cbn; split_and!; try done; vm_compute; reflexivity|].
    apply (bool_decide_unpack _). vm_compute. done.
  - intros p h Hp Hh. unfold VM_VMALLOC_START, VM_VMALLOC_END. cbn [va_regs] in Hh.
    apply elem_of_cons in Hp as [->|Hp]; [vm_compute in Hh; simplify_eq; cbn; lia|].
    apply list_elem_of_singleton in Hp as ->. vm_compute in Hh. simplify_eq. cbn. lia.
  - repeat constructor; vm_compute; discriminate.
Qed.

Lemma find_hole_exact_witness : exists v prev, _find_hole_in_as 0x3000 demo_vma = Ok (v, prev, demo_vma) /\
  v = 0xd0002000 /\ prev = 0x100.
Proof.
  destruct (find_hole_exact demo_vma [0x100; 0x200] 0x3000 (demo_va_list _ _) ltac:(discriminate) ltac:(lia))
    as (v & prev & E & _).
  exists v, prev. split; [exact E|]. vm_compute in E. by injection E as <- <-.
Defined.

(** The descriptors of the list are blocks in use of the heap. *)
Definition hdrs_owned (A : gmap Z Z) (l : list Z) : Prop := forall p, p ∈ l -> is_Some (A !! p).

(** The physical memory [vmalloc] asks for. *)
Definition vmalloc_map (ty : vmalloc_req) (v sz : Z) : M machine unit :=
  match ty with
  | MAPPED => vmm_cont_map v sz VMALLOC_RW false
  | PHY_CONT => vmm_cont_map v sz VMALLOC_RW true
  | ON_DEMAND => vmm_void_map v sz VMALLOC_RW
  end.

Lemma page_align_spec n : 0 < n <= 0xfffff000 -> n <= page_align n < n + 0x1000 /\ (0x1000 | page_align n).
Proof.
  intros Hn. unfold page_align, PAGE_SIZE. pose proof (Z.mod_pos_bound n 4096 ltac:(lia)).
  pose proof (Z.div_mod n 4096 ltac:(lia)).
  destruct (Z.ltb_spec 0 (n mod 4096)).
  - rewrite (w32_small (n - _)), w32_small by lia. split; [lia|]. exists (n / 4096 + 1). lia.
  - split; [lia|]. exists (n / 4096). lia.
Qed.

Section vmalloc.
Context {H : Type} `{!Allocator H}.
Context (s : vma H) (l1 l2 : list Z) (A : gmap Z Z) (v sz : Z) (ty : vmalloc_req) (m' : machine).
Hypotheses (Hl : va_list s (l1 ++ l2)) (Hown : hdrs_owned A (l1 ++ l2)) (HA : al_rep (va_heap s) A)
  (Hroom : al_room (va_heap s) SIZEOF_REGION_HDR) (Hhole : hole s l1 l2 v sz) (Hsz : 0 < sz)
  (Hmap : vmalloc_map ty v sz (va_mach s) = Ok (tt, m')).

(** Mapping a hole, allocating its descriptor and linking it. *)
Lemma vmalloc_tail_wp : wp
  (va_on_mach (vmalloc_map ty v sz) ;;;
   do new_region <- va_on_heap (al_malloc SIZEOF_REGION_HDR);
   mod_ (fun s => set_va_regs (<[new_region := mkHdr v sz ty 0 0]> (va_regs s)) s) ;;;
   va_insert_region (last0 0 l1) new_region ;;;
   ret_ v)
  (fun r s' => r = v /\ exists p z, p ∉ l1 ++ l2 /\ va_list s' (l1 ++ p :: l2) /\
    (forall q, hg (va_regs s') q = if decide (q = p) then Some (v, sz, ty) else hg (va_regs s) q) /\
    va_mach s' = m' /\ al_malloc SIZEOF_REGION_HDR (va_heap s) = Ok (p, va_heap s') /\
    al_rep (va_heap s') (<[p := z]> A)) s.
Proof.
  apply wp_bind. unfold va_on_mach at 1, zoom at 1, wp at 1. rewrite Hmap.
  destruct (wp_run _ _ _ (al_malloc_wp (va_heap s) A SIZEOF_REGION_HDR HA ltac:(unfold SIZEOF_REGION_HDR; lia) Hroom))
    as (p & h' & E & z & Hp0 & HpA & _ & Hrep).
  apply wp_bind. unfold va_on_heap, zoom, wp at 1. cbn [va_heap set_va_mach]. rewrite E.
  apply wp_bind, wp_mod. set (s1 := set_va_regs _ _).
  assert (Hpl : p ∉ l1 ++ l2) by (intros Hp; destruct (Hown p Hp) as [? ?]; congruence).
  assert (Hne : forall q, q ∈ l1 ++ l2 -> va_regs s1 !! q = va_regs s !! q).
  { intros q Hq. cbn. apply lookup_insert_ne. intros ->. done. }
  assert (Hhg : forall q, q ∈ l1 ++ l2 -> hg (va_regs s1) q = hg (va_regs s) q).
  { intros q Hq. unfold hg. by rewrite Hne. }
  assert (Hl1 : va_list s1 (l1 ++ l2)).
  { split; [apply Hl| | |].
    - eapply dlist_frame; [|apply Hl]. intros q Hq. unfold links. by rewrite Hne.
    - intros q h Hq Hh. rewrite Hne in Hh by done. by apply (vl_rg _ _ Hl q).
    - eapply va_sorted_ext; [exact Hhg|apply Hl]. }
  assert (Hhole1 : hole s1 l1 l2 v sz).
  { destruct Hhole as (? & ? & H3 & H4). split_and!; [done|done| |].
    - intros q Hq. destruct (hg_ranges (va_regs s) (va_regs s1) q) as [_ ->]; [apply Hhg; in_tac|by apply H3].
    - intros q Hq. destruct (hg_ranges (va_regs s) (va_regs s1) q) as [-> _]; [apply Hhg; in_tac|by apply H4]. }
  apply wp_bind. eapply wp_mono.
  { apply (va_insert_wp s1 l1 l2 p (mkHdr v sz ty 0 0) Hl1 Hpl Hp0); [apply lookup_insert_eq|done|exact Hhole1]. }
  intros [] s' [Hl' Hs']. apply wp_ret. split; [done|]. exists p, z. split_and!; [done|done| | | |].
  - intros q. rewrite (vs_hg _ _ Hs'). unfold hg. cbn. rewrite lookup_insert. case_decide; [by rewrite decide_True|].
    by rewrite decide_False.
  - by rewrite (vs_mach _ _ Hs').
  - by rewrite (vs_heap _ _ Hs').
  - by rewrite (vs_heap _ _ Hs').
Qed.
End vmalloc.

(** [vmalloc] when the area is not empty. *)
Lemma vmalloc_run {H} `{!Allocator H} (s : vma H) l A n ty v prev m' :
  va_list s l -> l <> [] -> hdrs_owned A l -> al_rep (va_heap s) A ->
  al_room (va_heap s) SIZEOF_REGION_HDR -> 0 < n <= 0xfffff000 ->
  _find_hole_in_as (page_align n) s = Ok (v, prev, s) -> v <> 0 ->
  vmalloc_map ty v (page_align n) (va_mach s) = Ok (tt, m') ->
  exists s' l1 p l2 z, vmalloc n ty s = Ok (v, s') /\ l = l1 ++ l2 /\ p ∉ l /\
    hole s l1 l2 v (page_align n) /\ n <= page_align n /\ (0x1000 | page_align n) /\
    va_list s' (l1 ++ p :: l2) /\ va_mach s' = m' /\
    al_malloc SIZEOF_REGION_HDR (va_heap s) = Ok (p, va_heap s') /\ al_rep (va_heap s') (<[p := z]> A) /\
    forall q, hg (va_regs s') q = if decide (q = p) then Some (v, page_align n, ty) else hg (va_regs s) q.
Proof.
  intros Hl Hne Hown HA Hroom Hn Ef Hv Hmap. destruct (page_align_spec n Hn) as [Hpa Hdv].
  assert (Hlt : page_align n < W32) by (destruct Hdv as [k Hk]; lia).
  destruct (wp_run _ _ _ (find_hole_wp s l (page_align n) Hl ltac:(split; [lia|exact Hlt]) Hne)) as ([v' prev'] & s0 & Ef' & _ & Hr).
  rewrite Ef in Ef'. injection Ef' as <- <- <-. cbn in Hr.
  destruct Hr as [(l1 & l2 & -> & <- & _ & Hh)|[? _]]; [|done].
  destruct (wp_run _ _ _ (vmalloc_tail_wp s l1 l2 A v _ ty m' Hl Hown HA Hroom Hh ltac:(lia) Hmap))
    as (r & s' & E & -> & p & z & ? & ? & ? & ? & ? & ?).
  exists s', l1, p, l2, z. split_and!; try done; [|lia].
  assert (Hf0 : u_first (ureg s) <> 0).
  { destruct (vl_ends _ _ Hl) as [-> _]. destruct (vl_hdr _ _ _ Hl (hd0_in 0 _ Hne)) as (? & _ & ? & _). done. }
  rewrite <- E. unfold vmalloc, bind_ at 1, get_. rewrite (proj2 (Z.eqb_neq _ 0) Hf0).
  unfold bind_ at 1. unfold bind_ at 1. rewrite Ef. cbn [fst]. rewrite (proj2 (Z.eqb_neq v 0)) by done.
  cbn [ret_]. by destruct ty.
Qed.

(** [vmalloc] hands out a fresh range: it takes the hole found by the
    search, at least as large as the request and a whole number of pages,
    maps it, and records it; the used ranges stay disjoint and in order, and
    no other range changes. *)
Lemma vmalloc_takes_hole {H} `{!Allocator H} (s : vma H) l A n ty v prev m' :
  va_list s l -> l <> [] -> hdrs_owned A l -> al_rep (va_heap s) A ->
  al_room (va_heap s) SIZEOF_REGION_HDR -> 0 < n <= 0xfffff000 ->
  _find_hole_in_as (page_align n) s = Ok (v, prev, s) -> v <> 0 ->
  vmalloc_map ty v (page_align n) (va_mach s) = Ok (tt, m') ->
  exists s' l1 p l2 z, vmalloc n ty s = Ok (v, s') /\ l = l1 ++ l2 /\ p ∉ l /\
    hole s l1 l2 v (page_align n) /\ n <= page_align n /\ (0x1000 | page_align n) /\
    va_list s' (l1 ++ p :: l2) /\ va_mach s' = m' /\ al_rep (va_heap s') (<[p := z]> A) /\
    forall q, hg (va_regs s') q = if decide (q = p) then Some (v, page_align n, ty) else hg (va_regs s) q.
Proof.
  intros Hl Hne Hown HA Hroom Hn Ef Hv Hmap.
  destruct (vmalloc_run s l A n ty v prev m' Hl Hne Hown HA Hroom Hn Ef Hv Hmap)
    as (s' & l1 & p & l2 & z & ? & ? & ? & ? & ? & ? & ? & ? & _ & ? & ?).
  exists s', l1, p, l2, z. split_and!; done.
Qed.

(** A heap with one block in use, which holds the descriptor of the first two
    pages of the area. *)
Definition boot_block : Z * malloc_state := Eval vm_compute in
  after (0, ms_boot) (kmalloc 0xc0400000 demo_raw 20 ms_boot).

Lemma boot_block_rep : exists z, rep 0xc0400000 boot_block.2 {[ boot_block.1 := z ]}.
Proof.
  destruct (wp_run _ _ _ (kmalloc_boot_wp 0xc0400000 demo_raw 20 ltac:(unfold kernel_end_ok; lia) ltac:(lia)
    ltac:(vm_compute; discriminate))) as (p & s & E & z & _ & _ & Hr).
  exists z. assert (E' : Ok (p, s) = Ok boot_block) by (rewrite <- E; vm_compute; reflexivity).
  assert (E2 : (p, s) = boot_block) by congruence. rewrite <- E2. exact Hr.
Qed.

Definition demo_one : vma malloc_state :=
  mkVma boot_block.2 {[ boot_block.1 := mkHdr 0xd0000000 0x2000 MAPPED 0 0 ]} (mkUreg boot_block.1 boot_block.1 2) demo_machine.

Lemma demo_one_list : va_list demo_one [boot_block.1].
Proof.
  split.
  - done.
  - split; [cbn; split_and!; try done; vm_compute; reflexivity|].
    apply (bool_decide_unpack _). vm_compute. done.
  - intros p h Hp%list_elem_of_singleton Hh. unfold VM_VMALLOC_START, VM_VMALLOC_END. subst p.
    vm_compute in Hh. simplify_eq. cbn. lia.
  - repeat constructor.
Qed.

Lemma vmalloc_takes_hole_witness : exists s' : vma malloc_state, vmalloc 100 ON_DEMAND demo_one = Ok (0xd0002000, s') /\
  exists p, va_list s' [boot_block.1; p].
Proof.
  destruct boot_block_rep as [z Hr].
  assert (Hmap : exists m', vmalloc_map ON_DEMAND 0xd0002000 (page_align 100) (va_mach demo_one) = Ok (tt, m'))
    by (eexists; vm_compute; reflexivity).
  destruct Hmap as [m' Hmap].
  destruct (vmalloc_takes_hole demo_one [boot_block.1] {[boot_block.1 := z]} 100 ON_DEMAND 0xd0002000 boot_block.1 m'
    demo_one_list ltac:(discriminate)) as (s' & l1 & p & l2 & zp & E & El & Hp & Hh & _ & _ & Hl & _).
  - intros p Hp%list_elem_of_singleton. subst. exists z. apply lookup_singleton_eq.
  - exact Hr.
  - vm_compute. discriminate.
  - lia.
  - vm_compute. reflexivity.
  - discriminate.
  - exact Hmap.
  - exists s'. split; [exact E|]. exists p.
    destruct l1 as [|x l1].
    + cbn in El. subst l2. destruct Hh as (_ & _ & _ & H4). exfalso.
      specialize (H4 boot_block.1 ltac:(by left)). vm_compute in H4. by apply H4.
    + injection El as <- [-> ->]%symmetry%app_eq_nil. exact Hl.
Defined.

(** [vfree] of a range in use. *)
Lemma vfree_run {H} `{!Allocator H} (s : vma H) l1 p l2 h A z m' :
  va_list s (l1 ++ p :: l2) -> va_regs s !! p = Some h -> al_rep (va_heap s) A -> A !! p = Some z ->
  vmm_cont_unmap (h_vaddr h) (h_size h) (bool_decide (h_type h = PHY_CONT)) (va_mach s) = Ok (tt, m') ->
  exists s', vfree (h_vaddr h) s = Ok (tt, s') /\ va_list s' (l1 ++ l2) /\ va_regs s' !! p = None /\
    va_mach s' = m' /\ al_free p (va_heap s) = Ok (tt, va_heap s') /\ al_rep (va_heap s') (delete p A) /\
    forall q, q <> p -> hg (va_regs s') q = hg (va_regs s) q.
Proof.
  intros Hl Hh HA Hz Hun. assert (Hp0 : p <> 0) by (eapply dseg_nonzero; [apply Hl|in_tac]).
  destruct (wp_run _ _ _ (va_remove_wp s l1 l2 p h Hl Hh)) as (r & s1 & E & -> & Hl1 & Hs1 & h1 & Hh1).
  assert (Eh : h_vaddr h1 = h_vaddr h /\ h_size h1 = h_size h /\ h_type h1 = h_type h).
  { pose proof (vs_hg _ _ Hs1 p) as Eg. unfold hg in Eg. rewrite Hh, Hh1 in Eg. cbn in Eg. by simplify_eq. }
  destruct Eh as (Ev & Es & Et).
  destruct (wp_run _ _ _ (al_free_wp (va_heap s) A p z HA Hz)) as ([] & h' & Ef & Hrep).
  unfold vfree. rewrite (bind_ok _ _ _ _ _ E), (proj2 (Z.eqb_neq p 0) Hp0).
  unfold bind_ at 1, ld_hdr. rewrite Hh1, (proj2 (Z.eqb_neq p 0) Hp0). unfold bind_ at 1, va_on_mach, zoom.
  rewrite Ev, Es, Et, (vs_mach _ _ Hs1), Hun. unfold bind_ at 1, va_on_heap, zoom. cbn [va_heap set_va_mach].
  rewrite (vs_heap _ _ Hs1), Ef. eexists. split; [reflexivity|].
  pose proof (vl_dl _ _ Hl) as [_ Hnd]. pose proof (NoDup_skip _ _ _ Hnd) as [Hpn _].
  assert (Hne : forall q, q <> p -> delete p (va_regs s1) !! q = va_regs s1 !! q)
    by (intros q Hq; by apply lookup_delete_ne).
  split_and!; [|apply lookup_delete_eq|done|done|done|].
  + split; [apply Hl1| | |].
    * eapply dlist_frame; [|apply Hl1]. intros q Hq. unfold links. cbn. rewrite Hne; [done|by intros ->].
    * intros q hq Hq Hhq. cbn in Hhq. rewrite Hne in Hhq by (by intros ->). by apply (vl_rg _ _ Hl1 q).
    * eapply va_sorted_ext; [|apply Hl1]. intros q Hq. unfold hg. cbn. rewrite Hne; [done|by intros ->].
  + intros q Hq. rewrite <- (vs_hg _ _ Hs1). unfold hg. cbn. by rewrite Hne.
Qed.

(** [vfree] of a range in use unlinks exactly that range and gives its
    descriptor back to the heap; any other address halts the machine. *)
Lemma vfree_releases_range {H} `{!Allocator H} (s : vma H) l1 p l2 h A z m' :
  va_list s (l1 ++ p :: l2) -> va_regs s !! p = Some h -> al_rep (va_heap s) A -> A !! p = Some z ->
  vmm_cont_unmap (h_vaddr h) (h_size h) (bool_decide (h_type h = PHY_CONT)) (va_mach s) = Ok (tt, m') ->
  (exists s', vfree (h_vaddr h) s = Ok (tt, s') /\ va_list s' (l1 ++ l2) /\ va_regs s' !! p = None /\
    va_mach s' = m' /\ al_rep (va_heap s') (delete p A) /\
    forall q, q <> p -> hg (va_regs s') q = hg (va_regs s) q) /\
  (forall v, (forall q hq, q ∈ l1 ++ p :: l2 -> va_regs s !! q = Some hq -> h_vaddr hq <> v) ->
    vfree v s = Panic "[ERROR] vfree tried to release unused memory").
Proof.
  intros Hl Hh HA Hz Hun. split.
  - destruct (vfree_run s l1 p l2 h A z m' Hl Hh HA Hz Hun) as (s' & ? & ? & ? & ? & _ & ? & ?). by exists s'.
  - intros v Hv. unfold vfree, va_remove_region. unfold bind_ at 1. unfold bind_ at 1, get_.
    destruct (vl_ends _ _ Hl) as [Ef _]. unfold bind_ at 1, lift_. rewrite Ef, (walk_dlist _ _ _ (vl_dl _ _ Hl)).
    destruct (vl_dl _ _ Hl) as [Hd _].
    destruct (first_such_split _ (fun _ h' => h_vaddr h' =? v) _ _ (dseg_sseg _ _ _ _ Hd))
      as [[-> _]|(k1 & q & k2 & n & Ek & _ & _ & Hn & Ht & _)]; [done|].
    exfalso. apply (Hv q n); [rewrite Ek; in_tac|done|by apply Z.eqb_eq].
Qed.

Lemma vfree_releases_range_witness : exists s', vfree 0xd0000000 demo_one = Ok (tt, s') /\ va_list s' [] /\
  va_regs s' !! boot_block.1 = None.
Proof.
  destruct boot_block_rep as [z Hr].
  assert (Hun : exists m', vmm_cont_unmap 0xd0000000 0x2000 false (va_mach demo_one) = Ok (tt, m'))
    by (eexists; vm_compute; reflexivity).
  destruct Hun as [m' Hun].
  destruct (vfree_releases_range demo_one [] boot_block.1 [] (mkHdr 0xd0000000 0x2000 MAPPED 0 0)
    {[boot_block.1 := z]} z m' demo_one_list) as [(s' & E & Hl & Hd & _) _].
  - apply lookup_singleton_eq.
  - exact Hr.
  - apply lookup_singleton_eq.
  - exact Hun.
  - exists s'. split_and!; [exact E|exact Hl|exact Hd].
Defined.

(** A first request is mapped without a look at the area's size, and the
    rounding of a request in the last page of the 32-bit range wraps to 0. *)
Lemma page_align_wraps n : 0xfffff000 < n < W32 -> page_align n = 0.
Proof.
  intros Hn. unfold page_align, PAGE_SIZE.
  assert (Em : n mod 4096 = n - 0xfffff000) by word_lia. rewrite Em.
  destruct (Z.ltb_spec 0 (n - 0xfffff000)); [|lia]. replace (n - (n - 0xfffff000)) with 0xfffff000 by lia. done.
Qed.
