(* ===== verification/AreaSpec.v ===== *)
(** * Pages of the vmalloc area

    [area_ok] says that the area can give a page: its ranges are in order, its
    descriptors are blocks of the heap and its page tables are there.  Then a
    request for a page finds a hole on a page boundary and is mapped, to a
    frame of its own if the caller asks for one; and [vfree] takes it back. *)

From S2P Require Import Prelude Dlist Kmalloc KmallocSpec Pmm Heap Paging MmuSpec Vmalloc VmallocSpec.

#[local] Open Scope Z_scope.

Section area.
Context {H : Type} `{!Allocator H}.
Implicit Types (s : vma H).

Definition dir_of s : Z := frame_of (Paging.cr3 (va_mach s)).

(** The area with the ranges [l] can give pages: its descriptors are blocks
    of the heap, which has room for [n] more bytes, and its page tables are
    there. *)
Record area_ok s (l : list Z) (A : gmap Z Z) (n : Z) : Prop := {
  ao_list : va_list s l;
  ao_ne : l <> [];
  ao_own : hdrs_owned A l;
  ao_rep : al_rep (va_heap s) A;
  ao_room : al_room (va_heap s) n;
  ao_pages : forall p v z t, hg (va_regs s) p = Some (v, z, t) -> (0x1000 | v) /\ (0x1000 | z);
  ao_dir : dir_ok (ram (va_mach s)) (dir_of s);
  ao_tables : forall v, VM_VMALLOC_START <= v < VM_VMALLOC_END -> present (pde (ram (va_mach s)) (dir_of s) (pd_idx v)) = true;
}.

Lemma hg_lookup (m : gmap Z region_hdr) p v z t : hg m p = Some (v, z, t) ->
  exists h, m !! p = Some h /\ h_vaddr h = v /\ h_size h = z /\ h_type h = t.
Proof. unfold hg. destruct (m !! p) as [h|]; [|done]. cbn. intros [= <- <- <-]. eauto. Qed.

Lemma divide_page v z : (0x1000 | v) -> (0x1000 | z) -> (0x1000 | v +w z).
Proof. intros [a ->] [b ->]. unfold w32. exists ((a + b) mod 0x100000). Z.div_mod_to_equations. lia. Qed.

Lemma va_list_ext s s' l : va_regs s' = va_regs s -> ureg s' = ureg s -> va_list s l -> va_list s' l.
Proof. intros E1 E2 Hl. split; rewrite ?E1, ?E2; apply Hl. Qed.

Lemma malloc_answer h A n k p h' : al_rep h A -> 0 <= n -> 0 <= k -> n + k + 38 < 2 ^ 29 -> al_room h (n + k + 38) ->
  al_malloc n h = Ok (p, h') -> A !! p = None /\ al_room h' k.
Proof.
  intros Hr Hn Hk Hlt Hroom E. split.
  - destruct (wp_run _ _ _ (al_malloc_wp h A n Hr ltac:(lia) ltac:(eapply al_room_down; [| | |exact Hroom]; lia)))
      as (p' & h2 & E' & z & _ & HA & _). rewrite E in E'. by injection E' as <- <-.
  - destruct (wp_run _ _ _ (al_malloc_room h A n k Hr Hn Hk Hlt Hroom)) as (p' & h2 & E' & HA).
    rewrite E in E'. by injection E' as <- <-.
Qed.

(** A hole for one page is found, on a page boundary. *)
Lemma page_found s l A n : area_ok s l A n -> ~ no_hole s l 4096 -> exists v prev,
  _find_hole_in_as (page_align 4096) s = Ok (v, prev, s) /\ v <> 0 /\ (0x1000 | v) /\
  VM_VMALLOC_START <= v /\ v + 4096 <= VM_VMALLOC_END.
Proof.
  intros Ha Hno. change (page_align 4096) with 4096.
  destruct (wp_run _ _ _ (find_hole_wp s l 4096 (ao_list _ _ _ _ Ha) ltac:(done) (ao_ne _ _ _ _ Ha)))
    as ([v prev] & s' & E & -> & Hr). cbn in Hr. exists v, prev.
  destruct Hr as [(l1 & l2 & _ & _ & Hv & Hh)|[_ ?]]; [|done]. split; [done|]. split; [done|].
  split; [|destruct Hh as (? & ? & _); done].
  apply find_hole_answer in E. cbn [fst] in E. destruct E as [E|[->|(p & h & Ep & ->)]]; [done|by exists 0xd0000|].
  destruct (ao_pages _ _ _ _ Ha p (h_vaddr h) (h_size h) (h_type h)) as [? ?]; [unfold hg; by rewrite Ep|].
  by apply divide_page.
Qed.

Lemma area_page v : VM_VMALLOC_START <= v < VM_VMALLOC_END -> word v /\ pd_idx v < 1022.
Proof.
  unfold VM_VMALLOC_START, VM_VMALLOC_END. intros Hv. assert (Hw : word v) by (unfold word; lia). split; [done|].
  destruct (slot_range v Hw) as (_ & _ & -> & ->). Z.div_mod_to_equations. lia.
Qed.

(** Another block is taken from the heap. *)
Lemma area_alloc s l A m n : area_ok s l A (m + n + 38) -> 0 <= m -> 0 <= n -> m + n + 38 < 2 ^ 29 ->
  exists p h z, al_malloc m (va_heap s) = Ok (p, h) /\ p <> 0 /\ A !! p = None /\ area_ok (set_va_heap h s) l (<[p := z]> A) n.
Proof.
  intros Ha Hm Hn Hlt. pose proof (ao_rep _ _ _ _ Ha) as Hrep. pose proof (ao_room _ _ _ _ Ha) as Hroom.
  destruct (wp_run _ _ _ (al_malloc_wp (va_heap s) A m Hrep ltac:(lia) ltac:(eapply al_room_down; [| | |exact Hroom]; lia)))
    as (p & h & E & z & Hp & HA & _ & Hrep').
  destruct (malloc_answer (va_heap s) A m n p h Hrep Hm Hn Hlt Hroom E) as [_ Hroom'].
  exists p, h, z. split_and!; try done. split; [| |intros q Hq|done|done| | |]; try apply Ha.
  - by apply (va_list_ext s), Ha.
  - destruct (ao_own _ _ _ _ Ha q Hq) as [zq Ez]. rewrite lookup_insert. case_decide; eauto.
Qed.

(** The area after steps that leave its ranges and the kernel's tables alone. *)
Lemma area_after s s' l A n A' n' : area_ok s l A n -> va_regs s' = va_regs s -> ureg s' = ureg s -> A ⊆ A' ->
  al_rep (va_heap s') A' -> al_room (va_heap s') n' -> dir_of s' = dir_of s -> dir_ok (ram (va_mach s')) (dir_of s) ->
  (forall i, 0 <= i < 1024 -> i <> 1022 -> pde (ram (va_mach s')) (dir_of s) i = pde (ram (va_mach s)) (dir_of s) i) ->
  area_ok s' l A' n'.
Proof.
  intros Ha Er Eu HA Hrep Hroom Ed Hok Hpde. split; rewrite ?Er, ?Ed; try done.
  - by apply (va_list_ext s), Ha.
  - apply Ha.
  - intros q Hq. destruct (ao_own _ _ _ _ Ha q Hq) as [zq Ez]. exists zq. by eapply lookup_weaken.
  - apply Ha.
  - intros v Hv. rewrite Hpde; [by apply (ao_tables _ _ _ _ Ha)|..]; destruct (area_page v Hv) as [Hw Hlt], (slot_range v Hw); lia.
Qed.

(** [vmalloc] of one page, mapped to a new frame. *)
Record page_given s (l : list Z) (A : gmap Z Z) (n a i : Z) s1 : Prop := {
  pg_page : (0x1000 | a) /\ VM_VMALLOC_START <= a /\ a + 4096 <= VM_VMALLOC_END;
  pg_range : exists l1 p l2 z, l = l1 ++ l2 /\ va_list s1 (l1 ++ p :: l2) /\ A !! p = None /\
    al_rep (va_heap s1) (<[p := z]> A) /\
    forall q, hg (va_regs s1) q = if decide (q = p) then Some (a, 4096, MAPPED) else hg (va_regs s) q;
  pg_room : al_room (va_heap s1) n;
  pg_frame : got_frame (m_pmm (va_mach s)) i (m_pmm (va_mach s1)) /\ word (i * 4096);
  pg_cr3 : Paging.cr3 (va_mach s1) = Paging.cr3 (va_mach s);
  pg_maps : exists w, remapped (ram (va_mach s)) (dir_of s) a w (ram (va_mach s1)) /\ frame_of w = i * 4096 /\ present w = true;
}.

Lemma frame_word p i p' : inv p -> got_frame p i p' -> word (i * 4096) /\ frame_of (i * 4096) = i * 4096.
Proof.
  intros Hi [Hr _]. pose proof (inv_total _ Hi). pose proof (inv_kernel _ Hi).
  assert (Hw : word (i * 4096)) by (unfold word; lia). split; [done|]. apply frame_of_page; [done|by exists i].
Qed.

Lemma map_page (m : machine) a : dir_ok (ram m) (frame_of (Paging.cr3 m)) -> word a -> pd_idx a < 1022 ->
  present (pde (ram m) (frame_of (Paging.cr3 m)) (pd_idx a)) = true -> inv (m_pmm m) -> 0 < free_frames (m_pmm m) ->
  exists i m1 w, vmalloc_map MAPPED a (page_align 4096) m = Ok (tt, m1) /\ got_frame (m_pmm m) i (m_pmm m1) /\
    Paging.cr3 m1 = Paging.cr3 m /\ remapped (ram m) (frame_of (Paging.cr3 m)) a w (ram m1) /\ frame_of w = i * 4096 /\ present w = true.
Proof.
  intros Hok Ha Hlt Hp Hi Hfree. destruct (wp_run _ _ _ (get_frame_wp _ Hi Hfree)) as (r & p' & Eg & i & -> & Hg).
  unfold FRAME_SIZE, PAGE_SIZE in *. destruct (frame_word _ _ _ Hi Hg) as [Hw Hf].
  destruct (pg_map_remaps (set_m_pmm p' m) (i * 4096) a (Z.lor VMALLOC_RW PG_PRESENT) Hok Ha Hlt Hp Hw ltac:(done))
    as (m1 & w & E1 & Em1 & R & Hwf & Hwp).
  exists i, m1, w. split; [|rewrite Em1 at 1 2; rewrite Hwf, Hwp; by split_and!].
  cbn. unfold vmm_cont_map. change (Z.to_nat (_SIZE_TO_FRAMES (page_align 4096))) with 1%nat. cbn [for_].
  change (0 *w FRAME_SIZE) with 0. rewrite Z.add_0_r, w32_id by done.
  assert (Ef : with_pmm pmm_get_frame m = Ok (i * 4096, set_m_pmm p' m)) by (unfold with_pmm, zoom; by rewrite Eg).
  unfold bind_ at 1. rewrite (bind_ok _ _ _ _ _ Ef), E1. done.
Qed.

Lemma page_is_given s l A n : area_ok s l A (n + 58) -> 0 <= n < 2 ^ 20 -> ~ no_hole s l 4096 ->
  inv (m_pmm (va_mach s)) -> 0 < free_frames (m_pmm (va_mach s)) ->
  exists a i s1, vmalloc 4096 MAPPED s = Ok (a, s1) /\ page_given s l A n a i s1.
Proof.
  intros Ha Hn Hno Hi Hfree. destruct (page_found s l A _ Ha Hno) as (a & prev & Ef & Ha0 & Hpg & Ha1 & Ha2).
  destruct (area_page a) as [Haw Halt]; [lia|].
  destruct (map_page (va_mach s) a (ao_dir _ _ _ _ Ha) Haw Halt (ao_tables _ _ _ _ Ha a ltac:(lia)) Hi Hfree)
    as (i & m1 & w & Hmap & Hg & Hcr & R & Hwf & Hwp).
  destruct (vmalloc_run s l A 4096 MAPPED a prev m1 (ao_list _ _ _ _ Ha) (ao_ne _ _ _ _ Ha) (ao_own _ _ _ _ Ha)
    (ao_rep _ _ _ _ Ha)) as (s1 & l1 & p & l2 & z & E & El & Hpl & Hh & _ & _ & Hl & Hm & Eal & Hrep & Hhg); try done.
  { eapply al_room_down; [| | |apply (ao_room _ _ _ _ Ha)]; unfold SIZEOF_REGION_HDR; lia. }
  destruct (malloc_answer (va_heap s) A SIZEOF_REGION_HDR n p (va_heap s1)) as [HpA Hroom']; try done.
  { apply Ha. } { lia. } { unfold SIZEOF_REGION_HDR. lia. }
  { replace (SIZEOF_REGION_HDR + n + 38) with (n + 58) by (unfold SIZEOF_REGION_HDR; lia). apply Ha. }
  exists a, i, s1. split; [done|]. split; rewrite ?Hm; try done.
  - exists l1, p, l2, z. by split_and!.
  - split; [done|]. by apply (frame_word _ _ _ Hi Hg).
  - by exists w.
Qed.

(** A page of the area is given back: its address is unmapped and its
    descriptor released; its frame is not ([Paging.unmap_frees_no_frame]). *)
Lemma unmap_page (m : machine) a : dir_ok (ram m) (frame_of (Paging.cr3 m)) -> word a -> pd_idx a < 1022 ->
  present (pde (ram m) (frame_of (Paging.cr3 m)) (pd_idx a)) = true -> total_frames (m_pmm m) <= 0xfffff ->
  exists m', vmm_cont_unmap a 4096 false m = Ok (tt, set_ram m' m) /\ remapped (ram m) (frame_of (Paging.cr3 m)) a 0 m'.
Proof.
  intros Hok Ha Hlt Hp Ht. destruct (pg_unmap_remaps m a Hok Ha Hlt Hp) as (r & m' & E & R & _). exists m'. split; [|done].
  assert (Hr : r = 0 \/ 0xfffff000 <= r).
  { apply (pg_unmap_same a m r (set_ram m' m) E). intros i w Ew.
    destruct (word_at_word (ram m) (4 * i) (dir_words _ _ Hok)) as [Hw _]. unfold word_at in Hw.
    replace (4 * i / 4) with i in Hw by (Z.div_mod_to_equations; lia). by rewrite Ew in Hw. }
  unfold vmm_cont_unmap. change (Z.to_nat (_SIZE_TO_FRAMES 4096)) with 1%nat. cbn [for_].
  change (0 *w FRAME_SIZE) with 0. rewrite Z.add_0_r, w32_id by done.
  unfold bind_ at 1. rewrite (bind_ok _ _ _ _ _ E). destruct Hr as [->|Hr]; [done|].
  rewrite (proj2 (Z.ltb_lt 0 r)) by lia. rewrite with_free_nowhere by done. done.
Qed.

Lemma page_returned s l1 p l2 h A n : area_ok s (l1 ++ p :: l2) A n -> va_regs s !! p = Some h ->
  h_size h = 4096 -> h_type h = MAPPED -> total_frames (m_pmm (va_mach s)) <= 0xfffff ->
  exists s' m', vfree (h_vaddr h) s = Ok (tt, s') /\ va_list s' (l1 ++ l2) /\ va_regs s' !! p = None /\
    (forall q, q <> p -> hg (va_regs s') q = hg (va_regs s) q) /\ al_rep (va_heap s') (delete p A) /\
    va_mach s' = set_ram m' (va_mach s) /\ remapped (ram (va_mach s)) (dir_of s) (h_vaddr h) 0 m'.
Proof.
  intros Ha Hh Hsz Hty Ht. assert (Hp : p ∈ l1 ++ p :: l2) by in_tac.
  destruct (vl_rg _ _ (ao_list _ _ _ _ Ha) p h Hp Hh) as (Hv1 & _ & Hv2). rewrite Hsz in Hv2.
  destruct (area_page (h_vaddr h)) as [Hw Hlt]; [lia|]. destruct (ao_own _ _ _ _ Ha p Hp) as [z Hz].
  destruct (unmap_page (va_mach s) (h_vaddr h)) as (m' & Em & R);
    [apply Ha|done|done|apply (ao_tables _ _ _ _ Ha); lia|done|].
  destruct (vfree_run s l1 p l2 h A z (set_ram m' (va_mach s)) (ao_list _ _ _ _ Ha) Hh (ao_rep _ _ _ _ Ha) Hz) as
    (s' & E & Hl & Hn & Hm & _ & Hrep & Hg); [by rewrite Hsz, Hty|].
  exists s', m'. by split_and!.
Qed.

(** The area after a page was taken from it. *)
Lemma area_given s l A m n a i s1 : area_ok s l A m -> page_given s l A n a i s1 ->
  exists l1 p l2 z h, l = l1 ++ l2 /\ A !! p = None /\ va_regs s1 !! p = Some h /\ h_vaddr h = a /\ h_size h = 4096 /\ h_type h = MAPPED /\
    (forall q, q <> p -> hg (va_regs s1) q = hg (va_regs s) q) /\ area_ok s1 (l1 ++ p :: l2) (<[p := z]> A) n.
Proof.
  intros Ha G. destruct (pg_range _ _ _ _ _ _ _ G) as (l1 & p & l2 & z & El & Hl & Hp & Hrep & Hg).
  destruct (pg_maps _ _ _ _ _ _ _ G) as (w & R & _). destruct (pg_page _ _ _ _ _ _ _ G) as (Hpg & _).
  pose proof (Hg p) as Egp. rewrite decide_True in Egp by done. destruct (hg_lookup _ _ _ _ _ Egp) as (h & Eh & E1 & E2 & E3).
  exists l1, p, l2, z, h. split_and!; try done.
  { intros q Hq. by rewrite Hg, decide_False. }
  assert (Ed : dir_of s1 = dir_of s) by (unfold dir_of; by rewrite (pg_cr3 _ _ _ _ _ _ _ G)).
  split; rewrite ?Ed; try done.
  - by destruct l1.
  - intros q Hq. rewrite lookup_insert. case_decide as E; [eauto|]. apply (ao_own _ _ _ _ Ha). rewrite El.
    apply elem_of_app in Hq as [Hq|[->|Hq]%elem_of_cons]; [in_tac|done|in_tac].
  - apply G.
  - intros q v zz t Eq. rewrite Hg in Eq. case_decide; [|by apply (ao_pages _ _ _ _ Ha) in Eq]. injection Eq as <- <- _. split; [done|by exists 1].
  - apply R.
  - intros v Hv. destruct (area_page v Hv) as [Hw Hlt]. destruct (slot_range v Hw) as (Hi & _).
    rewrite (re_pde _ _ _ _ _ R) by done. by apply Ha.
Qed.
End area.

(** ** Property *)

(** C33: a page taken from the area and given back leaves the area as it was:
    the request answers a page of the area with a frame that was free mapped
    to it, [vfree] of the answer returns, and then the ranges, the blocks of
    the heap and the translation of every other page are those before the
    request.  Only the frame is not: it stays in use. *)
Theorem vmalloc_vfree_page {H} `{!Allocator H} (s : vma H) l A n : area_ok s l A (n + 58) -> 0 <= n < 2 ^ 20 -> ~ no_hole s l 4096 ->
  inv (m_pmm (va_mach s)) -> 0 < free_frames (m_pmm (va_mach s)) ->
  exists a i s1 s2, vmalloc 4096 MAPPED s = Ok (a, s1) /\ page_given s l A n a i s1 /\ vfree a s1 = Ok (tt, s2) /\
    va_list s2 l /\ (forall q, q ∈ l -> hg (va_regs s2) q = hg (va_regs s) q) /\ al_rep (va_heap s2) A /\
    (forall v, word v -> pd_idx v < 1022 -> walk_dir (ram (va_mach s2)) (dir_of s) v =
       if decide (v / 4096 = a / 4096) then None else walk_dir (ram (va_mach s)) (dir_of s) v) /\
    frame_used (m_pmm (va_mach s)) i = false /\ frame_used (m_pmm (va_mach s2)) i = true.
Proof.
  intros Ha Hn Hno Hi Hfree. destruct (page_is_given s l A n Ha Hn Hno Hi Hfree) as (a & i & s1 & E & G).
  destruct (area_given s l A (n + 58) n a i s1 Ha G) as (l1 & p & l2 & z & h & El & Hp & Eh & <- & E2 & E3 & Hg & Ha1).
  destruct (pg_frame _ _ _ _ _ _ _ G) as [Hf _]. pose proof Hf as (Hir & Hu & Hb & Hi1 & _).
  destruct (page_returned s1 l1 p l2 h _ n Ha1 Eh E2 E3 ltac:(apply (inv_total _ Hi1))) as (s2 & m2 & E4 & Hl2 & Hn2 & Hg2 & Hrep2 & Em2 & R2).
  destruct (pg_maps _ _ _ _ _ _ _ G) as (w & R & _). assert (Ed : dir_of s1 = dir_of s) by (unfold dir_of; by rewrite (pg_cr3 _ _ _ _ _ _ _ G)).
  rewrite Ed in R2. exists (h_vaddr h), i, s1, s2. split; [done|]. split; [done|]. split; [done|]. split; [by rewrite El|].
  split; [|split; [|split; [|split]]].
  - intros q Hq. assert (q <> p).
    { intros ->. destruct (ao_own _ _ _ _ Ha p Hq) as [zq Ez]. congruence. }
    by rewrite Hg2, Hg.
  - by rewrite delete_insert_id in Hrep2.
  - intros v Hv Hlt. rewrite Em2. cbn [ram set_ram]. rewrite (re_walk _ _ _ _ _ R2) by done. case_decide; [done|].
    by rewrite (re_walk _ _ _ _ _ R), decide_False.
  - done.
  - rewrite Em2. cbn [m_pmm set_ram]. rewrite (bit_is_used _ _ _ _ _ Hb); [by rewrite decide_True|].
    pose proof (inv_kernel _ Hi). lia.
Qed.

#[local] Instance area_allocator : Allocator malloc_state := kmalloc_allocator 0xc0400000 demo_raw demo_bytes.

(** A machine with the page tables of the area, in the frames 16 to 79, and
    an area of which the first two pages are in use. *)
Definition area_machine : machine := mkMachine pmm_64 0x1000 (list_to_map
  ((1024 + 1023, 0x1003) :: map (fun i => (1024 + 0x340 + i, 0x10003 + 4096 * i)) (seqZ 0 64))).

Definition area_one : vma malloc_state := set_va_mach area_machine demo_one.

Lemma area_pmm : m_pmm (va_mach area_one) = pmm_64.
Proof. reflexivity. Qed.

Lemma area_one_ok z : rep 0xc0400000 boot_block.2 {[boot_block.1 := z]} -> area_ok area_one [boot_block.1] {[boot_block.1 := z]} 58.
Proof.
  intros Hr. split.
  - exact (va_list_ext demo_one area_one _ eq_refl eq_refl demo_one_list).
  - done.
  - intros p ->%list_elem_of_singleton. exists z. apply lookup_singleton_eq.
  - exact Hr.
  - vm_compute. discriminate.
  - intros p v zz ty (h & Eh & <- & <- & <-)%hg_lookup.
    change (({[boot_block.1 := mkHdr 0xd0000000 0x2000 MAPPED 0 0]} : gmap Z region_hdr) !! p = Some h) in Eh. apply lookup_singleton_Some in Eh as [_ <-].
    split; [by exists 0xd0000|by exists 2].
  - apply dir_ok_check. vm_compute. reflexivity.
  - intros v Hv. destruct (area_page v Hv) as [Hw _]. destruct (slot_range v Hw) as (_ & _ & -> & ->).
    assert (Hall : Forall (fun i => present (pde (ram area_machine) 0x1000 i) = true) (seqZ 0x340 64))
      by (apply (bool_decide_unpack _); vm_compute; exact I).
    rewrite Forall_forall in Hall. apply Hall, elem_of_seqZ. unfold VM_VMALLOC_START, VM_VMALLOC_END in Hv.
    Z.div_mod_to_equations. lia.
Qed.

Lemma area_one_hole : ~ no_hole area_one [boot_block.1] 4096.
Proof.
  intros Hno. apply (Hno [boot_block.1] [] 0xd0002000 eq_refl). unfold hole, VM_VMALLOC_START, VM_VMALLOC_END. split_and!; [lia|lia| |].
  - intros q ->%list_elem_of_singleton. apply (bool_decide_unpack _). vm_compute. exact I.
  - intros q Hq. by apply elem_of_nil in Hq.
Qed.

Lemma vmalloc_vfree_page_witness : exists a i (s1 s2 : vma malloc_state), vmalloc 4096 MAPPED area_one = Ok (a, s1) /\
  vfree a s1 = Ok (tt, s2) /\ va_list s2 [boot_block.1] /\ frame_used pmm_64 i = false /\ frame_used (m_pmm (va_mach s2)) i = true.
Proof.
  destruct boot_block_rep as [z Hr].
  destruct (vmalloc_vfree_page area_one [boot_block.1] {[boot_block.1 := z]} 0) as (a & i & s1 & s2 & E1 & _ & E2 & Hl & _ & _ & _ & Hf & Hu).
  - by apply area_one_ok.
  - lia.
  - exact area_one_hole.
  - exact pmm_64_inv.
  - vm_compute. reflexivity.
  - rewrite area_pmm in Hf. exists a, i, s1, s2. split; [exact E1|]. split; [exact E2|]. split; [exact Hl|]. split; [exact Hf|exact Hu].
Defined.
