(* ===== verification/Klib.v ===== *)
(** * String routines of the kernel library ([src/src/kernel/klib/str*.c])

    A [char] array or the memory behind a [char *] is the list of its bytes;
    an access past its end is [None], undefined behaviour. *)

From S2P Require Import Prelude.

#[local] Open Scope Z_scope.

Definition MAX_FILENAME : Z := 128.
Definition MAX_PATH_LEN : Z := 4096.

(** An answer that depends on memory that may not be there. *)
Definition lift_opt {S A} (o : option A) : M S A := fun s =>
  match o with Some a => Ok (a, s) | None => Fault end.

Fixpoint strlen (str : list Z) : option Z :=
  match str with
  | [] => None
  | c :: rest => if c =? 0 then Some 0 else n ← strlen rest; Some (1 + n)
  end.

(** The comparison loop of [strcmp], [n] characters left. *)
Fixpoint strcmp_loop (n : nat) (s1 s2 : list Z) : option Z :=
  match n with
  | O => Some 0
  | S n' =>
      match s1, s2 with
      | c1 :: r1, c2 :: r2 => if negb (c1 =? c2) then Some (-1) else strcmp_loop n' r1 r2
      | _, _ => None
      end
  end.

Definition strcmp (s1 s2 : list Z) : option Z :=
  s1_len ← strlen s1;
  s2_len ← strlen s2;
  if negb (s1_len =? s2_len) then Some (-1) else strcmp_loop (Z.to_nat s1_len) s1 s2.

(** Both loops of [strncpy]: [n] bytes of [dst] are written, from [src] up to
    its terminator and zeroes from there on. *)
Fixpoint strncpy (dst src : list Z) (n : nat) : option (list Z) :=
  match n with
  | O => Some dst
  | S n' =>
      match dst, src with
      | _ :: d, c :: r =>
          if c =? 0 then d' ← strncpy d (0 :: r) n'; Some (0 :: d')
          else d' ← strncpy d r n'; Some (c :: d')
      | _, _ => None
      end
  end.

Definition memset (dst : list Z) (c : Z) (n : nat) : option (list Z) :=
  if decide (n <= length dst)%nat then Some (replicate n c ++ drop n dst) else None.

(** Between two different arrays. *)
Definition memcpy (dst src : list Z) (n : nat) : option (list Z) :=
  if decide (n <= length dst /\ n <= length src)%nat then Some (take n src ++ drop n dst) else None.

(** ** What they compute *)

(** The array [s] holds the C string [name]. *)
Definition cstr (s name : list Z) : Prop := 0 ∉ name /\ exists rest, s = name ++ 0 :: rest.

Lemma cstr_cons c s name : c <> 0 -> cstr s name -> cstr (c :: s) (c :: name).
Proof. intros Hc [Hn [rest ->]]. split; [|by exists rest]. rewrite not_elem_of_cons. done. Qed.

Lemma cstr_nil s : cstr (0 :: s) [].
Proof. split; [apply not_elem_of_nil|by exists s]. Qed.

Lemma cstr_inv c s name : cstr (c :: s) name ->
  (c = 0 /\ name = []) \/ (c <> 0 /\ exists name', name = c :: name' /\ cstr s name').
Proof.
  intros [Hn [rest E]]. destruct name as [|x name]; cbn in E; injection E as -> E; [by left|].
  right. apply not_elem_of_cons in Hn as [Hx Hn]. split; [congruence|]. exists name. split; [done|].
  split; [done|by exists rest].
Qed.

Lemma strlen_cstr s name : cstr s name -> strlen s = Some (Z.of_nat (length name)).
Proof.
  revert name. induction s as [|c s IH]; intros name H.
  - destruct H as [_ [rest E]]. by destruct name.
  - cbn [strlen]. destruct (cstr_inv _ _ _ H) as [[-> ->]|(Hc & name' & -> & Hs)]; [done|].
    rewrite (proj2 (Z.eqb_neq c 0)), (IH _ Hs) by done. cbn. f_equal. lia.
Qed.

Lemma strlen_some s n : strlen s = Some n -> exists name, cstr s name /\ n = Z.of_nat (length name).
Proof.
  revert n. induction s as [|c s IH]; intros n H; [done|]. cbn [strlen] in H.
  destruct (Z.eqb_spec c 0) as [->|Hc].
  - injection H as <-. exists []. split; [apply cstr_nil|done].
  - destruct (strlen s) as [k|]; [|done]. cbn in H. injection H as <-.
    destruct (IH k eq_refl) as (name & Hs & ->). exists (c :: name). split; [by apply cstr_cons|cbn; lia].
Qed.

Lemma strcmp_loop_eq a b ra rb : length a = length b ->
  strcmp_loop (length a) (a ++ ra) (b ++ rb) = Some (if decide (a = b) then 0 else -1).
Proof.
  revert b. induction a as [|x a IH]; intros [|y b] Hl; try discriminate Hl.
  - by rewrite decide_True.
  - cbn [length app strcmp_loop]. destruct (Z.eqb_spec x y) as [->|Hne]; cbn [negb].
    + rewrite IH by (injection Hl; done). repeat case_decide; try congruence; done.
    + rewrite decide_False by congruence. done.
Qed.

(** [strcmp] decides equality of the strings. *)
Lemma strcmp_cstr s1 s2 a b : cstr s1 a -> cstr s2 b ->
  strcmp s1 s2 = Some (if decide (a = b) then 0 else -1).
Proof.
  intros H1 H2. unfold strcmp. rewrite (strlen_cstr _ _ H1), (strlen_cstr _ _ H2). cbn.
  destruct (Z.eqb_spec (Z.of_nat (length a)) (Z.of_nat (length b))) as [E|E]; cbn [negb].
  - destruct H1 as [_ [r1 ->]], H2 as [_ [r2 ->]]. rewrite Nat2Z.id. apply strcmp_loop_eq. lia.
  - rewrite decide_False; [done|]. intros ->. done.
Qed.

Lemma strncpy_zeroes dst r n : (n <= length dst)%nat ->
  strncpy dst (0 :: r) n = Some (replicate n 0 ++ drop n dst).
Proof.
  revert dst. induction n as [|n IH]; intros [|x dst] Hl; cbn in Hl; try lia; try done.
  cbn [strncpy]. rewrite Z.eqb_refl, IH by lia. done.
Qed.

(** A string shorter than [n] is copied and padded with zeroes. *)
Lemma strncpy_cstr dst src name n : cstr src name -> (length name <= n <= length dst)%nat ->
  strncpy dst src n = Some (name ++ replicate (n - length name) 0 ++ drop n dst).
Proof.
  revert dst src n. induction name as [|c name IH]; intros dst src n Hs Hl.
  - destruct Hs as [_ [rest ->]]. cbn [app length]. rewrite Nat.sub_0_r. apply strncpy_zeroes. cbn in Hl. lia.
  - destruct n as [|n]; [cbn in Hl; lia|]. destruct dst as [|x dst]; [cbn in Hl; lia|].
    destruct Hs as [Hn [rest ->]]. apply not_elem_of_cons in Hn as [Hc Hn]. cbn [app strncpy].
    rewrite (proj2 (Z.eqb_neq c 0)) by done. rewrite IH; [done|split; [done|by exists rest]|cbn in Hl; lia].
Qed.

(** The copy is a terminated string when there is room for the terminator. *)
Lemma strncpy_terminates dst src name n : cstr src name -> (length name < n)%nat -> (n <= length dst)%nat ->
  exists dst', strncpy dst src n = Some dst' /\ cstr dst' name /\ length dst' = length dst.
Proof.
  intros Hs Hn Hl. eexists. split; [apply strncpy_cstr; [done|lia]|].
  destruct (n - length name)%nat as [|k] eqn:E; [lia|]. split.
  - split; [apply Hs|]. by eexists.
  - rewrite !length_app, length_replicate, length_drop. lia.
Qed.
