(* ===== verification/Terminal.v ===== *)
(** * Console ([src/src/dev/terminal/], [src/src/dev/keyboard/keyboard.c])

    The VGA text buffer, the cursor with the bookkeeping of the input line,
    the terminal, and the keyboard decoder.  Cells are indexed from
    [VGA_BUFFER]; characters are bytes (the C [char] is signed, and every
    comparison made is with a value below 128 or on both sides cast).  A line
    that is finished with Enter goes to [dev_stdin_recall]: the routine
    answers it, and the caller, in the kernel's state, delivers it. *)

From S2P Require Import Prelude Klib.

#[local] Open Scope Z_scope.

Definition VGA_WIDTH : Z := 80.
Definition VGA_HEIGHT : Z := 24.
Definition TERMINAL_MAX_LINE_LEN : Z := 1920.
Definition COMM_LEN : Z := 3.
Definition COMM_START : Z := 0xb1.
Definition COMM_END : Z := 0xff.
Definition COMM_TERM_CLR : Z := 0x1c.

(** [(size_t)-1]: no input line. *)
Definition NO_LINE : Z := UINT32_MAX.

Record cursor_t := mkCursor {
  c_x : Z; c_y : Z; blink : bool;
  line_x : Z; line_y : Z; position_ctr : Z; chars_ctr : Z;
}.

Definition set_xy x y c := mkCursor x y (blink c) (line_x c) (line_y c) (position_ctr c) (chars_ctr c).
Definition set_line x y c := mkCursor (c_x c) (c_y c) (blink c) x y (position_ctr c) (chars_ctr c).
Definition set_ctrs p n c := mkCursor (c_x c) (c_y c) (blink c) (line_x c) (line_y c) p n.

Record terminal_t := mkTerm {
  is_initialized : bool;
  cells : gmap Z Z;            (* 16-bit entries of the text buffer *)
  hw_cursor : Z;               (* the position register of the CRT controller *)
  command_buff : list Z;
  command_idx : Z;
  stdin_line : list Z;
  stdin_len : Z;
  terminal_color : Z;
  terminal_cursor : cursor_t;
}.

Definition set_init v t := mkTerm v (cells t) (hw_cursor t) (command_buff t) (command_idx t) (stdin_line t) (stdin_len t) (terminal_color t) (terminal_cursor t).
Definition set_cells v t := mkTerm (is_initialized t) v (hw_cursor t) (command_buff t) (command_idx t) (stdin_line t) (stdin_len t) (terminal_color t) (terminal_cursor t).
Definition set_hw v t := mkTerm (is_initialized t) (cells t) v (command_buff t) (command_idx t) (stdin_line t) (stdin_len t) (terminal_color t) (terminal_cursor t).
Definition set_command b i t := mkTerm (is_initialized t) (cells t) (hw_cursor t) b i (stdin_line t) (stdin_len t) (terminal_color t) (terminal_cursor t).
Definition set_stdin l n t := mkTerm (is_initialized t) (cells t) (hw_cursor t) (command_buff t) (command_idx t) l n (terminal_color t) (terminal_cursor t).
Definition set_color v t := mkTerm (is_initialized t) (cells t) (hw_cursor t) (command_buff t) (command_idx t) (stdin_line t) (stdin_len t) v (terminal_cursor t).
Definition set_cursor v t := mkTerm (is_initialized t) (cells t) (hw_cursor t) (command_buff t) (command_idx t) (stdin_line t) (stdin_len t) (terminal_color t) v.

(** The zero-initialised global. *)
Definition terminal_boot : terminal_t :=
  mkTerm false ∅ 0 (replicate 3 0) 0 (replicate 1921 0) 0 0 (mkCursor 0 0 false 0 0 0 0).

Definition tm := M terminal_t.

(** ** vga_text_mode.c *)

Definition vga_entry (uc color : Z) : Z := Z.lor uc (Z.shiftl color 8).

Definition vga_entry_color (fg bg : Z) : Z := Z.lor fg (Z.shiftl bg 4).

Definition cell_at (t : terminal_t) (i : Z) : Z := default 0 (cells t !! i).

Definition put_cell (i v : Z) : tm unit := mod_ (fun t => set_cells (<[i := v]> (cells t)) t).

Definition vga_put_entry (x y color c : Z) : tm unit :=
  put_cell (y *w VGA_WIDTH +w x) (vga_entry c color).

(** Four port writes that set the 16-bit position register. *)
Definition vga_set_cursor (x y : Z) : tm unit := mod_ (set_hw ((y *w VGA_WIDTH +w x) mod 0x10000)).

Definition _mov_row (src dst : Z) : tm unit :=
  for_ (Z.to_nat VGA_WIDTH) 0 (fun i => do c <- get_ (fun t => cell_at t (src + i)); put_cell (dst + i) c).

Definition _fill_row (src color c : Z) : tm unit :=
  for_ (Z.to_nat VGA_WIDTH) 0 (fun i => put_cell (src + i) (vga_entry c color)).

Definition vga_clear_row (row color : Z) : tm unit := _fill_row (row *w VGA_WIDTH) color 32.

Definition vga_move_row_up (row : Z) : tm unit :=
  when 0 <? row then_ _mov_row (row *w VGA_WIDTH) ((row -w 1) *w VGA_WIDTH).

Definition line_fits (start_x start_y len : Z) : bool :=
  if 0 <? start_y then (start_y -w 1) *w VGA_WIDTH +w start_x +w len <=? TERMINAL_MAX_LINE_LEN
  else start_x +w len <=? TERMINAL_MAX_LINE_LEN.

(** Into [terminal.stdin_line], the only destination used; the answer is 0 or
    -1. *)
Definition vga_copy_line (start_x start_y len : Z) : tm Z :=
  if negb (line_fits start_x start_y len) then ret_ (-1)
  else
    let src := start_y *w VGA_WIDTH +w start_x in
    for_ (Z.to_nat len) 0 (fun idx => fun t =>
      if decide (Z.to_nat idx < length (stdin_line t))%nat
      then Ok (tt, set_stdin (<[Z.to_nat idx := Z.land (cell_at t (src + idx)) 0xff]> (stdin_line t)) (stdin_len t) t)
      else Fault) ;;;
    ret_ 0.

(** The loop of [vga_paste_line]: zero bytes are skipped. *)
Fixpoint paste_chars (n : nat) (buffer : list Z) (dst idx color : Z) : tm Z :=
  match n with
  | O => ret_ idx
  | S n' =>
      match buffer with
      | [] => fault
      | b :: buffer' =>
          if b =? 0 then paste_chars n' buffer' dst idx color
          else put_cell (dst + idx) (vga_entry b color) ;;; paste_chars n' buffer' dst (idx + 1) color
      end
  end.

Definition vga_paste_line (start_x start_y len : Z) (buffer : list Z) (color : Z) : tm Z :=
  if negb (line_fits start_x start_y len) then ret_ (-1)
  else
    let dst := start_y *w VGA_WIDTH +w start_x in
    do idx <- paste_chars (Z.to_nat len) buffer dst 0 color;
    for_ (Z.to_nat (len - idx)) idx (fun i => put_cell (dst + i) (vga_entry 32 color)) ;;;
    ret_ 0.

(** ** cursor.c *)

Inductive cursor_ret := SUCCESS | MAX_HEIGHT.

#[global] Instance cursor_ret_eq : EqDecision cursor_ret.
Proof. solve_decision. Defined.

Definition get_cursor {A} (f : cursor_t -> A) : tm A := get_ (fun t => f (terminal_cursor t)).
Definition upd_cursor (f : cursor_t -> cursor_t) : tm unit :=
  mod_ (fun t => set_cursor (f (terminal_cursor t)) t).
Definition show_cursor : tm unit := do c <- get_cursor (fun c => c); vga_set_cursor (c_x c) (c_y c).

Definition cursor_setdefault : tm unit :=
  upd_cursor (fun _ => mkCursor 0 0 true NO_LINE NO_LINE 0 0) ;;; vga_set_cursor 0 0.

Definition cursor_newline : tm cursor_ret :=
  do c <- get_cursor (fun c => c);
  let bottom := c_y c =? VGA_HEIGHT in
  upd_cursor (set_xy 0 (if bottom then c_y c else c_y c +w 1)) ;;;
  show_cursor ;;;
  ret_ (if bottom then MAX_HEIGHT else SUCCESS).

Definition cursor_newline_kbd : tm cursor_ret :=
  do c <- get_cursor (fun c => c);
  let bottom := c_y c =? VGA_HEIGHT in
  let y := if bottom then c_y c else line_y c +w chars_ctr c / VGA_WIDTH +w 1 in
  upd_cursor (fun c => set_ctrs 0 0 (set_line 0 y (set_xy 0 y c))) ;;;
  show_cursor ;;;
  ret_ (if bottom then MAX_HEIGHT else SUCCESS).

Definition cursor_nextchar : tm cursor_ret :=
  do c <- get_cursor (fun c => c);
  do r <- (if c_x c =? VGA_WIDTH - 1 then cursor_newline
           else upd_cursor (set_xy (c_x c +w 1) (c_y c)) ;;; ret_ SUCCESS);
  show_cursor ;;;
  ret_ r.

Definition cursor_nextchar_kbd : tm cursor_ret :=
  upd_cursor (fun c => set_ctrs (position_ctr c +w 1) (chars_ctr c +w 1) c) ;;;
  cursor_nextchar.

Definition cursor_move_left (max : bool) : tm unit :=
  do c <- get_cursor (fun c => c);
  if position_ctr c =? 0 then ret_ tt
  else
    (if max then upd_cursor (fun c => set_ctrs 0 (chars_ctr c) (set_xy (line_x c) (line_y c) c))
     else
       (if (c_x c =? 0) && (0 <? c_y c)
        then upd_cursor (set_xy (VGA_WIDTH - 1) (c_y c -w 1))
        else upd_cursor (set_xy (c_x c -w 1) (c_y c))) ;;;
       upd_cursor (fun c => set_ctrs (position_ctr c -w 1) (chars_ctr c) c)) ;;;
    show_cursor.

Definition cursor_move_right (max : bool) : tm unit :=
  do c <- get_cursor (fun c => c);
  if position_ctr c =? chars_ctr c then ret_ tt
  else
    (if max then
       upd_cursor (fun c => set_ctrs (chars_ctr c) (chars_ctr c)
         (set_xy (line_x c +w chars_ctr c mod VGA_WIDTH) (line_y c +w chars_ctr c / VGA_WIDTH) c))
     else
       (if c_x c =? VGA_WIDTH - 1
        then upd_cursor (set_xy 0 (c_y c +w 1))
        else upd_cursor (set_xy (c_x c +w 1) (c_y c))) ;;;
       upd_cursor (fun c => set_ctrs (position_ctr c +w 1) (chars_ctr c) c)) ;;;
    show_cursor.

Definition cursor_remove_char : tm unit :=
  upd_cursor (fun c => set_ctrs (position_ctr c) (if 0 <? chars_ctr c then chars_ctr c - 1 else chars_ctr c) c) ;;;
  upd_cursor (fun c => set_ctrs (if chars_ctr c <? position_ctr c then chars_ctr c else position_ctr c) (chars_ctr c) c).

(** ** terminal.c *)

Definition _terminal_scroll : tm unit :=
  for_ (Z.to_nat VGA_HEIGHT) 0 (fun i => vga_move_row_up (i + 1)) ;;;
  do color <- get_ terminal_color;
  vga_clear_row VGA_HEIGHT color.

Definition _terminal_putentry (c : Z) : tm unit :=
  do t <- get_ (fun t => t);
  vga_put_entry (c_x (terminal_cursor t)) (c_y (terminal_cursor t)) (terminal_color t) c.

Definition copy_or_panic (col row len : Z) : tm unit :=
  do r <- vga_copy_line col row len;
  when r <? 0 then_ panic "[BUG] Terminal tried to copy line outside of vga buffer!\n".

Definition paste_or_panic (col row len : Z) (buffer : list Z) : tm unit :=
  do color <- get_ terminal_color;
  do r <- vga_paste_line col row len buffer color;
  when r <? 0 then_ panic "[BUG] Terminal tried to paste line outside of vga buffer!\n".

Definition set_stdin_byte (idx b : Z) : tm unit := fun t =>
  if decide (0 <= idx < Z.of_nat (length (stdin_line t)))
  then Ok (tt, set_stdin (<[Z.to_nat idx := b]> (stdin_line t)) (stdin_len t) t)
  else Fault.

Definition _terminal_remove_from_inputline (idx : Z) : tm unit :=
  do c <- get_cursor (fun c => c);
  copy_or_panic (line_x c) (line_y c) (chars_ctr c) ;;;
  mod_ (fun t => set_stdin (stdin_line t) (chars_ctr c) t) ;;;
  set_stdin_byte idx 0 ;;;
  do l <- get_ stdin_line;
  paste_or_panic (line_x c) (line_y c) (chars_ctr c) l.

Definition _terminal_insert_into_inputline (ch idx : Z) : tm unit :=
  do c <- get_cursor (fun c => c);
  copy_or_panic (line_x c) (line_y c) (chars_ctr c) ;;;
  _terminal_putentry ch ;;;
  do l <- get_ stdin_line;
  paste_or_panic (position_ctr c +w line_x c +w 1) (line_y c) (chars_ctr c -w position_ctr c) (drop (Z.to_nat idx) l) ;;;
  mod_ (fun t => set_stdin (stdin_line t) (chars_ctr c +w 1) t).

Definition _terminal_command_buff_clear : tm unit := mod_ (set_command (replicate (Z.to_nat COMM_LEN) 0) 0).

Definition terminal_clear : tm unit :=
  for_ (Z.to_nat VGA_HEIGHT) 0 (fun y => do color <- get_ terminal_color; vga_clear_row y color) ;;;
  cursor_setdefault.

Definition _terminal_execute_command : tm unit :=
  do b <- get_ command_buff;
  when default 0 (b !! 1%nat) =? COMM_TERM_CLR then_ terminal_clear.

Definition terminal_init : tm unit :=
  mod_ (set_color (vga_entry_color 2 0)) ;;;
  mod_ (fun t => set_command (command_buff t) 0 t) ;;;
  mod_ (fun t => set_stdin (stdin_line t) 0 t) ;;;
  terminal_clear ;;;
  mod_ (set_init true).

Definition terminal_putchar (c : Z) : tm unit :=
  do t <- get_ (fun t => t);
  if (c =? COMM_START) || (0 <? command_idx t) then
    if command_idx t =? COMM_LEN then _terminal_command_buff_clear
    else if c =? COMM_END then _terminal_execute_command ;;; _terminal_command_buff_clear
    else
      (fun t => if decide (0 <= command_idx t < Z.of_nat (length (command_buff t)))
                then Ok (tt, set_command (<[Z.to_nat (command_idx t) := c]> (command_buff t)) (command_idx t +w 1) t)
                else Fault)
  else
    do r <- (if c =? 10 then cursor_newline
             else _terminal_putentry c ;;; cursor_nextchar);
    (when bool_decide (r = MAX_HEIGHT) then_ _terminal_scroll) ;;;
    upd_cursor (set_line NO_LINE NO_LINE).

Definition BACKSPACE : Z := 14.
Definition HOME : Z := 20.
Definition END : Z := 21.
Definition DEL : Z := 22.
Definition ARR_LEFT : Z := 23.
Definition ARR_RIGHT : Z := 24.

(** The finished line, if the character was Enter. *)
Definition terminal_putchar_from_keyboard (c : Z) : tm (option (list Z * Z)) :=
  do c0 <- get_cursor (fun c => c);
  (when (line_y c0 =? NO_LINE) && (line_x c0 =? NO_LINE) then_ upd_cursor (set_line (c_x c0) (c_y c0))) ;;;
  do cur <- get_cursor (fun c => c);
  if (0x20 <=? c) && (c <=? 0x7e) then
    (if position_ctr cur <? chars_ctr cur
     then _terminal_insert_into_inputline c (position_ctr cur)
     else _terminal_putentry c) ;;;
    do r <- cursor_nextchar_kbd;
    (when bool_decide (r = MAX_HEIGHT) then_
       (_terminal_scroll ;;; upd_cursor (fun c => set_line (line_x c) (line_y c -w 1) c))) ;;;
    ret_ None
  else if c =? ARR_LEFT then cursor_move_left false ;;; ret_ None
  else if c =? HOME then cursor_move_left true ;;; ret_ None
  else if c =? ARR_RIGHT then cursor_move_right false ;;; ret_ None
  else if c =? END then cursor_move_right true ;;; ret_ None
  else if c =? 10 then
    copy_or_panic (line_x cur) (line_y cur) (chars_ctr cur) ;;;
    mod_ (fun t => set_stdin (stdin_line t) (chars_ctr cur) t) ;;;
    do r <- cursor_newline_kbd;
    (when bool_decide (r = MAX_HEIGHT) then_ _terminal_scroll) ;;;
    do t <- get_ (fun t => t);
    ret_ (Some (stdin_line t, stdin_len t))
  else if c =? BACKSPACE then
    (when negb ((chars_ctr cur =? 0) || (position_ctr cur =? 0)) then_
       (_terminal_remove_from_inputline (position_ctr cur -w 1) ;;;
        cursor_move_left false ;;;
        cursor_remove_char)) ;;;
    ret_ None
  else if c =? DEL then
    (when negb ((chars_ctr cur =? 0) || (chars_ctr cur =? position_ctr cur)) then_
       (_terminal_remove_from_inputline (position_ctr cur) ;;; cursor_remove_char)) ;;;
    ret_ None
  else ret_ None.

Definition terminal_writestring (string : list Z) : tm unit :=
  do len <- lift_opt (strlen string);
  for_ (Z.to_nat len) 0 (fun i => terminal_putchar (default 0 (string !! Z.to_nat i))).

(** ** keyboard.c *)

Definition ESC : Z := 1.
Definition F (n : Z) : Z := n + 1.
Definition SHIFT : Z := 15.
Definition CTRL : Z := 16.
Definition ALT : Z := 17.
Definition CAPSLOCK : Z := 18.
Definition TAB : Z := 19.
Definition ARR_UP : Z := 25.
Definition ARR_DOWN : Z := 26.

Definition keys (s : string) : list Z := (fun a => Z.of_nat (Ascii.nat_of_ascii a)) <$> String.list_ascii_of_string s.

Definition pad128 (l : list Z) : list Z := l ++ replicate (128 - length l) 0.

Definition layout : list Z := Eval vm_compute in pad128
  ([0; ESC] ++ keys "1234567890-=" ++ [BACKSPACE; TAB] ++ keys "qwertyuiop[]" ++ [10; CTRL]
   ++ keys "asdfghjkl;'`" ++ [SHIFT; 92] ++ keys "zxcvbnm,./" ++ [SHIFT; 0; ALT; 32; CAPSLOCK]
   ++ (F <$> [1; 2; 3; 4; 5; 6; 7; 8; 9; 10]) ++ [0; 0; HOME; ARR_UP; 0; 0; ARR_LEFT; 0; ARR_RIGHT; 0;
   END; ARR_DOWN; 0; 0; DEL; 0; 0; 0; F 11; F 12]).

Definition capital_layout : list Z := Eval vm_compute in pad128
  ([0; ESC] ++ keys "!@#$%^&*()_+" ++ [BACKSPACE; TAB] ++ keys "QWERTYUIOP{}" ++ [10; CTRL]
   ++ keys "ASDFGHJKL:" ++ [34] ++ keys "~" ++ [SHIFT; 124] ++ keys "ZXCVBNM<>?" ++ [SHIFT; 0; ALT; 32; CAPSLOCK]
   ++ (F <$> [1; 2; 3; 4; 5; 6; 7; 8; 9; 10]) ++ [0; 0; HOME; ARR_UP; 0; 0; ARR_LEFT; 0; ARR_RIGHT; 0;
   END; ARR_DOWN; 0; 0; DEL; 0; 0; 0; F 11; F 12]).

Record keyboard := mkKbd { shift_hold : bool; ctrl_hold : bool; alt_hold : bool; capslock_on : bool }.

Definition key_of (l : list Z) (ch : Z) : Z := default 0 (l !! Z.to_nat ch).

(** [keyboard_isr] on the scan code [ch]: the new modifier state and the
    character handed to the terminal, if any. *)
Definition keyboard_isr (ch : Z) (k : keyboard) : keyboard * option Z :=
  if ch <? 128 then
    let key := key_of layout ch in
    if key =? SHIFT then (mkKbd true (ctrl_hold k) (alt_hold k) (capslock_on k), None)
    else if key =? CTRL then (mkKbd (shift_hold k) true (alt_hold k) (capslock_on k), None)
    else if key =? ALT then (mkKbd (shift_hold k) (ctrl_hold k) true (capslock_on k), None)
    else if key =? CAPSLOCK then (mkKbd (shift_hold k) (ctrl_hold k) (alt_hold k) (negb (capslock_on k)), None)
    else (k, Some (if shift_hold k || capslock_on k then key_of capital_layout ch else key))
  else
    let key := key_of layout (ch - 128) in
    if key =? SHIFT then (mkKbd false (ctrl_hold k) (alt_hold k) (capslock_on k), None)
    else if key =? CTRL then (mkKbd (shift_hold k) false (alt_hold k) (capslock_on k), None)
    else if key =? ALT then (mkKbd (shift_hold k) (ctrl_hold k) false (capslock_on k), None)
    else (k, None).
