(* ===== verification/TerminalSpec.v ===== *)
(** * Correctness of the console: what is written where, and the cursor *)

From S2P Require Import Prelude Klib Terminal.

#[local] Open Scope Z_scope.

(** The 25 rows of 80 cells the adapter shows. *)
Definition SCREEN : Z := (VGA_HEIGHT + 1) * VGA_WIDTH.

(** The cursor is on the screen and the command buffer is consistent. *)
Record term_ok (t : terminal_t) : Prop := {
  to_x : 0 <= c_x (terminal_cursor t) < VGA_WIDTH;
  to_y : 0 <= c_y (terminal_cursor t) <= VGA_HEIGHT;
  to_buff : length (command_buff t) = Z.to_nat COMM_LEN;
  to_idx : 0 <= command_idx t <= COMM_LEN;
}.

(** Only the screen's cells differ. *)
Definition off_screen_same (t t' : terminal_t) : Prop :=
  forall i, ~ (0 <= i < SCREEN) -> cell_at t' i = cell_at t i.

Lemma off_screen_refl t : off_screen_same t t.
Proof. done. Qed.

Lemma off_screen_trans t1 t2 t3 : off_screen_same t1 t2 -> off_screen_same t2 t3 -> off_screen_same t1 t3.
Proof. intros H1 H2 i Hi. rewrite H2, H1; done. Qed.

(** Everything but the cells. *)
Definition same_but_cells (t t' : terminal_t) : Prop := set_cells ∅ t' = set_cells ∅ t.

Lemma cell_at_put t i v j : cell_at (set_cells (<[i := v]> (cells t)) t) j = if decide (j = i) then v else cell_at t j.
Proof. unfold cell_at. cbn. rewrite lookup_insert. repeat case_decide; subst; done. Qed.

Lemma same_put t0 t i v : same_but_cells t0 t -> same_but_cells t0 (set_cells (<[i := v]> (cells t)) t).
Proof. done. Qed.

Section rows.
Context (t : terminal_t).

Lemma fill_row_wp src color c : wp (_fill_row src color c) (fun _ t' => same_but_cells t t' /\
  forall i, cell_at t' i = if decide (src <= i < src + VGA_WIDTH) then vga_entry c color else cell_at t i) t.
Proof.
  unfold _fill_row.
  pose (I k t' := same_but_cells t t' /\
    forall i, cell_at t' i = if decide (src <= i < src + k) then vga_entry c color else cell_at t i).
  apply (wp_for _ I).
  - intros j t1 Hj [Hs Hc]. unfold put_cell. apply wp_mod. split; [by apply same_put|].
    intros i. rewrite cell_at_put, Hc. repeat case_decide; try lia; done.
  - split; [done|]. intros i. case_decide; [lia|done].
Qed.

(** The row moves as a whole: source and destination do not overlap. *)
Lemma mov_row_wp src dst : dst + VGA_WIDTH <= src -> wp (_mov_row src dst) (fun _ t' => same_but_cells t t' /\
  forall i, cell_at t' i = if decide (dst <= i < dst + VGA_WIDTH) then cell_at t (src + (i - dst)) else cell_at t i) t.
Proof.
  intros Hd. unfold _mov_row.
  pose (I k t' := same_but_cells t t' /\
    forall i, cell_at t' i = if decide (dst <= i < dst + k) then cell_at t (src + (i - dst)) else cell_at t i).
  apply (wp_for _ I).
  - intros j t1 Hj [Hs Hc]. apply wp_bind, wp_get. unfold put_cell. apply wp_mod. split; [by apply same_put|].
    unfold VGA_WIDTH in *. intros i. rewrite cell_at_put, !Hc. repeat case_decide; try lia; try done. subst. f_equal. lia.
  - split; [done|]. intros i. case_decide; [lia|done].
Qed.
End rows.

Lemma same_trans t1 t2 t3 : same_but_cells t1 t2 -> same_but_cells t2 t3 -> same_but_cells t1 t3.
Proof. unfold same_but_cells. congruence. Qed.

Lemma same_color t t' : same_but_cells t t' -> terminal_color t' = terminal_color t.
Proof. intros E. exact (f_equal terminal_color E). Qed.

Lemma term_ok_same t t' : same_but_cells t t' -> term_ok t -> term_ok t'.
Proof.
  intros E [????]. pose proof (f_equal terminal_cursor E) as E1. pose proof (f_equal command_buff E) as E2.
  pose proof (f_equal command_idx E) as E3. cbn in E1, E2, E3. split; by rewrite ?E1, ?E2, ?E3.
Qed.

Lemma row_small row : 0 <= row <= VGA_HEIGHT -> row *w VGA_WIDTH = row * VGA_WIDTH.
Proof. unfold VGA_HEIGHT, VGA_WIDTH. intros. apply w32_small. lia. Qed.

Lemma clear_row_wp t row color : 0 <= row <= VGA_HEIGHT ->
  wp (vga_clear_row row color) (fun _ t' => same_but_cells t t' /\
    forall i, cell_at t' i = if decide (row * VGA_WIDTH <= i < row * VGA_WIDTH + VGA_WIDTH)
                             then vga_entry 32 color else cell_at t i) t.
Proof. intros Hr. unfold vga_clear_row. rewrite row_small by done. apply fill_row_wp. Qed.

(** ** Scrolling *)

Lemma scroll_wp t : wp _terminal_scroll (fun _ t' => same_but_cells t t' /\
  forall i, cell_at t' i =
    if decide (0 <= i < VGA_HEIGHT * VGA_WIDTH) then cell_at t (i + VGA_WIDTH)
    else if decide (VGA_HEIGHT * VGA_WIDTH <= i < SCREEN) then vga_entry 32 (terminal_color t)
    else cell_at t i) t.
Proof.
  unfold _terminal_scroll. apply wp_bind.
  pose (I k t' := same_but_cells t t' /\
    forall i, cell_at t' i = if decide (0 <= i < k * VGA_WIDTH) then cell_at t (i + VGA_WIDTH) else cell_at t i).
  eapply wp_mono.
  { apply (wp_for _ I).
    - intros j t1 Hj [Hs Hc]. unfold vga_move_row_up, VGA_HEIGHT in *.
      destruct (Z.ltb_spec 0 (j + 1)); [|lia].
      rewrite (w32_small (j + 1 - 1)), (row_small (j + 1)) by (unfold VGA_HEIGHT; lia).
      replace (j + 1 - 1) with j by lia. rewrite row_small by (unfold VGA_HEIGHT; lia). unfold VGA_WIDTH in *.
      eapply wp_mono; [apply mov_row_wp; unfold VGA_WIDTH; lia|].
      intros [] t2 [Hs2 Hc2]. split; [by eapply same_trans|]. intros i. rewrite Hc2, !Hc. unfold VGA_WIDTH.
      repeat case_decide; try lia; try done. f_equal. lia.
    - split; [done|]. intros i. case_decide; [unfold VGA_WIDTH in *; lia|done]. }
  intros [] t1 [Hs Hc]. apply wp_bind, wp_get. rewrite (same_color _ _ Hs).
  eapply wp_mono; [apply clear_row_wp; unfold VGA_HEIGHT; lia|].
  intros [] t2 [Hs2 Hc2]. split; [by eapply same_trans|]. intros i. rewrite Hc2, !Hc.
  unfold SCREEN, VGA_HEIGHT, VGA_WIDTH in *. repeat case_decide; try lia; done.
Qed.

(** [terminal_clear] blanks the rows before the last one. *)
Lemma clear_wp t : wp terminal_clear (fun _ t' => same_but_cells (set_hw 0 (set_cursor (mkCursor 0 0 true NO_LINE NO_LINE 0 0) t)) t' /\
  forall i, cell_at t' i = if decide (0 <= i < VGA_HEIGHT * VGA_WIDTH) then vga_entry 32 (terminal_color t) else cell_at t i) t.
Proof.
  unfold terminal_clear. apply wp_bind.
  pose (I k t' := same_but_cells t t' /\
    forall i, cell_at t' i = if decide (0 <= i < k * VGA_WIDTH) then vga_entry 32 (terminal_color t) else cell_at t i).
  eapply wp_mono.
  { apply (wp_for _ I).
    - intros j t1 Hj [Hs Hc]. apply wp_bind, wp_get. rewrite (same_color _ _ Hs). unfold VGA_HEIGHT in *.
      eapply wp_mono; [apply clear_row_wp; unfold VGA_HEIGHT; lia|].
      intros [] t2 [Hs2 Hc2]. split; [by eapply same_trans|]. intros i. rewrite Hc2, !Hc. unfold VGA_WIDTH.
      repeat case_decide; try lia; done.
    - split; [done|]. intros i. case_decide; [unfold VGA_WIDTH in *; lia|done]. }
  intros [] t1 [Hs Hc]. unfold cursor_setdefault, upd_cursor, vga_set_cursor. wpsteps. split.
  - exact (f_equal (fun t => set_hw 0 (set_cursor (mkCursor 0 0 true NO_LINE NO_LINE 0 0) t)) Hs).
  - intros i. by rewrite <- Hc.
Qed.

(** ** Printing *)

Lemma newline_wp t : term_ok t -> wp cursor_newline (fun _ t' => term_ok t' /\ cells t' = cells t /\
  terminal_color t' = terminal_color t) t.
Proof.
  intros [Hx Hy Hb Hi]. unfold cursor_newline, get_cursor, upd_cursor, show_cursor, vga_set_cursor. wpsteps.
  split; [|done]. unfold VGA_HEIGHT, VGA_WIDTH in *.
  destruct (Z.eqb_spec (c_y (terminal_cursor t)) 24) as [E|E]; (split; [| |done|done]); cbn; unfold VGA_HEIGHT, VGA_WIDTH;
    rewrite ?w32_small by lia; lia.
Qed.

Lemma nextchar_wp t : term_ok t -> wp cursor_nextchar (fun _ t' => term_ok t' /\ cells t' = cells t /\
  terminal_color t' = terminal_color t) t.
Proof.
  intros Hok. pose proof Hok as [Hx Hy Hb Hi]. unfold cursor_nextchar, get_cursor. wpsteps.
  destruct (Z.eqb_spec (c_x (terminal_cursor t)) (VGA_WIDTH - 1)).
  - eapply wp_mono; [by apply newline_wp|]. intros r t1 (Hok1 & Hc & Hcol). unfold show_cursor, vga_set_cursor, get_cursor.
    wpsteps. split; [|done]. destruct Hok1. done.
  - unfold show_cursor, upd_cursor, vga_set_cursor, get_cursor. wpsteps. split; [|done].
    unfold VGA_WIDTH in *. rewrite (w32_small (c_x _ + 1)) by lia. split; cbn; unfold VGA_WIDTH in *; done || lia.
Qed.

Lemma cells_off t t' : cells t' = cells t -> off_screen_same t t'.
Proof. intros E i _. unfold cell_at. by rewrite E. Qed.

Lemma scroll_off t : wp _terminal_scroll (fun _ t' => same_but_cells t t' /\ off_screen_same t t') t.
Proof.
  eapply wp_mono; [apply scroll_wp|]. intros [] t' [Hs Hc]. split; [done|]. intros i Hi. rewrite Hc.
  unfold SCREEN, VGA_HEIGHT, VGA_WIDTH in *. repeat case_decide; try lia; done.
Qed.

Lemma putentry_wp t c : term_ok t -> wp (_terminal_putentry c) (fun _ t' => same_but_cells t t' /\
  forall i, cell_at t' i = if decide (i = c_y (terminal_cursor t) * VGA_WIDTH + c_x (terminal_cursor t))
                           then vga_entry c (terminal_color t) else cell_at t i) t.
Proof.
  intros [Hx Hy _ _]. unfold _terminal_putentry, vga_put_entry, put_cell. wpsteps.
  rewrite row_small by done. unfold VGA_HEIGHT, VGA_WIDTH in *. rewrite w32_small by lia.
  split; [by apply same_put|]. intros i. apply cell_at_put.
Qed.

Lemma putchar_wp t c : term_ok t -> wp (terminal_putchar c) (fun _ t' => term_ok t' /\ off_screen_same t t') t.
Proof.
  intros Hok. unfold terminal_putchar. wpsteps.
  destruct ((c =? COMM_START) || (0 <? command_idx t)).
  - destruct (Z.eqb_spec (command_idx t) COMM_LEN).
    { unfold _terminal_command_buff_clear. wpsteps. split; [|by apply cells_off]. by destruct Hok; split. }
    destruct (c =? COMM_END).
    + unfold _terminal_execute_command, _terminal_command_buff_clear. wpsteps.
      destruct (_ =? COMM_TERM_CLR).
      * eapply wp_mono; [apply clear_wp|]. intros [] t1 [Hs Hc]. wpsteps. split.
        { pose proof (f_equal terminal_cursor Hs) as E. cbn in E. split; cbn; rewrite ?E; cbn; unfold VGA_HEIGHT, VGA_WIDTH, COMM_LEN; try lia; done. }
        intros i Hi. change (cell_at t1 i = cell_at t i). rewrite Hc. unfold SCREEN, VGA_HEIGHT, VGA_WIDTH in *. case_decide; [lia|done].
      * wpsteps. split; [|by apply cells_off]. by destruct Hok; split.
    + destruct Hok as [Hx Hy Hb Hi]. unfold wp. unfold COMM_LEN in *. rewrite decide_True by (rewrite Hb; lia).
      split; [|by apply cells_off]. split; cbn; rewrite ?length_insert; try done. rewrite w32_small by lia. unfold COMM_LEN. lia.
  - apply wp_bind. eapply (wp_mono _ (fun _ t1 => term_ok t1 /\ off_screen_same t t1)).
    + destruct (c =? 10).
      * eapply wp_mono; [by apply newline_wp|]. intros r t1 (? & ? & _). split; [done|by apply cells_off].
      * apply wp_bind. eapply wp_mono; [by apply putentry_wp|]. intros [] t1 [Hs Hc].
        eapply wp_mono; [apply nextchar_wp; by eapply term_ok_same|]. intros r t2 (? & Hc2 & _). split; [done|].
        eapply off_screen_trans; [|by apply cells_off]. intros i Hi. rewrite Hc.
        destruct Hok as [Hx Hy _ _]. unfold SCREEN, VGA_HEIGHT, VGA_WIDTH in *. case_decide; [lia|done].
    + intros r t1 [Hok1 Ho1]. apply wp_bind.
      eapply (wp_mono _ (fun _ t2 => term_ok t2 /\ off_screen_same t t2)).
      * destruct (bool_decide _); [|by apply wp_ret]. eapply wp_mono; [apply scroll_off|].
        intros [] t2 [Hs2 Ho2]. split; [by eapply term_ok_same|by eapply off_screen_trans].
      * intros [] t2 [Hok2 Ho2]. unfold upd_cursor. wpsteps. split; [|done]. by destruct Hok2; split.
Qed.

Lemma writestring_wp t s name : term_ok t -> cstr s name ->
  wp (terminal_writestring s) (fun _ t' => term_ok t' /\ off_screen_same t t') t.
Proof.
  intros Hok Hs. unfold terminal_writestring. apply wp_bind. unfold wp at 1, lift_opt. rewrite (strlen_cstr _ _ Hs).
  apply (wp_for _ (fun _ t' => term_ok t' /\ off_screen_same t t')); [|done].
  intros j t1 _ [Hok1 Ho1]. eapply wp_mono; [by apply putchar_wp|].
  intros [] t2 [? ?]. split; [done|by eapply off_screen_trans].
Qed.

(** ** Properties *)

(** C40: whatever bytes a program prints, commands included, printing always
    returns, the cursor stays on the 25 visible rows, and no cell outside the
    screen is written. *)
Theorem print_stays_on_screen t s name : term_ok t -> cstr s name ->
  exists t', terminal_writestring s t = Ok (tt, t') /\ term_ok t' /\ off_screen_same t t'.
Proof.
  intros Hok Hs. destruct (wp_run _ _ _ (writestring_wp t s name Hok Hs)) as ([] & t' & ? & ?). eauto.
Qed.

Definition run {S A} (m : M S A) (s : S) : S := match m s with Ok (_, s') => s' | _ => s end.

(** A freshly initialised terminal. *)
Definition demo_term : terminal_t := run terminal_init terminal_boot.

Lemma demo_term_ok : term_ok demo_term.
Proof. split; vm_compute; done || (split; done || discriminate). Qed.

Lemma print_stays_on_screen_witness :
  exists t', terminal_writestring [72; 105; 10; 0xb1; 0x1c; 0xff; 33; 0] demo_term = Ok (tt, t') /\ term_ok t'.
Proof.
  destruct (print_stays_on_screen demo_term [72; 105; 10; 0xb1; 0x1c; 0xff; 33; 0] [72; 105; 10; 0xb1; 0x1c; 0xff; 33])
    as (t' & E & Hok & _).
  - exact demo_term_ok.
  - split; [apply (bool_decide_unpack _); vm_compute; done|by exists []].
  - exists t'. split; [exact E|exact Hok].
Defined.

(** A line feed on the last row scrolls the screen exactly: every row
    takes the content of the row below, the last row becomes blank in the
    current colour, and the cursor goes to its start. *)
Lemma newline_at_bottom_scrolls t :
  command_idx t = 0 -> c_y (terminal_cursor t) = VGA_HEIGHT ->
  exists t', terminal_putchar 10 t = Ok (tt, t') /\
    c_x (terminal_cursor t') = 0 /\ c_y (terminal_cursor t') = VGA_HEIGHT /\
    forall row col, 0 <= row <= VGA_HEIGHT -> 0 <= col < VGA_WIDTH ->
      cell_at t' (row * VGA_WIDTH + col) =
        if decide (row < VGA_HEIGHT) then cell_at t ((row + 1) * VGA_WIDTH + col)
        else vga_entry 32 (terminal_color t).
Proof.
  intros Hi Hy.
  assert (W : wp (terminal_putchar 10) (fun _ t' => c_x (terminal_cursor t') = 0 /\
    c_y (terminal_cursor t') = VGA_HEIGHT /\ forall row col, 0 <= row <= VGA_HEIGHT -> 0 <= col < VGA_WIDTH ->
      cell_at t' (row * VGA_WIDTH + col) = if decide (row < VGA_HEIGHT) then cell_at t ((row + 1) * VGA_WIDTH + col)
        else vga_entry 32 (terminal_color t)) t).
  { unfold terminal_putchar. wpsteps. rewrite Hi. cbn [Z.ltb Z.compare orb Z.eqb Pos.eqb COMM_START].
    unfold cursor_newline, show_cursor, get_cursor, upd_cursor, vga_set_cursor. wpsteps. rewrite Hy. cbn [Z.eqb VGA_HEIGHT Pos.eqb].
    wpsteps. rewrite bool_decide_true by done. eapply wp_mono; [apply scroll_wp|]. intros [] t1 [Hs Hc]. wpsteps.
    pose proof (f_equal terminal_cursor Hs) as E. cbn in E. split_and!; [by rewrite E|by rewrite E|].
    intros row col Hr Hcol. change (cell_at t1 (row * VGA_WIDTH + col) = if decide (row < VGA_HEIGHT)
      then cell_at t ((row + 1) * VGA_WIDTH + col) else vga_entry 32 (terminal_color t)).
    rewrite Hc. unfold SCREEN, VGA_HEIGHT, VGA_WIDTH in *. cbn [terminal_color set_hw set_cursor].
    repeat case_decide; try lia; try done. unfold cell_at. cbn. do 2 f_equal. lia. }
  destruct (wp_run _ _ _ W) as ([] & t' & ? & ?). eauto.
Qed.

Lemma newline_at_bottom_scrolls_witness : exists t', terminal_putchar 10
    (set_cursor (mkCursor 5 24 true NO_LINE NO_LINE 0 0) demo_term) = Ok (tt, t') /\ c_y (terminal_cursor t') = 24.
Proof.
  destruct (newline_at_bottom_scrolls (set_cursor (mkCursor 5 24 true NO_LINE NO_LINE 0 0) demo_term))
    as (t' & E & _ & Hy & _); [vm_compute; reflexivity|reflexivity|].
  exists t'. split; [exact E|exact Hy].
Defined.

(** Enter pressed while the cursor is on an earlier row of an input line
    that reaches the last row puts the cursor on row 25, below the screen, and
    does not scroll: what is typed next is written outside the screen. *)
Lemma enter_leaves_screen t ch :
  c_y (terminal_cursor t) < VGA_HEIGHT -> 0 <= line_y (terminal_cursor t) ->
  line_y (terminal_cursor t) + chars_ctr (terminal_cursor t) / VGA_WIDTH = VGA_HEIGHT ->
  exists t', cursor_newline_kbd t = Ok (SUCCESS, t') /\ ~ term_ok t' /\
    forall t'', _terminal_putentry ch t' = Ok (tt, t'') ->
      cell_at t'' SCREEN = vga_entry ch (terminal_color t).
Proof.
  intros Hy Hl E. unfold cursor_newline_kbd, show_cursor, get_cursor, upd_cursor, vga_set_cursor, bind_, get_, mod_, ret_.
  destruct (Z.eqb_spec (c_y (terminal_cursor t)) VGA_HEIGHT) as [E'|_]; [lia|].
  assert (E2 : line_y (terminal_cursor t) +w chars_ctr (terminal_cursor t) / VGA_WIDTH +w 1 = 25).
  { rewrite (w32_small (line_y _ + _)) by (rewrite E; unfold VGA_HEIGHT; lia). rewrite E. done. }
  rewrite E2. eexists. split; [reflexivity|]. split.
  - intros [_ Hy' _ _]. cbn in Hy'. unfold VGA_HEIGHT in Hy'. lia.
  - intros t'' Ht. unfold _terminal_putentry, vga_put_entry, put_cell, bind_, get_, mod_ in Ht. cbn in Ht.
    injection Ht as <-. unfold cell_at. cbn. by rewrite lookup_insert_eq.
Qed.

(** From a fresh terminal: 23 line feeds, 80 characters, Home. *)
Definition demo_long_line : terminal_t :=
  run (for_ 23 0 (fun _ => terminal_putchar 10) ;;;
       for_ 80 0 (fun _ => do _ <- terminal_putchar_from_keyboard 97; ret_ tt) ;;;
       do _ <- terminal_putchar_from_keyboard HOME; ret_ tt) demo_term.

Lemma enter_leaves_screen_witness : exists t', cursor_newline_kbd demo_long_line = Ok (SUCCESS, t') /\ ~ term_ok t'.
Proof.
  destruct (enter_leaves_screen demo_long_line 97) as (t' & E & Hno & _);
    [vm_compute; reflexivity|vm_compute; discriminate|vm_compute; reflexivity|].
  exists t'. split; [exact E|exact Hno].
Defined.

(** The code of F9 is that of the line feed, so F9 (scan code 67) types what
    Enter (scan code 28) does. *)
Lemma f9_is_enter k : keyboard_isr 67 k = keyboard_isr 28 k.
Proof. unfold keyboard_isr. cbn. by destruct (shift_hold k || capslock_on k). Qed.
