(* ===== verification/Kprintf.v ===== *)
(** * Formatted output ([src/src/kernel/klib/kprintf.c], [panic.c])

    [_itoa] builds a numeral in front of the digits it already has, in a
    20-byte buffer; [kprintf] interprets a format over a list of arguments.
    The properties relate a printed number to the integer it stands for. *)

From S2P Require Import Prelude Klib Terminal TerminalSpec.

#[local] Open Scope Z_scope.

(** A C array written by index. *)
Definition arr := M (list Z).

Definition arr_get (i : Z) : arr Z := fun d =>
  match d !! Z.to_nat i with Some v => if 0 <=? i then Ok (v, d) else Fault | None => Fault end.

Definition arr_set (i v : Z) : arr unit := fun d =>
  if decide (0 <= i < Z.of_nat (length d)) then Ok (tt, <[Z.to_nat i := v]> d) else Fault.

(** Reinterpretation of a 32-bit result as [int]. *)
Definition int32 (z : Z) : Z := let r := z mod W32 in if r <? 0x80000000 then r else r - W32.

Definition _add_to_start (c last_idx : Z) : arr unit :=
  for_ (Z.to_nat last_idx) 0 (fun k =>
    do v <- arr_get (last_idx - k - 1); arr_set (last_idx - k) v) ;;;
  arr_set 0 c ;;;
  arr_set (last_idx + 1) 0.

Definition digit_char (rest : Z) : Z := if 9 <? rest then rest + 55 else rest + 48.

Definition _itoa (n base : Z) : arr unit :=
  (when n =? 0 then_ _add_to_start 48 0) ;;;
  let neg := n <? 0 in
  let n := if neg then int32 (n * -1) else n in
  do ' (_, idx) <- loop 33 (fun l : Z * Z =>
    let '(n, idx) := l in
    if 0 <? n then
      _add_to_start (digit_char (n mod base)) idx ;;;
      ret_ (inl (n / base, idx + 1))
    else ret_ (inr (n, idx))) (n, 0);
  when neg then_ _add_to_start 45 idx.

Inductive va_arg := VInt (n : Z) | VStr (s : list Z).

(** [tmp] is the local buffer; a missing or mistyped argument is undefined. *)
Fixpoint kprintf_from (fmt : list Z) (args : list va_arg) (tmp : list Z) : tm unit :=
  let number base k := fun n : Z => fun t =>
    match _itoa n base tmp with
    | Ok (_, tmp') => (terminal_writestring tmp' ;;; k tmp') t
    | Panic e => Panic e
    | Fault => Fault
    | Hang => Hang
    end in
  match fmt with
  | [] => ret_ tt
  | [c] => if c =? 37 then ret_ tt else terminal_putchar c
  | c :: ((d :: rest') as rest) =>
      if c =? 37 then
        if d =? 37 then terminal_putchar 37 ;;; kprintf_from rest' args tmp
        else if d =? 100 then
          match args with VInt n :: args' => number 10 (kprintf_from rest' args') n | _ => fault end
        else if d =? 120 then
          match args with VInt n :: args' => number 16 (kprintf_from rest' args') n | _ => fault end
        else if d =? 115 then
          match args with VStr s :: args' => terminal_writestring s ;;; kprintf_from rest' args' tmp | _ => fault end
        else kprintf_from rest' args tmp
      else terminal_putchar c ;;; kprintf_from rest args tmp
  end.

Definition kprintf (fmt : list Z) (args : list va_arg) (tmp : list Z) : tm unit :=
  do init <- get_ is_initialized;
  (when negb init then_ terminal_init) ;;;
  do len <- lift_opt (strlen fmt);
  kprintf_from (take (Z.to_nat len) fmt) args tmp.

(** ** The numeral *)

Lemma arr_get_ok d i v : 0 <= i -> d !! Z.to_nat i = Some v -> arr_get i d = Ok (v, d).
Proof. intros Hi E. unfold arr_get. rewrite E. destruct (Z.leb_spec 0 i); [done|lia]. Qed.

Lemma arr_set_ok d i v : 0 <= i < Z.of_nat (length d) -> arr_set i v d = Ok (tt, <[Z.to_nat i := v]> d).
Proof. intros Hi. unfold arr_set. by rewrite decide_True. Qed.

(** The elements move up by one, from the end. *)
Lemma add_to_start_wp ds x y rest c : wp (_add_to_start c (Z.of_nat (length ds))) (fun _ d' =>
  d' = c :: ds ++ 0 :: rest) (ds ++ x :: y :: rest).
Proof.
  unfold _add_to_start. apply wp_bind. set (n := Z.of_nat (length ds)).
  pose (I k (d : list Z) := length d = length (ds ++ x :: y :: rest) /\
    forall j, d !! j = if decide (n - k < Z.of_nat j <= n) then (ds ++ x :: y :: rest) !! (j - 1)%nat
                       else (ds ++ x :: y :: rest) !! j).
  eapply wp_mono.
  { apply (wp_for _ I).
    - intros k d Hk [Hlen Hd]. rewrite length_app in Hlen. cbn in Hlen.
      destruct (lookup_lt_is_Some_2 d (Z.to_nat (n - k - 1)) ltac:(lia)) as [v Hv].
      apply wp_bind. eapply wp_intro; [apply arr_get_ok; [lia|exact Hv]|].
      eapply wp_intro; [apply arr_set_ok; lia|]. split; [by rewrite length_insert, length_app|].
      intros j. rewrite list_lookup_insert. case_decide as Hj.
      + destruct Hj as [<- _]. rewrite decide_True by lia. rewrite <- Hv, Hd, decide_False by lia. f_equal. lia.
      + rewrite Hd. repeat case_decide; try done; lia.
    - split; [done|]. intros j. by rewrite decide_False by lia. }
  intros [] d [Hlen Hd]. rewrite length_app in Hlen. cbn in Hlen.
  apply wp_bind. eapply wp_intro; [apply arr_set_ok; lia|].
  eapply wp_intro; [apply arr_set_ok; rewrite length_insert; lia|].
  apply list_eq. intros j. rewrite list_lookup_insert. case_decide as Hj.
  { destruct Hj as [<- _]. rewrite lookup_cons_ne_0 by lia. rewrite lookup_app_r by lia.
    replace (pred _ - length ds)%nat with 0%nat by lia. done. }
  rewrite list_lookup_insert. case_decide as Hj0; [destruct Hj0 as [<- _]; done|].
  rewrite length_insert in Hj. destruct j as [|j]; [exfalso; apply Hj0; lia|]. rewrite Hd. cbn [lookup list_lookup].
  case_decide.
  - replace (S j - 1)%nat with j by lia. by rewrite (lookup_app_l ds (x :: _)), (lookup_app_l ds (0 :: _)) by lia.
  - destruct (decide (j < length ds)%nat); [lia|]. destruct (decide (j = length ds)) as [->|]; [exfalso; apply Hj; lia|].
    change ((ds ++ x :: y :: rest) !! S j = (ds ++ 0 :: rest) !! j).
    rewrite !lookup_app_r by lia. destruct (j - length ds)%nat as [|k] eqn:E; [lia|].
    replace (S j - length ds)%nat with (S (S k)) by lia. done.
Qed.

Definition char_digit (c : Z) : Z := if c <=? 57 then c - 48 else c - 55.

(** The number a numeral denotes. *)
Definition value (base : Z) (s : list Z) : Z := fold_left (fun a c => a * base + char_digit c) s 0.

Definition atoi (base : Z) (s : list Z) : Z :=
  match s with c :: s' => if c =? 45 then - value base s' else value base s | [] => 0 end.

Lemma digit_roundtrip r : 0 <= r < 16 -> char_digit (digit_char r) = r /\ digit_char r <> 0 /\ digit_char r <> 45.
Proof.
  intros Hr. unfold char_digit, digit_char. destruct (Z.ltb_spec 9 r); [destruct (Z.leb_spec (r + 55) 57)|destruct (Z.leb_spec (r + 48) 57)]; lia.
Qed.

Lemma value_acc base ds a : fold_left (fun a c => a * base + char_digit c) ds a = a * base ^ Z.of_nat (length ds) + value base ds.
Proof.
  revert a. induction ds as [|c ds IH]; intros a; [cbn; unfold value; cbn; lia|].
  unfold value. cbn [fold_left]. rewrite !IH. cbn [length]. rewrite Nat2Z.inj_succ, Z.pow_succ_r by lia. lia.
Qed.

Lemma value_cons base c ds : value base (c :: ds) = char_digit c * base ^ Z.of_nat (length ds) + value base ds.
Proof. unfold value at 1. cbn [fold_left]. rewrite value_acc. lia. Qed.

(** The digit loop, from [ds] already produced. *)
Lemma itoa_loop_wp base : 10 <= base <= 16 -> forall n fuel k ds x rest,
  0 <= n -> n < 10 ^ Z.of_nat k -> (k <= length rest)%nat -> (k < fuel)%nat -> (n = 0 -> x = 0) ->
  45 ∉ ds -> 0 ∉ ds ->
  wp (loop fuel (fun l : Z * Z =>
    let '(n, idx) := l in
    if 0 <? n then
      _add_to_start (digit_char (n mod base)) idx ;;;
      ret_ (inl (n / base, idx + 1))
    else ret_ (inr (n, idx))) (n, Z.of_nat (length ds)))
   (fun r d => exists ds' rest', d = ds' ++ 0 :: rest' /\ r.2 = Z.of_nat (length ds') /\
      (length ds' + length rest' = length ds + length rest)%nat /\ (length ds' <= length ds + k)%nat /\
      45 ∉ ds' /\ 0 ∉ ds' /\
      value base ds' = n * base ^ Z.of_nat (length ds) + value base ds)
   (ds ++ x :: rest).
Proof.
  intros Hb n. induction n as [n IH] using (well_founded_induction (Z.lt_wf 0)).
  intros fuel k ds x rest Hn Hlt Hk Hf Hx H45 H0. destruct fuel as [|fuel]; [lia|]. cbn [loop].
  destruct (Z.ltb_spec 0 n) as [Hpos|Hz].
  - destruct k as [|k]; [cbn in Hlt; lia|]. destruct rest as [|y rest]; [cbn in Hk; lia|]. apply wp_bind, wp_bind.
    eapply wp_mono; [apply add_to_start_wp|]. intros [] d ->. apply wp_ret.
    pose proof (Z.mod_pos_bound n base ltac:(lia)) as Hmb.
    destruct (digit_roundtrip (n mod base)) as (Hd & Hd0 & Hd45); [lia|].
    assert (Hq : n / base < 10 ^ Z.of_nat k).
    { rewrite Nat2Z.inj_succ, Z.pow_succ_r in Hlt by lia.
      apply Z.div_lt_upper_bound; [lia|]. eapply Z.lt_le_trans; [exact Hlt|]. apply Z.mul_le_mono_nonneg_r; lia. }
    replace (Z.of_nat (length ds) + 1) with (Z.of_nat (length (digit_char (n mod base) :: ds))) by (cbn [length]; lia).
    assert (Hq0 : 0 <= n / base < n) by (split; [apply Z.div_pos; lia|apply Z.div_lt; lia]).
    cbn [length] in Hk.
    eapply wp_mono; [apply (IH (n / base) Hq0 fuel k (digit_char (n mod base) :: ds) 0 rest); try lia; try done;
      rewrite not_elem_of_cons; done|].
    intros [n' idx'] d' (ds' & rest' & -> & Hi & Hlen & Hle & Ha & Hb0 & Hv).
    exists ds', rest'. cbn [length] in Hlen, Hle. split_and!; try done; try (cbn [length]; lia).
    rewrite Hv, value_cons, Hd. cbn [length]. rewrite Nat2Z.inj_succ, Z.pow_succ_r by lia.
    rewrite (Z.div_mod n base) at 3 by lia. lia.
  - assert (n = 0) as -> by lia. rewrite (Hx eq_refl). apply wp_bind, wp_ret, wp_ret.
    exists ds, rest. split_and!; try done; lia.
Qed.

(** ** Properties *)

(** C37: printing and parsing are inverse: for every [int] but the smallest,
    in base 10 as in base 16, [_itoa] returns, terminates its string inside
    the 20-byte buffer, and the numeral denotes the number. *)
Theorem itoa_roundtrip n base tmp :
  - 0x80000000 < n < 0x80000000 -> base = 10 \/ base = 16 -> length tmp = 20%nat ->
  exists tmp' name, _itoa n base tmp = Ok (tt, tmp') /\ cstr tmp' name /\
    length tmp' = 20%nat /\ atoi base name = n.
Proof.
  intros Hn Hbase Hlen. assert (Hb : 10 <= base <= 16) by lia.
  destruct tmp as [|x tmp]; [done|]. cbn in Hlen. injection Hlen as Hlen.
  assert (W : wp (_itoa n base) (fun _ tmp' => exists name, cstr tmp' name /\ length tmp' = 20%nat /\ atoi base name = n) (x :: tmp)).
  2: { destruct (wp_run _ _ _ W) as ([] & tmp' & ? & name & ?). by exists tmp', name. }
  unfold _itoa. apply wp_bind. destruct (Z.eqb_spec n 0) as [->|Hn0].
  { destruct tmp as [|y tmp]; [done|]. eapply wp_mono; [apply (add_to_start_wp [] x y tmp)|]. intros [] d ->.
    exists [48]. split_and!; [|cbn in *; lia|done].
    split; [apply (bool_decide_unpack _); vm_compute; done|by exists tmp]. }
  apply wp_ret. set (m := if n <? 0 then _ else n).
  assert (Hm : m = Z.abs n).
  { subst m. destruct (Z.ltb_spec n 0); [|lia]. unfold int32. rewrite Z.mod_small by lia.
    destruct (Z.ltb_spec (n * -1) 0x80000000); lia. }
  rewrite Hm. clear m Hm. apply wp_bind.
  eapply wp_mono; [apply (itoa_loop_wp base Hb (Z.abs n) 33 10 [] x tmp); try lia; apply not_elem_of_nil|].
  intros [n' idx] d (ds & rest & -> & Hi & Hl & Hle & H45 & H0 & Hv). cbn in Hi, Hl, Hle, Hv. subst idx.
  replace (value base []) with 0 in Hv by done.
  destruct (Z.ltb_spec n 0) as [Hneg|Hpos].
  - destruct rest as [|z rest]; [cbn in Hl; lia|]. eapply wp_mono; [apply add_to_start_wp|]. intros [] d ->.
    exists (45 :: ds). split_and!; [split; [by rewrite not_elem_of_cons|by exists rest]| |cbn; lia].
    cbn [length]. rewrite length_app. cbn in Hl |- *. lia.
  - apply wp_ret. exists ds. split_and!; [split; [done|by exists rest]|rewrite length_app; cbn; lia|].
    unfold atoi. destruct ds as [|c ds]; [unfold value in *; cbn in *; lia|].
    assert (c <> 45) by (intros ->; apply H45; by left).
    rewrite (proj2 (Z.eqb_neq c 45)) by done. lia.
Qed.

Lemma itoa_roundtrip_witness : exists tmp' name, _itoa (-42) 10 (replicate 20 7) = Ok (tt, tmp') /\
  cstr tmp' name /\ atoi 10 name = -42.
Proof.
  destruct (itoa_roundtrip (-42) 10 (replicate 20 7) ltac:(lia) (or_introl eq_refl) eq_refl)
    as (tmp' & name & E & Hs & _ & Ha).
  exists tmp', name. split_and!; [exact E|exact Hs|exact Ha].
Defined.

(** The smallest [int] stays negative when its sign is turned: its numeral is
    a lone minus sign. *)
Lemma itoa_min : exists tmp', _itoa (-0x80000000) 10 (replicate 20 7) = Ok (tt, tmp') /\ cstr tmp' [45].
Proof.
  eexists. split; [vm_compute; reflexivity|].
  split; [apply (bool_decide_unpack _); vm_compute; done|]. by eexists.
Qed.
