(* ===== verification/Namei.v ===== *)
(** * Path names and the file tree ([src/src/kernel/vfs/namei.c], [vfs.h])

    Nodes live in a store indexed by address.  The children of a directory
    are a doubly linked list of siblings.  The operation pointers of a node
    are the driver whose function they point to.  Local arrays a routine
    leaves partly unwritten are arguments ([fname]). *)

From S2P Require Import Prelude Dlist Klib.

#[local] Open Scope Z_scope.

Inductive vfs_type := VFS_FILE | VFS_DIR | VFS_CHRDEV | VFS_BLKDEV | VFS_PIPE | VFS_SYMLINK | VFS_MNTPT.

#[global] Instance vfs_type_eq : EqDecision vfs_type.
Proof. solve_decision. Defined.

(** Who implements an operation: [Some Ramfs] in the field [op_read] is
    [&ramfs_read], and so on. *)
Inductive driver := Ramfs | Tarfs | DevZero | DevStdin | DevStdout.

#[global] Instance driver_eq : EqDecision driver.
Proof. solve_decision. Defined.

Record vfs_ops := mkOps {
  op_open : option driver; op_close : option driver; op_read : option driver;
  op_write : option driver; op_touch : option driver; op_remove : option driver;
  op_mkdir : option driver; op_rmdir : option driver; op_readdir : option driver;
}.

Definition no_ops : vfs_ops := mkOps None None None None None None None None None.

Record vnode := mkVnode {
  vn_name : list Z;            (* char name[MAX_FILENAME] *)
  v_type : option vfs_type;    (* None: the 0 of a cleared node *)
  vn_ino : Z;
  vn_size : Z;
  active_fds : Z;
  vn_op : vfs_ops;
  vn_parent : Z;
  first_child : Z; last_child : Z;
  prev_sibling : Z; next_sibling : Z;
  vn_data : Z;
}.

(** [memset(node, 0, sizeof)]. *)
Definition zero_vnode : vnode :=
  mkVnode (replicate (Z.to_nat MAX_FILENAME) 0) None 0 0 0 no_ops 0 0 0 0 0 0.

Definition set_name v n := mkVnode v (v_type n) (vn_ino n) (vn_size n) (active_fds n) (vn_op n) (vn_parent n) (first_child n) (last_child n) (prev_sibling n) (next_sibling n) (vn_data n).
Definition set_type v n := mkVnode (vn_name n) (Some v) (vn_ino n) (vn_size n) (active_fds n) (vn_op n) (vn_parent n) (first_child n) (last_child n) (prev_sibling n) (next_sibling n) (vn_data n).
Definition set_size v n := mkVnode (vn_name n) (v_type n) (vn_ino n) v (active_fds n) (vn_op n) (vn_parent n) (first_child n) (last_child n) (prev_sibling n) (next_sibling n) (vn_data n).
Definition set_fds v n := mkVnode (vn_name n) (v_type n) (vn_ino n) (vn_size n) v (vn_op n) (vn_parent n) (first_child n) (last_child n) (prev_sibling n) (next_sibling n) (vn_data n).
Definition set_op v n := mkVnode (vn_name n) (v_type n) (vn_ino n) (vn_size n) (active_fds n) v (vn_parent n) (first_child n) (last_child n) (prev_sibling n) (next_sibling n) (vn_data n).
Definition set_parent v n := mkVnode (vn_name n) (v_type n) (vn_ino n) (vn_size n) (active_fds n) (vn_op n) v (first_child n) (last_child n) (prev_sibling n) (next_sibling n) (vn_data n).
Definition set_children f l n := mkVnode (vn_name n) (v_type n) (vn_ino n) (vn_size n) (active_fds n) (vn_op n) (vn_parent n) f l (prev_sibling n) (next_sibling n) (vn_data n).
Definition set_prev v n := mkVnode (vn_name n) (v_type n) (vn_ino n) (vn_size n) (active_fds n) (vn_op n) (vn_parent n) (first_child n) (last_child n) v (next_sibling n) (vn_data n).
Definition set_next v n := mkVnode (vn_name n) (v_type n) (vn_ino n) (vn_size n) (active_fds n) (vn_op n) (vn_parent n) (first_child n) (last_child n) (prev_sibling n) v (vn_data n).
Definition set_data v n := mkVnode (vn_name n) (v_type n) (vn_ino n) (vn_size n) (active_fds n) (vn_op n) (vn_parent n) (first_child n) (last_child n) (prev_sibling n) (next_sibling n) v.

#[global] Instance vnode_linked : Linked vnode := { l_prev := prev_sibling; l_next := next_sibling }.

(** Private data of a node: [struct ramfs_inode], [struct tar_inode]. *)
Inductive inode := RamInode (paddr : Z) | TarInode (vaddr hdr : Z).

Record fsys := mkFsys {
  nodes : gmap Z vnode;
  inodes : gmap Z inode;
  tree_root : Z;
  devdir : Z; dev_zero : Z; dev_stdin : Z; dev_stdout : Z;
}.

Definition set_nodes v f := mkFsys v (inodes f) (tree_root f) (devdir f) (dev_zero f) (dev_stdin f) (dev_stdout f).
Definition set_inodes v f := mkFsys (nodes f) v (tree_root f) (devdir f) (dev_zero f) (dev_stdin f) (dev_stdout f).
Definition set_root v f := mkFsys (nodes f) (inodes f) v (devdir f) (dev_zero f) (dev_stdin f) (dev_stdout f).
Definition set_devdir v f := mkFsys (nodes f) (inodes f) (tree_root f) v (dev_zero f) (dev_stdin f) (dev_stdout f).
Definition set_devs z i o f := mkFsys (nodes f) (inodes f) (tree_root f) (devdir f) z i o.

Definition fsm := M fsys.

Definition ld_node (p : Z) : fsm vnode := fun f =>
  match nodes f !! p with
  | Some n => if p =? 0 then Fault else Ok (n, f)
  | None => Fault
  end.

Definition upd_node (p : Z) (g : vnode -> vnode) : fsm unit :=
  do n <- ld_node p; mod_ (fun f => set_nodes (<[p := g n]> (nodes f)) f).

(** [l[i]] and [l[i] = v]. *)
Definition rd {S} (l : list Z) (i : Z) : M S Z :=
  if 0 <=? i then lift_opt (l !! Z.to_nat i) else fault.

Definition wr {S} (l : list Z) (i v : Z) : M S (list Z) :=
  if (0 <=? i) && (i <? Z.of_nat (length l)) then ret_ (<[Z.to_nat i := v]> l) else fault.

Definition SLASH : Z := 47.

Definition _find_child (parent : Z) (name : list Z) : fsm Z :=
  do p <- ld_node parent;
  do n <- get_ (fun f => size (nodes f));
  loop (S n) (fun tmp =>
    if tmp =? 0 then ret_ (inr 0)
    else
      do t <- ld_node tmp;
      do c <- lift_opt (strcmp (vn_name t) name);
      if c =? 0 then ret_ (inr tmp) else ret_ (inl (next_sibling t))) (first_child p).

(** The loop: [inl] is the early return of a name that is too long. *)
Definition deconcat_step {S} (path : list Z) (path_len : Z) (l : Z * Z * list Z)
    : M S (Z * Z * list Z + (list Z + Z * list Z)) :=
  let '(prev_idx, buff_eof, buff) := l in
  if prev_idx <? path_len then
    do c <- rd path prev_idx;
    if (c =? SLASH) || (c =? 0) then
      do b <- wr buff buff_eof 0; ret_ (inr (inr (prev_idx + 1, b)))
    else if buff_eof =? MAX_FILENAME then
      do b <- wr buff (MAX_FILENAME - 1) 0; ret_ (inr (inl b))
    else
      do b <- wr buff buff_eof c; ret_ (inl (prev_idx + 1, buff_eof + 1, b))
  else ret_ (inr (inr (prev_idx, buff))).

(** The index of the next component, 0 at the end, and the buffer. *)
Definition _path_deconcatenator {S} (path : list Z) (path_len prev_idx : Z) (buff : list Z) : M S (Z * list Z) :=
  do r <- loop (Datatypes.S (length path)) (deconcat_step path path_len) (prev_idx, 0, buff);
  match r with
  | inl b => ret_ (0, b)
  | inr (prev_idx, b) =>
      do c <- rd path (prev_idx - 1);
      do prev_idx <- (if c =? SLASH then
                        do d <- rd path prev_idx; ret_ (if d =? 0 then prev_idx + 1 else prev_idx)
                      else ret_ prev_idx);
      ret_ (if prev_idx =? path_len then 0 else prev_idx, b)
  end.

(** The node and what is stored through [parent]: [None] when nothing is. *)
Definition namei_path_to_vfs_node (root : Z) (path fname : list Z) : fsm (Z * option Z) :=
  do c <- rd path 0;
  if negb (c =? SLASH) then ret_ (0, Some 0)
  else
    do len <- lift_opt (strlen path);
    let path_len := len + 1 in
    do ' (prev_idx, fname) <- _path_deconcatenator path path_len 1 fname;
    do f <- get_ (fun f => f);
    loop (S (length path)) (fun l : Z * Z * list Z =>
      let '(tmp, prev_idx, fname) := l in
      if tmp =? 0 then ret_ (inr (0, None))
      else
        do c0 <- rd fname 0;
        if c0 =? 0 then ret_ (inr (tmp, Some tmp))
        else
          do child <- _find_child tmp fname;
          if child =? 0 then ret_ (inr (0, Some (if prev_idx =? 0 then tmp else 0)))
          else if prev_idx =? 0 then ret_ (inr (child, Some tmp))
          else
            do ' (prev_idx, fname) <- _path_deconcatenator path path_len prev_idx fname;
            ret_ (inl (child, prev_idx, fname))) (if root =? 0 then tree_root f else root, prev_idx, fname).

Definition namei_path_to_filename {S} (path buff : list Z) : M S (list Z) :=
  do last_idx <- loop (Datatypes.S (length path)) (fun l : Z * Z =>
    let '(last_idx, i) := l in
    do c <- rd path i;
    if c =? 0 then ret_ (inr last_idx)
    else if c =? SLASH then
      do d <- rd path (i + 1);
      ret_ (inl (if negb (d =? 0) then i else last_idx, i + 1))
    else ret_ (inl (last_idx, i + 1))) (0, 0);
  do buff <- lift_opt (strncpy buff (drop (Z.to_nat (last_idx + 1)) path) (Z.to_nat MAX_FILENAME));
  do len <- lift_opt (strlen buff);
  do c <- rd buff (len - 1);
  if c =? SLASH then wr buff (len - 1) 0 else ret_ buff.

Definition namei_add_child (parent child : Z) : fsm unit :=
  upd_node child (set_parent parent) ;;;
  do p <- ld_node parent;
  if first_child p =? 0 then
    upd_node child (fun n => set_prev 0 (set_next 0 n)) ;;;
    upd_node parent (set_children child child)
  else
    upd_node (last_child p) (set_next child) ;;;
    upd_node child (set_prev (last_child p)) ;;;
    upd_node child (set_next 0) ;;;
    upd_node parent (fun n => set_children (first_child n) child n).

Definition namei_remove_child (child : Z) : fsm unit :=
  do c <- ld_node child;
  let parent := vn_parent c in
  let last_or_middle :=
    if next_sibling c =? 0 then
      upd_node parent (fun n => set_children (first_child n) (prev_sibling c) n) ;;;
      when negb (prev_sibling c =? 0) then_ upd_node (prev_sibling c) (set_next 0)
    else
      upd_node (prev_sibling c) (set_next (next_sibling c)) ;;;
      upd_node (next_sibling c) (set_prev (prev_sibling c)) in
  if prev_sibling c =? 0 then
    upd_node parent (fun n => set_children (next_sibling c) (last_child n) n) ;;;
    if negb (next_sibling c =? 0) then upd_node (next_sibling c) (set_prev 0)
    else last_or_middle
  else last_or_middle.

Definition namei_mount (mp fs_root : Z) : fsm Z :=
  do m <- ld_node mp;
  if bool_decide (v_type m <> Some VFS_DIR) && negb (first_child m =? 0) then ret_ 1
  else
    upd_node mp (set_type VFS_MNTPT) ;;;
    do r <- ld_node fs_root;
    upd_node mp (set_op (vn_op r)) ;;;
    upd_node mp (set_children (first_child r) (last_child r)) ;;;
    do n <- get_ (fun f => size (nodes f));
    loop (S n) (fun tmp =>
      if tmp =? 0 then ret_ (inr 0)
      else
        upd_node tmp (set_parent mp) ;;;
        do t <- ld_node tmp;
        ret_ (inl (next_sibling t))) (first_child r).
