(* ===== verification/NameiSpec.v ===== *)
(** * Correctness of path resolution and of the file tree

    [tree_ok f cs nm]: the directory [p] has the children [cs p], in order,
    and the node [p] is called [nm p].  [resolve] is path resolution on that
    abstract tree; the C code refines it. *)

From S2P Require Import Prelude Dlist Klib Namei.

#[local] Open Scope Z_scope.

Record tree_ok (f : fsys) (cs nm : Z -> list Z) : Prop := {
  tk_first : forall p n, nodes f !! p = Some n -> first_child n = hd0 0 (cs p) /\ last_child n = last0 0 (cs p);
  tk_dl : forall p, dlist (nodes f) (cs p);
  tk_name : forall p n, nodes f !! p = Some n -> cstr (vn_name n) (nm p) /\ length (vn_name n) = Z.to_nat MAX_FILENAME;
  tk_parent : forall p q n, q ∈ cs p -> nodes f !! q = Some n -> vn_parent n = p;
  tk_dir : forall p, cs p <> [] -> is_Some (nodes f !! p);
  tk_irrefl : forall p, p ∉ cs p;
  tk_nz : nodes f !! 0 = None;
}.

(** The first child of [p] called [name], 0 when there is none. *)
Definition child (cs nm : Z -> list Z) (p : Z) (name : list Z) : Z :=
  hd0 0 (filter (fun q => nm q = name) (cs p)).

(** The node a path denotes and the directory it is in, 0 when they do not
    exist. *)
Fixpoint resolve (cs nm : Z -> list Z) (cur : Z) (comps : list (list Z)) : Z * Z :=
  match comps with
  | [] => (cur, cur)
  | c :: rest =>
      let q := child cs nm cur c in
      match rest with
      | [] => (q, cur)
      | _ => if q =? 0 then (0, 0) else resolve cs nm q rest
      end
  end.

(** A file name: not empty, short enough, without [/]. *)
Definition comp_ok (c : list Z) : Prop := c <> [] /\ (length c < Z.to_nat MAX_FILENAME)%nat /\ 0 ∉ c /\ SLASH ∉ c.

(** The bytes of an absolute path: a slash before each component, a slash
    after the last one if [slash], the terminator. *)
Fixpoint path_tail (comps : list (list Z)) (slash : bool) : list Z :=
  match comps with
  | [] => [0]
  | [c] => c ++ (if slash then [SLASH; 0] else [0])
  | c :: rest => c ++ SLASH :: path_tail rest slash
  end.

Definition path_of (comps : list (list Z)) (slash : bool) : list Z := SLASH :: path_tail comps slash.

(** ** Lookup in a directory *)

Lemma child_in cs nm p name : child cs nm p name <> 0 -> child cs nm p name ∈ cs p.
Proof.
  unfold child. intros H. assert (Hin : hd0 0 (filter (fun q => nm q = name) (cs p)) ∈ filter (fun q => nm q = name) (cs p)).
  { apply hd0_in. intros E. by rewrite E in H. }
  by apply list_elem_of_filter in Hin as [_ ?].
Qed.

Section tree.
Context (f : fsys) (cs nm : Z -> list Z).
Hypothesis (Hok : tree_ok f cs nm).

Lemma child_node p q : q ∈ cs p -> exists n, nodes f !! q = Some n /\ q <> 0.
Proof.
  intros Hq. destruct (tk_dl _ _ _ Hok p) as [Hd _]. destruct (dseg_lookup _ _ _ _ _ Hd Hq) as [n Hn].
  exists n. split; [done|]. by eapply dseg_nonzero.
Qed.

Lemma wp_ld_node p n (Q : vnode -> fsys -> Prop) : nodes f !! p = Some n -> Q n f -> wp (ld_node p) Q f.
Proof.
  intros E HQ. unfold wp, ld_node. rewrite E. destruct (Z.eqb_spec p 0) as [->|]; [|exact HQ].
  by rewrite (tk_nz _ _ _ Hok) in E.
Qed.

Lemma find_child_wp p s name : is_Some (nodes f !! p) -> cstr s name ->
  wp (_find_child p s) (fun r f' => r = child cs nm p name /\ f' = f) f.
Proof.
  intros [n Hn] Hs. unfold _find_child. apply wp_bind. eapply wp_ld_node; [done|].
  apply wp_bind, wp_get. destruct (tk_first _ _ _ Hok p n Hn) as [-> _].
  pose proof (tk_dl _ _ _ Hok p) as Hdl. pose proof (dlist_length _ _ Hdl) as Hlen.
  destruct Hdl as [Hseg _]. apply dseg_sseg in Hseg. unfold child. revert Hseg Hlen.
  generalize (cs p). intros l. generalize (size (nodes f)). induction l as [|q l IH]; intros k Hseg Hlen; cbn [loop hd0].
  - apply wp_bind, wp_ret, wp_ret. done.
  - destruct Hseg as (Hq0 & (m & Hm & Hnx) & Hseg). apply wp_bind.
    rewrite (proj2 (Z.eqb_neq q 0)) by done. apply wp_bind. eapply wp_ld_node; [done|].
    destruct (tk_name _ _ _ Hok q m Hm) as [Hc _]. apply wp_bind. unfold wp at 1, lift_opt.
    rewrite (strcmp_cstr _ _ _ _ Hc Hs). rewrite filter_cons. case_decide as E.
    + apply wp_ret, wp_ret. done.
    + cbn [Z.eqb]. apply wp_ret. replace (next_sibling m) with (hd0 0 l) by (symmetry; exact Hnx).
      destruct k as [|k]; [cbn in Hlen; lia|]. apply IH; [done|cbn in Hlen; lia].
Qed.
End tree.

(** ** Cutting the next component *)

Lemma rd_ok {S} (l : list Z) i v (s : S) : 0 <= i -> l !! Z.to_nat i = Some v -> rd l i s = Ok (v, s).
Proof. intros Hi E. unfold rd. destruct (Z.leb_spec 0 i); [|lia]. unfold lift_opt. by rewrite E. Qed.

Lemma wr_ok {S} (l : list Z) i v (s : S) : 0 <= i < Z.of_nat (length l) -> wr l i v s = Ok (<[Z.to_nat i := v]> l, s).
Proof. intros Hi. unfold wr. destruct (Z.leb_spec 0 i), (Z.ltb_spec i (Z.of_nat (length l))); try lia. done. Qed.

Section cut.
Context {S : Type} (s : S).

(** The loop, with [pre] copied and [c] to go before the separator. *)
Lemma deconcat_loop_wp path path_len post sep c : forall fuel idx pre b,
  drop (Z.to_nat idx) path = c ++ sep :: post -> 0 <= idx -> idx + Z.of_nat (length c) < path_len ->
  SLASH ∉ c -> 0 ∉ c -> 0 ∉ pre -> sep = SLASH \/ sep = 0 -> (length c < fuel)%nat ->
  (exists rest, b = pre ++ rest) -> length b = Z.to_nat MAX_FILENAME ->
  (length pre + length c < Z.to_nat MAX_FILENAME)%nat ->
  wp (loop fuel (deconcat_step path path_len) (idx, Z.of_nat (length pre), b)) (fun r s' => s' = s /\
    exists b', r = inr (idx + Z.of_nat (length c) + 1, b') /\ cstr b' (pre ++ c) /\ length b' = Z.to_nat MAX_FILENAME) s.
Proof.
  induction c as [|x c IH]; intros fuel idx pre b Hd Hi Hlt Hs H0 Hp Hsep Hf [rest Hb] Hlb Hl;
    (destruct fuel as [|fuel]; [cbn in Hf; lia|]); cbn [loop deconcat_step].
  all: destruct (Z.ltb_spec idx path_len) as [_|?]; [|lia].
  all: assert (Hx : path !! Z.to_nat idx = head (drop (Z.to_nat idx) path))
    by (rewrite head_lookup, lookup_drop; f_equal; lia).
  all: rewrite Hd in Hx; cbn in Hx.
  - apply wp_bind, wp_bind. eapply wp_intro; [by eapply rd_ok|].
    replace ((sep =? SLASH) || (sep =? 0)) with true by (symmetry; apply orb_true_iff; rewrite !Z.eqb_eq; done).
    cbn in Hl. apply wp_bind. eapply wp_intro; [apply wr_ok; lia|]. apply wp_ret, wp_ret. split; [done|].
    eexists. split; [f_equal; f_equal; cbn; lia|]. rewrite app_nil_r, length_insert. split; [|done].
    split; [done|]. rewrite Hb. destruct rest as [|y rest]; [rewrite Hb, app_nil_r in Hlb; lia|].
    exists rest. by rewrite Nat2Z.id, insert_app_r_alt, Nat.sub_diag by lia.
  - apply not_elem_of_cons in Hs as [Hx1 Hs], H0 as [Hx2 H0]. cbn in Hlt, Hf, Hl.
    apply wp_bind, wp_bind. eapply wp_intro; [by eapply rd_ok|].
    replace ((x =? SLASH) || (x =? 0)) with false
      by (symmetry; apply orb_false_iff; rewrite !Z.eqb_neq; split; congruence).
    destruct (Z.eqb_spec (Z.of_nat (length pre)) MAX_FILENAME) as [E|_]; [lia|].
    apply wp_bind. eapply wp_intro; [apply wr_ok; lia|]. apply wp_ret.
    replace (Z.of_nat (length pre) + 1) with (Z.of_nat (length (pre ++ [x]))) by (rewrite length_app; cbn; lia).
    eapply wp_mono; [apply (IH fuel (idx + 1) (pre ++ [x])); try done; try lia|].
    + replace (Z.to_nat (idx + 1)) with (Z.to_nat idx + 1)%nat by lia. rewrite <- drop_drop, Hd. done.
    + rewrite elem_of_app, list_elem_of_singleton. intros [?|?]; [done|congruence].
    + rewrite Hb. destruct rest as [|y rest]; [rewrite Hb, app_nil_r in Hlb; lia|].
      exists rest. by rewrite Nat2Z.id, insert_app_r_alt, Nat.sub_diag, <- app_assoc by lia.
    + by rewrite length_insert.
    + rewrite length_app. cbn. lia.
    + intros r s' (-> & b' & -> & Hc & Hl'). split; [done|]. exists b'. rewrite <- app_assoc in Hc.
      split_and!; [f_equal; f_equal; cbn; lia|done|done].
Qed.
End cut.

(** The path from the next component on. *)
Lemma path_tail_split c rest slash : exists sep post, path_tail (c :: rest) slash = c ++ sep :: post /\
  ((sep = 0 /\ rest = [] /\ post = [] /\ slash = false) \/
   (sep = SLASH /\ rest = [] /\ post = [0] /\ slash = true) \/
   (sep = SLASH /\ rest <> [] /\ post = path_tail rest slash)).
Proof.
  destruct rest as [|d rest]; cbn [path_tail].
  - destruct slash; [exists SLASH, [0]|exists 0, []]; (split; [done|]); [right; left|left]; done.
  - exists SLASH, (path_tail (d :: rest) slash). split; [done|]. right. right. done.
Qed.

Lemma drop_length {A} (l x : list A) i : drop i l = x -> x <> [] -> length l = (i + length x)%nat.
Proof. intros E Hx. assert (length x = (length l - i)%nat) by by rewrite <- E, length_drop. destruct x; [done|]. cbn in *. lia. Qed.

Lemma drop_nth {A} (l x y : list A) a i : drop i l = x ++ a :: y -> l !! (i + length x)%nat = Some a.
Proof. intros E. rewrite <- lookup_drop, E. by rewrite lookup_app_r, Nat.sub_diag. Qed.

Lemma drop_more {A} (l x y : list A) a i : drop i l = x ++ a :: y -> drop (i + length x + 1) l = y.
Proof.
  intros E. rewrite <- Nat.add_assoc, <- drop_drop, E. rewrite drop_app_ge by lia.
  by replace (length x + 1 - length x)%nat with 1%nat by lia.
Qed.

Section component.
Context {S : Type} (s : S) (path : list Z) (slash : bool).
Let L := Z.of_nat (length path).

(** One component: its name, and where the next one starts. *)
Lemma deconcat_wp idx c rest b :
  drop (Z.to_nat idx) path = path_tail (c :: rest) slash -> 0 <= idx -> Forall comp_ok (c :: rest) ->
  length b = Z.to_nat MAX_FILENAME ->
  wp (_path_deconcatenator path L idx b) (fun r s' => s' = s /\ cstr r.2 c /\ length r.2 = Z.to_nat MAX_FILENAME /\
    (rest = [] -> r.1 = 0) /\
    (rest <> [] -> 0 < r.1 /\ drop (Z.to_nat r.1) path = path_tail rest slash)) s.
Proof.
  intros Hd Hi Hall Hb. apply Forall_cons in Hall as [(Hc1 & Hc2 & Hc3 & Hc4) Hall].
  destruct (path_tail_split c rest slash) as (sep & post & E & Hcase). rewrite E in Hd.
  assert (Hlen : length path = (Z.to_nat idx + (length c + Datatypes.S (length post)))%nat).
  { rewrite (drop_length _ _ _ Hd); [|by destruct c]. rewrite length_app. cbn. lia. }
  unfold _path_deconcatenator. apply wp_bind.
  eapply wp_mono; [eapply (deconcat_loop_wp s path L post sep c _ idx [] b); try done; try lia|].
  { apply not_elem_of_nil. } { by exists b. }
  intros r s' (-> & b' & -> & Hcb & Hlb). cbn in Hcb. apply wp_bind.
  pose proof (drop_nth _ _ _ _ _ Hd) as Hsep. pose proof (drop_more _ _ _ _ _ Hd) as Hpost.
  eapply wp_intro; [apply rd_ok; [lia|]; rewrite <- Hsep; f_equal; lia|].
  assert (Hpost' : drop (Z.to_nat (idx + Z.of_nat (length c) + 1)) path = post) by (rewrite <- Hpost; f_equal; lia).
  destruct Hcase as [(-> & -> & -> & _)|[(-> & -> & -> & _)|(-> & Hne & ->)]].
  - cbn [Z.eqb SLASH]. apply wp_bind, wp_ret, wp_ret.
    replace (idx + Z.of_nat (length c) + 1 =? L) with true by (symmetry; apply Z.eqb_eq; subst L; cbn in Hlen; lia).
    split_and!; done.
  - cbn [Z.eqb SLASH Pos.eqb]. apply wp_bind, wp_bind. eapply wp_intro; [apply (rd_ok _ _ 0); [lia|]|].
    { replace (Z.to_nat (idx + Z.of_nat (length c) + 1)) with (Z.to_nat (idx + Z.of_nat (length c) + 1) + 0)%nat by lia.
      by rewrite <- lookup_drop, Hpost'. }
    apply wp_ret, wp_ret. cbn [Z.eqb].
    replace (idx + Z.of_nat (length c) + 1 + 1 =? L) with true by (symmetry; apply Z.eqb_eq; subst L; cbn in Hlen; lia).
    split_and!; done.
  - destruct rest as [|[|x d] rest]; [done|apply Forall_cons in Hall as [(? & _) _]; done|].
    apply Forall_cons in Hall as [(_ & _ & Hd0 & _) _]. apply not_elem_of_cons in Hd0 as [Hx _].
    destruct (path_tail_split (x :: d) rest slash) as (sep' & post' & E' & _).
    cbn [Z.eqb SLASH Pos.eqb]. apply wp_bind, wp_bind. eapply wp_intro; [apply (rd_ok _ _ x); [lia|]|].
    { replace (Z.to_nat (idx + Z.of_nat (length c) + 1)) with (Z.to_nat (idx + Z.of_nat (length c) + 1) + 0)%nat by lia.
      by rewrite <- lookup_drop, Hpost', E'. }
    apply wp_ret, wp_ret. rewrite (proj2 (Z.eqb_neq x 0)) by congruence.
    replace (idx + Z.of_nat (length c) + 1 =? L) with false.
    + split_and!; try done. intros _. split; [cbn; lia|exact Hpost'].
    + symmetry. apply Z.eqb_neq. subst L. rewrite Hlen, E'. cbn. lia.
Qed.
End component.

Section walk.
Context (f : fsys) (cs nm : Z -> list Z) (path : list Z) (slash : bool).
Hypotheses (Hok : tree_ok f cs nm) (Hlen : strlen path = Some (Z.of_nat (length path) - 1)).
Let L := Z.of_nat (length path).

(** What is stored through [parent]: nothing found before the last
    component leaves NULL. *)
Lemma walk_loop_wp comps : forall fuel cur c idx fname,
  is_Some (nodes f !! cur) -> Forall comp_ok (c :: comps) -> cstr fname c ->
  length fname = Z.to_nat MAX_FILENAME ->
  (comps = [] -> idx = 0) -> (comps <> [] -> 0 < idx /\ drop (Z.to_nat idx) path = path_tail comps slash) ->
  (length comps < fuel)%nat ->
  wp (loop fuel (fun l : Z * Z * list Z =>
    let '(tmp, prev_idx, fname) := l in
    if tmp =? 0 then ret_ (inr (0, None))
    else
      do c0 <- rd fname 0;
      if c0 =? 0 then ret_ (inr (tmp, Some tmp))
      else
        do child <- _find_child tmp fname;
        if child =? 0 then ret_ (inr (0, Some (if prev_idx =? 0 then tmp else 0)))
        else if prev_idx =? 0 then ret_ (inr (child, Some tmp))
        else
          do ' (prev_idx, fname) <- _path_deconcatenator path (Z.of_nat (length path) - 1 + 1) prev_idx fname;
          ret_ (inl (child, prev_idx, fname))) (cur, idx, fname))
  (fun r f' => f' = f /\ r = ((resolve cs nm cur (c :: comps)).1, Some (resolve cs nm cur (c :: comps)).2)) f.
Proof.
  induction comps as [|d comps IH]; intros fuel cur c idx fname [n Hn] Hall Hc Hlf Hi0 Hi1 Hf;
    (destruct fuel as [|fuel]; [cbn in Hf; lia|]); cbn [loop].
  all: assert (Hcur : cur <> 0) by (intros ->; by rewrite (tk_nz _ _ _ Hok) in Hn).
  all: rewrite (proj2 (Z.eqb_neq cur 0)) by done.
  all: apply Forall_cons in Hall as [(Hc1 & Hc2 & Hc3 & Hc4) Hall].
  all: destruct c as [|x c]; [done|]; pose proof Hc as [_ [rest Er]]; apply not_elem_of_cons in Hc3 as [Hx _].
  all: apply wp_bind, wp_bind; eapply wp_intro; [apply (rd_ok _ _ x); [lia|]; by rewrite Er|].
  all: rewrite (proj2 (Z.eqb_neq x 0)) by congruence; apply wp_bind.
  all: eapply wp_mono; [apply (find_child_wp f cs nm Hok cur fname); [by exists n|exact Hc]|].
  all: intros q f' [-> ->]; cbn [resolve].
  - rewrite (Hi0 eq_refl). cbn [Z.eqb].
    destruct (Z.eqb_spec (child cs nm cur (x :: c)) 0) as [E|E]; apply wp_ret, wp_ret; by rewrite ?E.
  - destruct (Hi1 ltac:(done)) as [Hpos Hd]. rewrite (proj2 (Z.eqb_neq idx 0)) by lia.
    destruct (Z.eqb_spec (child cs nm cur (x :: c)) 0) as [E|E]; [by apply wp_ret, wp_ret|].
    apply wp_bind. replace (Z.of_nat (length path) - 1 + 1) with (Z.of_nat (length path)) by lia.
    eapply wp_mono; [apply (deconcat_wp f path slash idx d comps fname Hd ltac:(lia) Hall Hlf)|].
    intros [idx' fname'] f' (-> & Hc' & Hlf' & Hi0' & Hi1'). cbn [fst snd] in *. apply wp_ret.
    replace (Z.of_nat (length path)) with (Z.of_nat (length path) - 1 + 1) by lia.
    apply IH; try done; [|cbn in Hf; lia].
    destruct (child_node f cs nm Hok cur _ (child_in _ _ _ _ E)) as (m & Hm & _). by exists m.
Qed.
End walk.

Lemma path_tail_cstr comps slash : Forall comp_ok comps -> exists name,
  path_tail comps slash = name ++ [0] /\ 0 ∉ name /\ (length comps <= length name)%nat.
Proof.
  intros Hall. induction Hall as [|c comps (Hc1 & _ & Hc3 & _) Hall IH].
  - exists []. split_and!; [done|apply not_elem_of_nil|done].
  - destruct IH as (name & E & Hn & Hl). destruct comps as [|d comps].
    + cbn [path_tail]. destruct slash.
      * exists (c ++ [SLASH]). rewrite <- app_assoc. split_and!; [done| |rewrite length_app; cbn; lia].
        rewrite elem_of_app, list_elem_of_singleton. intros [?|?]; done.
      * exists c. split_and!; [done|done|destruct c; [done|cbn; lia]].
    + change (path_tail (c :: d :: comps) slash) with (c ++ SLASH :: path_tail (d :: comps) slash). rewrite E.
      exists (c ++ SLASH :: name). split_and!.
      * by rewrite <- app_assoc.
      * rewrite elem_of_app, elem_of_cons. intros [?|[?|?]]; done.
      * rewrite length_app. cbn in Hl |- *. lia.
Qed.

Lemma path_of_strlen comps slash : Forall comp_ok comps ->
  strlen (path_of comps slash) = Some (Z.of_nat (length (path_of comps slash)) - 1) /\
  (length comps < length (path_of comps slash))%nat.
Proof.
  intros Hall. destruct (path_tail_cstr comps slash Hall) as (name & E & Hn & Hl). unfold path_of. rewrite E. split.
  - rewrite (strlen_cstr _ (SLASH :: name)).
    + f_equal. cbn [length]. rewrite length_app. cbn. lia.
    + split; [by rewrite not_elem_of_cons|by exists []].
  - cbn [length]. rewrite length_app. cbn. lia.
Qed.

(** Path resolution from [root], or from the tree's root when it is 0. *)
Lemma namei_wp f cs nm root comps slash fname :
  tree_ok f cs nm -> is_Some (nodes f !! (if root =? 0 then tree_root f else root)) ->
  Forall comp_ok comps -> length fname = Z.to_nat MAX_FILENAME ->
  wp (namei_path_to_vfs_node root (path_of comps slash) fname) (fun r f' => f' = f /\
    let '(node, parent) := resolve cs nm (if root =? 0 then tree_root f else root) comps in
    r = (node, Some parent)) f.
Proof.
  intros Hok Hroot Hall Hlf. destruct (path_of_strlen comps slash Hall) as [Hlen Hl].
  unfold namei_path_to_vfs_node. apply wp_bind. eapply wp_intro; [by apply (rd_ok _ _ SLASH)|].
  rewrite Z.eqb_refl. cbn [negb]. apply wp_bind. unfold wp at 1, lift_opt. rewrite Hlen.
  set (path := path_of comps slash) in *. set (cur := if root =? 0 then _ else _) in *. apply wp_bind.
  destruct comps as [|c comps].
  - cbn [resolve]. unfold _path_deconcatenator. apply wp_bind.
    eapply wp_mono; [apply (deconcat_loop_wp f path _ [] 0 [] _ 1 [] fname);
      try done; try apply not_elem_of_nil; try (by exists fname); first [unfold MAX_FILENAME; cbn; lia | apply Nat.lt_0_succ]|].
    intros r f' (-> & b & -> & Hb & Hlb). cbn [app] in Hb. apply wp_bind. eapply wp_intro; [by apply (rd_ok _ _ 0)|].
    destruct Hroot as [n Hn]. assert (Hcur : cur <> 0) by (intros E; by rewrite E, (tk_nz _ _ _ Hok) in Hn).
    destruct Hb as [_ [rest ->]]. apply Z.eqb_neq in Hcur. subst cur.
    unfold wp, bind_, get_, ret_. cbn [Z.eqb SLASH]. cbn [loop]. unfold bind_. rewrite Hcur. done.
  - eapply wp_mono; [replace (Z.of_nat (length path) - 1 + 1) with (Z.of_nat (length path)) by lia;
      by apply (deconcat_wp f path slash 1 c comps fname)|].
    intros [idx b] f' (-> & Hb & Hlb & Hi0 & Hi1). cbn [fst snd] in *. apply wp_bind, wp_get.
    eapply wp_mono; [apply (walk_loop_wp f cs nm path slash Hok comps _ cur c idx b); try done|].
    + cbn [length] in Hl. lia.
    + intros r f' [-> ->]. by destruct (resolve _ _ _ _).
Qed.

(** ** Changing the tree *)

(** What a directory operation leaves alone: everything but the links of
    siblings, the children of [p] and the parent of [q]. *)
Definition other_fields (n : vnode) : vnode := set_children 0 0 (set_parent 0 (set_prev 0 (set_next 0 n))).

Record kept (m m' : gmap Z vnode) (p q : Z) : Prop := {
  kp_fields : forall x, other_fields <$> m' !! x = other_fields <$> m !! x;
  kp_parent : forall x n n', x <> q -> m !! x = Some n -> m' !! x = Some n' -> vn_parent n' = vn_parent n;
  kp_children : forall x n n', x <> p -> m !! x = Some n -> m' !! x = Some n' ->
    first_child n' = first_child n /\ last_child n' = last_child n;
}.

Lemma kept_some m m' p q x : kept m m' p q -> is_Some (m !! x) <-> is_Some (m' !! x).
Proof. intros Hk. pose proof (kp_fields _ _ _ _ Hk x) as E. destruct (m !! x), (m' !! x); naive_solver. Qed.

Lemma wp_upd_node (f : fsys) p n g (Q : unit -> fsys -> Prop) : nodes f !! p = Some n -> p <> 0 ->
  Q tt (set_nodes (<[p := g n]> (nodes f)) f) -> wp (upd_node p g) Q f.
Proof.
  intros E Hp HQ. unfold upd_node. apply wp_bind. unfold wp at 1, ld_node. rewrite E, (proj2 (Z.eqb_neq p 0)) by done.
  exact HQ.
Qed.

Lemma wp_ld_node' (f : fsys) p n (Q : vnode -> fsys -> Prop) : nodes f !! p = Some n -> p <> 0 -> Q n f -> wp (ld_node p) Q f.
Proof. intros E Hp HQ. unfold wp, ld_node. rewrite E, (proj2 (Z.eqb_neq p 0)) by done. exact HQ. Qed.

Ltac nlk := cbn [nodes set_nodes];
  repeat first [rewrite lookup_insert_eq | rewrite lookup_insert_ne by congruence];
  first [eassumption | reflexivity].
Ltac nstep :=
  match goal with
  | |- wp (bind_ _ _) _ _ => apply wp_bind
  | |- wp (ret_ _) _ _ => apply wp_ret
  | |- wp (ld_node _) _ _ => eapply wp_ld_node'; [nlk|congruence|]
  | |- wp (upd_node _ _) _ _ => eapply wp_upd_node; [nlk|congruence|]
  end.
Ltac nrun := repeat (nstep; cbv beta).
(** Lookups in a map of a few inserts, decided. *)
Ltac ndec :=
  intros; cbn [nodes set_nodes] in *; rewrite ?lookup_insert in *;
  repeat case_decide; subst; simplify_eq/=;
  repeat match goal with H : ?m !! ?x = Some _ |- context [?m !! ?x] => rewrite H end;
  simplify_eq/=; try done; try congruence.

Section update.
Context (f : fsys) (cs nm : Z -> list Z) (p q : Z).
Hypothesis (Hok : tree_ok f cs nm).

Definition with_children (l : list Z) (x : Z) : list Z := if decide (x = p) then l else cs x.

(** A change of the children of [p] to [l]. *)
Lemma tree_changed f' l :
  kept (nodes f) (nodes f') p q ->
  (forall n, nodes f' !! p = Some n -> first_child n = hd0 0 l /\ last_child n = last0 0 l) ->
  dlist (nodes f') l -> (forall x, x <> p -> dlist (nodes f') (cs x)) ->
  (forall x n, x ∈ l -> nodes f' !! x = Some n -> vn_parent n = p) ->
  (forall x, x <> p -> q ∉ cs x) -> is_Some (nodes f !! p) -> p ∉ l ->
  tree_ok f' (with_children l) nm.
Proof.
  intros Hk Hp Hl Hother Hpar Hq Hsome Hpl. unfold with_children. split.
  - intros x n Hn. case_decide as E; [subst; by apply Hp|].
    destruct (proj2 (kept_some _ _ _ _ x Hk) ltac:(by exists n)) as [n0 Hn0].
    destruct (kp_children _ _ _ _ Hk x n0 n E Hn0 Hn) as [-> ->]. by apply (tk_first _ _ _ Hok).
  - intros x. case_decide; [done|by apply Hother].
  - intros x n Hn. pose proof (kp_fields _ _ _ _ Hk x) as E. rewrite Hn in E.
    destruct (nodes f !! x) as [n0|] eqn:Hn0; [|done]. cbn in E. injection E as E _ _ _ _ _ _. rewrite E.
    by apply (tk_name _ _ _ Hok).
  - intros x y n Hy Hn. case_decide as E; [subst; by eapply Hpar|].
    destruct (proj2 (kept_some _ _ _ _ y Hk) ltac:(by exists n)) as [n0 Hn0].
    rewrite (kp_parent _ _ _ _ Hk y n0 n); [by eapply (tk_parent _ _ _ Hok)| |done|done].
    intros ->. by apply (Hq x).
  - intros x Hx. apply (kept_some _ _ _ _ x Hk). case_decide as E; [by subst|by apply (tk_dir _ _ _ Hok)].
  - intros x. case_decide as E; [by subst|apply (tk_irrefl _ _ _ Hok)].
  - destruct (nodes f' !! 0) eqn:E0; [|done]. exfalso.
    destruct (proj2 (kept_some _ _ _ _ 0 Hk) ltac:(by rewrite E0)) as [? E1]. by rewrite (tk_nz _ _ _ Hok) in E1.
Qed.

(** Siblings of different directories are different. *)
Lemma cs_disjoint x y z : z ∈ cs x -> z ∈ cs y -> x = y.
Proof.
  intros Hx Hy. destruct (child_node f cs nm Hok x z Hx) as (n & Hn & _).
  rewrite <- (tk_parent _ _ _ Hok x z n Hx Hn). by apply (tk_parent _ _ _ Hok y z n).
Qed.
End update.

(** The new child goes to the end of the list. *)
Section add.
Context (f : fsys) (cs nm : Z -> list Z) (p q : Z) (np nq : vnode).
Hypotheses (Hok : tree_ok f cs nm) (Hnp : nodes f !! p = Some np) (Hnq : nodes f !! q = Some nq) (Hqp : q <> p)
  (Hfresh : forall x, q ∉ cs x).

Let added : fsm unit := namei_add_child p q.
Let ends (f' : fsys) : Prop := tree_ok f' (with_children cs p (cs p ++ [q])) nm /\
  kept (nodes f) (nodes f') p q /\ set_nodes ∅ f' = set_nodes ∅ f.

Lemma add_only_child : p <> 0 -> q <> 0 -> cs p = [] -> wp added (fun _ => ends) f.
Proof.
  intros Hp0 Hq0 E. destruct (tk_first _ _ _ Hok p np Hnp) as [Ef El]. pose proof (tk_dl _ _ _ Hok) as Hdl.
  pose proof (tk_irrefl _ _ _ Hok p) as Hpp. unfold added, namei_add_child. nrun.
  rewrite Ef, E. cbn [hd0 Z.eqb]. nrun. split_and!; [rewrite E|split; ndec|done].
  apply (tree_changed f cs nm p q Hok); [split; ndec|..]; try done.
  - intros n Hn. cbn in Hn. rewrite lookup_insert_eq in Hn. injection Hn as <-. done.
  - cbn. split; [|by apply NoDup_singleton]. cbn. split_and!; [done| |done]. unfold links. cbn. nlk.
  - intros x Hx. eapply dlist_frame; [|apply Hdl]. intros y Hy. unfold links. cbn [nodes set_nodes].
    assert (y <> q) by (intros ->; by apply (Hfresh x)). rewrite !lookup_insert. repeat case_decide; subst; try done.
    by rewrite Hnp.
  - cbn. intros x n ->%list_elem_of_singleton. ndec.
  - cbn. by rewrite list_elem_of_singleton.
Qed.

Lemma add_behind_last : p <> 0 -> q <> 0 -> cs p <> [] -> wp added (fun _ => ends) f.
Proof.
  intros Hp0 Hq0 Hne. destruct (tk_first _ _ _ Hok p np Hnp) as [Ef El]. pose proof (tk_dl _ _ _ Hok) as Hdl.
  pose proof (tk_irrefl _ _ _ Hok p) as Hpp. unfold added, namei_add_child. nrun.
  assert (Hf0 : first_child np <> 0).
  { rewrite Ef. destruct (Hdl p) as [Hseg _]. eapply dseg_nonzero; [exact Hseg|by apply hd0_in]. }
  rewrite (proj2 (Z.eqb_neq _ 0) Hf0). rewrite El.
  assert (Hlast : last0 0 (cs p) ∈ cs p) by by apply last0_in.
  assert (exists l, l = last0 0 (cs p)) as [l Elast] by eauto. rewrite <- Elast in *.
  destruct (child_node f cs nm Hok p l Hlast) as (nl & Hnl & Hl0).
  assert (Hlq : l <> q) by (intros E; apply (Hfresh p); by rewrite <- E).
  assert (Hlp : l <> p) by (intros E; by rewrite E in Hlast).
  nrun. split_and!; [|split; ndec|done].
  apply (tree_changed f cs nm p q Hok); [split; ndec|..]; try done.
  - intros n Hn. cbn in Hn. rewrite lookup_insert_eq in Hn. injection Hn as <-. cbn.
    rewrite hd0_app, last0_snoc, Ef. by destruct (cs p).
  - apply (dlist_insert (nodes f) _ (cs p) [] q); [rewrite ?app_nil_r; try done; try apply Hdl; try apply Hfresh..|]. split.
    + unfold links. rewrite <- Elast. cbn. rewrite lookup_insert_ne by done. rewrite lookup_insert_eq. done.
    + intros x Hx. rewrite app_nil_r in Hx. assert (x <> q) by (intros ->; by apply (Hfresh p)).
      assert (x <> p) by (intros ->; done). assert (x <> 0) by (destruct (Hdl p) as [Hseg _]; by eapply dseg_nonzero).
      unfold links. cbn [nodes set_nodes hd0]. rewrite <- Elast, !lookup_insert. clear Elast.
      repeat case_decide; try congruence; subst; rewrite ?Hnl; try done. by destruct (nodes f !! x).
  - intros x Hx. eapply dlist_frame; [|apply Hdl]. intros y Hy. unfold links. cbn [nodes set_nodes].
    assert (y <> q) by (intros ->; by apply (Hfresh x)).
    assert (y <> l) by (intros ->; apply Hx; by apply (cs_disjoint f cs nm Hok x p l)).
    rewrite !lookup_insert. repeat case_decide; subst; try done. by rewrite Hnp.
  - intros x n [Hx|Hx%list_elem_of_singleton]%elem_of_app Hn.
    + assert (x <> q) by (intros ->; by apply (Hfresh p)). assert (x <> p) by (intros ->; done).
      cbn in Hn. rewrite !lookup_insert in Hn. repeat case_decide; subst; simplify_eq/=; try done;
        by eapply (tk_parent _ _ _ Hok).
    + subst. ndec.
  - rewrite elem_of_app, list_elem_of_singleton. intros [?|?]; congruence.
Qed.
End add.

Lemma add_child_wp f cs nm p q :
  tree_ok f cs nm -> is_Some (nodes f !! p) -> is_Some (nodes f !! q) -> q <> p -> (forall x, q ∉ cs x) ->
  wp (namei_add_child p q) (fun _ f' => tree_ok f' (with_children cs p (cs p ++ [q])) nm /\
    kept (nodes f) (nodes f') p q /\ set_nodes ∅ f' = set_nodes ∅ f) f.
Proof.
  intros Hok [np Hnp] [nq Hnq] Hqp Hfresh.
  assert (Hp0 : p <> 0) by (intros ->; by rewrite (tk_nz _ _ _ Hok) in Hnp).
  assert (Hq0 : q <> 0) by (intros ->; by rewrite (tk_nz _ _ _ Hok) in Hnq).
  destruct (decide (cs p = [])); [by apply (add_only_child f cs nm p q np nq)|by apply (add_behind_last f cs nm p q np nq)].
Qed.

(** A child leaves the list of its parent. *)
Section remove.
Context (f : fsys) (cs nm : Z -> list Z) (p q : Z) (l1 l2 : list Z).
Hypotheses (Hok : tree_ok f cs nm) (Hcs : cs p = l1 ++ q :: l2).

Let x := last0 0 l1.
Let y := hd0 0 l2.

Lemma remove_changed f' :
  kept (nodes f) (nodes f') p q ->
  (forall n, nodes f' !! p = Some n -> first_child n = hd0 0 (l1 ++ l2) /\ last_child n = last0 0 (l1 ++ l2)) ->
  unlinked_between (nodes f) (nodes f') x y (l1 ++ l2) ->
  (forall z, z <> x -> z <> y -> links (nodes f') z = links (nodes f) z) ->
  tree_ok f' (with_children cs p (l1 ++ l2)) nm.
Proof.
  intros Hk Hp Hu Hl. pose proof (tk_dl _ _ _ Hok) as Hdl.
  assert (Hsub : forall z, z ∈ l1 ++ l2 -> z ∈ cs p) by (intros z Hz; rewrite Hcs; in_tac).
  assert (Hz0 : forall w z, z ∈ cs w -> z <> 0).
  { intros w z Hz. destruct (Hdl w) as [Hseg _]. by eapply dseg_nonzero. }
  assert (Hother : forall w z, w <> p -> z ∈ cs w -> z <> x /\ z <> y).
  { intros w z Hw Hz.
    split; intros ->; apply Hw, (cs_disjoint f cs nm Hok w p _ Hz), Hsub, elem_of_app;
      [left; unfold x in *; destruct l1 as [|a k]; [by destruct (Hz0 w 0 Hz)|by apply last0_in]
      |right; unfold y in *; destruct l2 as [|a k]; [by destruct (Hz0 w 0 Hz)|by apply hd0_in]]. }
  apply (tree_changed f cs nm p q Hok); try done.
  - eapply dlist_remove; [rewrite <- Hcs; apply Hdl|exact Hu].
  - intros w Hw. eapply dlist_frame; [|apply Hdl]. intros z Hz. destruct (Hother w z Hw Hz). by apply Hl.
  - intros z n Hz Hn. destruct (proj2 (kept_some _ _ _ _ z Hk) ltac:(by exists n)) as [n0 Hn0].
    rewrite (kp_parent _ _ _ _ Hk z n0 n); [by eapply (tk_parent _ _ _ Hok); [apply Hsub|]| |done|done].
    intros ->. destruct (Hdl p) as [_ Hnd]. rewrite Hcs in Hnd. by apply (elem_of_skip _ _ q Hnd) in Hz as [_ ?].
  - intros w Hw Hq. apply Hw, (cs_disjoint f cs nm Hok w p q Hq). rewrite Hcs. in_tac.
  - apply (tk_dir _ _ _ Hok). rewrite Hcs. by destruct l1.
  - intros Hpp. by apply (tk_irrefl _ _ _ Hok p), Hsub.
Qed.

(** The links of [q] and the ends of the list it leaves. *)
Lemma sibling_around nq np : nodes f !! q = Some nq -> nodes f !! p = Some np ->
  vn_parent nq = p /\ prev_sibling nq = x /\ next_sibling nq = y /\ first_child np = hd0 q l1 /\ last_child np = last0 q l2 /\
  p <> 0 /\ q <> 0 /\ p <> q /\ NoDup (l1 ++ l2).
Proof.
  intros Hnq Hnp. assert (Hq : q ∈ cs p) by (rewrite Hcs; in_tac).
  destruct (child_node f cs nm Hok p q Hq) as (nq' & _ & Hq0).
  destruct (tk_first _ _ _ Hok p np Hnp) as [Ef El]. rewrite Hcs, hd0_app in Ef. rewrite Hcs, last0_app in El.
  pose proof (tk_dl _ _ _ Hok p) as [Hseg Hnd]. rewrite Hcs in Hseg, Hnd.
  apply dseg_app in Hseg as [_ (_ & Hlk & _)]. rewrite (links_lookup _ _ _ Hnq) in Hlk. injection Hlk as Epv Enx.
  split_and!; try done.
  - by eapply (tk_parent _ _ _ Hok).
  - intros ->. by rewrite (tk_nz _ _ _ Hok) in Hnp.
  - intros ->. by apply (tk_irrefl _ _ _ Hok q).
  - by apply NoDup_skip in Hnd as [_ ?].
Qed.

Lemma sibling_node z : z ∈ l1 ++ l2 -> z <> q /\ z <> p /\ z <> 0 /\ exists nz, nodes f !! z = Some nz.
Proof.
  intros Hz. assert (Hz' : z ∈ cs p) by (rewrite Hcs; in_tac).
  destruct (tk_dl _ _ _ Hok p) as [_ Hnd]. rewrite Hcs in Hnd.
  destruct (child_node f cs nm Hok p z Hz') as (nz & Hnz & ?). split_and!; [|intros ->|done|eauto].
  - intros ->. by apply NoDup_skip in Hnd as [? _].
  - by apply (tk_irrefl _ _ _ Hok p).
Qed.

Ltac removed_case Hnp Ef El :=
  split_and!; [|split; ndec|done]; apply remove_changed; [split; ndec| | |];
  match goal with
  | |- forall n, _ -> _ /\ _ => intros n Hn; cbn in Hn; rewrite !lookup_insert in Hn; repeat case_decide; try done;
      rewrite ?Hnp in Hn; injection Hn as <-; cbn; rewrite ?Ef, ?El, hd0_app, last0_app; by destruct l1, l2
  | |- unlinked_between _ _ _ _ _ => intros z Hz; destruct (sibling_node z Hz) as (? & ? & ? & nz & Hnz);
      unfold links; cbn [nodes set_nodes]; rewrite !lookup_insert;
      repeat case_decide; try congruence; subst; rewrite ?Hnz; simplify_eq/=; done
  | |- forall z, _ -> _ -> links _ _ = _ => intros z Hz1 Hz2; unfold links; ndec
  end.

Lemma remove_child_wp : wp (namei_remove_child q) (fun _ f' => tree_ok f' (with_children cs p (l1 ++ l2)) nm /\
  kept (nodes f) (nodes f') p q /\ set_nodes ∅ f' = set_nodes ∅ f) f.
Proof.
  assert (Hq : q ∈ cs p) by (rewrite Hcs; in_tac).
  destruct (child_node f cs nm Hok p q Hq) as (nq & Hnq & _).
  destruct (tk_dir _ _ _ Hok p) as [np Hnp]; [rewrite Hcs; by destruct l1|].
  destruct (sibling_around nq np Hnq Hnp) as (Epar & Epv & Enx & Ef & El & Hp0 & Hq0 & Hpq & Hnd2).
  assert (Hx : l1 <> [] -> x ∈ l1 ++ l2) by (intros; apply elem_of_app; left; by apply last0_in).
  assert (Hy : l2 <> [] -> y ∈ l1 ++ l2) by (intros; apply elem_of_app; right; by apply hd0_in).
  assert (Exl : l1 = [] -> x = 0) by (unfold x; by intros ->).
  assert (Eyl : l2 = [] -> y = 0) by (unfold y; by intros ->).
  unfold namei_remove_child. nrun. rewrite Epar, Epv, Enx.
  destruct (decide (l1 = [])) as [E1|Hne1]; destruct (decide (l2 = [])) as [E2|Hne2];
    try pose proof (Exl E1) as Ex; try pose proof (Eyl E2) as Ey;
    try destruct (sibling_node x (Hx Hne1)) as (Hxq & Hxp & Hx0 & nx & Hnx);
    try destruct (sibling_node y (Hy Hne2)) as (Hyq & Hyp & Hy0 & ny & Hny).
  - rewrite Ex, Ey. cbn [Z.eqb negb]. nrun. removed_case Hnp Ef El.
  - rewrite Ex, (proj2 (Z.eqb_neq y 0) Hy0). cbn [Z.eqb negb]. nrun. removed_case Hnp Ef El.
  - rewrite Ey, (proj2 (Z.eqb_neq x 0) Hx0). cbn [Z.eqb negb]. nrun. removed_case Hnp Ef El.
  - assert (Hxy : x <> y).
    { intros E. apply NoDup_app in Hnd2 as (_ & Hd & _). apply (Hd x); [by apply last0_in|].
      rewrite E. by apply hd0_in. }
    rewrite (proj2 (Z.eqb_neq x 0) Hx0), (proj2 (Z.eqb_neq y 0) Hy0). nrun. removed_case Hnp Ef El.
Qed.
End remove.

(** ** A decision procedure for concrete trees *)

Fixpoint dseg_b (m : gmap Z vnode) (pv : Z) (l : list Z) : bool :=
  match l with
  | [] => true
  | p :: l' => negb (p =? 0) && bool_decide (links m p = Some (pv, hd0 0 l')) && dseg_b m p l'
  end.

Lemma dseg_check m pv l : dseg_b m pv l = true -> dseg m pv l 0.
Proof.
  revert pv. induction l as [|p l IH]; intros pv E; [done|]. cbn [dseg_b] in E.
  rewrite !andb_true_iff, negb_true_iff, Z.eqb_neq, bool_decide_eq_true in E. destruct E as [[Hp Hl] E].
  cbn [dseg]. split_and!; [done|done|by apply IH].
Qed.

(** The children by directory and the names by node. *)
Definition fun_of (m : gmap Z (list Z)) (p : Z) : list Z := default [] (m !! p).

Definition node_b (cm nmm : gmap Z (list Z)) (p : Z) (n : vnode) : bool :=
  (first_child n =? hd0 0 (fun_of cm p)) && (last_child n =? last0 0 (fun_of cm p)) &&
  bool_decide (vn_name n = fun_of nmm p ++ replicate (128 - length (fun_of nmm p)) 0) &&
  bool_decide (0 ∉ fun_of nmm p) && Nat.ltb (length (fun_of nmm p)) 128 && negb (p =? 0).

Definition dir_b (f : fsys) (p : Z) (l : list Z) : bool :=
  dseg_b (nodes f) 0 l && bool_decide (NoDup l) && bool_decide (p ∉ l) && bool_decide (is_Some (nodes f !! p)) &&
  forallb (fun q => match nodes f !! q with Some n => vn_parent n =? p | None => false end) l.

Definition tree_b (f : fsys) (cm nmm : gmap Z (list Z)) : bool :=
  bool_decide (map_Forall (fun p n => node_b cm nmm p n = true) (nodes f)) &&
  bool_decide (map_Forall (fun p l => dir_b f p l = true) cm).

Lemma tree_check f cm nmm : tree_b f cm nmm = true -> tree_ok f (fun_of cm) (fun_of nmm).
Proof.
  unfold tree_b. rewrite andb_true_iff, !bool_decide_eq_true. intros [HA HB].
  assert (HB' : forall p, fun_of cm p <> [] -> dir_b f p (fun_of cm p) = true).
  { intros p Hp. unfold fun_of in *. destruct (cm !! p) as [l|] eqn:E; [|done]. by apply HB. }
  assert (Hdir : forall p, fun_of cm p <> [] -> dseg_b (nodes f) 0 (fun_of cm p) = true /\ NoDup (fun_of cm p) /\
    p ∉ fun_of cm p /\ is_Some (nodes f !! p) /\
    forall q, q ∈ fun_of cm p -> exists n, nodes f !! q = Some n /\ vn_parent n = p).
  { intros p Hp. specialize (HB' p Hp). unfold dir_b in HB'. rewrite !andb_true_iff, !bool_decide_eq_true, forallb_forall in HB'.
    destruct HB' as [[[[H1 H2] H3] H4] H5]. split_and!; try done. intros q Hq%list_elem_of_In. specialize (H5 q Hq).
    destruct (nodes f !! q) as [n|]; [|done]. exists n. split; [done|]. by apply Z.eqb_eq. }
  assert (HA' : forall p n, nodes f !! p = Some n -> first_child n = hd0 0 (fun_of cm p) /\ last_child n = last0 0 (fun_of cm p) /\
    vn_name n = fun_of nmm p ++ replicate (128 - length (fun_of nmm p)) 0 /\ 0 ∉ fun_of nmm p /\
    (length (fun_of nmm p) < 128)%nat /\ p <> 0).
  { intros p n Hn. specialize (HA p n Hn). cbn beta in HA. unfold node_b in HA.
    rewrite !andb_true_iff, !bool_decide_eq_true, !Z.eqb_eq, Nat.ltb_lt, negb_true_iff, Z.eqb_neq in HA.
    destruct HA as [[[[[? ?] ?] ?] ?] ?]. done. }
  assert (Hnil : forall p, fun_of cm p = [] \/ fun_of cm p <> []) by (intros p; destruct (fun_of cm p); auto).
  split.
  - intros p n Hn. by destruct (HA' p n Hn) as (? & ? & _).
  - intros p. destruct (Hnil p) as [->|Hp]; [by split; [|constructor]|].
    destruct (Hdir p Hp) as (H1 & H2 & _). split; [by apply dseg_check|done].
  - intros p n Hn. destruct (HA' p n Hn) as (_ & _ & -> & H0 & Hl & _). split.
    + split; [done|]. destruct (128 - length (fun_of nmm p))%nat as [|j] eqn:E; [lia|]. by eexists.
    + rewrite length_app, length_replicate. unfold MAX_FILENAME. lia.
  - intros p q n Hq Hn. destruct (Hdir p) as (_ & _ & _ & _ & H5); [intros E; rewrite E in Hq; by apply elem_of_nil in Hq|].
    destruct (H5 q Hq) as (n' & ? & ?). by simplify_eq.
  - intros p Hp. by destruct (Hdir p Hp) as (_ & _ & _ & ? & _).
  - intros p. destruct (Hnil p) as [->|Hp]; [apply not_elem_of_nil|]. by destruct (Hdir p Hp) as (_ & _ & ? & _).
  - destruct (nodes f !! 0) as [n|] eqn:E; [|done]. by destruct (HA' 0 n E) as (_ & _ & _ & _ & _ & ?).
Qed.

(** The root with [bin] and [dev]; [bin] holds [sh]. *)
Definition demo_name (s : list Z) : list Z := s ++ replicate (128 - length s) 0.

Definition demo_dir (name : list Z) (par f l pv nx : Z) : vnode :=
  mkVnode (demo_name name) (Some VFS_DIR) 0 0 0
    (mkOps (Some Ramfs) (Some Ramfs) None None (Some Ramfs) None (Some Ramfs) (Some Ramfs) (Some Ramfs)) par f l pv nx 0.

Definition demo_file (name : list Z) (par pv nx : Z) : vnode :=
  mkVnode (demo_name name) (Some VFS_FILE) 0 4096 0
    (mkOps (Some Ramfs) (Some Ramfs) (Some Ramfs) (Some Ramfs) None (Some Ramfs) None None None) par 0 0 pv nx 0x500.

Definition n_bin : list Z := [98; 105; 110].
Definition n_dev : list Z := [100; 101; 118].
Definition n_sh : list Z := [115; 104].

Definition demo_nodes : gmap Z vnode := list_to_map
  [(0x10, demo_dir [SLASH] 0 0x20 0x30 0 0); (0x20, demo_dir n_bin 0x10 0x40 0x40 0 0x30);
   (0x30, demo_dir n_dev 0x10 0 0 0x20 0); (0x40, demo_file n_sh 0x20 0 0)].

Definition demo_fs : fsys := mkFsys demo_nodes {[ 0x500 := RamInode 0x9000 ]} 0x10 0x30 0 0 0.

Definition demo_cm : gmap Z (list Z) := list_to_map [(0x10, [0x20; 0x30]); (0x20, [0x40])].
Definition demo_nm : gmap Z (list Z) := list_to_map [(0x10, [SLASH]); (0x20, n_bin); (0x30, n_dev); (0x40, n_sh)].

Lemma demo_tree : tree_ok demo_fs (fun_of demo_cm) (fun_of demo_nm).
Proof. apply tree_check. vm_compute. reflexivity. Qed.

Lemma comp_check c : (match c with [] => false | _ => true end && Nat.ltb (length c) 128 &&
  bool_decide (0 ∉ c) && bool_decide (SLASH ∉ c)) = true -> comp_ok c.
Proof.
  rewrite !andb_true_iff, Nat.ltb_lt, !bool_decide_eq_true. intros [[[H1 H2] H3] H4].
  split_and!; [by destruct c|exact H2|done|done].
Qed.

(** ** Properties *)

(** C3: path resolution refines walking the tree by names: for an absolute
    path made of well-formed components, with or without a slash at its end,
    [namei_path_to_vfs_node] always returns, changes nothing, and answers the
    node and the directory that [resolve] finds; a missing last component
    gives no node but its directory, an earlier one neither. *)
Theorem path_resolution_refines f cs nm root comps slash fname :
  tree_ok f cs nm -> is_Some (nodes f !! (if root =? 0 then tree_root f else root)) ->
  Forall comp_ok comps -> length fname = Z.to_nat MAX_FILENAME ->
  namei_path_to_vfs_node root (path_of comps slash) fname f =
    let '(node, parent) := resolve cs nm (if root =? 0 then tree_root f else root) comps in
    Ok ((node, Some parent), f).
Proof.
  intros Hok Hroot Hall Hl.
  destruct (wp_run _ _ _ (namei_wp f cs nm root comps slash fname Hok Hroot Hall Hl)) as (r & f' & -> & -> & Hr).
  destruct (resolve _ _ _ _). by rewrite Hr.
Qed.

Lemma path_resolution_refines_witness :
  namei_path_to_vfs_node 0 (path_of [n_bin; n_sh] true) (replicate 128 7) demo_fs = Ok ((0x40, Some 0x20), demo_fs) /\
  namei_path_to_vfs_node 0 (path_of [n_bin; n_dev] false) (replicate 128 7) demo_fs = Ok ((0, Some 0x20), demo_fs).
Proof.
  split.
  - apply (path_resolution_refines demo_fs (fun_of demo_cm) (fun_of demo_nm) 0 [n_bin; n_sh] true (replicate 128 7) demo_tree);
      [by eexists|repeat constructor; apply comp_check; vm_compute; reflexivity|reflexivity].
  - apply (path_resolution_refines demo_fs (fun_of demo_cm) (fun_of demo_nm) 0 [n_bin; n_dev] false (replicate 128 7) demo_tree);
      [by eexists|repeat constructor; apply comp_check; vm_compute; reflexivity|reflexivity].
Defined.
