(* ===== verification/Sched.v ===== *)
(** * Scheduler queues ([src/src/kernel/cpu/scheduler.c], [task.h], [scheduler.h])

    Task control blocks live in a store indexed by address.  A task that is
    not a zombie is in exactly one of three queues, linked through [prev] and
    [next].  [sched_add_task] and [sched_set_state] end with a call of
    [task_switch_to] for a task of higher priority: here they answer that
    task, and [Task.v] makes the call. *)

From S2P Require Import Prelude Dlist.

#[local] Open Scope Z_scope.

Inductive task_state := READY | RUNNING | WAITING | ZOMBIE.
Inductive task_priority := USER | OS.

#[global] Instance task_state_eq : EqDecision task_state.
Proof. solve_decision. Defined.
#[global] Instance task_priority_eq : EqDecision task_priority.
Proof. solve_decision. Defined.

(** [a > b] on the C enumeration. *)
Definition prio_gt (a b : task_priority) : bool :=
  match a, b with OS, USER => true | _, _ => false end.

(** [task_regs_t], in the order [context_switch] relies on. *)
Record task_regs := mkRegs {
  eax : Z; ebx : Z; ecx : Z; edx : Z; esi : Z; edi : Z;
  esp : Z; ebp : Z; eip : Z; eflags : Z; cr3 : Z; ds : Z; cs : Z;
}.

Definition zero_regs : task_regs := mkRegs 0 0 0 0 0 0 0 0 0 0 0 0 0.
Definition regs_set_retval v r := mkRegs v (ebx r) (ecx r) (edx r) (esi r) (edi r) (esp r) (ebp r) (eip r) (eflags r) (cr3 r) (ds r) (cs r).
Definition regs_set_errno v r := mkRegs (eax r) (ebx r) (ecx r) (edx r) v (edi r) (esp r) (ebp r) (eip r) (eflags r) (cr3 r) (ds r) (cs r).
Definition regs_set_stack_pointer v r := mkRegs (eax r) (ebx r) (ecx r) (edx r) (esi r) (edi r) v (ebp r) (eip r) (eflags r) (cr3 r) (ds r) (cs r).
Definition regs_set_pd v r := mkRegs (eax r) (ebx r) (ecx r) (edx r) (esi r) (edi r) (esp r) (ebp r) (eip r) (eflags r) v (ds r) (cs r).
(** Every register but [cr3]. *)
Definition regs_fork (src dst : task_regs) : task_regs :=
  mkRegs (eax src) (ebx src) (ecx src) (edx src) (esi src) (edi src) (esp src) (ebp src) (eip src) (eflags src) (cr3 dst) (ds src) (cs src).

Definition MAX_FDS : nat := 256.

Record tcb := mkTcb {
  task_id : Z; kernel_stack : Z; exit_code : Z;
  fd_ctr : Z; used_fd : list Z;
  t_mask : Z; t_current : Z;
  wait4 : Z;
  t_parent : Z; t_first_child : Z; t_last_child : Z; t_prev_sibling : Z; t_next_sibling : Z;
  t_state : task_state; t_priority : task_priority;
  t_next : Z; t_prev : Z;
  t_regs : task_regs; t_aspace : Z;
}.

Definition zero_tcb : tcb := mkTcb 0 0 0 0 (replicate MAX_FDS 0) 0 0 0 0 0 0 0 0 READY USER 0 0 zero_regs 0.

Definition set_t_state v t := mkTcb (task_id t) (kernel_stack t) (exit_code t) (fd_ctr t) (used_fd t) (t_mask t) (t_current t) (wait4 t) (t_parent t) (t_first_child t) (t_last_child t) (t_prev_sibling t) (t_next_sibling t) v (t_priority t) (t_next t) (t_prev t) (t_regs t) (t_aspace t).
Definition set_t_next v t := mkTcb (task_id t) (kernel_stack t) (exit_code t) (fd_ctr t) (used_fd t) (t_mask t) (t_current t) (wait4 t) (t_parent t) (t_first_child t) (t_last_child t) (t_prev_sibling t) (t_next_sibling t) (t_state t) (t_priority t) v (t_prev t) (t_regs t) (t_aspace t).
Definition set_t_prev v t := mkTcb (task_id t) (kernel_stack t) (exit_code t) (fd_ctr t) (used_fd t) (t_mask t) (t_current t) (wait4 t) (t_parent t) (t_first_child t) (t_last_child t) (t_prev_sibling t) (t_next_sibling t) (t_state t) (t_priority t) (t_next t) v (t_regs t) (t_aspace t).

#[global] Instance tcb_linked : Linked tcb := { l_prev := t_prev; l_next := t_next }.

Record queue := mkQueue { q_counter : Z; q_first : Z; q_last : Z }.

Definition empty_queue : queue := mkQueue 0 0 0.
Definition set_q_counter v q := mkQueue v (q_first q) (q_last q).
Definition set_q_first v q := mkQueue (q_counter q) v (q_last q).
Definition set_q_last v q := mkQueue (q_counter q) (q_first q) v.

(** Which queue. *)
Inductive qid := OsQ | UserQ | SleepQ.

#[global] Instance qid_eq : EqDecision qid.
Proof. solve_decision. Defined.

Record sched := mkSched {
  tasks : gmap Z tcb;
  queues : qid -> queue;                 (* os_q, user_q, sleep_q *)
  total_tasks : Z; running_tasks : Z; sleeping_tasks : Z;   (* sched_global *)
  actual_task : Z; kernel_task : Z; next_to_run : Z;
  task_tree_root : Z; old_tid : Z;
}.

Definition set_tasks v s := mkSched v (queues s) (total_tasks s) (running_tasks s) (sleeping_tasks s) (actual_task s) (kernel_task s) (next_to_run s) (task_tree_root s) (old_tid s).
Definition set_queues v s := mkSched (tasks s) v (total_tasks s) (running_tasks s) (sleeping_tasks s) (actual_task s) (kernel_task s) (next_to_run s) (task_tree_root s) (old_tid s).
Definition set_counts a b c s := mkSched (tasks s) (queues s) a b c (actual_task s) (kernel_task s) (next_to_run s) (task_tree_root s) (old_tid s).
Definition set_actual v s := mkSched (tasks s) (queues s) (total_tasks s) (running_tasks s) (sleeping_tasks s) v (kernel_task s) (next_to_run s) (task_tree_root s) (old_tid s).
Definition set_kernel_task v s := mkSched (tasks s) (queues s) (total_tasks s) (running_tasks s) (sleeping_tasks s) (actual_task s) v (next_to_run s) (task_tree_root s) (old_tid s).
Definition set_next_to_run v s := mkSched (tasks s) (queues s) (total_tasks s) (running_tasks s) (sleeping_tasks s) (actual_task s) (kernel_task s) v (task_tree_root s) (old_tid s).
Definition set_tree_root v s := mkSched (tasks s) (queues s) (total_tasks s) (running_tasks s) (sleeping_tasks s) (actual_task s) (kernel_task s) (next_to_run s) v (old_tid s).
Definition set_old_tid v s := mkSched (tasks s) (queues s) (total_tasks s) (running_tasks s) (sleeping_tasks s) (actual_task s) (kernel_task s) (next_to_run s) (task_tree_root s) v.

Definition sm := M sched.

Definition ld_task (p : Z) : sm tcb := fun s =>
  match tasks s !! p with
  | Some t => if p =? 0 then Fault else Ok (t, s)
  | None => Fault
  end.

Definition upd_task (p : Z) (f : tcb -> tcb) : sm unit :=
  do t <- ld_task p; mod_ (fun s => set_tasks (<[p := f t]> (tasks s)) s).

Definition upd_queue (k : qid) (f : queue -> queue) : sm unit :=
  mod_ (fun s => set_queues (fun k' => if decide (k' = k) then f (queues s k) else queues s k') s).

Definition _set_queue (t : tcb) : qid :=
  if decide (t_state t = WAITING) then SleepQ
  else if decide (t_priority t = OS) then OsQ else UserQ.

Definition __find_in_queue (tid : Z) (k : qid) : sm Z :=
  lift_ (fun s => walk (tasks s) (fun _ t => task_id t =? tid) (q_first (queues s k))).

Definition _add_to_queue (t : Z) : sm unit :=
  do c <- ld_task t;
  let k := _set_queue c in
  do q <- get_ (fun s => queues s k);
  (if q_first q =? 0 then
     upd_queue k (set_q_first t) ;;;
     upd_task t (set_t_prev 0)
   else
     upd_task t (set_t_prev (q_last q)) ;;;
     upd_task (q_last q) (set_t_next t)) ;;;
  upd_task t (set_t_next 0) ;;;
  upd_queue k (set_q_last t) ;;;
  upd_queue k (fun q => set_q_counter (q_counter q +w 1) q).

Definition _remove_from_queue (t : Z) : sm unit :=
  do c <- ld_task t;
  let k := _set_queue c in
  do q <- get_ (fun s => queues s k);
  (if q_first q =? t then
     upd_queue k (set_q_first (t_next c)) ;;;
     when negb (t_next c =? 0) then_ upd_task (t_next c) (set_t_prev 0)
   else if q_last q =? t then
     upd_queue k (set_q_last (t_prev c)) ;;;
     upd_task (t_prev c) (set_t_next 0)
   else
     upd_task (t_prev c) (set_t_next (t_next c)) ;;;
     upd_task (t_next c) (set_t_prev (t_prev c))) ;;;
  upd_task t (set_t_prev 0) ;;;
  upd_task t (set_t_next 0) ;;;
  upd_queue k (fun q => set_q_counter (q_counter q -w 1) q).

Definition sched_get_tcb (tid : Z) : sm Z :=
  do t <- __find_in_queue tid SleepQ;
  if negb (t =? 0) then ret_ t
  else
    do t <- __find_in_queue tid OsQ;
    if negb (t =? 0) then ret_ t else __find_in_queue tid UserQ.

Definition sched_get_next_task : sm Z :=
  do s <- get_ (fun s => s);
  if 0 <? q_counter (queues s OsQ) then
    do stored <- (if negb (next_to_run s =? 0) then
                    do t <- ld_task (next_to_run s); ret_ (bool_decide (t_priority t = OS))
                  else ret_ false);
    if stored : bool then mod_ (set_next_to_run 0) ;;; ret_ (next_to_run s)
    else ret_ (q_first (queues s OsQ))
  else if 0 <? q_counter (queues s UserQ) then
    if negb (next_to_run s =? 0) then mod_ (set_next_to_run 0) ;;; ret_ (next_to_run s)
    else ret_ (q_first (queues s UserQ))
  else ret_ (kernel_task s).

(** [next_to_run = actual_task->next; task_switch_to(tcb)] when [tcb] has a
    higher priority than the running task. *)
Definition preempts (tcb_ : Z) : sm (option Z) :=
  do t <- ld_task tcb_;
  do cur <- get_ actual_task;
  do a <- ld_task cur;
  if prio_gt (t_priority t) (t_priority a) then
    mod_ (set_next_to_run (t_next a)) ;;; ret_ (Some tcb_)
  else ret_ None.

Definition sched_add_task (tcb_ : Z) : sm (option Z) :=
  upd_task tcb_ (set_t_state READY) ;;;
  mod_ (fun s => set_counts (total_tasks s +w 1) (running_tasks s +w 1) (sleeping_tasks s) s) ;;;
  _add_to_queue tcb_ ;;;
  preempts tcb_.

Definition sched_remove (tcb_ : Z) : sm unit :=
  mod_ (fun s => set_counts (total_tasks s -w 1) (running_tasks s) (sleeping_tasks s) s) ;;;
  do t <- ld_task tcb_;
  if decide (t_state t = ZOMBIE) then ret_ tt
  else
    (if decide (t_state t = WAITING)
     then mod_ (fun s => set_counts (total_tasks s) (running_tasks s) (sleeping_tasks s -w 1) s)
     else mod_ (fun s => set_counts (total_tasks s) (running_tasks s -w 1) (sleeping_tasks s) s)) ;;;
    _remove_from_queue tcb_.

Definition sched_set_state (tid : Z) (mode : bool) : sm (option Z) :=
  do p <- sched_get_tcb tid;
  do t <- ld_task p;
  if bool_decide (t_state t = READY \/ t_state t = RUNNING) && mode then ret_ None
  else if bool_decide (t_state t = WAITING) && negb mode then ret_ None
  else
    _remove_from_queue p ;;;
    (if mode then
       upd_task p (set_t_state READY) ;;;
       mod_ (fun s => set_counts (total_tasks s) (running_tasks s +w 1) (sleeping_tasks s -w 1) s)
     else
       upd_task p (set_t_state WAITING) ;;;
       mod_ (fun s => set_counts (total_tasks s) (running_tasks s -w 1) (sleeping_tasks s +w 1) s)) ;;;
    _add_to_queue p ;;;
    do t <- ld_task p;
    if decide (t_state t = READY) then preempts p else ret_ None.

Definition sched_wake_task (tid : Z) : sm (option Z) := sched_set_state tid true.
Definition sched_sleep_task (tid : Z) : sm (option Z) := sched_set_state tid false.
