(* ===== verification/SchedSpec.v ===== *)
(** * Correctness of the scheduler's queues

    [qs_ok s qs]: the queue [k] holds the tasks [qs k], in order, correctly
    linked and counted, and each is in the queue its state and priority call
    for.  When a queue is empty its [last] pointer is stale. *)

From S2P Require Import Prelude Dlist Sched.

#[local] Open Scope Z_scope.

Record queue_ok (s : sched) (k : qid) (l : list Z) : Prop := {
  qo_first : q_first (queues s k) = hd0 0 l;
  qo_last : l <> [] -> q_last (queues s k) = last0 0 l;
  qo_count : q_counter (queues s k) = Z.of_nat (length l) mod W32;
  qo_dl : dlist (tasks s) l;
  qo_home : forall p t, p ∈ l -> tasks s !! p = Some t -> t_state t <> ZOMBIE /\ _set_queue t = k;
}.

Definition qs_ok (s : sched) (qs : qid -> list Z) : Prop := forall k, queue_ok s k (qs k).

Definition upd_q (qs : qid -> list Z) (k : qid) (l : list Z) : qid -> list Z :=
  fun k' => if decide (k' = k) then l else qs k'.

(** Everything about a task but its queue links. *)
Definition core (t : tcb) : tcb := set_t_next 0 (set_t_prev 0 t).

(** Everything of the scheduler's state but the tasks and the queues. *)
Definition rest_of (s : sched) : sched := set_tasks ∅ (set_queues (fun _ => empty_queue) s).

Definition same_core (s s' : sched) : Prop :=
  (forall x, core <$> tasks s' !! x = core <$> tasks s !! x) /\ rest_of s' = rest_of s.

Lemma same_core_trans s1 s2 s3 : same_core s1 s2 -> same_core s2 s3 -> same_core s1 s3.
Proof. intros [H1 E1] [H2 E2]. split; [intros x; by rewrite H2|congruence]. Qed.

Lemma core_insert (m : gmap Z tcb) p t t' x : m !! p = Some t -> core t' = core t ->
  core <$> <[p := t']> m !! x = core <$> m !! x.
Proof. intros E Hc. rewrite lookup_insert. case_decide; [|done]. subst. rewrite E. cbn. by f_equal. Qed.

Lemma core_home t t' : core t' = core t -> t_state t' = t_state t /\ t_priority t' = t_priority t /\
  task_id t' = task_id t /\ _set_queue t' = _set_queue t.
Proof.
  intros E. pose proof (f_equal t_state E) as E1. pose proof (f_equal t_priority E) as E2.
  pose proof (f_equal task_id E) as E3. cbn in E1, E2, E3. unfold _set_queue. by rewrite E1, E2.
Qed.

Lemma core_lookup s s' x t : same_core s s' -> tasks s !! x = Some t ->
  exists t', tasks s' !! x = Some t' /\ core t' = core t.
Proof.
  intros [H _] E. specialize (H x). rewrite E in H. destruct (tasks s' !! x) as [t'|]; [|done].
  exists t'. split; [done|]. cbn in H. congruence.
Qed.

Section members.
Context (s : sched) (qs : qid -> list Z).
Hypothesis (Hok : qs_ok s qs).

Lemma member_task k p : p ∈ qs k -> exists t, tasks s !! p = Some t /\ p <> 0 /\
  t_state t <> ZOMBIE /\ _set_queue t = k.
Proof.
  intros Hp. destruct (qo_dl _ _ _ (Hok k)) as [Hd _]. destruct (dseg_lookup _ _ _ _ _ Hd Hp) as [t Ht].
  exists t. split; [done|]. split; [by eapply dseg_nonzero|]. by apply (qo_home _ _ _ (Hok k) p).
Qed.

Lemma one_queue k k' p : p ∈ qs k -> p ∈ qs k' -> k = k'.
Proof.
  intros H1 H2. destruct (member_task k p H1) as (t & Ht & _ & _ & <-).
  destruct (member_task k' p H2) as (t' & Ht' & _ & _ & <-). by simplify_eq.
Qed.
End members.

(** ** Stepping through the code *)

Lemma wp_ld_task s p t (Q : tcb -> sched -> Prop) : tasks s !! p = Some t -> p <> 0 -> Q t s -> wp (ld_task p) Q s.
Proof. intros E Hp HQ. unfold wp, ld_task. rewrite E, (proj2 (Z.eqb_neq p 0)) by done. exact HQ. Qed.

Lemma wp_upd_task s p t f (Q : unit -> sched -> Prop) : tasks s !! p = Some t -> p <> 0 ->
  Q tt (set_tasks (<[p := f t]> (tasks s)) s) -> wp (upd_task p f) Q s.
Proof. intros E Hp HQ. unfold upd_task. apply wp_bind. by eapply wp_ld_task. Qed.

Ltac tlk := cbn [tasks set_tasks set_queues set_counts set_actual set_next_to_run];
  repeat first [rewrite lookup_insert_eq | rewrite lookup_insert_ne by congruence];
  first [eassumption | reflexivity].
Ltac sstep :=
  match goal with
  | |- wp (bind_ _ _) _ _ => apply wp_bind
  | |- wp (ret_ _) _ _ => apply wp_ret
  | |- wp (get_ _) _ _ => apply wp_get
  | |- wp (mod_ _) _ _ => apply wp_mod
  | |- wp (upd_queue _ _) _ _ => apply wp_mod
  | |- wp (ld_task _) _ _ => eapply wp_ld_task; [tlk|congruence|]
  | |- wp (upd_task _ _) _ _ => eapply wp_upd_task; [tlk|congruence|]
  end.
Ltac srun := repeat (sstep; cbv beta).
Ltac core_tac :=
  split; [intros; cbn [tasks set_tasks set_queues];
    repeat first [reflexivity | erewrite core_insert; [|tlk|reflexivity]] | reflexivity].
Ltac slinks m :=
  unfold links; cbn [tasks set_tasks set_queues]; rewrite ?lookup_insert; repeat case_decide; subst; try congruence;
  repeat match goal with H : m !! ?p = Some _ |- _ => rewrite H end; cbn; try congruence;
  try (match goal with |- context [_ <$> ?m !! ?q] => destruct (m !! q); reflexivity end).

(** ** Adding at the end *)

Lemma counter_succ n : Z.of_nat n mod W32 +w 1 = Z.of_nat (n + 1) mod W32.
Proof. unfold w32. rewrite Nat2Z.inj_add. by rewrite Zplus_mod_idemp_l. Qed.

Lemma counter_pred n : Z.of_nat (n + 1) mod W32 -w 1 = Z.of_nat n mod W32.
Proof. unfold w32. rewrite Nat2Z.inj_add, Zminus_mod_idemp_l. f_equal. lia. Qed.

(** A change of one queue that leaves the members of the others alone. *)
Lemma qs_changed s s' qs k l :
  qs_ok s qs -> same_core s s' -> queue_ok s' k l ->
  (forall k', k' <> k -> queues s' k' = queues s k') ->
  (forall k' x, k' <> k -> x ∈ qs k' -> links (tasks s') x = links (tasks s) x) ->
  qs_ok s' (upd_q qs k l).
Proof.
  intros Hok [Hc _] Hk Hq Hl k'. unfold upd_q. case_decide as E; [by subst|].
  destruct (Hok k') as [H1 H2 H3 H4 H5]. split; rewrite ?Hq by done; try done.
  - eapply dlist_frame; [|exact H4]. intros x Hx. by apply (Hl k').
  - intros p t Hp Ht. pose proof (Hc p) as Ec. rewrite Ht in Ec. destruct (tasks s !! p) as [t0|] eqn:E0; [|done].
    cbn in Ec. destruct (core_home t0 t) as (Es & _ & _ & Eq); [congruence|]. rewrite Es, Eq. by apply (H5 p).
Qed.

Lemma add_wp s qs p t : qs_ok s qs -> tasks s !! p = Some t -> p <> 0 -> t_state t <> ZOMBIE ->
  (forall k, p ∉ qs k) ->
  wp (_add_to_queue p) (fun _ s' => qs_ok s' (upd_q qs (_set_queue t) (qs (_set_queue t) ++ [p])) /\ same_core s s') s.
Proof.
  intros Hok Ht Hp0 Hz Hfresh. set (k := _set_queue t). pose proof (Hok k) as [H1 H2 H3 H4 H5].
  unfold _add_to_queue. srun. fold k.
  assert (Hmem : forall x, x ∈ qs k -> x <> p /\ x <> 0 /\ exists tx, tasks s !! x = Some tx).
  { intros x Hx. destruct (member_task s qs Hok k x Hx) as (tx & ? & ? & _). split; [by intros ->; apply (Hfresh k)|eauto]. }
  assert (Hhome : forall s', same_core s s' -> forall x tx, x ∈ qs k ++ [p] -> tasks s' !! x = Some tx ->
            t_state tx <> ZOMBIE /\ _set_queue tx = k).
  { intros s' [Hc _] x tx Hx Htx. specialize (Hc x). rewrite Htx in Hc. destruct (tasks s !! x) as [t0|] eqn:E0; [|done].
    cbn in Hc. destruct (core_home t0 tx) as (-> & _ & _ & ->); [congruence|].
    apply elem_of_app in Hx as [Hx|Hx%list_elem_of_singleton]; [by apply (H5 x)|subst; by simplify_eq]. }
  destruct (decide (qs k = [])) as [E|Hne].
  - rewrite H1, E. cbn [hd0 Z.eqb]. srun. match goal with |- qs_ok ?x _ /\ _ => set (s' := x) end.
    assert (Hsc : same_core s s') by (unfold s'; core_tac). split; [|done].
    apply (qs_changed s); try done.
    + split; try done.
      * cbn. rewrite !decide_True by done. done.
      * intros _. cbn. rewrite !decide_True by done. done.
      * cbn. rewrite !decide_True by done. cbn. rewrite H3, E. done.
      * split; [|apply NoDup_singleton]. cbn. split_and!; [done| |done]. unfold links. cbn. tlk.
      * rewrite <- E in *. by apply Hhome.
    + intros k' Hk'. cbn. rewrite !decide_False by done. done.
    + intros k' x Hk' Hx. assert (x <> p) by (intros ->; by apply (Hfresh k')). unfold s'. slinks (tasks s).
  - assert (Hl : last0 0 (qs k) ∈ qs k) by by apply last0_in. destruct (Hmem _ Hl) as (Hlp & Hl0 & tl & Htl).
    assert (Hf : hd0 0 (qs k) ∈ qs k) by by apply hd0_in. destruct (Hmem _ Hf) as (_ & Hf0 & _).
    assert (Hqf : (q_first (queues s k) =? 0) = false) by (rewrite H1; by apply Z.eqb_neq). rewrite Hqf.
    rewrite (H2 Hne). assert (exists z, z = last0 0 (qs k)) as [z Ez] by eauto. rewrite <- Ez in *.
    srun. match goal with |- qs_ok ?x _ /\ _ => set (s' := x) end.
    assert (Hsc : same_core s s') by (unfold s'; core_tac). split; [|done].
    apply (qs_changed s); try done.
    + split.
      * cbn. rewrite !decide_True by done. cbn. rewrite H1. by destruct (qs k).
      * intros _. cbn. rewrite !decide_True by done. cbn. by rewrite last0_snoc.
      * cbn. rewrite !decide_True by done. cbn. rewrite H3, length_app. apply counter_succ.
      * apply (dlist_insert (tasks s) _ (qs k) [] p); [rewrite ?app_nil_r; try done; apply Hfresh..|]. split.
        -- rewrite <- Ez. unfold links. cbn. rewrite lookup_insert_eq. done.
        -- intros x Hx. rewrite app_nil_r in Hx. destruct (Hmem x Hx) as (? & ? & tx & Htx). rewrite <- Ez.
           unfold s', links. cbn [tasks set_tasks set_queues set_counts hd0]. rewrite !lookup_insert.
           repeat case_decide; try congruence; subst; rewrite ?Htx; simplify_eq; done.
      * by apply Hhome.
    + intros k' Hk'. cbn. rewrite !decide_False by done. done.
    + intros k' x Hk' Hx. assert (x <> p) by (intros ->; by apply (Hfresh k')).
      assert (x <> z) by (intros ->; apply Hk'; by eapply one_queue). unfold s'. slinks (tasks s).
Qed.

(** ** Unlinking *)

Section remove.
Context (s : sched) (qs : qid -> list Z) (p : Z) (t : tcb) (l1 l2 : list Z).
Let k := _set_queue t.
Hypotheses (Hok : qs_ok s qs) (Ht : tasks s !! p = Some t) (Hqs : qs k = l1 ++ p :: l2).

Let x := last0 0 l1.
Let y := hd0 0 l2.

Lemma removed s' :
  same_core s s' -> (forall k', k' <> k -> queues s' k' = queues s k') ->
  q_first (queues s' k) = hd0 0 (l1 ++ l2) -> (l1 ++ l2 <> [] -> q_last (queues s' k) = last0 0 (l1 ++ l2)) ->
  q_counter (queues s' k) = q_counter (queues s k) -w 1 ->
  unlinked_between (tasks s) (tasks s') x y (l1 ++ l2) ->
  (forall z, z <> x -> z <> y -> z <> p -> links (tasks s') z = links (tasks s) z) ->
  qs_ok s' (upd_q qs k (l1 ++ l2)).
Proof.
  intros Hsc Hq Hf Hl Hc Hu Hlk. pose proof (Hok k) as [H1 H2 H3 H4 H5]. rewrite Hqs in *.
  assert (Hsub : forall z, z ∈ l1 ++ l2 -> z ∈ qs k) by (intros z Hz; rewrite Hqs; in_tac).
  assert (Hmz : forall k' z, z ∈ qs k' -> z <> 0).
  { intros k' z Hz. by destruct (member_task s qs Hok k' z Hz) as (? & _ & ? & _). }
  apply (qs_changed s); try done.
  - split; try done.
    + rewrite Hc, H3, length_app. cbn [length]. replace (length l1 + S (length l2))%nat with (length (l1 ++ l2) + 1)%nat
        by (rewrite length_app; lia). apply counter_pred.
    + eapply dlist_remove; [exact H4|exact Hu].
    + intros z tz Hz Htz. destruct Hsc as [Hsc _]. specialize (Hsc z). rewrite Htz in Hsc.
      destruct (tasks s !! z) as [t0|] eqn:E0; [|done]. cbn in Hsc.
      destruct (core_home t0 tz) as (-> & _ & _ & ->); [congruence|]. apply (H5 z); [in_tac|done].
  - intros k' z Hk' Hz. apply Hlk.
    + intros ->. unfold x in *. destruct l1 as [|a j]; [by apply (Hmz k' 0)|].
      apply Hk'. eapply (one_queue s qs Hok); [exact Hz|]. apply Hsub, elem_of_app. left. by apply last0_in.
    + intros ->. unfold y in *. destruct l2 as [|a j]; [by apply (Hmz k' 0)|].
      apply Hk'. eapply (one_queue s qs Hok); [exact Hz|]. apply Hsub, elem_of_app. right. by apply hd0_in.
    + intros ->. apply Hk'. eapply (one_queue s qs Hok); [exact Hz|]. rewrite Hqs. in_tac.
Qed.

Lemma rest_member z : z ∈ l1 ++ l2 -> z <> p /\ z <> 0 /\ exists tz, tasks s !! z = Some tz.
Proof.
  intros Hz. destruct (qo_dl _ _ _ (Hok k)) as [_ Hnd]. rewrite Hqs in Hnd.
  destruct (member_task s qs Hok k z) as (tz & ? & ? & _); [rewrite Hqs; in_tac|].
  split_and!; [|done|eauto]. intros ->. by apply NoDup_skip in Hnd as [? _].
Qed.

(** The ends of the queue and the links of [p] in it. *)
Lemma queue_around : q_first (queues s k) = hd0 p l1 /\ q_last (queues s k) = last0 p l2 /\
  p <> 0 /\ t_prev t = x /\ t_next t = y /\ NoDup (l1 ++ l2).
Proof.
  pose proof (Hok k) as [H1 H2 H3 [Hseg Hnd] H5]. rewrite Hqs in H1, H2, Hseg, Hnd. specialize (H2 ltac:(by destruct l1)).
  rewrite hd0_app in H1. rewrite last0_app in H2. apply dseg_app in Hseg as [_ (Hp0 & Hlk & _)].
  rewrite (links_lookup _ _ _ Ht) in Hlk. injection Hlk as Epv Enx.
  split_and!; try done. by apply NoDup_skip in Hnd as [_ ?].
Qed.

Ltac removed_case H1 H2 :=
  let s' := fresh "s" in match goal with |- qs_ok ?z _ /\ _ => set (s' := z) end;
  assert (Hsc : same_core s s') by (unfold s'; core_tac); split; [|done]; apply removed; try done; unfold s';
  match goal with
  | |- forall k', k' <> _ -> _ => intros k' Hk'; cbn; by rewrite !decide_False by done
  | |- q_counter _ = _ => cbn; by rewrite !decide_True by done
  | |- q_first _ = _ => cbn; rewrite !decide_True by done; cbn; rewrite ?H1, hd0_app; by destruct l1, l2
  | |- _ -> q_last _ = _ => intros Hne; cbn; rewrite !decide_True by done; cbn; rewrite ?H2, last0_app; by destruct l1, l2
  | |- unlinked_between _ _ _ _ _ =>
      intros z Hz; destruct (rest_member z Hz) as (? & ? & tz & Htz); unfold links;
      cbn [tasks set_tasks set_queues]; rewrite !lookup_insert;
      repeat case_decide; try congruence; subst; rewrite ?Htz; simplify_eq; done
  | |- forall z, _ -> _ -> _ -> links _ _ = _ => intros z Hz1 Hz2 Hz3; slinks (tasks s)
  end.

Lemma remove_wp : wp (_remove_from_queue p) (fun _ s' => qs_ok s' (upd_q qs k (l1 ++ l2)) /\ same_core s s') s.
Proof.
  destruct queue_around as (H1 & H2 & Hp0 & Epv & Enx & Hnd2).
  assert (Hx : l1 <> [] -> x ∈ l1 ++ l2) by (intros; apply elem_of_app; left; by apply last0_in).
  assert (Hy : l2 <> [] -> y ∈ l1 ++ l2) by (intros; apply elem_of_app; right; by apply hd0_in).
  unfold _remove_from_queue. srun. fold k. rewrite H1, H2, Epv, Enx.
  assert (Hhd : l1 <> [] -> (hd0 p l1 =? p) = false).
  { intros Hne. apply Z.eqb_neq. apply (rest_member (hd0 p l1)). apply elem_of_app. left. by apply hd0_in. }
  assert (Hla : l2 <> [] -> (last0 p l2 =? p) = false).
  { intros Hne. apply Z.eqb_neq. apply (rest_member (last0 p l2)). apply elem_of_app. right. by apply last0_in. }
  assert (Exl : l1 = [] -> x = 0 /\ hd0 p l1 = p) by (unfold x; by intros ->).
  assert (Eyl : l2 = [] -> y = 0 /\ last0 p l2 = p) by (unfold y; by intros ->).
  destruct (decide (l1 = [])) as [E1|Hne1]; destruct (decide (l2 = [])) as [E2|Hne2];
    try destruct (Exl E1) as [Ex ->]; try destruct (Eyl E2) as [Ey Eyp];
    try destruct (rest_member x (Hx Hne1)) as (Hxp & Hx0 & tx & Htx);
    try destruct (rest_member y (Hy Hne2)) as (Hyp & Hy0 & ty & Hty).
  - rewrite Z.eqb_refl, Ey. cbn [Z.eqb negb]. srun. removed_case H1 H2.
  - rewrite Z.eqb_refl, (proj2 (Z.eqb_neq y 0) Hy0). cbn [negb]. srun. removed_case H1 H2.
  - rewrite (Hhd Hne1), Eyp, Z.eqb_refl. srun. removed_case H1 H2.
  - assert (Hxy : x <> y).
    { intros E. apply NoDup_app in Hnd2 as (_ & Hd & _). apply (Hd x); [by apply last0_in|].
      rewrite E. by apply hd0_in. }
    rewrite (Hhd Hne1), (Hla Hne2). srun. removed_case H1 H2.
Qed.
End remove.

(** ** Sleeping and waking *)

(** The queues, the counters of the scheduler, and identifiers that identify. *)
Record sched_ok (s : sched) (qs : qid -> list Z) : Prop := {
  so_qs : qs_ok s qs;
  so_running : running_tasks s = Z.of_nat (length (qs OsQ) + length (qs UserQ)) mod W32;
  so_sleeping : sleeping_tasks s = Z.of_nat (length (qs SleepQ)) mod W32;
  so_ids : forall k k' p q tp tq, p ∈ qs k -> q ∈ qs k' -> tasks s !! p = Some tp -> tasks s !! q = Some tq ->
    task_id tp = task_id tq -> p = q;
}.

Lemma find_in_queue_wp s qs tid k : qs_ok s qs -> wp (__find_in_queue tid k) (fun r s' => s' = s /\
  ((r = 0 /\ forall q tq, q ∈ qs k -> tasks s !! q = Some tq -> task_id tq <> tid) \/
   (r ∈ qs k /\ r <> 0 /\ exists tr, tasks s !! r = Some tr /\ task_id tr = tid))) s.
Proof.
  intros Hok. unfold __find_in_queue. pose proof (qo_dl _ _ _ (Hok k)) as Hdl.
  eapply wp_lift; [rewrite (qo_first _ _ _ (Hok k)); by apply walk_dlist|]. split; [done|].
  destruct Hdl as [Hd _].
  destruct (first_such_split _ (fun _ t => task_id t =? tid) _ _ (dseg_sseg _ _ _ _ Hd))
    as [[E Hall]|(j1 & q & j2 & n & Ej & E & Hq0 & Hn & Htest & _)].
  - left. split; [exact E|]. intros q tq Hq Htq Eq. specialize (Hall q tq Hq Htq). cbn in Hall. lia.
  - right. rewrite E, Ej. split; [in_tac|]. split; [done|]. exists n. split; [done|]. by apply Z.eqb_eq.
Qed.

Lemma get_tcb_wp s qs k p t : sched_ok s qs -> p ∈ qs k -> tasks s !! p = Some t ->
  wp (sched_get_tcb (task_id t)) (fun r s' => r = p /\ s' = s) s.
Proof.
  intros [Hok _ _ Hid] Hp Ht. destruct (member_task s qs Hok k p Hp) as (t0 & Ht0 & Hp0 & _). simplify_eq.
  assert (Hsame : forall k' r tr, r ∈ qs k' -> tasks s !! r = Some tr -> task_id tr = task_id t -> r = p).
  { intros k' r tr Hr Htr E. by apply (Hid k' k r p tr t). }
  assert (Hstep : forall k' (c : sm Z), (k' = k \/ wp c (fun r s' => r = p /\ s' = s) s) ->
    wp (do x <- __find_in_queue (task_id t) k'; if negb (x =? 0) then ret_ x else c) (fun r s' => r = p /\ s' = s) s).
  { intros k' c Hc. apply wp_bind. eapply wp_mono; [by apply find_in_queue_wp|].
    intros r s' [-> [[-> Hno]|(Hr & Hr0 & tr & Htr & E)]].
    - cbn [Z.eqb negb]. destruct Hc as [->|Hc]; [|exact Hc]. by destruct (Hno p t Hp Ht).
    - rewrite (proj2 (Z.eqb_neq r 0) Hr0). apply wp_ret. split; [by eapply Hsame|done]. }
  assert (Hlast : k = UserQ -> wp (__find_in_queue (task_id t) UserQ) (fun r s' => r = p /\ s' = s) s).
  { intros ->. eapply wp_mono; [by apply find_in_queue_wp|].
    intros r s' [-> [[-> Hno]|(Hr & Hr0 & tr & Htr & E)]]; [by destruct (Hno p t Hp Ht)|]. split; [by eapply Hsame|done]. }
  unfold sched_get_tcb. apply Hstep. destruct k; [right|right|by left]; apply Hstep; [by left|right; by apply Hlast].
Qed.

(** A task that is in no queue may change its state. *)
Lemma state_changed s qs p t v : qs_ok s qs -> tasks s !! p = Some t -> (forall k, p ∉ qs k) ->
  qs_ok (set_tasks (<[p := set_t_state v t]> (tasks s)) s) qs.
Proof.
  intros Hok Ht Hp k. destruct (Hok k) as [H1 H2 H3 H4 H5].
  assert (Hl : forall x, x ∈ qs k -> <[p := set_t_state v t]> (tasks s) !! x = tasks s !! x).
  { intros x Hx. apply lookup_insert_ne. intros ->. by apply (Hp k). }
  split; try done.
  - eapply dlist_frame; [|exact H4]. intros x Hx. unfold links. cbn [tasks set_tasks]. by rewrite Hl.
  - intros x tx Hx Htx. cbn [tasks set_tasks] in Htx. rewrite Hl in Htx by done. by apply (H5 x).
Qed.

Lemma counts_ok s qs a b c : qs_ok s qs -> qs_ok (set_counts a b c s) qs.
Proof. intros Hok k. by destruct (Hok k). Qed.

(** Out of its queue, the state changed, and to the end of the other queue. *)
Definition moved (qs : qid -> list Z) (k k' : qid) (l1 : list Z) (p : Z) (l2 : list Z) : qid -> list Z :=
  upd_q (upd_q qs k (l1 ++ l2)) k' (upd_q qs k (l1 ++ l2) k' ++ [p]).

Record requeued (s s' : sched) (p : Z) (t : tcb) (v : task_state) : Prop := {
  rq_self : exists t', tasks s' !! p = Some t' /\ core t' = core (set_t_state v t);
  rq_others : forall x, x <> p -> core <$> tasks s' !! x = core <$> tasks s !! x;
  rq_actual : actual_task s' = actual_task s /\ kernel_task s' = kernel_task s /\ total_tasks s' = total_tasks s;
}.

Lemma requeue_wp s qs p t l1 l2 v a b :
  qs_ok s qs -> tasks s !! p = Some t -> qs (_set_queue t) = l1 ++ p :: l2 -> v <> ZOMBIE ->
  wp (_remove_from_queue p ;;;
      (upd_task p (set_t_state v) ;;; mod_ (fun s => set_counts (total_tasks s) (a s) (b s) s)) ;;;
      _add_to_queue p)
    (fun _ s' => qs_ok s' (moved qs (_set_queue t) (_set_queue (set_t_state v t)) l1 p l2) /\ requeued s s' p t v /\
      exists s0, rest_of s0 = rest_of s /\ running_tasks s' = a s0 /\ sleeping_tasks s' = b s0 /\ next_to_run s' = next_to_run s) s.
Proof.
  intros Hok Ht Hqs Hv. set (k := _set_queue t) in *.
  assert (Hpk : p ∈ qs k) by (rewrite Hqs; in_tac).
  destruct (member_task s qs Hok k p Hpk) as (t0 & Ht0 & Hp0 & _). simplify_eq.
  apply wp_bind. eapply wp_mono; [by apply (remove_wp s qs p t l1 l2)|]. intros [] s1 [Hok1 Hsc1]. fold k in Hok1.
  destruct (core_lookup s s1 p t Hsc1 Ht) as (t1 & Ht1 & Hc1).
  assert (Hfresh : forall k', p ∉ upd_q qs k (l1 ++ l2) k').
  { intros k'. unfold upd_q. case_decide as E.
    - destruct (qo_dl _ _ _ (Hok k)) as [_ Hnd]. rewrite Hqs in Hnd. by apply NoDup_skip in Hnd as [? _].
    - intros Hp. by apply E, (one_queue s qs Hok k' k p). }
  apply wp_bind, wp_bind. eapply wp_upd_task; [exact Ht1|done|]. apply wp_mod.
  set (t2 := set_t_state v t1). set (s2 := set_counts _ _ _ _).
  assert (Hc2 : core t2 = core (set_t_state v t)).
  { pose proof (f_equal (set_t_state v) Hc1) as E. exact E. }
  destruct (core_home _ _ Hc2) as (_ & _ & _ & Eq2).
  assert (Hok2 : qs_ok s2 (upd_q qs k (l1 ++ l2))) by (apply counts_ok; by apply state_changed).
  eapply wp_mono; [apply (add_wp s2 _ p t2 Hok2); [apply lookup_insert_eq|done|done|exact Hfresh]|].
  intros [] s' [Hok' Hsc']. rewrite Eq2 in Hok'. split; [exact Hok'|]. split; [|].
  - split.
    + destruct (core_lookup s2 s' p t2 Hsc' ltac:(apply lookup_insert_eq)) as (t' & ? & ?). exists t'.
      split; [done|congruence].
    + intros x Hx. destruct Hsc' as [H _]. rewrite H. cbn. rewrite lookup_insert_ne by done. by apply Hsc1.
    + destruct Hsc' as [_ E']. destruct Hsc1 as [_ E1].
      pose proof (f_equal actual_task E') as F1. pose proof (f_equal actual_task E1) as G1.
      pose proof (f_equal kernel_task E') as F2. pose proof (f_equal kernel_task E1) as G2.
      pose proof (f_equal total_tasks E') as F3. pose proof (f_equal total_tasks E1) as G3.
      cbn in F1, F2, F3, G1, G2, G3. by rewrite F1, F2, F3, <- G1, <- G2, <- G3.
  - exists (set_tasks (<[p := t2]> (tasks s1)) s1). destruct Hsc' as [_ E']. destruct Hsc1 as [_ E1]. split_and!; [exact E1|..].
    + exact (f_equal running_tasks E').
    + exact (f_equal sleeping_tasks E').
    + pose proof (f_equal next_to_run E') as F1. pose proof (f_equal next_to_run E1) as G1. cbn in F1, G1. congruence.
Qed.

Lemma wp_assoc3 {S A} (a b c : M S unit) (k : M S A) Q s :
  wp (a ;;; b ;;; c) (fun _ => wp k Q) s -> wp (a ;;; b ;;; c ;;; k) Q s.
Proof.
  unfold wp, bind_. destruct (a s) as [[[] s1]| | |]; try done. destruct (b s1) as [[[] s2]| | |]; try done.
  by destruct (c s2) as [[[] s3]| | |].
Qed.

Lemma wp_run_as {S A} (m m' : M S A) Q s s' : m s = m' s' -> wp m' Q s' -> wp m Q s.
Proof. unfold wp. by intros ->. Qed.

Lemma run_assoc3 {S A} (a b c : M S unit) (k : M S A) s s' :
  (a ;;; b ;;; c) s = Ok (tt, s') -> (a ;;; b ;;; c ;;; k) s = k s'.
Proof.
  unfold bind_. destruct (a s) as [[[] s1]| | |]; try done. destruct (b s1) as [[[] s2]| | |]; try done.
  by intros ->.
Qed.

Lemma home_cases t : t_state t <> ZOMBIE ->
  (t_state t = WAITING /\ _set_queue t = SleepQ) \/ ((t_state t = READY \/ t_state t = RUNNING) /\ _set_queue t <> SleepQ).
Proof.
  unfold _set_queue. intros Hz. destruct (t_state t) eqn:E; [right|right|left|done]; (split; [tauto|]);
    by repeat case_decide.
Qed.

Lemma moved_length qs k k' l1 p l2 : qs k = l1 ++ p :: l2 -> k <> k' ->
  length (moved qs k k' l1 p l2 k') = (length (qs k') + 1)%nat /\
  (length (moved qs k k' l1 p l2 k) + 1)%nat = length (qs k) /\
  (forall j, j <> k -> j <> k' -> moved qs k k' l1 p l2 j = qs j).
Proof.
  intros E Hne. unfold moved, upd_q. rewrite !decide_True, !(decide_False (P := k' = k)), (decide_False (P := k = k')) by done.
  rewrite E, !length_app. cbn. rewrite decide_True by done; rewrite ?length_app; split_and!; [lia|cbn; lia|]. intros j H1 H2. by rewrite !decide_False.
Qed.

Lemma moved_in qs k k' l1 p l2 j x : qs k = l1 ++ p :: l2 -> x ∈ moved qs k k' l1 p l2 j -> exists j', x ∈ qs j'.
Proof.
  intros E. unfold moved, upd_q. repeat case_decide; intros Hx.
  all: try (apply elem_of_app in Hx as [Hx|Hx%list_elem_of_singleton]; [|subst x; exists k; rewrite E; in_tac]).
  all: try by eauto.
  all: exists k; rewrite E; in_tac.
Qed.

(** Identifiers stay identifiers. *)
Lemma requeued_ids s s' qs k k' l1 p l2 t v : sched_ok s qs -> tasks s !! p = Some t -> requeued s s' p t v ->
  qs k = l1 ++ p :: l2 ->
  forall j j' x y tx ty, x ∈ moved qs k k' l1 p l2 j -> y ∈ moved qs k k' l1 p l2 j' ->
    tasks s' !! x = Some tx -> tasks s' !! y = Some ty -> task_id tx = task_id ty -> x = y.
Proof.
  intros [_ _ _ Hid] Ht [(t' & Ht' & Hc') Ho _] E j j' x y tx ty Hx Hy Hx' Hy' Heq.
  destruct (moved_in _ _ _ _ _ _ _ _ E Hx) as [i Hi]. destruct (moved_in _ _ _ _ _ _ _ _ E Hy) as [i' Hi'].
  assert (Hold : forall z tz, tasks s' !! z = Some tz -> exists tz0, tasks s !! z = Some tz0 /\ task_id tz0 = task_id tz).
  { intros z tz Hz. destruct (decide (z = p)) as [->|Hne].
    - exists t. split; [done|]. destruct (core_home _ _ Hc') as (_ & _ & Eid & _). cbn in Eid. congruence.
    - specialize (Ho z Hne). rewrite Hz in Ho. destruct (tasks s !! z) as [tz0|]; [|done]. exists tz0. split; [done|].
      cbn in Ho. by destruct (core_home tz0 tz ltac:(congruence)) as (_ & _ & -> & _). }
  destruct (Hold x tx Hx') as (tx0 & ? & ?). destruct (Hold y ty Hy') as (ty0 & ? & ?).
  apply (Hid i i' x y tx0 ty0); congruence || done.
Qed.

Section states.
Context (s : sched) (qs : qid -> list Z) (p : Z) (t : tcb) (l1 l2 : list Z).
Hypotheses (Hok : sched_ok s qs) (Ht : tasks s !! p = Some t) (Hqs : qs (_set_queue t) = l1 ++ p :: l2).

Let Hpk : p ∈ qs (_set_queue t).
Proof. rewrite Hqs. in_tac. Qed.

Lemma sleep_wp : _set_queue t <> SleepQ ->
  wp (sched_sleep_task (task_id t)) (fun r s' => r = None /\ sched_ok s' (moved qs (_set_queue t) SleepQ l1 p l2) /\
    requeued s s' p t WAITING /\ next_to_run s' = next_to_run s) s.
Proof.
  intros Hk. destruct (member_task s qs (so_qs _ _ Hok) _ p Hpk) as (t0 & Ht0 & Hp0 & Hz & _). simplify_eq.
  destruct (home_cases t Hz) as [[_ ?]|[Hst _]]; [done|].
  unfold sched_sleep_task, sched_set_state. apply wp_bind. eapply wp_mono; [by eapply get_tcb_wp|].
  intros r s0 [-> ->]. srun. rewrite andb_false_r.
  rewrite (bool_decide_false (t_state t = WAITING)) by (destruct Hst; congruence). cbn [andb].
  apply wp_assoc3. eapply wp_mono; [by apply (requeue_wp s qs p t l1 l2 WAITING); [apply Hok|..]|].
  intros [] s' (Hok' & Hrq & s0 & E0 & Er & Es & En). pose proof Hrq as [(t' & Ht' & Hc') _ _].
  destruct (core_home _ _ Hc') as (Est & _ & _ & _). cbn in Est. srun. rewrite decide_False by congruence. srun.
  change (_set_queue (set_t_state WAITING t)) with SleepQ in Hok'.
  split_and!; [done| |done|done].
  pose proof (f_equal running_tasks E0) as E1. pose proof (f_equal sleeping_tasks E0) as E2. cbn in E1, E2.
  destruct (moved_length qs _ SleepQ l1 p l2 Hqs Hk) as (L1 & L2 & L3).
  split; [done| | |by eapply requeued_ids].
  - rewrite Er, E1, (so_running _ _ Hok). destruct (_set_queue t) eqn:Ek; [| |done].
    + rewrite (L3 UserQ) by done. rewrite <- L2. replace (_ + 1 + _)%nat with
        (length (moved qs OsQ SleepQ l1 p l2 OsQ) + length (qs UserQ) + 1)%nat by lia. apply counter_pred.
    + rewrite (L3 OsQ) by done. rewrite <- L2, Nat.add_assoc. apply counter_pred.
  - rewrite Es, E2, (so_sleeping _ _ Hok), L1. apply counter_succ.
Qed.

Let home := if decide (t_priority t = OS) then OsQ else UserQ.

(** Waking, up to the question whether to switch. *)
Lemma woken : _set_queue t = SleepQ -> exists s', sched_wake_task (task_id t) s = preempts p s' /\
  (forall n, sched_ok (set_next_to_run n s') (moved qs SleepQ home l1 p l2)) /\ requeued s s' p t READY /\
  next_to_run s' = next_to_run s.
Proof.
  intros Hk. destruct (member_task s qs (so_qs _ _ Hok) _ p Hpk) as (t0 & Ht0 & Hp0 & Hz & _). simplify_eq.
  destruct (home_cases t Hz) as [[Hst _]|[_ ?]]; [|done].
  destruct (wp_run _ _ _ (get_tcb_wp s qs _ p t Hok Hpk Ht)) as (r & s0 & E0 & -> & ->).
  destruct (wp_run _ _ _ (requeue_wp s qs p t l1 l2 READY (fun s => running_tasks s +w 1) (fun s => sleeping_tasks s -w 1)
    (so_qs _ _ Hok) Ht Hqs ltac:(done))) as ([] & s' & E1 & Hok' & Hrq & s0 & Es0 & Er & Es & En).
  exists s'. pose proof Hrq as [(t' & Ht' & Hc') _ _]. destruct (core_home _ _ Hc') as (Est & _ & _ & _). cbn in Est.
  split; [|split; [|done]].
  - unfold sched_wake_task, sched_set_state. rewrite (bind_ok _ _ _ _ _ E0).
    assert (El : forall s1 t1, tasks s1 !! p = Some t1 -> ld_task p s1 = Ok (t1, s1)).
    { intros s1 t1 E. unfold ld_task. by rewrite E, (proj2 (Z.eqb_neq p 0)). }
    rewrite (bind_ok _ _ _ _ _ (El s t Ht)), (bool_decide_false (t_state t = READY \/ _)) by (rewrite Hst; naive_solver).
    cbn [andb negb]. rewrite andb_false_r. etransitivity; [apply run_assoc3, E1|].
    rewrite (bind_ok _ _ _ _ _ (El s' t' Ht')). by rewrite decide_True by congruence.
  - intros n. change (_set_queue (set_t_state READY t)) with home in Hok'. rewrite Hk in Hok'.
    pose proof (f_equal running_tasks Es0) as E1'. pose proof (f_equal sleeping_tasks Es0) as E2'. cbn in E1', E2'.
    rewrite Hk in Hqs. assert (Hne : SleepQ <> home) by (unfold home; by case_decide).
    destruct (moved_length qs SleepQ home l1 p l2 Hqs Hne) as (L1 & L2 & L3).
    split; [intros k; by destruct (Hok' k)| | |by eapply (requeued_ids s s')].
    + cbn. rewrite Er, E1', (so_running _ _ Hok). unfold home in *. case_decide.
      * rewrite (L3 UserQ), L1 by done. rewrite counter_succ. do 2 f_equal. lia.
      * rewrite (L3 OsQ), L1, Nat.add_assoc by done. apply counter_succ.
    + cbn. rewrite Es, E2', (so_sleeping _ _ Hok), <- L2. apply counter_pred.
Qed.

Lemma wake_wp a : _set_queue t = SleepQ -> tasks s !! actual_task s = Some a -> actual_task s <> 0 -> actual_task s <> p ->
  wp (sched_wake_task (task_id t)) (fun r s' =>
    let home := if decide (t_priority t = OS) then OsQ else UserQ in
    r = (if prio_gt (t_priority t) (t_priority a) then Some p else None) /\
    sched_ok s' (moved qs SleepQ home l1 p l2) /\ requeued s s' p t READY /\
    exists a', tasks s' !! actual_task s = Some a' /\ core a' = core a /\
      next_to_run s' = if prio_gt (t_priority t) (t_priority a) then t_next a' else next_to_run s) s.
Proof.
  intros Hk Ha Ha0 Hap. destruct (woken Hk) as (s' & E & Hsok & Hrq & En). apply (wp_run_as _ _ _ _ _ E).
  destruct (member_task s qs (so_qs _ _ Hok) _ p Hpk) as (t0 & _ & Hp0 & _).
  pose proof Hrq as [(t' & Ht' & Hc') Hoth [Eact _]]. destruct (core_home _ _ Hc') as (_ & Epr & _ & _). cbn in Epr.
  pose proof (Hoth _ Hap) as Hca. rewrite Ha in Hca. destruct (tasks s' !! actual_task s) as [a'|] eqn:Ha'; [|done]. cbn in Hca.
  destruct (core_home a a' ltac:(congruence)) as (_ & Epa & _ & _).
  unfold preempts. srun. rewrite Eact. srun. rewrite Epr, Epa. destruct (prio_gt _ _); srun.
  - split_and!; [done|apply Hsok|by destruct Hrq; split|]. exists a'. split_and!; try done. congruence.
  - split_and!; [done| |done|exists a'; split_and!; try done; congruence].
    replace s' with (set_next_to_run (next_to_run s') s') by by destruct s'. apply Hsok.
Qed.

(** In the idle loop the task that slept last is still the actual one. *)
Lemma wake_self_wp : _set_queue t = SleepQ -> actual_task s = p ->
  wp (sched_wake_task (task_id t)) (fun r s' => r = None /\ sched_ok s' (moved qs SleepQ home l1 p l2) /\
    requeued s s' p t READY) s.
Proof.
  intros Hk Hap. destruct (woken Hk) as (s' & E & Hsok & Hrq & En). apply (wp_run_as _ _ _ _ _ E).
  destruct (member_task s qs (so_qs _ _ Hok) _ p Hpk) as (t0 & _ & Hp0 & _).
  pose proof Hrq as [(t' & Ht' & Hc') Hoth [Eact _]].
  unfold preempts. srun. rewrite Eact, Hap. srun. assert (Hpr : prio_gt (t_priority t') (t_priority t') = false) by by destruct (t_priority t').
  rewrite Hpr. srun. split_and!; [done| |done].
  replace s' with (set_next_to_run (next_to_run s') s') by by destruct s'. apply Hsok.
Qed.
End states.

(** ** Properties *)

(** Putting a task to sleep takes it out of its run queue and appends it
    to the sleeping queue: every queue stays correctly linked and counted, the
    scheduler's counters agree with the queues, the other tasks keep their
    places, and no task switch is asked for. *)
Lemma sleep_moves_task s qs p t l1 l2 :
  sched_ok s qs -> tasks s !! p = Some t -> _set_queue t <> SleepQ -> qs (_set_queue t) = l1 ++ p :: l2 ->
  exists s', sched_sleep_task (task_id t) s = Ok (None, s') /\
    sched_ok s' (moved qs (_set_queue t) SleepQ l1 p l2) /\ requeued s s' p t WAITING /\
    next_to_run s' = next_to_run s.
Proof.
  intros Hok Ht Hk Hqs. destruct (wp_run _ _ _ (sleep_wp s qs p t l1 l2 Hok Ht Hqs Hk)) as (r & s' & E & -> & ?).
  exists s'. done.
Qed.

(** Two user tasks that can run, the first of them running, an OS task and a
    user task asleep. *)
Definition demo_tcb (tid : Z) (st : task_state) (pr : task_priority) (pv nx : Z) : tcb :=
  mkTcb tid 0 0 0 [] 0 0 0 0 0 0 0 0 st pr nx pv zero_regs 0.

Definition demo_tasks : gmap Z tcb := list_to_map
  [(0x10, demo_tcb 1 RUNNING USER 0 0x20); (0x20, demo_tcb 2 READY USER 0x10 0);
   (0x30, demo_tcb 3 WAITING OS 0 0x40); (0x40, demo_tcb 4 WAITING USER 0x30 0)].

Definition demo_sched : sched :=
  mkSched demo_tasks (fun k => match k with OsQ => empty_queue | UserQ => mkQueue 2 0x10 0x20 | SleepQ => mkQueue 2 0x30 0x40 end)
    4 2 2 0x10 0x50 0 0x10 4.

Definition demo_qs (k : qid) : list Z := match k with OsQ => [] | UserQ => [0x10; 0x20] | SleepQ => [0x30; 0x40] end.

Ltac split_or := repeat match goal with H : _ \/ _ |- _ => destruct H | H : False |- _ => destruct H end.

(** [sched_check qs]: a concrete state is well formed. *)
Ltac sched_check qs :=
  split; [|done|done|];
  [ intros k; split; try (by destruct k);
    [ destruct k; (split; [vm_compute; repeat split; discriminate || reflexivity|]);
        apply (bool_decide_unpack _); vm_compute; done
    | intros p t Hp Ht; destruct k; cbn [qs] in Hp; rewrite ?elem_of_cons, ?elem_of_nil in Hp;
        split_or; subst; vm_compute in Ht; simplify_eq; vm_compute; done ]
  | intros k k' p q tp tq Hp Hq Htp Htq;
    destruct k; cbn [qs] in Hp; rewrite ?elem_of_cons, ?elem_of_nil in Hp; split_or; subst;
    destruct k'; cbn [qs] in Hq; rewrite ?elem_of_cons, ?elem_of_nil in Hq; split_or; subst;
    vm_compute in Htp, Htq; injection Htp as <-; injection Htq as <-; vm_compute; try done; discriminate ].

Lemma demo_sched_ok : sched_ok demo_sched demo_qs.
Proof. sched_check demo_qs. Qed.

Lemma sleep_moves_task_witness : exists s', sched_sleep_task 2 demo_sched = Ok (None, s') /\
  sched_ok s' (moved demo_qs UserQ SleepQ [0x10] 0x20 []).
Proof.
  destruct (sleep_moves_task demo_sched demo_qs 0x20 (demo_tcb 2 READY USER 0x10 0) [0x10] [] demo_sched_ok)
    as (s' & E & Hs & _); [reflexivity|discriminate|reflexivity|].
  exists s'. split; [exact E|exact Hs].
Defined.

(** Waking a task moves it from the sleeping queue to the end of the run
    queue of its priority, with every queue and counter consistent; the
    switch to it is asked for exactly when it is an OS task and a user task
    is running, and then the successor of the running task is remembered as
    the next to run. *)
Lemma wake_moves_task s qs p t a l1 l2 :
  sched_ok s qs -> tasks s !! p = Some t -> qs SleepQ = l1 ++ p :: l2 ->
  tasks s !! actual_task s = Some a -> actual_task s <> 0 -> actual_task s <> p ->
  exists s', sched_wake_task (task_id t) s =
      Ok (if prio_gt (t_priority t) (t_priority a) then Some p else None, s') /\
    sched_ok s' (moved qs SleepQ (if decide (t_priority t = OS) then OsQ else UserQ) l1 p l2) /\
    requeued s s' p t READY /\
    exists a', tasks s' !! actual_task s = Some a' /\ core a' = core a /\
      next_to_run s' = if prio_gt (t_priority t) (t_priority a) then t_next a' else next_to_run s.
Proof.
  intros Hok Ht Hqs Ha Ha0 Hap.
  destruct (member_task s qs (so_qs _ _ Hok) SleepQ p ltac:(rewrite Hqs; in_tac)) as (t0 & Ht0 & _ & _ & Hk).
  assert (t0 = t) as -> by congruence. rewrite <- Hk in Hqs.
  destruct (wp_run _ _ _ (wake_wp s qs p t l1 l2 Hok Ht Hqs a Hk Ha Ha0 Hap)) as (r & s' & E & -> & ?).
  exists s'. done.
Qed.

Lemma wake_moves_task_witness : exists s', sched_wake_task 3 demo_sched = Ok (Some 0x30, s') /\
  sched_ok s' (moved demo_qs SleepQ OsQ [] 0x30 [0x40]) /\ next_to_run s' = 0x20.
Proof.
  destruct (wake_moves_task demo_sched demo_qs 0x30 (demo_tcb 3 WAITING OS 0 0x40) (demo_tcb 1 RUNNING USER 0 0x20)
    [] [0x40] demo_sched_ok) as (s' & E & Hs & _); try reflexivity; try discriminate.
  exists s'. split; [exact E|]. split; [exact Hs|].
  assert (E2 : exists s'', sched_wake_task 3 demo_sched = Ok (Some 0x30, s'') /\ next_to_run s'' = 0x20)
    by (eexists; split; vm_compute; reflexivity).
  destruct E2 as (s'' & E2 & Hn). cbn [task_id demo_tcb] in E. rewrite E in E2. injection E2 as <-. exact Hn.
Defined.
