(* ===== verification/Kernel.v ===== *)
(** * The kernel's state

    One record with the state of every component, and for each component the
    lifting of its operations to the whole ([on_vm], [on_fs], ...).  A
    routine that can end in [context_switch], which loads the registers of a
    task and never returns, answers [Left Switched]; the idle loop of
    [task_switch], which leaves the CPU to the next interrupt, answers
    [Left Idle]. *)

From S2P Require Import Prelude Dlist Pmm Heap Paging Vmm Vmalloc Klib Terminal Namei Sched.

#[local] Open Scope Z_scope.

(** [struct file_descriptor]. *)
Record fd_t := mkFd { position : Z; mode : Z; vfs_node : Z; fd_next : Z; fd_prev : Z }.

Definition set_position v f := mkFd v (mode f) (vfs_node f) (fd_next f) (fd_prev f).
Definition set_fd_next v f := mkFd (position f) (mode f) (vfs_node f) v (fd_prev f).
Definition set_fd_prev v f := mkFd (position f) (mode f) (vfs_node f) (fd_next f) v.

(** The request of the task that waits for a line of input. *)
Record wait4input_t := mkWait { w_t : Z; w_size : Z; w_buffer : Z }.

Record kernel (H : Type) := mkKernel {
  k_vmm : vmm H;
  k_hdrs : gmap Z region_hdr; k_ureg : used_regions;
  k_fs : fsys;
  k_fds : gmap Z fd_t; first_fd : Z;
  k_sched : sched;
  k_term : terminal_t; k_kbd : keyboard;
  wait4input : wait4input_t;
  irq0_masked : bool;
  tss_stack : Z;
}.
Arguments mkKernel {_} _ _ _ _ _ _ _ _ _ _ _ _.
Arguments k_vmm {_} _. Arguments k_hdrs {_} _. Arguments k_ureg {_} _. Arguments k_fs {_} _.
Arguments k_fds {_} _. Arguments first_fd {_} _. Arguments k_sched {_} _. Arguments k_term {_} _.
Arguments k_kbd {_} _. Arguments wait4input {_} _. Arguments irq0_masked {_} _. Arguments tss_stack {_} _.

(** Sizes of the C structures. *)
Definition SIZEOF_VNODE : Z := 204.
Definition SIZEOF_TCB : Z := 1144.
Definition SIZEOF_FD : Z := 20.

(** Error numbers ([errno.h]). *)
Definition EPERM : Z := 1.
Definition ENOENT : Z := 2.
Definition ESRCH : Z := 3.
Definition EIO : Z := 5.
Definition ENXIO : Z := 6.
Definition EBADF : Z := 9.
Definition EACCES : Z := 13.
Definition EBUSY : Z := 16.
Definition EEXIST : Z := 17.
Definition ENOTDIR : Z := 20.
Definition EISDIR : Z := 21.
Definition EMFILE : Z := 24.
Definition ESPIPE : Z := 29.

(** How a routine that may switch tasks ends. *)
Inductive leave := Switched | Idle.
Inductive ctl (A : Type) := Returns (a : A) | Left (l : leave).
Arguments Returns {_} _.
Arguments Left {_} _.

Section kernel.
Context {H : Type} `{!Allocator H}.

Definition set_vmm (v : vmm H) (k : kernel H) := mkKernel v (k_hdrs k) (k_ureg k) (k_fs k) (k_fds k) (first_fd k) (k_sched k) (k_term k) (k_kbd k) (wait4input k) (irq0_masked k) (tss_stack k).
Definition set_area h u (k : kernel H) := mkKernel (k_vmm k) h u (k_fs k) (k_fds k) (first_fd k) (k_sched k) (k_term k) (k_kbd k) (wait4input k) (irq0_masked k) (tss_stack k).
Definition set_fs v (k : kernel H) := mkKernel (k_vmm k) (k_hdrs k) (k_ureg k) v (k_fds k) (first_fd k) (k_sched k) (k_term k) (k_kbd k) (wait4input k) (irq0_masked k) (tss_stack k).
Definition set_kfds v (k : kernel H) := mkKernel (k_vmm k) (k_hdrs k) (k_ureg k) (k_fs k) v (first_fd k) (k_sched k) (k_term k) (k_kbd k) (wait4input k) (irq0_masked k) (tss_stack k).
Definition set_first_fd v (k : kernel H) := mkKernel (k_vmm k) (k_hdrs k) (k_ureg k) (k_fs k) (k_fds k) v (k_sched k) (k_term k) (k_kbd k) (wait4input k) (irq0_masked k) (tss_stack k).
Definition set_sched v (k : kernel H) := mkKernel (k_vmm k) (k_hdrs k) (k_ureg k) (k_fs k) (k_fds k) (first_fd k) v (k_term k) (k_kbd k) (wait4input k) (irq0_masked k) (tss_stack k).
Definition set_term v (k : kernel H) := mkKernel (k_vmm k) (k_hdrs k) (k_ureg k) (k_fs k) (k_fds k) (first_fd k) (k_sched k) v (k_kbd k) (wait4input k) (irq0_masked k) (tss_stack k).
Definition set_kbd v (k : kernel H) := mkKernel (k_vmm k) (k_hdrs k) (k_ureg k) (k_fs k) (k_fds k) (first_fd k) (k_sched k) (k_term k) v (wait4input k) (irq0_masked k) (tss_stack k).
Definition set_wait v (k : kernel H) := mkKernel (k_vmm k) (k_hdrs k) (k_ureg k) (k_fs k) (k_fds k) (first_fd k) (k_sched k) (k_term k) (k_kbd k) v (irq0_masked k) (tss_stack k).
Definition set_irq0 v (k : kernel H) := mkKernel (k_vmm k) (k_hdrs k) (k_ureg k) (k_fs k) (k_fds k) (first_fd k) (k_sched k) (k_term k) (k_kbd k) (wait4input k) v (tss_stack k).
Definition set_tss v (k : kernel H) := mkKernel (k_vmm k) (k_hdrs k) (k_ureg k) (k_fs k) (k_fds k) (first_fd k) (k_sched k) (k_term k) (k_kbd k) (wait4input k) (irq0_masked k) v.

Definition K (A : Type) : Type := M (kernel H) A.
Definition KC (A : Type) : Type := M (kernel H) (ctl A).

Definition on_vm {A} (m : M (vmm H) A) : K A := zoom k_vmm set_vmm m.
Definition on_fs {A} (m : M fsys A) : K A := zoom k_fs set_fs m.
Definition on_sched {A} (m : M sched A) : K A := zoom k_sched set_sched m.
Definition on_term {A} (m : M terminal_t A) : K A := zoom k_term set_term m.

(** The vmalloc area shares the heap and the memory. *)
Definition get_vma (k : kernel H) : vma H :=
  mkVma (v_heap (k_vmm k)) (k_hdrs k) (k_ureg k) (v_mach (k_vmm k)).
Definition put_vma (v : vma H) (k : kernel H) : kernel H :=
  set_area (va_regs v) (ureg v) (set_vmm (set_heap (va_heap v) (set_mach (va_mach v) (k_vmm k))) k).
Definition on_vma {A} (m : M (vma H) A) : K A := zoom get_vma put_vma m.

Definition kmem_alloc (size : Z) : K Z := on_vm (on_heap (al_malloc size)).
Definition kmem_free (p : Z) : K unit := on_vm (on_heap (al_free p)).
Definition memory {A} (m : M machine A) : K A := on_vm (on_mach m).
Definition set_errno_ (e : Z) : K unit := on_vm (errno e).

(** [errno = e; return -1;] *)
Definition fail_with (e : Z) : K Z := set_errno_ e ;;; ret_ (-1).

Definition node (p : Z) : K vnode := on_fs (ld_node p).
Definition upd_vnode (p : Z) (f : vnode -> vnode) : K unit := on_fs (upd_node p f).
Definition task (p : Z) : K tcb := on_sched (ld_task p).
Definition upd_tcb (p : Z) (f : tcb -> tcb) : K unit := on_sched (upd_task p f).

Definition ld_fd (p : Z) : K fd_t := fun k =>
  match k_fds k !! p with
  | Some f => if p =? 0 then Fault else Ok (f, k)
  | None => Fault
  end.
Definition upd_fd (p : Z) (f : fd_t -> fd_t) : K unit :=
  do d <- ld_fd p; mod_ (fun k => set_kfds (<[p := f d]> (k_fds k)) k).

(** A call of a routine that may not return. *)
Definition call {A B} (m : KC A) (k : A -> KC B) : KC B :=
  do r <- m;
  match r with
  | Returns a => k a
  | Left l => ret_ (Left l)
  end.

Definition returns {A} (m : K A) : KC A := do a <- m; ret_ (Returns a).

Lemma call_left {A B} (m : KC A) (c : A -> KC B) k l k' :
  m k = Ok (Left l, k') -> call m c k = Ok (Left l, k').
Proof. intros E. unfold call. by rewrite (bind_ok _ _ _ _ _ E). Qed.

Lemma call_returns {A B} (m : KC A) (c : A -> KC B) k a k' :
  m k = Ok (Returns a, k') -> call m c k = c a k'.
Proof. intros E. unfold call. by rewrite (bind_ok _ _ _ _ _ E). Qed.
End kernel.

Notation "'do!' x <- m ; k" := (call m (fun x => k))
  (at level 10, x name, m at level 100, k at level 200,
   format "'[v' 'do!'  x  <-  m ; '/' k ']'") : kernel_scope.
