(* ===== verification/Vfs.v ===== *)
(** * File systems ([src/src/kernel/vfs/]: ramfs, tarfs, devfs, initrd, vfs.c)

    The drivers and the layer that dispatches to them.  A buffer is a kernel
    virtual address and is read and written through the page tables; a file
    of ramfs is one frame, mapped for the time of the transfer.  Reading from
    stdin puts the caller to sleep and is in [Files.v]. *)

From S2P Require Import Prelude Dlist Pmm Heap Paging Vmm Vmalloc Klib Terminal Namei Sched Kernel.

#[local] Open Scope Z_scope.

Definition PG_KERN_PAGE_RO_FLAG : Z := PG_PRESENT.

(** The bytes [a .. a+n). *)
Fixpoint ld_bytes (a : Z) (n : nat) : M machine (list Z) :=
  match n with
  | O => ret_ []
  | S n' => do b <- ld8 a; do l <- ld_bytes (a +w 1) n'; ret_ (b :: l)
  end.

Section vfs.
Context {H : Type} `{!Allocator H}.
(** The bytes of a local array before it is written. *)
Context (stack_bytes : list Z).

Local Notation K := (K (H := H)).
Local Notation KC := (KC (H := H)).

(** [kmalloc] and [memset] of a node. *)
Definition new_vnode : K Z :=
  do p <- kmem_alloc SIZEOF_VNODE;
  mod_ (fun k => set_fs (set_nodes (<[p := zero_vnode]> (nodes (k_fs k))) (k_fs k)) k) ;;;
  ret_ p.

Definition free_vnode (p : Z) : K unit :=
  kmem_free p ;;;
  mod_ (fun k => set_fs (set_nodes (delete p (nodes (k_fs k))) (k_fs k)) k).

Definition set_inode (p : Z) (i : inode) : K unit :=
  mod_ (fun k => set_fs (set_inodes (<[p := i]> (inodes (k_fs k))) (k_fs k)) k).

Definition copy_name (p : Z) (name : list Z) (n : Z) : K unit :=
  do v <- node p;
  do s <- lift_opt (strncpy (vn_name v) name (Z.to_nat n));
  upd_vnode p (set_name s).

(** The transfer loop of the drivers: [buffer[i] = src[i]] until [size]
    bytes are copied or the unsigned rest of the file is 0. *)
Definition copy_loop (file_size offset size src dst : Z) : K Z :=
  loop (S (Z.to_nat size)) (fun n =>
    if (n <? size) && (0 <? file_size -w offset -w n) then
      do b <- memory (ld8 (src +w n));
      memory (st8 (dst +w n) b) ;;;
      ret_ (inl (n + 1))
    else ret_ (inr n)) 0.

(** ** ramfs.c *)

Definition ram_paddr (p : Z) : K Z := fun k =>
  match inodes (k_fs k) !! p with
  | Some (RamInode a) => Ok (a, k)
  | _ => Fault
  end.

(** [ramfs_read] and [ramfs_write] around the loop: map the frame at a free
    address, [body] with that address, unmap. *)
Definition with_file_mapped (n : Z) (flags : Z) (body : vnode -> Z -> K Z) : K Z :=
  do v <- node n;
  do paddr <- ram_paddr (vn_data v);
  do at_ <- on_vma (vmalloc 4096 ON_DEMAND);
  memory (pg_map paddr at_ flags) ;;;
  do done <- body v at_;
  (do _ <- memory (pg_unmap at_); ret_ tt) ;;;
  on_vma (vfree at_) ;;;
  (when done =? 0 then_ set_errno_ EIO) ;;;
  ret_ done.

Definition ramfs_read (n offset size buffer : Z) : K Z :=
  with_file_mapped n PG_KERN_PAGE_RO_FLAG (fun v src =>
    copy_loop (vn_size v) offset size (src +w offset) buffer).

Definition ramfs_write (n offset buffer size : Z) : K Z :=
  with_file_mapped n PG_KERN_PAGE_FLAG (fun v dst =>
    copy_loop (vn_size v) offset size buffer (dst +w offset)).

Definition ramfs_file_ops : vfs_ops :=
  mkOps (Some Ramfs) (Some Ramfs) (Some Ramfs) (Some Ramfs) None (Some Ramfs) None None None.

Definition ramfs_touch (name : list Z) : K Z :=
  do inode <- kmem_alloc 4;
  do vnode <- new_vnode;
  do frame <- memory (with_pmm pmm_get_frame);
  set_inode inode (RamInode frame) ;;;
  copy_name vnode name MAX_FILENAME ;;;
  upd_vnode vnode (fun v => set_data inode (set_op ramfs_file_ops (set_type VFS_FILE (set_size 4096 v)))) ;;;
  ret_ vnode.

Definition ramfs_remove (n : Z) : K Z :=
  do v <- node n;
  do paddr <- ram_paddr (vn_data v);
  memory (with_pmm (pmm_free_frame paddr)) ;;;
  kmem_free (vn_data v) ;;;
  mod_ (fun k => set_fs (set_inodes (delete (vn_data v) (inodes (k_fs k))) (k_fs k)) k) ;;;
  upd_vnode n (set_data 0) ;;;
  ret_ 0.

Definition ramfs_dir_ops : vfs_ops :=
  mkOps (Some Ramfs) (Some Ramfs) None None (Some Ramfs) None (Some Ramfs) (Some Ramfs) (Some Ramfs).

Definition ramfs_mkdir (name : list Z) : K Z :=
  do vnode <- new_vnode;
  copy_name vnode name MAX_FILENAME ;;;
  upd_vnode vnode (fun v => set_op ramfs_dir_ops (set_type VFS_DIR v)) ;;;
  ret_ vnode.

(** The name and number of child [no], or nothing. *)
Definition ramfs_readdir (n no : Z) : K (option (list Z * Z)) :=
  do v <- node n;
  do sz <- get_ (fun k => size (nodes (k_fs k)));
  loop (S sz) (fun l : Z * Z =>
    let '(child, i) := l in
    if negb (child =? 0) && (i <=? no) then
      do c <- node child;
      if i =? no then
        do name <- lift_opt (strncpy (replicate (Z.to_nat MAX_FILENAME) 0) (vn_name c) (Z.to_nat MAX_FILENAME));
        ret_ (inr (Some (name, vn_ino c)))
      else ret_ (inl (next_sibling c, i + 1))
    else ret_ (inr None)) (first_child v, 0).

(** ** tarfs.c *)

Definition tarfs_read (n offset size buffer : Z) : K Z :=
  do v <- node n;
  do i <- get_ (fun k => inodes (k_fs k) !! vn_data v);
  match i with
  | Some (TarInode vaddr _) =>
      do r <- copy_loop (vn_size v) offset size (vaddr +w offset) buffer;
      (when r =? 0 then_ set_errno_ EIO) ;;;
      ret_ r
  | _ => fault
  end.

(** [char] is signed. *)
Definition schar (c : Z) : Z := if c <? 128 then c else c - 256.

(** Eleven octal digits, the last one first. *)
Definition _get_size (s : list Z) : Z :=
  fst (foldr (fun c '(size, count) => (size +w (schar c - 48) *w count, count *w 8)) (0, 1) (take 11 s)).

Definition TAR_MAX_FILENAME : Z := 100.

Definition tarfs_file_ops : vfs_ops :=
  mkOps (Some Tarfs) (Some Tarfs) (Some Tarfs) None None None None None None.
Definition tarfs_dir_ops : vfs_ops :=
  mkOps (Some Tarfs) (Some Tarfs) None None None None None None (Some Tarfs).

(** [hdr] is the header block at [ptr]. *)
Definition _init_vnode (ptr : Z) (hdr : list Z) (fsize : Z) : K Z :=
  do vnode <- kmem_alloc SIZEOF_VNODE;
  do inode <- kmem_alloc 8;
  mod_ (fun k => set_fs (set_nodes (<[vnode := zero_vnode]> (nodes (k_fs k))) (k_fs k)) k) ;;;
  set_inode inode (TarInode (ptr +w 512) ptr) ;;;
  do filename <- namei_path_to_filename hdr stack_bytes;
  copy_name vnode filename TAR_MAX_FILENAME ;;;
  upd_vnode vnode (set_size (fsize -w 512)) ;;;
  do typeflag <- rd hdr 156;
  (if (typeflag =? 48) || (typeflag =? 0) then
     upd_vnode vnode (fun v => set_op tarfs_file_ops (set_type VFS_FILE v))
   else if typeflag =? 53 then
     upd_vnode vnode (fun v => set_op tarfs_dir_ops (set_type VFS_DIR v))
   else panic "") ;;;
  upd_vnode vnode (set_data inode) ;;;
  ret_ vnode.

(** The root of the archive's tree, 0 for a corrupted one. *)
Definition tarfs_init (fuel : nat) (start_of_archive : Z) : K Z :=
  do root <- new_vnode;
  copy_name root [SLASH; 0] 2 ;;;
  upd_vnode root (fun v => set_op (mkOps None None None None None None None None (Some Tarfs)) (set_type VFS_DIR v)) ;;;
  loop fuel (fun ptr =>
    do hdr <- memory (ld_bytes ptr 512);
    do c0 <- rd hdr 0;
    if c0 =? 0 then ret_ (inr root)
    else
      let size := _get_size (drop 124 hdr) in
      let size := if negb (size mod 512 =? 0) then size +w 512 else size in
      do tmp <- _init_vnode ptr hdr size;
      do r <- on_fs (namei_path_to_vfs_node root (drop 1 hdr) stack_bytes);
      do parent <- lift_opt (snd r);
      if parent =? 0 then ret_ (inr 0)
      else
        on_fs (namei_add_child parent tmp) ;;;
        ret_ (inl (ptr +w (size / 512 + 1) *w 512))) start_of_archive.

Definition tarfs_readdir (n no : Z) : K (option (list Z * Z)) :=
  do v <- node n;
  do sz <- get_ (fun k => size (nodes (k_fs k)));
  loop (S sz) (fun l : Z * Z =>
    let '(child, i) := l in
    if negb (child =? 0) && (i <=? no) then
      do c <- node child;
      if i =? no then
        do name <- lift_opt (strncpy (replicate (Z.to_nat MAX_FILENAME) 0) (vn_name c) (Z.to_nat MAX_FILENAME));
        ret_ (inr (Some (name, vn_ino c)))
      else ret_ (inl (next_sibling c, i + 1))
    else ret_ (inr None)) (first_child v, 0).

(** ** The devices *)

Definition _zero_read (size buffer : Z) : K Z :=
  for_ (Z.to_nat size) 0 (fun i => memory (st8 (buffer +w i) 0)) ;;; ret_ size.

Definition _stdout_write (buffer size : Z) : K Z :=
  do t <- get_ (fun k => Terminal.is_initialized (k_term k));
  (when negb t then_ on_term terminal_init) ;;;
  for_ (Z.to_nat size) 0 (fun i =>
    do c <- memory (ld8 (buffer +w i)); on_term (terminal_putchar c)) ;;;
  ret_ size.

Definition dev_init (name : list Z) (ops : vfs_ops) : K Z :=
  do vnode <- new_vnode;
  copy_name vnode name (Z.of_nat (length name)) ;;;
  upd_vnode vnode (fun v => set_op ops (set_type VFS_CHRDEV v)) ;;;
  ret_ vnode.

Definition c_string (s : string) : list Z := keys s ++ [0].

Definition dev_zero_init : K Z :=
  do p <- dev_init (c_string "zero") (mkOps (Some DevZero) (Some DevZero) (Some DevZero) (Some DevZero) None None None None None);
  mod_ (fun k => set_fs (set_devs p (dev_stdin (k_fs k)) (dev_stdout (k_fs k)) (k_fs k)) k) ;;;
  ret_ p.

Definition dev_stdin_init : K Z :=
  do p <- dev_init (c_string "stdin") (mkOps None None (Some DevStdin) None None None None None None);
  mod_ (fun k => set_fs (set_devs (dev_zero (k_fs k)) p (dev_stdout (k_fs k)) (k_fs k)) k) ;;;
  ret_ p.

Definition dev_stdout_init : K Z :=
  do p <- dev_init (c_string "stdout") (mkOps None None None (Some DevStdout) None None None None None);
  mod_ (fun k => set_fs (set_devs (dev_zero (k_fs k)) (dev_stdin (k_fs k)) p (k_fs k)) k) ;;;
  ret_ p.

(** ** vfs.c *)

(** Every driver's [open] and [close] answers 0. *)
Definition vfs_open (n mode_ : Z) : K Z :=
  do v <- node n;
  match op_open (vn_op v) with
  | Some _ => upd_vnode n (fun v => set_fds (active_fds v +w 1) v) ;;; ret_ 0
  | None => set_errno_ EACCES ;;; ret_ (-1)
  end.

Definition vfs_close (n : Z) : K Z :=
  do v <- node n;
  match op_close (vn_op v) with
  | Some _ => upd_vnode n (fun v => set_fds (active_fds v -w 1) v) ;;; ret_ 0
  | None => set_errno_ EBADF ;;; ret_ (-1)
  end.

(** [long]: the count a driver returns, as a signed number. *)
Definition long (z : Z) : Z := if z <? 0x80000000 then z else z - W32.

(** What [vfs_read] makes of a driver's answer. *)
Definition read_result (ret : Z) : K Z :=
  (when ret <? 0 then_ set_errno_ EINVAL) ;;;
  ret_ (if ret =? 0 then -1 else ret).

Definition vfs_write (n offset buffer size : Z) : K Z :=
  do v <- node n;
  do ret <- match op_write (vn_op v) with
            | Some Ramfs => ramfs_write n offset buffer size
            | Some DevZero => ret_ size
            | Some DevStdout => _stdout_write buffer size
            | Some _ => fault
            | None => ret_ (-1)
            end;
  let ret := if ret =? -1 then -1 else long ret in
  (when ret <? 0 then_ set_errno_ EINVAL) ;;;
  ret_ ret.

(** The new node and 0, or -1. *)
Definition vfs_touch (p_node : Z) (name : list Z) : K (option Z) :=
  do v <- node p_node;
  match op_touch (vn_op v) with
  | Some _ =>
      do n <- ramfs_touch name;
      on_fs (namei_add_child p_node n) ;;;
      ret_ (Some n)
  | None => set_errno_ EACCES ;;; ret_ None
  end.

Definition vfs_remove (n : Z) : K Z :=
  do v <- node n;
  match op_remove (vn_op v) with
  | Some _ =>
      do _ <- ramfs_remove n;
      on_fs (namei_remove_child n) ;;;
      free_vnode n ;;;
      ret_ 0
  | None => set_errno_ EACCES ;;; ret_ (-1)
  end.

Definition vfs_mkdir (p_node : Z) (name : list Z) : K (option Z) :=
  do v <- node p_node;
  match op_mkdir (vn_op v) with
  | Some _ =>
      do n <- ramfs_mkdir name;
      on_fs (namei_add_child p_node n) ;;;
      ret_ (Some n)
  | None => set_errno_ EACCES ;;; ret_ None
  end.

Definition vfs_rmdir (n : Z) : K Z :=
  do v <- node n;
  match op_rmdir (vn_op v) with
  | Some _ =>
      on_fs (namei_remove_child n) ;;;
      free_vnode n ;;;
      ret_ 0
  | None => set_errno_ EACCES ;;; ret_ (-1)
  end.

(** -1, 0 at the end of the directory, or 1 with the entry. *)
Definition vfs_readdir (n no : Z) : K (Z * option (list Z * Z)) :=
  do v <- node n;
  match op_readdir (vn_op v) with
  | Some o =>
      do e <- (if decide (o = Tarfs) then tarfs_readdir n no else ramfs_readdir n no);
      ret_ (match e with Some _ => (1, e) | None => (0, None) end)
  | None => set_errno_ EACCES ;;; ret_ (-1, None)
  end.

(** ** namei_init, initrd.c, devfs.c *)

Definition root_ops : vfs_ops :=
  mkOps None None None None (Some Ramfs) (Some Ramfs) (Some Ramfs) None (Some Ramfs).

Definition namei_init : K unit :=
  do p <- new_vnode;
  mod_ (fun k => set_fs (set_root p (k_fs k)) k) ;;;
  copy_name p [SLASH; 0] MAX_FILENAME ;;;
  upd_vnode p (fun v => set_op root_ops (set_type VFS_DIR v)).

Definition initrd_load (fuel : nat) (start_of_initrd : Z) : K unit :=
  namei_init ;;;
  do initrd_root <- tarfs_init fuel start_of_initrd;
  if initrd_root =? 0 then panic "Unrecognized initrd format or initrd is corrupted!"
  else
    do root <- get_ (fun k => tree_root (k_fs k));
    (do _ <- on_fs (namei_mount root initrd_root); ret_ tt) ;;;
    upd_vnode root (fun v => set_op (mkOps (Some Ramfs) (Some Ramfs) (op_read (vn_op v)) (op_write (vn_op v))
      (Some Ramfs) (Some Ramfs) (Some Ramfs) (op_rmdir (vn_op v)) (Some Ramfs)) v) ;;;
    free_vnode initrd_root.

Definition _init_pseudo_devs : K unit :=
  do d <- get_ (fun k => devdir (k_fs k));
  (do p <- dev_zero_init; on_fs (namei_add_child d p)) ;;;
  (do p <- dev_stdin_init; on_fs (namei_add_child d p)) ;;;
  (do p <- dev_stdout_init; on_fs (namei_add_child d p)).

Definition devfs_init : K unit :=
  do r <- on_fs (namei_path_to_vfs_node 0 (c_string "/dev") stack_bytes);
  if negb (fst r =? 0) then panic "[ERROR] /dev already exist"
  else
    do parent <- lift_opt (snd r);
    if parent =? 0 then panic "[ERROR] Failed to create directory for devfs"
    else
      do d <- vfs_mkdir parent (c_string "dev");
      match d with
      | None => panic "[ERROR] Failed to create directory for devfs"
      | Some d => mod_ (fun k => set_fs (set_devdir d (k_fs k)) k) ;;; _init_pseudo_devs
      end.

(** The first child of /dev that passes [test]. *)
Definition dev_such (test : Z -> bool) (name : list Z) : K Z :=
  do d <- get_ (fun k => devdir (k_fs k));
  do v <- node d;
  do sz <- get_ (fun k => size (nodes (k_fs k)));
  loop (S sz) (fun tmp =>
    if tmp =? 0 then ret_ (inr 0)
    else
      do t <- node tmp;
      do c <- lift_opt (strcmp (vn_name t) name);
      if test c then ret_ (inr tmp) else ret_ (inl (next_sibling t))) (first_child v).

Definition devfs_add_dev (dev : Z) : K Z :=
  do v <- node dev;
  do same <- dev_such (fun c => c =? 0) (vn_name v);
  if negb (same =? 0) then ret_ (-1)
  else
    do d <- get_ (fun k => devdir (k_fs k));
    on_fs (namei_add_child d dev) ;;; ret_ 0.

(** The test of the C code is that of a name that differs. *)
Definition devfs_remove_dev (name : list Z) : K Z :=
  do tmp <- dev_such (fun c => negb (c =? 0)) name;
  (when negb (tmp =? 0) then_ on_fs (namei_remove_child tmp)) ;;;
  ret_ tmp.
End vfs.
