(* ===== verification/Files.v ===== *)
(** * File descriptors and the file system calls
    ([fd.c], [open.c], [close.c], [write.c], [lseek.c], [mkdir.c], [rmdir.c],
    [remove.c], [readdir.c] of [src/src/kernel/vfs/])

    The calls that cannot put the caller to sleep.  A descriptor number is
    not checked against the size of the table: an index outside it is
    undefined behaviour.  [raw_fd] is what freshly allocated memory holds. *)

From S2P Require Import Prelude Dlist Pmm Heap Paging Vmm Vmalloc Klib Namei Sched Kernel Vfs.

#[local] Open Scope Z_scope.

Definition O_CREAT : Z := 1.
Definition O_RDONLY : Z := 2.
Definition O_WRONLY : Z := 4.
Definition SEEK_SET : Z := 0.
Definition SEEK_CUR : Z := 1.
Definition SEEK_END : Z := 2.

Definition set_used_fd v t := mkTcb (task_id t) (kernel_stack t) (exit_code t) (fd_ctr t) v (t_mask t) (t_current t) (wait4 t) (t_parent t) (t_first_child t) (t_last_child t) (t_prev_sibling t) (t_next_sibling t) (t_state t) (t_priority t) (t_next t) (t_prev t) (t_regs t) (t_aspace t).
Definition set_fd_ctr v t := mkTcb (task_id t) (kernel_stack t) (exit_code t) v (used_fd t) (t_mask t) (t_current t) (wait4 t) (t_parent t) (t_first_child t) (t_last_child t) (t_prev_sibling t) (t_next_sibling t) (t_state t) (t_priority t) (t_next t) (t_prev t) (t_regs t) (t_aspace t).

(** [memset]-free assignment of [ptr[i]] for an array of pointers. *)
Definition slot (l : list Z) (i : Z) : option Z := if 0 <=? i then l !! Z.to_nat i else None.

Section files.
Context {H : Type} `{!Allocator H}.
Context (raw_fd : Z -> fd_t) (stack_bytes : list Z).

Local Notation K := (K (H := H)).

(** [t->used_fd[fd]]. *)
Definition get_fd (t fd : Z) : K Z := do c <- task t; lift_opt (slot (used_fd c) fd).

Definition put_fd (t fd v : Z) : K unit := upd_tcb t (fun c => set_used_fd (<[Z.to_nat fd := v]> (used_fd c)) c).

(** ** fd.c *)

(** The links of the first descriptor are left as they are. *)
Definition fd_add (fd : Z) : K unit :=
  do f <- get_ first_fd;
  if f =? 0 then mod_ (set_first_fd fd)
  else
    upd_fd fd (set_fd_next f) ;;;
    upd_fd f (set_fd_prev fd) ;;;
    mod_ (set_first_fd fd).

Definition fd_remove (fd : Z) : K unit :=
  do d <- ld_fd fd;
  if fd_prev d =? 0 then
    (do f <- get_ first_fd; upd_fd f (set_fd_prev 0)) ;;;
    (do d <- ld_fd fd; mod_ (set_first_fd (fd_next d)))
  else if fd_next d =? 0 then upd_fd (fd_prev d) (set_fd_next 0)
  else
    upd_fd (fd_prev d) (set_fd_next (fd_next d)) ;;;
    upd_fd (fd_next d) (set_fd_prev (fd_prev d)).

Definition free_fd (p : Z) : K unit := kmem_free p ;;; mod_ (fun k => set_kfds (delete p (k_fds k)) k).

(** ** close.c *)

Definition do_close (t fd : Z) : K Z :=
  do p <- get_fd t fd;
  if p =? 0 then fail_with EBADF
  else
    do kt <- get_ (fun k => kernel_task (k_sched k));
    do default_fd <- get_fd kt fd;
    if p =? default_fd then
      upd_tcb t (fun c => set_fd_ctr (fd_ctr c -w 1) c) ;;; ret_ 0
    else
      do d <- ld_fd p;
      do r <- vfs_close (vfs_node d);
      if r <? 0 then ret_ (-1)
      else
        fd_remove p ;;;
        put_fd t fd 0 ;;;
        upd_tcb t (fun c => set_fd_ctr (fd_ctr c -w 1) c) ;;;
        free_fd p ;;;
        ret_ 0.

(** ** open.c *)

(** The entry after the table is read when it is full. *)
Definition _find_free_fd_num (t : Z) : K Z :=
  do i <- loop (S MAX_FDS) (fun i =>
    do p <- get_fd t i;
    if negb (p =? 0) && (i <? Z.of_nat MAX_FDS) then ret_ (inl (i + 1)) else ret_ (inr i)) 2;
  do p <- get_fd t i;
  ret_ (if p =? 0 then i else -1).

(** A descriptor for the open file [file]. *)
Definition new_descriptor (t file flags : Z) : K Z :=
  do new_fd <- kmem_alloc SIZEOF_FD;
  mod_ (fun k => set_kfds (<[new_fd := mkFd 0 flags file (fd_next (raw_fd new_fd)) (fd_prev (raw_fd new_fd))]> (k_fds k)) k) ;;;
  fd_add new_fd ;;;
  do fd_num <- _find_free_fd_num t;
  if fd_num <? 0 then fail_with EMFILE
  else
    put_fd t fd_num new_fd ;;;
    upd_tcb t (fun c => set_fd_ctr (fd_ctr c +w 1) c) ;;;
    ret_ fd_num.

Definition do_open (t : Z) (path : list Z) (flags : Z) : K Z :=
  do r <- on_fs (namei_path_to_vfs_node 0 path stack_bytes);
  do file <- (if negb (fst r =? 0) then ret_ (Some (fst r))
              else
                do parent <- lift_opt (snd r);
                if parent =? 0 then set_errno_ ENOENT ;;; ret_ None
                else if negb (Z.land flags O_CREAT =? 0) then
                  do filename <- namei_path_to_filename path stack_bytes;
                  vfs_touch parent filename
                else set_errno_ ENOENT ;;; ret_ None);
  match file with
  | None => ret_ (-1)
  | Some file =>
      do r <- vfs_open file flags;
      if r <? 0 then ret_ (-1) else new_descriptor t file flags
  end.

(** ** write.c *)

(** The loop: one page of the caller's buffer at a time. *)
Definition write_step (t fd node_ size old_tmp : Z) (l : Z * Z) : K (Z * Z + Z) :=
  let '(written, current_vaddr) := l in
  if written <? size then
    do c <- task t;
    do a <- on_vm (ld_as (t_aspace c));
    do paddr <- memory (pg_get_frame_from (pd a) current_vaddr);
    if paddr =? 0 then set_errno_ EFAULT ;;; ret_ (inr (-1))
    else
      memory (pg_map paddr VM_TMP2_MAP PG_KERN_PAGE_FLAG) ;;;
      let off := current_vaddr mod PAGE_SIZE in
      let write_int := if PAGE_SIZE <? off +w (size -w written) then PAGE_SIZE - off else size -w written in
      do p <- get_fd t fd;
      do d <- ld_fd p;
      do written_int <- vfs_write node_ (position d) (VM_TMP2_MAP + off) write_int;
      if written_int <? 0 then
        (do _ <- memory (pg_unmap VM_TMP2_MAP); ret_ tt) ;;;
        memory (pg_map old_tmp VM_TMP2_MAP PG_KERN_PAGE_FLAG) ;;;
        ret_ (inr (-1))
      else
        upd_fd p (fun d => set_position (position d +w written_int) d) ;;;
        (do _ <- memory (pg_unmap VM_TMP2_MAP); ret_ tt) ;;;
        ret_ (inl (written + written_int, current_vaddr +w written_int))
  else
    memory (pg_map old_tmp VM_TMP2_MAP PG_KERN_PAGE_FLAG) ;;; ret_ (inr written).

(** A driver may write nothing for ever, as ramfs does at the end of a
    file: the number of rounds is a parameter. *)
Definition do_write (rounds : nat) (t fd buff size : Z) : K Z :=
  do p <- get_fd t fd;
  if p =? 0 then fail_with EBADF
  else
    do d <- ld_fd p;
    if negb (Z.land (mode d) O_RDONLY =? 0) then fail_with EPERM
    else
      do old_tmp <- memory (pg_unmap VM_TMP2_MAP);
      loop rounds (write_step t fd (vfs_node d) size old_tmp) (0, buff).

(** ** lseek.c *)

(** [offset] is a [long]. *)
Definition do_lseek (t fd offset whence : Z) : K Z :=
  do p <- get_fd t fd;
  if p =? 0 then fail_with EBADF
  else
    do d <- ld_fd p;
    do v <- node (vfs_node d);
    if decide (v_type v <> Some VFS_FILE) then fail_with ESPIPE
    else if (whence =? SEEK_SET) || (whence =? SEEK_END) then
      if (offset <? 0) || (vn_size v <? offset) then fail_with ENXIO
      else upd_fd p (set_position offset) ;;; ret_ (long offset)
    else if whence =? SEEK_CUR then
      let new_offset := position d +w offset in
      if vn_size v <? new_offset then fail_with ENXIO
      else upd_fd p (set_position new_offset) ;;; ret_ (long new_offset)
    else fail_with EINVAL.

(** ** mkdir.c, rmdir.c, remove.c *)

Definition do_mkdir (path : list Z) : K Z :=
  do r <- on_fs (namei_path_to_vfs_node 0 path stack_bytes);
  if negb (fst r =? 0) then fail_with EEXIST
  else
    do parent <- lift_opt (snd r);
    if parent =? 0 then fail_with EINVAL
    else
      do v <- node parent;
      if decide (v_type v <> Some VFS_DIR /\ v_type v <> Some VFS_MNTPT) then fail_with ENOTDIR
      else
        do dirname <- namei_path_to_filename path stack_bytes;
        do d <- vfs_mkdir parent dirname;
        ret_ (match d with None => -1 | Some _ => 0 end).

Definition do_rmdir (path : list Z) : K Z :=
  do r <- on_fs (namei_path_to_vfs_node 0 path stack_bytes);
  if fst r =? 0 then fail_with ENOENT
  else
    do v <- node (fst r);
    if decide (v_type v = Some VFS_MNTPT) then fail_with EBUSY
    else if decide (v_type v <> Some VFS_DIR) then fail_with ENOTDIR
    else if negb (first_child v =? 0) then fail_with EEXIST
    else vfs_rmdir (fst r).

Definition do_remove (path : list Z) : K Z :=
  do r <- on_fs (namei_path_to_vfs_node 0 path stack_bytes);
  if fst r =? 0 then fail_with ENOENT
  else
    do v <- node (fst r);
    if decide (v_type v = Some VFS_DIR) then fail_with EISDIR
    else if 0 <? active_fds v then fail_with EBUSY
    else vfs_remove (fst r).

(** ** readdir.c *)

(** The entry as the caller sees it: the name, then the number. *)
Definition dirent_bytes (e : list Z * Z) : list Z :=
  e.1 ++ ((fun i => byte_of e.2 i) <$> [0; 1; 2; 3]).

Definition do_readdir (t fd dent : Z) : K Z :=
  do p <- get_fd t fd;
  if p =? 0 then fail_with EBADF
  else
    do d <- ld_fd p;
    do v <- node (vfs_node d);
    if decide (v_type v <> Some VFS_DIR /\ v_type v <> Some VFS_MNTPT) then fail_with ENOTDIR
    else
      do r <- vfs_readdir (vfs_node d) (position d);
      match r with
      | (ret, None) => ret_ ret
      | (_, Some e) =>
          do c <- task t;
          do n <- on_vm (vmm_copy_data_to (t_aspace c) dent (dirent_bytes e) (Z.of_nat (length (dirent_bytes e))));
          if n <? 0 then ret_ (-1)
          else upd_fd p (fun d => set_position (position d +w 1) d) ;;; ret_ 1
      end.

(** A call that takes a path copies it into the kernel first. *)
Definition with_path (path : Z) (call : list Z -> K Z) : K Z :=
  do cur <- get_ (fun k => actual_task (k_sched k));
  do c <- task cur;
  do buf <- on_vm (vmm_copy_string_from (t_aspace c) path MAX_PATH_LEN);
  if buf =? 0 then ret_ (-1)
  else
    do bytes <- (fun k => match v_bufs (k_vmm k) !! buf with Some b => Ok (b, k) | None => Fault end);
    do r <- call bytes;
    on_vm (free_buf buf) ;;;
    ret_ r.

Definition open (path flags : Z) : K Z :=
  do cur <- get_ (fun k => actual_task (k_sched k));
  with_path path (fun p => do_open cur p flags).
Definition mkdir (path : Z) : K Z := with_path path do_mkdir.
Definition rmdir (path : Z) : K Z := with_path path do_rmdir.
Definition remove (path : Z) : K Z := with_path path do_remove.
End files.
