(* ===== verification/FilesSpec.v ===== *)
(** * Correctness of the file system calls

    [mkdir] against the abstract tree of [NameiSpec]; [lseek] and its bounds;
    the last component of a path. *)

From S2P Require Import Prelude Dlist Pmm Kmalloc Heap Paging Vmm Vmalloc Klib Terminal Namei NameiSpec Sched Kernel Vfs Files.

#[local] Open Scope Z_scope.

(** ** The last component of a path *)

(** Where the last slash is that does not end the string. *)
Fixpoint last_slash (i last : Z) (l : list Z) : Z :=
  match l with
  | [] => last
  | c :: r =>
      if c =? 0 then last
      else if c =? SLASH then
        last_slash (i + 1) (match r with d :: _ => if negb (d =? 0) then i else last | [] => last end) r
      else last_slash (i + 1) last r
  end.

Lemma last_slash_plain i last name tl : SLASH ∉ name -> 0 ∉ name ->
  last_slash i last (name ++ tl) = last_slash (i + Z.of_nat (length name)) last tl.
Proof.
  revert i. induction name as [|c name IH]; intros i Hs H0; [cbn; f_equal; lia|].
  apply not_elem_of_cons in Hs as [Hc Hs], H0 as [Hc0 H0]. cbn [app last_slash length].
  rewrite (proj2 (Z.eqb_neq c 0)), (proj2 (Z.eqb_neq c SLASH)), IH by congruence || done. f_equal. lia.
Qed.

Lemma last_slash_split i last pfx name tl : 0 ∉ pfx -> 0 ∉ name -> SLASH ∉ name -> name <> [] ->
  tl = [0] \/ tl = [SLASH; 0] -> last_slash i last (pfx ++ SLASH :: name ++ tl) = i + Z.of_nat (length pfx).
Proof.
  intros Hp H0 Hs Hne Htl. revert i last. induction pfx as [|c pfx IH]; intros i last.
  - cbn [app last_slash]. destruct name as [|x name]; [done|].
    cbn [app Z.eqb SLASH Pos.eqb]. assert (x <> 0) by (apply not_elem_of_cons in H0 as [? _]; congruence).
    rewrite (proj2 (Z.eqb_neq x 0)) by done. cbn [negb]. change (x :: name ++ tl) with ((x :: name) ++ tl).
    rewrite last_slash_plain by done. destruct Htl as [-> | ->]; cbn; lia.
  - apply not_elem_of_cons in Hp as [Hc Hp]. cbn [app last_slash length].
    rewrite (proj2 (Z.eqb_neq c 0)) by congruence. destruct (c =? SLASH); rewrite IH by done; lia.
Qed.

Section filename.
Context {S : Type} (s : S).

Lemma scan_wp path : forall rest fuel i last pre, path = pre ++ rest -> i = Z.of_nat (length pre) -> 0 ∈ rest ->
  (length rest < fuel)%nat ->
  wp (loop fuel (fun l : Z * Z =>
    let '(last_idx, i) := l in
    do c <- rd path i;
    if c =? 0 then ret_ (inr last_idx)
    else if c =? SLASH then
      do d <- rd path (i + 1);
      ret_ (inl (if negb (d =? 0) then i else last_idx, i + 1))
    else ret_ (inl (last_idx, i + 1))) (last, i)) (fun r s' => s' = s /\ r = last_slash i last rest) s.
Proof.
  induction rest as [|c rest IH]; intros fuel i last pre Ep Ei H0 Hf; [by apply elem_of_nil in H0|].
  destruct fuel as [|fuel]; [cbn in Hf; lia|]. cbn [loop last_slash]. cbn in Hf.
  assert (Hc : rd path i s = Ok (c, s)).
  { apply rd_ok; [lia|]. by rewrite Ep, Ei, Nat2Z.id, lookup_app_r, Nat.sub_diag. }
  apply wp_bind, wp_bind. eapply wp_intro; [exact Hc|].
  destruct (Z.eqb_spec c 0) as [->|Hc0]; [by apply wp_ret, wp_ret|].
  assert (H0' : 0 ∈ rest) by (apply elem_of_cons in H0 as [?|?]; [congruence|done]).
  assert (Ep' : path = (pre ++ [c]) ++ rest) by by rewrite <- app_assoc.
  assert (Ei' : i + 1 = Z.of_nat (length (pre ++ [c]))) by (rewrite length_app; cbn; lia).
  destruct (c =? SLASH).
  - destruct rest as [|d rest]; [by apply elem_of_nil in H0'|].
    apply wp_bind. eapply wp_intro; [apply (rd_ok _ _ d); [lia|]|].
    { by rewrite Ei', Ep', Nat2Z.id, lookup_app_r, Nat.sub_diag. }
    apply wp_ret. eapply IH; [exact Ep'|exact Ei'|done|lia].
  - apply wp_ret. eapply IH; [exact Ep'|exact Ei'|done|lia].
Qed.

(** The name, without the slash behind it. *)
Lemma filename_wp pfx name (slash : bool) buff :
  0 ∉ pfx -> 0 ∉ name -> SLASH ∉ name -> name <> [] -> length buff = Z.to_nat MAX_FILENAME ->
  (length name + (if slash then 1 else 0) < Z.to_nat MAX_FILENAME)%nat ->
  wp (namei_path_to_filename (pfx ++ SLASH :: name ++ (if slash then [SLASH; 0] else [0])) buff)
    (fun r s' => s' = s /\ cstr r name /\ length r = Z.to_nat MAX_FILENAME) s.
Proof.
  intros Hp H0 Hs Hne Hb Hl. unfold namei_path_to_filename. set (path := pfx ++ _).
  set (tl := if slash then [SLASH; 0] else [0]). set (shown := name ++ (if slash then [SLASH] else [])).
  assert (Hcs : cstr (name ++ tl) shown).
  { unfold shown, tl. destruct slash; [split|rewrite app_nil_r; split; [done|by exists []]].
    - rewrite elem_of_app, list_elem_of_singleton. intros [?|?]; done.
    - exists []. by rewrite <- app_assoc. }
  apply wp_bind. eapply wp_mono.
  { apply (scan_wp path path _ 0 0 []); [done|done| |lia]. unfold path, tl. destruct slash; set_solver. }
  intros r s' [-> ->].
  assert (Er : last_slash 0 0 path = Z.of_nat (length pfx)).
  { unfold path. rewrite last_slash_split by (done || (unfold tl; destruct slash; auto)). lia. }
  rewrite Er. assert (Ed : drop (Z.to_nat (Z.of_nat (length pfx) + 1)) path = name ++ tl).
  { unfold path. replace (Z.to_nat _) with (length pfx + 1)%nat by lia. rewrite <- drop_drop.
    by rewrite drop_app_length. }
  rewrite Ed. apply wp_bind. unfold wp at 1, lift_opt.
  assert (Hls : (length shown < Z.to_nat MAX_FILENAME)%nat) by (unfold shown; rewrite length_app; destruct slash; cbn; lia).
  destruct (strncpy_terminates buff (name ++ tl) shown (Z.to_nat MAX_FILENAME) Hcs Hls) as (b & Eb & Hcb & Hlb); [lia|].
  rewrite Eb. apply wp_bind. unfold wp at 1, lift_opt. rewrite (strlen_cstr _ _ Hcb).
  assert (Hsl : (0 < length shown)%nat) by (unfold shown; rewrite length_app; destruct name; [done|cbn; lia]).
  destruct Hcb as [Hcb0 [rest Erest]].
  assert (Hlast : exists x, last shown = Some x /\ b !! (length shown - 1)%nat = Some x /\ (x = SLASH <-> slash = true)).
  { assert (Hx : is_Some (last shown)) by (apply last_is_Some; intros E; rewrite E in Hsl; cbn in Hsl; lia). destruct Hx as [x Hx]. exists x.
    split; [done|]. rewrite last_lookup in Hx. split.
    - rewrite Erest, lookup_app_l by lia. by replace (length shown - 1)%nat with (pred (length shown)) by lia.
    - unfold shown in Hx. destruct slash; [|rewrite app_nil_r in Hx].
      + rewrite length_app in Hx. cbn in Hx. rewrite lookup_app_r in Hx by lia.
        replace (pred (length name + 1) - length name)%nat with 0%nat in Hx by lia. injection Hx as <-. done.
      + apply list_elem_of_lookup_2 in Hx. split; [intros ->; done|done]. }
  destruct Hlast as (x & _ & Hbx & Hxs). apply wp_bind.
  eapply wp_intro; [apply (rd_ok _ _ x); [lia|]; rewrite <- Hbx; f_equal; lia|].
  destruct (Z.eqb_spec x SLASH) as [E|E].
  - assert (slash = true) as -> by by apply Hxs. eapply wp_intro; [apply wr_ok; lia|]. split; [done|].
    rewrite length_insert. split; [|lia]. split; [done|].
    unfold shown in *. rewrite length_app in *. cbn [length] in *.
    replace (Z.to_nat (Z.of_nat (length name + 1) - 1)) with (length name + 0)%nat by lia.
    rewrite Erest, <- app_assoc, insert_app_r. by exists (0 :: rest).
  - apply wp_ret. destruct slash; [by destruct E; apply Hxs|]. unfold shown in Erest. rewrite app_nil_r in Erest.
    split_and!; [done|split; [done|by exists rest]|lia].
Qed.
End filename.

(** A path is what is before its last component, a slash, that component. *)
Lemma path_of_snoc pre c slash : exists pfx, path_of (pre ++ [c]) slash = pfx ++ SLASH :: c ++ (if slash then [SLASH; 0] else [0]) /\
  (Forall comp_ok pre -> 0 ∉ pfx).
Proof.
  unfold path_of. induction pre as [|d pre IH].
  - exists []. split; [done|]. intros _. apply not_elem_of_nil.
  - destruct IH as (pfx & E & H0). exists (SLASH :: d ++ pfx). split.
    + cbn [app]. assert (Ep : path_tail (d :: pre ++ [c]) slash = d ++ SLASH :: path_tail (pre ++ [c]) slash) by by destruct pre.
      rewrite Ep, E. cbn [app]. by rewrite <- app_assoc.
    + intros [(_ & _ & Hd & _) Hall]%Forall_cons. rewrite elem_of_cons, elem_of_app. intros [?|[?|?]]; [done|done|by apply H0].
Qed.

(** ** A new node in the tree *)

Definition named (nm : Z -> list Z) (p : Z) (name : list Z) (x : Z) : list Z := if decide (x = p) then name else nm x.

Section fresh.
Context (f : fsys) (cs nm : Z -> list Z) (q : Z).
Hypotheses (Hok : tree_ok f cs nm) (Hq : nodes f !! q = None) (Hq0 : q <> 0).

Lemma fresh_not_child x : q ∉ cs x.
Proof. intros H. destruct (child_node f cs nm Hok x q H) as (n & Hn & _). congruence. Qed.

Lemma fresh_no_children : cs q = [].
Proof.
  destruct (cs q) eqn:E; [done|]. destruct (tk_dir _ _ _ Hok q) as [n Hn]; [by rewrite E|]. congruence.
Qed.

Lemma fresh_tree n name f' : nodes f' = <[q := n]> (nodes f) ->
  first_child n = 0 -> last_child n = 0 -> cstr (vn_name n) name -> length (vn_name n) = Z.to_nat MAX_FILENAME ->
  tree_ok f' cs (named nm q name).
Proof.
  intros E Hf Hl Hn Hlen. unfold named. split.
  - intros p v Hv. rewrite E in Hv. apply lookup_insert_Some in Hv as [[<- <-]|[Hne Hv]].
    + by rewrite fresh_no_children.
    + by apply (tk_first _ _ _ Hok).
  - intros p. rewrite E. eapply dlist_frame; [|apply (tk_dl _ _ _ Hok)]. intros x Hx. unfold links.
    rewrite lookup_insert_ne; [done|]. intros <-. by apply (fresh_not_child p).
  - intros p v Hv. rewrite E in Hv. apply lookup_insert_Some in Hv as [[<- <-]|[Hne Hv]].
    + by rewrite decide_True.
    + rewrite decide_False by done. by apply (tk_name _ _ _ Hok).
  - intros p x v Hx Hv. rewrite E in Hv. apply lookup_insert_Some in Hv as [[<- <-]|[Hne Hv]].
    + by destruct (fresh_not_child p).
    + by eapply (tk_parent _ _ _ Hok).
  - intros p Hp. rewrite E. apply lookup_insert_is_Some. destruct (decide (q = p)); [by left|right].
    split; [done|]. by apply (tk_dir _ _ _ Hok).
  - apply Hok.
  - rewrite E, lookup_insert_ne by done. apply Hok.
Qed.

(** Adding it leaves what was found before where it was. *)
Context (p : Z) (name : list Z).
Let cs' := with_children cs p (cs p ++ [q]).
Let nm' := named nm q name.

Lemma old_children x c : filter (fun y => nm' y = c) (cs x) = filter (fun y => nm y = c) (cs x).
Proof.
  pose proof (fresh_not_child x) as Hx. induction (cs x) as [|y l IH]; [done|].
  apply not_elem_of_cons in Hx as [Hy Hx]. assert (E : nm' y = nm y) by (unfold nm', named; by rewrite decide_False).
  rewrite !filter_cons, IH by done. repeat case_decide; congruence.
Qed.

Lemma child_kept x c : child cs nm x c <> 0 -> child cs' nm' x c = child cs nm x c.
Proof.
  unfold child, cs', with_children. intros Hne. case_decide as E; [subst x|by rewrite old_children].
  rewrite filter_app, old_children, hd0_app. by destruct (filter _ (cs p)).
Qed.

Lemma child_added : child cs nm p name = 0 -> child cs' nm' p name = q.
Proof.
  unfold child, cs', with_children. rewrite decide_True by done. intros E.
  assert (Hnil : filter (fun y => nm y = name) (cs p) = []).
  { destruct (filter _ (cs p)) as [|y l] eqn:Ef; [done|]. cbn in E. subst y.
    assert (Hin : 0 ∈ filter (fun y => nm y = name) (cs p)) by (rewrite Ef; by left).
    apply list_elem_of_filter in Hin as [_ Hin]. by destruct (child_node f cs nm Hok p 0 Hin) as (_ & _ & ?). }
  rewrite filter_app, old_children, Hnil, app_nil_l, filter_cons, decide_True; [done|].
  unfold nm', named. by rewrite decide_True.
Qed.

Lemma resolve_added pre cur : resolve cs nm cur (pre ++ [name]) = (0, p) -> p <> 0 ->
  resolve cs' nm' cur (pre ++ [name]) = (q, p).
Proof.
  revert cur. induction pre as [|c pre IH]; intros cur Hr Hp; cbn [app resolve] in *.
  - injection Hr as Hr ->. by rewrite child_added.
  - assert (Hne : exists d l, pre ++ [name] = d :: l) by (destruct pre; eauto). destruct Hne as (d & l & Ed). rewrite Ed in *.
    destruct (Z.eqb_spec (child cs nm cur c) 0) as [E|E]; [injection Hr as <-; done|].
    rewrite child_kept by done. rewrite (proj2 (Z.eqb_neq _ 0) E). by apply IH.
Qed.
End fresh.

Lemma node_ok {H} (k : kernel H) x n : nodes (k_fs k) !! x = Some n -> x <> 0 -> node x k = Ok (n, k).
Proof.
  intros E Hx. unfold node, on_fs, zoom, ld_node. rewrite E, (proj2 (Z.eqb_neq x 0)) by done. by destruct k.
Qed.

(** ** mkdir *)

Section mkdir.
Context {H : Type} `{!Allocator H}.
Context (stack_bytes : list Z).
Hypothesis (Hst : length stack_bytes = Z.to_nat MAX_FILENAME).

Lemma wp_on_fs {A} (m : M fsys A) (Q : A -> kernel H -> Prop) k :
  wp m (fun a f => Q a (set_fs f k)) (k_fs k) -> wp (on_fs m) Q k.
Proof. apply wp_zoom. Qed.

(** The nodes are blocks of the heap. *)
Definition nodes_owned (k : kernel H) (A : gmap Z Z) : Prop :=
  al_rep (v_heap (k_vmm k)) A /\ forall x, is_Some (nodes (k_fs k) !! x) -> is_Some (A !! x).

Lemma new_vnode_wp k A : nodes_owned k A -> al_room (v_heap (k_vmm k)) SIZEOF_VNODE ->
  wp new_vnode (fun q k' => exists z h, q <> 0 /\ A !! q = None /\ nodes (k_fs k) !! q = None /\
    al_rep h (<[q := z]> A) /\
    k' = set_fs (set_nodes (<[q := zero_vnode]> (nodes (k_fs k))) (k_fs k)) (set_vmm (set_heap h (k_vmm k)) k)) k.
Proof.
  intros [HA Hown] Hroom. unfold new_vnode, kmem_alloc, on_vm, on_heap. apply wp_bind, wp_zoom, wp_zoom.
  eapply wp_mono; [apply (al_malloc_wp _ A SIZEOF_VNODE HA); [unfold SIZEOF_VNODE; lia|exact Hroom]|].
  intros q h (z & Hq0 & HqA & _ & Hrep). apply wp_bind, wp_mod, wp_ret. exists z, h. split_and!; try done.
  destruct (nodes (k_fs k) !! q) eqn:E; [|done]. destruct (Hown q) as [? E2]; [by rewrite E|]. congruence.
Qed.

(** Nothing but the tree and the heap differs. *)
Definition tree_and_heap (k k' : kernel H) : Prop := k' = set_fs (k_fs k') (set_vmm (set_heap (v_heap (k_vmm k')) (k_vmm k)) k).

(** [q] is a new directory, the last child of [p], and [pre/name] is its
    path. *)
Definition added_directory (f f' : fsys) (cs nm : Z -> list Z) (p : Z) (pre : list (list Z)) (name : list Z) (q : Z) : Prop :=
  exists n, nodes f !! q = None /\ nodes f' !! q = Some n /\ v_type n = Some VFS_DIR /\
    tree_ok f' (with_children cs p (cs p ++ [q])) (named nm q name) /\
    tree_root f' = tree_root f /\
    resolve (with_children cs p (cs p ++ [q])) (named nm q name) (tree_root f') (pre ++ [name]) = (q, p).

(** A directory called [name], not linked yet. *)
Lemma ramfs_mkdir_wp k A s name cs nm : nodes_owned k A -> al_room (v_heap (k_vmm k)) SIZEOF_VNODE ->
  tree_ok (k_fs k) cs nm -> cstr s name -> (length name < Z.to_nat MAX_FILENAME)%nat ->
  wp (ramfs_mkdir s) (fun q k' => exists z n, q <> 0 /\ A !! q = None /\ tree_and_heap k k' /\ nodes (k_fs k) !! q = None /\
    nodes (k_fs k') = <[q := n]> (nodes (k_fs k)) /\ set_nodes ∅ (k_fs k') = set_nodes ∅ (k_fs k) /\
    tree_ok (k_fs k') cs (named nm q name) /\ v_type n = Some VFS_DIR /\ first_child n = 0 /\
    al_rep (v_heap (k_vmm k')) (<[q := z]> A)) k.
Proof.
  intros Hown Hroom Hok Hs Hl. unfold ramfs_mkdir. apply wp_bind.
  eapply wp_mono; [by apply (new_vnode_wp k A)|]. intros q k1 (z & h & Hq0 & HqA & Hqn & Hrep & ->).
  unfold copy_name, node, upd_vnode.
  destruct (strncpy_terminates (vn_name zero_vnode) s name (Z.to_nat MAX_FILENAME) Hs Hl ltac:(done)) as (b & Eb & Hcb & Hlb).
  apply wp_bind, wp_bind, wp_on_fs. eapply wp_ld_node'; [apply lookup_insert_eq|done|].
  apply wp_bind. unfold wp at 1, lift_opt. rewrite Eb. apply wp_on_fs. eapply wp_upd_node; [apply lookup_insert_eq|done|].
  apply wp_bind, wp_on_fs. eapply wp_upd_node; [apply lookup_insert_eq|done|]. apply wp_ret.
  cbn [k_fs set_fs set_vmm nodes set_nodes k_vmm v_heap set_heap]. rewrite !insert_insert_eq.
  exists z. eexists. split_and!; try done. by eapply (fresh_tree (k_fs k) cs nm q).
Qed.

Context (k : kernel H) (cs nm : Z -> list Z) (A : gmap Z Z) (pre : list (list Z)) (name : list Z) (slash : bool)
  (p : Z) (v : vnode) (d : driver).
Hypotheses (Hok : tree_ok (k_fs k) cs nm) (Hroot : is_Some (nodes (k_fs k) !! tree_root (k_fs k)))
  (Hpre : Forall comp_ok pre) (Hname : comp_ok name)
  (Hlen : (length name + (if slash then 1 else 0) < Z.to_nat MAX_FILENAME)%nat)
  (Hr : resolve cs nm (tree_root (k_fs k)) (pre ++ [name]) = (0, p)) (Hp0 : p <> 0)
  (Hv : nodes (k_fs k) !! p = Some v) (Hvt : v_type v = Some VFS_DIR \/ v_type v = Some VFS_MNTPT)
  (Hop : op_mkdir (vn_op v) = Some d) (Hown : nodes_owned k A) (Hroom : al_room (v_heap (k_vmm k)) SIZEOF_VNODE).

Lemma wp_same {S X} (m m' : M S X) (Q : X -> S -> Prop) s : m s = m' s -> wp m' Q s -> wp m Q s.
Proof. unfold wp. by intros ->. Qed.

(** Up to the driver. *)
Lemma do_mkdir_prefix : exists b, cstr b name /\ do_mkdir stack_bytes (path_of (pre ++ [name]) slash) k =
  (do d <- vfs_mkdir p b; ret_ (match d with None => -1 | Some _ => 0 end)) k.
Proof.
  destruct (wp_run _ _ _ (namei_wp (k_fs k) cs nm 0 (pre ++ [name]) slash stack_bytes Hok Hroot ltac:(apply Forall_app; split; [done|by constructor]) Hst))
    as (r & f & E & -> & Er). cbn [Z.eqb] in Er. rewrite Hr in Er. subst r.
  assert (E' : on_fs (namei_path_to_vfs_node 0 (path_of (pre ++ [name]) slash) stack_bytes) k = Ok ((0, Some p), k)).
  { unfold on_fs, zoom. rewrite E. by destruct k. }
  destruct (path_of_snoc pre name slash) as (pfx & Epath & Hpfx). destruct Hname as (Hn1 & Hn2 & Hn3 & Hn4).
  destruct (wp_run _ _ _ (filename_wp k pfx name slash stack_bytes ltac:(by apply Hpfx) Hn3 Hn4 Hn1 Hst Hlen)) as (b & k1 & Ef & -> & Hb & _).
  rewrite <- Epath in Ef. exists b. split; [exact Hb|].
  unfold do_mkdir. rewrite (bind_ok _ _ _ _ _ E'). cbn [fst snd Z.eqb negb]. rewrite (bind_ok _ _ k p k eq_refl), (proj2 (Z.eqb_neq p 0) Hp0).
  rewrite (bind_ok _ _ _ _ _ (node_ok k _ _ Hv Hp0)), decide_False by naive_solver. by rewrite (bind_ok _ _ _ _ _ Ef).
Qed.

(** The driver of the parent makes no directories. *)
Lemma do_mkdir_no_driver : op_mkdir (vn_op v) = None ->
  do_mkdir stack_bytes (path_of (pre ++ [name]) slash) k = Ok (-1, set_vmm (set_errno EACCES (k_vmm k)) k).
Proof.
  intros Hno. destruct do_mkdir_prefix as (b & _ & ->). unfold vfs_mkdir.
  unfold bind_ at 1. rewrite (bind_ok _ _ _ _ _ (node_ok k _ _ Hv Hp0)). by rewrite Hno.
Qed.

Lemma do_mkdir_wp : wp (do_mkdir stack_bytes (path_of (pre ++ [name]) slash)) (fun r k' => r = 0 /\ exists q z,
    added_directory (k_fs k) (k_fs k') cs nm p pre name q /\ A !! q = None /\
    al_rep (v_heap (k_vmm k')) (<[q := z]> A) /\ tree_and_heap k k') k.
Proof.
  destruct do_mkdir_prefix as (b & Hb & E). apply (wp_same _ _ _ _ E). destruct Hname as (Hn1 & Hn2 & Hn3 & Hn4).
  apply wp_bind. unfold vfs_mkdir. apply wp_bind. eapply wp_intro; [by apply node_ok|].
  rewrite Hop. apply wp_bind. eapply wp_mono; [by eapply (ramfs_mkdir_wp k A b name cs nm)|].
  intros q k1 (z & n & Hq0 & HAq & Hth & Hqn & En & Es & Hok1 & Hnt & Hnf & Hrep).
  apply wp_bind, wp_on_fs.
  assert (Hpq : p <> q) by (intros ->; congruence).
  eapply wp_mono; [apply (add_child_wp (k_fs k1) cs (named nm q name) p q Hok1)|].
  - rewrite En, lookup_insert_ne by done. by exists v.
  - rewrite En, lookup_insert_eq. by exists n.
  - done.
  - intros x. by apply (fresh_not_child (k_fs k) cs nm q Hok Hqn).
  - intros [] f' (Hok' & Hk & Es'). apply wp_ret, wp_ret. split; [done|].
    pose proof (kp_fields _ _ _ _ Hk q) as Ef. rewrite En, lookup_insert_eq in Ef.
    destruct (nodes f' !! q) as [n'|] eqn:En'; [|done]. cbn in Ef.
    pose proof (f_equal (fun o => match o with Some x => v_type x | None => None end) Ef) as Et. cbn in Et.
    assert (Eroot : tree_root f' = tree_root (k_fs k)).
    { pose proof (f_equal tree_root Es') as E1. pose proof (f_equal tree_root Es) as E2. cbn in E1, E2. congruence. }
    exists q, z. cbn [k_fs set_fs k_vmm]. split_and!; try done; [|by rewrite Hth].
    exists n'. split_and!; try done; [congruence|]. rewrite Eroot. eapply resolve_added; [exact Hok|exact Hqn|exact Hr|done].
Qed.
End mkdir.

(** ** lseek *)

(** [errno = e; return -1;] *)
Definition failed {H} (e : Z) (k : kernel H) : res (Z * kernel H) := Ok (-1, set_vmm (set_errno e (k_vmm k)) k).

Section lseek.
Context {H : Type} `{!Allocator H}.
Context (k : kernel H) (t fd : Z) (c : tcb) (p : Z) (d : fd_t) (v : vnode).

Record opened : Prop := {
  op_task : tasks (k_sched k) !! t = Some c; op_t0 : t <> 0;
  op_slot : slot (used_fd c) fd = Some p; op_p0 : p <> 0;
  op_fd : k_fds k !! p = Some d; op_node : nodes (k_fs k) !! vfs_node d = Some v; op_n0 : vfs_node d <> 0;
}.

Lemma ld_task_ok s x (tc : tcb) : tasks s !! x = Some tc -> x <> 0 -> ld_task x s = Ok (tc, s).
Proof. intros E Hx. unfold ld_task. by rewrite E, (proj2 (Z.eqb_neq x 0)). Qed.

Lemma on_sched_get {A} (m : M sched A) a : m (k_sched k) = Ok (a, k_sched k) -> on_sched m k = Ok (a, k).
Proof. intros E. unfold on_sched, zoom. rewrite E. by destruct k. Qed.

Lemma get_fd_ok x i tc q : tasks (k_sched k) !! x = Some tc -> x <> 0 -> slot (used_fd tc) i = Some q ->
  get_fd x i k = Ok (q, k).
Proof.
  intros Ht Hx Hs. unfold get_fd, task. rewrite (bind_ok _ _ _ _ _ (on_sched_get _ _ (ld_task_ok _ _ _ Ht Hx))).
  unfold lift_opt. by rewrite Hs.
Qed.

Lemma ld_fd_ok x f : k_fds k !! x = Some f -> x <> 0 -> ld_fd x k = Ok (f, k).
Proof. intros E Hx. unfold ld_fd. by rewrite E, (proj2 (Z.eqb_neq x 0)). Qed.

Lemma fail_with_ok e : fail_with e k = failed e k.
Proof. done. Qed.

(** What is left of [do_lseek] once the descriptor is found. *)
Lemma lseek_opened offset whence : opened -> v_type v = Some VFS_FILE ->
  do_lseek t fd offset whence k =
  (if (whence =? SEEK_SET) || (whence =? SEEK_END) then
     if (offset <? 0) || (vn_size v <? offset) then failed ENXIO k
     else Ok (long offset, set_kfds (<[p := set_position offset d]> (k_fds k)) k)
   else if whence =? SEEK_CUR then
     if vn_size v <? position d +w offset then failed ENXIO k
     else Ok (long (position d +w offset), set_kfds (<[p := set_position (position d +w offset) d]> (k_fds k)) k)
   else failed EINVAL k).
Proof.
  intros [Ht Ht0 Hs Hp0 Hd Hv Hn0] Hf. unfold do_lseek. rewrite (bind_ok _ _ _ _ _ (get_fd_ok _ _ _ _ Ht Ht0 Hs)).
  rewrite (proj2 (Z.eqb_neq p 0)) by done. rewrite (bind_ok _ _ _ _ _ (ld_fd_ok _ _ Hd Hp0)).
  rewrite (bind_ok _ _ _ _ _ (node_ok _ _ _ Hv Hn0)). rewrite decide_False by naive_solver.
  assert (Hu : forall f, upd_fd p f k = Ok (tt, set_kfds (<[p := f d]> (k_fds k)) k)).
  { intros f. unfold upd_fd. by rewrite (bind_ok _ _ _ _ _ (ld_fd_ok _ _ Hd Hp0)). }
  repeat case_match; rewrite ?fail_with_ok; try done; by rewrite (bind_ok _ _ _ _ _ (Hu _)).
Qed.
End lseek.

Lemma long_small z : 0 <= z < 2 ^ 31 -> long z = z.
Proof. intros Hz. unfold long. destruct (Z.ltb_spec z 0x80000000); lia. Qed.

(** [mkdir] up to its checks. *)
Lemma mkdir_start {H} `{!Allocator H} (stack_bytes : list Z) (Hst : length stack_bytes = Z.to_nat MAX_FILENAME)
    (k : kernel H) cs nm pre name slash r p :
  tree_ok (k_fs k) cs nm -> is_Some (nodes (k_fs k) !! tree_root (k_fs k)) -> Forall comp_ok (pre ++ [name]) ->
  resolve cs nm (tree_root (k_fs k)) (pre ++ [name]) = (r, p) ->
  if negb (r =? 0) then do_mkdir stack_bytes (path_of (pre ++ [name]) slash) k = failed EEXIST k
  else if p =? 0 then do_mkdir stack_bytes (path_of (pre ++ [name]) slash) k = failed EINVAL k
  else forall v, nodes (k_fs k) !! p = Some v -> v_type v <> Some VFS_DIR /\ v_type v <> Some VFS_MNTPT ->
    do_mkdir stack_bytes (path_of (pre ++ [name]) slash) k = failed ENOTDIR k.
Proof.
  intros Hok Hroot Hall Hr.
  destruct (wp_run _ _ _ (namei_wp (k_fs k) cs nm 0 (pre ++ [name]) slash stack_bytes Hok Hroot Hall Hst)) as ([q o] & f & E & -> & Er).
  cbn [Z.eqb] in Er. rewrite Hr in Er. injection Er as -> ->.
  assert (E' : on_fs (namei_path_to_vfs_node 0 (path_of (pre ++ [name]) slash) stack_bytes) k = Ok ((r, Some p), k)).
  { unfold on_fs, zoom. rewrite E. by destruct k. }
  unfold do_mkdir. rewrite (bind_ok _ _ _ _ _ E'). cbn [fst snd]. destruct (Z.eqb_spec r 0) as [->|]; cbn [negb]; [|done].
  rewrite (bind_ok _ _ k p k eq_refl). destruct (Z.eqb_spec p 0) as [->|Hp]; [done|].
  intros v Hv Ht. rewrite (bind_ok _ _ _ _ _ (node_ok k _ _ Hv Hp)). by rewrite decide_True.
Qed.

(** ** A small kernel to run the calls on *)

#[local] Instance files_allocator : Allocator malloc_state := kmalloc_allocator 0xc0400000 demo_raw demo_bytes.

(** The root directory is the only block in use; a task has a descriptor on
    the file [f]. *)
Definition root_block : Z * malloc_state := Eval vm_compute in
  after (0, ms_boot) (kmalloc 0xc0400000 demo_raw SIZEOF_VNODE ms_boot).

Lemma root_block_rep : exists z, rep 0xc0400000 root_block.2 {[ root_block.1 := z ]}.
Proof.
  destruct (wp_run _ _ _ (kmalloc_boot_wp 0xc0400000 demo_raw SIZEOF_VNODE ltac:(unfold kernel_end_ok; lia)
    ltac:(unfold SIZEOF_VNODE; lia) ltac:(vm_compute; discriminate))) as (p & s & E & z & _ & _ & Hr).
  exists z. assert (E' : Ok (p, s) = Ok root_block) by (rewrite <- E; vm_compute; reflexivity).
  assert (E2 : (p, s) = root_block) by congruence. rewrite <- E2. exact Hr.
Qed.

Definition demo_fd_tcb : tcb :=
  mkTcb 2 0 0 1 [0; 0; 0x700] 0 0 0 0 0 0 0 0 RUNNING USER 0 0 zero_regs 0.

Definition file_sched : sched :=
  mkSched {[ 0x10 := demo_fd_tcb ]} (fun _ => empty_queue) 1 1 0 0x10 0x50 0 0x10 2.

Definition root_fs : fsys :=
  mkFsys {[ root_block.1 := demo_dir [SLASH] 0 0 0 0 0 ]} ∅ root_block.1 0 0 0 0.

Definition demo_kernel (f : fsys) : kernel malloc_state :=
  mkKernel (mkVmm root_block.2 ∅ ∅ ∅ demo_machine 0) ∅ (mkUreg 0 0 0) f {[ 0x700 := mkFd 100 2 0x40 0 0 ]} 0x700
    file_sched terminal_boot (mkKbd false false false false) (mkWait 0 0 0) false 0.

Lemma root_tree : tree_ok root_fs (fun_of ∅) (fun_of {[ root_block.1 := [SLASH] ]}).
Proof. apply tree_check. vm_compute. reflexivity. Qed.

Lemma root_owned x : is_Some (nodes root_fs !! x) -> x = root_block.1.
Proof. intros [n Hn]. cbn [nodes root_fs] in Hn. by apply lookup_singleton_Some in Hn as [<- _]. Qed.

(** ** Properties *)

(** [mkdir] of an absolute path.  An existing target is refused with EEXIST, a
    path whose directory does not exist with EINVAL, a parent that is not a
    directory with ENOTDIR, a parent whose driver makes no directories with
    EACCES, and nothing but [errno] changes.  Otherwise the
    new directory is a fresh heap block appended to the children of the
    parent. *)
Definition mkdir_outcome {H} `{!Allocator H} (k : kernel H) (cs nm : Z -> list Z) (A : gmap Z Z) (pre : list (list Z)) (name : list Z)
    (r : res (Z * kernel H)) : Prop :=
  match resolve cs nm (tree_root (k_fs k)) (pre ++ [name]) with
  | (0, 0) => r = failed EINVAL k
  | (0, p) => forall v, nodes (k_fs k) !! p = Some v ->
      if decide (v_type v <> Some VFS_DIR /\ v_type v <> Some VFS_MNTPT) then r = failed ENOTDIR k
      else match op_mkdir (vn_op v) with
           | None => r = failed EACCES k
           | Some _ => exists k' q z, r = Ok (0, k') /\
               added_directory (k_fs k) (k_fs k') cs nm p pre name q /\ A !! q = None /\
               al_rep (v_heap (k_vmm k')) (<[q := z]> A) /\ tree_and_heap k k'
           end
  | (_, _) => r = failed EEXIST k
  end.

Lemma mkdir_creates_directory {H} `{!Allocator H} (stack_bytes : list Z) (k : kernel H) (cs nm : Z -> list Z)
    (A : gmap Z Z) pre name (slash : bool) :
  length stack_bytes = Z.to_nat MAX_FILENAME -> tree_ok (k_fs k) cs nm ->
  is_Some (nodes (k_fs k) !! tree_root (k_fs k)) -> Forall comp_ok (pre ++ [name]) ->
  (length name + (if slash then 1 else 0) < Z.to_nat MAX_FILENAME)%nat ->
  nodes_owned k A -> al_room (v_heap (k_vmm k)) SIZEOF_VNODE ->
  mkdir_outcome k cs nm A pre name (do_mkdir stack_bytes (path_of (pre ++ [name]) slash) k).
Proof.
  intros Hst Hok Hroot Hall Hlen Hown Hroom. unfold mkdir_outcome. destruct (resolve _ _ _ _) as [r p] eqn:Hr.
  pose proof (mkdir_start stack_bytes Hst k cs nm pre name slash r p Hok Hroot Hall Hr) as Hs.
  destruct (Z.eq_dec r 0) as [->|Hr0]; [destruct (Z.eq_dec p 0) as [->|Hp0]|].
  - exact Hs.
  - rewrite Z.eqb_refl, (proj2 (Z.eqb_neq p 0) Hp0) in Hs. cbn [negb] in Hs.
    destruct p as [|p|p]; [done| |]; (intros v Hv; case_decide as Ht; [by apply (Hs v)|]);
      (apply Forall_app in Hall as [Hpre Hname]; apply Forall_cons in Hname as [Hname _]);
      (assert (Hvt : v_type v = Some VFS_DIR \/ v_type v = Some VFS_MNTPT)
        by (destruct (decide (v_type v = Some VFS_DIR)), (decide (v_type v = Some VFS_MNTPT)); tauto));
      (destruct (op_mkdir (vn_op v)) as [d|] eqn:Hop; [|by eapply do_mkdir_no_driver]);
      destruct (wp_run _ _ _ (do_mkdir_wp stack_bytes Hst k cs nm A pre name slash _ v d Hok Hroot Hpre Hname Hlen Hr Hp0 Hv
        Hvt Hop Hown Hroom)) as (r & k' & E & -> & q & z & Hq); by exists k', q, z.
  - rewrite (proj2 (Z.eqb_neq r 0) Hr0) in Hs. by destruct r, p.
Qed.

(** [mkdir /etc/] on a root that is empty; [mkdir /bin/x] there has no
    directory to go to. *)
Lemma mkdir_creates_directory_witness : exists k' q,
  do_mkdir (replicate 128 7) (path_of [[101; 116; 99]] true) (demo_kernel root_fs) = Ok (0, k') /\
  is_Some (nodes (k_fs k') !! (q : Z)) /\
  do_mkdir (replicate 128 7) (path_of [n_bin; n_sh] false) (demo_kernel root_fs) = failed EINVAL (demo_kernel root_fs).
Proof.
  destruct root_block_rep as [z Hrep].
  assert (Hown' : nodes_owned (demo_kernel root_fs) {[ root_block.1 := z ]}).
  { split; [exact Hrep|]. intros x Hx. apply lookup_insert_is_Some. left. symmetry. by apply root_owned. }
  assert (Hroom : al_room (v_heap (k_vmm (demo_kernel root_fs))) SIZEOF_VNODE) by (vm_compute; discriminate).
  pose proof (mkdir_creates_directory (replicate 128 7) (demo_kernel root_fs) (fun_of ∅) (fun_of {[ root_block.1 := [SLASH] ]})
    {[ root_block.1 := z ]} [] [101; 116; 99] true eq_refl root_tree ltac:(by eexists)
    ltac:(repeat constructor; apply comp_check; vm_compute; reflexivity) ltac:(cbn; unfold MAX_FILENAME; lia) Hown' Hroom) as H1. unfold mkdir_outcome in H1.
  pose proof (mkdir_creates_directory (replicate 128 7) (demo_kernel root_fs) (fun_of ∅) (fun_of {[ root_block.1 := [SLASH] ]})
    {[ root_block.1 := z ]} [n_bin] n_sh false eq_refl root_tree ltac:(by eexists)
    ltac:(repeat constructor; apply comp_check; vm_compute; reflexivity) ltac:(cbn; unfold MAX_FILENAME; lia) Hown' Hroom) as H2.
  unfold mkdir_outcome in H2. cbn [app] in H1, H2.
  replace (resolve _ _ _ [[101; 116; 99]]) with (0, root_block.1) in H1 by (vm_compute; reflexivity).
  replace (resolve _ _ _ [n_bin; n_sh]) with (0, 0) in H2 by (vm_compute; reflexivity).
  specialize (H1 (demo_dir [SLASH] 0 0 0 0 0) ltac:(vm_compute; reflexivity)). rewrite decide_False in H1 by (intros [Hd _]; by apply Hd).
  destruct H1 as (k' & q & z' & E & (n & _ & Hn & _) & _). exists k', q.
  split; [exact E|]. split; [by exists n|exact H2].
Defined.

(** C39: [lseek] on a file never puts the position outside the file: the
    position it asks for is the offset itself (for SEEK_SET, and for SEEK_END
    as well, which ignores the size) or the current position plus the offset,
    computed without wrap-around trouble; it is taken and returned when it
    lies between 0 and the size of the file, otherwise the call fails with
    ENXIO and changes nothing else.  Any other [whence] fails with EINVAL. *)
Theorem lseek_stays_in_file {H} `{!Allocator H} (k : kernel H) t fd c p d v offset whence :
  opened k t fd c p d v -> v_type v = Some VFS_FILE ->
  0 <= vn_size v < 2 ^ 31 -> 0 <= position d <= vn_size v -> - 2 ^ 31 <= offset < 2 ^ 31 ->
  do_lseek t fd offset whence k =
    if (whence =? SEEK_SET) || (whence =? SEEK_END) || (whence =? SEEK_CUR) then
      let target := if whence =? SEEK_CUR then position d + offset else offset in
      if (0 <=? target) && (target <=? vn_size v)
      then Ok (target, set_kfds (<[p := set_position target d]> (k_fds k)) k)
      else failed ENXIO k
    else failed EINVAL k.
Proof.
  intros Ho Hf Hs Hp Hoff. rewrite (lseek_opened k t fd c p d v offset whence Ho Hf). cbv zeta.
  destruct (Z.eqb_spec whence SEEK_CUR) as [->|Hc]; cbn [orb].
  - rewrite orb_true_r. cbn [SEEK_CUR SEEK_SET SEEK_END Z.eqb Pos.eqb orb].
    destruct (Z.ltb_spec (position d + offset) 0).
    + rewrite w32_borrow by lia. destruct (Z.leb_spec 0 (position d + offset)); [lia|]. cbn [andb].
      destruct (Z.ltb_spec (vn_size v) (position d + offset + W32)); [done|lia].
    + rewrite w32_small by lia. destruct (Z.leb_spec 0 (position d + offset)); [|lia]. cbn [andb].
      destruct (Z.ltb_spec (vn_size v) (position d + offset)), (Z.leb_spec (position d + offset) (vn_size v)); try lia; [done|].
      by rewrite long_small by lia.
  - rewrite orb_false_r. destruct (_ || _); [|done].
    destruct (Z.ltb_spec offset 0), (Z.leb_spec 0 offset); try lia; cbn [orb andb]; [done|].
    destruct (Z.ltb_spec (vn_size v) offset), (Z.leb_spec offset (vn_size v)); try lia; [done|].
    by rewrite long_small by lia.
Qed.

Lemma lseek_stays_in_file_witness :
  do_lseek 0x10 2 (-50) SEEK_CUR (demo_kernel demo_fs) =
    Ok (50, set_kfds {[ 0x700 := mkFd 50 2 0x40 0 0 ]} (demo_kernel demo_fs)) /\
  do_lseek 0x10 2 (-101) SEEK_CUR (demo_kernel demo_fs) = failed ENXIO (demo_kernel demo_fs).
Proof.
  assert (Ho : opened (demo_kernel demo_fs) 0x10 2 demo_fd_tcb 0x700 (mkFd 100 2 0x40 0 0) (demo_file n_sh 0x20 0 0))
    by (split; try discriminate; reflexivity).
  split.
  - rewrite (lseek_stays_in_file (demo_kernel demo_fs) 0x10 2 demo_fd_tcb 0x700 _ _ (-50) SEEK_CUR Ho); cbn; try lia; reflexivity.
  - rewrite (lseek_stays_in_file (demo_kernel demo_fs) 0x10 2 demo_fd_tcb 0x700 _ _ (-101) SEEK_CUR Ho); cbn; try lia; reflexivity.
Defined.
