(* ===== verification/FdSpec.v ===== *)
(** * The table of open files of a task

    [table_ok k c]: the table of the task [c] has its 256 entries, its counter
    counts those in use, and each entry in use is an open file on a node that
    exists, in one place of the table only.  Opening and closing keep it. *)

From S2P Require Import Prelude Dlist Pmm Kmalloc Heap Paging MmuSpec Vmm Vmalloc Klib Terminal Namei NameiSpec Sched SchedSpec Kernel Vfs Files FilesSpec.

#[local] Open Scope Z_scope.

(** The entries in use. *)
Definition in_use (l : list Z) : nat := length (List.filter (fun p => negb (p =? 0)) l).

Lemma in_use_insert l i p : l !! i = Some 0 -> p <> 0 -> in_use (<[i := p]> l) = S (in_use l).
Proof.
  unfold in_use. revert i. induction l as [|x l IH]; intros [|i] E Hp; cbn in *; try done.
  - injection E as ->. by rewrite (proj2 (Z.eqb_neq p 0)).
  - destruct (negb (x =? 0)); cbn; by rewrite IH.
Qed.

Lemma in_use_delete l i p : l !! i = Some p -> p <> 0 -> S (in_use (<[i := 0]> l)) = in_use l.
Proof.
  unfold in_use. revert i. induction l as [|x l IH]; intros [|i] E Hp; cbn in *; try done.
  - injection E as ->. by rewrite (proj2 (Z.eqb_neq p 0)).
  - specialize (IH i E Hp). destruct (x =? 0); [exact IH|exact (f_equal S IH)].
Qed.

Lemma in_use_le l : (in_use l <= length l)%nat.
Proof. unfold in_use. induction l as [|x l IH]; cbn; [lia|]. destruct (negb (x =? 0)); cbn; lia. Qed.

Section fd.
Context {H : Type} `{!Allocator H}.
Implicit Types (k : kernel H).

Record table_ok k (c : tcb) : Prop := {
  to_len : length (used_fd c) = MAX_FDS;
  to_ctr : fd_ctr c = Z.of_nat (in_use (used_fd c));
  to_file : forall i p, used_fd c !! i = Some p -> p <> 0 -> exists d, k_fds k !! p = Some d /\
    vfs_node d <> 0 /\ is_Some (nodes (k_fs k) !! vfs_node d);
  to_once : forall i j p, used_fd c !! i = Some p -> used_fd c !! j = Some p -> p <> 0 -> i = j;
}.

(** ** Rules *)

Lemma wp_task k t c Q : tasks (k_sched k) !! t = Some c -> t <> 0 -> Q c k -> wp (task t) Q k.
Proof.
  intros E Ht HQ. eapply wp_intro; [|exact HQ]. unfold task. by rewrite (on_sched_get k _ _ (ld_task_ok _ _ _ E Ht)).
Qed.

Definition put_tcb (t : Z) (c : tcb) k : kernel H := set_sched (set_tasks (<[t := c]> (tasks (k_sched k))) (k_sched k)) k.

Lemma wp_upd_tcb k t c f (Q : unit -> kernel H -> Prop) : tasks (k_sched k) !! t = Some c -> t <> 0 ->
  Q tt (put_tcb t (f c) k) -> wp (upd_tcb t f) Q k.
Proof. intros E Ht HQ. unfold upd_tcb, on_sched. apply wp_zoom. by eapply wp_upd_task. Qed.

Lemma wp_get_fd k t c i p Q : tasks (k_sched k) !! t = Some c -> t <> 0 -> 0 <= i -> used_fd c !! Z.to_nat i = Some p ->
  Q p k -> wp (get_fd t i) Q k.
Proof.
  intros E Ht Hi Hp HQ. eapply wp_intro; [|exact HQ]. apply (get_fd_ok k t i c p E Ht). unfold slot.
  by rewrite (proj2 (Z.leb_le 0 i)).
Qed.

Lemma wp_ld_fd k x f Q : k_fds k !! x = Some f -> x <> 0 -> Q f k -> wp (ld_fd x) Q k.
Proof. intros E Hx HQ. eapply wp_intro; [by apply ld_fd_ok|exact HQ]. Qed.

Lemma wp_upd_fd k x f g (Q : unit -> kernel H -> Prop) : k_fds k !! x = Some f -> x <> 0 ->
  Q tt (set_kfds (<[x := g f]> (k_fds k)) k) -> wp (upd_fd x g) Q k.
Proof. intros E Hx HQ. unfold upd_fd. apply wp_bind. eapply wp_ld_fd; [done..|]. by apply wp_mod. Qed.

Lemma wp_node k x v Q : nodes (k_fs k) !! x = Some v -> x <> 0 -> Q v k -> wp (node x) Q k.
Proof. intros E Hx HQ. eapply wp_intro; [by apply node_ok|exact HQ]. Qed.

Definition put_node (x : Z) (v : vnode) k : kernel H := set_fs (set_nodes (<[x := v]> (nodes (k_fs k))) (k_fs k)) k.

Lemma wp_upd_vnode k x v g (Q : unit -> kernel H -> Prop) : nodes (k_fs k) !! x = Some v -> x <> 0 ->
  Q tt (put_node x (g v) k) -> wp (upd_vnode x g) Q k.
Proof. intros E Hx HQ. unfold upd_vnode. apply wp_on_fs. by eapply wp_upd_node. Qed.

(** ** Opening *)

(** The first free entry behind the two standard ones. *)
Definition first_free (l : list Z) (i : nat) : Prop :=
  (2 <= i < MAX_FDS)%nat /\ l !! i = Some 0 /\ forall j p, (2 <= j < i)%nat -> l !! j = Some p -> p <> 0.

Lemma find_free_wp k t c i (Q : Z -> kernel H -> Prop) : tasks (k_sched k) !! t = Some c -> t <> 0 ->
  length (used_fd c) = MAX_FDS -> first_free (used_fd c) i -> Q (Z.of_nat i) k -> wp (_find_free_fd_num t) Q k.
Proof.
  intros Ht Ht0 Hlen (Hi & Hfree & Hbusy) HQ. unfold _find_free_fd_num. apply wp_bind.
  eapply (wp_loop _ (fun a k' => k' = k /\ 2 <= a <= Z.of_nat i) (fun a _ => Z.to_nat (Z.of_nat i - a))).
  - intros a k' [-> Ha]. destruct (lookup_lt_is_Some_2 (used_fd c) (Z.to_nat a)) as [p Hp]; [lia|].
    apply wp_bind. eapply wp_get_fd; [done|done|lia|done|].
    destruct (decide (a = Z.of_nat i)) as [->|Hne].
    + rewrite Nat2Z.id in Hp. rewrite Hfree in Hp. injection Hp as <-. cbn [Z.eqb negb andb]. apply wp_ret, wp_bind.
      eapply wp_get_fd; [done|done|lia|by rewrite Nat2Z.id|]. by apply wp_ret.
    + assert (p <> 0) by (apply (Hbusy (Z.to_nat a) p); [lia|done]).
      rewrite (proj2 (Z.eqb_neq p 0)), (proj2 (Z.ltb_lt a _)) by (done || (unfold MAX_FDS in *; lia)). cbn [negb andb].
      apply wp_ret. split; [split; [done|lia]|lia].
  - split; [done|lia].
  - unfold MAX_FDS in *. lia.
Qed.
(** Descriptors change their place in the list, never their file. *)
Definition same_file (d d' : fd_t) : Prop := position d' = position d /\ mode d' = mode d /\ vfs_node d' = vfs_node d.
Definition fds_kept (m m' : gmap Z fd_t) : Prop := forall x d, m !! x = Some d -> exists d', m' !! x = Some d' /\ same_file d d'.

#[global] Instance same_file_refl : Reflexive same_file.
Proof. done. Qed.
#[global] Instance same_file_trans : Transitive same_file.
Proof. intros a b c (?&?&?) (?&?&?). repeat split; congruence. Qed.
#[global] Instance fds_kept_refl : Reflexive fds_kept.
Proof. intros m x d E. by exists d. Qed.
#[global] Instance fds_kept_trans : Transitive fds_kept.
Proof. intros a b c H1 H2 x d E. destruct (H1 x d E) as (d1 & E1 & S1). destruct (H2 x d1 E1) as (d2 & E2 & S2). exists d2. split; [done|]. by etrans. Qed.

Lemma fds_kept_upd m x d d' : m !! x = Some d -> same_file d d' -> fds_kept m (<[x := d']> m).
Proof.
  intros E Hs y e Ey. destruct (decide (y = x)) as [->|Hne].
  - rewrite lookup_insert_eq. exists d'. split; [done|]. by simplify_eq.
  - rewrite lookup_insert_ne by done. by exists e.
Qed.

Lemma fds_kept_new m x d : m !! x = None -> fds_kept m (<[x := d]> m).
Proof. intros E y e Ey. rewrite lookup_insert_ne by congruence. by exists e. Qed.

(** The same descriptors, with the same files. *)
Definition plain (d : fd_t) : fd_t := set_fd_next 0 (set_fd_prev 0 d).
Definition fds_same (m m' : gmap Z fd_t) : Prop := plain <$> m' = plain <$> m.

#[global] Instance fds_same_refl : Reflexive fds_same.
Proof. done. Qed.
#[global] Instance fds_same_trans : Transitive fds_same.
Proof. unfold fds_same. intros a b c H1 H2. congruence. Qed.

Lemma fds_same_upd m x d d' : m !! x = Some d -> plain d' = plain d -> fds_same m (<[x := d']> m).
Proof.
  intros E Hd. unfold fds_same. rewrite fmap_insert, Hd, insert_id; [done|]. by rewrite lookup_fmap, E.
Qed.

Lemma fds_same_at m m' x d : fds_same m m' -> m !! x = Some d -> exists d', m' !! x = Some d' /\ plain d' = plain d.
Proof.
  intros Hm E. apply (f_equal (lookup x)) in Hm. rewrite !lookup_fmap, E in Hm. destruct (m' !! x) as [d'|]; [|done].
  exists d'. split; [done|]. cbn in Hm. congruence.
Qed.

Lemma fds_same_kept m m' : fds_same m m' -> fds_kept m m'.
Proof.
  intros Hm x d E. destruct (fds_same_at _ _ _ _ Hm E) as (d' & E' & Hd). exists d'. split; [done|].
  destruct d, d'. cbn in Hd. injection Hd as -> -> ->. done.
Qed.

Lemma fds_same_dom m m' x : fds_same m m' -> is_Some (m' !! x) <-> is_Some (m !! x).
Proof.
  intros Hm. apply (f_equal (lookup x)) in Hm. rewrite !lookup_fmap in Hm.
  destruct (m' !! x), (m !! x); done.
Qed.

Lemma fds_same_delete m m' x : fds_same m m' -> fds_same (delete x m) (delete x m').
Proof. intros Hm. unfold fds_same. rewrite !fmap_delete, Hm. done. Qed.

Lemma table_mono k k' c : fds_kept (k_fds k) (k_fds k') ->
  (forall x, is_Some (nodes (k_fs k) !! x) -> is_Some (nodes (k_fs k') !! x)) -> table_ok k c -> table_ok k' c.
Proof.
  intros Hf Hn [H1 H2 H3 H4]. split; [done|done| |done]. intros i p Hp Hp0.
  destruct (H3 i p Hp Hp0) as (d & Ed & Hd0 & Hd). destruct (Hf p d Ed) as (d' & Ed' & _ & _ & E). exists d'. rewrite E. auto.
Qed.

Lemma fd_add_wp k p d : k_fds k !! p = Some d -> p <> 0 -> (first_fd k = 0 \/ is_Some (k_fds k !! first_fd k)) ->
  wp (fd_add p) (fun _ k' => exists m, fds_same (k_fds k) m /\ k' = set_first_fd p (set_kfds m k)) k.
Proof.
  intros Ed Hp Hfirst. unfold fd_add. apply wp_bind, wp_get. destruct (Z.eqb_spec (first_fd k) 0) as [E0|E0].
  - apply wp_mod. exists (k_fds k). split; [done|]. by destruct k.
  - destruct Hfirst as [?|[f Ef]]; [done|]. apply wp_bind. eapply wp_upd_fd; [exact Ed|exact Hp|].
    assert (Hm1 : fds_same (k_fds k) (<[p := set_fd_next (first_fd k) d]> (k_fds k))) by by apply (fds_same_upd _ _ d).
    destruct (fds_same_at _ _ _ _ Hm1 Ef) as (f' & Ef' & _). apply wp_bind. eapply wp_upd_fd; [exact Ef'|exact E0|]. apply wp_mod.
    eexists. split; [|reflexivity]. etrans; [exact Hm1|]. by apply (fds_same_upd _ _ f').
Qed.

(** What a fresh table entry needs. *)
Definition fds_owned k (A : gmap Z Z) : Prop :=
  al_rep (v_heap (k_vmm k)) A /\ forall x, is_Some (k_fds k !! x) -> is_Some (A !! x).

Context (raw_fd : Z -> fd_t).

Definition opened_tcb (i : nat) (p : Z) (c : tcb) : tcb := set_fd_ctr (fd_ctr c +w 1) (set_used_fd (<[i := p]> (used_fd c)) c).

Lemma in_use_bound c k : table_ok k c -> 0 <= fd_ctr c <= 256.
Proof. intros Ht. rewrite (to_ctr _ _ Ht). pose proof (in_use_le (used_fd c)). rewrite (to_len _ _ Ht) in *. unfold MAX_FDS in *. lia. Qed.

Lemma opened_table k k' c i p d : table_ok k c -> first_free (used_fd c) i -> p <> 0 -> k_fds k !! p = None ->
  fds_kept (k_fds k) (k_fds k') -> (forall x, is_Some (nodes (k_fs k) !! x) -> is_Some (nodes (k_fs k') !! x)) ->
  k_fds k' !! p = Some d -> vfs_node d <> 0 -> is_Some (nodes (k_fs k') !! vfs_node d) -> table_ok k' (opened_tcb i p c).
Proof.
  intros Ht (Hi & Hfree & _) Hp Hnew Hk Hn Ed Hd0 Hd. pose proof (in_use_bound _ _ Ht) as Hb.
  destruct (table_mono k k' c Hk Hn Ht) as [H1 H2 H3 H4].
  assert (Hnone : forall j, used_fd c !! j <> Some p).
  { intros j Ej. destruct (to_file _ _ Ht j p Ej Hp) as (e & Ee & _). congruence. }
  assert (Hlt : (i < length (used_fd c))%nat) by (rewrite H1; lia).
  split; unfold opened_tcb; cbn [used_fd fd_ctr set_fd_ctr set_used_fd].
  - by rewrite length_insert.
  - rewrite w32_small by lia. rewrite (in_use_insert _ _ _ Hfree Hp), H2. lia.
  - intros j q Eq Hq. destruct (decide (j = i)) as [->|Hne].
    + rewrite list_lookup_insert_eq in Eq by done. injection Eq as <-. by exists d.
    + rewrite list_lookup_insert_ne in Eq by done. by apply (H3 j).
  - intros j l q Ej El Hq. destruct (decide (j = i)) as [->|Hj], (decide (l = i)) as [->|Hl]; try done.
    + rewrite list_lookup_insert_eq in Ej by done. rewrite list_lookup_insert_ne in El by done. injection Ej as <-. by destruct (Hnone l).
    + rewrite list_lookup_insert_eq in El by done. rewrite list_lookup_insert_ne in Ej by done. injection El as <-. by destruct (Hnone j).
    + rewrite list_lookup_insert_ne in Ej, El by done. by apply (H4 j l q).
Qed.
(** Task [t], with its block [c], opened [file] as number [i]; [p] is the
    new descriptor, a fresh block. *)
Record opens k t c i file flags A k' p : Prop := {
  os_p : p <> 0; os_new : k_fds k !! p = None;
  os_tasks : k_sched k' = set_tasks (<[t := opened_tcb i p c]> (tasks (k_sched k))) (k_sched k);
  os_fd : exists d, k_fds k' !! p = Some d /\ position d = 0 /\ mode d = flags /\ vfs_node d = file;
  os_kept : fds_kept (k_fds k) (k_fds k');
  os_owned : exists z, A !! p = None /\ fds_owned k' (<[p := z]> A);
}.

Lemma new_descriptor_wp k t c i file flags A : tasks (k_sched k) !! t = Some c -> t <> 0 -> table_ok k c ->
  first_free (used_fd c) i -> fds_owned k A -> al_room (v_heap (k_vmm k)) SIZEOF_FD ->
  (first_fd k = 0 \/ is_Some (k_fds k !! first_fd k)) ->
  wp (new_descriptor raw_fd t file flags) (fun r k' => r = Z.of_nat i /\ k_fs k' = k_fs k /\
    exists p, opens k t c i file flags A k' p) k.
Proof.
  intros Ht Ht0 Hok Hi [Hrep Hown] Hroom Hfirst. unfold new_descriptor, kmem_alloc, on_vm, on_heap. apply wp_bind, wp_zoom, wp_zoom.
  eapply wp_mono; [apply (al_malloc_wp _ A SIZEOF_FD Hrep); [unfold SIZEOF_FD; lia|exact Hroom]|].
  intros p h (z & Hp & HpA & _ & Hrep'). apply wp_bind, wp_mod. cbn [k_fds k_vmm set_vmm].
  assert (Hnew : k_fds k !! p = None).
  { destruct (k_fds k !! p) eqn:E; [|done]. destruct (Hown p ltac:(by eexists)). congruence. }
  set (d0 := mkFd 0 flags file _ _). assert (Hm1 : fds_kept (k_fds k) (<[p := d0]> (k_fds k))) by by apply fds_kept_new.
  apply wp_bind. eapply wp_mono; [apply (fd_add_wp _ p d0); [apply lookup_insert_eq|done|]|].
  { cbn. destruct Hfirst as [?|[f Ef]]; [by left|right]. destruct (Hm1 _ _ Ef) as (f' & Ef' & _). by eexists. }
  intros [] k1 (m & Hm & ->). cbn [k_fds set_kfds set_vmm] in Hm.
  assert (Hlen := to_len _ _ Hok). pose proof Hi as (Hi1 & Hi2 & Hi3).
  apply wp_bind. eapply (find_free_wp _ t c i); [done|done|done|done|].
  rewrite (proj2 (Z.ltb_ge (Z.of_nat i) 0)) by lia.
  apply wp_bind. unfold put_fd. eapply wp_upd_tcb; [done|done|]. apply wp_bind. eapply wp_upd_tcb; [apply lookup_insert_eq|done|].
  apply wp_ret. split; [done|]. split; [done|]. exists p.
  destruct (fds_same_kept _ _ Hm p d0 (lookup_insert_eq _ _ _)) as (d & Ed & E1 & E2 & E3).
  split; cbn; [done|done| |by exists d|etrans; [exact Hm1|by apply fds_same_kept]|].
  - rewrite Nat2Z.id, insert_insert_eq. done.
  - exists z. split; [done|]. split; [done|]. cbn. intros x Hx%(fds_same_dom _ _ _ Hm).
    change (is_Some (<[p:=d0]> (k_fds k) !! x)) in Hx. rewrite lookup_insert_is_Some' in Hx. rewrite lookup_insert_is_Some'.
    destruct Hx as [->|Hx]; [by left|right; by apply Hown].
Qed.

(** ** Closing *)

(** The links that [fd_remove] follows. *)
Definition unlinkable k (d : fd_t) : Prop :=
  if fd_prev d =? 0 then first_fd k <> 0 /\ is_Some (k_fds k !! first_fd k)
  else is_Some (k_fds k !! fd_prev d) /\ (fd_next d = 0 \/ is_Some (k_fds k !! fd_next d)).

Lemma fd_remove_wp k p d : k_fds k !! p = Some d -> p <> 0 -> unlinkable k d ->
  wp (fd_remove p) (fun _ k' => exists m f, fds_same (k_fds k) m /\ k' = set_first_fd f (set_kfds m k)) k.
Proof.
  intros Ed Hp Hl. unfold fd_remove, unlinkable in *. apply wp_bind. eapply wp_ld_fd; [done|done|].
  destruct (Z.eqb_spec (fd_prev d) 0) as [E0|E0].
  - destruct Hl as [Hf [f Ef]]. apply wp_bind, wp_bind, wp_get. eapply wp_upd_fd; [exact Ef|exact Hf|].
    assert (Hm : fds_same (k_fds k) (<[first_fd k := set_fd_prev 0 f]> (k_fds k))) by by apply (fds_same_upd _ _ f).
    destruct (fds_same_at _ _ _ _ Hm Ed) as (d' & Ed' & _). apply wp_bind. eapply wp_ld_fd; [exact Ed'|done|]. apply wp_mod. by eexists _, _.
  - destruct Hl as [[q Eq] Hn]. destruct (Z.eqb_spec (fd_next d) 0) as [En|En].
    + eapply wp_upd_fd; [exact Eq|exact E0|]. exists (<[fd_prev d := set_fd_next 0 q]> (k_fds k)), (first_fd k).
      split; [by apply (fds_same_upd _ _ q)|by destruct k].
    + destruct Hn as [?|[x Ex]]; [done|]. apply wp_bind. eapply wp_upd_fd; [exact Eq|exact E0|].
      assert (Hm : fds_same (k_fds k) (<[fd_prev d := set_fd_next (fd_next d) q]> (k_fds k))) by by apply (fds_same_upd _ _ q).
      destruct (fds_same_at _ _ _ _ Hm Ex) as (x' & Ex' & _). eapply wp_upd_fd; [exact Ex'|exact En|].
      exists (<[fd_next d := set_fd_prev (fd_prev d) x']> (<[fd_prev d := set_fd_next (fd_next d) q]> (k_fds k))), (first_fd k).
      split; [etrans; [exact Hm|by apply (fds_same_upd _ _ x')]|by destruct k].
Qed.

Definition closed_tcb (i : nat) (c : tcb) : tcb := set_fd_ctr (fd_ctr c -w 1) (set_used_fd (<[i := 0]> (used_fd c)) c).

Lemma closed_table k k' c i p : table_ok k c -> used_fd c !! i = Some p -> p <> 0 ->
  fds_kept (delete p (k_fds k)) (k_fds k') ->
  (forall x, is_Some (nodes (k_fs k) !! x) -> is_Some (nodes (k_fs k') !! x)) -> table_ok k' (closed_tcb i c).
Proof.
  intros Ht Ei Hp Hk Hn. pose proof (in_use_bound _ _ Ht) as Hb. destruct Ht as [H1 H2 H3 H4].
  assert (Hlt : (i < length (used_fd c))%nat) by by eapply lookup_lt_Some.
  assert (Hd := in_use_delete _ _ _ Ei Hp).
  split; unfold closed_tcb; cbn [used_fd fd_ctr set_fd_ctr set_used_fd].
  - by rewrite length_insert.
  - rewrite w32_small by lia. lia.
  - intros j q Eq Hq. destruct (decide (j = i)) as [->|Hne].
    + rewrite list_lookup_insert_eq in Eq by done. by injection Eq as <-.
    + rewrite list_lookup_insert_ne in Eq by done. destruct (H3 j q Eq Hq) as (d & Ed & Hd0 & Hnd).
      assert (Hqp : q <> p) by (intros ->; by apply Hne, (H4 j i p)).
      destruct (Hk q d) as (d' & Ed' & _ & _ & E); [by rewrite lookup_delete_ne|]. exists d'. rewrite E. auto.
  - intros j l q Ej El Hq. destruct (decide (j = i)) as [->|Hj], (decide (l = i)) as [->|Hl]; try done.
    + rewrite list_lookup_insert_eq in Ej by done. by injection Ej as <-.
    + rewrite list_lookup_insert_eq in El by done. by injection El as <-.
    + rewrite list_lookup_insert_ne in Ej, El by done. by apply (H4 j l q).
Qed.

Lemma wp_kmem_free k A p z Q : al_rep (v_heap (k_vmm k)) A -> A !! p = Some z ->
  (forall h, al_rep h (delete p A) -> Q tt (set_vmm (set_heap h (k_vmm k)) k)) -> wp (kmem_free p) Q k.
Proof.
  intros Hr Hp HQ. unfold kmem_free, on_vm, on_heap. apply wp_zoom, wp_zoom.
  eapply wp_mono; [by eapply al_free_wp|]. intros [] h Hh. by apply HQ.
Qed.

Lemma wp_get_kernel_task k i kt p Q : tasks (k_sched k) !! kernel_task (k_sched k) = Some kt -> kernel_task (k_sched k) <> 0 ->
  used_fd kt !! i = Some p -> Q p k -> wp (do kt <- get_ (fun k => kernel_task (k_sched k)); get_fd kt (Z.of_nat i)) Q k.
Proof. intros E1 E2 E3 HQ. apply wp_bind, wp_get. eapply wp_get_fd; [done|done|lia|by rewrite Nat2Z.id|done]. Qed.

(** Task [t] closed number [i], which was the descriptor [p]. *)
Record closes k t c i p A k' : Prop := {
  cs_tasks : k_sched k' = set_tasks (<[t := closed_tcb i c]> (tasks (k_sched k))) (k_sched k);
  cs_gone : k_fds k' !! p = None;
  cs_kept : fds_kept (delete p (k_fds k)) (k_fds k');
  cs_owned : fds_owned k' (delete p A);
  cs_nodes : forall x, is_Some (nodes (k_fs k) !! x) -> is_Some (nodes (k_fs k') !! x);
}.

Lemma do_close_wp k t c i p d v kt A : tasks (k_sched k) !! t = Some c -> t <> 0 -> table_ok k c -> fds_owned k A ->
  used_fd c !! i = Some p -> p <> 0 -> k_fds k !! p = Some d -> unlinkable k d ->
  nodes (k_fs k) !! vfs_node d = Some v -> is_Some (op_close (vn_op v)) ->
  tasks (k_sched k) !! kernel_task (k_sched k) = Some kt -> kernel_task (k_sched k) <> 0 ->
  (exists q, used_fd kt !! i = Some q /\ q <> p) ->
  wp (do_close t (Z.of_nat i)) (fun r k' => r = 0 /\ closes k t c i p A k') k.
Proof.
  intros Ht Ht0 Hok [Hrep Hown] Ei Hp Ed Hl Ev [op Hop] Hkt Hkt0 (q & Eq & Hq). unfold do_close.
  destruct (to_file _ _ Hok i p Ei Hp) as (d2 & Ed2 & Hd0 & _). assert (d2 = d) as -> by congruence.
  apply wp_bind. eapply wp_get_fd; [done|done|lia|by rewrite Nat2Z.id|]. rewrite (proj2 (Z.eqb_neq p 0)) by done.
  apply wp_bind, wp_get, wp_bind. eapply wp_get_fd; [done|done|lia|by rewrite Nat2Z.id|].
  rewrite (proj2 (Z.eqb_neq p q)) by done. apply wp_bind. eapply wp_ld_fd; [done|done|].
  apply wp_bind. unfold vfs_close. apply wp_bind. eapply wp_node; [done|done|]. rewrite Hop. apply wp_bind.
  eapply wp_upd_vnode; [done|done|]. apply wp_ret. cbn [Z.ltb Z.compare].
  apply wp_bind. eapply wp_mono; [apply (fd_remove_wp _ p d); [done|done|exact Hl]|].
  intros [] k1 (m & f & Hm & ->). cbn [k_fds put_node set_fs] in Hm.
  apply wp_bind. unfold put_fd. eapply wp_upd_tcb; [done|done|]. apply wp_bind. eapply wp_upd_tcb; [apply lookup_insert_eq|done|].
  apply wp_bind. unfold free_fd. destruct (Hown p ltac:(by eexists)) as [z Hz]. apply wp_bind. eapply wp_kmem_free; [exact Hrep|exact Hz|].
  intros h Hh. apply wp_mod, wp_ret. split; [done|]. split.
  - cbn. by rewrite Nat2Z.id, insert_insert_eq.
  - cbn. apply lookup_delete_eq.
  - cbn. by apply fds_same_kept, fds_same_delete.
  - split; [exact Hh|]. cbn. intros x [e Hx]. apply lookup_delete_Some in Hx as [Hne Hx].
    rewrite lookup_delete_ne by done. apply Hown, (fds_same_dom _ _ _ Hm). by eexists.
  - cbn. intros x Hx. rewrite lookup_insert_is_Some'. by right.
Qed.

(** A path that leads to a file. *)
Lemma resolve_file stack_bytes k cs nm comps slash file parent : length stack_bytes = Z.to_nat MAX_FILENAME ->
  tree_ok (k_fs k) cs nm -> is_Some (nodes (k_fs k) !! tree_root (k_fs k)) -> Forall comp_ok comps ->
  resolve cs nm (tree_root (k_fs k)) comps = (file, parent) ->
  on_fs (namei_path_to_vfs_node 0 (path_of comps slash) stack_bytes) k = Ok ((file, Some parent), k).
Proof.
  intros Hst Hok Hroot Hc Hr.
  destruct (wp_run _ _ _ (namei_wp (k_fs k) cs nm 0 comps slash stack_bytes Hok Hroot Hc Hst)) as (r & f & E & -> & Er).
  cbn [Z.eqb] in Er. rewrite Hr in Er. subst r. unfold on_fs, zoom. rewrite E. by destruct k.
Qed.

(** [open] of a path that leads to a file. *)
Lemma do_open_wp stack_bytes k t c i path flags file parent v A :
  on_fs (namei_path_to_vfs_node 0 path stack_bytes) k = Ok ((file, parent), k) -> file <> 0 ->
  nodes (k_fs k) !! file = Some v -> is_Some (op_open (vn_op v)) ->
  tasks (k_sched k) !! t = Some c -> t <> 0 -> table_ok k c ->
  first_free (used_fd c) i -> fds_owned k A -> al_room (v_heap (k_vmm k)) SIZEOF_FD ->
  (first_fd k = 0 \/ is_Some (k_fds k !! first_fd k)) ->
  wp (do_open raw_fd stack_bytes t path flags) (fun r k' => r = Z.of_nat i /\
    k_fs k' = k_fs (put_node file (set_fds (active_fds v +w 1) v) k) /\ exists p, opens k t c i file flags A k' p) k.
Proof.
  intros En Hf Ev [op Hop] Ht Ht0 Hok Hi Hown Hroom Hfirst. unfold do_open. apply wp_bind. eapply wp_intro; [exact En|].
  cbn [fst snd]. rewrite (proj2 (Z.eqb_neq file 0)) by done. apply wp_bind, wp_ret. apply wp_bind. unfold vfs_open.
  apply wp_bind. eapply wp_node; [done|done|]. rewrite Hop. apply wp_bind. eapply wp_upd_vnode; [done|done|]. apply wp_ret.
  cbn [Z.ltb Z.compare]. set (k1 := put_node file (set_fds (active_fds v +w 1) v) k).
  assert (Hok1 : table_ok k1 c).
  { apply (table_mono k k1 c); [done| |done]. intros x Hx. cbn. rewrite lookup_insert_is_Some'. by right. }
  eapply wp_mono; [by apply (new_descriptor_wp k1 t c i file flags A)|].
  intros r k' (-> & Hfs & p & [H1 H2 H3 H4 H5 H6]). split; [done|]. split; [exact Hfs|]. exists p. by split.
Qed.
End fd.

(** ** Properties *)

(** A standard descriptor, which the task has from the kernel's, is not
    closed: its entry stays, but the counter goes down. *)
Lemma do_close_standard {H} `{!Allocator H} (k : kernel H) t c i p kt : tasks (k_sched k) !! t = Some c -> t <> 0 ->
  used_fd c !! i = Some p -> p <> 0 -> tasks (k_sched k) !! kernel_task (k_sched k) = Some kt -> kernel_task (k_sched k) <> 0 ->
  used_fd kt !! i = Some p -> do_close t (Z.of_nat i) k = Ok (0, put_tcb t (set_fd_ctr (fd_ctr c -w 1) c) k).
Proof.
  intros Ht Ht0 Ei Hp Hkt Hkt0 Eq. assert (W : wp (do_close t (Z.of_nat i)) (fun r k' => r = 0 /\ k' = put_tcb t (set_fd_ctr (fd_ctr c -w 1) c) k) k).
  { unfold do_close. apply wp_bind. eapply wp_get_fd; [exact Ht|exact Ht0|lia|by rewrite Nat2Z.id|].
    rewrite (proj2 (Z.eqb_neq p 0) Hp). apply wp_bind, wp_get. apply wp_bind.
    eapply wp_get_fd; [exact Hkt|exact Hkt0|lia|by rewrite Nat2Z.id|]. rewrite Z.eqb_refl.
    apply wp_bind. eapply wp_upd_tcb; [exact Ht|exact Ht0|]. by apply wp_ret. }
  destruct (wp_run _ _ _ W) as (r & k' & E & -> & ->). exact E.
Qed.

Lemma low_counter {H} (k k' : kernel H) c i p : table_ok k c -> used_fd c !! i = Some p -> p <> 0 ->
  ~ table_ok k' (set_fd_ctr (fd_ctr c -w 1) c).
Proof.
  intros Hok Ei Hp [_ Hctr _ _]. cbn [fd_ctr used_fd set_fd_ctr] in Hctr. rewrite (to_ctr _ _ Hok) in Hctr.
  pose proof (in_use_delete _ _ _ Ei Hp). pose proof (in_use_le (used_fd c)) as Hle. rewrite (to_len _ _ Hok) in Hle.
  unfold MAX_FDS in Hle. rewrite w32_small in Hctr by lia. lia.
Qed.

(** C12: the table of open files of a task.  [open] of a path that leads to a
    file, while there is a free number, gives the smallest one above the
    standard two, with a new descriptor at position 0, and every table that
    was right is right: its counter counts the entries in use and every entry
    is an open file.  [close] of a number that is not a standard one, whose
    descriptor is linked into the list, frees the number and the descriptor;
    the caller's table is right again, and so is that of every task that does
    not have the same descriptor, while the table of a task that shares it, as
    a forked one does, is left with an entry that is no open file.  [close] of
    a standard number answers 0 and leaves the entry in the table, whose
    counter is then one too low. *)
Theorem descriptor_tables_stay_typed {H} `{!Allocator H} raw_fd (stack_bytes : list Z) (k : kernel H) t c A :
  tasks (k_sched k) !! t = Some c -> t <> 0 -> table_ok k c -> fds_owned k A ->
  (forall cs nm comps slash flags file parent v i, length stack_bytes = Z.to_nat MAX_FILENAME ->
     tree_ok (k_fs k) cs nm -> is_Some (nodes (k_fs k) !! tree_root (k_fs k)) -> Forall comp_ok comps ->
     resolve cs nm (tree_root (k_fs k)) comps = (file, parent) -> file <> 0 ->
     nodes (k_fs k) !! file = Some v -> is_Some (op_open (vn_op v)) -> first_free (used_fd c) i ->
     al_room (v_heap (k_vmm k)) SIZEOF_FD -> (first_fd k = 0 \/ is_Some (k_fds k !! first_fd k)) ->
     exists k' p, do_open raw_fd stack_bytes t (path_of comps slash) flags k = Ok (Z.of_nat i, k') /\
       opens k t c i file flags A k' p /\ table_ok k' (opened_tcb i p c) /\ forall c2, table_ok k c2 -> table_ok k' c2) /\
  (forall i p d v kt, used_fd c !! i = Some p -> p <> 0 -> k_fds k !! p = Some d -> unlinkable k d ->
     nodes (k_fs k) !! vfs_node d = Some v -> is_Some (op_close (vn_op v)) ->
     tasks (k_sched k) !! kernel_task (k_sched k) = Some kt -> kernel_task (k_sched k) <> 0 ->
     (exists q, used_fd kt !! i = Some q /\ q <> p) ->
     exists k', do_close t (Z.of_nat i) k = Ok (0, k') /\ closes k t c i p A k' /\ table_ok k' (closed_tcb i c) /\
       (forall c2, table_ok k c2 -> p ∉ used_fd c2 -> table_ok k' c2) /\ (forall c2, p ∈ used_fd c2 -> ~ table_ok k' c2)) /\
  (forall i p kt, used_fd c !! i = Some p -> p <> 0 ->
     tasks (k_sched k) !! kernel_task (k_sched k) = Some kt -> kernel_task (k_sched k) <> 0 -> used_fd kt !! i = Some p ->
     exists k', do_close t (Z.of_nat i) k = Ok (0, k') /\ tasks (k_sched k') !! t = Some (set_fd_ctr (fd_ctr c -w 1) c) /\
       ~ table_ok k' (set_fd_ctr (fd_ctr c -w 1) c)).
Proof.
  intros Ht Ht0 Hok Hown. split; [|split].
  - intros cs nm comps slash flags file parent v i Hst Htree Hroot Hcomps Hr Hf Hv Hop Hi Hroom Hfirst.
    destruct (wp_run _ _ _ (do_open_wp raw_fd stack_bytes k t c i (path_of comps slash) flags file (Some parent) v A
      ltac:(by eapply resolve_file) Hf Hv Hop Ht Ht0 Hok Hi Hown Hroom Hfirst)) as (r & k' & E & -> & Hfs & p & Ho).
    assert (Hn : forall x, is_Some (nodes (k_fs k) !! x) -> is_Some (nodes (k_fs k') !! x)).
    { intros x Hx. rewrite Hfs. cbn. rewrite lookup_insert_is_Some'. by right. }
    exists k', p. split; [exact E|]. split; [exact Ho|]. destruct Ho as [H1 H2 H3 (d & Ed & _ & _ & Hd) H5 _].
    split; [|intros c2; by apply table_mono].
    apply (opened_table k k' c i p d); try done; rewrite Hd; [done|]. apply Hn. by eexists.
  - intros i p d v kt Ei Hp Ed Hl Hv Hop Hkt Hkt0 Hq.
    destruct (wp_run _ _ _ (do_close_wp k t c i p d v kt A Ht Ht0 Hok Hown Ei Hp Ed Hl Hv Hop Hkt Hkt0 Hq)) as (r & k' & E & -> & Hc).
    exists k'. split; [exact E|]. split; [exact Hc|]. destruct Hc as [_ Hgone H3 _ H5].
    split; [by apply (closed_table k k' c i p)|]. split.
    2: { intros c2 [j Ej]%list_elem_of_lookup_1 Hok2. destruct (to_file _ _ Hok2 j p Ej Hp) as (e & Ee & _). congruence. }
    intros c2 [T1 T2 T3 T4] Hp2. split; [done|done| |done].
    intros j x Ex Hx. destruct (T3 j x Ex Hx) as (e & Ee & He0 & He).
    destruct (H3 x e) as (e' & Ee' & _ & _ & E'); [rewrite lookup_delete_ne; [done|]; intros <-; apply Hp2; by eapply list_elem_of_lookup_2|].
    exists e'. rewrite E'. auto.
  - intros i p kt Ei Hp Hkt Hkt0 Eq. eexists. split; [by apply (do_close_standard k t c i p kt)|].
    split; [apply lookup_insert_eq|]. by apply (low_counter k _ c i p).
Qed.

#[local] Instance fd_heap : Allocator malloc_state := kmalloc_allocator 0xc0400000 demo_raw demo_bytes.

(** A task with one open file, number 2. *)
Definition fd_demo_tcb : tcb := set_fd_ctr 1 (set_used_fd (<[2%nat := root_block.1]> (replicate MAX_FDS 0)) zero_tcb).

Definition fd_demo : kernel malloc_state :=
  mkKernel (mkVmm root_block.2 ∅ ∅ ∅ demo_machine 0) ∅ (mkUreg 0 0 0) demo_fs {[ root_block.1 := mkFd 100 2 0x40 0 0 ]} root_block.1
    (mkSched {[ 0x10 := fd_demo_tcb; 0x50 := zero_tcb ]} (fun _ => empty_queue) 1 1 0 0x10 0x50 0 0x10 2)
    terminal_boot (mkKbd false false false false) (mkWait 0 0 0) false 0.

Definition fd_demo_raw (_ : Z) : fd_t := mkFd 0 0 0 0 0.

Lemma fd_demo_table : table_ok fd_demo fd_demo_tcb.
Proof.
  assert (Hat : forall i p, used_fd fd_demo_tcb !! i = Some p -> p <> 0 -> i = 2%nat /\ p = root_block.1).
  { intros i p Ei Hp. change (used_fd fd_demo_tcb) with (<[2%nat := root_block.1]> (replicate MAX_FDS 0)) in Ei.
    destruct (decide (i = 2%nat)) as [->|Hne].
    - rewrite list_lookup_insert_eq in Ei by (rewrite length_replicate; unfold MAX_FDS; lia). by injection Ei as <-.
    - rewrite list_lookup_insert_ne in Ei by done. apply lookup_replicate in Ei as [-> _]. done. }
  split; [done|reflexivity| |].
  - intros i p Ei Hp. destruct (Hat i p Ei Hp) as [_ ->]. exists (mkFd 100 2 0x40 0 0).
    split; [apply lookup_singleton_eq|]. split; [done|]. by eexists.
  - intros i j p Ei Ej Hp. by rewrite (proj1 (Hat i p Ei Hp)), (proj1 (Hat j p Ej Hp)).
Qed.

Lemma descriptor_tables_stay_typed_witness :
  (exists k' p, do_open fd_demo_raw (replicate 128 7) 0x10 (path_of [n_bin; n_sh] false) 2 fd_demo = Ok (3, k') /\
     table_ok k' (opened_tcb 3 p fd_demo_tcb)) /\
  (exists k', do_close 0x10 2 fd_demo = Ok (0, k') /\ table_ok k' (closed_tcb 2 fd_demo_tcb)).
Proof.
  destruct root_block_rep as [z Hrep].
  assert (Hown : fds_owned fd_demo {[ root_block.1 := z ]}).
  { split; [exact Hrep|]. intros x [e Hx]. cbn [k_fds fd_demo] in Hx.
    apply lookup_singleton_Some in Hx as [<- _]. rewrite lookup_singleton_eq. by eexists. }
  destruct (descriptor_tables_stay_typed fd_demo_raw (replicate 128 7) fd_demo 0x10 fd_demo_tcb {[ root_block.1 := z ]}
    eq_refl ltac:(done) fd_demo_table Hown) as (Hopen & Hclose & _).
  split.
  - destruct (Hopen (fun_of demo_cm) (fun_of demo_nm) [n_bin; n_sh] false 2 0x40 0x20 (demo_file n_sh 0x20 0 0) 3%nat) as (k' & p & E & _ & Hok & _);
      try (vm_compute; reflexivity); [apply demo_tree|by eexists|repeat constructor; apply comp_check; vm_compute; reflexivity|done|by eexists| | |right; by eexists|].
    + split; [unfold MAX_FDS; lia|]. split; [reflexivity|]. intros j q Hj Eq. assert (j = 2%nat) as -> by lia. by injection Eq as <-.
    + vm_compute. discriminate.
    + exists k', p. split; [exact E|exact Hok].
  - destruct (Hclose 2%nat root_block.1 (mkFd 100 2 0x40 0 0) (demo_file n_sh 0x20 0 0) zero_tcb) as (k' & E & _ & Hok & _);
      try reflexivity; [done| |by eexists|done|exists 0; done|].
    + split; [done|by eexists].
    + exists k'. split; [exact E|exact Hok].
Defined.

(** A file opened after another and closed before it leaves the other's
    descriptor with a link to the block it gave back; closing the other
    follows the link. *)
Lemma close_newest_first_faults :
  let k1 := (after (0, fd_demo) (do_open fd_demo_raw (replicate 128 7) 0x10 (path_of [n_bin; n_sh] false) 2 fd_demo)).2 in
  let k2 := (after (0, k1) (do_close 0x10 3 k1)).2 in
  do_close 0x10 2 k2 = Fault.
Proof. vm_compute. reflexivity. Qed.
