(* ===== verification/Task.v ===== *)
(** * Tasks, signals, exit and fork
    ([task.c], [exit.c], [fork.c], [waitpid.c], [getpid.c] of
    [src/src/kernel/cpu/], [src/src/kernel/ipc/signal.c], [dev_stdin.c] and
    [read.c] of [src/src/kernel/vfs/], [brk.c] and [sbrk.c] of
    [src/src/kernel/memory/])

    Exiting destroys a task, which kills its children, which exits them, and
    switching to a task runs its signal handler, which may destroy a zombie:
    the routines are mutually recursive, and carry the depth of calls still
    allowed.  [context_switch] does not return, so the statements after a
    call that switches are not executed. *)

From S2P Require Import Prelude Dlist Pmm Heap Paging Vmm Vmalloc Klib Terminal Namei Sched Kernel Vfs Files.

#[local] Open Scope Z_scope.

Definition SIGKILL : Z := 1.
Definition SIGCHLD : Z := 4.
Definition MAX_TID : Z := UINT32_MAX.

Definition set_exit_code v t := mkTcb (task_id t) (kernel_stack t) v (fd_ctr t) (used_fd t) (t_mask t) (t_current t) (wait4 t) (t_parent t) (t_first_child t) (t_last_child t) (t_prev_sibling t) (t_next_sibling t) (t_state t) (t_priority t) (t_next t) (t_prev t) (t_regs t) (t_aspace t).
Definition set_signals m c t := mkTcb (task_id t) (kernel_stack t) (exit_code t) (fd_ctr t) (used_fd t) m c (wait4 t) (t_parent t) (t_first_child t) (t_last_child t) (t_prev_sibling t) (t_next_sibling t) (t_state t) (t_priority t) (t_next t) (t_prev t) (t_regs t) (t_aspace t).
Definition set_wait4 v t := mkTcb (task_id t) (kernel_stack t) (exit_code t) (fd_ctr t) (used_fd t) (t_mask t) (t_current t) v (t_parent t) (t_first_child t) (t_last_child t) (t_prev_sibling t) (t_next_sibling t) (t_state t) (t_priority t) (t_next t) (t_prev t) (t_regs t) (t_aspace t).
Definition set_t_parent v t := mkTcb (task_id t) (kernel_stack t) (exit_code t) (fd_ctr t) (used_fd t) (t_mask t) (t_current t) (wait4 t) v (t_first_child t) (t_last_child t) (t_prev_sibling t) (t_next_sibling t) (t_state t) (t_priority t) (t_next t) (t_prev t) (t_regs t) (t_aspace t).
Definition set_t_children f l t := mkTcb (task_id t) (kernel_stack t) (exit_code t) (fd_ctr t) (used_fd t) (t_mask t) (t_current t) (wait4 t) (t_parent t) f l (t_prev_sibling t) (t_next_sibling t) (t_state t) (t_priority t) (t_next t) (t_prev t) (t_regs t) (t_aspace t).
Definition set_t_prev_sibling v t := mkTcb (task_id t) (kernel_stack t) (exit_code t) (fd_ctr t) (used_fd t) (t_mask t) (t_current t) (wait4 t) (t_parent t) (t_first_child t) (t_last_child t) v (t_next_sibling t) (t_state t) (t_priority t) (t_next t) (t_prev t) (t_regs t) (t_aspace t).
Definition set_t_next_sibling v t := mkTcb (task_id t) (kernel_stack t) (exit_code t) (fd_ctr t) (used_fd t) (t_mask t) (t_current t) (wait4 t) (t_parent t) (t_first_child t) (t_last_child t) (t_prev_sibling t) v (t_state t) (t_priority t) (t_next t) (t_prev t) (t_regs t) (t_aspace t).
Definition set_regs v t := mkTcb (task_id t) (kernel_stack t) (exit_code t) (fd_ctr t) (used_fd t) (t_mask t) (t_current t) (wait4 t) (t_parent t) (t_first_child t) (t_last_child t) (t_prev_sibling t) (t_next_sibling t) (t_state t) (t_priority t) (t_next t) (t_prev t) v (t_aspace t).
(** The fields [task_new] fills in a cleared block. *)
Definition new_tcb (tid stack : Z) (prio : task_priority) (pd_ as_ : Z) : tcb :=
  mkTcb tid stack 0 0 (replicate MAX_FDS 0) 0 0 0 0 0 0 0 0 READY prio 0 0 (regs_set_pd pd_ zero_regs) as_.

Section task.
Context {H : Type} `{!Allocator H}.
Context (raw_fd : Z -> fd_t) (stack_bytes : list Z) (kern_pd_vaddr : Z).

Local Notation K := (K (H := H)).
Local Notation KC := (KC (H := H)).

Definition mod_sched (f : sched -> sched) : K unit := on_sched (mod_ f).
Definition get_sched {A} (f : sched -> A) : K A := on_sched (get_ f).

(** ** task.c *)

Definition _get_tid : K Z :=
  do old <- get_sched old_tid;
  if old =? MAX_TID then panic "[ERROR] End of tasks ID's!"
  else mod_sched (set_old_tid (old +w 1)) ;;; ret_ (old +w 1).

Definition _add_child (parent child : Z) : K unit :=
  do p <- task parent;
  if t_first_child p =? 0 then
    upd_tcb child (fun c => set_t_prev_sibling 0 (set_t_next_sibling 0 c)) ;;;
    upd_tcb parent (set_t_children child child)
  else
    upd_tcb (t_last_child p) (set_t_next_sibling child) ;;;
    upd_tcb child (set_t_prev_sibling (t_last_child p)) ;;;
    upd_tcb child (set_t_next_sibling 0) ;;;
    upd_tcb parent (fun p => set_t_children (t_first_child p) child p).

Definition _remove_child (child : Z) : K unit :=
  do c <- task child;
  if task_id c =? 1 then panic "[ERROR] Tried to kill init task"
  else
    let parent := t_parent c in
    let last_or_middle :=
      if t_next_sibling c =? 0 then
        upd_tcb parent (fun p => set_t_children (t_first_child p) (t_prev_sibling c) p) ;;;
        when negb (t_prev_sibling c =? 0) then_ upd_tcb (t_prev_sibling c) (set_t_next_sibling 0)
      else
        upd_tcb (t_prev_sibling c) (set_t_next_sibling (t_next_sibling c)) ;;;
        upd_tcb (t_next_sibling c) (set_t_prev_sibling (t_prev_sibling c)) in
    if t_prev_sibling c =? 0 then
      upd_tcb parent (fun p => set_t_children (t_next_sibling c) (t_last_child p) p) ;;;
      if negb (t_next_sibling c =? 0) then upd_tcb (t_next_sibling c) (set_t_prev_sibling 0)
      else last_or_middle
    else last_or_middle.

Definition task_new (prio : task_priority) (aspace_ : Z) : K Z :=
  do new <- kmem_alloc SIZEOF_TCB;
  mod_sched (fun s => set_tasks (<[new := zero_tcb]> (tasks s)) s) ;;;
  do tid <- _get_tid;
  do stack <- on_vma (vmalloc 4096 MAPPED);
  do a <- on_vm (ld_as aspace_);
  upd_tcb new (fun _ => new_tcb tid (stack +w 0x1000) prio (pd a) aspace_) ;;;
  do root <- get_sched task_tree_root;
  (if root =? 0 then
     upd_tcb new (set_t_parent 0) ;;; mod_sched (set_tree_root new)
   else
     do cur <- get_sched actual_task;
     upd_tcb new (set_t_parent cur) ;;; _add_child cur new) ;;;
  ret_ new.

(** [context_switch]: the page directory and the kernel stack of the task;
    control leaves the kernel. *)
Definition context_switch {A} (t : Z) : KC A :=
  do c <- task t;
  memory (mod_ (Paging.set_cr3 (Sched.cr3 (t_regs c)))) ;;;
  mod_ (set_tss (kernel_stack c)) ;;;
  ret_ (Left Switched).

Definition ready_if_running (t : Z) : K unit :=
  do c <- task t;
  when bool_decide (t_state c = RUNNING) then_ upd_tcb t (set_t_state READY).

(** The end of [task_destroy]: the block and everything it owns. *)
Definition release_task (t : Z) : K unit :=
  _remove_child t ;;;
  do c <- task t;
  on_vma (vfree (kernel_stack c -w 0x1000)) ;;;
  on_vm (vmm_aspace_destroy (t_aspace c)) ;;;
  memory (pg_destroy_directory (Sched.cr3 (t_regs c))) ;;;
  kmem_free t ;;;
  mod_sched (fun s => set_tasks (delete t (tasks s)) s).

(** Descriptors are closed until the counter says there are none. *)
Definition close_all (t : Z) : K unit :=
  do _ <- loop (S MAX_FDS) (fun fd =>
    do c <- task t;
    if (0 <? fd_ctr c) && (fd <? Z.of_nat MAX_FDS) then
      do p <- get_fd t fd;
      (when negb (p =? 0) then_ (do _ <- do_close t fd; ret_ tt)) ;;;
      ret_ (inl (fd + 1))
    else ret_ (inr fd)) 0;
  ret_ tt.

Fixpoint do_exit (n : nat) (t status : Z) : KC unit :=
  match n with
  | O => hang
  | S n =>
      do c <- task t;
      let parent := t_parent c in
      on_sched (sched_remove t) ;;;
      upd_tcb t (set_exit_code status) ;;;
      do! _ <- (if task_id c =? 1
                then do next <- on_sched sched_get_next_task; task_switch_to n next
                else returns (ret_ tt));
      close_all t ;;;
      do p <- task parent;
      do waited <- (if wait4 p =? 0 then ret_ false
                    else do w <- task (wait4 p); ret_ (task_id w =? task_id c));
      if waited : bool then
        upd_tcb t (set_t_state ZOMBIE) ;;;
        do! _ <- sig_send n parent SIGCHLD;
        do r <- on_sched (sched_wake_task (task_id p));
        do! _ <- (match r with Some higher => task_switch_to n higher | None => returns (ret_ tt) end);
        do next <- on_sched sched_get_next_task;
        task_switch_to n next
      else
        do! _ <- task_destroy n t;
        do next <- on_sched sched_get_next_task;
        task_switch_to n next
  end
with task_destroy (n : nat) (t : Z) : KC unit :=
  match n with
  | O => hang
  | S n =>
      do c <- task t;
      do! _ <- kill_children n (t_first_child c);
      returns (release_task t)
  end
with kill_children (n : nat) (tmp : Z) : KC unit :=
  match n with
  | O => hang
  | S n =>
      if tmp =? 0 then returns (ret_ tt)
      else
        do c <- task tmp;
        do! _ <- do_exit n tmp SIGKILL;
        kill_children n (t_next_sibling c)
  end
with sig_send (n : nat) (dst signal : Z) : KC Z :=
  match n with
  | O => hang
  | S n =>
      do d <- task dst;
      if Z.land (t_mask d) signal =? 0 then returns (ret_ 0)
      else if signal =? SIGKILL then do! _ <- do_exit n dst 143; returns (ret_ 0)
      else if signal =? SIGSEGV then do! _ <- do_exit n dst 139; returns (ret_ 0)
      else if signal =? SIGCHLD then
        returns (upd_tcb dst (fun d => set_signals (t_mask d) (Z.lor (t_current d) signal) d) ;;; ret_ 0)
      else returns (fail_with EINVAL)
  end
with sig_handler (n : nat) (t : Z) : KC unit :=
  match n with
  | O => hang
  | S n =>
      do c <- task t;
      if negb (Z.land (t_current c) SIGCHLD =? 0) then
        do w <- task (wait4 c);
        upd_tcb t (fun c => set_regs (regs_set_retval (exit_code w) (t_regs c)) c) ;;;
        do! _ <- task_destroy n (wait4 c);
        returns (upd_tcb t (fun c => set_signals (Z.lxor (t_mask c) SIGCHLD) (Z.lxor (t_current c) SIGCHLD) c))
      else returns (ret_ tt)
  end
with task_switch_to (n : nat) (t : Z) : KC unit :=
  match n with
  | O => hang
  | S n =>
      do cur <- get_sched actual_task;
      ready_if_running cur ;;;
      upd_tcb t (set_t_state RUNNING) ;;;
      do! _ <- sig_handler n t;
      mod_sched (set_actual t) ;;;
      do c <- task t;
      if task_id c =? 0 then panic "[DEBUG] End of all tasks"
      else context_switch t
  end.

(** Nothing to run: interrupts on, the timer's masked, until one makes a
    task runnable. *)
Definition task_switch (n : nat) : KC unit :=
  do cur <- get_sched actual_task;
  ready_if_running cur ;;;
  do a <- task cur;
  do next <- (if t_next a =? 0 then on_sched sched_get_next_task else ret_ (t_next a));
  do kern <- get_sched kernel_task;
  if (t_next a =? 0) && (next =? kern) then
    mod_ (set_irq0 true) ;;; ret_ (Left Idle)
  else
    upd_tcb next (set_t_state RUNNING) ;;;
    do! _ <- sig_handler n next;
    mod_sched (set_actual next) ;;;
    context_switch next.

(** One round of the idle loop, after an interrupt. *)
Definition idle_step (n : nat) : KC unit :=
  do running <- get_sched running_tasks;
  if 0 <? running then mod_ (set_irq0 false) ;;; task_switch n
  else ret_ (Left Idle).

(** The tail call of [sched_add_task] and [sched_set_state]. *)
Definition preempt (n : nat) (r : option Z) : KC unit :=
  match r with Some t => task_switch_to n t | None => returns (ret_ tt) end.

Definition exit_ (n : nat) (status : Z) : KC unit := do cur <- get_sched actual_task; do_exit n cur status.

(** ** scheduler.c: sched_init *)

Definition sched_init (raw_tcb : tcb) : K unit :=
  mod_sched (set_queues (fun _ => empty_queue)) ;;;
  mod_sched (set_counts 0 0 0) ;;;
  do kern <- kmem_alloc SIZEOF_TCB;
  mod_sched (fun s => set_tasks (<[kern := raw_tcb]> (tasks s)) s) ;;;
  do stack <- on_vma (vmalloc 4096 MAPPED);
  upd_tcb kern (fun c => mkTcb 0 (stack +w 0x1000) (exit_code c) (fd_ctr c) (used_fd c) (t_mask c) (t_current c) (wait4 c)
    (t_parent c) (t_first_child c) (t_last_child c) (t_prev_sibling c) (t_next_sibling c) (t_state c) OS 0 (t_prev c)
    (regs_set_stack_pointer (stack +w 0x1000) (t_regs c)) (t_aspace c)) ;;;
  mod_sched (fun s => set_next_to_run 0 (set_actual kern (set_kernel_task kern s))).

(** ** getpid.c, waitpid.c, fork.c *)

Definition getpid : K Z := do cur <- get_sched actual_task; do c <- task cur; ret_ (task_id c).

Definition getppid : K Z :=
  do cur <- get_sched actual_task;
  do c <- task cur;
  if negb (t_parent c =? 0) then do p <- task (t_parent c); ret_ (task_id p) else ret_ 0.

Definition do_waitpid (n : nat) (t pid : Z) : KC Z :=
  do tcb_ <- on_sched (sched_get_tcb pid);
  if tcb_ =? 0 then returns (fail_with ESRCH)
  else
    upd_tcb t (set_wait4 tcb_) ;;;
    upd_tcb t (fun c => set_signals (Z.lor (t_mask c) SIGCHLD) (t_current c) c) ;;;
    do c <- task t;
    do r <- on_sched (sched_sleep_task (task_id c));
    do! _ <- preempt n r;
    do! _ <- task_switch n;
    returns (ret_ 0).

(** The first [fd_ctr] descriptors in use are shared with the child. *)
Fixpoint fork_fds (i : nat) (src dst : list Z) (left : Z) : list Z :=
  match src, dst with
  | s :: src, d :: dst =>
      if (0 <? left) && (Nat.ltb 0 i) then
        if negb (s =? 0) then s :: fork_fds (pred i) src dst (left - 1)
        else d :: fork_fds (pred i) src dst left
      else d :: dst
  | _, _ => dst
  end.

Definition do_fork (n : nat) (t : Z) : KC Z :=
  do c <- task t;
  do new_as <- on_vm (vmm_aspace_create kern_pd_vaddr (t_aspace c));
  do new_task <- task_new (t_priority c) new_as;
  do c <- task t;
  upd_tcb new_task (fun d => set_regs (regs_fork (t_regs c) (t_regs d)) d) ;;;
  upd_tcb new_task (fun d => set_signals (t_mask c) (t_current d) d) ;;;
  upd_tcb new_task (fun d => set_used_fd (fork_fds MAX_FDS (used_fd c) (used_fd d) (fd_ctr c)) d) ;;;
  upd_tcb new_task (set_fd_ctr (fd_ctr c)) ;;;
  do r <- on_sched (sched_add_task new_task);
  do! _ <- preempt n r;
  upd_tcb new_task (fun d => set_regs (regs_set_retval 0 (t_regs d)) d) ;;;
  do d <- task new_task;
  returns (ret_ (task_id d)).

(** ** dev_stdin.c *)

Definition _stdin_read (n : nat) (size buffer : Z) : KC Z :=
  do cur <- get_sched actual_task;
  mod_ (set_wait (mkWait cur size buffer)) ;;;
  do c <- task cur;
  do r <- on_sched (sched_sleep_task (task_id c));
  do! _ <- preempt n r;
  do! _ <- task_switch n;
  returns (ret_ 0).

Definition dev_stdin_recall (n : nat) (input_line : list Z) (size : Z) : KC unit :=
  do w <- get_ wait4input;
  do c <- task (w_t w);
  let len := if w_size w <? size then w_size w else size in
  do r <- on_vm (vmm_copy_data_to (t_aspace c) (w_buffer w) input_line len);
  upd_tcb (w_t w) (fun c => set_regs (regs_set_retval (if r <? 0 then UINT32_MAX else len) (t_regs c)) c) ;;;
  do e <- get_ (fun k => v_errno (k_vmm k));
  (when 0 <? e then_ upd_tcb (w_t w) (fun c => set_regs (regs_set_errno e (t_regs c)) c)) ;;;
  mod_ (set_wait (mkWait 0 0 0)) ;;;
  do r <- on_sched (sched_wake_task (task_id c));
  preempt n r.

(** [keyboard_isr] with the terminal and the reader behind it. *)
Definition keyboard_interrupt (n : nat) (scancode : Z) : KC unit :=
  do kbd <- get_ k_kbd;
  let '(kbd', key) := keyboard_isr scancode kbd in
  mod_ (set_kbd kbd') ;;;
  match key with
  | None => returns (ret_ tt)
  | Some ch =>
      do line <- on_term (terminal_putchar_from_keyboard ch);
      match line with
      | None => returns (ret_ tt)
      | Some (l, len) => dev_stdin_recall n l len
      end
  end.

(** ** Reading ([vfs_read] of vfs.c, [read.c]) *)

Definition vfs_read (n : nat) (nd offset size buffer : Z) : KC Z :=
  do v <- node nd;
  do! ret <- (match op_read (vn_op v) with
              | Some Ramfs => returns (ramfs_read nd offset size buffer)
              | Some Tarfs => returns (tarfs_read nd offset size buffer)
              | Some DevZero => returns (_zero_read size buffer)
              | Some DevStdin => _stdin_read n size buffer
              | Some DevStdout => returns fault
              | None => returns (ret_ (-1))
              end);
  returns (read_result (if ret =? -1 then -1 else long ret)).

Definition do_read (n : nat) (t fd buff size : Z) : KC Z :=
  do p <- get_fd t fd;
  if p =? 0 then returns (fail_with EBADF)
  else
    do d <- ld_fd p;
    if negb (Z.land (mode d) O_WRONLY =? 0) then returns (fail_with EPERM)
    else
      do kt <- get_sched kernel_task;
      do default_fd <- get_fd kt fd;
      do! _ <- (if p =? default_fd then vfs_read n (vfs_node d) (position d) size buff else returns (ret_ 0));
      do src <- on_vma (vmalloc size MAPPED);
      do d <- ld_fd p;
      do! read_data <- vfs_read n (vfs_node d) (position d) size src;
      if read_data <? 0 then returns (on_vma (vfree src) ;;; ret_ (-1))
      else
        do c <- task t;
        do bytes <- memory (ld_bytes src (Z.to_nat read_data));
        do r <- on_vm (vmm_copy_data_to (t_aspace c) buff bytes read_data);
        if r <? 0 then returns (on_vma (vfree src) ;;; ret_ (-1))
        else
          upd_fd p (fun d => set_position (position d +w read_data) d) ;;;
          returns (on_vma (vfree src) ;;; ret_ read_data).

(** ** brk.c, sbrk.c *)

Definition do_brk (t addr : Z) : K Z :=
  do c <- task t;
  do r <- on_vm (vmm_set_brk (t_aspace c) addr);
  ret_ (if r =? 0 then -1 else 0).

Definition do_sbrk (t inc : Z) : K Z :=
  do c <- task t;
  do a <- on_vm (ld_as (t_aspace c));
  if inc =? 0 then ret_ (data_end a) else on_vm (vmm_set_brk (t_aspace c) (data_end a +w inc)).
End task.
