(* ===== verification/TaskSpec.v ===== *)
(** * Correctness of task exit, and of waking readers

    [noret m]: the routine [m] never returns to its caller.  Exiting a task
    whose parent waits for it: the queues before and after, and who is told. *)

From S2P Require Import Prelude Dlist Pmm Kmalloc Heap Paging Vmm Vmalloc Klib Terminal TerminalSpec Namei NameiSpec Sched SchedSpec Kernel Vfs Files FilesSpec Task.

#[local] Open Scope Z_scope.

(** ** Routines that do not return *)

Section noret.
Context {H : Type}.

Definition noret {A} (m : KC (H := H) A) : Prop := forall k a k', m k <> Ok (Returns a, k').

Lemma noret_bind {A B} (m : K (H := H) A) (f : A -> KC B) : (forall a, noret (f a)) -> noret (bind_ m f).
Proof.
  intros Hf k b k' E. apply bind_inv in E as (a & k1 & _ & E). by apply (Hf a k1 b k').
Qed.

Lemma noret_call {A B} (m : KC (H := H) A) (f : A -> KC B) : (forall a, noret (f a)) -> noret (call m f).
Proof. intros Hf. apply noret_bind. intros [a|l]; [apply Hf|]. by intros k b k' E. Qed.

Lemma noret_if {A} (b : bool) (m1 m2 : KC (H := H) A) : noret m1 -> noret m2 -> noret (if b then m1 else m2).
Proof. by destruct b. Qed.

Lemma noret_left {A} l : noret (A := A) (ret_ (Left l)).
Proof. by intros k a k' E. Qed.

Lemma noret_hang {A} : noret (A := A) hang.
Proof. by intros k a k' E. Qed.

Lemma noret_panic {A} msg : noret (A := A) (panic msg).
Proof. by intros k a k' E. Qed.

(** What is written after a call that does not return is not executed. *)
Lemma call_noret {A} (m : KC (H := H) A) (f : A -> KC A) k : noret m -> call m f k = m k.
Proof.
  intros Hm. unfold call, bind_. destruct (m k) as [[[a|l] k']| | |] eqn:E; try done. by destruct (Hm k a k').
Qed.

Lemma noret_first {A B} (m : KC (H := H) A) (f : A -> KC B) : noret m -> noret (call m f).
Proof.
  intros Hm k b k' E. apply bind_inv in E as ([a|l] & k1 & E1 & E2); [by apply (Hm k a k1)|by injection E2].
Qed.
End noret.

Create HintDb noret.
#[export] Hint Resolve noret_left noret_hang noret_panic : noret.
Ltac noret :=
  repeat match goal with
  | |- noret (call _ _) => apply noret_call; intros ?
  | |- noret (bind_ _ _) => apply noret_bind; intros ?
  | |- noret (if _ then _ else _) => apply noret_if
  | |- _ => solve [eauto with noret]
  end.

Section exits.
Context {H : Type} `{!Allocator H}.

Lemma context_switch_noret {A} t : noret (context_switch (H := H) (A := A) t).
Proof. unfold context_switch. noret. Qed.
#[local] Hint Resolve context_switch_noret : noret.

Lemma task_switch_to_noret n t : noret (task_switch_to (H := H) n t).
Proof. destruct n; cbn [do_exit task_switch_to]; noret.
Qed.
#[local] Hint Resolve task_switch_to_noret : noret.

Lemma do_exit_noret n t status : noret (do_exit (H := H) n t status).
Proof. destruct n; cbn [do_exit task_switch_to]; noret.
Qed.
End exits.

(** ** The queues, when a task that is in none changes *)

(** What the queues depend on. *)
Definition vital (t : tcb) := (t_prev t, t_next t, t_state t, t_priority t, task_id t).

Lemma sched_ok_ext s s' qs : sched_ok s qs -> queues s' = queues s ->
  running_tasks s' = running_tasks s -> sleeping_tasks s' = sleeping_tasks s ->
  (forall k x, x ∈ qs k -> vital <$> tasks s' !! x = vital <$> tasks s !! x) -> sched_ok s' qs.
Proof.
  intros [Hqs Hr Hs Hid] Eq Er Es Hv.
  assert (Hold : forall k x tx, x ∈ qs k -> tasks s' !! x = Some tx -> exists t0, tasks s !! x = Some t0 /\ vital tx = vital t0).
  { intros k x tx Hx Htx. specialize (Hv k x Hx). rewrite Htx in Hv. destruct (tasks s !! x) as [t0|]; [|done].
    exists t0. split; [done|]. cbn [fmap option_fmap option_map] in Hv. congruence. }
  split; [|congruence|congruence|].
  - intros k. destruct (Hqs k) as [H1 H2 H3 H4 H5]. split; rewrite ?Eq; try done.
    + eapply dlist_frame; [|exact H4]. intros x Hx. specialize (Hv k x Hx). unfold links.
      destruct (tasks s' !! x) as [tx|], (tasks s !! x) as [t0|]; cbn in *; try done; unfold vital in Hv; congruence.
    + intros p t Hp Ht. destruct (Hold k p t Hp Ht) as (t0 & Ht0 & E). destruct (H5 p t0 Hp Ht0) as [Hz Hq].
      unfold vital in E. unfold _set_queue in *. replace (t_state t) with (t_state t0) by congruence.
      by replace (t_priority t) with (t_priority t0) by congruence.
  - intros k k' p q tp tq Hp Hq Htp Htq E. destruct (Hold _ _ _ Hp Htp) as (p0 & Hp0 & Ep), (Hold _ _ _ Hq Htq) as (q0 & Hq0 & Eq0).
    apply (Hid k k' p q p0 q0); try done. unfold vital in *. congruence.
Qed.

Lemma sched_ok_upd s qs x t t' : sched_ok s qs -> tasks s !! x = Some t -> vital t' = vital t \/ (forall k, x ∉ qs k) ->
  sched_ok (set_tasks (<[x := t']> (tasks s)) s) qs.
Proof.
  intros Hok Ht Hx. apply (sched_ok_ext s); try done. intros k y Hy. cbn [tasks set_tasks].
  rewrite lookup_insert. case_decide as E; [|done]. subst y. rewrite Ht.
  destruct Hx as [Hx|Hx]; [cbn [fmap option_fmap option_map]; by rewrite Hx|by destruct (Hx k)].
Qed.

(** Leaving the scheduler. *)
Record removed_task (s s' : sched) : Prop := {
  rv_core : forall x, core <$> tasks s' !! x = core <$> tasks s !! x;
  rv_rest : actual_task s' = actual_task s /\ kernel_task s' = kernel_task s /\ next_to_run s' = next_to_run s /\
    task_tree_root s' = task_tree_root s /\ old_tid s' = old_tid s;
  rv_total : total_tasks s' = total_tasks s -w 1;
}.

Lemma counts_same s qs a b c : sched_ok s qs -> b = running_tasks s -> c = sleeping_tasks s -> sched_ok (set_counts a b c s) qs.
Proof. intros Hok -> ->. by apply (sched_ok_ext s). Qed.

(** The counts follow the queues when one task leaves. *)
Lemma counts_removed s qs p t l1 l2 : sched_ok s qs -> qs (_set_queue t) = l1 ++ p :: l2 -> t_state t <> ZOMBIE ->
  let qs' := upd_q qs (_set_queue t) (l1 ++ l2) in
  (if decide (t_state t = WAITING) then running_tasks s else running_tasks s -w 1) =
    Z.of_nat (length (qs' OsQ) + length (qs' UserQ)) mod W32 /\
  (if decide (t_state t = WAITING) then sleeping_tasks s -w 1 else sleeping_tasks s) =
    Z.of_nat (length (qs' SleepQ)) mod W32.
Proof.
  intros Hok Hqs Hz. cbn zeta. set (k := _set_queue t) in *. unfold upd_q.
  assert (Hl : length (qs k) = (length (l1 ++ l2) + 1)%nat) by (rewrite Hqs, !length_app; cbn; lia).
  destruct (home_cases t Hz) as [[Hst Hk]|[Hst Hk]]; fold k in Hk.
  - rewrite !(decide_True (P := t_state t = WAITING)) by done. rewrite Hk in *.
    rewrite (decide_True (P := SleepQ = SleepQ)), !decide_False by done. split; [apply Hok|].
    rewrite (so_sleeping _ _ Hok), Hl. apply counter_pred.
  - rewrite !(decide_False (P := t_state t = WAITING)) by (destruct Hst; congruence). split.
    + rewrite (so_running _ _ Hok). destruct k; [| |done].
      * rewrite decide_True, decide_False, Hl by done.
        replace (_ + 1 + _)%nat with (length (l1 ++ l2) + length (qs UserQ) + 1)%nat by lia. apply counter_pred.
      * rewrite decide_False, decide_True, Hl, Nat.add_assoc by done. apply counter_pred.
    + rewrite decide_False by congruence. apply Hok.
Qed.

(** Identifiers that identify still do on a part of the queues. *)
Lemma ids_sub s s' qs (qs' : qid -> list Z) : sched_ok s qs -> (forall x, core <$> tasks s' !! x = core <$> tasks s !! x) ->
  (forall j x, x ∈ qs' j -> x ∈ qs j) ->
  forall j j' x y tx ty, x ∈ qs' j -> y ∈ qs' j' -> tasks s' !! x = Some tx -> tasks s' !! y = Some ty ->
  task_id tx = task_id ty -> x = y.
Proof.
  intros Hok Hc Hsub j j' x y tx ty Hx Hy Htx Hty E'.
  pose proof (Hc x) as Hcx. pose proof (Hc y) as Hcy. rewrite Htx in Hcx. rewrite Hty in Hcy.
  destruct (tasks s !! x) as [x0|] eqn:Ex, (tasks s !! y) as [y0|] eqn:Ey; try done. cbn in Hcx, Hcy.
  destruct (core_home x0 tx ltac:(congruence)) as (_ & _ & Hx1 & _).
  destruct (core_home y0 ty ltac:(congruence)) as (_ & _ & Hy1 & _).
  eapply (so_ids _ _ Hok j j' x y x0 y0); try done; [by apply Hsub|by apply Hsub|congruence].
Qed.

Lemma sched_remove_wp s qs p t l1 l2 : sched_ok s qs -> tasks s !! p = Some t -> qs (_set_queue t) = l1 ++ p :: l2 ->
  wp (sched_remove p) (fun _ s' => sched_ok s' (upd_q qs (_set_queue t) (l1 ++ l2)) /\ removed_task s s') s.
Proof.
  intros Hok Ht Hqs. set (k := _set_queue t) in *. assert (Hpk : p ∈ qs k) by (rewrite Hqs; in_tac).
  destruct (member_task s qs (so_qs _ _ Hok) k p Hpk) as (t0 & Ht0 & Hp0 & Hz & _). simplify_eq.
  destruct (counts_removed s qs p t l1 l2 Hok Hqs Hz) as [Hrun Hslp]. fold k in Hrun, Hslp.
  unfold sched_remove. srun. rewrite decide_False by done.
  set (s1 := set_counts _ _ _ _). apply wp_bind.
  set (b := if decide (t_state t = WAITING) then _ else _) in Hrun. set (c := if decide (t_state t = WAITING) then _ else _) in Hslp.
  set (s2 := set_counts (total_tasks s -w 1) b c s).
  apply (wp_intro _ _ _ tt s2); [unfold s2, b, c; by case_decide|].
  eapply wp_mono; [apply (remove_wp s2 qs p t l1 l2); [by apply counts_ok, Hok|exact Ht|exact Hqs]|].
  intros [] s' [Hqs' [Hc Hr]]. fold k in Hqs'.
  pose proof (f_equal running_tasks Hr) as E1. pose proof (f_equal sleeping_tasks Hr) as E2. cbn in E1, E2.
  split.
  - split; [exact Hqs'|by rewrite E1|by rewrite E2|].
    apply (ids_sub s s' qs _ Hok Hc). intros j x. unfold upd_q. destruct (decide (j = k)) as [->|_]; [|tauto].
    rewrite Hqs. in_tac.
  - pose proof (f_equal actual_task Hr) as F1. pose proof (f_equal kernel_task Hr) as F2. pose proof (f_equal next_to_run Hr) as F3.
    pose proof (f_equal task_tree_root Hr) as F4. pose proof (f_equal old_tid Hr) as F5. pose proof (f_equal total_tasks Hr) as F6.
    cbn in F1, F2, F3, F4, F5, F6. split; [exact Hc|done|done].
Qed.

(** ** Running the code on the tasks of a kernel *)

Section run.
Context {H : Type} `{!Allocator H}.
Implicit Types (k : kernel H) (s : sched).

Lemma set_sched_id k : set_sched (k_sched k) k = k.
Proof. by destruct k. Qed.

Lemma on_sched_ok {A} (m : M sched A) s k a s' : m s = Ok (a, s') -> on_sched m (set_sched s k) = Ok (a, set_sched s' k).
Proof. intros E. unfold on_sched, zoom. cbn [k_sched set_sched]. by rewrite E. Qed.

Lemma task_ok s k x c : tasks s !! x = Some c -> x <> 0 -> task x (set_sched s k) = Ok (c, set_sched s k).
Proof. intros E Hx. apply on_sched_ok, ld_task_ok; done. Qed.

Definition put_task (x : Z) (c : tcb) (s : sched) : sched := set_tasks (<[x := c]> (tasks s)) s.

Lemma upd_tcb_ok s k x c f : tasks s !! x = Some c -> x <> 0 ->
  upd_tcb x f (set_sched s k) = Ok (tt, set_sched (put_task x (f c) s) k).
Proof. intros E Hx. apply on_sched_ok. unfold upd_task. by rewrite (bind_ok _ _ _ _ _ (ld_task_ok _ _ _ E Hx)). Qed.

Lemma get_fd_run s k x c i q : tasks s !! x = Some c -> x <> 0 -> slot (used_fd c) i = Some q ->
  get_fd x i (set_sched s k) = Ok (q, set_sched s k).
Proof. intros. by eapply get_fd_ok. Qed.

Lemma put_put x c c' s : put_task x c' (put_task x c s) = put_task x c' s.
Proof. unfold put_task. cbn [tasks set_tasks]. by rewrite insert_insert_eq. Qed.

Lemma put_same x c s : tasks s !! x = Some c -> put_task x c s = s.
Proof. intros E. unfold put_task. rewrite insert_id by done. by destruct s. Qed.

(** The descriptors of [c] are those every task starts with. *)
Definition default_fds (c kc : tcb) : Prop :=
  length (used_fd c) = MAX_FDS /\ length (used_fd kc) = MAX_FDS /\
  forall i p, used_fd c !! i = Some p -> p <> 0 -> used_fd kc !! i = Some p.

(** Closing them only counts. *)
Lemma close_all_default s k t c kc : tasks s !! t = Some c -> t <> 0 ->
  tasks s !! kernel_task s = Some kc -> kernel_task s <> 0 -> default_fds c kc ->
  exists n, close_all t (set_sched s k) = Ok (tt, set_sched (put_task t (set_fd_ctr n c) s) k).
Proof.
  intros Ht Ht0 Hk Hk0 (Hl & Hlk & Hd).
  assert (Hwp : wp (close_all t) (fun _ k' => exists n, k' = set_sched (put_task t (set_fd_ctr n c) s) k) (set_sched s k)).
  { unfold close_all. apply wp_bind.
    apply (wp_loop _ (fun fd k' => 0 <= fd <= 256 /\ exists n, k' = set_sched (put_task t (set_fd_ctr n c) s) k)
             (fun fd _ => Z.to_nat (256 - fd))).
    2: { split; [lia|]. exists (fd_ctr c). replace (set_fd_ctr (fd_ctr c) c) with c by by destruct c. by rewrite put_same. }
    2: { unfold MAX_FDS. lia. }
    intros fd k' (Hfd & n & ->). set (c1 := set_fd_ctr n c). set (s1 := put_task t c1 s).
    assert (Ht1 : tasks s1 !! t = Some c1) by apply lookup_insert_eq.
    apply wp_bind. eapply wp_intro; [by apply (task_ok s1)|].
    destruct (Z.ltb_spec 0 (fd_ctr c1)); cbn [andb]; [|apply wp_ret, wp_ret; by exists n].
    destruct (Z.ltb_spec fd (Z.of_nat MAX_FDS)); [|apply wp_ret, wp_ret; by exists n].
    assert (Hp : exists p, used_fd c !! Z.to_nat fd = Some p) by (apply lookup_lt_is_Some; unfold MAX_FDS in *; lia).
    destruct Hp as [p Hp].
    assert (Hslot : forall d : tcb, used_fd d !! Z.to_nat fd = Some p -> slot (used_fd d) fd = Some p).
    { intros d E. unfold slot. destruct (Z.leb_spec 0 fd); [done|lia]. }
    apply wp_bind. eapply wp_intro; [by apply (get_fd_run s1 k t c1 fd p), Hslot|].
    apply wp_bind. destruct (Z.eqb_spec p 0) as [->|Hp0]; cbn [negb].
    { apply wp_ret, wp_ret. split; [|unfold MAX_FDS in *; lia]. split; [unfold MAX_FDS in *; lia|by exists n]. }
    assert (Hk1 : exists kc1, tasks s1 !! kernel_task s1 = Some kc1 /\ used_fd kc1 !! Z.to_nat fd = Some p).
    { cbn. destruct (decide (t = kernel_task s)) as [E|E].
      - exists c1. rewrite <- E, lookup_insert_eq. split; [done|exact Hp].
      - exists kc. rewrite lookup_insert_ne by done. split; [done|by apply Hd]. }
    destruct Hk1 as (kc1 & Hk1 & Hpk). apply wp_bind. unfold do_close.
    apply wp_bind. eapply wp_intro; [by apply (get_fd_run s1 k t c1 fd p), Hslot|].
    rewrite (proj2 (Z.eqb_neq p 0) Hp0). apply wp_bind, wp_get.
    apply wp_bind. eapply wp_intro; [by apply (get_fd_run s1 k _ kc1 fd p), Hslot|].
    rewrite Z.eqb_refl. apply wp_bind. eapply wp_intro; [by apply (upd_tcb_ok s1 k t c1)|].
    apply wp_ret, wp_ret, wp_ret. split; [|unfold MAX_FDS in *; lia]. split; [unfold MAX_FDS in *; lia|].
    exists (n -w 1). unfold s1. by rewrite put_put. }
  destruct (wp_run _ _ _ Hwp) as ([] & k' & E & n & ->). by exists n.
Qed.
End run.

(** ** Exit *)

Section exit.
Context {H : Type} `{!Allocator H}.
Context (k : kernel H) (qs : qid -> list Z) (t : Z) (c kc : tcb) (l1 l2 : list Z) (status : Z).

(** The running task [t], queued and not the first one, calls exit with
    only the descriptors every task has. *)
Record exiting : Prop := {
  ex_ok : sched_ok (k_sched k) qs;
  ex_task : tasks (k_sched k) !! t = Some c;
  ex_queue : qs (_set_queue c) = l1 ++ t :: l2;
  ex_run : _set_queue c <> SleepQ;
  ex_actual : actual_task (k_sched k) = t;
  ex_tid : task_id c <> 1;
  ex_kern : tasks (k_sched k) !! kernel_task (k_sched k) = Some kc;
  ex_kern0 : kernel_task (k_sched k) <> 0;
  ex_fds : default_fds c kc;
}.
Hypothesis (Hex : exiting).

(** What is left of [do_exit] once the task is out of the queues. *)
Definition exit_tail (n : nat) : KC (H := H) unit :=
  do p <- task (t_parent c);
  do waited <- (if wait4 p =? 0 then ret_ false
                else do w <- task (wait4 p); ret_ (task_id w =? task_id c));
  if waited : bool then
    upd_tcb t (set_t_state ZOMBIE) ;;;
    do! _ <- sig_send n (t_parent c) SIGCHLD;
    do r <- on_sched (sched_wake_task (task_id p));
    do! _ <- (match r with Some higher => task_switch_to n higher | None => returns (ret_ tt) end);
    do next <- on_sched sched_get_next_task;
    task_switch_to n next
  else
    do! _ <- task_destroy n t;
    do next <- on_sched sched_get_next_task;
    task_switch_to n next.

Let home := _set_queue c.

Lemma exiting_outside : t <> 0 /\ forall j, t ∉ upd_q qs home (l1 ++ l2) j.
Proof.
  destruct Hex as [Hok Ht Hq _ _ _ _ _ _]. fold home in Hq. split.
  { destruct (member_task (k_sched k) qs (so_qs _ _ Hok) home t) as (? & _ & ? & _); [rewrite Hq; in_tac|done]. }
  intros j. unfold upd_q. destruct (decide (j = home)) as [->|Hj].
  - destruct (qo_dl _ _ _ (so_qs _ _ Hok home)) as [_ Hnd]. rewrite Hq in Hnd. by apply NoDup_skip in Hnd as [? _].
  - intros Hin. apply Hj. eapply (one_queue _ qs (so_qs _ _ Hok)); [exact Hin|]. rewrite Hq. in_tac.
Qed.

Lemma exit_prefix n : exists s1 c1, do_exit (S n) t status k = exit_tail n (set_sched s1 k) /\
  sched_ok s1 (upd_q qs home (l1 ++ l2)) /\ tasks s1 !! t = Some c1 /\ exit_code c1 = status /\
  t_priority c1 = t_priority c /\ task_id c1 = task_id c /\ t_parent c1 = t_parent c /\
  (forall x, x <> t -> core <$> tasks s1 !! x = core <$> tasks (k_sched k) !! x) /\
  actual_task s1 = t /\ kernel_task s1 = kernel_task (k_sched k) /\ next_to_run s1 = next_to_run (k_sched k) /\
  exists m, core c1 = core (set_fd_ctr m (set_exit_code status c)).
Proof.
  destruct Hex as [Hok Ht Hq Hrun Hact Htid Hkt Hk0 Hfds]. set (s := k_sched k) in *.
  destruct exiting_outside as [Ht0 Hout].
  assert (Ek : k = set_sched s k) by by destruct k.
  destruct (wp_run _ _ _ (sched_remove_wp s qs t c l1 l2 Hok Ht Hq)) as ([] & s0 & E0 & Hok0 & [Hc0 (A0 & K0 & N0 & _) _]).
  pose proof (Hc0 t) as Hct. rewrite Ht in Hct. destruct (tasks s0 !! t) as [c0|] eqn:Ht'; [|done]. cbn in Hct.
  assert (Hcore : core c0 = core c) by congruence.
  set (s1 := put_task t (set_exit_code status c0) s0).
  assert (Hkc1 : exists kc1, tasks s1 !! kernel_task s1 = Some kc1 /\ default_fds (set_exit_code status c0) kc1).
  { assert (Hu : used_fd c0 = used_fd c) by exact (f_equal used_fd Hcore).
    destruct Hfds as (F1 & F2 & F3). cbn. destruct (decide (t = kernel_task s0)) as [E|E].
    - exists (set_exit_code status c0). rewrite <- E, lookup_insert_eq. unfold default_fds. cbn. by rewrite Hu.
    - rewrite lookup_insert_ne by done. pose proof (Hc0 (kernel_task s0)) as Hck. rewrite K0 in *. rewrite Hkt in Hck.
      destruct (tasks s0 !! kernel_task s) as [kc0|]; [|done]. exists kc0. split; [done|]. cbn in Hck.
      assert (Hckc : core kc0 = core kc) by congruence. assert (Hku : used_fd kc0 = used_fd kc) by exact (f_equal used_fd Hckc).
      unfold default_fds. cbn. by rewrite Hu, Hku. }
  destruct Hkc1 as (kc1 & Hkc1 & Hd1).
  destruct (close_all_default s1 k t (set_exit_code status c0) kc1) as [m Em]; [apply lookup_insert_eq|done|done|..|exact Hd1|].
  { cbn. by rewrite K0. }
  exists (put_task t (set_fd_ctr m (set_exit_code status c0)) s0), (set_fd_ctr m (set_exit_code status c0)).
  split; [|split_and!].
  - rewrite Ek at 1. cbn [do_exit]. rewrite (bind_ok _ _ _ _ _ (task_ok s k t c Ht Ht0)).
    rewrite (bind_ok _ _ _ _ _ (on_sched_ok _ s k _ _ E0)).
    rewrite (bind_ok _ _ _ _ _ (upd_tcb_ok s0 k t c0 _ Ht' Ht0)). fold s1.
    destruct (Z.eqb_spec (task_id c) 1); [done|].
    rewrite (call_returns _ _ _ tt (set_sched s1 k)) by done. rewrite (bind_ok _ _ _ _ _ Em). unfold s1. by rewrite put_put.
  - apply (sched_ok_upd s0 _ t c0); [done|done|by right].
  - apply lookup_insert_eq.
  - done.
  - exact (f_equal t_priority Hcore).
  - exact (f_equal task_id Hcore).
  - exact (f_equal t_parent Hcore).
  - intros x Hx. cbn. rewrite lookup_insert_ne by done. apply Hc0.
  - cbn. congruence.
  - exact K0.
  - exact N0.
  - exists m. exact (f_equal (fun x => set_fd_ctr m (set_exit_code status x)) Hcore).
Qed.
End exit.

(** The run queue of a task's priority. *)
Definition run_queue (c : tcb) : qid := if decide (t_priority c = OS) then OsQ else UserQ.

Section wait.
Context {H : Type} `{!Allocator H}.
Context (k : kernel H) (qs : qid -> list Z) (t : Z) (c kc pt : tcb) (l1 l2 m1 m2 : list Z) (status : Z).
Hypotheses (Hex : exiting k qs t c kc l1 l2)
  (Hp : tasks (k_sched k) !! t_parent c = Some pt) (Hsleep : qs SleepQ = m1 ++ t_parent c :: m2)
  (Hmask : Z.land (t_mask pt) SIGCHLD <> 0).

Let p := t_parent c.
Let qs1 := upd_q qs (_set_queue c) (l1 ++ l2).
Let after_switch (n : nat) : KC (H := H) unit :=
  if prio_gt (t_priority pt) (t_priority c) then task_switch_to n p
  else do next <- on_sched sched_get_next_task; task_switch_to n next.

Lemma parent_asleep : p <> 0 /\ p <> t /\ t_state pt = WAITING /\ _set_queue pt = SleepQ.
Proof.
  destruct (member_task (k_sched k) qs (so_qs _ _ (ex_ok _ _ _ _ _ _ _ Hex)) SleepQ p) as (pt' & Hp' & Hp0 & Hz & Hq);
    [rewrite Hsleep; in_tac|]. assert (pt' = pt) as -> by (unfold p in *; congruence). split; [done|]. split.
  - intros E. apply (ex_run _ _ _ _ _ _ _ Hex). pose proof (ex_task _ _ _ _ _ _ _ Hex) as Ht. rewrite <- E in Ht. unfold p in *.
    assert (pt = c) as <- by congruence. done.
  - split; [|done]. by destruct (home_cases pt Hz) as [[? _]|[_ ?]].
Qed.

(** The scheduler at the moment the parent is woken: the exiting task is a
    zombie and the signal is in the parent's set. *)
Definition signalled (s3 : sched) (c1 p1 : tcb) : Prop :=
  sched_ok s3 qs1 /\ tasks s3 !! t = Some (set_t_state ZOMBIE c1) /\ core p1 = core pt /\
  tasks s3 !! p = Some (set_signals (t_mask p1) (Z.lor (t_current p1) SIGCHLD) p1) /\
  exit_code c1 = status /\ t_priority c1 = t_priority c /\ actual_task s3 = t /\
  (forall x, x <> t -> x <> p -> core <$> tasks s3 !! x = core <$> tasks (k_sched k) !! x) /\
  next_to_run s3 = next_to_run (k_sched k) /\ exists m, core c1 = core (set_fd_ctr m (set_exit_code status c)).

Lemma exit_signals n : wait4 pt = t -> exists s3 c1 p1, signalled s3 c1 p1 /\
  do_exit (S (S n)) t status k =
    (do r <- on_sched (sched_wake_task (task_id p1));
     do! _ <- (match r with Some higher => task_switch_to (S n) higher | None => returns (ret_ tt) end);
     do next <- on_sched sched_get_next_task;
     task_switch_to (S n) next) (set_sched s3 k).
Proof.
  intros Hw. destruct parent_asleep as (Hp0 & Hpt & Hst & Hpq).
  destruct (exit_prefix k qs t c kc l1 l2 status Hex (S n)) as
    (s1 & c1 & E & Hok1 & Hc1 & Hcode & Hprio & Hid & _ & Hoth & Hact & _ & Hnext & Hc1c).
  rewrite E. clear E. pose proof (Hoth p Hpt) as Hcp. rewrite (Hp : tasks (k_sched k) !! p = Some pt) in Hcp.
  destruct (tasks s1 !! p) as [p1|] eqn:Hp1; [|done]. cbn in Hcp. assert (Hcore : core p1 = core pt) by congruence. clear Hcp.
  destruct (exiting_outside k qs t c kc l1 l2 Hex) as [Ht0 Hout].
  assert (Hw1 : wait4 p1 = t) by (rewrite <- Hw; exact (f_equal wait4 Hcore)).
  assert (Hmask1 : t_mask p1 = t_mask pt) by exact (f_equal t_mask Hcore).
  set (s2 := put_task t (set_t_state ZOMBIE c1) s1).
  assert (Hp2 : tasks s2 !! p = Some p1) by (cbn; by rewrite lookup_insert_ne).
  set (p2 := set_signals (t_mask p1) (Z.lor (t_current p1) SIGCHLD) p1). set (s3 := put_task p p2 s2).
  exists s3, c1, p1. split; [split_and!; try done|].
  - apply (sched_ok_upd s2 _ p p1); [|done|by left]. apply (sched_ok_upd s1 _ t c1); [exact Hok1|done|by right].
  - cbn. rewrite lookup_insert_ne by done. apply lookup_insert_eq.
  - apply lookup_insert_eq.
  - intros x Hxt Hxp. cbn. rewrite !lookup_insert_ne by done. by apply Hoth.
  - unfold exit_tail. fold p. rewrite (bind_ok _ _ _ _ _ (task_ok s1 k p p1 Hp1 Hp0)). rewrite Hw1, (proj2 (Z.eqb_neq t 0) Ht0).
    assert (Ewait : (do w <- task t; ret_ (task_id w =? task_id c)) (set_sched s1 k) = Ok (true, set_sched s1 k)).
    { rewrite (bind_ok _ _ _ _ _ (task_ok s1 k t c1 Hc1 Ht0)). rewrite Hid, Z.eqb_refl. done. }
    rewrite (bind_ok _ _ _ _ _ Ewait). rewrite (bind_ok _ _ _ _ _ (upd_tcb_ok s1 k t c1 _ Hc1 Ht0)). fold s2.
    assert (Esig : sig_send (S n) p SIGCHLD (set_sched s2 k) = Ok (Returns 0, set_sched s3 k)).
    { cbn [sig_send]. rewrite (bind_ok _ _ _ _ _ (task_ok s2 k p p1 Hp2 Hp0)). rewrite Hmask1.
      rewrite (proj2 (Z.eqb_neq _ 0) Hmask). cbn [SIGCHLD SIGKILL SIGSEGV Z.eqb Pos.eqb]. unfold returns.
      rewrite (bind_ok _ _ (set_sched s2 k) 0 (set_sched s3 k)); [done|].
      by rewrite (bind_ok _ _ _ _ _ (upd_tcb_ok s2 k p p1 _ Hp2 Hp0)). }
    by rewrite (call_returns _ _ _ _ _ Esig).
Qed.

(** The parent waits for this very task. *)
(** After it: the task a zombie, its parent ready with the signal. *)
Record zombied (s' : sched) : Prop := {
  zb_queues : sched_ok s' (moved qs1 SleepQ (run_queue pt) m1 p m2);
  zb_self : exists c' m, tasks s' !! t = Some c' /\ core c' = core (set_t_state ZOMBIE (set_fd_ctr m (set_exit_code status c)));
  zb_parent : exists pt', tasks s' !! p = Some pt' /\
    core pt' = core (set_t_state READY (set_signals (t_mask pt) (Z.lor (t_current pt) SIGCHLD) pt));
  zb_others : forall x, x <> t -> x <> p -> core <$> tasks s' !! x = core <$> tasks (k_sched k) !! x;
  zb_actual : actual_task s' = t;
  zb_next : prio_gt (t_priority pt) (t_priority c) = false -> next_to_run s' = next_to_run (k_sched k);
}.

Lemma exit_zombie n : wait4 pt = t -> exists s',
  do_exit (S (S n)) t status k = after_switch (S n) (set_sched s' k) /\ zombied s'.
Proof.
  intros Hw. destruct parent_asleep as (Hp0 & Hpt & Hst & Hpq).
  destruct (exit_signals n Hw) as (s3 & c1 & p1 & (Hok3 & Ht3 & Hcore & Hp3 & Hcode & Hprio & Hact & Hoth & Hnx & m & Hc1) & ->).
  destruct (core_home _ _ Hcore) as (Hst1 & Hprio1 & Hid1 & Hq1).
  set (p2 := set_signals (t_mask p1) (Z.lor (t_current p1) SIGCHLD) p1) in *.
  assert (Hs3 : qs1 SleepQ = m1 ++ p :: m2).
  { unfold qs1, upd_q. rewrite decide_False; [exact Hsleep|]. intros E. by apply (ex_run _ _ _ _ _ _ _ Hex). }
  assert (Hq2 : _set_queue p2 = SleepQ) by (rewrite <- Hpq; exact Hq1).
  assert (Hqs3 : qs1 (_set_queue p2) = m1 ++ p :: m2) by by rewrite Hq2.
  destruct (wp_run _ _ _ (wake_wp s3 qs1 p p2 m1 m2 Hok3 Hp3 Hqs3 (set_t_state ZOMBIE c1) Hq2
    ltac:(by rewrite Hact) ltac:(rewrite Hact; by destruct (exiting_outside k qs t c kc l1 l2 Hex)) ltac:(rewrite Hact; congruence)))
    as (r & s' & Ew & Hr & Hok' & [(pt' & Hpt' & Hcpt') Hoth' [Eact _]] & (a0 & _ & _ & En)).
  assert (Epr : prio_gt (t_priority p2) (t_priority (set_t_state ZOMBIE c1)) = prio_gt (t_priority pt) (t_priority c)).
  { cbn. by rewrite Hprio, Hprio1. }
  cbn zeta in Hok'. rewrite Epr in Hr, En. exists s'. split; [|split].
  - replace (task_id p1) with (task_id p2) by done.
    rewrite (bind_ok _ _ _ _ _ (on_sched_ok _ s3 k _ _ Ew)), Hr. unfold after_switch.
    destruct (prio_gt _ _).
    + apply call_noret, task_switch_to_noret.
    + by rewrite (call_returns _ _ _ tt (set_sched s' k)).
  - replace (run_queue pt) with (if decide (t_priority p2 = OS) then OsQ else UserQ); [done|].
    unfold run_queue. cbn. by rewrite Hprio1.
  - pose proof (Hoth' t ltac:(congruence)) as Hct. rewrite Ht3 in Hct. destruct (tasks s' !! t) as [c'|]; [|done].
    exists c', m. split; [done|]. apply (inj Some) in Hct. rewrite Hct. exact (f_equal (set_t_state ZOMBIE) Hc1).
  - exists pt'. split; [done|]. rewrite Hcpt'. unfold p2.
    exact (f_equal (fun x => set_t_state READY (set_signals (t_mask x) (Z.lor (t_current x) SIGCHLD) x)) Hcore).
  - intros x Hxt Hxp. rewrite (Hoth' x Hxp). by apply Hoth.
  - congruence.
  - intros Eg. rewrite Eg in En. congruence.
Qed.

(** The parent waited for a task that is gone: its pointer was never
    cleared. *)
Lemma exit_dangling n : wait4 pt <> 0 -> wait4 pt <> t -> tasks (k_sched k) !! wait4 pt = None ->
  do_exit (S (S n)) t status k = Fault.
Proof.
  intros Hw0 Hwt Hgone. destruct parent_asleep as (Hp0 & Hpt & _).
  destruct (exit_prefix k qs t c kc l1 l2 status Hex (S n)) as (s1 & c1 & E & _ & _ & _ & _ & _ & _ & Hoth & _).
  rewrite E. pose proof (Hoth p Hpt) as Hcp. rewrite (Hp : tasks (k_sched k) !! p = Some pt) in Hcp.
  destruct (tasks s1 !! p) as [p1|] eqn:Hp1; [|done]. cbn in Hcp. assert (Hcore : core p1 = core pt) by congruence.
  assert (Hw1 : wait4 p1 = wait4 pt) by exact (f_equal wait4 Hcore).
  unfold exit_tail. fold p. rewrite (bind_ok _ _ _ _ _ (task_ok s1 k p p1 Hp1 Hp0)). rewrite Hw1, (proj2 (Z.eqb_neq _ 0) Hw0).
  pose proof (Hoth (wait4 pt) Hwt) as Hg. rewrite Hgone in Hg. destruct (tasks s1 !! wait4 pt) eqn:Eg; [done|].
  unfold bind_ at 1. unfold bind_ at 1, task, on_sched, zoom, ld_task. cbn [k_sched set_sched]. by rewrite Eg.
Qed.
End wait.

(** ** Enter *)

Section enter.
Context {H : Type} `{!Allocator H}.
Context (k : kernel H) (line : list Z) (len : Z) (term' : terminal_t).
Hypothesis (Hterm : terminal_putchar_from_keyboard 10 (k_term k) = Ok (Some (line, len), term')).

Definition ENTER : Z := 28.

(** The keyboard and the terminal hand the line over. *)
Lemma enter_hands_over n : keyboard_interrupt n ENTER k = dev_stdin_recall n line len (set_term term' k).
Proof.
  unfold keyboard_interrupt. rewrite (bind_ok _ _ k (k_kbd k) k) by done.
  assert (Ek : keyboard_isr ENTER (k_kbd k) = (k_kbd k, Some 10)).
  { unfold keyboard_isr, ENTER. cbn. by destruct (shift_hold _ || _). }
  rewrite Ek, (bind_ok _ _ k tt k); [|destruct k; reflexivity].
  unfold on_term. rewrite (bind_ok _ _ _ (Some (line, len)) (set_term term' k)); [done|].
  unfold zoom. by rewrite Hterm.
Qed.

Context (qs : qid -> list Z) (c a : tcb) (m1 m2 : list Z) (r : Z) (v' : vmm H).
Let w := w_t (wait4input k).
Let count := if w_size (wait4input k) <? len then w_size (wait4input k) else len.
Hypotheses (Hok : sched_ok (k_sched k) qs) (Hc : tasks (k_sched k) !! w = Some c) (Hq : qs SleepQ = m1 ++ w :: m2)
  (Ha : tasks (k_sched k) !! actual_task (k_sched k) = Some a) (Ha0 : actual_task (k_sched k) <> 0)
  (Hcopy : vmm_copy_data_to (t_aspace c) (w_buffer (wait4input k)) line count (k_vmm k) = Ok (r, v')).

(** What the reader finds in its registers. *)
Definition read_regs : task_regs :=
  let regs := regs_set_retval (if r <? 0 then UINT32_MAX else count) (t_regs c) in
  if 0 <? v_errno v' then regs_set_errno (v_errno v') regs else regs.

Lemma recall_wakes n : exists s' c',
  keyboard_interrupt n ENTER k =
    preempt n (if prio_gt (t_priority c) (t_priority a) then Some w else None)
      (set_sched s' (set_wait (mkWait 0 0 0) (set_vmm v' (set_term term' k)))) /\
  sched_ok s' (moved qs SleepQ (run_queue c) m1 w m2) /\
  tasks s' !! w = Some c' /\ t_state c' = READY /\ t_regs c' = read_regs /\
  forall x, x <> w -> core <$> tasks s' !! x = core <$> tasks (k_sched k) !! x.
Proof.
  destruct (member_task (k_sched k) qs (so_qs _ _ Hok) SleepQ w) as (c0 & Hc0 & Hw0 & _ & Hcq); [rewrite Hq; in_tac|].
  assert (c0 = c) as -> by congruence. set (s := k_sched k) in *.
  set (c1 := set_regs read_regs c). set (s1 := put_task w c1 s).
  assert (Hok1 : sched_ok s1 qs) by (apply (sched_ok_upd s _ w c); [done|done|by left]).
  assert (Hc1 : tasks s1 !! w = Some c1) by apply lookup_insert_eq.
  assert (Hcq1 : qs (_set_queue c1) = m1 ++ w :: m2) by (change (_set_queue c1) with (_set_queue c); by rewrite Hcq).
  assert (Hwake : exists s', sched_wake_task (task_id c) s1 =
      Ok (if prio_gt (t_priority c) (t_priority a) then Some w else None, s') /\
    sched_ok s' (moved qs SleepQ (run_queue c) m1 w m2) /\ requeued s1 s' w c1 READY).
  { destruct (decide (actual_task s = w)) as [E|E].
    - destruct (wp_run _ _ _ (wake_self_wp s1 qs w c1 m1 m2 Hok1 Hc1 Hcq1 Hcq E)) as (x & s' & Ew & -> & ? & ?).
      exists s'. assert (a = c) as -> by congruence. by destruct (t_priority c).
    - destruct (wp_run _ _ _ (wake_wp s1 qs w c1 m1 m2 Hok1 Hc1 Hcq1 a Hcq
        ltac:(cbn; by rewrite lookup_insert_ne) Ha0 E)) as (x & s' & Ew & -> & ? & ? & _). by exists s'. }
  destruct Hwake as (s' & Ew & Hok' & [(c' & Hc' & Hcore) Hoth _]). exists s', c'. split; [|split_and!].
  - rewrite enter_hands_over. unfold dev_stdin_recall.
    set (k1 := set_term term' k). rewrite (bind_ok _ _ k1 (wait4input k) k1) by done. fold w.
    assert (Ek1 : k1 = set_sched s k1) by exact (eq_sym (set_sched_id k1)). rewrite Ek1.
    rewrite (bind_ok _ _ _ _ _ (task_ok s k1 w c Hc Hw0)).
    change (if w_size (wait4input k) <? len then w_size (wait4input k) else len) with count.
    set (k2 := set_vmm v' k1). rewrite (bind_ok _ _ _ r (set_sched s k2)).
    2: { unfold on_vm, zoom. cbn [k_vmm set_sched set_term k1]. by rewrite Hcopy. }
    rewrite (bind_ok _ _ _ _ _ (upd_tcb_ok s k2 w c _ Hc Hw0)). cbv beta.
    set (regs1 := regs_set_retval _ _). set (s2 := put_task w (set_regs regs1 c) s).
    rewrite (bind_ok _ _ _ (v_errno v') (set_sched s2 k2)) by done.
    rewrite (bind_ok _ _ _ tt (set_sched s1 k2)).
    2: { unfold s1, c1, read_regs. fold regs1. destruct (0 <? v_errno v'); [|done].
         assert (E2 : tasks s2 !! w = Some (set_regs regs1 c)) by apply lookup_insert_eq.
         rewrite (upd_tcb_ok s2 k2 w _ _ E2 Hw0). unfold s2. by rewrite put_put. }
    rewrite (bind_ok _ _ _ tt (set_sched s1 (set_wait (mkWait 0 0 0) k2))) by done.
    by rewrite (bind_ok _ _ _ _ _ (on_sched_ok _ s1 _ _ _ Ew)).
  - exact Hok'.
  - exact Hc'.
  - exact (f_equal t_state Hcore).
  - exact (f_equal t_regs Hcore).
  - intros x Hx. rewrite (Hoth x Hx). cbn. by rewrite lookup_insert_ne.
Qed.

(** Nobody reads: the pointer to the reader is NULL. *)
Lemma recall_without_reader n : w = 0 -> keyboard_interrupt n ENTER k = Fault.
Proof.
  intros E. rewrite enter_hands_over. unfold dev_stdin_recall.
  rewrite (bind_ok _ _ _ (wait4input k) (set_term term' k)) by done. fold w. rewrite E.
  unfold bind_ at 1, task, on_sched, zoom, ld_task. by destruct (_ !! 0).
Qed.
End enter.

(** ** A kernel with three tasks to run the routines on *)

#[local] Instance tasks_allocator : Allocator malloc_state := kmalloc_allocator 0xc0400000 demo_raw demo_bytes.

Definition std_fds : list Z := [0x900; 0x900; 0] ++ replicate 253 0.

Definition demo_task (tid : Z) (st : task_state) (ctr mask current wait par fc : Z) : tcb :=
  mkTcb tid 0xd0001000 0 ctr std_fds mask current wait par fc fc 0 0 st OS 0 0 zero_regs 0xa00.

(** The shell waits for its child, which runs. *)
Definition waiting_tasks : gmap Z tcb := list_to_map
  [(0x50, demo_task 0 READY 0 0 0 0 0 0); (0x10, demo_task 1 WAITING 2 SIGCHLD 0 0x20 0 0x20);
   (0x20, demo_task 2 RUNNING 2 0 0 0 0x10 0)].

Definition waiting_sched : sched :=
  mkSched waiting_tasks (fun k => match k with OsQ => mkQueue 1 0x20 0x20 | UserQ => empty_queue | SleepQ => mkQueue 1 0x10 0x10 end)
    2 1 1 0x20 0x50 0 0x10 2.

Definition waiting_qs (k : qid) : list Z := match k with OsQ => [0x20] | UserQ => [] | SleepQ => [0x10] end.

Lemma waiting_ok : sched_ok waiting_sched waiting_qs.
Proof. sched_check waiting_qs. Qed.

Definition waiting_kernel (w : wait4input_t) : kernel malloc_state := set_wait w (set_term demo_term (set_sched waiting_sched (demo_kernel demo_fs))).

Lemma waiting_exits w : exiting (waiting_kernel w) waiting_qs 0x20 (demo_task 2 RUNNING 2 0 0 0 0x10 0) (demo_task 0 READY 0 0 0 0 0 0) [] [].
Proof.
  split; try reflexivity; try discriminate; [exact waiting_ok|].
  split; [reflexivity|]. split; [reflexivity|]. intros i p Hi _. exact Hi.
Qed.

(** ** Properties *)

(** A task that exits while its parent waits for it becomes a zombie with
    its exit code and leaves its run queue; the parent gets SIGCHLD, moves
    from the sleeping queue to the end of its run queue with its registers
    untouched, and is switched to at once if it outranks the child, otherwise
    the scheduler picks the next task; no other task changes. *)
Lemma exit_wakes_waiting_parent {H} `{!Allocator H} (k : kernel H) qs t c kc pt l1 l2 m1 m2 status n :
  exiting k qs t c kc l1 l2 -> tasks (k_sched k) !! t_parent c = Some pt -> qs SleepQ = m1 ++ t_parent c :: m2 ->
  Z.land (t_mask pt) SIGCHLD <> 0 -> wait4 pt = t -> exists s',
    do_exit (S (S n)) t status k =
      (if prio_gt (t_priority pt) (t_priority c) then task_switch_to (S n) (t_parent c)
       else do next <- on_sched sched_get_next_task; task_switch_to (S n) next) (set_sched s' k) /\
    sched_ok s' (moved (upd_q qs (_set_queue c) (l1 ++ l2)) SleepQ (run_queue pt) m1 (t_parent c) m2) /\
    (exists c', tasks s' !! t = Some c' /\ t_state c' = ZOMBIE /\ exit_code c' = status) /\
    (exists pt', tasks s' !! t_parent c = Some pt' /\ t_state pt' = READY /\ wait4 pt' = t /\ t_regs pt' = t_regs pt /\
      t_current pt' = Z.lor (t_current pt) SIGCHLD) /\
    (forall x, x <> t -> x <> t_parent c -> core <$> tasks s' !! x = core <$> tasks (k_sched k) !! x).
Proof.
  intros Hex Hp Hs Hm Hw. destruct (exit_zombie k qs t c kc pt l1 l2 m1 m2 status Hex Hp Hs Hm n Hw) as (s' & E & Z).
  destruct (zb_self _ _ _ _ _ _ _ _ _ _ _ Z) as (c' & m & Ec & Hc), (zb_parent _ _ _ _ _ _ _ _ _ _ _ Z) as (pt' & Ep & Hpt).
  exists s'. split; [exact E|]. split; [apply Z|]. split; [|split].
  - exists c'. split; [done|]. split; [exact (f_equal t_state Hc)|exact (f_equal exit_code Hc)].
  - exists pt'. split; [done|]. split; [exact (f_equal t_state Hpt)|]. rewrite <- Hw.
    split; [exact (f_equal wait4 Hpt)|]. split; [exact (f_equal t_regs Hpt)|exact (f_equal t_current Hpt)].
  - apply Z.
Qed.

Lemma exit_wakes_waiting_parent_witness : exists s', let k := waiting_kernel (mkWait 0 0 0) in
  do_exit 3 0x20 7 k = (do next <- on_sched sched_get_next_task; task_switch_to 2 next) (set_sched s' k) /\
  sched_ok s' (moved (upd_q waiting_qs OsQ []) SleepQ OsQ [] 0x10 []).
Proof.
  destruct (exit_wakes_waiting_parent (waiting_kernel (mkWait 0 0 0)) waiting_qs 0x20 (demo_task 2 RUNNING 2 0 0 0 0x10 0)
    (demo_task 0 READY 0 0 0 0 0 0) (demo_task 1 WAITING 2 SIGCHLD 0 0x20 0 0x20) [] [] [] [] 7 1 (waiting_exits _))
    as (s' & E & Hok & _); [reflexivity|reflexivity|discriminate|reflexivity|].
  exists s'. split; [exact E|exact Hok].
Defined.

(** [do_exit] never returns to its caller, and therefore destroying a
    task that has children does exactly what the exit of its first child
    does: the other children are not killed and the task itself is not
    released. *)
Lemma destroy_stops_at_first_child {H} `{!Allocator H} (k : kernel H) n t c :
  tasks (k_sched k) !! t = Some c -> t <> 0 -> t_first_child c <> 0 ->
  is_Some (tasks (k_sched k) !! t_first_child c) ->
  task_destroy (S (S n)) t k = do_exit n (t_first_child c) SIGKILL k /\
  forall status a k', do_exit n (t_first_child c) status k <> Ok (Returns a, k').
Proof.
  intros Ht Ht0 Hf [f Hfc]. split; [|intros status; apply do_exit_noret].
  assert (Et : forall x tc, tasks (k_sched k) !! x = Some tc -> x <> 0 -> task x k = Ok (tc, k)).
  { intros x tc E Hx. apply on_sched_get. by apply ld_task_ok. }
  cbn [task_destroy]. rewrite (bind_ok _ _ _ _ _ (Et t c Ht Ht0)).
  assert (Hn : noret (kill_children (S n) (t_first_child c))).
  { cbn [kill_children]. rewrite (proj2 (Z.eqb_neq _ 0) Hf). apply noret_bind. intros c1. apply noret_first, do_exit_noret. }
  rewrite (call_noret _ _ _ Hn). cbn [kill_children]. rewrite (proj2 (Z.eqb_neq _ 0) Hf).
  rewrite (bind_ok _ _ _ _ _ (Et _ f Hfc Hf)). apply call_noret, do_exit_noret.
Qed.

(** A task with two children, [0x10], is destroyed. *)
Definition family_kernel : kernel malloc_state :=
  set_sched (mkSched (list_to_map
    [(0x50, demo_task 0 READY 0 0 0 0 0 0); (0x10, demo_task 2 ZOMBIE 0 0 0 0 0x60 0x20);
     (0x20, set_t_next_sibling 0x30 (demo_task 3 READY 0 0 0 0 0x10 0)); (0x30, demo_task 4 READY 0 0 0 0 0x10 0)])
    (fun k => match k with OsQ => mkQueue 2 0x20 0x30 | _ => empty_queue end) 3 2 0 0x50 0x50 0 0x60 4) (demo_kernel demo_fs).

Lemma destroy_stops_at_first_child_witness : task_destroy 12 0x10 family_kernel = do_exit 10 0x20 SIGKILL family_kernel.
Proof.
  apply (destroy_stops_at_first_child family_kernel 10 0x10 (demo_task 2 ZOMBIE 0 0 0 0 0x60 0x20));
    [reflexivity|discriminate|discriminate|by eexists].
Defined.

(** Enter hands the finished line to the task that reads from stdin: as
    much of it as asked for is copied to its buffer, its registers get the
    count (or -1, and [errno]), it moves from the sleeping queue to the end of
    its run queue, and is switched to if it outranks the running task.  With
    no task reading, the handler dereferences a NULL pointer. *)
Lemma enter_wakes_reader {H} `{!Allocator H} (k : kernel H) line len term' n :
  terminal_putchar_from_keyboard 10 (k_term k) = Ok (Some (line, len), term') ->
  let w := w_t (wait4input k) in let size := w_size (wait4input k) in
  let count := if size <? len then size else len in
  (w = 0 -> keyboard_interrupt n ENTER k = Fault) /\
  forall qs c a m1 m2 r v', sched_ok (k_sched k) qs -> tasks (k_sched k) !! w = Some c -> qs SleepQ = m1 ++ w :: m2 ->
    tasks (k_sched k) !! actual_task (k_sched k) = Some a -> actual_task (k_sched k) <> 0 ->
    vmm_copy_data_to (t_aspace c) (w_buffer (wait4input k)) line count (k_vmm k) = Ok (r, v') -> exists s' c',
    keyboard_interrupt n ENTER k =
      preempt n (if prio_gt (t_priority c) (t_priority a) then Some w else None)
        (set_sched s' (set_wait (mkWait 0 0 0) (set_vmm v' (set_term term' k)))) /\
    sched_ok s' (moved qs SleepQ (run_queue c) m1 w m2) /\
    tasks s' !! w = Some c' /\ t_state c' = READY /\
    t_regs c' = (let regs := regs_set_retval (if r <? 0 then UINT32_MAX else count) (t_regs c) in
                 if 0 <? v_errno v' then regs_set_errno (v_errno v') regs else regs) /\
    forall x, x <> w -> core <$> tasks s' !! x = core <$> tasks (k_sched k) !! x.
Proof.
  intros Hterm w size cnt. split; [by apply (recall_without_reader k line len term' Hterm)|].
  intros qs c a m1 m2 r v' Hok Hc Hq Ha Ha0 Hcopy. by apply (recall_wakes k line len term' Hterm qs c a m1 m2 r v').
Qed.

(** The shell sleeps in a read of four bytes into a mapped page while its
    child runs; [hi] is typed. *)
Definition reading_kernel (w : Z) : kernel malloc_state :=
  let k := waiting_kernel (mkWait w 4 0x5010) in
  set_term (run (do _ <- terminal_putchar_from_keyboard 104; do _ <- terminal_putchar_from_keyboard 105; ret_ tt) demo_term)
    (set_vmm (set_aspaces {[ 0xa00 := mkAspace 0x1000 0 0 0 0 0 0 0 0 ]} (k_vmm k)) k).

Definition typed_line : list Z := Eval vm_compute in
  match terminal_putchar_from_keyboard 10 (k_term (reading_kernel 0)) with Ok (Some (l, _), _) => l | _ => [] end.

Lemma reading_terminal w : exists t', terminal_putchar_from_keyboard 10 (k_term (reading_kernel w)) = Ok (Some (typed_line, 2), t').
Proof. eexists. vm_compute. reflexivity. Qed.

Lemma reading_copy : exists v', vmm_copy_data_to 0xa00 0x5010 typed_line 2 (k_vmm (reading_kernel 0x10)) = Ok (2, v') /\ v_errno v' = 0.
Proof. eexists. split; [vm_compute; reflexivity|reflexivity]. Qed.

Lemma enter_wakes_reader_witness :
  keyboard_interrupt 5 ENTER (reading_kernel 0) = Fault /\
  exists s' k' c', keyboard_interrupt 5 ENTER (reading_kernel 0x10) = preempt 5 None (set_sched s' k') /\
    tasks s' !! 0x10 = Some c' /\ t_state c' = READY /\ eax (t_regs c') = 2.
Proof.
  destruct (reading_terminal 0) as (t0 & E0). destruct (reading_terminal 0x10) as (t' & E).
  split.
  - destruct (enter_wakes_reader (reading_kernel 0) typed_line 2 t0 5 E0) as [Hf _]. exact (Hf eq_refl).
  - destruct (enter_wakes_reader (reading_kernel 0x10) typed_line 2 t' 5 E) as [_ Hw].
    destruct reading_copy as (v' & Hcopy & He).
    destruct (Hw waiting_qs (demo_task 1 WAITING 2 SIGCHLD 0 0x20 0 0x20) (demo_task 2 RUNNING 2 0 0 0 0x10 0) [] [] 2 v')
      as (s' & c' & E' & _ & Hc' & Hst & Hregs & _); [exact waiting_ok|reflexivity|reflexivity|reflexivity|discriminate|exact Hcopy|].
    exists s', (set_wait (mkWait 0 0 0) (set_vmm v' (set_term t' (reading_kernel 0x10)))), c'.
    split; [exact E'|]. split; [exact Hc'|]. split; [exact Hst|]. rewrite Hregs, He. reflexivity.
Defined.
