(* ===== verification/FamilySpec.v ===== *)
(** * Parents and children

    The children of a task hang on a list of siblings that starts and ends in
    the parent's block.  [family m t ch]: the task [t] has the children [ch],
    in order of their creation.  [_add_child] and [_remove_child] keep the
    families of all tasks and nothing but these links changes. *)

From S2P Require Import Prelude Dlist Pmm Heap Paging Vmm Vmalloc Klib Terminal Namei Sched SchedSpec Kernel Vfs Files FilesSpec FdSpec Task TaskSpec.

#[local] Open Scope Z_scope.

(** The sibling links of a task. *)
Record sibling := mkSib { sb_prev : Z; sb_next : Z }.

#[global] Instance sibling_linked : Linked sibling := { l_prev := sb_prev; l_next := sb_next }.

Definition sib (t : tcb) : sibling := mkSib (t_prev_sibling t) (t_next_sibling t).
Definition brood (t : tcb) : Z * Z := (t_first_child t, t_last_child t).

(** A task but for its links to siblings and children. *)
Definition unkin (t : tcb) : tcb := set_t_prev_sibling 0 (set_t_next_sibling 0 (set_t_children 0 0 t)).

(** Everything of a task but the places in queues and among siblings. *)
Definition stem (t : tcb) : tcb := unkin (core t).

Lemma unkin_core t t' : unkin t' = unkin t -> stem t' = stem t.
Proof. intros E. exact (f_equal core E). Qed.

Lemma core_stem t t' : core t' = core t -> stem t' = stem t.
Proof. intros E. exact (f_equal unkin E). Qed.

Implicit Types (m : gmap Z tcb).

Record family m (t : Z) (ch : list Z) : Prop := {
  fm_parent : exists c, m !! t = Some c /\ brood c = (hd0 0 ch, last0 0 ch);
  fm_list : dlist (sib <$> m) ch;
  fm_child : forall x u, x ∈ ch -> m !! x = Some u -> t_parent u = t;
  fm_apart : t ∉ ch /\ t <> 0;
}.

(** Only links of the family of [t] changed, [all] being its members. *)
Record kin_changed m m' (t : Z) (all : list Z) : Prop := {
  kc_unkin : forall x, unkin <$> m' !! x = unkin <$> m !! x;
  kc_brood : forall x, x <> t -> brood <$> m' !! x = brood <$> m !! x;
  kc_sib : forall x, x ∉ all -> sib <$> m' !! x = sib <$> m !! x;
}.

Lemma unkin_vital t t' : unkin t' = unkin t -> vital t' = vital t /\ t_parent t' = t_parent t.
Proof.
  intros E. pose proof (f_equal vital E) as E1. pose proof (f_equal t_parent E) as E2. by cbn in E1, E2.
Qed.

Lemma fmap_some {A B} (f : A -> B) (o o' : option A) x : f <$> o' = f <$> o -> o = Some x -> exists x', o' = Some x' /\ f x' = f x.
Proof. intros E ->. destruct o' as [x'|]; [|done]. exists x'. split; [done|]. cbn in E. congruence. Qed.

Lemma family_member m t ch x : family m t ch -> x ∈ ch -> exists u, m !! x = Some u /\ x <> 0 /\ t_parent u = t.
Proof.
  intros F Hx. destruct (fm_list _ _ _ F) as [Hd _]. destruct (dseg_lookup _ _ _ _ _ Hd Hx) as [s Hs].
  rewrite lookup_fmap in Hs. destruct (m !! x) as [u|] eqn:Eu; [|done]. exists u. split; [done|].
  split; [by eapply dseg_nonzero|by apply (fm_child _ _ _ F x)].
Qed.

Lemma sib_links m x : links (sib <$> m) x = (fun t => (t_prev_sibling t, t_next_sibling t)) <$> m !! x.
Proof. unfold links. rewrite lookup_fmap. by destruct (m !! x). Qed.

Lemma tcb_ext a b : unkin a = unkin b -> brood a = brood b -> sib a = sib b -> a = b.
Proof.
  destruct a, b. cbv [unkin set_t_prev_sibling set_t_next_sibling set_t_children brood sib]. cbn. intros E1 E2 E3.
  injection E1. injection E2. injection E3. intros. by subst.
Qed.

Lemma kin_same m m' t all x : kin_changed m m' t all -> x <> t -> x ∉ all -> m' !! x = m !! x.
Proof.
  intros [Hu Hb Hs] Hx Hall. specialize (Hu x). specialize (Hb x Hx). specialize (Hs x Hall).
  destruct (m' !! x) as [a|], (m !! x) as [b|]; try done. f_equal.
  apply tcb_ext; cbn [fmap option_fmap option_map] in *; congruence.
Qed.

(** The families of the other tasks. *)
Lemma family_kept m m' t all t2 ch2 : kin_changed m m' t all -> (forall x u, x ∈ all -> m !! x = Some u -> t_parent u = t) ->
  family m t2 ch2 -> t2 <> t -> family m' t2 ch2.
Proof.
  intros [Hu Hb Hs] Hall F Hne.
  assert (Hout : forall x, x ∈ ch2 -> x ∉ all).
  { intros x Hx Hin. destruct (family_member _ _ _ _ F Hx) as (u & Eu & _ & Ep). apply Hne. rewrite <- Ep. by apply (Hall x u). }
  split; [| | |apply F].
  - destruct (fm_parent _ _ _ F) as (c & Ec & Ebr). destruct (fmap_some _ _ _ c (Hb t2 Hne) Ec) as (c' & Ec' & E).
    exists c'. split; [done|]. congruence.
  - eapply dlist_frame; [|apply F]. intros x Hx. unfold links. rewrite !lookup_fmap. by rewrite Hs by auto.
  - intros x u' Hx Eu'. destruct (fmap_some unkin (m' !! x) (m !! x) u' (eq_sym (Hu x)) Eu') as (u & Eu & E).
    rewrite <- (proj2 (unkin_vital _ _ E)). by apply (fm_child _ _ _ F x).
Qed.

(** One block changes: which of the three views change with it. *)
Lemma fmap_insert_at {B} (f : tcb -> B) m p t t' x : m !! p = Some t -> (x = p -> f t' = f t) -> f <$> <[p := t']> m !! x = f <$> m !! x.
Proof. intros E Hf. rewrite lookup_insert. case_decide as Ex; [|done]. subst. rewrite E. cbn. f_equal. by apply Hf. Qed.

(** What a family depends on. *)
Definition kinship (t : tcb) := (brood t, sib t, t_parent t).

Lemma family_ext m m' t ch : family m t ch ->
  (forall x, x = t \/ x ∈ ch -> kinship <$> m' !! x = kinship <$> m !! x) -> family m' t ch.
Proof.
  intros F Hk. split; [| | |apply F].
  - destruct (fm_parent _ _ _ F) as (c & Ec & E). destruct (fmap_some _ _ _ c (Hk t (or_introl eq_refl)) Ec) as (c' & Ec' & E').
    exists c'. split; [done|]. unfold kinship in E'. congruence.
  - eapply dlist_frame; [|apply F]. intros x Hx. rewrite !sib_links. specialize (Hk x (or_intror Hx)).
    destruct (m' !! x) as [a|], (m !! x) as [b|]; try done. cbn in *. unfold kinship, sib in Hk. congruence.
  - intros x u' Hx Eu'. destruct (fmap_some _ (m' !! x) (m !! x) u' (eq_sym (Hk x (or_intror Hx))) Eu') as (u & Eu & E).
    unfold kinship in E. replace (t_parent u') with (t_parent u) by congruence. by apply (fm_child _ _ _ F x).
Qed.

Section family.
Context {H : Type} `{!Allocator H}.
Implicit Types (k : kernel H).

(** The views of a store in which a few blocks were rewritten. *)
Ltac kin := intros; rewrite ?not_elem_of_cons in *; repeat (rewrite lookup_insert; case_decide; subst); try done; try tauto;
  repeat match goal with H : ?m !! ?x = Some _ |- context [?m !! ?x] => rewrite H end; done.

Lemma join_family_wp k t ch p u : let m := tasks (k_sched k) in family m t ch -> m !! p = Some u -> t_parent u = t ->
  p <> 0 -> p <> t -> p ∉ ch ->
  wp (_add_child t p) (fun _ k' => exists m', k' = set_sched (set_tasks m' (k_sched k)) k /\
    family m' t (ch ++ [p]) /\ kin_changed m m' t (p :: ch)) k.
Proof.
  intros m F Eu Hpar Hp0 Hpt Hpc. destruct (fm_parent _ _ _ F) as (c & Ec & [= Ef El]). destruct (fm_apart _ _ _ F) as [Htc Ht0].
  unfold _add_child. apply wp_bind. eapply wp_task; [exact Ec|done|]. rewrite Ef. destruct ch as [|x0 ch0].
  - cbn [hd0 Z.eqb]. apply wp_bind. eapply wp_upd_tcb; [exact Eu|done|]. eapply wp_upd_tcb; [|done|].
    { cbn. rewrite lookup_insert_ne by done. exact Ec. }
    eexists. split; [reflexivity|]. split.
    + split; cbn.
      * eexists. rewrite lookup_insert_eq. done.
      * split; [|by apply NoDup_singleton]. cbn. split_and!; [done| |done]. rewrite sib_links, lookup_insert_ne, lookup_insert_eq by done. done.
      * intros x w [->|Hx%elem_of_nil]%elem_of_cons; [|done]. rewrite lookup_insert_ne, lookup_insert_eq by done. by intros [= <-].
      * split; [set_solver|done].
    + split; cbn; kin.
  - pose proof (fm_list _ _ _ F) as Hdl. set (ch := x0 :: ch0) in *. assert (Hne : ch <> []) by done.
    assert (Hl : last0 0 ch ∈ ch) by by apply last0_in. assert (Hf : hd0 0 ch ∈ ch) by by apply hd0_in.
    destruct (family_member _ _ _ _ F Hl) as (w & Ew & Hl0 & _). destruct (family_member _ _ _ _ F Hf) as (_ & _ & Hf0 & _).
    rewrite (proj2 (Z.eqb_neq _ 0) Hf0), El. assert (exists z, z = last0 0 ch) as [z Ez] by eauto. rewrite <- Ez in *.
    assert (Hzt : z <> t) by by intros ->. assert (Hzp : z <> p) by by intros ->.
    apply wp_bind. eapply wp_upd_tcb; [exact Ew|done|]. apply wp_bind. eapply wp_upd_tcb; [cbn; by rewrite lookup_insert_ne|done|].
    apply wp_bind. eapply wp_upd_tcb; [cbn; by rewrite lookup_insert_eq|done|].
    eapply wp_upd_tcb; [cbn; rewrite !lookup_insert_ne by done; exact Ec|done|].
    eexists. split; [reflexivity|]. cbn [tasks k_sched put_tcb set_sched set_tasks]. split.
    + split.
      * eexists. rewrite lookup_insert_eq. split; [done|]. rewrite last0_snoc. unfold brood. cbn. by rewrite Ef.
      * rewrite <- (app_nil_r ch) in Hdl. eapply dlist_insert; [exact Hdl|done|by rewrite app_nil_r|]. rewrite <- Ez, app_nil_r. cbn [hd0].
        split; [rewrite sib_links; kin|]. intros x Hx. rewrite !sib_links.
        destruct (family_member _ _ _ _ F Hx) as (v & Ev & Hx0 & _). assert (x <> p) by by intros ->. assert (x <> t) by by intros ->.
        rewrite Ev. cbn. rewrite (decide_False (P := x = 0)) by done. rewrite !(lookup_insert_ne _ t), !(lookup_insert_ne _ p) by done.
        destruct (decide (x = z)) as [->|Hxz]; [rewrite lookup_insert_eq; cbn; congruence|]. rewrite lookup_insert_ne by done. fold m. by rewrite Ev.
      * intros x v Hx Ev. rewrite !lookup_insert in Ev. assert (x <> t) by (intros ->; set_solver). rewrite decide_False in Ev by done.
        repeat case_decide; subst; simplify_eq; try done; [exact (fm_child _ _ _ F _ w Hl Ew)|].
        apply elem_of_app in Hx as [Hx|?%list_elem_of_singleton]; [exact (fm_child _ _ _ F x v Hx Ev)|congruence].
      * split; [set_solver|done].
    + split; kin.
Qed.

(** ** A child leaves *)

Section leave.
Context (k : kernel H) (t p : Z) (ch1 ch2 : list Z) (c u : tcb).
Let m := tasks (k_sched k).
Hypotheses (F : family m t (ch1 ++ p :: ch2)) (Ec : m !! t = Some c) (Eu : m !! p = Some u) (Hid : task_id u <> 1).
Let x := last0 0 ch1.
Let y := hd0 0 ch2.

Lemma leave_around : t_parent u = t /\ t_prev_sibling u = x /\ t_next_sibling u = y /\
  brood c = (hd0 p ch1, last0 p ch2) /\ p <> 0 /\ t <> 0 /\ p <> t /\ NoDup (ch1 ++ ch2) /\ p ∉ ch1 ++ ch2.
Proof.
  destruct (fm_parent _ _ _ F) as (c' & Ec' & Ebr). assert (c' = c) as -> by congruence. destruct (fm_apart _ _ _ F) as [Htc Ht0].
  assert (Hp : p ∈ ch1 ++ p :: ch2) by in_tac. destruct (family_member _ _ _ _ F Hp) as (u' & Eu' & Hp0 & Hpar).
  assert (u' = u) as -> by congruence. destruct (fm_list _ _ _ F) as [Hd Hnd]. apply NoDup_skip in Hnd as [Hpn Hnd].
  apply dseg_app in Hd as [_ (_ & Hl & _)]. rewrite sib_links, Eu in Hl. injection Hl as Epv Enx.
  rewrite hd0_app, last0_app in Ebr. split_and!; try done. intros ->. by apply Htc.
Qed.

Lemma leave_member z : z ∈ ch1 ++ ch2 -> z <> p /\ z <> t /\ z <> 0 /\ z ∈ ch1 ++ p :: ch2 /\ exists w, m !! z = Some w.
Proof.
  intros Hz. destruct leave_around as (_ & _ & _ & _ & _ & _ & _ & _ & Hpn).
  assert (Hz' : z ∈ ch1 ++ p :: ch2) by in_tac. destruct (family_member _ _ _ _ F Hz') as (w & Ew & Hz0 & _).
  split; [by intros ->|]. split; [|by eauto]. intros ->. by apply (proj1 (fm_apart _ _ _ F)).
Qed.

(** The links around the gap. *)
Lemma left_family m' : kin_changed m m' t (ch1 ++ p :: ch2) ->
  brood <$> m' !! t = Some (hd0 0 (ch1 ++ ch2), last0 0 (ch1 ++ ch2)) ->
  (forall z w, z ∈ ch1 ++ ch2 -> m !! z = Some w -> sib <$> m' !! z =
    Some (mkSib (if decide (z = y) then x else t_prev_sibling w) (if decide (z = x) then y else t_next_sibling w))) ->
  family m' t (ch1 ++ ch2).
Proof.
  intros K Hb Hs. split.
  - destruct (m' !! t) as [c'|]; [|done]. exists c'. split; [done|]. by apply (inj Some) in Hb.
  - eapply dlist_remove; [exact (fm_list _ _ _ F)|]. intros z Hz. destruct (leave_member z Hz) as (_ & _ & _ & _ & w & Ew).
    specialize (Hs z w Hz Ew). rewrite !sib_links, Ew. destruct (m' !! z) as [w'|]; [|done]. apply (inj Some) in Hs.
    cbn. unfold sib in Hs. fold x y. congruence.
  - intros z w' Hz Ew'. destruct (fmap_some _ _ _ w' (eq_sym (kc_unkin _ _ _ _ K z)) Ew') as (w & Ew & E).
    rewrite <- (proj2 (unkin_vital _ _ E)). apply (fm_child _ _ _ F z); [in_tac|done].
  - destruct (fm_apart _ _ _ F) as [Ht Ht0]. split; [|done]. intros Hin. apply Ht. in_tac.
Qed.

(** Each case ends with a store in which the links around the gap are set. *)
Ltac left_end :=
  eexists; split; [reflexivity|]; cbn [tasks k_sched put_tcb set_sched set_tasks]; fold m;
  match goal with |- family ?m' _ _ /\ _ => cut (kin_changed m m' t (ch1 ++ p :: ch2)) end;
  [intros ?; split; [apply left_family; [assumption| |]|assumption]|split; kin].

Ltac left_sibs := intros z w Hz Ew; destruct (leave_member z Hz) as (? & ? & ? & ? & _);
  repeat (rewrite lookup_insert; case_decide; subst; simplify_eq; try done); rewrite ?Ew; cbn; unfold sib;
  repeat case_decide; simplify_eq; try done.

Lemma leave_family_wp : wp (_remove_child p) (fun _ k' => exists m', k' = set_sched (set_tasks m' (k_sched k)) k /\
  family m' t (ch1 ++ ch2) /\ kin_changed m m' t (ch1 ++ p :: ch2)) k.
Proof.
  destruct leave_around as (Epar & Epv & Enx & [= Ef El] & Hp0 & Ht0 & Hpt & Hnd & Hpn).
  assert (Hx : ch1 <> [] -> x ∈ ch1 ++ ch2) by (intros ?; apply elem_of_app; left; by apply last0_in).
  assert (Hy : ch2 <> [] -> y ∈ ch1 ++ ch2) by (intros ?; apply elem_of_app; right; by apply hd0_in).
  unfold _remove_child. apply wp_bind. eapply wp_task; [exact Eu|done|]. rewrite (proj2 (Z.eqb_neq _ 1) Hid). cbv zeta.
  rewrite Epar, Epv, Enx.
  destruct (decide (ch1 = [])) as [E1|Hne1], (decide (ch2 = [])) as [E2|Hne2];
    try (destruct (leave_member x (Hx Hne1)) as (Hxp & Hxt & Hx0 & Hxa & wx & Ewx));
    try (destruct (leave_member y (Hy Hne2)) as (Hyp & Hyt & Hy0 & Hya & wy & Ewy)).
  - assert (Ex : x = 0) by (unfold x; by rewrite E1). assert (Ey : y = 0) by (unfold y; by rewrite E2). rewrite Ex, Ey. cbn [Z.eqb negb].
    apply wp_bind. eapply wp_upd_tcb; [exact Ec|done|]. apply wp_bind. eapply wp_upd_tcb; [apply lookup_insert_eq|done|].
    apply wp_ret. left_end.
    + rewrite lookup_insert_eq. unfold brood. cbn. by rewrite E1, E2.
    + rewrite E1, E2. intros z w Hz. by apply elem_of_nil in Hz.
  - assert (Ex : x = 0) by (unfold x; by rewrite E1). rewrite Ex, (proj2 (Z.eqb_neq y 0) Hy0). cbn [Z.eqb negb].
    apply wp_bind. eapply wp_upd_tcb; [exact Ec|done|]. eapply wp_upd_tcb; [cbn; rewrite lookup_insert_ne by done; exact Ewy|done|].
    left_end.
    + rewrite lookup_insert_ne, lookup_insert_eq by done. unfold brood. cbn. rewrite El, hd0_app, last0_app, E1. fold y. cbn.
      by destruct ch2.
    + left_sibs.
  - assert (Ey : y = 0) by (unfold y; by rewrite E2). rewrite Ey, (proj2 (Z.eqb_neq x 0) Hx0). cbn [Z.eqb negb].
    apply wp_bind. eapply wp_upd_tcb; [exact Ec|done|]. eapply wp_upd_tcb; [cbn; rewrite lookup_insert_ne by done; exact Ewx|done|].
    left_end.
    + rewrite lookup_insert_ne, lookup_insert_eq by done. unfold brood. cbn. rewrite Ef, hd0_app, last0_app, E2. fold x. cbn.
      by destruct ch1.
    + left_sibs.
  - assert (Hxy : x <> y).
    { intros E. apply NoDup_app in Hnd as (_ & Hd & _). apply (Hd x); [by apply last0_in|]. rewrite E. by apply hd0_in. }
    rewrite (proj2 (Z.eqb_neq x 0) Hx0), (proj2 (Z.eqb_neq y 0) Hy0).
    apply wp_bind. eapply wp_upd_tcb; [exact Ewx|done|]. eapply wp_upd_tcb; [cbn; rewrite lookup_insert_ne by done; exact Ewy|done|].
    left_end.
    + rewrite !lookup_insert_ne by done. fold m. rewrite Ec. cbn. unfold brood. rewrite Ef, El, hd0_app, last0_app.
      destruct ch1, ch2; done.
    + left_sibs.
Qed.
End leave.
End family.
