(* ===== verification/SchedTrace.v ===== *)
(** * The scheduler implements three FIFO queues

    The contract of [scheduler.c] towards its callers, as an abstract
    machine: who is known with which identifier and priority, and three
    queues.  Tasks arrive, sleep, wake and leave in any order; the linked
    lists, counters and states of the code follow the abstract machine for
    every sequence of events it accepts, and no such sequence makes the code
    fail. *)

From S2P Require Import Prelude Dlist Pmm Kmalloc Heap Paging Vmm Vmalloc Klib Terminal TerminalSpec Namei NameiSpec Sched SchedSpec Kernel Vfs Files FilesSpec Task TaskSpec.

#[local] Open Scope Z_scope.

(** ** The abstract machine *)

(** [Arrive p t]: the block [p], filled in as [t], is given to
    [sched_add_task]; the others name a task by its block. *)
Inductive event := Arrive (p : Z) (t : tcb) | Sleep (p : Z) | Wake (p : Z) | Leave (p : Z).

Record spec := mkSpec { sp_q : qid -> list Z; sp_who : gmap Z (Z * task_priority) }.

Definition run_q (pr : task_priority) : qid := if decide (pr = OS) then OsQ else UserQ.

Definition without (p : Z) (l : list Z) : list Z := filter (fun x => x <> p) l.

(** Out of the queue [k] and to the end of [k']. *)
Definition relocate (q : qid -> list Z) (p : Z) (k k' : qid) : qid -> list Z :=
  let q1 := upd_q q k (without p (q k)) in upd_q q1 k' (q1 k' ++ [p]).

Definition id_used (who : gmap Z (Z * task_priority)) (id : Z) : bool :=
  existsb (fun x => fst (snd x) =? id) (map_to_list who).

Definition spec_step (e : event) (a : spec) : option spec :=
  match e with
  | Arrive p t =>
      if (p =? 0) || bool_decide (is_Some (sp_who a !! p)) || id_used (sp_who a) (task_id t) then None
      else
        let k := run_q (t_priority t) in
        Some (mkSpec (upd_q (sp_q a) k (sp_q a k ++ [p])) (<[p := (task_id t, t_priority t)]> (sp_who a)))
  | Sleep p =>
      match sp_who a !! p with
      | None => None
      | Some (_, pr) =>
          Some (if decide (p ∈ sp_q a SleepQ) then a
                else mkSpec (relocate (sp_q a) p (run_q pr) SleepQ) (sp_who a))
      end
  | Wake p =>
      match sp_who a !! p with
      | None => None
      | Some (_, pr) =>
          Some (if decide (p ∈ sp_q a SleepQ) then mkSpec (relocate (sp_q a) p SleepQ (run_q pr)) (sp_who a) else a)
      end
  | Leave p =>
      match sp_who a !! p with
      | None => None
      | Some (_, pr) =>
          let k := if decide (p ∈ sp_q a SleepQ) then SleepQ else run_q pr in
          Some (mkSpec (upd_q (sp_q a) k (without p (sp_q a k))) (delete p (sp_who a)))
      end
  end.

Fixpoint spec_run (es : list event) (a : spec) : option spec :=
  match es with
  | [] => Some a
  | e :: es => match spec_step e a with Some a1 => spec_run es a1 | None => None end
  end.

(** ** The code *)

Definition perform (e : event) : sm unit :=
  match e with
  | Arrive p t =>
      mod_ (fun s => set_tasks (<[p := t]> (tasks s)) s) ;;;
      do _ <- sched_add_task p; ret_ tt
  | Sleep p => do t <- ld_task p; do _ <- sched_sleep_task (task_id t); ret_ tt
  | Wake p => do t <- ld_task p; do _ <- sched_wake_task (task_id t); ret_ tt
  | Leave p => sched_remove p
  end.

Fixpoint perform_all (es : list event) : sm unit :=
  match es with [] => ret_ tt | e :: es => perform e ;;; perform_all es end.

(** ** The relation *)

Record implements (s : sched) (a : spec) : Prop := {
  im_ok : sched_ok s (sp_q a);
  im_who : forall p id pr, sp_who a !! p = Some (id, pr) <->
    exists k t, p ∈ sp_q a k /\ tasks s !! p = Some t /\ task_id t = id /\ t_priority t = pr;
  im_actual : actual_task s <> 0 /\ is_Some (tasks s !! actual_task s);
}.

Lemma without_middle l1 p l2 : NoDup (l1 ++ p :: l2) -> without p (l1 ++ p :: l2) = l1 ++ l2.
Proof.
  intros Hnd. apply NoDup_skip in Hnd as [Hp _]. unfold without.
  assert (Hid : forall l : list Z, p ∉ l -> filter (fun x => x <> p) l = l).
  { induction l as [|x l IH]; intros Hl; [done|]. apply not_elem_of_cons in Hl as [? ?].
    rewrite filter_cons_True by congruence. by rewrite IH. }
  rewrite filter_app, filter_cons_False by naive_solver.
  rewrite elem_of_app in Hp. by rewrite !Hid by naive_solver.
Qed.

Lemma relocate_moved q p k k' l1 l2 : NoDup (q k) -> q k = l1 ++ p :: l2 -> relocate q p k k' = moved q k k' l1 p l2.
Proof. intros Hnd E. unfold relocate, moved. rewrite E in Hnd |- *. by rewrite without_middle. Qed.

(** What the abstract machine knows of a task. *)
Definition ident (t : tcb) : Z * task_priority := (task_id t, t_priority t).

Lemma ident_core t t' : core t' = core t -> ident t' = ident t.
Proof. intros E. destruct (core_home _ _ E) as (_ & E1 & E2 & _). unfold ident. congruence. Qed.

Lemma requeued_ident s s' p t v x : tasks s !! p = Some t -> requeued s s' p t v ->
  ident <$> tasks s' !! x = ident <$> tasks s !! x.
Proof.
  intros Ht [(t' & Ht' & Hc) Ho _]. destruct (decide (x = p)) as [->|Hne].
  - rewrite Ht, Ht'. cbn. f_equal. rewrite (ident_core _ _ Hc). done.
  - specialize (Ho x Hne). destruct (tasks s' !! x) as [u|], (tasks s !! x) as [u0|]; try done. cbn in *.
    f_equal. apply ident_core. congruence.
Qed.

Lemma ident_lookup (o o' : option tcb) t : ident <$> o' = ident <$> o -> o = Some t ->
  exists t', o' = Some t' /\ ident t' = ident t.
Proof. intros E ->. destruct o' as [t'|]; [|done]. exists t'. split; [done|]. cbn in E. congruence. Qed.

Lemma moved_members qs k k' l1 p l2 x : qs k = l1 ++ p :: l2 -> k <> k' ->
  (exists j, x ∈ moved qs k k' l1 p l2 j) <-> (exists j, x ∈ qs j).
Proof.
  intros E Hne. split; intros [j Hx].
  - by eapply moved_in.
  - unfold moved, upd_q. destruct (decide (x = p)) as [->|Hxp].
    { exists k'. rewrite decide_True by done. in_tac. }
    destruct (decide (j = k')) as [->|Hj].
    { exists k'. rewrite decide_True, decide_False by done. apply elem_of_app. by left. }
    exists j. rewrite decide_False by done. case_decide; [subst j|done]. rewrite E in Hx.
    rewrite elem_of_app, elem_of_cons in Hx. rewrite elem_of_app. tauto.
Qed.

(** Changes the queues do not see: other fields of the tasks, new blocks. *)
Lemma implements_ext s s' a : implements s a -> queues s' = queues s -> running_tasks s' = running_tasks s ->
  sleeping_tasks s' = sleeping_tasks s -> actual_task s' = actual_task s ->
  (forall x, is_Some (tasks s !! x) -> vital <$> tasks s' !! x = vital <$> tasks s !! x) -> implements s' a.
Proof.
  intros [Hok Hw [Ha0 [ta Hta]]] Eq Er Es Ea Hv.
  assert (Hmem : forall k x, x ∈ sp_q a k -> is_Some (tasks s !! x)).
  { intros k x Hx. destruct (member_task s _ (so_qs _ _ Hok) k x Hx) as (t & -> & _). eauto. }
  assert (Hid : forall k x t t', x ∈ sp_q a k -> tasks s !! x = Some t -> tasks s' !! x = Some t' ->
    task_id t' = task_id t /\ t_priority t' = t_priority t).
  { intros k x t t' Hx Ht Ht'. specialize (Hv x (Hmem k x Hx)). rewrite Ht, Ht' in Hv. cbn in Hv. unfold vital in Hv. split; congruence. }
  split.
  - apply (sched_ok_ext s); try done. intros k x Hx. by apply Hv, (Hmem k).
  - intros p id pr. rewrite Hw. split; intros (k & t & Hp & Ht & <- & <-); destruct (Hmem k p Hp) as [t0 Ht0];
      pose proof (Hv p (Hmem k p Hp)) as Ev; rewrite Ht0 in Ev.
    + destruct (tasks s' !! p) as [t'|] eqn:Ht'; [|done]. exists k, t'. destruct (Hid k p t0 t' Hp Ht0 Ht') as [-> ->]. split_and!; congruence.
    + exists k, t0. destruct (Hid k p t0 t Hp Ht0 Ht) as [-> ->]. split_and!; congruence.
  - rewrite Ea. split; [done|]. specialize (Hv _ ltac:(rewrite Hta; eauto)). rewrite Hta in Hv. destruct (tasks s' !! actual_task s); [eauto|done].
Qed.

Section step.
Context (s : sched) (a : spec).
Hypothesis Him : implements s a.

(** A task the machine knows, in the queue it belongs to. *)
Lemma known_task p id pr : sp_who a !! p = Some (id, pr) -> exists t l1 l2, tasks s !! p = Some t /\ p <> 0 /\
  task_id t = id /\ t_priority t = pr /\ t_state t <> ZOMBIE /\ sp_q a (_set_queue t) = l1 ++ p :: l2 /\
  _set_queue t = (if decide (p ∈ sp_q a SleepQ) then SleepQ else run_q pr).
Proof.
  intros Hw. apply (im_who _ _ Him) in Hw as (k & t & Hp & Ht & <- & <-).
  destruct (member_task s _ (so_qs _ _ (im_ok _ _ Him)) k p Hp) as (t0 & Ht0 & Hp0 & Hz & Hk). simplify_eq.
  destruct (list_elem_of_split _ _ Hp) as (l1 & l2 & El). exists t, l1, l2. split_and!; try done.
  destruct (decide (p ∈ sp_q a SleepQ)) as [Hs|Hs].
  - apply (one_queue s _ (so_qs _ _ (im_ok _ _ Him)) _ _ p Hp Hs).
  - destruct (home_cases t Hz) as [[_ E]|[_ E]]; [by rewrite E in Hp|]. unfold _set_queue, run_q in *.
    by destruct (decide (t_state t = WAITING)).
Qed.

Lemma implements_same s' q' : sched_ok s' q' -> (forall x, (exists k, x ∈ q' k) <-> exists k, x ∈ sp_q a k) ->
  (forall x, ident <$> tasks s' !! x = ident <$> tasks s !! x) -> actual_task s' = actual_task s ->
  implements s' (mkSpec q' (sp_who a)).
Proof.
  intros Hok Hq Hi Ha. destruct Him as [_ Hw [Ha0 [ta Hta]]]. split; [exact Hok| |].
  - intros p id pr. cbn [sp_q sp_who]. rewrite Hw. split.
    + intros (k & t & Hp & Ht & <- & <-). destruct (proj2 (Hq p) ltac:(by exists k)) as [k' Hk'].
      destruct (ident_lookup _ (tasks s' !! p) t (Hi p) Ht) as (t' & Ht' & E). exists k', t'. unfold ident in E.
      split_and!; congruence.
    + intros (k & t' & Hp & Ht' & <- & <-). destruct (proj1 (Hq p) ltac:(by exists k)) as [k' Hk'].
      destruct (ident_lookup _ (tasks s !! p) t' (eq_sym (Hi p)) Ht') as (t & Ht & E). exists k', t. unfold ident in E.
      split_and!; congruence.
  - rewrite Ha. split; [done|]. destruct (ident_lookup _ (tasks s' !! actual_task s) ta (Hi _) Hta) as (t' & -> & _). eauto.
Qed.

Lemma queue_nodup k : NoDup (sp_q a k).
Proof. by destruct (qo_dl _ _ _ (so_qs _ _ (im_ok _ _ Him) k)). Qed.

(** A request for the state a task has already changes nothing. *)
Lemma set_state_same p t l1 l2 (mode : bool) : tasks s !! p = Some t -> sp_q a (_set_queue t) = l1 ++ p :: l2 ->
  t_state t <> ZOMBIE -> (if mode then _set_queue t <> SleepQ else _set_queue t = SleepQ) ->
  sched_set_state (task_id t) mode s = Ok (None, s).
Proof.
  intros Ht Hq Hz Hm. pose proof (im_ok _ _ Him) as Hok.
  assert (Hp : p ∈ sp_q a (_set_queue t)) by (rewrite Hq; in_tac).
  destruct (member_task s _ (so_qs _ _ Hok) _ p Hp) as (_ & _ & Hp0 & _).
  destruct (wp_run _ _ _ (get_tcb_wp s _ _ p t Hok Hp Ht)) as (r & s0 & E & -> & ->).
  unfold sched_set_state. rewrite (bind_ok _ _ _ _ _ E).
  assert (El : ld_task p s = Ok (t, s)) by (unfold ld_task; by rewrite Ht, (proj2 (Z.eqb_neq p 0))).
  rewrite (bind_ok _ _ _ _ _ El).
  destruct (home_cases t Hz) as [[Hst Hk]|[Hst Hk]]; destruct mode; try done.
  - rewrite andb_false_r, bool_decide_true by done. done.
  - by rewrite bool_decide_true.
Qed.

(** Falling asleep. *)
Lemma sleep_step p id pr : sp_who a !! p = Some (id, pr) -> exists s' a', spec_step (Sleep p) a = Some a' /\
  perform (Sleep p) s = Ok (tt, s') /\ implements s' a'.
Proof.
  intros Hw. destruct (known_task p id pr Hw) as (t & l1 & l2 & Ht & Hp0 & <- & <- & Hz & Hq & Hk).
  assert (El : ld_task p s = Ok (t, s)) by (unfold ld_task; by rewrite Ht, (proj2 (Z.eqb_neq p 0))).
  cbn [spec_step perform]. rewrite Hw, (bind_ok _ _ _ _ _ El). destruct (decide (p ∈ sp_q a SleepQ)) as [Hs|Hs].
  - exists s, a. split_and!; [done| |done]. unfold sched_sleep_task.
    by rewrite (bind_ok _ _ _ _ _ (set_state_same p t l1 l2 false Ht Hq Hz Hk)).
  - assert (Hne : _set_queue t <> SleepQ) by (rewrite Hk; unfold run_q; by case_decide).
    destruct (wp_run _ _ _ (sleep_wp s _ p t l1 l2 (im_ok _ _ Him) Ht Hq Hne)) as (r & s' & E & _ & Hok & Hrq & _).
    eexists s', _. split; [done|]. split; [by rewrite (bind_ok _ _ _ _ _ E)|]. rewrite <- Hk in *.
    rewrite (relocate_moved _ p _ SleepQ l1 l2) by (done || apply queue_nodup).
    apply implements_same; [exact Hok|intros x; by apply moved_members|intros x; by eapply requeued_ident|].
    by destruct (rq_actual _ _ _ _ _ Hrq).
Qed.

(** Waking up, also when the task that slept is the actual one. *)
Lemma wake_step p id pr : sp_who a !! p = Some (id, pr) -> exists s' a', spec_step (Wake p) a = Some a' /\
  perform (Wake p) s = Ok (tt, s') /\ implements s' a'.
Proof.
  intros Hw. destruct (known_task p id pr Hw) as (t & l1 & l2 & Ht & Hp0 & <- & <- & Hz & Hq & Hk).
  assert (El : ld_task p s = Ok (t, s)) by (unfold ld_task; by rewrite Ht, (proj2 (Z.eqb_neq p 0))).
  cbn [spec_step perform]. rewrite Hw, (bind_ok _ _ _ _ _ El). destruct (decide (p ∈ sp_q a SleepQ)) as [Hs|Hs].
  - destruct (im_actual _ _ Him) as [Ha0 [ta Hta]].
    assert (Hrun : exists r s', sched_wake_task (task_id t) s = Ok (r, s') /\
      sched_ok s' (moved (sp_q a) SleepQ (run_q (t_priority t)) l1 p l2) /\ requeued s s' p t READY).
    { destruct (decide (actual_task s = p)) as [Ea|Ea].
      - destruct (wp_run _ _ _ (wake_self_wp s _ p t l1 l2 (im_ok _ _ Him) Ht Hq Hk Ea)) as (r & s' & E & _ & H1 & H2). eauto.
      - destruct (wp_run _ _ _ (wake_wp s _ p t l1 l2 (im_ok _ _ Him) Ht Hq ta Hk Hta Ha0 Ea)) as (r & s' & E & _ & H1 & H2 & _).
        eauto. }
    destruct Hrun as (r & s' & E & Hok & Hrq). rewrite Hk in Hq.
    eexists s', _. split; [done|]. split; [by rewrite (bind_ok _ _ _ _ _ E)|].
    rewrite (relocate_moved _ p SleepQ _ l1 l2) by (done || apply queue_nodup).
    apply implements_same; [exact Hok| |intros x; by apply (requeued_ident _ _ p t READY)|by destruct (rq_actual _ _ _ _ _ Hrq)].
    intros x. apply moved_members; [done|]. unfold run_q. by case_decide.
  - exists s, a. split_and!; [done| |done]. unfold sched_wake_task.
    assert (Hne : _set_queue t <> SleepQ) by (rewrite Hk; unfold run_q; by case_decide).
    by rewrite (bind_ok _ _ _ _ _ (set_state_same p t l1 l2 true Ht Hq Hz Hne)).
Qed.

(** Leaving. *)
Lemma leave_step p id pr : sp_who a !! p = Some (id, pr) -> exists s' a', spec_step (Leave p) a = Some a' /\
  perform (Leave p) s = Ok (tt, s') /\ implements s' a'.
Proof.
  intros Hw. destruct (known_task p id pr Hw) as (t & l1 & l2 & Ht & Hp0 & <- & <- & Hz & Hq & Hk).
  cbn [spec_step perform]. rewrite Hw, <- Hk.
  destruct (wp_run _ _ _ (sched_remove_wp s _ p t l1 l2 (im_ok _ _ Him) Ht Hq)) as ([] & s' & E & Hok & Hrv).
  eexists s', _. split; [done|]. split; [done|].
  pose proof (queue_nodup (_set_queue t)) as Hnd. rewrite Hq in Hnd |- *. rewrite without_middle by done.
  assert (Hi : forall x, ident <$> tasks s' !! x = ident <$> tasks s !! x).
  { intros x. pose proof (rv_core _ _ Hrv x) as Hx. destruct (tasks s' !! x), (tasks s !! x); try done. cbn in *.
    f_equal. apply ident_core. congruence. }
  assert (Hmem : forall x k, x ∈ upd_q (sp_q a) (_set_queue t) (l1 ++ l2) k <-> x <> p /\ x ∈ sp_q a k).
  { intros x k. unfold upd_q. destruct (decide (k = _set_queue t)) as [->|Hne].
    - rewrite Hq. rewrite (elem_of_skip l1 l2 p) by done. tauto.
    - split; [|tauto]. intros Hx. split; [|done]. intros ->. apply Hne.
      eapply (one_queue s _ (so_qs _ _ (im_ok _ _ Him))); [exact Hx|]. rewrite Hq. in_tac. }
  split; cbn [sp_q sp_who].
  - exact Hok.
  - intros q id0 pr0. rewrite lookup_delete_Some, (im_who _ _ Him). split.
    + intros [Hne (k & u & Hq0 & Hu & <- & <-)]. destruct (ident_lookup _ _ u (Hi q) Hu) as (u' & Hu' & E').
      exists k, u'. unfold ident in E'. split_and!; [apply Hmem; split; [congruence|done]|congruence..].
    + intros (k & u' & Hq0 & Hu' & <- & <-). apply Hmem in Hq0 as [Hne Hq0]. split; [congruence|].
      destruct (ident_lookup _ _ u' (eq_sym (Hi q)) Hu') as (u & Hu & E'). exists k, u. unfold ident in E'.
      split_and!; congruence.
  - destruct (rv_rest _ _ Hrv) as (-> & _). destruct (im_actual _ _ Him) as [Ha0 [ta Hta]]. split; [done|].
    destruct (ident_lookup _ _ ta (Hi _) Hta) as (t' & -> & _). eauto.
Qed.

(** Arriving: nobody knows the block or the identifier. *)
Section arrive.
Context (p : Z) (t : tcb).
Hypotheses (Hp0 : p <> 0) (Hnew : sp_who a !! p = None) (Hid : id_used (sp_who a) (task_id t) = false).

Let t1 := set_t_state READY t.
Let k := run_q (t_priority t).
Let s1 := set_tasks (<[p := t1]> (tasks s)) s.

Lemma new_block_unqueued j : p ∉ sp_q a j.
Proof.
  intros Hp. destruct (member_task s _ (so_qs _ _ (im_ok _ _ Him)) j p Hp) as (u & Hu & _).
  assert (Hw : sp_who a !! p = Some (ident u)) by (apply (im_who _ _ Him); exists j, u; done). congruence.
Qed.

Lemma new_id_unused q u j : q ∈ sp_q a j -> tasks s !! q = Some u -> task_id u <> task_id t.
Proof.
  intros Hq Hu E. assert (Hw : sp_who a !! q = Some (ident u)) by (apply (im_who _ _ Him); exists j, u; done).
  assert (Hin : id_used (sp_who a) (task_id t) = true).
  { unfold id_used. apply existsb_exists. exists (q, ident u). split; [|by apply Z.eqb_eq].
    apply list_elem_of_In, elem_of_map_to_list, Hw. }
  congruence.
Qed.

Lemma block_filled : sched_ok s1 (sp_q a).
Proof.
  apply (sched_ok_ext s); try done; [apply Him|]. intros j x Hx. cbn [tasks set_tasks s1].
  rewrite lookup_insert_ne; [done|]. intros <-. by apply (new_block_unqueued j).
Qed.

Lemma arrived_member j x : x ∈ upd_q (sp_q a) k (sp_q a k ++ [p]) j <-> x ∈ sp_q a j \/ x = p /\ j = k.
Proof.
  unfold upd_q. destruct (decide (j = k)) as [->|Hne]; [|tauto].
  rewrite elem_of_app, list_elem_of_singleton. tauto.
Qed.

Lemma arrive_adds : exists s', _add_to_queue p (set_counts (total_tasks s +w 1) (running_tasks s +w 1) (sleeping_tasks s) s1) = Ok (tt, s') /\
  sched_ok s' (upd_q (sp_q a) k (sp_q a k ++ [p])) /\ (forall x, core <$> tasks s' !! x = core <$> tasks s1 !! x) /\
  actual_task s' = actual_task s /\ rest_of s' = rest_of (set_counts (total_tasks s +w 1) (running_tasks s +w 1) (sleeping_tasks s) s1).
Proof.
  set (s2 := set_counts _ _ _ s1).
  assert (Hok2 : qs_ok s2 (sp_q a)) by apply counts_ok, block_filled.
  assert (Ht2 : tasks s2 !! p = Some t1) by apply lookup_insert_eq.
  assert (Hk1 : _set_queue t1 = k) by done.
  destruct (wp_run _ _ _ (add_wp s2 _ p t1 Hok2 Ht2 Hp0 ltac:(done) new_block_unqueued)) as ([] & s' & E & Hok' & Hc & Hr).
  rewrite Hk1 in Hok'. exists s'. split; [exact E|]. split; [|split; [exact Hc|split; [exact (f_equal actual_task Hr)|exact Hr]]].
  pose proof (f_equal running_tasks Hr) as R1. pose proof (f_equal sleeping_tasks Hr) as R2. cbn in R1, R2.
  split; [exact Hok'| | |].
  - rewrite R1, (so_running _ _ (im_ok _ _ Him)), counter_succ. unfold upd_q, k, run_q.
    destruct (decide (t_priority t = OS)); [rewrite decide_True, decide_False by done|rewrite decide_False, decide_True by done];
      rewrite length_app; cbn [length]; do 2 f_equal; lia.
  - rewrite R2, (so_sleeping _ _ (im_ok _ _ Him)). unfold upd_q.
    assert (SleepQ <> k) by (unfold k, run_q; by case_decide). by rewrite decide_False by done.
  - assert (Hold : forall j x u, x ∈ upd_q (sp_q a) k (sp_q a k ++ [p]) j -> tasks s' !! x = Some u ->
      (x = p /\ task_id u = task_id t) \/ (task_id u <> task_id t /\ exists j' u0, x ∈ sp_q a j' /\ tasks s !! x = Some u0 /\ task_id u0 = task_id u)).
    { intros j x u Hx Hu. specialize (Hc x). rewrite Hu in Hc. cbn [tasks set_tasks set_counts s2 s1] in Hc.
      destruct (decide (x = p)) as [->|Hne].
      - left. split; [done|]. rewrite lookup_insert_eq in Hc. cbn in Hc.
        by destruct (core_home t1 u ltac:(congruence)) as (_ & _ & -> & _).
      - right. rewrite lookup_insert_ne in Hc by done. destruct (tasks s !! x) as [u0|] eqn:Hu0; [|done]. cbn in Hc.
        destruct (core_home u0 u ltac:(congruence)) as (_ & _ & -> & _).
        apply arrived_member in Hx as [Hx|[? _]]; [|done]. split; [by eapply new_id_unused|eauto]. }
    intros j j' x y tx ty Hx Hy Htx Hty Eid.
    destruct (Hold j x tx Hx Htx) as [[-> E1]|[N1 (jx & x0 & Hx0 & Ex0 & E1)]], (Hold j' y ty Hy Hty) as [[-> E2]|[N2 (jy & y0 & Hy0 & Ey0 & E2)]];
      try congruence. apply (so_ids _ _ (im_ok _ _ Him) jx jy x y x0 y0); congruence || done.
Qed.

(** The question whether to switch is always answered, and only remembers
    which task is next. *)
Lemma preempts_returns s3 tp ta : tasks s3 !! p = Some tp -> tasks s3 !! actual_task s3 = Some ta -> actual_task s3 <> 0 ->
  exists r n, preempts p s3 = Ok (r, set_next_to_run n s3).
Proof.
  intros Htp Hta Ha0. unfold preempts.
  assert (El : forall x u, tasks s3 !! x = Some u -> x <> 0 -> ld_task x s3 = Ok (u, s3)).
  { intros x u Hu Hx. unfold ld_task. by rewrite Hu, (proj2 (Z.eqb_neq x 0)). }
  rewrite (bind_ok _ _ _ _ _ (El p tp Htp Hp0)). unfold bind_ at 1, get_.
  rewrite (bind_ok _ _ _ _ _ (El _ ta Hta Ha0)).
  destruct (prio_gt _ _); [by eexists _, _|]. exists None, (next_to_run s3). by destruct s3.
Qed.

Lemma arrived_implements s3 n :
  sched_ok s3 (upd_q (sp_q a) k (sp_q a k ++ [p])) -> (forall x, core <$> tasks s3 !! x = core <$> tasks s1 !! x) ->
  actual_task s3 = actual_task s ->
  implements (set_next_to_run n s3) (mkSpec (upd_q (sp_q a) k (sp_q a k ++ [p])) (<[p := ident t]> (sp_who a))).
Proof.
  intros Hok Hc Ha. destruct (im_actual _ _ Him) as [Ha0 [ta Hta]].
  assert (Hi : forall x, ident <$> tasks s3 !! x = if decide (p = x) then Some (ident t) else ident <$> tasks s !! x).
  { intros x. specialize (Hc x). cbn [tasks set_tasks s1] in Hc. rewrite lookup_insert in Hc.
    case_decide as E; [|destruct (tasks s !! x)]; destruct (tasks s3 !! x); try done; cbn in *; f_equal;
      [by rewrite (ident_core t1) by congruence|apply ident_core; congruence]. }
  split; cbn [sp_q sp_who tasks actual_task set_next_to_run].
  - by apply (sched_ok_ext s3).
  - intros q id pr. rewrite lookup_insert_Some. specialize (Hi q). split.
    + intros [[<- E]|[Hne Hw]].
      * rewrite decide_True in Hi by done. destruct (tasks s3 !! p) as [tp|]; [|done]. cbn in Hi.
        exists k, tp. split_and!; [apply arrived_member; by right|done|..]; unfold ident in *; congruence.
      * rewrite decide_False in Hi by done. apply (im_who _ _ Him) in Hw as (j & u & Hq & Hu & <- & <-).
        destruct (ident_lookup _ _ u Hi Hu) as (u' & Hu' & E). unfold ident in E. exists j, u'.
        split_and!; [apply arrived_member; by left|done|congruence..].
    + intros (j & u & Hq & Hu & <- & <-). case_decide as E; [left|right]; (split; [done|]).
      * rewrite Hu in Hi. cbn in Hi. unfold ident in *. congruence.
      * apply arrived_member in Hq as [Hq|[? _]]; [|congruence]. apply (im_who _ _ Him).
        destruct (ident_lookup _ _ u (eq_sym Hi) Hu) as (u0 & Hu0 & E'). unfold ident in E'.
        exists j, u0. split_and!; [done|done|congruence..].
  - rewrite Ha. split; [done|]. specialize (Hi (actual_task s)). rewrite Hta in Hi.
    destruct (tasks s3 !! actual_task s); [by eexists|]. by case_decide.
Qed.

(** [sched_add_task] up to the question whether to switch. *)
Lemma add_task_at s3 o s4 :
  _add_to_queue p (set_counts (total_tasks s +w 1) (running_tasks s +w 1) (sleeping_tasks s) s1) = Ok (tt, s3) ->
  preempts p s3 = Ok (o, s4) -> sched_add_task p (set_tasks (<[p := t]> (tasks s)) s) = Ok (o, s4).
Proof.
  intros E Epre. set (s0 := set_tasks (<[p := t]> (tasks s)) s).
  assert (Eupd : upd_task p (set_t_state READY) s0 = Ok (tt, s1)).
  { unfold upd_task, ld_task, bind_ at 1. cbn [tasks set_tasks s0]. rewrite lookup_insert_eq, (proj2 (Z.eqb_neq p 0)) by done.
    unfold mod_. cbn [set_tasks tasks s0]. by rewrite insert_insert_eq. }
  unfold sched_add_task. rewrite (bind_ok _ _ _ _ _ Eupd). unfold bind_ at 1, mod_. by rewrite (bind_ok _ _ _ _ _ E).
Qed.

Lemma arrive_accepted : spec_step (Arrive p t) a = Some (mkSpec (upd_q (sp_q a) k (sp_q a k ++ [p])) (<[p := ident t]> (sp_who a))).
Proof. cbn [spec_step]. by rewrite (proj2 (Z.eqb_neq p 0)), bool_decide_false, Hid by (done || by rewrite Hnew). Qed.

Lemma arrive_step : exists s' a', spec_step (Arrive p t) a = Some a' /\
  perform (Arrive p t) s = Ok (tt, s') /\ implements s' a'.
Proof.
  destruct arrive_adds as (s3 & E & Hok & Hc & Ha & Hrest).
  destruct (arrived_implements s3 0 Hok Hc Ha) as [_ _ [Ha0 [ta Hta]]]. cbn in Ha0, Hta.
  assert (Hp3 : exists tp, tasks s3 !! p = Some tp).
  { specialize (Hc p). cbn [tasks set_tasks s1] in Hc. rewrite lookup_insert_eq in Hc. destruct (tasks s3 !! p); eauto. }
  destruct Hp3 as [tp Htp]. destruct (preempts_returns s3 tp ta Htp Hta Ha0) as (r & n & Epre).
  exists (set_next_to_run n s3). eexists. split; [exact arrive_accepted|]. split; [|by apply arrived_implements].
  cbn [perform]. unfold bind_ at 1, mod_. by rewrite (bind_ok _ _ _ _ _ (add_task_at _ _ _ E Epre)).
Qed.

(** A task of the priority of the actual one does not interrupt it. *)
Lemma arrive_quietly ta : tasks s !! actual_task s = Some ta -> t_priority ta = t_priority t -> actual_task s <> p ->
  exists s' a', spec_step (Arrive p t) a = Some a' /\ sched_add_task p (set_tasks (<[p := t]> (tasks s)) s) = Ok (None, s') /\
    implements s' a' /\ (forall x, core <$> tasks s' !! x = core <$> tasks s1 !! x) /\ actual_task s' = actual_task s /\
    rest_of s' = rest_of (set_counts (total_tasks s +w 1) (running_tasks s +w 1) (sleeping_tasks s) s1).
Proof.
  intros Hta Hpr Hne. destruct arrive_adds as (s3 & E & Hok & Hc & Ha & Hrest).
  destruct (im_actual _ _ Him) as [Ha0 _].
  assert (Hp3 : exists tp, tasks s3 !! p = Some tp /\ t_priority tp = t_priority t).
  { pose proof (Hc p) as Ep. cbn [tasks set_tasks s1] in Ep. rewrite lookup_insert_eq in Ep. destruct (tasks s3 !! p) as [tp|]; [|done].
    exists tp. split; [done|]. cbn in Ep. by destruct (core_home t1 tp ltac:(congruence)) as (_ & -> & _). }
  assert (Ha3 : exists ta3, tasks s3 !! actual_task s3 = Some ta3 /\ t_priority ta3 = t_priority ta).
  { pose proof (Hc (actual_task s)) as Ep. cbn [tasks set_tasks s1] in Ep. rewrite lookup_insert_ne, Hta in Ep by done. rewrite Ha.
    destruct (tasks s3 !! actual_task s) as [ta3|]; [|done]. exists ta3. split; [done|]. cbn in Ep.
    by destruct (core_home ta ta3 ltac:(congruence)) as (_ & -> & _). }
  destruct Hp3 as (tp & Htp & Etp), Ha3 as (ta3 & Hta3 & Eta3).
  assert (Epre : preempts p s3 = Ok (None, s3)).
  { unfold preempts, ld_task, bind_ at 1. rewrite Htp, (proj2 (Z.eqb_neq p 0)) by done. unfold bind_ at 1, get_, bind_ at 1.
    rewrite Hta3, Ha, (proj2 (Z.eqb_neq _ 0)), Etp, Eta3, Hpr by done. by destruct (t_priority t). }
  exists s3. eexists. split; [exact arrive_accepted|]. split; [exact (add_task_at _ _ _ E Epre)|].
  split; [|split; [exact Hc|split; [exact Ha|]]].
  - pose proof (arrived_implements s3 (next_to_run s3) Hok Hc Ha) as Hi. by destruct s3.
  - exact Hrest.
Qed.
End arrive.
End step.

(** One event, and any number of them. *)
Lemma step_implements s a e a1 : implements s a -> spec_step e a = Some a1 ->
  exists s1, perform e s = Ok (tt, s1) /\ implements s1 a1.
Proof.
  intros Him E.
  assert (Hdet : (exists s1 a2, spec_step e a = Some a2 /\ perform e s = Ok (tt, s1) /\ implements s1 a2) ->
    exists s1, perform e s = Ok (tt, s1) /\ implements s1 a1).
  { intros (s1 & a2 & E2 & E3 & H1). rewrite E in E2. injection E2 as <-. eauto. }
  apply Hdet. destruct e as [p t|p|p|p]; cbn [spec_step] in E.
  - destruct (Z.eqb_spec p 0); [done|]. destruct (bool_decide (is_Some (sp_who a !! p))) eqn:Ew; [done|].
    destruct (id_used (sp_who a) (task_id t)) eqn:Eu; [done|].
    apply bool_decide_eq_false, eq_None_not_Some in Ew. by apply arrive_step.
  - destruct (sp_who a !! p) as [[id pr]|] eqn:Ew; [|done]. by eapply sleep_step.
  - destruct (sp_who a !! p) as [[id pr]|] eqn:Ew; [|done]. by eapply wake_step.
  - destruct (sp_who a !! p) as [[id pr]|] eqn:Ew; [|done]. by eapply leave_step.
Qed.

(** What [sched_init] leaves: empty queues, counters at zero, and the
    kernel's own task, which no queue ever holds, as the actual one. *)
Definition spec_empty : spec := mkSpec (fun _ => []) ∅.

Lemma boot_implements s : queues s = (fun _ => empty_queue) -> running_tasks s = 0 -> sleeping_tasks s = 0 ->
  actual_task s <> 0 -> is_Some (tasks s !! actual_task s) -> implements s spec_empty.
Proof.
  intros Eq Er Es Ha0 Ha. split; [|intros p id pr; cbn; split; [done|]|done].
  - split; try done; [|intros k k' p q tp tq Hp; by apply elem_of_nil in Hp].
    intros k. split; rewrite ?Eq; try done; [split; [done|apply NoDup_nil_2]|]. intros p t Hp. by apply elem_of_nil in Hp.
  - intros (k & t & Hp & _). by apply elem_of_nil in Hp.
Qed.

(** ** Property *)

(** C6: for every sequence of arrivals, sleeps, wakes and departures the
    abstract machine accepts, the scheduler's routines succeed one after the
    other and end in a state that implements the machine's: the three
    intrusive lists hold exactly its FIFO queues, every counter and task
    state agrees, and identifiers still identify. *)
Theorem scheduler_refines_queues s a es a' : implements s a -> spec_run es a = Some a' ->
  exists s', perform_all es s = Ok (tt, s') /\ implements s' a'.
Proof.
  revert s a. induction es as [|e es IH]; intros s a Him E; cbn [spec_run perform_all] in *.
  - injection E as <-. by exists s.
  - destruct (spec_step e a) as [a1|] eqn:E1; [|done].
    destruct (step_implements s a e a1 Him E1) as (s1 & Es & H1). destruct (IH s1 a1 H1 E) as (s' & E' & H').
    exists s'. split; [|done]. by rewrite (bind_ok _ _ _ _ _ Es).
Qed.

(** The state of a kernel that has just set up its scheduler. *)
Definition boot_sched : sched :=
  mkSched {[ 0x50 := demo_tcb 0 READY OS 0 0 ]} (fun _ => empty_queue) 0 0 0 0x50 0x50 0 0 0.

Definition demo_events : list event :=
  [Arrive 0x10 (demo_tcb 1 READY OS 0 0); Arrive 0x20 (demo_tcb 2 READY OS 0 0); Sleep 0x10; Wake 0x20;
   Arrive 0x30 (demo_tcb 3 READY USER 0 0); Wake 0x10; Leave 0x20].

Lemma scheduler_refines_queues_witness : exists s' a', spec_run demo_events spec_empty = Some a' /\
  perform_all demo_events boot_sched = Ok (tt, s') /\ implements s' a' /\
  sp_q a' OsQ = [0x10] /\ sp_q a' UserQ = [0x30] /\ sp_q a' SleepQ = [].
Proof.
  assert (Hb : implements boot_sched spec_empty).
  { apply boot_implements; try reflexivity; [discriminate|]. by exists (demo_tcb 0 READY OS 0 0). }
  assert (Hr : exists a', spec_run demo_events spec_empty = Some a' /\ sp_q a' OsQ = [0x10] /\ sp_q a' UserQ = [0x30] /\ sp_q a' SleepQ = [])
    by (eexists; split_and!; vm_compute; reflexivity).
  destruct Hr as (a' & E & H1 & H2 & H3).
  destruct (scheduler_refines_queues boot_sched spec_empty demo_events a' Hb E) as (s' & Es & Hi).
  exists s', a'. exact (conj E (conj Es (conj Hi (conj H1 (conj H2 H3))))).
Defined.
