(* ===== verification/ForkTask.v ===== *)
(** * Forking a task

    [do_fork] copies the address space of a task ([ForkAspace.v]), makes a
    block with a kernel stack of its own ([AreaSpec.v]), puts it among the
    children of the running task ([FamilySpec.v]), fills it in from the
    parent's and gives it to the scheduler ([SchedTrace.v]). *)

From S2P Require Import Prelude Dlist Pmm Kmalloc Heap Paging MmuSpec SpaceSpec DupSpec Vmm VmmSpec ForkSpec DirSpec ForkAspace Vmalloc VmallocSpec AreaSpec Klib Terminal TerminalSpec Namei Sched SchedSpec Kernel Vfs Files FilesSpec FdSpec Task TaskSpec FamilySpec SchedTrace.

#[local] Open Scope Z_scope.

(** ** A new task *)

Section new_task.
Context {H : Type} `{!Allocator H}.
Implicit Types (k : kernel H).

(** The block of a new child of [t], but for its links to siblings. *)
Definition child_block (t id stack : Z) (prio : task_priority) (pd_ as_ : Z) : tcb :=
  set_t_parent t (new_tcb id stack prio pd_ as_).

(** The running task [t] has the children [ch]; there is an identifier, a
    frame for a kernel stack, and room for the block and its descriptor. *)
Record spawn_ready k t c ch as_ N l B : Prop := {
  sr_task : tasks (k_sched k) !! t = Some c /\ actual_task (k_sched k) = t;
  sr_tree : task_tree_root (k_sched k) <> 0 /\ family (tasks (k_sched k)) t ch;
  sr_tid : 0 <= old_tid (k_sched k) < MAX_TID;
  sr_as : v_aspaces (k_vmm k) !! as_ = Some N /\ as_ <> 0;
  sr_blocks : forall x, is_Some (tasks (k_sched k) !! x) -> is_Some (B !! x);
  sr_area : area_ok (get_vma k) l B 1240;
  sr_hole : ~ no_hole (get_vma k) l 4096;
  sr_frames : inv (m_pmm (v_mach (k_vmm k))) /\ 0 < free_frames (m_pmm (v_mach (k_vmm k)));
}.

(** The block [p] is new; its stack is the page at [a], in the frame [i]. *)
Record spawned k t ch prio as_ N l B p a i k' : Prop := {
  sw_fresh : p <> 0 /\ p <> t /\ tasks (k_sched k) !! p = None /\ B !! p = None;
  sw_vma : exists h z s1, al_malloc SIZEOF_TCB (v_heap (k_vmm k)) = Ok (p, h) /\
    page_given (set_va_heap h (get_vma k)) l (<[p := z]> B) 0 a i s1 /\
    exists m', k' = set_sched (set_tasks m' (set_old_tid (old_tid (k_sched k) +w 1) (k_sched k))) (put_vma s1 k) /\
      family m' t (ch ++ [p]) /\
      kin_changed (<[p := child_block t (old_tid (k_sched k) +w 1) (a + 4096) prio (pd N) as_]> (tasks (k_sched k))) m' t (p :: ch);
}.

Lemma get_tid_run k : 0 <= old_tid (k_sched k) < MAX_TID ->
  _get_tid k = Ok (old_tid (k_sched k) +w 1, set_sched (set_old_tid (old_tid (k_sched k) +w 1) (k_sched k)) k).
Proof.
  intros Hlt. unfold _get_tid. rewrite (bind_ok _ _ k (old_tid (k_sched k)) k); [|by apply on_sched_get].
  by rewrite (proj2 (Z.eqb_neq _ _)) by lia.
Qed.

Lemma task_new_wp k t c ch prio as_ N l B : spawn_ready k t c ch as_ N l B ->
  wp (task_new prio as_) (fun p k' => exists a i, spawned k t ch prio as_ N l B p a i k') k.
Proof.
  intros [[Ec Et] [Hroot F] Htid [Eas Has0] Hblocks Harea Hhole [Hpm Hfree]].
  destruct (area_alloc _ _ _ SIZEOF_TCB 58 Harea ltac:(done) ltac:(done) ltac:(done)) as (p & h & z & Eal & Hp0 & HBp & Harea1).
  assert (Hpn : tasks (k_sched k) !! p = None).
  { destruct (tasks (k_sched k) !! p) eqn:E; [|done]. destruct (Hblocks p) as [? E']; [eauto|]. congruence. }
  assert (Hpt : p <> t) by (intros ->; congruence).
  assert (Hpc : p ∉ ch) by (intros Hin; destruct (family_member _ _ _ _ F Hin) as (u & Eu & _); congruence).
  destruct (page_is_given _ _ _ 0 Harea1 ltac:(done) Hhole Hpm Hfree) as (a & i & s1 & Evm & Hgiven).
  change (va_heap (get_vma k)) with (v_heap (k_vmm k)) in Eal. set (id := old_tid (k_sched k) +w 1).
  unfold task_new. apply wp_bind. eapply wp_intro; [unfold kmem_alloc, on_vm, on_heap, zoom; by rewrite Eal|].
  apply wp_bind. unfold mod_sched, on_sched at 1. apply wp_zoom, wp_mod. set (k1 := set_sched _ _).
  apply wp_bind. eapply wp_intro; [apply (get_tid_run k1), Htid|]. change (old_tid (k_sched k1)) with (old_tid (k_sched k)). fold id.
  set (k2 := set_sched _ k1). apply wp_bind. eapply wp_intro.
  { change (get_vma k) with (get_vma k) in Evm. unfold on_vma, zoom. change (get_vma k2) with (set_va_heap h (get_vma k)). by rewrite Evm. }
  apply wp_bind. eapply wp_intro.
  { unfold on_vm, zoom, ld_as. cbn [v_aspaces set_heap set_mach k_vmm put_vma set_area set_vmm set_sched k2 k1].
    rewrite Eas, (proj2 (Z.eqb_neq as_ 0)) by done. reflexivity. }
  match goal with |- wp _ _ ?s =>
    change s with (set_sched (set_old_tid id (set_tasks (<[p := zero_tcb]> (tasks (k_sched k))) (k_sched k))) (put_vma s1 k)) end.
  destruct (pg_page _ _ _ _ _ _ _ Hgiven) as (_ & Ha1 & Ha2). unfold VM_VMALLOC_START, VM_VMALLOC_END in *.
  rewrite (w32_small (a + 4096)) by lia.
  apply wp_bind. eapply wp_upd_tcb; [cbn; by rewrite lookup_insert_eq|done|]. unfold put_tcb. cbn [k_sched set_sched tasks set_old_tid set_tasks].
  rewrite insert_insert_eq. apply wp_bind. eapply wp_intro; [by apply on_sched_get|]. cbn [k_sched set_sched task_tree_root set_old_tid set_tasks].
  rewrite (proj2 (Z.eqb_neq _ 0) Hroot). apply wp_bind, wp_bind. eapply wp_intro; [by apply on_sched_get|].
  cbn [k_sched set_sched actual_task set_old_tid set_tasks]. rewrite Et. apply wp_bind.
  eapply wp_upd_tcb; [cbn; by rewrite lookup_insert_eq|done|]. unfold put_tcb. cbn [k_sched set_sched tasks set_old_tid set_tasks].
  rewrite insert_insert_eq. fold (child_block t id (a + 4096) prio (pd N) as_).
  eapply wp_mono; [eapply (join_family_wp _ t ch p (child_block t id (a + 4096) prio (pd N) as_))|]; cbn [k_sched set_sched tasks set_old_tid set_tasks];
    try done; [|by rewrite lookup_insert_eq|].
  - apply (family_ext (tasks (k_sched k))); [done|]. intros x Hx. rewrite lookup_insert_ne; [done|]. intros <-. by destruct Hx.
  - intros [] k' (m' & -> & F' & Hk). apply wp_ret. exists a, i. split; [done|]. exists h, z, s1. split; [done|]. split; [done|].
    exists m'. by split_and!.
Qed.
End new_task.

(** ** The descriptors of the child *)

Lemma fork_fds_all src : forall i, (length src <= i)%nat ->
  fork_fds i src (replicate (length src) 0) (Z.of_nat (in_use src)) = src.
Proof.
  assert (Hnone : forall l, in_use l = 0%nat -> replicate (length l) 0 = l).
  { induction l as [|x l IH]; [done|]. unfold in_use. cbn. destruct (Z.eqb_spec x 0) as [->|]; cbn; [|done].
    intros E. by rewrite IH. }
  induction src as [|x src IH]; intros i Hi; [done|]. cbn [length replicate fork_fds]. destruct i as [|i]; [cbn in Hi; lia|].
  change (Nat.ltb 0 (S i)) with true. rewrite andb_true_r. destruct (Z.ltb_spec 0 (Z.of_nat (in_use (x :: src)))) as [Hp|Hz].
  - cbn [length] in Hi. change (pred (S i)) with i. unfold in_use in Hp |- *. cbn [List.filter] in Hp |- *.
    destruct (Z.eqb_spec x 0) as [->|Hx]; cbn [negb] in Hp |- *; f_equal; [apply (IH i); lia|].
    cbn [length]. rewrite Nat2Z.inj_succ, Z.sub_1_r, Z.pred_succ. apply (IH i). lia.
  - apply (Hnone (x :: src)). lia.
Qed.

(** ** The whole call *)

Section fork_task.
Context {H : Type} `{!Allocator H}.
Context (kern : Z).
Implicit Types (k : kernel H).

(** The child of [t], whose block is [c], as fork leaves it. *)
Definition twin (t id stack pd_ as_ : Z) (c : tcb) : tcb :=
  mkTcb id stack 0 (fd_ctr c) (used_fd c) (t_mask c) 0 0 t 0 0 0 0 READY (t_priority c) 0 0
    (regs_set_retval 0 (regs_fork (t_regs c) (regs_set_pd pd_ zero_regs))) as_.

(** The running task [t] can be forked. *)
Record fork_ready k t c ch a A l (F : Z -> Prop) B lva : Prop := {
  fr_task : tasks (k_sched k) !! t = Some c /\ actual_task (k_sched k) = t;
  fr_tree : task_tree_root (k_sched k) <> 0 /\ family (tasks (k_sched k)) t ch;
  fr_queues : implements (k_sched k) a;
  fr_tid : 0 <= old_tid (k_sched k) < MAX_TID /\ id_used (sp_who a) (old_tid (k_sched k) + 1) = false;
  fr_files : table_ok k c;
  fr_space : create_pre kern (k_vmm k) (t_aspace c) A l F B 1240 1;
  fr_blocks : forall x, is_Some (tasks (k_sched k) !! x) -> is_Some (B !! x);
  fr_area : area_ok (get_vma k) lva B 0;
  fr_hole : ~ no_hole (get_vma k) lva 4096;
}.

(** The child [p] of [t], its address space [new] and its kernel stack. *)
Record forked_task k t c ch a A l (F : Z -> Prop) p new N stack l' fs k' : Prop := {
  ft_child : p <> 0 /\ tasks (k_sched k) !! p = None /\ family (tasks (k_sched k')) p [] /\
    stem <$> tasks (k_sched k') !! p = Some (stem (twin t (old_tid (k_sched k) + 1) stack (pd N) new c));
  ft_others : forall x, x <> p -> stem <$> tasks (k_sched k') !! x = stem <$> tasks (k_sched k) !! x;
  ft_tree : family (tasks (k_sched k')) t (ch ++ [p]);
  ft_queues : exists a', spec_step (Arrive p (twin t (old_tid (k_sched k) + 1) stack (pd N) new c)) a = Some a' /\
    implements (k_sched k') a' /\ actual_task (k_sched k') = t;
  ft_space : v_aspaces (k_vmm k) !! new = None /\ v_aspaces (k_vmm k') !! new = Some N /\
    as_list (k_vmm k') new l' /\ Forall2 (fun q q' => rg (v_regions (k_vmm k')) q' = rg (v_regions (k_vmm k)) q) l l' /\
    as_list (k_vmm k') (t_aspace c) l /\ v_aspaces (k_vmm k') !! t_aspace c = Some A;
  ft_pages : Forall2 (page_copied (m_pmm (v_mach (k_vmm k))) (ram (v_mach (k_vmm k))) (pd A)
      (pd N) (ram (v_mach (k_vmm k')))) (pages_of (v_regions (k_vmm k)) l) fs /\ NoDup (filter (fun f => f <> 0) fs);
  ft_parent : same_space (frame_of (Paging.cr3 (v_mach (k_vmm k)))) (pd A) (ram (v_mach (k_vmm k))) (ram (v_mach (k_vmm k'))) /\
    forall f j, F f -> 0 <= j < 4096 -> phys_byte (ram (v_mach (k_vmm k'))) (f + j) = phys_byte (ram (v_mach (k_vmm k))) (f + j);
  ft_stack : exists i, frame_used (m_pmm (v_mach (k_vmm k))) i = false /\ forall j, 0 <= j < 4096 ->
    walk_dir (ram (v_mach (k_vmm k'))) (frame_of (Paging.cr3 (v_mach (k_vmm k)))) (stack - 4096 + j) = Some (i * 4096 + j);
  ft_rest : k_fs k' = k_fs k /\ k_fds k' = k_fds k /\ first_fd k' = first_fd k /\ k_term k' = k_term k;
}.

(** What fork writes into the child's block [d] from the parent's [c]. *)
Definition fork_block (c d : tcb) : tcb :=
  set_fd_ctr (fd_ctr c) (set_used_fd (fork_fds MAX_FDS (used_fd c) (used_fd d) (fd_ctr c))
    (set_signals (t_mask c) (t_current d) (set_regs (regs_fork (t_regs c) (t_regs d)) d))).

Definition returns_zero (d : tcb) : tcb := set_regs (regs_set_retval 0 (t_regs d)) d.

Lemma fork_block_twin k t c id stack pd_ as_ c2 d : table_ok k c -> unkin c2 = unkin c ->
  unkin d = unkin (child_block t id stack (t_priority c) pd_ as_) ->
  stem (returns_zero (set_t_state READY (fork_block c2 d))) = stem (twin t id stack pd_ as_ c).
Proof.
  intros Hok Ec Ed.
  assert (E1 : fd_ctr c2 = fd_ctr c) by exact (f_equal fd_ctr Ec). assert (E2 : used_fd c2 = used_fd c) by exact (f_equal used_fd Ec).
  assert (E3 : t_mask c2 = t_mask c) by exact (f_equal t_mask Ec). assert (E4 : t_regs c2 = t_regs c) by exact (f_equal t_regs Ec).
  assert (E5 : fork_fds MAX_FDS (used_fd c) (replicate MAX_FDS 0) (fd_ctr c) = used_fd c).
  { rewrite (to_ctr _ _ Hok), <- (to_len _ _ Hok). apply fork_fds_all. done. }
  unfold fork_block. rewrite E1, E2, E3, E4. destruct d. cbv [unkin set_t_prev_sibling set_t_next_sibling set_t_children child_block
    set_t_parent new_tcb] in Ed.
  set (none := replicate MAX_FDS 0) in *. clearbody none. cbn in Ed.
  injection Ed. intros. subst. cbn -[fork_fds MAX_FDS]. rewrite E5. reflexivity.
Qed.

(** Which views of the blocks the last steps of fork leave alone. *)
Lemma finished_view {V} (f : tcb -> V) (m' : gmap Z tcb) p d e c2 (T : gmap Z tcb) x :
  (forall u, f u = f (core u)) -> f (returns_zero (set_t_state READY (fork_block c2 d))) = f d -> m' !! p = Some d ->
  (forall y, core <$> T !! y = core <$> <[p := set_t_state READY (fork_block c2 d)]> m' !! y) -> T !! p = Some e ->
  (forall u u', f u = f u' -> f (returns_zero u) = f (returns_zero u')) ->
  f <$> <[p := returns_zero e]> T !! x = f <$> m' !! x.
Proof.
  intros Hcore Hd Ed Hc Ee Hz. rewrite lookup_insert. specialize (Hc x). case_decide as Ex.
  - subst x. rewrite lookup_insert_eq, Ee in Hc. apply (inj Some) in Hc. rewrite Ed. cbn. f_equal. rewrite <- Hd. apply Hz.
    rewrite (Hcore e), Hc. symmetry. apply Hcore.
  - rewrite lookup_insert_ne in Hc by done. destruct (T !! x) as [u|], (m' !! x) as [u'|]; try done. apply (inj Some) in Hc.
    cbn. f_equal. by rewrite (Hcore u), Hc, <- Hcore.
Qed.

Section ready.
Context (k : kernel H) (t : Z) (c : tcb) (ch : list Z) (a : spec) (A : aspace) (l : list Z) (F : Z -> Prop) (B : gmap Z Z) (lva : list Z).
Hypothesis Hready : fork_ready k t c ch a A l F B lva.
Let v0 := k_vmm k.
Let m0 := v_mach v0.
Let dir := frame_of (Paging.cr3 m0).

(** After the address space was made: a fork of its pages is done, and a
    task can be made. *)
Record space_made (new : Z) (N : aspace) (l' fs : list Z) (B' : gmap Z Z) (v1 : vmm H) : Prop := {
  sm_space : v_aspaces v0 !! new = None /\ v_aspaces v1 !! new = Some N /\
    as_list v1 new l' /\ Forall2 (fun q q' => rg (v_regions v1) q' = rg (v_regions v0) q) l l' /\
    as_list v1 (t_aspace c) l /\ v_aspaces v1 !! t_aspace c = Some A;
  sm_fork : exists m1 i, got_frame (m_pmm m0) i (m_pmm m1) /\ kept dir (frame_words (i * 4096)) (ram m0) (ram m1) /\
    forked (m_pmm m1) (ram m1) dir (pd A) (pd N) F (pages_of (v_regions v0) l) fs (v_mach v1);
  sm_heap : B ⊆ B' /\ al_rep (v_heap v1) B' /\ al_room (v_heap v1) 1240;
  sm_frames : 1 <= free_frames (m_pmm (v_mach v1));
}.

Lemma make_space : exists new N l' fs B' v1, vmm_aspace_create kern (t_aspace c) v0 = Ok (new, v1) /\ new <> 0 /\
  space_made new N l' fs B' v1.
Proof.
  pose proof (fr_space _ _ _ _ _ _ _ _ _ _ Hready) as Hpre.
  destruct (vmm_aspace_create_run kern v0 _ A l F B 1240 1 Hpre)
    as (new & i & h & z & s' & v1 & l' & fs & E & Hnone & Hna & Hg & Hcr & K & FD & HB).
  destruct (fd_as _ _ _ _ _ _ _ _ _ _ _ _ _ FD) as (f & y & Eas). pose proof (fd_pages _ _ _ _ _ _ _ _ _ _ _ _ _ FD) as FK.
  cbn [created_state v_mach v_regions v_aspaces set_mach set_aspaces set_heap] in Eas, FK. rewrite Hcr in FK.
  destruct (fd_live _ _ _ _ _ _ _ _ _ _ _ _ _ FD) as (B' & [Hrep _] & HBB & Hroom).
  exists new, (copy_layout A (set_last y (set_first f (set_pd (i * 4096) zero_aspace)))), l', fs, B', v1.
  split; [done|]. split; [exact (al_nz _ _ _ (fd_dst _ _ _ _ _ _ _ _ _ _ _ _ _ FD))|]. split.
  - split; [done|]. split; [by rewrite Eas, lookup_insert_eq|]. split; [apply FD|]. split; [apply FD|]. split; [apply FD|].
    rewrite Eas, !lookup_insert_ne by done. apply Hpre.
  - exists s', i. split; [done|]. split; [done|]. exact FK.
  - split; [|done]. etransitivity; [|exact HBB]. by apply insert_subseteq.
  - apply FD.
Qed.

Section made.
Context (new : Z) (N : aspace) (l' fs : list Z) (B' : gmap Z Z) (v1 : vmm H).
Hypotheses (Hnew : new <> 0) (HM : space_made new N l' fs B' v1).
Let k1 := set_vmm v1 k.

Lemma made_dir : frame_of (Paging.cr3 (v_mach v1)) = dir.
Proof. destruct (sm_fork _ _ _ _ _ _ HM) as (m1 & i & _ & _ & FK). apply FK. Qed.

Lemma spawn_from : spawn_ready k1 t c ch new N lva B'.
Proof.
  destruct (sm_fork _ _ _ _ _ _ HM) as (m1 & i & _ & K & FK). destruct (sm_heap _ _ _ _ _ _ HM) as (HBB & Hrep & Hroom).
  pose proof (fk_guard _ _ _ _ _ _ _ _ _ FK) as G. split; try apply Hready.
  - by destruct (sm_space _ _ _ _ _ _ HM) as (_ & ? & _).
  - intros x Hx. destruct (fr_blocks _ _ _ _ _ _ _ _ _ _ Hready x Hx) as [zx Ez]. exists zx. by eapply lookup_weaken.
  - pose proof made_dir as Ed. eapply (area_after (get_vma k)); [exact (fr_area _ _ _ _ _ _ _ _ _ _ Hready)|done|done|exact HBB|exact Hrep|exact Hroom|exact Ed|..].
    + apply G.
    + intros j Hj Hj2. change (pde (ram (v_mach v1)) dir j = pde (ram m0) dir j).
      rewrite (fk_pde _ _ _ _ _ _ _ _ _ FK) by done. by apply (kp_pde _ _ _ _ K).
  - split; [apply G|]. pose proof (sm_frames _ _ _ _ _ _ HM) as Hf. change (0 < free_frames (m_pmm (v_mach v1))). lia.
Qed.

(** The memory of the child, when its kernel stack was mapped too. *)
Lemma memory_after h p z b i s1 : page_given (set_va_heap h (get_vma k1)) lva (<[p := z]> B') 0 b i s1 ->
  Forall2 (page_copied (m_pmm m0) (ram m0) (pd A) (pd N) (ram (va_mach s1))) (pages_of (v_regions v0) l) fs /\
  NoDup (filter (fun f => f <> 0) fs) /\
  same_space dir (pd A) (ram m0) (ram (va_mach s1)) /\
  (forall f j, F f -> 0 <= j < 4096 -> phys_byte (ram (va_mach s1)) (f + j) = phys_byte (ram m0) (f + j)) /\
  frame_used (m_pmm m0) i = false /\
  forall j, 0 <= j < 4096 -> walk_dir (ram (va_mach s1)) dir (b + j) = Some (i * 4096 + j).
Proof.
  intros Hgiven. destruct (sm_fork _ _ _ _ _ _ HM) as (m1 & i0 & Hg0 & K & FK). pose proof made_dir as Ed.
  pose proof (fr_space _ _ _ _ _ _ _ _ _ _ Hready) as Hpre.
  destruct (pg_page _ _ _ _ _ _ _ Hgiven) as (Hbp & Hb1 & Hb2). destruct (pg_frame _ _ _ _ _ _ _ Hgiven) as [Hg _].
  destruct (pg_maps _ _ _ _ _ _ _ Hgiven) as (w & R & Hwf & Hwp). unfold dir_of in R.
  cbn [va_mach set_va_heap get_vma k_vmm k1 set_vmm] in R, Hg. rewrite Ed in R.
  assert (HF1 : tables_in F (ram m1) (pd A)).
  { apply (tables_same _ _ _ _ _ (created_space kern v0 _ A l F B 1240 1 Hpre i0 m1 Hg0 K)), Hpre. }
  assert (FK' : forked (m_pmm m1) (ram m1) dir (pd A) (pd N) F (pages_of (v_regions v0) l) fs (va_mach s1)).
  { eapply forked_remap; [exact HF1|exact FK|exact Hg|exact (pg_cr3 _ _ _ _ _ _ _ Hgiven)|exact R|].
    unfold VM_USER_END, VM_VMALLOC_START in *. lia. }
  split_and!.
  - eapply pages_before; [exact Hpre|exact Hg0|exact K|apply FK'|apply FK'].
  - apply FK'.
  - eapply same_space_trans; [exact (created_space kern v0 _ A l F B 1240 1 Hpre i0 m1 Hg0 K)|]. exact (fk_src _ _ _ _ _ _ _ _ _ FK').
  - intros f j Hf Hj. rewrite (data_bytes kern v0 _ A l F B 1240 1 Hpre (ram m1) (ram (va_mach s1)) f Hf); [|intros q; by apply (fk_data _ _ _ _ _ _ _ _ _ FK')|done].
    apply (data_bytes kern v0 _ A l F B 1240 1 Hpre); [done| |done].
    intros q. by apply (created_data m0 F kern (cp_mach _ _ _ _ _ _ _ _ _ Hpre) i0 m1 Hg0 K).
  - destruct (frame_used (m_pmm m0) i) eqn:Eu; [|done]. destruct Hg as (Hr & Hi & _).
    rewrite (fk_used _ _ _ _ _ _ _ _ _ FK) in Hi; [done| |].
    + pose proof (inv_kernel _ (gd_mem _ _ _ _ _ (fk_guard _ _ _ _ _ _ _ _ _ FK))). lia.
    + eapply got_used; [exact Hg0| |done]. pose proof (inv_kernel _ (gd_mem _ _ _ _ _ (fk_guard _ _ _ _ _ _ _ _ _ FK))). lia.
  - intros j Hj. destruct (same_page b j Hbp Hj) as [E1 E2]. destruct (area_page (b + j)) as [Hw Hlt]; [lia|].
    by rewrite (re_walk _ _ _ _ _ R), decide_True, Hwp, Hwf, E2.
Qed.

(** The scheduler's side: the child arrives at the end of its queue. *)
Lemma child_arrives p m' d id stack : 0 < id < W32 -> id = old_tid (k_sched k) + 1 -> p <> 0 -> p <> t -> tasks (k_sched k) !! p = None ->
  kin_changed (<[p := child_block t id stack (t_priority c) (pd N) new]> (tasks (k_sched k))) m' t (p :: ch) ->
  m' !! p = Some d -> forall c2, m' !! t = Some c2 ->
  let s := set_tasks m' (set_old_tid id (k_sched k)) in let b := fork_block c2 d in
  exists s' a', spec_step (Arrive p (twin t id stack (pd N) new c)) a = Some a' /\
    sched_add_task p (set_tasks (<[p := b]> m') s) = Ok (None, s') /\ implements s' a' /\ actual_task s' = t /\
    (forall x, core <$> tasks s' !! x = core <$> <[p := set_t_state READY b]> m' !! x).
Proof.
  intros Hid Eid Hp0 Hpt Hpn Hk Ed c2 Ec2 s b. destruct (fr_task _ _ _ _ _ _ _ _ _ _ Hready) as [Ec Et].
  pose proof (kc_unkin _ _ _ _ Hk p) as Ud. rewrite lookup_insert_eq, Ed in Ud. apply (inj Some) in Ud.
  pose proof (kc_unkin _ _ _ _ Hk t) as Uc. rewrite lookup_insert_ne, Ec, Ec2 in Uc by done. apply (inj Some) in Uc.
  assert (Him : implements s a).
  { apply (implements_ext (k_sched k)); try done; [apply Hready|]. intros x [u Eu]. cbn [s tasks set_tasks].
    assert (Hxp : p <> x) by (intros ->; congruence). pose proof (kc_unkin _ _ _ _ Hk x) as Ux. rewrite lookup_insert_ne, Eu in Ux by done.
    rewrite Eu. destruct (m' !! x) as [u'|]; [|done]. apply (inj Some) in Ux. cbn. by rewrite (proj1 (unkin_vital _ _ Ux)). }
  assert (Hprio : t_priority b = t_priority c) by exact (f_equal t_priority Ud).
  assert (Hbid : task_id b = id) by exact (f_equal task_id Ud).
  assert (Hnew_p : sp_who a !! p = None).
  { destruct (sp_who a !! p) as [[i0 pr]|] eqn:Ew; [|done]. apply (im_who _ _ (fr_queues _ _ _ _ _ _ _ _ _ _ Hready)) in Ew as (q & u & _ & Eu & _). congruence. }
  destruct (arrive_quietly s a Him p b Hp0 Hnew_p) with (ta := c2) as (s' & a' & Estep & Eadd & Him' & Hc & Hact & _).
  - rewrite Hbid, Eid. apply (fr_tid _ _ _ _ _ _ _ _ _ _ Hready).
  - cbn [s tasks set_tasks actual_task set_old_tid]. by rewrite Et.
  - rewrite Hprio. exact (f_equal t_priority Uc).
  - cbn [s tasks set_tasks actual_task set_old_tid]. by rewrite Et.
  - exists s', a'. split; [|split; [exact Eadd|split; [exact Him'|split; [|exact Hc]]]].
    + rewrite <- Estep. unfold spec_step. rewrite Hprio, Hbid. reflexivity.
    + rewrite Hact. exact Et.
Qed.

Lemma fork_finished p m' d c2 e s' a' b i h z s1 : let id := old_tid (k_sched k) + 1 in
  p <> 0 -> p <> t -> tasks (k_sched k) !! p = None -> page_given (set_va_heap h (get_vma k1)) lva (<[p := z]> B') 0 b i s1 ->
  family m' t (ch ++ [p]) ->
  kin_changed (<[p := child_block t id (b + 4096) (t_priority c) (pd N) new]> (tasks (k_sched k))) m' t (p :: ch) ->
  m' !! p = Some d -> m' !! t = Some c2 ->
  spec_step (Arrive p (twin t id (b + 4096) (pd N) new c)) a = Some a' -> implements s' a' -> actual_task s' = t ->
  (forall x, core <$> tasks s' !! x = core <$> <[p := set_t_state READY (fork_block c2 d)]> m' !! x) -> tasks s' !! p = Some e ->
  forked_task k t c ch a A l F p new N (b + 4096) l' fs (put_tcb p (returns_zero e) (set_sched s' (put_vma s1 k1))).
Proof.
  intros id Hp0 Hpt Hpn Hgiven Fm Hk Ed Ec2 Estep Him Hact Hc Ee.
  destruct (fr_task _ _ _ _ _ _ _ _ _ _ Hready) as [Ec Et].
  pose proof (kc_unkin _ _ _ _ Hk p) as Ud. rewrite lookup_insert_eq, Ed in Ud. apply (inj Some) in Ud.
  pose proof (kc_unkin _ _ _ _ Hk t) as Uc. rewrite lookup_insert_ne, Ec, Ec2 in Uc by done. apply (inj Some) in Uc.
  pose proof (kc_brood _ _ _ _ Hk p Hpt) as Bd. rewrite lookup_insert_eq, Ed in Bd. apply (inj Some) in Bd.
  assert (Ee' : core e = core (set_t_state READY (fork_block c2 d))).
  { pose proof (Hc p) as E. rewrite lookup_insert_eq, Ee in E. by apply (inj Some) in E. }
  set (T := <[p := returns_zero e]> (tasks s')).
  assert (Hkin : forall x, kinship <$> T !! x = kinship <$> m' !! x).
  { intros x. by apply (finished_view kinship m' p d e c2). }
  destruct (memory_after h p z b i s1 Hgiven) as (M1 & M2 & M3 & M4 & M5 & M6).
  split; cbn [put_tcb k_sched set_sched tasks set_tasks k_vmm put_vma set_area set_vmm actual_task]; fold T.
  - split; [done|]. split; [done|]. split.
    + split.
      * exists (returns_zero e). split; [apply lookup_insert_eq|]. etransitivity; [exact (f_equal brood Ee')|exact Bd].
      * split; [done|constructor].
      * intros x u Hx. by apply elem_of_nil in Hx.
      * split; [apply not_elem_of_nil|done].
    + unfold T. rewrite lookup_insert_eq. cbn. f_equal. etransitivity; [exact (f_equal (fun u => unkin (returns_zero u)) Ee')|].
      apply (fork_block_twin k); [apply Hready|done|done].
  - intros x Hx. unfold T. rewrite lookup_insert_ne by done. specialize (Hc x). rewrite lookup_insert_ne in Hc by done.
    pose proof (kc_unkin _ _ _ _ Hk x) as Ux. rewrite lookup_insert_ne in Ux by done.
    destruct (tasks s' !! x) as [u|], (m' !! x) as [u'|], (tasks (k_sched k) !! x) as [u0|]; try done.
    apply (inj Some) in Hc, Ux. cbn. f_equal. rewrite (core_stem _ _ Hc). by apply unkin_core.
  - by apply (family_ext m').
  - exists a'. split; [done|]. split; [|done]. apply (implements_ext s'); try done. intros x _. cbn [tasks set_tasks].
    unfold T. rewrite lookup_insert. case_decide as Ex; [|done]. subst x. by rewrite Ee.
  - destruct (sm_space _ _ _ _ _ _ HM) as (S1 & S2 & S3 & S4 & S5 & S6).
    split_and!; [done|done|by apply (as_list_frame v1)|done|by apply (as_list_frame v1)|done].
  - by split.
  - by split.
  - exists i. split; [done|]. intros j Hj. rewrite Z.add_simpl_r. by apply M6.
  - done.
Qed.

(** From the new block on: filling it in, and the scheduler. *)
Definition fork_rest (n : nat) (p : Z) : KC (H := H) Z :=
  do c <- task t;
  upd_tcb p (fun d => set_regs (regs_fork (t_regs c) (t_regs d)) d) ;;;
  upd_tcb p (fun d => set_signals (t_mask c) (t_current d) d) ;;;
  upd_tcb p (fun d => set_used_fd (fork_fds MAX_FDS (used_fd c) (used_fd d) (fd_ctr c)) d) ;;;
  upd_tcb p (set_fd_ctr (fd_ctr c)) ;;;
  do r <- on_sched (sched_add_task p);
  do! _ <- preempt n r;
  upd_tcb p returns_zero ;;;
  do d <- task p;
  returns (ret_ (task_id d)).

Lemma fork_rest_wp n p b i k2 : spawned k1 t ch (t_priority c) new N lva B' p b i k2 ->
  wp (fork_rest n p) (fun r k' => r = Returns (old_tid (k_sched k) + 1) /\
    forked_task k t c ch a A l F p new N (b + 4096) l' fs k') k2.
Proof.
  intros [(Hp0 & Hpt & Hpn & _) (h & z & s1 & _ & Hgiven & m' & -> & Fm & Hk)].
  destruct (fr_tid _ _ _ _ _ _ _ _ _ _ Hready) as [Htid _]. unfold MAX_TID in Htid.
  set (id := old_tid (k_sched k) + 1). cbn [k_sched k1 set_vmm] in Hpn, Hk |- *.
  assert (Eid : old_tid (k_sched k) +w 1 = id) by (apply w32_small; lia). rewrite Eid in *.
  destruct (fm_parent _ _ _ Fm) as (c2 & Ec2 & _). assert (Ht0 : t <> 0) by (destruct (fm_apart _ _ _ Fm); done).
  destruct (family_member _ _ _ p Fm ltac:(apply elem_of_app; right; by left)) as (d & Ed & _ & _).
  unfold fork_rest. apply wp_bind. eapply wp_task; [exact Ec2|done|].
  apply wp_bind. eapply wp_upd_tcb; [exact Ed|done|]. apply wp_bind. eapply wp_upd_tcb; [apply lookup_insert_eq|done|].
  apply wp_bind. eapply wp_upd_tcb; [apply lookup_insert_eq|done|]. apply wp_bind. eapply wp_upd_tcb; [apply lookup_insert_eq|done|].
  destruct (child_arrives p m' d id (b + 4096)) with (c2 := c2) as (s' & a' & Estep & Eadd & Him & Hact & Hc); try done; [lia|].
  apply wp_bind. eapply wp_intro.
  { unfold on_sched, zoom. cbn [put_tcb k_sched set_sched tasks set_tasks]. rewrite !insert_insert_eq.
    change (sched_add_task p _) with (sched_add_task p (set_tasks (<[p := fork_block c2 d]> m') (set_tasks m' (set_old_tid id (k_sched k))))).
    rewrite Eadd. reflexivity. }
  cbn [preempt]. unfold call, returns. apply wp_bind, wp_bind, wp_ret, wp_ret.
  match goal with |- wp _ _ (set_sched s' ?x) => change (set_sched s' x) with (set_sched s' (put_vma s1 k1)) end.
  assert (Hp : exists e, tasks s' !! p = Some e).
  { specialize (Hc p). rewrite lookup_insert_eq in Hc. destruct (tasks s' !! p); eauto. }
  destruct Hp as [e Ee]. apply wp_bind. eapply wp_upd_tcb; [exact Ee|done|]. apply wp_bind. eapply wp_task; [apply lookup_insert_eq|done|].
  apply wp_bind, wp_ret, wp_ret. split; [|by apply (fork_finished p m' d c2 e s' a' b i h z)].
  f_equal. pose proof (Hc p) as E. rewrite lookup_insert_eq, Ee in E. apply (inj Some) in E.
  pose proof (kc_unkin _ _ _ _ Hk p) as Ud. rewrite lookup_insert_eq, Ed in Ud. apply (inj Some) in Ud.
  etransitivity; [exact (f_equal task_id E)|exact (f_equal task_id Ud)].
Qed.
End made.

Lemma do_fork_run n : exists p new N stack l' fs k', do_fork kern n t k = Ok (Returns (old_tid (k_sched k) + 1), k') /\
  forked_task k t c ch a A l F p new N stack l' fs k'.
Proof.
  destruct make_space as (new & N & l' & fs & B' & v1 & E & Hnew & HM).
  destruct (fr_task _ _ _ _ _ _ _ _ _ _ Hready) as [Ec Et].
  assert (Ht0 : t <> 0) by (destruct (fr_tree _ _ _ _ _ _ _ _ _ _ Hready) as [_ [_ _ _ [_ ?]]]; done).
  destruct (wp_run _ _ _ (task_new_wp _ t c ch (t_priority c) new N lva B' (spawn_from new N l' fs B' v1 Hnew HM)))
    as (p & k2 & Enew & b & i & Hsp).
  destruct (wp_run _ _ _ (fork_rest_wp new N l' fs B' v1 HM n p b i k2 Hsp)) as (r & k' & Er & -> & Hft).
  exists p, new, N, (b + 4096), l', fs, k'. split; [|done].
  assert (Etask : task t k = Ok (c, k)) by (apply on_sched_get; by apply ld_task_ok).
  assert (Eas : on_vm (vmm_aspace_create kern (t_aspace c)) k = Ok (new, set_vmm v1 k))
    by (unfold on_vm, zoom; change (k_vmm k) with v0; by rewrite E).
  unfold do_fork. by rewrite (bind_ok _ _ _ _ _ Etask), (bind_ok _ _ _ _ _ Eas), (bind_ok _ _ _ _ _ Enew).
Qed.
End ready.
End fork_task.

(** ** Property *)

(** C8: fork of a task that is running, served with the kernel's directory
    loaded, returns to it the identifier of a new task: a twin that shares its
    open files, has its priority, signal mask and registers, except that it is
    answered 0 and runs in an address space and on a kernel stack of its own.
    Every page of the parent that is there in the parent's directory is copied
    to a frame that was free (the child gets frame 0 for one that is not); the
    parent's translations and memory are what they were.  The child is the
    parent's youngest, has no children, and waits at the end of its run queue;
    no other task changes, but for links. *)
Theorem fork_makes_twin {H} `{!Allocator H} kern n (k : kernel H) t c ch a A l F B lva :
  fork_ready kern k t c ch a A l F B lva ->
  exists p new N stack l' fs k', do_fork kern n t k = Ok (Returns (old_tid (k_sched k) + 1), k') /\
    forked_task k t c ch a A l F p new N stack l' fs k'.
Proof. intros Hr. exact (do_fork_run kern k t c ch a A l F B lva Hr n). Qed.


(** A program with two pages, of which the first is there, and one open file.
    Frames: 1 its directory, 2 the table of its first 4 MiB, 4 that of the
    windows, 5 the page, 6 the kernel's directory, which is loaded, 7 the
    kernel's table, 16 to 79 the tables of the vmalloc area, of which
    0xd0000000 is in use. *)
Definition twin_pmm : pmm :=
  match pmm_init (256 * 4096) 0 (100 * 4096 - 100) pmm_boot with Ok (_, s) => s | _ => pmm_boot end.

Lemma twin_pmm_inv : inv twin_pmm.
Proof.
  destruct (wp_run _ _ _ (pmm_init_wp (256 * 4096) (100 * 4096 - 100) ltac:(vm_compute; split; congruence)
     ltac:(vm_compute; split; congruence))) as (u & s & E & I & _).
  unfold twin_pmm. rewrite E. exact I.
Qed.

Definition twin_ram : gmap Z Z := list_to_map
  ([(1024, 0x2007); (1024 + 768, 0x7003); (1024 + 1023, 0x1003); (2 * 1024 + 7, 0x5007);
    (5 * 1024 + 2, 0x44434241); (6 * 1024 + 768, 0x7003); (6 * 1024 + 1021, 0x4003); (6 * 1024 + 1023, 0x6003); (7 * 1024 + 6, 0x6003)] ++
   map (fun i => (1024 + 0x340 + i, 0x10003 + 4096 * i)) (seqZ 0 64) ++
   map (fun i => (6 * 1024 + 0x340 + i, 0x10003 + 4096 * i)) (seqZ 0 64)).

Definition twin_machine : machine := mkMachine twin_pmm 0x6000 twin_ram.

Lemma twin_dir : dir_ok twin_ram 0x6000.
Proof. apply dir_ok_check. vm_compute. reflexivity. Qed.

Lemma twin_slots : Forall (fun i => walk_dir twin_ram 0x6000 (0xc0006000 + 4 * i) = Some (0x6000 + 4 * i)) (seqZ 768 128) /\
  Forall (fun i => i < 768 \/ i = 1023 -> frame_of (pde twin_ram 0x1000 i) = 0x1000 \/ frame_of (pde twin_ram 0x1000 i) = 0x2000)
    (present_slots twin_ram 0x1000) /\
  Forall (fun i => frame_used twin_pmm (frame_of (pde twin_ram 0x6000 i) / 4096) = true) (present_slots twin_ram 0x6000).
Proof. apply (bool_decide_unpack _). vm_compute. exact I. Qed.

Lemma twin_beside : beside twin_ram 0x6000 0x1000 /\ tables_in fork_frame twin_ram 0x1000.
Proof.
  split; [apply beside_check; vm_compute; reflexivity|]. destruct twin_slots as (_ & Ht & _). rewrite Forall_forall in Ht.
  intros i Hi Hp. right. unfold own_slot in Hi. apply Ht; [apply present_slots_in; [lia|done]|lia].
Qed.

Lemma twin_running : running twin_pmm twin_ram 0x6000 fork_frame 0xc0006000.
Proof.
  destruct twin_slots as (Hw & _ & Hu). rewrite Forall_forall in Hw, Hu. split.
  - exact twin_pmm_inv.
  - exact twin_dir.
  - vm_compute. reflexivity.
  - intros i Hi _ Hp. by apply Hu, present_slots_in.
  - intros f [->|[->| ->]]; (split; [first [by exists 5|by exists 1|by exists 2]|]; split; [done|]; split; [vm_compute; reflexivity|]); intros q Hq;
      [apply (no_table_check _ _ 0x5000)|apply (no_table_check _ _ 0x1000)|apply (no_table_check _ _ 0x2000)];
      try exact twin_dir; try done; try (vm_compute; reflexivity); first [by exists 5|by exists 1|by exists 2].
  - intros i Hi. unfold kernel_slot in Hi. pose proof (Hw i ltac:(apply elem_of_seqZ; lia)) as Hwi.
    assert (Hw' : word (0xc0006000 + 4 * i)) by (unfold word; lia). destruct (slot_range _ Hw') as (_ & _ & Epd & Ept).
    rewrite Epd, Ept. unfold tmp_page, VM_TMP_MAP, VM_TMP2_MAP. split_and!; try done; [Z.div_mod_to_equations; lia|].
    intros [E|E]; Z.div_mod_to_equations; lia.
Qed.

#[local] Instance twin_allocator : Allocator malloc_state := kmalloc_allocator 0xc0400000 demo_raw demo_bytes.

(** The heap with the region and the address space, the descriptor of the
    used range, and the task. *)
Definition twin_blocks : (Z * Z) * malloc_state := Eval vm_compute in
  after (0, 0, ms_boot) ((do p <- kmalloc 0xc0400000 demo_raw SIZEOF_REGION_HDR; do q <- kmalloc 0xc0400000 demo_raw SIZEOF_TCB; ret_ (p, q)) fork_blocks.2).

Definition the_region := fork_blocks.1.1.
Definition the_aspace := fork_blocks.1.2.
Definition the_range := twin_blocks.1.1.
Definition the_task := twin_blocks.1.2.

Definition twin_owned (z1 z2 z3 z4 : Z) : gmap Z Z :=
  <[the_task := z4]> (<[the_range := z3]> (<[the_aspace := z2]> {[ the_region := z1 ]})).

Lemma twin_blocks_rep : exists z1 z2 z3 z4, rep 0xc0400000 twin_blocks.2 (twin_owned z1 z2 z3 z4).
Proof.
  destruct fork_blocks_rep as (z1 & z2 & Hr).
  destruct (wp_run _ _ _ (kmalloc_in_wp _ _ 0xc0400000 demo_raw _ _ SIZEOF_REGION_HDR Hr ltac:(done) ltac:(vm_compute; discriminate)))
    as (p & s1 & E1 & z3 & _ & _ & _ & Hr1 & _).
  assert (Es1 : Ok (p, s1) = kmalloc 0xc0400000 demo_raw SIZEOF_REGION_HDR fork_blocks.2) by done.
  destruct (wp_run _ _ _ (kmalloc_in_wp _ _ 0xc0400000 demo_raw s1 _ SIZEOF_TCB Hr1 ltac:(done)
    ltac:(vm_compute in Es1; injection Es1 as _ ->; vm_compute; discriminate))) as (q & s2 & E2 & z4 & _ & _ & _ & Hr2 & _).
  exists z1, z2, z3, z4. assert (E3 : (p, q, s2) = twin_blocks).
  { transitivity (after (0, 0, ms_boot) (Ok (p, q, s2))); [done|].
    assert (W : (do p <- kmalloc 0xc0400000 demo_raw SIZEOF_REGION_HDR; do q <- kmalloc 0xc0400000 demo_raw SIZEOF_TCB; ret_ (p, q)) fork_blocks.2
      = Ok (p, q, s2)) by (rewrite (bind_ok _ _ _ _ _ E1); by rewrite (bind_ok _ _ _ _ _ E2)).
    rewrite <- W. vm_compute. reflexivity. }
  unfold twin_owned, the_task, the_range. by rewrite <- E3.
Qed.

Definition twin_parent : tcb :=
  mkTcb 1 0xd0001000 0 1 (<[2%nat := 0x700]> (replicate MAX_FDS 0)) 5 0 0 0 0 0 0 0 RUNNING OS 0 0
    (mkRegs 18 1 2 3 4 5 0xbfff0000 6 0x7010 0x202 0x1000 0x23 0x1b) the_aspace.

Definition twin_kernel : kernel malloc_state :=
  mkKernel (mkVmm twin_blocks.2 {[ the_region := mkRegion 0x7000 0x2000 6 0 0 ]} {[ the_aspace := mkAspace 0x1000 0x7000 0x7800 0x7900 0xbfff0000 0x1000 1 the_region the_region ]}
      ∅ twin_machine 0)
    {[ the_range := mkHdr 0xd0000000 0x2000 MAPPED 0 0 ]} (mkUreg the_range the_range 2) root_fs {[ 0x700 := mkFd 100 2 root_block.1 0 0 ]} 0x700
    (mkSched {[ the_task := twin_parent ]} (fun q => match q with OsQ => mkQueue 1 the_task the_task | _ => empty_queue end) 1 1 0 the_task the_task 0 the_task 1)
    terminal_boot (mkKbd false false false false) (mkWait 0 0 0) false 0.

Definition twin_qs (q : qid) : list Z := match q with OsQ => [the_task] | _ => [] end.

Definition twin_spec : spec := mkSpec twin_qs {[ the_task := (1, OS) ]}.

Lemma twin_queues : implements (k_sched twin_kernel) twin_spec.
Proof.
  split.
  - change (sched_ok (k_sched twin_kernel) twin_qs). sched_check twin_qs.
  - intros p id pr. split.
    + intros Hw. apply (at_singleton _ _ _ _ _ eq_refl) in Hw as [<- [= <- <-]]. exists OsQ, twin_parent.
      split; [by left|]. split; [apply lookup_singleton_eq|done].
    + intros (q & u & _ & Eu & <- & <-). apply (at_singleton _ _ _ _ _ eq_refl) in Eu as [<- <-]. apply lookup_singleton_eq.
  - split; [done|]. exists twin_parent. apply lookup_singleton_eq.
Qed.

Lemma twin_files : table_ok twin_kernel twin_parent.
Proof.
  assert (Hat : forall i p, used_fd twin_parent !! i = Some p -> p <> 0 -> i = 2%nat /\ p = 0x700).
  { intros i p Ei Hp. change (used_fd twin_parent) with (<[2%nat := 0x700]> (replicate MAX_FDS 0)) in Ei.
    destruct (decide (i = 2%nat)) as [->|Hne].
    - rewrite list_lookup_insert_eq in Ei by (rewrite length_replicate; unfold MAX_FDS; lia). by injection Ei as <-.
    - rewrite list_lookup_insert_ne in Ei by done. apply lookup_replicate in Ei as [-> _]. done. }
  split.
  - reflexivity.
  - vm_compute. reflexivity.
  - intros i p Ei Hp. destruct (Hat i p Ei Hp) as [_ ->]. exists (mkFd 100 2 root_block.1 0 0). split; [reflexivity|]. split; [done|]. by eexists.
  - intros i j p Ei Ej Hp. destruct (Hat i p Ei Hp) as [-> _], (Hat j p Ej Hp) as [-> _]. done.
Qed.

Lemma twin_area z1 z2 z3 z4 : rep 0xc0400000 twin_blocks.2 (twin_owned z1 z2 z3 z4) ->
  area_ok (get_vma twin_kernel) [the_range] (twin_owned z1 z2 z3 z4) 0.
Proof.
  intros Hr. split.
  - split; [done| | |repeat constructor].
    + split; [cbn; split_and!; try done; vm_compute; reflexivity|]. by apply NoDup_singleton.
    + intros p h ->%list_elem_of_singleton Hh. apply (at_singleton _ _ _ _ _ eq_refl) in Hh as [_ <-].
      unfold VM_VMALLOC_START, VM_VMALLOC_END. cbn. lia.
  - done.
  - intros p ->%list_elem_of_singleton. exists z3. unfold twin_owned. rewrite lookup_insert_ne by done. apply lookup_insert_eq.
  - exact Hr.
  - vm_compute. discriminate.
  - intros p v zz ty (h & Eh & <- & <- & <-)%hg_lookup. apply (at_singleton _ _ _ _ _ eq_refl) in Eh as [_ <-].
    split; [by exists 0xd0000|by exists 2].
  - exact twin_dir.
  - intros v Hv. destruct (area_page v Hv) as [Hw _]. destruct (slot_range v Hw) as (_ & _ & -> & ->).
    assert (Hall : Forall (fun i => present (pde twin_ram 0x6000 i) = true) (seqZ 0x340 64))
      by (apply (bool_decide_unpack _); vm_compute; exact I).
    rewrite Forall_forall in Hall. apply Hall, elem_of_seqZ. unfold VM_VMALLOC_START, VM_VMALLOC_END in Hv.
    Z.div_mod_to_equations. lia.
Qed.

Lemma twin_hole : ~ no_hole (get_vma twin_kernel) [the_range] 4096.
Proof.
  intros Hno. apply (Hno [the_range] [] 0xd0002000 eq_refl). unfold hole, VM_VMALLOC_START, VM_VMALLOC_END. split_and!; [lia|lia| |].
  - intros q ->%list_elem_of_singleton. apply (bool_decide_unpack _). vm_compute. exact I.
  - intros q Hq. by apply elem_of_nil in Hq.
Qed.

Lemma twin_space z1 z2 z3 z4 : rep 0xc0400000 twin_blocks.2 (twin_owned z1 z2 z3 z4) ->
  create_pre 0xc0006000 (k_vmm twin_kernel) the_aspace (mkAspace 0x1000 0x7000 0x7800 0x7900 0xbfff0000 0x1000 1 the_region the_region)
    [the_region] fork_frame (twin_owned z1 z2 z3 z4) 1240 1.
Proof.
  intros Hr. split.
  - split; try done.
    + eexists. split; [apply lookup_singleton_eq|done].
    + split; [|by apply NoDup_singleton]. cbn [dseg]. split_and!; [done| |done]. reflexivity.
    + intros p r _ [_ <-]%(at_singleton _ _ _ _ _ eq_refl). cbn. unfold VM_USER_END. lia.
    + repeat constructor.
  - apply lookup_singleton_eq.
  - exact twin_beside.
  - apply twin_running.
  - by intros p r _ [_ <-]%(at_singleton _ _ _ _ _ eq_refl).
  - assert (Hp : Forall (fun v => walk_dir twin_ram 0x1000 v = if decide (v = 0x7000) then Some 0x5000 else None)
      (pages_of (v_regions (k_vmm twin_kernel)) [the_region])) by (apply (bool_decide_unpack _); vm_compute; exact I).
    rewrite Forall_forall in Hp. intros v x Hv Ha. change (walk_dir twin_ram 0x1000 v = Some x) in Ha.
    rewrite (Hp v Hv) in Ha. case_decide; [|done]. injection Ha as <-. left. by subst.
  - apply (bool_decide_unpack _). vm_compute. exact I.
  - vm_compute. discriminate.
  - done.
  - split; [exact Hr|]. intros q [r [<- _]%(at_singleton _ _ _ _ _ eq_refl)].
    unfold twin_owned. rewrite !lookup_insert_ne by done. rewrite lookup_singleton_eq. eauto.
  - intros x [r [<- _]%(at_singleton _ _ _ _ _ eq_refl)]. unfold twin_owned. rewrite !(lookup_insert_ne _ _ the_aspace) by done.
    rewrite lookup_insert_eq. eauto.
  - vm_compute. discriminate.
  - vm_compute. reflexivity.
Qed.

Lemma twin_ready z1 z2 z3 z4 : rep 0xc0400000 twin_blocks.2 (twin_owned z1 z2 z3 z4) ->
  fork_ready 0xc0006000 twin_kernel the_task twin_parent [] twin_spec
    (mkAspace 0x1000 0x7000 0x7800 0x7900 0xbfff0000 0x1000 1 the_region the_region) [the_region] fork_frame (twin_owned z1 z2 z3 z4) [the_range].
Proof.
  intros Hr. split.
  - split; [apply lookup_singleton_eq|done].
  - split; [done|]. split; [|split; [done|constructor]|intros x u Hx; by apply elem_of_nil in Hx|split; [apply not_elem_of_nil|done]].
    exists twin_parent. split; [apply lookup_singleton_eq|done].
  - exact twin_queues.
  - split; [unfold MAX_TID; cbn; lia|vm_compute; reflexivity].
  - exact twin_files.
  - by apply twin_space.
  - intros x [u [<- _]%(at_singleton _ _ _ _ _ eq_refl)]. unfold twin_owned. rewrite lookup_insert_eq. eauto.
  - by apply twin_area.
  - exact twin_hole.
Qed.

(** The program above forks: the answer is 2, and the child's second page is
    frame 0, as the parent's was not there. *)
Lemma fork_makes_twin_witness : exists p new N stack k', do_fork 0xc0006000 3 the_task twin_kernel = Ok (Returns 2, k') /\
  family (tasks (k_sched k')) the_task [p] /\ v_aspaces (k_vmm k') !! new = Some N /\
  stem <$> tasks (k_sched k') !! p = Some (stem (twin the_task 2 stack (pd N) new twin_parent)).
Proof.
  destruct twin_blocks_rep as (z1 & z2 & z3 & z4 & Hr).
  destruct (fork_makes_twin 0xc0006000 3 twin_kernel _ _ _ _ _ _ _ _ _ (twin_ready z1 z2 z3 z4 Hr))
    as (p & new & N & stack & l' & fs & k' & E & HT).
  exists p, new, N, stack, k'. split; [exact E|]. split; [apply HT|]. split; apply HT.
Defined.
