(* ===== verification/RoundRobin.v ===== *)
(** * Time slices go round

    [task_switch] as the timer uses it: the task behind the running one in
    its queue runs next, and after the last one the first.  Every task that
    can run gets the processor within one round, with the registers it was
    left with, and no two rounds differ. *)

From S2P Require Import Prelude Dlist Pmm Kmalloc Heap Paging Vmm Vmalloc Klib Terminal Namei NameiSpec Sched SchedSpec Kernel Vfs Files FilesSpec Task TaskSpec.

#[local] Open Scope Z_scope.

(** ** Positions in a list *)

Definition succ_of (l : list Z) (i : nat) : nat := ((i + 1) mod length l)%nat.

Lemma succ_of_lookup l i x : l !! i = Some x -> l !! succ_of l i = Some (hd0 (hd0 0 l) (drop (S i) l)).
Proof.
  intros Hx. pose proof (lookup_lt_Some _ _ _ Hx) as Hi. unfold succ_of.
  destruct (decide (S i = length l)) as [E|E].
  - replace (i + 1)%nat with (length l) by lia. rewrite Nat.Div0.mod_same, drop_ge by lia. cbn [hd0].
    destruct l; [done|]. done.
  - rewrite Nat.mod_small by lia. replace (i + 1)%nat with (S i) by lia.
    destruct (lookup_lt_is_Some_2 l (S i)) as [y Hy]; [lia|]. rewrite Hy. f_equal.
    rewrite (drop_S _ _ _ Hy). done.
Qed.

(** The position [m] rounds later. *)
Lemma succ_of_iter l i m : (i < length l)%nat -> Nat.iter m (succ_of l) i = ((i + m) mod length l)%nat.
Proof.
  intros Hi. induction m as [|m IH].
  - cbn. rewrite Nat.add_0_r, Nat.mod_small by lia. done.
  - rewrite Nat.iter_succ, IH. unfold succ_of. rewrite Nat.Div0.add_mod_idemp_l. f_equal. lia.
Qed.

(** Each position comes up within one round. *)
Lemma round_reaches (l : list Z) i j : (i < length l)%nat -> (j < length l)%nat ->
  exists m, (0 < m <= length l)%nat /\ ((i + m) mod length l)%nat = j.
Proof.
  intros Hi Hj. destruct (decide (i < j)%nat) as [Hlt|Hge].
  - exists (j - i)%nat. split; [lia|]. rewrite Nat.mod_small; lia.
  - exists (length l - (i - j))%nat. split; [lia|].
    replace (i + (length l - (i - j)))%nat with (j + 1 * length l)%nat by lia.
    rewrite Nat.Div0.mod_add, Nat.mod_small; lia.
Qed.

(** ** READY and RUNNING share the run queues *)

Definition runnable (v : task_state) : Prop := v = READY \/ v = RUNNING.

Lemma runnable_queue t v : runnable (t_state t) -> runnable v -> _set_queue (set_t_state v t) = _set_queue t.
Proof. unfold _set_queue. cbn. intros [->| ->] [->| ->]; done. Qed.

Lemma sched_ok_runnable s qs x t v : sched_ok s qs -> tasks s !! x = Some t -> runnable (t_state t) -> runnable v ->
  sched_ok (put_task x (set_t_state v t) s) qs.
Proof.
  intros [Hqs Hr Hs Hid] Ht Hst Hv. split; try done.
  - intros k. destruct (Hqs k) as [H1 H2 H3 H4 H5]. split; try done.
    + eapply dlist_frame; [|exact H4]. intros y _. unfold links. cbn [tasks put_task set_tasks].
      rewrite lookup_insert. case_decide as E; [|done]. subst y. by rewrite Ht.
    + intros p tp Hp Htp. cbn [tasks put_task set_tasks] in Htp. rewrite lookup_insert in Htp. case_decide as E.
      * subst x. injection Htp as <-. destruct (H5 p t Hp Ht) as [_ <-]. split; [destruct Hv as [->| ->]; done|].
        by apply runnable_queue.
      * by apply (H5 p tp).
  - intros k k' p q tp tq Hp Hq Htp Htq. cbn [tasks put_task set_tasks] in Htp, Htq. rewrite lookup_insert in Htp, Htq.
    repeat case_decide; simplify_eq; try done; cbn [task_id set_t_state]; intros E; by eapply (Hid k k').
Qed.

(** ** One switch *)

Section robin.
Context {H : Type} `{!Allocator H}.
Implicit Types (k : kernel H) (s : sched) (qs : qid -> list Z).

(** The tasks of one priority take turns, user tasks only when no OS task
    can run; nothing is remembered as the next to run, and no signal is
    pending.  The running task is the [i]-th of the queue; it is RUNNING and
    the others are READY. *)
Record taking_turns k qs (cls : qid) (i : nat) : Prop := {
  tt_ok : sched_ok (k_sched k) qs;
  tt_class : cls = OsQ \/ cls = UserQ /\ qs OsQ = [];
  tt_small : Z.of_nat (length (qs cls)) < W32;
  tt_actual : qs cls !! i = Some (actual_task (k_sched k));
  tt_next : next_to_run (k_sched k) = 0;
  tt_kernel : kernel_task (k_sched k) ∉ qs cls;
  tt_state : forall j x t, qs cls !! j = Some x -> tasks (k_sched k) !! x = Some t ->
    t_state t = (if decide (j = i) then RUNNING else READY) /\ Z.land (t_current t) SIGCHLD = 0;
}.

(** The processor runs [x]: its page directory is loaded, its kernel stack
    is in the TSS, and [context_switch] gets its saved registers. *)
Definition on_cpu k x (c : tcb) : Prop :=
  actual_task (k_sched k) = x /\ tasks (k_sched k) !! x = Some c /\ t_state c = RUNNING /\
  Paging.cr3 (v_mach (k_vmm k)) = Sched.cr3 (t_regs c) /\ tss_stack k = kernel_stack c.

(** Nothing of a task changes but whether it runs. *)
Definition only_states k k' : Prop :=
  (forall x, set_t_state READY <$> tasks (k_sched k') !! x = set_t_state READY <$> tasks (k_sched k) !! x) /\
  queues (k_sched k') = queues (k_sched k) /\ k_fs k' = k_fs k /\ k_fds k' = k_fds k /\
  ram (v_mach (k_vmm k')) = ram (v_mach (k_vmm k)).

Lemma only_states_trans k1 k2 k3 : only_states k1 k2 -> only_states k2 k3 -> only_states k1 k3.
Proof.
  intros (A1 & A2 & A3 & A4 & A5) (B1 & B2 & B3 & B4 & B5). split_and!; congruence.
Qed.

Lemma next_of_queue s qs j i x t : sched_ok s qs -> qs j !! i = Some x -> tasks s !! x = Some t ->
  t_next t = hd0 0 (drop (S i) (qs j)).
Proof.
  intros Hok Hx Ht. destruct (qo_dl _ _ _ (so_qs _ _ Hok j)) as [Hd _].
  rewrite <- (take_drop_middle _ _ _ Hx) in Hd. apply dseg_app in Hd as [_ (_ & Hl & _)].
  rewrite (links_lookup _ _ _ Ht) in Hl. by injection Hl.
Qed.

(** The first of the queue of the class that runs. *)
Lemma get_next_first s qs cls : sched_ok s qs -> cls = OsQ \/ cls = UserQ /\ qs OsQ = [] -> qs cls <> [] ->
  Z.of_nat (length (qs cls)) < W32 -> next_to_run s = 0 -> sched_get_next_task s = Ok (hd0 0 (qs cls), s).
Proof.
  intros Hok Hc Hne Hs Hn. unfold sched_get_next_task, bind_, get_.
  assert (Ecs : q_counter (queues s cls) = Z.of_nat (length (qs cls)))
    by (rewrite (qo_count _ _ _ (so_qs _ _ Hok cls)); apply Z.mod_small; lia).
  assert (0 < Z.of_nat (length (qs cls))) by (destruct (qs cls); [done|cbn; lia]).
  pose proof (qo_first _ _ _ (so_qs _ _ Hok cls)) as Ef. destruct Hc as [->|[-> Hos]].
  - rewrite Ecs, Hn, (proj2 (Z.ltb_lt _ _) ltac:(eassumption)). cbn. by rewrite Ef.
  - assert (Eos : q_counter (queues s OsQ) = 0) by (rewrite (qo_count _ _ _ (so_qs _ _ Hok OsQ)), Hos; done).
    rewrite Eos, Ecs, Hn, (proj2 (Z.ltb_lt _ _) ltac:(eassumption)). cbn. by rewrite Ef.
Qed.

Lemma sig_handler_quiet n k x c : tasks (k_sched k) !! x = Some c -> x <> 0 -> Z.land (t_current c) SIGCHLD = 0 ->
  sig_handler (S n) x k = Ok (Returns tt, k).
Proof.
  intros Hc Hx Hl. rewrite <- (set_sched_id k). cbn [sig_handler].
  rewrite (bind_ok _ _ _ _ _ (task_ok _ k x c Hc Hx)). by rewrite Hl.
Qed.

(** The running task becomes READY again. *)
Lemma ready_ok s k x c : tasks s !! x = Some c -> x <> 0 -> t_state c = RUNNING ->
  ready_if_running x (set_sched s k) = Ok (tt, set_sched (put_task x (set_t_state READY c) s) k).
Proof.
  intros Hc Hx Hst. unfold ready_if_running. rewrite (bind_ok _ _ _ _ _ (task_ok s k x c Hc Hx)).
  rewrite bool_decide_true by done. by apply upd_tcb_ok.
Qed.

(** The state after the turn has passed from [x] to [y]. *)
Definition turned k (x y : Z) (c d : tcb) : kernel H :=
  set_tss (kernel_stack d)
    (set_vmm (set_mach (set_cr3 (Sched.cr3 (t_regs d)) (v_mach (k_vmm k))) (k_vmm k))
      (set_sched (set_actual y (put_task y (set_t_state RUNNING d) (put_task x (set_t_state READY c) (k_sched k)))) k)).

Section turn.
Context (k : kernel H) (qs : qid -> list Z) (cls : qid) (i : nat).
Hypothesis Htt : taking_turns k qs cls i.

Let l := qs cls.
Let s := k_sched k.
Let x := actual_task s.

Lemma turn_members : exists c d y, tasks s !! x = Some c /\ x <> 0 /\ l !! succ_of l i = Some y /\ y <> 0 /\
  tasks (put_task x (set_t_state READY c) s) !! y = Some d /\ t_state c = RUNNING /\ t_state d = READY /\
  Z.land (t_current d) SIGCHLD = 0.
Proof.
  destruct Htt as [Hok Hcl Hs Hx Hn Hk Hst]. fold l s in Hok, Hs, Hx, Hk, Hst; fold x in Hx.
  destruct (member_task s qs (so_qs _ _ Hok) cls x) as (c & Hc & Hx0 & _); [by eapply list_elem_of_lookup_2|].
  pose proof (succ_of_lookup l i x Hx) as Hy. set (y := hd0 (hd0 0 l) (drop (S i) l)) in *.
  destruct (member_task s qs (so_qs _ _ Hok) cls y) as (d & Hd & Hy0 & _); [by eapply list_elem_of_lookup_2|].
  destruct (Hst i x c Hx Hc) as [Hsc Hlc]. rewrite decide_True in Hsc by done.
  destruct (decide (y = x)) as [E|Hne].
  - exists c, (set_t_state READY c), y. split_and!; try done. cbn. by rewrite E, lookup_insert_eq.
  - destruct (Hst _ y d Hy Hd) as [Hsd Hld]. rewrite decide_False in Hsd.
    + exists c, d, y. split_and!; try done. cbn. by rewrite lookup_insert_ne by congruence.
    + intros E. rewrite E in Hy. congruence.
Qed.

Lemma switch_turns n c d y : tasks s !! x = Some c -> x <> 0 -> l !! succ_of l i = Some y -> y <> 0 ->
  tasks (put_task x (set_t_state READY c) s) !! y = Some d -> t_state c = RUNNING -> Z.land (t_current d) SIGCHLD = 0 ->
  task_switch (S n) k = Ok (Left Switched, turned k x y c d).
Proof.
  intros Hc Hx0 Hy Hy0 Hd Hst Hl. destruct Htt as [Hok Hcl Hs Hx Hn Hk _]. fold l s in Hok, Hs, Hx, Hn, Hk; fold x in Hx.
  rewrite <- (set_sched_id k). fold s. unfold task_switch.
  assert (Ecur : get_sched actual_task (set_sched s k) = Ok (x, set_sched s k)) by done.
  rewrite (bind_ok _ _ _ _ _ Ecur), (bind_ok _ _ _ _ _ (ready_ok s k x c Hc Hx0 Hst)). set (s1 := put_task x _ s).
  assert (Hc1 : tasks s1 !! x = Some (set_t_state READY c)) by apply lookup_insert_eq.
  rewrite (bind_ok _ _ _ _ _ (task_ok s1 k x _ Hc1 Hx0)). cbn [t_next set_t_state].
  assert (Hok1 : sched_ok s1 qs) by (apply sched_ok_runnable; unfold runnable; auto).
  rewrite (next_of_queue s qs cls i x c Hok Hx Hc). fold l.
  assert (Ey : y = hd0 (hd0 0 l) (drop (S i) l)) by (rewrite (succ_of_lookup l i x Hx) in Hy; congruence).
  assert (Hyk : y <> kernel_task s) by (intros E; apply Hk; rewrite <- E; by eapply list_elem_of_lookup_2).
  assert (Enext : (if hd0 0 (drop (S i) l) =? 0 then on_sched sched_get_next_task else ret_ (hd0 0 (drop (S i) l)))
            (set_sched s1 k) = Ok (y, set_sched s1 k)).
  { destruct (drop (S i) l) as [|z r]; cbn [hd0] in *; [|destruct (Z.eqb_spec z 0); [congruence|by subst]].
    cbn [Z.eqb]. apply on_sched_ok. rewrite Ey. apply (get_next_first s1 qs cls); try done. intros E. unfold l in Hx. by rewrite E in Hx. }
  rewrite (bind_ok _ _ _ _ _ Enext).
  assert (Ekern : get_sched kernel_task (set_sched s1 k) = Ok (kernel_task s, set_sched s1 k)) by done.
  rewrite (bind_ok _ _ _ _ _ Ekern), (proj2 (Z.eqb_neq _ _) Hyk), andb_false_r.
  rewrite (bind_ok _ _ _ _ _ (upd_tcb_ok s1 k y d _ Hd Hy0)). set (s2 := put_task y _ s1).
  assert (Hd2 : tasks s2 !! y = Some (set_t_state RUNNING d)) by apply lookup_insert_eq.
  rewrite (call_returns _ _ _ _ _ (sig_handler_quiet n (set_sched s2 k) y _ Hd2 Hy0 Hl)).
  assert (Eact : mod_sched (set_actual y) (set_sched s2 k) = Ok (tt, set_sched (set_actual y s2) k)) by done.
  rewrite (bind_ok _ _ _ _ _ Eact). unfold context_switch.
  rewrite (bind_ok _ _ _ _ _ (task_ok (set_actual y s2) k y _ Hd2 Hy0)). done.
Qed.

(** The turn is [y]'s, and nothing else has changed. *)
Lemma turned_ok c d y : tasks s !! x = Some c -> l !! succ_of l i = Some y ->
  tasks (put_task x (set_t_state READY c) s) !! y = Some d -> t_state c = RUNNING -> t_state d = READY ->
  taking_turns (turned k x y c d) qs cls (succ_of l i) /\ on_cpu (turned k x y c d) y (set_t_state RUNNING d) /\
  only_states k (turned k x y c d).
Proof.
  intros Hc Hy Hd Hsc Hsd. destruct Htt as [Hok Hcl Hs Hx Hn Hk Hst]. fold l s in Hok, Hs, Hx, Hn, Hk; fold x in Hx.
  assert (Hokt : sched_ok (put_task y (set_t_state RUNNING d) (put_task x (set_t_state READY c) s)) qs).
  { apply sched_ok_runnable; unfold runnable; auto. apply sched_ok_runnable; unfold runnable; auto. }
  split; [|split].
  - split; try done; [by apply (sched_ok_ext _ _ qs Hokt)|].
    intros j z t Hz Ht. cbn in Ht. rewrite !lookup_insert in Ht. fold l in Hz.
    assert (Hpos : forall a b w, l !! a = Some w -> l !! b = Some w -> a = b).
    { intros a b w Ha Hb. destruct (qo_dl _ _ _ (so_qs _ _ Hok cls)) as [_ Hnd]. by eapply NoDup_lookup. }
    case_decide as E1.
    + subst z. injection Ht as <-. rewrite decide_True by (by eapply Hpos). split; [done|].
      cbn in Hd |- *. rewrite lookup_insert in Hd. case_decide as E2.
      * injection Hd as <-. by destruct (Hst i x c Hx Hc).
      * by destruct (Hst _ _ _ Hy Hd).
    + rewrite decide_False by (intros ->; congruence). case_decide as E2.
      * subst z. injection Ht as <-. split; [done|]. by destruct (Hst i x c Hx Hc).
      * destruct (Hst j z t Hz Ht) as [Hsz Hlz]. rewrite decide_False in Hsz; [done|]. intros ->. congruence.
  - split_and!; try done. apply lookup_insert_eq.
  - split_and!; try done. intros z. cbn. fold s. rewrite !lookup_insert. cbn in Hd. rewrite lookup_insert in Hd.
    repeat case_decide; subst; simplify_eq; cbn; rewrite ?Hc, ?Hd; done.
Qed.
End turn.

(** Switches one after the other; [None] when one does not end in a task. *)
Fixpoint switches (n m : nat) (k : kernel H) : option (kernel H) :=
  match m with
  | O => Some k
  | S m => match switches n m k with
           | Some k1 => match task_switch n k1 with Ok (Left Switched, k2) => Some k2 | _ => None end
           | None => None
           end
  end.

Lemma switches_turn n k qs cls i m : taking_turns k qs cls i -> exists k', switches (S n) m k = Some k' /\
  taking_turns k' qs cls ((i + m) mod length (qs cls)) /\ only_states k k' /\
  ((0 < m)%nat -> exists c, on_cpu k' (actual_task (k_sched k')) c).
Proof.
  intros Htt. pose proof (lookup_lt_Some _ _ _ (tt_actual _ _ _ _ Htt)) as Hi. induction m as [|m IH].
  - exists k. rewrite Nat.add_0_r, Nat.mod_small by done. split_and!; try done. lia.
  - destruct IH as (k1 & E & H1 & Ho & _). cbn [switches]. rewrite E.
    destruct (turn_members k1 qs cls _ H1) as (c & d & y & Hc & Hx0 & Hy & Hy0 & Hd & Hsc & Hsd & Hl).
    rewrite (switch_turns k1 qs cls _ H1 n c d y); try done.
    destruct (turned_ok k1 qs cls _ H1 c d y Hc Hy Hd Hsc Hsd) as (H2 & Hcpu & Ho2). eexists. split; [done|].
    split_and!; [|by eapply only_states_trans|eauto].
    replace ((i + S m) mod length (qs cls))%nat with (succ_of (qs cls) ((i + m) mod length (qs cls))); [done|].
    unfold succ_of. rewrite Nat.Div0.add_mod_idemp_l. f_equal. lia.
Qed.
End robin.

(** ** Property *)

(** C7: while the tasks of one priority take turns, each of them gets the processor within
    as many switches as there are tasks in the queue: its page directory and
    its kernel stack are loaded, it alone is RUNNING, and no task has changed
    in anything but its state, so it continues with the registers it was left
    with; the tasks keep taking turns from there. *)
Theorem round_robin {H} `{!Allocator H} (k : kernel H) qs cls n i j x :
  taking_turns k qs cls i -> qs cls !! j = Some x -> exists m k' c,
    (0 < m <= length (qs cls))%nat /\ switches (S n) m k = Some k' /\ on_cpu k' x c /\
    taking_turns k' qs cls j /\ only_states k k'.
Proof.
  intros Htt Hx. pose proof (lookup_lt_Some _ _ _ (tt_actual _ _ _ _ Htt)) as Hi.
  destruct (round_reaches (qs cls) i j Hi (lookup_lt_Some _ _ _ Hx)) as (m & Hm & E).
  destruct (switches_turn n k qs cls i m Htt) as (k' & Ek & Ht & Ho & Hc). rewrite E in Ht.
  destruct (Hc ltac:(lia)) as [c Hcpu]. exists m, k', c. split_and!; try done; try lia.
  pose proof (tt_actual _ _ _ _ Ht) as Ha. rewrite Hx in Ha. injection Ha as Ea. by rewrite <- Ea in Hcpu.
Qed.

#[local] Instance robin_allocator : Allocator malloc_state := kmalloc_allocator 0xc0400000 demo_raw demo_bytes.

(** Two user tasks; the first runs. *)
Definition robin_kernel : kernel malloc_state := set_sched demo_sched (demo_kernel demo_fs).

Lemma robin_turns : taking_turns robin_kernel demo_qs UserQ 0.
Proof.
  split; try done; [exact demo_sched_ok|by right|apply (bool_decide_unpack _); vm_compute; done|].
  intros j x t Hj Ht. destruct j as [|[|j]]; [| |done]; injection Hj as <-; vm_compute in Ht; injection Ht as <-;
    vm_compute; done.
Qed.

Lemma round_robin_witness : exists m k' c, (0 < m <= 2)%nat /\ switches 1 m robin_kernel = Some k' /\ on_cpu k' 0x20 c /\
  taking_turns k' demo_qs UserQ 1.
Proof.
  destruct (round_robin robin_kernel demo_qs UserQ 0 0 1 0x20 robin_turns eq_refl) as (m & k' & c & Hm & E & Hc & Ht & _).
  exists m, k', c. split; [exact Hm|split; [exact E|split; [exact Hc|exact Ht]]].
Defined.
