(* ===== verification/ReapSpec.v ===== *)
(** * A child that has exited is waited for

    A task that exits while its parent is in [waitpid] stays behind as a
    zombie.  When the parent is switched to, the signal handler puts the exit
    code into its EAX and releases the child: its links ([FamilySpec.v]), its
    kernel stack ([AreaSpec.v]), its address space ([DestroySpec.v]), its page
    directory and its block. *)

From S2P Require Import Prelude Dlist Pmm Heap Paging MmuSpec SpaceSpec DupSpec Vmm VmmSpec ForkAspace DestroySpec Vmalloc VmallocSpec AreaSpec Klib Terminal Namei Sched SchedSpec Kernel Vfs Files FilesSpec FdSpec Task TaskSpec FamilySpec RoundRobin.

#[local] Open Scope Z_scope.

Section reap.
Context {H : Type} `{!Allocator H}.
Implicit Types (k : kernel H).

(** The kernel's directory is loaded.  The task [t] has no children; the
    regions of its address space [A] are [l], the directory of [A] is the one
    in its registers, and its kernel stack is the page [q] of the vmalloc area. *)
Record reap_ready k (t : Z) (c : tcb) (ch1 ch2 l : list Z) (A : aspace) (B : gmap Z Z) (lv1 : list Z) (q : Z) (lv2 : list Z) : Prop := {
  rr_task : tasks (k_sched k) !! t = Some c /\ task_id c <> 1 /\ t_first_child c = 0;
  rr_family : family (tasks (k_sched k)) (t_parent c) (ch1 ++ t :: ch2);
  rr_stack : exists h, k_hdrs k !! q = Some h /\ h_vaddr h = kernel_stack c -w 0x1000 /\ h_size h = 4096 /\ h_type h = MAPPED;
  rr_area : area_ok (get_vma k) (lv1 ++ q :: lv2) B 0;
  rr_space : as_list (k_vmm k) (t_aspace c) l /\ v_aspaces (k_vmm k) !! t_aspace c = Some A;
  rr_pd : beside (ram (v_mach (k_vmm k))) (dir_of (get_vma k)) (pd A) /\ Sched.cr3 (t_regs c) = pd A;
  rr_blocks : NoDup (q :: t :: t_aspace c :: l) /\ forall x, x ∈ q :: t :: t_aspace c :: l -> is_Some (B !! x);
  rr_frame : let p := m_pmm (v_mach (k_vmm k)) in let i := pd A / 4096 in
    inv p /\ kernel_end_idx p < i < total_frames p /\ frame_used p i = true;
}.

(** What [t] owned is gone; its pages, and the page of its stack, are
    unmapped, but of their frames only that of the directory is free again. *)
Record given_back k (t : Z) (c : tcb) (l : list Z) (A : aspace) (B : gmap Z Z) (lv1 : list Z) (q : Z) (lv2 : list Z) (k' : kernel H) : Prop := {
  gb_spaces : v_aspaces (k_vmm k') = delete (t_aspace c) (v_aspaces (k_vmm k)) /\
    forall x, v_regions (k_vmm k') !! x = if decide (x ∈ l) then None else v_regions (k_vmm k) !! x;
  gb_area : va_list (get_vma k') (lv1 ++ lv2) /\ k_hdrs k' !! q = None /\ forall x, x <> q -> hg (k_hdrs k') x = hg (k_hdrs k) x;
  gb_heap : al_rep (v_heap (k_vmm k')) (minus_blocks (q :: t :: t_aspace c :: l) B);
  gb_frames : let p := m_pmm (v_mach (k_vmm k)) in let p' := m_pmm (v_mach (k_vmm k')) in
    inv p' /\ bit_is p p' (pd A / 4096) false /\ free_frames p' = free_frames p + 1;
  gb_memory : exists m, remapped (ram (v_mach (k_vmm k))) (dir_of (get_vma k)) (kernel_stack c -w 0x1000) 0 m /\
    cleared (dir_of (get_vma k)) (pd A) (region_pages (v_regions (k_vmm k)) l) m (ram (v_mach (k_vmm k')));
  gb_rest : k_fs k' = k_fs k /\ k_fds k' = k_fds k /\ first_fd k' = first_fd k /\ k_term k' = k_term k;
}.

Record reaped k (t : Z) (c : tcb) (ch1 ch2 l : list Z) (A : aspace) (B : gmap Z Z) (lv1 : list Z) (q : Z) (lv2 : list Z) (k' : kernel H) : Prop := {
  rd_tasks : exists m', k_sched k' = set_tasks (delete t m') (k_sched k) /\ family m' (t_parent c) (ch1 ++ ch2) /\
    kin_changed (tasks (k_sched k)) m' (t_parent c) (ch1 ++ t :: ch2);
  rd_back : given_back k t c l A B lv1 q lv2 k';
}.

(** What releasing a task reads of its block. *)
Definition owned (c : tcb) := (task_id c, t_first_child c, t_parent c, kernel_stack c, t_aspace c, Sched.cr3 (t_regs c)).

Lemma reap_ready_ext k k' t c c' ch1 ch2 l A B lv1 q lv2 : reap_ready k t c ch1 ch2 l A B lv1 q lv2 ->
  set_errno 0 (k_vmm k') = set_errno 0 (k_vmm k) -> k_hdrs k' = k_hdrs k -> k_ureg k' = k_ureg k ->
  tasks (k_sched k') !! t = Some c' -> owned c' = owned c ->
  (forall x, kinship <$> tasks (k_sched k') !! x = kinship <$> tasks (k_sched k) !! x) ->
  reap_ready k' t c' ch1 ch2 l A B lv1 q lv2.
Proof.
  intros [(Ec & Hid & Hf) F H3 H4 H5 H6 H7 H8] Ev Eh Eu Ec' Eo Hk. unfold owned in Eo. injection Eo as E1 E2 E3 E4 E5 E6.
  assert (Em : v_mach (k_vmm k') = v_mach (k_vmm k)) by exact (f_equal v_mach Ev).
  assert (Ehp : v_heap (k_vmm k') = v_heap (k_vmm k)) by exact (f_equal v_heap Ev).
  assert (Ea : v_aspaces (k_vmm k') = v_aspaces (k_vmm k)) by exact (f_equal v_aspaces Ev).
  assert (Er : v_regions (k_vmm k') = v_regions (k_vmm k)) by exact (f_equal v_regions Ev).
  assert (Eg : get_vma k' = get_vma k) by (unfold get_vma; congruence).
  split; rewrite ?Eg, ?Em, ?Ea, ?Eh, ?E1, ?E2, ?E3, ?E4, ?E5, ?E6; try done.
  - eapply family_ext; [exact F|]. intros x _. apply Hk.
  - split; [|apply H5]. apply (as_list_frame (k_vmm k)); [by rewrite Er|by rewrite Ea|apply H5].
Qed.

Lemma kinship_core (o o' : option tcb) : core <$> o' = core <$> o -> kinship <$> o' = kinship <$> o.
Proof.
  destruct o as [u|], o' as [u'|]; try done. intros E. apply (inj Some) in E. cbn. f_equal. exact (f_equal kinship E).
Qed.

Section release.
Context (k : kernel H) (t : Z) (c : tcb) (ch1 ch2 l : list Z) (A : aspace) (B : gmap Z Z) (lv1 : list Z) (q : Z) (lv2 : list Z).
Hypothesis Hready : reap_ready k t c ch1 ch2 l A B lv1 q lv2.
Let dir := dir_of (get_vma k).

(** Taking the stack away leaves the task's directory as it is. *)
Lemma stack_space h m1 : remapped (ram (v_mach (k_vmm k))) dir h 0 m1 -> same_space dir (pd A) (ram (v_mach (k_vmm k))) m1.
Proof.
  intros R. destruct (rr_pd _ _ _ _ _ _ _ _ _ _ _ Hready) as [Hb _]. apply beside_same; [exact Hb|apply R| |].
  - intros q0. apply same_slots_words. intros i Hi _. by apply (re_pde _ _ _ _ _ R).
  - intros q0 Hq. apply R. by apply (bs_apart _ _ _ Hb).
Qed.

(** The address space is destroyed after the stack was unmapped. *)
Lemma space_ready h m1 (s1 : vma H) : va_mach s1 = set_ram m1 (v_mach (k_vmm k)) -> remapped (ram (v_mach (k_vmm k))) dir h 0 m1 ->
  al_rep (va_heap s1) (delete q B) ->
  destroy_ready (set_heap (va_heap s1) (set_mach (va_mach s1) (k_vmm k))) (t_aspace c) A l (delete q B).
Proof.
  intros Em R Hrep. destruct (rr_space _ _ _ _ _ _ _ _ _ _ _ Hready) as [Ha EA].
  destruct (rr_blocks _ _ _ _ _ _ _ _ _ _ _ Hready) as [Hnd Hown].
  split; cbn [v_mach v_aspaces v_heap set_heap set_mach]; rewrite ?Em; try done.
  - by apply (as_list_frame (k_vmm k)).
  - exact (ss_beside _ _ _ _ (stack_space h m1 R)).
  - apply R.
  - apply (inv_total _ (proj1 (rr_frame _ _ _ _ _ _ _ _ _ _ _ Hready))).
  - intros x Hx. rewrite lookup_delete_ne; [apply Hown; set_solver|]. intros ->. apply NoDup_cons in Hnd as [Hq _]. set_solver.
  - intros Hin. rewrite !NoDup_cons in Hnd. set_solver.
Qed.

Lemma own_directory : pd A = pd A / 4096 * FRAME_SIZE.
Proof.
  destruct (dir_frame _ _ (fo_pd _ _ _ (bs_for _ _ _ (proj1 (rr_pd _ _ _ _ _ _ _ _ _ _ _ Hready))))) as (x & -> & _).
  unfold FRAME_SIZE, PAGE_SIZE. Z.div_mod_to_equations. lia.
Qed.

(** The rest: the directory and the block. *)
Lemma finish_run m' h m1 (s1 : vma H) v3 : va_mach s1 = set_ram m1 (v_mach (k_vmm k)) ->
  remapped (ram (v_mach (k_vmm k))) dir (kernel_stack c -w 0x1000) 0 m1 -> va_list s1 (lv1 ++ lv2) -> va_regs s1 !! q = None ->
  (forall x, x <> q -> hg (va_regs s1) x = hg (k_hdrs k) x) -> k_hdrs k !! q = Some h ->
  destroyed (set_heap (va_heap s1) (set_mach (va_mach s1) (k_vmm k))) (t_aspace c) A l (delete q B) v3 ->
  family m' (t_parent c) (ch1 ++ ch2) -> kin_changed (tasks (k_sched k)) m' (t_parent c) (ch1 ++ t :: ch2) ->
  wp (memory (pg_destroy_directory (Sched.cr3 (t_regs c))) ;;; kmem_free t ;;; mod_sched (fun s => set_tasks (delete t (tasks s)) s))
    (fun _ => reaped k t c ch1 ch2 l A B lv1 q lv2) (set_vmm v3 (put_vma s1 (set_sched (set_tasks m' (k_sched k)) k))).
Proof.
  intros Em1 R1 Hl1 Hn1 Hg1 Eh D Fm Hk. destruct (ds_memory _ _ _ _ _ _ D) as (m3 & Em3 & C3).
  cbn [v_mach v_regions set_heap set_mach] in Em3, C3. rewrite Em1 in Em3, C3. cbn [ram set_ram Paging.cr3] in C3.
  destruct (rr_frame _ _ _ _ _ _ _ _ _ _ _ Hready) as (Hinv & Hi & Hu). destruct (rr_pd _ _ _ _ _ _ _ _ _ _ _ Hready) as [_ Ecr].
  pose proof own_directory as Edir. set (i := pd A / 4096) in *.
  destruct (wp_run _ _ _ (free_frame_wp _ i Hinv Hi Hu)) as ([] & p4 & Ef & I4 & B4 & F4 & _).
  destruct (rr_blocks _ _ _ _ _ _ _ _ _ _ _ Hready) as [Hnd Hown]. destruct (Hown t) as [zt Ezt]; [in_tac|].
  assert (Hqt : q <> t /\ t ∉ t_aspace c :: l) by (rewrite !NoDup_cons in Hnd; set_solver). destruct Hqt as [Hqt Htl].
  apply wp_bind. eapply wp_intro.
  { unfold memory, on_vm, on_mach, zoom, pg_destroy_directory, with_pmm, zoom. cbn [k_vmm set_vmm].
    rewrite Em3, Ecr, Edir. cbn [m_pmm set_ram]. by rewrite Ef. }
  apply wp_bind. unfold kmem_free, on_vm, on_heap. apply wp_zoom, wp_zoom. cbn [v_heap k_vmm set_vmm set_mach].
  eapply wp_mono; [eapply al_free_wp; [apply D|apply minus_owned; [exact Htl|by rewrite lookup_delete_ne]]|].
  intros [] h4 Hrep. unfold mod_sched, on_sched. apply wp_zoom, wp_mod.
  split; [by exists m'|].
  split; cbn [k_sched k_vmm k_fs k_fds first_fd k_term set_sched set_vmm put_vma set_area v_aspaces v_regions v_mach v_heap
    set_heap set_mach m_pmm set_m_pmm set_ram ram].
  - split; [apply (ds_spaces _ _ _ _ _ _ D)|apply (ds_regions _ _ _ _ _ _ D)].
  - split; [by apply (va_list_ext s1)|]. by split.
  - rewrite delete_minus, <- (minus_nil B), delete_minus, minus_app in Hrep. erewrite minus_ext; [exact Hrep|].
    intros x. rewrite elem_of_app, !elem_of_cons, elem_of_nil. tauto.
  - by split.
  - exists m1. split; [exact R1|exact C3].
  - done.
Qed.

Lemma release_run : wp (release_task t) (fun _ => reaped k t c ch1 ch2 l A B lv1 q lv2) k.
Proof.
  destruct (rr_task _ _ _ _ _ _ _ _ _ _ _ Hready) as (Ec & Hid & _). pose proof (rr_family _ _ _ _ _ _ _ _ _ _ _ Hready) as F.
  destruct (rr_stack _ _ _ _ _ _ _ _ _ _ _ Hready) as (h & Eh & Ehv & Ehs & Eht).
  destruct (rr_frame _ _ _ _ _ _ _ _ _ _ _ Hready) as (Hinv & Hi & Hu).
  destruct (fm_parent _ _ _ F) as (pt & Ept & _).
  assert (Ht0 : t <> 0) by (destruct (family_member _ _ _ t F ltac:(in_tac)) as (? & _ & ? & _); done).
  unfold release_task. apply wp_bind. eapply wp_mono; [exact (leave_family_wp k (t_parent c) t ch1 ch2 pt c F Ept Ec Hid)|].
  intros [] k1 (m' & -> & Fm & Hk). destruct (fmap_some unkin _ _ c (kc_unkin _ _ _ _ Hk t) Ec) as (c1 & Ec1 & Eun).
  assert (Ek : kernel_stack c1 = kernel_stack c) by exact (f_equal kernel_stack Eun).
  assert (Ea : t_aspace c1 = t_aspace c) by exact (f_equal t_aspace Eun).
  assert (Er : t_regs c1 = t_regs c) by exact (f_equal t_regs Eun).
  apply wp_bind. eapply wp_task; [exact Ec1|done|]. rewrite Ek, Ea, Er.
  destruct (page_returned (get_vma k) lv1 q lv2 h B 0 (rr_area _ _ _ _ _ _ _ _ _ _ _ Hready) Eh Ehs Eht) as
    (s1 & m1 & Ev & Hl1 & Hn1 & Hg1 & Hrep1 & Em1 & R1); [apply (inv_total _ Hinv)|]. rewrite Ehv in Ev, R1. fold dir in R1.
  apply wp_bind. eapply wp_intro.
  { unfold on_vma, zoom. change (get_vma (set_sched _ k)) with (get_vma k). by rewrite Ev. }
  pose proof (space_ready _ m1 s1 Em1 R1 Hrep1) as Hds.
  apply wp_bind. unfold on_vm at 1. apply wp_zoom. eapply wp_mono; [exact (aspace_destroy_wp _ _ _ _ _ Hds)|].
  intros [] v3 D. by apply (finish_run m' h m1 s1 v3).
Qed.
End release.

(** ** The parent is switched to *)

Lemma wp_call {A X} (m : KC (H := H) A) (f : A -> KC X) Q k :
  wp m (fun r k' => exists a, r = Returns a /\ wp (f a) Q k') k -> wp (call m f) Q k.
Proof.
  intros Hm. unfold call. apply wp_bind. eapply wp_mono; [exact Hm|]. by intros r k' (a & -> & Hf).
Qed.

Lemma destroy_wp n k t c ch1 ch2 l A B lv1 q lv2 : reap_ready k t c ch1 ch2 l A B lv1 q lv2 ->
  wp (task_destroy (S (S n)) t) (fun r k' => r = Returns tt /\ reaped k t c ch1 ch2 l A B lv1 q lv2 k') k.
Proof.
  intros Hr. destruct (rr_task _ _ _ _ _ _ _ _ _ _ _ Hr) as (Ec & _ & Ef).
  assert (Ht0 : t <> 0) by (destruct (family_member _ _ _ t (rr_family _ _ _ _ _ _ _ _ _ _ _ Hr) ltac:(in_tac)) as (? & _ & ? & _); done).
  cbn [task_destroy]. apply wp_bind. eapply wp_task; [exact Ec|done|]. rewrite Ef. apply wp_call.
  cbn [kill_children Z.eqb]. unfold returns. apply wp_bind, wp_ret, wp_ret. exists tt. split; [done|].
  apply wp_bind. eapply wp_mono; [exact (release_run k t c ch1 ch2 l A B lv1 q lv2 Hr)|]. intros [] k' R. by apply wp_ret.
Qed.

(** What the handler leaves in the parent's block: the exit code is the
    answer of [waitpid], and the signal is neither pending nor awaited. *)
Definition answered (code : Z) (pt : tcb) : tcb :=
  set_signals (Z.lxor (t_mask pt) SIGCHLD) (Z.lxor (t_current pt) SIGCHLD) (set_regs (regs_set_retval code (t_regs pt)) (set_t_state RUNNING pt)).

(** The parent [p] is on the processor with the answer [code]; the child is
    gone, and no other task changed but for links between siblings. *)
Record collected k (t : Z) (c : tcb) (p : Z) (pt : tcb) (code : Z) (ch1 ch2 l : list Z) (A : aspace) (B : gmap Z Z) (lv1 : list Z) (q : Z) (lv2 : list Z) k' : Prop := {
  co_parent : exists pt', on_cpu k' p pt' /\ unkin pt' = unkin (answered code pt);
  co_child : tasks (k_sched k') !! t = None;
  co_others : forall x, x <> t -> x <> p -> unkin <$> tasks (k_sched k') !! x = unkin <$> tasks (k_sched k) !! x;
  co_sched : exists T, k_sched k' = set_actual p (set_tasks T (k_sched k));
  co_family : family (tasks (k_sched k')) p (ch1 ++ ch2);
  co_back : given_back k t c l A B lv1 q lv2 k';
}.

Section collect.
Context (k : kernel H) (t : Z) (c : tcb) (ch1 ch2 l : list Z) (A : aspace) (B : gmap Z Z) (lv1 : list Z) (q : Z) (lv2 : list Z) (pt : tcb).
Hypotheses (Hready : reap_ready k t c ch1 ch2 l A B lv1 q lv2) (Hpt : tasks (k_sched k) !! t_parent c = Some pt)
  (Hsig : Z.land (t_current pt) SIGCHLD <> 0) (Hwait : wait4 pt = t).
Let p := t_parent c.

(** The child can be released whatever is written into the block of its
    parent but for links. *)
Lemma ready_put pt' : kinship pt' = kinship pt -> reap_ready (put_tcb p pt' k) t c ch1 ch2 l A B lv1 q lv2.
Proof.
  intros Ek. destruct (fm_apart _ _ _ (rr_family _ _ _ _ _ _ _ _ _ _ _ Hready)) as [Hp _].
  apply (reap_ready_ext k _ t c c); try done; cbn [put_tcb k_sched set_sched tasks set_tasks].
  - rewrite lookup_insert_ne; [apply Hready|]. intros E. apply Hp. fold p. rewrite E. in_tac.
  - intros x. rewrite lookup_insert. case_decide as E; [|done]. subst x.
    rewrite (Hpt : tasks (k_sched k) !! p = Some pt). cbn. by f_equal.
Qed.

Lemma handler_wp n : wp (sig_handler (S (S (S n))) p) (fun r k' => r = Returns tt /\
    given_back k t c l A B lv1 q lv2 k' /\ exists T, k_sched k' = set_tasks T (k_sched k) /\ T !! t = None /\ family T p (ch1 ++ ch2) /\
      (forall x, x <> t -> x <> p -> unkin <$> T !! x = unkin <$> tasks (k_sched k) !! x) /\
      exists pt', T !! p = Some pt' /\ unkin pt' = unkin (set_signals (Z.lxor (t_mask pt) SIGCHLD) (Z.lxor (t_current pt) SIGCHLD)
        (set_regs (regs_set_retval (exit_code c) (t_regs pt)) pt))) k.
Proof.
  destruct (rr_task _ _ _ _ _ _ _ _ _ _ _ Hready) as (Ec & _). pose proof (rr_family _ _ _ _ _ _ _ _ _ _ _ Hready) as F.
  destruct (fm_apart _ _ _ F) as [Hp Hp0]. fold p in Hp, Hp0. assert (Htp : t <> p) by (intros E; apply Hp; rewrite <- E; in_tac).
  destruct (family_member _ _ _ t F ltac:(in_tac)) as (_ & _ & Ht0 & _).
  cbn [sig_handler]. apply wp_bind. eapply wp_task; [exact Hpt|done|]. rewrite (proj2 (Z.eqb_neq _ 0) Hsig), Hwait. cbn [negb].
  apply wp_bind. eapply wp_task; [exact Ec|done|]. apply wp_bind. eapply wp_upd_tcb; [exact Hpt|done|].
  set (pt1 := set_regs _ pt). apply wp_call. eapply wp_mono; [exact (destroy_wp n _ _ _ _ _ _ _ _ _ _ _ (ready_put pt1 eq_refl))|].
  intros r k' [-> [(m' & Es & Fm & Hk) Hback]]. exists tt. split; [done|].
  cbn [k_sched put_tcb set_sched tasks set_tasks] in Es, Hk.
  pose proof (kc_unkin _ _ _ _ Hk p) as Up. rewrite lookup_insert_eq in Up.
  destruct (m' !! p) as [pt2|] eqn:Ept2; [|done]. apply (inj Some) in Up.
  unfold returns. apply wp_bind. eapply wp_upd_tcb; [rewrite Es; cbn; rewrite lookup_delete_ne by done; exact Ept2|done|].
  apply wp_ret. split; [done|]. split; [destruct Hback; by split|]. cbn [put_tcb k_sched set_sched]. rewrite Es. cbn [tasks set_tasks].
  eexists. split; [reflexivity|]. set (pt3 := set_signals _ _ pt2). assert (Hpm : forall x, p = x -> x <> t) by (by intros x <-).
  split; [rewrite lookup_insert_ne by done; apply lookup_delete_eq|]. split; [|split].
  - apply (family_ext m'); [exact Fm|]. intros x Hx. rewrite lookup_insert. case_decide as E; [subst x; by rewrite Ept2|].
    rewrite lookup_delete_ne; [done|]. intros <-. destruct Hx as [Hx|Hx]; [done|].
    destruct (fm_list _ _ _ F) as [_ Hnd]. by apply NoDup_skip in Hnd as [? _].
  - intros x Hxt Hxp. rewrite lookup_insert_ne, lookup_delete_ne, (kc_unkin _ _ _ _ Hk) by done. by rewrite lookup_insert_ne.
  - exists pt3. split; [apply lookup_insert_eq|].
    exact (f_equal (fun u => set_signals (Z.lxor (t_mask u) SIGCHLD) (Z.lxor (t_current u) SIGCHLD) u) Up).
Qed.
End collect.

(** The switch to the parent. *)
Lemma collect_wp n k t c ch1 ch2 l A B lv1 q lv2 pt cc : reap_ready k t c ch1 ch2 l A B lv1 q lv2 ->
  tasks (k_sched k) !! t_parent c = Some pt -> Z.land (t_current pt) SIGCHLD <> 0 -> wait4 pt = t -> task_id pt <> 0 ->
  actual_task (k_sched k) <> 0 -> tasks (k_sched k) !! actual_task (k_sched k) = Some cc -> t_state cc <> RUNNING ->
  wp (task_switch_to (S (S (S (S n)))) (t_parent c)) (fun r k' => r = Left Switched /\
    collected k t c (t_parent c) pt (exit_code c) ch1 ch2 l A B lv1 q lv2 k') k.
Proof.
  intros Hready Hpt Hsig Hwait Hid Hcur0 Hcur Hst. set (p := t_parent c) in *.
  assert (Hp0 : p <> 0) by apply (fm_apart _ _ _ (rr_family _ _ _ _ _ _ _ _ _ _ _ Hready)).
  assert (Htp : t <> p).
  { intros E. destruct (fm_apart _ _ _ (rr_family _ _ _ _ _ _ _ _ _ _ _ Hready)) as [Hp _]. fold p in Hp. apply Hp. rewrite <- E. in_tac. }
  change (task_switch_to (S (S (S (S n)))) p) with (do cur <- get_sched actual_task; ready_if_running cur ;;;
    upd_tcb p (set_t_state RUNNING) ;;; do! _ <- sig_handler (S (S (S n))) p; mod_sched (set_actual p) ;;;
    do c <- task p; if task_id c =? 0 then panic "[DEBUG] End of all tasks" else context_switch (H := H) (A := unit) p).
  apply wp_bind. eapply wp_intro; [by apply on_sched_get|]. apply wp_bind. unfold ready_if_running.
  apply wp_bind. eapply wp_task; [exact Hcur|done|]. rewrite bool_decide_false by done. apply wp_ret.
  apply wp_bind. eapply wp_upd_tcb; [exact Hpt|done|]. set (pt1 := set_t_state RUNNING pt). apply wp_call.
  eapply wp_mono; [apply (handler_wp (put_tcb p pt1 k) t c ch1 ch2 l A B lv1 q lv2 pt1); try done|].
  { by apply (ready_put k t c ch1 ch2 l A B lv1 q lv2 pt). } { apply lookup_insert_eq. }
  intros r k' (-> & Hback & T & Es & Ht & Fm & Hoth & pt' & Ept & Eun). exists tt. split; [done|].
  assert (E1 : task_id pt' = task_id pt) by exact (f_equal task_id Eun).
  assert (E2 : t_state pt' = RUNNING) by exact (f_equal t_state Eun).
  assert (Ept' : tasks (k_sched k') !! p = Some pt') by by rewrite Es.
  apply wp_bind. unfold mod_sched, on_sched at 1. apply wp_zoom, wp_mod.
  apply wp_bind. eapply wp_task; [exact Ept'|done|]. rewrite E1, (proj2 (Z.eqb_neq _ 0) Hid).
  unfold context_switch. apply wp_bind. eapply wp_task; [exact Ept'|done|].
  apply wp_bind. unfold memory, on_vm, on_mach. apply wp_zoom, wp_zoom, wp_mod. apply wp_bind, wp_mod, wp_ret. split; [done|].
  split; cbn [k_sched set_tss set_vmm set_sched tasks set_actual queues]; rewrite ?Es; cbn [tasks set_tasks queues].
  - exists pt'. split; [|exact Eun]. split; [done|]. split; [exact Ept|]. by split.
  - exact Ht.
  - intros x Hxt Hxp. rewrite (Hoth x Hxt Hxp). cbn. by rewrite lookup_insert_ne.
  - by exists T.
  - exact Fm.
  - destruct Hback as [G1 (G2 & G3) G4 G5 G6 G7]. split; try done. split; [|done]. by apply (va_list_ext (get_vma k')).
Qed.

(** ** From the exit of the child to the return of [waitpid] *)

(** The block of the parent [pt] when its [waitpid] has been answered: the
    signal came and was taken, EAX is the exit code. *)
Definition back_from_wait (code : Z) (pt : tcb) : tcb :=
  answered code (set_signals (t_mask pt) (Z.lor (t_current pt) SIGCHLD) pt).

(** The parent is the one to run when the child [c] has left its queue. *)
Definition runs_next k (qs : qid -> list Z) (c pt : tcb) (rest : list Z) : Prop :=
  prio_gt (t_priority pt) (t_priority c) = true \/
  next_to_run (k_sched k) = 0 /\ t_priority pt = OS /\ upd_q qs (_set_queue c) rest OsQ = [].

Record waited k (qs : qid -> list Z) (t : Z) (c pt : tcb) (l1 l2 m1 m2 : list Z) (status : Z)
    (ch1 ch2 l : list Z) (A : aspace) (B : gmap Z Z) (lv1 : list Z) (q : Z) (lv2 : list Z) k' : Prop := {
  wt_parent : exists pt', on_cpu k' (t_parent c) pt' /\ stem pt' = stem (back_from_wait status pt);
  wt_child : tasks (k_sched k') !! t = None;
  wt_others : forall x, x <> t -> x <> t_parent c -> stem <$> tasks (k_sched k') !! x = stem <$> tasks (k_sched k) !! x;
  wt_queues : sched_ok (k_sched k') (moved (upd_q qs (_set_queue c) (l1 ++ l2)) SleepQ (run_queue pt) m1 (t_parent c) m2);
  wt_family : family (tasks (k_sched k')) (t_parent c) (ch1 ++ ch2);
  wt_back : given_back k t c l A B lv1 q lv2 k';
}.

Section wait_exit.
Context (k : kernel H) (qs : qid -> list Z) (t : Z) (c kc pt : tcb) (l1 l2 m1 m2 : list Z) (status : Z).
Context (ch1 ch2 l : list Z) (A : aspace) (B : gmap Z Z) (lv1 : list Z) (q : Z) (lv2 : list Z).
Hypotheses (Hex : exiting k qs t c kc l1 l2) (Hp : tasks (k_sched k) !! t_parent c = Some pt)
  (Hsleep : qs SleepQ = m1 ++ t_parent c :: m2) (Hmask : Z.land (t_mask pt) SIGCHLD <> 0) (Hwait : wait4 pt = t)
  (Hid : task_id pt <> 0) (Hnext : runs_next k qs c pt (l1 ++ l2)) (Hready : reap_ready k t c ch1 ch2 l A B lv1 q lv2).
Let p := t_parent c.
Let qs' := moved (upd_q qs (_set_queue c) (l1 ++ l2)) SleepQ (run_queue pt) m1 p m2.

Section zombie.
Context (s' : sched) (Hz : zombied k qs t c pt l1 l2 m1 m2 status s').

(** The scheduler wrote nothing that releasing the child depends on. *)
Lemma zombie_ready c' n : tasks s' !! t = Some c' -> core c' = core (set_t_state ZOMBIE (set_fd_ctr n (set_exit_code status c))) ->
  reap_ready (set_sched s' k) t c' ch1 ch2 l A B lv1 q lv2.
Proof.
  intros Ec' Hc. apply (reap_ready_ext k _ t c c'); try done; [exact (f_equal owned Hc)|].
  intros x. cbn [k_sched set_sched]. destruct (decide (x = t)) as [->|Hxt].
  { rewrite Ec', (proj1 (rr_task _ _ _ _ _ _ _ _ _ _ _ Hready)). cbn. f_equal. exact (f_equal kinship Hc). }
  destruct (decide (x = p)) as [->|Hxp]; [|apply kinship_core; by apply (zb_others _ _ _ _ _ _ _ _ _ _ _ Hz)].
  destruct (zb_parent _ _ _ _ _ _ _ _ _ _ _ Hz) as (pt' & Ept' & Hcp). unfold p. rewrite Hp, Ept'. cbn. f_equal. exact (f_equal kinship Hcp).
Qed.

(** The parent is the task that is switched to. *)
Lemma next_is_parent n : (if prio_gt (t_priority pt) (t_priority c) then task_switch_to n p
    else do next <- on_sched sched_get_next_task; task_switch_to n next) (set_sched s' k) = task_switch_to n p (set_sched s' k).
Proof.
  destruct Hnext as [->|(Hn & Hprio & Hq)]; [done|]. destruct (prio_gt _ _) eqn:Eg; [done|].
  assert (Eq : qs' OsQ = [p]).
  { unfold qs', moved, run_queue. rewrite decide_True by done. unfold upd_q at 1. rewrite decide_True by done.
    unfold upd_q at 1. rewrite decide_False by done. by rewrite Hq. }
  pose proof (get_next_first s' qs' OsQ (zb_queues _ _ _ _ _ _ _ _ _ _ _ Hz) (or_introl eq_refl)) as E. rewrite Eq in E.
  unfold on_sched at 1. unfold bind_ at 1, zoom. cbn [k_sched set_sched].
  rewrite E; [done|done|done|]. by rewrite (zb_next _ _ _ _ _ _ _ _ _ _ _ Hz Eg).
Qed.

(** The queues after the switch. *)
Lemma waited_queues k' c' pt1 pt' T : tasks s' !! t = Some c' -> t_state c' = ZOMBIE -> tasks s' !! p = Some pt1 -> t_state pt1 = READY ->
  k_sched k' = set_actual p (set_tasks T s') -> T !! p = Some pt' -> vital pt' = vital (set_t_state RUNNING pt1) ->
  (forall x, x <> t -> x <> p -> unkin <$> T !! x = unkin <$> tasks s' !! x) -> sched_ok (k_sched k') qs'.
Proof.
  intros Ec' Hz' Ep1 Hst Es Ept Hv Hoth. pose proof (zb_queues _ _ _ _ _ _ _ _ _ _ _ Hz) as Hok. fold p qs' in Hok.
  pose proof (sched_ok_runnable s' qs' p pt1 RUNNING Hok Ep1 ltac:(by left) ltac:(by right)) as Hok1.
  eapply sched_ok_ext; [exact Hok1|by rewrite Es|by rewrite Es|by rewrite Es|].
  intros j x Hx. rewrite Es. cbn [tasks set_actual set_tasks put_task]. rewrite lookup_insert. case_decide as E.
  - subst x. rewrite Ept. cbn. by f_equal.
  - assert (Hxt : x <> t) by (intros ->; by destruct (qo_home _ _ _ (so_qs _ _ Hok j) t c' Hx Ec') as [? _]).
    specialize (Hoth x Hxt ltac:(done)). destruct (T !! x) as [u|], (tasks s' !! x) as [u'|]; try done.
    apply (inj Some) in Hoth. cbn. f_equal. by apply unkin_vital.
Qed.
End zombie.

Lemma signal_pending x : Z.land (Z.lor x SIGCHLD) SIGCHLD <> 0.
Proof. rewrite Z.land_lor_distr_l, Z.land_diag. by intros [_ ?]%Z.lor_eq_0_iff. Qed.

(** What was collected, told from the state before the exit. *)
Lemma waited_intro s' c' m pt1 k' : zombied k qs t c pt l1 l2 m1 m2 status s' -> tasks s' !! t = Some c' ->
  core c' = core (set_t_state ZOMBIE (set_fd_ctr m (set_exit_code status c))) -> tasks s' !! p = Some pt1 ->
  core pt1 = core (set_t_state READY (set_signals (t_mask pt) (Z.lor (t_current pt) SIGCHLD) pt)) ->
  collected (set_sched s' k) t c' p pt1 status ch1 ch2 l A B lv1 q lv2 k' ->
  waited k qs t c pt l1 l2 m1 m2 status ch1 ch2 l A B lv1 q lv2 k'.
Proof.
  intros Hz Ec' Hc Ep1 Hcp [(pt' & Hcpu & Eun) Hgone Hoth (T & Es) Hfam Hback].
  assert (Hst : stem (answered status pt1) = stem (back_from_wait status pt)).
  { etransitivity; [exact (f_equal (fun u => unkin (answered status u)) Hcp)|done]. }
  split.
  - exists pt'. split; [done|]. rewrite <- Hst. by apply unkin_core.
  - done.
  - intros x Hxt Hxp. specialize (Hoth x Hxt Hxp). pose proof (zb_others _ _ _ _ _ _ _ _ _ _ _ Hz x Hxt Hxp) as Hz'.
    cbn [k_sched set_sched] in Hoth. destruct (tasks (k_sched k') !! x) as [u|], (tasks s' !! x) as [u1|], (tasks (k_sched k) !! x) as [u2|]; try done.
    apply (inj Some) in Hoth, Hz'. cbn. f_equal. rewrite (unkin_core _ _ Hoth). by apply core_stem.
  - destruct Hcpu as (_ & Ept & _). rewrite Es in Ept, Hoth. eapply (waited_queues s' Hz k' c' pt1 pt' T); try done.
    + exact (f_equal t_state Hc).
    + exact (f_equal t_state Hcp).
    + exact (f_equal vital Eun).
  - exact Hfam.
  - assert (E4 : kernel_stack c' = kernel_stack c) by exact (f_equal kernel_stack Hc).
    assert (E5 : t_aspace c' = t_aspace c) by exact (f_equal t_aspace Hc).
    destruct Hback as [G1 G2 G3 G4 G5 G6]. rewrite E5 in G1, G3. rewrite E4 in G5. by split.
Qed.

Lemma wait_exit_run n : exists k', do_exit (S (S (S (S (S n))))) t status k = Ok (Left Switched, k') /\
  waited k qs t c pt l1 l2 m1 m2 status ch1 ch2 l A B lv1 q lv2 k'.
Proof.
  destruct (exit_zombie k qs t c kc pt l1 l2 m1 m2 status Hex Hp Hsleep Hmask (S (S (S n))) Hwait) as (s' & E & Hz).
  destruct (zb_self _ _ _ _ _ _ _ _ _ _ _ Hz) as (c' & m & Ec' & Hc), (zb_parent _ _ _ _ _ _ _ _ _ _ _ Hz) as (pt1 & Ep1 & Hcp).
  pose proof (zb_actual _ _ _ _ _ _ _ _ _ _ _ Hz) as Hact. destruct (exiting_outside k qs t c kc l1 l2 Hex) as [Ht0 _].
  assert (E1 : t_parent c' = p) by exact (f_equal t_parent Hc). assert (E2 : exit_code c' = status) by exact (f_equal exit_code Hc).
  assert (E3 : t_current pt1 = Z.lor (t_current pt) SIGCHLD) by exact (f_equal t_current Hcp).
  assert (E4 : task_id pt1 = task_id pt) by exact (f_equal task_id Hcp).
  assert (E5 : wait4 pt1 = wait4 pt) by exact (f_equal wait4 Hcp).
  assert (E6 : t_state c' = ZOMBIE) by exact (f_equal t_state Hc).
  destruct (wp_run _ _ _ (collect_wp n (set_sched s' k) t c' ch1 ch2 l A B lv1 q lv2 pt1 c' (zombie_ready s' Hz c' m Ec' Hc)
    ltac:(by rewrite E1) ltac:(rewrite E3; apply signal_pending) ltac:(congruence) ltac:(congruence)
    ltac:(cbn; congruence) ltac:(cbn; congruence) ltac:(congruence))) as (r & k' & Er & -> & C).
  rewrite E1 in Er, C. rewrite E2 in C.
  exists k'. split; [by rewrite E, (next_is_parent s' Hz)|]. by apply (waited_intro s' c' m pt1).
Qed.
End wait_exit.
End reap.
