(* ===== verification/CopySpec.v ===== *)
(** * Copying to the memory of a program

    [vmm_copy_data_to] looks the pages of a user buffer up in the directory of
    the program, shows them one after the other through the temporary window
    of the kernel's directory, which is loaded, and stores bytes there.  Read
    through the tables of the program, the buffer then holds the bytes, as
    far as its pages are mapped; no other byte changes. *)

From S2P Require Import Prelude Pmm Heap Paging MmuSpec SpaceSpec DupSpec Vmm VmmSpec DestroySpec.

#[local] Open Scope Z_scope.

(** ** Memory that differs in data words only *)

Lemma kept_mono dir (D D' : Z -> Prop) m m' : kept dir D m m' -> (forall q, D q -> D' q) -> kept dir D' m m'.
Proof. intros [K1 K2 K3 K4] HD. split; try done. intros q Hq Hn. apply K4; auto. Qed.

Lemma kept_refl dir D m : dir_ok m dir -> kept dir D m m.
Proof. by split. Qed.

Lemma kept_store dir (D : Z -> Prop) m q w : dir_ok m dir -> ~ table_word m dir q -> D q -> word w -> kept dir D m (<[q := w]> m).
Proof.
  intros Hok Hq HD Hw. assert (Hw' : words_ok (<[q := w]> m)) by (apply words_ok_insert; [apply Hok|done]).
  assert (Htab : forall x, table_word m dir x -> <[q := w]> m !! x = m !! x) by (intros x Hx; rewrite lookup_insert_ne; [done|by intros ->]).
  split.
  - by apply (tables_ok m).
  - intros i Hi _. by apply (tables_pde m dir Hok).
  - intros v Hv Hlt _. by apply (tables_walk m dir Hok).
  - intros x _ Hx. rewrite lookup_insert_ne; [done|by intros ->].
Qed.

Lemma walk_same_page m dir v v' p : word v -> word v' -> v' / 4096 = v / 4096 -> walk_dir m dir v = Some p ->
  walk_dir m dir v' = Some (p - v mod 4096 + v' mod 4096).
Proof.
  intros Hv Hv' E. destruct (slot_range v Hv) as (_ & _ & Epd & Ept), (slot_range v' Hv') as (_ & _ & Epd' & Ept').
  unfold walk_dir. rewrite Epd', Epd, Ept', Ept, E. repeat case_match; try done. intros [= <-]. f_equal. lia.
Qed.

(** ** The copy *)

Lemma set_memory_same {H} (s : vmm H) : set_memory (ram (v_mach s)) s = s.
Proof. unfold set_memory. rewrite ram_same. by destruct s. Qed.

Section copy.
Context {H : Type} `{!Allocator H}.
Context (s : vmm H) (as_ : Z) (A : aspace) (vaddr : Z) (buff : list Z) (n : Z).
Let mc := v_mach s.
Let dir := frame_of (cr3 mc).
Let ud := pd A.
Let at_ (i : Z) : option Z := walk_dir (ram mc) ud (vaddr + i).

(** The loaded directory has the window, that of the address space is another
    one; the buffer is in the user part and none of its frames holds a page
    table. *)
Record user_ready : Prop := {
  ur_space : v_aspaces s !! as_ = Some A /\ as_ <> 0 /\ beside (ram mc) dir ud;
  ur_win : dir_win mc (ram mc);
  ur_range : 0 <= vaddr /\ 0 < n /\ vaddr + n <= VM_USER_END;
  ur_data : forall i p, 0 <= i < n -> at_ i = Some p -> ~ table_word (ram mc) dir (p / 4) /\ ~ own_word (ram mc) ud (p / 4);
}.

(** To be written a frame must not be mapped there twice. *)
Definition mapped_once : Prop := forall i j p, 0 <= i < n -> 0 <= j < n -> at_ i = Some p -> at_ j = Some p -> i = j.

(** The memory after [i] bytes. *)
Record stored (i : Z) (m : gmap Z Z) : Prop := {
  sd_kept : kept dir (fun q => exists j p, 0 <= j < i /\ at_ j = Some p /\ p / 4 = q) (ram mc) m;
  sd_bytes : forall j p b, 0 <= j < i -> at_ j = Some p -> buff !! Z.to_nat j = Some b -> phys_byte m p = Z.land b 255;
  sd_other : forall p, ~ table_word (ram mc) dir (p / 4) -> (forall j, 0 <= j < i -> at_ j <> Some p) ->
    phys_byte m p = phys_byte (ram mc) p;
}.

Hypothesis Huser : user_ready.

Lemma user_address i : 0 <= i < n -> user (vaddr + i).
Proof. intros Hi. destruct (ur_range Huser) as (H0 & _ & He). unfold user, word, VM_USER_END in *. lia. Qed.

Lemma stored_start : stored 0 (ram mc).
Proof. split; [apply kept_refl, (ur_win Huser)| |done]. intros j p b Hj. lia. Qed.

Lemma stored_win i m : stored i m -> dir_win mc m.
Proof. intros S. eapply kept_win; [apply S|apply Huser]. Qed.

Lemma stored_space i m : stored i m -> i <= n -> same_space dir ud (ram mc) m.
Proof.
  intros S Hi. destruct (ur_space Huser) as (_ & _ & Hb). apply (beside_kept _ _ _ _ _ Hb (sd_kept _ _ S)).
  intros q (j & p & Hj & Hp & <-). apply (ur_data Huser j); [lia|done].
Qed.

Lemma stored_walk i m j : stored i m -> i <= n -> 0 <= j < n -> walk_dir m ud (vaddr + j) = at_ j.
Proof. intros S Hi Hj. apply (ss_walk _ _ _ _ (stored_space i m S Hi)). by apply user_address. Qed.

(** Work on the window does not touch what is stored. *)
Lemma stored_kept i m m' : stored i m -> i <= n -> kept dir (fun _ => False) m m' -> stored i m'.
Proof.
  intros [K B O] Hi K'.
  assert (Hb : forall p, ~ table_word (ram mc) dir (p / 4) -> phys_byte m' p = phys_byte m p).
  { intros p Hp. apply phys_byte_ext, (kp_data _ _ _ _ K'); [|tauto]. intros Ht. apply Hp. eapply kept_words; [exact K|exact Ht]. }
  split.
  - eapply kept_trans; [exact K|]. eapply kept_mono; [exact K'|done].
  - intros j p b Hj Hp Hbj. rewrite Hb; [by eapply B|]. apply (ur_data Huser j p); [lia|done].
  - intros p Hp Hn. rewrite Hb by done. by apply O.
Qed.

(** What a copy leaves of the conditions for the next one. *)
Lemma copy_ready_again i m : stored i m -> i <= n ->
  dir_win (v_mach (set_memory m s)) m /\ beside m dir ud /\ (forall j, 0 <= j < n -> walk_dir m ud (vaddr + j) = at_ j) /\
  forall j p, 0 <= j < n -> at_ j = Some p -> ~ table_word m dir (p / 4) /\ ~ own_word m ud (p / 4).
Proof.
  intros S Hi. pose proof (stored_space i m S Hi) as Hs. split; [exact (stored_win i m S)|]. split; [apply Hs|].
  split; [intros j Hj; by apply (stored_walk i)|]. intros j p Hj Hp. destruct (ur_data Huser j p Hj Hp) as [H1 H2]. split.
  - intros Ht. apply H1. exact (kept_words _ _ _ _ _ (sd_kept _ _ S) Ht).
  - by rewrite (ss_own _ _ _ _ Hs).
Qed.

(** ** The window *)

(** Byte [i] is looked up; the window may show any page. *)
Lemma lookup_run i m t : stored t m -> t <= n -> 0 <= i < n -> exists e m',
  _vaddr_to_paddr ud (vaddr + i) (set_memory m s) = Ok (e, set_memory m' s) /\ stored t m' /\ word e /\
  match at_ i with Some p => e <> 0 /\ p = frame_of e + (vaddr + i) mod 4096 | None => e = 0 end.
Proof.
  intros S Ht Hi. pose proof (user_address i Hi) as Hv. destruct (stored_win t m S) as [Hok Hp].
  destruct (space_frame (set_ram m mc) ud (vaddr + i) Hok (ss_beside _ _ _ _ (stored_space t m S Ht)) Hv) as (e & m' & E & K & He & Hw).
  exists e, m'. split; [|split; [by eapply stored_kept|split; [done|]]].
  - unfold _vaddr_to_paddr, on_mach, zoom. cbn [v_mach set_memory set_mach]. change (set_ram m (v_mach s)) with (set_ram m mc).
    by rewrite E.
  - cbn [ram set_ram cr3] in Hw. by rewrite (stored_walk t m i S Ht Hi) in Hw.
Qed.

Definition window (m : gmap Z Z) (i : Z) : Prop := exists f, shows mc m VM_TMP_MAP f /\ at_ i = Some (f + (vaddr + i) mod 4096).

(** A frame is put into the window. *)
Lemma show_run i m e : stored i m -> i <= n -> word e -> exists m',
  on_mach (pg_map e VM_TMP_MAP PG_KERN_PAGE_FLAG) (set_memory m s) = Ok (tt, set_memory m' s) /\ stored i m' /\
  shows mc m' VM_TMP_MAP (frame_of e).
Proof.
  intros S Hi He. destruct (win_map mc (fun _ => False) m VM_TMP_MAP e (stored_win i m S) ltac:(by left) He) as (m' & E & K & Hs & _).
  exists m'. split; [unfold on_mach, zoom; cbn [v_mach set_memory set_mach]; fold mc; by rewrite E|]. split; [by eapply stored_kept|done].
Qed.

Lemma hide_run i m : stored i m -> i <= n -> exists r m',
  on_mach (pg_unmap VM_TMP_MAP) (set_memory m s) = Ok (r, set_memory m' s) /\ stored i m' /\ word r.
Proof.
  intros S Hi. destruct (win_unmap mc (fun _ => False) m VM_TMP_MAP (stored_win i m S) ltac:(by left)) as (r & m' & E & K & Hr & _).
  exists r, m'. split; [unfold on_mach, zoom; cbn [v_mach set_memory set_mach]; fold mc; by rewrite E|]. split; [by eapply stored_kept|done].
Qed.

Lemma space_run m : ld_as as_ (set_memory m s) = Ok (A, set_memory m s).
Proof.
  destruct (ur_space Huser) as (E & H0 & _). unfold ld_as. cbn [v_aspaces set_memory set_mach]. rewrite E.
  by rewrite (proj2 (Z.eqb_neq _ _) H0).
Qed.

(** The window turns to the page of byte [i]. *)
Lemma turn_page t i m : stored t m -> t <= n -> 0 <= i < n -> exists r m1 e m2,
  on_mach (pg_unmap VM_TMP_MAP) (set_memory m s) = Ok (r, set_memory m1 s) /\
  _vaddr_to_paddr ud (vaddr + i) (set_memory m1 s) = Ok (e, set_memory m2 s) /\
  match at_ i with
  | Some _ => e <> 0 /\ exists m3, on_mach (pg_map e VM_TMP_MAP PG_KERN_PAGE_FLAG) (set_memory m2 s) = Ok (tt, set_memory m3 s) /\
      stored t m3 /\ window m3 i
  | None => e = 0 /\ stored t m2
  end.
Proof.
  intros S Ht Hi. destruct (hide_run t m S Ht) as (r & m1 & E1 & S1 & _).
  destruct (lookup_run i m1 t S1 Ht Hi) as (e & m2 & E2 & S2 & He & Hat). exists r, m1, e, m2. split; [done|]. split; [done|].
  destruct (at_ i) as [p|] eqn:Ep; [|done]. destruct Hat as [He0 ->]. split; [done|].
  destruct (show_run t m2 e S2 Ht He) as (m3 & E3 & S3 & W3). exists m3. split; [done|]. split; [done|]. by exists (frame_of e).
Qed.

(** [Load next page] *)
Lemma reload_run i m : stored i m -> 0 <= i < n -> exists m',
  ((do _ <- on_mach (pg_unmap VM_TMP_MAP); ret_ tt) ;;;
   do a <- ld_as as_;
   do paddr <- _vaddr_to_paddr (pd a) (vaddr +w i);
   if paddr =? 0 then ret_ None
   else on_mach (pg_map paddr VM_TMP_MAP PG_KERN_PAGE_FLAG) ;;; ret_ (Some (mkDl i i VM_TMP_MAP))) (set_memory m s) =
  Ok (match at_ i with Some _ => Some (mkDl i i VM_TMP_MAP) | None => None end, set_memory m' s) /\
  stored i m' /\ (at_ i <> None -> window m' i).
Proof.
  intros S Hi. destruct (turn_page i i m S ltac:(lia) Hi) as (r & m1 & e & m2 & E1 & E2 & Hat).
  rewrite (bind_ok _ _ _ tt (set_memory m1 s)) by by rewrite (bind_ok _ _ _ _ _ E1).
  rewrite (bind_ok _ _ _ _ _ (space_run m1)). fold ud.
  rewrite w32_id by apply (user_address i Hi). rewrite (bind_ok _ _ _ _ _ E2).
  destruct (at_ i) as [p|]; [|destruct Hat as [-> S2]; by exists m2]. destruct Hat as (He0 & m3 & E3 & S3 & W3).
  rewrite (proj2 (Z.eqb_neq e 0) He0). exists m3. by rewrite (bind_ok _ _ _ _ _ E3).
Qed.

Lemma window_next m i : window m i -> 0 <= i -> i + 1 < n -> (vaddr + (i + 1)) mod 4096 <> 0 -> window m (i + 1).
Proof.
  intros (f & Hs & Hf) Hi Hlt Hne. exists f. split; [done|]. destruct (user_address i ltac:(lia)) as [Hw _], (user_address (i + 1) ltac:(lia)) as [Hw' _].
  unfold at_ in *. rewrite (walk_same_page _ _ _ (vaddr + (i + 1)) _ Hw Hw' ltac:(Z.div_mod_to_equations; lia) Hf). f_equal. lia.
Qed.

(** *** Storing *)

Hypotheses (Honce : mapped_once) (Hlen : n <= Z.of_nat (length buff)).

(** One more byte. *)
Lemma stored_byte i m p b : stored i m -> 0 <= i < n -> at_ i = Some p -> buff !! Z.to_nat i = Some b ->
  stored (i + 1) (<[p / 4 := set_byte (word_at m p) (p mod 4) b]> m).
Proof.
  intros [K B O] Hi Hp Hb. destruct (ur_data Huser i p Hi Hp) as [Ht _].
  assert (Hok : dir_ok m dir) by apply K.
  assert (Hw : word (set_byte (word_at m p) (p mod 4) b))
    by (apply set_byte_word; [apply word_at_word, Hok|apply Z.mod_pos_bound; lia]).
  assert (Ht' : ~ table_word m dir (p / 4)) by (intros E; apply Ht; eapply kept_words; [exact K|exact E]).
  split.
  - eapply (kept_trans dir _ _ m); [eapply kept_mono; [exact K|]|apply kept_store; try done].
    + intros q (j & p' & Hj & Hq). exists j, p'. split; [lia|done].
    + exists i, p. split; [lia|done].
  - intros j p' b' Hj Hp' Hb'. rewrite phys_byte_store. case_decide as E.
    + subst p'. assert (j = i) as -> by (apply (Honce j i p); done || lia). congruence.
    + apply (B j); try done. assert (j <> i) by congruence. lia.
  - intros p' Hp' Hn. rewrite phys_byte_store, decide_False; [apply O; [done|]|].
    + intros j Hj. apply Hn. lia.
    + intros ->. apply (Hn i); [lia|done].
Qed.

(** The byte goes through the window. *)
Lemma store_run i m o b p : stored i m -> 0 <= i < n -> window m i -> at_ i = Some p -> o = VM_TMP_MAP + (vaddr + i) mod 4096 ->
  buff !! Z.to_nat i = Some b -> exists m', on_mach (st8 o b) (set_memory m s) = Ok (tt, set_memory m' s) /\
    stored (i + 1) m' /\ forall f, shows mc m VM_TMP_MAP f -> shows mc m' VM_TMP_MAP f.
Proof.
  intros S Hi (f & Hs & Hf) Hp -> Hb. assert (p = f + (vaddr + i) mod 4096) as -> by congruence.
  pose proof (Hs ((vaddr + i) mod 4096) ltac:(apply Z.mod_pos_bound; lia)) as Hw. pose proof (stored_win i m S) as Hwin.
  pose proof (stored_byte i m _ b S Hi Hp Hb) as S'. set (p := f + (vaddr + i) mod 4096) in *. eexists. split; [|split; [exact S'|]].
  - unfold on_mach, zoom, st8. cbn [v_mach set_memory set_mach ram set_ram cr3]. fold mc. rewrite (win_walk mc m Hwin).
    fold dir in Hw |- *. by rewrite Hw.
  - intros g Hg j Hj. destruct (tmp_range VM_TMP_MAP j ltac:(by left) Hj) as (Hv & Hpd & _). rewrite <- (Hg j Hj). fold dir.
    pose proof (stored_win _ _ S') as [Hok' _]. destruct Hwin as [Hok _].
    apply (tables_walk m dir Hok); [|done|lia]. intros q Hq. rewrite lookup_insert_ne; [done|]. intros <-.
    apply (proj1 (ur_data Huser i _ Hi Hp)). exact (kept_words _ _ _ _ _ (sd_kept _ _ S) Hq).
Qed.

(** ** The loop *)

(** The loop has stored [dl_i l] bytes; its destination is the place of the
    next one in the window, unless a page ends there. *)
Record copying (l : data_loop) (st : vmm H) : Prop := {
  cg_index : 0 <= dl_base l <= dl_i l /\ dl_i l <= n;
  cg_mapped : forall j, 0 <= j < dl_i l -> at_ j <> None;
  cg_cursor : let o := dl_dst l + (dl_i l - dl_base l) in VM_TMP_MAP <= o <= VM_TMP_MAP + 4096 /\ o mod 4096 = (vaddr + dl_i l) mod 4096;
  cg_stored : exists m, st = set_memory m s /\ stored (dl_i l) m /\
    (dl_i l < n -> (vaddr + dl_i l) mod 4096 <> 0 -> window m (dl_i l));
}.

Definition outcome (r : option Z) (st : vmm H) : Prop := exists m i, st = set_memory m s /\ stored i m /\ 0 <= i <= n /\
  (forall j, 0 <= j < i -> at_ j <> None) /\
  match r with Some x => x = n /\ i = n | None => i < n /\ at_ i = None end.

Lemma tmp_mod : VM_TMP_MAP mod 4096 = 0. Proof. reflexivity. Qed.

(** The byte is stored and the loop goes on. *)
Lemma byte_step l m : copying l (set_memory m s) -> dl_i l < n -> stored (dl_i l) m -> window m (dl_i l) -> at_ (dl_i l) <> None ->
  dl_dst l + (dl_i l - dl_base l) = VM_TMP_MAP + (vaddr + dl_i l) mod 4096 ->
  exists b, buff !! Z.to_nat (dl_i l) = Some b /\
    wp (on_mach (st8 (dl_dst l +w (dl_i l -w dl_base l)) b)) (fun _ => copying (mkDl (dl_i l + 1) (dl_base l) (dl_dst l))) (set_memory m s).
Proof.
  intros [[Hb Hn] Hm _ _] Hlt S W Hat Ho. set (i := dl_i l) in *. destruct (ur_range Huser) as (H0 & _ & He).
  destruct (lookup_lt_is_Some_2 buff (Z.to_nat i)) as [b Eb]; [lia|]. exists b. split; [done|].
  destruct (at_ i) as [p|] eqn:Ep; [|done]. unfold VM_USER_END in He.
  assert (Hmod : 0 <= (vaddr + i) mod 4096 < 4096) by (apply Z.mod_pos_bound; lia).
  rewrite (w32_small (i - dl_base l)) by lia. rewrite w32_small by (rewrite Ho; unfold VM_TMP_MAP; lia).
  destruct (store_run i m _ b p S ltac:(lia) W Ep Ho Eb) as (m' & E & S' & Hs). eapply wp_intro; [exact E|].
  split; cbn [dl_i dl_base dl_dst]; fold i.
  - lia.
  - intros j Hj. destruct (decide (j = i)) as [->|Hne]; [by rewrite Ep|]. apply Hm. lia.
  - cbv zeta. replace (dl_dst l + (i + 1 - dl_base l)) with (VM_TMP_MAP + ((vaddr + i) mod 4096 + 1)) by lia. split; [lia|].
    rewrite Z.add_mod, tmp_mod by lia. Z.div_mod_to_equations. lia.
  - exists m'. split; [done|]. split; [done|]. intros Hlt' Hne. apply window_next; [|lia|done|done].
    destruct W as (f & Hf & Hp). exists f. split; [by apply Hs|done].
Qed.

Lemma copy_step l st : copying l st -> wp (copy_data_step as_ vaddr buff n l) (fun r st' => match r with
    | inl l' => copying l' st' /\ (Z.to_nat (n - dl_i l') < Z.to_nat (n - dl_i l))%nat
    | inr x => outcome x st' end) st.
Proof.
  intros C. pose proof C as [[Hb Hn] Hm [Ho1 Ho2] (m & -> & S & W)]. unfold copy_data_step. set (i := dl_i l) in *.
  destruct (Z.ltb_spec i n) as [Hlt|Hge].
  2: { assert (i = n) as Ei by lia. apply wp_ret. exists m, i. split_and!; try done; lia. }
  destruct (ur_range Huser) as (H0 & _ & He). unfold VM_USER_END in He. unfold VM_TMP_MAP in Ho1.
  assert (Ecur : dl_dst l +w (i -w dl_base l) = dl_dst l + (i - dl_base l)) by (rewrite (w32_small (i - dl_base l)) by lia; apply w32_small; lia).
  apply wp_bind. rewrite Ecur. unfold PAGE_SIZE. destruct (Z.eqb_spec ((dl_dst l + (i - dl_base l)) mod 4096) 0) as [E0|E0].
  - destruct (reload_run i m S ltac:(lia)) as (m' & E & S' & W'). eapply wp_intro; [exact E|]. destruct (at_ i) as [p|] eqn:Ep.
    + set (l' := mkDl i i VM_TMP_MAP).
      assert (C' : copying l' (set_memory m' s)).
      { split; cbn [dl_i dl_base dl_dst l']; [lia|exact Hm| |exists m'; split; [done|]; split; [done|]; intros _ Hne; by apply W'].
        cbv zeta. rewrite Z.sub_diag, Z.add_0_r. split; [lia|]. rewrite tmp_mod. congruence. }
      destruct (byte_step l' m' C' Hlt S' (W' ltac:(done)) ltac:(cbn; by rewrite Ep)) as (b & Eb & Hw).
      { cbn. rewrite Z.sub_diag. fold i. congruence. }
      unfold l' in Eb, Hw |- *. cbn [dl_i dl_base dl_dst] in Eb, Hw |- *. rewrite Eb. apply wp_bind. eapply wp_mono; [exact Hw|]. intros [] st' C2.
      apply wp_ret. split; [exact C2|]. cbn. lia.
    + apply wp_ret. exists m', i. split_and!; try done; lia.
  - apply wp_ret. assert (Hne : (vaddr + i) mod 4096 <> 0) by congruence. pose proof (W Hlt Hne) as Wi.
    assert (Hat : at_ i <> None) by (destruct Wi as (f & _ & ->); done).
    destruct (byte_step l m C Hlt S Wi Hat) as (b & Eb & Hw).
    { fold i. rewrite <- Ho2. unfold VM_TMP_MAP in *. Z.div_mod_to_equations. lia. }
    rewrite Eb. apply wp_bind. eapply wp_mono; [exact Hw|]. intros [] st' C2. apply wp_ret. split; [exact C2|]. cbn. lia.
Qed.

Lemma copy_loop m : stored 0 m -> (vaddr mod 4096 <> 0 -> window m 0) ->
  wp (loop (S (Z.to_nat n)) (copy_data_step as_ vaddr buff n) (mkDl 0 0 (VM_TMP_MAP + vaddr mod PAGE_SIZE))) outcome (set_memory m s).
Proof.
  intros S W. assert (Hmod : 0 <= vaddr mod 4096 < 4096) by (apply Z.mod_pos_bound; lia). destruct (ur_range Huser) as (_ & Hn & _).
  apply (wp_loop _ copying (fun l _ => Z.to_nat (n - dl_i l))); [exact copy_step| |cbn; lia].
  split; cbn [dl_i dl_base dl_dst].
  - lia.
  - lia.
  - cbv zeta. unfold PAGE_SIZE. change (0 - 0) with 0. rewrite !Z.add_0_r. split; [lia|].
    by rewrite Z.add_mod, tmp_mod, Z.add_0_l, !Z.mod_mod by lia.
  - exists m. rewrite Z.add_0_r. done.
Qed.

(** ** The routine *)

(** The routine on every buffer: [i] bytes were stored, all of them, or
    those before the first one that is not mapped. *)
Lemma copy_data_to_run : exists r m' i, vmm_copy_data_to as_ vaddr buff n s =
    Ok (r, set_memory m' (if decide (i = n) then s else set_errno EFAULT s)) /\
  0 <= i <= n /\ (forall j, 0 <= j < i -> at_ j <> None) /\ (i <> n -> at_ i = None) /\
  r = (if decide (i = n) then n else -1) /\ stored i m'.
Proof.
  destruct (ur_range Huser) as (_ & Hn & _). pose proof (space_run (ram mc)) as Esp.
  pose proof (set_memory_same s : set_memory (ram mc) s = s) as Es. rewrite Es in Esp.
  destruct (lookup_run 0 (ram mc) 0 stored_start ltac:(lia) ltac:(lia)) as (e & m1 & E1 & S1 & He & Hat).
  rewrite Z.add_0_r, Es in E1. rewrite Z.add_0_r in Hat.
  unfold vmm_copy_data_to. rewrite (bind_ok _ _ _ _ _ Esp). fold ud. rewrite (bind_ok _ _ _ _ _ E1).
  destruct (at_ 0) as [p|] eqn:E0.
  2: { subst e. exists (-1), m1, 0. rewrite !(decide_False (P := 0 = n)) by lia. split_and!; try done; intros; lia. }
  destruct Hat as [He0 ->]. rewrite (proj2 (Z.eqb_neq e 0) He0).
  destruct (hide_run 0 m1 S1 ltac:(lia)) as (old & m2 & E2 & S2 & Hold). rewrite (bind_ok _ _ _ _ _ E2).
  destruct (show_run 0 m2 e S2 ltac:(lia) He) as (m3 & E3 & S3 & W3). rewrite (bind_ok _ _ _ _ _ E3).
  assert (W0 : window m3 0) by (exists (frame_of e); split; [exact W3|]; by rewrite Z.add_0_r).
  destruct (wp_run _ _ _ (copy_loop m3 S3 (fun _ => W0))) as (r & st & E4 & m4 & i & -> & S4 & Hi & Hm & Hr).
  rewrite (bind_ok _ _ _ _ _ E4). destruct r as [x|].
  - destruct Hr as [-> ->]. destruct (hide_run n m4 S4 ltac:(lia)) as (r & m5 & E5 & S5 & _).
    destruct (show_run n m5 old S5 ltac:(lia) Hold) as (m6 & E6 & S6 & _). exists n, m6, n. rewrite !(decide_True (P := n = n)) by done.
    split; [|split_and!; done || lia]. rewrite (bind_ok _ _ _ tt (set_memory m5 s)) by by rewrite (bind_ok _ _ _ _ _ E5).
    by rewrite (bind_ok _ _ _ _ _ E6).
  - destruct Hr as [Hlt Hno]. destruct (show_run i m4 old S4 ltac:(lia) Hold) as (m6 & E6 & S6 & _). exists (-1), m6, i.
    rewrite !(decide_False (P := i = n)) by lia. split; [|split_and!; done || lia].
    unfold errno. unfold bind_ at 1, mod_ at 1. unfold on_mach, zoom in E6. cbn [v_mach set_memory set_mach] in E6.
    unfold bind_ at 1, on_mach, zoom. cbn [v_mach set_memory set_mach set_errno].
    destruct (pg_map old VM_TMP_MAP PG_KERN_PAGE_FLAG _) as [[[] x]| | |]; try done. by injection E6 as ->.
Qed.
End copy.

(** Only the machine matters. *)
Lemma stored_mach {H} (s s' : vmm H) A vaddr buff i m : v_mach s' = v_mach s -> stored s A vaddr buff i m -> stored s' A vaddr buff i m.
Proof. intros E [K B O]. by split; rewrite E. Qed.

(** What [vmm_copy_data_to] needs. *)
Record copy_ready {H} (s : vmm H) as_ A vaddr (buff : list Z) n : Prop := {
  cy_user : user_ready s as_ A vaddr n;
  cy_once : mapped_once s A vaddr n;
  cy_len : n <= Z.of_nat (length buff);
}.

Lemma copy_ready_next {H} (s : vmm H) as_ A vaddr buff buff' n m : copy_ready s as_ A vaddr buff n -> stored s A vaddr buff n m ->
  n <= Z.of_nat (length buff') -> copy_ready (set_memory m s) as_ A vaddr buff' n.
Proof.
  intros [C1 C2 C3] S Hl. destruct (copy_ready_again s as_ A vaddr buff n C1 n m S ltac:(lia)) as (W & Hb & Hw & Ht).
  destruct C1 as [U1 U2 U3 U4]. split; [split|..]; try done.
  - destruct U1 as (? & ? & _). split_and!; done.
  - intros i p Hi. cbn [v_mach set_memory set_mach ram set_ram cr3]. rewrite Hw by done. by apply Ht.
  - intros i j p Hi Hj. cbn [v_mach set_memory set_mach ram set_ram cr3]. rewrite !Hw by done. by apply C2.
Qed.

Lemma copy_ready_buff {H} (s : vmm H) as_ A vaddr buff buff' n : copy_ready s as_ A vaddr buff n ->
  n <= Z.of_nat (length buff') -> copy_ready s as_ A vaddr buff' n.
Proof. intros [C1 C2 _] Hl. by split. Qed.

(** What the program reads at [a]: [n] bytes through the tables of [dir]. *)
Fixpoint user_bytes (m : gmap Z Z) (dir a : Z) (n : nat) : option (list Z) :=
  match n with
  | O => Some []
  | S n =>
      match walk_dir m dir a, user_bytes m dir (a + 1) n with
      | Some p, Some bs => Some (phys_byte m p :: bs)
      | _, _ => None
      end
  end.

Lemma user_bytes_intro m dir bs : forall a, (forall j b, bs !! j = Some b -> exists p, walk_dir m dir (a + Z.of_nat j) = Some p /\ phys_byte m p = b) ->
  user_bytes m dir a (length bs) = Some bs.
Proof.
  induction bs as [|b bs IH]; intros a Hb; [done|]. cbn [user_bytes length].
  destruct (Hb 0%nat b eq_refl) as (p & Hp & <-). rewrite Z.add_0_r in Hp. rewrite Hp, IH; [done|].
  intros j b' Hj. destruct (Hb (S j) b' Hj) as (p' & Hp' & Hb'). exists p'. split; [|done]. rewrite <- Hp'. f_equal. lia.
Qed.

Lemma user_bytes_lookup m dir n : forall a bs, user_bytes m dir a n = Some bs -> length bs = n /\
  forall j c, bs !! j = Some c -> exists p, walk_dir m dir (a + Z.of_nat j) = Some p /\ phys_byte m p = c.
Proof.
  induction n as [|n IH]; intros a bs; cbn [user_bytes]; [by intros [= <-]|].
  destruct (walk_dir m dir a) as [p|] eqn:Ep; [|done]. destruct (user_bytes m dir (a + 1) n) as [l|] eqn:El; [|done]. intros [= <-].
  destruct (IH _ _ El) as [Hl Hb]. split; [cbn; lia|]. intros [|j] c Hc; [exists p; rewrite Z.add_0_r; split; [done|by injection Hc]|].
  destruct (Hb j c Hc) as (q & Hq & Hc'). exists q. split; [|done]. rewrite <- Hq. f_equal. lia.
Qed.

Lemma user_bytes_stored {H} (s : vmm H) as_ A vaddr buff n i m : user_ready s as_ A vaddr n -> 0 <= i <= n ->
  n <= Z.of_nat (length buff) -> stored s A vaddr buff i m ->
  (forall j, 0 <= j < i -> walk_dir (ram (v_mach s)) (pd A) (vaddr + j) <> None) ->
  user_bytes m (pd A) vaddr (Z.to_nat i) = Some (take (Z.to_nat i) ((fun b => Z.land b 255) <$> buff)).
Proof.
  intros Hu Hi Hl S Hm.
  set (bs := take _ _). assert (El : length bs = Z.to_nat i) by (unfold bs; rewrite length_take, length_fmap; lia).
  rewrite <- El. apply user_bytes_intro. intros j b Hb. pose proof (lookup_lt_Some _ _ _ Hb) as Hj. rewrite El in Hj.
  unfold bs in Hb. rewrite lookup_take_lt, list_lookup_fmap in Hb by done. destruct (buff !! j) as [b0|] eqn:E0; [|done]. injection Hb as <-.
  specialize (Hm (Z.of_nat j) ltac:(lia)). destruct (walk_dir _ (pd A) (vaddr + Z.of_nat j)) as [p|] eqn:Ep; [|done]. exists p. split.
  - rewrite <- Ep. apply (stored_walk s as_ A vaddr buff n Hu i m (Z.of_nat j) S); lia.
  - apply (sd_bytes _ _ _ _ _ _ S (Z.of_nat j)); [lia|done|by rewrite Nat2Z.id].
Qed.

(** ** Property *)

(** C21: [vmm_copy_data_to] into a buffer of a program, while the kernel's
    directory is loaded, returns on every input: when the whole buffer is
    mapped in the program's directory it answers the size, and the program
    then reads exactly the bytes at its addresses, also across page
    boundaries; otherwise it answers -1 with EFAULT, and the bytes before the
    first missing page are stored.  No other byte, no page table and no
    translation changes but for those of the temporary windows. *)
Theorem vmm_copy_data_to_copies {H} (s : vmm H) as_ A vaddr buff n : copy_ready s as_ A vaddr buff n ->
  exists r m' i, vmm_copy_data_to as_ vaddr buff n s = Ok (r, set_memory m' (if decide (i = n) then s else set_errno EFAULT s)) /\
    0 <= i <= n /\ (forall j, 0 <= j < i -> walk_dir (ram (v_mach s)) (pd A) (vaddr + j) <> None) /\
    (i <> n -> walk_dir (ram (v_mach s)) (pd A) (vaddr + i) = None) /\
    r = (if decide (i = n) then n else -1) /\ stored s A vaddr buff i m' /\
    same_space (frame_of (cr3 (v_mach s))) (pd A) (ram (v_mach s)) m' /\
    user_bytes m' (pd A) vaddr (Z.to_nat i) = Some (take (Z.to_nat i) ((fun b => Z.land b 255) <$> buff)).
Proof.
  intros [Hr Ho Hl]. destruct (copy_data_to_run s as_ A vaddr buff n Hr Ho Hl) as (r & m' & i & E & Hi & Hm & Hno & Er & S).
  exists r, m', i. split_and!; try done || lia.
  - by apply (stored_space s as_ A vaddr buff n Hr i m' S), Hi.
  - by apply (user_bytes_stored s as_ A vaddr buff n i m' Hr Hi Hl S Hm).
Qed.

(** The kernel's directory in frame 6, with the table of the windows in frame
    4; a program whose directory is in frame 1, with pages at 0x7000 and
    0x8000 in the frames 5 and 9 and nothing at 0x9000. *)
Definition copy_machine : machine := mkMachine pmm_64 0x6000 (list_to_map
  [(1024, 0x2007); (1024 + 768, 0x3003); (1024 + 1023, 0x1003); (2 * 1024 + 7, 0x5007); (2 * 1024 + 8, 0x9007);
   (6 * 1024 + 768, 0x3003); (6 * 1024 + 1021, 0x4003); (6 * 1024 + 1023, 0x6003)]).

Definition copy_vmm : vmm unit :=
  mkVmm tt ∅ {[ 0x100 := mkAspace 0x1000 0x7000 0x7800 0x7900 0xbfff0000 0x1000 1 0 0 ]} ∅ copy_machine 0.

(** The bytes of a buffer are data, by the slots in use of both directories. *)
Lemma data_check m dir ud f q : dir_ok m dir -> beside m dir ud -> (0x1000 | f) ->
  forallb (fun i => negb (frame_of (pde m dir i) =? f)) (present_slots m dir) = true ->
  forallb (fun i => negb (frame_of (pde m ud i) =? f)) (present_slots m ud) = true ->
  f <= 4 * q < f + 4096 -> ~ table_word m dir q /\ ~ own_word m ud q.
Proof.
  intros Hok Hb Hf H1 H2 Hq. split; [by apply (no_table_check m dir f)|]. intros Ho%own_table.
  by apply (no_table_check m ud f q (fo_pd _ _ _ (bs_for _ _ _ Hb)) Hf H2 Hq).
Qed.

Lemma copy_walk i : 0 <= i < 4 -> walk_dir (ram copy_machine) 0x1000 (0x7ffe + i) = Some (if i <? 2 then 0x5ffe + i else 0x9000 + (i - 2)).
Proof. intros Hi. assert (i = 0 \/ i = 1 \/ i = 2 \/ i = 3) as [-> | [-> | [-> | ->]]] by lia; vm_compute; reflexivity. Qed.

Lemma copy_vmm_ready : copy_ready copy_vmm 0x100 (mkAspace 0x1000 0x7000 0x7800 0x7900 0xbfff0000 0x1000 1 0 0) 0x7ffe [65; 66; 67; 68] 4.
Proof.
  assert (Hok : dir_ok (ram copy_machine) 0x6000) by (apply dir_ok_check; vm_compute; reflexivity).
  assert (Hb : beside (ram copy_machine) 0x6000 0x1000) by (apply beside_check; vm_compute; reflexivity). split; [split|..].
  - split; [apply lookup_singleton_eq|]. by split.
  - split; [exact Hok|vm_compute; reflexivity].
  - unfold VM_USER_END. lia.
  - intros i p Hi. cbn [pd]. change (frame_of (cr3 (v_mach copy_vmm))) with 0x6000. change (v_mach copy_vmm) with copy_machine.
    rewrite copy_walk by done. intros [= <-]. destruct (Z.ltb_spec i 2).
    + apply (data_check _ _ _ 0x5000); [exact Hok|exact Hb|by exists 5|vm_compute; reflexivity..|Z.div_mod_to_equations; lia].
    + apply (data_check _ _ _ 0x9000); [exact Hok|exact Hb|by exists 9|vm_compute; reflexivity..|Z.div_mod_to_equations; lia].
  - intros i j p Hi Hj. cbn [pd]. change (v_mach copy_vmm) with copy_machine.
    rewrite !copy_walk by done. intros [= <-] [= E]. destruct (Z.ltb_spec i 2), (Z.ltb_spec j 2); lia.
  - done.
Qed.

Lemma vmm_copy_data_to_copies_witness : exists m', vmm_copy_data_to 0x100 0x7ffe [65; 66; 67; 68] 4 copy_vmm = Ok (4, set_memory m' copy_vmm) /\
  user_bytes m' 0x1000 0x7ffe 4 = Some [65; 66; 67; 68].
Proof.
  destruct (vmm_copy_data_to_copies copy_vmm 0x100 _ 0x7ffe [65; 66; 67; 68] 4 copy_vmm_ready) as (r & m' & i & E & Hi & _ & Hno & Er & _ & _ & Hu).
  assert (i = 4) as ->.
  { destruct (decide (i = 4)) as [|Hne]; [done|]. specialize (Hno Hne). cbn [pd] in Hno.
    change (v_mach copy_vmm) with copy_machine in Hno. rewrite copy_walk in Hno by lia. discriminate. }
  rewrite decide_True in E by done. rewrite decide_True in Er by done. subst r. exists m'. split; [exact E|exact Hu].
Defined.
