(* ===== verification/ReaddirSpec.v ===== *)
(** * Listing a directory

    A program that calls [readdir] until it answers 0 reads the entries of
    the directory in the order of the abstract tree ([NameiSpec.v]), each
    copied to its buffer by [vmm_copy_data_to] ([CopySpec.v]).  During a call
    the kernel's directory is loaded; what the program has in its buffer is
    read through the program's own. *)

From S2P Require Import Prelude Dlist Pmm Kmalloc Heap Paging MmuSpec SpaceSpec DupSpec Vmm VmmSpec DestroySpec CopySpec Vmalloc Klib Terminal Namei NameiSpec Sched SchedSpec Kernel Vfs Files FilesSpec FdSpec.

#[local] Open Scope Z_scope.

(** [sizeof(vfs_dirent_t)] *)
Definition SIZEOF_DIRENT : Z := 132.

(** The entry of a file: its name, padded with zeroes, and its number. *)
Definition entry (name : list Z) (ino : Z) : list Z * Z := (name ++ replicate (Z.to_nat MAX_FILENAME - length name) 0, ino).

Lemma entry_length name ino : (length name <= Z.to_nat MAX_FILENAME)%nat -> length (dirent_bytes (entry name ino)) = Z.to_nat SIZEOF_DIRENT.
Proof.
  intros Hl. unfold dirent_bytes, entry. cbn [fst snd]. rewrite !length_app, length_replicate, length_fmap. cbn [length].
  unfold MAX_FILENAME, SIZEOF_DIRENT in *. lia.
Qed.

Section readdir.
Context {H : Type} `{!Allocator H}.
Implicit Types (k : kernel H).

(** The entry of the node [q] of the tree. *)
Definition entry_of (f : fsys) (nm : Z -> list Z) (q : Z) : list Z * Z := entry (nm q) (default 0 (vn_ino <$> nodes f !! q)).

(** ** The driver *)

Section tree.
Context (k : kernel H) (cs nm : Z -> list Z).
Hypothesis Htree : tree_ok (k_fs k) cs nm.

Lemma name_fits q x : nodes (k_fs k) !! q = Some x -> (length (nm q) < Z.to_nat MAX_FILENAME)%nat.
Proof.
  intros E. destruct (tk_name _ _ _ Htree q x E) as [[_ [rest Er]] Hl]. rewrite <- Hl, Er, length_app. cbn. lia.
Qed.

Lemma ramfs_readdir_wp d v i : nodes (k_fs k) !! d = Some v -> d <> 0 -> 0 <= i ->
  wp (ramfs_readdir d i) (fun r k' => k' = k /\ r = entry_of (k_fs k) nm <$> (cs d !! Z.to_nat i)) k.
Proof.
  intros Hv Hd Hi. unfold ramfs_readdir. apply wp_bind. eapply wp_node; [done|done|]. apply wp_bind, wp_get.
  destruct (tk_first _ _ _ Htree d v Hv) as [-> _]. pose proof (tk_dl _ _ _ Htree d) as Hdl.
  pose proof (dlist_length _ _ Hdl) as Hlen. destruct Hdl as [Hseg _]. apply dseg_sseg in Hseg.
  match goal with |- wp (loop _ ?b _) _ _ => set (body := b) end.
  cut (forall l fuel j, sseg (nodes (k_fs k)) l 0 -> (length l <= fuel)%nat -> 0 <= j <= i ->
    wp (loop (S fuel) body (hd0 0 l, j)) (fun r k' => k' = k /\ r = entry_of (k_fs k) nm <$> (l !! Z.to_nat (i - j))) k).
  { intros G. eapply wp_mono; [exact (G _ _ 0 Hseg Hlen ltac:(lia))|]. intros r k' [-> ->]. by rewrite Z.sub_0_r. }
  clear Hseg Hlen Hv. induction l as [|q l IH]; intros fuel j Hseg Hlen Hj; unfold body; cbn [loop hd0]; fold body.
  - apply wp_bind. cbn [Z.eqb negb andb]. by apply wp_ret, wp_ret.
  - destruct Hseg as (Hq0 & (x & Hx & Hnx) & Hseg). apply wp_bind.
    rewrite (proj2 (Z.eqb_neq q 0)), (proj2 (Z.leb_le j i)) by (done || lia). cbn [negb andb].
    apply wp_bind. eapply wp_node; [done|done|]. destruct (Z.eqb_spec j i) as [->|Hne].
    + destruct (tk_name _ _ _ Htree q x Hx) as [Hc _]. pose proof (name_fits q x Hx) as Hl.
      assert (En : strncpy (replicate (Z.to_nat MAX_FILENAME) 0) (vn_name x) (Z.to_nat MAX_FILENAME) =
        Some (nm q ++ replicate (Z.to_nat MAX_FILENAME - length (nm q)) 0)).
      { rewrite (strncpy_cstr _ _ _ _ Hc) by (rewrite length_replicate; lia). rewrite drop_replicate, Nat.sub_diag. cbn. by rewrite app_nil_r. }
      rewrite En. apply wp_bind, wp_ret, wp_ret, wp_ret. split; [done|]. rewrite Z.sub_diag. change ((q :: l) !! Z.to_nat 0) with (Some q).
      cbn [fmap option_fmap option_map]. unfold entry_of. by rewrite Hx.
    + apply wp_ret. replace (next_sibling x) with (hd0 0 l) by (symmetry; exact Hnx).
      destruct fuel as [|fuel]; [cbn in Hlen; lia|].
      eapply wp_mono; [apply (IH fuel (j + 1)); [done|cbn in Hlen; lia|lia]|].
      intros r k' [-> ->]. split; [done|]. replace (Z.to_nat (i - j)) with (S (Z.to_nat (i - (j + 1)))) by lia. done.
Qed.
End tree.

(** ** The call *)

(** The descriptor [f] of the task is open on a directory, and the buffer
    [dent] is ready to be written. *)
Record listing k (t fd : Z) (c : tcb) (p : Z) (f : fd_t) (v : vnode) (cs nm : Z -> list Z) (A : aspace) (dent : Z) : Prop := {
  li_open : opened k t fd c p f v;
  li_dir : v_type v = Some VFS_DIR \/ v_type v = Some VFS_MNTPT;
  li_op : is_Some (op_readdir (vn_op v));
  li_tree : tree_ok (k_fs k) cs nm;
  li_buffer : copy_ready (k_vmm k) (t_aspace c) A dent (replicate (Z.to_nat SIZEOF_DIRENT) 0) SIZEOF_DIRENT;
  li_position : 0 <= position f;
}.

(** The buffer as the program sees it, whose directory is [ud]. *)
Definition buffer_at k (ud dent : Z) : option (list Z) :=
  user_bytes (ram (v_mach (k_vmm k))) ud dent (Z.to_nat SIZEOF_DIRENT).

Definition buffer_mapped k (ud dent : Z) : Prop := forall j, 0 <= j < SIZEOF_DIRENT ->
  walk_dir (ram (v_mach (k_vmm k))) ud (dent + j) <> None.

(** The entry is in the buffer and the descriptor one further. *)
Definition moved_on k (p : Z) (f : fd_t) (m : gmap Z Z) : kernel H :=
  set_kfds (<[p := set_position (position f + 1) f]> (k_fds k)) (set_vmm (set_memory m (k_vmm k)) k).

Section call.
Context (k : kernel H) (t fd : Z) (c : tcb) (p : Z) (f : fd_t) (v : vnode) (cs nm : Z -> list Z) (A : aspace) (dent : Z).
Hypothesis Hl : listing k t fd c p f v cs nm A dent.
Let i := Z.to_nat (position f).
Let d := vfs_node f.

(** Up to the copy. *)
Lemma readdir_prefix : do_readdir t fd dent k =
  match cs d !! i with
  | None => Ok (0, k)
  | Some q =>
      let e := dirent_bytes (entry_of (k_fs k) nm q) in
      (do n <- on_vm (vmm_copy_data_to (t_aspace c) dent e (Z.of_nat (length e)));
       if n <? 0 then ret_ (-1) else upd_fd p (fun d => set_position (position d +w 1) d) ;;; ret_ 1) k
  end.
Proof.
  destruct (li_open _ _ _ _ _ _ _ _ _ _ _ Hl) as [Et Ht0 Es Hp0 Ef Ev Hn0]. destruct (li_op _ _ _ _ _ _ _ _ _ _ _ Hl) as [o Eo].
  destruct (wp_run _ _ _ (ramfs_readdir_wp k cs nm (li_tree _ _ _ _ _ _ _ _ _ _ _ Hl) d v (position f) Ev Hn0 (li_position _ _ _ _ _ _ _ _ _ _ _ Hl)))
    as (r & k' & Er & -> & Hr).
  unfold do_readdir. rewrite (bind_ok _ _ _ _ _ (get_fd_ok k t fd c p Et Ht0 Es)), (proj2 (Z.eqb_neq p 0) Hp0).
  rewrite (bind_ok _ _ _ _ _ (ld_fd_ok k p f Ef Hp0)), (bind_ok _ _ _ _ _ (node_ok k _ v Ev Hn0)).
  rewrite decide_False by (destruct (li_dir _ _ _ _ _ _ _ _ _ _ _ Hl) as [->| ->]; tauto).
  fold d in Er |- *. rewrite (bind_ok _ _ _ (match cs d !! i with Some q => (1, Some (entry_of (k_fs k) nm q)) | None => (0, None) end) k).
  - destruct (cs d !! i) as [q|]; [|done]. rewrite (bind_ok _ _ _ c k); [done|].
    unfold task. by rewrite (on_sched_get _ _ _ (ld_task_ok _ _ _ Et Ht0)).
  - unfold vfs_readdir. rewrite (bind_ok _ _ _ _ _ (node_ok k d v Ev Hn0)), Eo.
    rewrite (bind_ok _ _ _ r k) by (case_decide; exact Er). rewrite Hr. fold i. by destruct (cs d !! i).
Qed.

(** The entry at the position is copied, or the buffer is not there. *)
Lemma readdir_step q : cs d !! i = Some q -> position f + 1 < W32 ->
  let e := dirent_bytes (entry_of (k_fs k) nm q) in
  (buffer_mapped k (pd A) dent -> exists m, do_readdir t fd dent k = Ok (1, moved_on k p f m) /\
    stored (k_vmm k) A dent e SIZEOF_DIRENT m /\ buffer_at (moved_on k p f m) (pd A) dent = Some ((fun b => Z.land b 255) <$> e)) /\
  (~ buffer_mapped k (pd A) dent -> exists m, do_readdir t fd dent k = Ok (-1, set_vmm (set_memory m (set_errno EFAULT (k_vmm k))) k)).
Proof.
  intros Eq Hw e. destruct (li_open _ _ _ _ _ _ _ _ _ _ _ Hl) as [_ _ _ Hp0 Ef _ _].
  destruct (child_node _ _ _ (li_tree _ _ _ _ _ _ _ _ _ _ _ Hl) d q ltac:(by eapply list_elem_of_lookup_2)) as (x & Ex & _).
  pose proof (name_fits k cs nm (li_tree _ _ _ _ _ _ _ _ _ _ _ Hl) q x Ex) as Hlen.
  assert (El : length e = Z.to_nat SIZEOF_DIRENT) by (apply entry_length; lia).
  pose proof (copy_ready_buff _ _ _ _ _ e _ (li_buffer _ _ _ _ _ _ _ _ _ _ _ Hl) ltac:(rewrite El; done)) as Hc.
  destruct (copy_data_to_run _ _ _ _ _ _ (cy_user _ _ _ _ _ _ Hc) (cy_once _ _ _ _ _ _ Hc) (cy_len _ _ _ _ _ _ Hc)) as (r & m & j & E & Hj & Hm & Hno & Er & S).
  rewrite readdir_prefix, Eq. cbv zeta. fold e. rewrite El. rewrite Z2Nat.id by done.
  unfold on_vm. unfold bind_ at 1 3, zoom. rewrite E. split.
  - intros Hmap. assert (j = SIZEOF_DIRENT) as -> by (destruct (decide (j = SIZEOF_DIRENT)) as [|Hne]; [done|]; by destruct (Hmap j ltac:(lia) (Hno Hne))).
    rewrite decide_True in Er by done. rewrite decide_True in E |- * by done. subst r. exists m. split; [|split; [done|]].
    + cbn [Z.ltb SIZEOF_DIRENT Z.compare]. set (k1 := set_vmm _ k). unfold upd_fd.
      assert (E1 : ld_fd p k1 = Ok (f, k1)) by by apply ld_fd_ok.
      unfold bind_ at 1. rewrite (bind_ok _ _ _ _ _ E1). unfold mod_, ret_, moved_on. by rewrite w32_small by (pose proof (li_position _ _ _ _ _ _ _ _ _ _ _ Hl); lia).
    + pose proof (user_bytes_stored (k_vmm k) (t_aspace c) A dent e SIZEOF_DIRENT SIZEOF_DIRENT m (cy_user _ _ _ _ _ _ Hc) ltac:(done)
        (cy_len _ _ _ _ _ _ Hc) S Hm) as Hu.
      unfold buffer_at. cbn [moved_on k_vmm set_kfds set_vmm v_mach set_memory set_mach ram set_ram Paging.cr3]. rewrite Hu.
      by rewrite take_ge by (rewrite length_fmap, El; done).
  - intros Hun. assert (Hne : j <> SIZEOF_DIRENT) by (intros ->; by apply Hun). rewrite !decide_False in E by done. rewrite decide_False in Er by done.
    subst r. rewrite decide_False by done. by exists m.
Qed.
End call.

(** The next call finds the same directory. *)
Lemma listing_next k t fd c p f v cs nm A dent e m : listing k t fd c p f v cs nm A dent -> buffer_mapped k (pd A) dent ->
  length e = Z.to_nat SIZEOF_DIRENT -> stored (k_vmm k) A dent e SIZEOF_DIRENT m ->
  listing (moved_on k p f m) t fd c p (set_position (position f + 1) f) v cs nm A dent /\ buffer_mapped (moved_on k p f m) (pd A) dent.
Proof.
  intros [[O1 O2 O3 O4 O5 O6 O7] L2 L3 L4 L5 L6] Hmap Hlen S.
  assert (C : copy_ready (k_vmm k) (t_aspace c) A dent e SIZEOF_DIRENT) by (eapply copy_ready_buff; [exact L5|by rewrite Hlen]).
  split; [split|].
  - split; try done. apply lookup_insert_eq.
  - done.
  - done.
  - done.
  - eapply copy_ready_next; [exact C|exact S|by rewrite length_replicate].
  - cbn. lia.
  - intros j Hj. cbn [moved_on k_vmm set_kfds set_vmm v_mach set_memory set_mach ram set_ram Paging.cr3].
    destruct (copy_ready_again _ _ _ _ e _ (cy_user _ _ _ _ _ _ C) SIZEOF_DIRENT m S ltac:(done)) as (_ & _ & Hw & _). rewrite Hw by done. by apply Hmap.
Qed.

(** ** A program that lists *)

(** [readdir] is called until it answers 0; the entries read. *)
Fixpoint list_dir (n : nat) (t fd ud dent : Z) (k : kernel H) : option (list (list Z)) :=
  match n with
  | O => None
  | S n =>
      match do_readdir t fd dent k with
      | Ok (0, _) => Some []
      | Ok (1, k') =>
          match buffer_at k' ud dent, list_dir n t fd ud dent k' with
          | Some e, Some es => Some (e :: es)
          | _, _ => None
          end
      | _ => None
      end
  end.

Lemma list_dir_run n : forall k t fd c p f v cs nm A dent, listing k t fd c p f v cs nm A dent -> buffer_mapped k (pd A) dent ->
  Z.of_nat (length (cs (vfs_node f))) < W32 -> (length (cs (vfs_node f)) - Z.to_nat (position f) < n)%nat ->
  list_dir n t fd (pd A) dent k =
    Some ((fun q => (fun b => Z.land b 255) <$> dirent_bytes (entry_of (k_fs k) nm q)) <$> drop (Z.to_nat (position f)) (cs (vfs_node f))).
Proof.
  induction n as [|n IH]; intros k t fd c p f v cs nm A dent Hl Hmap Hw Hn; [lia|]. cbn [list_dir].
  destruct (cs (vfs_node f) !! Z.to_nat (position f)) as [q|] eqn:Eq.
  - pose proof (lookup_lt_Some _ _ _ Eq) as Hlt. pose proof (li_position _ _ _ _ _ _ _ _ _ _ _ Hl) as Hpos.
    destruct (proj1 (readdir_step k t fd c p f v cs nm A dent Hl q Eq ltac:(lia)) Hmap) as (m & E & S & Hb).
    destruct (child_node _ _ _ (li_tree _ _ _ _ _ _ _ _ _ _ _ Hl) _ q ltac:(by eapply list_elem_of_lookup_2)) as (x & Ex & _).
    pose proof (name_fits k cs nm (li_tree _ _ _ _ _ _ _ _ _ _ _ Hl) q x Ex) as Hlen.
    destruct (listing_next k t fd c p f v cs nm A dent (dirent_bytes (entry_of (k_fs k) nm q)) m Hl Hmap ltac:(apply entry_length; lia) S) as [Hl' Hmap'].
    rewrite E, Hb, (IH _ t fd c p _ v cs nm A dent Hl' Hmap' Hw) by (cbn [position set_position vfs_node]; lia).
    rewrite (drop_S _ _ _ Eq). cbn [position set_position vfs_node]. by rewrite Z2Nat.inj_add, Nat.add_1_r by lia.
  - rewrite (readdir_prefix k t fd c p f v cs nm A dent Hl), Eq. rewrite drop_ge; [done|]. by apply lookup_ge_None.
Qed.
End readdir.

(** ** Property *)

(** C5: a program that opens a directory and calls [readdir] until it
    answers 0 reads in its buffer, through its own directory (the calls are
    served with the kernel's loaded), the entries of the directory, each
    file's name and number once and in the order of the tree, and after the
    last one the call answers 0.  When the buffer is not mapped the call fails with
    EFAULT and the position stays; on a file it fails with ENOTDIR. *)
Theorem readdir_lists_directory {H} `{!Allocator H} (k : kernel H) t fd c p f v cs nm A dent :
  (listing k t fd c p f v cs nm A dent -> position f = 0 -> Z.of_nat (length (cs (vfs_node f))) < W32 ->
    (buffer_mapped k (pd A) dent -> list_dir (S (length (cs (vfs_node f)))) t fd (pd A) dent k =
      Some ((fun q => (fun b => Z.land b 255) <$> dirent_bytes (entry_of (k_fs k) nm q)) <$> cs (vfs_node f))) /\
    (~ buffer_mapped k (pd A) dent -> cs (vfs_node f) <> [] ->
      exists m, do_readdir t fd dent k = Ok (-1, set_vmm (set_memory m (set_errno EFAULT (k_vmm k))) k))) /\
  (opened k t fd c p f v -> v_type v <> Some VFS_DIR -> v_type v <> Some VFS_MNTPT -> do_readdir t fd dent k = failed ENOTDIR k).
Proof.
  split; [intros Hl H0 Hw; split|].
  - intros Hmap. rewrite (list_dir_run _ k t fd c p f v cs nm A dent Hl Hmap Hw) by lia. by rewrite H0.
  - intros Hun Hne. destruct (cs (vfs_node f)) as [|q l] eqn:Ec; [done|].
    apply (readdir_step k t fd c p f v cs nm A dent Hl q); [by rewrite H0, Ec|rewrite H0; done|exact Hun].
  - intros [Et Ht0 Es Hp0 Ef Ev Hn0] H1 H2. unfold do_readdir.
    rewrite (bind_ok _ _ _ _ _ (get_fd_ok k t fd c p Et Ht0 Es)), (proj2 (Z.eqb_neq p 0) Hp0).
    rewrite (bind_ok _ _ _ _ _ (ld_fd_ok k p f Ef Hp0)), (bind_ok _ _ _ _ _ (node_ok k _ v Ev Hn0)). by rewrite decide_True.
Qed.

(** The root of [demo_fs] is open as descriptor 2 of a task whose pages are
    those of [copy_vmm]; the buffer crosses from one page into the other. *)
Definition list_fs : fsys := mkFsys (set_op root_ops <$> demo_nodes) ∅ 0x10 0x30 0 0 0.

Definition list_tcb : tcb := mkTcb 2 0 0 1 [0; 0; 0x700] 0 0 0 0 0 0 0 0 RUNNING USER 0 0 zero_regs 0x100.

Definition list_aspace : aspace := mkAspace 0x1000 0x7000 0x7800 0x7900 0xbfff0000 0x1000 1 0 0.

Definition list_kernel : kernel malloc_state :=
  mkKernel (mkVmm ms_boot ∅ {[ 0x100 := list_aspace ]} ∅ copy_machine 0) ∅ (mkUreg 0 0 0) list_fs {[ 0x700 := mkFd 0 2 0x10 0 0 ]} 0x700
    (mkSched {[ 0x10 := list_tcb ]} (fun _ => empty_queue) 1 1 0 0x10 0x50 0 0x10 2)
    terminal_boot (mkKbd false false false false) (mkWait 0 0 0) false 0.

Lemma list_walk i : 0 <= i < SIZEOF_DIRENT ->
  walk_dir (ram copy_machine) 0x1000 (0x7fc0 + i) = Some (if i <? 64 then 0x5fc0 + i else 0x9000 + (i - 64)).
Proof.
  intros Hi. assert (Hall : Forall (fun i => walk_dir (ram copy_machine) 0x1000 (0x7fc0 + i) = Some (if i <? 64 then 0x5fc0 + i else 0x9000 + (i - 64))) (seqZ 0 SIZEOF_DIRENT))
    by (apply (bool_decide_unpack _); vm_compute; exact I).
  rewrite Forall_forall in Hall. apply Hall, elem_of_seqZ. lia.
Qed.

Lemma list_ready : copy_ready (k_vmm list_kernel) 0x100 list_aspace 0x7fc0 (replicate (Z.to_nat SIZEOF_DIRENT) 0) SIZEOF_DIRENT.
Proof.
  assert (Hok : dir_ok (ram copy_machine) 0x6000) by (apply dir_ok_check; vm_compute; reflexivity).
  assert (Hb : beside (ram copy_machine) 0x6000 0x1000) by (apply beside_check; vm_compute; reflexivity). split; [split|..].
  - split; [apply lookup_singleton_eq|]. by split.
  - split; [exact Hok|vm_compute; reflexivity].
  - unfold VM_USER_END, SIZEOF_DIRENT. lia.
  - intros i p Hi. change (frame_of _) with 0x6000. change (v_mach _) with copy_machine. cbn [pd list_aspace].
    rewrite list_walk by done. unfold SIZEOF_DIRENT in *. intros [= <-]. destruct (Z.ltb_spec i 64).
    + apply (data_check _ _ _ 0x5000 _ Hok Hb); [by exists 5|vm_compute; reflexivity|vm_compute; reflexivity|Z.div_mod_to_equations; lia].
    + apply (data_check _ _ _ 0x9000 _ Hok Hb); [by exists 9|vm_compute; reflexivity|vm_compute; reflexivity|Z.div_mod_to_equations; lia].
  - intros i j p Hi Hj. change (v_mach _) with copy_machine. cbn [pd list_aspace].
    rewrite !list_walk by done. unfold SIZEOF_DIRENT in *. intros [= <-] [= E]. destruct (Z.ltb_spec i 64), (Z.ltb_spec j 64); lia.
  - done.
Qed.

Lemma list_listing : listing list_kernel 0x10 2 list_tcb 0x700 (mkFd 0 2 0x10 0 0) (set_op root_ops (demo_dir [SLASH] 0 0x20 0x30 0 0))
  (fun_of demo_cm) (fun_of demo_nm) list_aspace 0x7fc0.
Proof.
  split.
  - split; try (vm_compute; reflexivity); discriminate.
  - by left.
  - by eexists.
  - apply tree_check. vm_compute. reflexivity.
  - exact list_ready.
  - done.
Qed.

#[local] Instance list_allocator : Allocator malloc_state := kmalloc_allocator 0xc0400000 demo_raw demo_bytes.

(** [ls /] reads the entries of [bin] and [dev]. *)
Lemma readdir_lists_directory_witness : list_dir 3 0x10 2 0x1000 0x7fc0 list_kernel =
  Some [n_bin ++ replicate 129 0; n_dev ++ replicate 129 0].
Proof.
  destruct (readdir_lists_directory list_kernel 0x10 2 list_tcb 0x700 (mkFd 0 2 0x10 0 0) (set_op root_ops (demo_dir [SLASH] 0 0x20 0x30 0 0))
    (fun_of demo_cm) (fun_of demo_nm) list_aspace 0x7fc0) as [Hl _].
  destruct (Hl list_listing eq_refl ltac:(vm_compute; reflexivity)) as [Hmap _].
  assert (Hm : buffer_mapped list_kernel (pd list_aspace) 0x7fc0).
  { intros j Hj. change (v_mach _) with copy_machine. cbn [pd list_aspace]. rewrite list_walk by done. done. }
  refine (eq_trans (Hmap Hm) _). vm_compute. reflexivity.
Defined.
