(* ===== verification/StringSpec.v ===== *)
(** * Strings of a program

    [vmm_copy_string_from] reads a C string through the tables of a program
    into a block of the heap, while the kernel's directory is loaded.  Every
    call that takes a path starts with it.  What it answers is decided by the bytes the program would read
    at the address: [string_result]. *)

From S2P Require Import Prelude Pmm Heap Paging MmuSpec SpaceSpec DupSpec Vmm VmmSpec DestroySpec CopySpec.

#[local] Open Scope Z_scope.

Section strings.
Context {H : Type} `{!Allocator H}.

(** A request of [n] bytes has turned the heap [h0] into [h]: what else there
    was room for, there still is. *)
Definition room_left (h0 : H) (n : Z) (h : H) : Prop :=
  forall r, 0 <= r -> n + r + 38 < 2 ^ 29 -> al_room h0 (n + r + 38) -> al_room h r.

Lemma malloc_run h0 B n : al_rep h0 B -> 0 <= n < 2 ^ 29 -> al_room h0 n -> exists b h z,
  al_malloc n h0 = Ok (b, h) /\ b <> 0 /\ B !! b = None /\ n + 8 <= z /\ al_rep h (<[b := z]> B) /\ room_left h0 n h.
Proof.
  intros Hrep Hn Hroom. destruct (wp_run _ _ _ (al_malloc_wp h0 B n Hrep Hn Hroom)) as (b & h & E & z & Hb0 & HBb & Hz & Hrep').
  exists b, h, z. split_and!; try done. intros r Hr Hlt Hm.
  destruct (wp_run _ _ _ (al_malloc_room h0 B n r Hrep ltac:(lia) Hr Hlt Hm)) as (b' & h' & E' & Hm'). congruence.
Qed.

(** Of the string at [vaddr] at most [n] bytes are looked at, terminator
    included.  Either it is there and is what a new block of [n] bytes begins
    with (the rest of the block is whatever it held), or it is too long, or it
    runs into a page that is not mapped; nothing else is changed but the temporary window and the error number. *)
Inductive string_result (s : vmm H) (ud vaddr n : Z) (B : gmap Z Z) : Z -> vmm H -> Prop :=
| string_copied b h m name z rest :
    0 ∉ name -> Z.of_nat (length name) < n ->
    user_bytes (ram (v_mach s)) ud vaddr (S (length name)) = Some (name ++ [0]) ->
    b <> 0 -> B !! b = None -> n + 8 <= z -> al_rep h (<[b := z]> B) -> room_left (v_heap s) n h ->
    length (name ++ 0 :: rest) = Z.to_nat n -> kept (frame_of (cr3 (v_mach s))) (fun _ => False) (ram (v_mach s)) m ->
    string_result s ud vaddr n B b
      (set_memory m (set_bufs (<[b := name ++ 0 :: rest]> (v_bufs s)) (set_heap h s)))
| string_too_long h m bs :
    0 ∉ bs -> user_bytes (ram (v_mach s)) ud vaddr (Z.to_nat n) = Some bs ->
    al_rep h B -> kept (frame_of (cr3 (v_mach s))) (fun _ => False) (ram (v_mach s)) m ->
    string_result s ud vaddr n B 0 (set_memory m (set_errno E2BIG (set_heap h s)))
| string_not_mapped h m bs :
    0 ∉ bs -> Z.of_nat (length bs) < n -> user_bytes (ram (v_mach s)) ud vaddr (length bs) = Some bs ->
    walk_dir (ram (v_mach s)) ud (vaddr + Z.of_nat (length bs)) = None ->
    al_rep h B -> kept (frame_of (cr3 (v_mach s))) (fun _ => False) (ram (v_mach s)) m ->
    string_result s ud vaddr n B 0 (set_memory m (set_errno EFAULT (set_heap h s))).

Section copy.
Context (s : vmm H) (as_ : Z) (A : aspace) (vaddr n : Z) (b : Z) (h : H).
Let mc := v_mach s.
Let dir := frame_of (cr3 mc).
Let ud := pd A.
Let at_ (i : Z) : option Z := walk_dir (ram mc) ud (vaddr + i).
Let raw := fresh_bytes h b n.
Hypotheses (Huser : user_ready s as_ A vaddr n) (Hpage : n <= 4096).

(** The loop at work: [l] is in the buffer. *)
Definition with_buf (l : list Z) : vmm H := set_bufs (<[b := l]> (v_bufs s)) (set_heap h s).

Lemma buf_ready l : user_ready (with_buf l) as_ A vaddr n.
Proof. split; apply Huser. Qed.

(** Nothing but the window has changed. *)
Definition still (m : gmap Z Z) : Prop := stored s A vaddr [] 0 m.

Lemma still_buf l m : still m <-> stored (with_buf l) A vaddr [] 0 m.
Proof. split; by apply stored_mach. Qed.

(** [name] was read. *)
Definition was_read (name : list Z) : Prop := 0 ∉ name /\
  forall j c, name !! j = Some c -> exists p, at_ (Z.of_nat j) = Some p /\ phys_byte (ram mc) p = c.

Definition buf_of (name : list Z) : list Z := name ++ drop (length name) raw.

Record reading (l : str_loop) (st : vmm H) : Prop := {
  rg_index : 0 <= sl_base l <= sl_i l /\ sl_i l <= n;
  rg_cursor : let o := sl_src l + (sl_i l - sl_base l) in VM_TMP_MAP <= o <= VM_TMP_MAP + 4096 /\ o mod 4096 = (vaddr + sl_i l) mod 4096;
  rg_vaddr : sl_base l = 0 /\ sl_vaddr l = vaddr \/ (vaddr + sl_base l) mod 4096 = 0 /\ sl_base l < sl_i l;
  rg_read : exists m name, st = set_memory m (with_buf (buf_of name)) /\ still m /\ was_read name /\ Z.of_nat (length name) = sl_i l /\
    (sl_i l < n -> (vaddr + sl_i l) mod 4096 <> 0 -> window s A vaddr m (sl_i l));
}.

Definition read_outcome (r : option Z) (st : vmm H) : Prop := exists m name l, st = set_memory m (with_buf l) /\ still m /\
  was_read name /\ Z.of_nat (length name) <= n /\
  match r with
  | Some x => x = Z.of_nat (length name) /\ (x = n \/ l = buf_of (name ++ [0]) /\ exists p, at_ x = Some p /\ phys_byte (ram mc) p = 0)
  | None => Z.of_nat (length name) < n /\ at_ (Z.of_nat (length name)) = None
  end.

(** A byte behind the window. *)
Lemma load_run l m i p : still m -> 0 <= i < n -> window s A vaddr m i -> at_ i = Some p ->
  on_mach (ld8 (VM_TMP_MAP + (vaddr + i) mod 4096)) (set_memory m (with_buf l)) = Ok (phys_byte (ram mc) p, set_memory m (with_buf l)).
Proof.
  intros S Hi (f & Hs & Hf) Hp. assert (p = f + (vaddr + i) mod 4096) as -> by (unfold at_, ud, mc in Hp; congruence).
  pose proof (Hs ((vaddr + i) mod 4096) ltac:(apply Z.mod_pos_bound; lia)) as Hw.
  pose proof (stored_win s as_ A vaddr [] n Huser 0 m S) as Hwin. unfold on_mach, zoom, ld8.
  cbn [v_mach set_memory set_mach ram set_ram cr3 with_buf set_bufs set_heap]. rewrite (win_walk (v_mach s) m Hwin), Hw.
  do 2 f_equal. apply (sd_other _ _ _ _ _ _ S); [by apply (ur_data _ _ _ _ _ Huser i _ Hi Hp)|]. intros j Hj. lia.
Qed.

Lemma raw_length : length raw = Z.to_nat n.
Proof. unfold raw, fresh_bytes. by rewrite length_fmap, length_seqZ. Qed.

Lemma set_byte_run m name c : Z.of_nat (length name) < n ->
  set_buf_byte b (Z.of_nat (length name)) c (set_memory m (with_buf (buf_of name))) = Ok (tt, set_memory m (with_buf (buf_of (name ++ [c])))).
Proof.
  intros Hl. unfold set_buf_byte. cbn [v_bufs set_memory set_mach with_buf set_bufs]. rewrite lookup_insert_eq.
  pose proof (raw_length) as Hraw.
  assert (Elen : length (buf_of name) = Z.to_nat n) by (unfold buf_of; rewrite length_app, length_drop; lia).
  rewrite Elen, (proj2 (Z.leb_le 0 _)), (proj2 (Z.ltb_lt _ (Z.of_nat (Z.to_nat n)))) by lia. cbn [andb]. rewrite insert_insert_eq.
  unfold buf_of. rewrite Nat2Z.id, length_app. cbn [length].
  destruct (lookup_lt_is_Some_2 raw (length name)) as [x Hx]; [lia|]. rewrite (drop_S raw x (length name) Hx).
  replace (length name + 1)%nat with (S (length name)) by lia.
  rewrite insert_app_r_alt, Nat.sub_diag by lia. cbn. by rewrite <- app_assoc.
Qed.

Lemma was_read_more name i p : was_read name -> Z.of_nat (length name) = i -> at_ i = Some p -> phys_byte (ram mc) p <> 0 ->
  was_read (name ++ [phys_byte (ram mc) p]).
Proof.
  intros [H0 Hr] <- Hp Hc. split; [rewrite elem_of_app, list_elem_of_singleton; naive_solver|].
  intros j c [Hj|[Hj Hc']]%lookup_app_Some; [by apply Hr|]. apply list_lookup_singleton_Some in Hc' as [Ej <-].
  exists p. split; [|done]. by replace j with (length name) by lia.
Qed.

(** The byte [l] points to is read and stored. *)
Definition read_one (l : str_loop) : vm (H := H) (str_loop + option Z) :=
  do c <- on_mach (ld8 (sl_src l +w (sl_i l -w sl_base l)));
  set_buf_byte b (sl_i l) c ;;;
  if c =? 0 then ret_ (inr (Some (sl_i l)))
  else ret_ (inl (mkSl (sl_i l + 1) (sl_base l) (sl_src l) (sl_vaddr l))).

Definition goes_on (l : str_loop) (r : str_loop + option Z) (st : vmm H) : Prop :=
  match r with
  | inl l' => reading l' st /\ (Z.to_nat (n - sl_i l') < Z.to_nat (n - sl_i l))%nat
  | inr x => read_outcome x st
  end.

Lemma read_one_wp l m name : sl_i l < n -> 0 <= sl_base l <= sl_i l -> still m -> was_read name -> Z.of_nat (length name) = sl_i l ->
  window s A vaddr m (sl_i l) -> sl_src l + (sl_i l - sl_base l) = VM_TMP_MAP + (vaddr + sl_i l) mod 4096 ->
  sl_base l = 0 /\ sl_vaddr l = vaddr \/ (vaddr + sl_base l) mod 4096 = 0 ->
  wp (read_one l) (goes_on l) (set_memory m (with_buf (buf_of name))).
Proof.
  intros Hlt Hb S Hr Hlen W Ho Hv. set (i := sl_i l) in *. destruct (ur_range _ _ _ _ _ Huser) as (H0 & _ & He). unfold VM_USER_END in He.
  assert (Hmod : 0 <= (vaddr + i) mod 4096 < 4096) by (apply Z.mod_pos_bound; lia).
  destruct W as (f & Hs & Hf) eqn:EW. clear EW. fold mc ud in Hf. change (walk_dir (ram mc) ud (vaddr + i)) with (at_ i) in Hf.
  set (p := f + (vaddr + i) mod 4096) in *. unfold read_one. fold i. rewrite (w32_small (i - sl_base l)) by lia.
  rewrite w32_small by (rewrite Ho; unfold VM_TMP_MAP; lia). rewrite Ho. apply wp_bind. eapply wp_intro.
  { apply (load_run _ m i p S ltac:(lia)); [by exists f|exact Hf]. }
  apply wp_bind. rewrite <- Hlen. eapply wp_intro; [apply set_byte_run; lia|]. rewrite Hlen.
  destruct (Z.eqb_spec (phys_byte (ram mc) p) 0) as [Ez|Hne].
  - rewrite Ez. apply wp_ret. exists m, name, (buf_of (name ++ [0])). split_and!; try done; [lia|]. right. split; [done|]. by exists p.
  - apply wp_ret. split; [|cbn; fold i; lia]. split; cbn [sl_i sl_base sl_src sl_vaddr]; fold i.
    + lia.
    + cbv zeta. replace (sl_src l + (i + 1 - sl_base l)) with (VM_TMP_MAP + ((vaddr + i) mod 4096 + 1)) by lia. split; [lia|].
      rewrite Z.add_mod, tmp_mod by lia. Z.div_mod_to_equations. lia.
    + destruct Hv as [Hv|Hv]; [by left|right]. split; [done|lia].
    + exists m, (name ++ [phys_byte (ram mc) p]). split_and!; try done.
      * by apply (was_read_more name i).
      * rewrite length_app. cbn. lia.
      * intros Hlt' Hne'. apply (window_next s as_ A vaddr n Huser); [by exists f|lia|lia|done].
Qed.

Lemma string_step l st : reading l st -> wp (copy_string_step as_ b n l) (goes_on l) st.
Proof.
  intros [[Hb Hn] [Ho1 Ho2] Hv (m & name & -> & S & Hr & Hlen & W)]. unfold copy_string_step.
  set (i := sl_i l) in *. destruct (Z.ltb_spec i n) as [Hlt|Hge].
  2: { apply wp_ret. exists m, name, (buf_of name). split_and!; try done; try lia; left; lia. }
  destruct (ur_range _ _ _ _ _ Huser) as (H0 & _ & He). unfold VM_USER_END in He. unfold VM_TMP_MAP in Ho1.
  rewrite (w32_small (i - sl_base l)) by lia. rewrite w32_small by lia.
  apply wp_bind. unfold PAGE_SIZE. destruct (Z.eqb_spec ((sl_src l + (i - sl_base l)) mod 4096) 0) as [E0|E0].
  - assert (Ev : sl_vaddr l +w i = vaddr +w i).
    { destruct Hv as [[_ ->]|[Hv1 Hv2]]; [done|]. exfalso. fold i in Hv2. rewrite Ho2 in E0.
      cut (4096 <= i - sl_base l); [lia|]. Z.div_mod_to_equations. lia. }
    destruct (turn_page (with_buf (buf_of name)) as_ A vaddr [] n (buf_ready _) 0 i m (proj1 (still_buf _ m) S) ltac:(lia) ltac:(lia)) as (r & m1 & e & m2 & E1 & E2 & Hat).
    apply wp_bind. eapply wp_intro; [by rewrite (bind_ok _ _ _ _ _ E1)|]. apply wp_bind.
    eapply wp_intro; [apply (space_run (with_buf (buf_of name)) as_ A vaddr n (buf_ready _) m1)|].
    fold ud. rewrite Ev, w32_small by lia.
    apply wp_bind. eapply wp_intro; [exact E2|]. change (walk_dir (ram (v_mach (with_buf (buf_of name)))) (pd A) (vaddr + i)) with (at_ i) in Hat.
    destruct (at_ i) as [p|] eqn:Ep.
    + destruct Hat as (He0 & m3 & E3 & S3%still_buf & W3). rewrite (proj2 (Z.eqb_neq e 0) He0). apply wp_bind. eapply wp_intro; [exact E3|]. apply wp_ret.
      apply (read_one_wp (mkSl i i VM_TMP_MAP (vaddr + i)) m3 name); try done; cbn [sl_i sl_base sl_src sl_vaddr].
      * lia.
      * rewrite Z.sub_diag. congruence.
      * right. congruence.
    + destruct Hat as [-> S2%still_buf]. apply wp_ret, wp_ret. exists m2, name, (buf_of name). split_and!; try done; try lia; by rewrite Hlen.
  - apply wp_ret. assert (Hne : (vaddr + i) mod 4096 <> 0) by congruence.
    apply (read_one_wp l m name); try done; [by apply W| |].
    + fold i. rewrite <- Ho2. unfold VM_TMP_MAP in *. Z.div_mod_to_equations. lia.
    + destruct Hv as [Hv|[Hv _]]; [by left|by right].
Qed.

Lemma string_loop m : still m -> (vaddr mod 4096 <> 0 -> window s A vaddr m 0) ->
  wp (loop (S (Z.to_nat n)) (copy_string_step as_ b n) (mkSl 0 0 (VM_TMP_MAP + vaddr mod PAGE_SIZE) vaddr)) read_outcome
    (set_memory m (with_buf raw)).
Proof.
  intros S W. assert (Hmod : 0 <= vaddr mod 4096 < 4096) by (apply Z.mod_pos_bound; lia). destruct (ur_range _ _ _ _ _ Huser) as (_ & Hn & _).
  apply (wp_loop _ reading (fun l _ => Z.to_nat (n - sl_i l))); [exact string_step| |cbn; lia].
  split; cbn [sl_i sl_base sl_src sl_vaddr].
  - lia.
  - cbv zeta. unfold PAGE_SIZE. change (0 - 0) with 0. rewrite !Z.add_0_r. split; [lia|].
    by rewrite Z.add_mod, tmp_mod, Z.add_0_l, !Z.mod_mod by lia.
  - by left.
  - exists m, []. split; [done|]. split; [done|]. split; [|split; [done|]].
    + split; [apply not_elem_of_nil|]. intros j c Hc. by rewrite lookup_nil in Hc.
    + intros _ Hne. apply W. by rewrite Z.add_0_r in Hne.
Qed.
End copy.

(** ** The routine *)

Section run.
Context (s : vmm H) (as_ : Z) (A : aspace) (vaddr n : Z) (B : gmap Z Z).
Let mc := v_mach s.
Let dir := frame_of (cr3 mc).
Let ud := pd A.

Record string_ready : Prop := {
  sr_user : user_ready s as_ A vaddr n;
  sr_page : n <= 4096;
  sr_heap : al_rep (v_heap s) B /\ al_room (v_heap s) n;
  sr_bufs : forall x, is_Some (v_bufs s !! x) -> is_Some (B !! x);
}.
Hypothesis Hready : string_ready.

Lemma free_buf_run m l b h z : al_rep h (<[b := z]> B) -> B !! b = None -> exists h2,
  free_buf b (set_memory m (with_buf s b h l)) = Ok (tt, set_memory m (set_heap h2 s)) /\ al_rep h2 B.
Proof.
  intros Hrep Hb. destruct (wp_run _ _ _ (al_free_wp h _ b z Hrep (lookup_insert_eq _ _ _))) as ([] & h2 & E & Hrep2).
  rewrite delete_insert_id in Hrep2 by done. exists h2. split; [|done]. unfold free_buf, on_heap. unfold bind_, zoom.
  cbn [v_heap set_memory set_mach with_buf set_bufs set_heap]. rewrite E. unfold mod_. cbn [v_bufs set_heap set_memory set_mach with_buf set_bufs].
  rewrite delete_insert_id; [done|]. destruct (v_bufs s !! b) eqn:Eb; [|done]. destruct (sr_bufs Hready b) as [? ?]; [eauto|congruence].
Qed.

Lemma still_kept m : still s A vaddr m -> kept dir (fun _ => False) (ram mc) m.
Proof. intros S. eapply kept_mono; [apply (sd_kept _ _ _ _ _ _ S)|]. intros q (j & p & Hj & _). lia. Qed.

Lemma read_bytes name : was_read s A vaddr name -> user_bytes (ram mc) ud vaddr (length name) = Some name.
Proof. intros [_ Hr]. by apply user_bytes_intro. Qed.

Lemma read_string name p : was_read s A vaddr name -> walk_dir (ram mc) ud (vaddr + Z.of_nat (length name)) = Some p -> phys_byte (ram mc) p = 0 ->
  user_bytes (ram mc) ud vaddr (S (length name)) = Some (name ++ [0]).
Proof.
  intros [_ Hr] Hp Hz. replace (S (length name)) with (length (name ++ [0])) by (rewrite length_app; cbn; lia).
  apply user_bytes_intro. intros j c [Hj|[Hj Hc]]%lookup_app_Some; [by apply Hr|]. apply list_lookup_singleton_Some in Hc as [Ej <-].
  exists p. split; [|done]. by replace j with (length name) by lia.
Qed.

(** Up to the loop. *)
Lemma string_prefix : (exists m, vmm_copy_string_from as_ vaddr n s = Ok (0, set_memory m (set_errno EFAULT (set_heap (v_heap s) s))) /\
    still s A vaddr m /\ walk_dir (ram mc) ud vaddr = None) \/
  exists old b h z m, word old /\ b <> 0 /\ B !! b = None /\ n + 8 <= z /\ al_rep h (<[b := z]> B) /\ room_left (v_heap s) n h /\ still s A vaddr m /\ window s A vaddr m 0 /\
    vmm_copy_string_from as_ vaddr n s =
    (do r <- loop (S (Z.to_nat n)) (copy_string_step as_ b n) (mkSl 0 0 (VM_TMP_MAP + vaddr mod PAGE_SIZE) vaddr);
     match r with
     | None => free_buf b ;;; on_mach (pg_map old VM_TMP_MAP PG_KERN_PAGE_FLAG) ;;; errno EFAULT ;;; ret_ 0
     | Some i =>
         (do _ <- on_mach (pg_unmap VM_TMP_MAP); ret_ tt) ;;; on_mach (pg_map old VM_TMP_MAP PG_KERN_PAGE_FLAG) ;;;
         if i =? n then free_buf b ;;; errno E2BIG ;;; ret_ 0 else ret_ b
     end) (set_memory m (with_buf s b h (fresh_bytes h b n))).
Proof.
  pose proof (sr_user Hready) as Hu. destruct (ur_range _ _ _ _ _ Hu) as (_ & Hn & _). destruct (sr_heap Hready) as [Hrep Hroom].
  pose proof (space_run s as_ A vaddr n Hu (ram mc)) as Esp. rewrite (set_memory_same s : set_memory (ram mc) s = s) in Esp.
  destruct (lookup_run s as_ A vaddr [] n Hu 0 (ram mc) 0 (stored_start s as_ A vaddr [] n Hu) ltac:(lia) ltac:(lia)) as (e & m1 & E1 & S1 & He & Hat).
  rewrite (set_memory_same s : set_memory (ram mc) s = s), Z.add_0_r in E1. rewrite Z.add_0_r in Hat. fold mc ud in Hat, E1.
  unfold vmm_copy_string_from. rewrite (bind_ok _ _ _ _ _ Esp). fold ud.
  unfold _vaddr_to_paddr in E1. rewrite (bind_ok _ _ _ _ _ E1).
  destruct (walk_dir (ram mc) ud vaddr) as [p|] eqn:E0; [|subst e; left; by exists m1].
  right. destruct Hat as [He0 ->]. rewrite (proj2 (Z.eqb_neq e 0) He0).
  destruct (hide_run s as_ A vaddr [] n Hu 0 m1 S1 ltac:(lia)) as (old & m2 & E2 & S2 & Hold). rewrite (bind_ok _ _ _ _ _ E2).
  destruct (show_run s as_ A vaddr [] n Hu 0 m2 e S2 ltac:(lia) He) as (m3 & E3 & S3 & W3). rewrite (bind_ok _ _ _ _ _ E3).
  pose proof (sr_page Hready) as Hp.
  destruct (malloc_run (v_heap s) B n Hrep ltac:(lia) Hroom) as (b & h & z & E4 & Hb0 & HBb & Hz & Hrep' & Hleft).
  exists old, b, h, z, m3. split_and!; try done.
  - exists (frame_of e). split; [exact W3|]. fold mc ud. by rewrite Z.add_0_r.
  - rewrite (bind_ok _ _ _ b (set_heap h (set_memory m3 s))) by (unfold on_heap, zoom; cbn [v_heap set_memory set_mach]; by rewrite E4). done.
Qed.

Lemma copy_string_run : exists r s', vmm_copy_string_from as_ vaddr n s = Ok (r, s') /\ string_result s ud vaddr n B r s'.
Proof.
  pose proof (sr_user Hready) as Hu. destruct (ur_range _ _ _ _ _ Hu) as (_ & Hn & _). pose proof (sr_page Hready) as Hp.
  destruct string_prefix as [(m & -> & S & E0)|(old & b & h & z & m & Hold & Hb0 & HBb & Hz & Hrep & Hleft & S & W & ->)].
  { do 2 eexists. split; [done|]. apply (string_not_mapped _ _ _ _ _ _ _ []); [apply not_elem_of_nil|cbn; lia|done|by rewrite Z.add_0_r|apply Hready|by apply still_kept]. }
  destruct (wp_run _ _ _ (string_loop s as_ A vaddr n b h Hu Hp m S (fun _ => W))) as (r & st & E1 & m1 & name & l & -> & S1 & Hr & Hlen & Ho).
  rewrite (bind_ok _ _ _ _ _ E1). pose proof (buf_ready s as_ A vaddr n b h Hu) as Hub.
  destruct r as [x|].
  - destruct Ho as [-> Ho]. destruct (hide_run (with_buf s b h l) as_ A vaddr [] n (Hub l) 0 m1 (proj1 (still_buf s A vaddr b h l m1) S1) ltac:(lia)) as (r & m2 & E2 & S2 & _).
    destruct (show_run (with_buf s b h l) as_ A vaddr [] n (Hub l) 0 m2 old S2 ltac:(lia) Hold) as (m3 & E3 & S3%still_buf & _).
    rewrite (bind_ok _ _ _ tt (set_memory m2 (with_buf s b h l))) by by rewrite (bind_ok _ _ _ _ _ E2). rewrite (bind_ok _ _ _ _ _ E3).
    destruct (Z.eqb_spec (Z.of_nat (length name)) n) as [El|Hne].
    + destruct (free_buf_run m3 l b h z Hrep HBb) as (h2 & E4 & Hrep2). rewrite (bind_ok _ _ _ _ _ E4).
      do 2 eexists. split; [reflexivity|]. apply (string_too_long _ _ _ _ _ _ _ name); [apply Hr| |done|by apply still_kept].
      rewrite <- El, Nat2Z.id. by apply read_bytes.
    + destruct Ho as [?|(-> & p & Hp0 & Hz0)]; [done|]. do 2 eexists. split; [reflexivity|].
      unfold buf_of. rewrite <- app_assoc. cbn [app].
      apply (string_copied _ _ _ _ _ b h m3 name z); try done; [apply Hr|lia|by apply (read_string name p)| |by apply still_kept].
      pose proof (raw_length n b h) as Hraw. rewrite length_app. cbn [length]. rewrite length_drop, length_app, Hraw. cbn [length]. lia.
  - destruct Ho as [Hlt Hno]. destruct (free_buf_run m1 l b h z Hrep HBb) as (h2 & E4 & Hrep2). rewrite (bind_ok _ _ _ _ _ E4).
    assert (Hu2 : user_ready (set_heap h2 s) as_ A vaddr n) by (split; apply Hu).
    destruct (show_run (set_heap h2 s) as_ A vaddr [] n Hu2 0 m1 old ltac:(by apply (stored_mach s)) ltac:(lia) Hold) as (m3 & E3 & S3 & _).
    rewrite (bind_ok _ _ _ _ _ E3). do 2 eexists. split; [reflexivity|].
    apply (string_not_mapped _ _ _ _ _ _ _ name); try done; [apply Hr|by apply read_bytes|].
    apply still_kept. by apply (stored_mach (set_heap h2 s)).
Qed.
End run.
End strings.

Lemma string_space {H} `{!Allocator H} (s : vmm H) ud vaddr n B r s' : beside (ram (v_mach s)) (frame_of (cr3 (v_mach s))) ud ->
  string_result s ud vaddr n B r s' -> same_space (frame_of (cr3 (v_mach s))) ud (ram (v_mach s)) (ram (v_mach s')).
Proof.
  intros Hb R. assert (G : forall m, kept (frame_of (cr3 (v_mach s))) (fun _ => False) (ram (v_mach s)) m ->
    same_space (frame_of (cr3 (v_mach s))) ud (ram (v_mach s)) m) by (intros m K; by apply (beside_kept _ _ _ _ _ Hb K)).
  destruct R; by apply G.
Qed.

(** ** A string that is there is copied *)

Lemma cstring_unique (n1 n2 : list Z) : 0 ∉ n1 -> 0 ∉ n2 ->
  (forall j c d, (n1 ++ [0]) !! j = Some c -> (n2 ++ [0]) !! j = Some d -> c = d) -> n1 = n2.
Proof.
  revert n2. induction n1 as [|x n1 IH]; intros [|y n2] H1 H2 Heq; [done| | |].
  - specialize (Heq 0%nat 0 y eq_refl eq_refl). subst y. set_solver.
  - specialize (Heq 0%nat x 0 eq_refl eq_refl). subst x. set_solver.
  - specialize (Heq 0%nat x y eq_refl eq_refl) as Exy. subst y. f_equal. apply IH; [set_solver..|].
    intros j c d Hc Hd. exact (Heq (S j) c d Hc Hd).
Qed.

(** Bytes that are not the terminator lie before it. *)
Lemma before_terminator (bs name : list Z) : 0 ∉ bs ->
  (forall j c d, bs !! j = Some c -> (name ++ [0]) !! j = Some d -> c = d) -> (length bs <= length name)%nat.
Proof.
  intros Hbs Heq. destruct (decide (length bs <= length name)%nat) as [|Hgt]; [done|].
  destruct (lookup_lt_is_Some_2 bs (length name)) as [c Hc]; [lia|]. exfalso. apply Hbs.
  rewrite <- (Heq _ c 0 Hc); [by eapply list_elem_of_lookup_2|]. by rewrite lookup_app_r, Nat.sub_diag.
Qed.

Lemma string_there {H} `{!Allocator H} (s : vmm H) ud vaddr n B name r s' : 0 ∉ name -> Z.of_nat (length name) < n ->
  user_bytes (ram (v_mach s)) ud vaddr (S (length name)) = Some (name ++ [0]) ->
  string_result s ud vaddr n B r s' -> exists h m z rest, r <> 0 /\ B !! r = None /\ n + 8 <= z /\ al_rep h (<[r := z]> B) /\
    room_left (v_heap s) n h /\ kept (frame_of (cr3 (v_mach s))) (fun _ => False) (ram (v_mach s)) m /\
    length (name ++ 0 :: rest) = Z.to_nat n /\
    s' = set_memory m (set_bufs (<[r := name ++ 0 :: rest]> (v_bufs s)) (set_heap h s)).
Proof.
  intros Hn0 Hlt Hu R. destruct (user_bytes_lookup _ _ _ _ _ Hu) as [_ Hb].
  assert (Hsame : forall bs k, user_bytes (ram (v_mach s)) ud vaddr k = Some bs ->
    forall j c d, bs !! j = Some c -> (name ++ [0]) !! j = Some d -> c = d).
  { intros bs k Hub j c d Hc Hd. destruct (user_bytes_lookup _ _ _ _ _ Hub) as [_ Hbb].
    destruct (Hbb j c Hc) as (q & Hq & <-), (Hb j d Hd) as (q' & Hq' & <-). congruence. }
  destruct R as [b h m name' zb rest Hn0' _ Hu' Hb0 HB Hz Hrep Hleft Hlen Hk|h m bs Hbs Hub _ _|h m bs Hbs _ Hub Hno _ _].
  - rewrite (cstring_unique name' name Hn0' Hn0 (Hsame _ _ Hu')) in Hlen |- *. by exists h, m, zb, rest.
  - pose proof (before_terminator bs name Hbs (Hsame _ _ Hub)). destruct (user_bytes_lookup _ _ _ _ _ Hub) as [Hl _]. lia.
  - pose proof (before_terminator bs name Hbs (Hsame _ _ Hub)) as Hl.
    destruct (lookup_lt_is_Some_2 (name ++ [0]) (length bs)) as [c Hc]; [rewrite length_app; cbn; lia|].
    destruct (Hb _ c Hc) as (q & Hq & _). congruence.
Qed.

Lemma string_decides {H} `{!Allocator H} (s : vmm H) ud vaddr n B name r s' : 0 ∉ name -> Z.of_nat (length name) < n ->
  user_bytes (ram (v_mach s)) ud vaddr (S (length name)) = Some (name ++ [0]) ->
  string_result s ud vaddr n B r s' -> r <> 0 /\ exists rest, length (name ++ 0 :: rest) = Z.to_nat n /\ v_bufs s' !! r = Some (name ++ 0 :: rest).
Proof.
  intros Hn0 Hlt Hu R. destruct (string_there s ud vaddr n B name r s' Hn0 Hlt Hu R) as (h & m & z & rest & Hr & _ & _ & _ & _ & _ & Hl & ->).
  split; [exact Hr|]. exists rest. split; [exact Hl|]. apply lookup_insert_eq.
Qed.
