(* ===== verification/PathSpec.v ===== *)
(** * The path argument of a system call

    [with_path] copies the path from the memory of the program
    ([StringSpec.v]), runs the call on the copy and releases it. *)

From S2P Require Import Prelude Dlist Pmm Kmalloc Heap Paging MmuSpec SpaceSpec DupSpec Vmm VmmSpec CopySpec StringSpec Vmalloc Klib Terminal Namei NameiSpec Sched SchedSpec Kernel Vfs Files FilesSpec FdSpec.

#[local] Open Scope Z_scope.

(** ** Property *)

(** C22: every call that takes a path first copies it.  What happens is
    decided by what the program would read at that address through its own
    directory, while the kernel's is loaded ([string_result]): a string
    shorter than [MAX_PATH_LEN], wherever its pages are, becomes with its
    terminator the beginning of a new block of the heap (behind it the block
    holds whatever it held before), which is handed to the call and released
    after it; a string that is too long is refused with E2BIG and one that
    runs into a page that is not mapped with EFAULT, the block being released
    and the call not begun.  The program keeps its translations. *)
Theorem with_path_copies_string {H} `{!Allocator H} (k : kernel H) c A path B :
  tasks (k_sched k) !! actual_task (k_sched k) = Some c -> actual_task (k_sched k) <> 0 ->
  string_ready (k_vmm k) (t_aspace c) A path MAX_PATH_LEN B ->
  exists r s', vmm_copy_string_from (t_aspace c) path MAX_PATH_LEN (k_vmm k) = Ok (r, s') /\
    string_result (k_vmm k) (pd A) path MAX_PATH_LEN B r s' /\
    same_space (frame_of (Paging.cr3 (v_mach (k_vmm k)))) (pd A) (ram (v_mach (k_vmm k))) (ram (v_mach s')) /\
    (forall name, 0 ∉ name -> Z.of_nat (length name) < MAX_PATH_LEN ->
      user_bytes (ram (v_mach (k_vmm k))) (pd A) path (S (length name)) = Some (name ++ [0]) ->
      r <> 0 /\ exists rest, length (name ++ 0 :: rest) = Z.to_nat MAX_PATH_LEN /\ v_bufs s' !! r = Some (name ++ 0 :: rest)) /\
    forall call, with_path path call k =
      if r =? 0 then Ok (-1, set_vmm s' k)
      else match v_bufs s' !! r with
           | Some bytes => (do x <- call bytes; on_vm (free_buf r) ;;; ret_ x) (set_vmm s' k)
           | None => Fault
           end.
Proof.
  intros Hc H0 Hr. destruct (copy_string_run (k_vmm k) (t_aspace c) A path MAX_PATH_LEN B Hr) as (r & s' & E & R).
  exists r, s'. split; [exact E|]. split; [exact R|].
  split; [exact (string_space _ _ _ _ _ _ _ (proj2 (proj2 (ur_space _ _ _ _ _ (sr_user _ _ _ _ _ _ Hr)))) R)|].
  split; [intros name H1 H2 H3; exact (string_decides _ _ _ _ _ _ _ _ H1 H2 H3 R)|].
  intros call. unfold with_path.
  rewrite (bind_ok _ _ k (actual_task (k_sched k)) k) by done.
  rewrite (bind_ok _ _ k c k) by (unfold task; by rewrite (on_sched_get _ _ _ (ld_task_ok _ _ _ Hc H0))).
  rewrite (bind_ok _ _ _ r (set_vmm s' k)) by (unfold on_vm, zoom; by rewrite E).
  destruct (r =? 0); [done|]. unfold bind_ at 1. cbn [k_vmm set_vmm]. by destruct (v_bufs s' !! r).
Qed.

(** The string "/etc/" goes on in the second page of its program. *)
Definition str_machine : machine := mkMachine pmm_64 0x6000 (list_to_map
  [(1024, 0x2007); (1024 + 768, 0x3003); (1024 + 1023, 0x1003); (6 * 1024 + 768, 0x3003); (6 * 1024 + 1021, 0x4003); (6 * 1024 + 1023, 0x6003); (2 * 1024 + 7, 0x5007); (2 * 1024 + 8, 0x9007);
   (5 * 1024 + 1023, 0x652f0000); (9 * 1024, 0x2f6374)]).

Definition str_tcb : tcb := mkTcb 2 0 0 1 [0; 0; 0x700] 0 0 0 0 0 0 0 0 RUNNING USER 0 0 zero_regs 0x100.

Definition str_aspace : aspace := mkAspace 0x1000 0x7000 0x7800 0x7900 0xbfff0000 0x1000 1 0 0.

Definition str_kernel : kernel malloc_state :=
  mkKernel (mkVmm root_block.2 ∅ {[ 0x100 := str_aspace ]} ∅ str_machine 0) ∅ (mkUreg 0 0 0) root_fs ∅ 0
    (mkSched {[ 0x10 := str_tcb ]} (fun _ => empty_queue) 1 1 0 0x10 0x50 0 0x10 2)
    terminal_boot (mkKbd false false false false) (mkWait 0 0 0) false 0.

#[local] Instance str_allocator : Allocator malloc_state := kmalloc_allocator 0xc0400000 demo_raw demo_bytes.

Lemma str_walk i : 0 <= i < MAX_PATH_LEN ->
  walk_dir (ram str_machine) 0x1000 (0x7ffe + i) = Some (if i <? 2 then 0x5ffe + i else 0x9000 + (i - 2)).
Proof.
  intros Hi. assert (Hall : Forall (fun i => walk_dir (ram str_machine) 0x1000 (0x7ffe + i) = Some (if i <? 2 then 0x5ffe + i else 0x9000 + (i - 2))) (seqZ 0 MAX_PATH_LEN))
    by (apply (bool_decide_unpack _); vm_compute; exact I).
  rewrite Forall_forall in Hall. apply Hall, elem_of_seqZ. lia.
Qed.

Lemma str_ready z : rep 0xc0400000 root_block.2 {[ root_block.1 := z ]} ->
  string_ready (k_vmm str_kernel) 0x100 str_aspace 0x7ffe MAX_PATH_LEN {[ root_block.1 := z ]}.
Proof.
  intros Hrep. assert (Hok : dir_ok (ram str_machine) 0x6000) by (apply dir_ok_check; vm_compute; reflexivity).
  assert (Hb : beside (ram str_machine) 0x6000 0x1000) by (apply beside_check; vm_compute; reflexivity).
  split; [split|..].
  - split; [apply lookup_singleton_eq|]. by split.
  - split; [exact Hok|vm_compute; reflexivity].
  - unfold VM_USER_END, MAX_PATH_LEN. lia.
  - intros i p Hi. change (frame_of _) with 0x6000. change (v_mach _) with str_machine. cbn [pd str_aspace].
    rewrite str_walk by done. unfold MAX_PATH_LEN in *. intros [= <-]. destruct (Z.ltb_spec i 2).
    + apply (data_check _ _ _ 0x5000 _ Hok Hb); [by exists 5|vm_compute; reflexivity|vm_compute; reflexivity|Z.div_mod_to_equations; lia].
    + apply (data_check _ _ _ 0x9000 _ Hok Hb); [by exists 9|vm_compute; reflexivity|vm_compute; reflexivity|Z.div_mod_to_equations; lia].
  - done.
  - split; [exact Hrep|]. vm_compute. discriminate.
  - intros x [l Hx]. change ((∅ : gmap Z (list Z)) !! x = Some l) in Hx. by rewrite lookup_empty in Hx.
Qed.

Lemma with_path_copies_string_witness : exists r s' l, v_bufs s' !! r = Some l /\ take 6 l = [47; 101; 116; 99; 47; 0] /\
  forall call, with_path 0x7ffe call str_kernel = (do x <- call l; on_vm (free_buf r) ;;; ret_ x) (set_vmm s' str_kernel).
Proof.
  destruct root_block_rep as [z Hrep].
  destruct (with_path_copies_string str_kernel str_tcb str_aspace 0x7ffe _ eq_refl ltac:(discriminate) (str_ready z Hrep)) as (r & s' & _ & _ & _ & Hs & Hw).
  assert (H0 : 0 ∉ [47; 101; 116; 99; 47]) by (apply (bool_decide_unpack _); vm_compute; exact I).
  assert (Hlt : Z.of_nat (length [47; 101; 116; 99; 47]) < MAX_PATH_LEN) by (vm_compute; reflexivity).
  destruct (Hs [47; 101; 116; 99; 47] H0 Hlt ltac:(vm_compute; reflexivity)) as (Hr & rest & _ & Hl).
  exists r, s', ([47; 101; 116; 99; 47] ++ 0 :: rest). split; [exact Hl|].
  split; [reflexivity|]. intros call. rewrite Hw, Hl. by rewrite (proj2 (Z.eqb_neq r 0) Hr).
Defined.
