(* ===== verification/MkdirSpec.v ===== *)
(** * The system call mkdir

    A program calls [mkdir] with the address of a path; the entry of the call
    has loaded the kernel's directory ([IsrSpec.v]).  [PathSpec.v] copies
    the path to a block of one page, which is longer than the path; what lies
    behind the terminator is never read ([do_mkdir_tail]), so
    [mkdir_creates_directory] applies to the copy, and the block is released
    when the call is over ([mkdir_call_creates]). *)

From S2P Require Import Prelude Dlist Pmm Kmalloc Heap Paging MmuSpec Vmm VmmSpec CopySpec StringSpec PathSpec Vmalloc Klib Terminal Namei NameiSpec Sched SchedSpec Kernel Vfs Files FilesSpec FdSpec SpaceSpec DupSpec DestroySpec.

#[local] Open Scope Z_scope.

(** ** Where one routine returns, so does the other *)

Definition below {S A} (m m' : M S A) : Prop := forall s r, m s = Ok r -> m' s = Ok r.

Lemma below_refl {S A} (m : M S A) : below m m.
Proof. by intros s r. Qed.

Lemma below_bind {S A B} (m m' : M S A) (f f' : A -> M S B) : below m m' -> (forall a, below (f a) (f' a)) -> below (bind_ m f) (bind_ m' f').
Proof. intros Hm Hf s r (a & s1 & E1 & E2)%bind_inv. rewrite (bind_ok _ _ _ _ _ (Hm _ _ E1)). by apply Hf. Qed.

Lemma below_if {S A} (b : bool) (m m' n n' : M S A) : below m m' -> below n n' -> below (if b then m else n) (if b then m' else n').
Proof. by destruct b. Qed.

Lemma below_zoom {S T A} (g : S -> T) (p : T -> S -> S) (m m' : M T A) : below m m' -> below (zoom g p m) (zoom g p m').
Proof. intros Hm s r. unfold zoom. destruct (m (g s)) as [[a t]| | |] eqn:E; try done. by rewrite (Hm _ _ E). Qed.

Lemma below_loop {S A B} (b b' : A -> M S (A + B)) : (forall a, below (b a) (b' a)) -> forall n n' a, (n <= n')%nat -> below (loop n b a) (loop n' b' a).
Proof.
  intros Hb n. induction n as [|n IH]; intros [|n'] a Hn; [by intros s r..|lia|]. cbn [loop]. apply below_bind; [apply Hb|].
  intros [a'|x]; [apply IH; lia|apply below_refl].
Qed.

Lemma below_some {S A} (o o' : option A) : (forall a, o = Some a -> o' = Some a) -> below (S := S) (lift_opt o) (lift_opt o').
Proof. intros Ho s r. unfold lift_opt. destruct o as [a|]; [|done]. by rewrite (Ho a eq_refl). Qed.

(** ** Behind the terminator *)

Section tail.
Context (path t : list Z).

Lemma below_rd {S} i : below (S := S) (rd path i) (rd (path ++ t) i).
Proof. unfold rd. apply below_if; [|apply below_refl]. apply below_some. intros a Ha. by apply lookup_app_l_Some. Qed.

Lemma strlen_tail (l : list Z) n : strlen l = Some n -> strlen (l ++ t) = Some n.
Proof. intros (name & [Hn [rest ->]] & ->)%strlen_some. apply strlen_cstr. split; [done|]. exists (rest ++ t). by rewrite <- app_assoc. Qed.

Lemma strncpy_tail n : forall dst src x u, strncpy dst src n = Some x -> strncpy dst (src ++ u) n = Some x.
Proof.
  induction n as [|n IH]; intros dst src x u; [by destruct dst, src|]. destruct dst as [|y dst], src as [|c src]; try done.
  cbn [strncpy app]. destruct (c =? 0).
  - destruct (strncpy dst (0 :: src) n) as [d|] eqn:E; [|done]. apply (IH _ _ _ u) in E. cbn [app] in E. by rewrite E.
  - destruct (strncpy dst src n) as [d|] eqn:E; [|done]. by rewrite (IH _ _ _ u E).
Qed.

Ltac below_step := first
  [ apply below_refl | apply below_rd | apply below_bind; [|intros ?] | apply below_if | apply below_zoom
  | apply below_loop; [intros ?|rewrite ?length_app; lia] | apply below_some; intros ? ?; by apply strlen_tail | progress cbv zeta | case_match ].

Lemma deconcat_tail {S} L i b : below (S := S) (_path_deconcatenator path L i b) (_path_deconcatenator (path ++ t) L i b).
Proof. unfold _path_deconcatenator, deconcat_step. repeat below_step. Qed.

Lemma namei_tail root b : below (namei_path_to_vfs_node root path b) (namei_path_to_vfs_node root (path ++ t) b).
Proof.
  unfold namei_path_to_vfs_node. repeat (first [apply deconcat_tail | below_step]).
Qed.

Lemma filename_tail {S} b : below (S := S) (namei_path_to_filename path b) (namei_path_to_filename (path ++ t) b).
Proof.
  unfold namei_path_to_filename. repeat below_step. apply below_some. intros x. rewrite drop_app. apply strncpy_tail.
Qed.

Context {H : Type} `{!Allocator H} (stack_bytes : list Z).

Lemma do_mkdir_tail : below (do_mkdir stack_bytes path) (do_mkdir stack_bytes (path ++ t)).
Proof.
  unfold do_mkdir, on_fs. repeat (first [apply namei_tail | apply filename_tail | below_step]).
Qed.
End tail.

(** ** Before and after the call *)

Section call.
Context {H : Type} `{!Allocator H}.

Lemma free_block_run (s : vmm H) b z B : al_rep (v_heap s) (<[b := z]> B) -> B !! b = None -> exists h,
  free_buf b s = Ok (tt, set_bufs (delete b (v_bufs s)) (set_heap h s)) /\ al_rep h B.
Proof.
  intros Hrep Hb. destruct (wp_run _ _ _ (al_free_wp _ _ b z Hrep (lookup_insert_eq _ _ _))) as ([] & h & E & Hrep').
  rewrite delete_insert_id in Hrep' by done. exists h. split; [|done].
  unfold free_buf. rewrite (bind_ok _ _ s tt (set_heap h s)); [done|]. unfold on_heap, zoom. by rewrite E.
Qed.

Context (k : kernel H) (c : tcb) (A : aspace) (vaddr : Z) (B : gmap Z Z).
Hypotheses (Hc : tasks (k_sched k) !! actual_task (k_sched k) = Some c) (H0 : actual_task (k_sched k) <> 0)
  (Hready : string_ready (k_vmm k) (t_aspace c) A vaddr MAX_PATH_LEN B).

(** The memory is [m], which differs from what it was in the temporary window
    of the kernel's directory only; the program keeps its translations. *)
Definition same_program (m : gmap Z Z) : Prop :=
  kept (frame_of (Paging.cr3 (v_mach (k_vmm k)))) (fun _ => False) (ram (v_mach (k_vmm k))) m /\
  same_space (frame_of (Paging.cr3 (v_mach (k_vmm k)))) (pd A) (ram (v_mach (k_vmm k))) m.

(** The call has begun: its path is in the block [b]. *)
Definition begun (b : Z) (l : list Z) (h : H) (m : gmap Z Z) : kernel H :=
  set_vmm (set_memory m (set_bufs (<[b := l]> (v_bufs (k_vmm k))) (set_heap h (k_vmm k)))) k.

Lemma with_path_begins name : 0 ∉ name -> Z.of_nat (length name) < MAX_PATH_LEN ->
  user_bytes (ram (v_mach (k_vmm k))) (pd A) vaddr (S (length name)) = Some (name ++ [0]) ->
  exists b h m z t, B !! b = None /\ al_rep h (<[b := z]> B) /\ room_left (v_heap (k_vmm k)) MAX_PATH_LEN h /\ same_program m /\
    forall call, with_path vaddr call k =
      (do x <- call ((name ++ [0]) ++ t); on_vm (free_buf b) ;;; ret_ x) (begun b ((name ++ [0]) ++ t) h m).
Proof.
  intros Hn0 Hlt Hu. destruct (copy_string_run (k_vmm k) (t_aspace c) A vaddr MAX_PATH_LEN B Hready) as (b & s' & E & R).
  destruct (string_there _ _ _ _ _ _ _ _ Hn0 Hlt Hu R) as (h & m & z & rest & Hb0 & HBb & _ & Hrep & Hleft & Hk & _ & ->).
  destruct (ur_space _ _ _ _ _ (sr_user _ _ _ _ _ _ Hready)) as (_ & _ & Hbeside).
  exists b, h, m, z, rest. split_and!; try done; [split; [exact Hk|by apply (beside_kept _ _ _ _ _ Hbeside Hk)]|]. intros call.
  change (name ++ 0 :: rest) with (name ++ [0] ++ rest) in E. rewrite app_assoc in E.
  unfold with_path. rewrite (bind_ok _ _ k (actual_task (k_sched k)) k) by done.
  rewrite (bind_ok _ _ k c k) by (unfold task; by rewrite (on_sched_get _ _ _ (ld_task_ok _ _ _ Hc H0))).
  rewrite (bind_ok _ _ _ b (begun b ((name ++ [0]) ++ rest) h m)) by (unfold on_vm, zoom; by rewrite E).
  rewrite (proj2 (Z.eqb_neq b 0) Hb0). unfold bind_ at 1.
  cbn [begun k_vmm set_vmm v_bufs set_memory set_mach set_bufs]. by rewrite lookup_insert_eq.
Qed.
End call.

(** ** The outcomes *)

Section outcome.
Context {H : Type} `{!Allocator H} (k : kernel H) (A : aspace) (B : gmap Z Z).

(** [errno = e; return -1;]: no block of the heap is left behind. *)
Definition refused (e : Z) (r : res (Z * kernel H)) : Prop := exists m h,
  r = Ok (-1, set_vmm (set_memory m (set_errno e (set_heap h (k_vmm k)))) k) /\ same_program k A m /\ al_rep h B.

(** The new directory is the only new block. *)
Definition created cs nm p pre name (r : res (Z * kernel H)) : Prop := exists m h f q z,
  r = Ok (0, set_fs f (set_vmm (set_memory m (set_heap h (k_vmm k))) k)) /\ same_program k A m /\
  B !! q = None /\ al_rep h (<[q := z]> B) /\ added_directory (k_fs k) f cs nm p pre name q.

Context (b : Z) (l : list Z) (h : H) (m : gmap Z Z) (z : Z) (call : K (H := H) Z).
Hypotheses (Hbufs : v_bufs (k_vmm k) !! b = None) (Hb : B !! b = None) (Hrep : al_rep h (<[b := z]> B)) (Hm : same_program k A m).
Let finish := (do x <- call; on_vm (free_buf b) ;;; ret_ x) (begun k b l h m).

Lemma finish_refused e : call (begun k b l h m) = failed e (begun k b l h m) -> refused e finish.
Proof.
  intros E. destruct (free_block_run (set_errno e (k_vmm (begun k b l h m))) b z B Hrep Hb) as (h2 & E2 & Hrep2).
  exists m, h2. split; [|done]. unfold finish. rewrite (bind_ok _ _ _ _ _ E). unfold on_vm.
  unfold bind_, zoom. cbn [k_vmm set_vmm]. rewrite E2. unfold ret_. do 2 f_equal.
  cbn [begun v_bufs k_vmm set_vmm set_errno set_memory set_mach set_bufs]. rewrite delete_insert_id by done.
  by destruct k as [[]].
Qed.

Lemma finish_created cs nm p pre name k' q zq : call (begun k b l h m) = Ok (0, k') ->
  added_directory (k_fs k) (k_fs k') cs nm p pre name q -> <[b := z]> B !! q = None ->
  al_rep (v_heap (k_vmm k')) (<[q := zq]> (<[b := z]> B)) -> tree_and_heap (begun k b l h m) k' ->
  created cs nm p pre name finish.
Proof.
  intros E Hadd [Hq Hne]%lookup_insert_None Hrep' Hth. rewrite insert_insert_ne in Hrep' by congruence.
  destruct (free_block_run (k_vmm k') b z (<[q := zq]> B) Hrep') as (h2 & E2 & Hrep2); [by rewrite lookup_insert_ne|].
  exists m, h2, (k_fs k'), q, zq. split; [|done]. unfold finish. rewrite (bind_ok _ _ _ _ _ E).
  unfold on_vm, bind_, zoom. rewrite E2. unfold ret_. do 2 f_equal. rewrite Hth.
  cbn [begun v_bufs v_heap k_fs set_fs k_vmm set_vmm set_heap set_memory set_mach set_bufs]. rewrite delete_insert_id by done.
  by destruct k as [[]].
Qed.
End outcome.

(** ** Property *)

(** C4: [mkdir] as a program calls it; the call is served with the kernel's
    directory loaded.  The address holds, in the program's own directory, an
    absolute path, on whatever pages it lies.  An existing target is refused
    with EEXIST, a path whose directory does not exist with EINVAL, a parent
    that is not a directory with ENOTDIR, one whose driver makes no
    directories with EACCES; then nothing but [errno] has changed.  Otherwise
    the call answers 0, the tree has the new directory as the last child of
    its parent and stays well formed, every other name keeps its node, and the
    path now resolves to it.  In every case the copy of the path has been
    released: the heap holds what it held, and the new node if there is one. *)
Theorem mkdir_call_creates {H} `{!Allocator H} (stack_bytes : list Z) (k : kernel H) c A vaddr cs nm B pre name (slash : bool) :
  length stack_bytes = Z.to_nat MAX_FILENAME ->
  tasks (k_sched k) !! actual_task (k_sched k) = Some c -> actual_task (k_sched k) <> 0 ->
  tree_ok (k_fs k) cs nm -> is_Some (nodes (k_fs k) !! tree_root (k_fs k)) -> (forall x, is_Some (nodes (k_fs k) !! x) -> is_Some (B !! x)) ->
  Forall comp_ok (pre ++ [name]) -> (length name + (if slash then 1 else 0) < Z.to_nat MAX_FILENAME)%nat ->
  string_ready (k_vmm k) (t_aspace c) A vaddr MAX_PATH_LEN B ->
  al_room (v_heap (k_vmm k)) (MAX_PATH_LEN + SIZEOF_VNODE + 38) ->
  let path := path_of (pre ++ [name]) slash in
  Z.of_nat (length path) <= MAX_PATH_LEN ->
  user_bytes (ram (v_mach (k_vmm k))) (pd A) vaddr (length path) = Some path ->
  let r := mkdir stack_bytes vaddr k in
  match resolve cs nm (tree_root (k_fs k)) (pre ++ [name]) with
  | (0, 0) => refused k A B EINVAL r
  | (0, p) => forall v, nodes (k_fs k) !! p = Some v ->
      if decide (v_type v <> Some VFS_DIR /\ v_type v <> Some VFS_MNTPT) then refused k A B ENOTDIR r
      else match op_mkdir (vn_op v) with
           | None => refused k A B EACCES r
           | Some _ => created k A B cs nm p pre name r
           end
  | (_, _) => refused k A B EEXIST r
  end.
Proof.
  intros Hst Hc H0 Hok Hroot Hown Hall Hlen Hready Hroom path Hfit Hu r.
  destruct (path_tail_cstr (pre ++ [name]) slash Hall) as (s & Ep & Hs0 & _).
  assert (Epath : path = (SLASH :: s) ++ [0]) by (unfold path, path_of; by rewrite Ep).
  assert (Hl : length path = S (length (SLASH :: s))) by (rewrite Epath, length_app; cbn; lia).
  destruct (with_path_begins k c A vaddr B Hc H0 Hready (SLASH :: s)) as (b & h & m & z & t & Hb & Hrep & Hleft & Hm & E).
  { apply not_elem_of_cons. by split. } { lia. } { by rewrite <- Hl, <- Epath. }
  rewrite <- Epath in E. assert (Hbufs : v_bufs (k_vmm k) !! b = None).
  { destruct (v_bufs (k_vmm k) !! b) eqn:Eb; [|done]. destruct (sr_bufs _ _ _ _ _ _ Hready b) as [? ?]; [by rewrite Eb|congruence]. }
  assert (Hroom2 : al_room h SIZEOF_VNODE) by (apply Hleft; [unfold SIZEOF_VNODE|unfold SIZEOF_VNODE, MAX_PATH_LEN|exact Hroom]; lia).
  pose proof (mkdir_creates_directory stack_bytes (begun k b (path ++ t) h m) cs nm (<[b := z]> B) pre name slash Hst Hok Hroot Hall Hlen) as Ho.
  assert (Hown2 : nodes_owned (begun k b (path ++ t) h m) (<[b := z]> B)).
  { split; [exact Hrep|]. intros x Hx. apply lookup_insert_is_Some'. right. by apply Hown. }
  specialize (Ho Hown2 Hroom2). subst r. unfold mkdir. rewrite E. unfold mkdir_outcome in Ho. cbn [begun k_fs set_vmm] in Ho.
  fold path in Ho.
  assert (Hf : forall e, do_mkdir stack_bytes path (begun k b (path ++ t) h m) = failed e (begun k b (path ++ t) h m) ->
    refused k A B e ((do x <- do_mkdir stack_bytes (path ++ t); on_vm (free_buf b) ;;; ret_ x) (begun k b (path ++ t) h m))).
  { intros e Ee. eapply finish_refused; [done..|]. by apply (do_mkdir_tail path t stack_bytes). }
  destruct (resolve _ _ _ _) as [[|rp|rp] p]; [|by apply Hf..]. destruct p as [|p|p]; [by apply Hf| |].
  all: intros v Hv; specialize (Ho v Hv); case_decide; [by apply Hf|]; destruct (op_mkdir (vn_op v)); [|by apply Hf];
    destruct Ho as (k' & q & zq & E' & Hadd & Hq & Hrep' & Hth).
  all: by eapply finish_created; [..|apply (do_mkdir_tail path t stack_bytes), E'| | | |].
Qed.

#[local] Instance mkdir_allocator : Allocator malloc_state := kmalloc_allocator 0xc0400000 demo_raw demo_bytes.

(** A program asks for [/etc/], a path that lies on two of its pages, on a
    root that is empty. *)
Lemma mkdir_call_creates_witness : exists k' q,
  mkdir (replicate 128 7) 0x7ffe str_kernel = Ok (0, k') /\ is_Some (nodes (k_fs k') !! (q : Z)).
Proof.
  destruct root_block_rep as [z Hrep].
  assert (Hown : forall x, is_Some (nodes (k_fs str_kernel) !! x) -> is_Some (({[ root_block.1 := z ]} : gmap Z Z) !! x)).
  { intros x Hx. apply lookup_insert_is_Some. left. symmetry. by apply root_owned. }
  pose proof (mkdir_call_creates (replicate 128 7) str_kernel str_tcb str_aspace 0x7ffe (fun_of ∅) (fun_of {[ root_block.1 := [SLASH] ]})
    {[ root_block.1 := z ]} [] [101; 116; 99] true eq_refl eq_refl ltac:(discriminate) root_tree ltac:(by eexists) Hown
    ltac:(repeat constructor; apply comp_check; vm_compute; reflexivity) ltac:(cbn; unfold MAX_FILENAME; lia) (str_ready z Hrep)
    ltac:(vm_compute; discriminate) ltac:(vm_compute; discriminate) ltac:(vm_compute; reflexivity)) as Hw.
  cbv zeta in Hw. cbn [app] in Hw.
  replace (resolve _ _ _ [[101; 116; 99]]) with (0, root_block.1) in Hw by (vm_compute; reflexivity).
  specialize (Hw (demo_dir [SLASH] 0 0 0 0 0) ltac:(vm_compute; reflexivity)). rewrite decide_False in Hw by (intros [Hd _]; by apply Hd).
  destruct Hw as (m & h & f & q & z' & E & _ & _ & _ & n & _ & Hn & _). eexists _, q.
  split; [exact E|]. by exists n.
Defined.
