(* ===== verification/EnterSpec.v ===== *)
(** * A line reaches its reader

    [TaskSpec.v] says who is woken when Enter is pressed, [CopySpec.v] what a
    copy to a program does.  Together: the bytes of the line are in the buffer
    of the task that reads, and its EAX tells how many. *)

From S2P Require Import Prelude Dlist Pmm Kmalloc Heap Paging MmuSpec SpaceSpec DupSpec Vmm VmmSpec DestroySpec CopySpec Vmalloc Klib Terminal Namei NameiSpec Sched SchedSpec Kernel Vfs Files FilesSpec Task TaskSpec.

#[local] Open Scope Z_scope.

(** The reader's registers when [count] bytes were asked for and [i] could
    be stored; [e] is the error number. *)
Definition answer_regs (i count e : Z) (regs : task_regs) : task_regs :=
  let regs := regs_set_retval (if decide (i = count) then count else UINT32_MAX) regs in
  if 0 <? e then regs_set_errno e regs else regs.

(** ** Property *)

(** C29: when Enter finishes a line, the task that reads from stdin finds as
    much of it as it asked for at its addresses, read through its own
    directory while the kernel's is loaded; EAX says how much, and it moves
    from the sleeping queue to the end of its run queue and is switched to if
    it outranks the running task; if a page of its buffer is missing
    EAX is -1 and its error number EFAULT.  With no task reading, the handler
    dereferences a NULL pointer. *)
Theorem enter_delivers_line {H} `{!Allocator H} (k : kernel H) line len term' n :
  terminal_putchar_from_keyboard 10 (k_term k) = Ok (Some (line, len), term') ->
  let w := w_t (wait4input k) in let count := Z.min (w_size (wait4input k)) len in let buffer := w_buffer (wait4input k) in
  (w = 0 -> keyboard_interrupt n ENTER k = Fault) /\
  forall qs c a m1 m2 A, sched_ok (k_sched k) qs -> tasks (k_sched k) !! w = Some c -> qs SleepQ = m1 ++ w :: m2 ->
    tasks (k_sched k) !! actual_task (k_sched k) = Some a -> actual_task (k_sched k) <> 0 ->
    copy_ready (k_vmm k) (t_aspace c) A buffer line count -> exists s' c' m i,
    let e := if decide (i = count) then v_errno (k_vmm k) else EFAULT in
    keyboard_interrupt n ENTER k =
      preempt n (if prio_gt (t_priority c) (t_priority a) then Some w else None)
        (set_sched s' (set_wait (mkWait 0 0 0) (set_vmm (set_memory m (set_errno e (k_vmm k))) (set_term term' k)))) /\
    0 <= i <= count /\ (forall j, 0 <= j < i -> walk_dir (ram (v_mach (k_vmm k))) (pd A) (buffer + j) <> None) /\
    (i <> count -> walk_dir (ram (v_mach (k_vmm k))) (pd A) (buffer + i) = None) /\
    user_bytes m (pd A) buffer (Z.to_nat i) = Some (take (Z.to_nat i) ((fun b => Z.land b 255) <$> line)) /\
    same_space (frame_of (Paging.cr3 (v_mach (k_vmm k)))) (pd A) (ram (v_mach (k_vmm k))) m /\
    sched_ok s' (moved qs SleepQ (run_queue c) m1 w m2) /\
    tasks s' !! w = Some c' /\ t_state c' = READY /\ t_regs c' = answer_regs i count e (t_regs c) /\
    forall x, x <> w -> core <$> tasks s' !! x = core <$> tasks (k_sched k) !! x.
Proof.
  intros Hterm w count buffer. split; [by apply (recall_without_reader k line len term' Hterm)|].
  intros qs c a m1 m2 A Hok Hc Hq Ha Ha0 [Hu Ho Hl]. assert (Ecount : (if w_size (wait4input k) <? len then w_size (wait4input k) else len) = count)
    by (unfold count; destruct (Z.ltb_spec (w_size (wait4input k)) len); lia).
  destruct (copy_data_to_run (k_vmm k) (t_aspace c) A buffer line count Hu Ho Hl) as (r & m & i & E & Hi & Hm & Hno & Er & S).
  assert (Ev : (if decide (i = count) then k_vmm k else set_errno EFAULT (k_vmm k)) =
    set_errno (if decide (i = count) then v_errno (k_vmm k) else EFAULT) (k_vmm k)) by (case_decide; by destruct (k_vmm k)).
  rewrite Ev in E. rewrite <- Ecount in E at 1. destruct (ur_range _ _ _ _ _ Hu) as (H0 & Hn & He).
  destruct (recall_wakes k line len term' Hterm qs c a m1 m2 r _ Hok Hc Hq Ha Ha0 E n) as (s' & c' & Ek & Hok' & Hc' & Hst & Hregs & Hoth).
  exists s', c', m, i. split; [exact Ek|]. split; [done|]. split; [done|]. split; [done|].
  split; [exact (user_bytes_stored (k_vmm k) (t_aspace c) A buffer line count i m Hu ltac:(lia) Hl S Hm)|].
  split; [exact (stored_space (k_vmm k) (t_aspace c) A buffer line count Hu i m S ltac:(lia))|]. split; [done|]. split; [done|]. split; [done|]. split; [|done].
  rewrite Hregs. unfold read_regs, answer_regs. rewrite Ecount, Er. cbn [v_errno set_memory set_mach set_errno].
  destruct (decide (i = count)); [|done]. destruct (Z.ltb_spec count 0); [lia|done].
Qed.

(** [hi] is typed while the shell waits for four bytes at the end of a page. *)
Definition enter_kernel (w : Z) : kernel malloc_state :=
  let k := reading_kernel w in
  set_wait (mkWait w 4 0x7fff) (set_vmm (set_mach copy_machine (k_vmm k)) k).

#[local] Instance enter_allocator : Allocator malloc_state := kmalloc_allocator 0xc0400000 demo_raw demo_bytes.

Lemma enter_terminal w : exists t', terminal_putchar_from_keyboard 10 (k_term (enter_kernel w)) = Ok (Some (typed_line, 2), t').
Proof. eexists. vm_compute. reflexivity. Qed.

Lemma enter_walk i : 0 <= i < 2 -> walk_dir (ram copy_machine) 0x1000 (0x7fff + i) = Some (if i <? 1 then 0x5fff else 0x9000).
Proof. intros Hi. assert (i = 0 \/ i = 1) as [-> | ->] by lia; vm_compute; reflexivity. Qed.

Lemma enter_ready : copy_ready (k_vmm (enter_kernel 0x10)) 0xa00 (mkAspace 0x1000 0 0 0 0 0 0 0 0) 0x7fff typed_line 2.
Proof.
  assert (Hok : dir_ok (ram copy_machine) 0x6000) by (apply dir_ok_check; vm_compute; reflexivity).
  assert (Hb : beside (ram copy_machine) 0x6000 0x1000) by (apply beside_check; vm_compute; reflexivity). split; [split|..].
  - split; [apply lookup_singleton_eq|]. by split.
  - split; [exact Hok|vm_compute; reflexivity].
  - unfold VM_USER_END. lia.
  - intros i p Hi. change (frame_of _) with 0x6000. change (v_mach _) with copy_machine. cbn [pd].
    rewrite enter_walk by done. intros [= <-]. destruct (Z.ltb_spec i 1).
    + apply (data_check _ _ _ 0x5000 _ Hok Hb); [by exists 5|vm_compute; reflexivity|vm_compute; reflexivity|Z.div_mod_to_equations; lia].
    + apply (data_check _ _ _ 0x9000 _ Hok Hb); [by exists 9|vm_compute; reflexivity|vm_compute; reflexivity|Z.div_mod_to_equations; lia].
  - intros i j p Hi Hj. change (v_mach _) with copy_machine. cbn [pd].
    rewrite !enter_walk by done. intros [= <-] [= E]. destruct (Z.ltb_spec i 1), (Z.ltb_spec j 1); lia.
  - vm_compute. discriminate.
Qed.

Lemma enter_delivers_line_witness :
  keyboard_interrupt 5 ENTER (enter_kernel 0) = Fault /\
  exists s' k' m c', keyboard_interrupt 5 ENTER (enter_kernel 0x10) = preempt 5 None (set_sched s' k') /\
    user_bytes m 0x1000 0x7fff 2 = Some [104; 105] /\ tasks s' !! 0x10 = Some c' /\ t_state c' = READY /\ eax (t_regs c') = 2.
Proof.
  destruct (enter_terminal 0) as (t0 & E0). destruct (enter_terminal 0x10) as (t' & E).
  split.
  - destruct (enter_delivers_line (enter_kernel 0) typed_line 2 t0 5 E0) as [Hf _]. exact (Hf eq_refl).
  - destruct (enter_delivers_line (enter_kernel 0x10) typed_line 2 t' 5 E) as [_ Hw].
    destruct (Hw waiting_qs (demo_task 1 WAITING 2 SIGCHLD 0 0x20 0 0x20) (demo_task 2 RUNNING 2 0 0 0 0x10 0) [] [] (mkAspace 0x1000 0 0 0 0 0 0 0 0))
      as (s' & c' & m & i & E' & Hi & _ & Hno & Hb & _ & _ & Hc' & Hst & Hregs & _);
      [exact waiting_ok|reflexivity|reflexivity|reflexivity|discriminate|exact enter_ready|].
    assert (i = 2) as ->.
    { destruct (decide (i = 2)) as [|Hne]; [done|]. specialize (Hno Hne). cbn [pd] in Hno.
      change (v_mach _) with copy_machine in Hno. change (Z.min _ _) with 2 in Hi. change (w_buffer _) with 0x7fff in Hno.
      rewrite enter_walk in Hno by lia. discriminate. }
    do 4 eexists. split; [exact E'|]. split; [exact Hb|]. split; [exact Hc'|]. split; [exact Hst|]. rewrite Hregs. reflexivity.
Defined.
