(* ===== verification/Cpu.v ===== *)
(** * Descriptor tables, interrupt controller and timer
    ([gdt.c], [idt.c], [irq.c], [tss.c] of [src/src/kernel/arch/i386/] and
    [src/src/dev/timer/timer.c])

    The tables are arrays of the packed C structures.  A write to an I/O port
    is recorded in order; what a port answers is a function of what was
    written to the ports before, and belongs to the hardware: a parameter.
    [gdt_word] and [idt_word] lay the bit-fields out as the packed
    structures do, and the [desc_] and [gate_] functions read the words back
    the way the processor's manual describes, so that the properties say what
    the processor is told. *)

From S2P Require Import Prelude.

#[local] Open Scope Z_scope.

(** ** The structures *)

Record gdt_entry := mkGdt {
  g_limit_low : Z; g_base_low : Z; g_base_mid : Z; g_access : Z;
  g_limit_high : Z; g_flags : Z; g_base_high : Z;
}.
Definition zero_gdt : gdt_entry := mkGdt 0 0 0 0 0 0 0.

Record idt_entry := mkIdt {
  i_offset_low : Z; i_selector : Z; i_reserved : Z; i_attributes : Z; i_offset_high : Z;
}.
Definition zero_idt : idt_entry := mkIdt 0 0 0 0 0.

(** [struct gdt_ptr] and [struct idt_ptr]. *)
Record table_ptr := mkPtr { p_size : Z; p_base : Z }.

Record tss_entry := mkTss {
  prev_tss : Z; esp0 : Z; ss0 : Z; esp1 : Z; ss1 : Z; esp2 : Z; ss2 : Z;
  tss_cr3 : Z; tss_eip : Z; tss_eflags : Z;
  tss_eax : Z; tss_ecx : Z; tss_edx : Z; tss_ebx : Z; tss_esp : Z; tss_ebp : Z; tss_esi : Z; tss_edi : Z;
  tss_es : Z; tss_cs : Z; tss_ss : Z; tss_ds : Z; tss_fs : Z; tss_gs : Z;
  tss_ldt : Z; tss_reserved : Z; io_map : Z;
}.
Definition zero_tss : tss_entry := mkTss 0 0 0 0 0 0 0 0 0 0 0 0 0 0 0 0 0 0 0 0 0 0 0 0 0 0 0.
(** [tss.ss0 = s; tss.esp0 = e; tss.io_map = m;] *)
Definition set_tss_init (s e m : Z) (t : tss_entry) : tss_entry :=
  mkTss (prev_tss t) e s (esp1 t) (ss1 t) (esp2 t) (ss2 t) (tss_cr3 t) (tss_eip t) (tss_eflags t)
    (tss_eax t) (tss_ecx t) (tss_edx t) (tss_ebx t) (tss_esp t) (tss_ebp t) (tss_esi t) (tss_edi t)
    (tss_es t) (tss_cs t) (tss_ss t) (tss_ds t) (tss_fs t) (tss_gs t) (tss_ldt t) (tss_reserved t) m.
Definition SIZEOF_TSS : Z := 104.

(** The tables, what was loaded into the processor, the ports and the tick
    counter of timer.c. *)
Record cpu := mkCpu {
  gdt : list gdt_entry; gp : table_ptr;
  idt : list idt_entry; ip : table_ptr; current : Z;
  tss : tss_entry;
  gdtr : table_ptr; idtr : table_ptr; task_register : bool; interrupts_on : bool;
  ports : list (Z * Z);      (* every outb, the latest first *)
  tick : Z;
}.

Definition GDT_ENTRIES : Z := 6.
Definition GDT_ENTRY_SIZE : Z := 0x8.
Definition IDT_MAX_ENTRIES : Z := 256.
Definition IDT_ENTRY_SIZE : Z := 0x8.
Definition IDT_CPU_EXCEPTIONS : Z := 32.

(** The globals before any code has run. *)
Definition cpu_boot : cpu :=
  mkCpu (replicate 6 zero_gdt) (mkPtr 0 0) (replicate 256 zero_idt) (mkPtr 0 0) 0 zero_tss
        (mkPtr 0 0) (mkPtr 0 0) false false [] 0.

Definition set_gdt v c := mkCpu v (gp c) (idt c) (ip c) (current c) (tss c) (gdtr c) (idtr c) (task_register c) (interrupts_on c) (ports c) (tick c).
Definition set_gp v c := mkCpu (gdt c) v (idt c) (ip c) (current c) (tss c) (gdtr c) (idtr c) (task_register c) (interrupts_on c) (ports c) (tick c).
Definition set_idt v n c := mkCpu (gdt c) (gp c) v (ip c) n (tss c) (gdtr c) (idtr c) (task_register c) (interrupts_on c) (ports c) (tick c).
Definition set_ip v c := mkCpu (gdt c) (gp c) (idt c) v (current c) (tss c) (gdtr c) (idtr c) (task_register c) (interrupts_on c) (ports c) (tick c).
Definition set_tss_entry v c := mkCpu (gdt c) (gp c) (idt c) (ip c) (current c) v (gdtr c) (idtr c) (task_register c) (interrupts_on c) (ports c) (tick c).
Definition set_gdtr v c := mkCpu (gdt c) (gp c) (idt c) (ip c) (current c) (tss c) v (idtr c) (task_register c) (interrupts_on c) (ports c) (tick c).
Definition set_idtr v c := mkCpu (gdt c) (gp c) (idt c) (ip c) (current c) (tss c) (gdtr c) v (task_register c) (interrupts_on c) (ports c) (tick c).
Definition set_task_register v c := mkCpu (gdt c) (gp c) (idt c) (ip c) (current c) (tss c) (gdtr c) (idtr c) v (interrupts_on c) (ports c) (tick c).
Definition set_interrupts v c := mkCpu (gdt c) (gp c) (idt c) (ip c) (current c) (tss c) (gdtr c) (idtr c) (task_register c) v (ports c) (tick c).
Definition set_ports v c := mkCpu (gdt c) (gp c) (idt c) (ip c) (current c) (tss c) (gdtr c) (idtr c) (task_register c) (interrupts_on c) v (tick c).
Definition set_tick v c := mkCpu (gdt c) (gp c) (idt c) (ip c) (current c) (tss c) (gdtr c) (idtr c) (task_register c) (interrupts_on c) (ports c) v.

(** Field [w] bits wide at bit [off] of [x]. *)
Definition bits (x off w : Z) : Z := Z.land (Z.shiftr x off) (Z.ones w).

(** Assignment to a bit-field: the low [w] bits. *)
Definition field (w v : Z) : Z := Z.land v (Z.ones w).

(** The eight bytes of the packed structures, as one number. *)
Definition pack (fields : list (Z * Z)) : Z :=
  fold_right (fun f acc => f.1 + Z.shiftl acc f.2) 0 fields.
Definition gdt_word (e : gdt_entry) : Z :=
  pack [(g_limit_low e, 16); (g_base_low e, 16); (g_base_mid e, 8); (g_access e, 8);
        (g_limit_high e, 4); (g_flags e, 4); (g_base_high e, 8)].
Definition idt_word (e : idt_entry) : Z :=
  pack [(i_offset_low e, 16); (i_selector e, 16); (i_reserved e, 8); (i_attributes e, 8); (i_offset_high e, 16)].

(** What the processor takes from a descriptor: base, limit (in units of the
    granularity), access byte, flags. *)
Definition desc_base (d : Z) : Z := bits d 16 24 + Z.shiftl (bits d 56 8) 24.
Definition desc_limit (d : Z) : Z := bits d 0 16 + Z.shiftl (bits d 48 4) 16.
Definition desc_access (d : Z) : Z := bits d 40 8.
Definition desc_flags (d : Z) : Z := bits d 52 4.
(** The last byte of the segment: the G flag counts the limit in pages. *)
Definition desc_last_byte (d : Z) : Z :=
  if Z.testbit (desc_flags d) 3 then desc_limit d * 4096 + 4095 else desc_limit d.
Definition desc_dpl (d : Z) : Z := bits (desc_access d) 5 2.

Definition gate_offset (d : Z) : Z := bits d 0 16 + Z.shiftl (bits d 48 16) 16.
Definition gate_selector (d : Z) : Z := bits d 16 16.
Definition gate_type (d : Z) : Z := bits d 40 4.
Definition gate_dpl (d : Z) : Z := bits d 45 2.
Definition gate_present (d : Z) : bool := bits d 47 1 =? 1.

Section cpu.
(** [isr_vectors] of int_handler.s, the addresses of the tables, and what
    the hardware answers on a port. *)
Context (isr_vectors : list Z) (addr_gdt addr_idt addr_tss : Z) (port_in : list (Z * Z) -> Z -> Z).

Definition cm := M cpu.

(** [outb] and [inb] of io.c. *)
Definition outb (port data : Z) : cm unit := mod_ (fun c => set_ports ((port, data) :: ports c) c).
Definition inb (port : Z) : cm Z := get_ (fun c => port_in (ports c) port).

(** ** gdt.c *)

Definition GDT_ACS_PRESENT : Z := 0x80.
Definition GDT_ACS_CPL_3 : Z := 0x60.
Definition GDT_ACS_EXEC : Z := 0x8.
Definition GDT_ACS_RW : Z := 0x2.
Definition GDT_TSS_AVAIL : Z := 0x9.
Definition GDT_BASE_ACS : Z := Z.lor GDT_ACS_PRESENT 0x10.
Definition GDT_ACS_KERN_CODE : Z := Z.lor (Z.lor GDT_BASE_ACS GDT_ACS_EXEC) GDT_ACS_RW.
Definition GDT_ACS_KERN_DATA : Z := Z.lor GDT_BASE_ACS GDT_ACS_RW.
Definition GDT_ACS_USER_CODE : Z := Z.lor GDT_ACS_KERN_CODE GDT_ACS_CPL_3.
Definition GDT_ACS_USER_DATA : Z := Z.lor GDT_ACS_KERN_DATA GDT_ACS_CPL_3.
Definition GDT_ACS_TSS : Z := Z.lor (Z.lor GDT_ACS_PRESENT GDT_ACS_EXEC) GDT_TSS_AVAIL.
Definition GDT_BASE_FLG : Z := 0xc.
Definition GDT_KERN_CODE_OFFSET : Z := GDT_ENTRY_SIZE.
Definition GDT_KERN_DATA_OFFSET : Z := GDT_ENTRY_SIZE * 2.

Definition filled_entry (limit base access flags : Z) : gdt_entry :=
  mkGdt (field 16 (Z.land limit 0xffff))
        (field 16 (Z.land base 0xffff)) (field 8 (Z.land (Z.shiftr base 16) 0xff)) (field 8 access)
        (field 4 (Z.land (Z.shiftr limit 16) 0xf)) (field 4 (Z.land flags 0xf))
        (field 8 (Z.land (Z.shiftr base 24) 0xff)).

(** An index outside the array is undefined. *)
Definition gdt_fill_entry (entry limit base access flags : Z) : cm unit := fun c =>
  match gdt c !! Z.to_nat entry with
  | Some _ => Ok (tt, set_gdt (<[Z.to_nat entry := filled_entry limit base access flags]> (gdt c)) c)
  | None => Fault
  end.

Definition gdt_install : cm unit :=
  mod_ (set_gp (mkPtr (GDT_ENTRY_SIZE * GDT_ENTRIES - 1) addr_gdt)) ;;;
  gdt_fill_entry 0 0 0 0 0 ;;;
  gdt_fill_entry 1 0xffffffff 0x0 GDT_ACS_KERN_CODE GDT_BASE_FLG ;;;
  gdt_fill_entry 2 0xffffffff 0x0 GDT_ACS_KERN_DATA GDT_BASE_FLG ;;;
  gdt_fill_entry 3 0xffffffff 0x0 GDT_ACS_USER_CODE GDT_BASE_FLG ;;;
  gdt_fill_entry 4 0xffffffff 0x0 GDT_ACS_USER_DATA GDT_BASE_FLG ;;;
  gdt_fill_entry 5 SIZEOF_TSS addr_tss GDT_ACS_TSS 0 ;;;
  mod_ (fun c => set_gdtr (gp c) c).

(** ** irq.c *)

Definition PIC1_COMM : Z := 0x20.
Definition PIC1_DATA : Z := 0x21.
Definition PIC2_COMM : Z := 0xa0.
Definition PIC2_DATA : Z := 0xa1.
Definition PIC_EOI : Z := 0x20.
Definition ICW1 : Z := 0x11.
Definition ICW4 : Z := 0x1.
Definition IRQ0 : Z := 0x20.
Definition IRQ1 : Z := 0x21.
Definition IRQ8 : Z := 0x28.
Definition IRQ_QUANTITY : Z := 0x10.

Definition irq_init_PIC : cm unit :=
  outb PIC1_COMM ICW1 ;;;
  outb PIC2_COMM ICW1 ;;;
  outb PIC1_DATA IRQ0 ;;;
  outb PIC2_DATA IRQ8 ;;;
  outb PIC1_DATA ICW4 ;;;
  outb PIC2_DATA ICW4 ;;;
  outb PIC1_DATA 0x0 ;;;
  outb PIC2_DATA 0x0.

Definition irq_set_int (number : Z) (mask : bool) : cm unit :=
  let number := Z.land number 0x0f in
  let port := if number <? 8 then PIC1_DATA else PIC2_DATA in
  let number := if number <? 8 then number else number - 8 in
  do v <- inb port;
  outb port (field 8 (if mask then Z.lor v (Z.shiftl 1 number)
                      else Z.land v (Z.lnot (Z.shiftl 1 number)))).

Definition irq_mask_int (number : Z) : cm unit := irq_set_int number true.
Definition irq_unmask_int (number : Z) : cm unit := irq_set_int number false.

(** ** idt.c *)

Definition IDT_BASE_ATTR : Z := 0x80.
Definition IDT_CPL_3 : Z := 0x60.
Definition IDT_INT_GATE : Z := 0xe.
Definition IDT_TRAP_GATE : Z := 0xf.
Definition IDT_EXCEPTION_DESCRIPTOR : Z := Z.lor IDT_BASE_ATTR IDT_TRAP_GATE.
Definition IDT_IRQ_DESCRIPTOR : Z := Z.lor IDT_BASE_ATTR IDT_INT_GATE.
Definition IDT_SYSCALL_DESCRIPTOR : Z := Z.lor (Z.lor IDT_BASE_ATTR IDT_INT_GATE) IDT_CPL_3.

Definition filled_gate (offset selector attrs : Z) : idt_entry :=
  mkIdt (field 16 (Z.land offset 0xffff)) (field 16 selector) 0 (field 8 attrs)
        (field 16 (Z.land (Z.shiftr offset 16) 0xffff)).

Definition _idt_fill_entry (offset selector attrs : Z) : cm unit :=
  do cur <- get_ current;
  when cur <? IDT_MAX_ENTRIES then_
    mod_ (fun c => set_idt (<[Z.to_nat cur := filled_gate offset selector attrs]> (idt c)) (cur + 1) c).

Definition vector (i : Z) : cm Z := fun c =>
  match isr_vectors !! Z.to_nat i with Some v => Ok (v, c) | None => Fault end.

Definition _cpu_exceptions_init : cm unit :=
  for_ (Z.to_nat IDT_CPU_EXCEPTIONS) 0 (fun i =>
    do v <- vector i; _idt_fill_entry v GDT_KERN_CODE_OFFSET IDT_EXCEPTION_DESCRIPTOR).

Definition _irqs_init : cm unit :=
  irq_init_PIC ;;;
  for_ 16 IRQ0 (fun i => do v <- vector i; _idt_fill_entry v GDT_KERN_CODE_OFFSET IDT_IRQ_DESCRIPTOR).

Definition idt_install : cm unit :=
  _cpu_exceptions_init ;;;
  _irqs_init ;;;
  do v <- vector 48;
  _idt_fill_entry v GDT_KERN_CODE_OFFSET IDT_SYSCALL_DESCRIPTOR ;;;
  mod_ (fun c => set_ip (mkPtr (field 16 (IDT_ENTRY_SIZE * current c - 1)) addr_idt) c) ;;;
  mod_ (fun c => set_idtr (ip c) c) ;;;
  mod_ (set_interrupts true).

(** ** tss.c *)

(** [tss_flush] loads the task register. *)
Definition tss_init (gdt_stack_desc esp : Z) : cm unit :=
  mod_ (set_tss_entry (set_tss_init gdt_stack_desc esp SIZEOF_TSS zero_tss)) ;;;
  mod_ (set_task_register true).

Definition tss_set_stack (stack : Z) : cm unit :=
  mod_ (fun c => set_tss_entry (set_tss_init (ss0 (tss c)) stack (io_map (tss c)) (tss c)) c).

(** ** timer.c *)

Definition BASE_FREQUENCY : Z := 1193180.
Definition CH0 : Z := 0x40.
Definition TIMER_COMM : Z := 0x43.

(** A division by 0 is undefined. *)
Definition timer_init (freq : Z) : cm unit :=
  if freq =? 0 then fault
  else
    let div := BASE_FREQUENCY / freq in
    let low := field 8 (Z.land div 0xff) in
    let high := field 8 (Z.land (Z.shiftr div 8) 0xff) in
    outb TIMER_COMM 0x36 ;;;
    outb CH0 low ;;;
    outb CH0 high.

Definition timer_isr : cm Z :=
  mod_ (fun c => set_tick (tick c +w 1) c) ;;;
  do t <- get_ tick;
  ret_ (if t mod 10 =? 0 then 1 else 0).
End cpu.
