(* ===== verification/CpuSpec.v ===== *)
(** * What the processor and the devices are told

    Properties of [Cpu.v]: a descriptor read back the way the processor reads
    it gives the base, limit, access and flags it was filled with; the
    interrupt table has the handler of every vector; masking a line changes
    one bit of one controller; the timer asks for a switch on every tenth
    tick. *)

From S2P Require Import Prelude Cpu.

#[local] Open Scope Z_scope.

(** ** Bit-fields *)

Lemma field_mod w v : 0 <= w -> field w v = v mod 2 ^ w.
Proof. intros Hw. apply Z.land_ones. exact Hw. Qed.

Lemma bits_div x off w : 0 <= off -> 0 <= w -> bits x off w = (x / 2 ^ off) mod 2 ^ w.
Proof. intros Ho Hw. unfold bits. by rewrite Z.land_ones, Z.shiftr_div_pow2. Qed.

Lemma bits_here f acc w : 0 <= w -> 0 <= f < 2 ^ w -> bits (f + Z.shiftl acc w) 0 w = f.
Proof.
  intros Hw Hf. rewrite bits_div, Z.shiftl_mul_pow2, Z.pow_0_r, Z.div_1_r by lia.
  rewrite Z.mod_add by lia. by apply Z.mod_small.
Qed.

Lemma bits_skip f acc w off w' : 0 <= w -> w <= off -> 0 <= w' -> 0 <= f < 2 ^ w ->
  bits (f + Z.shiftl acc w) off w' = bits acc (off - w) w'.
Proof.
  intros Hw Ho Hw' Hf. rewrite !bits_div, Z.shiftl_mul_pow2 by lia.
  replace off with (w + (off - w)) at 1 by lia. rewrite Z.pow_add_r by lia.
  rewrite <- Z.div_div, Z.div_add, (Z.div_small f) by lia. done.
Qed.

Lemma bits_span f acc w w' : 0 <= w -> 0 <= w' -> 0 <= f < 2 ^ w ->
  bits (f + Z.shiftl acc w) 0 (w + w') = f + Z.shiftl (bits acc 0 w') w.
Proof.
  intros Hw Hw' Hf. rewrite !bits_div, !Z.shiftl_mul_pow2, Z.pow_0_r, !Z.div_1_r by lia.
  rewrite Z.pow_add_r by lia. rewrite Z.rem_mul_r by lia.
  rewrite Z.mod_add, Z.div_add, (Z.mod_small f), (Z.div_small f) by lia. rewrite Z.add_0_l. ring.
Qed.

Lemma bits_within f acc w off w' : 0 <= off -> 0 <= w' -> off + w' <= w ->
  bits (f + Z.shiftl acc w) off w' = bits f off w'.
Proof.
  intros Ho Hw' Hle. rewrite !bits_div, Z.shiftl_mul_pow2 by lia.
  replace w with ((w - off - w') + w' + off) by lia. rewrite !Z.pow_add_r, !Z.mul_assoc by lia.
  by rewrite Z.div_add, Z.mod_add by lia.
Qed.

Lemma field_range w v : 0 <= w -> 0 <= field w v < 2 ^ w.
Proof. intros Hw. rewrite field_mod by done. apply Z.mod_pos_bound. lia. Qed.

Lemma field_land w v m : 0 <= w -> m = Z.ones w -> field w (Z.land v m) = field w v.
Proof. intros Hw ->. unfold field. by rewrite <- Z.land_assoc, Z.land_diag. Qed.

(** [unpack] reads one field of a packed structure. *)
Ltac unpack :=
  unfold pack; cbn [fold_right fst snd];
  repeat first
    [ rewrite bits_here by (lia || apply field_range; lia)
    | rewrite bits_skip by (lia || apply field_range; lia) ].

(** A word is its low half and its high half. *)
Lemma split_word v a b : 0 <= a -> 0 <= b ->
  field a v + Z.shiftl (field b (Z.shiftr v a)) a = v mod 2 ^ (a + b).
Proof.
  intros Ha Hb. rewrite !field_mod, Z.shiftr_div_pow2, Z.shiftl_mul_pow2, Z.pow_add_r by lia.
  rewrite Z.rem_mul_r by lia. lia.
Qed.

(** ** Descriptors *)

Section descriptors.
Context (limit base access flags : Z).

Local Abbreviation d := (gdt_word (filled_entry limit base access flags)).

Lemma filled_entry_fields :
  filled_entry limit base access flags =
  mkGdt (field 16 limit) (field 16 base) (field 8 (Z.shiftr base 16)) (field 8 access)
        (field 4 (Z.shiftr limit 16)) (field 4 flags) (field 8 (Z.shiftr base 24)).
Proof. unfold filled_entry. by rewrite !field_land by (lia || reflexivity). Qed.

Lemma desc_limit_filled : desc_limit d = limit mod 2 ^ 20.
Proof.
  rewrite filled_entry_fields. unfold desc_limit, gdt_word; cbn. unpack.
  apply (split_word limit 16 4); lia.
Qed.

Lemma desc_base_filled : word base -> desc_base d = base.
Proof.
  intros Hb. rewrite filled_entry_fields. unfold desc_base, gdt_word; cbn. unpack. cbn [Z.sub].
  change (bits ?x (16 - 16) 24) with (bits x 0 (16 + 8)).
  rewrite bits_span by (lia || apply field_range; lia). unpack. change (56 - _ - _ - _ - _ - _ - _) with 0. unpack.
  rewrite (split_word base 16 8) by lia.
  rewrite field_mod, Z.shiftr_div_pow2, Z.shiftl_mul_pow2 by lia.
  unfold word in Hb. Z.div_mod_to_equations. lia.
Qed.

Lemma desc_access_filled : desc_access d = access mod 2 ^ 8.
Proof.
  rewrite filled_entry_fields. unfold desc_access, gdt_word; cbn. unpack. by apply field_mod.
Qed.

Lemma desc_flags_filled : desc_flags d = flags mod 2 ^ 4.
Proof.
  rewrite filled_entry_fields. unfold desc_flags, gdt_word; cbn. unpack. by apply field_mod.
Qed.
End descriptors.

Lemma gate_filled offset selector attrs d : d = idt_word (filled_gate offset selector attrs) ->
  word offset -> 0 <= selector < 2 ^ 16 -> 0 <= attrs < 2 ^ 8 ->
  gate_offset d = offset /\ gate_selector d = selector /\ gate_type d = bits attrs 0 4 /\
  gate_dpl d = bits attrs 5 2 /\ gate_present d = (bits attrs 7 1 =? 1).
Proof.
  intros -> Ho Hs Ha. unfold filled_gate. rewrite !field_land by (lia || reflexivity).
  rewrite (field_mod 16 selector), (field_mod 8 attrs), (Z.mod_small selector), (Z.mod_small attrs) by lia.
  unfold gate_offset, gate_selector, gate_type, gate_dpl, gate_present, idt_word.
  cbn [i_offset_low i_selector i_reserved i_attributes i_offset_high].
  split; [|split; [|split; [|split]]]; unpack.
  - rewrite (split_word offset 16 16) by lia. by apply Z.mod_small.
  - done.
  - by rewrite bits_within by lia.
  - by rewrite bits_within by lia.
  - by rewrite bits_within by lia.
Qed.

(** ** The global descriptor table *)

(** A segment over all of memory, at privilege level [dpl]. *)
Definition flat (dpl : Z) (d : Z) : Prop :=
  desc_base d = 0 /\ desc_last_byte d = UINT32_MAX /\ desc_dpl d = dpl /\ bits (desc_access d) 7 1 = 1.

Lemma flat_filled access dpl :
  bits (access mod 256) 5 2 = dpl -> bits (access mod 256) 7 1 = 1 ->
  flat dpl (gdt_word (filled_entry 0xffffffff 0 access GDT_BASE_FLG)).
Proof.
  intros Hd Hp. unfold flat, desc_last_byte, desc_dpl.
  rewrite desc_base_filled, desc_limit_filled, desc_flags_filled, desc_access_filled by (unfold word; lia).
  done.
Qed.

(** Installing the descriptor table tells the processor where the table
    is and how long, and gives it a null descriptor, code and data segments
    over all 4 GiB for the kernel at level 0 and for user programs at level
    3, and the task state segment at the address of [tss]; its limit is the
    size of the structure, one byte more than it has. *)
Lemma gdt_install_segments addr_gdt addr_tss c :
  word addr_tss -> length (gdt c) = 6%nat ->
  wp (gdt_install addr_gdt addr_tss) (fun _ c' =>
    gdtr c' = mkPtr 47 addr_gdt /\
    exists kcode kdata ucode udata tsd,
      gdt_word <$> gdt c' = [0; kcode; kdata; ucode; udata; tsd] /\
      flat 0 kcode /\ flat 0 kdata /\ flat 3 ucode /\ flat 3 udata /\
      Forall (fun d => bits (desc_access d) 3 1 = 1) [kcode; ucode] /\
      Forall (fun d => bits (desc_access d) 3 1 = 0 /\ bits (desc_access d) 1 1 = 1) [kdata; udata] /\
      desc_base tsd = addr_tss /\ desc_last_byte tsd = SIZEOF_TSS) c.
Proof.
  intros Ht Hl. destruct c as [g gp_ i ip_ cur t gr ir tr io po tk]. cbn in Hl.
  do 6 (destruct g as [|? g]; [done|]). destruct g; [|done].
  eapply wp_intro; [reflexivity|]. split; [done|].
  do 5 eexists. split; [reflexivity|]. cbn [flat_map].
  do 4 (split; [apply flat_filled; reflexivity|]).
  split; [repeat constructor; rewrite desc_access_filled; reflexivity|].
  split; [repeat constructor; rewrite desc_access_filled; reflexivity|].
  split; [by apply desc_base_filled|].
  unfold desc_last_byte. by rewrite desc_limit_filled, desc_flags_filled.
Qed.

Lemma gdt_install_segments_witness :
  let '(_, c') := after (tt, cpu_boot) (gdt_install 0xc0108000 0xc0109000 cpu_boot) in
  gdtr c' = mkPtr 47 0xc0108000 /\
  wp (gdt_install 0xc0108000 0xc0109000) (fun _ c' => gdtr c' = mkPtr 47 0xc0108000) cpu_boot.
Proof.
  split; [reflexivity|]. eapply wp_mono; [apply gdt_install_segments|].
  - unfold word. lia.
  - reflexivity.
  - intros _ c' [E _]. exact E.
Defined.

(** ** The interrupt table *)

Definition gate_attrs (i : Z) : Z :=
  if i <? 32 then IDT_EXCEPTION_DESCRIPTOR else if i <? 48 then IDT_IRQ_DESCRIPTOR else IDT_SYSCALL_DESCRIPTOR.

Section idt.
Context (isr_vectors : list Z) (c0 : cpu).
Hypothesis vectors_ok : Forall word isr_vectors.
Hypothesis vectors_len : (49 <= length isr_vectors)%nat.
Hypothesis idt_len : length (idt c0) = 256%nat.

(** The first [n] gates are filled, the others are as they were. *)
Definition filled (n : Z) (c : cpu) : Prop :=
  current c = n /\ length (idt c) = 256%nat /\
  forall i, idt c !! i = if decide (Z.of_nat i < n)
    then (fun v => filled_gate v GDT_KERN_CODE_OFFSET (gate_attrs (Z.of_nat i))) <$> isr_vectors !! i
    else idt c0 !! i.

Lemma fill_wp n c a : 0 <= n < 49 -> a = gate_attrs n -> filled n c ->
  wp (do v <- vector isr_vectors n; _idt_fill_entry v GDT_KERN_CODE_OFFSET a) (fun _ c' => filled (n + 1) c') c.
Proof.
  intros Hn -> (Hc & Hl & Hi).
  destruct (lookup_lt_is_Some_2 isr_vectors (Z.to_nat n) ltac:(lia)) as [v Hv].
  eapply wp_intro.
  { unfold vector, bind_. rewrite Hv. unfold _idt_fill_entry, bind_, get_. rewrite Hc.
    destruct (Z.ltb_spec n IDT_MAX_ENTRIES) as [_|Hge]; [reflexivity|]. unfold IDT_MAX_ENTRIES in Hge. lia. }
  split; [done|]. cbn. split; [by rewrite length_insert|]. intros i.
  rewrite list_lookup_insert. case_decide as E.
  - destruct E as [<- _]. rewrite decide_True by lia. rewrite Hv. cbn. by rewrite Z2Nat.id by lia.
  - assert (i <> Z.to_nat n) by (intros ->; apply E; split; [done|lia]).
    rewrite Hi. repeat case_decide; try done; lia.
Qed.

Lemma filled_ports v c n : filled n c -> filled n (set_ports v c).
Proof. done. Qed.
End idt.

(** C32: installing the interrupt table fills gates 0 to 48 in order: every
    gate leads to its entry point in the kernel's code segment, exceptions
    leave interrupts on, hardware interrupts and system calls turn them off,
    and only the system call gate, vector 48, may be used from user code.
    The table's limit covers the 49 gates, and interrupts are on. *)
Theorem idt_install_gates isr_vectors addr_idt c :
  Forall word isr_vectors -> (49 <= length isr_vectors)%nat -> length (idt c) = 256%nat -> current c = 0 ->
  wp (idt_install isr_vectors addr_idt) (fun _ c' =>
    idtr c' = mkPtr (49 * 8 - 1) addr_idt /\ interrupts_on c' = true /\
    (forall i v, (i < 49)%nat -> isr_vectors !! i = Some v ->
       exists e, idt c' !! i = Some e /\ (
       gate_offset (idt_word e) = v /\ gate_selector (idt_word e) = 8 /\
       gate_type (idt_word e) = (if decide (i < 32)%nat then 0xf else 0xe) /\
       gate_dpl (idt_word e) = (if decide (i = 48)%nat then 3 else 0) /\
       gate_present (idt_word e) = true)) /\
    (forall i, (49 <= i)%nat -> idt c' !! i = idt c !! i)) c.
Proof.
  intros Hw Hlen Hi Hc. unfold idt_install, _cpu_exceptions_init, _irqs_init, IDT_CPU_EXCEPTIONS, IRQ0.
  apply wp_bind. eapply wp_mono.
  { apply (wp_for _ (filled isr_vectors c)).
    - intros j s Hj Hf. apply fill_wp; [lia|done|lia| |done]. unfold gate_attrs. by destruct (Z.ltb_spec j 32); [|lia].
    - repeat split; [done..|]. intros i. by rewrite decide_False by lia. }
  intros ? c1 H1. apply wp_bind, wp_bind. eapply wp_intro; [reflexivity|].
  eapply wp_mono.
  { apply (wp_for _ (filled isr_vectors c)); [|exact H1].
    intros j s Hj Hf. apply fill_wp; [lia|done|lia| |done]. unfold gate_attrs.
    by destruct (Z.ltb_spec j 32); [lia|]; destruct (Z.ltb_spec j 48); [|lia]. }
  intros ? c2 H2.
  assert (Hrun := fill_wp isr_vectors c Hlen Hi 48 c2 IDT_SYSCALL_DESCRIPTOR ltac:(lia) eq_refl H2).
  apply wp_bind_inv in Hrun. apply wp_bind. eapply wp_mono; [exact Hrun|]. intros v c3 Hrun3.
  apply wp_bind. eapply wp_mono; [exact Hrun3|]. clear Hrun Hrun3. intros _ c4 (Hcur & Hl4 & H4).
  wpsteps. cbn [set_interrupts set_idtr set_ip idtr idt ip interrupts_on current]. rewrite Hcur. split; [done|]. split; [done|]. split.
  - intros i v' Hlt Hv. eexists. split; [rewrite H4, decide_True, Hv by lia; reflexivity|]. cbv beta.
    edestruct (gate_filled v' GDT_KERN_CODE_OFFSET (gate_attrs (Z.of_nat i)) _ eq_refl) as (-> & -> & -> & -> & ->).
    { rewrite Forall_lookup in Hw. by eapply Hw. } { done. }
    { unfold gate_attrs. repeat case_match; done. }
    split; [done|]. split; [done|]. unfold gate_attrs.
    destruct (Z.ltb_spec (Z.of_nat i) 32), (Z.ltb_spec (Z.of_nat i) 48); repeat case_decide; try lia; done.
  - intros i Hge. by rewrite H4, decide_False by lia.
Qed.

Definition demo_vectors : list Z := (fun i => 0xc0100000 + 16 * Z.of_nat i) <$> seq 0 49.

Lemma idt_install_gates_witness :
  wp (idt_install demo_vectors 0xc010a000) (fun _ c' => exists e, idt c' !! 48%nat = Some e /\
    gate_offset (idt_word e) = 0xc0100300 /\ gate_dpl (idt_word e) = 3) cpu_boot.
Proof.
  eapply wp_mono; [apply idt_install_gates|].
  - apply Forall_forall. unfold demo_vectors. intros x (i & -> & Hi%elem_of_seq)%list_elem_of_fmap. unfold word. lia.
  - vm_compute. lia.
  - reflexivity.
  - reflexivity.
  - intros _ c' (_ & _ & Hg & _). destruct (Hg 48%nat 0xc0100300 ltac:(lia) eq_refl) as (e & He & Ho & _ & _ & Hd & _).
    exists e. split; [exact He|]. split; [exact Ho|]. exact Hd.
Defined.

(** ** The interrupt controllers *)

(** Whether line [i] is masked, in the mask register of its controller. *)
Definition pic_port (i : Z) : Z := if i <? 8 then PIC1_DATA else PIC2_DATA.
Definition line_masked (port_in : list (Z * Z) -> Z -> Z) (c : cpu) (i : Z) : bool :=
  Z.testbit (port_in (ports c) (pic_port i)) (i mod 8).

Lemma testbit_one k j : 0 <= k -> 0 <= j -> Z.testbit (Z.shiftl 1 k) j = bool_decide (j = k).
Proof.
  intros Hk Hj. rewrite Z.shiftl_1_l. case_bool_decide as E; [subst; by apply Z.pow2_bits_true|].
  by apply Z.pow2_bits_false.
Qed.

(** The byte written: bit [k] is set or cleared. *)
Lemma mask_byte v k (mask : bool) j : 0 <= k < 8 -> 0 <= j < 8 ->
  Z.testbit (field 8 (if mask then Z.lor v (Z.shiftl 1 k) else Z.land v (Z.lnot (Z.shiftl 1 k)))) j =
  if decide (j = k) then mask else Z.testbit v j.
Proof.
  intros Hk Hj. unfold field. rewrite Z.land_spec, (Z.ones_spec_low 8) by lia. rewrite andb_true_r.
  destruct mask; rewrite ?Z.lor_spec, ?Z.land_spec, ?Z.lnot_spec, testbit_one by lia;
    case_decide; case_bool_decide; try done; rewrite ?orb_true_r, ?orb_false_r, ?andb_true_r, ?andb_false_r; done.
Qed.

(** Masking or unmasking a line changes that line only.  The hypotheses
    are what the 8259 documents of an initialised pair: the data port reads
    back the mask last written to it, and a write to one controller does not
    touch the other's mask. *)
Lemma irq_set_int_exact port_in number mask c :
  let p := pic_port (number mod 16) in
  (forall v, port_in ((p, v) :: ports c) p = v) ->
  (forall q v, q <> p -> port_in ((p, v) :: ports c) q = port_in (ports c) q) ->
  wp (irq_set_int port_in number mask) (fun _ c' =>
    forall i, 0 <= i < 16 ->
      line_masked port_in c' i = if decide (i = number mod 16) then mask else line_masked port_in c i) c.
Proof.
  intros p Hread Hother. unfold irq_set_int.
  assert (En : Z.land number 15 = number mod 16) by (apply (Z.land_ones number 4); lia).
  rewrite En. set (n := number mod 16) in *.
  assert (Hn : 0 <= n < 16) by (apply Z.mod_pos_bound; lia).
  set (k := if n <? 8 then n else n - 8).
  assert (Hk : k = n mod 8 /\ 0 <= k < 8) by (subst k; destruct (Z.ltb_spec n 8); Z.div_mod_to_equations; lia).
  fold (pic_port n). eapply wp_intro; [reflexivity|]. fold p.
  set (b := port_in (ports c) p). intros i Hi. unfold line_masked at 1; cbn [ports set_ports].
  assert (Hi8 : 0 <= i mod 8 < 8) by (apply Z.mod_pos_bound; lia).
  destruct (decide (pic_port i = p)) as [Ep|Ep].
  - rewrite Ep, Hread, mask_byte by lia.
    assert (Hpi : i mod 8 = k <-> i = n).
    { unfold p, pic_port in Ep. destruct Hk as [-> _].
      destruct (Z.ltb_spec i 8), (Z.ltb_spec n 8); try done; Z.div_mod_to_equations; lia. }
    unfold line_masked. rewrite Ep. fold b. repeat case_decide; tauto.
  - rewrite Hother by done. rewrite decide_False; [done|]. intros ->. done.
Qed.

(** Ports that answer what was last written to them. *)
Fixpoint last_written (ws : list (Z * Z)) (p : Z) : Z :=
  match ws with [] => 0 | w :: ws => if w.1 =? p then w.2 else last_written ws p end.

Lemma irq_set_int_exact_witness :
  wp (irq_set_int last_written IRQ0 true) (fun _ c' =>
    line_masked last_written c' 0 = true /\ line_masked last_written c' 1 = false) cpu_boot.
Proof.
  eapply wp_mono; [apply irq_set_int_exact|].
  - intros v. cbn. done.
  - intros q v Hq. cbn -[Z.eqb]. destruct (Z.eqb_spec (pic_port (IRQ0 mod 16)) q); [congruence|done].
  - intros ? c' H. split; [exact (H 0 ltac:(lia))|exact (H 1 ltac:(lia))].
Defined.

(** ** The timer *)

(** [n] interrupts of the timer, and what each answered. *)
Fixpoint timer_ticks (n : nat) : cm (list Z) :=
  match n with
  | O => ret_ []
  | S n => do r <- timer_isr; do l <- timer_ticks n; ret_ (r :: l)
  end.

Definition tick_answer (t : Z) : Z := if w32 t mod 10 =? 0 then 1 else 0.

Lemma timer_ticks_run n : forall c, word (tick c) ->
  exists c', timer_ticks n c = Ok ((fun k => tick_answer (tick c + Z.of_nat k)) <$> seq 1 n, c')
    /\ tick c' = w32 (tick c + Z.of_nat n) /\ ports c' = ports c.
Proof.
  induction n as [|n IH]; intros c Ht.
  - exists c. split; [done|]. rewrite Z.add_0_r, w32_id; done.
  - cbn [timer_ticks]. destruct (IH (set_tick (tick c +w 1) c)) as (c' & Hr & Ht' & Hp); [apply w32_word|].
    exists c'. erewrite bind_ok by reflexivity. erewrite bind_ok by exact Hr. cbn [tick set_tick] in *.
    split; [|split; [|done]].
    + unfold ret_. do 3 f_equal. cbn [seq fmap list_fmap]. f_equal.
      rewrite <- (fmap_S_seq 1 n), <- list_fmap_compose. apply list_fmap_ext. intros i k _. cbn.
      unfold tick_answer. f_equal. f_equal. unfold w32. rewrite Zplus_mod_idemp_l. by replace (tick c + 1 + Z.of_nat k) with (tick c + Z.of_nat (S k)) by lia.
    + rewrite Ht'. unfold w32. rewrite Zplus_mod_idemp_l. f_equal. lia.
Qed.

(** Any ten consecutive timer interrupts contain one that asks for a
    task switch, also where the 32-bit counter wraps, and exactly one when
    it does not wrap; the interrupt itself writes to no port. *)
Lemma timer_asks_for_switch c :
  word (tick c) ->
  wp (timer_ticks 10) (fun answers c' =>
    1 ∈ answers /\ length answers = 10%nat /\ tick c' = w32 (tick c + 10) /\ ports c' = ports c /\
    (tick c + 10 < W32 -> exists i, forall j a, answers !! j = Some a -> a = 1 <-> j = i)) c.
Proof.
  intros Ht. destruct (timer_ticks_run 10 c Ht) as (c' & Hr & Ht' & Hp).
  eapply wp_intro; [exact Hr|]. split; [|split; [|split; [done|split; [done|]]]].
  - apply list_elem_of_fmap. unfold tick_answer, word in *.
    destruct (Z.ltb_spec (tick c + 10) W32) as [Hlt|Hge].
    + exists (Z.to_nat (10 - tick c mod 10)). split; [|apply elem_of_seq; Z.div_mod_to_equations; lia].
      rewrite w32_small by (Z.div_mod_to_equations; lia).
      destruct (Z.eqb_spec ((tick c + Z.of_nat (Z.to_nat (10 - tick c mod 10))) mod 10) 0); [done|].
      exfalso. Z.div_mod_to_equations. lia.
    + exists (Z.to_nat (W32 - tick c)). split; [|apply elem_of_seq; lia].
      rewrite Z2Nat.id by lia. replace (tick c + (W32 - tick c)) with W32 by lia. done.
  - by rewrite length_fmap, length_seq.
  - intros Hlt. exists (Z.to_nat (9 - tick c mod 10)). intros j a Ha.
    apply list_lookup_fmap_Some in Ha as (k & -> & Hk). apply lookup_seq in Hk as [-> Hj].
    unfold tick_answer. rewrite w32_small by (unfold word in Ht; lia).
    destruct (Z.eqb_spec ((tick c + Z.of_nat (1 + j)) mod 10) 0); Z.div_mod_to_equations; lia.
Qed.

Lemma timer_asks_for_switch_witness :
  wp (timer_ticks 10) (fun answers _ => 1 ∈ answers) cpu_boot.
Proof.
  eapply wp_mono; [apply timer_asks_for_switch; unfold word; cbn; lia|]. intros l c' [H _]. exact H.
Defined.

(** The two bytes sent to channel 0 are the divisor, when it fits in 16
    bits. *)
Lemma timer_init_divisor freq c : 0 < freq -> exists low high,
  timer_init freq c = Ok (tt, set_ports ((CH0, high) :: (CH0, low) :: (TIMER_COMM, 0x36) :: ports c) c) /\
  (low + 256 * high = BASE_FREQUENCY / freq <-> 19 <= freq).
Proof.
  intros Hf. do 2 eexists. split.
  { unfold timer_init. destruct (Z.eqb_spec freq 0); [lia|]. reflexivity. }
  rewrite !field_land by (lia || reflexivity). rewrite !field_mod, Z.shiftr_div_pow2 by lia.
  set (d := BASE_FREQUENCY / freq). assert (Hd : 0 <= d < 65536 <-> 19 <= freq).
  { subst d. unfold BASE_FREQUENCY. split; intros H.
    - assert (~ freq <= 18); [|lia]. intros Hle.
      assert (1193180 / 18 <= 1193180 / freq) by (apply Z.div_le_compat_l; lia).
      change (1193180 / 18) with 66287 in *. lia.
    - split; [apply Z.div_pos; lia|]. apply Z.div_lt_upper_bound; lia. }
  rewrite <- Hd. split; intros E; [split; [subst d; apply Z.div_pos; unfold BASE_FREQUENCY; lia|]|]; Z.div_mod_to_equations; lia.
Qed.
