(* ===== verification/Exec.v ===== *)
(** * File mappings and program loading
    ([mmap.c], [munmap.c] of [src/src/kernel/memory/], [elf_loader.c] and
    [execve.c] of [src/src/kernel/cpu/], [src/src/include/elf32.h])

    [vmm_mmap_at] fills a mapping through [vfs_read], and here it is given
    the real one: [read_for_vmm] runs the drivers of the file system from
    inside the memory manager.  The loader's headers are kernel heap buffers
    read and decoded byte by byte; the first write to a heap page goes
    through the kernel's own page fault handler ([touch]). *)

From S2P Require Import Prelude Dlist Pmm Heap Paging Vmm Vmalloc Klib Terminal Namei Sched Kernel Vfs Files Task.

#[local] Open Scope Z_scope.

Definition O_RDWR : Z := 8.
Definition PROT_WRITE : Z := 2.
Definition ENOEXEC : Z := 8.
Definition ENODEV : Z := 19.
Definition SIG_DEFAULT_MASK : Z := Z.lor SIGKILL SIGSEGV.
Definition MAX_ARGV : Z := 256.
Definition VM_USER_STACK : Z := 0xbffff000.

(** ** elf32.h *)

Definition ELF_NIDENT : nat := 16.
Definition ELFMAG0 : Z := 0x7f.
Definition ELFMAG1 : Z := 69.
Definition ELFMAG2 : Z := 76.
Definition ELFMAG3 : Z := 70.
Definition PT_LOAD : Z := 1.
Definition PF_W : Z := 2.
Definition ET_EXEC : Z := 2.

Record Elf32_Ehdr := mkEhdr {
  e_ident : list Z;
  e_type : Z; e_machine : Z; e_version : Z; e_entry : Z; e_phoff : Z; e_shoff : Z; e_flags : Z;
  e_ehsize : Z; e_phentsize : Z; e_phnum : Z; e_shentsize : Z; e_shnum : Z; e_shstrndx : Z;
}.

Record Elf32_Phdr := mkPhdr {
  p_type : Z; p_offset : Z; p_vaddr : Z; p_paddr : Z;
  p_filesz : Z; p_memsz : Z; p_flags : Z; p_align : Z;
}.

Definition SIZEOF_EHDR : Z := 52.
Definition SIZEOF_PHDR : Z := 32.

(** The little-endian number of the [n] bytes at offset [i]. *)
Fixpoint le (l : list Z) : Z := match l with [] => 0 | b :: l => b + 256 * le l end.
Definition le_at (l : list Z) (i n : nat) : Z := le (take n (drop i l)).

(** The bytes of a buffer seen as the structures. *)
Definition ehdr_of (l : list Z) : Elf32_Ehdr :=
  mkEhdr (take ELF_NIDENT l)
    (le_at l 16 2) (le_at l 18 2) (le_at l 20 4) (le_at l 24 4) (le_at l 28 4) (le_at l 32 4) (le_at l 36 4)
    (le_at l 40 2) (le_at l 42 2) (le_at l 44 2) (le_at l 46 2) (le_at l 48 2) (le_at l 50 2).

Definition phdr_of (l : list Z) (i : nat) : Elf32_Phdr :=
  let f k := le_at l (32 * i + 4 * k) 4 in
  mkPhdr (f 0%nat) (f 1%nat) (f 2%nat) (f 3%nat) (f 4%nat) (f 5%nat) (f 6%nat) (f 7%nat).

Definition ident_is (hdr : Elf32_Ehdr) (i : nat) (v : Z) : bool :=
  match e_ident hdr !! i with Some b => b =? v | None => false end.

Definition _is_elf_file (hdr : Elf32_Ehdr) : bool :=
  if negb (ident_is hdr 0 ELFMAG0) then false
  else if negb (ident_is hdr 1 ELFMAG1) then false
  else if negb (ident_is hdr 2 ELFMAG2) then false
  else if negb (ident_is hdr 3 ELFMAG3) then false
  else true.

(** [None]: the division by an alignment of 0. *)
Definition _align_vaddr (vaddr align : Z) : option Z :=
  if align =? 0 then None
  else Some (if negb (vaddr mod align =? 0) then vaddr -w vaddr mod align +w align else vaddr).

(** The stack pointer made a multiple of 4 before the argument array. *)
Definition align_stack (sp : Z) : Z :=
  if negb (sp mod 4 =? 0) then sp +w sp mod 4 -w 4 else sp.

Definition regs_set_execve_args (argc argv : Z) (r : task_regs) : task_regs :=
  mkRegs (eax r) (ebx r) (ecx r) (edx r) argc argv (esp r) (ebp r) (eip r) (eflags r) (Sched.cr3 r) (ds r) (cs r).
Definition regs_set_instruction_pointer (ip_ : Z) (r : task_regs) : task_regs :=
  mkRegs (eax r) (ebx r) (ecx r) (edx r) (esi r) (edi r) (esp r) (ebp r) ip_ (eflags r) (Sched.cr3 r) (ds r) (cs r).

Definition set_mask v t := mkTcb (task_id t) (kernel_stack t) (exit_code t) (fd_ctr t) (used_fd t) v (t_current t) (wait4 t) (t_parent t) (t_first_child t) (t_last_child t) (t_prev_sibling t) (t_next_sibling t) (t_state t) (t_priority t) (t_next t) (t_prev t) (t_regs t) (t_aspace t).
Definition set_t_aspace v t := mkTcb (task_id t) (kernel_stack t) (exit_code t) (fd_ctr t) (used_fd t) (t_mask t) (t_current t) (wait4 t) (t_parent t) (t_first_child t) (t_last_child t) (t_prev_sibling t) (t_next_sibling t) (t_state t) (t_priority t) (t_next t) (t_prev t) (t_regs t) v.

Definition set_program (entry end_ : Z) (a : aspace) : aspace :=
  mkAspace (pd a) entry end_ end_ (stack_end a) (stack_size a) (page_counter a) (as_first a) (as_last a).

Section exec.
Context {H : Type} `{!Allocator H}.
(** The bytes of a local array before it is written, an uninitialised local
    word, the kernel's page directory and the depth of task switches. *)
Context (stack_bytes : list Z) (raw_word : Z) (kern_pd_vaddr : Z) (n : nat).

Local Notation K := (K (H := H)).
Local Notation KC := (KC (H := H)).

(** ** mmap.c, munmap.c *)

(** [vfs_read] as [vmm_mmap_at] calls it, in the kernel [k].  Only a read
    from the keyboard switches tasks, and no mapping is made of it. *)
Definition read_for_vmm (k : kernel H) (nd offset size buffer : Z) : M (vmm H) Z := fun v =>
  match vfs_read n nd offset size buffer (set_vmm v k) with
  | Ok (Returns r, k') => Ok (r, k_vmm k')
  | Ok (Left _, _) => Fault
  | Panic e => Panic e
  | Fault => Fault
  | Hang => Hang
  end.

Definition mmap_file (as_ vaddr obj offset size align flags : Z) : K Z := fun k =>
  on_vm (vmm_mmap_at (read_for_vmm k) as_ vaddr obj offset size align flags) k.

Definition do_mmap (t addr size prot fd offset : Z) : K Z :=
  do p <- get_fd t fd;
  if p =? 0 then set_errno_ EBADF ;;; ret_ 0
  else
    do d <- ld_fd p;
    if (Z.land (mode d) O_RDONLY =? 0) && (Z.land (mode d) O_RDWR =? 0) then set_errno_ EACCES ;;; ret_ 0
    else
      do v <- node (vfs_node d);
      do zero <- get_ (fun k => dev_zero (k_fs k));
      if bool_decide (v_type v <> Some VFS_FILE) && negb (vfs_node d =? zero) then set_errno_ ENODEV ;;; ret_ 0
      else
        let flags := if negb (Z.land prot PROT_WRITE =? 0) then Z.lor VMM_USER VMM_RW else VMM_USER in
        do c <- task t;
        mmap_file (t_aspace c) addr (vfs_node d) offset size 0 flags.

Definition do_munmap (t addr : Z) : K Z := do c <- task t; on_vm (vmm_munmap (t_aspace c) addr).

(** ** elf_loader.c *)

(** The pages of [size] bytes at [p] that have no frame yet get one: a
    write to them is a page fault of the kernel. *)
Definition touch_page (vaddr : Z) : K unit :=
  do m <- get_ (fun k => v_mach (k_vmm k));
  match walk_dir (ram m) (Paging.cr3 m) vaddr with
  | Some _ => ret_ tt
  | None => do _ <- on_vm (pg_page_fault_handler 0 vaddr PG_RW); ret_ tt
  end.

Definition touch (p size : Z) : K unit :=
  for_ (Z.to_nat ((p + size - 1) / PAGE_SIZE - p / PAGE_SIZE + 1)) (p / PAGE_SIZE) (fun i => touch_page (i * PAGE_SIZE)).

(** [kmalloc(size)] and [vfs_read] into it: the answer, and the bytes of
    the buffer. *)
Definition read_block (file offset size : Z) : KC (Z * Z * list Z) :=
  do p <- kmem_alloc size;
  touch p size ;;;
  do! r <- vfs_read n file offset size p;
  do bytes <- memory (ld_bytes p (Z.to_nat size));
  returns (ret_ (p, r, bytes)).

(** The address of the header and its content, [None] for NULL. *)
Definition _load_Ehdr (file : Z) : KC (option (Z * Elf32_Ehdr)) :=
  do! b <- read_block file 0 SIZEOF_EHDR;
  let '(p, r, bytes) := b in
  if r <? 0 then kmem_free p ;;; returns (ret_ None)
  else returns (ret_ (Some (p, ehdr_of bytes))).

(** One PT_LOAD segment; the new value of [tmp_vaddr], [None] for -1. *)
Definition load_segment (as_ file : Z) (ph : Elf32_Phdr) : K (option Z) :=
  let flags := if negb (Z.land (p_flags ph) PF_W =? 0) then Z.lor VMM_USER VMM_RW else VMM_USER in
  let end_ := lift_opt (_align_vaddr (p_vaddr ph +w p_memsz ph) (p_align ph)) in
  if p_filesz ph <? p_memsz ph then
    do ret <- mmap_file as_ (p_vaddr ph) file (p_offset ph) (p_filesz ph) (p_filesz ph) flags;
    do e <- get_ (fun k => v_errno (k_vmm k));
    if (ret =? 0) && negb (e =? 0) then ret_ None
    else
      let tmp_vaddr := p_vaddr ph +w p_filesz ph in
      let tmp_sz := p_memsz ph -w p_filesz ph in
      do zero <- get_ (fun k => dev_zero (k_fs k));
      do ret <- mmap_file as_ tmp_vaddr zero 0 tmp_sz (p_align ph) flags;
      do _ <- lift_opt (_align_vaddr tmp_vaddr (p_align ph));
      if ret =? 0 then ret_ None
      else do v <- end_; ret_ (Some v)
  else
    do ret <- mmap_file as_ (p_vaddr ph) file (p_offset ph) (p_filesz ph) (p_align ph) flags;
    if ret =? 0 then ret_ None
    else do v <- end_; ret_ (Some v).

Fixpoint load_segments (as_ file : Z) (phs : list Elf32_Phdr) (tmp_vaddr : Z) : K (option Z) :=
  match phs with
  | [] => ret_ (Some tmp_vaddr)
  | ph :: phs =>
      if negb (p_type ph =? PT_LOAD) then load_segments as_ file phs tmp_vaddr
      else
        do r <- load_segment as_ file ph;
        match r with
        | None => ret_ None
        | Some v => load_segments as_ file phs v
        end
  end.

Definition _load_exe_format (as_ file : Z) (hdr : Elf32_Ehdr) : KC Z :=
  do! b <- read_block file (e_phoff hdr) (SIZEOF_PHDR *w e_phnum hdr);
  let '(phdr, r, bytes) := b in
  if r <? 0 then returns (ret_ (-1))
  else
    do last <- load_segments as_ file (phdr_of bytes <$> seq 0 (Z.to_nat (e_phnum hdr))) raw_word;
    match last with
    | None => returns (ret_ (-1))
    | Some v =>
        on_vm (upd_as as_ (set_program (e_entry hdr) v)) ;;;
        kmem_free phdr ;;;
        returns (ret_ 0)
    end.

Definition elf_load (as_ file : Z) : KC Z :=
  do! h <- _load_Ehdr file;
  match h with
  | None => returns (ret_ (-1))
  | Some (p, hdr) =>
      if negb (_is_elf_file hdr) then returns (fail_with EEXIST)
      else if e_type hdr =? ET_EXEC then
        do! sub_ret <- _load_exe_format as_ file hdr;
        kmem_free p ;;;
        returns (ret_ sub_ret)
      else returns (fail_with ENOEXEC)
  end.

(** ** execve.c *)

(** Locals of the loop that copies the arguments: [argv_ctr],
    [stack_ptr_reg] and [argv_user_stack]. *)
Record arg_loop := mkAl { a_ctr : Z; a_sp : Z; a_user : list Z }.

Definition heap_buffer (p : Z) : K (list Z) := fun k =>
  match v_bufs (k_vmm k) !! p with Some b => Ok (b, k) | None => Fault end.

(** [inr None]: EFAULT. *)
Definition copy_arg (t as_ : Z) (argv : list Z) (l : arg_loop) : K (arg_loop + option arg_loop) :=
  do a <- lift_opt (argv !! Z.to_nat (a_ctr l));
  if negb (a =? 0) && (a_ctr l <? 255) then
    do c <- task t;
    do string_ <- on_vm (vmm_copy_string_from (t_aspace c) a 1024);
    if string_ =? 0 then set_errno_ EFAULT ;;; ret_ (inr None)
    else
      do b <- heap_buffer string_;
      do len <- lift_opt (strlen b);
      let sp := a_sp l -w (len + 1) in
      do r <- on_vm (vmm_copy_data_to as_ sp b (len + 1));
      if r <? 0 then set_errno_ EFAULT ;;; ret_ (inr None)
      else
        on_vm (free_buf string_) ;;;
        ret_ (inl (mkAl (a_ctr l + 1) sp (a_user l ++ [sp])))
  else ret_ (inr (Some l)).

(** The array of pointers as bytes. *)
Definition word_bytes (w : Z) : list Z := (fun i => byte_of w i) <$> [0; 1; 2; 3].

(** Descriptors 0 and 1 are the kernel's, the others are closed while the
    counter is above 2. *)
Definition close_others (t : Z) : K unit :=
  do _ <- loop (S MAX_FDS) (fun i =>
    do c <- task t;
    if (i <? Z.of_nat MAX_FDS) && (2 <? fd_ctr c) then
      do p <- get_fd t i;
      (when negb (p =? 0) then_ (do _ <- do_close t i; ret_ tt)) ;;;
      ret_ (inl (i + 1))
    else ret_ (inr tt)) 2;
  ret_ tt.

(** The process stack of two pages below [VM_USER_STACK]. *)
Definition make_stack (as_ : Z) : K unit :=
  let stack_size_ := PAGE_SIZE * 2 in
  let stack_end_ := VM_USER_STACK - stack_size_ in
  do zero <- get_ (fun k => dev_zero (k_fs k));
  (do _ <- mmap_file as_ stack_end_ zero 0 stack_size_ 0 (Z.lor VMM_RW VMM_USER); ret_ tt) ;;;
  on_vm (vmm_set_stack as_ stack_end_ stack_size_).

(** The arguments on the new stack: their number with the final NULL and
    the address of the array, [None] for EFAULT. *)
Definition push_args (t as_ : Z) (argv : list Z) : K (option (Z * Z)) :=
  do r <- loop 257 (copy_arg t as_ argv) (mkAl 0 VM_USER_STACK []);
  match r with
  | None => ret_ None
  | Some l =>
      let argv_ctr := a_ctr l + 1 in
      let sp := align_stack (a_sp l) -w 4 * argv_ctr in
      do r <- on_vm (vmm_copy_data_to as_ sp (mjoin (word_bytes <$> (a_user l ++ [0]))) (4 * argv_ctr));
      if r <? 0 then set_errno_ EFAULT ;;; ret_ None
      else ret_ (Some (argv_ctr, sp))
  end.

(** From the new address space to the registers of the first instruction. *)
Definition enter_program (t as_ argv_ctr sp : Z) : K unit :=
  do c <- task t;
  on_vm (vmm_aspace_destroy (t_aspace c)) ;;;
  upd_tcb t (set_t_aspace as_) ;;;
  do a <- on_vm (ld_as as_);
  upd_tcb t (fun c => set_regs (regs_set_pd (pd a) (t_regs c)) c) ;;;
  do kt <- get_sched kernel_task;
  do fd0 <- get_fd kt 0; put_fd t 0 fd0 ;;;
  do fd1 <- get_fd kt 1; put_fd t 1 fd1 ;;;
  close_others t ;;;
  upd_tcb t (set_mask SIG_DEFAULT_MASK) ;;;
  upd_tcb t (fun c => set_regs (regs_set_execve_args argv_ctr sp (t_regs c)) c) ;;;
  upd_tcb t (fun c => set_regs (regs_set_instruction_pointer (code_entry a) (t_regs c)) c) ;;;
  upd_tcb t (fun c => set_regs (regs_set_stack_pointer (sp -w 4 * argv_ctr) (t_regs c)) c).

Definition do_execve (t : Z) (path : list Z) (argv : list Z) : KC Z :=
  do r <- on_fs (namei_path_to_vfs_node 0 path stack_bytes);
  let exe_file := fst r in
  if exe_file =? 0 then returns (fail_with ENOENT)
  else
    do as_ <- on_vm (vmm_aspace_create kern_pd_vaddr 0);
    do! loaded <- elf_load as_ exe_file;
    if loaded <? 0 then returns (ret_ (-1))
    else
      make_stack as_ ;;;
      do args <- push_args t as_ argv;
      match args with
      | None => returns (ret_ (-1))
      | Some (argv_ctr, sp) => enter_program t as_ argv_ctr sp ;;; returns (ret_ 0)
      end.

(** Locals of the loop that copies the argument vector: [i],
    [i_after_next_page], [argv], [argv_in_user_as], [argv_in_kernel_as]. *)
Record vec_loop := mkVl { vl_i : Z; vl_base : Z; vl_argv : Z; vl_user : Z; vl_kernel : list Z }.

(** [inr None]: a page of the vector is not mapped. *)
Definition copy_vector_step (l : vec_loop) : K (vec_loop + option (list Z)) :=
  if vl_i l <? 256 then
    do next <-
      (if (vl_user l +w 4 * (vl_i l - vl_base l)) mod PAGE_SIZE =? 0 then
         let argv := vl_argv l +w 4 * vl_i l in
         (do _ <- memory (pg_unmap VM_TMP_MAP); ret_ tt) ;;;
         do cur <- get_sched actual_task;
         do c <- task cur;
         do a <- on_vm (ld_as (t_aspace c));
         do paddr <- memory (pg_get_frame_from (pd a) argv);
         if paddr =? 0 then ret_ None
         else
           memory (pg_map paddr VM_TMP_MAP PG_KERN_PAGE_FLAG) ;;;
           ret_ (Some (mkVl (vl_i l) (vl_i l) argv VM_TMP_MAP (vl_kernel l)))
       else ret_ (Some l));
    match next with
    | None => ret_ (inr None)
    | Some l =>
        do w <- memory (ld32 (vl_user l +w 4 * (vl_i l - vl_base l)));
        let vec := vl_kernel l ++ [w] in
        if w =? 0 then ret_ (inr (Some vec))
        else ret_ (inl (mkVl (vl_i l + 1) (vl_base l) (vl_argv l) (vl_user l) vec))
    end
  else ret_ (inr (Some (vl_kernel l))).

Definition execve (path argv : Z) : KC Z :=
  do cur <- get_sched actual_task;
  do c <- task cur;
  do path_in_kernel_as <- on_vm (vmm_copy_string_from (t_aspace c) path MAX_PATH_LEN);
  if path_in_kernel_as =? 0 then returns (fail_with E2BIG)
  else
    do a <- on_vm (ld_as (t_aspace c));
    do paddr <- memory (pg_get_frame_from (pd a) argv);
    if paddr =? 0 then returns (fail_with EFAULT)
    else
      do old_tmp <- memory (pg_unmap VM_TMP_MAP);
      memory (pg_map paddr VM_TMP_MAP PG_KERN_PAGE_FLAG) ;;;
      do argv_in_kernel_as <- kmem_alloc (4 * MAX_ARGV);
      do vec <- loop 257 copy_vector_step (mkVl 0 0 argv (VM_TMP_MAP + argv mod PAGE_SIZE) []);
      match vec with
      | None =>
          on_vm (free_buf path_in_kernel_as) ;;;
          kmem_free argv_in_kernel_as ;;;
          memory (pg_map old_tmp VM_TMP_MAP PG_KERN_PAGE_FLAG) ;;;
          returns (fail_with EFAULT)
      | Some vec =>
          (do _ <- memory (pg_unmap VM_TMP_MAP); ret_ tt) ;;;
          memory (pg_map old_tmp VM_TMP_MAP PG_KERN_PAGE_FLAG) ;;;
          do path_bytes <- heap_buffer path_in_kernel_as;
          do! ret <- do_execve cur path_bytes vec;
          on_vm (free_buf path_in_kernel_as) ;;;
          kmem_free argv_in_kernel_as ;;;
          returns (ret_ ret)
      end.
End exec.
