(* ===== verification/ExecSpec.v ===== *)
(** * Correctness of loading programs

    [keeps m]: the routine [m] leaves every task and the queues as they are,
    whatever else it does.  An execve that fails keeps them.  The decoding of
    an ELF header inverts its layout. *)

From S2P Require Import Prelude Dlist Pmm Kmalloc Heap Paging Vmm Vmalloc Klib Terminal TerminalSpec Namei NameiSpec Sched SchedSpec Kernel Vfs Files FilesSpec Task TaskSpec Exec.

#[local] Open Scope Z_scope.

(** ** Routines that leave the tasks alone *)

Section keeps.
Context {H : Type} `{!Allocator H}.
Local Notation K := (K (H := H)).
Local Notation KC := (KC (H := H)).

Definition keeps {A} (m : K A) : Prop := forall k a k', m k = Ok (a, k') -> k_sched k' = k_sched k.

(** The same for a routine that may switch tasks, when it returns. *)
Definition keeps_ret {A} (m : KC A) : Prop := forall k a k', m k = Ok (Returns a, k') -> k_sched k' = k_sched k.

Lemma keeps_ret_ {A} (a : A) : keeps (ret_ a).
Proof. by intros k b k' [= <- <-]. Qed.

Lemma keeps_get {A} (f : kernel H -> A) : keeps (get_ f).
Proof. by intros k b k' [= <- <-]. Qed.

Lemma keeps_fault {A} : keeps (A := A) fault.
Proof. by intros k b k'. Qed.

Lemma keeps_panic {A} msg : keeps (A := A) (panic msg).
Proof. by intros k b k'. Qed.

Lemma keeps_bind {A B} (m : K A) (f : A -> K B) : keeps m -> (forall a, keeps (f a)) -> keeps (bind_ m f).
Proof. intros Hm Hf k b k' (a & k1 & E1 & E2)%bind_inv. rewrite (Hf _ _ _ _ E2). by eapply Hm. Qed.

Lemma keeps_if {A} (b : bool) (m1 m2 : K A) : keeps m1 -> keeps m2 -> keeps (if b then m1 else m2).
Proof. by destruct b. Qed.

Lemma keeps_on_vm {A} (m : M (vmm H) A) : keeps (on_vm m).
Proof. intros k a k'. unfold on_vm, zoom. destruct (m (k_vmm k)) as [[? ?]| | |]; [intros [= <- <-]|..]; done. Qed.

Lemma keeps_on_fs {A} (m : M fsys A) : keeps (on_fs m).
Proof. intros k a k'. unfold on_fs, zoom. destruct (m (k_fs k)) as [[? ?]| | |]; [intros [= <- <-]|..]; done. Qed.

Lemma keeps_on_vma {A} (m : M (vma H) A) : keeps (on_vma m).
Proof. intros k a k'. unfold on_vma, zoom. destruct (m (get_vma k)) as [[? ?]| | |]; [intros [= <- <-]|..]; done. Qed.

Lemma keeps_task t : keeps (task t).
Proof.
  intros k a k'. unfold task, on_sched, zoom, ld_task.
  destruct (tasks (k_sched k) !! t); [destruct (t =? 0); [done|]|done]. by intros [= <- <-].
Qed.

Lemma keeps_lift_opt {A} (o : option A) : keeps (lift_opt o).
Proof. intros k a k'. unfold lift_opt. destruct o; [by intros [= <- <-]|done]. Qed.

Lemma keeps_loop {A B} fuel (body : A -> K (A + B)) : (forall a, keeps (body a)) -> forall a, keeps (loop fuel body a).
Proof.
  intros Hb. induction fuel as [|fuel IH]; intros a; [by intros k b k'|]. cbn [loop].
  apply keeps_bind; [done|]. intros [a'|b]; [apply IH|apply keeps_ret_].
Qed.

Lemma keeps_for n (body : Z -> K unit) : (forall i, keeps (body i)) -> forall i, keeps (for_ n i body).
Proof.
  intros Hb. induction n as [|n IH]; intros i; [apply keeps_ret_|]. cbn [for_]. by apply keeps_bind.
Qed.

Lemma keeps_ram_paddr p : keeps (ram_paddr p).
Proof. intros k a k'. unfold ram_paddr. destruct (inodes (k_fs k) !! p) as [[]|]; try done; by intros [= <- <-]. Qed.

Lemma keeps_buffer p : keeps (heap_buffer p).
Proof. intros k a k'. unfold heap_buffer. destruct (v_bufs (k_vmm k) !! p); [by intros [= <- <-]|done]. Qed.

Lemma keeps_ret_returns {A} (m : K A) : keeps m -> keeps_ret (returns m).
Proof. intros Hm k a k' (b & k1 & E1 & E2)%bind_inv. injection E2 as <- <-. by eapply Hm. Qed.

Lemma keeps_ret_noret {A} (m : KC A) : noret m -> keeps_ret m.
Proof. intros Hm k a k' E. by destruct (Hm k a k'). Qed.

Lemma keeps_ret_bind {A B} (m : K A) (f : A -> KC B) : keeps m -> (forall a, keeps_ret (f a)) -> keeps_ret (bind_ m f).
Proof. intros Hm Hf k b k' (a & k1 & E1 & E2)%bind_inv. rewrite (Hf _ _ _ _ E2). by eapply Hm. Qed.

Lemma keeps_ret_call {A B} (m : KC A) (f : A -> KC B) : keeps_ret m -> (forall a, keeps_ret (f a)) -> keeps_ret (call m f).
Proof.
  intros Hm Hf k b k' ([a|l] & k1 & E1 & E2)%bind_inv; [|done]. rewrite (Hf _ _ _ _ E2). by eapply Hm.
Qed.

Lemma keeps_ret_if {A} (b : bool) (m1 m2 : KC A) : keeps_ret m1 -> keeps_ret m2 -> keeps_ret (if b then m1 else m2).
Proof. by destruct b. Qed.
End keeps.

Create HintDb keeps.
#[export] Hint Resolve keeps_ret_ keeps_get keeps_fault keeps_panic keeps_on_vm keeps_on_fs keeps_on_vma keeps_task
  keeps_lift_opt keeps_ram_paddr keeps_buffer : keeps.

(** [keeps]: by the shape of the routine. *)
Ltac keeps :=
  repeat match goal with
  | |- keeps (bind_ _ _) => apply keeps_bind; [|intros ?]
  | |- keeps (if _ then _ else _) => apply keeps_if
  | |- keeps (loop _ _ _) => apply keeps_loop; intros ?
  | |- keeps (for_ _ _ _) => apply keeps_for; intros ?
  | |- keeps (match ?x with _ => _ end) => destruct x
  | |- keeps_ret (returns _) => apply keeps_ret_returns
  | |- keeps_ret (call _ _) => apply keeps_ret_call; [|intros ?]
  | |- keeps_ret (bind_ _ _) => apply keeps_ret_bind; [|intros ?]
  | |- keeps_ret (if _ then _ else _) => apply keeps_ret_if
  | |- keeps_ret (match ?x with _ => _ end) => destruct x
  | |- _ => solve [eauto with keeps]
  end.

Section exec_keeps.
Context {H : Type} `{!Allocator H}.
Context (stack_bytes : list Z) (raw_word : Z) (kern_pd_vaddr : Z) (n : nat).
Local Notation K := (K (H := H)).
Local Notation KC := (KC (H := H)).

Lemma keeps_memory {A} (m : M machine A) : keeps (H := H) (memory m).
Proof. apply keeps_on_vm. Qed.
Lemma keeps_alloc size : keeps (H := H) (kmem_alloc size).
Proof. apply keeps_on_vm. Qed.
Lemma keeps_free p : keeps (H := H) (kmem_free p).
Proof. apply keeps_on_vm. Qed.
Lemma keeps_errno e : keeps (H := H) (set_errno_ e).
Proof. apply keeps_on_vm. Qed.
Lemma keeps_node p : keeps (H := H) (node p).
Proof. apply keeps_on_fs. Qed.
Lemma keeps_fail e : keeps (H := H) (fail_with e).
Proof. unfold fail_with. keeps. Qed.
#[local] Hint Resolve keeps_memory keeps_alloc keeps_free keeps_errno keeps_node keeps_fail : keeps.

Lemma keeps_copy_loop fs off size src dst : keeps (H := H) (copy_loop fs off size src dst).
Proof. unfold copy_loop. keeps. Qed.
#[local] Hint Resolve keeps_copy_loop : keeps.

Lemma keeps_file_mapped nd flags body : (forall v a, keeps (H := H) (body v a)) -> keeps (with_file_mapped nd flags body).
Proof. intros Hb. unfold with_file_mapped. keeps. Qed.

Lemma task_switch_noret : noret (H := H) (task_switch n).
Proof. unfold task_switch. noret; try apply context_switch_noret. Qed.

Lemma stdin_noret size buffer : noret (H := H) (_stdin_read n size buffer).
Proof.
  unfold _stdin_read. do 4 (apply noret_bind; intros ?). apply noret_call; intros ?.
  apply noret_first, task_switch_noret.
Qed.

Lemma keeps_vfs_read nd offset size buffer : keeps_ret (H := H) (vfs_read n nd offset size buffer).
Proof.
  unfold vfs_read. keeps.
  - unfold ramfs_read. apply keeps_file_mapped. intros v0 b. keeps.
  - unfold tarfs_read. keeps.
  - unfold _zero_read. keeps.
  - apply keeps_ret_noret, stdin_noret.
  - unfold read_result. keeps.
Qed.
#[local] Hint Resolve keeps_vfs_read : keeps.

Lemma keeps_mmap_file as_ vaddr obj offset size align flags :
  keeps (H := H) (mmap_file n as_ vaddr obj offset size align flags).
Proof. intros k a k' E. by eapply keeps_on_vm. Qed.
#[local] Hint Resolve keeps_mmap_file : keeps.

Lemma keeps_touch p size : keeps (H := H) (touch p size).
Proof. unfold touch, touch_page. keeps. Qed.
#[local] Hint Resolve keeps_touch : keeps.

Lemma keeps_load_segments as_ file phs : forall v, keeps (H := H) (load_segments n as_ file phs v).
Proof.
  induction phs as [|ph phs IH]; intros v; cbn [load_segments]; [keeps|].
  apply keeps_if; [apply IH|]. apply keeps_bind; [|intros [?|]; [apply IH|keeps]].
  unfold load_segment. keeps.
Qed.
#[local] Hint Resolve keeps_load_segments : keeps.

Lemma keeps_read_block file offset size : keeps_ret (H := H) (read_block n file offset size).
Proof. unfold read_block. keeps. Qed.
#[local] Hint Resolve keeps_read_block : keeps.

Lemma keeps_elf_load as_ file : keeps_ret (H := H) (elf_load raw_word n as_ file).
Proof.
  unfold elf_load, _load_Ehdr, _load_exe_format. keeps.
Qed.
#[local] Hint Resolve keeps_elf_load : keeps.

Lemma keeps_make_stack as_ : keeps (H := H) (make_stack n as_).
Proof. unfold make_stack. keeps. Qed.

Lemma keeps_push_args t as_ argv : keeps (H := H) (push_args t as_ argv).
Proof. unfold push_args, copy_arg. keeps. Qed.

(** An execve answers 0 or -1, and -1 leaves the tasks as they were. *)
Lemma do_execve_keeps t path argv k r k' :
  do_execve stack_bytes raw_word kern_pd_vaddr n t path argv k = Ok (Returns r, k') ->
  r = 0 \/ (r = -1 /\ k_sched k' = k_sched k).
Proof.
  unfold do_execve. intros ([f par] & k1 & E1 & E)%bind_inv. apply keeps_on_fs in E1. cbn [fst] in E.
  destruct (f =? 0).
  { apply bind_inv in E as (x & k2 & E2 & [= <- <-]). pose proof (keeps_fail _ _ _ _ E2). injection E2 as <- <-.
    right. split; [done|]. by rewrite <- E1. }
  apply bind_inv in E as (as_ & k2 & E2 & E). apply keeps_on_vm in E2.
  apply bind_inv in E as ([l|l] & k3 & E3 & E); [|done]. apply keeps_elf_load in E3.
  destruct (l <? 0); [injection E as <- <-; right; split; [done|congruence]|].
  apply bind_inv in E as ([] & k4 & E4 & E). apply keeps_make_stack in E4.
  apply bind_inv in E as (args & k5 & E5 & E). apply keeps_push_args in E5.
  destruct args as [[ctr sp]|]; [|injection E as <- <-; right; split; [done|congruence]].
  apply bind_inv in E as ([] & k6 & _ & [= <- _]). by left.
Qed.
End exec_keeps.

(** ** The layout of ELF headers *)

(** The [n] bytes of [v], least significant first. *)
Fixpoint le_bytes (n : nat) (v : Z) : list Z :=
  match n with O => [] | S n => v mod 256 :: le_bytes n (v / 256) end.

Lemma le_bytes_length n : forall v, length (le_bytes n v) = n.
Proof. induction n as [|n IH]; intros v; cbn; [done|]. by rewrite IH. Qed.

Lemma le_le_bytes n : forall v, 0 <= v < 256 ^ Z.of_nat n -> le (le_bytes n v) = v.
Proof.
  induction n as [|n IH]; intros v Hv; cbn [le_bytes le].
  - change (256 ^ Z.of_nat 0) with 1 in Hv. lia.
  - rewrite Nat2Z.inj_succ, Z.pow_succ_r in Hv by lia. rewrite IH; [Z.div_mod_to_equations; lia|].
    split; [apply Z.div_pos; lia|]. apply Z.div_lt_upper_bound; lia.
Qed.

(** The field that starts after [l]. *)
Lemma le_at_here l n v rest i : i = length l -> 0 <= v < 256 ^ Z.of_nat n -> le_at (l ++ le_bytes n v ++ rest) i n = v.
Proof.
  intros -> Hv. unfold le_at. rewrite drop_app_length.
  rewrite take_app_le by (by rewrite le_bytes_length). rewrite firstn_all2 by (by rewrite le_bytes_length).
  by apply le_le_bytes.
Qed.

Definition ehdr_bytes (h : Elf32_Ehdr) : list Z :=
  e_ident h ++ mjoin [le_bytes 2 (e_type h); le_bytes 2 (e_machine h); le_bytes 4 (e_version h); le_bytes 4 (e_entry h);
    le_bytes 4 (e_phoff h); le_bytes 4 (e_shoff h); le_bytes 4 (e_flags h); le_bytes 2 (e_ehsize h);
    le_bytes 2 (e_phentsize h); le_bytes 2 (e_phnum h); le_bytes 2 (e_shentsize h); le_bytes 2 (e_shnum h); le_bytes 2 (e_shstrndx h)].

Definition half (z : Z) : Prop := 0 <= z < 65536.

Record ehdr_ok (h : Elf32_Ehdr) : Prop := {
  eo_ident : length (e_ident h) = 16%nat;
  eo_halves : Forall half [e_type h; e_machine h; e_ehsize h; e_phentsize h; e_phnum h; e_shentsize h; e_shnum h; e_shstrndx h];
  eo_words : Forall word [e_version h; e_entry h; e_phoff h; e_shoff h; e_flags h];
}.

Definition phdr_words (h : Elf32_Phdr) : list Z :=
  [p_type h; p_offset h; p_vaddr h; p_paddr h; p_filesz h; p_memsz h; p_flags h; p_align h].
Definition phdr_bytes (h : Elf32_Phdr) : list Z := mjoin (le_bytes 4 <$> phdr_words h).

Lemma le_at_skip l rest i n : (length l <= i)%nat -> le_at (l ++ rest) i n = le_at rest (i - length l) n.
Proof. intros Hi. unfold le_at. by rewrite skipn_app, skipn_all2 by done. Qed.

Lemma le_at_first n v rest : 0 <= v < 256 ^ Z.of_nat n -> le_at (le_bytes n v ++ rest) 0 n = v.
Proof. apply (le_at_here [] n v rest 0 eq_refl). Qed.

(** Skip the fields before the one at this offset, and read it. *)
Ltac read_field :=
  repeat (rewrite le_at_skip by (rewrite ?le_bytes_length; lia); rewrite ?le_bytes_length; cbn [Nat.sub]);
  apply le_at_first; unfold word, half in *; cbn; lia.

Lemma phdr_bytes_length h : length (phdr_bytes h) = 32%nat.
Proof. reflexivity. Qed.

Lemma phdr_here h rest : Forall word (phdr_words h) -> phdr_of (phdr_bytes h ++ rest) 0 = h.
Proof.
  intros Hw. destruct h as [a b c d e f g i]. unfold phdr_words in Hw. cbn in Hw.
  repeat match goal with H : Forall _ (_ :: _) |- _ => apply Forall_cons in H as [? H] end.
  unfold phdr_of, phdr_bytes, phdr_words. cbn [p_type p_offset p_vaddr p_paddr p_filesz p_memsz p_flags p_align fmap list_fmap mjoin list_join].
  cbn [Nat.mul Nat.add]. rewrite !app_nil_r, <- !app_assoc. f_equal; read_field.
Qed.

(** The [i]-th entry of a table of program headers. *)
Lemma phdr_table phs : forall rest i h, Forall (fun h => Forall word (phdr_words h)) phs -> phs !! i = Some h ->
  phdr_of (mjoin (phdr_bytes <$> phs) ++ rest) i = h.
Proof.
  induction phs as [|h0 phs IH]; intros rest i h Hw Hi; [done|]. apply Forall_cons in Hw as [Hw0 Hw].
  cbn [fmap list_fmap mjoin list_join]. rewrite <- app_assoc. destruct i as [|i].
  - injection Hi as <-. by apply phdr_here.
  - transitivity (phdr_of (mjoin (phdr_bytes <$> phs) ++ rest) i); [|by apply IH].
    unfold phdr_of. f_equal; rewrite le_at_skip by (rewrite phdr_bytes_length; lia);
      rewrite phdr_bytes_length; f_equal; lia.
Qed.

Lemma ehdr_here h rest : ehdr_ok h -> ehdr_of (ehdr_bytes h ++ rest) = h.
Proof.
  intros [Hi Hh Hw]. destruct h as [ident a b c d e f g i j k l m n]. cbn in Hi, Hh, Hw.
  repeat match goal with H : Forall _ (_ :: _) |- _ => apply Forall_cons in H as [? H] end.
  unfold ehdr_of, ehdr_bytes. cbn [e_ident e_type e_machine e_version e_entry e_phoff e_shoff e_flags e_ehsize e_phentsize
    e_phnum e_shentsize e_shnum e_shstrndx mjoin list_join]. rewrite !app_nil_r, <- !app_assoc.
  f_equal; [rewrite take_app_le by (unfold ELF_NIDENT; lia); apply firstn_all2; unfold ELF_NIDENT; lia|..];
    rewrite (le_at_skip ident) by lia; rewrite Hi; cbn [Nat.sub]; read_field.
Qed.

(** ** Properties *)

(** C38: the loader reads an ELF header and the table of program headers as
    the format lays them out: decoding the little-endian bytes of any header
    and of any table gives back the header and every entry, whatever follows
    them, and a file is taken for an ELF file exactly when its first four
    bytes are the magic number. *)
Theorem elf_headers_roundtrip h phs rest :
  ehdr_ok h -> Forall (fun p => Forall word (phdr_words p)) phs ->
  ehdr_of (ehdr_bytes h ++ rest) = h /\
  phdr_of (mjoin (phdr_bytes <$> phs) ++ rest) <$> seq 0 (length phs) = phs /\
  (_is_elf_file h = true <-> take 4 (e_ident h) = [0x7f; 69; 76; 70]).
Proof.
  intros Hh Hp. split; [by apply ehdr_here|]. split.
  - apply list_eq. intros i. rewrite list_lookup_fmap. destruct (phs !! i) as [p|] eqn:E.
    + rewrite lookup_seq_lt by (by eapply lookup_lt_Some). cbn. f_equal. by apply phdr_table.
    + apply lookup_ge_None in E. by rewrite lookup_seq_ge.
  - pose proof (eo_ident _ Hh) as Hlen. unfold _is_elf_file, ident_is, ELFMAG0, ELFMAG1, ELFMAG2, ELFMAG3.
    destruct (e_ident h) as [|a [|b [|c [|d l]]]]; try discriminate Hlen. cbn [lookup list_lookup take].
    destruct (Z.eqb_spec a 0x7f), (Z.eqb_spec b 69), (Z.eqb_spec c 76), (Z.eqb_spec d 70); cbn [negb];
      split; intros Heq; try discriminate Heq; try (injection Heq as ? ? ? ?; contradiction); subst; reflexivity.
Qed.

Lemma elf_headers_roundtrip_witness :
  let h := mkEhdr ([0x7f; 69; 76; 70] ++ replicate 12 1) 2 3 1 0x8048080 52 0 0 52 32 2 0 0 0 in
  let p := mkPhdr 1 0 0x8048000 0x8048000 300 4096 6 4096 in
  ehdr_of (ehdr_bytes h ++ [9; 9]) = h /\ _is_elf_file h = true /\ phdr_of (phdr_bytes p ++ phdr_bytes p ++ []) 1 = p.
Proof.
  intros h p.
  assert (Hh : ehdr_ok h) by (split; [reflexivity|repeat constructor; unfold half; cbn; lia|repeat constructor; unfold word; cbn; lia]).
  assert (Hp : Forall (fun p => Forall word (phdr_words p)) [p; p]) by (repeat constructor; unfold word; cbn; lia).
  destruct (elf_headers_roundtrip h [p; p] [9; 9] Hh Hp) as (H1 & _ & H2).
  destruct (elf_headers_roundtrip h [p; p] [] Hh Hp) as (_ & H3 & _).
  split; [exact H1|]. split; [by apply H2|]. exact (f_equal (fun l => default p (l !! 1%nat)) H3).
Defined.

(** The alignment of the end of a segment: the least multiple at or above
    the address, unless it wraps; an alignment of 0, which the format allows,
    divides by 0. *)
Lemma align_vaddr_spec v a : word v -> 0 < a -> v + a < W32 ->
  exists r, _align_vaddr v a = Some r /\ r mod a = 0 /\ v <= r < v + a.
Proof.
  intros Hv Ha Hw. unfold _align_vaddr. destruct (Z.eqb_spec a 0); [lia|]. eexists. split; [reflexivity|].
  assert (0 <= v mod a < a) by (apply Z.mod_pos_bound; lia). unfold word in Hv.
  pose proof (Z.mod_le v a ltac:(lia) ltac:(lia)).
  destruct (Z.eqb_spec (v mod a) 0) as [E|E]; cbn [negb]; [split; [done|lia]|].
  rewrite (w32_small (v - v mod a)), w32_small by lia. split; [|lia].
  rewrite <- Z.add_mod_idemp_r, Z.mod_same, Z.add_0_r by lia. apply Z.mod_divide; [lia|].
  exists (v / a). rewrite (Z.mod_eq v a) by lia. ring.
Qed.

Lemma align_vaddr_zero v : _align_vaddr v 0 = None.
Proof. reflexivity. Qed.

(** The stack pointer is a multiple of 4 afterwards only if it was even. *)
Lemma align_stack_even sp : 4 <= sp < W32 - 4 -> align_stack sp mod 4 = 0 <-> sp mod 2 = 0.
Proof.
  intros Hsp. unfold align_stack. destruct (Z.eqb_spec (sp mod 4) 0) as [E|E]; cbn [negb].
  - split; intros _; Z.div_mod_to_equations; lia.
  - assert (0 <= sp mod 4 < 4) by (apply Z.mod_pos_bound; lia).
    rewrite (w32_small (sp + sp mod 4)), w32_small by lia. Z.div_mod_to_equations. lia.
Qed.

(** C17: a program is replaced as a whole or not at all.  [do_execve] answers
    0 or -1; when it answers -1, for whatever reason, no task has changed,
    the caller's address space, descriptors, signals and registers included.
    A path without a file fails with ENOENT. *)
Theorem failed_execve_keeps_tasks {H} `{!Allocator H} stack_bytes raw_word kern_pd_vaddr n t path argv (k : kernel H) :
  (forall r k', do_execve stack_bytes raw_word kern_pd_vaddr n t path argv k = Ok (Returns r, k') ->
     r = 0 \/ (r = -1 /\ k_sched k' = k_sched k)) /\
  (forall parent f', namei_path_to_vfs_node 0 path stack_bytes (k_fs k) = Ok ((0, parent), f') ->
     do_execve stack_bytes raw_word kern_pd_vaddr n t path argv k =
       Ok (Returns (-1), set_vmm (set_errno ENOENT (k_vmm k)) (set_fs f' k))).
Proof.
  split; [by apply do_execve_keeps|]. intros parent f' E. unfold do_execve.
  erewrite bind_ok by (unfold on_fs, zoom; rewrite E; reflexivity). reflexivity.
Qed.

#[local] Instance exec_allocator : Allocator malloc_state := kmalloc_allocator 0xc0400000 demo_raw demo_bytes.

(** There is no [/bin] on an empty root. *)
Lemma failed_execve_keeps_tasks_witness :
  exists k', do_execve (replicate 128 7) 0 0 5 0x10 (path_of [n_bin; n_sh] false) [] (demo_kernel root_fs) = Ok (Returns (-1), k') /\
    k_sched k' = k_sched (demo_kernel root_fs) /\ v_errno (k_vmm k') = ENOENT.
Proof.
  destruct (failed_execve_keeps_tasks (replicate 128 7) 0 0 5 0x10 (path_of [n_bin; n_sh] false) [] (demo_kernel root_fs)) as [Hs Hf].
  specialize (Hf (Some 0) root_fs ltac:(vm_compute; reflexivity)).
  eexists. split; [exact Hf|]. split; [|reflexivity].
  destruct (Hs _ _ Hf) as [?|[_ E]]; [discriminate|exact E].
Defined.
