(* ===== verification/ReadSpec.v ===== *)
(** * Correctness of reading a file

    The transfer loop of the drivers, over the page tables ([MmuSpec.v]): a
    read of a file of the initial ram disk puts its bytes at the buffer and
    changes nothing else. *)

From S2P Require Import Prelude Dlist Pmm Kmalloc Heap Paging MmuSpec Vmm Vmalloc Klib Terminal Namei Sched Kernel Vfs Files FilesSpec.

#[local] Open Scope Z_scope.

(** ** The transfer loop *)

Section copy.
Context {H : Type} `{!Allocator H}.
Local Notation K := (K (H := H)).

(** The kernel with the machine [m]. *)
Definition with_mach (m : machine) (k : kernel H) : kernel H := set_vmm (set_mach m (k_vmm k)) k.

Lemma with_mach_id k : with_mach (v_mach (k_vmm k)) k = k.
Proof. destruct k as [[]]. done. Qed.

Lemma memory_ok {A} (o : M machine A) m k a m' : o m = Ok (a, m') -> memory o (with_mach m k) = Ok (a, with_mach m' k).
Proof. intros E. unfold memory, on_vm, on_mach, zoom, with_mach. cbn. by rewrite E. Qed.

Context (mc : machine) (k : kernel H) (src dst count : Z) (ps pd_ : Z -> Z).
Hypothesis Hsep : separate mc src dst count ps pd_.

Lemma copy_loop_wp file_size offset size : word size -> v_mach (k_vmm k) = mc ->
  count = Z.min size (file_size -w offset) ->
  wp (copy_loop file_size offset size src dst) (fun r k' =>
    r = count /\ exists m, copied mc ps pd_ count m /\ k' = with_mach m k) k.
Proof.
  intros Hsz Hmc Hcount. unfold copy_loop. pose proof (w32_word (file_size - offset)) as Hrest.
  set (rest := file_size -w offset) in *.
  apply (wp_loop _ (fun n k' => 0 <= n <= count /\ exists m, copied mc ps pd_ n m /\ k' = with_mach m k)
                   (fun n _ => Z.to_nat (size - n))).
  - intros n k' (Hn & m & Hm & ->). unfold word in *.
    rewrite (w32_small (rest - n)) by lia.
    destruct (Z.ltb_spec n size), (Z.ltb_spec 0 (rest - n)); cbn [andb];
      try (apply wp_ret; replace count with n by lia; split; [lia|by exists m]).
    destruct (copy_byte mc src dst count ps pd_ Hsep n m Hm ltac:(lia)) as (m' & E1 & E2 & Hm').
    apply wp_bind. eapply wp_intro; [apply memory_ok, E1|].
    apply wp_bind. eapply wp_intro; [apply memory_ok, E2|].
    apply wp_ret. split; [split; [lia|by exists m']|lia].
  - split; [unfold word in *; lia|]. exists mc. split; [|by rewrite <- Hmc, with_mach_id].
    split; try done. intros i Hi. lia.
  - unfold word in *. lia.
Qed.
End copy.

(** C18: reading [size] bytes at [offset] of a file of the initial ram disk
    answers the smaller of [size] and the rest of the file, puts exactly
    those bytes of the archive at the buffer, and changes no other word of
    memory and nothing else in the kernel but [errno], which is EIO when
    nothing was read.  The rest of the file is computed modulo 2^32, so an
    offset past the end reads on behind the file. *)
Theorem tarfs_read_copies {H : Type} `{!Allocator H} (k : kernel H) nd v vaddr hdr offset size buffer ps pd_ :
  let rest := vn_size v -w offset in
  let count := Z.min size rest in
  let mc := v_mach (k_vmm k) in
  nd <> 0 -> nodes (k_fs k) !! nd = Some v -> inodes (k_fs k) !! vn_data v = Some (TarInode vaddr hdr) ->
  word size -> separate mc (vaddr +w offset) buffer count ps pd_ ->
  wp (tarfs_read nd offset size buffer) (fun r k' =>
    r = count /\ exists m, copied mc ps pd_ count m /\
    k' = set_vmm (set_errno (if count =? 0 then EIO else v_errno (k_vmm k)) (set_mach m (k_vmm k))) k) k.
Proof.
  intros rest count mc Hnd Hv Hi Hsz Hsep. unfold tarfs_read.
  apply wp_bind. eapply wp_intro; [by apply node_ok|]. wpsteps. rewrite Hi.
  apply wp_bind. eapply wp_mono; [by eapply copy_loop_wp|].
  intros r k' (-> & m & Hm & ->). apply wp_bind.
  destruct (Z.eqb_spec count 0) as [E|E].
  - eapply wp_intro; [reflexivity|]. apply wp_ret. split; [done|]. exists m. by split.
  - apply wp_ret, wp_ret. split; [done|]. exists m. split; [done|]. by destruct k as [[]].
Qed.

(** ** A file of six bytes at 0x5000, and a buffer at 0x6000 *)

#[local] Instance read_allocator : Allocator malloc_state := kmalloc_allocator 0xc0400000 demo_raw demo_bytes.

Definition file_machine : machine :=
  mkMachine demo_pmm 0x1000 (list_to_map
    [(1024, 0x2003); (1024 + 1023, 0x1003); (2 * 1024 + 5, 0x9003); (2 * 1024 + 6, 0xa003);
     (9 * 1024, 0x44434241); (9 * 1024 + 1, 0x4645)]).

Definition tar_file : vnode :=
  mkVnode [102; 0] (Some VFS_FILE) 0 6 0 (mkOps (Some Tarfs) (Some Tarfs) (Some Tarfs) None None None None None None)
    root_block.1 0 0 0 0 0x900.

Definition tar_fs : fsys :=
  mkFsys {[ 0x40 := tar_file ]} {[ 0x900 := TarInode 0x5000 0x4e00 ]} root_block.1 0 0 0 0.

Definition tar_kernel : kernel malloc_state := with_mach file_machine (demo_kernel tar_fs).

Lemma four i : 0 <= i < 4 -> i ∈ [0; 1; 2; 3].
Proof. intros Hi. rewrite !elem_of_cons. lia. Qed.

Lemma all_four (P : Z -> Prop) : Forall P [0; 1; 2; 3] -> forall i, 0 <= i < 4 -> P i.
Proof. rewrite Forall_forall. intros HP i Hi. by apply HP, four. Qed.

Lemma file_separate : separate file_machine 0x5002 0x6000 4 (fun i => 0x9002 + i) (fun i => 0xa000 + i).
Proof.
  split.
  - apply all_four. repeat constructor.
  - apply all_four. repeat constructor.
  - intros i j _ _ E. lia.
  - intros i j Hi Hj E. Z.div_mod_to_equations. lia.
  - intros i j Hi Hj.
    assert (E : (0xa000 + i) / 4 = 10240) by (Z.div_mod_to_equations; lia). rewrite E. revert j Hj.
    apply all_four. repeat constructor; apply (bool_decide_unpack _); vm_compute; exact I.
Qed.

(** The last four bytes of the file, and the end of the file. *)
Lemma tarfs_read_copies_witness : exists m k',
  tarfs_read 0x40 2 8 0x6000 tar_kernel = Ok (4, with_mach m tar_kernel) /\
  phys_byte (ram m) 0xa001 = 68 /\
  tarfs_read 0x40 6 8 0x6000 tar_kernel = Ok (0, k') /\ v_errno (k_vmm k') = EIO.
Proof.
  pose proof (tarfs_read_copies tar_kernel 0x40 tar_file 0x5000 0x4e00 2 8 0x6000 _ _ ltac:(lia) eq_refl eq_refl
    ltac:(unfold word; lia) file_separate) as H1.
  apply wp_run in H1 as (r & k1 & E1 & -> & m & Hm & ->).
  assert (Hnone : separate file_machine (0x5000 +w 6) 0x6000 0 (fun i => i) (fun i => i)) by (split; intros; lia).
  pose proof (tarfs_read_copies tar_kernel 0x40 tar_file 0x5000 0x4e00 6 8 0x6000 _ _ ltac:(lia) eq_refl eq_refl
    ltac:(unfold word; lia) Hnone) as H2.
  apply wp_run in H2 as (r & k2 & E2 & -> & m2 & _ & ->).
  exists m. eexists. split; [rewrite E1; reflexivity|]. split; [|split; [exact E2|reflexivity]].
  transitivity (phys_byte (ram file_machine) 0x9003); [exact (cp_bytes _ _ _ _ _ Hm 1 ltac:(vm_compute; split; [discriminate|reflexivity]))|reflexivity].
Defined.
