(* ===== verification/RamfsSpec.v ===== *)
(** * Correctness of the files of ramfs

    A file of ramfs is one frame, reached through a page of the vmalloc area
    that is mapped for the time of a transfer.  [area_ok] ([AreaSpec.v]) says
    that the area can give such a page, [window] that it did; what is written through one
    window is read back through the next. *)

From S2P Require Import Prelude Dlist Pmm Kmalloc Heap Paging MmuSpec Vmm Vmalloc VmallocSpec AreaSpec Klib Terminal Namei Sched Kernel Vfs Files FilesSpec ReadSpec.

#[local] Open Scope Z_scope.

(** ** A page of the vmalloc area as a window on a frame *)

Section window.
Context {H : Type} `{!Allocator H}.
Implicit Types (s : vma H).

(** Outside the vmalloc area [s] translates what [s0] does, and its ranges are those of [s0]. *)
Record area_like s0 (l : list Z) s : Prop := {
  ak_regs : Paging.cr3 (va_mach s) = Paging.cr3 (va_mach s0) /\ m_pmm (va_mach s) = m_pmm (va_mach s0);
  ak_pde : forall i, 0 <= i < 1024 -> pde (ram (va_mach s)) (dir_of s0) i = pde (ram (va_mach s0)) (dir_of s0) i;
  ak_walk : forall v, word v -> pd_idx v < 1022 -> ~ VM_VMALLOC_START <= v < VM_VMALLOC_END ->
    walk_dir (ram (va_mach s)) (dir_of s0) v = walk_dir (ram (va_mach s0)) (dir_of s0) v;
  ak_hg : forall q, q ∈ l -> hg (va_regs s) q = hg (va_regs s0) q;
}.

(** In [s] the page at [a] shows the frame [f]; apart from it the state is
    that of [s0], with room for [n] bytes. *)
Record window s0 (l : list Z) (A : gmap Z Z) (n a f : Z) s : Prop := {
  wi_page : (0x1000 | a) /\ VM_VMALLOC_START <= a /\ a + 4096 <= VM_VMALLOC_END;
  wi_range : exists l1 p l2 z, l = l1 ++ l2 /\ p ∉ l /\ va_list s (l1 ++ p :: l2) /\
    (forall q, hg (va_regs s) q = if decide (q = p) then Some (a, 4096, ON_DEMAND) else hg (va_regs s0) q) /\
    A !! p = None /\ al_rep (va_heap s) (<[p := z]> A);
  wi_room : al_room (va_heap s) n;
  wi_regs : Paging.cr3 (va_mach s) = Paging.cr3 (va_mach s0) /\ m_pmm (va_mach s) = m_pmm (va_mach s0);
  wi_dir : dir_ok (ram (va_mach s)) (dir_of s0);
  wi_pde : forall i, 0 <= i < 1024 -> pde (ram (va_mach s)) (dir_of s0) i = pde (ram (va_mach s0)) (dir_of s0) i;
  wi_shows : forall j, 0 <= j < 4096 -> walk_dir (ram (va_mach s)) (dir_of s0) (a + j) = Some (f + j);
  wi_walk : forall v, word v -> pd_idx v < 1022 -> v / 4096 <> a / 4096 ->
    walk_dir (ram (va_mach s)) (dir_of s0) v = walk_dir (ram (va_mach s0)) (dir_of s0) v;
}.

Lemma window_opens s l A n f flags : area_ok s l A (n + 58) -> 0 <= n < 2 ^ 20 -> ~ no_hole s l 4096 ->
  word f -> 0 <= flags < 4096 -> present flags = true ->
  exists a s1 m, vmalloc 4096 ON_DEMAND s = Ok (a, s1) /\ pg_map f a flags (va_mach s1) = Ok (tt, m) /\
    window s l A n a (frame_of f) (set_va_mach m s1) /\
    forall q, ~ table_word (ram (va_mach s)) (dir_of s) q -> ram m !! q = ram (va_mach s) !! q.
Proof.
  intros Ha Hn Hno Hf Hfl Hpf. destruct (page_found s l A _ Ha Hno) as (a & prev & Ef & Ha0 & Hpg & Ha1 & Ha2).
  destruct (area_page a) as [Haw Halt]; [lia|]. pose proof (ao_dir _ _ _ _ Ha) as Hdir.
  pose proof (ao_tables _ _ _ _ Ha a ltac:(lia)) as Htab.
  destruct (pg_map_remaps (va_mach s) 0 a VMALLOC_RW Hdir Haw Halt Htab ltac:(done) ltac:(done))
    as (m1 & w1 & E1 & Em1 & R1 & _ & _).
  assert (Hmap : vmalloc_map ON_DEMAND a (page_align 4096) (va_mach s) = Ok (tt, m1)).
  { cbn. unfold vmm_void_map. change (Z.to_nat (_SIZE_TO_FRAMES (page_align 4096))) with 1%nat. cbn [for_].
    change (0 *w FRAME_SIZE) with 0. rewrite Z.add_0_r, w32_id by done. by rewrite (bind_ok _ _ _ _ _ E1). }
  destruct (vmalloc_run s l A 4096 ON_DEMAND a prev m1 (ao_list _ _ _ _ Ha) (ao_ne _ _ _ _ Ha) (ao_own _ _ _ _ Ha)
    (ao_rep _ _ _ _ Ha)) as (s1 & l1 & p & l2 & z & E & El & Hpl & Hh & _ & _ & Hl & Hm & Eal & Hrep & Hhg); try done.
  { eapply al_room_down; [| | |apply (ao_room _ _ _ _ Ha)]; unfold SIZEOF_REGION_HDR; lia. }
  assert (Hcr : Paging.cr3 m1 = Paging.cr3 (va_mach s)) by (by rewrite Em1). unfold dir_of in *.
  destruct (pg_map_remaps m1 f a flags) as (m & w & E2 & Em & R2 & Hw & Hpw); rewrite ?Hcr; try done.
  { apply R1. } { rewrite (re_pde _ _ _ _ _ R1) by (destruct (slot_range a Haw); lia). done. }
  rewrite Hcr in R2. exists a, s1, m. rewrite Hm. split; [done|]. split; [done|].
  assert (Hpde : forall i, 0 <= i < 1024 -> pde (ram m) (frame_of (Paging.cr3 (va_mach s))) i =
    pde (ram (va_mach s)) (frame_of (Paging.cr3 (va_mach s))) i).
  { intros i Hi. by rewrite (re_pde _ _ _ _ _ R2), (re_pde _ _ _ _ _ R1). }
  destruct (malloc_answer (va_heap s) A SIZEOF_REGION_HDR n p (va_heap s1)) as [HpA Hroom']; try done.
  { apply Ha. } { lia. } { unfold SIZEOF_REGION_HDR. lia. }
  { replace (SIZEOF_REGION_HDR + n + 38) with (n + 58) by (unfold SIZEOF_REGION_HDR; lia). apply Ha. }
  split; [split|].
  - done.
  - exists l1, p, l2, z. split_and!; try done. by apply (va_list_ext s1).
  - done.
  - cbn. by rewrite Em, Em1.
  - unfold dir_of. apply R2.
  - exact Hpde.
  - intros j Hj. destruct (same_page a j Hpg Hj) as [E3 E4]. destruct (area_page (a + j)) as [Hw' Hlt']; [lia|].
    cbn. rewrite (re_walk _ _ _ _ _ R2) by done. rewrite decide_True by done. by rewrite Hpw, Hpf, Hw, E4.
  - intros v Hv Hlt Hne. cbn. unfold dir_of. rewrite (re_walk _ _ _ _ _ R2), decide_False by done.
    by rewrite (re_walk _ _ _ _ _ R1), decide_False by done.
  - intros q Hq. rewrite (re_data _ _ _ _ _ R2); [by apply R1|]. intros Ht. apply Hq.
    eapply all_slots_words; [apply R1|exact Ht].
Qed.

Lemma off_page a v : (0x1000 | a) -> VM_VMALLOC_START <= a -> a + 4096 <= VM_VMALLOC_END ->
  ~ VM_VMALLOC_START <= v < VM_VMALLOC_END -> v / 4096 <> a / 4096.
Proof. intros [b ->] H1 H2 Hv E. apply Hv. Z.div_mod_to_equations. lia. Qed.

Lemma window_closes s0 l A n0 n a f s : area_ok s0 l A n0 -> window s0 l A n a f s ->
  exists r m s', pg_unmap a (va_mach s) = Ok (r, m) /\ vfree a (set_va_mach m s) = Ok (tt, s') /\
    area_ok s' l A n /\ area_like s0 l s' /\
    forall q, ~ table_word (ram (va_mach s0)) (dir_of s0) q -> ram (va_mach s') !! q = ram (va_mach s) !! q.
Proof.
  intros Ha [(Hpg & Ha1 & Ha2) (l1 & p & l2 & z & El & Hpl & Hl & Hhg & HpA & Hrep) Hroom [Hcr Hpm] Hdir Hpde Hshow Hwalk].
  destruct (area_page a) as [Haw Halt]; [lia|].
  assert (Ed : frame_of (Paging.cr3 (va_mach s)) = dir_of s0) by (unfold dir_of; by rewrite Hcr).
  destruct (page_unmapped (va_mach s) a) as (r & m1 & Er & Eun & Em1 & R1); rewrite ?Ed; try done.
  { rewrite Hpde by (destruct (slot_range a Haw); lia). apply (ao_tables _ _ _ _ Ha). lia. }
  { pose proof (Hshow 0 ltac:(lia)) as E0. rewrite Z.add_0_r in E0. by rewrite E0. }
  rewrite Ed in R1. assert (Ec1 : Paging.cr3 m1 = Paging.cr3 (va_mach s0)) by (by rewrite Em1).
  assert (Hp : hg (va_regs s) p = Some (a, 4096, ON_DEMAND)) by (by rewrite Hhg, decide_True).
  destruct (hg_lookup _ _ _ _ _ Hp) as (h & Eh & Ev & Es & Et).
  destruct (vfree_run (set_va_mach m1 s) l1 p l2 h (<[p := z]> A) z m1) as (s' & E & Hl' & Hd & Hm & Efr & Hrep' & Hhg');
    try done.
  { by apply (va_list_ext s). } { by apply lookup_insert_eq. } { by rewrite Ev, Es, Et. }
  rewrite Ev in E. rewrite delete_insert_id in Hrep' by done. exists r, m1, s'. split; [done|]. split; [done|].
  assert (Hd' : forall i, 0 <= i < 1024 -> pde (ram m1) (dir_of s0) i = pde (ram (va_mach s0)) (dir_of s0) i).
  { intros i Hi. by rewrite (re_pde _ _ _ _ _ R1), Hpde. }
  assert (Ed' : dir_of s' = dir_of s0) by (unfold dir_of at 1; by rewrite Hm, Ec1).
  assert (Hsame : forall q, q <> p -> hg (va_regs s') q = hg (va_regs s0) q)
    by (intros q Hq; rewrite Hhg' by done; cbn; by rewrite Hhg, decide_False).
  split; [split; rewrite ?Ed', ?Hm|split; [split; rewrite ?Hm|]].
  - by rewrite El.
  - apply Ha.
  - apply Ha.
  - done.
  - destruct (wp_run _ _ _ (al_free_room _ _ p z n Hrep (lookup_insert_eq _ _ _) Hroom)) as (u & h' & E' & Hr).
    cbn in Efr. rewrite Efr in E'. by injection E' as <- <-.
  - intros q v zq t Hq. apply (ao_pages _ _ _ _ Ha q v zq t). rewrite <- Hsame; [done|].
    intros ->. unfold hg in Hq. by rewrite Hd in Hq.
  - apply R1.
  - intros v Hv. rewrite Hd' by (destruct (area_page v Hv) as [Hw _], (slot_range v Hw); lia). by apply (ao_tables _ _ _ _ Ha).
  - by rewrite Em1.
  - done.
  - intros v Hv Hlt Hout. pose proof (off_page a v Hpg Ha1 Ha2 Hout).
    by rewrite (re_walk _ _ _ _ _ R1), decide_False, Hwalk by done.
  - intros q Hq. apply Hsame. by intros ->.
  - intros q Hq. rewrite Hm. apply R1. intros Ht. apply Hq. exact (all_slots_words _ _ _ _ Hpde Ht).
Qed.

(** The window outlives stores that touch no table. *)
Lemma window_kept s0 l A n a f s m : window s0 l A n a f s -> words_ok (ram m) ->
  Paging.cr3 m = Paging.cr3 (va_mach s) -> m_pmm m = m_pmm (va_mach s) ->
  (forall q, table_word (ram (va_mach s)) (dir_of s0) q -> ram m !! q = ram (va_mach s) !! q) ->
  window s0 l A n a f (set_va_mach m s).
Proof.
  intros W Hw Hcr Hpm Hq. pose proof (wi_dir _ _ _ _ _ _ _ W) as Hd. destruct (wi_regs _ _ _ _ _ _ _ W) as [Hcr0 Hpm0].
  destruct (wi_page _ _ _ _ _ _ _ W) as (Hpg & Ha1 & Ha2). split; cbn [va_mach set_va_mach va_regs va_heap].
  - apply W.
  - destruct (wi_range _ _ _ _ _ _ _ W) as (l1 & p & l2 & z & ? & ? & ? & ? & ? & ?).
    exists l1, p, l2, z. split_and!; try done. by apply (va_list_ext s).
  - apply W.
  - by rewrite Hcr, Hpm.
  - by apply (tables_ok _ _ Hd).
  - intros i Hi. by rewrite (tables_pde _ _ Hd), (wi_pde _ _ _ _ _ _ _ W).
  - intros j Hj. destruct (area_page (a + j)) as [Hv Hlt]; [lia|].
    rewrite (tables_walk _ _ Hd) by done. by apply (wi_shows _ _ _ _ _ _ _ W).
  - intros v Hv Hlt Hne. rewrite (tables_walk _ _ Hd) by done. by apply (wi_walk _ _ _ _ _ _ _ W).
Qed.

Lemma area_like_trans s0 s1 s2 l : area_like s0 l s1 -> area_like s1 l s2 -> area_like s0 l s2.
Proof.
  intros [[Hc1 Hp1] Hd1 Hw1 Hh1] [[Hc2 Hp2] Hd2 Hw2 Hh2].
  assert (Ed : dir_of s1 = dir_of s0) by (unfold dir_of; by rewrite Hc1). rewrite Ed in *. split.
  - by rewrite Hc2, Hp2.
  - intros i Hi. by rewrite Hd2, Hd1.
  - intros v Hv Hlt Hout. by rewrite Hw2, Hw1.
  - intros q Hq. by rewrite Hh2, Hh1.
Qed.

(** The holes depend on the ranges only. *)
Lemma area_like_holes s0 l s sz : area_like s0 l s -> ~ no_hole s0 l sz -> ~ no_hole s l sz.
Proof.
  intros Hk Hno Hn. apply Hno. intros l1 l2 v El (? & ? & H1 & H2). apply (Hn l1 l2 v El). split_and!; [done|done| |].
  - intros q Hq. destruct (hg_ranges (va_regs s0) (va_regs s) q) as [_ ->]; [apply Hk; rewrite El; in_tac|by apply H1].
  - intros q Hq. destruct (hg_ranges (va_regs s0) (va_regs s) q) as [-> _]; [apply Hk; rewrite El; in_tac|by apply H2].
Qed.

(** ** A transfer through the window *)

Lemma get_put s (k : kernel H) : get_vma (put_vma s k) = s.
Proof. by destruct s. Qed.

Lemma put_get (k : kernel H) : put_vma (get_vma k) k = k.
Proof. by destruct k as [[]]. Qed.

Lemma on_vma_put {B} (o : va B) s s' b (k : kernel H) : o s = Ok (b, s') -> on_vma o (put_vma s k) = Ok (b, put_vma s' k).
Proof. intros E. unfold on_vma, zoom. rewrite get_put, E. done. Qed.

Lemma memory_put {B} (o : M machine B) s m b (k : kernel H) : o (va_mach s) = Ok (b, m) ->
  memory o (put_vma s k) = Ok (b, put_vma (set_va_mach m s) k).
Proof. intros E. unfold memory, on_vm, on_mach, zoom. cbn. by rewrite E. Qed.

Lemma with_file_mapped_wp (k : kernel H) l A n f v paddr flags body (Q : Z -> gmap Z Z -> gmap Z Z -> Prop) :
  let s := get_vma k in
  area_ok s l A (n + 58) -> 0 <= n < 2 ^ 20 -> ~ no_hole s l 4096 -> f <> 0 -> nodes (k_fs k) !! f = Some v ->
  inodes (k_fs k) !! vn_data v = Some (RamInode paddr) -> word paddr -> 0 <= flags < 4096 -> present flags = true ->
  (forall a s2, window s l A n a (frame_of paddr) s2 -> wp (body v a) (fun r k' => exists m,
     k' = put_vma (set_va_mach m s2) k /\ r <> 0 /\ data_only (dir_of s) (va_mach s2) m /\ Q r (ram (va_mach s2)) (ram m))
     (put_vma s2 k)) ->
  wp (with_file_mapped f flags body) (fun r k' => exists s' m2 m, k' = put_vma s' k /\ area_ok s' l A n /\ area_like s l s' /\
    (forall q, ~ table_word (ram (va_mach s)) (dir_of s) q -> m2 !! q = ram (va_mach s) !! q /\ ram (va_mach s') !! q = m !! q) /\
    Q r m2 m) k.
Proof.
  intros s Ha Hn Hno Hf0 Hv Hi Hp Hfl Hpf Hbody. unfold with_file_mapped.
  destruct (window_opens s l A n paddr flags Ha Hn Hno Hp Hfl Hpf) as (a & s1 & m1 & E1 & E2 & W & Hd1).
  apply wp_bind. eapply wp_intro; [by apply node_ok|].
  apply wp_bind. eapply wp_intro; [unfold ram_paddr; by rewrite Hi|].
  apply wp_bind. rewrite <- (put_get k) at 1. eapply wp_intro; [by apply on_vma_put|].
  apply wp_bind. eapply wp_intro; [by apply memory_put|].
  apply wp_bind. eapply wp_mono; [apply Hbody, W|].
  intros r k' (m & -> & Hr & Hdo & HQ). set (s2 := set_va_mach m1 s1) in *.
  pose proof (window_kept _ _ _ _ _ _ _ m W (do_words _ _ _ Hdo) (proj1 (do_regs _ _ _ Hdo)) (proj2 (do_regs _ _ _ Hdo))
    (do_tables _ _ _ Hdo)) as W'.
  destruct (window_closes s l A _ n a _ _ Ha W') as (u & m3 & s' & E3 & E4 & Ha' & Hk & Hd3).
  apply wp_bind, wp_bind. eapply wp_intro; [by apply memory_put|]. apply wp_ret.
  apply wp_bind. eapply wp_intro; [by apply on_vma_put|].
  rewrite (proj2 (Z.eqb_neq r 0)) by done. apply wp_bind, wp_ret, wp_ret.
  exists s', (ram (va_mach s2)), (ram m). split_and!; try done. intros q Hq. split; [by apply Hd1|by apply Hd3].
Qed.

(** [cnt] bytes at [b] are mapped outside the vmalloc area, at the physical
    addresses [pb], which belong to no page table and not to the frame [f]. *)
Record buffer_at s (f cnt b : Z) (pb : Z -> Z) : Prop := {
  ub_walk : forall i, 0 <= i < cnt -> walk_dir (ram (va_mach s)) (dir_of s) (b +w i) = Some (pb i);
  ub_virt : forall i, 0 <= i < cnt -> pd_idx (b +w i) < 1022 /\ ~ VM_VMALLOC_START <= b +w i < VM_VMALLOC_END;
  ub_phys : forall i, 0 <= i < cnt -> ~ table_word (ram (va_mach s)) (dir_of s) (pb i / 4);
  ub_apart : forall i, 0 <= i < cnt -> ~ f <= pb i < f + 4096;
}.

(** The frame [f] holds data. *)
Definition data_frame s (f : Z) : Prop := (0x1000 | f) /\ word f /\
  forall q, f <= 4 * q < f + 4096 -> ~ table_word (ram (va_mach s)) (dir_of s) q.

Lemma buffer_like s l s' f cnt b pb : area_like s l s' -> buffer_at s f cnt b pb -> buffer_at s' f cnt b pb.
Proof.
  intros Hk Hb. assert (Ed : dir_of s' = dir_of s) by (unfold dir_of; by rewrite (proj1 (ak_regs _ _ _ Hk))).
  split; rewrite ?Ed; try apply Hb.
  - intros i Hi. destruct (ub_virt _ _ _ _ _ Hb i Hi). rewrite (ak_walk _ _ _ Hk); [by apply Hb|apply w32_word|done|done].
  - intros i Hi Ht. apply (ub_phys _ _ _ _ _ Hb i Hi). eapply all_slots_words; [apply Hk|exact Ht].
Qed.

Lemma data_frame_like s l s' f : area_like s l s' -> data_frame s f -> data_frame s' f.
Proof.
  intros Hk (? & ? & Hf). assert (Ed : dir_of s' = dir_of s) by (unfold dir_of; by rewrite (proj1 (ak_regs _ _ _ Hk))).
  split_and!; [done|done|]. intros q Hq Ht. rewrite Ed in Ht. apply (Hf q Hq). eapply all_slots_words; [apply Hk|exact Ht].
Qed.

Lemma data_frame_byte s f j : data_frame s f -> 0 <= j < 4096 -> ~ table_word (ram (va_mach s)) (dir_of s) ((f + j) / 4).
Proof. intros ([c ->] & _ & Hf) Hj. apply Hf. Z.div_mod_to_equations. lia. Qed.

Section transfer.
Context (s s2 : vma H) (l : list Z) (A : gmap Z Z) (n a f off cnt b : Z) (pb : Z -> Z).
Hypotheses (Hdir : dir_ok (ram (va_mach s)) (dir_of s)) (W : window s l A n a f s2) (Hf : data_frame s f)
  (Hoff : 0 <= off) (Hcnt : off + cnt <= 4096) (Hb : buffer_at s f cnt b pb).

Let mc := va_mach s2.
Let dir := dir_of s.

Lemma window_word i : 0 <= i < cnt -> a +w off +w i = a + (off + i) /\ word (a + (off + i)) /\
  a + (off + i) < VM_VMALLOC_END.
Proof.
  intros Hi. destruct (wi_page _ _ _ _ _ _ _ W) as (_ & Ha1 & Ha2). unfold VM_VMALLOC_START, VM_VMALLOC_END in *.
  rewrite (w32_small (a + off)), w32_small by lia. unfold word. lia.
Qed.

Lemma window_walk i : 0 <= i < cnt -> walk_dir (ram mc) dir (a +w off +w i) = Some (f + (off + i)).
Proof. intros Hi. destruct (window_word i Hi) as (-> & _). apply (wi_shows _ _ _ _ _ _ _ W). lia. Qed.

Lemma window_slot i : 0 <= i < cnt -> pd_idx (a +w off +w i) < 1022.
Proof.
  intros Hi. destruct (window_word i Hi) as (-> & Hw & Hlt). destruct (wi_page _ _ _ _ _ _ _ W) as (_ & Ha1 & _).
  apply area_page. lia.
Qed.

Lemma buffer_walk i : 0 <= i < cnt -> walk_dir (ram mc) dir (b +w i) = Some (pb i).
Proof.
  intros Hi. destruct (ub_virt _ _ _ _ _ Hb i Hi) as [Hlt Hout]. destruct (wi_page _ _ _ _ _ _ _ W) as (Hpg & Ha1 & Ha2).
  unfold mc, dir. rewrite (wi_walk _ _ _ _ _ _ _ W); [by apply Hb|apply w32_word|done|by apply off_page].
Qed.

(** A buffer and the frame share no word, and neither is a page table. *)
Lemma transfer_words i j : 0 <= i < cnt -> 0 <= j < cnt -> (f + (off + i)) / 4 <> pb j / 4 /\
  ~ table_word (ram mc) dir ((f + (off + i)) / 4) /\ ~ table_word (ram mc) dir (pb j / 4).
Proof.
  intros Hi Hj. pose proof (ub_apart _ _ _ _ _ Hb j Hj) as Hap. pose proof (ub_phys _ _ _ _ _ Hb j Hj) as Hph.
  destruct Hf as ([c ->] & _ & Hq). split; [Z.div_mod_to_equations; lia|]. split.
  - intros Ht. apply (Hq ((c * 4096 + (off + i)) / 4)); [Z.div_mod_to_equations; lia|].
    eapply all_slots_words; [apply W|exact Ht].
  - intros Ht. apply Hph. eapply all_slots_words; [apply W|exact Ht].
Qed.
End transfer.

(** The transfer loop between mapped ranges of data words. *)
Lemma copy_between (k : kernel H) s2 dir src dst fs off size cnt ps pd :
  dir_ok (ram (va_mach s2)) dir -> frame_of (Paging.cr3 (va_mach s2)) = dir -> word size ->
  cnt = Z.min size (fs -w off) -> (forall i, 0 <= i < cnt -> walk_dir (ram (va_mach s2)) dir (src +w i) = Some (ps i)) ->
  (forall i, 0 <= i < cnt -> pd_idx (src +w i) < 1022 /\ pd_idx (dst +w i) < 1022) ->
  (forall i, 0 <= i < cnt -> walk_dir (ram (va_mach s2)) dir (dst +w i) = Some (pd i)) ->
  (forall i j, 0 <= i < cnt -> 0 <= j < cnt -> pd i = pd j -> i = j) ->
  (forall i j, 0 <= i < cnt -> 0 <= j < cnt -> pd i / 4 <> ps j / 4) ->
  (forall i, 0 <= i < cnt -> ~ table_word (ram (va_mach s2)) dir (pd i / 4)) ->
  wp (copy_loop fs off size src dst) (fun r k' => exists m, k' = put_vma (set_va_mach m s2) k /\ r = cnt /\
    data_only dir (va_mach s2) m /\ copied (va_mach s2) ps pd cnt m) (put_vma s2 k).
Proof.
  intros Hdir Hcr Hsz Ecnt Hs Hlt Hd Hinj Hdata Htab.
  assert (Hwalk : forall v, walk_dir (ram (va_mach s2)) (Paging.cr3 (va_mach s2)) v = walk_dir (ram (va_mach s2)) dir v).
  { intros v. rewrite walk_cr3 by (rewrite Hcr; apply Hdir). by rewrite Hcr. }
  eapply wp_mono; [apply (copy_loop_wp (va_mach s2) (put_vma s2 k) src dst cnt ps pd); try done|].
  - split; try done; intros; rewrite ?Hwalk; auto. split; intros Hq.
    + apply (Htab i); [done|]. eapply walk_words_table; [exact Hdir|exact Hcr|apply w32_word|exact (proj1 (Hlt j ltac:(assumption)))|by apply (Hs j)|exact Hq].
    + apply (Htab i); [done|]. eapply walk_words_table; [exact Hdir|exact Hcr|apply w32_word|exact (proj2 (Hlt j ltac:(assumption)))|by apply (Hd j)|exact Hq].
  - intros r k' (-> & m & Hc & ->). exists m. split; [by destruct s2|]. split; [done|]. split; [|done]. split.
    + apply (cp_words _ _ _ _ _ Hc), Hdir.
    + split; apply Hc.
    + intros q Hq. apply (cp_rest _ _ _ _ _ Hc). intros i Hi <-. by apply (Htab i).
Qed.

(** The file [f] is the frame [paddr]. *)
Record file_at (k : kernel H) (f paddr : Z) (v : vnode) : Prop := {
  fa_node : f <> 0 /\ nodes (k_fs k) !! f = Some v;
  fa_inode : inodes (k_fs k) !! vn_data v = Some (RamInode paddr);
  fa_size : vn_size v = 4096;
  fa_frame : data_frame (get_vma k) paddr;
}.

Section file.
Context (k : kernel H) (l : list Z) (A : gmap Z Z) (n f paddr : Z) (v : vnode) (off size cnt b : Z) (pb : Z -> Z).
Let s := get_vma k.
Hypotheses (Ecnt : cnt = Z.min size (4096 - off)) (Ha : area_ok s l A (n + 58)) (Hn : 0 <= n < 2 ^ 20) (Hno : ~ no_hole s l 4096) (Hf : file_at k f paddr v)
  (Hoff : 0 <= off < 4096) (Hsz : 0 < size) (Hszw : word size) (Hb : buffer_at s paddr cnt b pb).

(** After a transfer the data words are those of [m], and the area is as before. *)
Definition transferred (P : gmap Z Z -> Prop) (r : Z) (k' : kernel H) : Prop :=
  r = cnt /\ exists s', k' = put_vma s' k /\ area_ok s' l A n /\ area_like s l s' /\ P (ram (va_mach s')).

Lemma ramfs_write_wp : wp (ramfs_write f off b size) (transferred (fun m =>
  (forall i, 0 <= i < cnt -> phys_byte m (paddr + (off + i)) = phys_byte (ram (va_mach s)) (pb i)) /\
  forall q, ~ table_word (ram (va_mach s)) (dir_of s) (q / 4) -> (forall i, 0 <= i < cnt -> paddr + (off + i) <> q) ->
    phys_byte m q = phys_byte (ram (va_mach s)) q)) k.
Proof.
  destruct Hf as [[Hf0 Hv] Hi Hs Hfr]. destruct Hfr as (Hpg & Hpw & Htab). assert (Hfr : data_frame s paddr) by done.
  pose proof (frame_of_page _ Hpw Hpg) as Efr. pose proof (ao_dir _ _ _ _ Ha) as Hdir.
  unfold ramfs_write. eapply wp_mono; [apply (with_file_mapped_wp k l A n f v paddr _ _ (fun r m2 m => r = cnt /\
    (forall i, 0 <= i < cnt -> phys_byte m (paddr + (off + i)) = phys_byte m2 (pb i)) /\
    forall q, (forall i, 0 <= i < cnt -> paddr + (off + i) <> q) -> phys_byte m q = phys_byte m2 q)); try done|].
  - rewrite Efr. intros a s2 W. fold s in W.
    assert (Hww := transfer_words s s2 l A n a paddr off cnt b pb W Hfr ltac:(lia) ltac:(lia) Hb).
    eapply wp_mono; [apply (copy_between k s2 (dir_of s) b (a +w off) (vn_size v) off size cnt pb (fun i => paddr + (off + i)))|].
    + apply W.
    + unfold dir_of. by rewrite (proj1 (wi_regs _ _ _ _ _ _ _ W)).
    + done.
    + rewrite Hs, w32_small by lia. done.
    + by apply (buffer_walk s s2 l A n a paddr cnt b pb W).
    + intros i Hi'. split; [by apply (ub_virt _ _ _ _ _ Hb)|]. apply (window_slot s s2 l A n a paddr off cnt W); lia.
    + apply (window_walk s s2 l A n a paddr off cnt W); lia.
    + intros i j _ _ ?. lia.
    + intros i j Hi' Hj. by apply Hww.
    + intros i Hi'. by apply (Hww i i).
    + intros r k' (m & -> & -> & Hdo & Hc). exists m. split; [done|]. split; [lia|]. split; [done|].
      split; [done|]. split; [apply Hc|]. intros q Hq. by apply (cp_other _ _ _ _ _ Hc).
  - intros r k' (s' & m2 & m & -> & Ha' & Hk & Hd & -> & Hbytes & Hother). split; [done|]. exists s'. split; [done|].
    split; [done|]. split; [done|]. split.
    + intros i Hi'. rewrite (phys_byte_ext m) by (apply Hd, data_frame_byte; done || lia).
      rewrite Hbytes by done. apply phys_byte_ext, Hd. by apply (ub_phys _ _ _ _ _ Hb).
    + intros q Hq Hne. rewrite (phys_byte_ext m) by by apply Hd. rewrite Hother by done. by apply phys_byte_ext, Hd.
Qed.

Lemma ramfs_read_wp : (forall i j, 0 <= i < cnt -> 0 <= j < cnt -> pb i = pb j -> i = j) ->
  wp (ramfs_read f off size b) (transferred (fun m =>
    (forall i, 0 <= i < cnt -> phys_byte m (pb i) = phys_byte (ram (va_mach s)) (paddr + (off + i))) /\
    forall q, ~ table_word (ram (va_mach s)) (dir_of s) (q / 4) -> (forall i, 0 <= i < cnt -> pb i <> q) ->
      phys_byte m q = phys_byte (ram (va_mach s)) q)) k.
Proof.
  intros Hinj. destruct Hf as [[Hf0 Hv] Hi Hs Hfr]. destruct Hfr as (Hpg & Hpw & Htab). assert (Hfr : data_frame s paddr) by done.
  pose proof (frame_of_page _ Hpw Hpg) as Efr. pose proof (ao_dir _ _ _ _ Ha) as Hdir.
  unfold ramfs_read. eapply wp_mono; [apply (with_file_mapped_wp k l A n f v paddr _ _ (fun r m2 m => r = cnt /\
    (forall i, 0 <= i < cnt -> phys_byte m (pb i) = phys_byte m2 (paddr + (off + i))) /\
    forall q, (forall i, 0 <= i < cnt -> pb i <> q) -> phys_byte m q = phys_byte m2 q)); try done|].
  - rewrite Efr. intros a s2 W. fold s in W.
    assert (Hww := transfer_words s s2 l A n a paddr off cnt b pb W Hfr ltac:(lia) ltac:(lia) Hb).
    eapply wp_mono; [apply (copy_between k s2 (dir_of s) (a +w off) b (vn_size v) off size cnt (fun i => paddr + (off + i)) pb)|].
    + apply W.
    + unfold dir_of. by rewrite (proj1 (wi_regs _ _ _ _ _ _ _ W)).
    + done.
    + rewrite Hs, w32_small by lia. done.
    + apply (window_walk s s2 l A n a paddr off cnt W); lia.
    + intros i Hi'. split; [|by apply (ub_virt _ _ _ _ _ Hb)]. apply (window_slot s s2 l A n a paddr off cnt W); lia.
    + by apply (buffer_walk s s2 l A n a paddr cnt b pb W).
    + done.
    + intros i j Hi' Hj. by apply not_eq_sym, Hww.
    + intros i Hi'. by apply (Hww i i).
    + intros r k' (m & -> & -> & Hdo & Hc). exists m. split; [done|]. split; [lia|]. split; [done|].
      split; [done|]. split; [apply Hc|]. intros q Hq. by apply (cp_other _ _ _ _ _ Hc).
  - intros r k' (s' & m2 & m & -> & Ha' & Hk & Hd & -> & Hbytes & Hother). split; [done|]. exists s'. split; [done|].
    split; [done|]. split; [done|]. split.
    + intros i Hi'. rewrite (phys_byte_ext m) by (apply Hd; by apply (ub_phys _ _ _ _ _ Hb)).
      rewrite Hbytes by done. apply phys_byte_ext, Hd, data_frame_byte; done || lia.
    + intros q Hq Hne. rewrite (phys_byte_ext m) by by apply Hd. rewrite Hother by done. by apply phys_byte_ext, Hd.
Qed.
End file.
End window.

(** ** Properties *)

(** C19: what is written to a file of ramfs is read back: a write of [size]
    bytes at [off] stores those that fit the frame of the file, and a read at
    the same place answers the same count and puts the same bytes at its
    buffer; the other bytes of the file keep their values, the vmalloc area
    is as before, and nothing else in the kernel changes. *)
Theorem ramfs_roundtrip {H} `{!Allocator H} (k : kernel H) l A f paddr v off size cnt wbuf rbuf pw pr :
  let s := get_vma k in
  cnt = Z.min size (4096 - off) -> area_ok s l A 116 -> ~ no_hole s l 4096 -> file_at k f paddr v ->
  0 <= off < 4096 -> 0 < size -> word size -> buffer_at s paddr cnt wbuf pw -> buffer_at s paddr cnt rbuf pr ->
  (forall i j, 0 <= i < cnt -> 0 <= j < cnt -> pr i = pr j -> i = j) ->
  exists s1 s2, ramfs_write f off wbuf size k = Ok (cnt, put_vma s1 k) /\
    ramfs_read f off size rbuf (put_vma s1 k) = Ok (cnt, put_vma s2 k) /\ area_ok s2 l A 0 /\ area_like s l s2 /\
    (forall i, 0 <= i < cnt -> phys_byte (ram (va_mach s2)) (pr i) = phys_byte (ram (va_mach s)) (pw i)) /\
    forall j, 0 <= j < 4096 -> ~ off <= j < off + cnt ->
      phys_byte (ram (va_mach s2)) (paddr + j) = phys_byte (ram (va_mach s)) (paddr + j).
Proof.
  intros s Ecnt Ha Hno Hf Hoff Hsz Hszw Hw Hr Hinj.
  destruct (wp_run _ _ _ (ramfs_write_wp k l A 58 f paddr v off size cnt wbuf pw Ecnt Ha ltac:(lia) Hno Hf Hoff Hsz Hszw Hw))
    as (r & k1 & E1 & -> & s1 & -> & Ha1 & Hk1 & Hb1 & Ho1).
  assert (Hf1 : file_at (put_vma s1 k) f paddr v).
  { destruct Hf as [Hnd Hin Hs Hfr]. split; [done|done|done|]. rewrite get_put. by eapply data_frame_like. }
  assert (Hno1 : ~ no_hole s1 l 4096) by by eapply area_like_holes.
  pose proof (buffer_like _ _ _ _ _ _ _ Hk1 Hr) as Hr1. rewrite <- (get_put s1 k) in Ha1, Hno1, Hr1.
  destruct (wp_run _ _ _ (ramfs_read_wp (put_vma s1 k) l A 0 f paddr v off size cnt rbuf pr Ecnt Ha1 ltac:(lia) Hno1 Hf1 Hoff Hsz Hszw Hr1 Hinj))
    as (r & k2 & E2 & -> & s2 & -> & Ha2 & Hk2 & Hb2 & Ho2). rewrite get_put in *.
  exists s1, s2. split_and!; try done.
  - by eapply area_like_trans.
  - intros i Hi. by rewrite Hb2, Hb1.
  - intros j Hj Hout. rewrite Ho2, Ho1; try done.
    + eapply data_frame_byte; [apply Hf|done].
    + intros i Hi E. lia.
    + eapply data_frame_byte; [eapply data_frame_like; [exact Hk1|apply Hf]|done].
    + intros i Hi E. apply (ub_apart _ _ _ _ _ Hr i Hi). lia.
Qed.

(** ** A file in a small machine *)

(** The directory at 0x1000 maps two pages of a program, at 0x5000 and
    0x6000, and has the 64 tables of the vmalloc area; the file is the frame 0xb000. *)
Definition ramfs_ram : gmap Z Z := list_to_map
  ([(1024, 0x2003); (1024 + 1023, 0x1003); (2 * 1024 + 5, 0x9003); (2 * 1024 + 6, 0xa003);
    (9 * 1024, 0x44434241); (9 * 1024 + 1, 0x4645)] ++
   map (fun i => (1024 + 0x340 + i, 0x100003 + 4096 * i)) (seqZ 0 64)).

#[local] Instance ramfs_allocator : Allocator malloc_state := kmalloc_allocator 0xc0400000 demo_raw demo_bytes.

Definition ramfs_area : vma malloc_state :=
  mkVma boot_block.2 {[ boot_block.1 := mkHdr 0xd0000000 0x2000 MAPPED 0 0 ]} (mkUreg boot_block.1 boot_block.1 2)
    (mkMachine demo_pmm 0x1000 ramfs_ram).

Definition ram_file : vnode :=
  mkVnode [102; 0] (Some VFS_FILE) 0 4096 0 ramfs_file_ops root_block.1 0 0 0 0 0x900.

Definition ramfs_kernel : kernel malloc_state := put_vma ramfs_area
  (demo_kernel (mkFsys {[ 0x40 := ram_file ]} {[ 0x900 := RamInode 0xb000 ]} root_block.1 0 0 0 0)).

Lemma ramfs_dir : dir_ok ramfs_ram 0x1000.
Proof. apply dir_ok_check. vm_compute. reflexivity. Qed.

Lemma ramfs_area_ok : exists z, area_ok ramfs_area [boot_block.1] {[ boot_block.1 := z ]} 116.
Proof.
  destruct boot_block_rep as [z Hr]. exists z. split.
  - by apply (va_list_ext demo_one), demo_one_list.
  - done.
  - intros p ->%list_elem_of_singleton. exists z. apply lookup_singleton_eq.
  - exact Hr.
  - vm_compute. discriminate.
  - intros p v zz t (h & Eh & <- & <- & <-)%hg_lookup.
    change (({[ boot_block.1 := mkHdr 0xd0000000 0x2000 MAPPED 0 0 ]} : gmap Z region_hdr) !! p = Some h) in Eh.
    apply lookup_singleton_Some in Eh as [_ <-].
    split; [by exists 0xd0000|by exists 2].
  - exact ramfs_dir.
  - intros v Hv. destruct (area_page v Hv) as [Hw _]. destruct (slot_range v Hw) as (_ & _ & -> & ->).
    assert (Hall : Forall (fun i => present (pde ramfs_ram 0x1000 i) = true) (seqZ 0x340 64))
      by (apply (bool_decide_unpack _); vm_compute; exact I).
    rewrite Forall_forall in Hall. apply Hall, elem_of_seqZ. unfold VM_VMALLOC_START, VM_VMALLOC_END in Hv.
    Z.div_mod_to_equations. lia.
Qed.

Lemma ramfs_hole : ~ no_hole ramfs_area [boot_block.1] 4096.
Proof.
  intros Hno. apply (Hno [boot_block.1] [] 0xd0002000 eq_refl). unfold hole, VM_VMALLOC_START, VM_VMALLOC_END. split_and!; [lia|lia| |].
  - intros q ->%list_elem_of_singleton. apply (bool_decide_unpack _). vm_compute. exact I.
  - intros q Hq. by apply elem_of_nil in Hq.
Qed.

Lemma ramfs_no_table f q : f ∈ [0x9000; 0xa000; 0xb000] -> f <= 4 * q < f + 4096 -> ~ table_word ramfs_ram 0x1000 q.
Proof.
  intros Hf. apply no_table_check; [exact ramfs_dir| |].
  - rewrite !elem_of_cons in Hf. destruct Hf as [->|[->|[->|Hf%elem_of_nil]]]; [by exists 9|by exists 10|by exists 11|done].
  - revert f Hf. apply Forall_forall. repeat constructor; vm_compute; reflexivity.
Qed.

Lemma ramfs_file : file_at ramfs_kernel 0x40 0xb000 ram_file.
Proof.
  split; [done|done|done|]. split; [by exists 11|]. split; [by unfold word|]. intros q Hq. apply (ramfs_no_table 0xb000); [in_tac|done].
Qed.

Lemma ramfs_buffer b f : (b, f) ∈ [(0x5000, 0x9000); (0x6000, 0xa000)] -> buffer_at ramfs_area 0xb000 6 b (fun i => f + i).
Proof.
  intros Hin.
  assert (Hv : b = 0x5000 /\ f = 0x9000 \/ b = 0x6000 /\ f = 0xa000) by (rewrite !elem_of_cons, elem_of_nil in Hin; naive_solver).
  split; intros i Hi.
  - assert (Hin6 : i ∈ seqZ 0 6) by (by apply elem_of_seqZ). revert i Hi Hin6.
    destruct Hv as [[-> ->]|[-> ->]]; intros i _; revert i; apply Forall_forall; repeat constructor.
  - rewrite w32_small by lia. destruct (slot_range (b + i)) as (_ & _ & -> & ->); [unfold word; lia|].
    unfold VM_VMALLOC_START. Z.div_mod_to_equations. lia.
  - apply (ramfs_no_table f); [destruct Hv as [[-> ->]|[-> ->]]; in_tac|]. destruct Hv as [[-> ->]|[-> ->]]; Z.div_mod_to_equations; lia.
  - lia.
Qed.

(** Six bytes go from the page at 0x5000 into the file and come back at 0x6000. *)
Lemma ramfs_roundtrip_witness : exists s1 s2,
  ramfs_write 0x40 10 0x5000 6 ramfs_kernel = Ok (6, put_vma s1 ramfs_kernel) /\
  ramfs_read 0x40 10 6 0x6000 (put_vma s1 ramfs_kernel) = Ok (6, put_vma s2 ramfs_kernel) /\
  phys_byte (ram (va_mach s2)) 0xa002 = 67.
Proof.
  destruct ramfs_area_ok as [z Ha].
  destruct (ramfs_roundtrip ramfs_kernel [boot_block.1] {[boot_block.1 := z]} 0x40 0xb000 ram_file 10 6 6 0x5000 0x6000
    (fun i => 0x9000 + i) (fun i => 0xa000 + i) eq_refl) as (s1 & s2 & E1 & E2 & _ & _ & Hb & _).
  - exact Ha.
  - exact ramfs_hole.
  - exact ramfs_file.
  - lia.
  - lia.
  - unfold word. lia.
  - apply ramfs_buffer. in_tac.
  - apply ramfs_buffer. in_tac.
  - lia.
  - exists s1, s2. split; [exact E1|]. split; [exact E2|]. transitivity (phys_byte ramfs_ram 0x9002); [exact (Hb 2 ltac:(lia))|reflexivity].
Defined.
