(* ===== verification/Isr.v ===== *)
(** * Interrupts and system calls ([src/src/kernel/arch/i386/isr.c])

    The entry point every vector of int_handler.s calls: exceptions, hardware
    interrupts and the system call gate.  The state is the kernel's and the
    processor's.  A handler ends in one of three ways: it returns to the code
    it interrupted, it leaves for user mode with the registers of a task
    ([syscall_return]), or a task switch below it took the processor away. *)

From S2P Require Import Prelude Dlist Pmm Heap Paging Vmm Vmalloc Klib Terminal TerminalSpec Kprintf Namei Sched Kernel Vfs Files Task Cpu Exec.

#[local] Open Scope Z_scope.

(** [int_frame_t] and [int_regs_t]. *)
Record int_frame := mkFrame {
  int_number : Z; err_code : Z; f_eip : Z; f_cs : Z; f_eflags : Z; f_esp : Z; f_ss : Z }.
Record int_regs := mkIntRegs {
  i_ds : Z; i_edi : Z; i_esi : Z; i_ebp : Z; i_esp : Z; i_ebx : Z; i_edx : Z; i_ecx : Z; i_eax : Z }.

Inductive ending := Resumed | ToUser (t : Z) | Away (l : leave).

Record hw (H : Type) := mkHw { h_kernel : kernel H; h_cpu : cpu }.
Arguments mkHw {_} _ _. Arguments h_kernel {_} _. Arguments h_cpu {_} _.

Definition exception_name : list string :=
  ["Divide Error"; "Debug Exception"; "NMI Interrupt"; "Breakpoint"; "Overflow"; "Bounds Check";
   "Invalid Opcode"; "Coprocessor Not Available"; "Double Fault"; "Coprocessor Segment Overrun";
   "Invalid TSS"; "Segment Not Present"; "Stack Exception"; "General Protection Exception(Triple Fault)";
   "Page Fault"; "Intel reserved"; "FPU Floating-Point Error"; "Alignment Check"; "Machine Check";
   "SIMD Floating-Point Exception"; "Virtualization Exception"; "Control Protection Exception";
   "Intel reserved"; "Intel reserved"; "Intel reserved"; "Intel reserved"; "Intel reserved";
   "Intel reserved"; "Intel reserved"; "Intel reserved"; "Intel reserved"; "Intel reserved"]%string.

(** The user registers of the interrupted task. *)
Definition save_regs (f : int_frame) (g : int_regs) (r : task_regs) : task_regs :=
  mkRegs (i_eax g) (i_ebx g) (i_ecx g) (i_edx g) (i_esi g) (i_edi g) (f_esp f) (i_ebp g) (f_eip f) (f_eflags f)
         (Sched.cr3 r) (ds r) (cs r).

Section isr.
Context {H : Type} `{!Allocator H}.
(** Fresh memory, fresh local arrays and words; the kernel's directory, by
    its virtual and its physical address; the depth of task switches and the
    rounds of [write]; CR2, and what the keyboard's port answers. *)
Context (raw_fd : Z -> fd_t) (stack_bytes itoa_buffer : list Z) (raw_word : Z)
        (kern_pd_vaddr kern_pd_paddr : Z) (n rounds : nat) (cr2 scancode : Z).

Definition hm (A : Type) : Type := M (hw H) A.

Definition on_k {A} (m : K (H := H) A) : hm A := zoom h_kernel (fun k s => mkHw k (h_cpu s)) m.
Definition on_cpu {A} (m : cm A) : hm A := zoom h_cpu (fun c s => mkHw (h_kernel s) c) m.

(** [m], and the rest of the handler if it comes back. *)
Definition through {A} (m : KC (H := H) A) (rest : A -> hm ending) : hm ending :=
  do r <- on_k m;
  match r with Returns a => rest a | Left l => ret_ (Away l) end.

(** [syscall_return(&t->regs)]: the page directory of the task; the rest
    of the registers is loaded from the block. *)
Definition syscall_return (t : Z) : hm ending :=
  do c <- on_k (task t);
  on_k (memory (mod_ (Paging.set_cr3 (Sched.cr3 (t_regs c))))) ;;;
  ret_ (ToUser t).

(** [if (int_frame->eip < VM_KERN_START) syscall_return(&actual_task->regs);] *)
Definition leave_handler (f : int_frame) : hm ending :=
  if f_eip f <? VM_KERN_START then do cur <- on_k (get_sched actual_task); syscall_return cur
  else ret_ Resumed.

(** The signal a page fault sends to the running task, if any. *)
Definition page_fault (code : Z) : KC (H := H) unit :=
  do cur <- get_sched actual_task;
  do as_ <- (if Z.land code PG_USER =? 0 then ret_ 0 else do c <- task cur; ret_ (t_aspace c));
  do signal <- on_vm (pg_page_fault_handler as_ cr2 code);
  match signal with
  | None => returns (ret_ tt)
  | Some sig => do! _ <- sig_send n cur sig; returns (ret_ tt)
  end.

Definition _exception_handler (f : int_frame) : hm ending :=
  if int_number f =? 14 then through (page_fault (err_code f)) (fun _ => leave_handler f)
  else match exception_name !! Z.to_nat (int_number f) with
       | Some name => panic name
       | None => fault
       end.

(** What [_irq_handler] does by the number of the line. *)
Definition irq_action (f : int_frame) (rest : hm ending) : hm ending :=
  if int_number f =? IRQ0 then
    do fired <- on_cpu timer_isr;
    if negb (fired =? 0) then
      on_cpu (outb PIC1_COMM PIC_EOI) ;;;
      through (task_switch n) (fun _ => rest)
    else rest
  else if int_number f =? IRQ1 then through (keyboard_interrupt n scancode) (fun _ => rest)
  else
    on_k (on_term (kprintf (keys "IRQ nr: %d not implemented" ++ [10; 0]) [VInt (int32 (int_number f))] itoa_buffer)) ;;;
    rest.

Definition _irq_handler (f : int_frame) : hm ending :=
  irq_action f (
    on_cpu (outb PIC1_COMM PIC_EOI) ;;;
    (when 40 <=? int_number f then_ on_cpu (outb PIC2_COMM PIC_EOI)) ;;;
    leave_handler f).

(** ** System calls *)

(** [regs_set_retval] on the registers of task [t]. *)
Definition set_retval (t v : Z) : K (H := H) unit := upd_tcb t (fun c => set_regs (regs_set_retval (w32 v) (t_regs c)) c).

Definition answer (t : Z) (m : K (H := H) Z) : KC (H := H) unit := do v <- m; returns (set_retval t v).
Definition answer_c (t : Z) (m : KC (H := H) Z) : KC (H := H) unit := do! v <- m; returns (set_retval t v).

(** The switch of [_syscall_handler] on the number in EAX; [t] is the
    running task and [r] its registers. *)
Definition dispatch (t : Z) (r : task_regs) : KC (H := H) unit :=
  if eax r =? 0 then exit_ n (int32 (ebx r))
  else if eax r =? 1 then answer_c t (do_fork kern_pd_vaddr n t)
  else if eax r =? 2 then
    do! ret <- execve stack_bytes raw_word kern_pd_vaddr n (ebx r) (ecx r);
    returns (when ret <? 0 then_ set_retval t ret)
  else if eax r =? 3 then answer t getpid
  else if eax r =? 4 then answer t getppid
  else if eax r =? 5 then do! _ <- do_waitpid n t (int32 (ebx r)); returns (ret_ tt)
  else if eax r =? 6 then answer t (do_mmap n t (ebx r) (ecx r) (edx r) (int32 (esi r)) (edi r))
  else if eax r =? 7 then answer t (do_munmap t (ebx r))
  else if eax r =? 8 then answer t (do_brk t (ebx r))
  else if eax r =? 9 then answer t (do_sbrk t (ebx r))
  else if eax r =? 10 then answer t (open raw_fd stack_bytes (ebx r) (ecx r))
  else if eax r =? 11 then answer t (do_close t (int32 (ebx r)))
  else if eax r =? 12 then answer_c t (do_read n t (int32 (ebx r)) (ecx r) (edx r))
  else if eax r =? 13 then answer t (do_write rounds t (int32 (ebx r)) (ecx r) (edx r))
  else if eax r =? 14 then answer t (remove stack_bytes (ebx r))
  else if eax r =? 15 then answer t (mkdir stack_bytes (ebx r))
  else if eax r =? 16 then answer t (rmdir stack_bytes (ebx r))
  else if eax r =? 17 then answer t (do_readdir t (int32 (ebx r)) (ecx r))
  else if eax r =? 18 then answer t (do_lseek t (int32 (ebx r)) (long (ecx r)) (int32 (edx r)))
  else returns (ret_ tt).

Definition _syscall_handler : hm ending :=
  do cur <- on_k (get_sched actual_task);
  do c <- on_k (task cur);
  through (dispatch cur (t_regs c)) (fun _ =>
    do e <- on_k (get_ (fun k => v_errno (k_vmm k)));
    (when 0 <? e then_ on_k (upd_tcb cur (fun c => set_regs (regs_set_errno e (t_regs c)) c))) ;;;
    syscall_return cur).

Definition save_context (f : int_frame) (g : int_regs) : hm unit :=
  do cur <- on_k (get_sched actual_task);
  if cur =? 0 then ret_ tt
  else
    do c <- on_k (task cur);
    when (0 <? task_id c) && (f_eip f <? VM_KERN_START) then_
      (on_k (upd_tcb cur (fun c => set_regs (save_regs f g (t_regs c)) c)) ;;;
       on_k (memory (pg_switch_pd kern_pd_paddr))).

Definition general_handler (f : int_frame) (g : int_regs) : hm ending :=
  on_k (set_errno_ 0) ;;;
  save_context f g ;;;
  if int_number f <? IDT_CPU_EXCEPTIONS then _exception_handler f
  else if int_number f <? IDT_CPU_EXCEPTIONS + IRQ_QUANTITY then _irq_handler f
  else _syscall_handler.
End isr.
