(* ===== verification/CallSpec.v ===== *)
(** * What a system call leaves in the registers

    [same_regs m]: the routine [m] leaves the saved registers of every task as
    they are.  Of all system calls only fork, which makes a new task, and
    execve, which starts a program anew, do not have this property; the
    answer is stored into the caller's EAX by [dispatch]. *)

From S2P Require Import Prelude Dlist Pmm Heap Paging Vmm Vmalloc Klib Terminal TerminalSpec Kprintf Namei Sched SchedSpec Kernel Vfs Files FilesSpec Task TaskSpec Cpu Exec ExecSpec Isr.

#[local] Open Scope Z_scope.

(** ** More routines that leave the tasks alone *)

Section keeps.
Context {H : Type} `{!Allocator H}.
Local Abbreviation K := (K (H := H)).

Lemma keeps_mod (f : kernel H -> kernel H) : (forall k, k_sched (f k) = k_sched k) -> keeps (mod_ f).
Proof. by intros Hf k a k' [= <- <-]. Qed.

Lemma keeps_on_term {A} (m : M terminal_t A) : keeps (H := H) (on_term m).
Proof. intros k a k'. unfold on_term, zoom. destruct (m (k_term k)) as [[? ?]| | |]; [intros [= <- <-]|..]; done. Qed.

Lemma keeps_rd (l : list Z) i : keeps (H := H) (rd l i).
Proof. intros k a k'. unfold rd, lift_opt, fault. repeat case_match; try done; by intros [= <- <-]. Qed.

Lemma keeps_wr (l : list Z) i v : keeps (H := H) (wr l i v).
Proof. intros k a k'. unfold wr. repeat case_match; try done; by intros [= <- <-]. Qed.

Lemma keeps_get_sched {A} (f : sched -> A) : keeps (H := H) (get_sched f).
Proof. by intros k a k' [= _ <-]. Qed.

Lemma keeps_ld_fd p : keeps (H := H) (ld_fd p).
Proof. intros k a k'. unfold ld_fd. repeat case_match; try done; by intros [= <- <-]. Qed.

Lemma keeps_upd_fd p f : keeps (H := H) (upd_fd p f).
Proof. apply keeps_bind; [apply keeps_ld_fd|intros d]. by apply keeps_mod. Qed.

Lemma keeps_get_fd t fd : keeps (H := H) (get_fd t fd).
Proof. unfold get_fd. keeps. Qed.

#[local] Hint Resolve keeps_on_term keeps_rd keeps_wr keeps_get_sched keeps_ld_fd keeps_upd_fd keeps_get_fd keeps_memory keeps_alloc keeps_free
  keeps_errno keeps_node keeps_fail keeps_copy_loop keeps_vfs_read keeps_mmap_file : keeps.
#[local] Hint Extern 5 (keeps (mod_ _)) => by apply keeps_mod : keeps.
#[local] Hint Extern 5 (keeps (upd_vnode _ _)) => apply keeps_on_fs : keeps.

Lemma keeps_filename path b : keeps (H := H) (namei_path_to_filename path b).
Proof. unfold namei_path_to_filename. keeps. Qed.

Lemma keeps_new_vnode : keeps (H := H) new_vnode.
Proof. unfold new_vnode. keeps. Qed.

Lemma keeps_free_vnode p : keeps (H := H) (free_vnode p).
Proof. unfold free_vnode. keeps. Qed.

Lemma keeps_copy_name p name n : keeps (H := H) (copy_name p name n).
Proof. unfold copy_name. keeps. Qed.
#[local] Hint Resolve keeps_filename keeps_new_vnode keeps_free_vnode keeps_copy_name : keeps.

Lemma keeps_touch_node p name : keeps (H := H) (vfs_touch p name).
Proof. unfold vfs_touch, ramfs_touch, set_inode. keeps. Qed.

Lemma keeps_vfs_mkdir p name : keeps (H := H) (vfs_mkdir p name).
Proof. unfold vfs_mkdir, ramfs_mkdir. keeps. Qed.

Lemma keeps_vfs_rmdir p : keeps (H := H) (vfs_rmdir p).
Proof. unfold vfs_rmdir. keeps. Qed.

Lemma keeps_vfs_remove p : keeps (H := H) (vfs_remove p).
Proof. unfold vfs_remove, ramfs_remove. keeps. Qed.

Lemma keeps_vfs_open p m : keeps (H := H) (vfs_open p m).
Proof. unfold vfs_open. keeps. Qed.

Lemma keeps_vfs_close p : keeps (H := H) (vfs_close p).
Proof. unfold vfs_close. keeps. Qed.

Lemma keeps_vfs_readdir p i : keeps (H := H) (vfs_readdir p i).
Proof. unfold vfs_readdir, tarfs_readdir, ramfs_readdir. keeps. Qed.

Lemma keeps_vfs_write p off b s : keeps (H := H) (vfs_write p off b s).
Proof.
  unfold vfs_write, ramfs_write, _stdout_write. apply keeps_bind; [keeps|intros v]. apply keeps_bind; [|intros r; keeps].
  destruct (op_write (vn_op v)) as [[]|]; try solve [keeps]. apply keeps_file_mapped. intros w a. keeps.
Qed.

Lemma keeps_fd_add p : keeps (H := H) (fd_add p).
Proof. unfold fd_add. keeps. Qed.

Lemma keeps_fd_remove p : keeps (H := H) (fd_remove p).
Proof. unfold fd_remove. keeps. Qed.

Lemma keeps_free_fd p : keeps (H := H) (free_fd p).
Proof. unfold free_fd. keeps. Qed.

Lemma keeps_find_fd t : keeps (H := H) (_find_free_fd_num t).
Proof. unfold _find_free_fd_num. keeps. Qed.
#[local] Hint Resolve keeps_touch_node keeps_vfs_mkdir keeps_vfs_rmdir keeps_vfs_remove keeps_vfs_open keeps_vfs_close keeps_vfs_readdir
  keeps_vfs_write keeps_fd_add keeps_fd_remove keeps_free_fd keeps_find_fd : keeps.
End keeps.

#[export] Hint Resolve keeps_on_term keeps_rd keeps_wr keeps_get_sched keeps_ld_fd keeps_upd_fd keeps_get_fd keeps_memory keeps_alloc keeps_free
  keeps_errno keeps_node keeps_fail keeps_copy_loop keeps_vfs_read keeps_mmap_file keeps_filename keeps_new_vnode keeps_free_vnode
  keeps_copy_name keeps_touch_node keeps_vfs_mkdir keeps_vfs_rmdir keeps_vfs_remove keeps_vfs_open keeps_vfs_close keeps_vfs_readdir
  keeps_vfs_write keeps_fd_add keeps_fd_remove keeps_free_fd keeps_find_fd : keeps.
#[export] Hint Extern 5 (keeps (mod_ _)) => by apply keeps_mod : keeps.

(** ** The saved registers *)

Definition saved_regs {H} (k : kernel H) : gmap Z task_regs := t_regs <$> tasks (k_sched k).

Section regs.
Context {H : Type} `{!Allocator H}.
Context (raw_fd : Z -> fd_t) (stack_bytes : list Z) (raw_word kern_pd_vaddr : Z) (n rounds : nat).
Local Abbreviation K := (K (H := H)).
Local Abbreviation KC := (KC (H := H)).

Definition same_regs {A} (m : K A) : Prop := forall k a k', m k = Ok (a, k') -> saved_regs k' = saved_regs k.

(** The same for a routine that may switch tasks, when it returns. *)
Definition same_regs_ret {A} (m : KC A) : Prop := forall k a k', m k = Ok (Returns a, k') -> saved_regs k' = saved_regs k.

Lemma same_regs_keeps {A} (m : K A) : keeps m -> same_regs m.
Proof. intros Hm k a k' E. unfold saved_regs. by rewrite (Hm _ _ _ E). Qed.

Lemma same_regs_bind {A B} (m : K A) (f : A -> K B) : same_regs m -> (forall a, same_regs (f a)) -> same_regs (bind_ m f).
Proof. intros Hm Hf k b k' (a & k1 & E1 & E2)%bind_inv. rewrite (Hf _ _ _ _ E2). by eapply Hm. Qed.

Lemma same_regs_if {A} (b : bool) (m1 m2 : K A) : same_regs m1 -> same_regs m2 -> same_regs (if b then m1 else m2).
Proof. by destruct b. Qed.

Lemma same_regs_loop {A B} fuel (body : A -> K (A + B)) : (forall a, same_regs (body a)) -> forall a, same_regs (loop fuel body a).
Proof.
  intros Hb. induction fuel as [|fuel IH]; intros a; [by intros k b k'|]. cbn [loop].
  apply same_regs_bind; [done|]. intros [a'|b]; [apply IH|apply same_regs_keeps, keeps_ret_].
Qed.

Lemma same_regs_upd t f : (forall c, t_regs (f c) = t_regs c) -> same_regs (upd_tcb t f).
Proof.
  intros Hf k a k'. unfold upd_tcb, on_sched, zoom, upd_task, bind_, ld_task. destruct (tasks (k_sched k) !! t) as [c|] eqn:Ec; [|done].
  destruct (t =? 0); [done|]. cbn. intros [= _ <-]. unfold saved_regs. cbn. rewrite fmap_insert, Hf.
  apply insert_id. by rewrite lookup_fmap, Ec.
Qed.

Lemma same_regs_returns {A} (m : K A) : same_regs m -> same_regs_ret (returns m).
Proof. intros Hm k a k' (b & k1 & E1 & E2)%bind_inv. injection E2 as <- <-. by eapply Hm. Qed.

Lemma same_regs_noret {A} (m : KC A) : noret m -> same_regs_ret m.
Proof. intros Hm k a k' E. by destruct (Hm k a k'). Qed.

Lemma same_regs_ret_keeps {A} (m : KC A) : keeps_ret m -> same_regs_ret m.
Proof. intros Hm k a k' E. unfold saved_regs. by rewrite (Hm _ _ _ E). Qed.

Lemma same_regs_ret_bind {A B} (m : K A) (f : A -> KC B) : same_regs m -> (forall a, same_regs_ret (f a)) -> same_regs_ret (bind_ m f).
Proof. intros Hm Hf k b k' (a & k1 & E1 & E2)%bind_inv. rewrite (Hf _ _ _ _ E2). by eapply Hm. Qed.

Lemma same_regs_ret_call {A B} (m : KC A) (f : A -> KC B) : same_regs_ret m -> (forall a, same_regs_ret (f a)) -> same_regs_ret (call m f).
Proof. intros Hm Hf k b k' ([a|l] & k1 & E1 & E2)%bind_inv; [|done]. rewrite (Hf _ _ _ _ E2). by eapply Hm. Qed.

Lemma same_regs_ret_if {A} (b : bool) (m1 m2 : KC A) : same_regs_ret m1 -> same_regs_ret m2 -> same_regs_ret (if b then m1 else m2).
Proof. by destruct b. Qed.
End regs.

Create HintDb same_regs.
#[export] Hint Extern 5 (same_regs (upd_tcb _ _)) => by apply same_regs_upd : same_regs.
#[export] Hint Extern 5 (same_regs (put_fd _ _ _)) => by apply same_regs_upd : same_regs.
#[export] Hint Extern 9 (same_regs _) => apply same_regs_keeps; solve [eauto with keeps] : same_regs.
#[export] Hint Extern 9 (same_regs_ret _) => apply same_regs_ret_keeps; solve [eauto with keeps] : same_regs.
#[export] Hint Extern 9 (same_regs_ret _) => apply same_regs_noret; solve [eauto with noret] : same_regs.

(** By the shape of the routine. *)
Ltac same_regs :=
  repeat match goal with
  | |- same_regs (bind_ _ _) => apply same_regs_bind; [|intros ?]
  | |- same_regs (if _ then _ else _) => apply same_regs_if
  | |- same_regs (loop _ _ _) => apply same_regs_loop; intros ?
  | |- same_regs (match ?x with _ => _ end) => destruct x
  | |- same_regs_ret (returns _) => apply same_regs_returns
  | |- same_regs_ret (call _ _) => apply same_regs_ret_call; [|intros ?]
  | |- same_regs_ret (bind_ _ _) => apply same_regs_ret_bind; [|intros ?]
  | |- same_regs_ret (if _ then _ else _) => apply same_regs_ret_if
  | |- same_regs_ret (match ?x with _ => _ end) => destruct x
  | |- _ => solve [eauto with same_regs]
  end.

(** ** The calls *)

Section calls.
Context {H : Type} `{!Allocator H}.
Context (raw_fd : Z -> fd_t) (stack_bytes : list Z) (n rounds : nat).
Local Abbreviation K := (K (H := H)).
Local Abbreviation KC := (KC (H := H)).

Lemma do_close_regs t fd : same_regs (H := H) (do_close t fd).
Proof. unfold do_close. same_regs. Qed.

Lemma do_open_regs t path flags : same_regs (H := H) (do_open raw_fd stack_bytes t path flags).
Proof. unfold do_open, new_descriptor. same_regs. Qed.

Lemma do_write_regs t fd b s : same_regs (H := H) (do_write rounds t fd b s).
Proof. unfold do_write, write_step. same_regs. Qed.

Lemma do_lseek_regs t fd o w : same_regs (H := H) (do_lseek t fd o w).
Proof. unfold do_lseek. same_regs. Qed.

Lemma do_mkdir_regs path : same_regs (H := H) (do_mkdir stack_bytes path).
Proof. unfold do_mkdir. same_regs. Qed.

Lemma do_rmdir_regs path : same_regs (H := H) (do_rmdir stack_bytes path).
Proof. unfold do_rmdir. same_regs. Qed.

Lemma do_remove_regs path : same_regs (H := H) (do_remove stack_bytes path).
Proof. unfold do_remove. same_regs. Qed.

Lemma do_readdir_regs t fd b : same_regs (H := H) (do_readdir t fd b).
Proof. unfold do_readdir. same_regs. Qed.

Lemma with_path_regs p (f : list Z -> K Z) : (forall l, same_regs (f l)) -> same_regs (with_path p f).
Proof.
  intros Hf. unfold with_path. same_regs.
Qed.

Lemma do_mmap_regs t a s p fd o : same_regs (H := H) (do_mmap n t a s p fd o).
Proof. unfold do_mmap. same_regs. Qed.

Lemma do_read_regs t fd b s : same_regs_ret (H := H) (do_read n t fd b s).
Proof. unfold do_read. same_regs. Qed.

(** [waitpid] returns only when it fails. *)
Lemma do_waitpid_regs t pid : same_regs_ret (H := H) (do_waitpid n t pid).
Proof.
  unfold do_waitpid. apply same_regs_ret_bind.
  - intros k a k'. unfold on_sched, zoom. destruct (sched_get_tcb pid (k_sched k)) as [[x s]| | |] eqn:E; try done. intros [= _ <-].
    unfold saved_regs. cbn. f_equal. f_equal. revert E. unfold sched_get_tcb, __find_in_queue, bind_, lift_, ret_.
    repeat case_match; intros; simplify_eq; done.
  - intros x. apply same_regs_ret_if; [same_regs|]. apply same_regs_noret.
    do 4 (apply noret_bind; intros ?). apply noret_call; intros ?. apply noret_first, task_switch_noret.
Qed.
End calls.

(** ** The answer *)

(** The caller has the registers it had, but for EAX; so has every other task. *)
Definition answered_only (t : Z) (m m' : gmap Z task_regs) : Prop := m' = m \/ exists v, m' = alter (regs_set_retval v) t m.

Section dispatch.
Context {H : Type} `{!Allocator H}.
Context (raw_fd : Z -> fd_t) (stack_bytes : list Z) (raw_word kern_pd_vaddr : Z) (n rounds : nat) (t : Z).
Local Abbreviation K := (K (H := H)).
Local Abbreviation KC := (KC (H := H)).

Definition answers_only (m : KC unit) : Prop :=
  forall k k', m k = Ok (Returns tt, k') -> answered_only t (saved_regs k) (saved_regs k').

Lemma set_retval_regs v (k : kernel H) u k' : set_retval t v k = Ok (u, k') -> saved_regs k' = alter (regs_set_retval (w32 v)) t (saved_regs k).
Proof.
  unfold set_retval, upd_tcb, on_sched, zoom, upd_task, bind_, ld_task. destruct (tasks (k_sched k) !! t) as [c|] eqn:Ec; [|done].
  destruct (t =? 0); [done|]. cbn. intros [= _ <-]. unfold saved_regs. cbn. rewrite fmap_insert. cbn [t_regs set_regs].
  apply map_eq. intros x. destruct (decide (x = t)) as [->|Hx].
  - by rewrite lookup_insert_eq, lookup_alter_eq, lookup_fmap, Ec.
  - by rewrite lookup_insert_ne, lookup_alter_ne.
Qed.

Lemma answer_only (m : K Z) : same_regs m -> answers_only (answer t m).
Proof.
  intros Hm k k' (v & k1 & E1 & (u & k2 & E2 & [= _ <-])%bind_inv)%bind_inv. right. exists (w32 v).
  by rewrite (set_retval_regs _ _ _ _ E2), (Hm _ _ _ E1).
Qed.

Lemma answer_c_only (m : KC Z) : same_regs_ret m -> answers_only (answer_c t m).
Proof.
  intros Hm k k' ([v|l] & k1 & E1 & E)%bind_inv; [|done]. apply bind_inv in E as (u & k2 & E2 & [= _ <-]). right. exists (w32 v).
  by rewrite (set_retval_regs _ _ _ _ E2), (Hm _ _ _ E1).
Qed.

Lemma silent_only (m : KC unit) : same_regs_ret m -> answers_only m.
Proof. intros Hm k k' E. left. by apply (Hm _ _ _ E). Qed.

Lemma if_only (b : bool) (m1 m2 : KC unit) : answers_only m1 -> answers_only m2 -> answers_only (if b then m1 else m2).
Proof. by destruct b. Qed.

(** Every call but fork and execve. *)
Lemma dispatch_only r : eax r <> 1 -> eax r <> 2 -> answers_only (dispatch raw_fd stack_bytes raw_word kern_pd_vaddr n rounds t r).
Proof.
  intros H1 H2. unfold dispatch. rewrite (proj2 (Z.eqb_neq _ 1) H1), (proj2 (Z.eqb_neq _ 2) H2).
  repeat (apply if_only; [|]); try (apply answer_only); try (apply answer_c_only); try (apply silent_only).
  - apply same_regs_noret. unfold exit_. apply noret_bind. intros c. apply do_exit_noret.
  - unfold getpid. same_regs.
  - unfold getppid. same_regs.
  - apply same_regs_ret_call; [apply do_waitpid_regs|intros ?; same_regs].
  - apply do_mmap_regs.
  - unfold do_munmap. same_regs.
  - unfold do_brk. same_regs.
  - unfold do_sbrk. same_regs.
  - unfold open. apply same_regs_bind; [same_regs|]. intros cur. apply with_path_regs. intros l. apply do_open_regs.
  - apply do_close_regs.
  - apply do_read_regs.
  - apply do_write_regs.
  - apply with_path_regs. intros l. apply do_remove_regs.
  - apply with_path_regs. intros l. apply do_mkdir_regs.
  - apply with_path_regs. intros l. apply do_rmdir_regs.
  - apply do_readdir_regs.
  - apply do_lseek_regs.
  - same_regs.
Qed.
End dispatch.
