(* ===== verification/IsrSpec.v ===== *)
(** * Correctness of interrupt and system call entry

    What a handler does to the processor's side of the state, what a system
    call leaves in the caller's registers, which interrupts are acknowledged,
    and what an exception leads to. *)

From S2P Require Import Prelude Dlist Pmm Kmalloc Heap Paging Vmm VmmSpec Vmalloc Klib Terminal TerminalSpec Kprintf Namei NameiSpec Sched SchedSpec Kernel Vfs Files FilesSpec Task TaskSpec Cpu Exec ExecSpec Isr CallSpec.

#[local] Open Scope Z_scope.

Section isr.
Context {H : Type} `{!Allocator H}.
Context (raw_fd : Z -> fd_t) (stack_bytes itoa_buffer : list Z) (raw_word : Z)
        (kern_pd_vaddr kern_pd_paddr : Z) (n rounds : nat) (cr2 scancode : Z).
Local Notation hm := (hm (H := H)).

(** ** The kernel's side does not touch the ports *)

Lemma on_k_inv {A} (m : K (H := H) A) s a s' : on_k m s = Ok (a, s') ->
  m (h_kernel s) = Ok (a, h_kernel s') /\ h_cpu s' = h_cpu s.
Proof.
  unfold on_k, zoom. destruct (m (h_kernel s)) as [[b k]| | |]; try done. intros E. injection E as E1 E2.
  subst a. rewrite <- E2. done.
Qed.

Lemma on_k_ok {A} (m : K (H := H) A) s a k : m (h_kernel s) = Ok (a, k) -> on_k m s = Ok (a, mkHw k (h_cpu s)).
Proof. unfold on_k, zoom. by intros ->. Qed.

Lemma on_k_sched {A} (h : sched -> A) (s : hw H) : on_k (get_sched h) s = Ok (h (k_sched (h_kernel s)), s).
Proof. by destruct s as [[] c]. Qed.

Definition cpu_same {A} (m : hm A) : Prop := forall s a s', m s = Ok (a, s') -> h_cpu s' = h_cpu s.

Lemma cpu_same_k {A} (m : K (H := H) A) : cpu_same (on_k m).
Proof. intros s a s' E. exact (proj2 (on_k_inv _ _ _ _ E)). Qed.

Lemma cpu_same_ret {A} (a : A) : cpu_same (ret_ a).
Proof. intros s b s' E. injection E as _ <-. done. Qed.

Lemma cpu_same_bind {A B} (m : hm A) (f : A -> hm B) : cpu_same m -> (forall a, cpu_same (f a)) -> cpu_same (bind_ m f).
Proof. intros Hm Hf s b s' (a & s1 & E1 & E2)%bind_inv. rewrite (Hf _ _ _ _ E2). by eapply Hm. Qed.

Lemma cpu_same_if {A} (b : bool) (m1 m2 : hm A) : cpu_same m1 -> cpu_same m2 -> cpu_same (if b then m1 else m2).
Proof. by destruct b. Qed.

Lemma cpu_same_return t : cpu_same (syscall_return t).
Proof.
  unfold syscall_return. apply cpu_same_bind; [apply cpu_same_k|]. intros c.
  apply cpu_same_bind; [apply cpu_same_k|]. intros ?. apply cpu_same_ret.
Qed.

Lemma cpu_same_leave f : cpu_same (leave_handler f).
Proof.
  unfold leave_handler. apply cpu_same_if; [|apply cpu_same_ret].
  apply cpu_same_bind; [apply cpu_same_k|]. intros ?. apply cpu_same_return.
Qed.

Lemma cpu_same_save f g : cpu_same (save_context kern_pd_paddr f g).
Proof.
  unfold save_context. apply cpu_same_bind; [apply cpu_same_k|]. intros cur. apply cpu_same_if; [apply cpu_same_ret|].
  apply cpu_same_bind; [apply cpu_same_k|]. intros c. apply cpu_same_if; [|apply cpu_same_ret].
  apply cpu_same_bind; [apply cpu_same_k|]. intros ?. apply cpu_same_k.
Qed.

(** ** Hardware interrupts *)

(** A handler that comes back was not taken away. *)
Lemma leave_not_away f (s : hw H) e s' : leave_handler f s = Ok (e, s') -> forall l, e <> Away l.
Proof.
  unfold leave_handler. destruct (f_eip f <? VM_KERN_START); [|by intros [= <- _]].
  intros (cur & s1 & _ & E)%bind_inv. unfold syscall_return in E.
  apply bind_inv in E as (c & s2 & _ & E). apply bind_inv in E as (u & s3 & _ & E). by injection E as <- _.
Qed.

Lemma through_inv {A} (m : KC (H := H) A) rest s e s' : through m rest s = Ok (e, s') ->
  (exists l, e = Away l /\ h_cpu s' = h_cpu s) \/
  (exists a s1, h_cpu s1 = h_cpu s /\ (exists k, m (h_kernel s) = Ok (Returns a, k)) /\ rest a s1 = Ok (e, s')).
Proof.
  intros ([a|l] & s1 & E1 & E2)%bind_inv; apply on_k_inv in E1 as [E1 Ec].
  - right. exists a, s1. split; [done|]. split; [by eexists|done].
  - left. injection E2 as <- <-. by exists l.
Qed.

(** The end-of-interrupt commands a handler has sent, latest first. *)
Definition acks (number : Z) (e : ending) : list (Z * Z) :=
  match e with
  | Away _ => if number =? IRQ0 then [(PIC1_COMM, PIC_EOI)] else []
  | _ => if 40 <=? number then [(PIC2_COMM, PIC_EOI); (PIC1_COMM, PIC_EOI)] else [(PIC1_COMM, PIC_EOI)]
  end.

(** The statements after the switch on the line. *)
Definition acknowledge (f : int_frame) : hm ending :=
  on_cpu (outb PIC1_COMM PIC_EOI) ;;;
  (when 40 <=? int_number f then_ on_cpu (outb PIC2_COMM PIC_EOI)) ;;;
  leave_handler f.

Lemma acknowledge_ports f s e s' : acknowledge f s = Ok (e, s') ->
  ports (h_cpu s') = acks (int_number f) e ++ ports (h_cpu s) /\ forall l, e <> Away l.
Proof.
  unfold acknowledge. intros (u & s1 & E1 & E)%bind_inv. injection E1 as _ <-.
  apply bind_inv in E as (u2 & s2 & E2 & E). pose proof (leave_not_away _ _ _ _ E) as Hna.
  apply cpu_same_leave in E. rewrite E. split; [|done].
  unfold acks. destruct (40 <=? int_number f); injection E2 as _ <-; destruct e; try done; by destruct (Hna l).
Qed.

Lemma irq_ports f (s : hw H) e s' : _irq_handler itoa_buffer n scancode f s = Ok (e, s') ->
  ports (h_cpu s') = acks (int_number f) e ++ ports (h_cpu s).
Proof.
  unfold _irq_handler. fold (acknowledge f). unfold irq_action. destruct (Z.eqb_spec (int_number f) IRQ0) as [E0|E0].
  - intros (fired & s1 & E1 & E)%bind_inv. injection E1 as <- <-. cbn [negb] in E.
    match type of E with (if ?b then _ else _) _ = _ => destruct b end.
    + apply bind_inv in E as (u & s2 & E2 & E). injection E2 as _ <-.
      apply through_inv in E as [(l & -> & Ec)|(a & s3 & _ & (k & Ek) & _)].
      * rewrite Ec. unfold acks. by rewrite E0.
      * by destruct (task_switch_noret n _ _ _ Ek).
    + by apply acknowledge_ports in E as [-> _].
  - destruct (Z.eqb_spec (int_number f) IRQ1) as [E1|E1].
    + intros [(l & -> & Ec)|(a & s3 & Ec & _ & E)]%through_inv.
      * rewrite Ec. unfold acks. by rewrite (proj2 (Z.eqb_neq _ _) E0).
      * apply acknowledge_ports in E as [-> _]. by rewrite Ec.
    + intros (u & s1 & Ek & E)%bind_inv. apply on_k_inv in Ek as [_ Ec].
      apply acknowledge_ports in E as [-> _]. by rewrite Ec.
Qed.

(** ** Entry *)

(** The kernel when the body of the handler starts, with the registers of
    the running task saved. *)
Definition entered (k : kernel H) (cur : Z) (tc : tcb) (f : int_frame) (g : int_regs) : kernel H :=
  let v := set_errno 0 (k_vmm k) in
  set_vmm (set_mach (Paging.set_cr3 kern_pd_paddr (v_mach v)) v)
    (set_sched (set_tasks (<[cur := set_regs (save_regs f g (t_regs tc)) tc]> (tasks (k_sched k))) (k_sched k)) k).

(** The kernel with the directory [d] loaded. *)
Definition in_directory (d : Z) (k : kernel H) : kernel H := set_vmm (set_mach (Paging.set_cr3 d (v_mach (k_vmm k))) (k_vmm k)) k.

Record user_entry (k : kernel H) (cur : Z) (tc : tcb) (f : int_frame) : Prop := {
  ue_cur : actual_task (k_sched k) = cur;
  ue_null : cur <> 0;
  ue_task : tasks (k_sched k) !! cur = Some tc;
  ue_id : 0 < task_id tc;
  ue_eip : f_eip f < VM_KERN_START;
}.

Lemma isr_upd_tcb_ok (k : kernel H) t c h : tasks (k_sched k) !! t = Some c -> t <> 0 ->
  upd_tcb t h k = Ok (tt, set_sched (set_tasks (<[t := h c]> (tasks (k_sched k))) (k_sched k)) k).
Proof.
  intros Ht Hn. unfold upd_tcb, on_sched, zoom, upd_task. erewrite bind_ok by by apply ld_task_ok. reflexivity.
Qed.

Lemma isr_task_ok (k : kernel H) t c : tasks (k_sched k) !! t = Some c -> t <> 0 -> task t k = Ok (c, k).
Proof. intros Ht Hn. apply on_sched_get. by apply ld_task_ok. Qed.

Lemma user_entry_ok (s : hw H) cur tc f g : user_entry (h_kernel s) cur tc f ->
  exists k0, on_k (set_errno_ 0) s = Ok (tt, mkHw k0 (h_cpu s)) /\
    save_context kern_pd_paddr f g (mkHw k0 (h_cpu s)) = Ok (tt, mkHw (entered (h_kernel s) cur tc f g) (h_cpu s)).
Proof.
  intros [Hcur Hn Ht Hid Heip]. eexists. split; [reflexivity|]. unfold save_context.
  erewrite bind_ok by apply on_k_sched. cbn [h_kernel k_sched set_vmm]. rewrite Hcur, (proj2 (Z.eqb_neq cur 0)) by done.
  erewrite bind_ok by (apply on_k_ok, isr_task_ok; [exact Ht|exact Hn]).
  rewrite (proj2 (Z.ltb_lt 0 (task_id tc))), (proj2 (Z.ltb_lt (f_eip f) VM_KERN_START)) by done. cbn [andb].
  erewrite bind_ok by (apply on_k_ok, isr_upd_tcb_ok; [exact Ht|exact Hn]). reflexivity.
Qed.

(** The registers with which a system call returns. *)
Definition with_errno (e : Z) (r : task_regs) : task_regs := if 0 <? e then regs_set_errno e r else r.

Lemma syscall_handler_returns (s : hw H) cur (k1 : kernel H) tc1 r :
  actual_task (k_sched (h_kernel s)) = cur -> cur <> 0 -> t_regs <$> tasks (k_sched (h_kernel s)) !! cur = Some r ->
  dispatch raw_fd stack_bytes raw_word kern_pd_vaddr n rounds cur r (h_kernel s) = Ok (Returns tt, k1) ->
  tasks (k_sched k1) !! cur = Some tc1 -> exists k2,
  _syscall_handler raw_fd stack_bytes raw_word kern_pd_vaddr n rounds s = Ok (ToUser cur, mkHw k2 (h_cpu s)) /\
  t_regs <$> tasks (k_sched k2) !! cur = Some (with_errno (v_errno (k_vmm k1)) (t_regs tc1)) /\
  Paging.cr3 (v_mach (k_vmm k2)) = Sched.cr3 (t_regs tc1) /\
  (forall x, x <> cur -> tasks (k_sched k2) !! x = tasks (k_sched k1) !! x).
Proof.
  destruct s as [k cp]. cbn [h_kernel h_cpu].
  intros Hcur Hn Hr Hd Ht1. destruct (tasks (k_sched k) !! cur) as [c|] eqn:Hc; [|done]. injection Hr as <-.
  unfold _syscall_handler. erewrite bind_ok by apply on_k_sched. cbn [h_kernel]. rewrite Hcur.
  erewrite bind_ok by (apply on_k_ok, isr_task_ok; [exact Hc|exact Hn]). unfold through.
  erewrite bind_ok by (apply on_k_ok; exact Hd). cbv beta iota. erewrite bind_ok by reflexivity.
  unfold with_errno. cbn [h_kernel h_cpu]. destruct (0 <? v_errno (k_vmm k1)).
  - erewrite bind_ok by (apply on_k_ok, isr_upd_tcb_ok; [exact Ht1|exact Hn]). unfold syscall_return.
    erewrite bind_ok by (apply on_k_ok, isr_task_ok; [cbn; apply lookup_insert_eq|exact Hn]).
    eexists. split; [reflexivity|]. cbn. split; [by rewrite lookup_insert_eq|]. split; [done|].
    intros x Hx. by rewrite lookup_insert_ne.
  - erewrite bind_ok by reflexivity. unfold syscall_return.
    erewrite bind_ok by (apply on_k_ok, isr_task_ok; [exact Ht1|exact Hn]).
    eexists. split; [reflexivity|]. cbn. split; [by rewrite Ht1|]. done.
Qed.

Lemma syscall_entered (s : hw H) cur tc f g : user_entry (h_kernel s) cur tc f -> 48 <= int_number f ->
  general_handler raw_fd stack_bytes itoa_buffer raw_word kern_pd_vaddr kern_pd_paddr n rounds cr2 scancode f g s =
  _syscall_handler raw_fd stack_bytes raw_word kern_pd_vaddr n rounds (mkHw (entered (h_kernel s) cur tc f g) (h_cpu s)).
Proof.
  intros Hue Hnum. destruct (user_entry_ok s cur tc f g Hue) as (ke & E1 & E2).
  unfold general_handler. erewrite bind_ok by exact E1. erewrite bind_ok by exact E2. unfold IDT_CPU_EXCEPTIONS, IRQ_QUANTITY.
  by rewrite (proj2 (Z.ltb_ge _ 32)), (proj2 (Z.ltb_ge _ (32 + 16))) by lia.
Qed.

(** A call that does not come back. *)
Lemma syscall_away (s : hw H) cur tc f g l k1 : user_entry (h_kernel s) cur tc f -> 48 <= int_number f ->
  dispatch raw_fd stack_bytes raw_word kern_pd_vaddr n rounds cur (save_regs f g (t_regs tc)) (entered (h_kernel s) cur tc f g) =
    Ok (Left l, k1) ->
  general_handler raw_fd stack_bytes itoa_buffer raw_word kern_pd_vaddr kern_pd_paddr n rounds cr2 scancode f g s =
    Ok (Away l, mkHw k1 (h_cpu s)).
Proof.
  intros Hue Hnum Hd. rewrite (syscall_entered s cur tc f g Hue Hnum). unfold _syscall_handler.
  erewrite bind_ok by apply on_k_sched. cbn [h_kernel]. change (actual_task (k_sched (entered _ _ _ _ _))) with (actual_task (k_sched (h_kernel s))).
  rewrite (ue_cur _ _ _ _ Hue).
  erewrite bind_ok by (apply on_k_ok, isr_task_ok; [cbn; apply lookup_insert_eq|apply Hue]).
  unfold through. erewrite bind_ok by (apply on_k_ok; exact Hd). reflexivity.
Qed.

Lemma syscall_faults (s : hw H) cur tc f g : user_entry (h_kernel s) cur tc f -> 48 <= int_number f ->
  dispatch raw_fd stack_bytes raw_word kern_pd_vaddr n rounds cur (save_regs f g (t_regs tc)) (entered (h_kernel s) cur tc f g) = Fault ->
  general_handler raw_fd stack_bytes itoa_buffer raw_word kern_pd_vaddr kern_pd_paddr n rounds cr2 scancode f g s = Fault.
Proof.
  intros Hue Hnum Hd. rewrite (syscall_entered s cur tc f g Hue Hnum). unfold _syscall_handler.
  erewrite bind_ok by apply on_k_sched. cbn [h_kernel]. change (actual_task (k_sched (entered _ _ _ _ _))) with (actual_task (k_sched (h_kernel s))).
  rewrite (ue_cur _ _ _ _ Hue).
  erewrite bind_ok by (apply on_k_ok, isr_task_ok; [cbn; apply lookup_insert_eq|apply Hue]).
  change (t_regs (set_regs ?r _)) with r. unfold through, on_k at 1, bind_, zoom. cbn [h_kernel]. by rewrite Hd.
Qed.
End isr.

(** ** Properties *)

(** The registers of a task that is answered. *)
Lemma answered_lookup t m m' r : answered_only t m m' -> m !! t = Some r -> exists v, m' !! t = Some (regs_set_retval v r).
Proof.
  intros [->|[v ->]] Hr; [exists (eax r); rewrite Hr; by destruct r|]. exists v. by rewrite lookup_alter_eq, Hr.
Qed.

Lemma answered_others t m m' x : answered_only t m m' -> x <> t -> m' !! x = m !! x.
Proof. intros [->|[v ->]] Hx; [done|]. by rewrite lookup_alter_ne. Qed.

(** C11: a system call of a user program that the kernel serves without
    switching ends in user mode, in the caller, with the caller's page
    directory loaded.  The registers it finds are those the call left in its
    block, with [errno] in ESI when it is set.  For every call but fork and
    execve these are the registers it called with, EAX (the answer) and ESI
    apart, and no other task's registers change.  A number that names no call
    changes nothing at all: the caller finds the number itself in EAX. *)
Theorem syscall_returns_to_caller {H} `{!Allocator H} raw_fd stack_bytes itoa_buffer raw_word kern_pd_vaddr kern_pd_paddr
    n rounds cr2 scancode f g (s : hw H) cur tc :
  48 <= int_number f -> user_entry (h_kernel s) cur tc f ->
  let handler := general_handler raw_fd stack_bytes itoa_buffer raw_word kern_pd_vaddr kern_pd_paddr n rounds cr2 scancode f g s in
  let called := save_regs f g (t_regs tc) in
  let k0 := entered kern_pd_paddr (h_kernel s) cur tc f g in
  let served := dispatch raw_fd stack_bytes raw_word kern_pd_vaddr n rounds cur called k0 in
  (forall k1 tc1, served = Ok (Returns tt, k1) -> tasks (k_sched k1) !! cur = Some tc1 -> exists k2,
     handler = Ok (ToUser cur, mkHw k2 (h_cpu s)) /\
     t_regs <$> tasks (k_sched k2) !! cur = Some (with_errno (v_errno (k_vmm k1)) (t_regs tc1)) /\
     Paging.cr3 (v_mach (k_vmm k2)) = Sched.cr3 (t_regs tc1)) /\
  (i_eax g <> 1 -> i_eax g <> 2 -> forall k1, served = Ok (Returns tt, k1) -> exists k2 v,
     handler = Ok (ToUser cur, mkHw k2 (h_cpu s)) /\
     t_regs <$> tasks (k_sched k2) !! cur = Some (with_errno (v_errno (k_vmm k1)) (regs_set_retval v called)) /\
     Paging.cr3 (v_mach (k_vmm k2)) = Sched.cr3 (t_regs tc) /\
     forall x, x <> cur -> t_regs <$> tasks (k_sched k2) !! x = t_regs <$> tasks (k_sched (h_kernel s)) !! x) /\
  (18 < i_eax g -> handler = Ok (ToUser cur, mkHw (in_directory (Sched.cr3 (t_regs tc)) k0) (h_cpu s))).
Proof.
  intros Hnum Hue handler called k0 served.
  pose proof (syscall_entered raw_fd stack_bytes itoa_buffer raw_word kern_pd_vaddr kern_pd_paddr n rounds cr2 scancode s cur tc f g Hue Hnum) as Eh.
  fold handler k0 in Eh.
  assert (Hcur : tasks (k_sched k0) !! cur = Some (set_regs called tc)) by (cbn; apply lookup_insert_eq).
  pose proof (fun k1 tc1 => syscall_handler_returns raw_fd stack_bytes raw_word kern_pd_vaddr n rounds (mkHw k0 (h_cpu s)) cur k1 tc1 called
    (ue_cur _ _ _ _ Hue) (ue_null _ _ _ _ Hue) ltac:(cbn [h_kernel]; by rewrite Hcur)) as Hrun. cbn [h_kernel h_cpu] in Hrun.
  split; [|split].
  - intros k1 tc1 Hd Ht1. destruct (Hrun k1 tc1 Hd Ht1) as (k2 & E3 & Hr & Hcr & _). exists k2. by rewrite Eh.
  - intros Hn1 Hn2 k1 Hd.
    pose proof (dispatch_only raw_fd stack_bytes raw_word kern_pd_vaddr n rounds cur called Hn1 Hn2 k0 k1 Hd) as Ha.
    destruct (answered_lookup _ _ _ called Ha) as [v Hv]; [unfold saved_regs; by rewrite lookup_fmap, Hcur|].
    unfold saved_regs in Hv. rewrite lookup_fmap in Hv. destruct (tasks (k_sched k1) !! cur) as [tc1|] eqn:Ht1; [|done].
    injection Hv as Hv. destruct (Hrun k1 tc1 Hd Ht1) as (k2 & E3 & Hr & Hcr & Hoth). exists k2, v. rewrite Hv in Hr, Hcr.
    split; [by rewrite Eh|]. split; [done|]. split; [done|]. intros x Hx. rewrite Hoth by done.
    pose proof (answered_others _ _ _ x Ha Hx) as Eo. unfold saved_regs in Eo. rewrite !lookup_fmap in Eo. rewrite Eo. cbn.
    by rewrite lookup_insert_ne.
  - intros Hbig. rewrite Eh. unfold _syscall_handler, through, syscall_return.
    erewrite bind_ok by apply on_k_sched. cbn [h_kernel]. rewrite (ue_cur _ _ _ _ Hue : actual_task (k_sched k0) = cur).
    erewrite bind_ok by (apply on_k_ok, isr_task_ok; [exact Hcur|apply Hue]). cbn [t_regs set_regs].
    rewrite (bind_ok _ _ _ (Returns tt) (mkHw k0 (h_cpu s))).
    + erewrite bind_ok by reflexivity. erewrite bind_ok by reflexivity.
      erewrite bind_ok by (apply on_k_ok, isr_task_ok; [exact Hcur|apply Hue]). reflexivity.
    + unfold dispatch. cbn [eax called save_regs].
      repeat match goal with |- context [?x =? ?y] => rewrite (proj2 (Z.eqb_neq x y)) by lia end. reflexivity.
Qed.

#[local] Instance isr_allocator : Allocator malloc_state := kmalloc_allocator 0xc0400000 demo_raw demo_bytes.

(** User code of task 2, interrupted at 0x8048000 with a call of number [a]
    and the arguments [b] and [c]. *)
Definition user_frame (number code : Z) : int_frame := mkFrame number code 0x8048000 0x1b 0x202 0xbfffe000 0x23.
Definition user_regs (a b c : Z) : int_regs := mkIntRegs 0x23 7 6 5 4 b 3 c a.

Definition isr_kernel : hw malloc_state := mkHw (waiting_kernel (mkWait 0 0 0)) cpu_boot.

Definition isr_task : tcb := demo_task 2 RUNNING 2 0 0 0 0x10 0.

Lemma isr_entry number code : user_entry (h_kernel isr_kernel) 0x20 isr_task (user_frame number code).
Proof. split; try reflexivity; try discriminate. Qed.

(** What is looked at in a result: the registers of task 2 and [errno]. *)
Definition regs_view (r : res (ctl unit * kernel malloc_state)) : option (task_regs * Z) :=
  match r with
  | Ok (Returns _, k) => (fun c => (t_regs c, v_errno (k_vmm k))) <$> tasks (k_sched k) !! 0x20
  | _ => None
  end.

Lemma regs_view_inv r v : regs_view r = Some v -> exists k tc,
  r = Ok (Returns tt, k) /\ tasks (k_sched k) !! 0x20 = Some tc /\ v = (t_regs tc, v_errno (k_vmm k)).
Proof.
  destruct r as [[[[]|l] k]| | |]; try done. cbn. destruct (tasks (k_sched k) !! 0x20) as [tc|] eqn:E; [|done].
  intros [= <-]. by exists k, tc.
Qed.

Definition isr_call (g : int_regs) : res (ending * hw malloc_state) :=
  general_handler (fun _ => mkFd 0 0 0 0 0) [] (replicate 20 0) 0 0 0x1000 5 5 0 0 (user_frame 48 0) g isr_kernel.

Definition user_sees (r : res (ending * hw malloc_state)) : option task_regs :=
  match r with Ok (ToUser t, s) => t_regs <$> tasks (k_sched (h_kernel s)) !! t | _ => None end.

(** [getpid]; [lseek] on a descriptor that is not open; call number 19. *)
Lemma syscall_returns_to_caller_witness :
  user_sees (isr_call (user_regs 3 0 0)) = Some (mkRegs 2 0 0 3 6 7 0xbfffe000 5 0x8048000 0x202 0 0 0) /\
  user_sees (isr_call (user_regs 18 3 0)) = Some (mkRegs UINT32_MAX 3 0 3 EBADF 7 0xbfffe000 5 0x8048000 0x202 0 0 0) /\
  user_sees (isr_call (user_regs 19 0 0)) = Some (mkRegs 19 0 0 3 6 7 0xbfffe000 5 0x8048000 0x202 0 0 0).
Proof.
  pose proof (fun g => syscall_returns_to_caller (fun _ => mkFd 0 0 0 0 0) [] (replicate 20 0) 0 0 0x1000 5 5 0 0 (user_frame 48 0) g
    isr_kernel 0x20 isr_task ltac:(cbn; lia) (isr_entry 48 0)) as Hcall.
  assert (Hrun : forall g r e, regs_view (dispatch (fun _ => mkFd 0 0 0 0 0) [] 0 0 5 5 0x20 (save_regs (user_frame 48 0) g (t_regs isr_task))
      (entered 0x1000 (h_kernel isr_kernel) 0x20 isr_task (user_frame 48 0) g)) = Some (r, e) ->
    user_sees (isr_call g) = Some (with_errno e r)).
  { intros g r e Hv. destruct (regs_view_inv _ _ Hv) as (k1 & tc1 & Hd & Ht & Hre). injection Hre as -> ->.
    destruct (proj1 (Hcall g) k1 tc1 Hd Ht) as (k2 & Hh & Hr & _). unfold isr_call. rewrite Hh. exact Hr. }
  split; [|split].
  - rewrite (Hrun _ (mkRegs 2 0 0 3 6 7 0xbfffe000 5 0x8048000 0x202 0 0 0) 0); [reflexivity|vm_compute; reflexivity].
  - rewrite (Hrun _ (mkRegs UINT32_MAX 3 0 3 6 7 0xbfffe000 5 0x8048000 0x202 0 0 0) EBADF); [reflexivity|vm_compute; reflexivity].
  - unfold isr_call. rewrite (proj2 (proj2 (Hcall (user_regs 19 0 0))) ltac:(cbn; lia)). reflexivity.
Defined.

(** C31: every hardware interrupt whose handler comes back, to the kernel or
    to a task, has sent one end-of-interrupt command to the first controller,
    and one to the second for a line of it.  A timer interrupt that switches
    tasks has sent its command before; a keyboard interrupt that switches, as
    Enter does when the reader outranks the running task, has sent none, and
    the controller delivers no further keyboard interrupt. *)
Theorem irq_acknowledged {H} `{!Allocator H} raw_fd stack_bytes itoa_buffer raw_word kern_pd_vaddr kern_pd_paddr
    n rounds cr2 scancode f g (s s' : hw H) e :
  IRQ0 <= int_number f < IRQ0 + IRQ_QUANTITY ->
  general_handler raw_fd stack_bytes itoa_buffer raw_word kern_pd_vaddr kern_pd_paddr n rounds cr2 scancode f g s = Ok (e, s') ->
  ports (h_cpu s') = acks (int_number f) e ++ ports (h_cpu s).
Proof.
  intros Hnum. unfold general_handler, IDT_CPU_EXCEPTIONS. unfold IRQ0, IRQ_QUANTITY in *.
  intros (u & s1 & E1 & E)%bind_inv. apply cpu_same_k in E1.
  apply bind_inv in E as (u2 & s2 & E2 & E). apply cpu_same_save in E2.
  rewrite (proj2 (Z.ltb_ge _ _)) in E by lia. rewrite (proj2 (Z.ltb_lt _ _)) in E by lia.
  apply irq_ports in E. by rewrite E, E2, E1.
Qed.

(** A reader of system priority sleeps while a user task runs. *)
Definition ranked_kernel : kernel malloc_state :=
  let k := reading_kernel 0x10 in
  let low t := mkTcb (task_id t) (kernel_stack t) (exit_code t) (fd_ctr t) (used_fd t) (t_mask t) 0 (wait4 t) (t_parent t)
    (t_first_child t) (t_last_child t) (t_prev_sibling t) (t_next_sibling t) (t_state t) USER (t_next t) (t_prev t) (t_regs t) (t_aspace t) in
  set_sched (set_tasks (alter low 0x20 (tasks (k_sched k))) (k_sched k)) k.

#[local] Abbreviation isr_run number k :=
  (general_handler (fun _ => mkFd 0 0 0 0 0) [] (replicate 20 0) 0 0 0x1000 5 5 0 ENTER
    (user_frame number 0) (user_regs 0 0 0) (mkHw k cpu_boot)).

Definition ends_with (r : res (ending * hw malloc_state)) : option ending :=
  match r with Ok (e, _) => Some e | _ => None end.

Lemma ends_with_inv r e : ends_with r = Some e -> exists s, r = Ok (e, s).
Proof. destruct r as [[e' s]| | |]; try done. intros [= ->]. by exists s. Qed.

(** A tick without a switch, and Enter with one. *)
Lemma irq_acknowledged_witness :
  (exists s, isr_run IRQ0 (waiting_kernel (mkWait 0 0 0)) = Ok (ToUser 0x20, s) /\ ports (h_cpu s) = [(PIC1_COMM, PIC_EOI)]) /\
  (exists s, isr_run IRQ1 ranked_kernel = Ok (Away Switched, s) /\ ports (h_cpu s) = []).
Proof.
  split.
  - destruct (ends_with_inv (isr_run IRQ0 (waiting_kernel (mkWait 0 0 0))) (ToUser 0x20) ltac:(vm_compute; reflexivity)) as [s E].
    exists s. split; [exact E|]. etransitivity; [refine (irq_acknowledged _ _ _ _ _ _ _ _ _ _ _ _ _ _ _ _ E); cbn; unfold IRQ0, IRQ1, IRQ_QUANTITY; lia|reflexivity].
  - destruct (ends_with_inv (isr_run IRQ1 ranked_kernel) (Away Switched) ltac:(vm_compute; reflexivity)) as [s E].
    exists s. split; [exact E|]. etransitivity; [refine (irq_acknowledged _ _ _ _ _ _ _ _ _ _ _ _ _ _ _ _ E); cbn; unfold IRQ0, IRQ1, IRQ_QUANTITY; lia|reflexivity].
Defined.

(** An access of a user program that no region of it allows: those that
    contain the address are read-only and the access is a write. *)
Record stray_access {H} `{!Allocator H} (k : kernel H) (tc : tcb) (cr2 code : Z) : Prop := {
  sa_user : Z.land code PG_USER <> 0;
  sa_regions : exists l, as_list (k_vmm k) (t_aspace tc) l /\
    forall q r, q ∈ l -> v_regions (k_vmm k) !! q = Some r -> lo (v_regions (k_vmm k)) q <= cr2 <= hi (v_regions (k_vmm k)) q ->
      Z.land code PG_RW <> 0 /\ Z.land (r_flags r) VMM_RW = 0;
}.

(** The outcome of a routine that does not return, for any caller. *)
Definition gone {H A B} (r : res (ctl A * kernel H)) : res (ctl B * kernel H) :=
  match r with
  | Ok (Left l, k) => Ok (Left l, k)
  | Ok (Returns _, _) | Fault => Fault
  | Panic e => Panic e
  | Hang => Hang
  end.

Lemma call_gone {H A B} (m : KC (H := H) A) (f : A -> KC (H := H) B) k : noret m -> call m f k = gone (m k).
Proof.
  intros Hm. unfold call, bind_. destruct (m k) as [[[a|l] k']| | |] eqn:E; try done. by destruct (Hm k a k').
Qed.

Lemma stray_signal {H} `{!Allocator H} (k : kernel H) tc cr2 code : stray_access k tc cr2 code ->
  pg_page_fault_handler (t_aspace tc) cr2 code (k_vmm k) = Ok (Some SIGSEGV, k_vmm k).
Proof.
  intros [Hu (l & Ha & Hno)]. unfold pg_page_fault_handler. rewrite (proj2 (Z.eqb_neq _ 0)) by done. cbn [negb].
  unfold vmm_page_fault_handler. destruct (find_region_spec (k_vmm k) _ l cr2 Ha) as (x & E & Hx).
  rewrite (bind_ok _ _ _ _ _ E). destruct Hx as [[-> _]|(Hin & Hlh & _)]; [done|].
  destruct (al_region _ _ _ x Ha Hin) as (r & Er & Hx0 & _). rewrite (proj2 (Z.eqb_neq x 0)) by done.
  destruct (Hno x r Hin Er Hlh) as [Hw Hro].
  rewrite (bind_ok _ _ (k_vmm k) r (k_vmm k)) by (unfold ld_reg; by rewrite Er, (proj2 (Z.eqb_neq x 0) Hx0)).
  rewrite (proj2 (Z.eqb_neq _ 0) Hw), Hro. cbn [negb]. by destruct (Z.land code PG_PRESENT =? 0).
Qed.

(** What a stray access leads to. *)
Lemma page_fault_stray {H} `{!Allocator H} (k : kernel H) cur tc cr2 code n :
  stray_access k tc cr2 code -> actual_task (k_sched k) = cur -> cur <> 0 -> tasks (k_sched k) !! cur = Some tc ->
  page_fault (S n) cr2 code k = if Z.land (t_mask tc) SIGSEGV =? 0 then Ok (Returns tt, k) else gone (do_exit n cur 139 k).
Proof.
  intros Hst Hcur Hn Ht. pose proof (stray_signal _ _ _ _ Hst) as Esig. destruct Hst as [Hu _]. unfold page_fault.
  erewrite bind_ok by (unfold get_sched; apply on_sched_get; reflexivity). rewrite Hcur.
  rewrite (proj2 (Z.eqb_neq _ 0)) by done.
  erewrite bind_ok by (erewrite bind_ok by (by apply isr_task_ok); reflexivity).
  rewrite (bind_ok _ _ k (Some SIGSEGV) k) by (unfold on_vm, zoom; rewrite Esig; by destruct k).
  destruct (Z.land (t_mask tc) SIGSEGV =? 0) eqn:Em.
  - rewrite (call_returns _ _ _ 0 k); [done|]. cbn [sig_send]. erewrite bind_ok by by apply isr_task_ok. by rewrite Em.
  - assert (Es : sig_send (S n) cur SIGSEGV k = gone (do_exit n cur 139 k)).
    { cbn [sig_send]. erewrite bind_ok by by apply isr_task_ok. rewrite Em.
      change (SIGSEGV =? SIGKILL) with false. change (SIGSEGV =? SIGSEGV) with true. cbv iota.
      apply call_gone, do_exit_noret. }
    unfold call at 1, bind_. rewrite Es. destruct (do_exit n cur 139 k) as [[[a|l'] k']| | |] eqn:Ed; try done.
Qed.

(** A page fault of the kernel itself. *)
Lemma kernel_fault_halts {H} `{!Allocator H} (s : hw H) cr2 f n : Z.land (err_code f) PG_USER = 0 ->
  cr2 < 0x1000 \/ Z.land (err_code f) PG_PRESENT <> 0 ->
  exists msg, through (page_fault (S n) cr2 (err_code f)) (fun _ => leave_handler f) s = Panic msg.
Proof.
  intros Hu Hbad. unfold through, bind_ at 1, on_k at 1, zoom. unfold page_fault.
  erewrite bind_ok by (unfold get_sched; apply on_sched_get; reflexivity). rewrite Hu. erewrite bind_ok by reflexivity.
  unfold bind_ at 1, on_vm at 1, zoom. unfold pg_page_fault_handler. rewrite Hu. cbn [negb Z.eqb].
  destruct (Z.ltb_spec cr2 0x1000) as [|Hge]; [by eexists|]. destruct Hbad as [|Hp]; [lia|].
  rewrite (proj2 (Z.eqb_neq _ 0) Hp). by eexists.
Qed.

(** The entry of a handler, from user mode or from the kernel. *)
Lemma entry_returns {H} `{!Allocator H} kern_pd_paddr (s : hw H) f g :
  (actual_task (k_sched (h_kernel s)) = 0 \/ is_Some (tasks (k_sched (h_kernel s)) !! actual_task (k_sched (h_kernel s)))) ->
  exists s1, on_k (set_errno_ 0) s = Ok (tt, s1) /\ exists s2, save_context kern_pd_paddr f g s1 = Ok (tt, s2).
Proof.
  intros Hcur. eexists. split; [reflexivity|]. unfold save_context.
  erewrite bind_ok by apply on_k_sched. cbn [h_kernel k_sched set_vmm].
  destruct (Z.eqb_spec (actual_task (k_sched (h_kernel s))) 0) as [|H0]; [by eexists|].
  destruct Hcur as [?|[tc Ht]]; [done|]. erewrite bind_ok by (apply on_k_ok, isr_task_ok; [exact Ht|exact H0]).
  destruct ((0 <? task_id tc) && (f_eip f <? VM_KERN_START)); [|by eexists].
  erewrite bind_ok by (apply on_k_ok, isr_upd_tcb_ok; [exact Ht|exact H0]). by eexists.
Qed.

(** C30: exceptions.  An exception other than the page fault halts the machine
    with its name, whether a program or the kernel raised it.  A page fault of
    a program at an address that none of its regions allows to be accessed so
    exits the program with status 139 and does not come back, if the program
    accepts SIGSEGV; if it does not, the program goes on at the same
    instruction and nothing but its saved registers has changed.  A page fault
    of the kernel below 0x1000, or on a page that is there, halts the
    machine. *)
Theorem exceptions_halt_or_kill {H} `{!Allocator H} raw_fd stack_bytes itoa_buffer raw_word kern_pd_vaddr kern_pd_paddr
    n rounds cr2 scancode f g (s : hw H) :
  0 <= int_number f < 32 ->
  let handler := general_handler raw_fd stack_bytes itoa_buffer raw_word kern_pd_vaddr kern_pd_paddr (S n) rounds cr2 scancode f g s in
  (actual_task (k_sched (h_kernel s)) = 0 \/ is_Some (tasks (k_sched (h_kernel s)) !! actual_task (k_sched (h_kernel s))) ->
     (int_number f <> 14 -> exists name, exception_name !! Z.to_nat (int_number f) = Some name /\ handler = Panic name) /\
     (int_number f = 14 -> Z.land (err_code f) PG_USER = 0 -> cr2 < 0x1000 \/ Z.land (err_code f) PG_PRESENT <> 0 ->
       exists msg, handler = Panic msg)) /\
  (forall cur tc, int_number f = 14 -> user_entry (h_kernel s) cur tc f ->
     let k0 := entered kern_pd_paddr (h_kernel s) cur tc f g in stray_access k0 tc cr2 (err_code f) ->
     handler =
       if Z.land (t_mask tc) SIGSEGV =? 0
       then Ok (ToUser cur, mkHw (in_directory (Sched.cr3 (t_regs tc)) k0) (h_cpu s))
       else match do_exit n cur 139 k0 with
            | Ok (Left l, k) => Ok (Away l, mkHw k (h_cpu s))
            | Panic e => Panic e
            | Hang => Hang
            | _ => Fault
            end).
Proof.
  intros Hnum handler.
  assert (Eh : forall s1 s2, on_k (set_errno_ 0) s = Ok (tt, s1) -> save_context kern_pd_paddr f g s1 = Ok (tt, s2) ->
    handler = _exception_handler (S n) cr2 f s2).
  { intros s1 s2 E1 E2. unfold handler, general_handler. erewrite bind_ok by exact E1. erewrite bind_ok by exact E2.
    unfold IDT_CPU_EXCEPTIONS. by rewrite (proj2 (Z.ltb_lt _ 32)) by lia. }
  split.
  - intros Hcur. destruct (entry_returns kern_pd_paddr s f g Hcur) as (s1 & E1 & s2 & E2). rewrite (Eh _ _ E1 E2).
    unfold _exception_handler. split.
    + intros Hne. rewrite (proj2 (Z.eqb_neq _ 14)) by done.
      destruct (lookup_lt_is_Some_2 exception_name (Z.to_nat (int_number f)) ltac:(cbn; lia)) as [name Hname].
      exists name. split; [done|]. by rewrite Hname.
    + intros -> Hu Hbad. change (14 =? 14) with true. cbv iota. by apply kernel_fault_halts.
  - intros cur tc E14 Hue k0 Hst. destruct (user_entry_ok kern_pd_paddr s cur tc f g Hue) as (ke & E1 & E2).
    rewrite (Eh _ _ E1 E2). unfold _exception_handler. rewrite E14. change (14 =? 14) with true. cbv iota.
    assert (Ht : tasks (k_sched k0) !! cur = Some (set_regs (save_regs f g (t_regs tc)) tc)) by (cbn; apply lookup_insert_eq).
    assert (Ef := page_fault_stray k0 cur (set_regs (save_regs f g (t_regs tc)) tc) cr2 (err_code f) n ltac:(by destruct Hst; split)
      (ue_cur _ _ _ _ Hue) (ue_null _ _ _ _ Hue) Ht). cbn [t_mask set_regs] in Ef. fold k0.
    unfold through, bind_ at 1, on_k at 1, zoom. cbn [h_kernel h_cpu]. rewrite Ef. destruct (Z.land (t_mask tc) SIGSEGV =? 0).
    + cbn [h_kernel h_cpu]. unfold leave_handler. rewrite (proj2 (Z.ltb_lt _ _)) by apply Hue.
      erewrite bind_ok by apply on_k_sched. cbn [h_kernel]. rewrite (ue_cur _ _ _ _ Hue : actual_task (k_sched k0) = cur).
      unfold syscall_return. erewrite bind_ok by (apply on_k_ok, isr_task_ok; [exact Ht|apply Hue]). reflexivity.
    + destruct (do_exit n cur 139 k0) as [[[a|l] k]| | |]; done.
Qed.

(** Task 2 accepts SIGSEGV and has an address space without regions; its
    parent, which waits for it, takes no SIGCHLD. *)
Definition stray_kernel : hw malloc_state :=
  mkHw (set_sched (set_tasks (alter (set_mask 0) 0x10 (alter (set_mask SIG_DEFAULT_MASK) 0x20 waiting_tasks)) waiting_sched)
    (set_vmm (set_aspaces {[ 0xa00 := zero_aspace ]} (k_vmm (h_kernel isr_kernel))) (h_kernel isr_kernel))) cpu_boot.

Definition stray_task : tcb := set_mask SIG_DEFAULT_MASK isr_task.

Lemma stray_entry number code : user_entry (h_kernel stray_kernel) 0x20 stray_task (user_frame number code).
Proof. split; try reflexivity; try discriminate. Qed.

Definition leaves {A S} (r : res (ctl A * S)) : option leave :=
  match r with Ok (Left l, _) => Some l | _ => None end.

Lemma leaves_inv {A S} (r : res (ctl A * S)) l : leaves r = Some l -> exists k, r = Ok (Left l, k).
Proof. destruct r as [[[a|l'] k]| | |]; try done. intros [= ->]. by exists k. Qed.

#[local] Abbreviation stray_run number code :=
  (general_handler (fun _ => mkFd 0 0 0 0 0) [] (replicate 20 0) 0 0 0x1000 6 5 0 0
    (user_frame number code) (user_regs 0 0 0) stray_kernel).
#[local] Abbreviation stray_entered :=
  (entered 0x1000 (h_kernel stray_kernel) 0x20 stray_task (user_frame 14 4) (user_regs 0 0 0)).

Lemma stray_ok : stray_access stray_entered stray_task 0 (err_code (user_frame 14 4)).
Proof.
  split; [discriminate|]. exists []. split; [|intros q r Hq; by apply elem_of_nil in Hq].
  split; [by exists zero_aspace|discriminate|split; [exact I|constructor]|intros p r Hp; by apply elem_of_nil in Hp|constructor].
Qed.

Lemma stray_exit : exists k, do_exit 5 0x20 139 stray_entered = Ok (Left Switched, k).
Proof. apply leaves_inv. vm_compute. reflexivity. Qed.

(** A division by 0, and a read of address 0, from user code. *)
Lemma exceptions_halt_or_kill_witness :
  stray_run 0 0 = Panic "Divide Error" /\ exists s, stray_run 14 4 = Ok (Away Switched, s).
Proof.
  split.
  - destruct (proj1 (exceptions_halt_or_kill (fun _ => mkFd 0 0 0 0 0) [] (replicate 20 0) 0 0 0x1000 5 5 0 0
      (user_frame 0 0) (user_regs 0 0 0) stray_kernel ltac:(cbn; lia)) ltac:(right; by eexists)) as [Hp _].
    destruct (Hp ltac:(discriminate)) as (name & Hname & E). injection Hname as <-. exact E.
  - pose proof (proj2 (exceptions_halt_or_kill (fun _ => mkFd 0 0 0 0 0) [] (replicate 20 0) 0 0 0x1000 5 5 0 0
      (user_frame 14 4) (user_regs 0 0 0) stray_kernel ltac:(cbn; lia)) 0x20 stray_task eq_refl (stray_entry 14 4) stray_ok) as Hk.
    destruct stray_exit as [k Ek]. cbv zeta in Hk. rewrite Ek in Hk. eexists. exact Hk.
Defined.
