(* ===== verification/WaitSpec.v ===== *)
(** * Waiting for a child

    [waitpid] puts the caller to sleep until the child it names exits; an
    identifier no queued task has is refused with ESRCH.  With the exit of
    the child ([ReapSpec.v]) this makes the whole conversation: the parent
    calls and the child's directory is loaded with the child's registers; the
    child calls exit, whose entry loads the kernel's directory again; and the
    parent returns with its exit code. *)

From S2P Require Import Prelude Dlist Pmm Kmalloc Heap Paging MmuSpec SpaceSpec DupSpec Vmm VmmSpec ForkAspace DestroySpec Vmalloc VmallocSpec AreaSpec Klib Terminal Kprintf Namei Sched SchedSpec Kernel Vfs Files FilesSpec FdSpec Task TaskSpec FamilySpec ForkTask RoundRobin Cpu Exec Isr IsrSpec ReapSpec.

#[local] Open Scope Z_scope.

Section wait.
Context {H : Type} `{!Allocator H}.
Implicit Types (k : kernel H).

(** What the call writes into the caller's block. *)
Definition waits (x : Z) (c : tcb) : tcb := set_signals (Z.lor (t_mask c) SIGCHLD) (t_current c) (set_wait4 x c).

(** The caller [t] sleeps, waiting for [x]. *)
Record blocked (s s' : sched) (qs : qid -> list Z) (t x : Z) (c : tcb) (l1 l2 : list Z) : Prop := {
  bl_queues : sched_ok s' (moved qs (_set_queue c) SleepQ l1 t l2);
  bl_self : exists c', tasks s' !! t = Some c' /\ core c' = core (set_t_state WAITING (waits x c));
  bl_others : forall y, y <> t -> core <$> tasks s' !! y = core <$> tasks s !! y;
  bl_rest : actual_task s' = actual_task s /\ kernel_task s' = kernel_task s /\ next_to_run s' = next_to_run s;
}.

Section blocks.
Context (k : kernel H) (qs : qid -> list Z) (t : Z) (c : tcb) (l1 l2 : list Z) (n : nat).
Hypotheses (Hok : sched_ok (k_sched k) qs) (Hc : tasks (k_sched k) !! t = Some c)
  (Hq : qs (_set_queue c) = l1 ++ t :: l2) (Hrun : _set_queue c <> SleepQ).

Lemma caller_nonzero : t <> 0.
Proof. destruct (member_task _ _ (so_qs _ _ Hok) (_set_queue c) t) as (? & _ & ? & _); [rewrite Hq; in_tac|done]. Qed.

Lemma waitpid_blocks x u j : x ∈ qs j -> tasks (k_sched k) !! x = Some u ->
  exists s', do_waitpid n t (task_id u) k = (do! _ <- task_switch n; returns (ret_ 0)) (set_sched s' k) /\
    blocked (k_sched k) s' qs t x c l1 l2.
Proof.
  intros Hx Eu. pose proof caller_nonzero as Ht0. set (s := k_sched k) in *.
  destruct (member_task s qs (so_qs _ _ Hok) j x Hx) as (_ & _ & Hx0 & _).
  destruct (wp_run _ _ _ (get_tcb_wp s qs j x u Hok Hx Eu)) as (r & s0 & Eg & -> & ->).
  set (s1 := put_task t (waits x c) s).
  assert (Hok1 : sched_ok s1 qs) by (apply (sched_ok_upd s qs t c); [done|done|by left]).
  assert (Hc1 : tasks s1 !! t = Some (waits x c)) by apply lookup_insert_eq.
  destruct (wp_run _ _ _ (sleep_wp s1 qs t (waits x c) l1 l2 Hok1 Hc1 Hq Hrun)) as (r & s' & Es & -> & Hok' & Hrq & Hnx).
  exists s'. split.
  - rewrite <- (set_sched_id k) at 1. fold s. unfold do_waitpid. rewrite (bind_ok _ _ _ _ _ (on_sched_ok _ s k _ _ Eg)).
    rewrite (proj2 (Z.eqb_neq x 0) Hx0), (bind_ok _ _ _ _ _ (upd_tcb_ok s k t c _ Hc Ht0)).
    rewrite (bind_ok _ _ _ _ _ (upd_tcb_ok (put_task t (set_wait4 x c) s) k t (set_wait4 x c) _ (lookup_insert_eq _ _ _) Ht0)), put_put.
    change (set_signals (Z.lor (t_mask (set_wait4 x c)) SIGCHLD) (t_current (set_wait4 x c)) (set_wait4 x c)) with (waits x c).
    fold s1. rewrite (bind_ok _ _ _ _ _ (task_ok s1 k t _ Hc1 Ht0)), (bind_ok _ _ _ _ _ (on_sched_ok _ s1 k _ _ Es)). done.
  - destruct Hrq as [(c' & Ec' & Hc') Hoth (A1 & A2 & _)]. split; [exact Hok'|by exists c'| |].
    + intros y Hy. rewrite Hoth by done. cbn. by rewrite lookup_insert_ne.
    + by split_and!.
Qed.

(** No queued task has the identifier. *)
Lemma waitpid_unknown pid : (forall j x u, x ∈ qs j -> tasks (k_sched k) !! x = Some u -> task_id u <> pid) ->
  do_waitpid n t pid k = Ok (Returns (-1), set_vmm (set_errno ESRCH (k_vmm k)) k).
Proof.
  intros Hno. set (s := k_sched k) in *.
  assert (E : forall j, __find_in_queue pid j s = Ok (0, s)).
  { intros j. destruct (wp_run _ _ _ (find_in_queue_wp s qs pid j (so_qs _ _ Hok))) as (r & s0 & E & -> & [[-> _]|(Hr & _ & u & Eu & Eid)]); [done|].
    by destruct (Hno j r u Hr Eu). }
  assert (Eg : sched_get_tcb pid s = Ok (0, s)).
  { unfold sched_get_tcb. rewrite (bind_ok _ _ _ _ _ (E SleepQ)). cbn [Z.eqb negb]. rewrite (bind_ok _ _ _ _ _ (E OsQ)). apply E. }
  unfold do_waitpid. by rewrite (bind_ok _ _ _ _ _ (on_sched_get k _ _ Eg)).
Qed.
End blocks.

(** ** The switch away from a task that went to sleep *)

(** [y] runs instead. *)
Definition switched k (y : Z) (d : tcb) : kernel H :=
  set_tss (kernel_stack d)
    (set_vmm (set_mach (set_cr3 (Sched.cr3 (t_regs d)) (v_mach (k_vmm k))) (k_vmm k))
      (set_sched (set_actual y (put_task y (set_t_state RUNNING d) (k_sched k))) k)).

Lemma switch_from_sleep k qs t c y d m rest n : let s := k_sched k in sched_ok s qs -> actual_task s = t ->
  tasks s !! t = Some c -> t_state c = WAITING -> qs SleepQ = m ++ [t] -> qs OsQ = y :: rest -> Z.of_nat (length (qs OsQ)) < W32 ->
  next_to_run s = 0 -> y <> kernel_task s -> tasks s !! y = Some d -> Z.land (t_current d) SIGCHLD = 0 ->
  task_switch (S n) k = Ok (Left Switched, switched k y d).
Proof.
  intros s Hok Hact Hc Hst Hsl Hos Hlen Hn Hyk Hd Hl.
  destruct (member_task s qs (so_qs _ _ Hok) SleepQ t) as (_ & _ & Ht0 & _); [rewrite Hsl; in_tac|].
  destruct (member_task s qs (so_qs _ _ Hok) OsQ y) as (_ & _ & Hy0 & _); [rewrite Hos; in_tac|].
  rewrite <- (set_sched_id k). fold s. unfold task_switch.
  assert (Ecur : get_sched actual_task (set_sched s k) = Ok (t, set_sched s k)) by by rewrite <- Hact.
  rewrite (bind_ok _ _ _ _ _ Ecur).
  assert (Ered : ready_if_running t (set_sched s k) = Ok (tt, set_sched s k)).
  { unfold ready_if_running. rewrite (bind_ok _ _ _ _ _ (task_ok s k t c Hc Ht0)). by rewrite bool_decide_false by congruence. }
  rewrite (bind_ok _ _ _ _ _ Ered), (bind_ok _ _ _ _ _ (task_ok s k t c Hc Ht0)).
  rewrite (next_of_queue s qs SleepQ (length m) t c Hok) by (rewrite ?Hsl, ?lookup_app_r, ?Nat.sub_diag; done || lia).
  rewrite Hsl, drop_ge by (rewrite length_app; cbn; lia). cbn [hd0 Z.eqb andb].
  pose proof (get_next_first s qs OsQ Hok (or_introl eq_refl) ltac:(by rewrite Hos) Hlen Hn) as Enext. rewrite Hos in Enext. cbn [hd0] in Enext.
  rewrite (bind_ok _ _ _ _ _ (on_sched_ok _ s k _ _ Enext)).
  assert (Ekern : get_sched kernel_task (set_sched s k) = Ok (kernel_task s, set_sched s k)) by done.
  rewrite (bind_ok _ _ _ _ _ Ekern), (proj2 (Z.eqb_neq _ _) Hyk).
  rewrite (bind_ok _ _ _ _ _ (upd_tcb_ok s k y d _ Hd Hy0)). set (s2 := put_task y _ s).
  assert (Hd2 : tasks s2 !! y = Some (set_t_state RUNNING d)) by apply lookup_insert_eq.
  rewrite (call_returns _ _ _ _ _ (sig_handler_quiet n (set_sched s2 k) y _ Hd2 Hy0 Hl)).
  assert (Eact : mod_sched (set_actual y) (set_sched s2 k) = Ok (tt, set_sched (set_actual y s2) k)) by done.
  rewrite (bind_ok _ _ _ _ _ Eact). unfold context_switch.
  rewrite (bind_ok _ _ _ _ _ (task_ok (set_actual y s2) k y _ Hd2 Hy0)). done.
Qed.

(** ** The conversation *)

(** The parent [p] runs; its child [t] is the only other task of its
    priority, ready to run, with the files every task has. *)
Record may_wait k (qs : qid -> list Z) (p t : Z) (pt c kc : tcb) (l1 l2 : list Z) : Prop := {
  mw_ok : sched_ok (k_sched k) qs;
  mw_parent : tasks (k_sched k) !! p = Some pt /\ actual_task (k_sched k) = p /\ t_priority pt = OS /\ task_id pt <> 0;
  mw_queue : qs OsQ = l1 ++ p :: l2 /\ l1 ++ l2 = [t];
  mw_child : tasks (k_sched k) !! t = Some c /\ t_parent c = p /\ t_state c = READY /\ Z.land (t_current c) SIGCHLD = 0 /\ 1 < task_id c;
  mw_kernel : tasks (k_sched k) !! kernel_task (k_sched k) = Some kc /\ kernel_task (k_sched k) <> 0 /\ kernel_task (k_sched k) <> t;
  mw_fds : default_fds c kc;
  mw_next : next_to_run (k_sched k) = 0;
}.

(** A program ran, and left the memory [m]. *)
Definition ran (m : gmap Z Z) k : kernel H := set_vmm (set_mach (set_ram m (v_mach (k_vmm k))) (k_vmm k)) k.

(** [k1]: the parent sleeps and the child runs, in its own directory.  [k2]:
    the child, which left the memory [m], exited with [status]; the parent
    runs with that answer, the child is gone. *)
Record conversed (kd : Z) (m : gmap Z Z) k (qs : qid -> list Z) (p t : Z) (pt c : tcb) (status : Z) (ch1 ch2 l : list Z) (A : aspace) (B : gmap Z Z)
    (lv1 : list Z) (q : Z) (lv2 : list Z) (k1 k2 : kernel H) : Prop := {
  cv_asleep : exists p', tasks (k_sched k1) !! p = Some p' /\ core p' = core (set_t_state WAITING (waits t pt));
  cv_child : exists c', RoundRobin.on_cpu k1 t c' /\ core c' = core (set_t_state RUNNING c);
  cv_answer : exists p', RoundRobin.on_cpu k2 p p' /\ stem p' = stem (back_from_wait status (waits t pt));
  cv_gone : tasks (k_sched k2) !! t = None;
  cv_others : forall x, x <> t -> x <> p -> stem <$> tasks (k_sched k2) !! x = stem <$> tasks (k_sched k) !! x;
  cv_queues : sched_ok (k_sched k2) (upd_q qs OsQ [p]);
  cv_family : family (tasks (k_sched k2)) p (ch1 ++ ch2);
  cv_back : given_back (in_directory kd (ran m k)) t c l A B lv1 q lv2 k2;
}.

Section conversation.
Context (k : kernel H) (qs : qid -> list Z) (p t : Z) (pt c kc : tcb) (l1 l2 : list Z).
Hypothesis Hmay : may_wait k qs p t pt c kc l1 l2.

Let qs1 := moved qs OsQ SleepQ l1 p l2.

Lemma waiting_queues : qs1 OsQ = [t] /\ qs1 SleepQ = qs SleepQ ++ [p] /\ qs1 UserQ = qs UserQ.
Proof.
  destruct (mw_queue _ _ _ _ _ _ _ _ _ Hmay) as [_ E]. unfold qs1, moved, upd_q. split_and!; repeat (rewrite ?decide_True, ?decide_False by done); done.
Qed.

Lemma parent_home : _set_queue pt = OsQ.
Proof.
  destruct (mw_parent _ _ _ _ _ _ _ _ _ Hmay) as (Ep & _). destruct (mw_queue _ _ _ _ _ _ _ _ _ Hmay) as [Eq _].
  apply (qo_home _ _ _ (so_qs _ _ (mw_ok _ _ _ _ _ _ _ _ _ Hmay) OsQ) p); [rewrite Eq; in_tac|done].
Qed.

(** The parent calls and the child runs. *)
Lemma parent_waits n : exists s' c1, blocked (k_sched k) s' qs p t pt l1 l2 /\ tasks s' !! t = Some c1 /\ core c1 = core c /\
  do_waitpid (S n) p (task_id c) k = Ok (Left Switched, switched (set_sched s' k) t c1).
Proof.
  destruct (mw_parent _ _ _ _ _ _ _ _ _ Hmay) as (Ep & Eact & _). destruct (mw_queue _ _ _ _ _ _ _ _ _ Hmay) as [Eq El].
  destruct (mw_child _ _ _ _ _ _ _ _ _ Hmay) as (Ec & _ & _ & Hsig & _). destruct (mw_kernel _ _ _ _ _ _ _ _ _ Hmay) as (_ & _ & Hkt).
  destruct waiting_queues as (Q1 & Q2 & _). pose proof parent_home as Hh. pose proof (mw_ok _ _ _ _ _ _ _ _ _ Hmay) as Hok.
  assert (Htq : t ∈ qs OsQ) by (rewrite Eq; assert (t ∈ l1 ++ l2) by (rewrite El; by left); in_tac).
  assert (Htp : t <> p).
  { destruct (qo_dl _ _ _ (so_qs _ _ Hok OsQ)) as [_ Hnd]. rewrite Eq in Hnd. apply NoDup_skip in Hnd as [Hn _]. intros ->. apply Hn. rewrite El. by left. }
  destruct (waitpid_blocks k qs p pt l1 l2 (S n) Hok Ep ltac:(by rewrite Hh) ltac:(by rewrite Hh) t c OsQ Htq Ec) as (s' & E & Hb).
  pose proof (bl_queues _ _ _ _ _ _ _ _ Hb) as Hok'. rewrite Hh in Hok'. fold qs1 in Hok'.
  destruct (bl_self _ _ _ _ _ _ _ _ Hb) as (p' & Ep' & Hp'). destruct (bl_rest _ _ _ _ _ _ _ _ Hb) as (B1 & B2 & B3).
  pose proof (bl_others _ _ _ _ _ _ _ _ Hb t Htp) as Ec1. rewrite Ec in Ec1. destruct (tasks s' !! t) as [c1|] eqn:Et; [|done].
  apply (inj Some) in Ec1. exists s', c1. split; [done|]. split; [done|]. split; [done|]. rewrite E.
  rewrite (call_left _ _ _ Switched (switched (set_sched s' k) t c1)); [done|].
  apply (switch_from_sleep (set_sched s' k) qs1 p p' t c1 (qs SleepQ) []); try done.
  - cbn. congruence.
  - exact (f_equal t_state Hp').
  - by rewrite Q1.
  - cbn. by rewrite B3, (mw_next _ _ _ _ _ _ _ _ _ Hmay).
  - cbn. rewrite B2. by apply not_eq_sym.
  - rewrite <- Hsig. f_equal. exact (f_equal t_current Ec1).
Qed.

(** The child, as the parent's call left it, exits. *)
Lemma sched_ok_pointwise s (qa qb : qid -> list Z) : (forall j, qa j = qb j) -> sched_ok s qa -> sched_ok s qb.
Proof.
  intros E [Hqs Hr Hs Hid]. split; rewrite <- ?E; try done.
  - intros j. rewrite <- E. apply Hqs.
  - intros j j' x y u v. rewrite <- !E. apply Hid.
Qed.

(** The child makes the system call [g] with its memory [m]. *)
Section child.
Context (s' : sched) (p' c1 : tcb) (kd : Z) (m : gmap Z Z) (f : int_frame) (g : int_regs).
Hypotheses (Hb : blocked (k_sched k) s' qs p t pt l1 l2) (Ep' : tasks s' !! p = Some p') (Hp' : core p' = core (set_t_state WAITING (waits t pt)))
  (Ec1 : tasks s' !! t = Some c1) (Hc1 : core c1 = core c).
Let k1 := switched (set_sched s' k) t c1.
Let c2 := set_t_state RUNNING c1.
Let c3 := set_regs (save_regs f g (t_regs c2)) c2.
Let k1' := entered kd (ran m k1) t c2 f g.

Lemma child_apart : t <> p /\ t <> kernel_task s' /\ t_state c1 = READY.
Proof.
  destruct (mw_queue _ _ _ _ _ _ _ _ _ Hmay) as [Eq El]. destruct (mw_child _ _ _ _ _ _ _ _ _ Hmay) as (_ & _ & Hst & _).
  destruct (mw_kernel _ _ _ _ _ _ _ _ _ Hmay) as (_ & _ & Hkt). destruct (bl_rest _ _ _ _ _ _ _ _ Hb) as (_ & B2 & _).
  split; [|split; [congruence|rewrite <- Hst; exact (f_equal t_state Hc1)]].
  destruct (qo_dl _ _ _ (so_qs _ _ (mw_ok _ _ _ _ _ _ _ _ _ Hmay) OsQ)) as [_ Hnd]. rewrite Eq in Hnd. apply NoDup_skip in Hnd as [Hn _].
  intros ->. apply Hn. rewrite El. by left.
Qed.

Lemma child_task x : tasks (k_sched k1') !! x = if decide (t = x) then Some c3 else tasks s' !! x.
Proof. cbn. rewrite insert_insert_eq. apply lookup_insert. Qed.

Lemma child_entry : f_eip f < VM_KERN_START -> user_entry (ran m k1) t c2 f.
Proof.
  intros He. destruct (mw_child _ _ _ _ _ _ _ _ _ Hmay) as (_ & _ & _ & _ & Hid).
  assert (E : task_id c1 = task_id c) by exact (f_equal task_id Hc1).
  split; [done| |cbn; apply lookup_insert_eq|cbn; lia|done].
  assert (Ht : t ∈ qs OsQ).
  { destruct (mw_queue _ _ _ _ _ _ _ _ _ Hmay) as [-> El]. assert (t ∈ l1 ++ l2) by (rewrite El; by left). in_tac. }
  by destruct (member_task _ _ (so_qs _ _ (mw_ok _ _ _ _ _ _ _ _ _ Hmay)) OsQ t Ht) as (_ & _ & ? & _).
Qed.

Lemma child_queues : sched_ok (k_sched k1') qs1.
Proof.
  destruct child_apart as (_ & _ & Hst). pose proof (bl_queues _ _ _ _ _ _ _ _ Hb) as Hok'. rewrite parent_home in Hok'. fold qs1 in Hok'.
  apply (sched_ok_ext (put_task t c2 s')); try done; [apply sched_ok_runnable; [done|done|by left|by right]|].
  intros j x _. rewrite child_task. cbn [put_task tasks set_tasks]. rewrite lookup_insert. by case_decide.
Qed.

Lemma child_home : _set_queue c3 = OsQ.
Proof.
  destruct waiting_queues as (Q1 & _). apply (qo_home _ _ _ (so_qs _ _ child_queues OsQ) t); [rewrite Q1; by left|].
  rewrite child_task. by rewrite decide_True.
Qed.

Lemma child_exits : exists kc', exiting k1' qs1 t c3 kc' [] [].
Proof.
  destruct child_apart as (Htp & Htk & Hst). destruct waiting_queues as (Q1 & Q2 & _). pose proof child_queues as Hok1.
  destruct (mw_kernel _ _ _ _ _ _ _ _ _ Hmay) as (Ek & Hk0 & _). destruct (mw_fds _ _ _ _ _ _ _ _ _ Hmay) as (F1 & F2 & F3).
  destruct (bl_rest _ _ _ _ _ _ _ _ Hb) as (_ & B2 & _). destruct (mw_child _ _ _ _ _ _ _ _ _ Hmay) as (_ & _ & _ & _ & Hid).
  assert (Ec3 : tasks (k_sched k1') !! t = Some c3) by (rewrite child_task; by rewrite decide_True). pose proof child_home as Hh.
  assert (Hkc : exists kc', tasks s' !! kernel_task s' = Some kc' /\ used_fd kc' = used_fd kc).
  { rewrite B2. destruct (decide (kernel_task (k_sched k) = p)) as [E|E].
    - exists p'. rewrite E. split; [done|]. destruct (mw_parent _ _ _ _ _ _ _ _ _ Hmay) as (Ep & _).
      rewrite E, Ep in Ek. injection Ek as <-. exact (f_equal used_fd Hp').
    - pose proof (bl_others _ _ _ _ _ _ _ _ Hb _ E) as Eo. rewrite Ek in Eo. destruct (tasks s' !! kernel_task (k_sched k)) as [u|] eqn:Eu; [|done].
      exists u. split; [done|]. apply (inj Some) in Eo. exact (f_equal used_fd Eo). }
  destruct Hkc as (u & Eu & Efd). assert (Efc : used_fd c1 = used_fd c) by exact (f_equal used_fd Hc1).
  assert (Eid : task_id c1 = task_id c) by exact (f_equal task_id Hc1).
  exists u. split; try done.
  - by rewrite Hh, Q1.
  - by rewrite Hh.
  - cbn. lia.
  - rewrite child_task. change (kernel_task (k_sched k1')) with (kernel_task s'). by rewrite decide_False.
  - change (kernel_task (k_sched k1')) with (kernel_task s'). by rewrite B2.
  - unfold default_fds. cbn [used_fd c3 c2 set_t_state set_regs]. by rewrite Efc, Efd.
Qed.

Context (status : Z) (ch1 ch2 l : list Z) (A : aspace) (B : gmap Z Z) (lv1 : list Z) (q : Z) (lv2 : list Z).
Hypothesis Hready : reap_ready (in_directory kd (ran m k)) t c ch1 ch2 l A B lv1 q lv2.

Lemma child_ready : reap_ready k1' t c3 ch1 ch2 l A B lv1 q lv2.
Proof.
  destruct child_apart as (Htp & _). destruct (mw_parent _ _ _ _ _ _ _ _ _ Hmay) as (Ep & _).
  destruct (mw_child _ _ _ _ _ _ _ _ _ Hmay) as (Ec & _).
  apply (reap_ready_ext (in_directory kd (ran m k)) k1' t c c3 _ _ _ _ _ _ _ _ Hready); try done.
  - rewrite child_task. by rewrite decide_True.
  - exact (f_equal owned Hc1).
  - intros x. rewrite child_task. change (tasks (k_sched (in_directory kd (ran m k)))) with (tasks (k_sched k)).
    case_decide as Ex; [subst x; rewrite Ec; cbn; f_equal; exact (f_equal kinship Hc1)|].
    destruct (decide (x = p)) as [->|Hxp]; [|by apply kinship_core, (bl_others _ _ _ _ _ _ _ _ Hb)].
    rewrite Ep, Ep'. cbn. f_equal. exact (f_equal kinship Hp').
Qed.

Lemma child_parent : t_parent c3 = p.
Proof. destruct (mw_child _ _ _ _ _ _ _ _ _ Hmay) as (_ & E & _). rewrite <- E. exact (f_equal t_parent Hc1). Qed.

Lemma conversed_intro k2 : waited k1' qs1 t c3 p' [] [] (qs SleepQ) [] status ch1 ch2 l A B lv1 q lv2 k2 ->
  conversed kd m k qs p t pt c status ch1 ch2 l A B lv1 q lv2 k1 k2.
Proof.
  destruct child_apart as (Htp & Htk & Hst). intros [Hpar Hgone Hoth Hqs Hfam Hback]. rewrite child_parent in *. split.
  - exists p'. split; [|done]. cbn. by rewrite lookup_insert_ne.
  - exists c2. split; [|exact (f_equal (set_t_state RUNNING) Hc1)]. split; [done|]. split; [apply lookup_insert_eq|done].
  - destruct Hpar as (w & Hcpu & Hw). exists w. split; [done|]. rewrite Hw.
    exact (f_equal (fun u => unkin (back_from_wait status u)) Hp').
  - exact Hgone.
  - intros x Hxt Hxp. rewrite Hoth by done. rewrite child_task, decide_False by done. pose proof (bl_others _ _ _ _ _ _ _ _ Hb x Hxp) as E.
    destruct (tasks s' !! x) as [u|], (tasks (k_sched k) !! x) as [u'|]; try done. apply (inj Some) in E. cbn. f_equal. by apply core_stem.
  - eapply sched_ok_pointwise; [|exact Hqs]. destruct waiting_queues as (Q1 & Q2 & Q3).
    destruct (mw_parent _ _ _ _ _ _ _ _ _ Hmay) as (_ & _ & Hprio & _).
    assert (E1 : run_queue p' = OsQ) by (unfold run_queue; by rewrite (f_equal t_priority Hp' : t_priority p' = t_priority pt), decide_True).
    intros j. unfold moved. rewrite E1, child_home. unfold upd_q. destruct j; cbn; rewrite ?app_nil_r; done.
  - exact Hfam.
  - assert (E4 : kernel_stack c3 = kernel_stack c) by exact (f_equal kernel_stack Hc1).
    assert (E5 : t_aspace c3 = t_aspace c) by exact (f_equal t_aspace Hc1).
    destruct Hback as [G1 G2 G3 G4 G5 G6]. rewrite E5 in G1, G3. rewrite E4 in G5. by split.
Qed.

Lemma exit_answers n : exists k2, do_exit (S (S (S (S (S n))))) t status k1' = Ok (Left Switched, k2) /\
  conversed kd m k qs p t pt c status ch1 ch2 l A B lv1 q lv2 k1 k2.
Proof.
  destruct child_apart as (Htp & Htk & Hst). destruct child_exits as (kc' & Hex). destruct waiting_queues as (Q1 & Q2 & _).
  destruct (mw_parent _ _ _ _ _ _ _ _ _ Hmay) as (_ & _ & Hprio & Hid). destruct (bl_rest _ _ _ _ _ _ _ _ Hb) as (_ & _ & B3).
  destruct (wait_exit_run k1' qs1 t c3 kc' p' [] [] (qs SleepQ) [] status ch1 ch2 l A B lv1 q lv2 Hex) with (n := n) as (k2 & E & W).
  - by rewrite child_parent, child_task, decide_False.
  - by rewrite child_parent, Q2.
  - rewrite (f_equal t_mask Hp' : t_mask p' = Z.lor (t_mask pt) SIGCHLD). apply signal_pending.
  - exact (f_equal wait4 Hp').
  - rewrite (f_equal task_id Hp' : task_id p' = task_id pt). done.
  - right. split; [change (next_to_run s' = 0); by rewrite B3, (mw_next _ _ _ _ _ _ _ _ _ Hmay)|]. split; [rewrite <- Hprio; exact (f_equal t_priority Hp')|].
    rewrite child_home. done.
  - exact child_ready.
  - exists k2. split; [exact E|]. by apply conversed_intro.
Qed.
End child.
End conversation.
End wait.

(** The system call [exit(status)]. *)
Definition exit_call (status : Z) (f : int_frame) (g : int_regs) : Prop :=
  int_number f = 48 /\ f_eip f < VM_KERN_START /\ i_eax g = 0 /\ int32 (i_ebx g) = status.

Lemma exit_call_runs {H} `{!Allocator H} raw_fd stack_bytes itoa_buffer raw_word kern_pd_vaddr kd n rounds cr2 scancode f g
    (k : kernel H) cp t c status k2 : user_entry k t c f -> exit_call status f g ->
  do_exit n t status (entered kd k t c f g) = Ok (Left Switched, k2) ->
  general_handler raw_fd stack_bytes itoa_buffer raw_word kern_pd_vaddr kd n rounds cr2 scancode f g (mkHw k cp) =
    Ok (Away Switched, mkHw k2 cp).
Proof.
  intros Hue (Hn & He & Ha & Hs) E.
  refine (syscall_away raw_fd stack_bytes itoa_buffer raw_word kern_pd_vaddr kd n rounds cr2 scancode (mkHw k cp) t c f g Switched k2 Hue ltac:(lia) _).
  unfold dispatch. cbn [eax ebx save_regs]. rewrite Ha, Hs. change (0 =? 0) with true. cbv iota. unfold exit_.
  rewrite (bind_ok _ _ (entered kd k t c f g) t (entered kd k t c f g)); [exact E|].
  rewrite <- (ue_cur _ _ _ _ Hue). by destruct k as [? ? ? ? ? ? []].
Qed.

(** ** Property *)

(** C9: [waitpid] of a child that is ready puts the caller to sleep and runs
    the child, in the child's own directory.  When the child, whatever it has
    made of its memory, then makes the system call exit with a status, the
    entry of that call loads the kernel's directory, the caller runs again and
    its EAX, the answer of [waitpid], is the status.  The child is then gone:
    from the queues, from its parent's children, its address space, regions,
    kernel stack and blocks are released and its pages unmapped.  Of its
    frames only the page directory's is free again.  No other task changes.
    An identifier that no queued task has is refused with ESRCH. *)
Theorem waitpid_returns_exit_code {H} `{!Allocator H} (k : kernel H) qs p t pt c kc l1 l2 n :
  may_wait k qs p t pt c kc l1 l2 ->
  (exists k1, do_waitpid (S n) p (task_id c) k = Ok (Left Switched, k1) /\
    forall raw_fd stack_bytes itoa_buffer raw_word kern_pd_vaddr kd rounds cr2 scancode cp mem f g status ch1 ch2 l A B lv1 q lv2 d,
    exit_call status f g -> reap_ready (in_directory kd (ran mem k)) t c ch1 ch2 l A B lv1 q lv2 -> exists k2,
      general_handler raw_fd stack_bytes itoa_buffer raw_word kern_pd_vaddr kd (S (S (S (S (S d))))) rounds cr2 scancode f g
        (mkHw (ran mem k1) cp) = Ok (Away Switched, mkHw k2 cp) /\
      conversed kd mem k qs p t pt c status ch1 ch2 l A B lv1 q lv2 k1 k2) /\
  (forall pid, (forall j x u, x ∈ qs j -> tasks (k_sched k) !! x = Some u -> task_id u <> pid) ->
    do_waitpid n p pid k = Ok (Returns (-1), set_vmm (set_errno ESRCH (k_vmm k)) k)).
Proof.
  intros Hmay. destruct (parent_waits k qs p t pt c kc l1 l2 Hmay n) as (s' & c1 & Hb & Ec1 & Hc1 & E).
  destruct (bl_self _ _ _ _ _ _ _ _ Hb) as (p' & Ep' & Hp'). split.
  - exists (switched (set_sched s' k) t c1). split; [exact E|]. intros ????? kd ???? mem f g status ch1 ch2 l A B lv1 q lv2 d He Hr.
    destruct (exit_answers k qs p t pt c kc l1 l2 Hmay s' p' c1 kd mem f g Hb Ep' Hp' Ec1 Hc1 status ch1 ch2 l A B lv1 q lv2 Hr d)
      as (k2 & E2 & C). exists k2. split; [|exact C].
    eapply exit_call_runs; [|exact He|exact E2].
    exact (child_entry k qs p t pt c kc l1 l2 Hmay s' c1 mem f Hc1 (proj1 (proj2 He))).
  - intros pid Hno. exact (waitpid_unknown k qs p n (mw_ok _ _ _ _ _ _ _ _ _ Hmay) pid Hno).
Qed.

(** A parent with one child, which has one page.  Frames: 100 the child's
    directory, 2 the table of its first 4 MiB, 5 its page, 6 the kernel's
    directory, 7 a kernel table, 16 to 79 the tables of the vmalloc area, 8
    the page of the child's stack. *)
Definition wait_pmm : pmm := (after (0, pmm_boot) (pmm_get_frame twin_pmm)).2.

Lemma wait_pmm_inv : inv wait_pmm.
Proof.
  destruct (wp_run _ _ _ (get_frame_wp twin_pmm twin_pmm_inv ltac:(vm_compute; reflexivity))) as (r & p' & E & i & _ & Hg).
  unfold wait_pmm. rewrite E. apply Hg.
Qed.

Definition wait_ram : gmap Z Z := list_to_map
  ([(0x19000, 0x2007); (0x19000 + 768, 0x7003); (0x19000 + 1023, 0x64003); (2 * 1024 + 7, 0x5007); (5 * 1024 + 2, 0x44434241);
    (6 * 1024 + 768, 0x7003); (6 * 1024 + 1023, 0x6003); (16 * 1024, 0x8003)] ++
   map (fun i => (0x19000 + 0x340 + i, 0x10003 + 4096 * i)) (seqZ 0 64) ++
   map (fun i => (6 * 1024 + 0x340 + i, 0x10003 + 4096 * i)) (seqZ 0 64)).

Definition wait_parent : tcb :=
  mkTcb 1 0xd0009000 0 0 (replicate MAX_FDS 0) 0 0 0 0 the_task the_task 0 0 RUNNING OS the_task 0
    (mkRegs 11 2 0 0 0 0 0xbfff0000 0 0x7010 0x202 0x1000 0x23 0x1b) 0x90.

Definition wait_child : tcb :=
  mkTcb 2 0xd0001000 0 0 (replicate MAX_FDS 0) 0 0 0 0x10 0 0 0 0 READY OS 0 0x10
    (mkRegs 0 0 0 0 0 0 0xbfff0000 0 0x7010 0x202 0x64000 0x23 0x1b) the_aspace.

Definition wait_idle : tcb :=
  mkTcb 0 0xd0009000 0 0 (replicate MAX_FDS 0) 0 0 0 0 0 0 0 0 READY OS 0 0 zero_regs 0.

Definition wait_qs (q : qid) : list Z := match q with OsQ => [0x10; the_task] | _ => [] end.

Definition wait_kernel : kernel malloc_state :=
  mkKernel (mkVmm twin_blocks.2 {[ the_region := mkRegion 0x7000 0x2000 6 0 0 ]} {[ the_aspace := mkAspace 0x64000 0x7000 0x7800 0x7900 0xbfff0000 0x1000 1 the_region the_region ]}
      ∅ (mkMachine wait_pmm 0x6000 wait_ram) 0)
    {[ the_range := mkHdr 0xd0000000 0x1000 MAPPED 0 0 ]} (mkUreg the_range the_range 1) root_fs ∅ 0
    (mkSched (<[0x10 := wait_parent]> (<[the_task := wait_child]> {[ 0x50 := wait_idle ]}))
      (fun q => match q with OsQ => mkQueue 2 0x10 the_task | _ => empty_queue end) 2 2 0 0x10 0x50 0 0x10 2)
    terminal_boot (mkKbd false false false false) (mkWait 0 0 0) false 0.

Lemma wait_queues : sched_ok (k_sched wait_kernel) wait_qs.
Proof. sched_check wait_qs. Qed.

Lemma wait_may : may_wait wait_kernel wait_qs 0x10 the_task wait_parent wait_child wait_idle [] [the_task].
Proof.
  split.
  - exact wait_queues.
  - by split_and!.
  - done.
  - split_and!; vm_compute; done.
  - split_and!; vm_compute; done.
  - split; [done|]. split; [done|]. intros i x Hi _. exact Hi.
  - done.
Qed.

#[local] Instance wait_allocator : Allocator malloc_state := kmalloc_allocator 0xc0400000 demo_raw demo_bytes.

(** The child has stored a word into its page. *)
Definition wait_running : kernel malloc_state := in_directory 0x6000 (ran (<[5 * 1024 + 3 := 7]> wait_ram) wait_kernel).

Lemma wait_area z1 z2 z3 z4 : rep 0xc0400000 twin_blocks.2 (twin_owned z1 z2 z3 z4) ->
  area_ok (get_vma wait_running) [the_range] (twin_owned z1 z2 z3 z4) 0.
Proof.
  intros Hr. split.
  - split; [done| | |repeat constructor].
    + split; [cbn; split_and!; try done; vm_compute; reflexivity|]. by apply NoDup_singleton.
    + intros p h ->%list_elem_of_singleton Hh. apply (at_singleton _ _ _ _ _ eq_refl) in Hh as [_ <-].
      unfold VM_VMALLOC_START, VM_VMALLOC_END. cbn. lia.
  - done.
  - intros p ->%list_elem_of_singleton. exists z3. unfold twin_owned. rewrite lookup_insert_ne by done. apply lookup_insert_eq.
  - exact Hr.
  - vm_compute. discriminate.
  - intros p v zz ty (h & Eh & <- & <- & <-)%hg_lookup. apply (at_singleton _ _ _ _ _ eq_refl) in Eh as [_ <-].
    split; [by exists 0xd0000|by exists 1].
  - apply dir_ok_check. vm_compute. reflexivity.
  - intros v Hv. destruct (area_page v Hv) as [Hw _]. destruct (slot_range v Hw) as (_ & _ & -> & ->).
    assert (Hall : Forall (fun i => present (pde (<[5 * 1024 + 3 := 7]> wait_ram) 0x6000 i) = true) (seqZ 0x340 64))
      by (apply (bool_decide_unpack _); vm_compute; exact I).
    rewrite Forall_forall in Hall. apply Hall, elem_of_seqZ. unfold VM_VMALLOC_START, VM_VMALLOC_END in Hv.
    Z.div_mod_to_equations. lia.
Qed.

Lemma wait_reap z1 z2 z3 z4 : rep 0xc0400000 twin_blocks.2 (twin_owned z1 z2 z3 z4) ->
  reap_ready wait_running the_task wait_child [] [] [the_region] (mkAspace 0x64000 0x7000 0x7800 0x7900 0xbfff0000 0x1000 1 the_region the_region)
    (twin_owned z1 z2 z3 z4) [] the_range [].
Proof.
  intros Hr. split.
  - by split_and!.
  - split.
    + by exists wait_parent.
    + split; [cbn; split_and!; try done; vm_compute; reflexivity|]. by apply NoDup_singleton.
    + intros x u ->%list_elem_of_singleton Eu. vm_compute in Eu. by injection Eu as <-.
    + split; [|done]. intros E%list_elem_of_singleton. vm_compute in E. discriminate.
  - eexists. split; [apply lookup_singleton_eq|]. by split_and!.
  - by apply wait_area.
  - split; [|apply lookup_singleton_eq]. split; [eexists; split; [apply lookup_singleton_eq|done]|done| | |repeat constructor].
    + split; [cbn; split_and!; try done; vm_compute; reflexivity|]. by apply NoDup_singleton.
    + intros x r _ [_ <-]%(at_singleton _ _ _ _ _ eq_refl). cbn. unfold VM_USER_END. lia.
  - split; [|reflexivity]. apply beside_check. vm_compute. reflexivity.
  - split; [apply (bool_decide_unpack _); vm_compute; exact I|]. intros x Hx. unfold twin_owned. rewrite !lookup_insert.
    rewrite !elem_of_cons, elem_of_nil in Hx. destruct Hx as [->|[->|[->|[->|[]]]]]; vm_compute; eauto.
  - cbv zeta. split; [exact wait_pmm_inv|]. vm_compute. by repeat split.
Qed.

Definition exit_frame : int_frame := mkFrame 48 0 0x8048000 0x1b 0x202 0xbfffe000 0x23.
Definition exit_regs (status : Z) : int_regs := mkIntRegs 0x23 7 6 5 4 status 3 2 0.

(** The parent waits for its child, which stores a word and exits with 7. *)
Lemma waitpid_returns_exit_code_witness : exists k1 k2, do_waitpid 2 0x10 2 wait_kernel = Ok (Left Switched, k1) /\
  general_handler (fun _ => mkFd 0 0 0 0 0) [] [] 0 0 0x6000 5 5 0 0 exit_frame (exit_regs 7)
    (mkHw (ran (<[5 * 1024 + 3 := 7]> wait_ram) k1) cpu_boot) = Ok (Away Switched, mkHw k2 cpu_boot) /\
  tasks (k_sched k2) !! the_task = None /\ exists p', RoundRobin.on_cpu k2 0x10 p' /\ eax (t_regs p') = 7.
Proof.
  destruct twin_blocks_rep as (z1 & z2 & z3 & z4 & Hr).
  destruct (waitpid_returns_exit_code wait_kernel wait_qs 0x10 the_task wait_parent wait_child wait_idle [] [the_task] 1 wait_may)
    as [(k1 & E1 & Hexit) _].
  destruct (Hexit (fun _ => mkFd 0 0 0 0 0) [] [] 0 0 0x6000 5%nat 0 0 cpu_boot (<[5 * 1024 + 3 := 7]> wait_ram) exit_frame (exit_regs 7) 7
    [] [] [the_region] _ _ [] the_range [] 0%nat ltac:(by split_and!) (wait_reap z1 z2 z3 z4 Hr)) as (k2 & E2 & C).
  exists k1, k2. split; [exact E1|]. split; [exact E2|]. split; [apply C|].
  destruct (cv_answer _ _ _ _ _ _ _ _ _ _ _ _ _ _ _ _ _ _ _ C) as (p' & Hcpu & Hp'). exists p'. split; [exact Hcpu|].
  exact (f_equal (fun u => eax (t_regs u)) Hp').
Defined.
