(* ===== verification/ExitSpec.v ===== *)
(** * A child that exits while nobody waits for it

    [do_exit] closes its files, takes the task out of its queue and, when the
    parent is not in [waitpid] for it, destroys it on the spot: everything
    [ReapSpec.v] says of a collected child holds here too, but the exit code
    is lost.  The switch to the next task then reads the state of
    [actual_task], whose block has just been given back to the heap.  The
    kernel's directory is loaded, as the entry of every system call does. *)

From S2P Require Import Prelude Dlist Pmm Kmalloc Heap Paging MmuSpec SpaceSpec DupSpec Vmm VmmSpec ForkAspace DestroySpec Vmalloc VmallocSpec AreaSpec Klib Terminal Namei Sched SchedSpec Kernel Vfs Files FilesSpec FdSpec Task TaskSpec FamilySpec ForkTask RoundRobin Cpu Exec Isr IsrSpec ReapSpec WaitSpec.

#[local] Open Scope Z_scope.

Section unwaited.
Context {H : Type} `{!Allocator H}.
Implicit Types (k : kernel H).

(** The parent [pt] of [c] waits for no child, or for another one. *)
Definition unawaited k (c pt : tcb) : Prop :=
  wait4 pt = 0 \/ exists w, tasks (k_sched k) !! wait4 pt = Some w /\ task_id w <> task_id c.

(** [t] is gone, and [k'] is the kernel in which its successor is looked for. *)
Record departed k (qs : qid -> list Z) (t : Z) (c : tcb) (rest ch1 ch2 l : list Z) (A : aspace) (B : gmap Z Z) (lv1 : list Z) (q : Z) (lv2 : list Z) k' : Prop := {
  dp_gone : tasks (k_sched k') !! t = None /\ actual_task (k_sched k') = t;
  dp_others : forall x, x <> t -> stem <$> tasks (k_sched k') !! x = stem <$> tasks (k_sched k) !! x;
  dp_queues : sched_ok (k_sched k') (upd_q qs (_set_queue c) rest);
  dp_family : family (tasks (k_sched k')) (t_parent c) (ch1 ++ ch2);
  dp_back : given_back k t c l A B lv1 q lv2 k';
}.

(** Leaving the processor reads the block of the task that leaves it. *)
Lemma switch_from_freed n y k : tasks (k_sched k) !! actual_task (k_sched k) = None -> task_switch_to (S n) y k = Fault.
Proof.
  intros Hgone. cbn [task_switch_to]. rewrite (bind_ok _ _ k (actual_task (k_sched k)) k) by (by destruct k).
  unfold bind_ at 1, ready_if_running, bind_ at 1, task, on_sched, zoom, ld_task. by rewrite Hgone.
Qed.

Lemma get_next_keeps s : sched_get_next_task s = Fault \/
  exists y s', sched_get_next_task s = Ok (y, s') /\ tasks s' = tasks s /\ actual_task s' = actual_task s.
Proof.
  unfold sched_get_next_task, bind_, get_, mod_, ret_, ld_task.
  repeat case_match; try (left; congruence); right; do 2 eexists; (split; [reflexivity|]); simplify_eq; done.
Qed.

Lemma next_then_switch_faults n k : tasks (k_sched k) !! actual_task (k_sched k) = None ->
  (do next <- on_sched sched_get_next_task; task_switch_to (S n) next) k = Fault.
Proof.
  intros Hgone. unfold on_sched. unfold bind_ at 1, zoom. destruct (get_next_keeps (k_sched k)) as [->|(y & s' & -> & Et & Ea)]; [done|].
  apply switch_from_freed. cbn [k_sched set_sched]. by rewrite Et, Ea.
Qed.

Section exits.
Context (k : kernel H) (qs : qid -> list Z) (t : Z) (c kc pt : tcb) (l1 l2 : list Z) (status : Z).
Context (ch1 ch2 l : list Z) (A : aspace) (B : gmap Z Z) (lv1 : list Z) (q : Z) (lv2 : list Z).
Hypotheses (Hex : exiting k qs t c kc l1 l2) (Hp : tasks (k_sched k) !! t_parent c = Some pt) (Hno : unawaited k c pt)
  (Hready : reap_ready k t c ch1 ch2 l A B lv1 q lv2).

Lemma parent_apart : t <> 0 /\ t_parent c <> 0 /\ t_parent c <> t.
Proof.
  destruct (exiting_outside k qs t c kc l1 l2 Hex) as [Ht0 _].
  destruct (fm_apart _ _ _ (rr_family _ _ _ _ _ _ _ _ _ _ _ Hready)) as [Hn Hp0]. split; [done|]. split; [done|].
  intros E. apply Hn. rewrite E. in_tac.
Qed.

(** The parent is asked and does not wait for [t]. *)
Lemma exit_tail_destroys s1 n : (forall x, x <> t -> core <$> tasks s1 !! x = core <$> tasks (k_sched k) !! x) ->
  exit_tail t c n (set_sched s1 k) = (do! _ <- task_destroy n t;
    do next <- on_sched sched_get_next_task; task_switch_to n next) (set_sched s1 k).
Proof.
  intros Hoth. destruct parent_apart as (Ht0 & Hp0 & Hpt). pose proof (Hoth _ Hpt) as Ep. rewrite Hp in Ep.
  destruct (tasks s1 !! t_parent c) as [p1|] eqn:Ep1; [|done]. apply (inj Some) in Ep.
  assert (Ew : wait4 p1 = wait4 pt) by exact (f_equal wait4 Ep).
  unfold exit_tail. rewrite (bind_ok _ _ _ _ _ (task_ok s1 k _ p1 Ep1 Hp0)), Ew.
  destruct (Z.eqb_spec (wait4 pt) 0) as [E0|E0]; [by rewrite (bind_ok _ _ _ false (set_sched s1 k))|].
  destruct Hno as [?|(w & Hw & Hid)]; [done|].
  assert (Hwt : wait4 pt <> t) by (intros E; rewrite E, (ex_task _ _ _ _ _ _ _ Hex) in Hw; injection Hw as <-; done).
  pose proof (Hoth _ Hwt) as Ec. rewrite Hw in Ec. destruct (tasks s1 !! wait4 pt) as [w1|] eqn:Ew1; [|done].
  apply (inj Some) in Ec. assert (Ei : task_id w1 = task_id w) by exact (f_equal task_id Ec).
  rewrite (bind_ok _ _ _ false (set_sched s1 k)); [done|].
  rewrite (bind_ok _ _ _ _ _ (task_ok s1 k _ w1 Ew1 E0)), Ei. by rewrite (proj2 (Z.eqb_neq _ _) Hid).
Qed.

(** What was released, told from the state before the exit. *)
Lemma departed_intro s1 c1 m k' : sched_ok s1 (upd_q qs (_set_queue c) (l1 ++ l2)) -> actual_task s1 = t ->
  (forall x, x <> t -> core <$> tasks s1 !! x = core <$> tasks (k_sched k) !! x) ->
  core c1 = core (set_fd_ctr m (set_exit_code status c)) ->
  reaped (set_sched s1 k) t c1 ch1 ch2 l A B lv1 q lv2 k' -> departed k qs t c (l1 ++ l2) ch1 ch2 l A B lv1 q lv2 k'.
Proof.
  intros Hok Hact Hoth Hc [(m' & Es & Fm & Hk) Hback]. destruct parent_apart as (_ & _ & Hpt).
  assert (E1 : t_parent c1 = t_parent c) by exact (f_equal t_parent Hc). rewrite E1 in *. cbn [k_sched set_sched] in *.
  destruct (exiting_outside k qs t c kc l1 l2 Hex) as [_ Hout].
  pose proof (fm_apart _ _ _ (rr_family _ _ _ _ _ _ _ _ _ _ _ Hready)) as [Hpn _].
  pose proof (fm_list _ _ _ (rr_family _ _ _ _ _ _ _ _ _ _ _ Hready)) as [_ Hnd]. apply NoDup_skip in Hnd as [Hnd _].
  split; rewrite ?Es; cbn [tasks set_tasks actual_task].
  - split; [apply lookup_delete_eq|done].
  - intros x Hx. rewrite lookup_delete_ne by done. pose proof (kc_unkin _ _ _ _ Hk x) as Eu. specialize (Hoth x Hx).
    destruct (m' !! x) as [u|], (tasks s1 !! x) as [u1|], (tasks (k_sched k) !! x) as [u2|]; try done.
    apply (inj Some) in Eu, Hoth. cbn. f_equal. rewrite (unkin_core _ _ Eu). by apply core_stem.
  - eapply sched_ok_ext; [exact Hok|done|done|done|]. intros j x Hx. cbn [tasks set_tasks].
    assert (Hxt : x <> t) by (intros ->; by apply (Hout j)). rewrite lookup_delete_ne by done.
    pose proof (kc_unkin _ _ _ _ Hk x) as Eu. destruct (m' !! x) as [u|], (tasks s1 !! x) as [u1|]; try done.
    apply (inj Some) in Eu. cbn. f_equal. by apply unkin_vital.
  - apply (family_ext m'); [exact Fm|]. intros x Hx. rewrite lookup_delete_ne; [done|]. intros <-. by destruct Hx as [Hx|Hx].
  - assert (E4 : kernel_stack c1 = kernel_stack c) by exact (f_equal kernel_stack Hc).
    assert (E5 : t_aspace c1 = t_aspace c) by exact (f_equal t_aspace Hc).
    destruct Hback as [G1 G2 G3 G4 G5 G6]. rewrite E5 in G1, G3. rewrite E4 in G5. by split.
Qed.

Lemma exit_departs n : exists k',
  do_exit (S (S (S n))) t status k = (do next <- on_sched sched_get_next_task; task_switch_to (S (S n)) next) k' /\
  departed k qs t c (l1 ++ l2) ch1 ch2 l A B lv1 q lv2 k'.
Proof.
  destruct (exit_prefix k qs t c kc l1 l2 status Hex (S (S n))) as
    (s1 & c1 & E & Hok & Ec1 & _ & _ & _ & _ & Hoth & Hact & _ & _ & m & Hc).
  assert (Hr : reap_ready (set_sched s1 k) t c1 ch1 ch2 l A B lv1 q lv2).
  { apply (reap_ready_ext k _ t c c1 _ _ _ _ _ _ _ _ Hready); try done; [exact (f_equal owned Hc)|].
    intros x. cbn [k_sched set_sched]. destruct (decide (x = t)) as [->|Hx]; [|by apply kinship_core, Hoth].
    rewrite Ec1, (ex_task _ _ _ _ _ _ _ Hex). cbn. f_equal. exact (f_equal kinship Hc). }
  destruct (wp_run _ _ _ (destroy_wp n _ _ _ _ _ _ _ _ _ _ _ Hr)) as (r & k' & Ed & -> & R). exists k'.
  split; [by rewrite E, exit_tail_destroys, (call_returns _ _ _ _ _ Ed)|by apply (departed_intro s1 c1 m)].
Qed.
End exits.
End unwaited.

(** ** Property *)

(** C10: a program that makes the system call exit while its parent waits for
    no child, or for another one, is released at once: the entry of the call
    loads the kernel's directory, the task leaves its queue and its parent's
    children, its address space, regions, kernel stack and block are gone and
    its pages unmapped in its own directory, the directory's frame is free,
    and no other task changes but for links between siblings.  Its exit code
    is kept nowhere.  [actual_task] still points to the block that was
    released, and the switch to whichever task is next reads it there: in the
    model, where the heap may hand the block out again, this is a fault. *)
Theorem exit_unwaited_departs {H} `{!Allocator H} raw_fd stack_bytes itoa_buffer raw_word kern_pd_vaddr kd rounds cr2 scancode cp
    f g (k : kernel H) qs t c kc pt l1 l2 status ch1 ch2 l A B lv1 q lv2 n :
  let k0 := entered kd k t c f g in let c0 := set_regs (save_regs f g (t_regs c)) c in
  user_entry k t c f -> exit_call status f g ->
  exiting k0 qs t c0 kc l1 l2 -> tasks (k_sched k0) !! t_parent c0 = Some pt -> unawaited k0 c0 pt ->
  reap_ready k0 t c0 ch1 ch2 l A B lv1 q lv2 ->
  (exists k', do_exit (S (S (S n))) t status k0 =
      (do next <- on_sched sched_get_next_task; task_switch_to (S (S n)) next) k' /\
    departed k0 qs t c0 (l1 ++ l2) ch1 ch2 l A B lv1 q lv2 k') /\
  general_handler raw_fd stack_bytes itoa_buffer raw_word kern_pd_vaddr kd (S (S (S n))) rounds cr2 scancode f g (mkHw k cp) = Fault.
Proof.
  intros k0 c0 Hue (Hn & He & Ha & Hs) Hex Hp Hno Hr.
  destruct (exit_departs k0 qs t c0 kc pt l1 l2 status ch1 ch2 l A B lv1 q lv2 Hex Hp Hno Hr n) as (k' & E & D).
  split; [by exists k'|].
  assert (Ef : do_exit (S (S (S n))) t status k0 = Fault).
  { rewrite E. apply next_then_switch_faults. destruct (dp_gone _ _ _ _ _ _ _ _ _ _ _ _ _ _ D) as [Hg ->]. exact Hg. }
  eapply syscall_faults; [exact Hue|lia|]. unfold dispatch. cbn [eax ebx save_regs]. rewrite Ha, Hs.
  change (0 =? 0) with true. cbv iota. unfold exit_. rewrite (bind_ok _ _ k0 t k0); [exact Ef|].
  unfold k0. rewrite <- (ue_cur _ _ _ _ Hue). by destruct k as [? ? ? ? ? ? []].
Qed.

(** The child of [wait_kernel] runs, its parent is ready and does not wait. *)
Definition run_child : tcb := set_t_state RUNNING wait_child.

#[local] Existing Instance wait_allocator.

Definition exit_kernel : kernel malloc_state :=
  set_sched (set_actual the_task (put_task 0x10 (set_t_state READY wait_parent) (put_task the_task run_child (k_sched wait_kernel))))
    (in_directory 0x64000 wait_running).

Definition exit_entered : kernel malloc_state := entered 0x6000 exit_kernel the_task run_child exit_frame (exit_regs 7).
Definition exit_child : tcb := set_regs (save_regs exit_frame (exit_regs 7) (t_regs run_child)) run_child.

Lemma exit_queues : sched_ok (k_sched exit_entered) wait_qs.
Proof. sched_check wait_qs. Qed.

Lemma exit_exiting : exiting exit_entered wait_qs the_task exit_child wait_idle [0x10] [].
Proof.
  split; try reflexivity; try discriminate; [exact exit_queues|].
  split; [reflexivity|]. split; [reflexivity|]. intros i p Hi _. exact Hi.
Qed.

Lemma exit_unwaited_departs_witness : exists k', tasks (k_sched k') !! the_task = None /\ wait_qs OsQ = [0x10; the_task] /\
  do_exit 3 the_task 7 exit_entered = (do next <- on_sched sched_get_next_task; task_switch_to 2 next) k' /\
  sched_ok (k_sched k') (upd_q wait_qs OsQ [0x10]) /\
  general_handler (fun _ => mkFd 0 0 0 0 0) [] [] 0 0 0x6000 3 5 0 0 exit_frame (exit_regs 7) (mkHw exit_kernel cpu_boot) = Fault.
Proof.
  destruct twin_blocks_rep as (z1 & z2 & z3 & z4 & Hr).
  assert (Hready : reap_ready exit_entered the_task exit_child [] [] [the_region] (mkAspace 0x64000 0x7000 0x7800 0x7900 0xbfff0000 0x1000 1 the_region the_region)
    (twin_owned z1 z2 z3 z4) [] the_range []).
  { apply (reap_ready_ext wait_running _ the_task wait_child exit_child _ _ _ _ _ _ _ _ (wait_reap z1 z2 z3 z4 Hr)); try done.
    intros x. cbn [k_sched exit_entered entered exit_kernel set_vmm set_sched tasks set_actual put_task set_tasks]. rewrite !lookup_insert.
    repeat case_decide; subst; vm_compute; done. }
  assert (Hue : user_entry exit_kernel the_task run_child exit_frame) by (split; try reflexivity; discriminate).
  destruct (exit_unwaited_departs (fun _ => mkFd 0 0 0 0 0) [] [] 0 0 0x6000 5 0 0 cpu_boot exit_frame (exit_regs 7) exit_kernel wait_qs the_task
    run_child wait_idle (set_t_state READY wait_parent) [0x10] [] 7 [] [] [the_region]
    _ _ [] the_range [] 0 Hue ltac:(by split_and!) exit_exiting eq_refl (or_introl eq_refl) Hready) as [(k' & E & D) EF].
  exists k'. split; [apply D|]. split; [done|]. split; [exact E|]. split; [apply D|exact EF].
Defined.
