(* ===== verification/Boot.v ===== *)
(** * Start-up ([src/src/kernel/arch/i386/arch_init.c], [src/src/kernel/main.c])

    From the multiboot structure the boot loader passes to the first switch
    to the init program.  What the loader and the linker provide (addresses,
    memory size, the location of the modules) are parameters. *)

From S2P Require Import Prelude Dlist Pmm Heap Paging Vmm Vmalloc Klib Terminal TerminalSpec Kprintf Namei Sched Kernel Vfs Files Task TaskSpec Cpu Exec ExecSpec Isr IsrSpec.

#[local] Open Scope Z_scope.

(** The fields of [multiboot_info_t] the kernel reads. *)
Record multiboot_info := mkMb { mem_upper : Z; mods_count : Z; mods_addr : Z }.

(** [multiboot_module_t] is 16 bytes: [mod_start] and [mod_end] come first. *)
Definition SIZEOF_MODULE : Z := 16.

Definition set_init_regs (t : tcb) : tcb :=
  let r := t_regs t in
  set_regs (mkRegs (eax r) (ebx r) (ecx r) (edx r) (esi r) (edi r) (esp r) (ebp r) (eip r) (eflags r) (Sched.cr3 r)
    (Z.lor 0x20 3) (Z.lor 0x18 3)) t.

Section boot.
Context {H : Type} `{!Allocator H}.
(** What int_handler.s and the linker provide. *)
Context (isr_vectors : list Z) (addr_gdt addr_idt addr_tss kernel_paddr_end : Z)
        (port_in : list (Z * Z) -> Z -> Z).
(** Fresh memory and locals; the kernel's directory; depth and rounds; the
    blocks of the initial ram disk; the address of the string [/bin/init]. *)
Context (raw_fd : Z -> fd_t) (raw_tcb : tcb) (raw_as : aspace) (stack_bytes itoa_buffer : list Z) (raw_word : Z)
        (kern_pd_vaddr kern_pd_paddr : Z) (n blocks : nat) (init_string : Z).

Local Notation hm := (hm (H := H)).

(** ** arch_init.c *)

(** The pages of one module, at their address in the kernel's half. *)
Definition map_module (mods i : Z) : K (H := H) unit :=
  do mod_start <- memory (ld32 (mods +w SIZEOF_MODULE * i));
  do mod_end <- memory (ld32 (mods +w SIZEOF_MODULE * i +w 4));
  do _ <- loop (S (Z.to_nat (W32 / FRAME_SIZE))) (fun l : Z * Z =>
    let '(mod_paddr, mod_size) := l in
    if 0 <? mod_size then
      memory (pg_map mod_paddr (mod_paddr +w VM_KERN_START) PG_KERN_PAGE_FLAG) ;;;
      ret_ (inl (mod_paddr +w FRAME_SIZE, mod_size - FRAME_SIZE))
    else ret_ (inr tt)) (mod_start, long (mod_end -w mod_start));
  ret_ tt.

(** Answers [kernel_end]. *)
Definition arch_init (mb : multiboot_info) : hm Z :=
  on_cpu (gdt_install addr_gdt addr_tss) ;;;
  on_cpu (idt_install isr_vectors addr_idt) ;;;
  on_cpu (tss_init GDT_KERN_DATA_OFFSET 0) ;;;
  on_cpu (timer_init 200) ;;;
  on_cpu (irq_mask_int port_in IRQ0) ;;; on_k (mod_ (set_irq0 true)) ;;;
  let mods := mods_addr mb +w VM_KERN_START in
  do kernel_end <-
    (if 0 <? mods_count mb then
       on_k (memory (pg_map (mods_addr mb) mods PG_KERN_PAGE_FLAG)) ;;;
       do last_end <- on_k (memory (ld32 (mods +w SIZEOF_MODULE * (mods_count mb - 1) +w 4)));
       on_k (memory (with_pmm (pmm_init (mem_upper mb *w 1024) 0 last_end))) ;;;
       ret_ (last_end +w VM_KERN_START)
     else
       on_k (memory (with_pmm (pmm_init (mem_upper mb *w 1024) 0 kernel_paddr_end))) ;;;
       ret_ (kernel_paddr_end +w VM_KERN_START));
  on_k (for_ (Z.to_nat (mods_count mb)) 0 (map_module mods)) ;;;
  ret_ kernel_end.

(** ** main.c *)

(** The block of [init_as]: only its page directory is assigned. *)
Definition new_init_as : K (H := H) Z :=
  do p <- kmem_alloc SIZEOF_ASPACE;
  on_vm (mod_ (fun v => set_aspaces (<[p := set_pd kern_pd_paddr raw_as]> (v_aspaces v)) v)) ;;;
  ret_ p.

Definition new_std_fd (mode_ file : Z) : K (H := H) Z :=
  do p <- kmem_alloc SIZEOF_FD;
  mod_ (fun k => set_kfds (<[p := mkFd 0 mode_ file (fd_next (raw_fd p)) (fd_prev (raw_fd p))]> (k_fds k)) k) ;;;
  fd_add p ;;;
  ret_ p.

(** Descriptors 0 and 1 of a task. *)
Definition put_std (t stdin_fd stdout_fd : Z) : K (H := H) unit :=
  put_fd t 0 stdin_fd ;;; put_fd t 1 stdout_fd ;;;
  upd_tcb t (fun c => set_fd_ctr (fd_ctr c +w 2) c).

Definition say (s : string) : K (H := H) unit := on_term (kprintf (keys s ++ [10; 0]) [] itoa_buffer).

Definition announce : K (H := H) unit :=
  say "*******************************************************************************" ;;;
  say "Welcome to TrytonOS" ;;;
  say "This is a hobby project created by determined self-taught individual" ;;;
  say "*******************************************************************************".

(** Up to the descriptors of the init task, which it answers. *)
Definition prepare_init (mb : multiboot_info) : KC (H := H) Z :=
  sched_init raw_tcb ;;;
  do mod_start <- memory (ld32 (mods_addr mb +w VM_KERN_START));
  initrd_load stack_bytes blocks (mod_start +w VM_KERN_START) ;;;
  devfs_init stack_bytes ;;;
  do init_as <- new_init_as;
  do init <- task_new OS init_as;
  upd_tcb init (set_mask SIG_DEFAULT_MASK) ;;;
  upd_tcb init set_init_regs ;;;
  do! r <- do_execve stack_bytes raw_word kern_pd_vaddr n init (c_string "/bin/init") [init_string; 0];
  if negb (r =? 0) then panic "[ERROR] Failed to load init program"
  else
    do stdin_ <- get_ (fun k => dev_stdin (k_fs k));
    do stdin_fd <- new_std_fd O_RDONLY stdin_;
    do stdout_ <- get_ (fun k => dev_stdout (k_fs k));
    do stdout_fd <- new_std_fd O_WRONLY stdout_;
    put_std init stdin_fd stdout_fd ;;;
    do kt <- get_sched kernel_task;
    put_std kt stdin_fd stdout_fd ;;;
    announce ;;;
    returns (ret_ init).

Definition kernel_main (mb : multiboot_info) : hm ending :=
  (do _ <- arch_init mb; ret_ tt) ;;;
  through (prepare_init mb) (fun init =>
    through (do r <- on_sched (sched_add_task init); preempt n r) (fun _ =>
      on_cpu (irq_unmask_int port_in IRQ0) ;;; on_k (mod_ (set_irq0 false)) ;;;
      through (task_switch n) (fun _ => ret_ Resumed))).

(** ** Where control goes *)

Lemma through_away {A} (m : KC (H := H) A) (rest : A -> hm ending) s e s' :
  (forall a s1 e1 s2, rest a s1 = Ok (e1, s2) -> exists l, e1 = Away l) ->
  through m rest s = Ok (e, s') -> exists l, e = Away l.
Proof.
  intros Hr [(l & -> & _)|(a & s1 & _ & _ & E)]%through_inv; [by exists l|by eapply Hr].
Qed.

(** [kernel_main] ends in a task or in the idle loop, never in the
    instructions of bootstrap.s behind its call. *)
Lemma kernel_main_away mb (s : hw H) e s' : kernel_main mb s = Ok (e, s') -> exists l, e = Away l.
Proof.
  unfold kernel_main. intros (u & s1 & _ & E)%bind_inv. revert E. apply through_away. intros init s2 e2 s3.
  apply through_away. intros u2 s4 e4 s5 (u3 & s6 & _ & E)%bind_inv. apply bind_inv in E as (u4 & s7 & _ & E).
  apply through_inv in E as [(l & -> & _)|(a & s8 & _ & (k & Ek) & _)]; [by exists l|].
  by destruct (task_switch_noret n _ _ _ Ek).
Qed.

End boot.
