(* ===== verification/Umalloc.v ===== *)
(** * The heap of user programs ([src/src/libc/stdlib/malloc.c], [free.c])

    The same chunks and bins as the kernel heap, over memory a program gets
    from [sbrk].  The functions that are the kernel's line for line are taken
    from [Kmalloc.v] under the names of this file's source; [free], the
    splitting that calls it, the expansion of the heap and [malloc] are
    written out.  [sbrk] is the system call: an interface ([Sbrk]) that says
    what [malloc] relies on. *)

From S2P Require Import Prelude Dlist Kmalloc.

#[local] Open Scope Z_scope.

(** [sbrk(0)] answers the program break; [sbrk(inc)] moves it up by [inc]
    and answers the old one, or answers NULL and leaves it. *)
Class Sbrk (B : Type) := {
  sbrk : Z -> M B Z;
  brk_end_of : B -> Z;
  sbrk_zero : forall b, sbrk 0 b = Ok (brk_end_of b, b);
  sbrk_inc : forall inc b, 0 < inc ->
    sbrk inc b = Ok (0, b) \/
    exists b', sbrk inc b = Ok (brk_end_of b, b') /\ brk_end_of b' = brk_end_of b + inc;
}.

Record umem (B : Type) := mkUmem { u_ms : malloc_state; u_heap_size : Z; u_brk : B }.
Arguments mkUmem {_} _ _ _. Arguments u_ms {_} _. Arguments u_heap_size {_} _. Arguments u_brk {_} _.

Definition DEFAULT_HEAP_SIZE : Z := 8192.
Definition EXPAND_SIZE_OFF : Z := 4096.

Section umalloc.
Context {B : Type} `{!Sbrk B}.
(** The content of memory that held no header before. *)
Context (raw : Z -> chunk_header).

Definition um (A : Type) : Type := M (umem B) A.
Definition on_ms {A} (m : kmem A) : um A := zoom u_ms (fun s u => mkUmem s (u_heap_size u) (u_brk u)) m.
Definition on_brk {A} (m : M B A) : um A := zoom u_brk (fun b u => mkUmem (u_ms u) (u_heap_size u) b) m.
Definition set_heap_size (v : Z) : um unit := mod_ (fun u => mkUmem (u_ms u) v (u_brk u)).

(** ** free.c *)

Definition u_find_suitable_bin : Z -> kmem (option nat) := _find_suitable_bin.
Definition u_push_to_sizebin : nat -> Z -> kmem unit := _push_to_sizebin.
Definition u_insert_in_sortedbin : Z -> kmem unit := _insert_in_sortedbin.

Definition free (ptr : Z) : kmem unit :=
  if ptr =? 0 then ret_ tt
  else
    let chunk := mem2chunk ptr in
    do init <- get_ is_initialized;
    if negb init then ret_ tt
    else
      do c <- ld chunk;
      if negb (c_free c =? 0) then ret_ tt
      else
        do dest_bin <- u_find_suitable_bin (c_size c);
        match dest_bin with
        | None => u_insert_in_sortedbin chunk
        | Some i => u_push_to_sizebin i chunk
        end ;;;
        do c <- ld chunk;
        let next_chunk := chunk +w c_size c in
        do void <- get_ void_chunk;
        (when next_chunk <? void then_ upd next_chunk (chunk_set_adj 1 (c_size c))) ;;;
        upd chunk (chunk_set_free 1).

(** ** malloc.c *)

Definition u_create_chunk : Z -> Z -> kmem Z := _create_chunk raw.
Definition u_malloc_init_bin : nat -> Z -> kmem unit := __malloc_init_bin.
Definition u_pop_from_sizebin : nat -> kmem Z := _pop_from_sizebin.
Definition u_earse_from_sortedbin : Z -> kmem unit := _earse_from_sortedbin.

(** [exit(1)] ends the program. *)
Definition u_malloc_init : um unit :=
  on_ms (for_ SIZEBINS 0 (fun i => u_malloc_init_bin (Z.to_nat i) (32 + i * CHUNK_ALIGNMENT))) ;;;
  on_ms (u_malloc_init_bin SORTEDBIN_IDX 0) ;;;
  do heap_start <- on_brk (sbrk DEFAULT_HEAP_SIZE);
  do heap_end <- on_brk (sbrk 0);
  if heap_start =? 0 then panic "[ERROR] Failed to init malloc"
  else
    let heap_size := heap_end -w heap_start in
    do v <- on_ms (u_create_chunk heap_start heap_size);
    on_ms (mod_ (ms_set_void v)) ;;;
    on_ms (upd v (chunk_set_free 1)) ;;;
    set_heap_size heap_size ;;;
    on_ms (mod_ (ms_set_init true)).

Definition align_expand (expand_size : Z) : Z :=
  if negb (expand_size mod EXPAND_SIZE_OFF =? 0)
  then expand_size -w expand_size mod EXPAND_SIZE_OFF +w EXPAND_SIZE_OFF else expand_size.

Definition _heap_expand (expand_size : Z) : um Z :=
  do void_chunk_addr <- get_ (fun u => void_chunk (u_ms u));
  do c <- on_ms (ld void_chunk_addr);
  let prev_size := c_size c in
  let expand_size := align_expand expand_size in
  do r <- on_brk (sbrk expand_size);
  if r =? 0 then ret_ (-1)
  else
    do v <- on_ms (u_create_chunk void_chunk_addr (expand_size +w prev_size));
    on_ms (mod_ (ms_set_void v)) ;;;
    on_ms (upd v (chunk_set_free 1)) ;;;
    do hs <- get_ u_heap_size;
    set_heap_size (hs +w expand_size) ;;;
    ret_ 0.

Definition u_split_chunk (chunk_to_split new_size : Z) : kmem Z :=
  do c <- ld chunk_to_split;
  (when MINIMAL_CHUNK_SIZE <=? c_size c -w new_size then_
     (let old_size := c_size c in
      do p <- u_create_chunk chunk_to_split new_size;
      do chunk_to_free <- u_create_chunk (chunk_to_split +w new_size) (old_size -w new_size);
      free (chunk2mem chunk_to_free))) ;;;
  ret_ chunk_to_split.

Definition u_find_free_chunk (sought_size : Z) : kmem Z :=
  do found <- search_sizebins sought_size;
  do found <- (if found =? 0 then search_sortedbin sought_size else ret_ found);
  if found =? 0 then ret_ 0
  else
    do found <- u_split_chunk found sought_size;
    do c <- ld found;
    upd (found +w c_size c) (chunk_set_adj 0 0) ;;;
    upd found (chunk_set_free 0) ;;;
    ret_ found.

Definition u_void_chunk_update (new_addr new_size : Z) : kmem unit :=
  do v <- u_create_chunk new_addr new_size;
  mod_ (ms_set_void v) ;;;
  upd v (chunk_set_free 1).

(** Both branches cut the new chunk off the void chunk, whose size was read
    before the expansion. *)
Definition malloc (size : Z) : um Z :=
  do init <- get_ (fun u => is_initialized (u_ms u));
  (when negb init then_ u_malloc_init) ;;;
  do void <- get_ (fun u => void_chunk (u_ms u));
  let aligned_size := align_request size in
  do new_chunk <- on_ms (u_find_free_chunk aligned_size);
  do new_chunk <-
    (if new_chunk =? 0 then
       do v <- on_ms (ld void);
       let tmp_size := c_size v in
       do enough <- (if aligned_size <=? c_size v then ret_ true
                     else do r <- _heap_expand aligned_size; ret_ (negb (r <? 0)));
       if negb (enough : bool) then ret_ 0
       else
         do nc <- on_ms (u_create_chunk void aligned_size);
         on_ms (u_void_chunk_update (void +w aligned_size) (tmp_size -w aligned_size)) ;;;
         ret_ nc
     else ret_ new_chunk);
  if new_chunk =? 0 then ret_ 0 else ret_ (chunk2mem new_chunk).
End umalloc.

(** ** Agreement with the kernel's allocator *)

(** Whatever [kfree] does without halting, [free] does. *)
Lemma free_kfree ptr s r : kfree ptr s = Ok r -> free ptr s = Ok r.
Proof.
  unfold kfree, free. destruct (ptr =? 0); [done|]. rewrite !(bind_ok (get_ is_initialized) _ s _ s eq_refl).
  destruct (is_initialized s); [|done]. cbn [negb]. intros (c & s1 & E1 & E2)%bind_inv. rewrite (bind_ok _ _ _ _ _ E1).
  destruct (negb (c_free c =? 0)); [done|]. exact E2.
Qed.

(** Operations that never call [panic]: those [kfree] is made of, its two
    checks apart. *)
Definition quiet {S A} (m : M S A) : Prop := forall s msg, m s <> Panic msg.

Create HintDb quiet discriminated.

Lemma quiet_ret {S A} (a : A) : quiet (S := S) (ret_ a).
Proof. done. Qed.

Lemma quiet_bind {S A C} (m : M S A) (k : A -> M S C) : quiet m -> (forall a, quiet (k a)) -> quiet (bind_ m k).
Proof. intros Hm Hk s msg. unfold bind_. destruct (m s) as [[a s1]|msg'| |] eqn:E; [apply Hk|by apply Hm in E|done..]. Qed.

Lemma quiet_loop {S A C} n (f : A -> M S (A + C)) : (forall a, quiet (f a)) -> forall a, quiet (loop n f a).
Proof.
  intros Hf. induction n as [|n IH]; intros a; [done|]. apply quiet_bind; [apply Hf|].
  intros [a1|c]; [apply IH|apply quiet_ret].
Qed.

Lemma quiet_ld q : quiet (ld q).
Proof. intros s msg. unfold ld. destruct (heap s !! q); [by destruct (_ =? 0)|done]. Qed.

Lemma quiet_get_bin i : quiet (get_bin i).
Proof. intros s msg. unfold get_bin. by destruct (bins s !! i). Qed.

Lemma quiet_get {S A} (f : S -> A) : quiet (get_ f).
Proof. done. Qed.

Lemma quiet_mod {S} (f : S -> S) : quiet (mod_ f).
Proof. done. Qed.

#[local] Hint Resolve quiet_ret quiet_ld quiet_get_bin quiet_get quiet_mod : quiet.

Ltac quiet := cbv zeta; repeat first
  [ progress auto with quiet nocore
  | apply quiet_loop; intros ?
  | apply quiet_bind; [|intros ?]
  | match goal with |- quiet (if ?b then _ else _) => destruct b end ].

Lemma quiet_upd q f : quiet (upd q f).
Proof. unfold upd, st. quiet. Qed.

Lemma quiet_upd_bin i f : quiet (upd_bin i f).
Proof. unfold upd_bin. quiet. Qed.

#[local] Hint Resolve quiet_upd quiet_upd_bin : quiet.

Lemma quiet_insert c : quiet (_insert_in_sortedbin c).
Proof. unfold _insert_in_sortedbin, sorted_front, sorted_back, sorted_middle. quiet. Qed.

Lemma quiet_push i c : quiet (_push_to_sizebin i c).
Proof. unfold _push_to_sizebin. quiet. Qed.

#[local] Hint Resolve quiet_insert quiet_push : quiet.

(** [kfree] halts at its two checks only, and there [free] returns. *)
Lemma free_ignores ptr s msg : kfree ptr s = Panic msg -> free ptr s = Ok (tt, s).
Proof.
  unfold kfree, free. destruct (ptr =? 0); [done|]. rewrite !(bind_ok (get_ is_initialized) _ s _ s eq_refl).
  destruct (is_initialized s); [|done]. cbn [negb].
  assert (Hld : (exists c, ld (mem2chunk ptr) s = Ok (c, s)) \/ ld (mem2chunk ptr) s = Fault).
  { unfold ld. destruct (heap s !! _) as [c|]; [destruct (_ =? 0)|]; eauto. }
  destruct Hld as [[c Hld]|Hld]; [|unfold bind_ at 1; by rewrite Hld]. rewrite !(bind_ok _ _ _ _ _ Hld).
  destruct (negb (c_free c =? 0)); [done|]. intros H. exfalso. revert H.
  match goal with |- ?m s = _ -> _ => enough (quiet m) as Q by apply Q end.
  unfold _find_suitable_bin. quiet. destruct a; quiet.
Qed.

Section agree.
Context {B : Type} `{!Sbrk B}.
Context (kernel_end : Z) (raw : Z -> chunk_header).

Lemma split_agrees p new s r : _split_chunk raw p new s = Ok r -> u_split_chunk raw p new s = Ok r.
Proof.
  unfold _split_chunk, u_split_chunk. intros (c & s1 & E1 & E)%bind_inv. rewrite (bind_ok _ _ _ _ _ E1).
  destruct (MINIMAL_CHUNK_SIZE <=? c_size c -w new); [|exact E].
  apply bind_inv in E as (u & s2 & E2 & E). apply bind_inv in E2 as (a & s3 & E3 & E2).
  apply bind_inv in E2 as (b & s4 & E4 & E2). apply free_kfree in E2.
  erewrite bind_ok; [exact E|]. erewrite bind_ok; [|exact E3]. erewrite bind_ok; [exact E2|exact E4].
Qed.

Lemma find_free_agrees z s r : _find_free_chunk raw z s = Ok r -> u_find_free_chunk raw z s = Ok r.
Proof.
  unfold _find_free_chunk, u_find_free_chunk. intros (f & s1 & E1 & E)%bind_inv. rewrite (bind_ok _ _ _ _ _ E1).
  apply bind_inv in E as (f2 & s2 & E2 & E). rewrite (bind_ok _ _ _ _ _ E2).
  destruct (f2 =? 0); [exact E|]. apply bind_inv in E as (p & s3 & E3 & E).
  rewrite (bind_ok _ _ _ _ _ (split_agrees _ _ _ _ E3)). exact E.
Qed.

Lemma on_ms_ok {A} (m : kmem A) (u : umem B) a s : m (u_ms u) = Ok (a, s) -> on_ms m u = Ok (a, mkUmem s (u_heap_size u) (u_brk u)).
Proof. unfold on_ms, zoom. by intros ->. Qed.

(** Where [kmalloc] grants a block, on a heap that is set up, so does
    [malloc]. *)
Lemma malloc_kmalloc size (u : umem B) p s' : is_initialized (u_ms u) = true ->
  kmalloc kernel_end raw size (u_ms u) = Ok (p, s') ->
  malloc raw size u = Ok (p, mkUmem s' (u_heap_size u) (u_brk u)).
Proof.
  intros Hi. unfold kmalloc, malloc. intros (i & s1 & E1 & E)%bind_inv. injection E1 as <- <-. rewrite Hi in E.
  apply bind_inv in E as (x & s1 & E1 & E). injection E1 as _ <-.
  erewrite bind_ok by reflexivity. rewrite Hi. erewrite bind_ok by reflexivity. erewrite bind_ok by reflexivity.
  apply bind_inv in E as (void & s1 & E1 & E). injection E1 as <- <-.
  apply bind_inv in E as (f & s1 & E1 & E). apply find_free_agrees in E1.
  erewrite bind_ok by (by apply on_ms_ok). set (u1 := mkUmem s1 (u_heap_size u) (u_brk u)).
  apply bind_inv in E as (nc & s2 & E2 & E).
  assert (Hnc : nc <> 0 /\ p = chunk2mem nc /\ s' = s2).
  { destruct (Z.eqb_spec nc 0); [done|]. by injection E as <- <-. }
  destruct Hnc as (Hnc & -> & ->). erewrite bind_ok; [rewrite (proj2 (Z.eqb_neq nc 0) Hnc); reflexivity|].
  destruct (f =? 0); [|by injection E2 as <- <-].
  apply bind_inv in E2 as (v & s3 & E3 & E2). erewrite bind_ok by (by apply on_ms_ok).
  destruct (Z.leb_spec (align_request size) (c_size v)); [|by injection E2 as <- <-].
  apply bind_inv in E2 as (nc2 & s4 & E4 & E2). apply bind_inv in E2 as (w & s5 & E5 & E2). injection E2 as <- <-.
  erewrite bind_ok by reflexivity. cbn [negb].
  erewrite bind_ok by (by apply on_ms_ok). erewrite bind_ok by (by apply on_ms_ok). reflexivity.
Qed.

(** C34: once the heap is set up, [malloc] and [free] are the kernel's
    allocator: where [kmalloc] grants a block [malloc] grants the same one and
    leaves the same heap, without asking for more memory, and where [kfree]
    takes a block back [free] does.  What [kfree] halts on, a block freed
    twice or a heap that is not set up, [free] ignores. *)
Theorem malloc_agrees_with_kmalloc size ptr (u : umem B) :
  (forall p s', is_initialized (u_ms u) = true -> kmalloc kernel_end raw size (u_ms u) = Ok (p, s') ->
     malloc raw size u = Ok (p, mkUmem s' (u_heap_size u) (u_brk u))) /\
  (forall s', kfree ptr (u_ms u) = Ok (tt, s') -> free ptr (u_ms u) = Ok (tt, s')) /\
  (forall msg, kfree ptr (u_ms u) = Panic msg -> free ptr (u_ms u) = Ok (tt, u_ms u)).
Proof.
  split; [|split].
  - intros p s'. apply malloc_kmalloc.
  - intros s'. apply free_kfree.
  - intros msg. apply free_ignores.
Qed.
End agree.

(** ** The expansion of the heap *)

Lemma align_expand_bounds z : 0 < z <= W32 - 4096 -> z <= align_expand z < z + 4096 /\ align_expand z mod 4096 = 0.
Proof.
  intros Hz. unfold align_expand, EXPAND_SIZE_OFF. destruct (Z.eqb_spec (z mod 4096) 0) as [E|E]; cbn [negb]; [lia|].
  assert (0 <= z mod 4096 < 4096) by (apply Z.mod_pos_bound; lia). pose proof (Z.mod_le z 4096 ltac:(lia) ltac:(lia)).
  rewrite (w32_small (z - z mod 4096)), w32_small by lia. split; [lia|]. Z.div_mod_to_equations. lia.
Qed.
Section expand.
Context {B : Type} `{!Sbrk B}.
Context (raw : Z -> chunk_header).

Definition created (p size : Z) (s : malloc_state) : malloc_state :=
  let old := default (raw p) (heap s !! p) in
  ms_set_heap (<[p := mkChunk (if size <? MINIMAL_CHUNK_SIZE then MINIMAL_CHUNK_SIZE else size mod 2 ^ 30) 0 0
    (c_prev_size old) (c_prev old) (c_next old)]> (heap s)) s.

Lemma create_run p size s : _create_chunk raw p size s = Ok (p, created p size s).
Proof. reflexivity. Qed.

Lemma upd_run p f c s : heap s !! p = Some c -> p <> 0 -> upd p f s = Ok (tt, ms_set_heap (<[p := f c]> (heap s)) s).
Proof. intros Hc Hp. unfold upd. erewrite bind_ok; [reflexivity|]. unfold ld. by rewrite Hc, (proj2 (Z.eqb_neq p 0)). Qed.

Lemma void_update_run p size s : p <> 0 -> exists s', u_void_chunk_update raw p size s = Ok (tt, s') /\
  void_chunk s' = p /\ (c_size <$> heap s' !! p) = Some (if size <? MINIMAL_CHUNK_SIZE then MINIMAL_CHUNK_SIZE else size mod 2 ^ 30) /\
  is_initialized s' = is_initialized s.
Proof.
  intros Hp. unfold u_void_chunk_update, u_create_chunk. erewrite bind_ok by apply create_run. erewrite bind_ok by reflexivity.
  eexists. split; [apply upd_run; [cbn; apply lookup_insert_eq|done]|]. cbn. split; [done|]. by rewrite lookup_insert_eq.
Qed.

Lemma on_ms_ld p c (u : umem B) : heap (u_ms u) !! p = Some c -> p <> 0 -> on_ms (ld p) u = Ok (c, u).
Proof. intros Hc Hp. unfold on_ms, zoom, ld. rewrite Hc, (proj2 (Z.eqb_neq p 0)) by done. by destruct u. Qed.

Lemma on_ms_seq (m : kmem Z) (k : kmem unit) (u : umem B) s r :
  (do x <- m; k ;;; ret_ x) (u_ms u) = Ok (r, s) ->
  (do x <- on_ms m; on_ms k ;;; ret_ x) u = Ok (r, mkUmem s (u_heap_size u) (u_brk u)).
Proof.
  intros (x & s1 & E1 & E)%bind_inv. apply bind_inv in E as ([] & s2 & E2 & E). injection E as <- <-.
  erewrite bind_ok by (apply on_ms_ok, E1). by erewrite bind_ok by (apply on_ms_ok, E2).
Qed.

Lemma heap_expand_run a c (u : umem B) b' :
  let void := void_chunk (u_ms u) in
  heap (u_ms u) !! void = Some c -> void <> 0 -> brk_end_of (u_brk u) <> 0 ->
  sbrk (align_expand a) (u_brk u) = Ok (brk_end_of (u_brk u), b') ->
  exists s, _heap_expand raw a u = Ok (0, mkUmem s (u_heap_size u +w align_expand a) b').
Proof.
  intros void Hc Hv Hb Hsb. unfold _heap_expand. eexists. erewrite bind_ok by reflexivity. fold void.
  erewrite bind_ok by (by apply on_ms_ld).
  erewrite bind_ok by (unfold on_brk, zoom; rewrite Hsb; reflexivity). rewrite (proj2 (Z.eqb_neq _ 0)) by done.
  erewrite bind_ok by (apply on_ms_ok, create_run). erewrite bind_ok by reflexivity.
  erewrite bind_ok by (apply on_ms_ok, upd_run; [cbn; apply lookup_insert_eq|done]).
  erewrite bind_ok by reflexivity. reflexivity.
Qed.

(** Cutting [a] bytes off the void chunk and recording [rest] for what is
    left. *)
Lemma cut_run void a rest s : void +w a <> 0 -> exists s',
  (do nc <- u_create_chunk raw void a; u_void_chunk_update raw (void +w a) rest ;;; ret_ nc) s = Ok (void, s') /\
  void_chunk s' = void +w a /\
  (c_size <$> heap s' !! (void +w a)) = Some (if rest <? MINIMAL_CHUNK_SIZE then MINIMAL_CHUNK_SIZE else rest mod 2 ^ 30).
Proof.
  intros Hn. unfold u_create_chunk. erewrite bind_ok by apply create_run.
  destruct (void_update_run (void +w a) rest (created void a s) Hn) as (s' & E & H1 & H2 & _).
  erewrite bind_ok by exact E. by exists s'.
Qed.
End expand.

(** A request that does not fit moves the program break up by the
    request rounded to pages and is granted at the old void chunk, but the
    size of the new void chunk is computed from the size before the
    expansion: it wraps, the header keeps its low 30 bits, and the heap now
    claims to end a gigabyte behind the old break, far behind the new one.
    Later requests are granted there without asking for memory. *)
Lemma malloc_overruns_break {B} `{!Sbrk B} raw size (u : umem B) c b' :
  let a := align_request size in
  let void := void_chunk (u_ms u) in
  is_initialized (u_ms u) = true -> u_find_free_chunk raw a (u_ms u) = Ok (0, u_ms u) ->
  heap (u_ms u) !! void = Some c -> 0 < void -> void + c_size c = brk_end_of (u_brk u) ->
  0 <= c_size c < a -> a <= 2 ^ 30 - 4096 -> void + a + 4096 < W32 ->
  sbrk (align_expand a) (u_brk u) = Ok (brk_end_of (u_brk u), b') ->
  exists u' v', malloc raw size u = Ok (chunk2mem void, u') /\ u_brk u' = b' /\
    void_chunk (u_ms u') = void + a /\ heap (u_ms u') !! (void + a) = Some v' /\
    void_chunk (u_ms u') + c_size v' = brk_end_of (u_brk u) + 2 ^ 30 /\
    brk_end_of b' = brk_end_of (u_brk u) + align_expand a /\
    brk_end_of b' + 2 ^ 30 <= void_chunk (u_ms u') + c_size v' + a + 4096.
Proof.
  intros a void Hi Hfree Hc Hv Hend Hca Ha Hw Hsb. assert (Hexp := align_expand_bounds a ltac:(lia)).
  assert (Hv0 : void <> 0) by lia. assert (Hb0 : brk_end_of (u_brk u) <> 0) by lia.
  destruct (heap_expand_run raw a c u b' Hc Hv0 Hb0 Hsb) as (s1 & E1).
  destruct (cut_run raw void a (c_size c -w a) s1 ltac:(rewrite w32_small by lia; lia)) as (s2 & E2 & Hvoid & Hsize).
  assert (Hrest : c_size c -w a = W32 + (c_size c - a)) by (rewrite w32_borrow by lia; lia).
  assert (Hmod : (W32 + (c_size c - a)) mod 2 ^ 30 = 2 ^ 30 - (a - c_size c))
    by (symmetry; apply (Z.mod_unique_pos _ _ 3); lia).
  rewrite Hrest, (proj2 (Z.ltb_ge _ _)), Hmod in Hsize by (unfold MINIMAL_CHUNK_SIZE; lia).
  rewrite w32_small in Hvoid, Hsize by lia.
  destruct (heap s2 !! (void + a)) as [v'|] eqn:Hv'; [|done]. injection Hsize as Hsize.
  eexists. exists v'. split.
  { unfold malloc. erewrite bind_ok by reflexivity. rewrite Hi. erewrite bind_ok by reflexivity.
    erewrite bind_ok by reflexivity. fold a void. erewrite bind_ok by (apply on_ms_ok, Hfree).
    change (0 =? 0) with true. cbv iota. replace (mkUmem _ _ _) with u by (by destruct u).
    erewrite bind_ok.
    2: { erewrite bind_ok by (apply on_ms_ld; [exact Hc|lia]). rewrite (proj2 (Z.leb_gt a (c_size c))) by lia.
         erewrite bind_ok by (erewrite bind_ok by exact E1; reflexivity). cbn [negb Z.ltb Z.compare].
         apply (on_ms_seq _ _ (mkUmem s1 (u_heap_size u +w align_expand a) b') _ _ E2). }
    cbv beta. rewrite (proj2 (Z.eqb_neq void 0)) by lia. reflexivity. }
  cbn [u_ms u_brk]. split; [done|]. split; [done|]. split; [done|].
  destruct (sbrk_inc (align_expand a) (u_brk u) ltac:(lia)) as [E|(b2 & E & Hb2)]; rewrite Hsb in E.
  - injection E as E _. lia.
  - injection E as <-. lia.
Qed.

(** ** A program break below a limit *)

Record brk := mkBrk { b_end : Z; b_limit : Z }.

#[export, refine] Instance simple_sbrk : Sbrk brk := {
  sbrk inc := fun b =>
    if inc =? 0 then Ok (b_end b, b)
    else if b_end b + inc <=? b_limit b then Ok (b_end b, mkBrk (b_end b + inc) (b_limit b)) else Ok (0, b);
  brk_end_of := b_end;
}.
Proof.
  - reflexivity.
  - intros inc b Hinc. rewrite (proj2 (Z.eqb_neq inc 0)) by lia.
    destruct (b_end b + inc <=? b_limit b); [right; by eexists|by left].
Defined.

Definition raw0 (_ : Z) : chunk_header := mkChunk 0 0 0 0 0 0.

(** A program after its first [malloc(100)]: 8080 of 8192 bytes are left. *)
Definition first_call : Z * umem brk := Eval vm_compute in
  after (0, mkUmem ms_boot 0 (mkBrk 0x8050000 0x9000000))
    (malloc raw0 100 (mkUmem ms_boot 0 (mkBrk 0x8050000 0x9000000))).

Lemma malloc_agrees_with_kmalloc_witness : exists p s',
  malloc raw0 40 (snd first_call) = Ok (p, mkUmem s' 8192 (mkBrk 0x8052000 0x9000000)) /\
  free (fst first_call) (u_ms (snd first_call)) = kfree (fst first_call) (u_ms (snd first_call)).
Proof.
  destruct (malloc_agrees_with_kmalloc 0 raw0 40 (fst first_call) (snd first_call)) as (Hm & Hf & _).
  eexists _, _. split; [apply Hm; [reflexivity|vm_compute; reflexivity]|].
  rewrite (Hf (match kfree (fst first_call) (u_ms (snd first_call)) with Ok (_, s) => s | _ => ms_boot end)); vm_compute; reflexivity.
Defined.

(** [malloc(10000)] next. *)
Lemma malloc_overruns_break_witness : exists u' v', malloc raw0 10000 (snd first_call) = Ok (0x8050000 + 112 + 8, u') /\
  heap (u_ms u') !! (void_chunk (u_ms u')) = Some v' /\ b_end (u_brk u') = 0x8055000 /\
  void_chunk (u_ms u') + c_size v' = 0x8052000 + 2 ^ 30.
Proof.
  destruct (malloc_overruns_break raw0 10000 (snd first_call) (mkChunk 8080 1 0 0 0 0) (mkBrk 0x8055000 0x9000000))
    as (u' & v' & E & Hb & Hv & Hh & Hend & _); try (vm_compute; congruence); [vm_compute; split; congruence|].
  exists u', v'. split; [exact E|]. split; [by rewrite Hv|]. split; [by rewrite Hb|exact Hend].
Defined.
