(* ===== verification/UmallocSpec.v ===== *)
(** * The heap of user programs keeps the allocator's contract

    [malloc] and [free] implement the same interface ([Allocator] of
    [Heap.v]) as the kernel's allocator, from the first request of a program
    on, which sets the heap up in the memory [sbrk] grants, and as long as a
    request fits the void chunk. *)

From S2P Require Import Prelude Dlist Kmalloc KmallocSpec Heap Umalloc.

#[local] Open Scope Z_scope.

Section contract.
Context {B : Type} `{!Sbrk B}.
(** Where the heap lies, and the content of memory that held no header. *)
Context (start limit : Z) (raw : Z -> chunk_header).

(** Before the first request: [sbrk] will grant the 8192 bytes behind the
    break. *)
Definition u_fresh (u : umem B) : Prop := u_ms u = ms_boot /\ brk_end_of (u_brk u) = start /\
  limit = start + DEFAULT_HEAP_SIZE /\ 0 < start /\ limit < W32 /\
  exists b', sbrk DEFAULT_HEAP_SIZE (u_brk u) = Ok (start, b') /\ brk_end_of b' = limit.

Definition u_rep (u : umem B) (A : gmap Z Z) : Prop := rep_in start limit (u_ms u) A \/ u_fresh u /\ A = ∅.

(** Where the next chunk is cut. *)
Definition u_top (u : umem B) : Z := if is_initialized (u_ms u) then void_chunk (u_ms u) else start.
Definition u_room (u : umem B) (n : Z) : Prop := u_top u + align_request n + 16 <= limit.

Lemma rep_in_init s A : rep_in start limit s A -> is_initialized s = true.
Proof. intros (T & L & H & _). apply (bo_init _ _ (i_bins _ _ _ _ _ _ H)). Qed.

Lemma u_top_init u A : rep_in start limit (u_ms u) A -> u_top u = void_chunk (u_ms u).
Proof. intros H. unfold u_top. by rewrite (rep_in_init _ _ H). Qed.

Lemma u_malloc_init_wp u : u_fresh u ->
  wp (u_malloc_init raw) (fun _ u' => rep_in start limit (u_ms u') ∅ /\ void_chunk (u_ms u') = start) u.
Proof.
  intros (Hms & Hend & Hlim & Hs & Hw & b' & Hsb & Hb).
  destruct (clear_bins_run (u_ms u) ltac:(by rewrite Hms)) as (b & E1 & E2). unfold u_malloc_init.
  apply wp_bind. eapply wp_intro; [by apply on_ms_ok, E1|]. apply wp_bind. eapply wp_intro; [by apply on_ms_ok, E2|].
  apply wp_bind, wp_zoom. cbn [u_brk]. eapply wp_intro; [exact Hsb|].
  apply wp_bind, wp_zoom. cbn [u_brk]. eapply wp_intro; [apply sbrk_zero|]. rewrite Hb, Hlim.
  rewrite (proj2 (Z.eqb_neq start 0)) by lia.
  replace (start + DEFAULT_HEAP_SIZE -w start) with DEFAULT_HEAP_SIZE
    by (replace (start + DEFAULT_HEAP_SIZE - start) with DEFAULT_HEAP_SIZE by lia; reflexivity).
  apply wp_bind, wp_zoom. unfold u_create_chunk. eapply create_chunk_wp; [unfold DEFAULT_HEAP_SIZE; lia|]. intros x y z.
  cbn [u_ms]. apply wp_bind, wp_zoom, wp_mod. apply wp_bind, wp_zoom. cbn [u_ms].
  eapply wp_upd; [cbn; by rewrite lookup_insert_eq|lia|]. apply wp_bind, wp_mod, wp_zoom, wp_mod.
  split; [|done]. apply rep_in_fresh; try done; [|unfold DEFAULT_HEAP_SIZE in *; lia..].
  unfold geo. cbn. rewrite lookup_insert_eq. cbn. by rewrite Z.add_simpl_l.
Qed.

(** A request to a heap that is set up. *)
Lemma malloc_in_wp u A n : rep_in start limit (u_ms u) A -> 0 <= n < 2 ^ 29 -> u_room u n ->
  wp (malloc raw n) (fun p u' => exists z, p <> 0 /\ A !! p = None /\ n + 8 <= z /\
    u_rep u' (<[p := z]> A) /\ u_top u' <= u_top u + align_request n) u.
Proof.
  intros Hr Hn Hroom. unfold u_room in Hroom. rewrite (u_top_init _ _ Hr) in Hroom |- *.
  destruct (wp_run _ _ _ (kmalloc_in_wp start limit 0 raw _ A n Hr Hn Hroom)) as (p & s' & E & z & Hp & HA & Hz & Hr' & Hv).
  eapply wp_intro; [by apply (malloc_kmalloc 0), E; eapply rep_in_init|]. exists z.
  split_and!; [done..|by left|]. by rewrite (u_top_init (mkUmem s' _ _) _ Hr').
Qed.

Lemma malloc_first n u u1 : is_initialized (u_ms u) = false -> u_malloc_init raw u = Ok (tt, u1) ->
  is_initialized (u_ms u1) = true -> malloc raw n u = malloc raw n u1.
Proof.
  intros Hi E H1. unfold malloc. rewrite !(bind_ok (get_ (fun u => is_initialized (u_ms u))) _ _ _ _ eq_refl).
  rewrite Hi, H1. cbn [negb]. by rewrite (bind_ok _ _ _ _ _ E).
Qed.

Lemma malloc_wp u A n : u_rep u A -> 0 <= n < 2 ^ 29 -> u_room u n ->
  wp (malloc raw n) (fun p u' => exists z, p <> 0 /\ A !! p = None /\ n + 8 <= z /\
    u_rep u' (<[p := z]> A) /\ u_top u' <= u_top u + align_request n) u.
Proof.
  intros [Hr|[Hf ->]] Hn Hroom; [by apply malloc_in_wp|].
  destruct (wp_run _ _ _ (u_malloc_init_wp u Hf)) as ([] & u1 & E & Hr & Hv).
  assert (Hi : is_initialized (u_ms u) = false) by by (destruct Hf as (-> & _)).
  assert (Htop : u_top u1 = u_top u) by (rewrite (u_top_init _ _ Hr), Hv; unfold u_top; by rewrite Hi).
  assert (Hm := malloc_in_wp u1 ∅ n Hr Hn ltac:(unfold u_room; by rewrite Htop)). rewrite Htop in Hm.
  unfold wp in *. by rewrite (malloc_first n u u1 Hi E (rep_in_init _ _ Hr)).
Qed.

Lemma free_wp u A p z : u_rep u A -> A !! p = Some z ->
  wp (on_ms (free p)) (fun _ u' => u_rep u' (delete p A) /\ u_top u' = u_top u) u.
Proof.
  intros [Hr|[_ ->]] Hp; [|done]. destruct (wp_run _ _ _ (kfree_in_rep start limit _ A p z Hr Hp)) as ([] & s' & E & Hr' & Hv).
  apply free_kfree in E. eapply wp_intro; [by apply on_ms_ok, E|].
  split; [by left|]. by rewrite (u_top_init _ _ Hr), (u_top_init (mkUmem s' _ _) _ Hr').
Qed.
End contract.

#[export] Instance umalloc_allocator {B} `{!Sbrk B} (start limit : Z) (raw : Z -> chunk_header) (bytes : umem B -> Z -> Z) : Allocator (umem B).
Proof.
  refine {| al_malloc := malloc raw; al_free := fun p => on_ms (free p); al_bytes := bytes;
            al_rep := u_rep start limit; al_room := u_room start limit |}.
  - intros s m n ? ? ?. unfold u_room. pose proof (align_request_mono m n). lia.
  - intros s A n Hr Hn Hroom. eapply wp_mono; [by eapply malloc_wp|].
    intros p s' (z & ? & ? & ? & ? & _). eauto.
  - intros s A p z Hr Hp. eapply wp_mono; [by eapply free_wp|]. by intros [] s' [? _].
  - by intros [? ? ?].
  - intros s A n m Hr Hn Hm Hlt Hroom. unfold u_room in *.
    destruct (align_request_spec n) as (? & _ & _); [lia|]. destruct (align_request_spec m) as (? & _ & _); [lia|].
    destruct (align_request_spec (n + m + 38)) as (? & _ & _); [lia|].
    eapply wp_mono; [apply (malloc_wp start limit raw s A n Hr); unfold u_room; lia|].
    intros p s' (z & _ & _ & _ & _ & Hv). lia.
  - intros s A p z m Hr Hp Hroom. unfold u_room in *. eapply wp_mono; [by eapply free_wp|]. intros [] s' [_ Hv]. lia.
  - intros s A p q zp zq [Hr|[_ ->]]; [|done]. by apply (rep_in_disjoint start limit (u_ms s)).
  - intros s A p z [Hr|[_ ->]] Hp; [|done]. destruct (rep_in_bounds _ _ _ _ _ _ Hr Hp) as (_ & _ & ?). done.
Defined.

(** A program whose break is at [start], with a limit far above. *)
Definition new_program (start : Z) : umem brk := mkUmem ms_boot 0 (mkBrk start (start + 0x100000)).

Lemma new_program_fresh start : 0 < start -> start + 0x100000 < W32 -> u_fresh start (start + DEFAULT_HEAP_SIZE) (new_program start).
Proof.
  intros H1 H2. split_and!; [done..|lia|unfold DEFAULT_HEAP_SIZE; lia|].
  exists (mkBrk (start + DEFAULT_HEAP_SIZE) (start + 0x100000)). split; [|done].
  cbn. unfold DEFAULT_HEAP_SIZE. change (8192 =? 0) with false. cbv iota.
  by rewrite (proj2 (Z.leb_le (start + 8192) (start + 0x100000))) by lia.
Qed.
