(* ===== verification/Uprintf.v ===== *)
(** * Formatted output of user programs
    ([printf.c], [perror.c] of [src/src/libc/stdio/])

    [printf] builds the text in a local array of 1921 bytes and writes it
    with one system call; a store outside the array is a [Fault]. *)

From S2P Require Import Prelude Klib Terminal TerminalSpec Kprintf.

#[local] Open Scope Z_scope.

Definition TERMINAL_RESOLUTION : Z := 1920.

(** [dest] is the part of the array that starts at [base]. *)
Definition u_add_to_start (base c last_idx : Z) : arr unit :=
  for_ (Z.to_nat last_idx) 0 (fun k =>
    do v <- arr_get (base + (last_idx - k - 1)); arr_set (base + (last_idx - k)) v) ;;;
  arr_set base c ;;;
  arr_set (base + (last_idx + 1)) 0.

(** The number of characters; never more rounds than digits. *)
Definition u_itoa (n dest base max_len : Z) : arr Z :=
  if n =? 0 then arr_set dest 48 ;;; ret_ 1
  else
    let neg := n <? 0 in
    let n := if neg then int32 (n * -1) else n in
    do ' (_, idx) <- loop 33 (fun l : Z * Z =>
      let '(n, idx) := l in
      if (0 <? n) && (idx <? max_len) then
        u_add_to_start dest (digit_char (n mod base)) idx ;;;
        ret_ (inl (n / base, idx + 1))
      else ret_ (inr (n, idx))) (n, 0);
    if neg then u_add_to_start dest 45 idx ;;; ret_ (idx + 1) else ret_ idx.

(** [%s]: [c] characters until the array is full. *)
Fixpoint put_string (s : list Z) (string_len : Z) : arr Z :=
  match s with
  | [] => ret_ string_len
  | c :: s => if string_len <? TERMINAL_RESOLUTION then arr_set string_len c ;;; put_string s (string_len + 1)
              else ret_ string_len
  end.

(** [fmt] ends where the format's terminator is; an unknown conversion is
    skipped, a missing or mistyped argument is undefined. *)
Fixpoint printf_from (fmt : list Z) (args : list va_arg) (string_len : Z) : arr Z :=
  let number base rest := fun n =>
    do k <- u_itoa n string_len base (TERMINAL_RESOLUTION - string_len); rest (string_len + k) in
  match fmt with
  | [] => ret_ string_len
  | c :: rest =>
      if negb (string_len <? TERMINAL_RESOLUTION) then ret_ string_len
      else if negb (c =? 37) then arr_set string_len c ;;; printf_from rest args (string_len + 1)
      else
        match rest with
        | [] => ret_ string_len
        | d :: rest =>
            if d =? 37 then arr_set string_len 37 ;;; printf_from rest args (string_len + 1)
            else if d =? 100 then
              match args with VInt n :: args => number 10 (printf_from rest args) n | _ => fault end
            else if d =? 120 then
              match args with VInt n :: args => number 16 (printf_from rest args) n | _ => fault end
            else if d =? 115 then
              match args with
              | VStr s :: args =>
                  do len <- lift_opt (strlen s);
                  do k <- put_string (take (Z.to_nat len) s) string_len;
                  printf_from rest args k
              | _ => fault
              end
            else printf_from rest args string_len
        end
  end.

(** The text written to standard output. *)
Definition printf (fmt : list Z) (args : list va_arg) (string_ : list Z) : res (list Z) :=
  match (do len <- lift_opt (strlen fmt); printf_from (take (Z.to_nat len) fmt) args 0) string_ with
  | Ok (n, s) => Ok (take (Z.to_nat n) s)
  | Panic e => Panic e
  | Fault => Fault
  | Hang => Hang
  end.

(** ** perror.c *)

Definition MAX_ERRNO_STR : Z := 35.

Definition errno_str : list string :=
  [""; "Operation not permitted"; "No such file or directory"; "No such process"; "Interrupted system call";
   "I/O error"; "No such device or address"; "Argument list too long"; "Exec format error"; "Bad file number";
   "No child processes"; "Try again"; "Out of memory"; "Permission denied"; "Bad address"; "Block device required";
   "Device or resource busy"; "File exists"; "Cross-device link"; "No such device"; "Not a directory";
   "Is a directory"; "Invalid argument"; "File table overflow"; "Too many open files"; "Not a typewriter";
   "Text file busy"; "File too large"; "No space left on device"; "Illegal seek"; "Read-only file system";
   "Too many links"; "Broken pipe"; "Math argument out of domain of func"; "Math result not representable"]%string.

(** A negative [errno] indexes the table below its start. *)
Definition perror (s : list Z) (errno : Z) (string_ : list Z) : res (list Z) :=
  if errno <? MAX_ERRNO_STR then
    match (if 0 <=? errno then errno_str !! Z.to_nat errno else None) with
    | Some m => printf (keys "%s: %s" ++ [10; 0]) [VStr s; VStr (keys m ++ [0])] string_
    | None => Fault
    end
  else printf (keys "%s: Errno out of range: %d" ++ [10; 0]) [VStr s; VInt errno] string_.

(** ** Properties of the model *)

Definition local_string : list Z := replicate 1921 0.

(** A negative number behind 1919 characters is cut to one digit, and its
    sign moves the terminator one byte behind the array. *)
Lemma printf_overflows : printf (replicate 1919 97 ++ [37; 100; 0]) [VInt (-5)] local_string = Fault.
Proof. vm_compute. reflexivity. Qed.

(** The smallest number has no digits. *)
Lemma printf_min : printf (keys "%d" ++ [0]) [VInt (- 2 ^ 31)] local_string = Ok [45].
Proof. vm_compute. reflexivity. Qed.

Lemma put_string_bound s : forall len d r, 0 <= len <= TERMINAL_RESOLUTION -> length d = length local_string ->
  put_string s len d = Ok r -> len <= r.1 <= TERMINAL_RESOLUTION /\ length r.2 = length local_string.
Proof.
  induction s as [|c s IH]; intros len d r Hlen Hd; cbn [put_string].
  { intros [= <-]. split; [cbn [fst]; lia|exact Hd]. }
  destruct (Z.ltb_spec len TERMINAL_RESOLUTION); [|intros [= <-]; split; [cbn [fst]; lia|exact Hd]].
  intros (u & d1 & E1 & E)%bind_inv. apply IH in E as [E2 E3]; [split; [lia|exact E3]|lia|].
  unfold arr_set in E1. case_decide; [|done]. injection E1 as _ <-. by rewrite length_insert.
Qed.
