(* ===== verification/Format.v ===== *)
(** * What the two printf routines print

    A renderer that builds the text of a format without buffers, and the two
    routines against it: [kprintf] puts exactly this text on the console,
    character by character; the C library's [printf] writes it with one
    call, whenever it fits its local array. *)

From S2P Require Import Prelude Klib Terminal TerminalSpec Kprintf Uprintf.

#[local] Open Scope Z_scope.

(** ** The renderer *)

(** The digits of [n] in front of [acc]. *)
Fixpoint digits_onto (fuel : nat) (base n : Z) (acc : list Z) : list Z :=
  match fuel with
  | O => acc
  | S fuel => if 0 <? n then digits_onto fuel base (n / base) (digit_char (n mod base) :: acc) else acc
  end.

Definition numeral (base n : Z) : list Z :=
  if n =? 0 then [48]
  else (if n <? 0 then [45] else []) ++ digits_onto 32 base (Z.abs n) [].

(** An [int] whose sign can be turned. *)
Definition printable (n : Z) : Prop := - 0x80000000 < n < 0x80000000.

#[global] Instance printable_dec n : Decision (printable n).
Proof. unfold printable. apply _. Defined.

(** [None]: an argument is missing, mistyped, not terminated, or the smallest
    [int]. *)
Fixpoint render (fmt : list Z) (args : list va_arg) : option (list Z) :=
  match fmt with
  | [] => Some []
  | c :: rest =>
      if c =? 37 then
        match rest with
        | [] => Some []
        | d :: rest =>
            if d =? 37 then (fun s => 37 :: s) <$> render rest args
            else if (d =? 100) || (d =? 120) then
              match args with
              | VInt n :: args =>
                  if decide (printable n)
                  then (fun s => numeral (if d =? 100 then 10 else 16) n ++ s) <$> render rest args else None
              | _ => None
              end
            else if d =? 115 then
              match args with
              | VStr s :: args =>
                  match strlen s with
                  | Some len => (fun r => take (Z.to_nat len) s ++ r) <$> render rest args
                  | None => None
                  end
              | _ => None
              end
            else render rest args
        end
      else (fun s => c :: s) <$> render rest args
  end.

(** ** The digits *)

Lemma digits_onto_app fuel base n acc : digits_onto fuel base n acc = digits_onto fuel base n [] ++ acc.
Proof.
  revert n acc. induction fuel as [|fuel IH]; intros n acc; cbn [digits_onto]; [done|].
  destruct (0 <? n); [|done]. by rewrite IH, (IH _ [_]), <- app_assoc.
Qed.

Lemma digits_onto_length fuel base n acc : (length acc <= length (digits_onto fuel base n acc))%nat.
Proof. rewrite digits_onto_app, length_app. lia. Qed.

(** A numeral below [base ^ k] has at most [k] digits, none of them zero
    bytes. *)
Lemma digits_bound base k : 2 <= base <= 16 -> forall fuel n, 0 <= n < base ^ Z.of_nat k ->
  (length (digits_onto fuel base n []) <= k)%nat /\ 0 ∉ digits_onto fuel base n [].
Proof.
  intros Hb. induction k as [|k IH]; intros fuel n Hn; destruct fuel as [|fuel]; cbn [digits_onto];
    try (split; [cbn; lia|apply not_elem_of_nil]).
  - destruct (Z.ltb_spec 0 n); [cbn in Hn; lia|]. split; [cbn; lia|apply not_elem_of_nil].
  - destruct (Z.ltb_spec 0 n); [|split; [cbn; lia|apply not_elem_of_nil]].
    rewrite digits_onto_app, length_app. cbn [length].
    rewrite Nat2Z.inj_succ, Z.pow_succ_r in Hn by lia.
    destruct (IH fuel (n / base)) as [H1 H2].
    { split; [apply Z.div_pos; lia|]. apply Z.div_lt_upper_bound; lia. }
    split; [lia|]. rewrite elem_of_app, list_elem_of_singleton. intros [?|E]; [done|].
    destruct (digit_roundtrip (n mod base)) as (_ & Hd & _); [|by rewrite <- E in Hd].
    pose proof (Z.mod_pos_bound n base ltac:(lia)). lia.
Qed.

Section digits.
(** [put c i]: the store routine, writing [c] in front of [i] digits behind
    [pre]; [ok]: the test of the loop. *)
Context (pre : list Z) (base : Z) (put : Z -> Z -> arr unit) (ok : Z -> bool).
Hypotheses (Hbase : 2 <= base <= 16)
  (Hput : forall ds x y rest c, wp (put c (Z.of_nat (length ds))) (fun _ d' => d' = pre ++ c :: ds ++ 0 :: rest)
     (pre ++ ds ++ x :: y :: rest)).

Definition digit_step (l : Z * Z) : arr (Z * Z + Z * Z) :=
  let '(n, idx) := l in
  if (0 <? n) && ok idx then put (digit_char (n mod base)) idx ;;; ret_ (inl (n / base, idx + 1))
  else ret_ (inr (n, idx)).

Lemma digits_loop_wp fuel : forall n ds x rest,
  0 <= n < base ^ Z.of_nat fuel -> (n = 0 -> x = 0) ->
  (length (digits_onto fuel base n ds) <= length ds + length rest)%nat ->
  (forall i, (length ds <= i < length (digits_onto fuel base n ds))%nat -> ok (Z.of_nat i) = true) ->
  wp (loop (S fuel) digit_step (n, Z.of_nat (length ds))) (fun r d =>
    r.2 = Z.of_nat (length (digits_onto fuel base n ds)) /\ exists rest',
    d = pre ++ digits_onto fuel base n ds ++ 0 :: rest' /\
    (length (digits_onto fuel base n ds) + length rest' = length ds + length rest)%nat) (pre ++ ds ++ x :: rest).
Proof.
  induction fuel as [|fuel IH]; intros n ds x rest Hn Hx Hroom Hok; cbn [loop digit_step].
  - assert (n = 0) as -> by (cbn in Hn; lia). cbn [Z.ltb Z.compare andb digits_onto]. apply wp_bind, wp_ret, wp_ret.
    split; [done|]. exists rest. by rewrite Hx.
  - cbn [digits_onto] in Hroom, Hok |- *. destruct (Z.ltb_spec 0 n) as [Hpos|Hz]; cbn [andb].
    + set (c := digit_char (n mod base)) in *.
      pose proof (digits_onto_length fuel base (n / base) (c :: ds)) as Hlen. cbn [length] in Hlen.
      rewrite Hok by lia. destruct rest as [|y rest]; [cbn in Hroom; lia|]. cbn [length] in *.
      apply wp_bind, wp_bind. eapply wp_mono; [apply Hput|]. intros [] d ->. apply wp_ret. cbv beta iota.
      replace (Z.of_nat (length ds) + 1) with (Z.of_nat (length (c :: ds))) by (cbn [length]; lia).
      change (c :: ds ++ 0 :: rest) with ((c :: ds) ++ 0 :: rest).
      eapply wp_mono; [apply (IH (n / base) (c :: ds) 0 rest)|].
      * rewrite Nat2Z.inj_succ, Z.pow_succ_r in Hn by lia.
        split; [apply Z.div_pos; lia|apply Z.div_lt_upper_bound; lia].
      * done.
      * cbn [length]. lia.
      * intros i Hi. apply Hok. cbn [length] in Hi. lia.
      * intros r d (E & rest' & -> & El). split; [done|]. exists rest'. split; [done|]. cbn [length] in El. lia.
    + assert (n = 0) as -> by lia. apply wp_bind, wp_ret, wp_ret. split; [done|]. exists rest. by rewrite Hx.
Qed.
End digits.

Lemma loop_ext {S A B} (b b' : A -> M S (A + B)) fuel : (forall a s, b a s = b' a s) ->
  forall a s, loop fuel b a s = loop fuel b' a s.
Proof.
  intros Hb. induction fuel as [|fuel IH]; intros a s; cbn [loop]; [done|].
  unfold bind_. rewrite Hb. destruct (b' a s) as [[[a'|r] s']| | |]; try done.
Qed.

Lemma wp_ext {S A} (m m' : M S A) Q s : m s = m' s -> wp m' Q s -> wp m Q s.
Proof. unfold wp. by intros ->. Qed.

(** ** An array behind a prefix *)

Section tail.
Context (pre : list Z).

(** [m] on the whole array does what [m'] does on the part behind [pre]. *)
Definition tail_sim {A} (m m' : arr A) : Prop := forall e,
  m (pre ++ e) = match m' e with Ok (a, e') => Ok (a, pre ++ e') | Panic x => Panic x | Fault => Fault | Hang => Hang end.

Lemma tail_ret {A} (a : A) : tail_sim (ret_ a) (ret_ a).
Proof. done. Qed.

Lemma tail_bind {A B} (m m' : arr A) (k k' : A -> arr B) :
  tail_sim m m' -> (forall a, tail_sim (k a) (k' a)) -> tail_sim (bind_ m k) (bind_ m' k').
Proof. intros Hm Hk e. unfold bind_. rewrite Hm. destruct (m' e) as [[a e']| | |]; [apply Hk|done..]. Qed.

Lemma tail_for n : forall i (b b' : Z -> arr unit), (forall j, i <= j < i + Z.of_nat n -> tail_sim (b j) (b' j)) ->
  tail_sim (for_ n i b) (for_ n i b').
Proof.
  induction n as [|n IH]; intros i b b' Hb; cbn [for_]; [apply tail_ret|].
  apply tail_bind; [apply Hb; lia|]. intros _. apply IH. intros j Hj. apply Hb. lia.
Qed.

Lemma tail_get i : 0 <= i -> tail_sim (arr_get (Z.of_nat (length pre) + i)) (arr_get i).
Proof.
  intros Hi e. unfold arr_get. rewrite Z2Nat.inj_add, Nat2Z.id, lookup_app_r by lia.
  replace (length pre + Z.to_nat i - length pre)%nat with (Z.to_nat i) by lia.
  destruct (e !! Z.to_nat i); [|done]. destruct (Z.leb_spec 0 i); [|lia].
  by destruct (Z.leb_spec 0 (Z.of_nat (length pre) + i)); [|lia].
Qed.

Lemma tail_set i v : 0 <= i -> tail_sim (arr_set (Z.of_nat (length pre) + i) v) (arr_set i v).
Proof.
  intros Hi e. unfold arr_set. rewrite length_app. repeat case_decide; try lia; [|done].
  replace (Z.to_nat (Z.of_nat (length pre) + i)) with (length pre + Z.to_nat i)%nat by lia. by rewrite insert_app_r.
Qed.

Lemma u_add_to_start_tail c last : 0 <= last ->
  tail_sim (u_add_to_start (Z.of_nat (length pre)) c last) (_add_to_start c last).
Proof.
  intros Hl. unfold u_add_to_start, _add_to_start. apply tail_bind.
  - apply tail_for. intros j Hj. apply tail_bind; [apply tail_get; lia|]. intros v. apply tail_set. lia.
  - intros _. apply tail_bind; [|intros _; apply tail_set; lia].
    pose proof (tail_set 0 c ltac:(lia)) as H. by rewrite Z.add_0_r in H.
Qed.

Lemma u_add_to_start_wp ds x y rest c : wp (u_add_to_start (Z.of_nat (length pre)) c (Z.of_nat (length ds)))
  (fun _ d' => d' = pre ++ c :: ds ++ 0 :: rest) (pre ++ ds ++ x :: y :: rest).
Proof.
  destruct (wp_run _ _ _ (add_to_start_wp ds x y rest c)) as ([] & d & E & ->).
  eapply wp_intro; [rewrite u_add_to_start_tail, E by lia; done|done].
Qed.
End tail.

(** ** One number *)

Lemma numeral_neg base n : n < 0 -> numeral base n = 45 :: digits_onto 32 base (- n) [].
Proof.
  intros Hn. unfold numeral. destruct (Z.eqb_spec n 0); [lia|]. destruct (Z.ltb_spec n 0); [|lia].
  by rewrite Z.abs_neq by lia.
Qed.

Lemma numeral_pos base n : 0 < n -> numeral base n = digits_onto 32 base n [].
Proof.
  intros Hn. unfold numeral. destruct (Z.eqb_spec n 0); [lia|]. destruct (Z.ltb_spec n 0); [lia|].
  by rewrite Z.abs_eq by lia.
Qed.

Lemma digits_of_int base n : 10 <= base <= 16 -> 0 <= n < 0x80000000 ->
  (length (digits_onto 32 base n []) <= 10)%nat /\ 0 ∉ digits_onto 32 base n [] /\ n < base ^ Z.of_nat 32.
Proof.
  intros Hb Hn. assert (Hp : 10 ^ 10 <= base ^ Z.of_nat 10) by (apply Z.pow_le_mono_l; lia).
  destruct (digits_bound base 10 ltac:(lia) 32 n) as [H1 H2]; [lia|]. split_and!; [done|done|].
  assert (10 ^ 32 <= base ^ Z.of_nat 32) by (apply Z.pow_le_mono_l; lia). lia.
Qed.

Lemma abs_int n : printable n -> (if n <? 0 then int32 (n * -1) else n) = Z.abs n.
Proof.
  unfold printable. intros Hn. destruct (Z.ltb_spec n 0); [|lia]. unfold int32. rewrite Z.mod_small by lia.
  destruct (Z.ltb_spec (n * -1) 0x80000000); lia.
Qed.

(** The kernel's routine: the numeral and its terminator. *)
Lemma itoa_numeral base n tmp : 10 <= base <= 16 -> printable n -> length tmp = 20%nat ->
  exists rest, _itoa n base tmp = Ok (tt, numeral base n ++ 0 :: rest) /\ length (numeral base n ++ 0 :: rest) = 20%nat /\
    0 ∉ numeral base n.
Proof.
  intros Hb Hn Hlen. destruct tmp as [|x tmp]; [done|]. cbn in Hlen. injection Hlen as Hlen.
  assert (W : wp (_itoa n base) (fun _ d => exists rest, d = numeral base n ++ 0 :: rest /\
    length (numeral base n ++ 0 :: rest) = 20%nat /\ 0 ∉ numeral base n) (x :: tmp)).
  2: { destruct (wp_run _ _ _ W) as ([] & d & E & rest & -> & ?). by exists rest. }
  unfold _itoa. apply wp_bind. destruct (Z.eqb_spec n 0) as [->|Hn0].
  { destruct tmp as [|y tmp]; [done|]. eapply wp_mono; [apply (add_to_start_wp [] x y tmp)|]. intros [] d ->.
    cbn [app length] in *. exists tmp. split_and!; [done|cbn; lia|]. cbn. by rewrite list_elem_of_singleton. }
  apply wp_ret. cbv zeta. rewrite abs_int by done. apply wp_bind.
  destruct (digits_of_int base (Z.abs n) Hb ltac:(unfold printable in Hn; lia)) as (Hl & H0 & Hlt).
  remember (digits_onto 32 base (Z.abs n) []) as ds eqn:Eds.
  eapply (wp_mono _ (fun r d => r.2 = Z.of_nat (length ds) /\ exists rest', d = ds ++ 0 :: rest' /\
    (length ds + length rest')%nat = length tmp)).
  { eapply wp_ext; [apply (loop_ext _ (digit_step base _add_to_start (fun _ => true)));
      intros [m i] d; unfold digit_step; by rewrite andb_true_r|].
    eapply wp_mono; [apply (digits_loop_wp [] base _add_to_start (fun _ => true) ltac:(lia) add_to_start_wp 32 (Z.abs n) [] x tmp)|].
    - lia.
    - lia.
    - rewrite <- Eds. cbn [length]. lia.
    - done.
    - intros r d (E & rest' & -> & El). rewrite <- Eds in *. split; [done|]. by exists rest'. }
  intros [m idx] d (E & rest & -> & El). cbn [snd] in E. subst idx. destruct (Z.ltb_spec n 0) as [Hneg|Hpos].
  - destruct rest as [|z rest]; [cbn [length] in El; lia|]. eapply wp_mono; [apply add_to_start_wp|]. intros [] d ->.
    rewrite numeral_neg by done. rewrite <- (Z.abs_neq n) by lia. rewrite <- Eds. exists rest.
    split_and!; [done|rewrite length_app; cbn [length] in *; lia|by rewrite not_elem_of_cons].
  - apply wp_ret. rewrite numeral_pos by lia. rewrite <- (Z.abs_eq n) by lia. rewrite <- Eds. exists rest.
    split_and!; [done|rewrite length_app; cbn [length] in *; lia|done].
Qed.

(** The library's routine, where the numeral fits: no terminator behind a
    lone zero, and its length is the answer. *)
Lemma u_itoa_numeral pre base n max_len e : 10 <= base <= 16 -> printable n ->
  (length (numeral base n) < length e)%nat -> Z.of_nat (length (numeral base n)) <= max_len ->
  exists e', u_itoa n (Z.of_nat (length pre)) base max_len (pre ++ e) =
    Ok (Z.of_nat (length (numeral base n)), pre ++ numeral base n ++ e') /\
    (length (numeral base n) + length e')%nat = length e.
Proof.
  intros Hb Hn Hroom Hmax. destruct e as [|x e]; [cbn in Hroom; lia|]. cbn [length] in Hroom.
  assert (W : wp (u_itoa n (Z.of_nat (length pre)) base max_len) (fun r d => r = Z.of_nat (length (numeral base n)) /\
    exists e', d = pre ++ numeral base n ++ e' /\ (length (numeral base n) + length e')%nat = length (x :: e)) (pre ++ x :: e)).
  2: { destruct (wp_run _ _ _ W) as (r & d & E & -> & e' & -> & ?). by exists e'. }
  unfold u_itoa. destruct (Z.eqb_spec n 0) as [->|Hn0].
  { apply wp_bind. unfold wp, arr_set at 1. rewrite decide_True by (rewrite length_app; cbn; lia). cbn. split; [done|].
    exists e. split; [|done]. rewrite insert_app_r_alt by lia. replace (Z.to_nat _ - _)%nat with 0%nat by lia. done. }
  cbv zeta. rewrite abs_int by done. apply wp_bind.
  destruct (digits_of_int base (Z.abs n) Hb ltac:(unfold printable in Hn; lia)) as (Hl & H0 & Hlt).
  assert (Hnum : numeral base n = (if n <? 0 then [45] else []) ++ digits_onto 32 base (Z.abs n) [])
    by (unfold numeral; by destruct (Z.eqb_spec n 0)).
  assert (Hds : (length (digits_onto 32 base (Z.abs n) []) <= length (numeral base n))%nat) by (rewrite Hnum, length_app; lia).
  remember (digits_onto 32 base (Z.abs n) []) as ds eqn:Eds.
  eapply (wp_mono _ (fun r d => r.2 = Z.of_nat (length ds) /\ exists rest', d = pre ++ ds ++ 0 :: rest' /\
    (length ds + length rest')%nat = length e)).
  { eapply wp_ext; [apply (loop_ext _ (digit_step base (u_add_to_start (Z.of_nat (length pre))) (fun idx => idx <? max_len)));
      by intros [m i] d|].
    eapply wp_mono; [apply (digits_loop_wp pre base _ _ ltac:(lia) (u_add_to_start_wp pre) 32 (Z.abs n) [] x e)|].
    - lia.
    - lia.
    - rewrite <- Eds. cbn [length]. lia.
    - intros i Hi. rewrite <- Eds in Hi. apply Z.ltb_lt. lia.
    - intros r d (E & rest' & -> & El). rewrite <- Eds in *. split; [done|]. by exists rest'. }
  intros [m idx] d (E & rest & -> & El). cbn [snd] in E. subst idx.
  rewrite Hnum in Hroom |- *. clear Hnum Hmax Hds. destruct (Z.ltb_spec n 0) as [Hneg|Hpos].
  - rewrite length_app in Hroom. cbn [length] in Hroom. destruct rest as [|z rest]; [cbn [length] in El; lia|]. apply wp_bind. eapply wp_mono; [apply u_add_to_start_wp|]. intros [] d ->.
    apply wp_ret. rewrite length_app. cbn [length app] in *. split; [lia|]. exists (0 :: rest). split; [done|cbn [length]; lia].
  - apply wp_ret. cbn [app]. split; [done|]. exists (0 :: rest). split; [done|cbn [length]; lia].
Qed.

(** The renderer's numerals denote their numbers. *)
Lemma digits_value base fuel : 2 <= base <= 16 -> forall n acc, 0 <= n < base ^ Z.of_nat fuel ->
  value base (digits_onto fuel base n acc) = n * base ^ Z.of_nat (length acc) + value base acc.
Proof.
  intros Hb. induction fuel as [|fuel IH]; intros n acc Hn; cbn [digits_onto].
  - assert (n = 0) as -> by (cbn in Hn; lia). lia.
  - destruct (Z.ltb_spec 0 n); [|assert (n = 0) as -> by lia; lia].
    rewrite Nat2Z.inj_succ, Z.pow_succ_r in Hn by lia.
    rewrite IH by (split; [apply Z.div_pos; lia|apply Z.div_lt_upper_bound; lia]).
    pose proof (Z.mod_pos_bound n base ltac:(lia)).
    destruct (digit_roundtrip (n mod base)) as (Hd & _); [lia|].
    rewrite value_cons, Hd. cbn [length]. rewrite Nat2Z.inj_succ, Z.pow_succ_r by lia.
    rewrite (Z.div_mod n base) at 3 by lia. lia.
Qed.

Lemma numeral_denotes base n : 10 <= base <= 16 -> printable n ->
  (if n <? 0 then exists ds, numeral base n = 45 :: ds /\ value base ds = - n else value base (numeral base n) = n).
Proof.
  intros Hb Hn. destruct (digits_of_int base (Z.abs n) Hb ltac:(unfold printable in Hn; lia)) as (_ & _ & Hlt).
  pose proof (digits_value base 32 ltac:(lia) (Z.abs n) [] ltac:(lia)) as Hv.
  replace (value base []) with 0 in Hv by done. cbn [length Z.of_nat] in Hv. rewrite Z.pow_0_r in Hv.
  destruct (Z.ltb_spec n 0) as [Hneg|Hpos].
  - rewrite numeral_neg by done. eexists. split; [done|]. rewrite Z.abs_neq in Hv by lia. lia.
  - destruct (decide (n = 0)) as [->|]; [done|]. rewrite numeral_pos by lia. rewrite Z.abs_eq in Hv by lia. lia.
Qed.

(** ** The console *)

(** The characters one after the other. *)
Fixpoint puts (s : list Z) : tm unit :=
  match s with [] => ret_ tt | c :: s => terminal_putchar c ;;; puts s end.

Lemma bind_assoc {S A B C} (m : M S A) (f : A -> M S B) (g : B -> M S C) s :
  bind_ (bind_ m f) g s = bind_ m (fun a => bind_ (f a) g) s.
Proof. unfold bind_. by destruct (m s) as [[a s']| | |]. Qed.

Lemma bind_ext {S A B} (m : M S A) (f g : A -> M S B) s : (forall a s', f a s' = g a s') -> bind_ m f s = bind_ m g s.
Proof. intros E. unfold bind_. by destruct (m s) as [[a s']| | |]. Qed.

Lemma puts_app s1 s2 t : puts (s1 ++ s2) t = (puts s1 ;;; puts s2) t.
Proof.
  revert t. induction s1 as [|c s1 IH]; intros t; cbn [puts app]; [done|].
  rewrite bind_assoc. apply bind_ext. intros _ t'. apply IH.
Qed.

Lemma for_puts s : forall pre t, for_ (length s) (Z.of_nat (length pre))
  (fun i => terminal_putchar (default 0 ((pre ++ s) !! Z.to_nat i))) t = puts s t.
Proof.
  induction s as [|c s IH]; intros pre t; cbn [length for_ puts]; [done|].
  rewrite Nat2Z.id, lookup_app_r, Nat.sub_diag by lia. cbn [lookup list_lookup default].
  apply bind_ext. intros _ t'. rewrite <- (IH (pre ++ [c]) t'), length_app. cbn [length].
  replace (Z.of_nat (length pre + 1)) with (Z.of_nat (length pre) + 1) by lia. by rewrite <- app_assoc.
Qed.

Lemma for_ext {S} n : forall i (b b' : Z -> M S unit) s, (forall j s', i <= j < i + Z.of_nat n -> b j s' = b' j s') ->
  for_ n i b s = for_ n i b' s.
Proof.
  induction n as [|n IH]; intros i b b' s Hb; cbn [for_]; [done|].
  unfold bind_. rewrite Hb by lia. destruct (b' i s) as [[[] s']| | |]; [|done..]. apply IH. intros j s'' Hj. apply Hb. lia.
Qed.

Lemma writestring_puts s name t : cstr s name -> terminal_writestring s t = puts name t.
Proof.
  intros Hs. unfold terminal_writestring, bind_, lift_opt. rewrite (strlen_cstr _ _ Hs). rewrite Nat2Z.id.
  destruct Hs as [_ [rest ->]]. rewrite <- (for_puts name [] t). apply for_ext. cbn [length Z.of_nat app].
  intros j t' Hj. by rewrite lookup_app_l by lia.
Qed.

Lemma cstr_take s len : strlen s = Some len -> cstr s (take (Z.to_nat len) s).
Proof.
  intros E. destruct (strlen_some _ _ E) as (name & Hs & ->). pose proof Hs as [_ [rest ->]].
  rewrite Nat2Z.id. by rewrite take_app_length.
Qed.

(** [%d] and [%x] on the console. *)
Lemma print_number base n tmp k text t : 10 <= base <= 16 -> printable n -> length tmp = 20%nat ->
  (forall tmp' t', length tmp' = 20%nat -> k tmp' t' = puts text t') ->
  match _itoa n base tmp with
  | Ok (_, tmp') => (terminal_writestring tmp' ;;; k tmp') t
  | Panic e => Panic e
  | Fault => Fault
  | Hang => Hang
  end = puts (numeral base n ++ text) t.
Proof.
  intros Hb Hn Hlen Hk. destruct (itoa_numeral base n tmp Hb Hn Hlen) as (rest & -> & Hl & H0).
  assert (Hs : cstr (numeral base n ++ 0 :: rest) (numeral base n)) by (split; [done|by exists rest]).
  rewrite puts_app. unfold bind_. rewrite (writestring_puts _ _ _ Hs).
  destruct (puts (numeral base n) t) as [[[] t']| | |]; [|done..]. by apply Hk.
Qed.

Lemma kprintf_from_renders m : forall fmt args text tmp t, (length fmt <= m)%nat -> render fmt args = Some text ->
  length tmp = 20%nat -> kprintf_from fmt args tmp t = puts text t.
Proof.
  induction m as [|m IH]; intros fmt args text tmp t Hm E Hlen;
    (destruct fmt as [|c fmt]; [cbn in E; injection E as <-; done|]); [cbn in Hm; lia|].
  cbn [length] in Hm. cbn [render] in E. cbn [kprintf_from]. destruct (Z.eqb_spec c 37) as [->|Hc].
  - destruct fmt as [|d fmt]; [injection E as <-; done|]. cbn [length] in Hm.
    destruct (Z.eqb_spec d 37) as [->|Hd].
    { destruct (render fmt args) as [r|] eqn:Er; [|done]. injection E as <-. cbn [puts].
      apply bind_ext. intros _ t'. apply (IH fmt args); [lia|done..]. }
    assert (Hnum : forall b, (b = 10 \/ b = 16) -> forall args', match args' with
        | VInt n :: args => if decide (printable n) then (fun s => numeral b n ++ s) <$> render fmt args else None
        | _ => None end = Some text ->
      match args' with
      | VInt n :: args => match _itoa n b tmp with
          | Ok (_, tmp') => (terminal_writestring tmp' ;;; kprintf_from fmt args tmp') t
          | Panic e => Panic e | Fault => Fault | Hang => Hang end
      | _ => Fault end = puts text t).
    { intros b Hb [|[n|s] args'] E'; [done| |done]. destruct (decide (printable n)) as [Hn|]; [|done].
      destruct (render fmt args') as [r|] eqn:Er; [|done]. injection E' as <-.
      apply print_number; [lia|done|done|]. intros tmp' t' Hl. apply (IH fmt args'); [lia|done..]. }
    destruct (Z.eqb_spec d 100) as [->|Hd1]; cbn [orb] in E.
    { specialize (Hnum 10 (or_introl eq_refl) args E). by destruct args as [|[n|s] args]. }
    destruct (Z.eqb_spec d 120) as [->|Hd2].
    { specialize (Hnum 16 (or_intror eq_refl) args E). by destruct args as [|[n|s] args]. }
    clear Hnum. destruct (Z.eqb_spec d 115) as [->|Hd3].
    { destruct args as [|[n|s] args]; [done|done|]. destruct (strlen s) as [len|] eqn:El; [|done].
      destruct (render fmt args) as [r|] eqn:Er; [|done]. injection E as <-. rewrite puts_app. unfold bind_.
      rewrite (writestring_puts _ _ _ (cstr_take _ _ El)).
      destruct (puts _ t) as [[[] t']| | |]; [|done..]. apply (IH fmt args); [lia|done..]. }
    apply (IH fmt args); [lia|done..].
  - destruct (render fmt args) as [r|] eqn:Er; [|done]. injection E as <-. cbn [puts].
    destruct fmt as [|d fmt].
    + cbn in Er. injection Er as <-. cbn [puts]. unfold bind_, ret_. by destruct (terminal_putchar c t) as [[[] t']| | |].
    + apply bind_ext. intros _ t'. apply (IH (d :: fmt) args); [lia|done..].
Qed.

(** ** The local array *)

Lemma arr_set_next pre x e c : arr_set (Z.of_nat (length pre)) c (pre ++ x :: e) = Ok (tt, (pre ++ [c]) ++ e).
Proof.
  unfold arr_set. rewrite decide_True by (rewrite length_app; cbn; lia). rewrite Nat2Z.id, insert_app_r_alt, Nat.sub_diag by lia.
  by rewrite <- app_assoc.
Qed.

Lemma put_string_ok s : forall pre e, (length s <= length e)%nat -> Z.of_nat (length pre + length s) <= TERMINAL_RESOLUTION ->
  exists e', put_string s (Z.of_nat (length pre)) (pre ++ e) = Ok (Z.of_nat (length (pre ++ s)), (pre ++ s) ++ e') /\
    (length s + length e')%nat = length e.
Proof.
  induction s as [|c s IH]; intros pre e He Hroom; cbn [put_string].
  - rewrite app_nil_r. by exists e.
  - cbn [length] in *. destruct e as [|x e]; [cbn in He; lia|]. cbn [length] in He.
    destruct (Z.ltb_spec (Z.of_nat (length pre)) TERMINAL_RESOLUTION); [|lia].
    unfold bind_. rewrite arr_set_next.
    replace (Z.of_nat (length pre) + 1) with (Z.of_nat (length (pre ++ [c]))) by (rewrite length_app; cbn; lia).
    destruct (IH (pre ++ [c]) e) as (e' & E & Hl); [lia|rewrite length_app; cbn; lia|].
    exists e'. rewrite E, <- app_assoc. cbn [app length]. split; [done|lia].
Qed.

(** [printf_from] continues behind what it has written. *)
Definition continues (m : arr Z) (pre text e : list Z) : Prop :=
  exists e', m (pre ++ e) = Ok (Z.of_nat (length (pre ++ text)), (pre ++ text) ++ e') /\
    (length text + length e')%nat = length e.

Lemma continues_text {A} (m : arr A) k pre s r e a :
  (exists e1, m (pre ++ e) = Ok (a, (pre ++ s) ++ e1) /\ (length s + length e1)%nat = length e) ->
  (forall e1, (length s + length e1)%nat = length e -> continues (k a) (pre ++ s) r e1) ->
  continues (bind_ m k) pre (s ++ r) e.
Proof.
  intros (e1 & E & Hl) Hk. destruct (Hk e1 Hl) as (e' & E' & Hl'). exists e'. unfold bind_. rewrite E, E'.
  rewrite <- !app_assoc. split; [done|rewrite length_app; lia].
Qed.

Lemma continues_char ch k pre r e : (0 < length e)%nat ->
  (forall e1, (1 + length e1)%nat = length e -> continues (k (Z.of_nat (length pre) + 1)) (pre ++ [ch]) r e1) ->
  continues (arr_set (Z.of_nat (length pre)) ch ;;; k (Z.of_nat (length pre) + 1)) pre (ch :: r) e.
Proof.
  intros He Hk. destruct e as [|x e]; [cbn in He; lia|].
  apply (continues_text _ _ pre [ch] r _ tt); [|intros e1 Hl; by apply Hk]. exists e. by rewrite arr_set_next.
Qed.

Lemma continues_number b n k pre r e : b = 10 \/ b = 16 -> printable n -> (length pre + length e = 1921)%nat ->
  Z.of_nat (length pre + (length (numeral b n) + length r)) <= 1920 ->
  (forall e1, (length (numeral b n) + length e1)%nat = length e ->
    continues (k (Z.of_nat (length (pre ++ numeral b n)))) (pre ++ numeral b n) r e1) ->
  continues (do x <- u_itoa n (Z.of_nat (length pre)) b (1920 - Z.of_nat (length pre)); k (Z.of_nat (length pre) + x))
    pre (numeral b n ++ r) e.
Proof.
  intros Hb Hn Hlen Hfit Hk.
  destruct (u_itoa_numeral pre b n (1920 - Z.of_nat (length pre)) e) as (e1 & E1 & Hl1); [lia|done|lia|lia|].
  apply (continues_text _ _ _ _ _ _ (Z.of_nat (length (numeral b n)))); [exists e1; by rewrite <- app_assoc|].
  intros e2 Hl2. specialize (Hk e2 Hl2). by rewrite length_app, Nat2Z.inj_add in Hk.
Qed.

Lemma continues_string s len k pre r e : (length (take (Z.to_nat len) s) <= length e)%nat ->
  Z.of_nat (length pre + length (take (Z.to_nat len) s)) <= TERMINAL_RESOLUTION ->
  (forall e1, (length (take (Z.to_nat len) s) + length e1)%nat = length e ->
    continues (k (Z.of_nat (length (pre ++ take (Z.to_nat len) s)))) (pre ++ take (Z.to_nat len) s) r e1) ->
  continues (do len' <- lift_opt (Some len); do x <- put_string (take (Z.to_nat len') s) (Z.of_nat (length pre)); k x)
    pre (take (Z.to_nat len) s ++ r) e.
Proof.
  intros He Hfit Hk.
  change (continues (do x <- put_string (take (Z.to_nat len) s) (Z.of_nat (length pre)); k x) pre (take (Z.to_nat len) s ++ r) e).
  by apply (continues_text _ _ _ _ _ _ (Z.of_nat (length (pre ++ take (Z.to_nat len) s)))); [apply put_string_ok|].
Qed.

Lemma printf_from_renders m : forall fmt args text pre e, (length fmt <= m)%nat -> render fmt args = Some text ->
  (length pre + length e = 1921)%nat -> Z.of_nat (length pre + length text) <= TERMINAL_RESOLUTION ->
  continues (printf_from fmt args (Z.of_nat (length pre))) pre text e.
Proof.
  unfold TERMINAL_RESOLUTION. induction m as [|m IH]; intros fmt args text pre e Hm E Hlen Hfit;
    (destruct fmt as [|c fmt]; [cbn in E; injection E as <-; exists e; rewrite app_nil_r; done|]); [cbn in Hm; lia|].
  cbn [length] in Hm. cbn [printf_from]. unfold TERMINAL_RESOLUTION.
  destruct (Z.ltb_spec (Z.of_nat (length pre)) 1920) as [Hlt|Hge]; cbn [negb].
  2: { assert (text = []) as -> by (destruct text; [done|cbn in Hfit; lia]). exists e. by rewrite app_nil_r. }
  assert (Hnext : forall s k fmt' args' r e1, render fmt' args' = Some r -> (length fmt' <= m)%nat ->
    (length pre + (length s + length e1) = 1921)%nat -> Z.of_nat (length pre + (length s + length r)) <= 1920 ->
    k = Z.of_nat (length (pre ++ s)) -> continues (printf_from fmt' args' k) (pre ++ s) r e1).
  { intros s k fmt' args' r e1 Er Hl H1 H2 ->. apply IH; [lia|done|rewrite length_app; lia|rewrite length_app; lia]. }
  assert (Hchar : forall ch fmt' args', (length fmt' <= m)%nat -> (fun s => ch :: s) <$> render fmt' args' = Some text ->
    continues (arr_set (Z.of_nat (length pre)) ch ;;; printf_from fmt' args' (Z.of_nat (length pre) + 1)) pre text e).
  { intros ch fmt' args' Hl E'. destruct (render fmt' args') as [r|] eqn:Er; [|done]. injection E' as <-. cbn [length] in Hfit.
    apply (continues_char ch (printf_from fmt' args')); [lia|]. intros e1 Hl1.
    apply (Hnext [ch] _ fmt' args'); try done; cbn [length]; try lia. rewrite length_app. cbn. lia. }
  cbn [render] in E. destruct (Z.eqb_spec c 37) as [->|Hc]; cbn [negb]; [|by apply Hchar; [lia|]].
  destruct fmt as [|d fmt]; [injection E as <-; exists e; by rewrite app_nil_r|]. cbn [length] in Hm.
  destruct (Z.eqb_spec d 37) as [->|Hd]; [by apply Hchar; [lia|]|]. clear Hchar.
  assert (Hnum : forall b n args', (b = 10 \/ b = 16) ->
    (if decide (printable n) then (fun s => numeral b n ++ s) <$> render fmt args' else None) = Some text ->
    continues (do k <- u_itoa n (Z.of_nat (length pre)) b (1920 - Z.of_nat (length pre));
               printf_from fmt args' (Z.of_nat (length pre) + k)) pre text e).
  { intros b n args' Hb E'. destruct (decide (printable n)) as [Hn|]; [|done].
    destruct (render fmt args') as [r|] eqn:Er; [|done]. injection E' as <-. rewrite length_app in Hfit.
    apply continues_number; try done. intros e2 Hl2. apply (Hnext _ _ fmt args'); try done; lia. }
  destruct (Z.eqb_spec d 100) as [->|Hd1]; cbn [orb] in E; [destruct args as [|[n|s] args]; [done|by apply Hnum; [left|]|done]|].
  destruct (Z.eqb_spec d 120) as [->|Hd2]; [destruct args as [|[n|s] args]; [done|by apply Hnum; [right|]|done]|].
  destruct (Z.eqb_spec d 115) as [->|Hd3]; [|apply IH; [lia|done|lia|lia]].
  destruct args as [|[n|s] args]; [done|done|]. destruct (strlen s) as [len|] eqn:El; [|done].
  destruct (render fmt args) as [r|] eqn:Er; [|done]. injection E as <-. rewrite length_app in Hfit.
  apply continues_string; [lia|unfold TERMINAL_RESOLUTION; lia|]. intros e2 Hl2. apply (Hnext _ _ fmt args); try done; lia.
Qed.

Lemma printf_renders f fmt args text string_ :
  cstr f fmt -> render fmt args = Some text -> length string_ = 1921%nat -> Z.of_nat (length text) <= TERMINAL_RESOLUTION ->
  printf f args string_ = Ok text.
Proof.
  intros Hf E Hlen Hfit. unfold printf, bind_, lift_opt. rewrite (strlen_cstr _ _ Hf), Nat2Z.id.
  destruct Hf as [_ [rest ->]]. rewrite take_app_length.
  destruct (printf_from_renders (length fmt) fmt args text [] string_) as (e' & E' & _); try done.
  change (Z.of_nat (length [])) with 0 in E'. cbn [app] in E'. rewrite E'. by rewrite Nat2Z.id, take_app_length.
Qed.

(** ** Properties *)

(** C35: [kprintf] refines the renderer: after setting the console up if it
    was not, it does exactly what printing the rendered text character by
    character does, whatever characters, numbers and strings the format
    mixes. *)
Theorem kprintf_prints_rendering f fmt args text tmp t :
  cstr f fmt -> render fmt args = Some text -> length tmp = 20%nat ->
  kprintf f args tmp t =
    (do init <- get_ is_initialized; (when negb init then_ terminal_init) ;;; puts text) t.
Proof.
  intros Hf E Hlen. unfold kprintf. apply bind_ext. intros init t1. apply bind_ext. intros _ t2.
  unfold bind_ at 1, lift_opt. rewrite (strlen_cstr _ _ Hf), Nat2Z.id.
  destruct Hf as [_ [rest ->]]. rewrite take_app_length. by apply (kprintf_from_renders (length fmt) fmt args).
Qed.

(** "n=%d, %x: %s 100%%" *)
Definition demo_format : list Z := keys "n=%d, %x: %s 100%%".
Definition demo_args : list va_arg := [VInt (-42); VInt 48879; VStr (keys "ok" ++ [0; 33])].

Lemma kprintf_prints_rendering_witness : kprintf (demo_format ++ [0]) demo_args (replicate 20 7) demo_term =
  puts (keys "n=-42, BEEF: ok 100%") demo_term.
Proof.
  rewrite (kprintf_prints_rendering (demo_format ++ [0]) demo_format demo_args (keys "n=-42, BEEF: ok 100%")); [reflexivity| |reflexivity|reflexivity].
  split; [apply (bool_decide_unpack _); vm_compute; done|by exists []].
Defined.

(** C36: [printf] refines the same renderer: whenever the rendered text fits
    the 1920 characters of its array, it writes exactly that text and never
    stores outside the array. *)
Theorem printf_writes_rendering f fmt args text string_ :
  cstr f fmt -> render fmt args = Some text -> length string_ = 1921%nat -> Z.of_nat (length text) <= TERMINAL_RESOLUTION ->
  printf f args string_ = Ok text.
Proof. apply printf_renders. Qed.

Lemma printf_writes_rendering_witness : printf (demo_format ++ [0]) demo_args local_string = Ok (keys "n=-42, BEEF: ok 100%").
Proof.
  apply (printf_writes_rendering (demo_format ++ [0]) demo_format demo_args); [|reflexivity|reflexivity|vm_compute; discriminate].
  split; [apply (bool_decide_unpack _); vm_compute; done|by exists []].
Defined.
