(* ===== verification/Programs.v ===== *)
(** * User programs ([src/src/initrd/bin/], [src/src/libc/stdio/readline.c])

    A program is an interaction tree: its nodes are the system calls it
    makes, in order, and what follows each answer.  The stubs of the C
    library put the arguments in registers and store ESI in the variable
    [errno] after every call, also when the call succeeds; reading the
    variable is an event too, answered by whoever answers the calls.  A
    shell never ends: its main loop is [ITree.iter]. *)

From ITree Require Import ITree.
From S2P Require Import Prelude Kmalloc Heap Klib Terminal Kprintf Uprintf.

#[local] Open Scope Z_scope.

(** The calls, with the bytes behind the pointers; a NULL path is [None].
    A call that ends the program or replaces it answers nothing. *)
Inductive sysE : Type -> Type :=
| Sys_exit (status : Z) : sysE void
| Sys_fork : sysE Z
| Sys_execve (path : option (list Z)) (argv : list (list Z)) : sysE Z
| Sys_waitpid (pid : Z) : sysE Z
| Sys_open (path : list Z) (flags : Z) : sysE Z
| Sys_close (fd : Z) : sysE Z
| Sys_read (fd size : Z) : sysE (Z * list Z)
| Sys_write (fd : Z) (data : list Z) : sysE Z
| Sys_remove (path : list Z) : sysE Z
| Sys_mkdir (path : list Z) (mode : Z) : sysE Z
| Sys_rmdir (path : list Z) : sysE Z
| Sys_readdir (fd : Z) : sysE (Z * list Z)
| Get_errno : sysE Z
| Undefined : sysE void.

Notation "'let!' x := t 'in' k" := (ITree.bind t (fun x => k))
  (at level 10, x name, t at level 100, k at level 200).
Notation "'let!' ' p := t 'in' k" := (ITree.bind t (fun x => let p := x in k))
  (at level 10, p pattern, t at level 100, k at level 200).
Notation "'sys!' x := e 'in' k" := (ITree.bind (ITree.trigger e) (fun x => k))
  (at level 10, x name, e at level 100, k at level 200).
Notation "t ;! k" := (ITree.bind t (fun _ => k)) (at level 199, right associativity).

Definition stdin : Z := 0.
Definition stdout : Z := 1.
Definition O_CREAT : Z := 1.
Definition O_RDONLY : Z := 2.
Definition O_WRONLY : Z := 4.
Definition O_DIRECTORY : Z := 16.
Definition MAX_ARGV : Z := 256.
Definition EEXIST : Z := 17.

Definition prog (A : Type) : Type := itree sysE A.

(** [exit(status)] and undefined behaviour: nothing follows. *)
Definition exit {A} (status : Z) : prog A := sys! v := Sys_exit status in match v : void with end.
Definition undefined {A} : prog A := sys! v := Undefined in match v : void with end.

(** A computation on the program's own memory; the allocator's only
    [panic] is its [exit(1)]. *)
Definition pure {A} (r : res A) : prog A :=
  match r with Ok a => Ret a | Panic _ => exit 1 | Fault => undefined | Hang => ITree.spin end.

Definition run_opt {A} (o : option A) : prog A := match o with Some a => Ret a | None => undefined end.

(** The characters of the string that starts where [s] does. *)
Definition c_string (s : list Z) : option (list Z) := n ← strlen s; Some (take (Z.to_nat n) s).

(** The literal [s], with its terminator. *)
Definition lit (s : string) : list Z := keys s ++ [0].
Definition line (s : string) : list Z := keys s ++ [10; 0].

(** [s] written over the start of the array [d]. *)
Definition overwrite (s d : list Z) : list Z := s ++ drop (length s) d.

Section programs.
Context {H : Type} `{!Allocator H}.
(** The content of local arrays, of a block fresh from [malloc] (by its
    address) and of a local variable that was not set. *)
Context (local_array : list Z) (fresh_block : Z -> list Z) (raw_int : Z).

(** ** printf, perror and readline *)

Definition print (fmt : list Z) (args : list va_arg) : prog unit :=
  let! text := pure (printf fmt args local_array) in
  sys! _ := Sys_write stdout text in Ret tt.

Definition perror (s : list Z) : prog unit :=
  sys! e := Get_errno in
  let! text := pure (Uprintf.perror s e local_array) in
  sys! _ := Sys_write stdout text in Ret tt.

(** The buffer (NULL when [read] fails) and its content; no prompt is
    [None]. *)
Definition readline (prompt : option (list Z)) (h : H) : prog (Z * list Z * H) :=
  let! ' (buffer, h) := pure (al_malloc (TERMINAL_MAX_LINE_LEN + 1) h) in
  if buffer =? 0 then perror (lit "readline failed to allocate buffer") ;! exit 1
  else
    match prompt with
    | Some s => let! text := run_opt (c_string s) in sys! _ := Sys_write stdout text in Ret tt
    | None => Ret tt
    end ;!
    sys! r := Sys_read stdin TERMINAL_MAX_LINE_LEN in
    let '(len, data) := r in
    if len <? 0 then Ret (0, [], h)
    else
      let! ' (_, content) := pure (arr_set len 0 (overwrite data (fresh_block buffer))) in
      Ret (buffer, content, h).

(** ** shell.c *)

(** The locals of [_parse_input]; [argv_idx] is the number of entries of
    [argv], each the index in [input] where an argument starts. *)
Record parse := mkParse { p_i : Z; p_start : Z; p_is_string : bool; p_argv : list Z }.

Definition parse_step (input_len : Z) (l : parse) : arr (parse + list Z) :=
  let '(mkParse i start is_string argv) := l in
  if (i <? input_len) && (Z.of_nat (length argv) <? MAX_ARGV - 1) then
    do c <- arr_get i;
    if (c =? 34) || is_string then
      if negb is_string then ret_ (inl (mkParse (i + 1) (start + 1) true argv))
      else if c =? 34 then arr_set i 32 ;;; ret_ (inl (mkParse (i + 1) start false argv))
      else ret_ (inl (mkParse (i + 1) start true argv))
    else if c =? 32 then arr_set i 0 ;;; ret_ (inl (mkParse (i + 1) (i + 1) is_string (argv ++ [start])))
    else if c =? 0 then ret_ (inr (argv ++ [start]))
    else ret_ (inl (mkParse (i + 1) start is_string argv))
  else ret_ (inr argv).

(** The entries of [argv] up to its NULL. *)
Definition _parse_input : arr (list Z) :=
  do input <- get_ (fun d => d);
  do len <- lift_opt (strlen input);
  let input_len := len + 1 in
  loop (S (Z.to_nat input_len)) (parse_step input_len) (mkParse 0 0 false []).

Definition _execute_program (input : list Z) (argv : list Z) : prog Z :=
  sys! p := Sys_fork in
  if p =? 0 then
    let! args := run_opt (mapM (fun a => c_string (drop (Z.to_nat a) input)) argv) in
    sys! r := Sys_execve (hd_error args) args in
    if r <? 0 then
      let! a := run_opt (hd_error argv) in
      print (lit "Failed to execute %s") [VStr (drop (Z.to_nat a) input)] ;!
      perror [0] ;!
      exit 1
    else Ret raw_int
  else sys! ret := Sys_waitpid p in Ret ret.

Definition _print_help : prog unit :=
  print (line "Basic user shell for TrytonOS:") [] ;!
  print (line "type '?' to print this message") [] ;!
  print (line "type '$' to get exit code of previous program") [].

Definition PROMPT : list Z := lit "# ".

(** One round of the main loop: [child_ret] and the heap. *)
Definition shell_round (l : Z * H) : prog ((Z * H) + void) :=
  let '(child_ret, h) := l in
  let! ' (input_line, content, h) := readline (Some PROMPT) h in
  if input_line =? 0 then perror [0] ;! Ret (inl (child_ret, h))
  else
    let! c := run_opt (hd_error content) in
    if c =? 0 then Ret (inl (child_ret, h))
    else if c =? 36 then print (line "Exit code: %d") [VInt child_ret] ;! Ret (inl (child_ret, h))
    else if c =? 63 then _print_help ;! Ret (inl (child_ret, h))
    else
      let! ' (argv, input) := pure (_parse_input content) in
      let! child_ret := _execute_program input argv in
      (if child_ret =? 139 then print (line "Segmentation fault") [] else Ret tt) ;!
      let! ' (_, h) := pure (al_free input_line h) in
      Ret (inl (child_ret, h)).

Definition shell_main (h : H) : prog void := ITree.iter shell_round (0, h).

(** ** The other programs

    [argv] holds the strings up to the NULL, which the kernel counts:
    [argc] is one more than their number.  [main] returns its status to the
    start-up code, which exits with it. *)

Definition argc (argv : list (list Z)) : Z := Z.of_nat (length argv) + 1.
Definition arg (argv : list (list Z)) (i : nat) : prog (list Z) := run_opt (argv !! i).
(** An argument as the path or the text of a call. *)
Definition arg_string (argv : list (list Z)) (i : nat) : prog (list Z) :=
  let! s := arg argv i in run_opt (c_string s).

Definition _start (main : prog Z) : prog void := let! status := main in exit status.

(** [printf("Ussage: ...", filename); exit(0);] *)
Definition _print_ussage {A} (fmt : list Z) (argv : list (list Z)) : prog A :=
  let! filename := arg argv 0 in print fmt [VStr filename] ;! exit 0.

(** [printf(...); perror(""); exit(errno);] *)
Definition fail_program {A} (fmt : list Z) (argv : list (list Z)) (is_ : list nat) : prog A :=
  let! args := run_opt (mapM (fun i => argv !! i) is_) in
  print fmt (VStr <$> args) ;!
  perror [0] ;!
  sys! e := Get_errno in exit e.

Definition CHUNK_SIZE : Z := 1024.

(** One round of the loop of cat: [buff] holds [read_len] new bytes. *)
Definition cat_round (fd : Z) (l : Z * list Z) : prog ((Z * list Z) + (Z * list Z)) :=
  let '(read_len, buff) := l in
  if read_len =? CHUNK_SIZE then
    let! ' (_, buff) := pure (arr_set CHUNK_SIZE 0 buff) in
    print (lit "%s") [VStr buff] ;!
    sys! r := Sys_read fd CHUNK_SIZE in
    Ret (inl (fst r, overwrite (snd r) buff))
  else Ret (inr (read_len, buff)).

Definition cat_main (buff : list Z) (argv : list (list Z)) : prog Z :=
  if argc argv <? 3 then _print_ussage (line "Ussage: %s [FILE]") argv
  else
    let! path := arg_string argv 1 in
    sys! fd := Sys_open path O_RDONLY in
    if fd <? 0 then fail_program (lit "%s: cannot access %s") argv [0; 1]%nat
    else
      sys! r := Sys_read fd CHUNK_SIZE in
      let! ' (read_len, buff) := ITree.iter (cat_round fd) (fst r, overwrite (snd r) buff) in
      let! ' (_, buff) := pure (arr_set read_len 0 buff) in
      print (lit "%s") [VStr buff] ;!
      sys! _ := Sys_close fd in
      Ret 0.

Definition echo_main (argv : list (list Z)) : prog Z :=
  if argc argv <? 3 then _print_ussage (keys "Ussage: %s " ++ [34] ++ keys "string" ++ [34; 10; 0]) argv
  else let! s := arg argv 1 in print (line "%s") [VStr s] ;! Ret 0.

Definition clear_main : prog Z :=
  sys! r := Sys_write stdout [COMM_START; COMM_TERM_CLR; COMM_END] in
  if r <? COMM_LEN then perror (lit "Failed to clear terminal") ;! (sys! e := Get_errno in exit e)
  else Ret 0.

(** [while (i < iter) i++;] *)
Definition _busy_wait (iter : Z) : prog unit :=
  ITree.iter (fun i => Ret (if i <? iter then inl (i + 1) else inr tt)) 0.

(** [for (i = 0; i < 4; i++)] *)
Definition four_times (body : prog unit) : prog unit := body ;! body ;! body ;! body.

Definition concurrency_main : prog Z :=
  sys! p := Sys_fork in
  (if p =? 0 then four_times (print (line "process 2") [] ;! _busy_wait 3000000)
   else
     sys! p2 := Sys_fork in
     if p2 =? 0 then four_times (print (line "process 3") [] ;! _busy_wait 3000000)
     else four_times (_busy_wait 3000000 ;! print (line "process 1") [])) ;!
  Ret 0.

Definition init_main : prog Z :=
  sys! pid := Sys_fork in
  (if pid =? 0 then
     sys! r := Sys_execve (Some (keys "/bin/shell")) [] in
     if r <? 0 then perror (lit "[ERROR]") ;! print (lit "Halting system") [] else Ret tt
   else sys! _ := Sys_waitpid pid in Ret tt) ;!
  Ret 0.

(** The loop of ls: the answer of the last [readdir]. *)
Definition ls_round (fd : Z) (r : Z * list Z) : prog ((Z * list Z) + Z) :=
  let '(readdir_ret, name) := r in
  if 0 <? readdir_ret then
    let! c := run_opt (hd_error name) in
    (if negb (c =? 0) then print (lit "%s ") [VStr name] else Ret tt) ;!
    sys! r := Sys_readdir fd in
    Ret (inl r)
  else Ret (inr readdir_ret).

Definition ls_main (argv : list (list Z)) : prog Z :=
  if argc argv <? 3 then _print_ussage (line "Ussage: %s [FILE]") argv
  else
    let! path := arg_string argv 1 in
    sys! fd := Sys_open path O_DIRECTORY in
    if fd <? 1 then fail_program (lit "%s: cannot access %s") argv [0; 1]%nat
    else
      sys! r := Sys_readdir fd in
      let! readdir_ret := ITree.iter (ls_round fd) r in
      sys! _ := Sys_close fd in
      if readdir_ret <? 0 then fail_program (lit "%s: %s") argv [0; 1]%nat
      else print [10; 0] [] ;! Ret 0.

Definition mkdir_main (argv : list (list Z)) : prog Z :=
  if argc argv <? 3 then _print_ussage (line "Ussage: %s [FILENAME]") argv
  else
    let! path := arg_string argv 1 in
    sys! r := Sys_mkdir path 0 in
    if r <? 0 then fail_program (lit "%s: failed to create directory %s") argv [0; 1]%nat else Ret 0.

Definition rm_main (argv : list (list Z)) : prog Z :=
  if argc argv <? 3 then _print_ussage (line "Ussage: %s [FILENAME]") argv
  else
    let! path := arg_string argv 1 in
    sys! r := Sys_remove path in
    if r <? 0 then fail_program (lit "%s: cannot access %s") argv [0; 1]%nat else Ret 0.

Definition rmdir_main (argv : list (list Z)) : prog Z :=
  if argc argv <? 3 then _print_ussage (line "Ussage: %s [FILENAME]") argv
  else
    let! path := arg_string argv 1 in
    sys! r := Sys_rmdir path in
    if r <? 0 then
      let! args := run_opt (mapM (fun i => argv !! i) [0; 1]%nat) in
      print (lit "%s: failed to remove %s") (VStr <$> args) ;!
      sys! e := Get_errno in
      (if e =? EEXIST then print (line ": Directory not empty") [] else perror [0]) ;!
      sys! e := Get_errno in exit e
    else Ret 0.

Definition touch_main (argv : list (list Z)) : prog Z :=
  if argc argv <? 3 then _print_ussage (line "Ussage: %s [FILENAME]") argv
  else
    let! path := arg_string argv 1 in
    sys! fd := Sys_open path (Z.lor O_RDONLY O_CREAT) in
    if fd <? 0 then fail_program (lit "%s: cannot access %s") argv [0; 1]%nat
    else sys! _ := Sys_close fd in Ret 0.

Definition write_to_main (argv : list (list Z)) : prog Z :=
  if argc argv <? 4 then _print_ussage (keys "Ussage: %s [file] " ++ [34] ++ keys "string" ++ [34; 10; 0]) argv
  else
    let! path := arg_string argv 1 in
    sys! fd := Sys_open path O_WRONLY in
    if fd <? 0 then fail_program (lit "Failed to open %s") argv [1]%nat
    else
      let! text := arg_string argv 2 in
      sys! r := Sys_write fd text in
      if r <? 0 then fail_program (lit "Failed to write to %s") argv [1]%nat
      else sys! _ := Sys_close fd in Ret 0.
End programs.
