(* ===== verification/ShellSpec.v ===== *)
(** * How the shell reads a command line

    [words] splits a line the way [_parse_input] does, as a function on the
    characters alone.  The routine works in place: what it leaves in the
    buffer and the pointers it hands out are read back as strings and
    compared with [words]. *)

From S2P Require Import Prelude Klib Terminal Kprintf Uprintf Kmalloc Heap Programs.

#[local] Open Scope Z_scope.

(** The argument read so far, as it stands in the buffer, and the number of
    quotes that opened a string in it: so many characters are dropped from
    its front.  A closing quote becomes a blank; a string that is not closed
    takes its argument along. *)
Fixpoint words_from (in_string : bool) (opened : nat) (cur : list Z) (s : list Z) : list (list Z) :=
  match s with
  | [] => if in_string then [] else [drop opened cur]
  | c :: s =>
      if in_string then words_from (negb (c =? 34)) opened (cur ++ [if c =? 34 then 32 else c]) s
      else if c =? 34 then words_from true (S opened) (cur ++ [c]) s
      else if c =? 32 then drop opened cur :: words_from false 0 [] s
      else words_from false opened (cur ++ [c]) s
  end.

(** At most 255 arguments. *)
Definition words (s : list Z) : list (list Z) := take 255 (words_from false 0 [] s).

(** The fields of a line between blanks. *)
Fixpoint fields_from (cur : list Z) (s : list Z) : list (list Z) :=
  match s with
  | [] => [cur]
  | c :: s => if c =? 32 then cur :: fields_from [] s else fields_from (cur ++ [c]) s
  end.
Definition fields : list Z -> list (list Z) := fields_from [].

Lemma words_fields s cur : 34 ∉ s -> words_from false 0 cur s = fields_from cur s.
Proof.
  revert cur. induction s as [|c s IH]; intros cur Hs; [done|]. apply not_elem_of_cons in Hs as [Hc Hs].
  cbn [words_from fields_from]. rewrite (proj2 (Z.eqb_neq c 34)) by done.
  destruct (c =? 32); [|by apply IH]. f_equal. by apply IH.
Qed.

(** A field that begins and ends with a quote loses the first and ends with
    a blank. *)
Lemma words_quoted cur s : 34 ∉ s -> words_from true 1 (34 :: cur) (s ++ [34]) = [cur ++ s ++ [32]].
Proof.
  revert cur. induction s as [|c s IH]; intros cur Hs; [done|]. apply not_elem_of_cons in Hs as [Hc Hs].
  cbn [words_from app]. rewrite (proj2 (Z.eqb_neq c 34)) by done. cbn [negb].
  change (34 :: cur ++ [c]) with (34 :: (cur ++ [c])). rewrite IH by done. by rewrite <- app_assoc.
Qed.

(** ** Strings in the buffer *)

Lemma c_string_app s rest : 0 ∉ s -> c_string (s ++ 0 :: rest) = Some s.
Proof.
  intros Hs. unfold c_string. rewrite (strlen_cstr _ s) by (split; [done|by exists rest]). cbn.
  by rewrite Nat2Z.id, take_app_length.
Qed.

Definition args_of (input : list Z) (argv : list Z) : option (list (list Z)) :=
  mapM (fun a => c_string (drop (Z.to_nat a) input)) argv.

Lemma args_of_cons input a argv s l : c_string (drop (Z.to_nat a) input) = Some s -> args_of input argv = Some l ->
  args_of input (a :: argv) = Some (s :: l).
Proof. intros E1 E2. unfold args_of in *. cbn. by rewrite E1, E2. Qed.

(** An argument that starts [k] characters into [cur]. *)
Lemma arg_string_at pre k cur rest : 0 ∉ cur -> (k <= length cur)%nat ->
  c_string (drop (Z.to_nat (Z.of_nat (length pre) + Z.of_nat k)) (pre ++ cur ++ 0 :: rest)) = Some (drop k cur).
Proof.
  intros H0 Hk. replace (Z.to_nat _) with (length pre + k)%nat by lia. rewrite <- drop_drop, drop_app_length.
  rewrite drop_app_le by lia. apply c_string_app. intros Hin. apply H0. by apply (subseteq_drop k).
Qed.

(** ** The loop *)

Lemma loop_next {S A B} fuel (body : A -> M S (A + B)) a s a' s' : body a s = Ok (inl a', s') ->
  loop (Datatypes.S fuel) body a s = loop fuel body a' s'.
Proof. intros E. cbn [loop]. by rewrite (bind_ok _ _ _ _ _ E). Qed.

Lemma loop_stop {S A B} fuel (body : A -> M S (A + B)) a s b s' : body a s = Ok (inr b, s') ->
  loop (Datatypes.S fuel) body a s = Ok (b, s').
Proof. intros E. cbn [loop]. by rewrite (bind_ok _ _ _ _ _ E). Qed.

(** One round, at the character [c] behind [pre ++ cur]. *)
Lemma parse_step_at len (q : bool) start argv p c tail : 0 <= len -> let i := Z.of_nat (length p) in
  i < len -> (length argv < 255)%nat ->
  parse_step len (mkParse i start q argv) (p ++ c :: tail) = Ok (
    if q then
      if c =? 34 then (inl (mkParse (i + 1) start false argv), p ++ 32 :: tail)
      else (inl (mkParse (i + 1) start true argv), p ++ c :: tail)
    else if c =? 34 then (inl (mkParse (i + 1) (start + 1) true argv), p ++ c :: tail)
    else if c =? 32 then (inl (mkParse (i + 1) (i + 1) false (argv ++ [start])), p ++ 0 :: tail)
    else if c =? 0 then (inr (argv ++ [start]), p ++ c :: tail)
    else (inl (mkParse (i + 1) start false argv), p ++ c :: tail)).
Proof.
  intros Hl i Hi Ha. unfold parse_step, MAX_ARGV. rewrite (proj2 (Z.ltb_lt i len)), (proj2 (Z.ltb_lt _ (256 - 1))) by lia.
  cbn [andb]. assert (Hg : (p ++ c :: tail) !! Z.to_nat i = Some c) by (unfold i; rewrite Nat2Z.id; apply list_lookup_middle; done).
  rewrite (bind_ok _ _ _ _ _ (arr_get_ok _ i c ltac:(lia) Hg)).
  assert (Hset : forall v, arr_set i v (p ++ c :: tail) = Ok (tt, p ++ v :: tail)).
  { intros v. rewrite arr_set_ok by (rewrite length_app; cbn; lia). unfold i. rewrite Nat2Z.id.
    rewrite insert_app_r_alt, Nat.sub_diag by lia. done. }
  destruct q; [rewrite orb_true_r|rewrite orb_false_r]; cbn [negb].
  - destruct (c =? 34); [|done]. by rewrite (bind_ok _ _ _ _ _ (Hset 32)).
  - destruct (c =? 34); [done|]. destruct (c =? 32); [by rewrite (bind_ok _ _ _ _ _ (Hset 0))|]. by destruct (c =? 0).
Qed.

Lemma parse_step_done len i start q argv d : len <= i \/ (255 <= length argv)%nat ->
  parse_step len (mkParse i start q argv) d = Ok (inr argv, d).
Proof.
  intros Hd. unfold parse_step, MAX_ARGV.
  destruct (Z.ltb_spec i len), (Z.ltb_spec (Z.of_nat (length argv)) (256 - 1)); try done. lia.
Qed.

(** From inside an argument: before it [pre], of it [cur], and [s] to
    come. *)
Definition parsed (pre rest : list Z) (offs : list Z) (n : nat) (ws : list (list Z)) (r : res (list Z * list Z)) : Prop :=
  exists offs' body, r = Ok (offs ++ offs', pre ++ body ++ 0 :: rest) /\ length body = n /\
    (length (offs ++ offs') <= 255)%nat /\ args_of (pre ++ body ++ 0 :: rest) offs' = Some (take (255 - length offs) ws).

Lemma parsed_stop pre rest offs body ws : (255 <= length offs <= 255)%nat \/ ws = [] /\ (length offs <= 255)%nat ->
  parsed pre rest offs (length body) ws (Ok (offs, pre ++ body ++ 0 :: rest)).
Proof.
  intros Ho. exists [], body. rewrite app_nil_r. split; [done|]. split; [done|]. split; [lia|].
  destruct Ho as [Ho|[-> _]]; [by replace (255 - length offs)%nat with O by lia|by rewrite take_nil].
Qed.

Lemma parsed_space pre rest offs cur k n ws r : 0 ∉ cur -> (k <= length cur)%nat -> (length offs < 255)%nat ->
  parsed (pre ++ cur ++ [0]) rest (offs ++ [Z.of_nat (length pre) + Z.of_nat k]) n ws r ->
  parsed pre rest offs (length cur + S n) (drop k cur :: ws) r.
Proof.
  intros Hc Hk Ho (offs' & body & -> & Hb & Hl & Ha).
  assert (E : (pre ++ cur ++ [0]) ++ body ++ 0 :: rest = pre ++ (cur ++ 0 :: body) ++ 0 :: rest) by by rewrite <- !app_assoc.
  exists ((Z.of_nat (length pre) + Z.of_nat k) :: offs'), (cur ++ 0 :: body). rewrite E in Ha |- *.
  rewrite <- (app_assoc offs) in Hl |- *. split; [done|]. split; [rewrite length_app; cbn; lia|]. split; [exact Hl|].
  rewrite length_app in Ha. cbn [length] in Ha. destruct (255 - length offs)%nat as [|m] eqn:Em; [lia|].
  replace (255 - (length offs + 1))%nat with m in Ha by lia. cbn [take]. apply args_of_cons; [|exact Ha].
  rewrite <- (app_assoc cur). by apply arg_string_at.
Qed.

(** The terminator ends the line, or an unfinished string. *)
Lemma parse_end q k cur pre offs rest fuel : 0 ∉ cur -> (k <= length cur)%nat -> (length offs < 255)%nat ->
  parsed pre rest offs (length cur) (words_from q k cur [])
    (loop (S (S fuel)) (parse_step (Z.of_nat (length pre + length cur) + 1))
      (mkParse (Z.of_nat (length (pre ++ cur))) (Z.of_nat (length pre) + Z.of_nat k) q offs) ((pre ++ cur) ++ 0 :: rest)).
Proof.
  intros Hcur Hk Ho. destruct q.
  - erewrite loop_next by (rewrite parse_step_at; [reflexivity|rewrite ?length_app; lia..]).
    change (0 =? 34) with false. erewrite loop_stop by (apply parse_step_done; rewrite length_app; lia).
    rewrite <- app_assoc. apply parsed_stop. right. split; [done|lia].
  - erewrite loop_stop by (rewrite parse_step_at; [reflexivity|rewrite ?length_app; lia..]).
    rewrite <- app_assoc. cbn [words_from]. exists [Z.of_nat (length pre) + Z.of_nat k], cur.
    split; [done|]. split; [done|]. split; [rewrite length_app; cbn; lia|].
    destruct (255 - length offs)%nat as [|m] eqn:Em; [lia|].
    cbn [take]. rewrite take_nil. by apply args_of_cons; [apply arg_string_at|].
Qed.

Lemma parse_from s : forall q k cur pre offs rest fuel,
  0 ∉ cur -> 0 ∉ s -> (k <= length cur)%nat -> (length offs <= 255)%nat -> (length s + 2 <= fuel)%nat ->
  parsed pre rest offs (length cur + length s) (words_from q k cur s)
    (loop fuel (parse_step (Z.of_nat (length pre + length cur + length s) + 1))
      (mkParse (Z.of_nat (length (pre ++ cur))) (Z.of_nat (length pre) + Z.of_nat k) q offs)
      (pre ++ cur ++ s ++ 0 :: rest)).
Proof.
  induction s as [|c s IH]; intros q k cur pre offs rest fuel Hcur Hs Hk Ho Hf;
    destruct fuel as [|fuel]; try (cbn in Hf; lia); (destruct (decide (length offs = 255%nat)) as [Hfull|Hfull];
    [rewrite (loop_stop _ _ _ _ offs (pre ++ cur ++ _)) by (apply parse_step_done; lia);
     rewrite (app_assoc cur _ (0 :: rest)), <- length_app; apply parsed_stop; lia|]).
  - destruct fuel as [|fuel]; [cbn in Hf; lia|]. cbn [app length]. rewrite app_assoc, !Nat.add_0_r. apply parse_end; [done|done|lia].
  - apply not_elem_of_cons in Hs as [Hc0 Hs].
    assert (Hnext : forall q' k' x f, (k' <= length (cur ++ [x]))%nat -> x <> 0 -> (length s + 2 <= f)%nat ->
      parsed pre rest offs (length cur + S (length s)) (words_from q' k' (cur ++ [x]) s)
        (loop f (parse_step (Z.of_nat (length pre + length cur + S (length s)) + 1))
          (mkParse (Z.of_nat (length (pre ++ cur)) + 1) (Z.of_nat (length pre) + Z.of_nat k') q' offs)
          ((pre ++ cur) ++ x :: s ++ 0 :: rest))).
    { intros q' k' x f Hk' Hx Hf'. specialize (IH q' k' (cur ++ [x]) pre offs rest f).
      replace (length (pre ++ cur ++ [x])) with (length pre + (length cur + 1))%nat in IH by (rewrite !length_app; cbn; lia).
      rewrite !length_app in IH |- *. cbn [length] in IH. rewrite <- !app_assoc in IH |- *. cbn [app] in IH.
      replace (length cur + S (length s))%nat with (length cur + 1 + length s)%nat by lia.
      replace (length pre + length cur + S (length s))%nat with (length pre + (length cur + 1) + length s)%nat by lia.
      replace (Z.of_nat (length pre + length cur) + 1) with (Z.of_nat (length pre + (length cur + 1))) by lia.
      apply IH; [|done|rewrite length_app in Hk'; cbn in Hk'; lia|done|done]. rewrite elem_of_app, list_elem_of_singleton. intros [?|?]; congruence. }
    cbn [app length]. rewrite app_assoc. cbn [words_from].
    assert (E := fun st => parse_step_at (Z.of_nat (length pre + length cur + S (length s)) + 1) q st offs (pre ++ cur) c
      (s ++ 0 :: rest) ltac:(lia) ltac:(rewrite length_app; lia) ltac:(lia)).
    destruct q.
    { destruct (Z.eqb_spec c 34) as [->|Hc]; erewrite loop_next by apply E; cbn [negb]; apply Hnext; try done; rewrite ?length_app; cbn in *; lia. }
    destruct (Z.eqb_spec c 34) as [->|Hc].
    { erewrite loop_next by apply E. replace (Z.of_nat (length pre) + Z.of_nat k + 1) with (Z.of_nat (length pre) + Z.of_nat (S k)) by lia.
      apply Hnext; try done; rewrite ?length_app; cbn in *; lia. }
    destruct (Z.eqb_spec c 32) as [->|Hc2].
    { erewrite loop_next by apply E. apply parsed_space; try done; [lia|].
      specialize (IH false 0%nat [] (pre ++ cur ++ [0]) (offs ++ [Z.of_nat (length pre) + Z.of_nat k]) rest fuel).
      rewrite app_nil_r, !length_app in IH. cbn [length app Z.of_nat] in IH. rewrite <- !app_assoc in IH |- *. cbn [app] in IH.
      rewrite length_app. replace (Z.of_nat (length pre + length cur) + 1) with (Z.of_nat (length pre + (length cur + 1)) + 0) by lia.
      replace (length pre + length cur + S (length s))%nat with (length pre + (length cur + 1) + 0 + length s)%nat by lia.
      rewrite <- (app_assoc cur) in IH. rewrite Z.add_0_r in IH |- *. cbn in Hf. apply IH; [apply not_elem_of_nil|done|lia|lia|lia]. }
    rewrite (proj2 (Z.eqb_neq c 0)) in E by done. erewrite loop_next by apply E.
    apply Hnext; try done; rewrite ?length_app; cbn in *; lia.
Qed.

Lemma parse_input_run line rest : 0 ∉ line -> exists argv body,
  _parse_input (line ++ 0 :: rest) = Ok (argv, body ++ 0 :: rest) /\ length body = length line /\
  (length argv <= 255)%nat /\ args_of (body ++ 0 :: rest) argv = Some (words line).
Proof.
  intros H0. unfold _parse_input, bind_ at 1, get_, bind_, lift_opt.
  rewrite (strlen_cstr _ line) by (split; [done|by exists rest]).
  destruct (parse_from line false 0 [] [] [] rest (S (Z.to_nat (Z.of_nat (length line) + 1))))
    as (argv & body & E & Hb & Hl & Ha); [apply not_elem_of_nil|done|cbn; lia..|].
  exists argv, body. by split; [exact E|].
Qed.

(** C14: [_parse_input] splits every line as [words] says: it stays inside
    the line it works on, hands out at most 255 arguments, and each, read
    from where its pointer shows, is the string expected.  Without quotes
    these are the fields between blanks. *)
Theorem parse_input_splits line rest : 0 ∉ line ->
  (exists argv body, _parse_input (line ++ 0 :: rest) = Ok (argv, body ++ 0 :: rest) /\ length body = length line /\
     (length argv <= 255)%nat /\ args_of (body ++ 0 :: rest) argv = Some (words line)) /\
  (34 ∉ line -> words line = take 255 (fields line)).
Proof. intros H0. split; [by apply parse_input_run|]. intros Hq. unfold words. by rewrite words_fields. Qed.

(** [write_to /a "b c"]: the second argument ends with a blank. *)
Definition demo_line : list Z := keys "write_to /a " ++ [34] ++ keys "b c" ++ [34].

Lemma parse_input_splits_witness : exists argv body, _parse_input (demo_line ++ [0; 7; 7]) = Ok (argv, body ++ [0; 7; 7]) /\
  args_of (body ++ [0; 7; 7]) argv = Some [keys "write_to"; keys "/a"; keys "b c "].
Proof.
  destruct (parse_input_splits demo_line [7; 7]) as [(argv & body & E & _ & _ & Ha) _];
    [apply (bool_decide_unpack _); vm_compute; done|]. exists argv, body. split; [exact E|exact Ha].
Defined.
