(* ===== verification/World.v ===== *)
(** * Programs and the kernel that answers them

    A small model of what a program sees of the rest of the system: who
    types what, how [fork] and [waitpid] answer, one open file.  Its answers
    are those of the kernel's routines: a read takes what is left of the file
    and at most the size asked for, and fails with EIO when nothing is left
    ([read_result] of [Vfs.v]); a write to the terminal takes everything; a
    call that succeeds leaves in [errno] whatever the caller had in ESI. *)

From ITree Require Import ITree ITreeFacts Events.State Events.StateFacts.
From S2P Require Import Prelude Klib Terminal Kprintf Uprintf Format Kmalloc Heap Programs ShellSpec.

#[local] Open Scope Z_scope.

(** What was typed ahead, a line for each read; the coming answers of [fork]
    and [waitpid]; the files and the one that is open, with its position;
    the text on the terminal; [errno]. *)
Record world := mkWorld {
  w_lines : list (list Z); w_forks : list Z; w_waits : list Z;
  w_files : list (list Z * list Z); w_open : option (list Z * Z);
  w_out : list Z; w_errno : Z }.

Definition put_lines v w := mkWorld v (w_forks w) (w_waits w) (w_files w) (w_open w) (w_out w) (w_errno w).
Definition put_forks v w := mkWorld (w_lines w) v (w_waits w) (w_files w) (w_open w) (w_out w) (w_errno w).
Definition put_waits v w := mkWorld (w_lines w) (w_forks w) v (w_files w) (w_open w) (w_out w) (w_errno w).
Definition put_files v w := mkWorld (w_lines w) (w_forks w) (w_waits w) v (w_open w) (w_out w) (w_errno w).
Definition put_open v w := mkWorld (w_lines w) (w_forks w) (w_waits w) (w_files w) v (w_out w) (w_errno w).
Definition put_out v w := mkWorld (w_lines w) (w_forks w) (w_waits w) (w_files w) (w_open w) v (w_errno w).
Definition put_errno v w := mkWorld (w_lines w) (w_forks w) (w_waits w) (w_files w) (w_open w) (w_out w) v.

(** How a run of a program ends. *)
Inductive outcome :=
| Exited (status : Z) | Replaced (path : option (list Z)) (argv : list (list Z)) | Blocked | Crashed.

Variant haltE : Type -> Type := Halt (o : outcome) (w : world) : haltE void.

Definition halt {A} (o : outcome) (w : world) : itree haltE (world * A) :=
  ITree.bind (ITree.trigger (Halt o w)) (fun v => match v : void with end).

Definition the_fd : Z := 2.

Section answers.
(** ESI when a call succeeds. *)
Context (esi : Z).

Definition says (text : list Z) (w : world) : world := put_errno esi (put_out (w_out w ++ text) w).
Definition fails {A} (e : Z) (r : A) (w : world) : itree haltE (world * A) := Ret (put_errno e w, r).
Definition succeeds {A} (r : A) (w : world) : itree haltE (world * A) := Ret (put_errno esi w, r).

Fixpoint find_file (path : list Z) (l : list (list Z * list Z)) : option (list Z) :=
  match l with
  | [] => None
  | (name, c) :: l => if decide (name = path) then Some c else find_file path l
  end.

(** The kernel of one program: fork and waitpid answer from the lists, the
    program waits for ever at the end of what was typed. *)
Definition kernel_answers T (e : sysE T) (w : world) : itree haltE (world * T) :=
  match e in sysE T return itree haltE (world * T) with
  | Sys_exit status => halt (Exited status) w
  | Sys_fork => match w_forks w with [] => halt Blocked w | p :: l => succeeds p (put_forks l w) end
  | Sys_execve path argv => halt (Replaced path argv) w
  | Sys_waitpid _ => match w_waits w with [] => halt Blocked w | r :: l => succeeds r (put_waits l w) end
  | Sys_open path _ =>
      match find_file path (w_files w) with
      | None => fails 2 (-1) w
      | Some c => succeeds the_fd (put_open (Some (c, 0)) w)
      end
  | Sys_close _ => succeeds 0 (put_open None w)
  | Sys_read fd size =>
      if fd =? stdin then
        match w_lines w with
        | [] => halt Blocked w
        | l :: ls => let d := take (Z.to_nat size) l in succeeds (Z.of_nat (length d), d) (put_lines ls w)
        end
      else
        match w_open w with
        | Some (c, pos) =>
            let d := take (Z.to_nat size) (drop (Z.to_nat pos) c) in
            if decide (d = []) then fails 5 (-1, []) w
            else succeeds (Z.of_nat (length d), d) (put_open (Some (c, pos + Z.of_nat (length d))) w)
        | None => fails 9 (-1, []) w
        end
  | Sys_write fd data =>
      if fd =? stdout then Ret (says data w, Z.of_nat (length data)) else fails 9 (-1) w
  | Sys_remove path =>
      match find_file path (w_files w) with
      | None => fails 2 (-1) w
      | Some _ => succeeds 0 (put_files (List.filter (fun f => negb (bool_decide (fst f = path))) (w_files w)) w)
      end
  | Sys_mkdir _ _ => fails 17 (-1) w
  | Sys_rmdir _ => fails 2 (-1) w
  | Sys_readdir _ => fails 9 (-1, []) w
  | Get_errno => Ret (w, w_errno w)
  | Undefined => halt Crashed w
  end.

Definition run {A} (p : prog A) (w : world) : itree haltE (world * A) := interp_state kernel_answers p w.

(** ** Rules *)

Lemma halt_bind {A C} o w (k : world * A -> itree haltE (world * C)) : ITree.bind (halt o w) k ≈ halt o w.
Proof.
  unfold halt. rewrite bind_bind. apply eqit_bind; [reflexivity|]. intros [].
Qed.

Lemma run_ret {A} (a : A) w : run (Ret a) w ≈ Ret (w, a).
Proof. unfold run. rewrite interp_state_ret. reflexivity. Qed.

Lemma run_bind {A C} (t : prog A) (k : A -> prog C) w :
  run (ITree.bind t k) w ≈ ITree.bind (run t w) (fun r => run (k (snd r)) (fst r)).
Proof. unfold run. rewrite interp_state_bind. reflexivity. Qed.

Lemma run_sys {A C} (e : sysE A) (k : A -> prog C) w :
  run (ITree.bind (ITree.trigger e) k) w ≈ ITree.bind (kernel_answers _ e w) (fun r => run (k (snd r)) (fst r)).
Proof. rewrite run_bind. unfold run at 1. rewrite interp_state_trigger. reflexivity. Qed.

(** A call that is answered. *)
Lemma run_answer {A C} (e : sysE A) (k : A -> prog C) w a w' :
  kernel_answers _ e w = Ret (w', a) -> run (ITree.bind (ITree.trigger e) k) w ≈ run (k a) w'.
Proof. intros E. rewrite run_sys, E, bind_ret_l. reflexivity. Qed.

(** A part that returns. *)
Lemma run_part {A C} (t : prog A) (k : A -> prog C) w a w' :
  run t w ≈ Ret (w', a) -> run (ITree.bind t k) w ≈ run (k a) w'.
Proof. intros E. rewrite run_bind, E, bind_ret_l. reflexivity. Qed.

Lemma run_front {A C} (t t' : prog A) (k : A -> prog C) w w' :
  run t w ≈ run t' w' -> run (ITree.bind t k) w ≈ run (ITree.bind t' k) w'.
Proof. intros E. rewrite !run_bind, E. reflexivity. Qed.

(** A call that is not. *)
Lemma run_halts {A C} (e : sysE A) (k : A -> prog C) w o w' :
  kernel_answers _ e w = halt o w' -> run (ITree.bind (ITree.trigger e) k) w ≈ halt o w'.
Proof. intros E. rewrite run_sys, E. apply halt_bind. Qed.

Lemma run_halted {A C} (t : prog A) (k : A -> prog C) w o w' :
  run t w ≈ halt o w' -> run (ITree.bind t k) w ≈ halt o w'.
Proof. intros E. rewrite run_bind, E. apply halt_bind. Qed.

Lemma run_exit {A} status w : run (exit (A := A) status) w ≈ halt (Exited status) w.
Proof. unfold exit. by rewrite (run_halts (Sys_exit status) _ w _ _ eq_refl). Qed.

Lemma run_crash {A} w : run (undefined (A := A)) w ≈ halt Crashed w.
Proof. unfold undefined. by rewrite (run_halts Undefined _ w _ _ eq_refl). Qed.

Lemma run_step {A C} (a : A) (k : A -> prog C) w : run (ITree.bind (Ret a) k) w ≈ run (k a) w.
Proof. unfold run. rewrite bind_ret_l. reflexivity. Qed.

Lemma run_iter {A C} (body : A -> prog (A + C)) a w :
  run (ITree.iter body a) w ≈ ITree.bind (run (body a) w) (fun r =>
    match snd r with inl a' => run (ITree.iter body a') (fst r) | inr c => Ret (fst r, c) end).
Proof.
  unfold run at 1. rewrite unfold_iter, interp_state_bind. apply eqit_bind; [reflexivity|].
  intros [w' [a'|c]]; cbn; [rewrite interp_state_tau, tau_eutt; reflexivity|apply run_ret].
Qed.

Lemma run_assoc {A C D} (t : prog A) (k : A -> prog C) (l : C -> prog D) w :
  run (ITree.bind (ITree.bind t k) l) w ≈ run (ITree.bind t (fun a => ITree.bind (k a) l)) w.
Proof. unfold run. rewrite bind_bind. reflexivity. Qed.

(** The first round, and the loop again. *)
Lemma run_unfold {A C} (body : A -> prog (A + C)) a w :
  run (ITree.iter body a) w ≈
  run (ITree.bind (body a) (fun r => match r with inl a' => ITree.iter body a' | inr c => Ret c end)) w.
Proof.
  rewrite run_iter, run_bind. apply eqit_bind; [reflexivity|]. intros [w' [a'|c]]; cbn; [reflexivity|].
  rewrite run_ret. reflexivity.
Qed.

(** A round that goes on, and one that is the last. *)
Lemma iter_goes_on {A C} (body : A -> prog (A + C)) a w a' w' :
  run (body a) w ≈ Ret (w', inl a') -> run (ITree.iter body a) w ≈ run (ITree.iter body a') w'.
Proof. intros E. rewrite run_iter, E, bind_ret_l. reflexivity. Qed.

Lemma iter_stops {A C} (body : A -> prog (A + C)) a w c w' :
  run (body a) w ≈ Ret (w', inr c) -> run (ITree.iter body a) w ≈ Ret (w', c).
Proof. intros E. rewrite run_iter, E, bind_ret_l. reflexivity. Qed.

Lemma iter_halts {A C} (body : A -> prog (A + C)) a w o w' :
  run (body a) w ≈ halt o w' -> run (ITree.iter body a) w ≈ halt o w'.
Proof. intros E. rewrite run_iter, E. apply halt_bind. Qed.

(** The waiting loop of [concurrency_test] ends. *)
Lemma run_busy_wait iter w : 0 <= iter -> run (_busy_wait iter) w ≈ Ret (w, tt).
Proof.
  intros Hi. unfold _busy_wait.
  assert (G : forall n i, 0 <= i -> iter - i = Z.of_nat n ->
    run (ITree.iter (fun i => Ret (if i <? iter then inl (i + 1) else inr tt)) i) w ≈ Ret (w, tt)).
  { induction n as [|n IH]; intros i H0 Hn.
    - apply iter_stops. rewrite (proj2 (Z.ltb_ge i iter)) by lia. apply run_ret.
    - erewrite iter_goes_on; [apply (IH (i + 1)); lia|]. rewrite (proj2 (Z.ltb_lt i iter)) by lia. apply run_ret. }
  apply (G (Z.to_nat iter)); lia.
Qed.

(** ** Output *)

Section output.
Context (local_array : list Z) (Hlocal : length local_array = 1921%nat).

(** What [printf] writes when the rendered text fits its array. *)
Lemma run_print f fmt args text w : cstr f fmt -> render fmt args = Some text ->
  Z.of_nat (length text) <= TERMINAL_RESOLUTION -> run (print local_array f args) w ≈ Ret (says text w, tt).
Proof.
  intros Hf E Hl. unfold print. rewrite (printf_renders f fmt args text local_array Hf E Hlocal Hl). cbn [pure].
  rewrite run_step, (run_answer (Sys_write stdout text) _ w _ _ eq_refl). apply run_ret.
Qed.

Lemma says_app s1 s2 w : says s2 (says s1 w) = says (s1 ++ s2) w.
Proof. unfold says, put_errno, put_out. cbn. by rewrite app_assoc. Qed.
End output.
End answers.
