(* ===== verification/CatSpec.v ===== *)
(** * What cat and rm do

    The loop of [cat] against the kernel's read: it returns, and what
    appears on the terminal is the content of the file, cut at a zero in
    each chunk.  What a program says about a call that failed, with [rm] for
    all that end in [fail_program]. *)

From ITree Require Import ITree ITreeFacts Events.State Events.StateFacts.
From S2P Require Import Prelude Klib Terminal Kprintf Uprintf Format Kmalloc Heap Programs ShellSpec World.

#[local] Open Scope Z_scope.

Fixpoint upto_nul (s : list Z) : list Z :=
  match s with [] => [] | c :: s => if c =? 0 then [] else c :: upto_nul s end.

(** The text of a file read in chunks. *)
Fixpoint cat_text (fuel : nat) (c : list Z) : list Z :=
  match fuel with
  | O => []
  | S fuel =>
      if decide (length (take 1024 c) = 1024%nat) then upto_nul (take 1024 c) ++ cat_text fuel (drop 1024 c)
      else upto_nul c
  end.

Lemma upto_nul_id s : 0 ∉ s -> upto_nul s = s.
Proof.
  induction s as [|c s IH]; [done|]. intros [Hc Hs]%not_elem_of_cons. cbn.
  rewrite (proj2 (Z.eqb_neq c 0)) by done. by rewrite IH.
Qed.

Lemma upto_nul_length s : (length (upto_nul s) <= length s)%nat.
Proof. induction s as [|c s IH]; cbn; [lia|]. destruct (c =? 0); cbn; lia. Qed.

Lemma strlen_upto_nul s t : strlen (s ++ 0 :: t) = Some (Z.of_nat (length (upto_nul s))) /\
  take (length (upto_nul s)) (s ++ 0 :: t) = upto_nul s.
Proof.
  induction s as [|c s [IH1 IH2]]; [done|]. cbn [app strlen upto_nul]. destruct (Z.eqb_spec c 0); [done|].
  rewrite IH1. cbn [length take]. split; [cbn; f_equal; lia|by rewrite IH2].
Qed.

(** A file without zeros is printed as it is. *)
Lemma cat_text_id fuel c : 0 ∉ c -> (length c < fuel)%nat -> cat_text fuel c = c.
Proof.
  revert c. induction fuel as [|fuel IH]; intros c Hc Hf; [lia|]. cbn [cat_text]. case_decide as Hd; [|by apply upto_nul_id].
  rewrite length_take in Hd. rewrite upto_nul_id, IH, take_drop; [done| | |].
  - intros Hin. by apply Hc, (subseteq_drop 1024).
  - rewrite length_drop. lia.
  - intros Hin. by apply Hc, (subseteq_take 1024).
Qed.

Section cat.
Context (esi : Z) (local_array : list Z) (Hlocal : length local_array = 1921%nat).

#[local] Abbreviation run := (run esi).

Lemma render_string s t : render (keys "%s") [VStr (s ++ 0 :: t)] = Some (upto_nul s).
Proof.
  destruct (strlen_upto_nul s t) as [E1 E2]. cbn [keys render]. cbn. rewrite E1. cbn. by rewrite app_nil_r, Nat2Z.id, E2.
Qed.

Lemma run_print_string s t w : (length s <= 1024)%nat ->
  run (print local_array (lit "%s") [VStr (s ++ 0 :: t)]) w ≈ Ret (says esi (upto_nul s) w, tt).
Proof.
  intros Hs. apply (run_print _ _ Hlocal _ (keys "%s")); [|apply render_string|].
  - split; [apply (bool_decide_unpack _); vm_compute; done|by exists []].
  - pose proof (upto_nul_length s). unfold TERMINAL_RESOLUTION. lia.
Qed.

(** The array of the loop, with [d] at its start and the terminator behind
    it. *)
Lemma terminate d buff : (length d <= 1024)%nat -> length buff = 1025%nat ->
  exists t, arr_set (Z.of_nat (length d)) 0 (overwrite d buff) = Ok (tt, d ++ 0 :: t) /\ length (d ++ 0 :: t) = 1025%nat.
Proof.
  intros Hd Hb. unfold overwrite. destruct (drop (length d) buff) as [|x t] eqn:E.
  { apply (f_equal length) in E. rewrite length_drop in E. cbn in E. lia. }
  assert (Hl : length (x :: t) = (1025 - length d)%nat) by (rewrite <- E, length_drop; lia). cbn in Hl.
  exists t. split; [|rewrite length_app; cbn; lia]. rewrite arr_set_ok by (rewrite length_app; cbn; lia).
  rewrite Nat2Z.id, insert_app_r_alt, Nat.sub_diag by lia. done.
Qed.

(** What changes while a program prints and reads a file. *)
Definition talks (text : list Z) (w w' : world) : Prop :=
  w_out w' = w_out w ++ text /\ w_lines w' = w_lines w /\ w_forks w' = w_forks w /\ w_waits w' = w_waits w /\
  w_files w' = w_files w.

(** [read] at position [pos] of the file [c], and its answer. *)
Definition read_at (c : list Z) (pos : Z) : list Z := take 1024 (drop (Z.to_nat pos) c).
Definition read_len (d : list Z) : Z := if decide (d = []) then -1 else Z.of_nat (length d).

Lemma read_len_full d : (length d <= 1024)%nat -> read_len d = CHUNK_SIZE <-> length d = 1024%nat.
Proof. unfold read_len, CHUNK_SIZE. intros Hd. case_decide as H; [subst; cbn|]; lia. Qed.

Lemma run_read {C} fd c pos w (k : Z * list Z -> prog C) : w_open w = Some (c, pos) -> fd <> 0 ->
  let d := read_at c pos in exists w', talks [] w w' /\ (d <> [] -> w_open w' = Some (c, pos + Z.of_nat (length d))) /\
  run (ITree.bind (ITree.trigger (Sys_read fd CHUNK_SIZE)) k) w ≈ run (k (read_len d, d)) w'.
Proof.
  intros Ho Hfd d. unfold read_len.
  assert (E : kernel_answers esi _ (Sys_read fd CHUNK_SIZE) w = if decide (d = []) then fails 5 (-1, []) w
    else succeeds esi (Z.of_nat (length d), d) (put_open (Some (c, pos + Z.of_nat (length d))) w)).
  { cbn [kernel_answers]. unfold stdin. rewrite (proj2 (Z.eqb_neq fd 0)), Ho by done. done. }
  case_decide as Hd; eexists; (split; [|split; [|apply (run_answer esi (Sys_read fd CHUNK_SIZE)); rewrite E; by rewrite ?Hd]]);
    try done; unfold talks; cbn; by rewrite app_nil_r.
Qed.

Lemma talks_app a b w1 w2 w3 : talks a w1 w2 -> talks b w2 w3 -> talks (a ++ b) w1 w3.
Proof. unfold talks. intros (-> & -> & -> & -> & ->) (-> & -> & -> & -> & ->). by rewrite app_assoc. Qed.

Lemma talks_says text w : talks text w (says esi text w).
Proof. done. Qed.

(** A full chunk is printed and the next one read. *)
Lemma cat_round_on fd d buff w t : length d = 1024%nat ->
  arr_set (Z.of_nat (length d)) 0 (overwrite d buff) = Ok (tt, d ++ 0 :: t) ->
  run (ITree.iter (cat_round local_array fd) (CHUNK_SIZE, overwrite d buff)) w ≈
  run (sys! r := Sys_read fd CHUNK_SIZE in ITree.iter (cat_round local_array fd) (fst r, overwrite (snd r) (d ++ 0 :: t)))
    (says esi (upto_nul d) w).
Proof.
  intros Hd Et. rewrite run_unfold. unfold cat_round at 1. rewrite Hd in *. change (Z.of_nat 1024) with CHUNK_SIZE in *.
  rewrite Z.eqb_refl, Et. cbn [pure]. rewrite run_assoc, run_step, run_assoc.
  rewrite (run_part esi _ _ _ tt (says esi (upto_nul d) w)) by (apply run_print_string; lia).
  rewrite run_assoc, !run_sys. apply eqit_bind; [reflexivity|]. intros [w' r]. cbn [fst snd].
  rewrite run_step. reflexivity.
Qed.

Lemma cat_round_last fd len buff w : len <> CHUNK_SIZE ->
  run (ITree.iter (cat_round local_array fd) (len, buff)) w ≈ Ret (w, (len, buff)).
Proof.
  intros Hl. apply iter_stops. unfold cat_round. rewrite (proj2 (Z.eqb_neq _ _)) by done. apply run_ret.
Qed.

(** The loop prints all full chunks and leaves the rest, [last], in the
    array. *)
Lemma cat_loop fuel : forall fd c pos buff w, w_open w = Some (c, pos) -> fd <> 0 -> 0 <= pos ->
  (length (drop (Z.to_nat pos) c) < fuel)%nat -> length buff = 1025%nat ->
  exists before last buff' w',
    run (sys! r := Sys_read fd CHUNK_SIZE in ITree.iter (cat_round local_array fd) (fst r, overwrite (snd r) buff)) w ≈
      Ret (w', (read_len last, overwrite last buff')) /\
    length buff' = 1025%nat /\ length last = (length (drop (Z.to_nat pos) c) mod 1024)%nat /\ talks before w w' /\
    before ++ upto_nul last = cat_text fuel (drop (Z.to_nat pos) c).
Proof.
  induction fuel as [|fuel IH]; intros fd c pos buff w Ho Hfd Hp Hf Hb; [lia|].
  set (d := read_at c pos). assert (Hd : (length d <= 1024)%nat) by (unfold d, read_at; rewrite length_take; lia).
  destruct (run_read fd c pos w (fun r => ITree.iter (cat_round local_array fd) (fst r, overwrite (snd r) buff)) Ho Hfd)
    as (w1 & Ht1 & Ho1 & E0). fold d in Ho1, E0. cbn [fst snd] in E0. cbn [cat_text]. fold (read_at c pos). fold d.
  destruct (terminate d buff Hd Hb) as (t & Et & Hl). case_decide as Hfull.
  - assert (Hdrop : drop (Z.to_nat (pos + Z.of_nat (length d))) c = drop 1024 (drop (Z.to_nat pos) c))
      by (rewrite drop_drop, Hfull; f_equal; lia).
    assert (Hlong : (1024 <= length (drop (Z.to_nat pos) c))%nat)
      by (unfold d, read_at in Hfull; rewrite length_take in Hfull; lia).
    destruct (IH fd c (pos + Z.of_nat (length d)) (d ++ 0 :: t) (says esi (upto_nul d) w1)) as (b & last & buff' & w' & E & Hb' & Hl' & Ht & Htext);
      [apply Ho1; intros Hn; by rewrite Hn in Hfull|done|lia|rewrite Hdrop, length_drop; lia|done|].
    exists (upto_nul d ++ b), last, buff', w'. rewrite (proj2 (read_len_full d Hd) Hfull) in E0.
    split; [rewrite E0, (cat_round_on _ _ _ _ t) by done; exact E|]. split; [done|]. split.
    { rewrite Hl', Hdrop, length_drop. replace (length (drop (Z.to_nat pos) c)) with (length (drop (Z.to_nat pos) c) - 1024 + 1 * 1024)%nat at 2 by lia.
      by rewrite Nat.Div0.mod_add. }
    split; [|rewrite <- app_assoc, Htext, Hdrop; done].
    by apply (talks_app [] _ _ _ _ Ht1), (talks_app _ _ _ _ _ (talks_says _ _)).
  - exists [], d, buff, w1. split; [rewrite E0; apply cat_round_last; by rewrite read_len_full|].
    unfold d, read_at in *. rewrite length_take in *. rewrite take_ge in * by lia.
    split; [done|]. split; [rewrite Nat.mod_small; lia|]. split; [exact Ht1|done].
Qed.

(** The start and the end of cat: a rest of the file is printed; after a
    last read that failed the terminator is stored in front of the array. *)
Lemma cat_run buff argv path content w arg0 : length buff = 1025%nat ->
  argv !! 0%nat = Some arg0 -> (x ← argv !! 1%nat; c_string x) = Some path -> find_file path (w_files w) = Some content ->
  exists w', talks (cat_text (S (length content)) content) w w' /\
    run (_start (cat_main local_array buff argv)) w ≈
      halt (if decide (length content mod 1024 = 0)%nat then Crashed else Exited 0) w'.
Proof.
  intros Hb H0 Hpath Hfile. destruct (argv !! 1%nat) as [x|] eqn:H1; [|done]. cbn in Hpath.
  set (w1 := put_errno esi (put_open (Some (content, 0)) w)).
  destruct (cat_loop (S (length content)) the_fd content 0 buff w1) as (before & last & buff' & w2 & E & Hb' & Hl & Ht & Htext);
    [done|done|done|change (Z.to_nat 0) with 0%nat; rewrite drop_0; lia|done|].
  change (Z.to_nat 0) with 0%nat in Hl, Htext. rewrite drop_0 in Hl, Htext.
  assert (Hl2 : (length last <= 1024)%nat) by (rewrite Hl; pose proof (Nat.mod_upper_bound (length content) 1024); lia).
  assert (Hrun : run (_start (cat_main local_array buff argv)) w ≈ run (ITree.bind (
      let! ' (_, buff) := pure (arr_set (read_len last) 0 (overwrite last buff')) in
      print local_array (lit "%s") [VStr buff] ;! sys! _ := Sys_close the_fd in Ret 0) exit) w2).
  { apply run_front. unfold cat_main, argc. assert (Hargc : (2 <= length argv)%nat) by (apply lookup_lt_Some in H1; lia).
    rewrite (proj2 (Z.ltb_ge _ 3)) by lia. unfold arg_string, arg. rewrite H1. cbn [run_opt].
    rewrite (run_part _ _ _ _ path w) by (rewrite run_step, Hpath; apply run_ret).
    rewrite (run_answer esi (Sys_open path O_RDONLY) _ w the_fd w1) by (cbn [kernel_answers]; by rewrite Hfile).
    change (the_fd <? 0) with false. cbv iota.
    etransitivity; [symmetry; apply (run_assoc esi (ITree.trigger _) (fun r => ITree.iter (cat_round local_array the_fd) (fst r, overwrite (snd r) buff)))|].
    rewrite (run_part _ _ _ _ _ _ E). reflexivity. }
  unfold read_len in Hrun. case_decide as Hlast; case_decide as Hmod;
    rewrite <- Hl in Hmod; try (by rewrite Hlast in Hmod).
  - exists w2. subst last. cbn [upto_nul] in Htext. rewrite app_nil_r in Htext. rewrite <- Htext. split; [exact Ht|].
    rewrite Hrun. apply run_halted, run_halted. apply run_crash.
  - by destruct last.
  - destruct (terminate last buff' Hl2 Hb') as (t & Et & _). exists (put_errno esi (put_open None (says esi (upto_nul last) w2))).
    split; [rewrite <- Htext; by apply (talks_app _ _ _ _ _ Ht)|]. rewrite Hrun, Et. cbn [pure].
    rewrite run_assoc, run_step, run_assoc, (run_part _ _ _ _ _ _ (run_print_string last t w2 Hl2)).
    rewrite run_assoc, (run_answer esi (Sys_close the_fd) _ _ 0 _ eq_refl), run_step. apply run_exit.
Qed.

(** ** The message of a failed call *)

Lemma strlen_c_string s n : c_string s = Some n -> strlen s = Some (Z.of_nat (length n)) /\ take (length n) s = n /\ 0 ∉ n.
Proof.
  unfold c_string. destruct (strlen s) as [k|] eqn:E; [|done]. cbn. intros [= <-].
  destruct (strlen_some _ _ E) as (name & [H0 [rest ->]] & ->). rewrite Nat2Z.id, take_app_length. by rewrite take_app_length.
Qed.

Definition error_text (e : Z) : list Z := keys (default EmptyString (errno_str !! Z.to_nat e)).

Lemma error_text_clean e : 0 ∉ error_text e /\ (length (error_text e) <= 100)%nat.
Proof.
  assert (H : Forall (fun m => 0 ∉ keys m /\ (length (keys m) <= 100)%nat) errno_str) by (apply (bool_decide_unpack _); vm_compute; done).
  rewrite Forall_forall in H. unfold error_text. destruct (errno_str !! Z.to_nat e) as [m|] eqn:E.
  - apply H. by eapply list_elem_of_lookup_2.
  - split; [apply not_elem_of_nil|cbn; lia].
Qed.

Lemma run_perror w : 0 <= w_errno w < 35 ->
  run (perror local_array [0]) w ≈ Ret (says esi (keys ": " ++ error_text (w_errno w) ++ [10]) w, tt).
Proof.
  intros He. destruct (error_text_clean (w_errno w)) as [H0 Hl]. unfold perror. rewrite (run_answer esi Get_errno _ w (w_errno w) w) by done.
  unfold Uprintf.perror, MAX_ERRNO_STR. rewrite (proj2 (Z.ltb_lt _ 35)), (proj2 (Z.leb_le 0 _)) by lia.
  destruct (lookup_lt_is_Some_2 errno_str (Z.to_nat (w_errno w))) as [m Hm]; [cbn; lia|].
  unfold error_text in *. rewrite Hm in *. cbn [default from_option id] in *.
  rewrite (printf_renders _ (keys "%s: %s" ++ [10]) _ (keys ": " ++ keys m ++ [10]) _); cycle 1.
  - split; [apply (bool_decide_unpack _); vm_compute; done|by exists []].
  - destruct (strlen_upto_nul (keys m) []) as [E1 E2]. rewrite upto_nul_id in E1, E2 by done.
    let f := eval vm_compute in (keys "%s: %s" ++ [10]) in change (keys "%s: %s" ++ [10]) with f.
    cbn -[keys]. rewrite E1. cbn -[keys]. by rewrite Nat2Z.id, E2.
  - exact Hlocal.
  - rewrite !length_app. change (length (keys ": ")) with 2%nat. change (length [10]) with 1%nat. unfold TERMINAL_RESOLUTION. lia.
  - cbn [pure]. rewrite run_step, (run_answer esi (Sys_write stdout _) _ w _ _ eq_refl). apply run_ret.
Qed.

(** The message and the status are those of the [errno] that [printf] left,
    not of the call that failed. *)
Lemma run_fail_program fmt f argv is_ args text w : 0 <= esi < 35 -> cstr fmt f -> mapM (fun i => argv !! i) is_ = Some args ->
  render f (VStr <$> args) = Some text -> Z.of_nat (length text) <= TERMINAL_RESOLUTION ->
  run (fail_program (A := Z) local_array fmt argv is_) w ≈
    halt (Exited esi) (says esi (text ++ keys ": " ++ error_text esi ++ [10]) w).
Proof.
  intros He Hf Hargs E Hl. unfold fail_program. rewrite Hargs. cbn [run_opt].
  rewrite run_step, (run_part _ _ _ _ _ _ (run_print _ _ Hlocal _ f _ text w Hf E Hl)).
  rewrite (run_part _ _ _ _ _ _ (run_perror (says esi text w) He)), says_app.
  set (w' := says esi _ w). rewrite (run_answer esi Get_errno _ w' esi w' eq_refl). apply run_exit.
Qed.

(** C15: cat with the name of a file it can open puts the content of the file
    on the terminal, read in chunks of 1024 bytes and each cut at its first
    zero; a file without zeros appears as it is.  It then returns 0, unless
    the length of the file is a multiple of 1024: the read that finds nothing
    left answers -1, and cat stores the terminator in front of its array. *)
Theorem cat_prints_file buff argv path content w arg0 : length buff = 1025%nat ->
  argv !! 0%nat = Some arg0 -> (x ← argv !! 1%nat; c_string x) = Some path -> find_file path (w_files w) = Some content ->
  exists w', run (_start (cat_main local_array buff argv)) w ≈
      halt (if decide (length content mod 1024 = 0)%nat then Crashed else Exited 0) w' /\
    w_out w' = w_out w ++ cat_text (S (length content)) content /\
    (0 ∉ content -> w_out w' = w_out w ++ content).
Proof.
  intros Hb H0 Hp Hf. destruct (cat_run buff argv path content w arg0 Hb H0 Hp Hf) as (w' & (Hout & _) & E).
  exists w'. split; [exact E|]. split; [exact Hout|]. intros Hc. rewrite Hout, cat_text_id; [done|done|lia].
Qed.

(** C16: rm of a file that does not exist says so and ends the program, but
    the error it names and the status it exits with are not those of the
    failed call (ENOENT): they come from the [errno] the call inside [printf]
    left, whatever ESI held then; with 0 the failure is reported as a
    success. *)
Theorem rm_reports_stale_error arg0 arg1 name path w : 0 <= esi < 35 ->
  c_string arg0 = Some name -> c_string arg1 = Some path -> find_file path (w_files w) = None ->
  Z.of_nat (length name + length path) <= 1800 ->
  run (_start (rm_main local_array [arg0; arg1])) w ≈ halt (Exited esi)
    (says esi (name ++ keys ": cannot access " ++ path ++ keys ": " ++ error_text esi ++ [10]) (put_errno 2 w)).
Proof.
  intros He Hn Hp Hf Hl. unfold _start. apply run_halted. unfold rm_main, argc. cbn [length]. change (Z.of_nat 2 + 1 <? 3) with false.
  cbv iota. rewrite (run_part _ _ _ _ path w) by (unfold arg_string, arg; cbn; rewrite run_step, Hp; apply run_ret).
  rewrite (run_answer esi (Sys_remove path) _ w (-1) (put_errno 2 w)) by (cbn [kernel_answers]; by rewrite Hf).
  cbn [Z.ltb Z.compare].
  destruct (strlen_c_string _ _ Hn) as (E1 & E2 & _), (strlen_c_string _ _ Hp) as (E3 & E4 & _).
  rewrite (run_fail_program _ (keys "%s: cannot access %s") [arg0; arg1] [0; 1]%nat [arg0; arg1] (name ++ keys ": cannot access " ++ path));
    [by rewrite <- !app_assoc|done|split; [apply (bool_decide_unpack _); vm_compute; done|by exists []]|done| |].
  - let f := eval vm_compute in (keys "%s: cannot access %s") in change (keys "%s: cannot access %s") with f.
    cbn -[keys]. rewrite E1, E3. cbn -[keys]. by rewrite !Nat2Z.id, E2, E4, app_nil_r.
  - rewrite !length_app. change (length (keys ": cannot access ")) with 16%nat. unfold TERMINAL_RESOLUTION. lia.
Qed.
End cat.

Definition motd : list Z := replicate 2500 97.
Definition motd_world : world := mkWorld [] [] [] [(keys "/motd", motd)] None (keys "# ") 0.

Definition page_world : world := mkWorld [] [] [] [(keys "/page", replicate 1024 98)] None [] 0.

Lemma cat_prints_file_witness :
  (exists w', World.run 5 (_start (cat_main local_string (replicate 1025 7) [lit "cat"; lit "/motd"])) motd_world ≈ halt (Exited 0) w' /\
     w_out w' = keys "# " ++ replicate 2500 97) /\
  (exists w', World.run 5 (_start (cat_main local_string (replicate 1025 7) [lit "cat"; lit "/page"])) page_world ≈ halt Crashed w' /\
     w_out w' = replicate 1024 98).
Proof.
  split.
  - destruct (cat_prints_file 5 local_string eq_refl (replicate 1025 7) [lit "cat"; lit "/motd"] (keys "/motd") motd motd_world
      (lit "cat") eq_refl eq_refl eq_refl eq_refl) as (w' & E & _ & Ht). exists w'. split; [exact E|].
    apply Ht. apply (bool_decide_unpack _). vm_compute. done.
  - destruct (cat_prints_file 5 local_string eq_refl (replicate 1025 7) [lit "cat"; lit "/page"] (keys "/page") (replicate 1024 98) page_world
      (lit "cat") eq_refl eq_refl eq_refl eq_refl) as (w' & E & _ & Ht). exists w'. split; [exact E|].
    apply Ht. apply (bool_decide_unpack _). vm_compute. done.
Defined.

Lemma rm_reports_stale_error_witness :
  World.run 0 (_start (rm_main local_string [lit "rm"; lit "/x"])) motd_world ≈ halt (Exited 0)
    (mkWorld [] [] [] [(keys "/motd", motd)] None (keys "# rm: cannot access /x: " ++ [10]) 0).
Proof.
  rewrite (rm_reports_stale_error 0 local_string eq_refl (lit "rm") (lit "/x") (keys "rm") (keys "/x") motd_world);
    [reflexivity|lia|reflexivity|reflexivity|reflexivity|vm_compute; discriminate].
Defined.
