(* ===== verification/SessionSpec.v ===== *)
(** * A session with the shell

    The shell against what a user types: a prompt for every line, the answer
    each line gets, and the program a command line starts.  The heap is any
    allocator that keeps its contract. *)

From ITree Require Import ITree ITreeFacts Events.State Events.StateFacts.
From S2P Require Import Prelude Klib Terminal Kprintf Uprintf Format Kmalloc Heap Umalloc UmallocSpec Programs ShellSpec World.

#[local] Open Scope Z_scope.

(** A line that starts a program. *)
Definition is_command (l : list Z) : bool := match l with [] => false | c :: _ => negb (c =? 36) && negb (c =? 63) end.

Definition newline (s : string) : list Z := keys s ++ [10].

Definition help_text : list Z :=
  newline "Basic user shell for TrytonOS:" ++ newline "type '?' to print this message" ++
  newline "type '$' to get exit code of previous program".

(** The answer to a line: [last] is the exit code of the last program,
    [status] that of the program the line starts. *)
Definition reply (last : Z) (l : list Z) (status : Z) : list Z :=
  match l with
  | [] => []
  | c :: _ =>
      if c =? 36 then keys "Exit code: " ++ numeral 10 last ++ [10]
      else if c =? 63 then help_text
      else if status =? 139 then newline "Segmentation fault" else []
  end.

Definition next_code (last : Z) (l : list Z) (status : Z) : Z := if is_command l then status else last.

(** What was typed, the process a command ran in and its exit code. *)
Record entry := mkEntry { typed : list Z; pid : Z; status : Z }.

Fixpoint transcript (last : Z) (s : list entry) : list Z :=
  match s with
  | [] => []
  | e :: s => keys "# " ++ reply last (typed e) (status e) ++ transcript (next_code last (typed e) (status e)) s
  end.

Fixpoint last_code (last : Z) (s : list entry) : Z :=
  match s with [] => last | e :: s => last_code (next_code last (typed e) (status e)) s end.

(** The answers the commands of a session get. *)
Definition commands (s : list entry) : list entry := List.filter (fun e => is_command (typed e)) s.

(** What a keyboard can type, and a process that is not the child. *)
Definition typed_ok (l : list Z) : Prop := 0 ∉ l /\ (length l <= 1920)%nat.
Definition entry_ok (e : entry) : Prop := typed_ok (typed e) /\ pid e <> 0 /\ printable (status e).

#[global] Instance typed_ok_dec l : Decision (typed_ok l).
Proof. unfold typed_ok. apply _. Defined.
#[global] Instance entry_ok_dec e : Decision (entry_ok e).
Proof. unfold entry_ok. apply _. Defined.

Section session.
Context {H : Type} `{!Allocator H}.
Context (esi : Z) (local_array : list Z) (fresh_block : Z -> list Z) (raw_int : Z).
Context (Hlocal : length local_array = 1921%nat) (Hfresh : forall p, length (fresh_block p) = 1921%nat).

#[local] Abbreviation run := (run esi).
#[local] Abbreviation round := (shell_round local_array fresh_block raw_int).

(** After a line was read. *)
Definition after_line (ls : list (list Z)) (w : world) : world := put_errno esi (put_lines ls (says esi (keys "# ") w)).

Lemma run_prompt {C} (k : unit -> prog C) w :
  run (ITree.bind (match Some PROMPT with
    | Some s => let! text := run_opt (c_string s) in sys! _ := Sys_write stdout text in Ret tt
    | None => Ret tt end) k) w ≈ run (k tt) (says esi (keys "# ") w).
Proof.
  apply run_part. change (c_string PROMPT) with (Some (keys "# ")). cbn [run_opt].
  rewrite run_step, (run_answer esi (Sys_write stdout (keys "# ")) _ _ _ _ eq_refl). apply run_ret.
Qed.

(** A buffer of its own for every line. *)
Lemma run_readline h A m l ls w : al_rep h A -> 0 <= m -> m + 1959 < 2 ^ 29 -> al_room h (m + 1959) ->
  w_lines w = l :: ls -> typed_ok l -> exists p z h' t,
    run (readline local_array fresh_block (Some PROMPT) h) w ≈ Ret (after_line ls w, (p, l ++ 0 :: t, h')) /\
    p <> 0 /\ al_rep h' (<[p := z]> A) /\ al_room h' m.
Proof.
  intros Hr Hm Hlt Hroom Hls [Hl0 Hl].
  assert (Hr1 := al_malloc_wp h A 1921 Hr ltac:(lia) (al_room_down h 1921 (m + 1959) ltac:(lia) ltac:(lia) Hlt Hroom)).
  assert (Hr2 := al_malloc_room h A 1921 m Hr ltac:(lia) Hm ltac:(lia) ltac:(by replace (1921 + m + 38) with (m + 1959) by lia)).
  destruct (wp_run _ _ _ Hr1) as (p & h' & E & z & Hp & _ & _ & Hr'). unfold wp in Hr2. rewrite E in Hr2.
  destruct (drop (length l) (fresh_block p)) as [|x t] eqn:Ed.
  { apply (f_equal length) in Ed. rewrite length_drop, Hfresh in Ed. cbn in Ed. lia. }
  exists p, z, h', t. split; [|done]. unfold readline, TERMINAL_MAX_LINE_LEN. change (1920 + 1) with 1921.
  rewrite E. cbn [pure]. rewrite run_step, (proj2 (Z.eqb_neq p 0)), run_prompt by done.
  rewrite (run_answer esi (Sys_read stdin 1920) _ _ (Z.of_nat (length l), l) (after_line ls w)).
  2: { cbn [kernel_answers]. change (stdin =? stdin) with true. cbv iota. cbn [w_lines says put_errno put_out]. rewrite Hls.
       rewrite take_ge by lia. done. }
  rewrite (proj2 (Z.ltb_ge _ 0)) by lia. unfold overwrite. rewrite Ed.
  rewrite arr_set_ok by (rewrite length_app; cbn; lia). cbn [pure]. rewrite run_step, Nat2Z.id, insert_app_r_alt, Nat.sub_diag by lia.
  apply run_ret.
Qed.

(** At the end of what was typed the shell waits. *)
Lemma run_readline_blocks h A w : al_rep h A -> al_room h 1921 -> w_lines w = [] ->
  run (readline local_array fresh_block (Some PROMPT) h) w ≈ halt Blocked (says esi (keys "# ") w).
Proof.
  intros Hr Hroom Hls. destruct (wp_run _ _ _ (al_malloc_wp h A 1921 Hr ltac:(lia) Hroom)) as (p & h' & E & z & Hp & _).
  unfold readline, TERMINAL_MAX_LINE_LEN. change (1920 + 1) with 1921.
  rewrite E. cbn [pure]. rewrite run_step, (proj2 (Z.eqb_neq p 0)), run_prompt by done.
  apply run_halts. cbn [kernel_answers]. change (stdin =? stdin) with true. cbv iota. cbn [w_lines says put_errno put_out]. by rewrite Hls.
Qed.

(** ** The answers *)

Lemma cstr_lit s : 0 ∉ keys s -> cstr (lit s) (keys s).
Proof. intros Hs. split; [done|by exists []]. Qed.

Lemma cstr_line s : 0 ∉ keys s -> cstr (line s) (newline s).
Proof.
  intros Hs. split; [unfold newline; rewrite elem_of_app, list_elem_of_singleton; by intros [?|?]|].
  exists []. unfold line, newline. by rewrite <- app_assoc.
Qed.

Lemma run_text s w : render (newline s) [] = Some (newline s) -> bool_decide (0 ∉ keys s) = true ->
  Z.of_nat (length (newline s)) <= 1920 -> run (print local_array (line s) []) w ≈ Ret (says esi (newline s) w, tt).
Proof.
  intros E H0 Hl. apply (run_print _ _ Hlocal _ (newline s)); [by apply cstr_line, (bool_decide_eq_true_1 _)|exact E|exact Hl].
Qed.

Lemma run_help w : run (_print_help local_array) w ≈ Ret (says esi help_text w, tt).
Proof.
  unfold _print_help. rewrite (run_part _ _ _ _ _ _ (run_text "Basic user shell for TrytonOS:" w eq_refl eq_refl ltac:(vm_compute; discriminate))).
  rewrite (run_part _ _ _ _ _ _ (run_text "type '?' to print this message" _ eq_refl eq_refl ltac:(vm_compute; discriminate))).
  rewrite (run_text "type '$' to get exit code of previous program" _ eq_refl eq_refl ltac:(vm_compute; discriminate)).
  unfold help_text. by rewrite !says_app.
Qed.

Lemma run_exit_code n w : printable n ->
  run (print local_array (line "Exit code: %d") [VInt n]) w ≈ Ret (says esi (keys "Exit code: " ++ numeral 10 n ++ [10]) w, tt).
Proof.
  intros Hn. apply (run_print _ _ Hlocal _ (newline "Exit code: %d")).
  - apply cstr_line, (bool_decide_eq_true_1 _). vm_compute. done.
  - let f := eval vm_compute in (newline "Exit code: %d") in change (newline "Exit code: %d") with f.
    let f := eval vm_compute in (keys "Exit code: ") in change (keys "Exit code: ") with f.
    cbn -[numeral decide]. rewrite decide_True by done. reflexivity.
  - rewrite !length_app. destruct (itoa_numeral 10 n (replicate 20 0) ltac:(lia) Hn eq_refl) as (rest & _ & Hl & _).
    rewrite length_app in Hl. cbn [length] in Hl. unfold TERMINAL_RESOLUTION. cbn. lia.
Qed.

(** ** A round of the main loop *)

(** The world after a line [l] whose reply is [text]. *)
Definition after_reply (text : list Z) (ls : list (list Z)) (fs ws : list Z) (w : world) : world :=
  mkWorld ls fs ws (w_files w) (w_open w) (w_out w ++ keys "# " ++ text) esi.

Lemma after_reply_says text ls w :
  says esi text (after_line ls w) = after_reply text ls (w_forks w) (w_waits w) w.
Proof. unfold after_line, says, after_reply, put_errno, put_lines, put_out. cbn [w_lines w_forks w_waits w_files w_open w_out]. by rewrite <- app_assoc. Qed.

Lemma after_reply_silent ls w : after_line ls w = after_reply [] ls (w_forks w) (w_waits w) w.
Proof. unfold after_line, says, after_reply, put_errno, put_lines, put_out. cbn [w_lines w_forks w_waits w_files w_open w_out]. by rewrite app_nil_r. Qed.

(** A line the shell answers itself: the buffer is not given back. *)
Lemma round_own h A m l ls w last : al_rep h A -> 0 <= m -> m + 1959 < 2 ^ 29 -> al_room h (m + 1959) ->
  w_lines w = l :: ls -> typed_ok l -> is_command l = false -> printable last -> exists h' A',
    run (round (last, h)) w ≈ Ret (after_reply (reply last l 0) ls (w_forks w) (w_waits w) w, inl (last, h')) /\
    al_rep h' A' /\ al_room h' m.
Proof.
  intros Hr Hm Hlt Hroom Hls Hl Hc Hlast.
  destruct (run_readline h A m l ls w Hr Hm Hlt Hroom Hls Hl) as (p & z & h' & t & E & Hp & Hr' & Hroom').
  exists h', (<[p := z]> A). split; [|done]. unfold shell_round.
  rewrite (run_part _ _ _ _ _ _ E), (proj2 (Z.eqb_neq p 0)) by done.
  destruct l as [|c l]; cbn [app hd_error run_opt]; rewrite run_step.
  { rewrite after_reply_silent. apply run_ret. }
  cbn [is_command] in Hc. assert (Hc0 : c <> 0) by (intros ->; apply (proj1 Hl); by left).
  rewrite (proj2 (Z.eqb_neq c 0)) by done. cbn [reply].
  destruct (Z.eqb_spec c 36) as [->|H36].
  { rewrite (run_part _ _ _ _ _ _ (run_exit_code last _ Hlast)), run_ret, after_reply_says. done. }
  destruct (Z.eqb_spec c 63) as [->|H63]; [|done].
  rewrite (run_part _ _ _ _ _ _ (run_help _)), run_ret, after_reply_says. done.
Qed.

(** A command: the parent waits for the program, the child becomes it. *)
Lemma entry_served h A m l ls w last : al_rep h A -> 0 <= m -> m + 1959 < 2 ^ 29 -> al_room h (m + 1959) ->
  w_lines w = l :: ls -> typed_ok l -> is_command l = true -> exists h' p z t argv input,
    run (round (last, h)) w ≈ run (
      let! child_ret := _execute_program local_array raw_int input argv in
      (if child_ret =? 139 then print local_array (line "Segmentation fault") [] else Ret tt) ;!
      let! ' (_, h) := pure (al_free p h') in Ret (inl (child_ret, h))) (after_line ls w) /\
    _parse_input (l ++ 0 :: t) = Ok (argv, input) /\ args_of input argv = Some (words l) /\
    al_rep h' (<[p := z]> A) /\ al_room h' m.
Proof.
  intros Hr Hm Hlt Hroom Hls Hl Hc.
  destruct (run_readline h A m l ls w Hr Hm Hlt Hroom Hls Hl) as (p & z & h' & t & E & Hp & Hr' & Hroom').
  destruct (parse_input_run l t (proj1 Hl)) as (argv & body & Ep & _ & _ & Ha).
  exists h', p, z, t, argv, (body ++ 0 :: t). split; [|done]. unfold shell_round.
  rewrite (run_part _ _ _ _ _ _ E), (proj2 (Z.eqb_neq p 0)) by done.
  destruct l as [|c l]; [done|]. cbn [is_command] in Hc. apply andb_true_iff in Hc as [H36 H63].
  assert (Hc0 : c <> 0) by (intros ->; apply (proj1 Hl); by left).
  cbn [app hd_error run_opt]. rewrite run_step, (proj2 (Z.eqb_neq c 0)) by done.
  apply negb_true_iff in H36, H63. rewrite H36, H63. cbn [app] in Ep. rewrite Ep. cbn [pure]. rewrite run_step. reflexivity.
Qed.
(** The parent. *)
Lemma round_command h A m l ls p fs st ws w last : al_rep h A -> 0 <= m -> m + 1959 < 2 ^ 29 -> al_room h (m + 1959) ->
  w_lines w = l :: ls -> w_forks w = p :: fs -> w_waits w = st :: ws -> typed_ok l -> is_command l = true -> p <> 0 ->
  exists h' A',
    run (round (last, h)) w ≈ Ret (after_reply (reply last l st) ls fs ws w, inl (st, h')) /\ al_rep h' A' /\ al_room h' m.
Proof.
  intros Hr Hm Hlt Hroom Hls Hfs Hws Hl Hc Hp0.
  destruct (entry_served h A m l ls w last Hr Hm Hlt Hroom Hls Hl Hc) as (h' & p' & z & t & argv & input & E & _ & _ & Hr' & Hroom').
  assert (Hf := al_free_wp h' _ p' z Hr' ltac:(apply lookup_insert_eq)).
  assert (Hfr := al_free_room h' _ p' z m Hr' ltac:(apply lookup_insert_eq) Hroom').
  destruct (wp_run _ _ _ Hf) as ([] & h2 & Ef & Hr2). unfold wp in Hfr. rewrite Ef in Hfr.
  exists h2, (delete p' (<[p' := z]> A)). split; [|done]. rewrite E. clear E.
  rewrite (run_part _ _ _ _ st (put_errno esi (put_waits ws (put_errno esi (put_forks fs (after_line ls w)))))).
  2: { unfold _execute_program. rewrite (run_answer esi Sys_fork _ _ p (put_errno esi (put_forks fs (after_line ls w)))).
       2: { cbn [kernel_answers]. cbn [after_line w_forks put_errno put_lines says put_out]. by rewrite Hfs. }
       rewrite (proj2 (Z.eqb_neq p 0)) by done.
       rewrite (run_answer esi (Sys_waitpid p) _ _ st (put_errno esi (put_waits ws (put_errno esi (put_forks fs (after_line ls w)))))).
       2: { cbn [kernel_answers]. cbn [after_line w_waits put_errno put_forks put_lines says put_out]. by rewrite Hws. }
       apply run_ret. }
  destruct l as [|c l]; [done|]. cbn [is_command] in Hc. apply andb_true_iff in Hc as [H36 H63].
  apply negb_true_iff in H36, H63. cbn [reply]. rewrite H36, H63, Ef. cbn [pure].
  destruct (st =? 139).
  - rewrite (run_part _ _ _ _ _ _ (run_text "Segmentation fault" _ eq_refl eq_refl ltac:(vm_compute; discriminate))), run_step, run_ret.
    unfold after_reply. rewrite app_assoc. reflexivity.
  - rewrite run_step, run_step, run_ret. unfold after_reply. rewrite app_nil_r. reflexivity.
Qed.

(** The child. *)
Lemma round_child h A m l ls fs w last : al_rep h A -> 0 <= m -> m + 1959 < 2 ^ 29 -> al_room h (m + 1959) ->
  w_lines w = l :: ls -> w_forks w = 0 :: fs -> typed_ok l -> is_command l = true ->
  run (round (last, h)) w ≈ halt (Replaced (hd_error (words l)) (words l)) (after_reply [] ls fs (w_waits w) w).
Proof.
  intros Hr Hm Hlt Hroom Hls Hfs Hl Hc.
  destruct (entry_served h A m l ls w last Hr Hm Hlt Hroom Hls Hl Hc) as (h' & p' & z & t & argv & input & E & _ & Ha & _).
  rewrite E. apply run_halted. unfold _execute_program.
  rewrite (run_answer esi Sys_fork _ _ 0 (put_errno esi (put_forks fs (after_line ls w)))).
  2: { cbn [kernel_answers]. cbn [after_line w_forks put_errno put_lines says put_out]. by rewrite Hfs. }
  change (0 =? 0) with true. cbv iota. fold (args_of input argv). rewrite Ha. cbn [run_opt]. rewrite run_step.
  apply run_halts. cbn [kernel_answers]. unfold after_reply. rewrite app_nil_r. reflexivity.
Qed.

(** ** The session *)

Definition room_for (n : nat) : Z := Z.of_nat n * 1959.

(** The world in which the session [s], and then [more], is typed. *)
Definition before_session (s : list entry) (more : list (list Z)) (fs ws : list Z) (w : world) : Prop :=
  w_lines w = (typed <$> s) ++ more /\ w_forks w = (pid <$> commands s) ++ fs /\ w_waits w = (status <$> commands s) ++ ws.

Definition after_session (last : Z) (s : list entry) (more : list (list Z)) (fs ws : list Z) (w : world) : world :=
  mkWorld more fs ws (w_files w) (w_open w) (w_out w ++ transcript last s) (match s with [] => w_errno w | _ => esi end).

Lemma session_step last e s more fs ws w w1 : let text := reply last (typed e) (status e) in
  let last1 := next_code last (typed e) (status e) in
  w1 = after_reply text ((typed <$> s) ++ more) ((pid <$> commands s) ++ fs) ((status <$> commands s) ++ ws) w ->
  before_session s more fs ws w1 /\ after_session last1 s more fs ws w1 = after_session last (e :: s) more fs ws w.
Proof.
  intros text last1 ->. split; [done|]. unfold after_session, after_reply. cbn [w_files w_open w_out w_errno transcript].
  rewrite <- !app_assoc. by destruct s.
Qed.

Lemma shell_session_run s : forall last h A more fs ws w, al_rep h A -> room_for (S (length s)) < 2 ^ 29 ->
  al_room h (room_for (S (length s))) -> Forall entry_ok s -> printable last -> before_session s more fs ws w ->
  exists h' A', run (ITree.iter round (last, h)) w ≈
      run (ITree.iter round (last_code last s, h')) (after_session last s more fs ws w) /\
    al_rep h' A' /\ al_room h' (room_for 1) /\ printable (last_code last s).
Proof.
  induction s as [|e s IH]; intros last h A more fs ws w Hr Hlt Hroom Hs Hlast (H1 & H2 & H3).
  { exists h, A. split; [|done]. unfold after_session. cbn in H1, H2, H3 |- *. rewrite app_nil_r, <- H1, <- H2, <- H3. by destruct w. }
  apply Forall_cons in Hs as [(Hl & Hp & Hst) Hs]. cbn [length] in Hlt, Hroom.
  assert (Hsum : room_for (S (S (length s))) = room_for (S (length s)) + 1959) by (unfold room_for; lia).
  rewrite Hsum in Hlt, Hroom. assert (H0 : 0 <= room_for (S (length s))) by (unfold room_for; lia).
  assert (Hround : exists h1 A1, run (round (last, h)) w ≈
    Ret (after_reply (reply last (typed e) (status e)) ((typed <$> s) ++ more) ((pid <$> commands s) ++ fs) ((status <$> commands s) ++ ws) w,
      inl (next_code last (typed e) (status e), h1)) /\ al_rep h1 A1 /\ al_room h1 (room_for (S (length s)))).
  { unfold next_code, commands in *. cbn [List.filter] in H2, H3. destruct (is_command (typed e)) eqn:Ec.
    - by apply (round_command h A _ (typed e) _ (pid e) _ (status e) _ w last).
    - rewrite <- H2, <- H3.
      replace (reply last (typed e) (status e)) with (reply last (typed e) 0); [by apply (round_own h A)|].
      unfold is_command, reply in *. destruct (typed e) as [|c l]; [done|]. by destruct (c =? 36), (c =? 63). }
  destruct Hround as (h1 & A1 & E & Hr1 & Hroom1).
  destruct (session_step last e s more fs ws w _ eq_refl) as [Hb Ha].
  destruct (IH (next_code last (typed e) (status e)) h1 A1 more fs ws _ Hr1 ltac:(lia) Hroom1 Hs
      ltac:(unfold next_code; by destruct (is_command (typed e))) Hb) as (h2 & A2 & E2 & Hrest).
  exists h2, A2. split; [|exact Hrest]. rewrite (iter_goes_on _ _ _ _ _ _ E), E2, Ha. reflexivity.
Qed.

(** C13: the shell serves every session it has memory for: it prompts for
    each line and answers as [transcript] says (nothing to an empty line, the
    exit code of the last program to [$], the help to [?], a note when the
    program was killed), and waits for more.  In the process a command line
    is run in, the arguments of the program are the words of the line. *)
Theorem shell_serves_session h A s more fs ws w :
  al_rep h A -> room_for (S (length s)) < 2 ^ 29 -> al_room h (room_for (S (length s))) -> Forall entry_ok s ->
  (before_session s [] fs ws w ->
     run (shell_main local_array fresh_block raw_int h) w ≈
     halt Blocked (says esi (keys "# ") (after_session 0 s [] fs ws w))) /\
  (forall l, typed_ok l -> is_command l = true -> before_session s (l :: more) (0 :: fs) ws w -> exists w',
     run (shell_main local_array fresh_block raw_int h) w ≈ halt (Replaced (hd_error (words l)) (words l)) w').
Proof.
  intros Hr Hlt Hroom Hs. unfold shell_main. split.
  - intros Hb. destruct (shell_session_run s 0 h A [] fs ws w Hr Hlt Hroom Hs ltac:(done) Hb) as (h' & A' & E & Hr' & Hroom' & _).
    rewrite E. apply iter_halts, run_halted, (run_readline_blocks _ A'); [done| |done].
    by apply (al_room_down h' 1921 (room_for 1)).
  - intros l Hl Hc Hb.
    destruct (shell_session_run s 0 h A (l :: more) (0 :: fs) ws w Hr Hlt Hroom Hs ltac:(done) Hb) as (h' & A' & E & Hr' & Hroom' & _).
    eexists. rewrite E. by apply iter_halts, (round_child h' A' 0 l more fs).
Qed.
End session.

(** A session with a new shell: help is asked for, a program is killed and
    its exit code asked for. *)
Definition demo_session : list entry :=
  [mkEntry (keys "cat /etc/motd") 7 139; mkEntry (keys "$") 8 0].
Definition demo_world (more : list (list Z)) : world :=
  mkWorld ((typed <$> demo_session) ++ more) [7; 0] [139] [] None [] 0.

(** The heap of the shell, behind its break. *)
#[local] Instance demo_heap : Allocator (umem brk) := umalloc_allocator 0x8050000 (0x8050000 + DEFAULT_HEAP_SIZE) raw0 (fun _ p => p mod 251).

Lemma shell_serves_session_witness :
  World.run 5 (shell_main local_string (fun _ => local_string) 0 (new_program 0x8050000)) (mkWorld (typed <$> demo_session) [7] [139] [] None [] 0) ≈
    halt Blocked (mkWorld [] [] [] [] None (keys "# " ++ newline "Segmentation fault" ++ keys "# " ++ newline "Exit code: 139" ++ keys "# ") 5) /\
  exists w', World.run 5 (shell_main local_string (fun _ => local_string) 0 (new_program 0x8050000)) (demo_world [keys "rm /a"]) ≈
    halt (Replaced (Some (keys "rm")) [keys "rm"; keys "/a"]) w'.
Proof.
  assert (Hrep : al_rep (new_program 0x8050000) ∅)
    by (right; split; [by apply new_program_fresh|done]).
  assert (Hroom : al_room (new_program 0x8050000) (room_for 3)) by (vm_compute; discriminate).
  assert (Hs : Forall entry_ok demo_session) by (apply (bool_decide_unpack _); vm_compute; done).
  destruct (shell_serves_session 5 local_string (fun _ => local_string) 0 eq_refl (fun _ => eq_refl) (new_program 0x8050000) ∅
    demo_session [] [] [] (mkWorld (typed <$> demo_session) [7] [139] [] None [] 0) Hrep ltac:(done) Hroom Hs) as [H1 _].
  destruct (shell_serves_session 5 local_string (fun _ => local_string) 0 eq_refl (fun _ => eq_refl) (new_program 0x8050000) ∅
    demo_session [] [] [] (demo_world [keys "rm /a"]) Hrep ltac:(done) Hroom Hs) as [_ H2].
  split; [exact (H1 ltac:(done))|].
  destruct (H2 (keys "rm /a")) as [w' E]; [apply (bool_decide_unpack _); vm_compute; done|done|done|]. exists w'. exact E.
Defined.
